(* ===== verification/_CoqProject ===== *)
-Q . S2P
Prelude.v
GoInt.v
GoTime.v
GoFloat.v
GoText.v
GoEncoding.v
Interval.v
LinkStore.v
SecretBox.v
EncryptionKeys.v
SecretStore.v
EncryptionOps.v
EncryptionProtocol.v
OperatorCommand.v
GoURL.v
Destinations.v
AdminStore.v
OrgAI.v
Stepup.v
SsoAdmin.v
Credentials.v
AISettings.v
AIDecision.v
RequestBudget.v
Lifecycle.v
RateLimit.v
BookingWindow.v
Calendar.v
Settings.v
AutoDecline.v
FreeBusy.v
Scheduler.v
Buffer.v
FocusTime.v
Habits.v
Cursor.v
Teams.v
SmartSchedule.v
Compression.v
PerItem.v
BookingEngine.v
TeamAvailability.v
BookingRule.v
LinkHandlers.v
BookingHandlers.v
TeamHandlers.v
PersonalCalendars.v
ManagerEngine.v
ManagerHandlers.v
Analytics.v
MeetingBriefs.v
DailyRecap.v
