(* ===== verification/Prelude.v ===== *)
(** * Paceday backend: a verification library (root file)

    Paceday is a scheduling assistant; its backend is the Go code under
    src/backend/.  This library models four parts of it: what decides about
    time (the slots a booking link offers, what a public booking writes, focus
    blocks, habits, suggestions, moves, teams, declines, rate limits, the
    background scheduler); what a signed-in user keeps and reads (links, teams,
    rosters, personal calendars, free/busy, weekly figures, meeting briefs, the
    daily recap); what keeps stored
    secrets (sealed values, data keys, the passes over the tables, the
    operator's command, several backends against it); and who may change what
    leaves the deployment (administrators' proofs, the organisation's AI
    configuration, the destinations of a model provider's key).  It is a
    shallow embedding: functions for the Go functions, records for the structs,
    explicit state (the tables, a calendar provider) for the effects, step
    relations for what runs concurrently.

    ** Parts and how they interact

    The public HTTP handlers ([BookingHandlers]) read a link, ask the rule of
    what may be offered ([BookingRule]), which asks the booking engine
    ([BookingEngine]) for the slots of a grid ([BookingWindow]) that are free
    ([Interval]) for every host: the hosts' calendars ([Calendar]) are read on
    a bounded pool ([PerItem]), the rest from the tables ([LinkStore]).  A
    request counts first against a limiter ([RateLimit]) and runs under a
    budget ([RequestBudget]); a process stops by a sequence of phases
    ([Lifecycle]).  The engines of the signed-in user ([FocusTime], [Habits],
    [SmartSchedule], [Compression]) share the interval algebra, the windows of
    the settings ([Settings]) and the buffers around meetings ([Buffer]);
    [TeamAvailability] reads the teams ([Teams]).  [Scheduler] runs the focus
    engine for the users who asked for it, once per slot.

    The handlers of a signed-in user stand on the same tables: [LinkHandlers]
    and [TeamHandlers] change the links and the teams the booking flow reads;
    [ManagerHandlers] serves the rosters of [ManagerEngine], whose figures come
    from a member's own week or from [FreeBusy]; [AutoDecline] answers
    invitations by the windows of the settings; [PersonalCalendars] mirrors a
    feed into the work calendar with two pools of [PerItem]; [Analytics] sums a
    week over the focus blocks, the habits and the calendar.  [MeetingBriefs]
    keeps the connections to Slack and Notion and asks the client of
    [AIDecision] for a brief; [DailyRecap] reads the briefs, the focus blocks
    and the habits of a day and sends them through the same connection.

    A stored secret is an envelope bound to its column and row ([SecretBox]),
    sealed under a data key of a table that backends refresh and the operator
    rotates ([EncryptionKeys]).  [SecretStore] is the inventory of the columns,
    [EncryptionOps] the batch passes over them, [OperatorCommand] the command
    that runs the passes under the maintenance lock, [EncryptionProtocol] the
    backends that start, refresh and seal while it runs.

    A user's settings hold one key per provider ([AISettings]); an organisation
    has a configuration of its own, changed by an administrator who proves it
    ([OrgAI], over the tables of [AdminStore]) and used by the members who
    confirmed it.  [AIDecision] says which of the two a request runs on, and
    [Destinations] where its key may go.  The proof is a step-up with Google or
    Microsoft ([Stepup]); it authorises the organisation's single sign-on
    configuration too ([SsoAdmin]).  [Credentials] holds a user's Google,
    Outlook and Zoom credentials and renews them.

    ** Files

    - [Prelude]: this file; tactics, generic lemmas on lists and pairs.
    - [GoInt], [GoTime], [GoFloat], [GoText], [GoEncoding], [GoURL]: what the
      code uses of Go: 64-bit integers with their wrap-around and the saturation of
      durations; instants in nanoseconds with a zone of transitions, the civil
      calendar, [time.Date] as Go resolves it; [float64]; strings, runes,
      [Sscanf], and the RFC 3339 layout with its parser; base64 and decimal
      numbers; URLs.
    - [Interval]: engine/focus_time.go ([sortIntervals], [mergeIntervals],
      [subtractIntervals]), engine/booking.go ([overlapsMerged]).
    - [LinkStore]: storage/scheduling_links.go, storage/focus_blocks.go.  The
      tables are one record, [Tables]; each statement is a function on it, with
      its conditions, conflicts and order; an insert takes the generated key as
      an argument.
    - [RateLimit]: api/ratelimit_booking.go, api/ratelimit_detect.go.
    - [BookingWindow]: engine/booking_window.go.
    - [Calendar]: engine/cal_iface.go and the readers of event times; the class
      [CalendarOps] is the Go interface [calendarOps] over any provider state.
    - [Settings]: storage/settings.go (windows, auto-schedule columns).
    - [Scheduler]: scheduler/cron.go, engine/autoschedule.go; the class
      [CronLib] is the cron library.
    - [Buffer], [FocusTime], [Habits], [SmartSchedule], [Compression]:
      engine/buffer.go, engine/focus_time.go and focus_time_cleaner.go,
      engine/habits.go and storage/habits.go, engine/smart_schedule.go,
      engine/compression.go.  [Cursor] is the loop two of them share.
    - [Teams], [TeamAvailability]: storage/teams.go,
      engine/team_availability.go.
    - [PerItem]: internal/peritem/peritem.go, with [step] for the dispatcher
      and the workers of [Run] and [run_pool] for what callers see of it.
    - [BookingEngine], [BookingRule], [BookingHandlers]: engine/booking.go,
      api/booking_rule.go, api/handlers_booking.go.  The handlers are proved
      against the class [BookingFlow] (the Go interface of api/interfaces.go)
      and its laws [BookingFlowLaws] and [BookingStoreLaws];
      [BookingHandlers.engine_flow] is the engine as an instance and discharges
      both ([engine_flow_rule], [engine_flow_store]).
    - [RequestBudget], [Lifecycle]: internal/budget/budget.go,
      internal/lifecycle/lifecycle.go, one event per critical section or
      channel operation.
    - [SecretBox]: internal/secretbox/.  AES-GCM is the class [AEAD] with its
      laws [AEADLaws] (what it seals it opens, with the same key, nonce and
      associated data only); [Toy] is an instance that has them.  Random bytes
      are arguments.
    - [EncryptionKeys], [SecretStore], [EncryptionOps]:
      storage/encryption_keys.go, storage/secrets.go,
      storage/encryption_ops.go.  What other sessions commit between a SELECT
      and the UPDATEs of its rows is an argument of a pass.
    - [EncryptionProtocol], [OperatorCommand]: encryption.go, the exit of
      main.go, cmd/paceday-operator/encryption.go, config/encryption.go.  In
      the protocol backends start, refresh, seal and leave, operators keep,
      convert and destroy; the schema downgrade writes no encrypted value and
      is no step.
    - [AdminStore], [OrgAI]: storage/sso_stepup.go, storage/sso_providers.go,
      storage/sso_providers_secrets.go, storage/org_ai.go,
      api/handlers_org_ai.go.  They seal and open through the class [Vault];
      [AdminStore.process_vault] is [SecretBox] as an instance, and
      [process_vault_laws] discharges its laws.
    - [AISettings], [AIDecision], [Destinations]: storage/settings_ai.go,
      storage/settings_secrets.go, nlp/llm_factory.go, nlp/ai_source.go,
      nlp/destination.go, nlp/user_destination.go, the five clients of nlp/,
      config/llm_hosts.go, config/llm_user_destinations.go.  The network is a
      parameter: any function from a request to an answer.
    - [Stepup], [SsoAdmin]: domain/domain.go, config/idp.go, auth/stepup.go,
      api/handlers_sso_stepup.go; api/handlers_sso.go (the administration).  The
      providers with the verification of an ID token are the record [IdP], the
      cookie's JSON and HMAC the class [StateSeal].
    - [Credentials]: auth/token_store.go, auth/microsoft_oauth.go,
      auth/credential_lifecycle.go, storage/credentials.go.  The class
      [CredentialStore] is the Go interface [credentialStore]; its laws
      [CredentialStoreLaws] are discharged for Google, Outlook and Zoom
      ([google_laws], [microsoft_laws], [zoom_laws]).
    - [LinkHandlers], [TeamHandlers]: api/handlers_scheduling_links.go,
      api/handlers_teams.go, with the routes that reach them; the e-mail of an
      invitation is the text that is written.
    - [AutoDecline], [FreeBusy]: engine/auto_decline.go;
      engine/freebusy_service.go, calendar/freebusy.go, api/handlers_freebusy.go.
    - [PersonalCalendars]: storage/personal_calendars.go,
      engine/personal_blocker.go, api/handlers_personal.go.  The work calendar
      is a map of events, the two pools of a sync are runs of [PerItem].
    - [ManagerEngine], [ManagerHandlers]: storage/manager.go, engine/manager.go,
      api/handlers_manager.go.
    - [Analytics]: engine/analytics.go, storage/analytics.go,
      api/handlers_analytics.go.  The order [sort.Slice] leaves is a parameter
      with the law [sort_law].
    - [MeetingBriefs]: storage/integrations.go, storage/meeting_briefs.go,
      engine/meeting_brief_service.go, api/handlers_meeting_briefs.go,
      api/handlers_integrations.go.  What Slack, Notion and the model answer are
      parameters; the runes of a text are those of [GoText].
    - [DailyRecap]: engine/daily_recap.go, api/handlers_daily_recap.go, the
      recap columns of storage/settings.go and the run of main.go.

    ** What the theorems show

    - Bookings: requests served one after the other never double-book a link or
      exceed its uses; a booking is free for every host on all its links; what
      the listing shows can be booked; a request writes one row or nothing.
      Interleaved requests write one row per confirmation, and can double-book:
      the limit the specification of the feature records.
    - Time: wall clocks resolve as documented on days the clocks change; the
      grid is complete; merging is a normal form and free time is exact; times
      written to a calendar are read back.
    - Engines: what each one places is in free time, in its window, of the
      right length and not on top of itself; what is completed survives; the
      allowance holds; at most three suggestions.
    - Background work: between two clock changes of the user's zone no slot
      runs twice under any interleaving of schedulers and saves; the pool is
      bounded, runs no item twice and returns; calls keep within the budget;
      limiters allow exactly their limit; a client receives one answer; a
      shutdown ends within its phases, on every path.
    - Secrets: what is sealed opens, in its own place only; the key table keeps
      one active key; a pass overwrites no value another session wrote; convert
      and decrypt are inverse; rotation keeps every text; a destructive command
      runs under the lock and with no live backend, writes one record, and its
      success means what it prints; backends that write each heartbeat while their last
      one is live, whose sealed values reach the database within the 30
      seconds between the lease and the heartbeat's life, and that have drained
      when they remove their heartbeat, never leave a value under a deleted key.
    - Administrators: a change spends one proof, is stored whole or not at all,
      and every check made before it holds on what it is stored over; a member
      who reads as confirmed confirmed what is in force; a request on the
      organisation's configuration goes only where its member agreed to; a key
      leaves only for an approved destination, and no message shows one.
    - Proofs and credentials: a grant is issued to a caller whose own account
      administers the organisation's domain, and each configuration write that
      used one spends one; a request writes its own organisation's
      configuration only.  A rotating provider sees a refresh token once, a
      disconnection wins over a renewal that still asks its provider, and a
      loss means a refusal.
    - Handlers of the signed-in user: links, teams and rosters stay valid
      whoever asks and whatever fails; a request changes its caller's rows only;
      the figures of a user are shown to the owner of a team the user is on.
    - Reports and mirrors: a sync makes the work calendar show the feed; an
      invitation is declined exactly by the policy; the figures of a week
      account for what its calendar holds and stay in bounds.
    - Briefs: a brief shows no key whatever the provider answers, a refresh
      sends one request at most, to an approved destination, and writes nothing
      without a client; the searches are exact below their limits.
    - The recap: sent exactly when due, once a day as long as the record of what
      was sent is read and written, from its user's own rows
      only; stored settings stay ones it can run by; a patch writes its members
      and nothing else.
    - Defects: theorems, most on concrete inputs, each named for what happens:
      [repeated_hour_reruns_slot], [never_matching_runs_every_minute],
      [shared_array_overlap], [proposals_collide], [Apply_checks_no_attendee],
      [rerun_stacks_blocks], [western_zone_reads_previous_day],
      [reoptimize_displaces_itself], [work_tests_disagree_east],
      [FindSlots_score_is_100], [displaced_row_loses_date],
      [paused_backend_seals_under_deleted_key],
      [undrained_exit_seals_under_deleted_key], [skipped_hour_reruns_slot],
      [earlier_dated_block_is_offered], [buffer_before_window_is_offered],
      [removal_takes_a_newer_value], [rolled_back_rows_are_counted],
      [record_skipped], [cancelled_request_answers_200], [panic_is_lost],
      [clean_shutdown_leaves_unit], [saved_model_not_used],
      [reconnect_marked_lost], [disconnect_marked_lost], [reconnect_overwritten],
      [unsaved_renewal_sends_twice],
      [owner_listed_as_cohost], [team_without_owner],
      [old_invitation_accepted], [moved_event_keeps_its_blocker],
      [same_identifier_leaves_a_blocker], [morning_answers_for_the_day],
      [planning_resets_own_cadence], [moved_meeting_hides_the_gap],
      [next_monday_counts_twice], [skipped_habit_counts_nowhere],
      [refreshed_brief_has_no_sources],
      [later_users_get_no_recap], [yesterdays_focus_is_shown],
      [refused_recap_is_lost], [lost_record_sends_again],
      [unread_record_sends_again], [single_recurring_event_is_a_candidate].

    ** Conventions, bounds and fuel

    Integers of the code are [Z]; where a product or a difference could wrap it
    is written with [wrap64] or [clamp64], and the theorems that need it say
    that a setting is below [max_dur_minutes], the largest number of minutes a
    duration holds.  Zones are lists of transitions, and [loc_ok] (transitions
    in order, offsets below a day) holds of every zone of the tz database; the
    theorems on changing clocks ask for at most one change within a day
    ([one_change]).  Strings are byte strings; the Unicode functions are
    modelled on ASCII.  Loops with fuel: the grid has 97 steps, one more than
    the quarter hours of a day ([elem_of_grid_minutes]); the cursor and
    [findFirstSlot] take the number of steps the interval allows
    ([elem_of_cursor_from], [findFirstSlot_first_fit]); ten slugs are tried, as
    in the code; a pass over a table takes one batch more than the table has
    rows; [ReplaceAll] takes the length of its text, since each replacement
    consumes a byte.  A map that Go iterates in no order is a list, and the
    results do not depend on the order ([mergeIntervals_canonical]).  Database
    errors are flags of the environment where the code tells them apart; the
    text the driver gives for a DATE column is a parameter
    ([Habits.DateDriver]).  The clock is read at the precision of the database.
    A transaction is one step: PostgreSQL's isolation is not modelled beyond
    what a pass re-reads with its compare-and-set.  What [net/http] does with a
    response is written out in [RequestBudget].

    ** Not modelled

    HTTP and JSON encoding, the audit log and the log lines; the e-mail of a
    booking; the calendar and conferencing providers, of which only the
    interface is used; the schema migrations; the cryptography itself; the
    generated API code.  Left out for size: sign-in, the prompts and the reading
    of a model's answer, the handlers of settings, habits, events, credentials
    and conferencing, and the start of the process. *)

From stdpp Require Export base list numbers strings gmap sorting.
From Stdlib Require Export ZArith Lia Bool.

#[global] Open Scope Z_scope.

(** The hint database of the development: lemmas that the component proofs use
    silently. *)
Create HintDb paceday.

(** ** Booleans of the code *)

(** Turn every boolean comparison on [Z] in sight into its proposition. *)
Ltac zbool :=
  repeat match goal with
  | H : (_ && _) = true |- _ => apply andb_true_iff in H as [? ?]
  | H : (_ || _) = false |- _ => apply orb_false_iff in H as [? ?]
  | H : negb _ = true |- _ => apply negb_true_iff in H
  | H : negb _ = false |- _ => apply negb_false_iff in H
  | H : (_ <? _) = true |- _ => apply Z.ltb_lt in H
  | H : (_ <? _) = false |- _ => apply Z.ltb_ge in H
  | H : (_ <=? _) = true |- _ => apply Z.leb_le in H
  | H : (_ <=? _) = false |- _ => apply Z.leb_gt in H
  | H : (_ =? _) = true |- _ => apply Z.eqb_eq in H
  | H : (_ =? _) = false |- _ => apply Z.eqb_neq in H
  end.

(** [lia] with divisions and remainders by constants. *)
Ltac dlia := Z.to_euclidean_division_equations; lia.

(** Case analysis on the boolean tests of the goal, arithmetic closing. *)
Ltac case_if :=
  match goal with
  | |- context [if ?b then _ else _] =>
      lazymatch b with
      | context [if _ then _ else _] => fail
      | _ => let E := fresh "E" in destruct b eqn:E
      end
  end.

Ltac case_ifs := repeat (case_if; try discriminate).

(** ** Results *)

(** A Go result: a value or an error. *)
Inductive res (E A : Type) : Type :=
| Ok (a : A)
| Err (e : E).
Arguments Ok {E A} a.
Arguments Err {E A} e.

Definition rbind {E A B} (r : res E A) (k : A -> res E B) : res E B :=
  match r with Ok a => k a | Err e => Err e end.

Declare Scope res_scope.
Delimit Scope res_scope with res.
Notation "x <-? r ;; k" := (rbind r (fun x => k))
  (at level 100, r at next level, right associativity) : res_scope.
#[global] Open Scope res_scope.

(** ** Lists *)

Section Lists.
Context {A B : Type}.
Implicit Types (l : list A) (p : A -> bool).

(** Boolean filter, as the [for]/[if ... continue] loops of the code. *)
Definition keep p l : list A := List.filter p l.

Lemma elem_of_keep p l x : x ∈ keep p l <-> x ∈ l /\ p x = true.
Proof.
  unfold keep. rewrite !list_elem_of_In, List.filter_In. done.
Qed.

Lemma keep_app p l1 l2 : keep p (l1 ++ l2) = keep p l1 ++ keep p l2.
Proof. apply List.filter_app. Qed.

Lemma keep_sublist p l : sublist (keep p l) l.
Proof.
  unfold keep. induction l as [|x l IH]; [done|]. cbn [List.filter]. destruct (p x); by constructor.
Qed.

Lemma keep_keep_same p (q : A -> bool) l : (forall x, p x = true -> q x = true) -> keep p (keep q l) = keep p l.
Proof.
  intros H. unfold keep. induction l as [|x l IH]; [done|]. cbn [List.filter]. destruct (q x) eqn:Eq; cbn [List.filter].
  - destruct (p x); [f_equal|]; exact IH.
  - destruct (p x) eqn:Ep; [by rewrite (H x Ep) in Eq|exact IH].
Qed.

Lemma keep_map_same p (f : A -> A) l :
  (forall x, p (f x) = p x) -> (forall x, p x = true -> f x = x) -> keep p (map f l) = keep p l.
Proof.
  intros H1 H2. unfold keep. induction l as [|x l IH]; [done|]. cbn [map List.filter]. rewrite H1.
  destruct (p x) eqn:E; [rewrite (H2 x E); f_equal|]; exact IH.
Qed.

Lemma keep_snoc_other p l x : p x = false -> keep p (l ++ [x]) = keep p l.
Proof. intros H. rewrite keep_app. cbn. rewrite H. apply app_nil_r. Qed.

Lemma find_snoc_other p l x : p x = false -> List.find p (l ++ [x]) = List.find p l.
Proof. intros H. induction l as [|y l IH]; cbn; [by rewrite H|]. by destruct (p y). Qed.

Lemma find_keep_same p (q : A -> bool) l : (forall x, p x = true -> q x = true) -> List.find p (keep q l) = List.find p l.
Proof.
  intros H. unfold keep. induction l as [|x l IH]; [done|]. cbn [List.filter List.find]. destruct (q x) eqn:Eq; cbn [List.find].
  - by destruct (p x).
  - destruct (p x) eqn:Ep; [by rewrite (H x Ep) in Eq|exact IH].
Qed.

(** Two rows of a table with the same key. *)
Lemma NoDup_map_elem (f : A -> B) l x y : NoDup (map f l) -> x ∈ l -> y ∈ l -> f x = f y -> x = y.
Proof.
  intros Hn [i Hi]%list_elem_of_lookup [j Hj]%list_elem_of_lookup E. assert (i = j) as ->; [|congruence].
  apply (NoDup_lookup (map f l) i j (f x)); [done|..]; rewrite list_lookup_fmap; [by rewrite Hi|rewrite Hj; cbn; by rewrite E].
Qed.

Lemma existsb_elem p l : existsb p l = true <-> exists x, x ∈ l /\ p x = true.
Proof.
  rewrite existsb_exists. setoid_rewrite list_elem_of_In. done.
Qed.

Lemma existsb_elem_false p l :
  existsb p l = false <-> forall x, x ∈ l -> p x = false.
Proof.
  rewrite <- not_true_iff_false, existsb_elem. split.
  - intros H x Hx. apply not_true_iff_false. intros Hp. eauto.
  - intros H (x & Hx & Hp). rewrite H in Hp by done. done.
Qed.

Lemma forallb_elem p l : forallb p l = true <-> forall x, x ∈ l -> p x = true.
Proof.
  rewrite forallb_forall. setoid_rewrite list_elem_of_In. done.
Qed.

Lemma elem_of_flat_map (f : A -> list B) l (y : B) :
  y ∈ flat_map f l <-> exists x, x ∈ l /\ y ∈ f x.
Proof.
  setoid_rewrite list_elem_of_In. apply in_flat_map.
Qed.
End Lists.

(** Relations that hold between every two elements of a list, in order. *)
Section Pairs.
Context {A B : Type}.
Implicit Types (R : A -> A -> Prop) (l : list A).

Lemma ForallOrdPairs_snoc R l x :
  ForallOrdPairs R l -> Forall (fun y => R y x) l -> ForallOrdPairs R (l ++ [x]).
Proof.
  induction 1 as [|a l Ha Hl IH]; intros Hx; simpl.
  - repeat constructor.
  - inversion Hx; subst. constructor; [|by apply IH].
    apply Forall_app. split; [done|]. by repeat constructor.
Qed.

Lemma ForallOrdPairs_sorted R l : StronglySorted R l -> ForallOrdPairs R l.
Proof. induction 1; by constructor. Qed.

Lemma ForallOrdPairs_impl R R' l :
  (forall x y, R x y -> R' x y) -> ForallOrdPairs R l -> ForallOrdPairs R' l.
Proof.
  intros H. induction 1 as [|a l Ha Hl IH]; constructor; [|done].
  eapply Forall_impl; [exact Ha|]. auto.
Qed.

Lemma ForallOrdPairs_perm R l l' :
  (forall x y, R x y -> R y x) -> l ≡ₚ l' -> ForallOrdPairs R l -> ForallOrdPairs R l'.
Proof.
  intros Hs. induction 1 as [|x l l' Hp IH|x y l|l1 l2 l3 _ IH1 _ IH2]; intros H; [done| | |auto].
  - inversion_clear H. constructor; [by rewrite <- Hp|auto].
  - inversion_clear H as [|? ? Hy Hl]. inversion_clear Hl as [|? ? Hx Hl'].
    inversion_clear Hy. constructor; [constructor; auto|by constructor].
Qed.

Lemma ForallOrdPairs_sublist R l l' :
  sublist l l' -> ForallOrdPairs R l' -> ForallOrdPairs R l.
Proof.
  induction 1 as [|x l l' Hsub IH|x l l' Hsub IH]; intros H; [done| |];
    inversion_clear H; [constructor; [|auto]|auto].
  rewrite Forall_forall in *. intros y Hy.
  match goal with H : forall _, _ -> _ |- _ => apply H end.
  by eapply elem_of_sublist.
Qed.

Lemma ForallOrdPairs_Forall2 R (R' : B -> B -> Prop) (P : A -> B -> Prop) l (k : list B) :
  (forall x y u v, R x y -> P x u -> P y v -> R' u v) ->
  Forall2 P l k -> ForallOrdPairs R l -> ForallOrdPairs R' k.
Proof.
  intros H. induction 1 as [|x u l k Hp Hf IH]; intros Ho; [constructor|].
  inversion_clear Ho as [|? ? Hx Hl]. constructor; [|auto]. clear IH Hl.
  induction Hf as [|y v l k Hq Hf IH]; [constructor|]. inversion_clear Hx.
  constructor; eauto.
Qed.

Lemma Forall2_Forall_r (P : A -> B -> Prop) (Q : B -> Prop) l (k : list B) :
  (forall x u, x ∈ l -> P x u -> Q u) -> Forall2 P l k -> Forall Q k.
Proof.
  intros H. induction 1 as [|x u l k Hp Hf IH]; constructor.
  - apply (H x); [left|done].
  - apply IH. intros y v Hy. apply H. by right.
Qed.
End Pairs.

Lemma StronglySorted_sub {X} (R : X -> X -> Prop) l k :
  sublist l k -> StronglySorted R k -> StronglySorted R l.
Proof.
  induction 1 as [|x l k H IH|x l k H IH]; intros Hk; [constructor| |].
  - apply StronglySorted_inv in Hk as [Hk Hx]. constructor; [by apply IH|].
    rewrite Forall_forall in *. intros y Hy. apply Hx. by eapply elem_of_sublist.
  - apply StronglySorted_inv in Hk as [Hk _]. by apply IH.
Qed.

Lemma StronglySorted_weaken {X} (R R' : X -> X -> Prop) l :
  (forall x y, R x y -> R' x y) -> StronglySorted R l -> StronglySorted R' l.
Proof. intros H. induction 1 as [|x l Hs IH Hx]; constructor; [done|]. eapply Forall_impl; [exact Hx|]. auto. Qed.

Lemma StronglySorted_app_cross {X} (R : X -> X -> Prop) l k x y :
  StronglySorted R (l ++ k) -> x ∈ l -> y ∈ k -> R x y.
Proof.
  induction l as [|z l IH]; [by intros _ ?%not_elem_of_nil|]. cbn [app].
  intros [Hs Hz]%StronglySorted_inv [->|Hx]%elem_of_cons Hy; [|by apply IH].
  rewrite List.Forall_forall in Hz. apply Hz, in_app_iff. right. by apply list_elem_of_In.
Qed.

Create Rewrite HintDb paceday_rw.
#[export] Hint Rewrite @elem_of_keep @existsb_elem @existsb_elem_false
  @forallb_elem @elem_of_flat_map : paceday_rw.
