(* ===== verification/GoInt.v ===== *)
(** * Machine integers of the Go code

    Go's [int], [int64] and [time.Duration] are 64-bit two's complement: the
    arithmetic the code can drive out of range is written with its
    wrap-around ([wrap64]) or, for [time.Time.Sub], its saturation
    ([clamp64]). *)

From S2P Require Import Prelude.

Definition min_int64 : Z := - 2 ^ 63.
Definition max_int64 : Z := 2 ^ 63 - 1.

(** Two's complement reduction of a mathematical integer. *)
Definition wrap64 (z : Z) : Z := (z + 2 ^ 63) mod 2 ^ 64 - 2 ^ 63.

(** Saturation, as [time.Time.Sub]. *)
Definition clamp64 (z : Z) : Z := Z.max min_int64 (Z.min max_int64 z).

Lemma wrap64_small z : min_int64 <= z <= max_int64 -> wrap64 z = z.
Proof.
  unfold wrap64, min_int64, max_int64. intros H.
  rewrite Z.mod_small; lia.
Qed.

Lemma wrap64_range z : min_int64 <= wrap64 z <= max_int64.
Proof.
  unfold wrap64, min_int64, max_int64.
  pose proof (Z.mod_pos_bound (z + 2 ^ 63) (2 ^ 64)). lia.
Qed.

Lemma clamp64_small z : min_int64 <= z <= max_int64 -> clamp64 z = z.
Proof. unfold clamp64. lia. Qed.

Lemma clamp64_le_mono a b : a <= b -> clamp64 a <= clamp64 b.
Proof. unfold clamp64. lia. Qed.

Lemma clamp64_nonneg z : 0 <= clamp64 z <-> 0 <= z.
Proof. unfold clamp64, min_int64, max_int64. lia. Qed.

(** Durations, in nanoseconds. *)
Definition Second : Z := 1000000000.
Definition Minute : Z := 60 * Second.
Definition Hour : Z := 60 * Minute.

(** [time.Duration(n) * time.Minute]. *)
Definition dur_minutes (n : Z) : Z := wrap64 (n * Minute).

(** The largest number of minutes a [time.Duration] holds. *)
Definition max_dur_minutes : Z := 153722867.

Lemma dur_minutes_small n :
  - max_dur_minutes <= n <= max_dur_minutes -> dur_minutes n = n * Minute.
Proof.
  intros H. unfold dur_minutes. apply wrap64_small.
  unfold max_dur_minutes, min_int64, max_int64, Minute, Second in *. lia.
Qed.

(** [int(d.Minutes())]: truncation toward zero.  The code computes it in
    floating point; the two agree on every duration of at most 2^18 minutes,
    and on every duration that is a whole number of seconds. *)
Definition int_minutes (d : Z) : Z := Z.quot d Minute.

Lemma int_minutes_nonneg d : 0 <= d -> int_minutes d = d / Minute.
Proof. intros H. unfold int_minutes. apply Z.quot_div_nonneg; done. Qed.

Lemma int_minutes_exact n : int_minutes (n * Minute) = n.
Proof. unfold int_minutes. apply Z.quot_mul. done. Qed.

Lemma int_minutes_le_mono a b : a <= b -> int_minutes a <= int_minutes b.
Proof. intros H. unfold int_minutes. apply Z.quot_le_mono; done. Qed.

(** A positive whole number of minutes bounds the duration from below. *)
Lemma int_minutes_ge d n : 0 < n -> n <= int_minutes d <-> n * Minute <= d.
Proof.
  intros Hn. split; intros H.
  - destruct (decide (0 <= d)) as [Hd|Hd].
    + rewrite int_minutes_nonneg in H by done.
      pose proof (Z.mul_div_le d Minute eq_refl). nia.
    + assert (int_minutes d <= int_minutes 0) by (apply int_minutes_le_mono; lia).
      change (int_minutes 0) with 0 in *. lia.
  - rewrite <- (int_minutes_exact n). by apply int_minutes_le_mono.
Qed.

Lemma int_minutes_mul_le d : 0 <= d -> int_minutes d * Minute <= d.
Proof.
  intros H. rewrite int_minutes_nonneg by done.
  pose proof (Z.mul_div_le d Minute eq_refl). lia.
Qed.

#[export] Hint Resolve int_minutes_le_mono clamp64_le_mono : paceday.
