(* ===== verification/GoTime.v ===== *)
(** * Go's [time] package, as far as the backend uses it

    Civil calendar (proleptic Gregorian), locations with their offset
    transitions, instants, and the operations [time.Date], [In], [AddDate],
    [Weekday], [ZoneBounds], [Add], [Sub].  An instant counts nanoseconds since
    the Unix epoch.  A location is data (the tz database is not part of the
    repository): its first offset and its list of transitions. *)

From S2P Require Import Prelude GoInt.

(** ** Civil calendar *)

Record civil := Civil { c_year : Z; c_month : Z; c_day : Z }.

#[export] Instance civil_eq_dec : EqDecision civil.
Proof. solve_decision. Defined.

Definition leap (y : Z) : bool :=
  (y mod 4 =? 0) && (negb (y mod 100 =? 0) || (y mod 400 =? 0)).

Definition days_in (m y : Z) : Z :=
  if m =? 2 then (if leap y then 29 else 28)
  else if (m =? 4) || (m =? 6) || (m =? 9) || (m =? 11) then 30 else 31.

(** Days from 0000-03-01 to the first of March of year [y]. *)
Definition mdays (y : Z) : Z := 365 * y + y / 4 - y / 100 + y / 400.

(** Days since 1970-01-01 of a civil date; the day of the month may be out of
    range, as in [time.Date].  Years are counted from March, so that the leap
    day is the last of its year. *)
Definition days_of_civil (y m d : Z) : Z :=
  let y' := if m <=? 2 then y - 1 else y in
  let mp := if m <=? 2 then m + 9 else m - 3 in
  mdays y' + (153 * mp + 2) / 5 + (d - 1) - 719468.

(** The March-based year a day number falls in. *)
Definition march_year (z : Z) : Z :=
  let g := 400 * z / 146097 in
  if mdays (g + 1) <=? z then g + 1 else if z <? mdays g then g - 1 else g.

Definition civil_of_days (z : Z) : civil :=
  let y' := march_year (z + 719468) in
  let doy := z + 719468 - mdays y' in
  let mp := (5 * doy + 2) / 153 in
  let d := doy - (153 * mp + 2) / 5 + 1 in
  if mp <? 10 then Civil y' (mp + 3) d else Civil (y' + 1) (mp - 9) d.

(** A date that exists. *)
Definition civil_valid (c : civil) : bool :=
  (1 <=? c_month c) && (c_month c <=? 12) &&
  (1 <=? c_day c) && (c_day c <=? days_in (c_month c) (c_year c)).

Lemma mdays_step y :
  mdays (y + 1) = mdays y + (if leap (y + 1) then 366 else 365).
Proof.
  unfold leap, mdays.
  destruct (Z.eqb_spec ((y + 1) mod 4) 0), (Z.eqb_spec ((y + 1) mod 100) 0),
    (Z.eqb_spec ((y + 1) mod 400) 0); simpl; dlia.
Qed.

Lemma mdays_mono a b : a <= b -> mdays a + 365 * (b - a) <= mdays b.
Proof. unfold mdays. intros H. dlia. Qed.

Lemma march_year_spec z : mdays (march_year z) <= z < mdays (march_year z + 1).
Proof.
  unfold march_year.
  set (g := 400 * z / 146097).
  assert (Hg : 146097 * g <= 400 * z < 146097 * g + 146097) by (unfold g; dlia).
  clearbody g.
  destruct (Z.leb_spec (mdays (g + 1)) z) as [H|H];
    [|destruct (Z.ltb_spec z (mdays g)) as [H'|H']]; unfold mdays in *; dlia.
Qed.

Lemma march_year_unique z y : mdays y <= z < mdays (y + 1) -> march_year z = y.
Proof.
  intros H. pose proof (march_year_spec z) as H'.
  destruct (Z.lt_trichotomy (march_year z) y) as [L|[->|L]]; [|done|].
  - pose proof (mdays_mono (march_year z + 1) y). dlia.
  - pose proof (mdays_mono (y + 1) (march_year z)). dlia.
Qed.

(** The month and the day inside a March-based year. *)
Lemma march_month_spec doy mp :
  0 <= doy < 366 -> mp = (5 * doy + 2) / 153 ->
  0 <= mp <= 11 /\ (153 * mp + 2) / 5 <= doy < (153 * (mp + 1) + 2) / 5.
Proof. intros H ->. dlia. Qed.

(** The length of the month [mp] months after March. *)
Lemma march_month_length mp y :
  0 <= mp <= 11 ->
  (mp < 10 -> (153 * (mp + 1) + 2) / 5 - (153 * mp + 2) / 5 = days_in (mp + 3) y) /\
  (mp = 10 -> (153 * (mp + 1) + 2) / 5 - (153 * mp + 2) / 5 = days_in (mp - 9) y) /\
  (mp = 11 -> days_in (mp - 9) y = if leap y then 29 else 28).
Proof.
  intros H.
  assert (C : mp = 0 \/ mp = 1 \/ mp = 2 \/ mp = 3 \/ mp = 4 \/ mp = 5 \/ mp = 6
    \/ mp = 7 \/ mp = 8 \/ mp = 9 \/ mp = 10 \/ mp = 11) by dlia.
  repeat destruct C as [->|C]; try subst mp; split_and!; intros; try dlia; reflexivity.
Qed.

Lemma civil_of_days_valid z : civil_valid (civil_of_days z) = true.
Proof.
  unfold civil_of_days.
  pose proof (march_year_spec (z + 719468)) as Hy.
  set (y := march_year (z + 719468)) in *. clearbody y.
  pose proof (mdays_step y) as Hs.
  set (doy := z + 719468 - mdays y).
  assert (Hd : 0 <= doy < if leap (y + 1) then 366 else 365) by (unfold doy; dlia).
  clearbody doy.
  pose proof (march_month_spec doy _ ltac:(destruct (leap _); dlia) eq_refl) as [Hm Hmd].
  set (mp := (5 * doy + 2) / 153) in *. clearbody mp.
  pose proof (march_month_length mp (if mp <? 10 then y else y + 1) Hm) as (L1 & L2 & L3).
  unfold civil_valid.
  destruct (Z.ltb_spec mp 10); simpl.
  - rewrite <- L1 by done. dlia.
  - destruct (decide (mp = 10)) as [E|E].
    + rewrite <- L2 by done. dlia.
    + rewrite L3 by dlia. replace mp with 11 in * by dlia. destruct (leap _); dlia.
Qed.

(** The two conversions are inverse. *)
Lemma days_of_civil_of_days z :
  let c := civil_of_days z in days_of_civil (c_year c) (c_month c) (c_day c) = z.
Proof.
  unfold civil_of_days, days_of_civil. simpl.
  pose proof (march_year_spec (z + 719468)) as Hy.
  set (y := march_year (z + 719468)) in *. clearbody y.
  pose proof (mdays_step y) as Hs.
  set (doy := z + 719468 - mdays y).
  assert (Hd : 0 <= doy < 366) by (unfold doy; destruct (leap _); dlia).
  pose proof (march_month_spec doy _ Hd eq_refl) as [Hm Hmd].
  set (mp := (5 * doy + 2) / 153) in *. clearbody mp.
  destruct (Z.ltb_spec mp 10); simpl.
  - rewrite (proj2 (Z.leb_gt _ _)) by dlia.
    replace (mp + 3 - 3) with mp by dlia. unfold doy. dlia.
  - rewrite (proj2 (Z.leb_le _ _)) by dlia.
    replace (mp - 9 + 9) with mp by dlia. replace (y + 1 - 1) with y by dlia. unfold doy. dlia.
Qed.

Lemma civil_of_days_of_civil y m d :
  civil_valid (Civil y m d) = true ->
  civil_of_days (days_of_civil y m d) = Civil y m d.
Proof.
  unfold civil_valid; simpl; intros H; zbool.
  unfold days_of_civil.
  set (y' := if m <=? 2 then y - 1 else y).
  set (mp := if m <=? 2 then m + 9 else m - 3).
  assert (Hc : m <= 2 /\ y' = y - 1 /\ mp = m + 9 \/ 2 < m /\ y' = y /\ mp = m - 3)
    by (unfold mp, y'; destruct (Z.leb_spec m 2); lia).
  clearbody mp y'.
  assert (Hmp : 0 <= mp <= 11) by lia.
  set (doy := (153 * mp + 2) / 5 + (d - 1)).
  pose proof (march_month_length mp y Hmp) as (L1 & L2 & L3).
  assert (Hd : 0 <= doy < (if leap (y' + 1) then 366 else 365) /\
               (5 * doy + 2) / 153 = mp).
  { unfold doy. destruct Hc as [(Hm & -> & ->)|(Hm & -> & ->)].
    - replace (y - 1 + 1) with y by lia. replace (m + 9 - 9) with m in * by lia.
      destruct (decide (m = 1)) as [->|].
      + change (days_in 1 y) with 31 in *. destruct (leap y); dlia.
      + replace m with 2 in * by lia. rewrite L3 in * by lia. destruct (leap y); dlia.
    - replace (m - 3 + 3) with m in * by lia. specialize (L1 ltac:(lia)).
      rewrite <- L1 in H0. clear L1 L2 L3 doy. split; [|dlia].
      assert (0 <= (153 * (m - 3) + 2) / 5 + (d - 1) < 306) by dlia.
      destruct (leap _); lia. }
  destruct Hd as [Hd Hmp'].
  unfold civil_of_days.
  replace (mdays y' + (153 * mp + 2) / 5 + (d - 1) - 719468 + 719468)
    with (mdays y' + doy) by (unfold doy; dlia).
  rewrite (march_year_unique (mdays y' + doy) y')
    by (rewrite mdays_step; destruct (leap _); dlia).
  replace (mdays y' + doy - mdays y') with doy by dlia.
  rewrite Hmp'. replace (doy - (153 * mp + 2) / 5 + 1) with d by (unfold doy; dlia).
  destruct (Z.ltb_spec mp 10); f_equal; lia.
Qed.

(** ** Locations *)

(** A location: its name, the offset in force before the first transition and
    the transitions (Unix second, offset in seconds east of UTC) in order. *)
Record Location := {
  loc_name : string;
  loc_first : Z;
  loc_tx : list (Z * Z);
}.

Definition UTC : Location := {| loc_name := "UTC"; loc_first := 0; loc_tx := [] |}.

(** [time.FixedZone("", offset)]. *)
Definition FixedZone (off : Z) : Location :=
  {| loc_name := ""; loc_first := off; loc_tx := [] |}.

(** The zone period in force at an instant: [Location.lookup].  [None] bounds
    are Go's [alpha] and [omega]. *)
Record zone := Zone { z_off : Z; z_start : option Z; z_end : option Z }.

Fixpoint lookup_tx (off : Z) (start : option Z) (tx : list (Z * Z)) (s : Z) : zone :=
  match tx with
  | [] => Zone off start None
  | (w, o) :: r => if s <? w then Zone off start (Some w) else lookup_tx o (Some w) r s
  end.

Definition lookup (loc : Location) (s : Z) : zone :=
  lookup_tx (loc_first loc) None (loc_tx loc) s.

Definition off_at (loc : Location) (s : Z) : Z := z_off (lookup loc s).

Definition in_zone (z : zone) (s : Z) : bool :=
  (match z_start z with Some a => a <=? s | None => true end) &&
  (match z_end z with Some b => s <? b | None => true end).

Definition day_secs : Z := 86400.

(** The transitions of [loc] in [(lo, hi]]. *)
Definition changes (tx : list (Z * Z)) (lo hi : Z) : list (Z * Z) :=
  keep (fun w => (lo <? w.1) && (w.1 <=? hi)) tx.

(** A location whose transitions are in order and whose offsets are below one
    day; every location of the tz database is one. *)
Fixpoint tx_sorted (prev : option Z) (tx : list (Z * Z)) : bool :=
  match tx with
  | [] => true
  | (w, o) :: r =>
      (match prev with Some p => p <? w | None => true end) &&
      (- day_secs <? o) && (o <? day_secs) && tx_sorted (Some w) r
  end.

Definition loc_ok (loc : Location) : bool :=
  (- day_secs <? loc_first loc) && (loc_first loc <? day_secs) &&
  tx_sorted None (loc_tx loc).

Lemma tx_sorted_above p tx :
  tx_sorted (Some p) tx = true -> forall w, w ∈ tx -> p < w.1.
Proof.
  revert p. induction tx as [|[w o] r IH]; intros p H x; simpl in H.
  - intros Hx. by apply not_elem_of_nil in Hx.
  - zbool. intros [->|Hx]%elem_of_cons; [done|].
    specialize (IH _ ltac:(eassumption) _ Hx). simpl in *. lia.
Qed.

Lemma lookup_tx_off_bound off st tx p s :
  - day_secs < off < day_secs -> tx_sorted p tx = true ->
  - day_secs < z_off (lookup_tx off st tx s) < day_secs.
Proof.
  revert off st p. induction tx as [|[w o] r IH]; intros off st p Ho H; simpl; [done|].
  simpl in H. zbool. destruct (s <? w); [done|]. eapply IH; [lia|eassumption].
Qed.

Lemma off_at_bound loc s : loc_ok loc = true -> - day_secs < off_at loc s < day_secs.
Proof.
  unfold loc_ok. intros H. zbool. eapply lookup_tx_off_bound; [lia|eassumption].
Qed.

(** Inside a zone period the lookup does not change. *)
Lemma lookup_tx_in_zone off st tx s s' :

  tx_sorted st tx = true -> (match st with Some a => a <= s | None => True end) ->
  in_zone (lookup_tx off st tx s) s' = true ->
  lookup_tx off st tx s' = lookup_tx off st tx s.
Proof.
  revert off st. induction tx as [|[w o] r IH]; intros off st Hs Hst Hz; simpl in *; [done|].
  zbool. revert Hz. destruct (Z.ltb_spec s w); simpl; intros Hz.
  - unfold in_zone in Hz. simpl in Hz. zbool.
    by rewrite (proj2 (Z.ltb_lt _ _)) by done.
  - rewrite (proj2 (Z.ltb_ge s' w)); [apply IH; solve [assumption|lia]|].
    assert (G : forall off st tx, tx_sorted (Some st) tx = true ->
      in_zone (lookup_tx off (Some st) tx s) s' = true -> st <= s').
    { clear. intros off st tx. revert off st. induction tx as [|[w o] r IH]; intros off st Hs; simpl.
      - unfold in_zone. simpl. intros H. zbool. lia.
      - simpl in Hs. zbool. case_match; [unfold in_zone; simpl; intros; zbool; lia|].
        intros Hz. specialize (IH _ _ ltac:(eassumption) Hz). lia. }
    by eapply G.
Qed.

Lemma off_at_in_zone loc s s' :
  loc_ok loc = true -> in_zone (lookup loc s) s' = true -> off_at loc s' = off_at loc s.
Proof.
  unfold loc_ok, off_at. intros H Hz. zbool. unfold lookup in *.
  by rewrite (lookup_tx_in_zone _ _ _ s s').
Qed.

(** No transition in the window: one zone period covers it. *)
Lemma lookup_tx_quiet off st tx lo hi s :
  changes tx lo hi = [] -> lo <= s <= hi ->
  lookup_tx off st tx s = lookup_tx off st tx lo.
Proof.
  revert off st. induction tx as [|[w o] r IH]; intros off st Hc Hs; simpl; [done|].
  unfold changes, keep in *. simpl in Hc.
  destruct (Z.ltb_spec lo w), (Z.leb_spec w hi); simpl in Hc; try done.
  - by rewrite (proj2 (Z.ltb_lt s w)) by lia.
  - rewrite (proj2 (Z.ltb_ge s w)) by lia. by apply IH.
  - lia.
Qed.

(** One transition in the window: two zone periods meet there. *)
Lemma lookup_tx_one off st tx lo hi T o' :
  tx_sorted st tx = true -> changes tx lo hi = [(T, o')] -> lo <= hi ->
  lo < T <= hi /\ z_end (lookup_tx off st tx lo) = Some T /\
  forall s, lo <= s <= hi ->
    lookup_tx off st tx s = lookup_tx off st tx (if s <? T then lo else hi).
Proof.
  revert off st. induction tx as [|[w o] r IH]; intros off st Hs Hc Hle; simpl in *; [done|].
  zbool. unfold changes, keep in Hc. simpl in Hc.
  destruct (Z.ltb_spec lo w), (Z.leb_spec w hi); simpl in Hc.
  - injection Hc as -> -> Hr. split; [lia|]. split; [done|]. intros s Hw.
    rewrite ?(proj2 (Z.ltb_ge hi T)) by lia.
    destruct (Z.ltb_spec s T).
    + by rewrite (proj2 (Z.ltb_lt lo T)) by lia.
    + rewrite (proj2 (Z.ltb_ge hi T)) by lia.
      rewrite (lookup_tx_quiet _ _ _ lo hi s), (lookup_tx_quiet _ _ _ lo hi hi); try done; lia.
  - exfalso. assert (Hin : (T, o') ∈ keep (fun w => (lo <? w.1) && (w.1 <=? hi)) r)
      by (unfold keep; rewrite Hc; left).
    apply elem_of_keep in Hin as [Hin Hw]. simpl in Hw. zbool.
    pose proof (tx_sorted_above _ _ ltac:(eassumption) _ Hin). simpl in *. lia.
  - destruct (IH o (Some w) ltac:(done) Hc ltac:(done)) as (HT & HE & Hl).
    split; [done|]. split; [done|].
    intros s Hw. rewrite (proj2 (Z.ltb_ge s w)) by lia.
    rewrite Hl by done. destruct (s <? T); rewrite (proj2 (Z.ltb_ge _ _)) by lia; done.
  - lia.
Qed.

(** ** Instants *)

(** A [time.Time]: nanoseconds since the Unix epoch and a location. *)
Record time := Time { t_ns : Z; t_loc : Location }.

(** Go's zero [time.Time]: January 1, year 1, 00:00 UTC. *)
Definition zero_time : time := Time (-62135596800 * Second) UTC.

Definition IsZero (t : time) : bool := t_ns t =? t_ns zero_time.
Definition Before (t u : time) : bool := t_ns t <? t_ns u.
Definition After (t u : time) : bool := t_ns u <? t_ns t.
Definition Equal (t u : time) : bool := t_ns t =? t_ns u.
Definition Add (t : time) (d : Z) : time := Time (t_ns t + d) (t_loc t).
(** [t.Sub(u)] saturates at the bounds of [time.Duration]. *)
Definition Sub (t u : time) : Z := clamp64 (t_ns t - t_ns u).
Definition In (t : time) (loc : Location) : time := Time (t_ns t) loc.
Definition toUTC (t : time) : time := In t UTC.

Definition unix_sec (t : time) : Z := t_ns t / Second.
Definition offset_of (t : time) : Z := off_at (t_loc t) (unix_sec t).
(** The wall clock of [t] in its location, as seconds since the epoch. *)
Definition local_sec (t : time) : Z := unix_sec t + offset_of t.

Definition DateOf (t : time) : civil := civil_of_days (local_sec t / day_secs).
Definition HourOf (t : time) : Z := local_sec t mod day_secs / 3600.
Definition MinuteOf (t : time) : Z := local_sec t mod 3600 / 60.
Definition SecondOf (t : time) : Z := local_sec t mod 60.
Definition NanosecondOf (t : time) : Z := t_ns t mod Second.
(** [time.Weekday]: Sunday is 0. *)
Definition WeekdayOf (t : time) : Z := (local_sec t / day_secs + 4) mod 7.

(** The end of the zone period [t] is in: the second result of [ZoneBounds],
    the zero time when the period has no end. *)
Definition ZoneEnd (t : time) : time :=
  match z_end (lookup (t_loc t) (unix_sec t)) with
  | Some e => Time (e * Second) (t_loc t)
  | None => zero_time
  end.

(** The wall-clock seconds [time.Date] is asked for, fields normalized. *)
Definition naive_sec (y m d h mi s : Z) : Z :=
  days_of_civil (y + (m - 1) / 12) ((m - 1) mod 12 + 1) d * day_secs
  + h * 3600 + mi * 60 + s.

(** The instant [time.Date] resolves a wall clock to: the offset in force at
    the wall clock taken as UTC, corrected once when the result leaves that
    zone period. *)
Definition resolve (loc : Location) (naive : Z) : Z :=
  let z := lookup loc naive in
  let utc := naive - z_off z in
  if in_zone z utc then utc else naive - off_at loc utc.

Definition Date (y m d h mi s ns : Z) (loc : Location) : time :=
  Time (resolve loc (naive_sec y m d h mi s + ns / Second) * Second + ns mod Second) loc.

Definition AddDate (t : time) (years months days : Z) : time :=
  let c := DateOf t in
  Date (c_year c + years) (c_month c + months) (c_day c + days)
    (HourOf t) (MinuteOf t) (SecondOf t) (NanosecondOf t) (t_loc t).

(** ** Facts about instants *)

Lemma Before_lt t u : Before t u = true <-> t_ns t < t_ns u.
Proof. apply Z.ltb_lt. Qed.
Lemma Before_ge t u : Before t u = false <-> t_ns u <= t_ns t.
Proof. apply Z.ltb_ge. Qed.
Lemma After_lt t u : After t u = true <-> t_ns u < t_ns t.
Proof. apply Z.ltb_lt. Qed.
Lemma After_ge t u : After t u = false <-> t_ns t <= t_ns u.
Proof. apply Z.ltb_ge. Qed.
Lemma Equal_eq t u : Equal t u = true <-> t_ns t = t_ns u.
Proof. apply Z.eqb_eq. Qed.

(** Rewrite the time comparisons in sight into inequalities on instants. *)
Ltac ztime :=
  repeat match goal with
  | H : context [IsZero _] |- _ => unfold IsZero in H
  | H : context [Before _ _] |- _ => unfold Before in H
  | H : context [After _ _] |- _ => unfold After in H
  | H : context [Equal _ _] |- _ => unfold Equal in H
  end; zbool; unfold Add, In, toUTC, Before, After, Equal, IsZero in *; simpl t_ns in *.

Lemma resolve_eq loc naive :
  loc_ok loc = true ->
  resolve loc naive = naive - off_at loc (naive - off_at loc naive).
Proof.
  intros Hok. unfold resolve. fold (off_at loc naive).
  destruct (in_zone _ _) eqn:E; [|done].
  by rewrite (off_at_in_zone loc naive (naive - off_at loc naive)).
Qed.

(** The offsets of a location with at most one transition in a window. *)
Lemma off_at_window loc lo hi :
  loc_ok loc = true -> (length (changes (loc_tx loc) lo hi) <= 1)%nat -> lo <= hi ->
  exists T, forall s, lo <= s <= hi ->
    off_at loc s = if s <? T then off_at loc lo else off_at loc hi.
Proof.
  unfold loc_ok, off_at, lookup. intros Hok Hc Hle. zbool.
  destruct (changes (loc_tx loc) lo hi) as [|[T o] [|]] eqn:E; [| |simpl in Hc; lia].
  - exists lo. intros s Hs. rewrite (proj2 (Z.ltb_ge s lo)) by lia.
    rewrite (lookup_tx_quiet _ _ _ lo hi s), (lookup_tx_quiet _ _ _ lo hi hi); try done; lia.
  - destruct (lookup_tx_one (loc_first loc) None _ _ _ T o ltac:(done) E Hle) as (_ & _ & Hl).
    exists T. intros s Hs. rewrite Hl by done. by destruct (s <? T).
Qed.

(** A wall clock that exists is read back from what [time.Date] returns, at a
    place with at most one change of offset within a day. *)
Lemma resolve_exists loc naive c :
  loc_ok loc = true ->
  (length (changes (loc_tx loc) (naive - day_secs) (naive + day_secs)) <= 1)%nat ->
  c + off_at loc c = naive ->
  resolve loc naive + off_at loc (resolve loc naive) = naive.
Proof.
  intros Hok Hc He. rewrite resolve_eq by done.
  destruct (off_at_window loc _ _ Hok Hc ltac:(unfold day_secs; lia)) as [T HT].
  pose proof (off_at_bound loc c Hok).
  pose proof (off_at_bound loc (naive - day_secs) Hok).
  pose proof (off_at_bound loc (naive + day_secs) Hok).
  set (a := off_at loc (naive - day_secs)) in *.
  set (b := off_at loc (naive + day_secs)) in *. clearbody a b.
  unfold day_secs in *.
  rewrite HT in He by lia.
  rewrite (HT naive) by lia.
  destruct (Z.ltb_spec naive T), (Z.ltb_spec c T).
  all: repeat match goal with
    | |- context [?x <? ?y] => destruct (Z.ltb_spec x y)
    | HT : forall s, _ -> off_at _ s = _ |- context [off_at _ ?x] =>
        lazymatch x with context [off_at _ _] => fail | _ => rewrite (HT x) by lia end
    end; lia.
Qed.

Lemma local_sec_Date loc naive y m d h mi s :
  naive_sec y m d h mi s = naive ->
  unix_sec (Date y m d h mi s 0 loc) = resolve loc naive.
Proof.
  intros <-. unfold unix_sec, Date. simpl t_ns.
  change (0 / Second) with 0. change (0 mod Second) with 0.
  rewrite !Z.add_0_r. by rewrite Z.div_mul.
Qed.

Lemma naive_sec_valid y m d h mi s :
  1 <= m <= 12 ->
  naive_sec y m d h mi s = days_of_civil y m d * day_secs + h * 3600 + mi * 60 + s.
Proof.
  intros H. unfold naive_sec.
  rewrite Z.div_small, Z.mod_small by lia.
  by rewrite Z.add_0_r, Z.sub_add.
Qed.

(** In UTC, [time.Date] is the civil calendar. *)
Lemma resolve_UTC naive : resolve UTC naive = naive.
Proof. unfold resolve, lookup, in_zone. simpl. lia. Qed.

Lemma ZoneEnd_at s l0 loc T :
  z_end (lookup loc s) = Some T -> ZoneEnd (In (Time (s * Second) l0) loc) = Time (T * Second) loc.
Proof.
  intros H. unfold ZoneEnd, unix_sec, In. cbn [t_ns t_loc].
  rewrite Z.div_mul by done. by rewrite H.
Qed.

Lemma DateOf_range t : civil_valid (DateOf t) = true.
Proof. apply civil_of_days_valid. Qed.

Lemma HourOf_range t : 0 <= HourOf t < 24.
Proof. unfold HourOf, day_secs. dlia. Qed.

Lemma MinuteOf_range t : 0 <= MinuteOf t < 60.
Proof. unfold MinuteOf. dlia. Qed.

Lemma WeekdayOf_range t : 0 <= WeekdayOf t < 7.
Proof. unfold WeekdayOf. dlia. Qed.

(** The fields of a time are its wall clock. *)
Lemma local_sec_fields t :
  local_sec t = days_of_civil (c_year (DateOf t)) (c_month (DateOf t)) (c_day (DateOf t)) * day_secs
    + HourOf t * 3600 + MinuteOf t * 60 + SecondOf t.
Proof.
  unfold DateOf. rewrite days_of_civil_of_days.
  unfold HourOf, MinuteOf, SecondOf, day_secs. dlia.
Qed.

(** Two wall clocks with the same fields are the same second. *)
Lemma fields_local_sec t y m d h mi s :
  civil_valid (Civil y m d) = true -> 0 <= h < 24 -> 0 <= mi < 60 -> 0 <= s < 60 ->
  local_sec t = days_of_civil y m d * day_secs + h * 3600 + mi * 60 + s ->
  DateOf t = Civil y m d /\ HourOf t = h /\ MinuteOf t = mi /\ SecondOf t = s.
Proof.
  intros Hv Hh Hm Hs E. unfold DateOf, HourOf, MinuteOf, SecondOf. rewrite E.
  unfold day_secs in *. split_and!; try dlia.
  replace ((days_of_civil y m d * 86400 + h * 3600 + mi * 60 + s) / 86400)
    with (days_of_civil y m d) by dlia.
  by apply civil_of_days_of_civil.
Qed.
