(* ===== verification/GoFloat.v ===== *)
(** * [float64]

    The 64-bit floats of Go as the Standard Library specifies IEEE 754
    ([SpecFloat]): rounding to nearest, ties to even, with 53 bits.  Only the
    operations the backend uses are here: [time.Duration]'s [Hours] and
    [Minutes], [math.Ceil], [math.Round] and the conversions. *)

From Stdlib Require Export SpecFloat.
From S2P Require Import Prelude GoInt.

#[local] Open Scope Z_scope.

Definition prec64 : Z := 53.
Definition emax64 : Z := 1024.

Definition f64 (n : Z) : spec_float := binary_normalize prec64 emax64 n 0 false.
Definition fadd : spec_float -> spec_float -> spec_float := SFadd prec64 emax64.
Definition fmul : spec_float -> spec_float -> spec_float := SFmul prec64 emax64.
Definition fdiv : spec_float -> spec_float -> spec_float := SFdiv prec64 emax64.
Definition fle (a b : spec_float) : bool := SFleb a b.
Definition flt (a b : spec_float) : bool := SFltb a b.

(** [m * 2^e] as a fraction: numerator and denominator. *)
Definition fraction (f : spec_float) : Z * Z :=
  match f with
  | S754_finite s m e =>
      let n := if s then Z.neg m else Z.pos m in
      if 0 <=? e then (n * 2 ^ e, 1) else (n, 2 ^ (- e))
  | _ => (0, 1)
  end.

(** [int(f)], [math.Ceil] as an integer. *)
Definition int_of (f : spec_float) : Z := let '(n, d) := fraction f in Z.quot n d.
Definition ceil_of (f : spec_float) : Z := let '(n, d) := fraction f in - (- n / d).

(** [math.Round]: halves away from zero; a negative number that rounds to zero
    keeps its sign. *)
Definition Round (f : spec_float) : spec_float :=
  match f with
  | S754_finite s m e =>
      let '(n, d) := fraction (S754_finite false m e) in
      match (2 * n + d) / (2 * d) with
      | 0 => S754_zero s
      | k => f64 (if s then - k else k)
      end
  | _ => f
  end.

(** [Duration.Hours] and [Duration.Minutes]. *)
Definition Hours (d : Z) : spec_float := fadd (f64 (Z.quot d Hour)) (fdiv (f64 (Z.rem d Hour)) (f64 (60 * 60 * 1000000000))).
Definition Minutes (d : Z) : spec_float := fadd (f64 (Z.quot d Minute)) (fdiv (f64 (Z.rem d Minute)) (f64 (60 * 1000000000))).

Example hours_of_a_day : Hours (24 * Hour) = f64 24.
Proof. reflexivity. Qed.

Example ceil_of_a_moment : ceil_of (fdiv (Hours (7 * 24 * Hour + 1)) (f64 24)) = 8 /\ ceil_of (fdiv (Hours (- Hour)) (f64 24)) = 0.
Proof. vm_compute. split; reflexivity. Qed.

Example round_halves : Round (fdiv (f64 5) (f64 2)) = f64 3 /\ Round (fdiv (f64 (-5)) (f64 2)) = f64 (-3).
Proof. vm_compute. split; reflexivity. Qed.
