(* ===== verification/GoText.v ===== *)
(** * Go strings, [fmt.Sscanf], [strconv] and the time layouts

    Strings are byte strings, as in Go.  Unicode-aware functions are modelled
    on their ASCII part: the backend feeds them "HH:MM" times, ISO dates,
    slugs, host names and addresses. *)

From Stdlib Require Export Ascii.
From Stdlib Require Import DecimalString DecimalZ.
From S2P Require Import Prelude GoInt GoTime.

#[local] Open Scope string_scope.
#[local] Open Scope Z_scope.

(** ** Characters *)

Definition byte_of (c : ascii) : Z := Z.of_nat (nat_of_ascii c).
Definition is_digit (c : ascii) : bool := (48 <=? byte_of c) && (byte_of c <=? 57).
Definition digit_val (c : ascii) : Z := byte_of c - 48.
Definition digit (k : Z) : ascii := ascii_of_nat (Z.to_nat (48 + k)).
Definition is_upper (c : ascii) : bool := (65 <=? byte_of c) && (byte_of c <=? 90).
Definition is_lower (c : ascii) : bool := (97 <=? byte_of c) && (byte_of c <=? 122).
(** [unicode.IsSpace] on ASCII. *)
Definition is_space (c : ascii) : bool :=
  ((9 <=? byte_of c) && (byte_of c <=? 13)) || (byte_of c =? 32).
Definition lower (c : ascii) : ascii :=
  if is_upper c then ascii_of_nat (nat_of_ascii c + 32) else c.

Fixpoint smap (f : ascii -> ascii) (s : string) : string :=
  match s with EmptyString => EmptyString | String c r => String (f c) (smap f r) end.

Fixpoint sforallb (p : ascii -> bool) (s : string) : bool :=
  match s with EmptyString => true | String c r => p c && sforallb p r end.

Definition ToLower (s : string) : string := smap lower s.
Definition EqualFold (a b : string) : bool := String.eqb (ToLower a) (ToLower b).

(** ** Trimming and splitting *)

Fixpoint trim_left (p : ascii -> bool) (s : string) : string :=
  match s with
  | String c r => if p c then trim_left p r else s
  | EmptyString => EmptyString
  end.

(** Trailing characters are dropped when only such characters follow. *)
Fixpoint trim_right (p : ascii -> bool) (s : string) : string :=
  match s with
  | EmptyString => EmptyString
  | String c r => if p c && sforallb p r then EmptyString else String c (trim_right p r)
  end.

Definition TrimSpace (s : string) : string := trim_right is_space (trim_left is_space s).
Definition Trim (c : ascii) (s : string) : string :=
  trim_right (Ascii.eqb c) (trim_left (Ascii.eqb c) s).

(** The part before the first [sep] and the part after it. *)
Fixpoint cut (sep : ascii) (s : string) : option (string * string) :=
  match s with
  | EmptyString => None
  | String c r =>
      if Ascii.eqb c sep then Some (EmptyString, r)
      else match cut sep r with Some (a, b) => Some (String c a, b) | None => None end
  end.

(** [strings.SplitN(s, sep, 2)]. *)
Definition SplitN2 (s : string) (sep : ascii) : list string :=
  match cut sep s with Some (a, b) => [a; b] | None => [s] end.

(** Runs of non-space characters: [strings.Fields]. *)
Fixpoint fields_from (cur : string) (s : string) : list string :=
  match s with
  | EmptyString => if String.eqb cur "" then [] else [cur]
  | String c r =>
      if is_space c
      then (if String.eqb cur "" then [] else [cur]) ++ fields_from "" r
      else fields_from (cur +:+ String c EmptyString) r
  end.

Definition Fields (s : string) : list string := fields_from "" s.

(** ** Runes *)

Definition in_range (lo hi : Z) (c : ascii) : bool := (lo <=? byte_of c) && (byte_of c <=? hi).
Definition tail_byte : ascii -> bool := in_range 128 191.

(** What an invalid byte becomes: U+FFFD. *)
Definition RuneError : string := String (ascii_of_nat 239) (String (ascii_of_nat 191) (String (ascii_of_nat 189) "")).

(** The bytes that must follow a leading byte, as [utf8.DecodeRuneInString]
    accepts them; [None] for a byte that leads nothing. *)
Definition followers (c : ascii) : option (list (ascii -> bool)) :=
  let b := byte_of c in
  if b <? 128 then Some []
  else if (194 <=? b) && (b <=? 223) then Some [tail_byte]
  else if b =? 224 then Some [in_range 160 191; tail_byte]
  else if b =? 237 then Some [in_range 128 159; tail_byte]
  else if (225 <=? b) && (b <=? 239) then Some [tail_byte; tail_byte]
  else if b =? 240 then Some [in_range 144 191; tail_byte; tail_byte]
  else if (241 <=? b) && (b <=? 243) then Some [tail_byte; tail_byte; tail_byte]
  else if b =? 244 then Some [in_range 128 143; tail_byte; tail_byte]
  else None.

Fixpoint take_bytes (ps : list (ascii -> bool)) (s : string) : option (string * string) :=
  match ps, s with
  | [], _ => Some ("", s)
  | p :: ps, String c r => if p c then '(a, b) ← take_bytes ps r; Some (String c a, b) else None
  | _ :: _, EmptyString => None
  end.

(** The first rune, as it is written back, and the rest. *)
Definition decode_rune (c : ascii) (r : string) : string * string :=
  match followers c ≫= (fun ps => take_bytes ps r) with
  | Some (a, b) => (String c a, b)
  | None => (RuneError, r)
  end.

(** [[]rune(s)]: at most one rune per byte. *)
Fixpoint runes_fuel (n : nat) (s : string) : list string :=
  match n, s with
  | S n, String c r => let '(a, b) := decode_rune c r in a :: runes_fuel n b
  | _, _ => []
  end.
Definition runes (s : string) : list string := runes_fuel (String.length s) s.

(** ** Decimal integers *)

(** The longest prefix of digits, and the rest. *)
Fixpoint span_digits (s : string) : string * string :=
  match s with
  | String c r =>
      if is_digit c then let '(a, b) := span_digits r in (String c a, b) else (EmptyString, s)
  | EmptyString => (EmptyString, EmptyString)
  end.

Fixpoint digits_val (acc : Z) (s : string) : Z :=
  match s with EmptyString => acc | String c r => digits_val (10 * acc + digit_val c) r end.

Definition take_sign (s : string) : bool * string :=
  match s with
  | String c r =>
      if Ascii.eqb c "-" then (true, r) else if Ascii.eqb c "+" then (false, r) else (false, s)
  | EmptyString => (false, s)
  end.

(** The white space [fmt] skips before an operand; a newline is an error. *)
Fixpoint skip_space (s : string) : option string :=
  match s with
  | String c r =>
      if byte_of c =? 10 then None else if is_space c then skip_space r else Some s
  | EmptyString => Some EmptyString
  end.

(** One [%d] of [fmt.Sscanf] into an [int], and the input left. *)
Definition scan_int (s : string) : option (Z * string) :=
  match skip_space s with
  | None => None
  | Some s1 =>
      let '(neg, s2) := take_sign s1 in
      let '(ds, rest) := span_digits s2 in
      match ds with
      | EmptyString => None
      | _ =>
          let v := digits_val 0 ds in
          let v := if neg then - v else v in
          if (min_int64 <=? v) && (v <=? max_int64) then Some (v, rest) else None
      end
  end.

(** [strconv.Atoi]. *)
Definition Atoi (s : string) : option Z :=
  let '(neg, s2) := take_sign s in
  let '(ds, rest) := span_digits s2 in
  match ds, rest with
  | EmptyString, _ => None
  | _, EmptyString =>
      let v := digits_val 0 ds in
      let v := if neg then - v else v in
      if (min_int64 <=? v) && (v <=? max_int64) then Some v else None
  | _, _ => None
  end.

(** [fmt.Sprintf("%d", n)]. *)
Definition itoa (n : Z) : string := NilZero.string_of_int (Z.to_int n).

(** [n] in at least [w] digits, zero-padded: [appendInt] of package time. *)
Fixpoint pad_digits (w : nat) (n : Z) : string :=
  match w with
  | O => EmptyString
  | S k => pad_digits k (n / 10) +:+ String (digit (n mod 10)) EmptyString
  end.

Definition append_int (n : Z) (w : nat) : string :=
  let sgn := if n <? 0 then "-" else "" in
  let u := Z.abs n in
  sgn +:+ (if u <? 10 ^ Z.of_nat w then pad_digits w u else itoa u).

Lemma itoa_chars n : sforallb (fun c => is_digit c || Ascii.eqb c "-") (itoa n) = true.
Proof.
  assert (G : forall u, sforallb (fun c => is_digit c || Ascii.eqb c "-")
      (NilZero.string_of_uint u) = true).
  { intros u. destruct u; try reflexivity; simpl; induction u; simpl; done. }
  unfold itoa. destruct (Z.to_int n) as [u|u]; simpl; apply G.
Qed.

Lemma is_digit_digit k : 0 <= k < 10 -> is_digit (digit k) = true.
Proof.
  intros H. assert (C : k = 0 \/ k = 1 \/ k = 2 \/ k = 3 \/ k = 4 \/ k = 5 \/ k = 6
    \/ k = 7 \/ k = 8 \/ k = 9) by lia.
  by repeat destruct C as [->|C]; subst.
Qed.

Lemma digit_val_digit k : 0 <= k < 10 -> digit_val (digit k) = k.
Proof.
  intros H. assert (C : k = 0 \/ k = 1 \/ k = 2 \/ k = 3 \/ k = 4 \/ k = 5 \/ k = 6
    \/ k = 7 \/ k = 8 \/ k = 9) by lia.
  by repeat destruct C as [->|C]; subst.
Qed.

(** ** Layouts of package time *)

(** [getnum]: one or two digits, two when [fixed]. *)
Definition getnum (s : string) (fixed : bool) : option (Z * string) :=
  match s with
  | String a r =>
      if negb (is_digit a) then None
      else match r with
           | String b r' =>
               if is_digit b then Some (digit_val a * 10 + digit_val b, r')
               else if fixed then None else Some (digit_val a, r)
           | EmptyString => if fixed then None else Some (digit_val a, r)
           end
  | EmptyString => None
  end.

Definition skip_char (c : ascii) (s : string) : option string :=
  match s with
  | String a r => if Ascii.eqb a c then Some r else None
  | EmptyString => None
  end.

(** The four digits of a year. *)
Definition get_year (s : string) : option (Z * string) :=
  match s with
  | String a (String b (String c (String d r))) =>
      if is_digit a && is_digit b && is_digit c && is_digit d
      then Some (digits_val 0 (String a (String b (String c (String d EmptyString)))), r)
      else None
  | _ => None
  end.

(** A fractional second that the layout does not name, in nanoseconds: at most
    nine digits count. *)
Fixpoint frac_ns (scale : Z) (s : string) : Z * string :=
  match s with
  | String c r =>
      if is_digit c then
        let '(v, rest) := frac_ns (scale / 10) r in (digit_val c * scale + v, rest)
      else (0, s)
  | EmptyString => (0, EmptyString)
  end.

Definition get_frac (s : string) : Z * string :=
  match s with
  | String c (String d r) =>
      if (Ascii.eqb c "." || Ascii.eqb c ",") && is_digit d
      then frac_ns 100000000 (String d r) else (0, s)
  | _ => (0, s)
  end.

(** ["Z07:00"]: [None] for UTC, the offset in seconds otherwise. *)
Definition get_zone (s : string) : option (option Z * string) :=
  match s with
  | String "Z" r => Some (None, r)
  | String sg r =>
      '(hr, r1) ← getnum r true;
      r2 ← skip_char ":" r1;
      '(mm, r3) ← getnum r2 true;
      if (24 <? hr) || (60 <? mm) then None
      else if Ascii.eqb sg "+" then Some (Some ((hr * 60 + mm) * 60), r3)
      else if Ascii.eqb sg "-" then Some (Some (- ((hr * 60 + mm) * 60)), r3)
      else None
  | EmptyString => None
  end.

Definition get_date (s : string) : option ((Z * Z * Z) * string) :=
  '(y, s) ← get_year s;
  s ← skip_char "-" s;
  '(m, s) ← getnum s true;
  s ← skip_char "-" s;
  '(d, s) ← getnum s true;
  if (m <=? 0) || (12 <? m) then None else Some ((y, m, d), s).

Definition get_clock (s : string) : option ((Z * Z * Z * Z) * string) :=
  '(h, s) ← getnum s false;
  s ← skip_char ":" s;
  '(mi, s) ← getnum s true;
  s ← skip_char ":" s;
  '(sec, s) ← getnum s true;
  if (24 <=? h) || (60 <=? mi) || (60 <=? sec) then None
  else let '(ns, s) := get_frac s in Some ((h, mi, sec, ns), s).

(** [time.Parse(time.RFC3339, s)]; [local] is the process's own zone, which
    the result keeps when the offset is the local one. *)
Definition ParseRFC3339 (local : Location) (s : string) : option time :=
  '((y, m, d), s) ← get_date s;
  s ← skip_char "T" s;
  '((h, mi, sec, ns), s) ← get_clock s;
  '(z, s) ← get_zone s;
  match s with
  | EmptyString =>
      if (1 <=? d) && (d <=? days_in m y) then
        let t := Date y m d h mi sec ns UTC in
        match z with
        | None => Some t
        | Some off =>
            let t' := Add t (- (off * Second)) in
            Some (In t' (if off_at local (unix_sec t') =? off then local else FixedZone off))
        end
      else None
  | _ => None
  end.

(** [time.Parse(time.DateOnly, s)]. *)
Definition ParseDateOnly (s : string) : option time :=
  '((y, m, d), s) ← get_date s;
  match s with
  | EmptyString =>
      if (1 <=? d) && (d <=? days_in m y) then Some (Date y m d 0 0 0 0 UTC) else None
  | _ => None
  end.

(** [time.Parse("15:04", s)] and [time.Parse("15:04:05", s)], as nanoseconds
    of the day. *)
Definition ParseHHMM (s : string) : option Z :=
  '(h, s) ← getnum s false;
  s ← skip_char ":" s;
  '(mi, s) ← getnum s true;
  if (24 <=? h) || (60 <=? mi) then None
  else match s with EmptyString => Some ((h * 60 + mi) * Minute) | _ => None end.

Definition ParseHHMMSS (s : string) : option Z :=
  '((h, mi, sec, ns), s) ← get_clock s;
  match s with EmptyString => Some ((h * 60 + mi) * Minute + sec * Second + ns) | _ => None end.

(** A time of the day as [Format("15:04")] writes it. *)
Definition FormatClock (ns : Z) : string :=
  append_int (ns / Hour) 2 +:+ ":" +:+ append_int (ns / Minute mod 60) 2.

(** [t.Format("2006-01-02")]. *)
Definition FormatDateOnly (t : time) : string :=
  append_int (c_year (DateOf t)) 4 +:+ "-" +:+ append_int (c_month (DateOf t)) 2
  +:+ "-" +:+ append_int (c_day (DateOf t)) 2.

(** [t.Format("15:04")]. *)
Definition FormatHHMM (t : time) : string :=
  append_int (HourOf t) 2 +:+ ":" +:+ append_int (MinuteOf t) 2.

Definition format_zone (off : Z) : string :=
  if off =? 0 then "Z"
  else
    let zone := Z.quot off 60 in
    (if zone <? 0 then "-" else "+") +:+
    append_int (Z.abs zone / 60) 2 +:+ ":" +:+ append_int (Z.abs zone mod 60) 2.

(** [t.Format(time.RFC3339)]. *)
Definition FormatRFC3339 (t : time) : string :=
  FormatDateOnly t +:+ "T" +:+ FormatHHMM t +:+ ":" +:+ append_int (SecondOf t) 2
  +:+ format_zone (offset_of t).

(** ** Facts about the layouts *)

Lemma append_int_2 n s :
  0 <= n < 100 ->
  append_int n 2 +:+ s = String (digit (n / 10)) (String (digit (n mod 10)) s).
Proof.
  intros H. unfold append_int.
  rewrite (proj2 (Z.ltb_ge n 0)), Z.abs_eq by lia.
  change (10 ^ Z.of_nat 2) with 100.
  rewrite (proj2 (Z.ltb_lt n 100)) by lia.
  simpl. rewrite (Z.mod_small (n / 10)) by dlia. done.
Qed.

Lemma append_int_4 n s :
  0 <= n < 10000 ->
  append_int n 4 +:+ s =
  String (digit (n / 1000)) (String (digit (n / 100 mod 10))
    (String (digit (n / 10 mod 10)) (String (digit (n mod 10)) s))).
Proof.
  intros H. unfold append_int.
  rewrite (proj2 (Z.ltb_ge n 0)), Z.abs_eq by lia.
  change (10 ^ Z.of_nat 4) with 10000.
  rewrite (proj2 (Z.ltb_lt n 10000)) by lia.
  simpl. rewrite !Z.div_div by lia. change (10 * 10) with 100. change (10 * 10 * 10) with 1000.
  change (100 * 10) with 1000. change (10 * 100) with 1000.
  rewrite (Z.mod_small (n / 1000)) by dlia. done.
Qed.

Lemma getnum_pad n s b :
  0 <= n < 100 -> getnum (append_int n 2 +:+ s) b = Some (n, s).
Proof.
  intros H. rewrite append_int_2 by done. simpl.
  rewrite !is_digit_digit, !digit_val_digit by dlia. simpl. do 2 f_equal. dlia.
Qed.

Lemma get_year_pad y s :
  0 <= y < 10000 -> get_year (append_int y 4 +:+ s) = Some (y, s).
Proof.
  intros H. rewrite append_int_4 by done. unfold get_year.
  rewrite !is_digit_digit by dlia. unfold digits_val.
  rewrite !digit_val_digit by dlia. simpl. do 2 f_equal. dlia.
Qed.

Lemma app_assoc_str (a b c : string) : (a +:+ b) +:+ c = a +:+ (b +:+ c).
Proof. induction a as [|c' a IH]; [done|]. change (String c' ((a +:+ b) +:+ c) = String c' (a +:+ (b +:+ c))). by rewrite IH. Qed.

Lemma app_nil_str (a : string) : a +:+ "" = a.
Proof. induction a as [|c' a IH]; [done|]. change (String c' (a +:+ "") = String c' a). by rewrite IH. Qed.

Lemma str_cons c s : String c EmptyString +:+ s = String c s.
Proof. reflexivity. Qed.

Lemma skip_char_app c s : skip_char c (String c EmptyString +:+ s) = Some s.
Proof. unfold skip_char. simpl. by rewrite Ascii.eqb_refl. Qed.

(** Read the layout elements one after the other. *)
Ltac read_layout :=
  repeat (first [rewrite get_year_pad by lia | rewrite getnum_pad by dlia
                | rewrite skip_char_app]; cbn -[append_int getnum skip_char get_year]).

Lemma get_date_format t s :
  0 <= c_year (DateOf t) < 10000 ->
  get_date (FormatDateOnly t +:+ s) =
  Some ((c_year (DateOf t), c_month (DateOf t), c_day (DateOf t)), s).
Proof.
  intros Hy. pose proof (DateOf_range t) as Hv. unfold civil_valid in Hv. zbool.
  assert (c_day (DateOf t) < 100) by (unfold days_in in *; repeat case_match; lia).
  unfold get_date, FormatDateOnly. rewrite !app_assoc_str.
  read_layout.
  by rewrite (proj2 (Z.leb_gt _ _)), (proj2 (Z.ltb_ge _ _)) by lia.
Qed.

(** A calendar date survives being written and read back. *)
Lemma ParseDateOnly_format t :
  0 <= c_year (DateOf t) < 10000 ->
  ParseDateOnly (FormatDateOnly t) =
  Some (Date (c_year (DateOf t)) (c_month (DateOf t)) (c_day (DateOf t)) 0 0 0 0 UTC).
Proof.
  intros Hy. pose proof (DateOf_range t) as Hv. unfold civil_valid in Hv. zbool.
  unfold ParseDateOnly.
  pose proof (get_date_format t "" Hy) as E.
  replace (FormatDateOnly t +:+ "") with (FormatDateOnly t) in E
    by (symmetry; apply app_nil_str).
  rewrite E. simpl. by rewrite !(proj2 (Z.leb_le _ _)) by lia.
Qed.

Lemma sforallb_app p a b : sforallb p (a +:+ b) = sforallb p a && sforallb p b.
Proof.
  induction a as [|c a IH]; [done|].
  change (p c && sforallb p (a +:+ b) = (p c && sforallb p a) && sforallb p b).
  by rewrite IH, andb_assoc.
Qed.

Lemma sforallb_impl (p q : ascii -> bool) s :
  (forall c, p c = true -> q c = true) -> sforallb p s = true -> sforallb q s = true.
Proof.
  intros H. induction s as [|c s IH]; [done|]. cbn. intros [Hc Hs]%andb_true_iff. by rewrite H, IH.
Qed.

(** What a date is written with. *)
Definition date_char (c : ascii) : bool := is_digit c || Ascii.eqb c "-".

Lemma getnum_chars s n r :
  getnum s true = Some (n, r) -> sforallb date_char r = true -> sforallb date_char s = true.
Proof.
  destruct s as [|a [|b s]]; cbn; [done|by destruct (is_digit a)|].
  destruct (is_digit a) eqn:Ea, (is_digit b) eqn:Eb; cbn; try done.
  intros [= _ <-] ->. unfold date_char. by rewrite Ea, Eb.
Qed.

Lemma skip_dash_chars s r :
  skip_char "-" s = Some r -> sforallb date_char r = true -> sforallb date_char s = true.
Proof.
  destruct s as [|a s]; cbn; [done|]. destruct (Ascii.eqb a "-") eqn:Ea; [|done].
  intros [= ->] ->. unfold date_char. by rewrite Ea, orb_true_r.
Qed.

Lemma get_year_chars s y r :
  get_year s = Some (y, r) -> sforallb date_char r = true -> sforallb date_char s = true.
Proof.
  destruct s as [|a [|b [|c [|d s]]]]; try done. unfold get_year.
  destruct (is_digit a && is_digit b && is_digit c && is_digit d) eqn:E; [|done].
  intros [= _ <-] Hr. zbool. unfold date_char in *. cbn [sforallb]. by rewrite Hr, H, H0, H1, H2.
Qed.

(** A text with anything but digits and dashes is not a date. *)
Lemma ParseDateOnly_chars s t : ParseDateOnly s = Some t -> sforallb date_char s = true.
Proof.
  unfold ParseDateOnly, get_date.
  destruct (get_year s) as [[y s1]|] eqn:E1; [cbn|done].
  destruct (skip_char "-" s1) as [s2|] eqn:E2; [cbn|done].
  destruct (getnum s2 true) as [[m s3]|] eqn:E3; [cbn|done].
  destruct (skip_char "-" s3) as [s4|] eqn:E4; [cbn|done].
  destruct (getnum s4 true) as [[d s5]|] eqn:E5; [cbn|done].
  destruct (_ || _); [done|]. cbn. destruct s5 as [|]; [|done]. intros _.
  eapply get_year_chars, skip_dash_chars, getnum_chars, skip_dash_chars, getnum_chars; by eauto.
Qed.

Lemma ParseDateOnly_RFC3339 t : ParseDateOnly (FormatRFC3339 t) = None.
Proof.
  destruct (ParseDateOnly _) as [u|] eqn:E; [|done]. apply ParseDateOnly_chars in E.
  unfold FormatRFC3339 in E. rewrite !sforallb_app in E. cbn in E.
  by rewrite andb_false_r in E.
Qed.

Lemma get_clock_format t s :
  (forall c r, s = String c r -> is_digit c = false /\ c <> "."%char /\ c <> ","%char) ->
  get_clock (FormatHHMM t +:+ ":" +:+ append_int (SecondOf t) 2 +:+ s) =
  Some ((HourOf t, MinuteOf t, SecondOf t, 0), s).
Proof.
  intros Hs.
  pose proof (HourOf_range t). pose proof (MinuteOf_range t).
  assert (0 <= SecondOf t < 60) by (unfold SecondOf; dlia).
  unfold get_clock, FormatHHMM. rewrite !app_assoc_str.
  read_layout.
  rewrite !(proj2 (Z.leb_gt _ _)) by lia. simpl.
  replace (get_frac s) with (0, s); [done|].
  destruct s as [|c [|d r]]; simpl; [done..|].
  destruct (Hs c _ eq_refl) as (_ & N1 & N2).
  destruct (Ascii.eqb_spec c "."), (Ascii.eqb_spec c ","); done.
Qed.

(** The offset a zone suffix writes. *)
Definition zone_reads (off : Z) : option Z := if off =? 0 then None else Some off.

Lemma get_zone_format off :
  - day_secs < off < day_secs -> off mod 60 = 0 ->
  get_zone (format_zone off) = Some (zone_reads off, "").
Proof.
  intros Hb Hm. unfold format_zone, zone_reads, day_secs in *.
  destruct (Z.eqb_spec off 0) as [|Hz]; [done|].
  assert (Hq : exists q, off = q * 60) by (exists (off / 60); dlia). destruct Hq as [q ->].
  rewrite Z.quot_mul by done.
  assert (Hm2 : getnum (append_int (Z.abs q mod 60) 2) true = Some (Z.abs q mod 60, "")).
  { rewrite <- (app_nil_str (append_int _ _)). apply getnum_pad. dlia. }
  destruct (Z.ltb_spec q 0); rewrite str_cons; unfold get_zone;
    cbn -[append_int getnum skip_char];
    read_layout; rewrite Hm2; cbn -[append_int getnum];
    rewrite !(proj2 (Z.ltb_ge _ _)) by dlia; simpl; do 3 f_equal; dlia.
Qed.

(** The instant of a written time is read back, whatever the local zone: years
    0 to 9999, whole seconds, an offset of whole minutes. *)
Lemma ParseRFC3339_format local t :
  loc_ok (t_loc t) = true ->
  0 <= c_year (DateOf t) < 10000 -> t_ns t mod Second = 0 -> offset_of t mod 60 = 0 ->
  exists t', ParseRFC3339 local (FormatRFC3339 t) = Some t' /\ t_ns t' = t_ns t.
Proof.
  intros Hok Hy Hs Ho. pose proof (DateOf_range t) as Hv. unfold civil_valid in Hv. zbool.
  unfold ParseRFC3339, FormatRFC3339.
  rewrite get_date_format by done. cbn -[get_clock get_zone FormatHHMM append_int format_zone skip_char].
  rewrite skip_char_app. cbn -[get_clock get_zone FormatHHMM append_int format_zone].
  rewrite get_clock_format.
  2:{ intros c r. unfold format_zone. intros Hc.
      repeat case_match; try rewrite str_cons in Hc; injection Hc as <- _; done. }
  cbn -[get_zone format_zone].
  rewrite get_zone_format by (done || by apply off_at_bound). cbn -[Date].
  rewrite !(proj2 (Z.leb_le _ _)) by lia. cbn -[Date].
  assert (E : t_ns (Date (c_year (DateOf t)) (c_month (DateOf t)) (c_day (DateOf t))
      (HourOf t) (MinuteOf t) (SecondOf t) 0 UTC) = t_ns t + offset_of t * Second).
  { unfold Date. rewrite resolve_UTC. cbn [t_ns].
    change (0 / Second) with 0. change (0 mod Second) with 0.
    rewrite naive_sec_valid by lia. rewrite !Z.add_0_r, <- local_sec_fields.
    unfold local_sec, unix_sec. unfold Second in *. dlia. }
  unfold zone_reads. destruct (Z.eqb_spec (offset_of t) 0) as [E0|E0].
  - eexists. split; [done|]. rewrite E, E0. lia.
  - eexists. split; [done|]. unfold Add, In. cbn [t_ns]. rewrite E. lia.
Qed.

Lemma getnum_nonneg s b n r : getnum s b = Some (n, r) -> 0 <= n.
Proof.
  unfold getnum. destruct s as [|a s]; [done|]. destruct (is_digit a) eqn:Ea; [|done].
  assert (0 <= digit_val a) by (unfold is_digit, digit_val in *; lia).
  destruct s as [|c s]; [destruct b; [done|]; by intros [= <- _]|].
  destruct (is_digit c) eqn:Ec; [|destruct b; [done|]; by intros [= <- _]].
  assert (0 <= digit_val c) by (unfold is_digit, digit_val in *; lia). intros [= <- _]. lia.
Qed.

Lemma ParseHHMM_range s ns : ParseHHMM s = Some ns ->
  exists h m, ns = (h * 60 + m) * Minute /\ 0 <= h < 24 /\ 0 <= m < 60.
Proof.
  unfold ParseHHMM. destruct (getnum _ false) as [[h r1]|] eqn:Eh; [|done]. cbn [mbind option_bind].
  destruct (skip_char _ _); [|done]. cbn [mbind option_bind].
  destruct (getnum s0 true) as [[m r2]|] eqn:Em; [|done]. cbn [mbind option_bind].
  destruct (_ || _) eqn:Eb; [done|]. destruct r2; [|done]. intros [= <-].
  apply getnum_nonneg in Eh, Em. exists h, m. split; [done|]. lia.
Qed.
