(* ===== verification/GoEncoding.v ===== *)
(** * [encoding/base64], [strings.Split] and decimal numbers

    The strict encodings the code uses, the standard alphabet with padding and
    the URL alphabet without (the decoder skips line ends, as Go's does), the
    splitting of a string, and the decimal form of a number read back. *)

From Stdlib Require Import DecimalString DecimalPos DecimalZ.
From S2P Require Import Prelude GoInt GoTime GoText.

#[local] Open Scope string_scope.
#[local] Open Scope Z_scope.

(** ** Bytes *)

Definition char (k : Z) : ascii := ascii_of_nat (Z.to_nat k).

Lemma byte_of_range c : 0 <= byte_of c < 256.
Proof. unfold byte_of. pose proof (nat_ascii_bounded c). lia. Qed.

Lemma byte_of_char k : 0 <= k < 256 -> byte_of (char k) = k.
Proof. intros H. unfold byte_of, char. rewrite nat_ascii_embedding; lia. Qed.

Lemma char_byte_of c : char (byte_of c) = c.
Proof. unfold byte_of, char. by rewrite Nat2Z.id, ascii_nat_embedding. Qed.

(** ** Alphabets *)

(** An encoding: the last two characters of its alphabet, and its padding. *)
Record Encoding := { enc_62 : ascii; enc_63 : ascii; enc_pad : option ascii }.

Definition StdEncoding : Encoding := {| enc_62 := "+"; enc_63 := "/"; enc_pad := Some "="%char |}.
Definition RawURLEncoding : Encoding := {| enc_62 := "-"; enc_63 := "_"; enc_pad := None |}.

Definition enc_char (e : Encoding) (k : Z) : ascii :=
  if k <? 26 then char (65 + k)
  else if k <? 52 then char (97 + (k - 26))
  else if k <? 62 then char (48 + (k - 52))
  else if k =? 62 then enc_62 e else enc_63 e.

Definition dec_char (e : Encoding) (c : ascii) : option Z :=
  if is_upper c then Some (byte_of c - 65)
  else if is_lower c then Some (byte_of c - 97 + 26)
  else if is_digit c then Some (byte_of c - 48 + 52)
  else if Ascii.eqb c (enc_62 e) then Some 62
  else if Ascii.eqb c (enc_63 e) then Some 63
  else None.

(** ** Encoding and decoding *)

(** The characters of one, two and three bytes. *)
Definition enc1 (e : Encoding) (a : Z) (s : string) : string :=
  String (enc_char e (a / 4)) (String (enc_char e (a mod 4 * 16)) s).
Definition enc2 (e : Encoding) (a b : Z) (s : string) : string :=
  String (enc_char e (a / 4)) (String (enc_char e (a mod 4 * 16 + b / 16))
    (String (enc_char e (b mod 16 * 4)) s)).
Definition enc3 (e : Encoding) (a b c : Z) (s : string) : string :=
  String (enc_char e (a / 4)) (String (enc_char e (a mod 4 * 16 + b / 16))
    (String (enc_char e (b mod 16 * 4 + c / 64)) (String (enc_char e (c mod 64)) s))).

Definition pad1 (e : Encoding) : string :=
  match enc_pad e with Some p => String p "" | None => "" end.
Definition pad2 (e : Encoding) : string :=
  match enc_pad e with Some p => String p (String p "") | None => "" end.

Fixpoint EncodeToString (e : Encoding) (s : string) : string :=
  match s with
  | EmptyString => ""
  | String a EmptyString => enc1 e (byte_of a) (pad2 e)
  | String a (String b EmptyString) => enc2 e (byte_of a) (byte_of b) (pad1 e)
  | String a (String b (String c r)) =>
      enc3 e (byte_of a) (byte_of b) (byte_of c) (EncodeToString e r)
  end.

(** The last group of two or three characters; [Strict] wants the unused bits
    to be zero. *)
Definition dec_tail (e : Encoding) (s : string) : option string :=
  match s with
  | String a (String b EmptyString) =>
      x ← dec_char e a; y ← dec_char e b;
      if y mod 16 =? 0 then Some (String (char (x * 4 + y / 16)) "") else None
  | String a (String b (String c EmptyString)) =>
      x ← dec_char e a; y ← dec_char e b; z ← dec_char e c;
      if z mod 4 =? 0
      then Some (String (char (x * 4 + y / 16)) (String (char (y mod 16 * 16 + z / 4)) ""))
      else None
  | _ => None
  end.

(** A group that ends with padding. *)
Definition dec_padded (e : Encoding) (a b c d : ascii) (r : string) : option string :=
  match enc_pad e, r with
  | Some p, EmptyString =>
      if negb (Ascii.eqb d p) then None
      else if Ascii.eqb c p then dec_tail e (String a (String b ""))
      else dec_tail e (String a (String b (String c "")))
  | _, _ => None
  end.

Definition dec_quad (e : Encoding) (a b c d : ascii) : option (Z * Z * Z * Z) :=
  x ← dec_char e a; y ← dec_char e b; z ← dec_char e c; w ← dec_char e d; Some (x, y, z, w).

Fixpoint decode_groups (e : Encoding) (s : string) : option string :=
  match s with
  | EmptyString => Some ""
  | String a (String b (String c (String d r))) =>
      match dec_quad e a b c d with
      | Some (x, y, z, w) =>
          t ← decode_groups e r;
          Some (String (char (x * 4 + y / 16)) (String (char (y mod 16 * 16 + z / 4))
                 (String (char (z mod 4 * 64 + w)) t)))
      | None => dec_padded e a b c d r
      end
  | _ => match enc_pad e with None => dec_tail e s | Some _ => None end
  end.

Definition line_end (c : ascii) : bool := (byte_of c =? 10) || (byte_of c =? 13).

Fixpoint sfilter (p : ascii -> bool) (s : string) : string :=
  match s with
  | EmptyString => ""
  | String c r => if p c then String c (sfilter p r) else sfilter p r
  end.

(** [enc.Strict().DecodeString(s)], [None] for an error. *)
Definition DecodeStrict (e : Encoding) (s : string) : option string :=
  decode_groups e (sfilter (fun c => negb (line_end c)) s).

(** [enc.DecodeString(s)] for an encoding without padding: the unused bits of
    the last group are ignored. *)
Definition lax_tail (e : Encoding) (s : string) : option string :=
  match s with
  | String a (String b EmptyString) =>
      x ← dec_char e a; y ← dec_char e b; Some (String (char (x * 4 + y / 16)) "")
  | String a (String b (String c EmptyString)) =>
      x ← dec_char e a; y ← dec_char e b; z ← dec_char e c;
      Some (String (char (x * 4 + y / 16)) (String (char (y mod 16 * 16 + z / 4)) ""))
  | _ => None
  end.

Fixpoint lax_groups (e : Encoding) (s : string) : option string :=
  match s with
  | EmptyString => Some ""
  | String a (String b (String c (String d r))) =>
      match dec_quad e a b c d with
      | Some (x, y, z, w) =>
          t ← lax_groups e r;
          Some (String (char (x * 4 + y / 16)) (String (char (y mod 16 * 16 + z / 4))
                 (String (char (z mod 4 * 64 + w)) t)))
      | None => None
      end
  | _ => lax_tail e s
  end.

Definition DecodeRaw (e : Encoding) (s : string) : option string :=
  lax_groups e (sfilter (fun c => negb (line_end c)) s).

(** ** Facts *)

(** What an alphabet needs: its last two characters are no letter or digit,
    differ from each other, and the padding is no character of the alphabet. *)
Definition enc_ok (e : Encoding) : bool :=
  forallb (fun k => match dec_char e (enc_char e (Z.of_nat k)) with
                    | Some j => j =? Z.of_nat k | None => false end) (List.seq 0 64) &&
  forallb (fun k => negb (line_end (enc_char e (Z.of_nat k)))) (List.seq 0 64) &&
  match enc_pad e with
  | Some p => match dec_char e p with None => negb (line_end p) | Some _ => false end
  | None => true
  end.

Lemma StdEncoding_ok : enc_ok StdEncoding = true. Proof. by vm_compute. Qed.
Lemma RawURLEncoding_ok : enc_ok RawURLEncoding = true. Proof. by vm_compute. Qed.

Lemma forallb_seq64 p k :
  forallb (fun n => p (Z.of_nat n)) (List.seq 0 64) = true -> 0 <= k < 64 -> p k = true.
Proof.
  intros H Hk. rewrite forallb_forall in H. specialize (H (Z.to_nat k)).
  rewrite Z2Nat.id in H by lia. apply H, in_seq. lia.
Qed.

Section RoundTrip.
Context (e : Encoding) (He : enc_ok e = true).

Lemma dec_enc_char k : 0 <= k < 64 -> dec_char e (enc_char e k) = Some k.
Proof.
  intros Hk. unfold enc_ok in He. apply andb_true_iff in He as [[H1 _]%andb_true_iff _].
  apply (forallb_seq64 (fun k => match dec_char e (enc_char e k) with
    | Some j => j =? k | None => false end) k) in H1; [|done].
  destruct (dec_char _ _); [|done]. f_equal. lia.
Qed.

Lemma enc_char_line k : 0 <= k < 64 -> line_end (enc_char e k) = false.
Proof.
  intros Hk. unfold enc_ok in He. apply andb_true_iff in He as [[_ H1]%andb_true_iff _].
  apply (forallb_seq64 (fun k => negb (line_end (enc_char e k))) k) in H1; [|done].
  by apply negb_true_iff in H1.
Qed.

Lemma pad_no_char p : enc_pad e = Some p -> dec_char e p = None /\ line_end p = false.
Proof.
  intros Hp. unfold enc_ok in He. rewrite Hp in He. apply andb_true_iff in He as [_ H].
  destruct (dec_char e p); [done|]. split; [done|]. by apply negb_true_iff in H.
Qed.

(** Induction by three characters. *)
Lemma string_ind3 (P : string -> Prop) :
  P "" -> (forall a, P (String a "")) -> (forall a b, P (String a (String b ""))) ->
  (forall a b c r, P r -> P (String a (String b (String c r)))) -> forall s, P s.
Proof.
  intros H0 H1 H2 H3. fix IH 1. intros [|a [|b [|c r]]]; [done|apply H1|apply H2|apply H3, IH].
Qed.

Lemma sfilter_enc3 a b c s :
  0 <= a < 256 -> 0 <= b < 256 -> 0 <= c < 256 ->
  sfilter (fun c => negb (line_end c)) (enc3 e a b c s) =
  enc3 e a b c (sfilter (fun c => negb (line_end c)) s).
Proof. intros. unfold enc3. cbn [sfilter]. by rewrite !enc_char_line by dlia. Qed.

Lemma sfilter_pad :
  sfilter (fun c => negb (line_end c)) (pad1 e) = pad1 e /\
  sfilter (fun c => negb (line_end c)) (pad2 e) = pad2 e.
Proof.
  unfold pad1, pad2. destruct (enc_pad e) as [p|] eqn:Ep; [|done]. cbn [sfilter].
  by destruct (pad_no_char p Ep) as [_ ->].
Qed.

Lemma enc_sfilter s :
  sfilter (fun c => negb (line_end c)) (EncodeToString e s) = EncodeToString e s.
Proof.
  destruct sfilter_pad as [Hp1 Hp2].
  induction s as [|a|a b|a b c r IH] using string_ind3; [done| | |].
  - pose proof (byte_of_range a). cbn [EncodeToString]. unfold enc1. cbn [sfilter].
    rewrite !enc_char_line by dlia. cbn [negb]. by rewrite Hp2.
  - pose proof (byte_of_range a). pose proof (byte_of_range b).
    cbn [EncodeToString]. unfold enc2. cbn [sfilter].
    rewrite !enc_char_line by dlia. cbn [negb]. by rewrite Hp1.
  - pose proof (byte_of_range a). pose proof (byte_of_range b). pose proof (byte_of_range c).
    cbn [EncodeToString]. by rewrite sfilter_enc3, IH.
Qed.

Lemma char_recompose a k : k = byte_of a -> char k = a.
Proof. intros ->. apply char_byte_of. Qed.

Lemma dec_tail_enc1 a :
  dec_tail e (enc1 e (byte_of a) "") = Some (String a "").
Proof.
  pose proof (byte_of_range a). unfold dec_tail, enc1. rewrite !dec_enc_char by dlia. cbn.
  replace (byte_of a mod 4 * 16 mod 16 =? 0) with true by (symmetry; apply Z.eqb_eq; dlia).
  do 2 f_equal. apply char_recompose. dlia.
Qed.

Lemma dec_tail_enc2 a b :
  dec_tail e (enc2 e (byte_of a) (byte_of b) "") = Some (String a (String b "")).
Proof.
  pose proof (byte_of_range a). pose proof (byte_of_range b).
  unfold dec_tail, enc2. rewrite !dec_enc_char by dlia. cbn.
  replace (byte_of b mod 16 * 4 mod 4 =? 0) with true by (symmetry; apply Z.eqb_eq; dlia).
  do 2 f_equal; [apply char_recompose; dlia|]. f_equal. apply char_recompose. dlia.
Qed.

Lemma decode_enc3 a b c r :
  decode_groups e (enc3 e (byte_of a) (byte_of b) (byte_of c) r) =
  t ← decode_groups e r; Some (String a (String b (String c t))).
Proof.
  pose proof (byte_of_range a). pose proof (byte_of_range b). pose proof (byte_of_range c).
  unfold enc3. cbn [decode_groups]. unfold dec_quad. rewrite !dec_enc_char by dlia. cbn.
  destruct (decode_groups e r) as [t|]; [|done]. cbn. do 2 f_equal; [apply char_recompose; dlia|].
  f_equal; [apply char_recompose; dlia|]. f_equal. apply char_recompose. dlia.
Qed.

Lemma decode_enc1 a :
  decode_groups e (enc1 e (byte_of a) (pad2 e)) = Some (String a "").
Proof.
  rewrite <- dec_tail_enc1. unfold pad2, enc1. destruct (enc_pad e) as [p|] eqn:Ep.
  - destruct (pad_no_char p Ep) as [Hp _]. pose proof (byte_of_range a).
    cbn [decode_groups]. unfold dec_quad. rewrite !dec_enc_char, Hp by dlia. cbn -[dec_tail].
    unfold dec_padded. by rewrite Ep, !Ascii.eqb_refl.
  - cbn [decode_groups]. by rewrite Ep.
Qed.

Lemma decode_enc2 a b :
  decode_groups e (enc2 e (byte_of a) (byte_of b) (pad1 e)) = Some (String a (String b "")).
Proof.
  rewrite <- dec_tail_enc2. unfold pad1, enc2. destruct (enc_pad e) as [p|] eqn:Ep.
  - destruct (pad_no_char p Ep) as [Hp _]. pose proof (byte_of_range a). pose proof (byte_of_range b).
    cbn [decode_groups]. unfold dec_quad. rewrite !dec_enc_char, Hp by dlia. cbn -[dec_tail].
    unfold dec_padded. rewrite Ep, Ascii.eqb_refl. cbn [negb].
    destruct (Ascii.eqb_spec (enc_char e (byte_of b mod 16 * 4)) p) as [Heq|]; [|done].
    rewrite <- Heq, dec_enc_char in Hp by dlia. done.
  - cbn [decode_groups]. by rewrite Ep.
Qed.

(** What is encoded is decoded. *)
Lemma DecodeStrict_Encode s : DecodeStrict e (EncodeToString e s) = Some s.
Proof.
  unfold DecodeStrict. rewrite enc_sfilter.
  induction s as [|a|a b|a b c r IH] using string_ind3; [done|apply decode_enc1|apply decode_enc2|].
  cbn [EncodeToString]. by rewrite decode_enc3, IH.
Qed.

Lemma dec_lax_tail s t : dec_tail e s = Some t -> lax_tail e s = Some t.
Proof.
  destruct s as [|a [|b [|c [|d r]]]]; try done; cbn [dec_tail lax_tail];
    destruct (dec_char e a); [|done| |done]; cbn [mbind option_bind]; destruct (dec_char e b); try done; cbn [mbind option_bind].
  - by destruct (_ =? 0).
  - destruct (dec_char e c); [|done]. cbn [mbind option_bind]. by destruct (_ =? 0).
Qed.

(** What the strict decoder reads, the other one reads alike. *)
Lemma DecodeStrict_lax s t : enc_pad e = None -> DecodeStrict e s = Some t -> DecodeRaw e s = Some t.
Proof.
  intros Hp. unfold DecodeStrict, DecodeRaw. generalize (sfilter (fun c => negb (line_end c)) s). clear s.
  intros s. revert s t. fix IH 1. intros [|a [|b [|c [|d r]]]] t; [done| | | |];
    try (cbn [decode_groups lax_groups]; rewrite Hp; apply dec_lax_tail).
  cbn [decode_groups lax_groups]. destruct (dec_quad e a b c d) as [[[[x y] z] w]|].
  - destruct (decode_groups e r) as [u|] eqn:E; [|done]. cbn [mbind option_bind].
    by rewrite (IH r u E).
  - unfold dec_padded. by rewrite Hp.
Qed.

Lemma DecodeRaw_Encode s : enc_pad e = None -> DecodeRaw e (EncodeToString e s) = Some s.
Proof. intros Hp. by apply DecodeStrict_lax, DecodeStrict_Encode. Qed.

Lemma Encode_chars (p : ascii -> bool) s :
  enc_pad e = None -> (forall k, 0 <= k < 64 -> p (enc_char e k) = true) ->
  sforallb p (EncodeToString e s) = true.
Proof.
  intros Hn Hp. assert (Hpad : pad1 e = "" /\ pad2 e = "") by (unfold pad1, pad2; by rewrite Hn).
  destruct Hpad as [Hp1 Hp2].
  induction s as [|a|a b|a b c r IH] using string_ind3; [done| | |].
  - pose proof (byte_of_range a). cbn [EncodeToString]. rewrite Hp2. unfold enc1.
    cbn [sforallb]. by rewrite !Hp by dlia.
  - pose proof (byte_of_range a). pose proof (byte_of_range b). cbn [EncodeToString].
    rewrite Hp1. unfold enc2. cbn [sforallb]. by rewrite !Hp by dlia.
  - pose proof (byte_of_range a). pose proof (byte_of_range b). pose proof (byte_of_range c).
    cbn [EncodeToString]. unfold enc3. cbn [sforallb]. by rewrite !Hp, IH by dlia.
Qed.
End RoundTrip.

(** ** Splitting *)

(** [strings.Split(s, string(sep))]. *)
Fixpoint Split (sep : ascii) (s : string) : list string :=
  match s with
  | EmptyString => [""]
  | String c r =>
      if Ascii.eqb c sep then "" :: Split sep r
      else match Split sep r with
           | h :: t => String c h :: t
           | [] => [String c ""]
           end
  end.

Lemma Split_nonempty sep s : Split sep s <> [].
Proof. destruct s as [|c r]; simpl; [done|]. destruct (Ascii.eqb c sep); [done|]. by destruct (Split sep r). Qed.

Lemma Split_none sep s : sforallb (fun c => negb (Ascii.eqb c sep)) s = true -> Split sep s = [s].
Proof.
  induction s as [|c r IH]; [done|]. cbn [sforallb Split].
  destruct (Ascii.eqb c sep); [done|]. intros H. by rewrite IH.
Qed.

Lemma Split_app sep a b :
  sforallb (fun c => negb (Ascii.eqb c sep)) a = true ->
  Split sep (a +:+ String sep b) = a :: Split sep b.
Proof.
  induction a as [|c r IH]; intros H.
  - change ("" +:+ String sep b) with (String sep b). cbn [Split]. by rewrite Ascii.eqb_refl.
  - change (String c r +:+ String sep b) with (String c (r +:+ String sep b)). cbn [Split].
    cbn [sforallb] in H. destruct (Ascii.eqb c sep); [done|]. by rewrite IH.
Qed.

(** [strings.HasPrefix]. *)
Definition HasPrefix (s p : string) : bool := String.prefix p s.

Lemma HasPrefix_app p s : HasPrefix (p +:+ s) p = true.
Proof.
  unfold HasPrefix. induction p as [|c p IH]; [by destruct s|].
  change (String c p +:+ s) with (String c (p +:+ s)). simpl. by destruct (ascii_dec c c).
Qed.

(** ** Decimal numbers *)

Lemma digits_val_uint_acc u acc :
  digits_val (Zpos acc) (NilEmpty.string_of_uint u) = Zpos (Pos.of_uint_acc u acc).
Proof.
  revert acc. induction u as [|u IH|u IH|u IH|u IH|u IH|u IH|u IH|u IH|u IH|u IH]; intros acc;
    [done|..]; cbn [NilEmpty.string_of_uint digits_val Pos.of_uint_acc]; rewrite <- IH; f_equal;
    match goal with |- context [digit_val ?c] =>
      let v := eval vm_compute in (digit_val c) in change (digit_val c) with v end; lia.
Qed.

Lemma digits_val_uint u : digits_val 0 (NilEmpty.string_of_uint u) = Z.of_N (Pos.of_uint u).
Proof.
  induction u as [|u IH|u IH|u IH|u IH|u IH|u IH|u IH|u IH|u IH|u IH]; [done|done|..];
    cbn [NilEmpty.string_of_uint digits_val Pos.of_uint Z.of_N]; rewrite <- digits_val_uint_acc;
    reflexivity.
Qed.

Lemma nzhead_D0 u v : Decimal.nzhead u <> Decimal.D0 v.
Proof. by induction u. Qed.

Lemma unorm_D0 u v : Decimal.unorm u = Decimal.D0 v -> v = Decimal.Nil.
Proof.
  unfold Decimal.unorm. destruct (Decimal.nzhead u) eqn:E; [by intros [= <-]| |done..].
  intros _. by destruct (nzhead_D0 u u0).
Qed.

(** A positive number is written in digits, the first of them no zero, that
    read back as the number. *)
Lemma itoa_pos n : 0 < n ->
  digits_val 0 (itoa n) = n /\ sforallb is_digit (itoa n) = true /\
  exists c r, itoa n = String c r /\ c <> "0"%char.
Proof.
  intros Hn. destruct n as [|p|]; [done| |done].
  pose proof (DecimalPos.Unsigned.of_to p) as Hof.
  pose proof (DecimalPos.Unsigned.to_uint_nonnil p) as Hnil.
  assert (Hu : Decimal.unorm (Pos.to_uint p) = Pos.to_uint p).
  { rewrite <- DecimalPos.Unsigned.to_of, Hof. reflexivity. }
  unfold itoa. cbn [Z.to_int NilZero.string_of_int].
  assert (Hs : NilZero.string_of_uint (Pos.to_uint p) = NilEmpty.string_of_uint (Pos.to_uint p))
    by (by destruct (Pos.to_uint p)).
  rewrite Hs. split; [|split].
  - by rewrite digits_val_uint, Hof.
  - generalize (Pos.to_uint p). intros u. by induction u.
  - destruct (Pos.to_uint p) as [|u|u|u|u|u|u|u|u|u|u] eqn:E; [done| |by eexists _, _..].
    apply unorm_D0 in Hu as ->. by destruct (DecimalPos.Unsigned.to_uint_nonzero p).
Qed.

(** A number has no more digits than its size. *)
Lemma digits_val_lower s acc :
  sforallb is_digit s = true -> 0 <= acc ->
  acc * 10 ^ Z.of_nat (String.length s) <= digits_val acc s.
Proof.
  revert acc. induction s as [|c s IH]; intros acc Hd Ha; [cbn; lia|].
  cbn [sforallb String.length digits_val] in *. apply andb_true_iff in Hd as [Hc Hd].
  unfold is_digit in Hc. zbool. assert (0 <= digit_val c) by (unfold digit_val; lia).
  rewrite Nat2Z.inj_succ, Z.pow_succ_r by lia.
  assert (0 < 10 ^ Z.of_nat (String.length s)) by (apply Z.pow_pos_nonneg; lia).
  specialize (IH (10 * acc + digit_val c) Hd ltac:(lia)). nia.
Qed.

Lemma itoa_length n k : 0 < n -> n < 10 ^ Z.of_nat k -> (String.length (itoa n) <= k)%nat.
Proof.
  intros Hn Hk. destruct (itoa_pos n Hn) as (Hv & Hd & c & r & E & Hc).
  rewrite E in *. cbn [sforallb] in Hd. apply andb_true_iff in Hd as [Hcd Hd].
  assert (1 <= digit_val c).
  { unfold is_digit, digit_val in *. zbool. assert (byte_of c <> 48); [|lia].
    intros Hz. apply Hc. rewrite <- (char_byte_of c), Hz. done. }
  cbn [digits_val] in Hv.
  pose proof (digits_val_lower r (10 * 0 + digit_val c) Hd ltac:(lia)) as Hl. rewrite Hv in Hl.
  cbn [String.length]. apply Nat.le_succ_l. apply Nat2Z.inj_lt.
  assert (0 < 10 ^ Z.of_nat (String.length r)) by (apply Z.pow_pos_nonneg; lia).
  apply (Z.pow_lt_mono_r_iff 10); [lia|lia|].
  eapply Z.le_lt_trans; [|exact Hk]. eapply Z.le_trans; [|exact Hl]. nia.
Qed.
