(* ===== verification/Interval.v ===== *)
(** * Busy and free time: interval algebra of the engine

    [engine/focus_time.go] ([interval], [mergeIntervals], [subtractIntervals],
    [sortIntervals]) and [engine/booking.go] ([overlapsMerged]).  Every
    availability computation of the backend goes through these functions.  An
    interval covers the instants from its start (included) to its end
    (excluded). *)

From S2P Require Import Prelude GoInt GoTime.

Record interval := Iv { iv_start : time; iv_end : time }.

(** ** Operations *)

(** One pass of the inner loop of [sortIntervals]: [x] is moved down past the
    elements that start strictly later; the prefix is given in reverse. *)
Fixpoint sift (x : interval) (rprefix : list interval) : list interval :=
  match rprefix with
  | y :: r => if Before (iv_start x) (iv_start y) then y :: sift x r else x :: y :: r
  | [] => [x]
  end.

(** The outer loop: insertion sort in place. *)
Definition sortIntervals (ivs : list interval) : list interval :=
  rev (fold_left (fun rprefix x => sift x rprefix) ivs []).

(** [mergeIntervals] after the sort: [last] is the last merged interval. *)
Fixpoint merge_from (last : interval) (ivs : list interval) : list interval :=
  match ivs with
  | [] => [last]
  | iv :: r =>
      if negb (After (iv_start iv) (iv_end last)) then
        merge_from (if After (iv_end iv) (iv_end last)
                    then Iv (iv_start last) (iv_end iv) else last) r
      else last :: merge_from iv r
  end.

Definition mergeIntervals (ivs : list interval) : list interval :=
  match sortIntervals ivs with
  | [] => []
  | iv :: r => merge_from iv r
  end.

(** What one busy interval leaves of one free interval. *)
Definition subtract_one (b f : interval) : list interval :=
  if Before (iv_end b) (iv_start f) || After (iv_start b) (iv_end f) then [f]
  else
    (if Before (iv_start f) (iv_start b) then [Iv (iv_start f) (iv_start b)] else []) ++
    (if Before (iv_end b) (iv_end f) then [Iv (iv_end b) (iv_end f)] else []).

Definition subtractIntervals (whole : interval) (busy : list interval) : list interval :=
  fold_left (fun free b => flat_map (subtract_one b) free) busy [whole].

Definition overlaps (a b : interval) : bool :=
  Before (iv_start a) (iv_end b) && After (iv_end a) (iv_start b).

Definition overlapsMerged (iv : interval) (merged : list interval) : bool :=
  existsb (overlaps iv) merged.

(** ** Specification *)

Definition covers (iv : interval) (x : Z) : Prop :=
  t_ns (iv_start iv) <= x < t_ns (iv_end iv).

Definition covered (ivs : list interval) (x : Z) : Prop :=
  exists iv, iv ∈ ivs /\ covers iv x.

(** Not inverted. *)
Definition proper (iv : interval) : Prop := t_ns (iv_start iv) <= t_ns (iv_end iv).

Definition starts_le (a b : interval) : Prop := t_ns (iv_start a) <= t_ns (iv_start b).

(** [a] ends strictly before [b] starts. *)
Definition apart (a b : interval) : Prop := t_ns (iv_end a) < t_ns (iv_start b).

(** [a] ends no later than [b] starts. *)
Definition ordered (a b : interval) : Prop := t_ns (iv_end a) <= t_ns (iv_start b).

(** [iv] lies inside [whole]. *)
Definition within (whole iv : interval) : Prop :=
  t_ns (iv_start whole) <= t_ns (iv_start iv) /\ t_ns (iv_end iv) <= t_ns (iv_end whole).

(** Two interval lists that cover the same instants: the equality the
    availability computations respect. *)
Definition same_cover (l1 l2 : list interval) : Prop := forall x, covered l1 x <-> covered l2 x.

#[export] Instance same_cover_equiv : Equivalence same_cover.
Proof.
  split; red; unfold same_cover; [done| |].
  - intros a b H x. by rewrite H.
  - intros a b c H H' x. by rewrite H.
Qed.

Lemma covered_nil x : covered [] x <-> False.
Proof. unfold covered. split; [|done]. intros (iv & H & _). by apply not_elem_of_nil in H. Qed.

Lemma covered_cons iv l x : covered (iv :: l) x <-> covers iv x \/ covered l x.
Proof.
  unfold covered. setoid_rewrite elem_of_cons. split.
  - intros (? & [->|?] & ?); eauto.
  - intros [?|(? & ? & ?)]; eauto.
Qed.

Lemma covered_app l1 l2 x : covered (l1 ++ l2) x <-> covered l1 x \/ covered l2 x.
Proof.
  unfold covered. setoid_rewrite elem_of_app. split.
  - intros (? & [?|?] & ?); eauto.
  - intros [(? & ? & ?)|(? & ? & ?)]; eauto.
Qed.

Lemma covered_perm l1 l2 : l1 ≡ₚ l2 -> same_cover l1 l2.
Proof. intros H x. unfold covered. by setoid_rewrite H. Qed.

#[export] Instance covered_app_proper : Proper (same_cover ==> same_cover ==> same_cover) app.
Proof. intros a b H c d H' x. rewrite !covered_app. by rewrite (H x), (H' x). Qed.

#[export] Instance covered_proper x : Proper (same_cover ==> iff) (fun l => covered l x).
Proof. intros a b H. apply H. Qed.

Create Rewrite HintDb cover.
#[export] Hint Rewrite covered_nil covered_cons covered_app : cover.

(** ** The sort *)

Lemma sift_perm x l : sift x l ≡ₚ x :: l.
Proof.
  induction l as [|y l IH]; simpl; [done|].
  destruct (Before _ _); [|done]. rewrite IH. apply Permutation_swap.
Qed.

Lemma sift_all_perm l acc : fold_left (fun r x => sift x r) l acc ≡ₚ l ++ acc.
Proof.
  revert acc. induction l as [|x l IH]; intros acc; simpl; [done|].
  rewrite IH, sift_perm. symmetry. apply Permutation_middle.
Qed.

Lemma sortIntervals_perm l : sortIntervals l ≡ₚ l.
Proof.
  unfold sortIntervals. rewrite <- Permutation_rev, sift_all_perm. by rewrite app_nil_r.
Qed.

#[local] Abbreviation starts_ge := (flip starts_le).

Lemma sift_sorted x l : StronglySorted starts_ge l -> StronglySorted starts_ge (sift x l).
Proof.
  induction 1 as [|y l Hs IH Hy]; simpl; [repeat constructor|].
  destruct (Before _ _) eqn:E; ztime; unfold flip, starts_le in *.
  - constructor; [done|]. rewrite sift_perm. constructor; [lia|done].
  - constructor; [by constructor|]. constructor; [lia|].
    eapply Forall_impl; [exact Hy|]. simpl. lia.
Qed.

Lemma sift_all_sorted l acc :
  StronglySorted starts_ge acc -> StronglySorted starts_ge (fold_left (fun r x => sift x r) l acc).
Proof. revert acc. induction l; simpl; intros acc H; [done|]. by apply IHl, sift_sorted. Qed.

Lemma StronglySorted_rev {A} (R : relation A) l :
  StronglySorted (flip R) l -> StronglySorted R (rev l).
Proof.
  induction 1 as [|x l Hs IH Hx]; simpl; [constructor|].
  apply StronglySorted_app_2; [|done|repeat constructor].
  intros a b Ha ->%list_elem_of_singleton.
  rewrite <- Permutation_rev in Ha. by rewrite Forall_forall in Hx; apply Hx.
Qed.

Lemma sortIntervals_sorted l : StronglySorted starts_le (sortIntervals l).
Proof. apply StronglySorted_rev, sift_all_sorted. constructor. Qed.

(** ** Merging *)

Lemma merge_from_covered last l x :
  StronglySorted starts_le (last :: l) ->
  covered (merge_from last l) x <-> covered (last :: l) x.
Proof.
  revert last. induction l as [|iv l IH]; intros last Hs; simpl; [done|].
  inversion_clear Hs as [|? ? Hl Hf]. inversion_clear Hl as [|? ? Hl' Hf'].
  inversion_clear Hf as [|? ? Hle Hf0]. unfold starts_le in Hle.
  destruct (negb _) eqn:E; ztime.
  - rewrite IH, !covered_cons.
    2:{ constructor; [done|]. destruct (_ <? _); done. }
    assert (G : covers (if t_ns (iv_end last) <? t_ns (iv_end iv)
        then Iv (iv_start last) (iv_end iv) else last) x <-> covers last x \/ covers iv x).
    { unfold covers. destruct (Z.ltb_spec (t_ns (iv_end last)) (t_ns (iv_end iv))); simpl; lia. }
    rewrite G. tauto.
  - rewrite !covered_cons, IH by (constructor; done). rewrite covered_cons. tauto.
Qed.

Lemma merge_from_starts last l iv :
  StronglySorted starts_le (last :: l) -> iv ∈ merge_from last l -> starts_le last iv.
Proof.
  revert last. induction l as [|iv' l IH]; intros last Hs; simpl.
  - intros ->%list_elem_of_singleton. unfold starts_le. lia.
  - inversion_clear Hs as [|? ? Hl Hf]. inversion_clear Hl as [|? ? Hl' Hf'].
    inversion_clear Hf as [|? ? Hle Hf0].
    destruct (negb _) eqn:E.
    + intros H. apply IH in H.
      * revert H. destruct (After (iv_end _) (iv_end _)); exact id.
      * constructor; [done|]. destruct (After (iv_end _) (iv_end _)); done.
    + intros [->|H]%elem_of_cons; [unfold starts_le; lia|].
      apply IH in H; [unfold starts_le in *; lia|]. by constructor.
Qed.

Lemma merge_from_apart last l :
  StronglySorted starts_le (last :: l) -> StronglySorted apart (merge_from last l).
Proof.
  revert last. induction l as [|iv l IH]; intros last Hs; simpl; [repeat constructor|].
  inversion_clear Hs as [|? ? Hl Hf]. inversion_clear Hl as [|? ? Hl' Hf'].
  inversion_clear Hf as [|? ? Hle Hf0].
  destruct (negb _) eqn:E.
  - apply IH. constructor; [done|]. destruct (After (iv_end _) (iv_end _)); done.
  - constructor; [apply IH; by constructor|].
    apply Forall_forall. intros iv' H. apply merge_from_starts in H; [|by constructor].
    ztime. unfold apart, starts_le in *. lia.
Qed.

Lemma mergeIntervals_covered l : same_cover (mergeIntervals l) l.
Proof.
  intros x. rewrite <- (covered_perm _ _ (sortIntervals_perm l) x).
  unfold mergeIntervals. pose proof (sortIntervals_sorted l) as Hs.
  destruct (sortIntervals l) as [|iv r]; [done|]. by apply merge_from_covered.
Qed.

Lemma mergeIntervals_apart l : StronglySorted apart (mergeIntervals l).
Proof.
  unfold mergeIntervals. pose proof (sortIntervals_sorted l) as Hs.
  destruct (sortIntervals l) as [|iv r]; [constructor|]. by apply merge_from_apart.
Qed.

Lemma merge_from_proper last l :
  proper last -> Forall proper l -> Forall proper (merge_from last l).
Proof.
  revert last. induction l as [|iv l IH]; intros last Hl Hf; simpl; [by repeat constructor|].
  inversion_clear Hf as [|? ? Hp Hf'].
  destruct (negb _) eqn:E.
  - apply IH; [|done]. ztime. unfold proper in *.
    destruct (Z.ltb_spec (t_ns (iv_end last)) (t_ns (iv_end iv))); simpl; lia.
  - constructor; [done|]. by apply IH.
Qed.

Lemma mergeIntervals_proper l : Forall proper l -> Forall proper (mergeIntervals l).
Proof.
  intros H. rewrite <- (sortIntervals_perm l) in H. unfold mergeIntervals.
  destruct (sortIntervals l) as [|iv r]; [done|].
  inversion_clear H. by apply merge_from_proper.
Qed.

(** Not empty. *)
Definition strict (iv : interval) : Prop := t_ns (iv_start iv) < t_ns (iv_end iv).

Lemma merge_from_strict last l :
  strict last -> Forall strict l -> Forall strict (merge_from last l).
Proof.
  revert last. induction l as [|iv l IH]; intros last Hl Hf; simpl; [by repeat constructor|].
  inversion_clear Hf as [|? ? Hp Hf'].
  destruct (negb _) eqn:E.
  - apply IH; [|done]. ztime. unfold strict in *.
    destruct (Z.ltb_spec (t_ns (iv_end last)) (t_ns (iv_end iv))); simpl; lia.
  - constructor; [done|]. by apply IH.
Qed.

Lemma mergeIntervals_strict l : Forall strict l -> Forall strict (mergeIntervals l).
Proof.
  intros H. rewrite <- (sortIntervals_perm l) in H. unfold mergeIntervals.
  destruct (sortIntervals l) as [|iv r]; [done|].
  inversion_clear H. by apply merge_from_strict.
Qed.

(** ** Subtracting *)

Lemma subtract_one_covered b f x :
  covered (subtract_one b f) x <-> covers f x /\ ~ covers b x.
Proof.
  unfold subtract_one. destruct (_ || _) eqn:E.
  - rewrite covered_cons, covered_nil. apply orb_true_iff in E. ztime.
    unfold covers. destruct E as [E|E]; apply Z.ltb_lt in E; lia.
  - apply orb_false_iff in E as [E1 E2]. ztime. rewrite covered_app. unfold covers.
    destruct (Z.ltb_spec (t_ns (iv_start f)) (t_ns (iv_start b))),
      (Z.ltb_spec (t_ns (iv_end b)) (t_ns (iv_end f)));
      rewrite ?covered_cons, ?covered_nil; unfold covers; simpl; lia.
Qed.

Lemma subtract_one_within b f iv : iv ∈ subtract_one b f -> within f iv.
Proof.
  unfold subtract_one, within. destruct (_ || _) eqn:E.
  - intros ->%list_elem_of_singleton. lia.
  - apply orb_false_iff in E as [E1 E2]. ztime. rewrite elem_of_app.
    destruct (Z.ltb_spec (t_ns (iv_start f)) (t_ns (iv_start b))),
      (Z.ltb_spec (t_ns (iv_end b)) (t_ns (iv_end f)));
      rewrite ?list_elem_of_singleton, ?elem_of_nil; intros [H'|H']; subst; simpl; done || lia.
Qed.

Lemma covered_flat_map {A} (g : A -> list interval) l x :
  covered (flat_map g l) x <-> exists f, f ∈ l /\ covered (g f) x.
Proof.
  induction l as [|f l IH]; simpl.
  - rewrite covered_nil. split; [done|]. intros (? & H & _). by apply not_elem_of_nil in H.
  - rewrite covered_app, IH. setoid_rewrite elem_of_cons. split.
    + intros [H|(f' & H & H')]; eauto.
    + intros (f' & [->|H] & H'); eauto.
Qed.

(** Induction over the busy intervals already subtracted. *)
Lemma subtract_ind (P : list interval -> list interval -> Prop) whole :
  P [] [whole] ->
  (forall done free b, P done free -> P (done ++ [b]) (flat_map (subtract_one b) free)) ->
  forall busy, P busy (subtractIntervals whole busy).
Proof.
  intros H0 HS busy. unfold subtractIntervals.
  enough (G : forall todo dn free, P dn free ->
    P (dn ++ todo) (fold_left (fun free b => flat_map (subtract_one b) free) todo free))
    by (apply (G busy [] [whole] H0)).
  induction todo as [|b todo IH]; intros dn free Hp; simpl.
  - by rewrite app_nil_r.
  - replace (dn ++ b :: todo) with ((dn ++ [b]) ++ todo) by (by rewrite <- app_assoc).
    by apply IH, HS.
Qed.

Lemma subtractIntervals_covered whole busy x :
  covered (subtractIntervals whole busy) x <-> covers whole x /\ ~ covered busy x.
Proof.
  apply (subtract_ind (fun dn free => covered free x <-> covers whole x /\ ~ covered dn x)).
  - rewrite covered_cons, covered_nil. tauto.
  - intros dn free b IH. rewrite covered_flat_map, covered_app, covered_cons, covered_nil.
    setoid_rewrite subtract_one_covered. unfold covered in IH at 1. split.
    + intros (f & Hf & Hx & Hb). assert (covers whole x /\ ~ covered dn x) by (apply IH; eauto).
      tauto.
    + intros (Hw & Hn). destruct (proj2 IH ltac:(tauto)) as (f & Hf & Hx).
      exists f. tauto.
Qed.

Lemma within_trans a b c : within a b -> within b c -> within a c.
Proof. unfold within. lia. Qed.

Lemma subtractIntervals_within whole busy iv :
  iv ∈ subtractIntervals whole busy -> within whole iv.
Proof.
  revert iv. apply (subtract_ind (fun _ free => forall iv, iv ∈ free -> within whole iv)).
  - intros iv ->%list_elem_of_singleton. unfold within. lia.
  - intros dn free b IH iv (f & Hf & Hiv)%elem_of_flat_map.
    eapply within_trans; [by apply IH|]. by eapply subtract_one_within.
Qed.

(** The free pieces are in order and do not overlap when no busy interval is
    inverted. *)
Lemma subtract_one_ordered b f : proper b -> StronglySorted ordered (subtract_one b f).
Proof.
  unfold subtract_one, proper. intros Hb. destruct (_ || _); [repeat constructor|].
  destruct (Before _ _), (Before _ _); simpl; repeat constructor. done.
Qed.

Lemma flat_map_ordered b l :
  proper b -> StronglySorted ordered l -> StronglySorted ordered (flat_map (subtract_one b) l).
Proof.
  intros Hb. induction 1 as [|f l Hs IH Hf]; simpl; [constructor|].
  apply StronglySorted_app_2; [|by apply subtract_one_ordered|done].
  intros x y Hx%subtract_one_within (f' & Hf' & Hy%subtract_one_within)%elem_of_flat_map.
  rewrite Forall_forall in Hf. specialize (Hf f' Hf').
  unfold ordered, within in *. lia.
Qed.

Lemma subtractIntervals_ordered whole busy :
  Forall proper busy -> StronglySorted ordered (subtractIntervals whole busy).
Proof.
  apply (subtract_ind (fun dn free => Forall proper dn -> StronglySorted ordered free)).
  - repeat constructor.
  - intros dn free b IH [Hd Hb]%Forall_app. inversion_clear Hb.
    by apply flat_map_ordered; [|apply IH].
Qed.

(** ** Overlap tests *)

Lemma overlaps_true a b :
  overlaps a b = true <->
  t_ns (iv_start a) < t_ns (iv_end b) /\ t_ns (iv_start b) < t_ns (iv_end a).
Proof. unfold overlaps, Before, After. lia. Qed.

(** A slot reported free shares no instant with the busy time. *)
Lemma overlapsMerged_free iv busy x :
  overlapsMerged iv busy = false -> covers iv x -> ~ covered busy x.
Proof.
  intros H Hx (b & Hb & Hbx).
  unfold overlapsMerged in H. rewrite existsb_elem_false in H. specialize (H b Hb).
  apply not_true_iff_false in H. apply H, overlaps_true. unfold covers in *. lia.
Qed.

(** A slot reported busy shares an instant with the busy time, when the
    intervals are not empty. *)
Lemma overlapsMerged_busy iv busy :
  t_ns (iv_start iv) < t_ns (iv_end iv) ->
  Forall strict busy ->
  overlapsMerged iv busy = true -> exists x, covers iv x /\ covered busy x.
Proof.
  intros Hiv Hb H. unfold overlapsMerged in H. rewrite existsb_elem in H.
  destruct H as (b & Hin & Ho). apply overlaps_true in Ho.
  rewrite Forall_forall in Hb. specialize (Hb b Hin).
  exists (Z.max (t_ns (iv_start iv)) (t_ns (iv_start b))). unfold covers. split; [lia|].
  exists b. unfold covers, strict in *. split; [done|lia].
Qed.

(** ** Canonical form *)

(** The end points of an interval list, in nanoseconds. *)
Definition bounds (l : list interval) : list (Z * Z) :=
  map (fun iv => (t_ns (iv_start iv), t_ns (iv_end iv))) l.

Lemma apart_cons_covered a l x :
  strict a -> Forall (apart a) l -> Forall strict l ->
  covered l x <-> covered (a :: l) x /\ t_ns (iv_end a) <= x.
Proof.
  intros Ha Hl Hs. rewrite covered_cons. unfold covers. split; [|intros [[?|?] ?]; [lia|done]].
  intros (iv & Hiv & Hx). split; [right; by exists iv|].
  rewrite Forall_forall in Hl. specialize (Hl iv Hiv). unfold apart, covers in *. lia.
Qed.

(** The first interval of an ordered cover is the first maximal run of covered
    instants. *)
Lemma apart_head_bounds a b l m :
  strict a -> strict b -> StronglySorted apart (a :: l) -> StronglySorted apart (b :: m) ->
  Forall strict l -> Forall strict m -> same_cover (a :: l) (b :: m) ->
  t_ns (iv_start b) <= t_ns (iv_start a) /\ t_ns (iv_end a) <= t_ns (iv_end b).
Proof.
  intros Ha Hb [_ Hl]%StronglySorted_inv [_ Hm]%StronglySorted_inv Hsl Hsm H.
  unfold strict in *. assert (Hst : t_ns (iv_start b) <= t_ns (iv_start a)).
  { destruct (proj1 (H (t_ns (iv_start a)))) as (iv & Hin & Hx).
    - exists a. split; [left|]. unfold covers. lia.
    - apply elem_of_cons in Hin as [->|Hin]; [unfold covers in Hx; lia|].
      rewrite Forall_forall in Hm. specialize (Hm iv Hin). unfold apart, covers in *. lia. }
  split; [done|]. apply Z.nlt_ge. intros He.
  (* the end of [b] lies inside [a] when it is after its start *)
  assert (Hin : covered (a :: l) (Z.max (t_ns (iv_start a)) (t_ns (iv_end b)))).
  { exists a. split; [left|]. unfold covers. lia. }
  destruct (Z.le_gt_cases (t_ns (iv_end b)) (t_ns (iv_start a))) as [Hle|Hgt].
  - destruct (proj2 (H (t_ns (iv_start b)))) as (iv & Hiv & Hx).
    + exists b. split; [left|]. unfold covers. lia.
    + apply elem_of_cons in Hiv as [->|Hiv]; [unfold covers in Hx; lia|].
      rewrite Forall_forall in Hl. specialize (Hl iv Hiv). unfold apart, covers in *. lia.
  - rewrite Z.max_r in Hin by lia. apply H in Hin as (iv & Hiv & Hx).
    apply elem_of_cons in Hiv as [->|Hiv]; [unfold covers in Hx; lia|].
    rewrite Forall_forall in Hm. specialize (Hm iv Hiv). unfold apart, covers in *. lia.
Qed.

Lemma apart_unique l m :
  StronglySorted apart l -> StronglySorted apart m -> Forall strict l -> Forall strict m ->
  same_cover l m -> bounds l = bounds m.
Proof.
  revert m. induction l as [|a l IH]; intros [|b m] Hl Hm Hsl Hsm H; [done| | |].
  - exfalso. inversion_clear Hsm. apply (covered_nil (t_ns (iv_start b))), H.
    exists b. split; [left|]. unfold covers, strict in *. lia.
  - exfalso. inversion_clear Hsl. apply (covered_nil (t_ns (iv_start a))), H.
    exists a. split; [left|]. unfold covers, strict in *. lia.
  - inversion Hsl as [|? ? Ha Hsl']. inversion Hsm as [|? ? Hb Hsm']. subst.
    destruct (apart_head_bounds a b l m) as [H1 H2]; try done.
    destruct (apart_head_bounds b a m l) as [H3 H4]; try done.
    apply StronglySorted_inv in Hl as [Hl Hal]. apply StronglySorted_inv in Hm as [Hm Hbm].
    cbn [bounds map]. f_equal; [f_equal; lia|]. apply IH; try done. intros x.
    rewrite (apart_cons_covered a l x), (apart_cons_covered b m x) by done.
    rewrite (H x). split; intros [? ?]; split; done || lia.
Qed.

(** ** Properties *)

(** C35: Merging computes a normal form: the merged intervals are in order, with a
    gap between one and the next, and cover the same instants; two busy lists
    without empty intervals that cover the same instants merge to the same
    intervals, in whatever order and however cut the time was given. *)
Theorem mergeIntervals_canonical l1 l2 :
  StronglySorted apart (mergeIntervals l1) /\ same_cover (mergeIntervals l1) l1 /\
  (Forall strict l1 -> Forall strict l2 -> same_cover l1 l2 ->
   bounds (mergeIntervals l1) = bounds (mergeIntervals l2)).
Proof.
  split; [apply mergeIntervals_apart|]. split; [apply mergeIntervals_covered|].
  intros H1 H2 H. apply apart_unique; auto using mergeIntervals_apart, mergeIntervals_strict.
  by rewrite !mergeIntervals_covered.
Qed.

(** The free time of a window is exactly its instants that no busy interval
    covers; the pieces lie inside the window and, when no busy interval is
    inverted, they are in order and do not overlap. *)
Theorem free_time_exact whole busy :
  (forall x, covered (subtractIntervals whole (mergeIntervals busy)) x <->
             covers whole x /\ ~ covered busy x) /\
  Forall (within whole) (subtractIntervals whole (mergeIntervals busy)) /\
  (Forall proper busy ->
   StronglySorted ordered (subtractIntervals whole (mergeIntervals busy))).
Proof.
  split_and!.
  - intros x. by rewrite subtractIntervals_covered, (mergeIntervals_covered busy x).
  - apply Forall_forall. intros iv. apply subtractIntervals_within.
  - intros H. by apply subtractIntervals_ordered, mergeIntervals_proper.
Qed.

Module IntervalDemo.
Definition iv (a b : Z) : interval := Iv (Time a UTC) (Time b UTC).
End IntervalDemo.

Lemma mergeIntervals_canonical_witness :
  let l1 := [IntervalDemo.iv 5 9; IntervalDemo.iv 0 3; IntervalDemo.iv 3 4] in
  let l2 := [IntervalDemo.iv 0 4; IntervalDemo.iv 6 9; IntervalDemo.iv 5 7] in
  bounds (mergeIntervals l1) = bounds (mergeIntervals l2).
Proof.
  intros l1 l2. apply (mergeIntervals_canonical l1 l2).
  - unfold l1. repeat constructor.
  - unfold l2. repeat constructor.
  - intros x. unfold l1, l2. rewrite !covered_cons, !covered_nil. unfold covers. simpl. lia.
Defined.

Lemma free_time_exact_witness :
  StronglySorted ordered (subtractIntervals (IntervalDemo.iv 0 20)
    (mergeIntervals [IntervalDemo.iv 5 9; IntervalDemo.iv 8 12])).
Proof.
  apply (free_time_exact (IntervalDemo.iv 0 20) [IntervalDemo.iv 5 9; IntervalDemo.iv 8 12]).
  repeat constructor; unfold proper; simpl; lia.
Defined.
