(* ===== verification/LinkStore.v ===== *)
(** * Scheduling links, hosts, bookings and focus blocks in storage

    [storage/scheduling_links.go] and [storage/focus_blocks.go]: the rows the
    booking and focus engines read and write.  A table is the list of its rows
    in insertion order; each operation is its SQL statement.  The identifiers
    the database generates are arguments. *)

From S2P Require Import Prelude GoInt GoTime GoText Interval.

#[local] Open Scope string_scope.
#[local] Open Scope list_scope.
#[local] Open Scope Z_scope.

(** A [uuid.UUID]; [uuid_nil] is [uuid.Nil]. *)
Definition uuid := N.
Definition uuid_nil : uuid := 0%N.

(** ** Rows *)

Record SchedulingLink := {
  ID : uuid;
  OwnerUserID : uuid;
  Slug : string;
  Title : string;
  DurationOptions : list Z;
  DaysOfWeek : list Z;
  WindowStart : string;
  WindowEnd : string;
  BufferBefore : Z;
  BufferAfter : Z;
  MinNoticeMinutes : Z;
  UsageType : string;
  MaxUses : option Z;
  UsesCount : Z;
  Active : bool;
  BookingHorizonDays : Z;
  RefusalMessage : string;
}.

Definition DefaultBookingHorizonDays : Z := 60.
Definition RefusalGeneric : string := "generic".
Definition RefusalSpecific : string := "specific".

Record LinkHost := { LH_LinkID : uuid; LH_UserID : uuid; LH_Status : string }.

Record Booking := {
  B_ID : uuid;
  B_LinkID : uuid;
  BookerName : string;
  BookerEmail : string;
  B_Start : time;
  B_End : time;
  B_Status : string;
  Notes : string;
}.

Record BookingEvent := { BE_Booking : uuid; BE_User : uuid; BE_Event : string }.

(** A focus block; [FB_Date] is its DATE column as a day number and [FB_User]
    is [None] for blocks saved before owners were recorded. *)
Record FocusBlockRow := {
  FB_User : option uuid;
  FB_Event : string;
  FB_Start : time;
  FB_End : time;
  FB_Date : Z;
}.

(** ** Tables *)

Record Tables := {
  t_links : list SchedulingLink;
  t_hosts : list LinkHost;
  t_bookings : list Booking;
  t_events : list BookingEvent;
  t_focus : list FocusBlockRow;
}.

Definition set_links (f : list SchedulingLink -> list SchedulingLink) (t : Tables) : Tables :=
  {| t_links := f (t_links t); t_hosts := t_hosts t; t_bookings := t_bookings t;
     t_events := t_events t; t_focus := t_focus t |}.
Definition set_hosts (f : list LinkHost -> list LinkHost) (t : Tables) : Tables :=
  {| t_links := t_links t; t_hosts := f (t_hosts t); t_bookings := t_bookings t;
     t_events := t_events t; t_focus := t_focus t |}.
Definition set_bookings (f : list Booking -> list Booking) (t : Tables) : Tables :=
  {| t_links := t_links t; t_hosts := t_hosts t; t_bookings := f (t_bookings t);
     t_events := t_events t; t_focus := t_focus t |}.
Definition set_events (f : list BookingEvent -> list BookingEvent) (t : Tables) : Tables :=
  {| t_links := t_links t; t_hosts := t_hosts t; t_bookings := t_bookings t;
     t_events := f (t_events t); t_focus := t_focus t |}.
Definition set_focus (f : list FocusBlockRow -> list FocusBlockRow) (t : Tables) : Tables :=
  {| t_links := t_links t; t_hosts := t_hosts t; t_bookings := t_bookings t;
     t_events := t_events t; t_focus := f (t_focus t) |}.

(** ** Bookings *)

(** [status <> 'cancelled']. *)
Definition live (b : Booking) : bool := negb (String.eqb (B_Status b) "cancelled").

(** The [uses_count] column of every link read: the live bookings of the link. *)
Definition uses_of (t : Tables) (id : uuid) : Z :=
  Z.of_nat (length (keep (fun b => N.eqb (B_LinkID b) id && live b) (t_bookings t))).

Definition with_uses (t : Tables) (l : SchedulingLink) : SchedulingLink :=
  {| ID := ID l; OwnerUserID := OwnerUserID l; Slug := Slug l; Title := Title l;
     DurationOptions := DurationOptions l; DaysOfWeek := DaysOfWeek l;
     WindowStart := WindowStart l; WindowEnd := WindowEnd l;
     BufferBefore := BufferBefore l; BufferAfter := BufferAfter l;
     MinNoticeMinutes := MinNoticeMinutes l; UsageType := UsageType l;
     MaxUses := MaxUses l; UsesCount := uses_of t (ID l); Active := Active l;
     BookingHorizonDays := BookingHorizonDays l; RefusalMessage := RefusalMessage l |}.

(** [CreateBooking]: the status column defaults to [confirmed]. *)
Definition CreateBooking (id : uuid) (b : Booking) (t : Tables) : Booking * Tables :=
  let row := {| B_ID := id; B_LinkID := B_LinkID b; BookerName := BookerName b;
                BookerEmail := BookerEmail b; B_Start := B_Start b; B_End := B_End b;
                B_Status := "confirmed"; Notes := Notes b |} in
  (row, set_bookings (fun l => l ++ [row]) t).

Definition HasOverlappingBooking (t : Tables) (link : uuid) (start end_ : time) : bool :=
  existsb (fun b => N.eqb (B_LinkID b) link && live b &&
                    Before (B_Start b) end_ && After (B_End b) start) (t_bookings t).

(** [ORDER BY]: insertion sort on a key, the rows of equal keys in table
    order. *)
Section OrderBy.
Context {A : Type} (key : A -> Z).

Fixpoint order_insert (x : A) (l : list A) : list A :=
  match l with
  | y :: r => if key x <? key y then x :: l else y :: order_insert x r
  | [] => [x]
  end.

Definition order_by (l : list A) : list A := fold_left (fun acc x => order_insert x acc) l [].

Lemma order_insert_perm x l : order_insert x l ≡ₚ x :: l.
Proof.
  induction l as [|y l IH]; simpl; [done|]. destruct (_ <? _); [done|].
  rewrite IH. apply Permutation_swap.
Qed.

Lemma order_by_perm l : order_by l ≡ₚ l.
Proof.
  unfold order_by.
  assert (G : forall acc, fold_left (fun acc x => order_insert x acc) l acc ≡ₚ l ++ acc).
  { induction l as [|x l IH]; intros acc; simpl; [done|].
    rewrite IH, order_insert_perm. symmetry. apply Permutation_middle. }
  by rewrite G, app_nil_r.
Qed.

Lemma order_insert_sorted x l : StronglySorted (fun a b => key a <= key b) l -> StronglySorted (fun a b => key a <= key b) (order_insert x l).
Proof.
  induction l as [|y l IH]; simpl; intros Hs; [repeat constructor|]. apply StronglySorted_inv in Hs as [Hs Hy].
  destruct (Z.ltb_spec (key x) (key y)) as [H|H]; (constructor; [|try done]).
  - by constructor.
  - rewrite Forall_forall in Hy. apply Forall_forall. intros z [-> |Hz]%elem_of_cons; [lia|]. specialize (Hy z Hz). lia.
  - by apply IH.
  - rewrite order_insert_perm. by constructor.
Qed.

Lemma order_by_sorted l : StronglySorted (fun a b => key a <= key b) (order_by l).
Proof.
  unfold order_by. assert (G : forall acc, StronglySorted (fun a b => key a <= key b) acc ->
    StronglySorted (fun a b => key a <= key b) (fold_left (fun acc x => order_insert x acc) l acc)); [|apply G; constructor].
  induction l as [|x l IH]; intros acc Ha; [done|]. by apply IH, order_insert_sorted.
Qed.

(** Without ties the order is strict. *)
Lemma order_by_strict l : NoDup (map key l) -> StronglySorted (fun a b => key a < key b) (order_by l).
Proof.
  intros Hn. assert (Hk : NoDup (map key (order_by l))) by (by rewrite (Permutation_map key (order_by_perm l))).
  pose proof (order_by_sorted l) as Hs. induction Hs as [|x k Hs IH Hx]; [constructor|].
  cbn [map] in Hk. apply NoDup_cons in Hk as [Hx' Hk]. constructor; [by apply IH|]. rewrite Forall_forall in *. intros y Hy. specialize (Hx y Hy).
  assert (key x <> key y); [|lia]. intros E. apply Hx'. rewrite E. by apply list_elem_of_fmap_2.
Qed.
End OrderBy.

Definition hosts_link (t : Tables) (u : uuid) (l : SchedulingLink) : bool :=
  N.eqb (OwnerUserID l) u ||
  existsb (fun h => N.eqb (LH_LinkID h) (ID l) && N.eqb (LH_UserID h) u &&
                    String.eqb (LH_Status h) "accepted") (t_hosts t).

(** [GetBusyBookingsForUser]: the live bookings, on any link the user hosts,
    that meet the window, as a flat list of starts and ends. *)
Definition busy_bookings (t : Tables) (u : uuid) (start end_ : time) : list Booking :=
  order_by (fun b => t_ns (B_Start b))
    (keep (fun b => live b && Before (B_Start b) end_ && After (B_End b) start &&
                    existsb (fun l => N.eqb (ID l) (B_LinkID b) && hosts_link t u l) (t_links t))
          (t_bookings t)).

Definition GetBusyBookingsForUser (t : Tables) (u : uuid) (start end_ : time) : list time :=
  flat_map (fun b => [B_Start b; B_End b]) (busy_bookings t u start end_).

Definition SaveBookingEvent (booking user : uuid) (ev : string) (t : Tables) : Tables :=
  set_events (fun l => l ++ [{| BE_Booking := booking; BE_User := user; BE_Event := ev |}]) t.

(** ** Links *)

Definition find_link (p : SchedulingLink -> bool) (t : Tables) : option SchedulingLink :=
  with_uses t <$> List.find p (t_links t).

Definition GetSchedulingLinkBySlug (t : Tables) (slug : string) : option SchedulingLink :=
  find_link (fun l => String.eqb (Slug l) slug && Active l) t.

Definition GetSchedulingLinkByID (t : Tables) (id : uuid) : option SchedulingLink :=
  find_link (fun l => N.eqb (ID l) id) t.

Definition SlugExists (t : Tables) (slug : string) : bool :=
  existsb (fun l => String.eqb (Slug l) slug) (t_links t).

(** [CreateSchedulingLink]: the defaults of the unset fields, then the insert. *)
Definition CreateSchedulingLink (id : uuid) (l : SchedulingLink) (t : Tables)
    : SchedulingLink * Tables :=
  let row :=
    {| ID := id; OwnerUserID := OwnerUserID l; Slug := Slug l; Title := Title l;
       DurationOptions := match DurationOptions l with [] => [30] | d => d end;
       DaysOfWeek := match DaysOfWeek l with [] => [1; 2; 3; 4; 5] | d => d end;
       WindowStart := WindowStart l; WindowEnd := WindowEnd l;
       BufferBefore := BufferBefore l; BufferAfter := BufferAfter l;
       MinNoticeMinutes := MinNoticeMinutes l;
       UsageType := if String.eqb (UsageType l) "" then "reusable" else UsageType l;
       MaxUses := MaxUses l; UsesCount := 0; Active := true;
       BookingHorizonDays :=
         if BookingHorizonDays l =? 0 then DefaultBookingHorizonDays else BookingHorizonDays l;
       RefusalMessage :=
         if String.eqb (RefusalMessage l) "" then RefusalGeneric else RefusalMessage l |} in
  (with_uses t row, set_links (fun ls => ls ++ [row]) t).

(** [UpdateSchedulingLink]: a zero horizon or an empty refusal message keeps
    the stored value. *)
Definition update_row (id : uuid) (l row : SchedulingLink) : SchedulingLink :=
  if N.eqb (ID row) id then
    {| ID := ID row; OwnerUserID := OwnerUserID row; Slug := Slug l; Title := Title l;
       DurationOptions := DurationOptions l; DaysOfWeek := DaysOfWeek l;
       WindowStart := WindowStart l; WindowEnd := WindowEnd l;
       BufferBefore := BufferBefore l; BufferAfter := BufferAfter l;
       MinNoticeMinutes := MinNoticeMinutes l; UsageType := UsageType l;
       MaxUses := MaxUses l; UsesCount := UsesCount row; Active := Active l;
       BookingHorizonDays :=
         if BookingHorizonDays l =? 0 then BookingHorizonDays row else BookingHorizonDays l;
       RefusalMessage :=
         if String.eqb (RefusalMessage l) "" then RefusalMessage row else RefusalMessage l |}
  else row.

Definition UpdateSchedulingLink (id : uuid) (l : SchedulingLink) (t : Tables)
    : option SchedulingLink * Tables :=
  let t' := set_links (map (update_row id l)) t in
  (GetSchedulingLinkByID t' id, t').

Definition deactivate_row (id : uuid) (row : SchedulingLink) : SchedulingLink :=
  if N.eqb (ID row) id then
    {| ID := ID row; OwnerUserID := OwnerUserID row; Slug := Slug row; Title := Title row;
       DurationOptions := DurationOptions row; DaysOfWeek := DaysOfWeek row;
       WindowStart := WindowStart row; WindowEnd := WindowEnd row;
       BufferBefore := BufferBefore row; BufferAfter := BufferAfter row;
       MinNoticeMinutes := MinNoticeMinutes row; UsageType := UsageType row;
       MaxUses := MaxUses row; UsesCount := UsesCount row; Active := false;
       BookingHorizonDays := BookingHorizonDays row; RefusalMessage := RefusalMessage row |}
  else row.

Definition DeleteSchedulingLink (id : uuid) (t : Tables) : Tables :=
  set_links (map (deactivate_row id)) t.

(** ** Hosts *)

Definition host_of (link user : uuid) (h : LinkHost) : bool :=
  N.eqb (LH_LinkID h) link && N.eqb (LH_UserID h) user.

Definition GetLinkHosts (t : Tables) (link : uuid) : list LinkHost :=
  keep (fun h => N.eqb (LH_LinkID h) link) (t_hosts t).

Definition GetAcceptedHosts (t : Tables) (link : uuid) : list LinkHost :=
  keep (fun h => N.eqb (LH_LinkID h) link && String.eqb (LH_Status h) "accepted") (t_hosts t).

Definition GetLinkHostStatus (t : Tables) (link user : uuid) : option string :=
  LH_Status <$> List.find (host_of link user) (t_hosts t).

Definition GetPendingInvitesForUser (t : Tables) (user : uuid) : list LinkHost :=
  keep (fun h => N.eqb (LH_UserID h) user && String.eqb (LH_Status h) "pending") (t_hosts t).

(** [AddLinkHost]: an upsert on (link, user). *)
Definition AddLinkHost (link user : uuid) (status : string) (t : Tables) : LinkHost * Tables :=
  let row := {| LH_LinkID := link; LH_UserID := user; LH_Status := status |} in
  (row,
   if existsb (host_of link user) (t_hosts t)
   then set_hosts (map (fun h => if host_of link user h then row else h)) t
   else set_hosts (fun l => l ++ [row]) t).

(** [InviteLinkHost]: an existing host keeps its status, whatever it is. *)
Definition InviteLinkHost (link user : uuid) (t : Tables) : (option LinkHost * bool) * Tables :=
  match List.find (host_of link user) (t_hosts t) with
  | Some h => ((Some h, false), t)
  | None =>
      let row := {| LH_LinkID := link; LH_UserID := user; LH_Status := "pending" |} in
      ((Some row, true), set_hosts (fun l => l ++ [row]) t)
  end.

Definition RemoveLinkHostsExcept (link owner : uuid) (kept : list uuid) (t : Tables) : Tables :=
  set_hosts (keep (fun h => negb (N.eqb (LH_LinkID h) link && negb (N.eqb (LH_UserID h) owner) &&
                                  negb (existsb (N.eqb (LH_UserID h)) kept)))) t.

Definition RemoveLinkHost (link user : uuid) (t : Tables) : bool * Tables :=
  (existsb (host_of link user) (t_hosts t),
   set_hosts (keep (fun h => negb (host_of link user h))) t).

Definition RespondToHostInvite (link user : uuid) (status : string) (t : Tables) : bool * Tables :=
  (existsb (host_of link user) (t_hosts t),
   set_hosts (map (fun h => if host_of link user h
                            then {| LH_LinkID := link; LH_UserID := user; LH_Status := status |}
                            else h)) t).

(** ** Focus blocks *)

(** The DATE of a time in its own location, as a day number. *)
Definition day_number (t : time) : Z := local_sec t / day_secs.

Definition owned_by (u : uuid) (r : FocusBlockRow) : bool :=
  match FB_User r with Some v => N.eqb v u | None => false end.

Definition SaveFocusBlock (u : uuid) (ev : string) (date : Z) (start end_ : time) (t : Tables)
    : Tables :=
  if existsb (fun r => String.eqb (FB_Event r) ev) (t_focus t) then t
  else set_focus (fun l => l ++ [{| FB_User := Some u; FB_Event := ev; FB_Start := toUTC start;
                                    FB_End := toUTC end_; FB_Date := date |}]) t.

Definition ListFocusBlocksForUserWeek (t : Tables) (u : uuid) (weekStart : time)
    : list FocusBlockRow :=
  let weekEnd := AddDate weekStart 0 0 7 in
  order_by (fun r => t_ns (FB_Start r))
    (keep (fun r => owned_by u r && (day_number weekStart <=? FB_Date r) &&
                    (FB_Date r <? day_number weekEnd)) (t_focus t)).

Definition DeleteFocusBlock (u : uuid) (ev : string) (t : Tables) : Tables :=
  set_focus (keep (fun r => negb (owned_by u r && String.eqb (FB_Event r) ev))) t.

(** Rounding of a numeric to an integer, halves away from zero. *)
Definition round_div (a b : Z) : Z :=
  if a <? 0 then - ((2 * - a + b) / (2 * b)) else (2 * a + b) / (2 * b).

Definition FocusMinutesForDay (t : Tables) (u : uuid) (date : Z) : Z :=
  round_div
    (foldr Z.add 0 (map (fun r => t_ns (FB_End r) - t_ns (FB_Start r))
      (keep (fun r => owned_by u r && (FB_Date r =? date)) (t_focus t))))
    Minute.

(** ** Facts *)

Lemma elem_of_busy_bookings t u start end_ b :
  b ∈ busy_bookings t u start end_ <->
  b ∈ t_bookings t /\ live b = true /\ t_ns (B_Start b) < t_ns end_ /\
  t_ns start < t_ns (B_End b) /\
  exists l, l ∈ t_links t /\ ID l = B_LinkID b /\ hosts_link t u l = true.
Proof.
  unfold busy_bookings. rewrite order_by_perm, elem_of_keep.
  rewrite !andb_true_iff, existsb_elem. setoid_rewrite andb_true_iff.
  setoid_rewrite N.eqb_eq. rewrite Before_lt, After_lt. tauto.
Qed.

Lemma HasOverlappingBooking_true t link start end_ :
  HasOverlappingBooking t link start end_ = true <->
  exists b, b ∈ t_bookings t /\ B_LinkID b = link /\ live b = true /\
    t_ns (B_Start b) < t_ns end_ /\ t_ns start < t_ns (B_End b).
Proof.
  unfold HasOverlappingBooking. rewrite existsb_elem.
  split; intros (b & Hb & H); exists b; (split; [done|]); revert H;
    rewrite !andb_true_iff, N.eqb_eq, Before_lt, After_lt; tauto.
Qed.

(** Removing focus blocks or hosts never touches the other rows. *)
Lemma DeleteFocusBlock_other u ev t r :
  owned_by u r = false -> r ∈ t_focus t -> r ∈ t_focus (DeleteFocusBlock u ev t).
Proof. intros H Hr. simpl. apply elem_of_keep. by rewrite H. Qed.

Lemma GetAcceptedHosts_elem t link h :
  h ∈ GetAcceptedHosts t link <->
  h ∈ t_hosts t /\ LH_LinkID h = link /\ LH_Status h = "accepted".
Proof.
  unfold GetAcceptedHosts. rewrite elem_of_keep, andb_true_iff, N.eqb_eq, String.eqb_eq. done.
Qed.
