(* ===== verification/SecretBox.v ===== *)
(** * Sealed secrets

    [internal/secretbox]: the envelope of a stored secret and the associated
    data that binds it to its place (secretbox.go), the key-encryption keys of
    the environment and the wrapped data keys (keys.go), the keyring of a
    process (keyring.go).  AES-GCM is the interface [AEAD] with its laws;
    random bytes are arguments. *)

From S2P Require Import Prelude GoInt GoTime GoText GoEncoding.

#[local] Open Scope string_scope.
#[local] Open Scope list_scope.
#[local] Open Scope Z_scope.

Abbreviation slen s := (Z.of_nat (String.length s)).

Fixpoint sdrop (n : nat) (s : string) : string :=
  match n, s with S k, String _ r => sdrop k r | _, _ => s end.
Fixpoint stake (n : nat) (s : string) : string :=
  match n, s with S k, String c r => String c (stake k r) | _, _ => "" end.

(** ** Envelopes *)

Definition Marker : string := "pdenc:".

Inductive Kind := KindEmpty | KindPlain | KindSealed.

Definition allDigits (s : string) : bool := negb (String.eqb s "") && sforallb is_digit s.

(** The places where two strings differ, up to the shorter one. *)
Fixpoint differences (a b : string) : Z :=
  match a, b with
  | String x a', String y b' => (if Ascii.eqb x y then 0 else 1) + differences a' b'
  | _, _ => 0
  end.

Definition b64url_char (c : ascii) : bool :=
  is_upper c || is_lower c || is_digit c || Ascii.eqb c "-" || Ascii.eqb c "_".

Definition damagedMarker (stored : string) : bool :=
  if slen stored <? slen Marker + 5 then false
  else if negb (differences Marker stored =? 1) then false
  else match Split ":" (sdrop (String.length Marker) stored) with
       | [a; b; c] =>
           allDigits a && allDigits b && negb (String.eqb c "") && sforallb b64url_char c
       | _ => false
       end.

Definition Classify (stored : string) : Kind :=
  if String.eqb stored "" then KindEmpty
  else if HasPrefix stored Marker then KindSealed
  else if damagedMarker stored then KindSealed
  else KindPlain.

(** A data-key id: decimal, 1 to 2147483647, no sign, no leading zero. *)
Definition parseDEKID (s : string) : option Z :=
  if negb (allDigits s) || HasPrefix s "0" || (10 <? slen s) then None
  else let n := digits_val 0 s in
       if (n <? 1) || (2 ^ 31 - 1 <? n) then None else Some n.

Definition SealedDEK (stored : string) : option Z :=
  if negb (HasPrefix stored Marker) then None
  else match Split ":" stored with
       | [_; v; d; _] => if negb (String.eqb v "1") then None else parseDEKID d
       | _ => None
       end.

(** ** Bindings *)

Record Part := { p_Name : string; p_Value : string }.
Record Binding := { b_Table : string; b_Column : string; b_Row : list Part }.

Definition maxField : Z := 65535.

Definition be16 (n : Z) : string := String (char (n / 256)) (String (char (n mod 256)) "").
Definition be32 (n : Z) : string := be16 (n / 65536) +:+ be16 (n mod 65536).

(** [lp16]: the length in two bytes, then the field. *)
Definition lp16 (out s : string) : option string :=
  if maxField <? slen s then None else Some (out +:+ be16 (slen s) +:+ s).

Fixpoint lp_parts (out : string) (row : list Part) : option string :=
  match row with
  | [] => Some out
  | p :: r => o1 ← lp16 out (p_Name p); o2 ← lp16 o1 (p_Value p); lp_parts o2 r
  end.

Definition aad_head : string := "paceday/secret" +:+ String (char 0) (String (char 1) "").

(** [aad]: the associated data, [None] for a binding that cannot be encoded. *)
Definition aad (b : Binding) : option string :=
  let n := Z.of_nat (length (b_Row b)) in
  if (n <? 1) || (2 <? n) then None
  else
    o1 ← lp16 aad_head (b_Table b);
    o2 ← lp16 o1 (b_Column b);
    lp_parts (o2 +:+ String (char n) "") (b_Row b).

Fixpoint join (sep : string) (l : list string) : string :=
  match l with [] => "" | [x] => x | x :: r => x +:+ sep +:+ join sep r end.

Definition RowString (b : Binding) : string :=
  join "," (map (fun p => p_Name p +:+ "=" +:+ p_Value p) (b_Row b)).

(** ** Errors *)

Inductive Reason :=
| ReasonAuth | ReasonUnknownDataKey | ReasonMalformed | ReasonUnsupportedVersion | ReasonNoKeyring.

Record DecryptError := {
  de_Table : string; de_Column : string; de_Row : string;
  de_DEK : Z; de_KEK : string; de_Reason : Reason }.

Definition reason_text (r : Reason) : string :=
  match r with
  | ReasonAuth => "authentication_failed"
  | ReasonUnknownDataKey => "unknown_data_key"
  | ReasonMalformed => "malformed"
  | ReasonUnsupportedVersion => "unsupported_version"
  | ReasonNoKeyring => "no_keyring"
  end.

Definition fields (e : DecryptError) : string * string :=
  (if 0 <? de_DEK e then itoa (de_DEK e) else "-",
   if String.eqb (de_KEK e) "" then "-" else de_KEK e).

Definition LogLine (e : DecryptError) (user : string) : string :=
  let '(dek, kek) := fields e in
  "encryption: cannot decrypt " +:+ de_Table e +:+ "." +:+ de_Column e +:+ " row=" +:+ de_Row e
  +:+ " dek=" +:+ dek +:+ " kek=" +:+ kek
  +:+ " user=" +:+ (if String.eqb user "" then "-" else user)
  +:+ " reason=" +:+ reason_text (de_Reason e).

(** Why a value is not sealed or a key is not loaded. *)
Inductive KeyError :=
| ErrNoKeyring
| ErrSealPaused              (** the seal lease has lapsed *)
| ErrNotHeld (dek : Z)       (** the data key is not in the keyring *)
| ErrBinding                 (** the binding cannot be encoded *)
| ErrWrongKey (dek : Z)
| ErrUnknownKEK (dek : Z)
| ErrNoActiveDEK
| ErrWrappedLength (dek : Z)
| ErrKeySize.                (** [aes.NewCipher] *)

(** ** AES-GCM *)

(** Key, nonce, plaintext, associated data. *)
Class AEAD := {
  aead_seal : string -> string -> string -> string -> string;
  aead_open : string -> string -> string -> string -> option string;
}.

(** What the code relies on: a sealed text opens, only a sealed text opens, and
    the tag takes 16 bytes. *)
Class AEADLaws (A : AEAD) : Prop := {
  open_seal : forall k n p a, aead_open k n (aead_seal k n p a) a = Some p;
  open_sound : forall k n c a p, aead_open k n c a = Some p -> c = aead_seal k n p a;
  seal_length : forall k n p a, String.length (aead_seal k n p a) = (String.length p + 16)%nat;
}.

Definition NonceSize : nat := 12.

(** ** Key-encryption keys *)

(** The variables a key comes from. *)
Inductive Var := EnvKey | EnvKeyPrevious.

Record KEK := { kek_ID : string; kek_key : string; kek_Var : Var }.

Definition id_char (c : ascii) : bool := is_upper c || is_lower c || is_digit c.
Definition id_tail (c : ascii) : bool :=
  id_char c || Ascii.eqb c "." || Ascii.eqb c "_" || Ascii.eqb c "-".

(** [ValidKeyID]: a letter or digit, then at most 31 of those and [._-]. *)
Definition ValidKeyID (id : string) : bool :=
  match id with
  | String c r => id_char c && sforallb id_tail r && (slen r <=? 31)
  | EmptyString => false
  end.

Record KeyConfig := { Active : KEK; Previous : list KEK }.

Definition All (c : KeyConfig) : list KEK := Active c :: Previous c.
Definition PreviousIDs (c : KeyConfig) : list string := map kek_ID (Previous c).

Definition Lookup (c : KeyConfig) (id : string) : option KEK :=
  if String.eqb (kek_ID (Active c)) id && negb (String.eqb id "") then Some (Active c)
  else List.find (fun p => String.eqb (kek_ID p) id) (Previous c).

(** Why the variables are refused. *)
Inductive Place := OfActive | OfEntry (i : Z) | OfVar (v : Var).
Inductive Refusal :=
| KeyMissing
| Malformed (where_ : Place) (why : Flaw)
with Flaw :=
| NoColon | InvalidKeyID | InvalidBase64 (id : string) | NotKeySize (len : Z) (id : string)
| TooManyPrevious | TwiceID (id : string) | SameKey (id id' : string).

Definition maxPrevious : Z := 8.

Definition has_blank (s : string) : bool :=
  negb (sforallb (fun c => negb (Ascii.eqb c " " || (byte_of c =? 9) || line_end c)) s).

Definition parseEntry (entry : string) (where_ : Place) (variable : Var) : res Refusal KEK :=
  match cut ":" entry with
  | None => Err (Malformed where_ NoColon)
  | Some (id, b64) =>
      if negb (ValidKeyID id) then Err (Malformed where_ InvalidKeyID)
      else match DecodeStrict StdEncoding b64 with
      | None => Err (Malformed where_ (InvalidBase64 id))
      | Some raw =>
          if has_blank b64 then Err (Malformed where_ (InvalidBase64 id))
          else if negb (slen raw =? 32) then Err (Malformed where_ (NotKeySize (slen raw) id))
          else Ok {| kek_ID := id; kek_key := raw; kek_Var := variable |}
      end
  end.

Fixpoint parse_entries (i : Z) (entries : list string) : res Refusal (list KEK) :=
  match entries with
  | [] => Ok []
  | e :: r =>
      k <-? parseEntry (Trim " " e) (OfEntry i) EnvKeyPrevious ;;
      ks <-? parse_entries (i + 1) r ;;
      Ok (k :: ks)
  end.

(** The first later key with the id or the bytes of [k]. *)
Fixpoint same_as (k : KEK) (later : list KEK) : option Refusal :=
  match later with
  | [] => None
  | o :: r =>
      if String.eqb (kek_ID k) (kek_ID o)
      then Some (Malformed (OfVar (kek_Var o)) (TwiceID (kek_ID o)))
      else if String.eqb (kek_key k) (kek_key o)
      then Some (Malformed (OfVar (kek_Var o)) (SameKey (kek_ID k) (kek_ID o)))
      else same_as k r
  end.

Fixpoint repeated (all : list KEK) : option Refusal :=
  match all with
  | [] => None
  | k :: r => match same_as k r with Some e => Some e | None => repeated r end
  end.

Definition ParseKeyConfig (active0 previous0 : string) : res Refusal KeyConfig :=
  let active := TrimSpace active0 in
  if String.eqb active "" then Err KeyMissing
  else
    a <-? parseEntry active OfActive EnvKey ;;
    let previous := TrimSpace previous0 in
    ps <-? (if String.eqb previous "" then Ok []
            else let entries := Split "," previous in
                 if maxPrevious <? Z.of_nat (length entries)
                 then Err (Malformed (OfVar EnvKeyPrevious) TooManyPrevious)
                 else parse_entries 1 entries) ;;
    let cfg := {| Active := a; Previous := ps |} in
    match repeated (All cfg) with Some e => Err e | None => Ok cfg end.

(** ** Wrapped data keys *)

Inductive DekState := DekActive | DekRetired.
#[export] Instance DekState_eq_dec : EqDecision DekState.
Proof. solve_decision. Defined.

(** A row of [encryption_data_keys], as it is read. *)
Record WrappedDEK := { w_ID : Z; w_State : DekState; w_KEKID : string; w_Wrapped : string }.

Definition wrappedLen : Z := 12 + 32 + 16.

Definition wrapAAD (id : Z) (kekID : string) : string :=
  default "" (lp16 ("paceday/dek" +:+ String (char 0) (String (char 1) "") +:+ be32 id) kekID).

(** [gcm]: [aes.NewCipher] wants 16, 24 or 32 bytes. *)
Definition gcm (key : string) : res KeyError string :=
  if (slen key =? 16) || (slen key =? 24) || (slen key =? 32) then Ok key else Err ErrKeySize.

Section Crypto.
Context {A : AEAD}.

(** [nonce] is read from [crypto/rand]. *)
Definition wrap (id : Z) (kek : KEK) (dek nonce : string) : res KeyError string :=
  a <-? gcm (kek_key kek) ;;
  Ok (nonce +:+ aead_seal a nonce dek (wrapAAD id (kek_ID kek))).

Definition unwrap (w : WrappedDEK) (kek : KEK) : res KeyError string :=
  if negb (slen (w_Wrapped w) =? wrappedLen) then Err (ErrWrappedLength (w_ID w))
  else
    a <-? gcm (kek_key kek) ;;
    match aead_open a (stake NonceSize (w_Wrapped w)) (sdrop NonceSize (w_Wrapped w))
            (wrapAAD (w_ID w) (w_KEKID w)) with
    | Some dek => Ok dek
    | None => Err (ErrWrongKey (w_ID w))
    end.

(** [dek] and [nonce] are random. *)
Definition NewDEK (id : Z) (kek : KEK) (dek nonce : string) : res KeyError WrappedDEK :=
  wrapped <-? wrap id kek dek nonce ;;
  Ok {| w_ID := id; w_State := DekActive; w_KEKID := kek_ID kek; w_Wrapped := wrapped |}.

Definition Rewrap (w : WrappedDEK) (cfg : KeyConfig) (nonce : string) : res KeyError WrappedDEK :=
  match Lookup cfg (w_KEKID w) with
  | None => Err (ErrUnknownKEK (w_ID w))
  | Some kek =>
      dek <-? unwrap w kek ;;
      if String.eqb (w_KEKID w) (kek_ID (Active cfg)) then Ok w
      else
        wrapped <-? wrap (w_ID w) (Active cfg) dek nonce ;;
        Ok {| w_ID := w_ID w; w_State := w_State w; w_KEKID := kek_ID (Active cfg);
              w_Wrapped := wrapped |}
  end.

Definition opens (w : WrappedDEK) (k : KEK) : bool :=
  match unwrap w k with Ok _ => true | Err _ => false end.

(** The first data key, and the first configured key that opens it. *)
Definition OpensAny (cfg : KeyConfig) (deks : list WrappedDEK) : option (WrappedDEK * KEK) :=
  List.find (fun p => opens p.1 p.2) (flat_map (fun w => map (pair w) (All cfg)) deks).

(** ** The keyring *)

Record dekEntry := { e_aead : string; e_kekID : string; e_state : DekState }.

Record Keyring := { deks : gmap Z dekEntry; active : Z }.

(** One data key of [add]: the entries, the id of an active one, and the number
    of unwraps so far. *)
Definition add_dek (cfg : KeyConfig) (w : WrappedDEK) (acc : gmap Z dekEntry * Z * Z)
    : res KeyError (gmap Z dekEntry * Z * Z) :=
  let '(ds, act, n) := acc in
  let act' := if decide (w_State w = DekActive) then w_ID w else act in
  match ds !! w_ID w with
  | Some e =>
      Ok (<[w_ID w := {| e_aead := e_aead e; e_kekID := e_kekID e; e_state := w_State w |}]> ds,
          act', n)
  | None =>
      match Lookup cfg (w_KEKID w) with
      | None => Err (ErrUnknownKEK (w_ID w))
      | Some kek =>
          raw <-? unwrap w kek ;;
          a <-? gcm raw ;;
          Ok (<[w_ID w := {| e_aead := a; e_kekID := w_KEKID w; e_state := w_State w |}]> ds,
              act', n + 1)
      end
  end.

Fixpoint add_deks (cfg : KeyConfig) (ws : list WrappedDEK) (acc : gmap Z dekEntry * Z * Z)
    : res KeyError (gmap Z dekEntry * Z * Z) :=
  match ws with
  | [] => Ok acc
  | w :: r => acc' <-? add_dek cfg w acc ;; add_deks cfg r acc'
  end.

(** [add]: the keyring and the number of data keys it unwrapped. *)
Definition add (k : Keyring) (cfg : KeyConfig) (ws : list WrappedDEK)
    : res KeyError (Keyring * Z) :=
  acc <-? add_deks cfg ws (deks k, 0, 0) ;;
  let '(ds, act, n) := acc in
  let act' := if act =? 0 then active k else act in
  if act' =? 0 then Err ErrNoActiveDEK else Ok ({| deks := ds; active := act' |}, n).

Definition NewKeyring (cfg : KeyConfig) (ws : list WrappedDEK) : res KeyError (Keyring * Z) :=
  add {| deks := ∅; active := 0 |} cfg ws.

Definition With (k : Keyring) (cfg : KeyConfig) (more : list WrappedDEK)
    : res KeyError (Keyring * Z) := add k cfg more.

Definition ActiveDEK (k : Keyring) : Z := active k.
Definition Has (k : Keyring) (id : Z) : bool := bool_decide (is_Some (deks k !! id)).
Definition KEKOf (k : Keyring) (id : Z) : string :=
  match deks k !! id with Some e => e_kekID e | None => "" end.

(** The seals of the process per data key since the last flush. *)
Definition counts := gmap Z Z.
Definition count_add (id n : Z) (c : counts) : counts := <[id := default 0 (c !! id) + n]> c.
Definition TakeSealCounts (c : counts) : list (Z * Z) * counts :=
  (keep (fun p => negb (p.2 =? 0)) (map_to_list c), (fun _ => 0) <$> c).
Definition RestoreSealCounts (taken : list (Z * Z)) (c : counts) : counts :=
  fold_left (fun c p => count_add p.1 p.2 c) taken c.

(** [SealWith]; [nonce] is random.  A seal is counted. *)
Definition SealWith (k : Keyring) (dek : Z) (b : Binding) (plaintext nonce : string) (c : counts)
    : res KeyError string * counts :=
  if String.eqb plaintext "" then (Ok "", c)
  else match deks k !! dek with
  | None => (Err (ErrNotHeld dek), c)
  | Some e =>
      match aad b with
      | None => (Err ErrBinding, c)
      | Some a =>
          (Ok (Marker +:+ "1:" +:+ itoa dek +:+ ":" +:+
               EncodeToString RawURLEncoding (nonce +:+ aead_seal (e_aead e) nonce plaintext a)),
           count_add dek 1 c)
      end
  end.

Definition SealActive (k : Keyring) := SealWith k (active k).

Definition fail (k : option Keyring) (b : Binding) (dek : Z) (r : Reason) : res DecryptError string :=
  Err {| de_Table := b_Table b; de_Column := b_Column b; de_Row := RowString b; de_DEK := dek;
         de_KEK := match k with Some k => if 0 <? dek then KEKOf k dek else "" | None => "" end;
         de_Reason := r |}.

Definition open_body (k : option Keyring) (b : Binding) (dek : Z) (body : string)
    : res DecryptError string :=
  match k with
  | None => fail k b dek ReasonNoKeyring
  | Some kr =>
      match deks kr !! dek with
      | None => fail k b dek ReasonUnknownDataKey
      | Some e =>
          match aad b with
          | None => fail k b dek ReasonMalformed
          | Some a =>
              match aead_open (e_aead e) (stake NonceSize body) (sdrop NonceSize body) a with
              | Some pt => Ok pt
              | None => fail k b dek ReasonAuth
              end
          end
      end
  end.

(** [Open]; the keyring may be nil. *)
Definition Open (k : option Keyring) (b : Binding) (stored : string) : res DecryptError string :=
  match Classify stored with
  | KindEmpty => Ok ""
  | KindPlain => Ok stored
  | KindSealed =>
      if negb (HasPrefix stored Marker) then fail k b 0 ReasonMalformed
      else match Split ":" stored with
      | _ :: v :: rest =>
          if negb (String.eqb v "1") then fail k b 0 ReasonUnsupportedVersion
          else match rest with
          | [d; enc] =>
              match parseDEKID d with
              | None => fail k b 0 ReasonMalformed
              | Some dek =>
                  match DecodeStrict RawURLEncoding enc with
                  | None => fail k b dek ReasonMalformed
                  | Some body =>
                      if slen body <? 28 then fail k b dek ReasonMalformed
                      else open_body k b dek body
                  end
              end
          | _ => fail k b 0 ReasonMalformed
          end
      | _ => fail k b 0 ReasonUnsupportedVersion
      end
  end.

(** *** The process-wide keyring *)

(** What a process has installed: its keyring and the outcome of its seal gate. *)
Definition Seal (current : option Keyring) (gate : res KeyError unit) (b : Binding)
    (plaintext nonce : string) (c : counts) : res KeyError string * counts :=
  if String.eqb plaintext "" then (Ok "", c)
  else match current with
  | None => (Err ErrNoKeyring, c)
  | Some k => match gate with Err e => (Err e, c) | Ok _ => SealActive k b plaintext nonce c end
  end.

(** *** Reports *)

Definition ReportWindow : Z := Hour.
Definition maxReported : Z := 10000.

(** [firstReport]: whether [line] was not reported within the window; the lines
    reported, with their instants, are kept. *)
Definition firstReport (line : string) (now : Z) (reported : gmap string Z)
    : bool * gmap string Z :=
  let recent := match reported !! line with Some t => now - t <? ReportWindow | None => false end in
  if recent then (false, reported)
  else
    let r := if maxReported <=? Z.of_nat (size reported) then ∅ else reported in
    (true, <[line := now]> r).
End Crypto.

(** ** Facts: strings *)

Lemma slen_app a b : String.length (a +:+ b) = (String.length a + String.length b)%nat.
Proof. induction a as [|c a IH]; [done|]. change (S (String.length (a +:+ b)) = S (String.length a + String.length b)). by rewrite IH. Qed.

Lemma app_inj_length a a' b b' :
  String.length a = String.length a' -> a +:+ b = a' +:+ b' -> a = a' /\ b = b'.
Proof.
  revert a'. induction a as [|c a IH]; intros [|c' a'] Hl H; try done.
  change (String c (a +:+ b) = String c' (a' +:+ b')) in H. injection H as -> H.
  injection Hl as Hl. by destruct (IH a' Hl H) as [-> ->].
Qed.

Lemma app_inv_l a b b' : a +:+ b = a +:+ b' -> b = b'.
Proof. intros H. by destruct (app_inj_length a a b b' eq_refl H). Qed.

Lemma stake_app n a b : String.length a = n -> stake n (a +:+ b) = a.
Proof.
  revert n. induction a as [|c a IH]; intros [|n] H; try done.
  change (String c (stake n (a +:+ b)) = String c a). f_equal. apply IH. by injection H.
Qed.

Lemma sdrop_app n a b : String.length a = n -> sdrop n (a +:+ b) = b.
Proof.
  revert n. induction a as [|c a IH]; intros [|n] H; try done.
  change (sdrop n (a +:+ b) = b). apply IH. by injection H.
Qed.

Lemma sdrop_length n s : String.length (sdrop n s) = (String.length s - n)%nat.
Proof. revert s. induction n as [|n IH]; intros [|c s]; cbn; [done..|apply IH]. Qed.

Lemma char_inj x y : 0 <= x < 256 -> 0 <= y < 256 -> char x = char y -> x = y.
Proof. intros Hx Hy H. by rewrite <- (byte_of_char x), H, byte_of_char. Qed.

Lemma be16_inj x y : 0 <= x < 65536 -> 0 <= y < 65536 -> be16 x = be16 y -> x = y.
Proof.
  unfold be16. intros Hx Hy H.
  injection H as H1%char_inj H2%char_inj; [|dlia..].
  rewrite (Z.div_mod x 256), (Z.div_mod y 256) by lia. congruence.
Qed.

(** ** Facts: associated data *)

(** A field as it is written. *)
Definition field (s : string) : string := be16 (slen s) +:+ s.

Lemma lp16_field out s o :
  lp16 out s = Some o <-> slen s <= maxField /\ o = out +:+ field s.
Proof.
  unfold lp16, field. destruct (Z.ltb_spec maxField (slen s)).
  - split; [done|]. intros [? _]. lia.
  - split; [by intros [= <-]|]. by intros [_ ->].
Qed.

Lemma field_inj s s' r r' :
  slen s <= maxField -> slen s' <= maxField -> field s +:+ r = field s' +:+ r' -> s = s' /\ r = r'.
Proof.
  unfold field, maxField. intros Hs Hs' H. rewrite !app_assoc_str in H.
  apply app_inj_length in H as [Hl H]; [|done]. apply be16_inj in Hl; [|lia..].
  apply app_inj_length in H; [done|]. by apply Nat2Z.inj.
Qed.

Fixpoint parts_string (row : list Part) : string :=
  match row with [] => "" | p :: r => field (p_Name p) +:+ field (p_Value p) +:+ parts_string r end.

Definition part_ok (p : Part) : Prop := slen (p_Name p) <= maxField /\ slen (p_Value p) <= maxField.

Lemma lp_parts_string row out o :
  lp_parts out row = Some o -> Forall part_ok row /\ o = out +:+ parts_string row.
Proof.
  revert out. induction row as [|p r IH]; intros out; cbn [lp_parts parts_string].
  - intros [= <-]. split; [constructor|]. symmetry. apply app_nil_str.
  - destruct (lp16 out (p_Name p)) as [o1|] eqn:E1; [cbn|done].
    destruct (lp16 o1 (p_Value p)) as [o2|] eqn:E2; [cbn|done]. intros [Hr ->]%IH.
    apply lp16_field in E1 as [H1 ->], E2 as [H2 ->]. split; [by constructor|].
    by rewrite !app_assoc_str.
Qed.

Lemma parts_string_inj row row' :
  length row = length row' -> Forall part_ok row -> Forall part_ok row' ->
  parts_string row = parts_string row' -> row = row'.
Proof.
  revert row'. induction row as [|[n v] r IH]; intros [|[n' v'] r'] Hl Hr Hr' H; try done.
  inversion_clear Hr as [|? ? [Hn Hv] Hr1]. inversion_clear Hr' as [|? ? [Hn' Hv'] Hr1'].
  cbn in *. apply field_inj in H as [-> H]; [|done..]. apply field_inj in H as [-> H]; [|done..].
  f_equal. apply IH; [lia|done..].
Qed.

(** The layout of the associated data. *)
Lemma aad_layout b a :
  aad b = Some a ->
  (1 <= length (b_Row b) <= 2)%nat /\ slen (b_Table b) <= maxField /\
  slen (b_Column b) <= maxField /\ Forall part_ok (b_Row b) /\
  a = aad_head +:+ field (b_Table b) +:+ field (b_Column b) +:+
      String (char (Z.of_nat (length (b_Row b)))) (parts_string (b_Row b)).
Proof.
  unfold aad. cbv zeta. destruct (_ || _) eqn:En; [done|]. zbool.
  destruct (lp16 aad_head (b_Table b)) as [o1|] eqn:E1; [cbn|done].
  destruct (lp16 o1 (b_Column b)) as [o2|] eqn:E2; [cbn|done].
  intros [Hr ->]%lp_parts_string. apply lp16_field in E1 as [H1 ->], E2 as [H2 ->].
  split_and!; [lia|lia|done|done|done|]. by rewrite !app_assoc_str.
Qed.

(** ** Facts: envelopes *)

(** An envelope: the data key's id and the body. *)
Definition envelope (dek : Z) (body : string) : string :=
  Marker +:+ "1:" +:+ itoa dek +:+ ":" +:+ EncodeToString RawURLEncoding body.

Definition dek_id (dek : Z) : Prop := 1 <= dek < 2 ^ 31.

Lemma parseDEKID_itoa dek : dek_id dek -> parseDEKID (itoa dek) = Some dek.
Proof.
  intros Hd. unfold dek_id in Hd. destruct (itoa_pos dek ltac:(lia)) as (Hv & Hdig & c & r & E & Hc).
  assert (Hl : (String.length (itoa dek) <= 10)%nat) by (apply itoa_length; lia).
  unfold parseDEKID, allDigits. rewrite Hdig, Hv. rewrite E in Hl |- *.
  assert (HasPrefix (String c r) "0" = false) as ->.
  { unfold HasPrefix. cbn [String.prefix]. by destruct (ascii_dec "0" c) as [<-|]. }
  rewrite (proj2 (Z.ltb_ge _ _)) by lia. cbn.
  by rewrite !(proj2 (Z.ltb_ge _ _)) by lia.
Qed.

Lemma allDigits_itoa dek : dek_id dek -> allDigits (itoa dek) = true.
Proof.
  intros Hd. unfold dek_id in Hd. destruct (itoa_pos dek ltac:(lia)) as (_ & Hdig & c & r & E & _).
  unfold allDigits. rewrite Hdig. by rewrite E.
Qed.

Lemma digits_no_colon s :
  sforallb is_digit s = true -> sforallb (fun c => negb (Ascii.eqb c ":")) s = true.
Proof.
  induction s as [|c s IH]; [done|]. cbn [sforallb]. intros [Hc Hs]%andb_true_iff.
  rewrite IH by done. destruct (Ascii.eqb_spec c ":") as [->|]; [|done]. by vm_compute in Hc.
Qed.

Lemma b64url_all body : sforallb b64url_char (EncodeToString RawURLEncoding body) = true.
Proof.
  apply (Encode_chars RawURLEncoding); [done|]. intros k Hk.
  apply (forallb_seq64 (fun k => b64url_char (enc_char RawURLEncoding k)) k); [by vm_compute|done].
Qed.

Lemma b64url_no_colon body :
  sforallb (fun c => negb (Ascii.eqb c ":")) (EncodeToString RawURLEncoding body) = true.
Proof.
  apply (Encode_chars RawURLEncoding); [done|]. intros k Hk.
  apply (forallb_seq64 (fun k => negb (Ascii.eqb (enc_char RawURLEncoding k) ":")) k);
    [by vm_compute|done].
Qed.

Lemma Split_numbers dek body : dek_id dek ->
  Split ":" ("1:" +:+ itoa dek +:+ ":" +:+ EncodeToString RawURLEncoding body) =
  ["1"; itoa dek; EncodeToString RawURLEncoding body].
Proof.
  intros Hd. unfold dek_id in Hd.
  change ("1:" +:+ ?x) with ("1" +:+ String ":" x). rewrite Split_app by done.
  change (":" +:+ ?x) with (String ":" x).
  rewrite Split_app by (apply digits_no_colon, itoa_pos; lia).
  by rewrite (Split_none ":" (EncodeToString _ _)) by apply b64url_no_colon.
Qed.

Lemma Split_envelope dek body : dek_id dek ->
  Split ":" (envelope dek body) = ["pdenc"; "1"; itoa dek; EncodeToString RawURLEncoding body].
Proof.
  intros Hd. unfold envelope. change (Marker +:+ ?x) with ("pdenc" +:+ String ":" x).
  rewrite Split_app by done. by rewrite Split_numbers.
Qed.

Lemma envelope_prefix dek body : HasPrefix (envelope dek body) Marker = true.
Proof. apply HasPrefix_app. Qed.

Lemma Classify_envelope dek body : Classify (envelope dek body) = KindSealed.
Proof. unfold Classify. by rewrite envelope_prefix. Qed.

(** [s] with byte [i] replaced. *)
Fixpoint set_byte (i : nat) (x : ascii) (s : string) : string :=
  match s, i with
  | EmptyString, _ => ""
  | String _ r, O => String x r
  | String c r, S j => String c (set_byte j x r)
  end.

Lemma set_byte_length i x s : String.length (set_byte i x s) = String.length s.
Proof. revert i. induction s as [|c s IH]; intros [|i]; cbn; [done..|by rewrite IH]. Qed.

Lemma set_byte_app i x a b :
  (i < String.length a)%nat -> set_byte i x (a +:+ b) = set_byte i x a +:+ b.
Proof.
  revert i. induction a as [|c a IH]; intros i Hi; [cbn in Hi; lia|].
  change (String c a +:+ b) with (String c (a +:+ b)). destruct i as [|i]; [done|].
  cbn [set_byte]. change (String c ?u +:+ b) with (String c (u +:+ b)). f_equal.
  apply IH. cbn in Hi. lia.
Qed.

Lemma differences_app p r : differences p (p +:+ r) = 0.
Proof.
  induction p as [|c p IH]; [done|]. change (String c p +:+ r) with (String c (p +:+ r)).
  cbn [differences]. rewrite Ascii.eqb_refl, IH. done.
Qed.

Lemma damaged_differences p i x r :
  (i < String.length p)%nat -> String.get i p <> Some x ->
  differences p (set_byte i x p +:+ r) = 1.
Proof.
  revert i. induction p as [|c p IH]; intros i Hi Hx; [cbn in Hi; lia|].
  destruct i as [|i]; cbn [set_byte String.get String.length] in *.
  - change (String x p +:+ r) with (String x (p +:+ r)). cbn [differences].
    destruct (Ascii.eqb_spec c x) as [->|]; [done|]. by rewrite differences_app.
  - change (String c ?u +:+ r) with (String c (u +:+ r)). cbn [differences].
    rewrite Ascii.eqb_refl, IH; [done|lia|done].
Qed.

Lemma damaged_prefix i x r : (i < String.length Marker)%nat -> String.get i Marker <> Some x ->
  HasPrefix (set_byte i x Marker +:+ r) Marker = false.
Proof.
  intros Hi Hx. destruct (HasPrefix _ _) eqn:E; [|done]. exfalso.
  assert (Hz : forall p s, String.prefix p s = true -> differences p s = 0).
  { clear. induction p as [|c p IH]; intros [|d s]; try done. cbn [String.prefix differences].
    destruct (ascii_dec c d) as [->|]; [|done]. rewrite Ascii.eqb_refl. intros H.
    rewrite IH by done. lia. }
  apply Hz in E. rewrite damaged_differences in E by done. lia.
Qed.

Lemma encode_long e s : (String.length s <= String.length (EncodeToString e s))%nat.
Proof.
  induction s as [|a|a b|a b c r IH] using string_ind3; cbn; lia.
Qed.

Lemma tail_long dek body :
  28 <= slen body ->
  5 <= slen ("1:" +:+ itoa dek +:+ ":" +:+ EncodeToString RawURLEncoding body).
Proof.
  intros Hb. pose proof (encode_long RawURLEncoding body). rewrite !slen_app. cbn [String.length]. lia.
Qed.

Section SealFacts.
Context {A : AEAD} {L : AEADLaws A}.

(** Opening an envelope comes down to opening its body. *)
Lemma Open_envelope k b dek body : dek_id dek -> 28 <= slen body ->
  Open k b (envelope dek body) = open_body k b dek body.
Proof.
  intros Hd Hl. unfold Open. rewrite Classify_envelope, envelope_prefix, Split_envelope by done.
  cbn [negb]. change (String.eqb "1" "1") with true. cbn [negb].
  rewrite parseDEKID_itoa by done.
  rewrite (DecodeStrict_Encode RawURLEncoding) by exact RawURLEncoding_ok.
  by rewrite (proj2 (Z.ltb_ge _ _)) by done.
Qed.

Lemma SealWith_Ok k dek b p nonce c s c' :
  SealWith k dek b p nonce c = (Ok s, c') ->
  (p = "" /\ s = "") \/
  (p <> "" /\ exists e a, deks k !! dek = Some e /\ aad b = Some a /\
    s = envelope dek (nonce +:+ aead_seal (e_aead e) nonce p a)).
Proof.
  unfold SealWith. destruct (String.eqb_spec p "") as [->|Hp]; [intros [= <- <-]; by left|].
  destruct (deks k !! dek) as [e|] eqn:Ee; [|done]. destruct (aad b) as [a|] eqn:Ea; [|done].
  intros [= <- <-]. right. split; [done|]. by exists e, a.
Qed.

Lemma body_long nonce k p a : String.length nonce = NonceSize -> p <> "" ->
  28 <= slen (nonce +:+ aead_seal k nonce p a).
Proof.
  intros Hn Hp. rewrite slen_app, seal_length, Hn. unfold NonceSize. lia.
Qed.

(** A sealed body, opened with the entry that sealed it. *)
Lemma open_body_sealed k b dek e nonce p a a' :
  String.length nonce = NonceSize -> deks k !! dek = Some e -> aad b = Some a' ->
  open_body (Some k) b dek (nonce +:+ aead_seal (e_aead e) nonce p a) =
  match aead_open (e_aead e) nonce (aead_seal (e_aead e) nonce p a) a' with
  | Some pt => Ok pt | None => fail (Some k) b dek ReasonAuth end.
Proof.
  intros Hn He Ha. unfold open_body. by rewrite He, Ha, stake_app, sdrop_app.
Qed.

(** What is sealed opens, for every keyring that holds the key. *)
Lemma SealWith_opens k k' dek b p nonce c s c' e e' :
  dek_id dek -> String.length nonce = NonceSize ->
  deks k !! dek = Some e -> deks k' !! dek = Some e' -> e_aead e' = e_aead e ->
  SealWith k dek b p nonce c = (Ok s, c') -> Open (Some k') b s = Ok p.
Proof.
  intros Hd Hn He He' Hk [[-> ->]|[Hp (e0 & a & He0 & Ha & ->)]]%SealWith_Ok; [done|].
  rewrite He0 in He. injection He as ->.
  rewrite Open_envelope by (done || by apply body_long). rewrite <- Hk.
  rewrite (open_body_sealed k' b dek e' nonce p a a) by done. by rewrite open_seal.
Qed.
End SealFacts.

(** ** Facts: keyrings *)

(** Every data key of [ds] is in [ds'], opened as before. *)
Definition keeps_keys (ds ds' : gmap Z dekEntry) : Prop :=
  forall id e, ds !! id = Some e ->
    exists e', ds' !! id = Some e' /\ e_aead e' = e_aead e /\ e_kekID e' = e_kekID e.

#[export] Instance keeps_keys_preorder : PreOrder keeps_keys.
Proof.
  split.
  - intros ds id e He. by exists e.
  - intros a b c Hab Hbc id e He. destruct (Hab id e He) as (e1 & H1 & E1 & K1).
    destruct (Hbc id e1 H1) as (e2 & H2 & E2 & K2). exists e2. split; [done|]. by split; congruence.
Qed.

Definition missing (ds : gmap Z dekEntry) (ws : list WrappedDEK) : list WrappedDEK :=
  keep (fun w => bool_decide (ds !! w_ID w = None)) ws.

Section KeyringFacts.
Context {A : AEAD}.

Lemma add_dek_keeps cfg w ds act n ds' act' n' :
  add_dek cfg w (ds, act, n) = Ok (ds', act', n') ->
  keeps_keys ds ds' /\ is_Some (ds' !! w_ID w) /\
  dom ds' = {[w_ID w]} ∪ dom ds /\
  act' = (if decide (w_State w = DekActive) then w_ID w else act) /\
  n' = n + (if decide (ds !! w_ID w = None) then 1 else 0).
Proof.
  unfold add_dek. destruct (ds !! w_ID w) as [e|] eqn:Ee.
  - intros [= <- <- <-]. split; [|split_and!].
    + intros id e0 He0. destruct (decide (id = w_ID w)) as [->|Hne].
      * rewrite Ee in He0. injection He0 as <-. rewrite lookup_insert_eq. by eexists.
      * rewrite lookup_insert_ne by done. by exists e0.
    + by rewrite lookup_insert_eq.
    + by rewrite dom_insert_L.
    + done.
    + rewrite decide_False by done. lia.
  - destruct (Lookup cfg (w_KEKID w)) as [kek|]; [|done].
    destruct (unwrap w kek) as [raw|]; [cbn|done]. destruct (gcm raw) as [a|]; [cbn|done].
    intros [= <- <- <-]. split; [|split_and!].
    + intros id e0 He0. rewrite lookup_insert_ne by congruence. by exists e0.
    + by rewrite lookup_insert_eq.
    + by rewrite dom_insert_L.
    + done.
    + by rewrite decide_True.
Qed.

Lemma add_deks_keeps cfg ws ds act n ds' act' n' :
  NoDup (map w_ID ws) -> add_deks cfg ws (ds, act, n) = Ok (ds', act', n') ->
  keeps_keys ds ds' /\ dom ds' = list_to_set (map w_ID ws) ∪ dom ds /\
  n' = n + Z.of_nat (length (missing ds ws)) /\
  (forall w, w ∈ ws -> w_State w = DekActive ->
     (forall u, u ∈ ws -> w_State u = DekActive -> u = w) -> act' = w_ID w) /\
  ((forall w, w ∈ ws -> w_State w <> DekActive) -> act' = act).
Proof.
  revert ds act n. induction ws as [|w ws IH]; intros ds act n Hnd; cbn [add_deks map].
  - intros [= <- <- <-]. split_and!; [done|by rewrite list_to_set_nil, union_empty_l_L|cbn; lia|by intros w ?%not_elem_of_nil|done].
  - cbn in Hnd. apply NoDup_cons in Hnd as [Hni Hnd].
    destruct (add_dek cfg w (ds, act, n)) as [[[ds1 act1] n1]|] eqn:E1; [cbn|done]. intros E2.
    apply add_dek_keeps in E1 as (K1 & _ & D1 & A1 & N1).
    destruct (IH _ _ _ Hnd E2) as (K2 & D2 & N2 & A2 & A2').
    assert (Hmiss : missing ds1 ws = missing ds ws).
    { unfold missing, keep. apply filter_ext_in. intros u Hu. apply bool_decide_ext.
      rewrite <- !not_elem_of_dom, D1, not_elem_of_union, not_elem_of_singleton.
      assert (w_ID u <> w_ID w); [|tauto]. intros Heq. apply Hni. rewrite <- Heq.
      apply list_elem_of_In, in_map. exact Hu. }
    split_and!.
    + by transitivity ds1.
    + rewrite D2, D1. cbn [map list_to_set foldr]. by rewrite !(assoc_L (∪)), (comm_L (∪) {[w_ID w]}).
    + rewrite N2, Hmiss, N1. unfold missing. cbn [keep List.filter].
      destruct (decide (ds !! w_ID w = None)).
      * rewrite bool_decide_true by done. cbn [length]. unfold keep. lia.
      * rewrite bool_decide_false by done. unfold keep. lia.
    + intros x [->|Hx]%elem_of_cons Hs Hu.
      * rewrite A2', A1, decide_True; [done|done|]. intros v Hv Hvs.
        assert (v = w) as -> by (apply Hu; [by right|done]). apply Hni.
        apply list_elem_of_In, in_map. by apply list_elem_of_In.
      * apply (A2 x Hx Hs). intros u Hu' Hus. apply Hu; [by right|done].
    + intros Hno. rewrite A2', A1, decide_False; [done|apply Hno; left|].
      intros u Hu. apply Hno. by right.
Qed.
End KeyringFacts.

(** ** Properties *)

Section Properties.
Context {A : AEAD} {L : AEADLaws A}.

(** C31: A stored secret opens to what was sealed: a value sealed with one of the
    data keys of a keyring is the plaintext again for every keyring that holds
    this data key (as every later keyring of the process does), at the same
    place; only the empty string is stored as it is. *)
Theorem seal_open k k' dek b p nonce c s c' e e' :
  dek_id dek -> String.length nonce = NonceSize ->
  deks k !! dek = Some e -> deks k' !! dek = Some e' -> e_aead e' = e_aead e ->
  SealWith k dek b p nonce c = (Ok s, c') ->
  Open (Some k') b s = Ok p /\
  Classify s = (if String.eqb p "" then KindEmpty else KindSealed) /\
  (p <> "" -> SealedDEK s = Some dek).
Proof.
  intros Hd Hn He He' Hk H. split; [by apply (SealWith_opens k k' dek b p nonce c s c' e e')|].
  apply SealWith_Ok in H as [[-> ->]|[Hp (e0 & a & He0 & Ha & ->)]]; [by split|].
  split.
  - rewrite Classify_envelope. by destruct (String.eqb_spec p "").
  - intros _. unfold SealedDEK. rewrite envelope_prefix, Split_envelope by done.
    by apply parseDEKID_itoa.
Qed.

(** The associated data tells every place apart: two bindings that are encoded
    alike are the same table, column and row identity. *)
Lemma aad_injective b b' a : aad b = Some a -> aad b' = Some a -> b = b'.
Proof.
  destruct b as [t c r], b' as [t' c' r'].
  intros (Hl & Ht & Hc & Hr & Ea)%aad_layout (Hl' & Ht' & Hc' & Hr' & Ea')%aad_layout.
  rewrite Ea in Ea'. cbn [b_Table b_Column b_Row] in *. apply app_inv_l in Ea'.
  apply field_inj in Ea' as [-> E]; [|done..]. apply field_inj in E as [-> E]; [|done..].
  injection E as E1 E2. apply char_inj in E1; [|lia..]. f_equal.
  apply parts_string_inj; [lia|done..].
Qed.

(** A sealed value moved to another place does not open there: read under any
    other table, column or row identity it is an authentication failure, as
    soon as AES-GCM gives the two different associated data different tags. *)
Theorem moved_value_refused k dek b b' p nonce c s c' e a a' :
  dek_id dek -> String.length nonce = NonceSize -> p <> "" -> b <> b' ->
  deks k !! dek = Some e -> aad b = Some a -> aad b' = Some a' ->
  (a <> a' -> forall p', String.length p' = String.length p ->
     aead_seal (e_aead e) nonce p a <> aead_seal (e_aead e) nonce p' a') ->
  SealWith k dek b p nonce c = (Ok s, c') ->
  Open (Some k) b' s = fail (Some k) b' dek ReasonAuth.
Proof.
  intros Hd Hn Hp Hne He Ha Ha' Htag [[-> _]|[_ (e0 & a0 & He0 & Ha0 & ->)]]%SealWith_Ok; [done|].
  rewrite He0 in He. injection He as ->. rewrite Ha0 in Ha. injection Ha as ->.
  assert (Hneq : a <> a') by (intros ->; by apply Hne, (aad_injective b b' a')).
  rewrite Open_envelope by (done || by apply body_long).
  rewrite (open_body_sealed k b' dek e nonce p a a') by done.
  destruct (aead_open _ _ _ a') as [p'|] eqn:Eo; [|done]. exfalso.
  apply open_sound in Eo. apply (Htag Hneq p'); [|done].
  apply (f_equal String.length) in Eo. rewrite !seal_length in Eo. lia.
Qed.

(** A damaged envelope never reads as plaintext: whichever byte of the marker
    of a sealed value is changed, to whatever else, the value is still
    classified as sealed and every reading of it fails. *)
Theorem damaged_never_plain k0 k dek b b' p nonce c s c' i x :
  dek_id dek -> String.length nonce = NonceSize -> p <> "" ->
  SealWith k dek b p nonce c = (Ok s, c') ->
  (i < String.length Marker)%nat -> String.get i Marker <> Some x ->
  let s' := set_byte i x s in
  Classify s' = KindSealed /\ Open k0 b' s' = fail k0 b' 0 ReasonMalformed /\ SealedDEK s' = None.
Proof.
  intros Hd Hn Hp [[-> _]|[_ (e & a & _ & _ & ->)]]%SealWith_Ok Hi Hx s'; [done|].
  set (body := nonce +:+ _) in *. assert (Hb : 28 <= slen body) by (by apply body_long).
  assert (Es : s' = set_byte i x Marker +:+ ("1:" +:+ itoa dek +:+ ":" +:+
    EncodeToString RawURLEncoding body)) by (apply set_byte_app, Hi).
  assert (Hpre : HasPrefix s' Marker = false) by (rewrite Es; by apply damaged_prefix).
  assert (Hdm : damagedMarker s' = true).
  { unfold damagedMarker. rewrite Es, slen_app, set_byte_length. cbn [String.length Marker].
    rewrite (proj2 (Z.ltb_ge _ _)) by (pose proof (tail_long dek body Hb); lia).
    rewrite damaged_differences by done. cbn [negb].
    change (sdrop 6) with (sdrop (String.length Marker)).
    rewrite (sdrop_app (String.length Marker)) by apply set_byte_length.
    rewrite Split_numbers, allDigits_itoa, b64url_all by done. cbn.
    pose proof (encode_long RawURLEncoding body). by destruct (EncodeToString _ _); [cbn in *; lia|]. }
  assert (Hc : Classify s' = KindSealed).
  { unfold Classify. rewrite Hpre, Hdm. destruct (String.eqb_spec s' "") as [E|]; [|done].
    by rewrite E in Hdm. }
  split_and!; [done| |].
  - unfold Open. by rewrite Hc, Hpre.
  - unfold SealedDEK. by rewrite Hpre.
Qed.

(** Refreshing a keyring loses nothing: every data key held stays held and opens
    what it opened, the new ones are added, only those are unwrapped, and the
    data key that is active in the database seals from then on. *)
Theorem With_keeps k cfg more k' n :
  NoDup (map w_ID more) -> With k cfg more = Ok (k', n) ->
  keeps_keys (deks k) (deks k') /\
  dom (deks k') = list_to_set (map w_ID more) ∪ dom (deks k) /\
  n = Z.of_nat (length (missing (deks k) more)) /\
  (forall w, w ∈ more -> w_State w = DekActive -> w_ID w <> 0 ->
     (forall u, u ∈ more -> w_State u = DekActive -> u = w) -> ActiveDEK k' = w_ID w).
Proof.
  intros Hnd. unfold With, add.
  destruct (add_deks cfg more (deks k, 0, 0)) as [[[ds act] m]|] eqn:E; [cbn|done].
  apply add_deks_keeps in E as (K & D & N & Ha & _); [|done].
  destruct (_ =? 0); [done|]. intros [= <- <-]. cbn. split_and!; [done|done|lia|].
  intros w Hw Hs Hz Hu. rewrite (Ha w Hw Hs Hu). by rewrite (proj2 (Z.eqb_neq _ _)).
Qed.

(** Wrapping a data key again under the active key changes neither the data key
    nor its id and state: unwrapped with the active key it is the data key the
    previous key gave, so every value sealed with it still opens. *)
Theorem Rewrap_same_key w cfg nonce w' kek dek :
  Lookup cfg (w_KEKID w) = Some kek -> unwrap w kek = Ok dek ->
  String.length nonce = NonceSize -> String.length dek = 32%nat ->
  (w_KEKID w = kek_ID (Active cfg) -> kek = Active cfg) ->
  Rewrap w cfg nonce = Ok w' ->
  w_ID w' = w_ID w /\ w_State w' = w_State w /\ w_KEKID w' = kek_ID (Active cfg) /\
  unwrap w' (Active cfg) = Ok dek.
Proof.
  intros Hk Hu Hn Hl Hsame. unfold Rewrap. rewrite Hk, Hu. cbn [rbind].
  destruct (String.eqb_spec (w_KEKID w) (kek_ID (Active cfg))) as [He|He].
  - intros [= <-]. split_and!; [done..|]. by rewrite <- (Hsame He).
  - unfold wrap. destruct (gcm (kek_key (Active cfg))) as [g|] eqn:Eg; [cbn [rbind]|done].
    intros [= <-]. cbn [w_ID w_State w_KEKID]. split_and!; [done..|].
    unfold unwrap. cbn [w_Wrapped w_ID w_KEKID]. rewrite Eg, slen_app, seal_length, Hn, Hl.
    cbn [rbind]. change (negb _) with false. cbn iota.
    by rewrite stake_app, sdrop_app, open_seal by done.
Qed.
End Properties.

(** *** Key configuration *)

Definition valid_kek (k : KEK) : Prop :=
  ValidKeyID (kek_ID k) = true /\ String.length (kek_key k) = 32%nat.

Lemma parseEntry_valid entry p v k :
  parseEntry entry p v = Ok k -> valid_kek k /\ kek_Var k = v.
Proof.
  unfold parseEntry, valid_kek. destruct (cut ":" entry) as [[id b64]|]; [|done].
  destruct (ValidKeyID id) eqn:Ei; [cbn [negb]|done].
  destruct (DecodeStrict _ b64) as [raw|]; [|done].
  destruct (has_blank b64); [done|]. destruct (slen raw =? 32) eqn:El; [cbn [negb]|done].
  intros [= <-]. cbn. split; [|done]. split; [done|]. lia.
Qed.

Lemma parse_entries_valid i es ks :
  parse_entries i es = Ok ks -> Forall valid_kek ks /\ length ks = length es.
Proof.
  revert i ks. induction es as [|e es IH]; intros i ks; cbn [parse_entries].
  - intros [= <-]. by split.
  - destruct (parseEntry _ _ _) as [k|] eqn:Ek; [cbn [rbind]|done].
    destruct (parse_entries (i + 1) es) as [ks'|] eqn:Ee; [cbn [rbind]|done]. intros [= <-].
    apply parseEntry_valid in Ek as [Hk _]. destruct (IH _ _ Ee) as [Hks Hl].
    split; [by constructor|]. cbn. lia.
Qed.

Definition distinct_keks (a b : KEK) : Prop := kek_ID a <> kek_ID b /\ kek_key a <> kek_key b.

Lemma same_as_None k later : same_as k later = None -> Forall (distinct_keks k) later.
Proof.
  induction later as [|o r IH]; [constructor|]. cbn [same_as].
  destruct (String.eqb_spec (kek_ID k) (kek_ID o)); [done|].
  destruct (String.eqb_spec (kek_key k) (kek_key o)); [done|]. constructor; [by split|auto].
Qed.

Lemma repeated_None all : repeated all = None -> ForallOrdPairs distinct_keks all.
Proof.
  induction all as [|k r IH]; [constructor|]. cbn [repeated].
  destruct (same_as k r) eqn:E; [done|]. constructor; [by apply same_as_None|auto].
Qed.

(** A key configuration that is accepted is well formed: one active and at most
    eight previous keys, every id valid and every key 32 bytes long, no id and
    no key twice. *)
Theorem ParseKeyConfig_wf active previous cfg :
  ParseKeyConfig active previous = Ok cfg ->
  Forall valid_kek (All cfg) /\ ForallOrdPairs distinct_keks (All cfg) /\
  Z.of_nat (length (Previous cfg)) <= maxPrevious /\ kek_Var (Active cfg) = EnvKey.
Proof.
  unfold ParseKeyConfig. cbv zeta. destruct (String.eqb (TrimSpace active) ""); [done|].
  destruct (parseEntry _ _ _) as [a|] eqn:Ea; [cbn [rbind]|done].
  apply parseEntry_valid in Ea as [Ha Hv].
  destruct (if String.eqb (TrimSpace previous) "" then _ else _) as [ps|] eqn:Ep; [cbn [rbind]|done].
  destruct (repeated _) eqn:Er; [done|]. intros [= <-]. apply repeated_None in Er.
  assert (Forall valid_kek ps /\ Z.of_nat (length ps) <= maxPrevious) as [Hps Hn].
  { destruct (String.eqb (TrimSpace previous) ""); [injection Ep as <-; split; [constructor|done]|].
    destruct (Z.ltb_spec maxPrevious (Z.of_nat (length (Split "," (TrimSpace previous)))));
      [done|]. apply parse_entries_valid in Ep as [Hps Hl]. split; [done|lia]. }
  split_and!; [by constructor|done|done|done].
Qed.

(** ** A concrete keyring *)

(** A stand-in for AES-GCM with its laws: the text, and a checksum of the nonce
    and the associated data as its tag. *)
Module Toy.
Fixpoint checksum (acc : Z) (s : string) : Z :=
  match s with EmptyString => acc | String c r => checksum ((acc * 257 + byte_of c) mod 65536) r end.
Definition zeros14 : string := be32 0 +:+ be32 0 +:+ be32 0 +:+ be16 0.
Definition tag (k n a : string) : string := be16 (checksum 7 (k +:+ n +:+ a)) +:+ zeros14.
Definition seal (k n p a : string) : string := p +:+ tag k n a.
Definition open_ (k n c a : string) : option string :=
  let p := stake (String.length c - 16) c in
  if String.eqb c (seal k n p a) then Some p else None.
#[export] Instance aead : AEAD := {| aead_seal := seal; aead_open := open_ |}.
#[export] Instance laws : AEADLaws aead.
Proof.
  split; unfold aead_seal, aead_open; cbn [aead].
  - intros k n p a. unfold open_, seal. rewrite slen_app. change (String.length (tag k n a)) with 16%nat.
    rewrite Nat.add_sub, stake_app by done. by rewrite String.eqb_refl.
  - intros k n c a p. unfold open_. destruct (String.eqb_spec c (seal k n (stake (String.length c - 16) c) a)) as [E|]; [|done].
    intros [= <-]. exact E.
  - intros k n p a. unfold seal. by rewrite slen_app.
Qed.

Definition key32 (c : ascii) : string := String.concat "" (List.repeat (String c "") 32).
Definition nonce : string := "nonce-twelve".
Definition kek_a : KEK := {| kek_ID := "20250101"; kek_key := key32 "a"; kek_Var := EnvKey |}.
Definition kek_b : KEK := {| kek_ID := "20260101"; kek_key := key32 "b"; kek_Var := EnvKeyPrevious |}.
Definition cfg : KeyConfig := {| Active := kek_a; Previous := [kek_b] |}.
Definition dek (c : ascii) (id : Z) (s : DekState) (k : KEK) : WrappedDEK :=
  {| w_ID := id; w_State := s; w_KEKID := kek_ID k;
     w_Wrapped := nonce +:+ seal (kek_key k) nonce (key32 c) (wrapAAD id (kek_ID k)) |}.
Definition ring : Keyring := {| deks := {[1 := {| e_aead := key32 "x"; e_kekID := "20250101"; e_state := DekActive |}]}; active := 1 |}.
Definition place : Binding := {| b_Table := "settings"; b_Column := "zoom_tokens";
  b_Row := [{| p_Name := "user_id"; p_Value := "u1" |}] |}.
Definition other : Binding := {| b_Table := "settings"; b_Column := "webcal_url";
  b_Row := [{| p_Name := "user_id"; p_Value := "u1" |}] |}.
Definition sealed : string := match (SealActive ring place "secret" nonce ∅).1 with Ok s => s | Err _ => "" end.
Definition entry : dekEntry := {| e_aead := key32 "x"; e_kekID := "20250101"; e_state := DekActive |}.
End Toy.

#[local] Existing Instances Toy.aead Toy.laws.

Lemma seal_open_witness :
  Classify Toy.sealed = KindSealed /\ Open (Some Toy.ring) Toy.place Toy.sealed = Ok "secret".
Proof.
  split; [by vm_compute|].
  apply (seal_open Toy.ring Toy.ring 1 Toy.place "secret" Toy.nonce ∅ Toy.sealed {[1 := 1]}
    Toy.entry Toy.entry); by vm_compute.
Defined.

Lemma moved_value_refused_witness :
  Open (Some Toy.ring) Toy.other Toy.sealed = fail (Some Toy.ring) Toy.other 1 ReasonAuth.
Proof.
  apply (moved_value_refused Toy.ring 1 Toy.place Toy.other "secret" Toy.nonce ∅ Toy.sealed {[1 := 1]}
    Toy.entry (default "" (aad Toy.place)) (default "" (aad Toy.other))); try by vm_compute.
  intros _ p' Hl H. apply app_inj_length in H as [_ H]; [|by symmetry]. by vm_compute in H.
Defined.

Lemma damaged_never_plain_witness :
  let s' := set_byte 2 "3" Toy.sealed in
  Classify s' = KindSealed /\ Open None Toy.place s' = fail None Toy.place 0 ReasonMalformed /\
  SealedDEK s' = None.
Proof.
  apply (damaged_never_plain None Toy.ring 1 Toy.place Toy.place "secret" Toy.nonce ∅ Toy.sealed
    {[1 := 1]} 2 "3"); try by vm_compute.
  cbn. lia.
Defined.

Lemma With_keeps_witness :
  exists k' n, With Toy.ring Toy.cfg [Toy.dek "y" 2 DekActive Toy.kek_b; Toy.dek "x" 1 DekRetired Toy.kek_a]
      = Ok (k', n) /\ n = 1 /\ ActiveDEK k' = 2 /\ keeps_keys (deks Toy.ring) (deks k').
Proof.
  set (more := [Toy.dek "y" 2 DekActive Toy.kek_b; Toy.dek "x" 1 DekRetired Toy.kek_a]).
  destruct (With Toy.ring Toy.cfg more) as [[k' n]|] eqn:E; [|by vm_compute in E].
  exists k', n. split; [done|].
  destruct (With_keeps Toy.ring Toy.cfg more k' n) as (K & _ & N & Ha).
  - apply NoDup_ListNoDup. repeat constructor; cbn; intuition discriminate.
  - exact E.
  - split_and!; [by rewrite N|apply (Ha (Toy.dek "y" 2 DekActive Toy.kek_b)); [left|done|done|]|exact K].
    intros u [->|[->|[]%not_elem_of_nil]%elem_of_cons]%elem_of_cons Hs; done.
Defined.

Lemma Rewrap_same_key_witness :
  exists w', Rewrap (Toy.dek "y" 2 DekRetired Toy.kek_b) Toy.cfg Toy.nonce = Ok w' /\
    unwrap w' Toy.kek_a = Ok (Toy.key32 "y").
Proof.
  destruct (Rewrap (Toy.dek "y" 2 DekRetired Toy.kek_b) Toy.cfg Toy.nonce) as [w'|] eqn:E;
    [|by vm_compute in E].
  exists w'. split; [done|].
  apply (Rewrap_same_key (Toy.dek "y" 2 DekRetired Toy.kek_b) Toy.cfg Toy.nonce w' Toy.kek_b
    (Toy.key32 "y")); [by vm_compute..| |exact E].
  intros H. by vm_compute in H.
Defined.

Lemma ParseKeyConfig_wf_witness :
  exists cfg, ParseKeyConfig " new:AAECAwQFBgcICQoLDA0ODxAREhMUFRYXGBkaGxwdHh8= "
      "old:HxwdHh8AAQIDBAUGBwgJCgsMDQ4PEBESExQVFhcYGRo=" = Ok cfg /\
    length (Previous cfg) = 1%nat /\ ForallOrdPairs distinct_keks (All cfg).
Proof.
  destruct (ParseKeyConfig _ _) as [cfg|] eqn:E; [|by vm_compute in E].
  exists cfg. split; [done|]. split; [by vm_compute in E; injection E as <-|].
  by apply (ParseKeyConfig_wf _ _ cfg E).
Defined.
