(* ===== verification/EncryptionKeys.v ===== *)
(** * Data keys, heartbeats and the key refresher

    [storage/encryption_keys.go]: the table of wrapped data keys and its
    sequence, the heartbeats of the backends, the maintenance lock, the key
    load at start, the rotation of the active key, the seal lease and one step
    of the refresher.  Instants are nanoseconds of one clock; transactions are
    functions of the tables; whether a statement fails is an argument where the
    code goes on differently. *)

From stdpp Require Import relations.
From S2P Require Import Prelude GoInt GoTime GoText GoEncoding LinkStore SecretBox.

#[local] Open Scope string_scope.
#[local] Open Scope list_scope.
#[local] Open Scope Z_scope.

(** ** Tables *)

(** A row of [encryption_data_keys]. *)
Record KeyRow := {
  kr_ID : Z;
  kr_State : DekState;
  kr_KEKID : string;
  kr_Wrapped : string;
  kr_Created : Z;
  kr_WrappedAt : Z;
  kr_Retired : option Z;
  kr_Sealed : Z;               (** [sealed_count] *)
}.

(** [Heartbeat], a row of [encryption_backend_heartbeats]. *)
Record Heartbeat := {
  InstanceID : uuid;
  Hostname : string;
  ActiveDEK_ : option Z;
  StartedAt : Z;
  SeenAt : Z;
}.

Record Instance_ := { inst_ID : uuid; inst_Hostname : string }.

(** The session that holds the maintenance lock. *)
Record LockHolder := { AppName : string; PID : Z; BackendStart : Z }.

(** The database: the two tables, the next id of the sequence (which a rollback
    does not give back), and the maintenance lock. *)
Record KeyDB := {
  kd_keys : list KeyRow;
  kd_next : Z;
  kd_beats : list Heartbeat;
  kd_lock : option LockHolder;
}.

Definition set_keys (f : list KeyRow -> list KeyRow) (db : KeyDB) : KeyDB :=
  {| kd_keys := f (kd_keys db); kd_next := kd_next db; kd_beats := kd_beats db;
     kd_lock := kd_lock db |}.
Definition set_beats (f : list Heartbeat -> list Heartbeat) (db : KeyDB) : KeyDB :=
  {| kd_keys := kd_keys db; kd_next := kd_next db; kd_beats := f (kd_beats db);
     kd_lock := kd_lock db |}.
Definition set_next (n : Z) (db : KeyDB) : KeyDB :=
  {| kd_keys := kd_keys db; kd_next := n; kd_beats := kd_beats db; kd_lock := kd_lock db |}.
Definition set_lock (l : option LockHolder) (db : KeyDB) : KeyDB :=
  {| kd_keys := kd_keys db; kd_next := kd_next db; kd_beats := kd_beats db; kd_lock := l |}.

Inductive OpError :=
| KeyErr (e : KeyError)
| ErrStorageKeys                     (** the database failed or refused the row *)
| ErrOfflineOperation (sub : string)
| ErrNoDataKey (id : Z)              (** [data key %d does not exist] *)
| ErrLockHeld (holder : option LockHolder).

Definition lift_key {B} (r : res KeyError B) : res OpError B :=
  match r with Ok x => Ok x | Err e => Err (KeyErr e) end.

(** ** Timing *)

Definition HeartbeatInterval : Z := 30 * Second.
Definition HeartbeatLive : Z := 90 * Second.
Definition SealLease : Z := 60 * Second.
Definition heartbeatExpiry : Z := 24 * Hour.
Definition SealBound : Z := 2 ^ 30.
Definition SealAdvisory : Z := 2 ^ 29.

(** ** Heartbeats *)

Definition WriteHeartbeat (inst : Instance_) (dek : option Z) (now : Z) : KeyDB -> KeyDB :=
  set_beats (fun l =>
    if existsb (fun h => N.eqb (InstanceID h) (inst_ID inst)) l then
      map (fun h => if N.eqb (InstanceID h) (inst_ID inst) then
        {| InstanceID := InstanceID h; Hostname := Hostname h; ActiveDEK_ := dek;
           StartedAt := StartedAt h; SeenAt := now |} else h) l
    else l ++ [{| InstanceID := inst_ID inst; Hostname := inst_Hostname inst; ActiveDEK_ := dek;
                  StartedAt := now; SeenAt := now |}]).

Definition DeleteHeartbeat (inst : Instance_) : KeyDB -> KeyDB :=
  set_beats (keep (fun h => negb (N.eqb (InstanceID h) (inst_ID inst)))).

Definition live (now : Z) (h : Heartbeat) : bool := now - HeartbeatLive <? SeenAt h.

Definition LiveHeartbeats (now : Z) (db : KeyDB) : list Heartbeat :=
  order_by StartedAt (keep (live now) (kd_beats db)).

(** [writeHeartbeatIfKey]: only while the data key exists; whether it wrote. *)
Definition writeHeartbeatIfKey (inst : Instance_) (active : Z) (now : Z) (db : KeyDB)
    : bool * KeyDB :=
  if existsb (fun r => kr_ID r =? active) (kd_keys db)
  then (true, WriteHeartbeat inst (Some active) now db) else (false, db).

(** ** The maintenance lock *)

Definition OperatorApp (sub : string) : string := "paceday-operator encryption " +:+ sub.

Definition destructiveApps (app : string) : string :=
  if String.eqb app (OperatorApp "decrypt-all") then "decrypt-all"
  else if String.eqb app (OperatorApp "reset-lost-key") then "reset-lost-key" else "".

Definition MaintenanceHolder (db : KeyDB) : option LockHolder := kd_lock db.

Definition DestructiveSubcommand (h : option LockHolder) : string :=
  match h with None => "" | Some h => destructiveApps (AppName h) end.

Definition TryMaintenanceLock (me : LockHolder) (db : KeyDB) : res OpError unit * KeyDB :=
  match kd_lock db with
  | Some h => (Err (ErrLockHeld (Some h)), db)
  | None => (Ok tt, set_lock (Some me) db)
  end.

Definition Release : KeyDB -> KeyDB := set_lock None.

(** ** Data keys *)

Definition wrapped_of (r : KeyRow) : WrappedDEK :=
  {| w_ID := kr_ID r; w_State := kr_State r; w_KEKID := kr_KEKID r; w_Wrapped := kr_Wrapped r |}.

Definition LoadDataKeys (db : KeyDB) : list WrappedDEK :=
  map wrapped_of (order_by kr_ID (kd_keys db)).

Definition is_active (r : KeyRow) : bool := bool_decide (kr_State r = DekActive).

(** The constraints of the table on a new active row. *)
Definition row_accepted (r : KeyRow) (keys : list KeyRow) : bool :=
  negb (existsb (fun o => kr_ID o =? kr_ID r) keys) && negb (existsb is_active keys) &&
  ValidKeyID (kr_KEKID r) && (slen (kr_Wrapped r) =? 60).

Definition ActiveDataKey (db : KeyDB) : option (Z * string * Z) :=
  option_map (fun r => (kr_ID r, kr_KEKID r, kr_Sealed r)) (List.find is_active (kd_keys db)).

Definition FlushSealCounts (cs : list (Z * Z)) (db : KeyDB) : KeyDB :=
  fold_left (fun db p => set_keys (map (fun r => if kr_ID r =? p.1 then
      {| kr_ID := kr_ID r; kr_State := kr_State r; kr_KEKID := kr_KEKID r;
         kr_Wrapped := kr_Wrapped r; kr_Created := kr_Created r; kr_WrappedAt := kr_WrappedAt r;
         kr_Retired := kr_Retired r; kr_Sealed := kr_Sealed r + p.2 |} else r)) db) cs db.

Definition retire_row (now : Z) (r : KeyRow) : KeyRow :=
  {| kr_ID := kr_ID r; kr_State := DekRetired; kr_KEKID := kr_KEKID r; kr_Wrapped := kr_Wrapped r;
     kr_Created := kr_Created r; kr_WrappedAt := kr_WrappedAt r; kr_Retired := Some now;
     kr_Sealed := kr_Sealed r |}.

Definition rewrap_row (now : Z) (nw : WrappedDEK) (r : KeyRow) : KeyRow :=
  {| kr_ID := kr_ID r; kr_State := kr_State r; kr_KEKID := w_KEKID nw; kr_Wrapped := w_Wrapped nw;
     kr_Created := kr_Created r; kr_WrappedAt := now; kr_Retired := kr_Retired r;
     kr_Sealed := kr_Sealed r |}.

(** The random bytes of a run, by data key. *)
Record Random := { rnd_key : Z -> string; rnd_nonce : Z -> string }.

(** What [LoadKeyring] did. *)
Record KeyLoad := {
  kl_Keyring : Keyring;
  kl_DataKeys : Z;
  kl_Active : Z;
  kl_Created : bool;
  kl_Rewrapped : Z;
  kl_UnusedPrevious : list string;
}.

(** [deleteDataKeys] of encryption_ops.go: the ids removed. *)
Definition deleteDataKeys (db : KeyDB) : list Z * KeyDB :=
  (map kr_ID (order_by kr_ID (kd_keys db)), set_keys (fun _ => []) db).

Section Keys.
Context {A : AEAD}.

(** [insertDataKey]: the sequence moves on even if the row is refused. *)
Definition insertDataKey (kek : KEK) (rnd : Random) (now : Z) (db : KeyDB)
    : res OpError WrappedDEK * KeyDB :=
  let id := kd_next db in
  let db1 := set_next (id + 1) db in
  if 2 ^ 31 - 1 <? id then (Err ErrStorageKeys, db)   (* the integer sequence is used up *)
  else match NewDEK id kek (rnd_key rnd id) (rnd_nonce rnd id) with
  | Err e => (Err (KeyErr e), db1)
  | Ok w =>
      let row := {| kr_ID := w_ID w; kr_State := DekActive; kr_KEKID := w_KEKID w;
                    kr_Wrapped := w_Wrapped w; kr_Created := now; kr_WrappedAt := now;
                    kr_Retired := None; kr_Sealed := 0 |} in
      if row_accepted row (kd_keys db) then (Ok w, set_keys (fun l => l ++ [row]) db1)
      else (Err ErrStorageKeys, db1)
  end.

(** A transaction that ended in an error: only the sequence has moved. *)
Definition rolled_back (before after : KeyDB) : KeyDB := set_next (kd_next after) before.

(** The re-wrapping loop: the data keys, the rows, and how many were re-wrapped. *)
Fixpoint rewrap_all (cfg : KeyConfig) (rnd : Random) (now : Z) (ws : list WrappedDEK) (db : KeyDB)
    : res KeyError (list WrappedDEK * KeyDB * Z) :=
  match ws with
  | [] => Ok ([], db, 0)
  | w :: r =>
      if String.eqb (w_KEKID w) (kek_ID (Active cfg)) then
        rest <-? rewrap_all cfg rnd now r db ;;
        let '(ws', db', n) := rest in Ok (w :: ws', db', n)
      else
        nw <-? Rewrap w cfg (rnd_nonce rnd (w_ID w)) ;;
        let db1 := set_keys (map (fun x => if kr_ID x =? w_ID nw then rewrap_row now nw x else x)) db in
        rest <-? rewrap_all cfg rnd now r db1 ;;
        let '(ws', db', n) := rest in Ok (nw :: ws', db', n + 1)
  end.

(** [PrepareKeyring], one transaction under the key-setup lock; [commit] is
    whether it commits. *)
Definition PrepareKeyring (cfg : KeyConfig) (createIfMissing commit : bool) (rnd : Random) (now : Z)
    (db0 : KeyDB) : res OpError KeyLoad * KeyDB :=
  let db1 := set_beats (keep (fun h => negb (SeenAt h <? now - heartbeatExpiry))) db0 in
  let ws := LoadDataKeys db1 in
  let hasActive := existsb (fun w => bool_decide (w_State w = DekActive)) ws in
  let '(made, db2) := if negb hasActive && createIfMissing
                      then let '(r, d) := insertDataKey (Active cfg) rnd now db1 in
                           (match r with Ok w => Ok [w] | Err e => Err e end, d)
                      else (Ok [], db1) in
  match made with
  | Err e => (Err e, rolled_back db0 db2)
  | Ok new =>
      match rewrap_all cfg rnd now (ws ++ new) db2 with
      | Err e => (Err (KeyErr e), rolled_back db0 db2)
      | Ok (ws', db3, n) =>
          match NewKeyring cfg ws' with
          | Err e => (Err (KeyErr e), rolled_back db0 db2)
          | Ok (k, _) =>
              if negb commit then (Err ErrStorageKeys, rolled_back db0 db2)
              else (Ok {| kl_Keyring := k; kl_DataKeys := Z.of_nat (length ws');
                          kl_Active := ActiveDEK k;
                          kl_Created := negb (Nat.eqb (length new) 0); kl_Rewrapped := n;
                          kl_UnusedPrevious := PreviousIDs cfg |}, db3)
          end
      end
  end.

(** [LoadKeyring], a backend's start: the heartbeat first, then the check for a
    destructive command, the keys, and the heartbeat with the active key. *)
Definition LoadKeyring (cfg : KeyConfig) (inst : Instance_) (commit : bool) (rnd : Random) (now : Z)
    (db0 : KeyDB) : res OpError KeyLoad * KeyDB :=
  let db1 := WriteHeartbeat inst None now db0 in
  let sub := DestructiveSubcommand (MaintenanceHolder db1) in
  if negb (String.eqb sub "") then (Err (ErrOfflineOperation sub), db1)
  else match PrepareKeyring cfg true commit rnd now db1 with
       | (Err e, db2) => (Err e, db2)
       | (Ok load, db2) => (Ok load, WriteHeartbeat inst (Some (kl_Active load)) now db2)
       end.

(** [RotateStep1]: the id of the new data key, 0 when there is nothing to do. *)
Definition RotateStep1 (cfg : KeyConfig) (retire : Z) (onlyIfBound commit : bool) (rnd : Random)
    (now : Z) (db : KeyDB) : res OpError Z * KeyDB :=
  match List.find (fun r => kr_ID r =? retire) (kd_keys db) with
  | None => (Err (ErrNoDataKey retire), db)
  | Some row =>
      if negb (is_active row) || (onlyIfBound && (kr_Sealed row <? SealBound)) then (Ok 0, db)
      else
        let db1 := set_keys (map (fun r => if kr_ID r =? retire then retire_row now r else r)) db in
        match insertDataKey (Active cfg) rnd now db1 with
        | (Err e, db2) => (Err e, rolled_back db db2)
        | (Ok w, db2) => if commit then (Ok (w_ID w), db2)
                         else (Err ErrStorageKeys, rolled_back db db2)
        end
  end.

(** ** The lease *)

Record Lease := { lastSent : Z; lease_paused : bool }.

Definition NewLease (sent : Z) : Lease := {| lastSent := sent; lease_paused := false |}.

Definition Renew (sent : Z) (l : Lease) : Lease :=
  {| lastSent := if lastSent l <? sent then sent else lastSent l; lease_paused := false |}.

(** [Lease.Check], the seal gate. *)
Definition CheckLease (now : Z) (l : Lease) : res KeyError unit * Lease :=
  if now - lastSent l <=? SealLease then (Ok tt, l)
  else (Err ErrSealPaused, {| lastSent := lastSent l; lease_paused := true |}).

(** ** The refresher *)

(** A backend process: its installed keyring, its counted seals, its lease, and
    whether [stop] has closed the seal gate. *)
Record Process := {
  pr_current : option Keyring;
  pr_counts : counts;
  pr_lease : Lease;
  pr_stopped : bool;
}.

(** The seal gate of a process: [Lease.Check], or closed for good. *)
Definition gate (now : Z) (p : Process) : res KeyError unit :=
  if pr_stopped p then Err ErrSealPaused else (CheckLease now (pr_lease p)).1.

Definition stop (p : Process) : Process :=
  {| pr_current := pr_current p; pr_counts := pr_counts p; pr_lease := pr_lease p;
     pr_stopped := true |}.
Definition install (k : Keyring) (p : Process) : Process :=
  {| pr_current := Some k; pr_counts := pr_counts p; pr_lease := pr_lease p;
     pr_stopped := pr_stopped p |}.
Definition set_counts (c : counts) (p : Process) : Process :=
  {| pr_current := pr_current p; pr_counts := c; pr_lease := pr_lease p;
     pr_stopped := pr_stopped p |}.
Definition renew (sent : Z) (p : Process) : Process :=
  {| pr_current := pr_current p; pr_counts := pr_counts p; pr_lease := Renew sent (pr_lease p);
     pr_stopped := pr_stopped p |}.

(** Which statements of a tick succeed. *)
Record TickEnv := {
  ok_holder : bool; ok_load : bool; ok_flush : bool; ok_active : bool; ok_rotate : bool;
  ok_reload : bool; ok_beat : bool }.

(** [beat]: [false] when the process must shut down. *)
Definition beat (env : TickEnv) (inst : Instance_) (act sent now : Z) (p : Process) (db : KeyDB)
    : bool * Process * KeyDB :=
  if negb (ok_beat env) then (true, p, db)
  else match writeHeartbeatIfKey inst act now db with
       | (false, db') => (false, stop p, db')
       | (true, db') => (true, renew sent p, db')
       end.

(** The keyring a reload installs, when it names other keys. *)
Definition refreshed (cur : Keyring) (cfg : KeyConfig) (ws : list WrappedDEK) : Keyring :=
  match With cur cfg ws with
  | Ok (next, _) =>
      if negb (ActiveDEK next =? ActiveDEK cur) ||
         negb (Nat.eqb (size (deks next)) (size (deks cur))) then next else cur
  | Err _ => cur
  end.

(** Flush the counts, or put them back. *)
Definition flush (env : TickEnv) (p : Process) (db : KeyDB) : Process * KeyDB :=
  let '(taken, c) := TakeSealCounts (pr_counts p) in
  match taken with
  | [] => (set_counts c p, db)
  | _ => if ok_flush env then (set_counts c p, FlushSealCounts taken db)
         else (set_counts (RestoreSealCounts taken c) p, db)
  end.

(** The automatic rotation: a data key past its bound, wrapped by our key. *)
Definition auto_rotate (env : TickEnv) (cfg : KeyConfig) (rnd : Random) (now : Z) (cur : Keyring)
    (db : KeyDB) : Keyring * KeyDB :=
  match (if ok_active env then ActiveDataKey db else None) with
  | None => (cur, db)
  | Some (_, kek, sealed) =>
      if (SealBound <=? sealed) && String.eqb kek (kek_ID (Active cfg)) then
        match RotateStep1 cfg (ActiveDEK cur) true (ok_rotate env) rnd now db with
        | (Err _, db') => (cur, db')
        | (Ok id, db') =>
            if id =? 0 then (cur, db')
            else if ok_reload env then
              match With cur cfg (LoadDataKeys db') with
              | Ok (n, _) => (n, db')
              | Err _ => (cur, db')
              end
            else (cur, db')
        end
      else (cur, db)
  end.

(** [Tick]; [sent] is read when it starts, [now] when the heartbeat is written. *)
Definition Tick (env : TickEnv) (cfg : KeyConfig) (inst : Instance_) (rnd : Random) (sent now : Z)
    (p : Process) (db : KeyDB) : bool * Process * KeyDB :=
  match pr_current p with
  | None => (true, p, db)
  | Some cur =>
      let sub := if ok_holder env then DestructiveSubcommand (MaintenanceHolder db) else "" in
      if negb (String.eqb sub "") then (false, stop p, db)
      else if negb (ok_load env) then beat env inst (ActiveDEK cur) sent now p db
      else
        let ws := LoadDataKeys db in
        if negb (existsb (fun w => w_ID w =? ActiveDEK cur) ws) then (false, stop p, db)
        else
          let k1 := refreshed cur cfg ws in
          let '(p2, db2) := flush env (install k1 p) db in
          let '(k2, db3) := auto_rotate env cfg rnd now k1 db2 in
          beat env inst (ActiveDEK k2) sent now (install k2 p2) db3
  end.
End Keys.

(** ** The table of data keys *)

(** A well-formed row: an id of the sequence, a valid key id, 60 bytes of wrapped
    key, a retirement exactly when it is retired, a count that is no debt. *)
Definition row_wf (next : Z) (r : KeyRow) : Prop :=
  1 <= kr_ID r < next /\ ValidKeyID (kr_KEKID r) = true /\ slen (kr_Wrapped r) = 60 /\
  (kr_State r = DekRetired <-> is_Some (kr_Retired r)) /\ 0 <= kr_Sealed r.

(** The table: ids that never collide nor come back, at most one active key. *)
Definition keys_wf (db : KeyDB) : Prop :=
  1 <= kd_next db <= 2 ^ 31 /\ NoDup (map kr_ID (kd_keys db)) /\
  Forall (row_wf (kd_next db)) (kd_keys db) /\ (length (keep is_active (kd_keys db)) <= 1)%nat.

Definition rnd_ok (rnd : Random) : Prop :=
  forall id, String.length (rnd_key rnd id) = 32%nat /\ String.length (rnd_nonce rnd id) = NonceSize.

Lemma row_wf_mono n n' r : n <= n' -> row_wf n r -> row_wf n' r.
Proof. unfold row_wf. intros Hn (H & ?). split; [lia|done]. Qed.

(** Updating rows one by one. *)
Lemma keys_wf_map f db :
  (forall r, r ∈ kd_keys db -> kr_ID (f r) = kr_ID r) ->
  (forall r, r ∈ kd_keys db -> row_wf (kd_next db) r -> row_wf (kd_next db) (f r)) ->
  (forall r, r ∈ kd_keys db -> is_active (f r) = true -> is_active r = true) ->
  keys_wf db -> keys_wf (set_keys (map f) db).
Proof.
  intros Hid Hwf Hact (Hn & Hnd & Hf & Ha). unfold keys_wf. cbn [set_keys kd_next kd_keys].
  split_and!; [lia|lia| | |].
  - rewrite map_map. erewrite map_ext_in; [exact Hnd|]. intros r Hr. cbn.
    by apply Hid, list_elem_of_In.
  - rewrite Forall_forall in *. intros r' (r & <- & Hr)%list_elem_of_In%in_map_iff.
    apply list_elem_of_In in Hr. by apply Hwf; [|apply Hf].
  - etransitivity; [|exact Ha]. clear Hid Hwf Hnd Hf Ha. unfold keep. revert Hact.
    induction (kd_keys db) as [|r l IH]; intros Hact; [done|]. cbn [map List.filter].
    assert (IH' := IH (fun x Hx => Hact x (list_elem_of_further _ _ _ Hx))).
    destruct (is_active (f r)) eqn:E.
    + rewrite (Hact r) by (done || left). cbn [length]. lia.
    + destruct (is_active r); cbn [length]; lia.
Qed.

Lemma keys_wf_beats f db : keys_wf db -> keys_wf (set_beats f db).
Proof. done. Qed.

Section WfFacts.
Context {A : AEAD} {L : AEADLaws A}.

Lemma unwrap_length w kek d : unwrap w kek = Ok d -> String.length d = 32%nat.
Proof.
  unfold unwrap. destruct (slen (w_Wrapped w) =? wrappedLen) eqn:El; [cbn [negb]|done].
  destruct (gcm (kek_key kek)) as [g|]; [cbn [rbind]|done].
  destruct (aead_open _ _ _ _) as [p|] eqn:Eo; [|done]. intros [= <-].
  apply open_sound, (f_equal String.length) in Eo. rewrite seal_length, sdrop_length in Eo.
  unfold wrappedLen, NonceSize in *. zbool. lia.
Qed.

Lemma wrap_length id kek d nonce s :
  String.length d = 32%nat -> String.length nonce = NonceSize -> wrap id kek d nonce = Ok s ->
  slen s = 60.
Proof.
  intros Hd Hn. unfold wrap. destruct (gcm _); [cbn [rbind]|done]. intros [= <-].
  rewrite slen_app, seal_length, Hd, Hn. done.
Qed.

Lemma insert_lock kek rnd now db : kd_lock (insertDataKey kek rnd now db).2 = kd_lock db.
Proof.
  unfold insertDataKey. destruct (_ <? kd_next db); [done|]. destruct (NewDEK _ _ _ _) as [w|]; [|done].
  cbv zeta. by destruct (row_accepted _ _).
Qed.

Lemma insert_wf kek rnd now db r db' :
  rnd_ok rnd -> keys_wf db -> insertDataKey kek rnd now db = (r, db') ->
  keys_wf db' /\ kd_next db <= kd_next db' /\ kd_beats db' = kd_beats db /\
  match r with
  | Ok w => exists row, kd_keys db' = kd_keys db ++ [row] /\ wrapped_of row = w /\
      is_active row = true /\ w_ID w = kd_next db /\ keep is_active (kd_keys db) = [] /\
      w_KEKID w = kek_ID kek
  | Err _ => kd_keys db' = kd_keys db
  end.
Proof.
  intros Hr Hwf. unfold insertDataKey. destruct (Z.ltb_spec (2 ^ 31 - 1) (kd_next db)) as [Hs|Hs].
  { intros [= <- <-]. by split_and!. }
  assert (Hup : keys_wf (set_next (kd_next db + 1) db)).
  { destruct Hwf as (Hn & Hnd & Hf & Ha). unfold keys_wf. cbn [set_next kd_next kd_keys].
    split_and!; [lia|lia|done| |done]. eapply Forall_impl; [exact Hf|].
    intros x. apply row_wf_mono. lia. }
  unfold NewDEK. destruct (wrap _ _ _ _) as [wr|] eqn:Ew; cbn [rbind];
    [|intros [= <- <-]; split_and!; [done|cbn; lia|done|done]].
  cbn [w_ID w_KEKID w_Wrapped]. destruct (row_accepted _ _) eqn:Ea; intros [= <- <-];
    [|split_and!; [done|cbn; lia|done|done]].
  apply wrap_length in Ew; [|apply Hr..].
  unfold row_accepted in Ea. cbn [kr_ID kr_KEKID kr_Wrapped] in Ea. zbool.
  rewrite existsb_elem_false in *.
  assert (Hna : keep is_active (kd_keys db) = []).
  { destruct (keep is_active (kd_keys db)) as [|x l] eqn:E; [done|]. exfalso.
    assert (Hx : x ∈ keep is_active (kd_keys db)) by (rewrite E; left).
    apply elem_of_keep in Hx as [Hx Hax]. match goal with H : forall r, _ -> is_active r = _ |- _ =>
      by rewrite H in Hax end. }
  pose proof (proj1 Hwf) as Hn0.
  destruct Hup as (Hn & Hnd & Hf & Ha). split_and!; [|cbn; lia|done|].
  - unfold keys_wf. cbn [set_keys set_next kd_next kd_keys] in *. split_and!; [lia|lia| | |].
    + rewrite map_app. apply NoDup_app. split; [done|]. split; [|apply NoDup_singleton].
      intros i (r & Ei & Hi)%list_elem_of_In%in_map_iff ->%list_elem_of_singleton.
      cbn in Ei. apply list_elem_of_In in Hi. destruct Hwf as (_ & _ & Hf0 & _).
      rewrite Forall_forall in Hf0. destruct (Hf0 r Hi) as [? _]. lia.
    + apply Forall_app. split; [done|]. apply Forall_singleton. unfold row_wf.
      cbn [kr_ID kr_KEKID kr_Wrapped kr_State kr_Retired kr_Sealed w_ID w_KEKID w_Wrapped].
      split; [lia|]. split; [done|]. split; [done|]. split; [|lia].
      split; [done|]. by intros [? ?].
    + rewrite keep_app, Hna. unfold keep. cbn [List.filter app]. destruct (is_active _); cbn; lia.
  - eexists. split; [reflexivity|]. by split_and!.
Qed.
End WfFacts.

(** *** Re-wrapping *)

(** What re-wrapping does to a data key: the same key under the active one. *)
Definition rewrapped `{AEAD} (cfg : KeyConfig) (w w' : WrappedDEK) : Prop :=
  w_ID w' = w_ID w /\ w_State w' = w_State w /\ w_KEKID w' = kek_ID (Active cfg) /\
  exists kek dek, Lookup cfg (w_KEKID w) = Some kek /\ unwrap w kek = Ok dek /\
    unwrap w' (Active cfg) = Ok dek.

(** Nor to a row: its id, state, dates and count are as they were. *)
Definition same_row (r r' : KeyRow) : Prop :=
  kr_ID r' = kr_ID r /\ kr_State r' = kr_State r /\ kr_Created r' = kr_Created r /\
  kr_Retired r' = kr_Retired r /\ kr_Sealed r' = kr_Sealed r.

#[export] Instance same_row_preorder : PreOrder same_row.
Proof. split; [by repeat split|]. unfold same_row. intros a b c H1 H2. intuition congruence. Qed.

Section RewrapFacts.
Context {A : AEAD} {L : AEADLaws A}.

Lemma Lookup_active cfg id : id = kek_ID (Active cfg) -> ValidKeyID id = true ->
  Lookup cfg id = Some (Active cfg).
Proof.
  intros -> Hv. unfold Lookup. rewrite String.eqb_refl. by destruct (kek_ID (Active cfg)).
Qed.

Lemma Rewrap_rewrapped cfg w nonce w' :
  ValidKeyID (kek_ID (Active cfg)) = true -> String.length nonce = NonceSize ->
  Rewrap w cfg nonce = Ok w' -> rewrapped cfg w w' /\ slen (w_Wrapped w') = 60.
Proof.
  intros Hv Hn. unfold Rewrap. destruct (Lookup cfg (w_KEKID w)) as [kek|] eqn:Ek; [|done].
  destruct (unwrap w kek) as [d|] eqn:Eu; [cbn [rbind]|done].
  pose proof (unwrap_length _ _ _ Eu) as Hd.
  destruct (String.eqb_spec (w_KEKID w) (kek_ID (Active cfg))) as [He|He].
  - intros [= <-]. rewrite (Lookup_active cfg _ He) in Ek by (by rewrite He). injection Ek as <-.
    split.
    + split_and!; [done..|]. exists (Active cfg), d. split_and!; [|done|done].
      by apply Lookup_active; [|rewrite He].
    + unfold unwrap in Eu. destruct (slen (w_Wrapped w) =? wrappedLen) eqn:El; [|done].
      unfold wrappedLen in El. lia.
  - destruct (wrap _ _ _ _) as [s|] eqn:Ew; [cbn [rbind]|done]. intros [= <-].
    split; [|by apply (wrap_length _ _ _ _ _ Hd Hn Ew)].
    split_and!; [done..|]. exists kek, d. split_and!; [done|done|].
    pose proof (wrap_length _ _ _ _ _ Hd Hn Ew) as Hl.
    unfold wrap in Ew. destruct (gcm (kek_key (Active cfg))) as [g|] eqn:Eg; [cbn [rbind] in Ew|done].
    injection Ew as <-. unfold unwrap. cbn [w_Wrapped w_ID w_KEKID]. rewrite Hl, Eg.
    change (negb (60 =? wrappedLen)) with false. cbn [rbind].
    by rewrite stake_app, sdrop_app, open_seal by done.
Qed.

(** The rows after one data key was re-wrapped. *)
Definition set_wrapped (now : Z) (nw : WrappedDEK) (x : KeyRow) : KeyRow :=
  if kr_ID x =? w_ID nw then rewrap_row now nw x else x.

Definition kept_or_rewrapped (cfg : KeyConfig) (w w' : WrappedDEK) : Prop :=
  (w' = w /\ w_KEKID w = kek_ID (Active cfg)) \/ rewrapped cfg w w'.

Lemma set_wrapped_wf cfg now w nw db :
  valid_kek (Active cfg) -> rewrapped cfg w nw -> slen (w_Wrapped nw) = 60 -> keys_wf db ->
  keys_wf (set_keys (map (set_wrapped now nw)) db).
Proof.
  intros [Hv _] (_ & _ & Hk & _) Hl Hwf. apply keys_wf_map; [| | |done]; intros r _; unfold set_wrapped;
    destruct (kr_ID r =? w_ID nw); try done.
  intros (H1 & H2 & H3 & H4). unfold row_wf. cbn [rewrap_row kr_ID kr_KEKID kr_Wrapped kr_State
    kr_Retired kr_Sealed]. by rewrite Hk.
Qed.

Lemma set_wrapped_same now nw l : Forall2 same_row l (map (set_wrapped now nw) l).
Proof.
  induction l as [|r l IH]; constructor; [|done]. unfold set_wrapped.
  destruct (_ =? _); [|done]. by repeat split.
Qed.

Lemma rewrap_all_spec cfg rnd now ws db ws' db' n :
  valid_kek (Active cfg) -> rnd_ok rnd -> keys_wf db -> NoDup (map w_ID ws) ->
  (forall w, w ∈ ws -> w ∈ map wrapped_of (kd_keys db)) ->
  rewrap_all cfg rnd now ws db = Ok (ws', db', n) ->
  Forall2 (kept_or_rewrapped cfg) ws ws' /\ keys_wf db' /\
  (kd_next db' = kd_next db /\ kd_beats db' = kd_beats db /\ kd_lock db' = kd_lock db) /\
  Forall2 same_row (kd_keys db) (kd_keys db') /\
  (forall r, r ∈ kd_keys db -> kr_ID r ∉ map w_ID ws -> r ∈ kd_keys db') /\
  (forall w', w' ∈ ws' -> w' ∈ map wrapped_of (kd_keys db')).
Proof.
  intros Hv Hr. revert db ws' db' n. induction ws as [|w ws IH]; intros db ws' db' n Hwf Hnd Hin;
    cbn [rewrap_all].
  { intros [= <- <- <-]. by split_and!. }
  cbn [map] in Hnd. apply NoDup_cons in Hnd as [Hni Hnd].
  destruct (String.eqb_spec (w_KEKID w) (kek_ID (Active cfg))) as [He|He].
  - destruct (rewrap_all cfg rnd now ws db) as [[[ws1 db1] m]|] eqn:E; [cbn [rbind]|done].
    intros [= <- <- <-].
    destruct (IH db ws1 db1 m Hwf Hnd) as (F & W & Q & S & P1 & P2); [|done|].
    { intros x Hx. apply Hin. by right. }
    split_and!; try done; try apply Q.
    + constructor; [by left|done].
    + intros r Hrr Hid. apply P1; [done|]. cbn in Hid. intros ?. apply Hid. by right.
    + intros x [->|Hx]%elem_of_cons; [|by apply P2].
      pose proof (Hin w ltac:(left)) as (r & Ewr & Hrin)%list_elem_of_In%in_map_iff.
      apply list_elem_of_In, in_map_iff. exists r. split; [done|].
      apply list_elem_of_In, P1; [by apply list_elem_of_In|].
      assert (kr_ID r = w_ID w) as -> by (by rewrite <- Ewr). done.
  - destruct (Rewrap w cfg (rnd_nonce rnd (w_ID w))) as [nw|] eqn:Er; [cbn [rbind]|done].
    apply Rewrap_rewrapped in Er as [Hrw Hl]; [|apply Hv|apply Hr].
    change (map (fun x => if kr_ID x =? w_ID nw then rewrap_row now nw x else x))
      with (map (set_wrapped now nw)).
    set (db0 := set_keys (map (set_wrapped now nw)) db).
    destruct (rewrap_all cfg rnd now ws db0) as [[[ws1 db1] m]|] eqn:E; [cbn [rbind]|done].
    intros [= <- <- <-]. assert (Hid : w_ID nw = w_ID w) by apply Hrw.
    assert (Hkeep : forall r, kr_ID r <> w_ID w -> set_wrapped now nw r = r).
    { intros r Hne. unfold set_wrapped. by rewrite (proj2 (Z.eqb_neq _ _)) by congruence. }
    destruct (IH db0 ws1 db1 m) as (F & W & Q & S & P1 & P2); [|done| |done|].
    { by apply (set_wrapped_wf cfg now w). }
    { intros x Hx. pose proof (Hin x ltac:(by right)) as (r & Ewr & Hrin)%list_elem_of_In%in_map_iff.
      apply list_elem_of_In, in_map_iff. exists r. split; [done|]. cbn [db0 set_keys kd_keys].
      apply in_map_iff. exists r. split; [|done]. apply Hkeep.
      assert (kr_ID r = w_ID x) as -> by (by rewrite <- Ewr). intros Heq. apply Hni.
      rewrite <- Heq. by apply list_elem_of_In, in_map, list_elem_of_In. }
    split_and!; try done; try apply Q.
    + constructor; [by right|done].
    + transitivity (map (set_wrapped now nw) (kd_keys db)); [apply set_wrapped_same|exact S].
    + intros r Hrr Hid'. apply P1; [|intros ?; apply Hid'; by right].
      apply list_elem_of_In, in_map_iff. exists r. split; [|by apply list_elem_of_In].
      apply Hkeep. intros Heq. apply Hid'. cbn. rewrite Heq. left.
    + intros x [->|Hx]%elem_of_cons; [|by apply P2].
      pose proof (Hin w ltac:(left)) as (r & Ewr & Hrin)%list_elem_of_In%in_map_iff.
      assert (Hrid : kr_ID r = w_ID w) by (by rewrite <- Ewr).
      apply list_elem_of_In, in_map_iff. exists (set_wrapped now nw r). split.
      * unfold set_wrapped. rewrite (proj2 (Z.eqb_eq _ _)) by congruence.
        destruct Hrw as (R1 & R2 & _). destruct nw. cbn in *. unfold wrapped_of. cbn.
        f_equal; [congruence|]. by rewrite R2, <- Ewr.
      * apply list_elem_of_In, P1.
        -- apply list_elem_of_In, in_map. exact Hrin.
        -- unfold set_wrapped. destruct (_ =? _); cbn; by rewrite Hrid.
Qed.
End RewrapFacts.

(** *** Evolution of the table *)

Definition key_ids (db : KeyDB) : list Z := map kr_ID (kd_keys db).

(** The table stays well formed, the sequence never moves back, and an id it has
    passed names a data key only if it did before. *)
Definition evolves (db db' : KeyDB) : Prop :=
  keys_wf db -> keys_wf db' /\ kd_next db <= kd_next db' /\
  forall id, id < kd_next db -> id ∈ key_ids db' -> id ∈ key_ids db.

#[export] Instance evolves_preorder : PreOrder evolves.
Proof.
  split; unfold evolves.
  - intros db H. split_and!; [done|lia|done].
  - intros a b c Hab Hbc Ha. destruct (Hab Ha) as (Hb & N1 & I1).
    destruct (Hbc Hb) as (Hc & N2 & I2). split_and!; [done|lia|].
    intros id Hid Hin. apply I1; [done|]. apply I2; [lia|done].
Qed.

Lemma evolves_same_keys db db' :
  kd_keys db' = kd_keys db -> kd_next db <= kd_next db' <= 2 ^ 31 -> evolves db db'.
Proof.
  intros Hk Hn (Hn0 & Hnd & Hf & Ha). unfold keys_wf, key_ids. rewrite Hk.
  split_and!; [lia|lia|done| |done|lia|done].
  eapply Forall_impl; [exact Hf|]. intros r. apply row_wf_mono. lia.
Qed.

Lemma evolves_beats f db : evolves db (set_beats f db).
Proof. intros H. apply evolves_same_keys; [done| |done]. destruct H. cbn. lia. Qed.

Lemma evolves_lock l db : evolves db (set_lock l db).
Proof. intros H. apply evolves_same_keys; [done| |done]. destruct H. cbn. lia. Qed.

Lemma evolves_map f db :
  (forall r, kr_ID (f r) = kr_ID r) ->
  (forall n r, row_wf n r -> row_wf n (f r)) ->
  (forall r, is_active (f r) = true -> is_active r = true) -> evolves db (set_keys (map f) db).
Proof.
  intros Hid Hwf Hact H. split_and!; [|cbn; lia|].
  - apply keys_wf_map; [intros; apply Hid|intros ? _; apply Hwf|intros ? _; apply Hact|done].
  - intros id _. unfold key_ids. cbn [set_keys kd_keys]. rewrite map_map.
    by rewrite (map_ext _ _ Hid).
Qed.

Lemma evolves_rolled_back db db2 :
  (keys_wf db -> kd_next db <= kd_next db2 <= 2 ^ 31) -> evolves db (rolled_back db db2).
Proof. intros Hn H. apply evolves_same_keys; [done| |done]. by apply Hn. Qed.

Lemma evolves_delete db : evolves db (deleteDataKeys db).2.
Proof.
  intros (Hn & _). unfold keys_wf, key_ids. cbn. split_and!; try lia; try constructor.
  by intros id _ ?%not_elem_of_nil.
Qed.

Lemma evolves_retire retire now db :
  evolves db (set_keys (map (fun r => if kr_ID r =? retire then retire_row now r else r)) db).
Proof.
  apply evolves_map; [intros r|intros m r Hrw|intros r]; destruct (kr_ID r =? retire); try done.
  destruct Hrw as (H1 & H2 & H3 & H4 & H5). unfold row_wf.
  cbn [retire_row kr_ID kr_KEKID kr_Wrapped kr_State kr_Retired kr_Sealed].
  do 3 (split; [done|]). by split; [split; [intros _; by eexists|]|].
Qed.

Lemma evolves_flush cs db : Forall (fun p => 0 <= p.2) cs -> evolves db (FlushSealCounts cs db).
Proof.
  unfold FlushSealCounts. revert db. induction cs as [|[id n] cs IH]; intros db Hcs; [reflexivity|].
  inversion_clear Hcs as [|? ? Hn Hcs']. cbn [fold_left fst snd] in *.
  eapply transitivity; [|by apply IH].
  apply evolves_map; [intros r|intros m r Hr|intros r]; destruct (kr_ID r =? id); try done.
  destruct Hr as (H1 & H2 & H3 & H4 & H5). unfold row_wf.
  cbn [kr_ID kr_KEKID kr_Wrapped kr_State kr_Retired kr_Sealed]. do 4 (split; [done|]). lia.
Qed.

Section Evolution.
Context {A : AEAD} {L : AEADLaws A}.

Lemma evolves_insert kek rnd now db :
  rnd_ok rnd -> evolves db (insertDataKey kek rnd now db).2.
Proof.
  intros Hr Hwf. destruct (insertDataKey kek rnd now db) as [r db'] eqn:E. cbn [snd].
  destruct (insert_wf _ _ _ _ _ _ Hr Hwf E) as (W & N & _ & Hres). split_and!; [done|done|].
  intros id Hid. unfold key_ids. destruct r as [w|e].
  - destruct Hres as (row & -> & Hw & _ & Hwid & _). rewrite map_app. cbn [map].
    intros [Hi|Hi]%elem_of_app; [done|]. apply list_elem_of_singleton in Hi as ->.
    rewrite <- Hw in Hwid. cbn in Hwid. lia.
  - by rewrite Hres.
Qed.

Lemma LoadDataKeys_perm db : LoadDataKeys db ≡ₚ map wrapped_of (kd_keys db).
Proof. unfold LoadDataKeys. by rewrite order_by_perm. Qed.

Lemma map_w_ID_wrapped l : map w_ID (map wrapped_of l) = map kr_ID l.
Proof. by rewrite map_map. Qed.

Lemma same_row_ids l l' : Forall2 same_row l l' -> map kr_ID l' = map kr_ID l.
Proof. induction 1 as [|r r' l l' H _ IH]; [done|]. cbn. f_equal; [apply H|done]. Qed.

Lemma evolves_prepare cfg create commit rnd now db :
  valid_kek (Active cfg) -> rnd_ok rnd ->
  evolves db (PrepareKeyring cfg create commit rnd now db).2.
Proof.
  intros Hv Hr Hwf. unfold PrepareKeyring.
  set (db1 := set_beats _ db). assert (W1 : keys_wf db1) by exact Hwf.
  pose proof (evolves_insert (Active cfg) rnd now db1 Hr W1) as Hins.
  destruct (if negb _ && create then _ else _) as [made db2] eqn:Em.
  assert (H2 : keys_wf db2 /\ kd_next db <= kd_next db2 /\
    (forall id, id < kd_next db -> id ∈ key_ids db2 -> id ∈ key_ids db) /\
    forall new, made = Ok new -> LoadDataKeys db1 ++ new ≡ₚ map wrapped_of (kd_keys db2)).
  { destruct (negb _ && create).
    - destruct (insertDataKey (Active cfg) rnd now db1) as [r d] eqn:Ei. injection Em as <- <-.
      cbn [snd] in Hins. destruct Hins as (W & N & I). split_and!; [done|done|done|].
      destruct (insert_wf _ _ _ _ _ _ Hr W1 Ei) as (_ & _ & _ & Hres). destruct r as [w|]; [|done].
      intros new [= <-]. destruct Hres as (row & Ek & Ew & _). rewrite Ek, map_app. cbn [map].
      by rewrite LoadDataKeys_perm, Ew.
    - injection Em as <- <-. split_and!; [done|cbn; lia|done|]. intros new [= <-].
      by rewrite app_nil_r, LoadDataKeys_perm. }
  clear Hins Em. destruct H2 as (W2 & N2 & I2 & Hnew).
  assert (Hrb : evolves db (rolled_back db db2)).
  { apply evolves_rolled_back. intros _. destruct W2. lia. }
  destruct made as [new|e]; [|by apply Hrb]. specialize (Hnew new eq_refl).
  destruct (rewrap_all cfg rnd now _ db2) as [[[ws' db3] n]|e] eqn:Ew; [|by apply Hrb].
  destruct (NewKeyring cfg ws') as [[k u]|e]; [|by apply Hrb].
  destruct commit; cbn [negb]; [|by apply Hrb]. cbn [snd].
  destruct (rewrap_all_spec cfg rnd now (LoadDataKeys db1 ++ new) db2 ws' db3 n Hv Hr W2) as (_ & W3 & (N3 & _) & S & _);
    [| |done|].
  { rewrite Hnew, map_w_ID_wrapped. apply W2. }
  { intros w. by rewrite Hnew. }
  split_and!; [done|lia|]. intros id Hid Hin. apply I2; [done|].
  unfold key_ids in *. by rewrite <- (same_row_ids _ _ S).
Qed.

Lemma evolves_rotate cfg retire bound commit rnd now db :
  rnd_ok rnd -> evolves db (RotateStep1 cfg retire bound commit rnd now db).2.
Proof.
  intros Hr. unfold RotateStep1. destruct (List.find _ _) as [row|]; [|reflexivity].
  destruct (_ || _); [reflexivity|].
  set (db1 := set_keys _ db).
  assert (E1 : evolves db db1).
  { apply evolves_retire. }
  pose proof (evolves_insert (Active cfg) rnd now db1 Hr) as E2.
  destruct (insertDataKey (Active cfg) rnd now db1) as [[w|e] db2]; cbn [snd] in *.
  - destruct commit; [by transitivity db1|]. apply evolves_rolled_back. intros H.
    destruct (E1 H) as (W1 & N1 & _). destruct (E2 W1) as ((? & _) & N2 & _). lia.
  - apply evolves_rolled_back. intros H.
    destruct (E1 H) as (W1 & N1 & _). destruct (E2 W1) as ((? & _) & N2 & _). lia.
Qed.
End Evolution.

(** Counts are never negative. *)
Definition counts_ok (c : counts) : Prop := map_Forall (fun _ n => 0 <= n) c.

Lemma counts_ok_add id n c : 0 <= n -> counts_ok c -> counts_ok (count_add id n c).
Proof.
  intros Hn Hc. apply map_Forall_insert_2; [|done].
  destruct (c !! id) as [m|] eqn:E; cbn; [|lia]. specialize (Hc id m E). cbn in Hc. lia.
Qed.

Lemma TakeSealCounts_ok c : counts_ok c ->
  Forall (fun p => 0 <= p.2) (TakeSealCounts c).1 /\ counts_ok (TakeSealCounts c).2.
Proof.
  intros Hc. unfold TakeSealCounts. cbn [fst snd]. split.
  - apply Forall_forall. intros [id n] [Hin _]%elem_of_keep. apply elem_of_map_to_list in Hin.
    exact (Hc id n Hin).
  - intros id n H. apply (lookup_fmap_Some (M := gmap Z)) in H as (m & <- & _). lia.
Qed.

Section Steps.
Context {A : AEAD} {L : AEADLaws A}.

Lemma evolves_beat env inst act sent now p db :
  evolves db (beat env inst act sent now p db).2.
Proof.
  unfold beat. destruct (ok_beat env); cbn [negb]; [|reflexivity].
  unfold writeHeartbeatIfKey. destruct (existsb _ _); cbn; [apply evolves_beats|reflexivity].
Qed.

Lemma evolves_auto_rotate env cfg rnd now cur db :
  rnd_ok rnd -> evolves db (auto_rotate env cfg rnd now cur db).2.
Proof.
  intros Hr. unfold auto_rotate.
  destruct (if ok_active env then ActiveDataKey db else None) as [[[id kek] sealed]|]; [|reflexivity].
  destruct (_ && _); [|reflexivity].
  pose proof (evolves_rotate cfg (ActiveDEK cur) true (ok_rotate env) rnd now db Hr) as E.
  destruct (RotateStep1 _ _ _ _ _ _ _) as [[i|e] db']; [|done]. cbn [snd] in E.
  destruct (i =? 0); [done|]. destruct (ok_reload env); [|done]. by destruct (With _ _ _) as [[]|].
Qed.

Lemma evolves_flush_process env p db :
  counts_ok (pr_counts p) -> evolves db (flush env p db).2.
Proof.
  intros Hc. destruct (TakeSealCounts_ok _ Hc) as [Ht _]. unfold flush.
  destruct (TakeSealCounts (pr_counts p)) as [taken c]. cbn [fst] in Ht.
  destruct taken; [reflexivity|]. destruct (ok_flush env); [by apply evolves_flush|reflexivity].
Qed.

Lemma evolves_tick env cfg inst rnd sent now p db :
  rnd_ok rnd -> counts_ok (pr_counts p) -> evolves db (Tick env cfg inst rnd sent now p db).2.
Proof.
  intros Hr Hc. unfold Tick. destruct (pr_current p) as [cur|]; [|reflexivity]. cbv zeta.
  destruct (negb (String.eqb _ "")); [reflexivity|].
  destruct (negb (ok_load env)); [apply evolves_beat|].
  destruct (negb (existsb _ _)); [reflexivity|].
  set (k1 := refreshed cur cfg (LoadDataKeys db)).
  pose proof (evolves_flush_process env (install k1 p) db Hc) as Ef.
  destruct (flush env (install k1 p) db) as [p2 db2]. cbn [snd] in Ef.
  pose proof (evolves_auto_rotate env cfg rnd now k1 db2 Hr) as Er.
  destruct (auto_rotate env cfg rnd now k1 db2) as [k2 db3]. cbn [snd] in Er.
  transitivity db2; [done|]. transitivity db3; [done|]. apply evolves_beat.
Qed.

(** Everything the backends and the operator do to the tables. *)
Inductive key_step (db : KeyDB) : KeyDB -> Prop :=
| ks_heartbeat inst dek now : key_step db (WriteHeartbeat inst dek now db)
| ks_leave inst : key_step db (DeleteHeartbeat inst db)
| ks_lock me : key_step db (TryMaintenanceLock me db).2
| ks_release : key_step db (Release db)
| ks_prepare cfg create commit rnd now :
    valid_kek (Active cfg) -> rnd_ok rnd -> key_step db (PrepareKeyring cfg create commit rnd now db).2
| ks_load cfg inst commit rnd now :
    valid_kek (Active cfg) -> rnd_ok rnd -> key_step db (LoadKeyring cfg inst commit rnd now db).2
| ks_rotate cfg retire bound commit rnd now :
    rnd_ok rnd -> key_step db (RotateStep1 cfg retire bound commit rnd now db).2
| ks_flush cs : Forall (fun p => 0 <= p.2) cs -> key_step db (FlushSealCounts cs db)
| ks_tick env cfg inst rnd sent now p :
    rnd_ok rnd -> counts_ok (pr_counts p) -> key_step db (Tick env cfg inst rnd sent now p db).2
| ks_delete : key_step db (deleteDataKeys db).2
| ks_insert kek rnd now : rnd_ok rnd -> key_step db (insertDataKey kek rnd now db).2.

Lemma key_step_evolves db db' : key_step db db' -> evolves db db'.
Proof.
  destruct 1 as [inst dek now|inst|me| |cfg create commit rnd now Hv Hr|cfg inst commit rnd now Hv Hr
    |cfg retire bound commit rnd now Hr|cs Hcs|env cfg inst rnd sent now p Hr Hc| |kek rnd now Hr].
  - apply evolves_beats.
  - apply evolves_beats.
  - unfold TryMaintenanceLock. destruct (kd_lock db); [reflexivity|apply evolves_lock].
  - apply evolves_lock.
  - by apply evolves_prepare.
  - unfold LoadKeyring. set (db1 := WriteHeartbeat _ _ _ db).
    assert (E1 : evolves db db1) by apply evolves_beats.
    destruct (negb _); [done|]. pose proof (evolves_prepare cfg true commit rnd now db1 Hv Hr) as E2.
    destruct (PrepareKeyring _ _ _ _ _ _) as [[load|e] db2]; cbn [snd] in *.
    + transitivity db1; [done|]. transitivity db2; [done|]. apply evolves_beats.
    + by transitivity db1.
  - by apply evolves_rotate.
  - by apply evolves_flush.
  - by apply evolves_tick.
  - apply evolves_delete.
  - by apply evolves_insert.
Qed.
End Steps.

(** ** The key load: facts *)

Section LoadFacts.
Context {A : AEAD} {L : AEADLaws A}.

(** A keyring is built only when every data key opens with the key it names. *)
Lemma add_deks_opens cfg ws ds act n acc :
  NoDup (map w_ID ws) -> add_deks cfg ws (ds, act, n) = Ok acc ->
  forall w, w ∈ ws -> ds !! w_ID w = None ->
    exists kek, Lookup cfg (w_KEKID w) = Some kek /\ opens w kek = true.
Proof.
  revert ds act n. induction ws as [|x ws IH]; intros ds act n Hnd; cbn [add_deks map] in *;
    [by intros _ w ?%not_elem_of_nil|].
  apply NoDup_cons in Hnd as [Hni Hnd].
  destruct (add_dek cfg x (ds, act, n)) as [[[ds1 act1] n1]|] eqn:E1; [cbn|done]. intros E2 w.
  intros [->|Hw]%elem_of_cons Hds.
  - unfold add_dek in E1. rewrite Hds in E1. destruct (Lookup cfg (w_KEKID x)) as [kek|]; [|done].
    exists kek. split; [done|]. unfold opens. by destruct (unwrap x kek).
  - apply (IH _ _ _ Hnd E2 w Hw). apply add_dek_keeps in E1 as (_ & _ & D & _).
    rewrite <- not_elem_of_dom, D, not_elem_of_union, not_elem_of_singleton, not_elem_of_dom.
    split; [|done]. intros Heq. apply Hni. rewrite <- Heq.
    apply list_elem_of_In, in_map. by apply list_elem_of_In.
Qed.

Lemma kept_opened cfg w w' :
  ValidKeyID (kek_ID (Active cfg)) = true -> kept_or_rewrapped cfg w w' ->
  w_ID w' = w_ID w /\ w_State w' = w_State w /\ w_KEKID w' = kek_ID (Active cfg) /\
  forall kek dek, Lookup cfg (w_KEKID w) = Some kek -> unwrap w kek = Ok dek ->
    unwrap w' (Active cfg) = Ok dek.
Proof.
  intros Hv [[-> Hk]|(H1 & H2 & H3 & kek0 & dek0 & Hl0 & Hu0 & Hu')].
  - split_and!; [done..|]. intros kek dek Hl Hu.
    rewrite (Lookup_active cfg _ Hk) in Hl by (by rewrite Hk). by injection Hl as <-.
  - split_and!; [done..|]. intros kek dek Hl Hu. rewrite Hl0 in Hl. injection Hl as <-.
    rewrite Hu0 in Hu. injection Hu as <-. exact Hu'.
Qed.

(** The rows a key load ends with, seen from the data keys it re-wrapped. *)
Lemma rows_of_load cfg ws ws' db2 db3 :
  Forall2 (kept_or_rewrapped cfg) ws ws' -> ws ≡ₚ map wrapped_of (kd_keys db2) ->
  Forall2 same_row (kd_keys db2) (kd_keys db3) -> keys_wf db3 ->
  (forall w', w' ∈ ws' -> w' ∈ map wrapped_of (kd_keys db3)) ->
  map w_ID ws' ≡ₚ key_ids db3 /\
  forall r, r ∈ kd_keys db3 -> wrapped_of r ∈ ws'.
Proof.
  intros F Hp S (_ & Hnd & _) P2.
  assert (Hids : map w_ID ws' = map w_ID ws).
  { clear -F. induction F as [|w w' l l' Hr _ IH]; [done|]. cbn. f_equal; [|done].
    destruct Hr as [[-> _]|Hr]; [done|apply Hr]. }
  assert (Hperm : map w_ID ws' ≡ₚ key_ids db3).
  { unfold key_ids. by rewrite Hids, Hp, map_w_ID_wrapped, (same_row_ids _ _ S). }
  split; [done|]. intros r Hr.
  assert (Hid : kr_ID r ∈ map w_ID ws').
  { rewrite Hperm. apply list_elem_of_In, in_map. by apply list_elem_of_In. }
  apply list_elem_of_In, in_map_iff in Hid as (w' & Ew & Hw'). apply list_elem_of_In in Hw'.
  pose proof (P2 w' Hw') as (r2 & E2 & Hr2)%list_elem_of_In%in_map_iff.
  assert (r = r2) as ->; [|by rewrite E2].
  apply list_elem_of_In, In_nth_error in Hr as [i Hi]. apply In_nth_error in Hr2 as [j Hj].
  assert (i = j) as ->; [|congruence].
  apply (proj1 (NoDup_nth_error (map kr_ID (kd_keys db3)))).
  - by apply NoDup_ListNoDup.
  - rewrite length_map. apply nth_error_Some. by rewrite Hi.
  - rewrite !nth_error_map, Hi, Hj. cbn. f_equal. rewrite <- Ew, <- E2. done.
Qed.

(** The active key of the table is the one the keyring seals with. *)
Lemma load_active cfg ws' db k u :
  keys_wf db -> map w_ID ws' ≡ₚ key_ids db -> (forall r, r ∈ kd_keys db -> wrapped_of r ∈ ws') ->
  (forall w', w' ∈ ws' -> w' ∈ map wrapped_of (kd_keys db)) -> NewKeyring cfg ws' = Ok (k, u) ->
  exists a, keep is_active (kd_keys db) = [a] /\ kr_ID a = ActiveDEK k /\ ActiveDEK k = kr_ID a.
Proof.
  intros (Hn & Hnd & Hf & Ha) Hids Hrows P2. unfold NewKeyring, add. cbn [deks active].
  destruct (add_deks cfg ws' _) as [[[ds act] m]|] eqn:Ea; [cbn|done].
  apply add_deks_keeps in Ea as (_ & _ & _ & Hact & Hno); [|by rewrite Hids].
  destruct (Z.eqb_spec act 0) as [->|Hz]; [done|].
  rewrite (proj2 (Z.eqb_neq _ _)) by done. intros [= <- _]. unfold ActiveDEK. cbn [active].
  destruct (keep is_active (kd_keys db)) as [|a [|b l]] eqn:Ek; [| |cbn in Ha; lia].
  - exfalso. apply Hz, Hno. intros w Hw Hs.
    apply P2, list_elem_of_In, in_map_iff in Hw as (r & <- & Hr). apply list_elem_of_In in Hr.
    assert (Hin : r ∈ keep is_active (kd_keys db)).
    { apply elem_of_keep. split; [done|]. by apply bool_decide_eq_true. }
    rewrite Ek in Hin. by apply not_elem_of_nil in Hin.
  - exists a. assert (Hin : a ∈ keep is_active (kd_keys db)) by (rewrite Ek; left).
    apply elem_of_keep in Hin as [Hin Hs%bool_decide_eq_true].
    assert (act = kr_ID a) as ->; [|done].
    apply (Hact (wrapped_of a) (Hrows a Hin) Hs). intros w Hw Hws.
    apply P2, list_elem_of_In, in_map_iff in Hw as (r & <- & Hr). apply list_elem_of_In in Hr.
    assert (Hri : r ∈ keep is_active (kd_keys db)).
    { apply elem_of_keep. split; [done|]. by apply bool_decide_eq_true. }
    rewrite Ek in Hri. by apply list_elem_of_singleton in Hri as ->.
Qed.
End LoadFacts.

(** ** Properties *)

(** C32: The table of data keys keeps its type under everything the backends and the
    operator do, in any order: at most one active key, ids of the sequence that
    never collide, retirement dates exactly on retired keys, keys of the right
    size under a valid key id; and an id that was passed over or removed never
    names a data key again. *)
Theorem key_table_wf `{L : AEADLaws} db db' :
  rtc key_step db db' -> keys_wf db ->
  keys_wf db' /\ kd_next db <= kd_next db' /\
  forall id, id < kd_next db -> id ∉ key_ids db -> id ∉ key_ids db'.
Proof.
  intros H Hwf. assert (E : evolves db db').
  { induction H as [|a b c Hs _ IH]; [reflexivity|].
    pose proof (key_step_evolves _ _ Hs) as E1. transitivity b; [done|]. apply IH, E1, Hwf. }
  destruct (E Hwf) as (W & N & I). split_and!; [done|done|]. intros id Hid Hno Hin. by apply Hno, I.
Qed.

(** The first data key is created when none is active. *)
Lemma created_first `{L : AEADLaws} cfg create rnd now db new db2 :
  keys_wf db -> rnd_ok rnd ->
  (if negb (existsb (fun w => bool_decide (w_State w = DekActive)) (LoadDataKeys db)) && create
   then let '(r, d) := insertDataKey (Active cfg) rnd now db in
        (match r with Ok w => Ok [w] | Err e => Err e end, d)
   else (Ok [], db)) = (Ok new, db2) ->
  keys_wf db2 /\ LoadDataKeys db ++ new ≡ₚ map wrapped_of (kd_keys db2) /\
  (new <> [] -> create = true /\ keep is_active (kd_keys db) = []).
Proof.
  intros W1 Hr Em. destruct (negb _ && create) eqn:Ec.
  - destruct (insertDataKey (Active cfg) rnd now db) as [r0 d] eqn:Ei.
    destruct (insert_wf _ _ _ _ _ _ Hr W1 Ei) as (W & _ & _ & Hres).
    injection Em as Em <-. destruct r0 as [w|]; [|done]. injection Em as <-.
    destruct Hres as (row & Ek & Ew & _ & _ & Hna & _). split_and!; [done| |].
    + rewrite Ek, map_app. cbn [map]. by rewrite LoadDataKeys_perm, Ew.
    + intros _. apply andb_true_iff in Ec as [_ ->]. by split.
  - injection Em as <- <-. split_and!; [done|by rewrite app_nil_r, LoadDataKeys_perm|done].
Qed.

(** Preparing the keyring is all or nothing.  When it fails no row of a table
    has changed.  When it succeeds there is one active key, the one the keyring
    seals with; every data key is wrapped by the configured active key and
    opens with it; every data key that was there is there with its id, its
    state and the same key bytes; the keyring holds them all; and a key was
    created only because none was active. *)
Theorem PrepareKeyring_atomic `{L : AEADLaws} cfg create commit rnd now db r db' :
  keys_wf db -> valid_kek (Active cfg) -> rnd_ok rnd ->
  PrepareKeyring cfg create commit rnd now db = (r, db') ->
  match r with
  | Err _ => kd_keys db' = kd_keys db /\ kd_beats db' = kd_beats db /\ kd_lock db' = kd_lock db
  | Ok load =>
      (exists a, keep is_active (kd_keys db') = [a] /\ kr_ID a = kl_Active load /\
         ActiveDEK (kl_Keyring load) = kr_ID a) /\
      (forall x, x ∈ kd_keys db' ->
         kr_KEKID x = kek_ID (Active cfg) /\ opens (wrapped_of x) (Active cfg) = true) /\
      (forall x, x ∈ kd_keys db -> exists x', x' ∈ kd_keys db' /\ kr_ID x' = kr_ID x /\
         kr_State x' = kr_State x /\
         forall kek dek, Lookup cfg (kr_KEKID x) = Some kek -> unwrap (wrapped_of x) kek = Ok dek ->
           unwrap (wrapped_of x') (Active cfg) = Ok dek) /\
      dom (deks (kl_Keyring load)) = list_to_set (key_ids db') /\
      (kl_Created load = true -> create = true /\ keep is_active (kd_keys db) = [])
  end.
Proof.
  intros Hwf Hv Hr. unfold PrepareKeyring.
  set (db1 := set_beats _ db). assert (W1 : keys_wf db1) by exact Hwf.
  destruct (if negb _ && create then _ else _) as [made db2] eqn:Em.
  destruct made as [new|e]; [|by intros [= <- <-]].
  destruct (created_first cfg create rnd now db1 new db2 W1 Hr Em) as (W2 & Hnew & Hcr). clear Em.
  destruct (rewrap_all cfg rnd now _ db2) as [[[ws' db3] n]|e] eqn:Ew; [|by intros [= <- <-]].
  destruct (NewKeyring cfg ws') as [[k u]|e] eqn:Ek; [|by intros [= <- <-]].
  destruct commit; cbn [negb]; [|by intros [= <- <-]]. intros [= <- <-].
  cbn [kl_Keyring kl_Active kl_Created].
  destruct (rewrap_all_spec cfg rnd now (LoadDataKeys db1 ++ new) db2 ws' db3 n Hv Hr W2)
    as (F & W3 & _ & S & _ & P2); [rewrite Hnew, map_w_ID_wrapped; apply W2|intros w; by rewrite Hnew|done|].
  destruct (rows_of_load cfg _ ws' db2 db3 F Hnew S W3 P2) as [Hids Hrows].
  assert (Hnd' : NoDup (map w_ID ws')) by (rewrite Hids; apply W3).
  split_and!.
  - by apply (load_active cfg ws' db3 k u).
  - intros x Hx. specialize (Hrows x Hx).
    unfold NewKeyring, add in Ek. destruct (add_deks _ _ _) as [acc|] eqn:Ea; [|done].
    destruct (add_deks_opens _ _ _ _ _ _ Hnd' Ea _ Hrows (lookup_empty _)) as (kek & Hl & Ho).
    apply list_elem_of_lookup in Hrows as [i Hi].
    destruct (Forall2_lookup_r _ _ _ _ _ F Hi) as (w & _ & Hw).
    apply (kept_opened _ _ _ (proj1 Hv)) in Hw as (_ & _ & Hk & _). split; [done|].
    rewrite (Lookup_active cfg _ Hk) in Hl by (rewrite Hk; apply Hv). by injection Hl as <-.
  - intros x Hx.
    assert (Hin : wrapped_of x ∈ LoadDataKeys db1 ++ new).
    { apply elem_of_app. left. rewrite LoadDataKeys_perm. apply list_elem_of_In, in_map.
      by apply list_elem_of_In. }
    apply list_elem_of_lookup in Hin as [i Hi].
    destruct (Forall2_lookup_l _ _ _ _ _ F Hi) as (w' & Hi' & Hw).
    apply (kept_opened _ _ _ (proj1 Hv)) in Hw as (E1 & E2 & _ & E4).
    pose proof (P2 w' (list_elem_of_lookup_2 _ _ _ Hi')) as (x' & <- & Hx')%list_elem_of_In%in_map_iff.
    exists x'. split_and!; [by apply list_elem_of_In|done|done|exact E4].
  - unfold NewKeyring, add in Ek. destruct (add_deks _ _ _) as [[[ds act] m]|] eqn:Ea; [cbn in Ek|done].
    destruct (_ =? 0); [done|]. injection Ek as <- _. cbn [deks].
    apply add_deks_keeps in Ea as (_ & D & _); [|done]. rewrite D.
    cbn [deks]. rewrite dom_empty_L, union_empty_r_L. apply list_to_set_perm_L, Hids.
  - intros Hc. apply Hcr. by destruct new.
Qed.

(** The first row with a property is a row with it. *)
Lemma find_row (f : KeyRow -> bool) l r : List.find f l = Some r -> r ∈ l /\ f r = true.
Proof. intros [H1 H2]%find_some. split; [by apply list_elem_of_In|done]. Qed.

(** Retiring a key leaves no active one. *)
Lemma retire_none_active retire now db row :
  keys_wf db -> row ∈ kd_keys db -> is_active row = true -> kr_ID row = retire ->
  keep is_active (map (fun r => if kr_ID r =? retire then retire_row now r else r) (kd_keys db)) = [].
Proof.
  intros (_ & Hnd & _ & Ha) Hin Hact Hid.
  destruct (keep is_active (map _ _)) as [|x l] eqn:E; [done|exfalso].
  assert (Hx : x ∈ x :: l) by left. rewrite <- E in Hx. apply elem_of_keep in Hx as [Hx Hxa].
  apply list_elem_of_In, in_map_iff in Hx as (r & <- & Hr). apply list_elem_of_In in Hr.
  destruct (Z.eqb_spec (kr_ID r) retire) as [He|Hne]; [done|].
  assert (H1 : row ∈ keep is_active (kd_keys db)) by by apply elem_of_keep.
  assert (H2 : r ∈ keep is_active (kd_keys db)) by by apply elem_of_keep.
  destruct (keep is_active (kd_keys db)) as [|a [|b k]]; [by apply not_elem_of_nil in H1| |cbn in Ha; lia].
  apply list_elem_of_singleton in H1, H2. congruence.
Qed.

(** A rotation happens once.  When it returns an id it has retired the named
    key, which was active (and past its bound if the rotation was automatic),
    kept every row, and added one active key under the configured key with the
    sequence's next id; a rotation of the same key that comes after it, from any
    backend, finds nothing to do.  When it returns 0 or an error no key
    has changed. *)
Theorem RotateStep1_once `{L : AEADLaws} cfg retire bound commit rnd now db r db' :
  keys_wf db -> rnd_ok rnd -> RotateStep1 cfg retire bound commit rnd now db = (r, db') ->
  kd_beats db' = kd_beats db /\ kd_lock db' = kd_lock db /\
  match r with
  | Err _ => kd_keys db' = kd_keys db
  | Ok id =>
      exists row, row ∈ kd_keys db /\ kr_ID row = retire /\
      if id =? 0 then
        db' = db /\ (is_active row = false \/ (bound = true /\ kr_Sealed row < SealBound))
      else
        is_active row = true /\ (bound = true -> SealBound <= kr_Sealed row) /\
        id = kd_next db /\
        (exists new, kd_keys db' =
            map (fun r => if kr_ID r =? retire then retire_row now r else r) (kd_keys db) ++ [new] /\
          kr_ID new = id /\ kr_KEKID new = kek_ID (Active cfg) /\ keep is_active (kd_keys db') = [new]) /\
        forall cfg2 bound2 commit2 rnd2 now2,
          RotateStep1 cfg2 retire bound2 commit2 rnd2 now2 db' = (Ok 0, db')
  end.
Proof.
  intros Hwf Hr. unfold RotateStep1 at 1.
  destruct (List.find (fun r => kr_ID r =? retire) (kd_keys db)) as [row|] eqn:Ef;
    [|by intros [= <- <-]].
  apply find_row in Ef as [Hrow Hid%Z.eqb_eq].
  destruct (negb (is_active row) || _) eqn:Eg.
  { intros [= <- <-]. split_and!; [done..|]. exists row. split_and!; [done..|]. cbn.
    split; [done|]. destruct (is_active row); [right|by left]. cbn in Eg. zbool. by split. }
  destruct (is_active row) eqn:Ea; [cbn [negb orb] in Eg|done].
  set (db1 := set_keys _ db).
  assert (W1 : keys_wf db1).
  { by apply (evolves_retire retire now db). }
  destruct (insertDataKey (Active cfg) rnd now db1) as [[w|e] db2] eqn:Ei; [|by intros [= <- <-]].
  destruct commit; [|by intros [= <- <-]].
  destruct (insert_wf _ _ _ _ _ _ Hr W1 Ei) as (W & N & Hb & new & Ek & Ew & Hna & Hwid & _ & Hkek).
  intros [= <- <-]. rewrite Hwid. assert (Hpos : 1 <= kd_next db) by apply Hwf.
  split_and!; [done| |].
  { pose proof (insert_lock (Active cfg) rnd now db1) as Hl. by rewrite Ei in Hl. }
  exists row. change (kd_next db1) with (kd_next db) in *.
  rewrite (proj2 (Z.eqb_neq (kd_next db) 0)) by lia. split_and!; try done.
  - intros ->. cbn in Eg. lia.
  - exists new. split_and!; [exact Ek| | |].
    + rewrite <- Hwid, <- Ew. done.
    + rewrite <- Hkek, <- Ew. done.
    + rewrite Ek, keep_app. cbn [db1 set_keys kd_keys].
      rewrite (retire_none_active _ _ _ row) by done. unfold keep. cbn. by rewrite Hna.
  - intros cfg2 bound2 commit2 rnd2 now2. unfold RotateStep1. rewrite Ek. cbn [db1 set_keys kd_keys].
    destruct (List.find _ (_ ++ _)) as [r2|] eqn:E2.
    + apply find_row in E2 as [[Hin|Hin%list_elem_of_singleton]%elem_of_app Hi%Z.eqb_eq].
      * destruct (is_active r2) eqn:E; [exfalso|done].
        assert (Hk : r2 ∈ @nil KeyRow).
        { rewrite <- (retire_none_active retire now db row) by done. by apply elem_of_keep. }
        by apply not_elem_of_nil in Hk.
      * exfalso. assert (Hr2 : kr_ID r2 = kd_next db) by (by rewrite Hin, <- Hwid, <- Ew).
        destruct Hwf as (_ & _ & Hf & _). rewrite Forall_forall in Hf.
        destruct (Hf row Hrow) as [? _]. lia.
    + exfalso. apply List.find_none with (x := retire_row now row) in E2; [cbn in E2; lia|].
      apply in_app_iff. left. apply in_map_iff. exists row.
      rewrite Hid, Z.eqb_refl. split; [done|by apply list_elem_of_In].
Qed.

(** ** One step of the refresher *)

(** The seals of a list of counts that are with one key. *)
Fixpoint sum_for (id : Z) (cs : list (Z * Z)) : Z :=
  match cs with [] => 0 | p :: r => (if p.1 =? id then p.2 else 0) + sum_for id r end.

(** The seals counted with a key: in its row and not yet flushed. *)
Definition sealed_of (id : Z) (db : KeyDB) : Z :=
  match List.find (fun r => kr_ID r =? id) (kd_keys db) with Some r => kr_Sealed r | None => 0 end.
Definition counted (id : Z) (c : counts) : Z := default 0 (c !! id).

#[export] Instance sum_for_proper id : Proper (Permutation ==> eq) (sum_for id).
Proof.
  intros l k H. induction H as [|p l k _ IH|p q l|l1 l2 l3 _ IH1 _ IH2]; cbn [sum_for]; [done|..]; lia.
Qed.

Lemma sum_for_keep id l : sum_for id (keep (fun p => negb (p.2 =? 0)) l) = sum_for id l.
Proof.
  induction l as [|[i n] l IH]; [done|]. unfold keep in *. cbn [List.filter fst snd sum_for].
  destruct (Z.eqb_spec n 0) as [->|]; cbn [negb sum_for fst snd]; rewrite IH; [|done].
  by destruct (_ =? _).
Qed.

Lemma sum_for_counts id c : sum_for id (map_to_list c) = counted id c.
Proof.
  unfold counted, counts in *. induction c as [|i n c Hi IH] using map_ind.
  - by rewrite map_to_list_empty, lookup_empty.
  - rewrite map_to_list_insert by done. cbn [sum_for fst snd]. rewrite IH.
    destruct (Z.eqb_spec i id) as [->|]; [rewrite lookup_insert_eq, Hi; cbn; lia|].
    by rewrite lookup_insert_ne.
Qed.

Lemma counted_add id i n c : counted id (count_add i n c) = counted id c + (if i =? id then n else 0).
Proof.
  unfold counted, count_add, counts in *. destruct (Z.eqb_spec i id) as [->|];
    [rewrite lookup_insert_eq|rewrite lookup_insert_ne by done]; cbn; lia.
Qed.

Lemma counted_restore id taken c : counted id (RestoreSealCounts taken c) = counted id c + sum_for id taken.
Proof.
  unfold RestoreSealCounts. revert c. induction taken as [|[i n] r IH]; intros c; cbn [fold_left sum_for fst snd];
    [lia|]. rewrite IH, counted_add. lia.
Qed.

Lemma counted_taken id c :
  sum_for id (TakeSealCounts c).1 = counted id c /\ counted id (TakeSealCounts c).2 = 0.
Proof.
  unfold TakeSealCounts. cbn [fst snd]. rewrite sum_for_keep, sum_for_counts. split; [done|].
  unfold counted, counts in *. rewrite (lookup_fmap (M := gmap Z)). by destruct (c !! id).
Qed.

Lemma find_map (f : KeyRow -> KeyRow) id l :
  (forall r, kr_ID (f r) = kr_ID r) ->
  List.find (fun r => kr_ID r =? id) (map f l) = option_map f (List.find (fun r => kr_ID r =? id) l).
Proof.
  intros Hf. induction l as [|r l IH]; [done|]. cbn [map List.find]. rewrite Hf.
  by destruct (kr_ID r =? id).
Qed.

Lemma key_ids_find id db : id ∈ key_ids db <->
  exists r, List.find (fun r => kr_ID r =? id) (kd_keys db) = Some r /\ kr_ID r = id.
Proof.
  split.
  - intros (r0 & E & Hr)%list_elem_of_In%in_map_iff.
    destruct (List.find _ _) as [r|] eqn:Ef.
    + exists r. split; [done|]. apply find_row in Ef. lia.
    + apply (List.find_none _ _ Ef) in Hr. lia.
  - intros (r & [Hin _]%find_row & <-). by apply list_elem_of_In, in_map, list_elem_of_In.
Qed.

Lemma sealed_flush id cs db : id ∈ key_ids db ->
  sealed_of id (FlushSealCounts cs db) = sealed_of id db + sum_for id cs /\
  id ∈ key_ids (FlushSealCounts cs db).
Proof.
  unfold FlushSealCounts. revert db. induction cs as [|[i n] cs IH]; intros db Hid;
    cbn [fold_left sum_for fst snd]; [split; [lia|done]|].
  match goal with |- context [fold_left _ cs ?d] => set (db1 := d) end.
  apply key_ids_find in Hid as (r & Ef & Hr).
  set (f := fun r0 : KeyRow => if kr_ID r0 =? i then _ else r0) in db1.
  assert (Hf : forall r0, kr_ID (f r0) = kr_ID r0).
  { intros r0. unfold f. by destruct (kr_ID r0 =? i). }
  assert (E1 : List.find (fun r => kr_ID r =? id) (kd_keys db1) = Some (f r)).
  { cbn [db1 set_keys kd_keys]. by rewrite find_map, Ef by done. }
  destruct (IH db1) as [-> Hin]; [apply key_ids_find; exists (f r); by rewrite Hf|].
  split; [|done]. unfold sealed_of. rewrite E1, Ef. unfold f. rewrite Hr, (Z.eqb_sym i).
  destruct (id =? i); cbn; lia.
Qed.

Lemma find_app_l (f : KeyRow -> bool) l k r :
  List.find f l = Some r -> List.find f (l ++ k) = Some r.
Proof. induction l as [|x l IH]; [done|]. cbn. by destruct (f x). Qed.

(** A row whose count moves nowhere. *)
Definition counts_kept (db db' : KeyDB) : Prop :=
  forall id, id ∈ key_ids db -> id ∈ key_ids db' /\ sealed_of id db' = sealed_of id db.

#[export] Instance counts_kept_preorder : PreOrder counts_kept.
Proof.
  split; [by intros db id|]. intros a b c H1 H2 id [Hb E1]%H1. destruct (H2 id Hb) as [? E2].
  split; [done|congruence].
Qed.

Lemma counts_kept_same db db' : kd_keys db' = kd_keys db -> counts_kept db db'.
Proof. intros E id. unfold key_ids, sealed_of. by rewrite E. Qed.

Section TickFacts.
Context {A : AEAD} {L : AEADLaws A}.

Lemma insert_keys kek rnd now db :
  exists more, kd_keys (insertDataKey kek rnd now db).2 = kd_keys db ++ more.
Proof.
  unfold insertDataKey. destruct (_ <? kd_next db); [exists []; by rewrite app_nil_r|].
  destruct (NewDEK _ _ _ _) as [w|]; [cbv zeta|exists []; by rewrite app_nil_r].
  destruct (row_accepted _ _); [by eexists|exists []; by rewrite app_nil_r].
Qed.

Lemma rotate_counts cfg retire bound commit rnd now db :
  counts_kept db (RotateStep1 cfg retire bound commit rnd now db).2.
Proof.
  unfold RotateStep1. destruct (List.find _ _) as [row|]; [|reflexivity].
  destruct (_ || _); [reflexivity|].
  set (f := fun r => if kr_ID r =? retire then retire_row now r else r).
  pose proof (insert_keys (Active cfg) rnd now (set_keys (map f) db)) as [more E].
  destruct (insertDataKey _ _ _ _) as [[w|e] db2]; cbn [snd] in *; [|by apply counts_kept_same].
  destruct commit; [|by apply counts_kept_same]. cbn [set_keys kd_keys] in E.
  assert (Hf : forall r, kr_ID (f r) = kr_ID r) by (intros r; unfold f; by destruct (_ =? _)).
  intros id (r & Ef & Hr)%key_ids_find.
  assert (E2 : List.find (fun r => kr_ID r =? id) (kd_keys db2) = Some (f r)).
  { rewrite E. apply find_app_l. by rewrite find_map, Ef. }
  split; [apply key_ids_find; exists (f r); by rewrite Hf|].
  unfold sealed_of. cbn [snd]. rewrite E2, Ef. unfold f. by destruct (_ =? _).
Qed.

Lemma auto_rotate_counts env cfg rnd now cur db :
  counts_kept db (auto_rotate env cfg rnd now cur db).2.
Proof.
  unfold auto_rotate.
  destruct (if ok_active env then ActiveDataKey db else None) as [[[id kek] sealed]|]; [|reflexivity].
  destruct (_ && _); [|reflexivity].
  pose proof (rotate_counts cfg (ActiveDEK cur) true (ok_rotate env) rnd now db) as E.
  destruct (RotateStep1 _ _ _ _ _ _ _) as [[i|e] db']; [|done]. cbn [snd] in E.
  destruct (i =? 0); [done|]. destruct (ok_reload env); [|done]. by destruct (With _ _ _) as [[]|].
Qed.

Lemma beat_counts env inst act sent now p db :
  counts_kept db (beat env inst act sent now p db).2 /\
  pr_counts (beat env inst act sent now p db).1.2 = pr_counts p.
Proof.
  unfold beat, writeHeartbeatIfKey. destruct (ok_beat env); [|done]. cbn [negb].
  by destruct (existsb _ _).
Qed.

Lemma flush_counts env p db id : id ∈ key_ids db ->
  id ∈ key_ids (flush env p db).2 /\
  sealed_of id (flush env p db).2 + counted id (pr_counts (flush env p db).1) =
    sealed_of id db + counted id (pr_counts p).
Proof.
  intros Hid. destruct (counted_taken id (pr_counts p)) as [Ht Hz]. unfold flush.
  destruct (TakeSealCounts (pr_counts p)) as [taken c]. cbn [fst snd] in Ht, Hz.
  destruct taken as [|t r]; [cbn in *; split; [done|lia]|].
  destruct (sealed_flush id (t :: r) db Hid) as [Hs Hin].
  destruct (ok_flush env); cbn [fst snd set_counts pr_counts]; [|rewrite counted_restore];
    split; try done; lia.
Qed.

(** What a heartbeat that renews the lease says. *)
Definition backed (inst : Instance_) (now : Z) (p : Process) (db : KeyDB) : Prop :=
  exists k, pr_current p = Some k /\ ActiveDEK k ∈ key_ids db /\
    exists h, h ∈ kd_beats db /\ InstanceID h = inst_ID inst /\ SeenAt h = now /\
      ActiveDEK_ h = Some (ActiveDEK k).

Lemma WriteHeartbeat_mine inst dek now db :
  exists h, h ∈ kd_beats (WriteHeartbeat inst dek now db) /\ InstanceID h = inst_ID inst /\
    SeenAt h = now /\ ActiveDEK_ h = dek.
Proof.
  unfold WriteHeartbeat. cbn [set_beats kd_beats]. destruct (existsb _ _) eqn:E.
  - apply existsb_elem in E as (h & Hin & Hh). eexists. split; [|].
    + apply list_elem_of_In, in_map_iff. exists h. split; [reflexivity|by apply list_elem_of_In].
    + rewrite Hh. apply N.eqb_eq in Hh. done.
  - eexists. split; [apply elem_of_app; right; by left|done].
Qed.

Lemma beat_backed env inst k sent now p db go p' db' :
  beat env inst (ActiveDEK k) sent now p db = (go, p', db') ->
  pr_current p = Some k ->
  pr_stopped p' = (pr_stopped p || negb go) /\
  (pr_lease p' <> pr_lease p -> backed inst now p' db' /\ pr_lease p' = Renew sent (pr_lease p)).
Proof.
  unfold beat, writeHeartbeatIfKey. intros H Hk. destruct (ok_beat env); cbn [negb] in H.
  - destruct (existsb _ _) eqn:E; injection H as <- <- <-; cbn; rewrite ?orb_true_r, ?orb_false_r;
      (split; [done|]); [|done]. intros _. split; [|done]. exists k. split; [done|].
    apply existsb_elem in E as (r & Hr & Hid). split; [|apply WriteHeartbeat_mine].
    apply Z.eqb_eq in Hid as <-. by apply list_elem_of_In, in_map, list_elem_of_In.
  - injection H as <- <- <-. by rewrite orb_false_r.
Qed.

Lemma flush_same env p db :
  pr_current (flush env p db).1 = pr_current p /\ pr_lease (flush env p db).1 = pr_lease p /\
  pr_stopped (flush env p db).1 = pr_stopped p.
Proof.
  unfold flush. destruct (TakeSealCounts _) as [[|t r] c]; [done|]. by destruct (ok_flush env).
Qed.
End TickFacts.

(** A step of the refresher: the seal gate closes with it, and the lease moves only
    with a heartbeat. *)
Lemma Tick_backed `{L : AEADLaws} env cfg inst rnd sent now p db go p' db' :
  Tick env cfg inst rnd sent now p db = (go, p', db') ->
  pr_stopped p' = (pr_stopped p || negb go) /\
  (pr_lease p' <> pr_lease p -> backed inst now p' db' /\ pr_lease p' = Renew sent (pr_lease p)).
Proof.
  unfold Tick. destruct (pr_current p) as [cur|] eqn:Ec;
    [|intros [= <- <- <-]; by rewrite orb_false_r]. cbv zeta.
  destruct (negb (String.eqb _ "")).
  { intros [= <- <- <-]. by rewrite orb_true_r. }
  destruct (negb (ok_load env)).
  { intros H. by apply (beat_backed _ _ _ _ _ _ _ _ _ _ H Ec). }
  destruct (negb (existsb _ _)).
  { intros [= <- <- <-]. by rewrite orb_true_r. }
  set (k1 := refreshed cur cfg _).
  destruct (flush_same env (install k1 p) db) as (F1 & F2 & F3).
  destruct (flush env (install k1 p) db) as [p2 db2]. cbn [fst] in F1, F2, F3.
  destruct (auto_rotate env cfg rnd now k1 db2) as [k2 db3]. intros H.
  destruct (beat_backed _ _ _ _ _ _ _ _ _ _ H eq_refl) as [Hs Hb].
  cbn [install pr_stopped pr_lease] in Hs, Hb, F2, F3. rewrite F3 in Hs. by rewrite F2 in Hb.
Qed.

(** A step of the refresher extends the right to seal only on the strength of a
    heartbeat.  If the lease changed, the row of this backend was written at that
    step and names the key the backend now seals with, that key is in the table,
    and the lease runs from the step's start: it ends at most a lease after the
    later of that start and the old lease's.  If the step asks for shutdown --
    a destructive command holds the lock, or the sealing key is gone -- the seal
    gate is closed for good. *)
Theorem Tick_lease `{L : AEADLaws} env cfg inst rnd sent now p db go p' db' :
  Tick env cfg inst rnd sent now p db = (go, p', db') ->
  (go = false -> forall t, gate t p' = Err ErrSealPaused) /\
  (pr_lease p' <> pr_lease p -> backed inst now p' db') /\
  (forall t, gate t p' = Ok tt -> t <= Z.max sent (lastSent (pr_lease p)) + SealLease).
Proof.
  intros H. destruct (Tick_backed _ _ _ _ _ _ _ _ _ _ _ H) as [Hs Hl]. split_and!.
  - intros -> t. unfold gate. by rewrite Hs, orb_true_r.
  - intros Hne. by apply Hl.
  - intros t. unfold gate. destruct (pr_stopped p'); [done|]. unfold CheckLease.
    destruct (Z.leb_spec (t - lastSent (pr_lease p')) SealLease) as [Ht|]; [intros _|done].
    assert (D : pr_lease p' = pr_lease p \/ pr_lease p' <> pr_lease p).
    { destruct (pr_lease p) as [a x], (pr_lease p') as [b y].
      destruct (decide (a = b)) as [->|]; [destruct (decide (x = y)) as [->|]; [by left|]|];
        right; congruence. }
    destruct D as [D|D]; [rewrite D in Ht; lia|]. destruct (Hl D) as [_ E]. rewrite E in Ht.
    cbn [Renew lastSent] in Ht. destruct (Z.ltb_spec (lastSent (pr_lease p)) sent); lia.
Qed.

(** No seal is lost from the count.  For every data key in the table, the seals
    counted in its row and those the process has yet to flush add up to the same
    number after a step of the refresher as before it, whichever of its
    statements failed, and however the active key changed. *)
Theorem Tick_counts `{L : AEADLaws} env cfg inst rnd sent now p db go p' db' id :
  Tick env cfg inst rnd sent now p db = (go, p', db') -> id ∈ key_ids db ->
  id ∈ key_ids db' /\
  sealed_of id db' + counted id (pr_counts p') = sealed_of id db + counted id (pr_counts p).
Proof.
  intros H Hid. unfold Tick in H.
  destruct (pr_current p) as [cur|]; [cbv zeta in H|by injection H as <- <- <-].
  destruct (negb (String.eqb _ "")); [by injection H as <- <- <-|].
  assert (B : forall act q d, beat env inst act sent now q d = (go, p', db') -> id ∈ key_ids d ->
    id ∈ key_ids db' /\ sealed_of id db' + counted id (pr_counts p') = sealed_of id d + counted id (pr_counts q)).
  { intros act q d Hb Hd. destruct (beat_counts env inst act sent now q d) as [K C].
    rewrite Hb in K, C. cbn [fst snd] in K, C. destruct (K id Hd) as [? ->]. by rewrite C. }
  destruct (negb (ok_load env)); [by apply B in H|].
  destruct (negb (existsb _ _)); [by injection H as <- <- <-|].
  set (k1 := refreshed cur cfg _) in H.
  destruct (flush_counts env (install k1 p) db id Hid) as [Hid2 Hf].
  destruct (flush env (install k1 p) db) as [p2 db2]. cbn [fst snd] in Hid2, Hf.
  destruct (auto_rotate_counts env cfg rnd now k1 db2 id Hid2) as [Hid3 Hr].
  destruct (auto_rotate env cfg rnd now k1 db2) as [k2 db3]. cbn [snd] in Hid3, Hr.
  apply B in H as [? He]; [|done]. split; [done|]. cbn [install pr_counts] in He, Hf. lia.
Qed.

(** ** Concrete runs *)

#[local] Existing Instances Toy.aead Toy.laws.

Module Demo.
Definition rnd : Random :=
  {| rnd_key := fun _ => Toy.key32 "k"; rnd_nonce := fun _ => Toy.nonce |}.
Definition empty : KeyDB := {| kd_keys := []; kd_next := 1; kd_beats := []; kd_lock := None |}.
Definition started : KeyDB := (PrepareKeyring Toy.cfg true true rnd 5 empty).2.
Definition me : Instance_ := {| inst_ID := 7%N; inst_Hostname := "web-1" |}.
(** A data key wrapped by the previous key, now to be re-wrapped. *)
Definition older : KeyDB :=
  {| kd_keys := [ {| kr_ID := 1; kr_State := DekActive; kr_KEKID := "20260101";
                     kr_Wrapped := w_Wrapped (Toy.dek "y" 1 DekActive Toy.kek_b); kr_Created := 1;
                     kr_WrappedAt := 1; kr_Retired := None; kr_Sealed := 5 |} ];
     kd_next := 2; kd_beats := []; kd_lock := None |}.
Definition ring : Keyring :=
  match (LoadKeyring Toy.cfg me true rnd 5 empty).1 with
  | Ok l => kl_Keyring l | Err _ => {| deks := ∅; active := 0 |}
  end.
Definition running : Process :=
  {| pr_current := Some ring; pr_counts := {[1 := 3]}; pr_lease := NewLease 5; pr_stopped := false |}.
Definition all_ok : TickEnv :=
  {| ok_holder := true; ok_load := true; ok_flush := true; ok_active := true; ok_rotate := true;
     ok_reload := true; ok_beat := true |}.
End Demo.

Lemma rnd_ok_demo : rnd_ok Demo.rnd.
Proof. by intros id. Qed.

Lemma valid_kek_demo : valid_kek (Active Toy.cfg).
Proof. by vm_compute. Qed.

Lemma keys_wf_empty : keys_wf Demo.empty.
Proof. unfold keys_wf. cbn. split_and!; [done|done|constructor|constructor|lia]. Qed.

Lemma keys_wf_older : keys_wf Demo.older.
Proof.
  unfold keys_wf, row_wf. split_and!; [done|done| | |].
  - apply NoDup_singleton.
  - apply Forall_singleton. split; [done|]. split; [by vm_compute|]. split; [by vm_compute|].
    split; [|done]. split; [done|by intros [? ?]].
  - by vm_compute.
Qed.

Lemma key_table_wf_witness :
  keys_wf (deleteDataKeys Demo.started).2 /\ 2 <= kd_next (deleteDataKeys Demo.started).2.
Proof.
  destruct (key_table_wf Demo.empty (deleteDataKeys Demo.started).2) as (W & _ & _).
  - apply rtc_l with Demo.started; [|apply rtc_once, ks_delete].
    apply ks_prepare; [exact valid_kek_demo|exact rnd_ok_demo].
  - exact keys_wf_empty.
  - split; [exact W|by vm_compute].
Defined.

Lemma PrepareKeyring_atomic_witness :
  exists load db', PrepareKeyring Toy.cfg true true Demo.rnd 5 Demo.older = (Ok load, db') /\
    forall x, x ∈ kd_keys db' -> kr_KEKID x = "20250101".
Proof.
  assert (Hok : match (PrepareKeyring Toy.cfg true true Demo.rnd 5 Demo.older).1 with
                | Ok _ => true | Err _ => false end = true) by (vm_compute; reflexivity).
  destruct (PrepareKeyring Toy.cfg true true Demo.rnd 5 Demo.older) as [[load|e] db'] eqn:E; [|done].
  exists load, db'. split; [done|].
  destruct (PrepareKeyring_atomic Toy.cfg true true Demo.rnd 5 Demo.older (Ok load) db') as (_ & H & _).
  - exact keys_wf_older.
  - exact valid_kek_demo.
  - exact rnd_ok_demo.
  - exact E.
  - intros x Hx. by apply H in Hx as [Hx _].
Defined.

Lemma RotateStep1_once_witness :
  exists db', RotateStep1 Toy.cfg 1 false true Demo.rnd 9 Demo.older = (Ok 2, db') /\
    RotateStep1 Toy.cfg 1 false true Demo.rnd 11 db' = (Ok 0, db').
Proof.
  destruct (RotateStep1 Toy.cfg 1 false true Demo.rnd 9 Demo.older) as [r db'] eqn:E.
  exists db'. assert (Hr : r = Ok 2) by (vm_compute in E; by injection E as <- <-).
  split; [by rewrite Hr|]. rewrite Hr in E.
  destruct (RotateStep1_once Toy.cfg 1 false true Demo.rnd 9 Demo.older (Ok 2) db')
    as (_ & _ & row & _ & _ & _ & _ & _ & _ & Hno); [exact keys_wf_older|exact rnd_ok_demo|exact E|].
  apply Hno.
Defined.

Lemma Tick_lease_witness :
  let t := Tick Demo.all_ok Toy.cfg Demo.me Demo.rnd 30 31 Demo.running Demo.started in
  pr_lease t.1.2 = {| lastSent := 30; lease_paused := false |} /\ backed Demo.me 31 t.1.2 t.2.
Proof.
  cbv zeta. destruct (Tick _ _ _ _ _ _ _ _) as [[go p'] db'] eqn:E. cbn [fst snd].
  destruct (Tick_lease _ _ _ _ _ _ _ _ _ _ _ E) as (_ & H & _).
  assert (Hl : pr_lease p' = {| lastSent := 30; lease_paused := false |}).
  { vm_compute in E. by injection E as <- <- <-. }
  split; [done|]. apply H. by rewrite Hl.
Defined.

Lemma Tick_counts_witness :
  let t := Tick Demo.all_ok Toy.cfg Demo.me Demo.rnd 30 31 Demo.running Demo.started in
  sealed_of 1 t.2 + counted 1 (pr_counts t.1.2) = 3.
Proof.
  cbv zeta. destruct (Tick _ _ _ _ _ _ _ _) as [[go p'] db'] eqn:E. cbn [fst snd].
  destruct (Tick_counts _ _ _ _ _ _ _ _ _ _ _ 1 E) as [_ H]; [|by rewrite H; vm_compute].
  apply list_elem_of_In. vm_compute. by left.
Defined.
