(* ===== verification/SecretStore.v ===== *)
(** * The stored secrets

    [storage/secrets.go] and the SQL of [storage/encryption_ops.go]: the columns
    that hold secrets, the rows that hold them, how a statement tells an
    encrypted value from a plain one, the counts of the status report, and the
    removal of values that cannot be read. *)

From S2P Require Import Prelude GoText GoEncoding LinkStore SecretBox.

#[local] Open Scope string_scope.
#[local] Open Scope list_scope.
#[local] Open Scope Z_scope.

(** ** The inventory *)

(** [SecretColumn]. *)
Record SecretColumn := {
  sc_Label : string;
  sc_Table : string;
  sc_Column : string;
  sc_Identity : list string;
  sc_Nullable : bool;
}.

Definition Name (c : SecretColumn) : string := sc_Table c +:+ "." +:+ sc_Column c.

Definition column (label table col : string) (id : list string) (nullable : bool) : SecretColumn :=
  {| sc_Label := label; sc_Table := table; sc_Column := col; sc_Identity := id;
     sc_Nullable := nullable |}.

Definition Inventory : list SecretColumn := [
  column "S1" "oauth_tokens" "access_token" ["user_id"; "calendar_id"] false;
  column "S1" "oauth_tokens" "refresh_token" ["user_id"; "calendar_id"] false;
  column "S2" "settings" "microsoft_tokens" ["user_id"] true;
  column "S3" "settings" "zoom_tokens" ["user_id"] false;
  column "S6" "settings" "webcal_url" ["user_id"] false;
  column "S8" "settings" "llm_api_key" ["user_id"] false;
  column "S8" "settings" "llm_api_key_openai" ["user_id"] false;
  column "S8" "settings" "llm_api_key_anthropic" ["user_id"] false;
  column "S8" "settings" "llm_api_key_azure_openai" ["user_id"] false;
  column "S8" "settings" "llm_api_key_bedrock" ["user_id"] false;
  column "S8" "settings" "llm_api_key_vertex" ["user_id"] false;
  column "S4" "personal_calendars" "credentials_json" ["id"] false;
  column "S5" "personal_calendars" "url" ["id"] false;
  column "S7" "workspace_connections" "access_token" ["user_id"; "provider"] false;
  column "S7" "workspace_connections" "bot_token" ["user_id"; "provider"] false;
  column "S9" "org_ai_configurations" "api_key" ["org_id"] false;
  column "S10" "sso_providers" "oidc_client_secret" ["id"] false;
  column "S11" "sso_providers" "saml_cert" ["id"] false ].

(** [bindAt]: a missing value is the empty text. *)
Fixpoint bind_parts (names vals : list string) : list Part :=
  match names, vals with
  | [], _ => []
  | n :: ns, [] => {| p_Name := n; p_Value := "" |} :: bind_parts ns []
  | n :: ns, v :: vs => {| p_Name := n; p_Value := v |} :: bind_parts ns vs
  end.

Definition bindAt (table col : string) (names vals : list string) : Binding :=
  {| b_Table := table; b_Column := col; b_Row := bind_parts names vals |}.

(** [SecretColumn.Binding]. *)
Definition BindingOf (c : SecretColumn) (vals : list string) : Binding :=
  bindAt (sc_Table c) (sc_Column c) (sc_Identity c) vals.

(** The bindings of the reads and writes; a user's or an organisation's id is its
    canonical text. *)
Definition bindOAuthToken (col user calendar : string) : Binding :=
  bindAt "oauth_tokens" col ["user_id"; "calendar_id"] [user; calendar].
Definition bindSettings (col user : string) : Binding := bindAt "settings" col ["user_id"] [user].
Definition bindWorkspace (col user provider : string) : Binding :=
  bindAt "workspace_connections" col ["user_id"; "provider"] [user; provider].
Definition bindOrgAI (org : string) : Binding :=
  bindAt "org_ai_configurations" "api_key" ["org_id"] [org].
Definition bindSSO (col id : string) : Binding := bindAt "sso_providers" col ["id"] [id].
Definition bindPersonal (col : string) (id : Z) : Binding :=
  bindAt "personal_calendars" col ["id"] [itoa id].

(** ** SQL on a stored value *)

(** Text functions of the database count characters: a byte that continues a
    UTF-8 sequence belongs to the character before it. *)
Definition continues (s : string) : bool :=
  match s with String c _ => (128 <=? byte_of c) && (byte_of c <? 192) | EmptyString => false end.

Fixpoint chars (s : string) : list string :=
  match s with
  | EmptyString => []
  | String c r =>
      match chars r with
      | k :: l => if continues k then String c k :: l else String c "" :: k :: l
      | [] => [String c ""]
      end
  end.

Definition sconcat (l : list string) : string := fold_right (fun a b => a +:+ b) "" l.
Definition sql_left (n : nat) (s : string) : string := sconcat (take n (chars s)).
(** [substr(s, i)] and [substr(s, i, 1)]. *)
Definition sql_from (i : nat) (s : string) : string := sconcat (drop (i - 1) (chars s)).
Definition sql_char (i : nat) (s : string) : string := nth (i - 1) (chars s) "".
Definition split_part (s : string) (sep : ascii) (n : nat) : string := nth (n - 1) (Split sep s) "".

(** The regular expression [^[0-9]+:[0-9]+:[A-Za-z0-9_-]+$], matched with the
    backtracking of its repetitions. *)
Fixpoint re_plus (p : ascii -> bool) (k : string -> bool) (s : string) : bool :=
  match s with
  | EmptyString => false
  | String c r => p c && (k r || re_plus p k r)
  end.
Definition re_char (c : ascii) (k : string -> bool) (s : string) : bool :=
  match s with String d r => Ascii.eqb c d && k r | EmptyString => false end.
Definition re_end (s : string) : bool := String.eqb s "".

Definition envelope_re : string -> bool :=
  re_plus is_digit (re_char ":" (re_plus is_digit (re_char ":" (re_plus b64url_char re_end)))).

(** [left(c, 6) = 'pdenc:']. *)
Definition sealedPrefix (s : string) : bool := String.eqb (sql_left 6 s) Marker.

(** [DamagedSQL]. *)
Definition mismatch (i : nat) (s : string) : Z :=
  if String.eqb (sql_char i s) (sql_char i Marker) then 0 else 1.

Definition DamagedSQL (s : string) : bool :=
  negb (sealedPrefix s) && (11 <=? slen s) && envelope_re (sql_from 7 s) &&
  (mismatch 1 s + mismatch 2 s + mismatch 3 s + mismatch 4 s + mismatch 5 s + mismatch 6 s =? 1).

Definition sealedOrDamaged (s : string) : bool := sealedPrefix s || DamagedSQL s.

(** A condition on a column is not met by NULL. *)
Definition on_text (f : string -> bool) (v : option string) : bool :=
  match v with Some s => f s | None => false end.

Inductive PassKind := PassConvert | PassRotate | PassDecrypt.

(** [selector]; [retire] is the argument of a rotation. *)
Definition selector (kind : PassKind) (retire : Z) : option string -> bool :=
  on_text (match kind with
    | PassConvert => fun s => negb (String.eqb s "") && negb (sealedPrefix s) && negb (DamagedSQL s)
    | PassRotate => fun s => sealedPrefix s && String.eqb (split_part s ":" 3) (itoa retire)
    | PassDecrypt => sealedOrDamaged
    end).

(** ** Rows *)

(** A row of a table of the inventory: the text of its identity, its secret
    columns ([None] is NULL), its version, and the two columns a removal
    touches. *)
Record SRow := {
  s_ids : list string;
  s_cols : gmap string (option string);
  s_xmin : Z;
  s_conferencing : string;
  s_enabled : bool;
}.

Definition value (col : string) (r : SRow) : option string := default None (s_cols r !! col).

(** The tables, each listed in the order of its identity; the recorded credential
    losses, by user and provider; the next transaction id. *)
Record SecretDB := {
  sd_tables : gmap string (list SRow);
  sd_losses : list (string * string);
  sd_xid : Z;
}.

Definition rows (db : SecretDB) (t : string) : list SRow := default [] (sd_tables db !! t).

Definition set_rows (t : string) (f : list SRow -> list SRow) (db : SecretDB) : SecretDB :=
  {| sd_tables := <[t := f (rows db t)]> (sd_tables db); sd_losses := sd_losses db;
     sd_xid := sd_xid db |}.
Definition set_losses (l : list (string * string)) (db : SecretDB) : SecretDB :=
  {| sd_tables := sd_tables db; sd_losses := l; sd_xid := sd_xid db |}.
Definition next_xid (db : SecretDB) : SecretDB :=
  {| sd_tables := sd_tables db; sd_losses := sd_losses db; sd_xid := sd_xid db + 1 |}.

(** [UPDATE ... SET col = v] on one row, by transaction [xid]. *)
Definition set_value (xid : Z) (col v : string) (r : SRow) : SRow :=
  {| s_ids := s_ids r; s_cols := <[col := Some v]> (s_cols r); s_xmin := xid;
     s_conferencing := s_conferencing r; s_enabled := s_enabled r |}.
Definition set_conferencing (p : string) (r : SRow) : SRow :=
  {| s_ids := s_ids r; s_cols := s_cols r; s_xmin := s_xmin r; s_conferencing := p;
     s_enabled := s_enabled r |}.
Definition disable (r : SRow) : SRow :=
  {| s_ids := s_ids r; s_cols := s_cols r; s_xmin := s_xmin r;
     s_conferencing := s_conferencing r; s_enabled := false |}.

Definition user_of (r : SRow) : string := nth 0 (s_ids r) "".

(** ** Counts *)

Definition count_where (f : option string -> bool) (db : SecretDB) (c : SecretColumn) : Z :=
  Z.of_nat (length (keep (fun r => f (value (sc_Column c) r)) (rows db (sc_Table c)))).

Definition sum_over {A} (f : A -> Z) (l : list A) : Z := fold_right (fun x n => f x + n) 0 l.

(** [countSealed]. *)
Definition countSealed (db : SecretDB) : Z := sum_over (count_where (on_text sealedOrDamaged) db) Inventory.

(** [CountValuesUnder]. *)
Definition CountValuesUnder (db : SecretDB) (dek : Z) : Z :=
  sum_over (count_where (selector PassRotate dek) db) Inventory.

(** [ColumnStatus]. *)
Record ColumnStatus := {
  cs_Name : string;
  cs_Empty : Z; cs_Plain : Z; cs_Encrypted : Z; cs_Malformed : Z;
  cs_ByDEK : gmap string Z;
}.

(** [SELECT split_part(c, ':', 3), count] grouped by the first. *)
Definition by_dek (vs : list (option string)) : gmap string Z :=
  fold_right (fun v m => match v with
    | Some s => if sealedPrefix s
                then <[split_part s ":" 3 := default 0 (m !! split_part s ":" 3) + 1]> m else m
    | None => m end) ∅ vs.

Definition read_column (db : SecretDB) (c : SecretColumn) : ColumnStatus :=
  {| cs_Name := Name c;
     cs_Empty := count_where (fun v => match v with None => true | Some s => String.eqb s "" end) db c;
     cs_Plain := count_where (on_text (fun s =>
       negb (String.eqb s "") && negb (sealedPrefix s) && negb (DamagedSQL s))) db c;
     cs_Encrypted := count_where (on_text sealedPrefix) db c;
     cs_Malformed := count_where (on_text DamagedSQL) db c;
     cs_ByDEK := by_dek (map (value (sc_Column c)) (rows db (sc_Table c))) |}.

Definition read_columns (db : SecretDB) : list ColumnStatus := map (read_column db) Inventory.
Definition PlainTotal (cs : list ColumnStatus) : Z := sum_over cs_Plain cs.
Definition MalformedTotal (cs : list ColumnStatus) : Z := sum_over cs_Malformed cs.

(** ** Removal *)

(** What a removal does to a row of a table that keeps it. *)
Definition removed_row (xid : Z) (c : SecretColumn) (r : SRow) : SRow :=
  let r' := set_value xid (sc_Column c) "" r in
  if String.eqb (sc_Table c) "settings" then
    if String.eqb (sc_Column c) "microsoft_tokens" then
      if String.eqb (s_conferencing r) "teams" then set_conferencing "meet" r' else r'
    else if String.eqb (sc_Column c) "zoom_tokens" then set_conferencing "meet" r'
    else r'
  else if String.eqb (sc_Table c) "personal_calendars" then disable r'
  else r'.

(** The provider whose recorded loss a removal from [c] ends. *)
Definition loss_provider (c : SecretColumn) : option string :=
  if String.eqb (sc_Table c) "oauth_tokens" then Some "google"
  else if String.eqb (sc_Table c) "settings" then
    if String.eqb (sc_Column c) "microsoft_tokens" then Some "outlook"
    else if String.eqb (sc_Column c) "zoom_tokens" then Some "zoom" else None
  else None.

Definition deletes_row (c : SecretColumn) : bool :=
  String.eqb (sc_Table c) "oauth_tokens" || String.eqb (sc_Table c) "workspace_connections".

(** [removeSealedValues] in the rows [which] selects: the rows changed and the
    losses cleared. *)
Definition removeSealedValues (c : SecretColumn) (which : list string -> bool) (db : SecretDB)
    : Z * Z * SecretDB :=
  let cond r := which (s_ids r) && on_text sealedOrDamaged (value (sc_Column c) r) in
  let hit := keep cond (rows db (sc_Table c)) in
  let gone l := match loss_provider c with
    | Some p => existsb (fun r => String.eqb (user_of r) l.1) hit && String.eqb l.2 p
    | None => false end in
  let db1 := set_losses (keep (fun l => negb (gone l)) (sd_losses db)) db in
  let db2 := set_rows (sc_Table c)
    (if deletes_row c then keep (fun r => negb (cond r))
     else map (fun r => if cond r then removed_row (sd_xid db) c r else r)) db1 in
  (Z.of_nat (length hit), Z.of_nat (length (keep gone (sd_losses db))), db2).

(** ** Facts: the text functions *)

#[export] Instance Kind_eq_dec : EqDecision Kind.
Proof. solve_decision. Defined.

Definition ascii_text (s : string) : bool := sforallb (fun c => byte_of c <? 128) s.

Lemma chars_ascii c s : ascii_text (String c s) = true -> chars (String c s) = String c "" :: chars s.
Proof.
  unfold ascii_text. cbn [sforallb]. intros [_ Hs]%andb_true_iff. cbn [chars].
  destruct s as [|d s]; [done|]. cbn [sforallb] in Hs. apply andb_true_iff in Hs as [Hd%Z.ltb_lt _].
  assert (G : exists k l, chars (String d s) = String d k :: l).
  { clear. cbn [chars]. destruct (chars s) as [|k l]; [by eexists _, _|].
    by destruct (continues k); eexists _, _. }
  destruct G as (k & l & ->). cbn [continues]. by rewrite (proj2 (Z.leb_gt _ _)).
Qed.

Lemma ascii_text_tail c s : ascii_text (String c s) = true -> ascii_text s = true.
Proof. unfold ascii_text. cbn [sforallb]. by intros [_ ?]%andb_true_iff. Qed.

Lemma sconcat_chars s : sconcat (chars s) = s.
Proof.
  induction s as [|c s IH]; [done|]. cbn [chars]. destruct (chars s) as [|k l].
  - cbn in *. by subst.
  - destruct (continues k); cbn [sconcat fold_right]; rewrite <- IH; done.
Qed.

Lemma sql_left_ascii n s : ascii_text s = true -> sql_left n s = stake n s.
Proof.
  unfold sql_left. revert n. induction s as [|c s IH]; intros [|n] H; [done..|].
  rewrite chars_ascii by done. cbn [take sconcat fold_right stake].
  change (String c "" +:+ ?x) with (String c x). f_equal. apply IH.
  by apply ascii_text_tail in H.
Qed.

Lemma sql_from_ascii n s : ascii_text s = true -> sconcat (drop n (chars s)) = sdrop n s.
Proof.
  revert n. induction s as [|c s IH]; intros [|n] H; [done..| |].
  - by rewrite drop_0, sconcat_chars.
  - rewrite chars_ascii by done. cbn [drop sdrop]. apply IH. by apply ascii_text_tail in H.
Qed.

Lemma prefix_stake p s : HasPrefix s p = String.eqb (stake (String.length p) s) p.
Proof.
  unfold HasPrefix. revert s. induction p as [|c p IH]; intros s; [by destruct s|].
  destruct s as [|d s]; [done|]. cbn [String.prefix String.length stake String.eqb].
  destruct (ascii_dec c d) as [->|Hn].
  - by rewrite Ascii.eqb_refl, IH.
  - rewrite (proj2 (Ascii.eqb_neq d c)) by congruence. done.
Qed.

Lemma re_plus_spec p k s : re_plus p k s = true <->
  exists a r, s = a +:+ r /\ a <> "" /\ sforallb p a = true /\ k r = true.
Proof.
  induction s as [|c s IH]; cbn [re_plus].
  - split; [done|]. intros ([|? ?] & r & H & Ha & _); done.
  - rewrite andb_true_iff, orb_true_iff, IH. split.
    + intros [Hc [Hk|(a & r & -> & Ha & Hp & Hk)]].
      * exists (String c ""), s. cbn. by rewrite Hc.
      * exists (String c a), r. cbn [sforallb]. by rewrite Hc.
    + intros ([|d a] & r & H & Ha & Hp & Hk); [done|]. injection H as -> ->.
      cbn [sforallb] in Hp. apply andb_true_iff in Hp as [Hd Hp]. split; [done|].
      destruct a as [|e a]; [by left|]. right. by exists (String e a), r.
Qed.

Lemma Split_join sep s : join (String sep "") (Split sep s) = s.
Proof.
  induction s as [|c s IH]; [done|]. cbn [Split].
  pose proof (Split_nonempty sep s) as Hn. destruct (Ascii.eqb_spec c sep) as [->|Hne].
  - destruct (Split sep s) as [|x l] eqn:E; [done|]. cbn [join] in *. by rewrite IH.
  - destruct (Split sep s) as [|x [|y l]] eqn:E; [done| |]; cbn [join] in *; by rewrite <- IH.
Qed.

Lemma b64url_not_colon s : sforallb b64url_char s = true ->
  sforallb (fun c => negb (Ascii.eqb c ":")) s = true.
Proof.
  apply sforallb_impl. intros c H. destruct (Ascii.eqb_spec c ":") as [->|]; [by vm_compute in H|done].
Qed.

(** The shape the regular expression demands, by the fields between colons. *)
Lemma envelope_re_fields s : envelope_re s =
  match Split ":" s with
  | [a; b; c] => allDigits a && allDigits b && negb (String.eqb c "") && sforallb b64url_char c
  | _ => false
  end.
Proof.
  apply eq_true_iff_eq. unfold envelope_re. split.
  - intros (a & r & -> & Ha & Hpa & Hr)%re_plus_spec. destruct r as [|c r]; [done|].
    cbn [re_char] in Hr. apply andb_true_iff in Hr as [Hc%Ascii.eqb_eq Hr]. subst c.
    apply re_plus_spec in Hr as (b & r2 & -> & Hb & Hpb & Hr). destruct r2 as [|c r2]; [done|].
    cbn [re_char] in Hr. apply andb_true_iff in Hr as [Hc%Ascii.eqb_eq Hr]. subst c.
    apply re_plus_spec in Hr as (x & r3 & -> & Hx & Hpx & He%String.eqb_eq). subst r3.
    rewrite !Split_app by by apply digits_no_colon.
    rewrite app_nil_str.
    rewrite Split_none by by apply b64url_not_colon.
    unfold allDigits. rewrite Hpa, Hpb, Hpx. by rewrite !(proj2 (String.eqb_neq _ _)).
  - pose proof (Split_join ":" s) as Hj. destruct (Split ":" s) as [|a [|b [|c [|]]]]; try done.
    cbn [join] in Hj. intros [[[Ha Hb]%andb_true_iff Hc%negb_true_iff]%andb_true_iff Hpc]%andb_true_iff.
    unfold allDigits in Ha, Hb. apply andb_true_iff in Ha as [Ha%negb_true_iff Hpa], Hb as [Hb%negb_true_iff Hpb].
    apply re_plus_spec. exists a, (String ":" (b +:+ String ":" c)). split_and!; [by rewrite <- Hj| |done|].
    { by intros ->. }
    cbn [re_char]. change (Ascii.eqb ":" ":") with true. apply re_plus_spec.
    exists b, (String ":" c). split_and!; [done|by intros ->|done|].
    cbn [re_char]. change (Ascii.eqb ":" ":") with true. apply re_plus_spec.
    exists c, "". split_and!; [|by intros ->|done|done].
    by rewrite app_nil_str.
Qed.

Lemma sql_char_ascii i s : ascii_text s = true -> nth i (chars s) "" =
  match String.get i s with Some c => String c "" | None => "" end.
Proof.
  revert i. induction s as [|c s IH]; intros i H; [by destruct i|].
  rewrite chars_ascii by done. destruct i as [|i]; [done|]. cbn [nth String.get].
  apply IH. by apply ascii_text_tail in H.
Qed.

(** Six places of one character each: their mismatches are the bytes that differ. *)
Lemma mismatches_ascii s : ascii_text s = true -> 6 <= slen s ->
  mismatch 1 s + mismatch 2 s + mismatch 3 s + mismatch 4 s + mismatch 5 s + mismatch 6 s =
  differences Marker s.
Proof.
  intros Ha Hl. unfold mismatch, sql_char. cbn [Nat.sub]. rewrite !(sql_char_ascii _ s) by done.
  rewrite !(sql_char_ascii _ Marker) by done. clear Ha.
  destruct s as [|c1 [|c2 [|c3 [|c4 [|c5 [|c6 s]]]]]]; cbn in Hl; try lia.
  cbn [String.get Marker differences String.eqb].
  rewrite !(Ascii.eqb_sym _ "p"), !(Ascii.eqb_sym _ "d"), !(Ascii.eqb_sym _ "e"), !(Ascii.eqb_sym _ "n"),
    !(Ascii.eqb_sym _ "c"), !(Ascii.eqb_sym _ ":").
  repeat (destruct (Ascii.eqb _ _)); lia.
Qed.

Lemma differences_stake p s : (String.length p <= String.length s)%nat ->
  differences p s = 0 -> stake (String.length p) s = p.
Proof.
  assert (P : forall p s, 0 <= differences p s).
  { clear. intros p. induction p as [|c p IH]; intros [|d s]; cbn; try lia.
    specialize (IH s). destruct (Ascii.eqb c d); lia. }
  revert s. induction p as [|c p IH]; intros [|d s] Hl; cbn in *; try lia; try done.
  specialize (P p s). destruct (Ascii.eqb_spec c d) as [->|]; [|lia]. intros H.
  rewrite IH; [done|lia|lia].
Qed.

(** Telling an encrypted value from a plain one, in SQL and in Go. *)
Lemma DamagedSQL_ascii s : ascii_text s = true ->
  DamagedSQL s = negb (HasPrefix s Marker) && damagedMarker s.
Proof.
  intros Ha. unfold DamagedSQL, damagedMarker, sealedPrefix.
  change (slen Marker + 5) with 11.
  rewrite sql_left_ascii, prefix_stake by done. change (String.length Marker) with 6%nat.
  destruct (Z.ltb_spec (slen s) 11) as [Hl|Hl].
  { rewrite (proj2 (Z.leb_gt 11 (slen s))) by lia. by rewrite !andb_false_r. }
  rewrite (proj2 (Z.leb_le 11 (slen s))), andb_true_r by lia.
  rewrite mismatches_ascii by (done || lia).
  unfold sql_from. change (7 - 1)%nat with 6%nat. rewrite sql_from_ascii, envelope_re_fields by done.
  destruct (differences Marker s =? 1); cbn [negb]; [by rewrite andb_true_r|by rewrite !andb_false_r].
Qed.

Lemma sealed_ascii s : ascii_text s = true ->
  sealedOrDamaged s = bool_decide (Classify s = KindSealed).
Proof.
  intros Ha. unfold sealedOrDamaged. rewrite DamagedSQL_ascii by done. unfold sealedPrefix, Classify.
  rewrite sql_left_ascii by done. change 6%nat with (String.length Marker). rewrite <- prefix_stake.
  destruct (String.eqb_spec s "") as [->|]; [done|].
  destruct (HasPrefix s Marker); [done|]. cbn. by destruct (damagedMarker s).
Qed.

(** The database and the application tell encrypted values from plain ones
    alike, as long as the text is ASCII: the rows a decryption or a removal
    selects are the ones [Classify] calls sealed, the rows a conversion selects
    are the ones it calls plain. *)
Theorem selectors_classify s retire : ascii_text s = true ->
  selector PassDecrypt retire (Some s) = bool_decide (Classify s = KindSealed) /\
  selector PassConvert retire (Some s) = bool_decide (Classify s = KindPlain).
Proof.
  intros Ha. unfold selector, on_text. split; [by apply sealed_ascii|].
  pose proof (sealed_ascii s Ha) as Hs. unfold sealedOrDamaged in Hs.
  rewrite <- andb_assoc, <- negb_orb, Hs. unfold Classify.
  destruct (String.eqb s ""); [done|]. destruct (HasPrefix s Marker); [done|].
  by destruct (damagedMarker s).
Qed.

(** A value in which a letter of two bytes takes the place of one of the marker
    is plain to the application and damaged to the database, which counts
    characters. *)
Lemma selectors_disagree_beyond_ascii :
  let s := String (char 195) (String (char 169) "denc:1:1:abc") in
  Classify s = KindPlain /\ selector PassDecrypt 0 (Some s) = true /\
  selector PassConvert 0 (Some s) = false.
Proof. by vm_compute. Qed.

(** *** The status report *)

Lemma by_dek_sum vs :
  map_fold (fun _ n acc => n + acc) 0 (by_dek vs) = Z.of_nat (length (keep (on_text sealedPrefix) vs)).
Proof.
  induction vs as [|v vs IH]; [done|]. unfold keep. cbn [by_dek fold_right List.filter].
  fold (by_dek vs). destruct v as [s|]; cbn [on_text]; [|exact IH].
  destruct (sealedPrefix s); [|exact IH]. cbn [length].
  set (k := split_part s ":" 3). rewrite Nat2Z.inj_succ. fold (keep (on_text sealedPrefix) vs). rewrite <- IH.
  destruct (by_dek vs !! k) as [n|] eqn:E.
  - rewrite (map_fold_delete_L _ _ k n (by_dek vs)) by (intros; lia || done).
    rewrite <- (insert_delete_eq (by_dek vs)).
    rewrite map_fold_insert_L by (intros; lia || by rewrite lookup_delete_eq). cbn [default from_option id]. lia.
  - rewrite map_fold_insert_L by (intros; lia || done). cbn [default from_option id]. lia.
Qed.

(** The status report counts every row of a column once: empty, plain,
    encrypted and malformed add up to the rows of the table, and the counts by
    data key to the encrypted ones.  Nothing is sealed exactly when no column
    has an encrypted or a malformed value. *)
Theorem status_partition db :
  Forall (fun c =>
    let s := read_column db c in
    cs_Empty s + cs_Plain s + cs_Encrypted s + cs_Malformed s = Z.of_nat (length (rows db (sc_Table c))) /\
    map_fold (fun _ n acc => n + acc) 0 (cs_ByDEK s) = cs_Encrypted s) Inventory /\
  countSealed db = sum_over cs_Encrypted (read_columns db) + MalformedTotal (read_columns db).
Proof.
  assert (P : forall s, DamagedSQL s = true -> sealedPrefix s = false /\ s <> "").
  { intros s. unfold DamagedSQL. intros H. zbool. split; [done|]. intros ->. by cbn in *. }
  assert (Q : sealedPrefix "" = false) by done.
  assert (S : forall c, count_where (on_text sealedOrDamaged) db c =
    cs_Encrypted (read_column db c) + cs_Malformed (read_column db c)).
  { intros c. cbn. unfold count_where, sealedOrDamaged. induction (rows db (sc_Table c)) as [|r l IH]; [done|].
    unfold keep in *. cbn [List.filter]. destruct (value (sc_Column c) r) as [s|]; cbn [on_text]; [|exact IH].
    destruct (sealedPrefix s) eqn:E1, (DamagedSQL s) eqn:E2; cbn [orb length];
      try (apply P in E2 as [E2 _]; congruence); lia. }
  split.
  - apply Forall_forall. intros c _. cbv zeta. split.
    + cbn. unfold count_where. induction (rows db (sc_Table c)) as [|r l IH]; [done|].
      unfold keep in *. cbn [List.filter]. destruct (value (sc_Column c) r) as [s|]; cbn [on_text];
        [|cbn [length]; lia].
      destruct (String.eqb_spec s "") as [->|Hs]; cbn [negb andb].
      { rewrite Q. cbn [length]. destruct (DamagedSQL "") eqn:E; [by vm_compute in E|]. lia. }
      destruct (sealedPrefix s) eqn:E1, (DamagedSQL s) eqn:E2; cbn [negb andb length];
        try (apply P in E2 as [E2 _]; congruence); lia.
    + cbn. rewrite by_dek_sum. unfold count_where. f_equal.
      induction (rows db (sc_Table c)) as [|r l IH]; [done|]. unfold keep in *. cbn [map List.filter].
      destruct (on_text sealedPrefix (value (sc_Column c) r)); cbn [length]; by rewrite IH.
  - unfold countSealed, MalformedTotal, read_columns. induction Inventory as [|c l IH]; [done|].
    cbn [sum_over fold_right map] in *. rewrite S. unfold sum_over in *. lia.
Qed.

Lemma selectors_classify_witness :
  selector PassConvert 0 (Some "token") = bool_decide (Classify "token" = KindPlain).
Proof. by apply (selectors_classify "token" 0). Defined.
