(* ===== verification/EncryptionOps.v ===== *)
(** * Batch passes over the stored secrets

    [storage/encryption_ops.go]: the conversion of plain values, the re-encryption
    under a new data key and the decryption of everything, row by row in batches
    with a cursor and a compare-and-set on the row's version; the lost-key reset;
    the deletion of the data keys; the checks of the downgrade.

    A pass runs in a small state monad whose state is the database, the result so
    far and the seals counted.  Other sessions may change the database between
    the SELECT of a batch and its UPDATEs: that change is an argument. *)

From S2P Require Import Prelude GoInt GoTime GoText GoEncoding LinkStore SecretBox EncryptionKeys SecretStore.

#[local] Open Scope string_scope.
#[local] Open Scope list_scope.
#[local] Open Scope Z_scope.

(** ** Results *)

Record Failure := { f_Column : string; f_Row : string; f_DEK : string; f_Reason : string }.

Record PassResult := {
  Counts : gmap string (gmap string Z);
  Failures : list Failure;
  LossesCleared : Z;
  Remaining : Z;
  Partial : bool;
}.

Definition empty_result : PassResult :=
  {| Counts := ∅; Failures := []; LossesCleared := 0; Remaining := 0; Partial := false |}.

Definition set_result_counts (c : gmap string (gmap string Z)) (r : PassResult) : PassResult :=
  {| Counts := c; Failures := Failures r; LossesCleared := LossesCleared r;
     Remaining := Remaining r; Partial := Partial r |}.

(** [PassResult.add]. *)
Definition add (col verb : string) (n : Z) (r : PassResult) : PassResult :=
  if n =? 0 then r
  else let m : gmap string Z := default ∅ (Counts r !! col) in
       set_result_counts (<[col := <[verb := default 0 (m !! verb) + n]> m]> (Counts r)) r.

(** [PassResult.Total]. *)
Definition Total (verb : string) (r : PassResult) : Z :=
  map_fold (fun _ (m : gmap string Z) n => default 0 (m !! verb) + n) 0 (Counts r).

(** [PassResult.fail]: once per row and column. *)
Definition fail (f : Failure) (r : PassResult) : PassResult :=
  if existsb (fun g => String.eqb (f_Column g) (f_Column f) && String.eqb (f_Row g) (f_Row f)) (Failures r)
  then r
  else let r1 := add (f_Column f) "skipped" 1 r in
       {| Counts := Counts r1; Failures := Failures r1 ++ [f]; LossesCleared := LossesCleared r1;
          Remaining := Remaining r1; Partial := Partial r1 |}.

Definition add_losses (n : Z) (r : PassResult) : PassResult :=
  {| Counts := Counts r; Failures := Failures r; LossesCleared := LossesCleared r + n;
     Remaining := Remaining r; Partial := Partial r |}.

Definition partial (n : Z) (r : PassResult) : PassResult :=
  {| Counts := Counts r; Failures := Failures r; LossesCleared := LossesCleared r;
     Remaining := Remaining r + n; Partial := true |}.

(** ** The state of a pass *)

(** How a value is sealed: with its binding, its text, fresh random bytes, and
    the counts of the process. *)
Definition Sealer := Binding -> string -> string -> counts -> res KeyError string * counts.

Record PassOptions := {
  po_Kind : PassKind;
  po_Batch : Z;
  po_Keyring : option Keyring;
  po_Seal : option Sealer;
  po_Retire : Z;
  po_EmptyUndecryptable : bool;
  po_MaxSweeps : Z;
}.

Record PassState := {
  ps_db : SecretDB;
  ps_res : PassResult;
  ps_counts : counts;
  ps_batches : nat;          (** batches begun *)
  ps_seals : nat;            (** random nonces used *)
}.

Definition with_db (db : SecretDB) (s : PassState) : PassState :=
  {| ps_db := db; ps_res := ps_res s; ps_counts := ps_counts s; ps_batches := ps_batches s;
     ps_seals := ps_seals s |}.
Definition with_res (f : PassResult -> PassResult) (s : PassState) : PassState :=
  {| ps_db := ps_db s; ps_res := f (ps_res s); ps_counts := ps_counts s;
     ps_batches := ps_batches s; ps_seals := ps_seals s |}.
Definition with_seal (c : counts) (s : PassState) : PassState :=
  {| ps_db := ps_db s; ps_res := ps_res s; ps_counts := c; ps_batches := ps_batches s;
     ps_seals := S (ps_seals s) |}.
Definition next_batch (s : PassState) : PassState :=
  {| ps_db := ps_db s; ps_res := ps_res s; ps_counts := ps_counts s;
     ps_batches := S (ps_batches s); ps_seals := ps_seals s |}.

Inductive PassError :=
| ErrDatabase                        (** a statement, a commit or the context failed *)
| ErrSeal (column : string) (e : KeyError)
| ErrFuel.                           (** more batches than the fuel; never with enough of it *)

(** The monad of a pass. *)
Definition PM (A : Type) : Type := PassState -> res PassError A * PassState.
Definition pret {A} (a : A) : PM A := fun s => (Ok a, s).
Definition perr {A} (e : PassError) : PM A := fun s => (Err e, s).
Definition pbind {A B} (m : PM A) (k : A -> PM B) : PM B :=
  fun s => match m s with (Ok a, s1) => k a s1 | (Err e, s1) => (Err e, s1) end.
Definition pmod (f : PassState -> PassState) : PM unit := fun s => (Ok tt, f s).

Declare Scope pass_scope.
Delimit Scope pass_scope with pass.
Notation "x <~ m ;; k" := (pbind m (fun x => k))
  (at level 100, m at next level, right associativity) : pass_scope.
#[local] Open Scope pass_scope.

(** ** One row *)

(** A selected row: its identity, its value ([""] for NULL) and its version. *)
Record passRow := { pr_ids : list string; pr_value : string; pr_xmin : Z }.

Definition pass_row (c : SecretColumn) (r : SRow) : passRow :=
  {| pr_ids := s_ids r; pr_value := default "" (value (sc_Column c) r); pr_xmin := s_xmin r |}.

Definition same_ids (ids : list string) (r : SRow) : bool := bool_decide (s_ids r = ids).

(** [UPDATE ... WHERE identity AND xmin]: whether a row was updated. *)
Definition compare_and_set (c : SecretColumn) (r : passRow) (v : string) (db : SecretDB)
    : bool * SecretDB :=
  let hit x := same_ids (pr_ids r) x && (s_xmin x =? pr_xmin r) in
  (existsb hit (rows db (sc_Table c)),
   set_rows (sc_Table c)
     (map (fun x => if hit x then set_value (sd_xid db) (sc_Column c) v x else x)) db).

Definition failure (c : SecretColumn) (r : passRow) (dek reason : string) : Failure :=
  {| f_Column := Name c; f_Row := RowString (BindingOf c (pr_ids r)); f_DEK := dek; f_Reason := reason |}.

(** Whether the row was updated, lost to another session, or neither. *)
Inductive RowOutcome := Updated | Concurrent | Neither.

(** The keyset of a batch: the rows after the cursor, in the order of the table. *)
Section Passes.
Context {A : AEAD}.
(** What other sessions commit between the SELECT and the UPDATEs of batch [n];
    whether the statements and the commit of batch [n] succeed; the random
    bytes; the order of identities in a table. *)
Context (others : nat -> SecretDB -> SecretDB) (statements commits : nat -> bool)
  (nonce : nat -> string) (before : string -> list string -> list string -> bool).

Definition seal_value (opt : PassOptions) (c : SecretColumn) (b : Binding) (p : string) : PM string :=
  fun s =>
    match po_Seal opt with
    | None => (Err (ErrSeal (Name c) ErrNoKeyring), s)
    | Some f =>
        match f b p (nonce (ps_seals s)) (ps_counts s) with
        | (Ok v, n) => (Ok v, with_seal n s)
        | (Err e, n) => (Err (ErrSeal (Name c) e), with_seal n s)
        end
    end.

Definition store (c : SecretColumn) (r : passRow) (v verb : string) : PM RowOutcome :=
  fun s =>
    let '(hit, db) := compare_and_set c r v (ps_db s) in
    if hit then (Ok Updated, with_res (add (Name c) verb 1) (with_db db s))
    else (Ok Concurrent, s).

Definition remove_row (c : SecretColumn) (r : passRow) : PM RowOutcome :=
  fun s =>
    let '(n, losses, db) :=
      removeSealedValues c (fun ids => bool_decide (ids = pr_ids r)) (ps_db s) in
    (Ok Neither, with_res (fun x => add (Name c) "emptied" n (add_losses losses x)) (with_db db s)).

(** The body of the loop over the rows of a batch. *)
Definition process_row (opt : PassOptions) (c : SecretColumn) (r : passRow) : PM RowOutcome :=
  let b := BindingOf c (pr_ids r) in
  match po_Kind opt with
  | PassConvert =>
      match Classify (pr_value r) with
      | KindPlain => v <~ seal_value opt c b (pr_value r) ;; store c r v "encrypted"
      | _ => _ <~ pmod (with_res (fail (failure c r "-" (reason_text ReasonMalformed)))) ;; pret Neither
      end
  | kind =>
      match Open (po_Keyring opt) b (pr_value r) with
      | Err de =>
          match kind, po_EmptyUndecryptable opt with
          | PassDecrypt, true => remove_row c r
          | _, _ =>
              _ <~ pmod (with_res (fail (failure c r
                (if 0 <? de_DEK de then itoa (de_DEK de) else "-") (reason_text (de_Reason de))))) ;;
              pret Neither
          end
      | Ok plain =>
          match kind with
          | PassDecrypt => store c r plain "decrypted"
          | _ => v <~ seal_value opt c b plain ;; store c r v "reencrypted"
          end
      end
  end.

Fixpoint process_rows (opt : PassOptions) (c : SecretColumn) (rs : list passRow) : PM (Z * Z) :=
  match rs with
  | [] => pret (0, 0)
  | r :: rest =>
      o <~ process_row opt c r ;;
      uc <~ process_rows opt c rest ;;
      pret (match o with
            | Updated => (uc.1 + 1, uc.2) | Concurrent => (uc.1, uc.2 + 1) | Neither => uc end)
  end.

(** ** A batch *)

(** [batchQuery]: the selected rows after the cursor, at most a batch. *)
Definition select_batch (opt : PassOptions) (c : SecretColumn) (cursor : option (list string))
    (db : SecretDB) : list passRow :=
  map (pass_row c)
    (take (Z.to_nat (po_Batch opt))
       (keep (fun r => selector (po_Kind opt) (po_Retire opt) (value (sc_Column c) r) &&
                       match cursor with
                       | Some k => before (sc_Table c) k (s_ids r) | None => true end)
             (rows db (sc_Table c)))).

(** [runBatch]: one transaction.  A failure rolls the rows back, not the result. *)
Definition runBatch (opt : PassOptions) (c : SecretColumn) (cursor : option (list string))
    : PM (list passRow * Z * Z) :=
  fun s0 =>
    let n := ps_batches s0 in
    let s := next_batch s0 in
    let base := others n (ps_db s) in
    if negb (statements n) then (Err ErrDatabase, with_db base s)
    else
      let rs := select_batch opt c cursor (ps_db s) in
      match process_rows opt c rs (with_db base s) with
      | (Err e, s1) => (Err e, with_db base s1)
      | (Ok (u, k), s1) =>
          if commits n then (Ok (rs, u, k), with_db (next_xid (ps_db s1)) s1)
          else (Err ErrDatabase, with_db base s1)
      end.

(** [sweepColumn]: the rows updated, and those that changed in between. *)
Fixpoint sweepColumn (fuel : nat) (opt : PassOptions) (c : SecretColumn)
    (cursor : option (list string)) : PM (Z * Z) :=
  match fuel with
  | O => perr ErrFuel
  | S f =>
      b <~ runBatch opt c cursor ;;
      let '(rs, u, k) := b in
      if Z.of_nat (length rs) <? po_Batch opt then pret (u, k)
      else uk <~ sweepColumn f opt c (match last rs with Some r => Some (pr_ids r) | None => cursor end) ;;
           pret (u + uk.1, k + uk.2)
  end.

(** [countRemaining]. *)
Definition countRemaining (opt : PassOptions) (c : SecretColumn) (db : SecretDB) : Z :=
  count_where (selector (po_Kind opt) (po_Retire opt)) db c.

(** [runColumn]; [sweeps] more sweeps are allowed after this one. *)
Fixpoint column_sweeps (fuel sweeps : nat) (opt : PassOptions) (c : SecretColumn) : PM unit :=
  uk <~ sweepColumn fuel opt c None ;;
  if (uk.1 =? 0) && (uk.2 =? 0) then pret tt
  else match sweeps with
  | O => fun s =>
      let n := countRemaining opt c (ps_db s) in
      (Ok tt, if 0 <? n then with_res (partial n) s else s)
  | S k => column_sweeps fuel k opt c
  end.

Definition runColumn (fuel : nat) (opt : PassOptions) (c : SecretColumn) : PM unit :=
  column_sweeps fuel (Z.to_nat (po_MaxSweeps opt - 1)) opt c.

Fixpoint run_columns (fuel : nat) (opt : PassOptions) (cs : list SecretColumn) : PM unit :=
  match cs with
  | [] => pret tt
  | c :: r => _ <~ runColumn fuel opt c ;; run_columns fuel opt r
  end.

(** The defaults of [RunPass]. *)
Definition defaulted (opt : PassOptions) : PassOptions :=
  {| po_Kind := po_Kind opt;
     po_Batch := if po_Batch opt <=? 0 then 100 else po_Batch opt;
     po_Keyring := po_Keyring opt;
     po_Seal := match po_Seal opt, po_Keyring opt with
                | None, Some k => Some (SealActive k)
                | f, _ => f
                end;
     po_Retire := po_Retire opt;
     po_EmptyUndecryptable := po_EmptyUndecryptable opt;
     po_MaxSweeps := if po_MaxSweeps opt <=? 0 then 3 else po_MaxSweeps opt |}.

(** [RunPass]: what it did, even when it fails. *)
Definition RunPass (fuel : nat) (opt : PassOptions) (c : counts) (db : SecretDB)
    : res PassError unit * PassState :=
  run_columns fuel (defaulted opt) Inventory
    {| ps_db := db; ps_res := empty_result; ps_counts := c; ps_batches := 0; ps_seals := 0 |}.

(** ** The lost-key reset and the end of encryption *)

(** The database of the operator: the secrets and the keys. *)
Record Store := { st_secrets : SecretDB; st_keys : KeyDB }.

Definition reset_verb (c : SecretColumn) : string :=
  if deletes_row c then "deleted"
  else if String.eqb (sc_Table c) "personal_calendars" then "disabled" else "emptied".

Fixpoint reset_columns (cs : list SecretColumn) (res : PassResult) (db : SecretDB)
    : PassResult * SecretDB :=
  match cs with
  | [] => (res, db)
  | c :: r =>
      let '(n, losses, db1) := removeSealedValues c (fun _ => true) db in
      reset_columns r (add (Name c) (reset_verb c) n (add_losses losses res)) db1
  end.

(** [ResetLostKey]: one transaction; the result, the keys removed, the key made. *)
Definition ResetLostKey (cfg : KeyConfig) (commit : bool) (rnd : Random) (now : Z) (st : Store)
    : res OpError (PassResult * list Z * Z) * Store :=
  let '(res, db1) := reset_columns Inventory empty_result (st_secrets st) in
  let '(removed, k1) := deleteDataKeys (st_keys st) in
  match insertDataKey (Active cfg) rnd now k1 with
  | (Err e, k2) => (Err e, {| st_secrets := st_secrets st; st_keys := rolled_back (st_keys st) k2 |})
  | (Ok w, k2) =>
      if commit
      then (Ok (res, removed, w_ID w), {| st_secrets := next_xid db1; st_keys := k2 |})
      else (Err ErrStorageKeys, {| st_secrets := st_secrets st; st_keys := rolled_back (st_keys st) k2 |})
  end.

(** [DeleteAllDataKeysIfUnused]. *)
Definition DeleteAllDataKeysIfUnused (commit : bool) (st : Store)
    : res OpError (list Z * bool) * Store :=
  if 0 <? countSealed (st_secrets st) then (Ok ([], false), st)
  else
    let '(ids, k1) := deleteDataKeys (st_keys st) in
    if commit then (Ok (ids, true), {| st_secrets := st_secrets st; st_keys := k1 |})
    else (Err ErrStorageKeys, st).

(** [DowngradeCheck]: whether the down step may run. *)
Definition DowngradeCheck (st : Store) : bool :=
  negb ((0 <? Z.of_nat (length (kd_keys (st_keys st)))) || (0 <? countSealed (st_secrets st))).

(** ** Data keys in the status report *)

(** [DataKeyStatus.RotateDue]. *)
Definition RotateDue (r : KeyRow) (now : Z) : bool :=
  is_active r && ((365 * 24 * Hour <? now - kr_Created r) || (SealAdvisory <=? kr_Sealed r)).

(** The values under each data key, by the counts of the columns. *)
Definition values_of (cs : list ColumnStatus) (dek : Z) : Z :=
  sum_over (fun c => default 0 (cs_ByDEK c !! itoa dek)) cs.

(** [ReadEncryptionStatus]: the columns, the data keys with their values, the live
    heartbeats. *)
Definition ReadEncryptionStatus (st : Store) (now : Z)
    : list ColumnStatus * list (KeyRow * Z) * list Heartbeat :=
  let cs := read_columns (st_secrets st) in
  (cs, map (fun r => (r, values_of cs (kr_ID r))) (order_by kr_ID (kd_keys (st_keys st))),
   LiveHeartbeats now (st_keys st)).
End Passes.

(** ** Facts: rows *)

#[export] Instance SRow_eq_dec : EqDecision SRow.
Proof. solve_decision. Defined.

Lemma rows_set_rows t f db t' : rows (set_rows t f db) t' = if decide (t = t') then f (rows db t) else rows db t'.
Proof.
  unfold rows at 1, set_rows. cbn [sd_tables]. destruct (decide (t = t')) as [<-|Hne].
  - by rewrite lookup_insert_eq.
  - by rewrite lookup_insert_ne.
Qed.

Lemma value_set_value xid col v r col' :
  value col' (set_value xid col v r) = if decide (col = col') then Some v else value col' r.
Proof.
  unfold value, set_value. cbn [s_cols]. destruct (decide (col = col')) as [<-|Hne].
  - by rewrite lookup_insert_eq.
  - by rewrite lookup_insert_ne.
Qed.

Lemma Forall2_map_l {X Y} (R : X -> Y -> Prop) (f : X -> Y) l :
  (forall x, x ∈ l -> R x (f x)) -> Forall2 R l (map f l).
Proof.
  induction l as [|x l IH]; intros H; constructor; [apply H; left|].
  apply IH. intros y Hy. apply H. by right.
Qed.

Lemma Forall2_trans_cond {X} (R S T : X -> X -> Prop) (a b c : list X) :
  (forall x y z, x ∈ a -> R x y -> S y z -> T x z) -> Forall2 R a b -> Forall2 S b c -> Forall2 T a c.
Proof.
  intros H HR. revert c. induction HR as [|x y a b Hxy _ IH]; intros c HS; inversion_clear HS; constructor.
  - eapply H; [left|done|done].
  - apply IH; [|done]. intros u v w Hu. apply H. by right.
Qed.

Lemma Forall2_self {X} (R : X -> X -> Prop) l : (forall x, x ∈ l -> R x x) -> Forall2 R l l.
Proof. intros H. rewrite <- (map_id l) at 2. by apply Forall2_map_l. Qed.

Lemma pbind_Ok {X Y} (m : PM X) (k : X -> PM Y) s y s' :
  pbind m k s = (Ok y, s') -> exists x s1, m s = (Ok x, s1) /\ k x s1 = (Ok y, s').
Proof. unfold pbind. destruct (m s) as [[x|e] s1]; [|done]. intros H. by exists x, s1. Qed.

Section PassFacts.
Context {A : AEAD} {L : AEADLaws A}.
Context (others : nat -> SecretDB -> SecretDB) (statements commits : nat -> bool)
  (nonce : nat -> string) (before : string -> list string -> list string -> bool).

(** The text a pass works on: [None] when it reports the row instead. *)
Definition plain_of (opt : PassOptions) (c : SecretColumn) (ids : list string) (v : string)
    : option string :=
  match po_Kind opt with
  | PassConvert => match Classify v with KindPlain => Some v | _ => None end
  | _ => match Open (po_Keyring opt) (BindingOf c ids) v with Ok p => Some p | Err _ => None end
  end.

(** What it may write for that text. *)
Definition good (opt : PassOptions) (b : Binding) (p w : string) : Prop :=
  match po_Kind opt with
  | PassDecrypt => w = p
  | _ => exists f n cs cs', po_Seal opt = Some f /\ f b p (nonce n) cs = (Ok w, cs')
  end.

Definition never_removes (opt : PassOptions) : Prop :=
  po_Kind opt = PassDecrypt -> po_EmptyUndecryptable opt = false.

(** A row written by a pass for the selected row [r]. *)
Definition written (opt : PassOptions) (c : SecretColumn) (r : passRow) (x x' : SRow) : Prop :=
  s_ids x = pr_ids r /\ s_xmin x = pr_xmin r /\
  exists xid p w, plain_of opt c (pr_ids r) (pr_value r) = Some p /\ good opt (BindingOf c (pr_ids r)) p w /\
    x' = set_value xid (sc_Column c) w x.

(** The database after the rows of one column were written. *)
Definition column_after (c : SecretColumn) (R : SRow -> SRow -> Prop) (d d' : SecretDB) : Prop :=
  sd_losses d' = sd_losses d /\
  (forall t, t <> sc_Table c -> rows d' t = rows d t) /\
  Forall2 R (rows d (sc_Table c)) (rows d' (sc_Table c)).

Lemma column_after_refl c (R : SRow -> SRow -> Prop) d : (forall x, R x x) -> column_after c R d d.
Proof. intros H. split_and!; try done. by apply Forall2_self. Qed.

Lemma compare_and_set_after c r v d :
  column_after c (fun x x' => x' = x \/ (s_ids x = pr_ids r /\ s_xmin x = pr_xmin r /\
    x' = set_value (sd_xid d) (sc_Column c) v x)) d (compare_and_set c r v d).2.
Proof.
  unfold compare_and_set. cbn [snd]. split_and!; [done| |].
  - intros t Ht. rewrite rows_set_rows, decide_False; done.
  - rewrite rows_set_rows, decide_True by done. apply Forall2_map_l. intros x _.
    unfold same_ids. destruct (bool_decide _) eqn:E1; cbn [andb]; [|by left].
    apply bool_decide_eq_true in E1.
    destruct (Z.eqb_spec (s_xmin x) (pr_xmin r)); [right|left]; done.
Qed.

Lemma process_row_after opt c r s o s' :
  never_removes opt -> process_row nonce opt c r s = (o, s') ->
  column_after c (fun x x' => x' = x \/ written opt c r x x') (ps_db s) (ps_db s').
Proof.
  intros Hnr.
  assert (Refl : forall s1, ps_db s1 = ps_db s ->
    column_after c (fun x x' => x' = x \/ written opt c r x x') (ps_db s) (ps_db s1)).
  { intros s1 ->. apply column_after_refl. by left. }
  assert (St : forall s1 p w verb o1 s2, ps_db s1 = ps_db s -> plain_of opt c (pr_ids r) (pr_value r) = Some p ->
    good opt (BindingOf c (pr_ids r)) p w -> store c r w verb s1 = (o1, s2) ->
    column_after c (fun x x' => x' = x \/ written opt c r x x') (ps_db s) (ps_db s2)).
  { intros s1 p w verb o1 s2 Hd Hp Hw. unfold store. rewrite Hd.
    pose proof (compare_and_set_after c r w (ps_db s)) as (C2 & C3 & C4).
    destruct (compare_and_set c r w (ps_db s)) as [hit d]. cbn [snd] in *.
    destruct hit; intros [= <- <-]; [|by apply Refl].
    cbn [with_res with_db ps_db]. split_and!; [done|done|].
    eapply Forall2_impl; [exact C4|]. intros x x' [->|(H1 & H2 & ->)]; [by left|right].
    split_and!; [done|done|]. by exists (sd_xid (ps_db s)), p, w. }
  assert (Se : forall p verb, plain_of opt c (pr_ids r) (pr_value r) = Some p -> po_Kind opt <> PassDecrypt ->
    pbind (seal_value nonce opt c (BindingOf c (pr_ids r)) p) (fun v => store c r v verb) s = (o, s') ->
    column_after c (fun x x' => x' = x \/ written opt c r x x') (ps_db s) (ps_db s')).
  { intros p verb Hp Hk. unfold pbind, seal_value. destruct (po_Seal opt) as [f|] eqn:Ef;
      [|by intros [= <- <-]; apply Refl].
    destruct (f _ _ _ _) as [[v|e] n] eqn:Es; [|by intros [= <- <-]; apply Refl].
    intros H. eapply St; [| |  |exact H]; [done|exact Hp|].
    unfold good. destruct (po_Kind opt); [| |done]; by exists f, (ps_seals s), (ps_counts s), n. }
  unfold process_row, plain_of in *. destruct (po_Kind opt) eqn:Ek.
  - destruct (Classify (pr_value r)) eqn:Ec; [by intros [= <- <-]; apply Refl| |by intros [= <- <-]; apply Refl].
    by apply Se.
  - destruct (Open _ _ _) as [p|de] eqn:Eo; [by apply Se|by intros [= <- <-]; apply Refl].
  - destruct (Open _ _ _) as [p|de] eqn:Eo.
    + apply (St s p p); [done|done|]. unfold good. by rewrite Ek.
    + rewrite (Hnr Ek). by intros [= <- <-]; apply Refl.
Qed.

(** The rows of a batch, whatever became of it. *)
Lemma process_rows_after opt c rs s o s' :
  never_removes opt -> NoDup (map pr_ids rs) -> process_rows nonce opt c rs s = (o, s') ->
  column_after c (fun x x' => x' = x \/ exists r, r ∈ rs /\ written opt c r x x')
    (ps_db s) (ps_db s').
Proof.
  intros Hnr. revert s o s'. induction rs as [|r rs IH]; intros s o s' Hnd; cbn [process_rows].
  { intros [= <- <-]. apply column_after_refl. by left. }
  cbn [map] in Hnd. apply NoDup_cons in Hnd as [Hni Hnd].
  unfold pbind. destruct (process_row nonce opt c r s) as [[o1|e] s1] eqn:E1.
  - apply process_row_after in E1 as (L1 & T1 & F1); [|done].
    destruct (process_rows nonce opt c rs s1) as [o2 s2] eqn:E2.
    apply IH in E2 as (L2 & T2 & F2); [|done].
    intros H. assert (ps_db s' = ps_db s2) as Hs.
    { destruct o2; [|by injection H as <- <-]. by injection H as <- <-. }
    rewrite Hs. split_and!; [congruence|intros t Ht; rewrite T2, T1; done|].
    eapply Forall2_trans_cond; [|exact F1|exact F2]. intros x y z _ H1 H2.
    destruct H1 as [->|Hw].
    + destruct H2 as [->|(r2 & Hr2 & Hw)]; [by left|right]. exists r2. split; [by right|done].
    + destruct H2 as [->|(r2 & Hr2 & Hw2)]; [right; exists r; split; [left|done]|exfalso].
      destruct Hw as (H1 & _ & xid & p & w & _ & _ & ->), Hw2 as (H2 & _). cbn [set_value s_ids] in H2.
      apply Hni. rewrite <- H1, H2. apply list_elem_of_In, in_map. by apply list_elem_of_In.
  - apply process_row_after in E1 as (L1 & T1 & F1); [|done]. intros [= <- <-].
    split_and!; [done|done|]. eapply Forall2_impl; [exact F1|].
    intros x x' [->|Hw]; [by left|right]. exists r. split; [left|done].
Qed.
End PassFacts.

(** *** The selected rows *)

Section Batches.
Context {A : AEAD} {L : AEADLaws A}.
Context (others : nat -> SecretDB -> SecretDB) (statements commits : nat -> bool)
  (nonce : nat -> string) (before : string -> list string -> list string -> bool).

(** A sealer whose values open with the keyring of the pass. *)
Definition seals_for (k : option Keyring) (f : Sealer) : Prop :=
  forall b p n cs w cs', f b p (nonce n) cs = (Ok w, cs') -> Open k b w = Ok p.

Lemma SealActive_seals_for k e :
  (forall n, String.length (nonce n) = NonceSize) -> dek_id (active k) ->
  deks k !! active k = Some e -> seals_for (Some k) (SealActive k).
Proof. intros Hn Hd He b p n cs w cs'. by apply (SealWith_opens k k (active k) _ _ _ _ _ _ e e). Qed.

Lemma plain_of_opens opt c ids v p : plain_of opt c ids v = Some p ->
  Open (po_Keyring opt) (BindingOf c ids) v = Ok p.
Proof.
  unfold plain_of. destruct (po_Kind opt).
  - unfold Open. destruct (Classify _); [done| |done]. by intros [= ->].
  - by destruct (Open _ _ _); [intros [= ->]|].
  - by destruct (Open _ _ _); [intros [= ->]|].
Qed.

Lemma NoDup_map_sublist {X Y} (f : X -> Y) l k : sublist l k -> NoDup (map f k) -> NoDup (map f l).
Proof.
  induction 1 as [|x l k H IH|x l k H IH]; [done| |].
  - cbn [map]. intros [Hx Hk]%NoDup_cons. apply NoDup_cons. split; [|by apply IH].
    intros (y & Ey & Hy)%list_elem_of_In%in_map_iff. apply Hx. rewrite <- Ey. apply list_elem_of_In, in_map.
    apply list_elem_of_In. apply list_elem_of_In in Hy. by eapply elem_of_sublist.
  - cbn [map]. intros [_ Hk]%NoDup_cons. by apply IH.
Qed.

Lemma select_batch_rows opt c cursor db :
  exists xs, select_batch before opt c cursor db = map (pass_row c) xs /\
    sublist xs (rows db (sc_Table c)) /\
    forall x, x ∈ xs -> selector (po_Kind opt) (po_Retire opt) (value (sc_Column c) x) = true.
Proof.
  unfold select_batch. eexists. split; [reflexivity|]. split.
  - etransitivity; [apply sublist_take|apply keep_sublist].
  - intros x Hx. apply elem_of_take in Hx as (i & Hi & _).
    by apply list_elem_of_lookup_2, elem_of_keep in Hi as [_ [? _]%andb_true_iff].
Qed.

Lemma selected_text kind retire v : selector kind retire v = true -> exists s, v = Some s.
Proof. destruct v as [s|]; [by exists s|done]. Qed.

(** A value replaced by one that means the same. *)
Definition same_meaning (opt : PassOptions) (c : SecretColumn) (x x' : SRow) : Prop :=
  x' = x \/ exists xid v w p,
    value (sc_Column c) x = Some v /\
    selector (po_Kind opt) (po_Retire opt) (Some v) = true /\
    x' = set_value xid (sc_Column c) w x /\
    Open (po_Keyring opt) (BindingOf c (s_ids x)) v = Ok p /\
    match po_Kind opt with
    | PassDecrypt => w = p
    | _ => Open (po_Keyring opt) (BindingOf c (s_ids x)) w = Ok p
    end.

(** C7: A batch that writes values never overwrites what another session wrote.
    The pass converts, re-encrypts, or decrypts without emptying what does not
    open: [never_removes].  (With --empty-undecryptable a value that does not open
    is removed by its place alone, without comparing versions, see
    [removal_takes_a_newer_value].)  Whatever other sessions commit between its
    SELECT and its UPDATEs, and however the batch ends, the rows afterwards are the
    rows they left, none lost and none added, except that a value the batch
    selected, and that is still the one it read, is replaced by one that opens to
    the same text at the same place (by that text, when decrypting); every other
    column and table is as they left it.  Rows have distinct identities, a row
    with the version the batch read has the columns it read, and the sealer seals
    for the keyring. *)
Theorem batch_no_lost_update opt c cursor s0 o s1 :
  let base := others (ps_batches s0) (ps_db s0) in
  never_removes opt ->
  NoDup (map s_ids (rows (ps_db s0) (sc_Table c))) ->
  (forall x y, x ∈ rows (ps_db s0) (sc_Table c) -> y ∈ rows base (sc_Table c) ->
     s_ids y = s_ids x -> s_xmin y = s_xmin x -> s_cols y = s_cols x) ->
  (forall f, po_Seal opt = Some f -> seals_for (po_Keyring opt) f) ->
  runBatch others statements commits nonce before opt c cursor s0 = (o, s1) ->
  sd_losses (ps_db s1) = sd_losses base /\
  (forall t, t <> sc_Table c -> rows (ps_db s1) t = rows base t) /\
  Forall2 (same_meaning opt c) (rows base (sc_Table c)) (rows (ps_db s1) (sc_Table c)) /\
  (forall e, o = Err e -> ps_db s1 = base).
Proof.
  intros base Hnr Hnd Hmvcc Hf. unfold runBatch. cbv zeta. change (ps_db (next_batch s0)) with (ps_db s0).
  change (others (ps_batches s0) (ps_db s0)) with base.
  assert (Refl : Forall2 (same_meaning opt c) (rows base (sc_Table c)) (rows base (sc_Table c))).
  { apply Forall2_self. by left. }
  destruct (statements (ps_batches s0)); cbn [negb]; [|by intros [= <- <-]].
  destruct (select_batch_rows opt c cursor (ps_db s0)) as (xs & Exs & Hsub & Hsel). rewrite Exs.
  destruct (process_rows nonce opt c (map (pass_row c) xs) (with_db base (next_batch s0)))
    as [[[u k]|e] s2] eqn:Ep; [|by intros [= <- <-]].
  destruct (commits (ps_batches s0)); [|by intros [= <- <-]]. intros [= <- <-].
  apply process_rows_after in Ep as (HL & HT & HF); [|done|].
  - cbn [with_db ps_db] in *. change (rows (next_xid (ps_db s2))) with (rows (ps_db s2)).
    split_and!; [done|done| |done]. clear Refl.
    assert (HI : forall x, x ∈ rows base (sc_Table c) -> x ∈ rows base (sc_Table c)) by done.
    revert HF HI. generalize (rows base (sc_Table c)) at 1 2 4. generalize (rows (ps_db s2) (sc_Table c)).
    intros l' l HF HI. induction HF as [|x x' l l' Hx _ IH]; constructor;
      [|apply IH; intros y Hy; apply HI; by right].
    destruct Hx as [->|(r & Hr & Hids & Hxm & xid & p & w & Hp & Hg & ->)]; [by left|right].
    apply list_elem_of_In, in_map_iff in Hr as (x0 & <- & Hx0). apply list_elem_of_In in Hx0.
    cbn [pass_row pr_ids pr_xmin] in Hids, Hxm, Hg. specialize (Hsel x0 Hx0).
    destruct (selected_text _ _ _ Hsel) as [v Hv]. rewrite Hv in Hsel.
    assert (Hcols : s_cols x = s_cols x0).
    { apply Hmvcc; [by eapply elem_of_sublist|apply HI; left|done|done]. }
    assert (Hvx : value (sc_Column c) x = Some v) by (unfold value in *; by rewrite Hcols).
    pose proof (plain_of_opens _ _ _ _ _ Hp) as Ho. cbn [pass_row pr_ids pr_value] in Ho.
    rewrite Hv in Ho. cbn [default from_option] in Ho. rewrite <- Hids in *.
    exists xid, v, w, p. split_and!; try done. unfold good in Hg.
    destruct (po_Kind opt); [| |done]; destruct Hg as (f & n & cs & cs' & Ef & Es); by eapply Hf.
  - rewrite map_map. cbn [pass_row pr_ids]. by eapply NoDup_map_sublist.
Qed.
End Batches.

(** ** A pass nobody disturbs *)

(** A result that has lost nothing: still partial or not as before, with every
    failure that was in it. *)
Definition res_grows (r r' : PassResult) : Prop :=
  Partial r' = Partial r /\ forall f, f ∈ Failures r -> f ∈ Failures r'.

#[export] Instance res_grows_preorder : PreOrder res_grows.
Proof.
  split; [by intros r|]. intros a b c [P1 F1] [P2 F2]. split; [congruence|auto].
Qed.

Lemma add_grows col verb n r : res_grows r (add col verb n r).
Proof. unfold add. by destruct (n =? 0). Qed.

Definition reported (c : SecretColumn) (ids : list string) (r : PassResult) : Prop :=
  exists f, f ∈ Failures r /\ f_Column f = Name c /\ f_Row f = RowString (BindingOf c ids).

Lemma reported_grows c ids r r' : res_grows r r' -> reported c ids r -> reported c ids r'.
Proof. intros [_ H] (f & Hf & ?). exists f. auto. Qed.

Lemma fail_grows f r : res_grows r (fail f r).
Proof.
  unfold fail. destruct (existsb _ _); [done|].
  destruct (add_grows (f_Column f) "skipped" 1 r) as [H1 H2]. split; [exact H1|].
  intros g Hg. cbn [Failures]. apply elem_of_app. left. by apply H2.
Qed.

Lemma fail_reported c r dek reason x : reported c (pr_ids r) (fail (failure c r dek reason) x).
Proof.
  unfold fail. destruct (existsb _ _) eqn:E.
  - apply existsb_elem in E as (g & Hg & [H1%String.eqb_eq H2%String.eqb_eq]%andb_true_iff).
    exists g. split; [done|]. by rewrite H1, H2.
  - eexists. split; [apply elem_of_app; right; by left|done].
Qed.

(** Lists in a strict order. *)
Lemma StronglySorted_last {X} (R : X -> X -> Prop) l z x :
  StronglySorted R l -> last l = Some z -> x ∈ l -> x = z \/ R x z.
Proof.
  intros Hs Hl Hx. apply last_Some in Hl as [l' ->]. apply elem_of_app in Hx as [Hx|Hx].
  - right. eapply (StronglySorted_app_cross R l' [z]); [done|done|left].
  - apply list_elem_of_singleton in Hx. by left.
Qed.

(** Fewer elements pass a stricter test. *)
Lemma keep_shrinks {X Y} (R : X -> Y -> Prop) (f : X -> bool) (g : Y -> bool) l l' z :
  Forall2 R l l' -> (forall x y, x ∈ l -> R x y -> g y = true -> f x = true /\ x <> z) ->
  z ∈ l -> f z = true -> (length (keep g l') < length (keep f l))%nat.
Proof.
  intros HF. assert (Le : forall l l', Forall2 R l l' ->
    (forall x y, x ∈ l -> R x y -> g y = true -> f x = true) ->
    (length (keep g l') <= length (keep f l))%nat).
  { clear. induction 1 as [|x y l l' Hxy _ IH]; intros H; [done|]. unfold keep in *. cbn [List.filter].
    assert (IH' := IH (fun a b Ha => H a b (list_elem_of_further _ _ _ Ha))).
    specialize (H x y ltac:(left) Hxy). destruct (g y); [rewrite H by done; cbn [length]; lia|].
    destruct (f x); cbn [length]; lia. }
  induction HF as [|x y l l' Hxy HF IH]; intros H Hz Hf; [by apply not_elem_of_nil in Hz|].
  unfold keep in *. cbn [List.filter]. pose proof (H x y ltac:(left) Hxy) as Hx.
  assert (Hrest : forall a b, a ∈ l -> R a b -> g b = true -> f a = true /\ a <> z).
  { intros a b Ha. apply H. by right. }
  apply elem_of_cons in Hz as [->|Hz].
  - rewrite Hf. destruct (g y); [by destruct Hx as [_ []]|]. cbn [length].
    specialize (Le l l' HF ltac:(intros a b Ha Hab Hg; by apply (Hrest a b))). lia.
  - specialize (IH Hrest Hz Hf). destruct (g y); [destruct Hx as [-> _]; [done|]; cbn [length]; lia|].
    destruct (f x); cbn [length]; lia.
Qed.

Section Quiet.
Context {A : AEAD} {L : AEADLaws A}.
Context (nonce : nat -> string) (before : string -> list string -> list string -> bool).
Context (opt : PassOptions).

(** The identities of a table, in their order. *)
Definition row_before (t : string) (x y : SRow) : Prop := before t (s_ids x) (s_ids y) = true.

Class RowOrder : Prop := {
  before_irrefl : forall t a, before t a a = false;
  before_trans : forall t a b c, before t a b = true -> before t b c = true -> before t a c = true;
}.
Context {O : RowOrder}.

Definition listed (db : SecretDB) : Prop := forall t, StronglySorted (row_before t) (rows db t).

(** Every value of the column can be sealed. *)
Definition sealable (c : SecretColumn) (db : SecretDB) : Prop :=
  po_Kind opt <> PassDecrypt -> exists f, po_Seal opt = Some f /\
  forall x p n cs, x ∈ rows db (sc_Table c) ->
    exists w cs', f (BindingOf c (s_ids x)) p (nonce n) cs = (Ok w, cs').

Definition is_selected (c : SecretColumn) (x : SRow) : bool :=
  selector (po_Kind opt) (po_Retire opt) (value (sc_Column c) x).

Definition text_of (c : SecretColumn) (x : SRow) : option string :=
  plain_of opt c (s_ids x) (default "" (value (sc_Column c) x)).

(** What a pass does to a selected row. *)
Definition processed (c : SecretColumn) (x x' : SRow) : Prop :=
  match text_of c x with
  | Some p => exists xid w, good nonce opt (BindingOf c (s_ids x)) p w /\
                            x' = set_value xid (sc_Column c) w x
  | None => x' = x
  end.

Lemma listed_nodup db t : listed db -> NoDup (map s_ids (rows db t)).
Proof.
  intros H. specialize (H t). induction H as [|x l Hl IH Hx]; [constructor|]. cbn [map].
  apply NoDup_cons. split; [|done]. intros (y & Ey & Hy)%list_elem_of_In%in_map_iff.
  rewrite List.Forall_forall in Hx. specialize (Hx y Hy). unfold row_before in Hx.
  rewrite Ey, before_irrefl in Hx. done.
Qed.

Lemma nodup_row (l : list SRow) x y : NoDup (map s_ids l) -> x ∈ l -> y ∈ l -> s_ids x = s_ids y -> x = y.
Proof.
  induction l as [|z l IH]; cbn [map]; [by intros _ ?%not_elem_of_nil|].
  intros [Hz Hl]%NoDup_cons Hx Hy E. apply elem_of_cons in Hx, Hy.
  assert (Hin : forall w, w ∈ l -> s_ids w ∈ map s_ids l).
  { intros w Hw. apply list_elem_of_In, in_map. by apply list_elem_of_In. }
  destruct Hx as [->|Hx], Hy as [->|Hy]; [done| | |by apply IH].
  - exfalso. apply Hz. rewrite E. by apply Hin.
  - exfalso. apply Hz. rewrite <- E. by apply Hin.
Qed.

(** Nobody wrote in between, so the compare-and-set succeeds. *)
Lemma store_quiet c x w verb s :
  NoDup (map s_ids (rows (ps_db s) (sc_Table c))) -> x ∈ rows (ps_db s) (sc_Table c) ->
  exists s', store c (pass_row c x) w verb s = (Ok Updated, s') /\ res_grows (ps_res s) (ps_res s') /\
    column_after c (fun y y' => (y = x -> exists xid, y' = set_value xid (sc_Column c) w x) /\
                                (y <> x -> y' = y)) (ps_db s) (ps_db s').
Proof.
  intros Hnd Hx. unfold store. cbn [compare_and_set].
  set (hit := fun y => same_ids (s_ids x) y && (s_xmin y =? s_xmin x)).
  assert (Hh : forall y, y ∈ rows (ps_db s) (sc_Table c) -> hit y = true <-> y = x).
  { intros y Hy. unfold hit, same_ids. rewrite andb_true_iff, bool_decide_eq_true, Z.eqb_eq. split.
    - intros [E _]. by eapply nodup_row.
    - by intros ->. }
  unfold compare_and_set. cbn [pass_row pr_ids pr_xmin]. fold hit.
  assert (existsb hit (rows (ps_db s) (sc_Table c)) = true) as ->.
  { apply existsb_elem. exists x. split; [done|]. by apply Hh. }
  eexists. split; [reflexivity|]. cbn [with_res with_db ps_db ps_res]. split; [apply add_grows|].
  split_and!; [done| |].
  - intros t Ht. by rewrite rows_set_rows, decide_False.
  - rewrite rows_set_rows, decide_True by done. apply Forall2_map_l. intros y Hy.
    specialize (Hh y Hy). change (same_ids _ y && _) with (hit y). split.
    + intros E. rewrite (proj2 Hh E), E. by eexists.
    + intros Hne. destruct (hit y); [|done]. by destruct Hne; apply Hh.
Qed.

Lemma process_row_quiet c x s :
  never_removes opt -> sealable c (ps_db s) ->
  NoDup (map s_ids (rows (ps_db s) (sc_Table c))) -> x ∈ rows (ps_db s) (sc_Table c) ->
  exists o s', process_row nonce opt c (pass_row c x) s = (Ok o, s') /\ o <> Concurrent /\
    res_grows (ps_res s) (ps_res s') /\
    (text_of c x = None -> o = Neither /\ reported c (s_ids x) (ps_res s')) /\
    column_after c (fun y y' => (y = x -> processed c x y') /\ (y <> x -> y' = y)) (ps_db s) (ps_db s').
Proof.
  intros Hnr Hse Hnd Hx.
  assert (St : forall p w verb s1, text_of c x = Some p -> good nonce opt (BindingOf c (s_ids x)) p w ->
    ps_db s1 = ps_db s -> ps_res s1 = ps_res s ->
    exists o s', store c (pass_row c x) w verb s1 = (Ok o, s') /\ o <> Concurrent /\
      res_grows (ps_res s) (ps_res s') /\
      (text_of c x = None -> o = Neither /\ reported c (s_ids x) (ps_res s')) /\
      column_after c (fun y y' => (y = x -> processed c x y') /\ (y <> x -> y' = y)) (ps_db s) (ps_db s')).
  { intros p w verb s1 Hp Hg Hd Hr. rewrite <- Hd in Hnd, Hx.
    destruct (store_quiet c x w verb s1 Hnd Hx) as (s' & E & G & C). rewrite Hd in C. rewrite Hr in G.
    exists Updated, s'. split_and!; try done; [by rewrite Hp|].
    destruct C as (C1 & C2 & C3). split_and!; try done.
    eapply Forall2_impl; [exact C3|]. intros y y' [H1 H2]. split; [|done]. intros Hy.
    unfold processed. rewrite Hp. destruct (H1 Hy) as [xid ->]. by exists xid, w. }
  assert (No : forall dek reason, text_of c x = None ->
    exists o s', pbind (pmod (with_res (fail (failure c (pass_row c x) dek reason)))) (fun _ => pret Neither) s
      = (Ok o, s') /\ o <> Concurrent /\ res_grows (ps_res s) (ps_res s') /\
      (text_of c x = None -> o = Neither /\ reported c (s_ids x) (ps_res s')) /\
      column_after c (fun y y' => (y = x -> processed c x y') /\ (y <> x -> y' = y)) (ps_db s) (ps_db s')).
  { intros dek reason Hn. eexists _, _. split; [reflexivity|]. split_and!; [done| | |].
    - apply fail_grows.
    - intros _. split; [done|]. apply (fail_reported c (pass_row c x)).
    - apply column_after_refl. intros y. split; [|done]. intros ->. unfold processed. by rewrite Hn. }
  assert (Se : forall p verb, text_of c x = Some p -> po_Kind opt <> PassDecrypt ->
    exists o s', pbind (seal_value nonce opt c (BindingOf c (s_ids x)) p)
        (fun v => store c (pass_row c x) v verb) s = (Ok o, s') /\ o <> Concurrent /\
      res_grows (ps_res s) (ps_res s') /\
      (text_of c x = None -> o = Neither /\ reported c (s_ids x) (ps_res s')) /\
      column_after c (fun y y' => (y = x -> processed c x y') /\ (y <> x -> y' = y)) (ps_db s) (ps_db s')).
  { intros p verb Hp Hk. destruct (Hse Hk) as (f & Ef & Hok).
    destruct (Hok x p (ps_seals s) (ps_counts s) Hx) as (w & cs' & Es).
    unfold pbind, seal_value. rewrite Ef, Es. apply (St p w); try done.
    unfold good. destruct (po_Kind opt); [| |done]; by exists f, (ps_seals s), (ps_counts s), cs'. }
  unfold process_row, text_of, plain_of in *. cbn [pass_row pr_ids pr_value] in *.
  set (v := default "" (value (sc_Column c) x)) in *.
  destruct (po_Kind opt) eqn:Ek.
  - destruct (Classify v); [by apply No|by apply Se|by apply No].
  - destruct (Open _ _ v) as [p|de]; [by apply Se|by apply No].
  - destruct (Open _ _ v) as [p|de].
    + apply (St p p); try done. unfold good. by rewrite Ek.
    + rewrite (Hnr Ek). by apply No.
Qed.

Lemma column_after_trans c (R S T : SRow -> SRow -> Prop) d1 d2 d3 :
  (forall x y z, x ∈ rows d1 (sc_Table c) -> R x y -> S y z -> T x z) ->
  column_after c R d1 d2 -> column_after c S d2 d3 -> column_after c T d1 d3.
Proof.
  intros H (L1 & T1 & F1) (L2 & T2 & F2). split_and!; [congruence| |].
  - intros t Ht. rewrite T2, T1; done.
  - by eapply Forall2_trans_cond.
Qed.

Lemma column_after_weaken c (R S : SRow -> SRow -> Prop) d1 d2 :
  (forall x y, x ∈ rows d1 (sc_Table c) -> R x y -> S x y) ->
  column_after c R d1 d2 -> column_after c S d1 d2.
Proof.
  intros H (L1 & T1 & F1). split_and!; [done..|].
  eapply Forall2_trans_cond; [|exact F1|by apply (Forall2_self eq)].
  intros x y z Hx Hxy <-. by apply H.
Qed.

(** The identities do not change. *)
Definition same_row_ids (x x' : SRow) : Prop := s_ids x' = s_ids x.

Lemma processed_ids c x x' : processed c x x' -> s_ids x' = s_ids x.
Proof. unfold processed. destruct (text_of c x); [by intros (xid & w & _ & ->)|by intros ->]. Qed.

Lemma map_ids_same (R : SRow -> SRow -> Prop) l l' :
  Forall2 R l l' -> (forall x x', x ∈ l -> R x x' -> s_ids x' = s_ids x) -> map s_ids l' = map s_ids l.
Proof.
  induction 1 as [|x x' l l' Hx _ IH]; intros H; [done|]. cbn [map]. f_equal; [by apply H; [left|]|].
  apply IH. intros y y' Hy. apply H. by right.
Qed.

Lemma rows_by_ids db db' t : map s_ids (rows db' t) = map s_ids (rows db t) ->
  forall x', x' ∈ rows db' t -> exists x, x ∈ rows db t /\ s_ids x = s_ids x'.
Proof.
  intros E x' Hx'. assert (Hin : s_ids x' ∈ map s_ids (rows db' t)).
  { apply list_elem_of_In, in_map. by apply list_elem_of_In. }
  rewrite E in Hin. apply list_elem_of_In, in_map_iff in Hin as (x & Ex & Hx).
  exists x. split; [by apply list_elem_of_In|done].
Qed.

Lemma sealable_ids c db db' : map s_ids (rows db' (sc_Table c)) = map s_ids (rows db (sc_Table c)) ->
  sealable c db -> sealable c db'.
Proof.
  intros E H Hk. destruct (H Hk) as (f & Ef & Hok). exists f. split; [done|]. intros x' p n cs Hx'.
  destruct (rows_by_ids db db' _ E x' Hx') as (x & Hx & <-). by apply Hok.
Qed.

Lemma listed_ids db db' : (forall t, map s_ids (rows db' t) = map s_ids (rows db t)) ->
  listed db -> listed db'.
Proof.
  intros E H t. specialize (H t). specialize (E t). revert E H.
  generalize (rows db t). generalize (rows db' t). intros l'.
  assert (P : forall l, StronglySorted (row_before t) l <->
    StronglySorted (fun a b => before t a b = true) (map s_ids l)).
  { clear. intros l. induction l as [|x l IH]; cbn [map]; [by split; constructor|]. split.
    - intros [Hl Hx]%StronglySorted_inv. constructor; [by apply IH|].
      rewrite List.Forall_forall in *. intros i (y & <- & Hy)%in_map_iff. by apply Hx.
    - intros [Hl Hx]%StronglySorted_inv. constructor; [by apply IH|].
      rewrite List.Forall_forall in *. intros y Hy. apply Hx. by apply in_map. }
  intros l E H. apply P. rewrite E. by apply P.
Qed.

Lemma column_after_ids c (R : SRow -> SRow -> Prop) d d' :
  column_after c R d d' -> (forall x x', x ∈ rows d (sc_Table c) -> R x x' -> s_ids x' = s_ids x) ->
  forall t, map s_ids (rows d' t) = map s_ids (rows d t).
Proof.
  intros (_ & T & F) H t. destruct (decide (t = sc_Table c)) as [->|Hne].
  - by apply (map_ids_same R).
  - by rewrite T.
Qed.

(** The rows of a batch. *)
Lemma process_rows_quiet c xs s :
  never_removes opt -> sealable c (ps_db s) ->
  NoDup (map s_ids (rows (ps_db s) (sc_Table c))) -> NoDup (map s_ids xs) ->
  (forall x, x ∈ xs -> x ∈ rows (ps_db s) (sc_Table c)) ->
  exists u s', process_rows nonce opt c (map (pass_row c) xs) s = (Ok (u, 0), s') /\
    res_grows (ps_res s) (ps_res s') /\
    ((forall x, x ∈ xs -> text_of c x = None) -> u = 0) /\
    (forall x, x ∈ xs -> text_of c x = None -> reported c (s_ids x) (ps_res s')) /\
    column_after c (fun y y' => (y ∈ xs -> processed c y y') /\ (y ∉ xs -> y' = y)) (ps_db s) (ps_db s').
Proof.
  intros Hnr. revert s. induction xs as [|x xs IH]; intros s Hse Hnd Hndx Hin; cbn [map process_rows].
  { exists 0, s. split_and!; try done; [by intros x ?%not_elem_of_nil|].
    apply column_after_refl. intros y. split; [by intros ?%not_elem_of_nil|done]. }
  cbn [map] in Hndx. apply NoDup_cons in Hndx as [Hx Hndx].
  assert (Hout : forall y, y ∈ xs -> y <> x).
  { intros y Hy ->. apply Hx. apply list_elem_of_In, in_map. by apply list_elem_of_In. }
  destruct (process_row_quiet c x s Hnr Hse Hnd) as (o & s1 & E1 & Ho & G1 & N1 & C1);
    [apply Hin; left|].
  assert (Hids : forall t, map s_ids (rows (ps_db s1) t) = map s_ids (rows (ps_db s) t)).
  { apply (column_after_ids _ _ _ _ C1). intros y y' _ [H1 H2]. destruct (decide (y = x)) as [->|Hne].
    - by apply (processed_ids c), H1.
    - by rewrite H2. }
  destruct (IH s1) as (u & s2 & E2 & G2 & N2 & R2 & C2); [|by rewrite Hids|done| |].
  { by apply (sealable_ids c (ps_db s)). }
  { intros y Hy. destruct C1 as (_ & _ & F1).
    assert (Hy0 : y ∈ rows (ps_db s) (sc_Table c)) by (apply Hin; by right).
    apply list_elem_of_lookup in Hy0 as [i Hi].
    destruct (Forall2_lookup_l _ _ _ _ _ F1 Hi) as (y' & Hi' & _ & H2).
    rewrite H2 in Hi' by by apply Hout. by eapply list_elem_of_lookup_2. }
  unfold pbind. rewrite E1, E2. unfold pret.
  exists (match o with Updated => u + 1 | _ => u end), s2. split; [|split_and!].
  - by destruct o.
  - by transitivity (ps_res s1).
  - intros Hn. destruct (N1 (Hn x ltac:(left))) as [-> _]. apply N2.
    intros y Hy. apply Hn. by right.
  - intros y [->|Hy]%elem_of_cons Hn; [|by apply R2].
    eapply reported_grows; [exact G2|]. by apply N1.
  - eapply column_after_trans; [|exact C1|exact C2]. intros a b d Ha [P1 P2] [Q1 Q2].
    destruct (decide (a = x)) as [->|Hne].
    + split; [intros _|intros Hnot; destruct Hnot; left].
      specialize (P1 eq_refl). rewrite Q2; [done|]. intros Hb. apply Hx.
      rewrite <- (processed_ids _ _ _ P1). apply list_elem_of_In, in_map. by apply list_elem_of_In.
    + rewrite P2 in Q1, Q2 by done. split.
      * intros [->|Hax]%elem_of_cons; [done|]. by apply Q1.
      * intros Hno. apply Q2. intros Hax. apply Hno. by right.
Qed.

(** *** Batches and sweeps *)

Definition after_cursor (c : SecretColumn) (cursor : option (list string)) (x : SRow) : bool :=
  match cursor with Some k => before (sc_Table c) k (s_ids x) | None => true end.

(** The rows a sweep has before it. *)
Definition todo (c : SecretColumn) (cursor : option (list string)) (x : SRow) : bool :=
  is_selected c x && after_cursor c cursor x.

Definition quiet_batch := runBatch (fun _ d => d) (fun _ => true) (fun _ => true) nonce before opt.
Definition quiet_sweep fuel :=
  sweepColumn (fun _ d => d) (fun _ => true) (fun _ => true) nonce before fuel opt.

(** What a pass writes it does not select again. *)
Definition settles (c : SecretColumn) (db : SecretDB) : Prop :=
  forall x p w, x ∈ rows db (sc_Table c) -> is_selected c x = true -> text_of c x = Some p ->
    good nonce opt (BindingOf c (s_ids x)) p w ->
    selector (po_Kind opt) (po_Retire opt) (Some w) = false.

Lemma quiet_batch_spec c cursor s :
  never_removes opt -> sealable c (ps_db s) -> listed (ps_db s) ->
  let todos := keep (todo c cursor) (rows (ps_db s) (sc_Table c)) in
  let xs := take (Z.to_nat (po_Batch opt)) todos in
  exists u s', quiet_batch c cursor s = (Ok (map (pass_row c) xs, u, 0), s') /\
    res_grows (ps_res s) (ps_res s') /\
    ((forall x, x ∈ xs -> text_of c x = None) -> u = 0) /\
    (forall x, x ∈ xs -> text_of c x = None -> reported c (s_ids x) (ps_res s')) /\
    column_after c (fun y y' => (y ∈ xs -> processed c y y') /\ (y ∉ xs -> y' = y)) (ps_db s) (ps_db s').
Proof.
  intros Hnr Hse Hl todos xs. unfold quiet_batch, runBatch. cbn [negb].
  change (select_batch before opt c cursor (ps_db (next_batch s))) with (map (pass_row c) xs).
  change (with_db (ps_db (next_batch s)) (next_batch s)) with (next_batch s).
  assert (Hsub : sublist xs (rows (ps_db s) (sc_Table c))).
  { etransitivity; [apply sublist_take|apply keep_sublist]. }
  pose proof (listed_nodup _ (sc_Table c) Hl) as Hnd.
  destruct (process_rows_quiet c xs (next_batch s) Hnr Hse Hnd) as (u & s' & E & G & N & R & C).
  { by eapply NoDup_map_sublist. }
  { intros x Hx. by eapply elem_of_sublist. }
  rewrite E. eexists u, _. split; [reflexivity|]. by split_and!.
Qed.

(** The order of a table splits what there is to do into a batch and the rest. *)
Lemma batch_split c cursor s x z :
  listed (ps_db s) ->
  let todos := keep (todo c cursor) (rows (ps_db s) (sc_Table c)) in
  let xs := take (Z.to_nat (po_Batch opt)) todos in
  last xs = Some z -> x ∈ rows (ps_db s) (sc_Table c) ->
  (x ∈ xs -> todo c cursor x = true /\ todo c (Some (s_ids z)) x = false) /\
  (x ∉ xs -> todo c (Some (s_ids z)) x = todo c cursor x).
Proof.
  intros Hl todos xs Hz Hx.
  assert (Hs : StronglySorted (row_before (sc_Table c)) todos).
  { eapply StronglySorted_sub; [apply keep_sublist|apply Hl]. }
  assert (Hzin : z ∈ xs) by (apply last_Some_elem_of; done).
  assert (Hzt : todo c cursor z = true).
  { assert (z ∈ todos) as Hzz by (eapply elem_of_sublist; [exact Hzin|apply sublist_take]).
    by apply elem_of_keep in Hzz as [_ ?]. }
  assert (Hxs : StronglySorted (row_before (sc_Table c)) xs).
  { eapply StronglySorted_sub; [apply sublist_take|done]. }
  split.
  - intros Hxx. assert (Hxt : x ∈ todos) by (eapply elem_of_sublist; [exact Hxx|apply sublist_take]).
    apply elem_of_keep in Hxt as [_ Hxt]. split; [done|]. unfold todo, after_cursor.
    destruct (StronglySorted_last _ _ _ _ Hxs Hz Hxx) as [->|Hb].
    + by rewrite before_irrefl, andb_false_r.
    + destruct (before (sc_Table c) (s_ids z) (s_ids x)) eqn:E; [|by rewrite andb_false_r].
      pose proof (before_trans _ _ _ _ Hb E) as H. by rewrite before_irrefl in H.
  - intros Hno. unfold todo. destruct (is_selected c x) eqn:Es; [cbn [andb]|done].
    destruct (after_cursor c cursor x) eqn:Ea.
    + assert (Hxt : x ∈ todos).
      { apply elem_of_keep. split; [done|]. unfold todo. by rewrite Es, Ea. }
      rewrite <- (take_drop (Z.to_nat (po_Batch opt)) todos) in Hxt, Hs.
      apply elem_of_app in Hxt as [?|Hd]; [done|].
      by apply (StronglySorted_app_cross _ _ _ _ _ Hs).
    + unfold after_cursor in *. destruct cursor as [k|]; [|done].
      destruct (before (sc_Table c) (s_ids z) (s_ids x)) eqn:E; [|done].
      unfold todo, after_cursor in Hzt. apply andb_true_iff in Hzt as [_ Hkz].
      by rewrite (before_trans _ _ _ _ Hkz E) in Ea.
Qed.

Lemma text_of_same c x x' : s_ids x' = s_ids x -> value (sc_Column c) x' = value (sc_Column c) x ->
  text_of c x' = text_of c x.
Proof. unfold text_of. by intros -> ->. Qed.

(** After a batch, what was processed is not to be done again. *)
Lemma todo_after c cursor s x x' z :
  settles c (ps_db s) -> listed (ps_db s) ->
  let todos := keep (todo c cursor) (rows (ps_db s) (sc_Table c)) in
  let xs := take (Z.to_nat (po_Batch opt)) todos in
  last xs = Some z -> x ∈ rows (ps_db s) (sc_Table c) ->
  (x ∈ xs -> processed c x x') -> (x ∉ xs -> x' = x) ->
  todo c (Some (s_ids z)) x' = todo c cursor x && bool_decide (x ∉ xs).
Proof.
  intros Hset Hl todos xs Hz Hx H1 H2.
  destruct (batch_split c cursor s x z Hl Hz Hx) as [B1 B2].
  destruct (decide (x ∈ xs)) as [Hin|Hno].
  - rewrite (bool_decide_eq_false_2 (x ∉ xs)) by tauto. rewrite andb_false_r.
    destruct (B1 Hin) as [Ht Hf]. specialize (H1 Hin). unfold todo, after_cursor in *.
    pose proof (processed_ids c x x' H1) as Hid. rewrite Hid.
    apply andb_false_iff in Hf as [Hf|Hf]; [|by rewrite Hf, andb_false_r].
    apply andb_true_iff in Ht as [Ht _]. congruence.
  - rewrite bool_decide_eq_true_2, andb_true_r by done. rewrite (H2 Hno). by apply B2.
Qed.

(** A sweep processes every selected row after the cursor once. *)
Lemma quiet_sweep_spec fuel c cursor s :
  never_removes opt -> 1 <= po_Batch opt ->
  sealable c (ps_db s) -> settles c (ps_db s) -> listed (ps_db s) ->
  (length (keep (todo c cursor) (rows (ps_db s) (sc_Table c))) < fuel)%nat ->
  exists u s', quiet_sweep fuel c cursor s = (Ok (u, 0), s') /\
    res_grows (ps_res s) (ps_res s') /\
    ((forall x, x ∈ rows (ps_db s) (sc_Table c) -> todo c cursor x = true -> text_of c x = None) -> u = 0) /\
    (forall x, x ∈ rows (ps_db s) (sc_Table c) -> todo c cursor x = true -> text_of c x = None ->
       reported c (s_ids x) (ps_res s')) /\
    column_after c (fun y y' => if todo c cursor y then processed c y y' else y' = y) (ps_db s) (ps_db s').
Proof.
  intros Hnr Hb. revert cursor s. induction fuel as [|fuel IH]; intros cursor s Hse Hset Hl Hfuel; [lia|].
  destruct (quiet_batch_spec c cursor s Hnr Hse Hl) as (u & s1 & E & G & N & R & C).
  set (todos := keep (todo c cursor) (rows (ps_db s) (sc_Table c))) in *.
  set (xs := take (Z.to_nat (po_Batch opt)) todos) in *.
  unfold quiet_sweep. cbn [sweepColumn]. unfold pbind.
  change (runBatch (fun _ d => d) (fun _ => true) (fun _ => true) nonce before opt c cursor s)
    with (quiet_batch c cursor s). rewrite E. rewrite length_map.
  assert (Hmem : forall x, x ∈ xs -> x ∈ rows (ps_db s) (sc_Table c) /\ todo c cursor x = true).
  { intros x Hx. assert (Ht : x ∈ todos) by (eapply elem_of_sublist; [exact Hx|apply sublist_take]).
    by apply elem_of_keep in Ht. }
  destruct (Z.ltb_spec (Z.of_nat (length xs)) (po_Batch opt)) as [Hlt|Hge].
  - assert (Hall : xs = todos).
    { apply take_ge. unfold xs in Hlt. rewrite length_take in Hlt. lia. }
    exists u, s1. split; [done|]. split; [done|]. split_and!.
    + intros Hn. apply N. intros x Hx. destruct (Hmem x Hx). by apply Hn.
    + intros x Hx Ht Hn. apply R; [|done]. rewrite Hall. by apply elem_of_keep.
    + eapply column_after_weaken; [|exact C]. intros y y' Hy [H1 H2]. rewrite Hall in H1, H2.
      destruct (todo c cursor y) eqn:Et.
      * apply H1. by apply elem_of_keep.
      * apply H2. intros [_ ?]%elem_of_keep. congruence.
  - change (map (pass_row c) xs) with (pass_row c <$> xs). rewrite fmap_last. destruct (last xs) as [z|] eqn:Ez; cycle 1.
    { apply last_None in Ez. rewrite Ez in Hge. cbn in Hge. lia. }
    cbn [fmap option_fmap option_map pass_row pr_ids].
    assert (Hids : forall t, map s_ids (rows (ps_db s1) t) = map s_ids (rows (ps_db s) t)).
    { apply (column_after_ids _ _ _ _ C). intros y y' _ [H1 H2]. destruct (decide (y ∈ xs)).
      - by apply (processed_ids c), H1.
      - by rewrite H2. }
    assert (Htodo : forall x x', x ∈ rows (ps_db s) (sc_Table c) ->
      ((x ∈ xs -> processed c x x') /\ (x ∉ xs -> x' = x)) ->
      todo c (Some (s_ids z)) x' = todo c cursor x && bool_decide (x ∉ xs)).
    { intros x x' Hx [H1 H2]. by apply (todo_after c cursor s x x' z). }
    assert (Hzin : z ∈ xs) by (apply last_Some_elem_of; done).
    destruct C as (C1 & C2 & C3).
    assert (Hless : (length (keep (todo c (Some (s_ids z))) (rows (ps_db s1) (sc_Table c))) <
                     length todos)%nat).
    { eapply (keep_shrinks _ (todo c cursor) _ _ _ z C3).
      - intros x x' Hx Hr. rewrite (Htodo x x' Hx Hr). intros [? Hno%bool_decide_eq_true]%andb_true_iff.
        split; [done|]. by intros ->.
      - by apply Hmem.
      - by apply Hmem. }
    destruct (IH (Some (s_ids z)) s1) as (u2 & s2 & E2 & G2 & N2 & R2 & D).
    { by apply (sealable_ids c (ps_db s)). }
    { intros x' p w Hx' Hs Ht Hg. apply list_elem_of_lookup in Hx' as [i Hi'].
      destruct (Forall2_lookup_r _ _ _ _ _ C3 Hi') as (x & Hi & H1 & H2).
      apply list_elem_of_lookup_2 in Hi. destruct (decide (x ∈ xs)) as [Hin|Hno].
      - specialize (H1 Hin). unfold processed in H1. destruct (text_of c x) as [p0|] eqn:Et0.
        + destruct H1 as (xid & w0 & Hg0 & ->). exfalso.
          assert (Hsx : is_selected c x = true).
          { destruct (Hmem x Hin) as [_ Hm]. unfold todo in Hm. by apply andb_true_iff in Hm as [? _]. }
          unfold is_selected in Hs. rewrite value_set_value, decide_True in Hs by done.
          by rewrite (Hset x p0 w0 Hi Hsx Et0 Hg0) in Hs.
        + subst x'. by apply (Hset x p w).
      - rewrite H2 in Hs, Ht, Hg by done. by apply (Hset x p w). }
    { by apply (listed_ids (ps_db s)). }
    { lia. }
    unfold quiet_sweep in E2. rewrite E2. unfold pret. exists (u + u2), s2. cbn [fst snd].
    split; [done|]. split; [by transitivity (ps_res s1)|].
    assert (Hback : forall x', x' ∈ rows (ps_db s1) (sc_Table c) -> todo c (Some (s_ids z)) x' = true ->
      x' ∈ rows (ps_db s) (sc_Table c) /\ todo c cursor x' = true /\ x' ∉ xs).
    { intros x' Hx' Ht. apply list_elem_of_lookup in Hx' as [i Hi'].
      destruct (Forall2_lookup_r _ _ _ _ _ C3 Hi') as (x & Hi & Hr).
      apply list_elem_of_lookup_2 in Hi. rewrite (Htodo x x' Hi Hr) in Ht.
      apply andb_true_iff in Ht as [Ht Hno%bool_decide_eq_true]. destruct Hr as [_ H2].
      rewrite (H2 Hno). by split_and!. }
    split_and!.
    + intros Hn. rewrite N, N2; [done| |].
      * intros x' Hx' Ht. destruct (Hback x' Hx' Ht) as (H1 & H2 & _). by apply Hn.
      * intros x Hx. destruct (Hmem x Hx). by apply Hn.
    + intros x Hx Ht Hn. destruct (decide (x ∈ xs)) as [Hin|Hno].
      * eapply reported_grows; [exact G2|]. by apply R.
      * apply list_elem_of_lookup in Hx as [i Hi].
        destruct (Forall2_lookup_l _ _ _ _ _ C3 Hi) as (x' & Hi' & Hr).
        apply list_elem_of_lookup_2 in Hi, Hi'. pose proof (Htodo x x' Hi Hr) as Ht'.
        rewrite Ht, (bool_decide_eq_true_2 (x ∉ xs)) in Ht' by done.
        destruct Hr as [_ H2]. rewrite (H2 Hno) in Hi', Ht'. by apply R2.
    + eapply column_after_trans; [|by split_and!|exact D]. intros x y w Hx Hr Hw. cbv beta in Hw.
      rewrite (Htodo x y Hx Hr) in Hw. destruct Hr as [H1 H2]. destruct (decide (x ∈ xs)) as [Hin|Hno].
      * rewrite (bool_decide_eq_false_2 (x ∉ xs)), andb_false_r in Hw by tauto. subst w.
        destruct (Hmem x Hin) as [_ ->]. by apply H1.
      * rewrite (bool_decide_eq_true_2 (x ∉ xs)), andb_true_r in Hw by done. by rewrite (H2 Hno) in Hw.
Qed.

(** *** Columns *)

Definition done_row (c : SecretColumn) (x x' : SRow) : Prop :=
  if is_selected c x then processed c x x' else x' = x.

Lemma done_row_ids c x x' : done_row c x x' -> s_ids x' = s_ids x.
Proof. unfold done_row. destruct (is_selected c x); [apply processed_ids|by intros ->]. Qed.

Lemma todo_first c x : todo c None x = is_selected c x.
Proof. unfold todo. cbn. by rewrite andb_true_r. Qed.

(** After a sweep only values that cannot be processed are selected. *)
Lemma done_row_stuck c db x x' :
  settles c db -> x ∈ rows db (sc_Table c) -> done_row c x x' -> is_selected c x' = true ->
  text_of c x' = None /\ x' = x.
Proof.
  intros Hset Hx Hd Hs. unfold done_row in Hd. destruct (is_selected c x) eqn:E; [|subst; congruence].
  unfold processed in Hd. destruct (text_of c x) as [p|] eqn:Et; [|subst; done].
  destruct Hd as (xid & w & Hg & ->). unfold is_selected in Hs.
  rewrite value_set_value, decide_True in Hs by done.
  by rewrite (Hset x p w Hx E Et Hg) in Hs.
Qed.

Lemma settles_after c c' db db' :
  settles c db -> (forall x', x' ∈ rows db' (sc_Table c) -> exists x, x ∈ rows db (sc_Table c) /\
    s_ids x = s_ids x' /\ value (sc_Column c) x = value (sc_Column c) x') -> c' = c -> settles c' db'.
Proof.
  intros H Hb -> x' p w Hx' Hs Ht Hg. destruct (Hb x' Hx') as (x & Hx & Hi & Hv).
  apply (H x p w Hx).
  - unfold is_selected in *. by rewrite Hv.
  - rewrite <- Ht. symmetry. by apply text_of_same.
  - by rewrite Hi.
Qed.

Definition quiet_column fuel sweeps :=
  column_sweeps (fun _ d => d) (fun _ => true) (fun _ => true) nonce before fuel sweeps opt.

(** One column: two sweeps, the second of which finds nothing it can do. *)
Lemma quiet_column_spec fuel sweeps c s :
  never_removes opt -> 1 <= po_Batch opt -> (1 <= sweeps)%nat ->
  sealable c (ps_db s) -> settles c (ps_db s) -> listed (ps_db s) ->
  (length (rows (ps_db s) (sc_Table c)) < fuel)%nat ->
  exists s', quiet_column fuel sweeps c s = (Ok tt, s') /\
    res_grows (ps_res s) (ps_res s') /\
    (forall x, x ∈ rows (ps_db s) (sc_Table c) -> is_selected c x = true -> text_of c x = None ->
       reported c (s_ids x) (ps_res s')) /\
    column_after c (done_row c) (ps_db s) (ps_db s').
Proof.
  intros Hnr Hb Hsw Hse Hset Hl Hfuel.
  assert (Hlen : forall f (l : list SRow), (length (keep f l) <= length l)%nat).
  { intros f l. apply List.filter_length_le. }
  destruct (quiet_sweep_spec fuel c None s Hnr Hb Hse Hset Hl) as (u & s1 & E & G & N & R & C).
  { specialize (Hlen (todo c None) (rows (ps_db s) (sc_Table c))). lia. }
  assert (C' : column_after c (done_row c) (ps_db s) (ps_db s1)).
  { eapply column_after_weaken; [|exact C]. intros x y _. unfold done_row. by rewrite todo_first. }
  assert (R' : forall x, x ∈ rows (ps_db s) (sc_Table c) -> is_selected c x = true -> text_of c x = None ->
    reported c (s_ids x) (ps_res s1)).
  { intros x Hx Hs. apply R; [done|]. by rewrite todo_first. }
  unfold quiet_column. destruct sweeps as [|sweeps]; [lia|]. cbn [column_sweeps]. unfold pbind at 1.
  change (sweepColumn (fun _ d => d) (fun _ => true) (fun _ => true) nonce before fuel opt)
    with (quiet_sweep fuel). rewrite E. cbn [fst snd]. rewrite andb_true_r.
  destruct (Z.eqb_spec u 0) as [->|Hu]; [by exists s1; split_and!|].
  assert (Hids : forall t, map s_ids (rows (ps_db s1) t) = map s_ids (rows (ps_db s) t)).
  { apply (column_after_ids _ _ _ _ C'). intros x x' _. apply done_row_ids. }
  pose proof C' as (_ & _ & F).
  assert (Hstuck : forall x', x' ∈ rows (ps_db s1) (sc_Table c) -> is_selected c x' = true ->
    text_of c x' = None /\ x' ∈ rows (ps_db s) (sc_Table c)).
  { intros x' Hx' Hs. apply list_elem_of_lookup in Hx' as [i Hi'].
    destruct (Forall2_lookup_r _ _ _ _ _ F Hi') as (x & Hi & Hd). apply list_elem_of_lookup_2 in Hi.
    destruct (done_row_stuck c (ps_db s) x x' Hset Hi Hd Hs) as [Ht ->]. by split. }
  destruct (quiet_sweep_spec fuel c None s1 Hnr Hb) as (u2 & s2 & E2 & G2 & N2 & R2 & C2).
  { by apply (sealable_ids c (ps_db s)). }
  { intros x' p w Hx' Hs Ht. destruct (Hstuck x' Hx' Hs) as [Hn _]. by rewrite Hn in Ht. }
  { by apply (listed_ids (ps_db s)). }
  { specialize (Hlen (todo c None) (rows (ps_db s1) (sc_Table c))).
    apply Forall2_length in F. lia. }
  assert (Hu2 : u2 = 0).
  { apply N2. intros x' Hx' Ht. rewrite todo_first in Ht. by apply Hstuck. }
  exists s2. split.
  - destruct sweeps as [|sweeps]; cbn [column_sweeps]; unfold pbind;
      change (sweepColumn (fun _ d => d) (fun _ => true) (fun _ => true) nonce before fuel opt)
        with (quiet_sweep fuel); rewrite E2; by rewrite Hu2.
  - split_and!.
    + by transitivity (ps_res s1).
    + intros x Hx Hs Hn. eapply reported_grows; [exact G2|]. by apply R'.
    + eapply column_after_trans; [|exact C'|exact C2]. intros x y z Hx Hd Hz. cbv beta in Hz.
      rewrite todo_first in Hz. destruct (is_selected c y) eqn:Es; [|by subst].
      destruct (done_row_stuck c (ps_db s) x y Hset Hx Hd Es) as [Ht _].
      unfold processed in Hz. rewrite Ht in Hz. by subst.
Qed.

(** Two columns of the inventory are not the same column. *)
Definition distinct_columns (c c' : SecretColumn) : Prop :=
  sc_Table c <> sc_Table c' \/ sc_Column c <> sc_Column c'.

(** A row after the columns [cs] of its table were done. *)
Definition row_done (cs : list SecretColumn) (t : string) (x x' : SRow) : Prop :=
  s_ids x' = s_ids x /\ s_conferencing x' = s_conferencing x /\ s_enabled x' = s_enabled x /\
  (forall c, c ∈ cs -> sc_Table c = t ->
     if is_selected c x then
       match text_of c x with
       | Some p => exists w, good nonce opt (BindingOf c (s_ids x)) p w /\ value (sc_Column c) x' = Some w
       | None => value (sc_Column c) x' = value (sc_Column c) x
       end
     else value (sc_Column c) x' = value (sc_Column c) x) /\
  (forall col, (forall c, c ∈ cs -> sc_Table c = t -> sc_Column c <> col) -> value col x' = value col x).

Lemma row_done_nil t x : row_done [] t x x.
Proof. unfold row_done. split_and!; try done. by intros c ?%not_elem_of_nil. Qed.

Lemma row_done_one c x x' : done_row c x x' -> row_done [c] (sc_Table c) x x'.
Proof.
  intros Hd. assert (Hid := done_row_ids c x x' Hd). unfold done_row, processed in Hd. unfold row_done.
  split; [done|]. destruct (is_selected c x) eqn:Es.
  2:{ subst x'. split_and!; try done. intros c' ->%list_elem_of_singleton _. by rewrite Es. }
  destruct (text_of c x) as [p|] eqn:Et.
  2:{ subst x'. split_and!; try done. intros c' ->%list_elem_of_singleton _. by rewrite Es, Et. }
  destruct Hd as (xid & w & Hg & ->). split_and!; [done|done| |].
  - intros c' ->%list_elem_of_singleton _. rewrite Es, Et. exists w. split; [done|].
    by rewrite value_set_value, decide_True.
  - intros col Hcol. rewrite value_set_value, decide_False; [done|]. apply Hcol; [left|done].
Qed.

Lemma row_done_other c t x : t <> sc_Table c -> row_done [c] t x x.
Proof.
  intros Ht. unfold row_done. split_and!; try done. by intros c' ->%list_elem_of_singleton ?.
Qed.

Lemma row_done_cons c cs t x y z :
  Forall (distinct_columns c) cs -> row_done [c] t x y -> row_done cs t y z -> row_done (c :: cs) t x z.
Proof.
  intros Hdis (I1 & P1 & E1 & V1 & O1) (I2 & P2 & E2 & V2 & O2). rewrite Forall_forall in Hdis.
  assert (Sel : forall c', value (sc_Column c') y = value (sc_Column c') x ->
    is_selected c' y = is_selected c' x /\ text_of c' y = text_of c' x).
  { intros c' Hv. split; [by unfold is_selected; rewrite Hv|]. by apply text_of_same. }
  split_and!; [congruence|congruence|congruence| |].
  - intros c' [->|Hc]%elem_of_cons Ht.
    + assert (Hz : value (sc_Column c) z = value (sc_Column c) y).
      { apply O2. intros c' Hc' Ht'. destruct (Hdis c' Hc'); congruence. }
      rewrite Hz. apply V1; [left|done].
    + assert (Hy : value (sc_Column c') y = value (sc_Column c') x).
      { apply O1. intros c0 ->%list_elem_of_singleton Ht'. destruct (Hdis c' Hc); congruence. }
      destruct (Sel c' Hy) as [Es Et]. specialize (V2 c' Hc Ht). rewrite Es, Et, I1, Hy in V2. exact V2.
  - intros col Hcol. rewrite O2, O1; [done| |].
    + intros c0 ->%list_elem_of_singleton Ht. apply Hcol; [left|done].
    + intros c' Hc'. apply Hcol. by right.
Qed.

Definition quiet_columns fuel :=
  run_columns (fun _ d => d) (fun _ => true) (fun _ => true) nonce before fuel opt.

(** Every column of the inventory, one after the other. *)
Lemma quiet_columns_spec fuel cs s :
  never_removes opt -> 1 <= po_Batch opt -> 2 <= po_MaxSweeps opt ->
  ForallOrdPairs distinct_columns cs ->
  (forall c, c ∈ cs -> sealable c (ps_db s) /\ settles c (ps_db s)) -> listed (ps_db s) ->
  (forall t, (length (rows (ps_db s) t) < fuel)%nat) ->
  exists s', quiet_columns fuel cs s = (Ok tt, s') /\
    res_grows (ps_res s) (ps_res s') /\ sd_losses (ps_db s') = sd_losses (ps_db s) /\
    (forall t, Forall2 (row_done cs t) (rows (ps_db s) t) (rows (ps_db s') t)) /\
    (forall c x, c ∈ cs -> x ∈ rows (ps_db s) (sc_Table c) -> is_selected c x = true ->
       text_of c x = None -> reported c (s_ids x) (ps_res s')).
Proof.
  intros Hnr Hb Hm. revert s. induction cs as [|c cs IH]; intros s Hdis Hcs Hl Hfuel.
  { exists s. split_and!; try done; [|by intros c x ?%not_elem_of_nil].
    intros t. apply Forall2_self. intros x _. apply row_done_nil. }
  inversion_clear Hdis as [|? ? Hd1 Hd2]. destruct (Hcs c ltac:(left)) as [Hse Hset].
  destruct (quiet_column_spec fuel (Z.to_nat (po_MaxSweeps opt - 1)) c s) as (s1 & E1 & G1 & R1 & C1);
    try done; [lia|].
  assert (Hids : forall t, map s_ids (rows (ps_db s1) t) = map s_ids (rows (ps_db s) t)).
  { apply (column_after_ids _ _ _ _ C1). intros x x' _. apply done_row_ids. }
  destruct C1 as (L1 & T1 & F1).
  assert (D1 : forall t, Forall2 (row_done [c] t) (rows (ps_db s) t) (rows (ps_db s1) t)).
  { intros t. destruct (decide (t = sc_Table c)) as [->|Hne].
    - eapply Forall2_impl; [exact F1|]. apply row_done_one.
    - rewrite T1 by done. apply Forall2_self. intros x _. by apply row_done_other. }
  assert (Hsame : forall c' x x', c' ∈ cs -> row_done [c] (sc_Table c') x x' ->
    value (sc_Column c') x' = value (sc_Column c') x).
  { intros c' x x' Hc' (_ & _ & _ & _ & Ho). apply Ho. intros c0 ->%list_elem_of_singleton Ht.
    rewrite Forall_forall in Hd1. destruct (Hd1 c' Hc'); congruence. }
  destruct (IH s1 Hd2) as (s2 & E2 & G2 & L2 & D2 & R2).
  { intros c' Hc'. destruct (Hcs c' ltac:(by right)) as [S1 S2]. split.
    - by apply (sealable_ids c' (ps_db s)).
    - apply (settles_after c' c' (ps_db s)); [done| |done]. intros x' Hx'.
      apply list_elem_of_lookup in Hx' as [i Hi'].
      destruct (Forall2_lookup_r _ _ _ _ _ (D1 (sc_Table c')) Hi') as (x & Hi & Hd).
      exists x. split; [by eapply list_elem_of_lookup_2|]. split; [symmetry; apply Hd|].
      symmetry. by apply Hsame. }
  { by apply (listed_ids (ps_db s)). }
  { intros t. rewrite <- (length_map s_ids), Hids, length_map. apply Hfuel. }
  exists s2. unfold quiet_columns. cbn [run_columns]. unfold pbind, runColumn.
  change (column_sweeps (fun _ d => d) (fun _ => true) (fun _ => true) nonce before fuel
    (Z.to_nat (po_MaxSweeps opt - 1)) opt c s) with (quiet_column fuel (Z.to_nat (po_MaxSweeps opt - 1)) c s).
  rewrite E1. split; [exact E2|]. split_and!; [by transitivity (ps_res s1)|congruence| |].
  - intros t. eapply Forall2_trans_cond; [|apply D1|apply D2]. intros x y z _. by apply row_done_cons.
  - intros c' x [->|Hc']%elem_of_cons Hx Hs Hn; [by eapply reported_grows; [exact G2|]; apply R1|].
    apply list_elem_of_lookup in Hx as [i Hi].
    destruct (Forall2_lookup_l _ _ _ _ _ (D1 (sc_Table c')) Hi) as (x' & Hi' & Hd).
    pose proof (Hsame c' x x' Hc' Hd) as Hv. pose proof (proj1 Hd) as Hi2. rewrite <- Hi2.
    apply R2; [done|by eapply list_elem_of_lookup_2| |].
    + unfold is_selected in *. by rewrite Hv.
    + rewrite <- Hn. by apply text_of_same.
Qed.
End Quiet.

(** ** The passes of the operator *)

Lemma Inventory_distinct : ForallOrdPairs distinct_columns Inventory.
Proof.
  unfold Inventory, column.
  repeat (apply FOP_cons; [repeat (apply List.Forall_cons || apply List.Forall_nil);
    (left; discriminate) || (right; discriminate)|]). apply FOP_nil.
Qed.

Lemma ascii_envelope dek body : dek_id dek -> ascii_text (envelope dek body) = true.
Proof.
  intros Hd. unfold dek_id in Hd. unfold ascii_text, envelope. rewrite !sforallb_app.
  rewrite (sforallb_impl is_digit _ (itoa dek)); [| |apply itoa_pos; lia].
  - rewrite (sforallb_impl b64url_char _ (EncodeToString _ _)); [done| |apply b64url_all].
    intros ch H. unfold b64url_char, is_upper, is_lower, is_digit in H. apply Z.ltb_lt.
    destruct (Ascii.eqb ch "-") eqn:E1; [apply Ascii.eqb_eq in E1; subst ch; by vm_compute|].
    destruct (Ascii.eqb ch "_") eqn:E2; [apply Ascii.eqb_eq in E2; subst ch; by vm_compute|].
    rewrite !orb_false_r in H. rewrite !orb_true_iff, !andb_true_iff, !Z.leb_le in H. lia.
  - intros c. unfold is_digit. intros H. zbool. apply Z.ltb_lt. lia.
Qed.

Lemma envelope_selected dek body retire : dek_id dek ->
  sealedPrefix (envelope dek body) = true /\
  selector PassRotate retire (Some (envelope dek body)) = String.eqb (itoa dek) (itoa retire).
Proof.
  intros Hd. assert (H : sealedPrefix (envelope dek body) = true).
  { unfold sealedPrefix. rewrite sql_left_ascii by by apply ascii_envelope.
    change 6%nat with (String.length Marker). rewrite <- prefix_stake. apply envelope_prefix. }
  split; [done|]. cbn [selector on_text]. rewrite H. unfold split_part. by rewrite Split_envelope.
Qed.

Lemma itoa_inj a b : dek_id a -> dek_id b -> itoa a = itoa b -> a = b.
Proof.
  intros Ha Hb E. pose proof (parseDEKID_itoa a Ha) as H. rewrite E, parseDEKID_itoa in H by done. congruence.
Qed.

Lemma SealedDEK_envelope dek body : dek_id dek -> SealedDEK (envelope dek body) = Some dek.
Proof.
  intros Hd. unfold SealedDEK. rewrite envelope_prefix, Split_envelope by done. by apply parseDEKID_itoa.
Qed.

(** The options of the operator's passes. *)
Definition operator_pass (kind : PassKind) (batch retire : Z) (k : Keyring) : PassOptions :=
  {| po_Kind := kind; po_Batch := batch; po_Keyring := Some k; po_Seal := None; po_Retire := retire;
     po_EmptyUndecryptable := false; po_MaxSweeps := 0 |}.

Section Operator.
Context {A : AEAD} {L : AEADLaws A}.
Context (nonce : nat -> string) (before : string -> list string -> list string -> bool)
  (k : Keyring) (e : dekEntry).
Context {O : RowOrder before}.

(** A keyring that seals: its active key is one of its keys. *)
Definition ready : Prop :=
  dek_id (active k) /\ deks k !! active k = Some e /\ forall n, String.length (nonce n) = NonceSize.

(** The bindings of the rows can be encoded. *)
Definition encodable (db : SecretDB) : Prop :=
  forall c x, c ∈ Inventory -> x ∈ rows db (sc_Table c) -> is_Some (aad (BindingOf c (s_ids x))).

Lemma SealActive_envelope b p n cs w cs' :
  p <> "" -> SealActive k b p (nonce n) cs = (Ok w, cs') ->
  exists body, w = envelope (active k) body.
Proof. intros Hp [[? _]|[_ (? & ? & _ & _ & ->)]]%SealWith_Ok; [done|by eexists]. Qed.

Lemma operator_sealable kind batch retire c db :
  ready -> encodable db -> c ∈ Inventory ->
  sealable nonce (defaulted (operator_pass kind batch retire k)) c db.
Proof.
  intros (Hd & He & _) Henc Hc _. exists (SealActive k). split; [done|]. intros x p n cs Hx.
  destruct (Henc c x Hc Hx) as [a Ha]. unfold SealActive, SealWith.
  destruct (String.eqb p ""); [by eexists _, _|]. rewrite He, Ha. by eexists _, _.
Qed.

Lemma operator_settles kind batch retire c db :
  ready -> dek_id retire -> retire <> active k -> kind <> PassDecrypt ->
  settles nonce (defaulted (operator_pass kind batch retire k)) c db.
Proof.
  intros (Hd & He & _) Hr Hne Hk x p w Hx Hs Ht Hg.
  assert (G : exists n cs cs', SealActive k (BindingOf c (s_ids x)) p (nonce n) cs = (Ok w, cs')).
  { unfold good in Hg. cbn in Hg. destruct kind; [| |done];
      destruct Hg as (f & n & cs & cs' & Ef & E); injection Ef as <-; by exists n, cs, cs'. }
  destruct G as (n & cs & cs' & E). cbn [defaulted operator_pass po_Kind po_Retire].
  destruct (String.eqb_spec p "") as [->|Hp].
  - unfold SealActive, SealWith in E. cbn in E. injection E as <- _. by destruct kind.
  - destruct (SealActive_envelope _ _ _ _ _ _ Hp E) as [body ->].
    destruct (envelope_selected (active k) body retire Hd) as [H1 H2].
    destruct kind; [|rewrite H2; apply String.eqb_neq; intros Hi; apply Hne; symmetry; by apply itoa_inj|done].
    cbn [selector on_text]. by rewrite H1, andb_false_r.
Qed.

Lemma convert_settles batch c db :
  ready -> settles nonce (defaulted (operator_pass PassConvert batch 0 k)) c db.
Proof.
  intros (Hd & _ & _).
  intros x p w Hx Hs Ht Hg. cbn [defaulted operator_pass po_Kind po_Retire] in *.
  destruct Hg as (f & n & cs & cs' & Ef & Es). injection Ef as <-.
  assert (Hp : p <> "").
  { unfold is_selected in Hs. cbn [defaulted operator_pass po_Kind po_Retire] in Hs.
    destruct (selected_text _ _ _ Hs) as [v Hv]. unfold text_of, plain_of in Ht.
    cbn [defaulted operator_pass po_Kind] in Ht. rewrite Hv in Hs, Ht. cbn in Ht, Hs.
    destruct (Classify v); try done. injection Ht as <-. intros ->. done. }
  destruct (SealActive_envelope _ _ _ _ _ _ Hp Es) as [body ->].
  destruct (envelope_selected (active k) body 0 Hd) as [H1 _]. cbn [selector on_text].
  by rewrite H1, andb_false_r.
Qed.

(** An undisturbed pass over the whole inventory. *)
Lemma RunPass_quiet fuel kind batch retire cnt db :
  listed before db -> (forall t, (length (rows db t) < fuel)%nat) ->
  (forall c, c ∈ Inventory -> sealable nonce (defaulted (operator_pass kind batch retire k)) c db /\
     settles nonce (defaulted (operator_pass kind batch retire k)) c db) ->
  exists s', RunPass (fun _ d => d) (fun _ => true) (fun _ => true) nonce before fuel
      (operator_pass kind batch retire k) cnt db = (Ok tt, s') /\
    Partial (ps_res s') = false /\
    (forall t, Forall2 (row_done nonce (defaulted (operator_pass kind batch retire k)) Inventory t)
       (rows db t) (rows (ps_db s') t)) /\
    (forall c x, c ∈ Inventory -> x ∈ rows db (sc_Table c) ->
       is_selected (defaulted (operator_pass kind batch retire k)) c x = true ->
       text_of (defaulted (operator_pass kind batch retire k)) c x = None ->
       reported c (s_ids x) (ps_res s')).
Proof.
  intros Hl Hfuel Hcs. unfold RunPass.
  destruct (quiet_columns_spec nonce before (defaulted (operator_pass kind batch retire k)) fuel Inventory
    {| ps_db := db; ps_res := empty_result; ps_counts := cnt; ps_batches := 0; ps_seals := 0 |})
    as (s' & E & G & _ & D & R); try done.
  - cbn. destruct (Z.leb_spec batch 0); lia.
  - apply Inventory_distinct.
  - exists s'. split; [exact E|]. split; [apply G|]. by split.
Qed.
End Operator.

(** Converting encrypts everything that is plain.  On a database no other
    session writes to, the pass ends, is not partial, and leaves in every
    column of the inventory each row in its place: a value selected as plain is
    now an envelope under the active data key that opens to the same text; any
    other value is untouched, and reported if the database selected it though
    the application does not call it plain. *)
Theorem convert_seals_everything `{L : AEADLaws} nonce before k e `{!RowOrder before} fuel batch cnt db :
  ready nonce k e -> encodable db -> listed before db -> (forall t, (length (rows db t) < fuel)%nat) ->
  exists s', RunPass (fun _ d => d) (fun _ => true) (fun _ => true) nonce before fuel
      (operator_pass PassConvert batch 0 k) cnt db = (Ok tt, s') /\
    Partial (ps_res s') = false /\
    forall c, c ∈ Inventory ->
      Forall2 (fun x x' => s_ids x' = s_ids x /\
        match value (sc_Column c) x with
        | Some v =>
            if selector PassConvert 0 (Some v) then
              if bool_decide (Classify v = KindPlain) then
                exists w, value (sc_Column c) x' = Some w /\
                  Open (Some k) (BindingOf c (s_ids x)) w = Ok v /\ SealedDEK w = Some (active k)
              else value (sc_Column c) x' = Some v /\ reported c (s_ids x) (ps_res s')
            else value (sc_Column c) x' = Some v
        | None => value (sc_Column c) x' = None
        end) (rows db (sc_Table c)) (rows (ps_db s') (sc_Table c)).
Proof.
  intros Hr Henc Hl Hfuel. pose proof Hr as (Hd & He & Hn).
  destruct (RunPass_quiet nonce before k fuel PassConvert batch 0 cnt db) as (s' & E & P & D & R); try done.
  { intros c Hc. split; [by eapply operator_sealable|by eapply convert_settles]. }
  exists s'. split; [done|]. split; [done|]. intros c Hc. specialize (R c).
  assert (HI : forall x, x ∈ rows db (sc_Table c) -> x ∈ rows db (sc_Table c)) by done.
  specialize (D (sc_Table c)). revert D HI. generalize (rows db (sc_Table c)) at 1 2 4.
  generalize (rows (ps_db s') (sc_Table c)). intros l' l D HI.
  induction D as [|x x' l l' Hx _ IH]; constructor; [|apply IH; intros y Hy; apply HI; by right].
  specialize (R x Hc (HI x ltac:(left))). clear IH HI. destruct Hx as (Hid & _ & _ & V & _).
  split; [done|]. specialize (V c Hc eq_refl). unfold is_selected, text_of, plain_of in *.
  cbn [defaulted operator_pass po_Kind po_Retire] in *.
  destruct (value (sc_Column c) x) as [v|] eqn:Ev; [|done]. cbn [default from_option id] in *.
  destruct (selector PassConvert 0 (Some v)) eqn:Es; [|done].
  destruct (Classify v) eqn:Ec; cbn [bool_decide]; [by split; [|apply R]| |by split; [|apply R]].
  destruct V as (w & (f & n & cs & cs' & Ef & Es') & Hw). injection Ef as <-. exists w. split; [done|].
  assert (Hp : v <> "") by by intros ->.
  split; [by apply (SealWith_opens k k (active k) _ _ _ _ _ _ e e Hd (Hn n) He He eq_refl Es')|].
  destruct (SealActive_envelope nonce k _ _ _ _ _ _ Hp Es') as [body ->]. by apply SealedDEK_envelope.
Qed.

Lemma count_where_zero f db c :
  (forall x, x ∈ rows db (sc_Table c) -> f (value (sc_Column c) x) = false) -> count_where f db c = 0.
Proof.
  unfold count_where, keep. induction (rows db (sc_Table c)) as [|x l IH]; intros H; [done|].
  cbn [List.filter]. rewrite H by left. apply IH. intros y Hy. apply H. by right.
Qed.

Lemma sum_over_zero {X} (f : X -> Z) l : (forall x, x ∈ l -> f x = 0) -> sum_over f l = 0.
Proof.
  induction l as [|x l IH]; intros H; [done|]. cbn. rewrite H by left. cbn. apply IH.
  intros y Hy. apply H. by right.
Qed.

(** C24: Re-encrypting empties the retired key and keeps every secret.  The keyring holds
    its active data key, random nonces have their size, and the retired key is
    another one; the places of the rows can be bound, every table lists distinct
    identities in order, and the fuel exceeds the rows of any table, so that
    it bounds the batches of a sweep.  Then, on a
    database no other session writes to, the pass ends and is not partial; a
    value under the retired key is afterwards under the active one (an empty
    text is stored as no envelope at all) and opens to the same text, unless it did not open, when it is untouched and reported;
    all other values are untouched.  When every value under the retired key
    opens, none is left under it. *)
Theorem rotate_keeps_secrets `{L : AEADLaws} nonce before k e `{!RowOrder before} fuel batch retire cnt db :
  ready nonce k e -> dek_id retire -> retire <> active k ->
  encodable db -> listed before db -> (forall t, (length (rows db t) < fuel)%nat) ->
  exists s', RunPass (fun _ d => d) (fun _ => true) (fun _ => true) nonce before fuel
      (operator_pass PassRotate batch retire k) cnt db = (Ok tt, s') /\
    Partial (ps_res s') = false /\
    (forall c, c ∈ Inventory ->
      Forall2 (fun x x' => s_ids x' = s_ids x /\
        if selector PassRotate retire (value (sc_Column c) x) then
          match Open (Some k) (BindingOf c (s_ids x)) (default "" (value (sc_Column c) x)) with
          | Ok p => exists w, value (sc_Column c) x' = Some w /\
              Open (Some k) (BindingOf c (s_ids x)) w = Ok p /\ (p <> "" -> SealedDEK w = Some (active k))
          | Err _ => value (sc_Column c) x' = value (sc_Column c) x /\ reported c (s_ids x) (ps_res s')
          end
        else value (sc_Column c) x' = value (sc_Column c) x)
        (rows db (sc_Table c)) (rows (ps_db s') (sc_Table c))) /\
    ((forall c x, c ∈ Inventory -> x ∈ rows db (sc_Table c) ->
        selector PassRotate retire (value (sc_Column c) x) = true ->
        exists p, Open (Some k) (BindingOf c (s_ids x)) (default "" (value (sc_Column c) x)) = Ok p) ->
     CountValuesUnder (ps_db s') retire = 0).
Proof.
  intros Hr Hret Hne Henc Hl Hfuel. pose proof Hr as (Hd & He & Hn).
  assert (Hset : forall c, settles nonce (defaulted (operator_pass PassRotate batch retire k)) c db).
  { intros c. by eapply operator_settles. }
  destruct (RunPass_quiet nonce before k fuel PassRotate batch retire cnt db) as (s' & E & P & D & R); try done.
  { intros c Hc. split; [by eapply operator_sealable|by apply Hset]. }
  exists s'. split; [done|]. split; [done|]. split.
  - intros c Hc. specialize (R c). specialize (D (sc_Table c)).
    eapply Forall2_trans_cond; [|exact D|by apply (Forall2_self eq)]. intros x x' ? Hx Hrow <-.
    specialize (R x Hc Hx). destruct Hrow as (Hid & _ & _ & V & _).
    split; [done|]. specialize (V c Hc eq_refl). unfold is_selected, text_of, plain_of in *.
    cbn [defaulted operator_pass po_Kind po_Retire po_Keyring] in *.
    destruct (selector PassRotate retire (value (sc_Column c) x)) eqn:Es; [|done].
    destruct (Open _ _ _) as [p|de]; [|by split; [|apply R]].
    destruct V as (w & (f & n & cs & cs' & Ef & Es') & Hw). injection Ef as <-. exists w. split; [done|].
    split; [by apply (SealWith_opens k k (active k) _ _ _ _ _ _ e e Hd (Hn n) He He eq_refl Es')|].
    intros Hp. destruct (SealActive_envelope nonce k _ _ _ _ _ _ Hp Es') as [body ->].
    by apply SealedDEK_envelope.
  - intros Hall. unfold CountValuesUnder. apply sum_over_zero. intros c Hc. apply count_where_zero.
    intros x' Hx'. apply list_elem_of_lookup in Hx' as [i Hi'].
    destruct (Forall2_lookup_r _ _ _ _ _ (D (sc_Table c)) Hi') as (x & Hi & Hrow).
    apply list_elem_of_lookup_2 in Hi. destruct Hrow as (_ & _ & _ & V & _). specialize (V c Hc eq_refl).
    specialize (Hset c x). specialize (Hall c x Hc Hi). unfold is_selected, text_of, plain_of in *.
    cbn [defaulted operator_pass po_Kind po_Retire po_Keyring] in *.
    destruct (selector PassRotate retire (value (sc_Column c) x)) eqn:Es; [|by rewrite V].
    destruct (Hall eq_refl) as [p Ho]. rewrite Ho in V. destruct V as (w & Hg & ->).
    apply (Hset p w); [done|done|by rewrite Ho|done].
Qed.

(** A row after the conversion: a value as it was, not encrypted, or an envelope of it. *)
Definition converted `{AEAD} (k : Keyring) (c : SecretColumn) (x x1 : SRow) : Prop :=
  (value (sc_Column c) x1 = value (sc_Column c) x /\ selector PassDecrypt 0 (value (sc_Column c) x) = false) \/
  exists v w, value (sc_Column c) x = Some v /\ value (sc_Column c) x1 = Some w /\
    selector PassDecrypt 0 (Some w) = true /\ Open (Some k) (BindingOf c (s_ids x)) w = Ok v /\
    sealedOrDamaged v = false.

Lemma row_done_converted `{L : AEADLaws} nonce k e batch c x x1 :
  ready nonce k e -> c ∈ Inventory ->
  (forall v, value (sc_Column c) x = Some v -> sealedOrDamaged v = false /\ Classify v <> KindSealed) ->
  row_done nonce (defaulted (operator_pass PassConvert batch 0 k)) Inventory (sc_Table c) x x1 ->
  converted k c x x1.
Proof.
  intros (Hd & He & Hn) Hc Hplain (_ & _ & _ & V & _). specialize (V c Hc eq_refl). unfold converted.
  unfold is_selected, text_of, plain_of in V.
  cbn [defaulted operator_pass po_Kind po_Retire po_Keyring] in V.
  destruct (value (sc_Column c) x) as [v|] eqn:Ev; [|by left]. cbn [default from_option id] in V.
  destruct (Hplain v eq_refl) as [Hs Hk].
  assert (Hsel : selector PassConvert 0 (Some v) = negb (String.eqb v "")).
  { cbn [selector on_text]. unfold sealedOrDamaged in Hs. apply orb_false_iff in Hs as [-> ->].
    by rewrite !andb_true_r. }
  rewrite Hsel in V. destruct (String.eqb_spec v "") as [->|Hv]; cbn [negb] in V; [by left|].
  destruct (Classify v) eqn:Ec; [|right|done].
  { unfold Classify in Ec. destruct (String.eqb_spec v ""); [done|].
    destruct (HasPrefix v Marker); [done|]. by destruct (damagedMarker v). }
  destruct V as (w & (f & n & cs & cs' & Ef & Es') & Hw). injection Ef as <-. exists v, w.
  destruct (SealActive_envelope nonce k _ _ _ _ _ _ Hv Es') as [body Eb].
  split_and!; [done|done| | |done].
  - cbn [selector on_text]. unfold sealedOrDamaged. rewrite Eb.
    by destruct (envelope_selected (active k) body 0 Hd) as [-> _].
  - by apply (SealWith_opens k k (active k) _ _ _ _ _ _ e e Hd (Hn n) He He eq_refl Es').
Qed.

(** A decryption settles a column of converted rows. *)
Lemma converted_settles `{AEAD} nonce k batch c db1 :
  (forall x1, x1 ∈ rows db1 (sc_Table c) -> exists x, converted k c x x1 /\ s_ids x1 = s_ids x) ->
  settles nonce (defaulted (operator_pass PassDecrypt batch 0 k)) c db1.
Proof.
  intros Hback x1 p w Hx1 Hs Ht Hg.
  cbn [defaulted operator_pass po_Kind po_Retire] in *. unfold good in Hg. cbn in Hg. subst w.
  unfold is_selected, text_of, plain_of in *. cbn [defaulted operator_pass po_Kind po_Retire po_Keyring] in *.
  destruct (Hback x1 Hx1) as (x & [[Ev Hno]|(v & w & Ev & Ew & _ & Ho & Hv)] & Eid).
  - rewrite Ev in Hs. congruence.
  - rewrite Ew, Eid in Ht. cbn [default from_option id] in Ht. rewrite Ho in Ht. by injection Ht as <-.
Qed.

(** C13: Decrypting undoes the conversion, on a database no other session writes to.
    If no value of the database looks encrypted, to the database or to the application, then converting and
    then decrypting with the same keyring gives every column of the inventory
    its values back, row by row. *)
Theorem convert_decrypt_roundtrip `{L : AEADLaws} nonce before k e `{!RowOrder before} fuel batch cnt db :
  ready nonce k e -> encodable db -> listed before db -> (forall t, (length (rows db t) < fuel)%nat) ->
  (forall c x v, c ∈ Inventory -> x ∈ rows db (sc_Table c) -> value (sc_Column c) x = Some v ->
     sealedOrDamaged v = false /\ Classify v <> KindSealed) ->
  exists s1 s2,
    RunPass (fun _ d => d) (fun _ => true) (fun _ => true) nonce before fuel
      (operator_pass PassConvert batch 0 k) cnt db = (Ok tt, s1) /\
    RunPass (fun _ d => d) (fun _ => true) (fun _ => true) nonce before fuel
      (operator_pass PassDecrypt batch 0 k) (ps_counts s1) (ps_db s1) = (Ok tt, s2) /\
    forall c, c ∈ Inventory ->
      Forall2 (fun x x'' => s_ids x'' = s_ids x /\ value (sc_Column c) x'' = value (sc_Column c) x)
        (rows db (sc_Table c)) (rows (ps_db s2) (sc_Table c)).
Proof.
  intros Hr Henc Hl Hfuel Hplain. pose proof Hr as (Hd & He & Hn).
  destruct (RunPass_quiet nonce before k fuel PassConvert batch 0 cnt db) as (s1 & E1 & _ & D1 & _); try done.
  { intros c Hc. split; [by eapply operator_sealable|by eapply convert_settles]. }
  assert (C1 : forall c x x1, c ∈ Inventory -> x ∈ rows db (sc_Table c) ->
    row_done nonce (defaulted (operator_pass PassConvert batch 0 k)) Inventory (sc_Table c) x x1 ->
    converted k c x x1).
  { intros c x x1 Hc Hx. apply (row_done_converted nonce k e batch c x x1 Hr Hc).
    intros v. by apply (Hplain c x v Hc Hx). }
  assert (Hids : forall t, map s_ids (rows (ps_db s1) t) = map s_ids (rows db t)).
  { intros t. apply (map_ids_same _ _ _ (D1 t)). intros x x' _ Hx. apply Hx. }
  destruct (RunPass_quiet nonce before k fuel PassDecrypt batch 0 (ps_counts s1) (ps_db s1))
    as (s2 & E2 & _ & D2 & _).
  { by apply (listed_ids before db). }
  { intros t. rewrite <- (length_map s_ids), Hids, length_map. apply Hfuel. }
  { intros c Hc. split; [by intros []|]. apply converted_settles.
    intros x1 [i Hi']%list_elem_of_lookup.
    destruct (Forall2_lookup_r _ _ _ _ _ (D1 (sc_Table c)) Hi') as (x & Hi & Hrow).
    exists x. split; [apply C1; [done|by eapply list_elem_of_lookup_2|done]|apply Hrow]. }
  exists s1, s2. split; [done|]. split; [done|]. intros c Hc.
  eapply Forall2_trans_cond; [|apply D1|apply D2]. intros x x1 x2 Hx H1 H2.
  pose proof (C1 c x x1 Hc Hx H1) as Hconv. destruct H1 as (I1 & _), H2 as (I2 & _ & _ & V & _).
  split; [congruence|]. specialize (V c Hc eq_refl). unfold is_selected, text_of, plain_of in V.
  cbn [defaulted operator_pass po_Kind po_Retire po_Keyring] in V.
  destruct Hconv as [[Ev Hno]|(v & w & Ev & Ew & Hs & Ho & _)].
  - rewrite Ev, Hno in V. exact V.
  - rewrite Ew, Hs, I1 in V. cbn [default from_option id] in V. rewrite Ho in V.
    destruct V as (w' & Hg & ->). unfold good in Hg. cbn in Hg. by rewrite Hg, Ev.
Qed.

(** ** Removal *)

Lemma value_removed_row xid c r col :
  value col (removed_row xid c r) = if decide (sc_Column c = col) then Some "" else value col r.
Proof.
  rewrite <- (value_set_value xid (sc_Column c) "" r col). unfold removed_row. cbv zeta.
  repeat case_if; done.
Qed.

Lemma removed_row_ids xid c r : s_ids (removed_row xid c r) = s_ids r.
Proof. unfold removed_row. cbv zeta. repeat case_if; done. Qed.

Definition sealed_in (col : string) (x : SRow) : bool := on_text sealedOrDamaged (value col x).

(** Rows that only lost encrypted values. *)
Definition cleared (db db' : SecretDB) : Prop :=
  forall t x', x' ∈ rows db' t -> exists x, x ∈ rows db t /\ s_ids x' = s_ids x /\
    forall col, value col x' = value col x \/ (value col x' = Some "" /\ sealed_in col x = true).

Definition kept_unsealed (cs : list SecretColumn) (db db' : SecretDB) : Prop :=
  forall t x, x ∈ rows db t ->
    (forall c, c ∈ cs -> sc_Table c = t -> sealed_in (sc_Column c) x = false) -> x ∈ rows db' t.

Definition clean (c : SecretColumn) (db : SecretDB) : Prop :=
  forall x, x ∈ rows db (sc_Table c) -> sealed_in (sc_Column c) x = false.

#[export] Instance cleared_preorder : PreOrder cleared.
Proof.
  split.
  - intros db t x Hx. exists x. split_and!; [done|done|]. by left.
  - intros a b c Hab Hbc t z Hz. destruct (Hbc t z Hz) as (y & Hy & Iy & Vy).
    destruct (Hab t y Hy) as (x & Hx & Ix & Vx). exists x. split; [done|]. split; [congruence|].
    intros col. destruct (Vy col) as [E|[E Hs]].
    + rewrite E. apply Vx.
    + destruct (Vx col) as [E2|[E2 Hs2]]; [|by right].
      right. split; [done|]. unfold sealed_in in *. by rewrite <- E2.
Qed.

Lemma cleared_clean c db db' : cleared db db' -> clean c db -> clean c db'.
Proof.
  intros H Hc x' Hx'. destruct (H _ x' Hx') as (x & Hx & _ & V). unfold sealed_in.
  destruct (V (sc_Column c)) as [->|[-> _]]; [by apply Hc|done].
Qed.

Lemma remove_spec c db :
  let db' := (removeSealedValues c (fun _ => true) db).2 in
  cleared db db' /\ clean c db' /\ kept_unsealed [c] db db'.
Proof.
  intros db'. unfold removeSealedValues in db'. cbn [snd] in db'.
  set (cond := fun r => _ && on_text sealedOrDamaged (value (sc_Column c) r)) in db'.
  assert (Hc : forall r, cond r = sealed_in (sc_Column c) r) by done.
  assert (Hrows : forall t, rows db' t = if decide (sc_Table c = t) then
    (if deletes_row c then keep (fun r => negb (cond r)) (rows db t)
     else map (fun r => if cond r then removed_row (sd_xid db) c r else r) (rows db t)) else rows db t).
  { intros t. unfold db'. rewrite rows_set_rows. destruct (decide (sc_Table c = t)) as [<-|]; [|done].
    by destruct (deletes_row c). }
  split_and!.
  - intros t x' Hx'. rewrite Hrows in Hx'. destruct (decide (sc_Table c = t)); cycle 1.
    { exists x'. split_and!; [done|done|]. by left. }
    destruct (deletes_row c).
    + apply elem_of_keep in Hx' as [Hx' _]. exists x'. split_and!; [done|done|]. by left.
    + apply list_elem_of_In, in_map_iff in Hx' as (x & <- & Hx). apply list_elem_of_In in Hx.
      exists x. split; [done|]. destruct (cond x) eqn:E; [|split; [done|by left]].
      split; [apply removed_row_ids|]. intros col. rewrite value_removed_row.
      destruct (decide (sc_Column c = col)) as [<-|]; [right|by left]. by rewrite <- Hc.
  - intros x' Hx'. rewrite Hrows, decide_True in Hx' by done. destruct (deletes_row c).
    + apply elem_of_keep in Hx' as [_ Hx'%negb_true_iff]. by rewrite <- Hc.
    + apply list_elem_of_In, in_map_iff in Hx' as (x & <- & Hx). destruct (cond x) eqn:E; [|by rewrite <- Hc].
      unfold sealed_in. rewrite value_removed_row, decide_True by done. done.
  - intros t x Hx Hno. rewrite Hrows. destruct (decide (sc_Table c = t)) as [Ht|]; [|done].
    specialize (Hno c ltac:(left) Ht). rewrite <- Hc in Hno. destruct (deletes_row c).
    + apply elem_of_keep. by rewrite Hno.
    + apply list_elem_of_In, in_map_iff. exists x. rewrite Hno. split; [done|by apply list_elem_of_In].
Qed.

Lemma reset_columns_spec cs res db :
  let db' := (reset_columns cs res db).2 in
  cleared db db' /\ (forall c, c ∈ cs -> clean c db') /\ kept_unsealed cs db db'.
Proof.
  revert res db. induction cs as [|c cs IH]; intros res db; cbn [reset_columns snd].
  { split_and!; [reflexivity|by intros c ?%not_elem_of_nil|by intros t x]. }
  destruct (remove_spec c db) as (C1 & C2 & C3).
  destruct (removeSealedValues c (fun _ => true) db) as [[n l] db1]. cbn [snd] in C1, C2, C3.
  set (res1 := add (Name c) (reset_verb c) n (add_losses l res)).
  destruct (IH res1 db1) as (D1 & D2 & D3).
  split_and!.
  - by transitivity db1.
  - intros c' [->|Hc']%elem_of_cons; [|by apply D2]. by eapply cleared_clean.
  - intros t x Hx Hno. apply D3.
    + apply C3; [done|]. intros c' ->%list_elem_of_singleton. apply Hno. left.
    + intros c' Hc'. apply Hno. by right.
Qed.

Lemma clean_countSealed db : (forall c, c ∈ Inventory -> clean c db) -> countSealed db = 0.
Proof. intros H. apply sum_over_zero. intros c Hc. apply count_where_zero. intros x Hx. by apply H. Qed.

(** Resetting a lost key is all or nothing and removes what is encrypted and no
    more.  When it fails no secret and no data key has changed.  When it succeeds
    no encrypted or malformed value is left, and the only data key is a new one,
    active, under the configured key, with an id no removed key had; a row that
    held nothing encrypted is exactly as it was, and a row that remains has every
    value it had except encrypted ones, which are empty. *)
Theorem ResetLostKey_clean `{L : AEADLaws} cfg commit rnd now st r st' :
  keys_wf (st_keys st) -> rnd_ok rnd -> ResetLostKey cfg commit rnd now st = (r, st') ->
  match r with
  | Err _ => st_secrets st' = st_secrets st /\ kd_keys (st_keys st') = kd_keys (st_keys st)
  | Ok (_, removed, created) =>
      countSealed (st_secrets st') = 0 /\
      removed ≡ₚ key_ids (st_keys st) /\ ~ (created ∈ removed) /\
      (exists row, kd_keys (st_keys st') = [row] /\ kr_ID row = created /\ is_active row = true /\
         kr_KEKID row = kek_ID (Active cfg)) /\
      kept_unsealed Inventory (st_secrets st) (st_secrets st') /\
      cleared (st_secrets st) (st_secrets st')
  end.
Proof.
  intros Hwf Hr. unfold ResetLostKey.
  destruct (reset_columns_spec Inventory empty_result (st_secrets st)) as (C1 & C2 & C3).
  destruct (reset_columns Inventory empty_result (st_secrets st)) as [res db1]. cbn [snd] in C1, C2, C3.
  pose proof (evolves_delete (st_keys st) Hwf) as (W1 & N1 & _).
  destruct (deleteDataKeys (st_keys st)) as [removed k1] eqn:Ed. cbn [snd] in W1.
  assert (Hk1 : kd_keys k1 = [] /\ kd_next k1 = kd_next (st_keys st) /\ removed ≡ₚ key_ids (st_keys st)).
  { unfold deleteDataKeys in Ed. injection Ed as <- <-. split_and!; [done|done|].
    unfold key_ids. by rewrite order_by_perm. }
  destruct Hk1 as (Hk1 & Hn1 & Hperm).
  destruct (insertDataKey (Active cfg) rnd now k1) as [[w|e] k2] eqn:Ei; [|by intros [= <- <-]].
  destruct (insert_wf _ _ _ _ _ _ Hr W1 Ei) as (W2 & _ & _ & row & Ek & Ew & Ha & Hid & _ & Hkek).
  destruct commit; [|by intros [= <- <-]]. intros [= <- <-]. cbn [st_secrets st_keys].
  change (countSealed (next_xid db1)) with (countSealed db1).
  split_and!; [by apply clean_countSealed|done| | |done|done].
  - rewrite Hperm, Hid, Hn1. destruct Hwf as (_ & _ & Hf & _). intros Hin.
    apply list_elem_of_In, in_map_iff in Hin as (x & Hx & Hin). apply list_elem_of_In in Hin.
    rewrite Forall_forall in Hf. destruct (Hf x Hin) as [? _]. lia.
  - exists row. rewrite Ek, Hk1. split_and!; [done| |done|]; rewrite <- ?Ew in *; done.
Qed.

(** The data keys go only when nothing needs them.  They are deleted only while
    no encrypted or malformed value is in the database; then all of them are, the
    secrets are untouched, and the schema may be downgraded.  Otherwise, or when
    the transaction fails, nothing changes. *)
Theorem DeleteAllDataKeysIfUnused_safe commit st r st' :
  DeleteAllDataKeysIfUnused commit st = (r, st') ->
  match r with
  | Ok (ids, true) =>
      countSealed (st_secrets st) = 0 /\ st_secrets st' = st_secrets st /\
      ids ≡ₚ key_ids (st_keys st) /\ kd_keys (st_keys st') = [] /\ DowngradeCheck st' = true
  | Ok (ids, false) => 0 < countSealed (st_secrets st) /\ st' = st /\ ids = [] /\ DowngradeCheck st = false
  | Err _ => st' = st
  end.
Proof.
  assert (Hpos : 0 <= countSealed (st_secrets st)).
  { unfold countSealed, sum_over, count_where. induction Inventory; cbn; lia. }
  unfold DeleteAllDataKeysIfUnused, DowngradeCheck.
  destruct (Z.ltb_spec 0 (countSealed (st_secrets st))) as [H|H].
  - intros [= <- <-]. split_and!; [done|done|done|]. by rewrite orb_true_r.
  - destruct (deleteDataKeys (st_keys st)) as [ids k1] eqn:Ed. unfold deleteDataKeys in Ed.
    injection Ed as <- <-. destruct commit; intros [= <- <-]; [|done]. cbn [st_secrets st_keys kd_keys set_keys].
    split_and!; [lia|done| |done|].
    + unfold key_ids. by rewrite order_by_perm.
    + by rewrite (proj2 (Z.ltb_ge 0 (countSealed (st_secrets st)))).
Qed.

(** ** Results *)

Definition result_wf (r : PassResult) : Prop :=
  NoDup (map (fun f => (f_Column f, f_Row f)) (Failures r)) /\
  forall col, default 0 ((default (∅ : gmap string Z) (Counts r !! col)) !! "skipped") =
    Z.of_nat (length (keep (fun f => String.eqb (f_Column f) col) (Failures r))).

Lemma add_other_wf col verb n r : verb <> "skipped" -> result_wf r -> result_wf (add col verb n r).
Proof.
  intros Hv [H1 H2]. unfold add. destruct (n =? 0); [done|]. split; [done|]. intros col'. cbn.
  rewrite <- H2. destruct (decide (col = col')) as [->|Hne].
  - rewrite lookup_insert_eq. cbn [default from_option id]. by rewrite lookup_insert_ne.
  - by rewrite lookup_insert_ne.
Qed.

Lemma fail_wf f r : result_wf r -> result_wf (fail f r).
Proof.
  intros [H1 H2]. unfold fail. destruct (existsb _ _) eqn:E; [done|]. unfold add.
  change (1 =? 0) with false. cbn [Counts Failures set_result_counts]. split; cbn [Counts Failures set_result_counts].
  - rewrite map_app. apply NoDup_app. split; [done|]. split; [|apply NoDup_singleton].
    intros [a b] (g & [= <- <-] & Hg)%list_elem_of_In%in_map_iff [= Ec Er]%list_elem_of_singleton.
    rewrite existsb_elem_false in E. apply list_elem_of_In in Hg. specialize (E g Hg).
    by rewrite Ec, Er, !String.eqb_refl in E.
  - intros col. rewrite keep_app, length_app, Nat2Z.inj_add, <- H2. unfold keep. cbn [List.filter].
    destruct (String.eqb_spec (f_Column f) col) as [<-|Hne].
    + rewrite lookup_insert_eq. cbn [default from_option id length]. by rewrite lookup_insert_eq.
    + rewrite lookup_insert_ne by done. cbn. lia.
Qed.

(** A step of a pass that keeps its result well formed. *)
Definition keeps_result {X} (m : PM X) : Prop := forall s, result_wf (ps_res s) -> result_wf (ps_res (m s).2).

Lemma keeps_bind {X Y} (m : PM X) (k : X -> PM Y) :
  keeps_result m -> (forall x, keeps_result (k x)) -> keeps_result (pbind m k).
Proof.
  intros Hm Hk s Hs. specialize (Hm s Hs). unfold pbind. destruct (m s) as [[x|e] s1]; [|done].
  by apply Hk.
Qed.

Lemma keeps_ret {X} (x : X) : keeps_result (pret x).
Proof. by intros s. Qed.

Lemma keeps_mod f : (forall r, result_wf r -> result_wf (f r)) -> keeps_result (pmod (with_res f)).
Proof. intros H s Hs. by apply H. Qed.

#[export] Hint Resolve keeps_ret keeps_mod fail_wf : paceday.

Section ResultFacts.
Context {A : AEAD}.
Context (others : nat -> SecretDB -> SecretDB) (statements commits : nat -> bool)
  (nonce : nat -> string) (before : string -> list string -> list string -> bool) (opt : PassOptions).

Lemma keeps_seal c b p : keeps_result (seal_value nonce opt c b p).
Proof.
  intros s Hs. unfold seal_value. destruct (po_Seal opt) as [f|]; [|done].
  by destruct (f _ _ _ _) as [[v|e] n].
Qed.

Lemma keeps_store c r v verb : verb <> "skipped" -> keeps_result (store c r v verb).
Proof.
  intros Hv s Hs. unfold store. destruct (compare_and_set c r v (ps_db s)) as [[] d]; [|done].
  by apply add_other_wf.
Qed.

Lemma keeps_remove c r : keeps_result (remove_row c r).
Proof.
  intros s Hs. unfold remove_row. destruct (removeSealedValues _ _ _) as [[n l] d].
  apply add_other_wf; [done|]. exact Hs.
Qed.

Lemma keeps_row c r : keeps_result (process_row nonce opt c r).
Proof.
  assert (St : forall p verb, verb <> "skipped" -> keeps_result
    (pbind (seal_value nonce opt c (BindingOf c (pr_ids r)) p) (fun v => store c r v verb))).
  { intros p verb Hv. apply keeps_bind; [apply keeps_seal|]. intros v. by apply keeps_store. }
  unfold process_row. destruct (po_Kind opt).
  - destruct (Classify _); [|by apply St|]; apply keeps_bind; auto with paceday.
  - destruct (Open _ _ _); [by apply St|]. apply keeps_bind; auto with paceday.
  - destruct (Open _ _ _); [by apply keeps_store|]. destruct (po_EmptyUndecryptable opt);
      [apply keeps_remove|]. apply keeps_bind; auto with paceday.
Qed.

Lemma keeps_rows c rs : keeps_result (process_rows nonce opt c rs).
Proof.
  induction rs as [|r rs IH]; [apply keeps_ret|]. cbn [process_rows].
  apply keeps_bind; [apply keeps_row|]. intros o. apply keeps_bind; [done|]. intros uc. apply keeps_ret.
Qed.

Lemma keeps_batch c cursor :
  keeps_result (runBatch others statements commits nonce before opt c cursor).
Proof.
  intros s Hs. unfold runBatch. cbv zeta. destruct (statements _); cbn [negb]; [|done].
  pose proof (keeps_rows c (select_batch before opt c cursor (ps_db (next_batch s)))
    (with_db (others (ps_batches s) (ps_db (next_batch s))) (next_batch s)) Hs) as H.
  destruct (process_rows _ _ _ _ _) as [[[u k]|e] s1]; [|done]. by destruct (commits _).
Qed.

Lemma keeps_sweep fuel c cursor :
  keeps_result (sweepColumn others statements commits nonce before fuel opt c cursor).
Proof.
  revert cursor. induction fuel as [|fuel IH]; intros cursor; [by intros s|]. cbn [sweepColumn].
  apply keeps_bind; [apply keeps_batch|]. intros [[rs u] k]. destruct (_ <? _); [apply keeps_ret|].
  apply keeps_bind; [apply IH|]. intros uk. apply keeps_ret.
Qed.

Lemma keeps_column fuel sweeps c :
  keeps_result (column_sweeps others statements commits nonce before fuel sweeps opt c).
Proof.
  induction sweeps as [|sweeps IH]; cbn [column_sweeps]; (apply keeps_bind; [apply keeps_sweep|]);
    intros uk; (destruct (_ && _); [apply keeps_ret|]); [|done].
  intros s Hs. cbn [snd]. by destruct (0 <? _).
Qed.

Lemma keeps_columns fuel cs :
  keeps_result (run_columns others statements commits nonce before fuel opt cs).
Proof.
  induction cs as [|c cs IH]; [apply keeps_ret|]. cbn [run_columns].
  apply keeps_bind; [apply keeps_column|done].
Qed.
End ResultFacts.

(** A pass reports a value it cannot process once.  However many sweeps see it,
    whatever other sessions do and wherever the pass stops, no two failures are
    of the same row and column, and the values counted as skipped in a column are
    its failures. *)
Theorem failures_once `{AEAD} others statements commits nonce before fuel opt cnt db r s :
  RunPass others statements commits nonce before fuel opt cnt db = (r, s) -> result_wf (ps_res s).
Proof.
  intros E. unfold RunPass in E.
  set (s0 := {| ps_db := db; ps_res := empty_result; ps_counts := cnt; ps_batches := 0; ps_seals := 0 |}) in E.
  pose proof (keeps_columns others statements commits nonce before (defaulted opt) fuel Inventory s0) as K.
  rewrite E in K. apply K. split; [constructor|]. intros col. cbn. by rewrite lookup_empty.
Qed.

(** ** Concrete runs *)

#[local] Existing Instances Toy.aead Toy.laws.

Module OpsDemo.
Definition nonce (n : nat) : string := Toy.nonce.
(** An order of identities: by the length of the first. *)
Definition before (t : string) (a b : list string) : bool :=
  Nat.ltb (String.length (nth 0 a "")) (String.length (nth 0 b "")).
#[export] Instance order : RowOrder before.
Proof.
  split; unfold before.
  - intros t a. apply Nat.ltb_irrefl.
  - intros t a b c. rewrite !Nat.ltb_lt. lia.
Qed.
Definition row (user : string) (xmin : Z) (cols : list (string * option string)) : SRow :=
  {| s_ids := [user]; s_cols := list_to_map cols; s_xmin := xmin; s_conferencing := "zoom";
     s_enabled := true |}.
Definition alice : SRow := row "u" 1 [("zoom_tokens", Some "token"); ("webcal_url", Some "")].
Definition bob : SRow := row "uu" 1 [("zoom_tokens", Some "other"); ("microsoft_tokens", None)].
Definition bob_later : SRow := row "uu" 5 [("zoom_tokens", Some "newer"); ("microsoft_tokens", None)].
Definition with_settings (l : list SRow) : SecretDB :=
  {| sd_tables := {["settings" := l]}; sd_losses := []; sd_xid := 7 |}.
Definition db : SecretDB := with_settings [alice; bob].
(** The session that writes Bob's row between a SELECT and its UPDATEs. *)
Definition meanwhile (n : nat) (d : SecretDB) : SecretDB := with_settings [alice; bob_later].
Definition zoom : SecretColumn := column "S3" "settings" "zoom_tokens" ["user_id"] false.
Definition start : PassState :=
  {| ps_db := db; ps_res := empty_result; ps_counts := ∅; ps_batches := 0; ps_seals := 0 |}.
(** A sealer that works once: the lease lapses. *)
Definition once : Sealer := fun b p n c =>
  if bool_decide (c = ∅) then SealActive Toy.ring b p n c else (Err ErrSealPaused, c).
Definition lapsing : PassOptions :=
  {| po_Kind := PassConvert; po_Batch := 100; po_Keyring := Some Toy.ring; po_Seal := Some once;
     po_Retire := 0; po_EmptyUndecryptable := false; po_MaxSweeps := 3 |}.
Definition old_ring : Keyring := {| deks := <[2 := Toy.entry]> (deks Toy.ring); active := 2 |}.
Definition store_ : Store := {| st_secrets := db; st_keys := Demo.older |}.
(** A value under a data key that is gone, and the one Alice stores on reconnecting. *)
Definition lost : SRow := row "u" 1 [("zoom_tokens", Some "pdenc:1:9:AAAA")].
Definition renewed_text : string :=
  match (SealActive Toy.ring (BindingOf zoom ["u"]) "renewed" Toy.nonce ∅).1 with Ok v => v | Err _ => "" end.
Definition renewed : SRow := row "u" 5 [("zoom_tokens", Some renewed_text)].
Definition reconnecting (n : nat) (d : SecretDB) : SecretDB := with_settings [renewed].
Definition emptying : PassOptions :=
  {| po_Kind := PassDecrypt; po_Batch := 100; po_Keyring := Some Toy.ring; po_Seal := None;
     po_Retire := 0; po_EmptyUndecryptable := true; po_MaxSweeps := 3 |}.
Definition lost_start : PassState :=
  {| ps_db := with_settings [lost]; ps_res := empty_result; ps_counts := ∅; ps_batches := 0; ps_seals := 0 |}.
End OpsDemo.

#[local] Existing Instance OpsDemo.order.

(** A batch that is rolled back leaves its rows in the counts: the lease lapses at
    the second value, the first is back to plain, and the result says that one
    value was encrypted. *)
Lemma rolled_back_rows_are_counted :
  let '(r, s) := RunPass (fun _ d => d) (fun _ => true) (fun _ => true) OpsDemo.nonce OpsDemo.before 3
                   OpsDemo.lapsing ∅ OpsDemo.db in
  r = Err (ErrSeal "settings.zoom_tokens" ErrSealPaused) /\
  sd_tables (ps_db s) = sd_tables OpsDemo.db /\
  Total "encrypted" (ps_res s) = 1.
Proof. by vm_compute. Qed.

(** Removing what does not open compares no version: a value that another session
    stored after the SELECT, and that opens, is emptied with the one the pass read.
    The backends are stopped for this command; their absence is all that prevents
    it. *)
Lemma removal_takes_a_newer_value :
  let '(r, s) := runBatch OpsDemo.reconnecting (fun _ => true) (fun _ => true) OpsDemo.nonce OpsDemo.before
                   OpsDemo.emptying OpsDemo.zoom None OpsDemo.lost_start in
  Open (Some Toy.ring) (BindingOf OpsDemo.zoom ["u"]) OpsDemo.renewed_text = Ok "renewed" /\
  map (value "zoom_tokens") (rows (ps_db s) "settings") = [Some ""].
Proof. by vm_compute. Qed.

Lemma ready_demo : ready OpsDemo.nonce Toy.ring Toy.entry.
Proof. by vm_compute. Qed.

Lemma rows_demo l t : rows (OpsDemo.with_settings l) t = if decide (t = "settings") then l else [].
Proof.
  unfold rows, OpsDemo.with_settings. cbn [sd_tables]. destruct (decide (t = "settings")) as [->|Hne].
  - by rewrite lookup_singleton_eq.
  - by rewrite lookup_singleton_ne.
Qed.

Lemma listed_demo : listed OpsDemo.before OpsDemo.db.
Proof.
  intros t. unfold OpsDemo.db. rewrite rows_demo. destruct (decide _); [|constructor].
  apply SSorted_cons; [apply SSorted_cons; constructor|]. by constructor.
Qed.

Lemma fuel_demo t : (length (rows OpsDemo.db t) < 3)%nat.
Proof. unfold OpsDemo.db. rewrite rows_demo. destruct (decide _); cbn; lia. Qed.

Lemma encodable_demo : encodable OpsDemo.db.
Proof.
  assert (H : forallb (fun c => forallb (fun x => bool_decide (is_Some (aad (BindingOf c (s_ids x)))))
    (rows OpsDemo.db (sc_Table c))) Inventory = true) by by vm_compute.
  rewrite forallb_elem in H. intros c x Hc Hx. specialize (H c Hc). rewrite forallb_elem in H.
  apply (proj1 (bool_decide_eq_true _)). by apply H.
Qed.

Lemma batch_no_lost_update_witness :
  let s1 := (runBatch OpsDemo.meanwhile (fun _ => true) (fun _ => true) OpsDemo.nonce OpsDemo.before
      (defaulted (operator_pass PassConvert 0 0 Toy.ring)) OpsDemo.zoom None OpsDemo.start).2 in
  Forall2 (same_meaning (defaulted (operator_pass PassConvert 0 0 Toy.ring)) OpsDemo.zoom)
    [OpsDemo.alice; OpsDemo.bob_later] (rows (ps_db s1) "settings").
Proof.
  cbv zeta. destruct (runBatch _ _ _ _ _ _ _ _ _) as [o s1] eqn:E.
  destruct (batch_no_lost_update OpsDemo.meanwhile (fun _ => true) (fun _ => true) OpsDemo.nonce OpsDemo.before
    (defaulted (operator_pass PassConvert 0 0 Toy.ring)) OpsDemo.zoom None OpsDemo.start o s1)
    as (_ & _ & H & _); [by intros ?| | | |exact E|exact H].
  - by apply (listed_nodup OpsDemo.before _ "settings"), listed_demo.
  - intros x y [->|[->|[]%not_elem_of_nil]%elem_of_cons]%elem_of_cons
      [->|[->|[]%not_elem_of_nil]%elem_of_cons]%elem_of_cons; done.
  - intros f [= <-]. by apply (SealActive_seals_for OpsDemo.nonce Toy.ring Toy.entry).
Defined.

Lemma convert_seals_everything_witness :
  exists s', RunPass (fun _ d => d) (fun _ => true) (fun _ => true) OpsDemo.nonce OpsDemo.before 3
      (operator_pass PassConvert 100 0 Toy.ring) ∅ OpsDemo.db = (Ok tt, s') /\ Partial (ps_res s') = false.
Proof.
  destruct (convert_seals_everything OpsDemo.nonce OpsDemo.before Toy.ring Toy.entry 3 100 ∅ OpsDemo.db)
    as (s' & E & P & _); [exact ready_demo|exact encodable_demo|exact listed_demo|exact fuel_demo|].
  exists s'. exact (conj E P).
Defined.

Lemma rotate_keeps_secrets_witness :
  exists s', RunPass (fun _ d => d) (fun _ => true) (fun _ => true) OpsDemo.nonce OpsDemo.before 3
      (operator_pass PassRotate 100 1 OpsDemo.old_ring) ∅ OpsDemo.db = (Ok tt, s') /\
    CountValuesUnder (ps_db s') 1 = 0.
Proof.
  destruct (rotate_keeps_secrets OpsDemo.nonce OpsDemo.before OpsDemo.old_ring Toy.entry 3 100 1 ∅ OpsDemo.db)
    as (s' & E & _ & _ & H); [by vm_compute|done|done|exact encodable_demo|exact listed_demo|exact fuel_demo|].
  exists s'. split; [exact E|]. apply H.
  assert (F : forallb (fun c => forallb (fun x => negb (selector PassRotate 1 (value (sc_Column c) x)))
    (rows OpsDemo.db (sc_Table c))) Inventory = true) by by vm_compute.
  intros c x Hc Hx Hs. rewrite forallb_elem in F. specialize (F c Hc). rewrite forallb_elem in F.
  specialize (F x Hx). by rewrite Hs in F.
Defined.

Lemma convert_decrypt_roundtrip_witness :
  exists s1 s2,
    RunPass (fun _ d => d) (fun _ => true) (fun _ => true) OpsDemo.nonce OpsDemo.before 3
      (operator_pass PassConvert 100 0 Toy.ring) ∅ OpsDemo.db = (Ok tt, s1) /\
    RunPass (fun _ d => d) (fun _ => true) (fun _ => true) OpsDemo.nonce OpsDemo.before 3
      (operator_pass PassDecrypt 100 0 Toy.ring) (ps_counts s1) (ps_db s1) = (Ok tt, s2).
Proof.
  destruct (convert_decrypt_roundtrip OpsDemo.nonce OpsDemo.before Toy.ring Toy.entry 3 100 ∅ OpsDemo.db)
    as (s1 & s2 & E1 & E2 & _);
    [exact ready_demo|exact encodable_demo|exact listed_demo|exact fuel_demo| |exists s1, s2; exact (conj E1 E2)].
  assert (F : forallb (fun c => forallb (fun x => match value (sc_Column c) x with
      | Some v => negb (sealedOrDamaged v) && negb (bool_decide (Classify v = KindSealed)) | None => true end)
    (rows OpsDemo.db (sc_Table c))) Inventory = true) by by vm_compute.
  intros c x v Hc Hx Ev. rewrite forallb_elem in F. specialize (F c Hc). rewrite forallb_elem in F.
  specialize (F x Hx). rewrite Ev in F.
  by apply andb_true_iff in F as [?%negb_true_iff ?%negb_true_iff%bool_decide_eq_false].
Defined.

Lemma ResetLostKey_clean_witness :
  match (ResetLostKey Toy.cfg true Demo.rnd 9 OpsDemo.store_).1 with
  | Ok (_, removed, created) => ~ (created ∈ removed) | Err _ => False end.
Proof.
  assert (Hok : match (ResetLostKey Toy.cfg true Demo.rnd 9 OpsDemo.store_).1 with
    | Ok _ => true | Err _ => false end = true) by by vm_compute.
  destruct (ResetLostKey Toy.cfg true Demo.rnd 9 OpsDemo.store_) as [r st'] eqn:E. cbn [fst] in *.
  pose proof (ResetLostKey_clean Toy.cfg true Demo.rnd 9 OpsDemo.store_ r st' keys_wf_older rnd_ok_demo E) as H.
  destruct r as [[[res removed] created]|]; [|done]. by destruct H as (_ & _ & H & _).
Defined.

Lemma DeleteAllDataKeysIfUnused_safe_witness :
  exists st', DeleteAllDataKeysIfUnused true OpsDemo.store_ = (Ok ([1], true), st') /\ DowngradeCheck st' = true.
Proof.
  eexists. split; [by vm_compute|].
  apply (DeleteAllDataKeysIfUnused_safe true OpsDemo.store_ (Ok ([1], true))). by vm_compute.
Defined.

Lemma failures_once_witness :
  result_wf (ps_res (RunPass OpsDemo.meanwhile (fun _ => true) (fun _ => true) OpsDemo.nonce OpsDemo.before 3
    (operator_pass PassConvert 100 0 Toy.ring) ∅ OpsDemo.db).2).
Proof.
  destruct (RunPass _ _ _ _ _ _ _ _ _) as [r s] eqn:E.
  exact (failures_once _ _ _ _ _ _ _ _ _ _ _ E).
Defined.
