(* ===== verification/EncryptionProtocol.v ===== *)
(** * Backends against destructive commands

    [encryption.go], [cmd/paceday-operator/encryption.go] and the protocol of
    [storage/encryption_keys.go]: backends that start, refresh their heartbeat and
    seal, an operator that deletes the data keys, and the database between them,
    as steps of one system with a clock.  A start is a heartbeat, a look at the
    maintenance lock, and the key load; a step of the refresher is a look at the
    lock and, any time later, the rest of [Tick]; a sealed value reaches the
    database some time after it was sealed; a pass under the maintenance lock, of
    an operator or of a backend that converts, seals values and writes them when
    its batch commits; a backend that stops removes its heartbeat.  The session
    that holds the maintenance lock is not lost, and the [downgrade-schema]
    command is not a step. *)

From stdpp Require Import relations.
From S2P Require Import Prelude GoInt GoTime GoText GoEncoding LinkStore SecretBox EncryptionKeys.

#[local] Open Scope string_scope.
#[local] Open Scope list_scope.
#[local] Open Scope Z_scope.

(** ** The system *)

(** Where a backend process is. *)
Inductive Phase :=
| Written (sent : Z)      (** its first heartbeat is written *)
| Checked (sent : Z)      (** and no destructive command held the lock *)
| Running                 (** keys loaded, between two steps of the refresher *)
| Ticking (sent : Z)      (** in a step that passed the look at the lock *)
| Gone.                   (** refused, crashed or shut down *)

Record Backend := {
  be_inst : Instance_;
  be_cfg : KeyConfig;
  be_proc : Process;
  be_phase : Phase;
}.

Definition no_process : Process :=
  {| pr_current := None; pr_counts := ∅; pr_lease := NewLease 0; pr_stopped := false |}.

Definition at_phase (ph : Phase) (b : Backend) : Backend :=
  {| be_inst := be_inst b; be_cfg := be_cfg b; be_proc := be_proc b; be_phase := ph |}.
Definition with_proc (p : Process) (ph : Phase) (b : Backend) : Backend :=
  {| be_inst := be_inst b; be_cfg := be_cfg b; be_proc := p; be_phase := ph |}.

(** A sealed value on its way to the database. *)
Record InFlight := { if_owner : uuid; if_dek : Z; if_sealed : Z }.

(** What runs under the maintenance lock.  A destructive command of the operator: it
    has the lock, or it has the lock and found no live heartbeat at [v].  A pass
    that seals, [convert] or [rotate-data-key] of the operator or the conversion of
    a backend: with the keyring [k] it loaded, if it has its own, and the data keys
    of the values in its open batch. *)
Inductive OpPhase :=
| OpIdle
| OpLocked (sub : string)
| OpCleared (sub : string) (v : Z)
| OpPass (k : option Keyring) (pending : list Z).

Record Sys := {
  sy_now : Z;
  sy_db : KeyDB;
  sy_backends : list Backend;
  sy_flight : list InFlight;
  sy_stored : list Z;        (** the data key of every encrypted value in the database *)
  sy_op : OpPhase;
}.

Definition set_now (t : Z) (s : Sys) : Sys :=
  {| sy_now := t; sy_db := sy_db s; sy_backends := sy_backends s; sy_flight := sy_flight s;
     sy_stored := sy_stored s; sy_op := sy_op s |}.
Definition set_db (d : KeyDB) (s : Sys) : Sys :=
  {| sy_now := sy_now s; sy_db := d; sy_backends := sy_backends s; sy_flight := sy_flight s;
     sy_stored := sy_stored s; sy_op := sy_op s |}.
Definition set_backends (l : list Backend) (s : Sys) : Sys :=
  {| sy_now := sy_now s; sy_db := sy_db s; sy_backends := l; sy_flight := sy_flight s;
     sy_stored := sy_stored s; sy_op := sy_op s |}.
Definition set_flight (l : list InFlight) (s : Sys) : Sys :=
  {| sy_now := sy_now s; sy_db := sy_db s; sy_backends := sy_backends s; sy_flight := l;
     sy_stored := sy_stored s; sy_op := sy_op s |}.
Definition set_stored (l : list Z) (s : Sys) : Sys :=
  {| sy_now := sy_now s; sy_db := sy_db s; sy_backends := sy_backends s; sy_flight := sy_flight s;
     sy_stored := l; sy_op := sy_op s |}.
Definition set_op (o : OpPhase) (s : Sys) : Sys :=
  {| sy_now := sy_now s; sy_db := sy_db s; sy_backends := sy_backends s; sy_flight := sy_flight s;
     sy_stored := sy_stored s; sy_op := o |}.

(** A request that seals ends within its time limit. *)
Definition WriteLimit : Z := 30 * Second.

(** The rest of a step of the refresher after its look at the lock. *)
Definition past_check (env : TickEnv) : TickEnv :=
  {| ok_holder := false; ok_load := ok_load env; ok_flush := ok_flush env;
     ok_active := ok_active env; ok_rotate := ok_rotate env; ok_reload := ok_reload env;
     ok_beat := ok_beat env |}.

Definition destructive (sub : string) : Prop := sub = "decrypt-all" \/ sub = "reset-lost-key".

(** The heartbeat of a backend still counts as live. *)
Definition own_live (b : Backend) (t : Z) (db : KeyDB) : Prop :=
  exists h, h ∈ kd_beats db /\ InstanceID h = inst_ID (be_inst b) /\ live t h = true.

Section Protocol.
Context {A : AEAD}.
(** Whether every backend writes its next heartbeat while the last one is live, and
    whether every backend that removes its heartbeat has drained. *)
Context (prompt drained : bool).

(** The clock; no request that seals outlives its limit. *)
Inductive passes_time (s : Sys) : Sys -> Prop :=
| st_time t :
    sy_now s <= t -> Forall (fun f => t < if_sealed f + WriteLimit) (sy_flight s) ->
    passes_time s (set_now t s).

(** [startEncryption]: the heartbeat, the look at the lock, the key load. *)
Inductive starts (s : Sys) : Sys -> Prop :=
| st_start inst cfg :
    Forall (fun b => inst_ID (be_inst b) <> inst_ID inst) (sy_backends s) -> valid_kek (Active cfg) ->
    starts s (set_backends ({| be_inst := inst; be_cfg := cfg; be_proc := no_process;
                               be_phase := Written (sy_now s) |} :: sy_backends s)
               (set_db (WriteHeartbeat inst None (sy_now s) (sy_db s)) s))
| st_check l b r sent :
    sy_backends s = l ++ b :: r -> be_phase b = Written sent ->
    starts s (set_backends (l ++ at_phase
      (if String.eqb (DestructiveSubcommand (MaintenanceHolder (sy_db s))) "" then Checked sent else Gone)
      b :: r) s)
| st_load l b r sent commit rnd load db1 :
    sy_backends s = l ++ b :: r -> be_phase b = Checked sent -> rnd_ok rnd ->
    (prompt = true -> own_live b (sy_now s) (sy_db s)) ->
    PrepareKeyring (be_cfg b) true commit rnd (sy_now s) (sy_db s) = (Ok load, db1) ->
    starts s (set_backends (l ++ with_proc
        {| pr_current := Some (kl_Keyring load); pr_counts := ∅; pr_lease := NewLease sent;
           pr_stopped := false |} Running b :: r)
      (set_db (WriteHeartbeat (be_inst b) (Some (kl_Active load)) (sy_now s) db1) s))
| st_load_fails l b r sent commit rnd e db1 :
    sy_backends s = l ++ b :: r -> be_phase b = Checked sent -> rnd_ok rnd ->
    PrepareKeyring (be_cfg b) true commit rnd (sy_now s) (sy_db s) = (Err e, db1) ->
    starts s (set_backends (l ++ at_phase Gone b :: r) (set_db db1 s)).

(** [Refresher.Tick]; the look at the lock is skipped when its query fails. *)
Inductive refreshes (s : Sys) : Sys -> Prop :=
| st_tick l b r (seen : bool) :
    sy_backends s = l ++ b :: r -> be_phase b = Running ->
    refreshes s (set_backends (l ++
      (if seen && negb (String.eqb (DestructiveSubcommand (MaintenanceHolder (sy_db s))) "")
       then with_proc (stop (be_proc b)) Running b else at_phase (Ticking (sy_now s)) b) :: r) s)
| st_tock l b r sent env rnd go p db1 :
    sy_backends s = l ++ b :: r -> be_phase b = Ticking sent -> rnd_ok rnd ->
    (prompt = true -> own_live b (sy_now s) (sy_db s)) ->
    Tick (past_check env) (be_cfg b) (be_inst b) rnd sent (sy_now s) (be_proc b) (sy_db s) = (go, p, db1) ->
    refreshes s (set_backends (l ++ with_proc p Running b :: r) (set_db db1 s)).

(** [secretbox.Seal] in a request, and the write of the value; a value that is
    removed or replaced. *)
Inductive seals (s : Sys) : Sys -> Prop :=
| st_seal l b r k bd plain nonce v c :
    sy_backends s = l ++ b :: r -> (exists sent, be_phase b = Ticking sent) \/ be_phase b = Running ->
    pr_current (be_proc b) = Some k -> plain <> "" ->
    Seal (pr_current (be_proc b)) (gate (sy_now s) (be_proc b)) bd plain nonce (pr_counts (be_proc b)) = (Ok v, c) ->
    seals s (set_flight ({| if_owner := inst_ID (be_inst b); if_dek := ActiveDEK k; if_sealed := sy_now s |}
                         :: sy_flight s)
              (set_backends (l ++ with_proc (set_counts c (be_proc b)) (be_phase b) b :: r) s))
| st_land l f r (written : bool) :
    sy_flight s = l ++ f :: r ->
    seals s (set_flight (l ++ r) (if written then set_stored (if_dek f :: sy_stored s) s else s))
| st_drop l d r : sy_stored s = l ++ d :: r -> seals s (set_stored (l ++ r) s).

(** The end of a backend.  A crash leaves the heartbeat; the shutdown of [main]
    removes it, whether the drain was clean, units were abandoned, or the server
    failed and nothing was drained: then requests go on until the process ends. *)
Inductive leaves (s : Sys) : Sys -> Prop :=
| st_crash l b r : sy_backends s = l ++ b :: r -> leaves s (set_backends (l ++ at_phase Gone b :: r) s)
| st_leave l b r (goes_on : bool) :
    sy_backends s = l ++ b :: r ->
    (drained = true -> goes_on = false /\ Forall (fun f => if_owner f <> inst_ID (be_inst b)) (sy_flight s)) ->
    leaves s (set_backends (l ++ (if goes_on then b else at_phase Gone b) :: r)
               (set_db (DeleteHeartbeat (be_inst b) (sy_db s)) s)).

(** Operator commands on the key table, which keep every key. *)
Inductive keeps (s : Sys) : Sys -> Prop :=
| st_rotate cfg retire commit rnd :
    rnd_ok rnd -> keeps s (set_db (RotateStep1 cfg retire false commit rnd (sy_now s) (sy_db s)).2 s)
| st_prepare cfg create commit rnd :
    rnd_ok rnd -> valid_kek (Active cfg) ->
    keeps s (set_db (PrepareKeyring cfg create commit rnd (sy_now s) (sy_db s)).2 s)
| st_flush cs :
    Forall (fun p => 0 <= p.2) cs -> keeps s (set_db (FlushSealCounts cs (sy_db s)) s).

(** [convert] and [rotate-data-key] of the operator, and the conversion of a backend:
    the lock, the keyring ([operatorKeyring]), the seals of a batch, by the operator's
    own keyring or through the gate of a backend, and the end of the batch. *)
Inductive converts (s : Sys) : Sys -> Prop :=
| ps_lock me db1 :
    sy_op s = OpIdle -> TryMaintenanceLock me (sy_db s) = (Ok tt, db1) ->
    converts s (set_op (OpPass None []) (set_db db1 s))
| ps_keys k0 pending cfg k n :
    sy_op s = OpPass k0 pending -> NewKeyring cfg (LoadDataKeys (sy_db s)) = Ok (k, n) ->
    converts s (set_op (OpPass (Some k) pending) s)
| ps_first_key k0 pending cfg commit rnd load db1 :
    sy_op s = OpPass k0 pending -> rnd_ok rnd -> valid_kek (Active cfg) ->
    PrepareKeyring cfg true commit rnd (sy_now s) (sy_db s) = (Ok load, db1) ->
    converts s (set_op (OpPass (Some (kl_Keyring load)) pending) (set_db db1 s))
| ps_seal k pending bd plain nonce v c c' :
    sy_op s = OpPass (Some k) pending -> plain <> "" ->
    SealActive k bd plain nonce c = (Ok v, c') ->
    converts s (set_op (OpPass (Some k) (ActiveDEK k :: pending)) s)
| ps_convert k0 pending l b r k bd plain nonce v c :
    sy_op s = OpPass k0 pending ->
    sy_backends s = l ++ b :: r -> (exists sent, be_phase b = Ticking sent) \/ be_phase b = Running ->
    pr_current (be_proc b) = Some k -> plain <> "" ->
    Seal (pr_current (be_proc b)) (gate (sy_now s) (be_proc b)) bd plain nonce (pr_counts (be_proc b)) = (Ok v, c) ->
    converts s (set_op (OpPass k0 (ActiveDEK k :: pending))
                 (set_backends (l ++ with_proc (set_counts c (be_proc b)) (be_phase b) b :: r) s))
| ps_batch k pending (committed : bool) :
    sy_op s = OpPass k pending ->
    converts s (set_op (OpPass k []) (if committed then set_stored (pending ++ sy_stored s) s else s))
| ps_release k pending :
    sy_op s = OpPass k pending -> converts s (set_op OpIdle (set_db (Release (sy_db s)) s)).

(** [decrypt-all] and [reset-lost-key]: the lock first, then the heartbeats, then
    [DeleteAllDataKeysIfUnused] or [ResetLostKey]. *)
Inductive destroys (s : Sys) : Sys -> Prop :=
| op_lock sub me db1 :
    destructive sub -> AppName me = OperatorApp sub -> sy_op s = OpIdle ->
    TryMaintenanceLock me (sy_db s) = (Ok tt, db1) ->
    destroys s (set_op (OpLocked sub) (set_db db1 s))
| op_check sub :
    sy_op s = OpLocked sub ->
    destroys s (match LiveHeartbeats (sy_now s) (sy_db s) with
                | [] => set_op (OpCleared sub (sy_now s)) s
                | _ => set_op OpIdle (set_db (Release (sy_db s)) s) end)
| op_delete v :
    sy_op s = OpCleared "decrypt-all" v -> sy_stored s = [] ->
    destroys s (set_db (deleteDataKeys (sy_db s)).2 s)
| op_reset v cfg rnd w db1 :
    sy_op s = OpCleared "reset-lost-key" v -> rnd_ok rnd ->
    insertDataKey (Active cfg) rnd (sy_now s) (deleteDataKeys (sy_db s)).2 = (Ok w, db1) ->
    destroys s (set_stored [] (set_db db1 s))
| op_release sub :
    sy_op s = OpLocked sub \/ (exists v, sy_op s = OpCleared sub v) ->
    destroys s (set_op OpIdle (set_db (Release (sy_db s)) s)).

Inductive step (s s' : Sys) : Prop :=
| by_time : passes_time s s' -> step s s'
| by_start : starts s s' -> step s s'
| by_refresh : refreshes s s' -> step s s'
| by_seal : seals s s' -> step s s'
| by_leave : leaves s s' -> step s s'
| by_keep : keeps s s' -> step s s'
| by_convert : converts s s' -> step s s'
| by_destroy : destroys s s' -> step s s'.

(** A database without backends or encrypted values. *)
Definition initial (s : Sys) : Prop :=
  keys_wf (sy_db s) /\ kd_beats (sy_db s) = [] /\ kd_lock (sy_db s) = None /\
  sy_backends s = [] /\ sy_flight s = [] /\ sy_stored s = [] /\ sy_op s = OpIdle.

Definition reachable (s : Sys) : Prop := exists s0, initial s0 /\ rtc step s0 s.

(** A backend that may seal. *)
Definition armed (b : Backend) : Prop :=
  ((exists sent, be_phase b = Ticking sent) \/ be_phase b = Running) /\ pr_stopped (be_proc b) = false.
End Protocol.

(** ** What the operations leave *)

Definition grows (d d' : KeyDB) : Prop := forall id, id ∈ key_ids d -> id ∈ key_ids d'.

#[export] Instance grows_preorder : PreOrder grows.
Proof. split; [by intros d id|]. intros a b c H1 H2 id Hid. by apply H2, H1. Qed.

Lemma counts_kept_grows d d' : counts_kept d d' -> grows d d'.
Proof. intros H id Hid. by apply H. Qed.

Lemma same_keys_grows d d' : kd_keys d' = kd_keys d -> grows d d'.
Proof. intros E id. unfold key_ids. by rewrite E. Qed.

(** Every heartbeat that is live is kept or moves forward; a new one is of [who], now. *)
Definition beats_kept (now : Z) (d d' : KeyDB) : Prop :=
  forall h, h ∈ kd_beats d -> now - HeartbeatLive < SeenAt h ->
    exists h', h' ∈ kd_beats d' /\ InstanceID h' = InstanceID h /\ SeenAt h <= SeenAt h'.
Definition beats_from (now : Z) (who : uuid -> Prop) (d d' : KeyDB) : Prop :=
  forall h', h' ∈ kd_beats d' -> h' ∈ kd_beats d \/ (SeenAt h' = now /\ who (InstanceID h')).

Lemma beats_kept_same now d d' : kd_beats d' = kd_beats d -> beats_kept now d d'.
Proof. intros E h Hh _. exists h. rewrite E. split_and!; [done|done|lia]. Qed.

Lemma beats_from_same now who d d' : kd_beats d' = kd_beats d -> beats_from now who d d'.
Proof. intros E h Hh. left. by rewrite <- E. Qed.

Lemma WriteHeartbeat_kept inst dek now d :
  (forall h, h ∈ kd_beats d -> SeenAt h <= now) -> beats_kept now d (WriteHeartbeat inst dek now d).
Proof.
  intros Hle h Hh _. unfold WriteHeartbeat. cbn [set_beats kd_beats]. destruct (existsb _ _).
  - eexists. split; [apply list_elem_of_In, in_map_iff; exists h; split; [reflexivity|by apply list_elem_of_In]|].
    specialize (Hle h Hh). destruct (N.eqb _ _); cbn; split; (done || lia).
  - exists h. split_and!; [apply elem_of_app; by left|done|lia].
Qed.

Lemma WriteHeartbeat_from inst dek now d :
  beats_from now (fun i => i = inst_ID inst) d (WriteHeartbeat inst dek now d).
Proof.
  intros h'. unfold WriteHeartbeat. cbn [set_beats kd_beats]. destruct (existsb _ _).
  - intros (h & <- & Hh)%list_elem_of_In%in_map_iff. apply list_elem_of_In in Hh.
    destruct (N.eqb_spec (InstanceID h) (inst_ID inst)); [right|by left]. by split.
  - intros [Hh|Hh%list_elem_of_singleton]%elem_of_app; [by left|right]. by subst.
Qed.

Lemma beats_kept_trans now a b c : beats_kept now a b -> beats_kept now b c -> beats_kept now a c.
Proof.
  intros H1 H2 h Hh Hl. destruct (H1 h Hh Hl) as (h1 & Hh1 & E1 & L1).
  destruct (H2 h1 Hh1) as (h2 & Hh2 & E2 & L2); [lia|]. exists h2. split_and!; [done|congruence|lia].
Qed.

Lemma beats_from_trans now who a b c : beats_from now who a b -> beats_from now who b c -> beats_from now who a c.
Proof. intros H1 H2 h [Hh|?]%H2; [by apply H1|by right]. Qed.

Section Effects.
Context {A : AEAD} {L : AEADLaws A}.

Lemma insert_meta kek rnd now db :
  kd_beats (insertDataKey kek rnd now db).2 = kd_beats db /\
  kd_lock (insertDataKey kek rnd now db).2 = kd_lock db.
Proof.
  split; [|apply insert_lock]. unfold insertDataKey. destruct (_ <? kd_next db); [done|].
  destruct (NewDEK _ _ _ _); [cbv zeta|done]. by destruct (row_accepted _ _).
Qed.

Lemma rotate_meta cfg retire bound commit rnd now db :
  kd_beats (RotateStep1 cfg retire bound commit rnd now db).2 = kd_beats db /\
  kd_lock (RotateStep1 cfg retire bound commit rnd now db).2 = kd_lock db.
Proof.
  unfold RotateStep1. destruct (List.find _ _); [|done]. destruct (_ || _); [done|].
  match goal with |- context [insertDataKey ?a ?b ?c ?d] =>
    pose proof (insert_meta a b c d) as H; destruct (insertDataKey a b c d) as [[w|e] db2] end;
    [|done]. destruct commit; [|done]. by destruct H.
Qed.

Lemma FlushSealCounts_meta cs db :
  kd_beats (FlushSealCounts cs db) = kd_beats db /\ kd_lock (FlushSealCounts cs db) = kd_lock db.
Proof.
  unfold FlushSealCounts. revert db. induction cs as [|x cs IH]; intros db; [done|].
  cbn [fold_left]. by rewrite !(proj1 (IH _)), !(proj2 (IH _)).
Qed.

Lemma flush_meta env p db :
  kd_beats (flush env p db).2 = kd_beats db /\ kd_lock (flush env p db).2 = kd_lock db.
Proof.
  unfold flush. destruct (TakeSealCounts _) as [[|t r] c]; [done|]. destruct (ok_flush env); [|done].
  apply FlushSealCounts_meta.
Qed.

Lemma auto_rotate_meta env cfg rnd now cur db :
  kd_beats (auto_rotate env cfg rnd now cur db).2 = kd_beats db /\
  kd_lock (auto_rotate env cfg rnd now cur db).2 = kd_lock db.
Proof.
  unfold auto_rotate.
  destruct (if ok_active env then ActiveDataKey db else None) as [[[id kek] sealed]|]; [|done].
  destruct (_ && _); [|done].
  pose proof (rotate_meta cfg (ActiveDEK cur) true (ok_rotate env) rnd now db) as E.
  destruct (RotateStep1 _ _ _ _ _ _ _) as [[i|e] db']; [|done]. cbn [snd] in E.
  destruct (i =? 0); [done|]. destruct (ok_reload env); [|done]. by destruct (With _ _ _) as [[]|].
Qed.

(** The key a longer keyring seals with is the one before, or one of the new keys. *)
Lemma add_deks_active cfg ws ds act n ds' act' n' :
  add_deks cfg ws (ds, act, n) = Ok (ds', act', n') -> act' = act \/ act' ∈ map w_ID ws.
Proof.
  revert ds act n. induction ws as [|w ws IH]; intros ds act n; cbn [add_deks map].
  - intros [= <- <- <-]. by left.
  - destruct (add_dek cfg w (ds, act, n)) as [[[ds1 act1] n1]|] eqn:E; [cbn|done]. intros H.
    apply add_dek_keeps in E as (_ & _ & _ & Ha & _). apply IH in H as [->|H]; [|right; by right].
    rewrite Ha. destruct (decide _); [right; left|by left].
Qed.

Lemma add_active k cfg ws k' n :
  add k cfg ws = Ok (k', n) ->
  (active k' = active k \/ active k' ∈ map w_ID ws) /\ active k' <> 0.
Proof.
  unfold add. destruct (add_deks cfg ws (deks k, 0, 0)) as [[[ds act] m]|] eqn:E; [cbn|done].
  apply add_deks_active in E. destruct (Z.eqb_spec act 0) as [->|Ha].
  - destruct (Z.eqb_spec (active k) 0); [done|]. intros [= <- _]. split; [by left|done].
  - rewrite (proj2 (Z.eqb_neq act 0)) by done. intros [= <- _]. cbn. split; [|done].
    destruct E as [->|E]; [done|by right].
Qed.

Lemma LoadDataKeys_ids db : map w_ID (LoadDataKeys db) ≡ₚ key_ids db.
Proof. by rewrite LoadDataKeys_perm, map_w_ID_wrapped. Qed.

Lemma refreshed_active cur cfg db :
  ActiveDEK (refreshed cur cfg (LoadDataKeys db)) = ActiveDEK cur \/
  ActiveDEK (refreshed cur cfg (LoadDataKeys db)) ∈ key_ids db.
Proof.
  unfold refreshed. destruct (With cur cfg (LoadDataKeys db)) as [[k n]|] eqn:E; [|by left].
  destruct (_ || _); [|by left]. apply add_active in E as [[E|E] _]; [by left|right].
  by rewrite LoadDataKeys_ids in E.
Qed.

Lemma auto_rotate_active env cfg rnd now cur db :
  let r := auto_rotate env cfg rnd now cur db in
  ActiveDEK r.1 = ActiveDEK cur \/ ActiveDEK r.1 ∈ key_ids r.2.
Proof.
  cbv zeta. unfold auto_rotate.
  destruct (if ok_active env then ActiveDataKey db else None) as [[[id kek] sealed]|]; [|by left].
  destruct (_ && _); [|by left]. destruct (RotateStep1 _ _ _ _ _ _ _) as [[i|e] db']; [|by left].
  destruct (i =? 0); [by left|]. destruct (ok_reload env); [|by left].
  destruct (With _ _ _) as [[k n]|] eqn:E; [|by left]. apply add_active in E as [[E|E] _]; [by left|right].
  by rewrite LoadDataKeys_ids in E.
Qed.

Lemma counts_ok_restore taken c : Forall (fun p => 0 <= p.2) taken -> counts_ok c ->
  counts_ok (RestoreSealCounts taken c).
Proof.
  unfold RestoreSealCounts. revert c. induction taken as [|[i n] l IH]; intros c Ht Hc; [done|].
  inversion_clear Ht. cbn [fold_left]. apply IH; [done|]. by apply counts_ok_add.
Qed.

Lemma flush_ok env p db : counts_ok (pr_counts p) -> counts_ok (pr_counts (flush env p db).1).
Proof.
  intros Hc. destruct (TakeSealCounts_ok _ Hc) as [Ht Hz]. unfold flush.
  destruct (TakeSealCounts (pr_counts p)) as [taken c]. cbn [fst snd] in Ht, Hz.
  destruct taken as [|t r]; [done|]. destruct (ok_flush env); [done|]. by apply counts_ok_restore.
Qed.

(** The whole effect of a step of the refresher on tables and process. *)
Record tick_leaves (inst : Instance_) (now : Z) (p p' : Process) (d d' : KeyDB) : Prop := {
  tl_grows : grows d d';
  tl_lock : kd_lock d' = kd_lock d;
  tl_kept : (forall h, h ∈ kd_beats d -> SeenAt h <= now) -> beats_kept now d d';
  tl_from : beats_from now (fun i => i = inst_ID inst) d d';
  tl_active : forall k, pr_current p = Some k -> exists k', pr_current p' = Some k' /\
    (ActiveDEK k' = ActiveDEK k \/ ActiveDEK k' ∈ key_ids d');
  tl_counts : counts_ok (pr_counts p) -> counts_ok (pr_counts p');
}.

Lemma tick_leaves_same inst now p p' d :
  pr_current p' = pr_current p -> pr_counts p' = pr_counts p -> tick_leaves inst now p p' d d.
Proof.
  intros Hk Hc. split.
  - reflexivity.
  - done.
  - intros _. by apply beats_kept_same.
  - by apply beats_from_same.
  - intros k E. exists k. rewrite Hk. split; [done|by left].
  - by rewrite Hc.
Qed.

Lemma beat_leaves env inst act sent now p d go p' d' :
  beat env inst act sent now p d = (go, p', d') -> tick_leaves inst now p p' d d'.
Proof.
  unfold beat, writeHeartbeatIfKey. destruct (ok_beat env); cbn [negb];
    [|intros [= <- <- <-]; by apply tick_leaves_same].
  destruct (existsb _ _); intros [= <- <- <-]; [|by apply tick_leaves_same].
  split; [by intros id|done| | | |done].
  - apply WriteHeartbeat_kept.
  - apply WriteHeartbeat_from.
  - intros k E. exists k. split; [done|by left].
Qed.

Lemma Tick_leaves env cfg inst rnd sent now p d go p' d' :
  Tick env cfg inst rnd sent now p d = (go, p', d') -> tick_leaves inst now p p' d d'.
Proof.
  unfold Tick. destruct (pr_current p) as [cur|] eqn:Ec; [|intros [= <- <- <-]; by apply tick_leaves_same].
  cbv zeta. destruct (negb (String.eqb _ "")); [intros [= <- <- <-]; by apply tick_leaves_same|].
  destruct (negb (ok_load env)); [apply beat_leaves|].
  destruct (negb (existsb _ _)); [intros [= <- <- <-]; by apply tick_leaves_same|].
  pose proof (refreshed_active cur cfg d) as A1. set (k1 := refreshed cur cfg (LoadDataKeys d)) in *.
  assert (G2 : grows d (flush env (install k1 p) d).2).
  { intros id Hid. by apply (flush_counts env (install k1 p) d id). }
  pose proof (flush_meta env (install k1 p) d) as [B2 L2].
  pose proof (flush_ok env (install k1 p) d) as C2.
  destruct (flush env (install k1 p) d) as [p2 d2]. cbn [fst snd] in *.
  pose proof (counts_kept_grows _ _ (auto_rotate_counts env cfg rnd now k1 d2)) as G3.
  pose proof (auto_rotate_meta env cfg rnd now k1 d2) as [B3 L3].
  pose proof (auto_rotate_active env cfg rnd now k1 d2) as A3.
  destruct (auto_rotate env cfg rnd now k1 d2) as [k2 d3]. cbn [fst snd] in *.
  intros H. apply beat_leaves in H as [G4 L4 K4 F4 A4 C4].
  assert (B : kd_beats d3 = kd_beats d) by congruence. split.
  - transitivity d2; [done|]. by transitivity d3.
  - congruence.
  - intros Hle. eapply beats_kept_trans; [by apply beats_kept_same|]. apply K4. by rewrite B.
  - eapply beats_from_trans; [by apply beats_from_same|exact F4].
  - intros k E. rewrite Ec in E. injection E as <-. destruct (A4 k2 eq_refl) as (k' & Ek & Ak).
    exists k'. split; [done|]. destruct Ak as [->|?]; [|by right].
    destruct A3 as [->|A3]; [|right; by apply G4]. destruct A1 as [->|A1]; [by left|right].
    by apply G4, G3, G2.
  - intros Hc. apply C4. cbn [install pr_counts]. by apply C2.
Qed.

(** The key load. *)
Lemma prepare_leaves cfg create commit rnd now d r d' :
  valid_kek (Active cfg) -> rnd_ok rnd -> keys_wf d ->
  PrepareKeyring cfg create commit rnd now d = (r, d') ->
  grows d d' /\ kd_lock d' = kd_lock d /\ beats_kept now d d' /\
  (forall h, h ∈ kd_beats d' -> h ∈ kd_beats d) /\
  match r with
  | Ok load => kl_Active load = ActiveDEK (kl_Keyring load) /\ kl_Active load ∈ key_ids d'
  | Err _ => True
  end.
Proof.
  intros Hv Hr Hwf. unfold PrepareKeyring.
  set (db1 := set_beats _ d). assert (W1 : keys_wf db1) by exact Hwf.
  destruct (if negb _ && create then _ else _) as [made db2] eqn:Em.
  assert (Rb : grows d (rolled_back d db2) /\ kd_lock (rolled_back d db2) = kd_lock d /\
    beats_kept now d (rolled_back d db2) /\
    (forall h, h ∈ kd_beats (rolled_back d db2) -> h ∈ kd_beats d) /\ True).
  { split; [by apply same_keys_grows|]. split; [done|]. split; [by apply beats_kept_same|done]. }
  destruct made as [new|e]; [|by intros [= <- <-]].
  assert (H2 : keys_wf db2 /\ grows db1 db2 /\ kd_beats db2 = kd_beats db1 /\ kd_lock db2 = kd_lock db1 /\
    LoadDataKeys db1 ++ new ≡ₚ map wrapped_of (kd_keys db2)).
  { destruct (negb _ && create).
    - pose proof (insert_meta (Active cfg) rnd now db1) as [B I].
      destruct (insertDataKey (Active cfg) rnd now db1) as [r0 d0] eqn:Ei. injection Em as Em <-.
      destruct (insert_wf _ _ _ _ _ _ Hr W1 Ei) as (W & _ & _ & Hres).
      destruct r0 as [w|]; [|done]. injection Em as <-. destruct Hres as (row & Ek & Ew & _).
      split; [done|]. split; [|split; [done|split; [done|]]].
      + intros id Hid. unfold key_ids. rewrite Ek, map_app. apply elem_of_app. by left.
      + rewrite Ek, map_app. cbn [map]. by rewrite LoadDataKeys_perm, Ew.
    - injection Em as <- <-. do 4 (split; [done|]). by rewrite app_nil_r, LoadDataKeys_perm. }
  clear Em. destruct H2 as (W2 & G2 & B2 & L2 & Hnew).
  destruct (rewrap_all cfg rnd now _ db2) as [[[ws' db3] n]|e] eqn:Ew; [|by intros [= <- <-]].
  destruct (NewKeyring cfg ws') as [[k u]|e] eqn:Ek; [|by intros [= <- <-]].
  destruct commit; cbn [negb]; [|by intros [= <- <-]]. intros [= <- <-]. clear Rb.
  cbn [kl_Keyring kl_Active].
  destruct (rewrap_all_spec cfg rnd now (LoadDataKeys db1 ++ new) db2 ws' db3 n Hv Hr W2)
    as (F & W3 & (_ & B3 & L3) & S & _ & P2); [rewrite Hnew, map_w_ID_wrapped; apply W2|intros w; by rewrite Hnew|done|].
  destruct (rows_of_load cfg _ ws' db2 db3 F Hnew S W3 P2) as [Hids _].
  split; [|split; [|split; [|split; [|split]]]].
  - transitivity db1; [by apply same_keys_grows|]. transitivity db2; [done|]. intros id.
    unfold key_ids. by rewrite (same_row_ids _ _ S).
  - by rewrite L3, L2.
  - intros h Hh Hl. exists h. rewrite B3, B2. split_and!; [|done|lia]. cbn [db1 set_beats kd_beats].
    apply elem_of_keep. split; [done|]. apply negb_true_iff, Z.ltb_ge.
    assert (HeartbeatLive < heartbeatExpiry) by by vm_compute. lia.
  - intros h. rewrite B3, B2. cbn [db1 set_beats kd_beats]. by intros [? _]%elem_of_keep.
  - done.
  - apply add_active in Ek as [[E|E] Hz]; [by rewrite E in Hz|]. by rewrite Hids in E.
Qed.
End Effects.

(** ** The invariant *)

Section Invariant.
Context {A : AEAD} {L : AEADLaws A}.

Definition cleared_at (s : Sys) (v : Z) : Prop := exists sub, sy_op s = OpCleared sub v.

(** Past its look at the lock. *)
Definition past (b : Backend) : Prop :=
  match be_phase b with Written _ | Gone => False | _ => True end.

Definition sent_of (b : Backend) : option Z :=
  match be_phase b with Written t | Checked t | Ticking t => Some t | _ => None end.

(** A lease stands on a heartbeat at least as late, unless both are long over. *)
Definition lease_backed (s : Sys) (b : Backend) : Prop :=
  sy_now s < lastSent (pr_lease (be_proc b)) + HeartbeatLive ->
  exists h, h ∈ kd_beats (sy_db s) /\ InstanceID h = inst_ID (be_inst b) /\
    lastSent (pr_lease (be_proc b)) <= SeenAt h.

(** While the lease holds, the key it seals with is in the table. *)
Definition key_held (s : Sys) (b : Backend) : Prop :=
  sy_now s <= lastSent (pr_lease (be_proc b)) + SealLease ->
  forall k, pr_current (be_proc b) = Some k -> ActiveDEK k ∈ key_ids (sy_db s).

(** After the operator's check nothing of a backend is left. *)
Definition silent (s : Sys) (b : Backend) : Prop :=
  forall v, cleared_at s v -> past b ->
    (forall h, h ∈ kd_beats (sy_db s) -> InstanceID h = inst_ID (be_inst b) -> SeenAt h <= v - HeartbeatLive) /\
    (armed b -> lastSent (pr_lease (be_proc b)) + HeartbeatLive <= v).

Record good_backend (s : Sys) (b : Backend) : Prop := {
  gb_kek : valid_kek (Active (be_cfg b));
  gb_counts : counts_ok (pr_counts (be_proc b));
  gb_sent : forall t, sent_of b = Some t -> t <= sy_now s;
  gb_last : armed b -> lastSent (pr_lease (be_proc b)) <= sy_now s;
  gb_lease : armed b -> lease_backed s b;
  gb_key : armed b -> key_held s b;
  gb_silent : silent s b;
}.

Definition good_flight (s : Sys) (f : InFlight) : Prop :=
  if_dek f ∈ key_ids (sy_db s) /\ if_sealed f <= sy_now s < if_sealed f + WriteLimit /\
  exists h, h ∈ kd_beats (sy_db s) /\ InstanceID h = if_owner f /\ if_sealed f - SealLease <= SeenAt h.

(** A destructive command holds the lock under its own name; a pass has its values
    under keys of the table, and seals under one. *)
Definition op_sound (o : OpPhase) (d : KeyDB) : Prop :=
  match o with
  | OpIdle => True
  | OpLocked _ | OpCleared _ _ => DestructiveSubcommand (MaintenanceHolder d) <> ""
  | OpPass k pending =>
      (forall k', k = Some k' -> ActiveDEK k' ∈ key_ids d) /\ (forall i, i ∈ pending -> i ∈ key_ids d)
  end.
Definition op_holds (s : Sys) : Prop := op_sound (sy_op s) (sy_db s).

Lemma op_sound_db o d d' : grows d d' -> kd_lock d' = kd_lock d -> op_sound o d -> op_sound o d'.
Proof.
  intros G Lk. destruct o; cbn; unfold MaintenanceHolder; rewrite ?Lk; try done.
  intros [Hk Hp]. split; [intros k' Ek; by apply G, Hk|intros i Hi; by apply G, Hp].
Qed.

Record Inv (s : Sys) : Prop := {
  in_keys : keys_wf (sy_db s);
  in_beats : forall h, h ∈ kd_beats (sy_db s) -> SeenAt h <= sy_now s;
  in_ids : NoDup (map (fun b => inst_ID (be_inst b)) (sy_backends s));
  in_backends : forall b, b ∈ sy_backends s -> good_backend s b;
  in_flight : forall f, f ∈ sy_flight s -> good_flight s f;
  in_stored : forall d, d ∈ sy_stored s -> d ∈ key_ids (sy_db s);
  in_holds : op_holds s;
  in_cleared : forall v, cleared_at s v -> v <= sy_now s /\ sy_flight s = [];
}.

Lemma Inv_initial s : initial s -> Inv s.
Proof.
  intros (Hk & Hb & Hl & Hbk & Hf & Hs & Ho). split; rewrite ?Hb, ?Hbk, ?Hf, ?Hs; try done.
  - by intros h ?%not_elem_of_nil.
  - constructor.
  - by intros b ?%not_elem_of_nil.
  - by intros f ?%not_elem_of_nil.
  - by intros d ?%not_elem_of_nil.
  - unfold op_holds. by rewrite Ho.
  - intros v [sub E]. congruence.
Qed.

Lemma op_sound_cleared sub v d d' : kd_lock d' = kd_lock d -> op_sound (OpCleared sub v) d ->
  op_sound (OpCleared sub v) d'.
Proof. cbn. unfold MaintenanceHolder. by intros ->. Qed.

(** A backend in the middle of the list. *)
Lemma in_mid {X} (l r : list X) b x : x ∈ l ++ b :: r <-> x = b \/ x ∈ l ++ r.
Proof. rewrite !elem_of_app, elem_of_cons. tauto. Qed.

(** What a change of the tables must keep. *)
Record db_change (s : Sys) (d' : KeyDB) : Prop := {
  dc_keys : keys_wf d';
  dc_grows : grows (sy_db s) d';
  dc_lock : kd_lock d' = kd_lock (sy_db s);
  dc_kept : beats_kept (sy_now s) (sy_db s) d';
}.

Lemma good_backend_db s d' b who :
  db_change s d' -> beats_from (sy_now s) who (sy_db s) d' ->
  ((forall v, ~ cleared_at s v) \/ (past b -> ~ who (inst_ID (be_inst b)))) ->
  good_backend s b -> good_backend (set_db d' s) b.
Proof.
  intros [K G Lk B] F Hwho [H1 H2 H3 H4 H5 H6 H7]. split; try done.
  - intros Ha Hl. destruct (H5 Ha Hl) as (h & Hh & Hi & Hs).
    destruct (B h Hh) as (h' & Hh' & Hi' & Hs'); [cbn in Hl; lia|]. exists h'.
    split_and!; [done|congruence|lia].
  - intros Ha Hl k Ek. by apply G, (H6 Ha).
  - intros v Hv Hp. destruct (H7 v Hv Hp) as [Ho Hl]. split; [|done]. intros h Hh Hi.
    destruct (F h Hh) as [Hh'|[Hn Hw]]; [by apply Ho|]. rewrite Hi in Hw.
    destruct Hwho as [Hno|Hno]; [by destruct (Hno v)|by destruct (Hno Hp)].
Qed.

Lemma good_flight_db s d' f : db_change s d' -> good_flight s f -> good_flight (set_db d' s) f.
Proof.
  intros [K G Lk B] (H1 & H2 & h & Hh & Hi & Hs). split; [by apply G|]. split; [done|].
  destruct (B h Hh) as (h' & Hh' & Hi' & Hs').
  { unfold WriteLimit, SealLease, HeartbeatLive in *. lia. }
  exists h'. split_and!; [done|congruence|lia].
Qed.

(** The tables change, nothing else. *)
Lemma Inv_db s d' who :
  Inv s -> db_change s d' -> beats_from (sy_now s) who (sy_db s) d' ->
  ((forall v, ~ cleared_at s v) \/ forall b, b ∈ sy_backends s -> past b -> ~ who (inst_ID (be_inst b))) ->
  Inv (set_db d' s).
Proof.
  intros [I1 I2 I3 I4 I5 I6 I7 I8] C F Hwho. split; try done.
  - apply C.
  - intros h Hh. destruct (F h Hh) as [?|[-> _]]; [by apply I2|cbn; lia].
  - intros b Hb. eapply good_backend_db; [done|exact F| |by apply I4].
    destruct Hwho as [?|Hw]; [by left|right]. by apply Hw.
  - intros f Hf. apply good_flight_db; [done|by apply I5].
  - intros d Hd. apply C. by apply I6.
  - apply (op_sound_db _ (sy_db s)); [apply C|apply C|exact I7].
Qed.

(** One backend changes, nothing else. *)
Lemma Inv_backend s l b b' r :
  Inv s -> sy_backends s = l ++ b :: r -> inst_ID (be_inst b') = inst_ID (be_inst b) ->
  good_backend s b' -> Inv (set_backends (l ++ b' :: r) s).
Proof.
  intros [I1 I2 I3 I4 I5 I6 I7 I8] E Hi Hg. split; try done.
  - cbn [set_backends sy_backends]. rewrite E in I3. rewrite map_app in *. cbn [map] in *. by rewrite Hi.
  - cbn [set_backends sy_backends]. intros x [->|Hx]%in_mid; [by destruct Hg|].
    assert (Hx' : x ∈ sy_backends s) by (rewrite E; apply in_mid; by right).
    destruct (I4 x Hx'). by split.
Qed.

Lemma good_gone s b : good_backend s b -> good_backend s (at_phase Gone b).
Proof.
  intros [H1 H2 H3 H4 H5 H6 H7]. split; try done; try by intros [[[? ?]|?] _].
Qed.

(** No backend whose heartbeat is live is past the operator's check. *)
Lemma not_cleared s b : Inv s -> b ∈ sy_backends s -> past b -> own_live b (sy_now s) (sy_db s) ->
  forall v, ~ cleared_at s v.
Proof.
  intros I Hb Hp (h & Hh & Hi & Hl) v Hv. destruct (in_cleared _ I v Hv) as [Hle _].
  destruct (gb_silent _ _ (in_backends _ I b Hb) v Hv Hp) as [Ho _].
  specialize (Ho h Hh Hi). unfold live in Hl. apply Z.ltb_lt in Hl. lia.
Qed.
(** *** Time, starts, and the operator *)

Lemma Inv_time s t :
  Inv s -> sy_now s <= t -> Forall (fun f => t < if_sealed f + WriteLimit) (sy_flight s) -> Inv (set_now t s).
Proof.
  intros [I1 I2 I3 I4 I5 I6 I7 I8] Ht Hf. rewrite Forall_forall in Hf. split; try done.
  - intros h Hh. specialize (I2 h Hh). cbn. lia.
  - intros b Hb. destruct (I4 b Hb) as [H1 H2 H3 H4 H5 H6 H7]. split; try done.
    + intros u Hu. specialize (H3 u Hu). cbn. lia.
    + intros Ha. specialize (H4 Ha). cbn. lia.
    + intros Ha Hl. apply H5; [done|]. cbn in Hl. lia.
    + intros Ha Hl. apply H6; [done|]. cbn in Hl. lia.
  - intros f Hin. destruct (I5 f Hin) as (H1 & H2 & H3). specialize (Hf f Hin). cbn.
    split_and!; [done|cbn; lia|cbn; lia|done].
  - intros v Hv. destruct (I8 v Hv) as [H1 H2]. cbn. split; [lia|done].
Qed.

Lemma WriteHeartbeat_change s inst dek d1 :
  Inv s -> db_change s d1 -> (forall h, h ∈ kd_beats d1 -> SeenAt h <= sy_now s) ->
  db_change s (WriteHeartbeat inst dek (sy_now s) d1).
Proof.
  intros I [K G Lk B] Hle. split; [done|done|done|].
  eapply beats_kept_trans; [exact B|]. by apply WriteHeartbeat_kept.
Qed.

Lemma db_change_refl s : Inv s -> db_change s (sy_db s).
Proof. intros I. split; [apply I|done|done|by apply beats_kept_same]. Qed.

Lemma Inv_start s inst cfg :
  Inv s -> Forall (fun b => inst_ID (be_inst b) <> inst_ID inst) (sy_backends s) -> valid_kek (Active cfg) ->
  Inv (set_backends ({| be_inst := inst; be_cfg := cfg; be_proc := no_process;
                        be_phase := Written (sy_now s) |} :: sy_backends s)
        (set_db (WriteHeartbeat inst None (sy_now s) (sy_db s)) s)).
Proof.
  intros I Hnew Hv. rewrite Forall_forall in Hnew.
  assert (C : db_change s (WriteHeartbeat inst None (sy_now s) (sy_db s))).
  { apply WriteHeartbeat_change; [done|by apply db_change_refl|apply I]. }
  pose proof (Inv_db s _ _ I C (WriteHeartbeat_from inst None (sy_now s) (sy_db s))) as I'.
  destruct I' as [I1 I2 I3 I4 I5 I6 I7 I8].
  { right. intros b Hb _. by apply Hnew. }
  split; try done.
  - cbn [set_backends sy_backends map]. apply NoDup_cons. split; [|done].
    intros (b & Eb & Hb)%list_elem_of_In%in_map_iff. apply list_elem_of_In in Hb. by apply (Hnew b Hb).
  - cbn [set_backends sy_backends]. intros b [->|Hb]%elem_of_cons; [|by destruct (I4 b Hb)].
    split; try done; try by intros [[[? ?]|?] _].
    intros t. cbn. intros [= <-]. lia.
Qed.

Lemma Inv_check s l b r sent :
  Inv s -> sy_backends s = l ++ b :: r -> be_phase b = Written sent ->
  Inv (set_backends (l ++ at_phase
      (if String.eqb (DestructiveSubcommand (MaintenanceHolder (sy_db s))) "" then Checked sent else Gone)
      b :: r) s).
Proof.
  intros I E Hp. assert (Hb : b ∈ sy_backends s) by (rewrite E; apply in_mid; by left).
  apply (Inv_backend s l b); [done|done|done|]. pose proof (in_backends _ I b Hb) as Hg.
  destruct (String.eqb_spec (DestructiveSubcommand (MaintenanceHolder (sy_db s))) "") as [Ed|Ed];
    [|by apply good_gone].
  destruct Hg as [H1 H2 H3 H4 H5 H6 H7]. split; try done; try by intros [[[? ?]|?] _].
  - intros t. cbn. intros [= <-]. apply H3. unfold sent_of. by rewrite Hp.
  - intros v [sub Hv]. pose proof (in_holds _ I) as Hh. unfold op_holds in Hh. rewrite Hv in Hh. done.
Qed.

(** Lock and release, when no destructive command runs. *)
Lemma Inv_lock s lk o :
  Inv s -> (forall sub v, o <> OpCleared sub v) -> op_sound o (set_lock lk (sy_db s)) ->
  Inv (set_op o (set_db (set_lock lk (sy_db s)) s)).
Proof.
  intros [I1 I2 I3 I4 I5 I6 I7 I8] Hno Hd. split; try done.
  - intros b Hb. destruct (I4 b Hb) as [H1 H2 H3 H4 H5 H6 H7]. split; try done.
    intros v [sub Hv]. by destruct (Hno sub v).
  - intros v [sub Hv]. by destruct (Hno sub v).
Qed.

Lemma TryMaintenanceLock_ok me d d1 :
  TryMaintenanceLock me d = (Ok tt, d1) -> d1 = set_lock (Some me) d.
Proof. unfold TryMaintenanceLock. destruct (kd_lock d); [done|]. by intros [= <-]. Qed.

Lemma set_db_stored s d : sy_stored s = [] -> set_stored [] (set_db d s) = set_db d s.
Proof. intros E. unfold set_stored, set_db. by rewrite E. Qed.

Lemma destructive_app me sub lk :
  destructive sub -> AppName me = OperatorApp sub -> lk = Some me -> DestructiveSubcommand lk <> "".
Proof.
  intros [->| ->] E ->; unfold DestructiveSubcommand, destructiveApps; rewrite E; by vm_compute.
Qed.

(** The check finds no live heartbeat: no lease and no value on its way is left. *)
Lemma Inv_cleared s sub :
  Inv s -> sy_op s = OpLocked sub -> LiveHeartbeats (sy_now s) (sy_db s) = [] ->
  Inv (set_op (OpCleared sub (sy_now s)) s).
Proof.
  intros [I1 I2 I3 I4 I5 I6 I7 I8] Ho Hl.
  assert (Hold : forall h, h ∈ kd_beats (sy_db s) -> SeenAt h <= sy_now s - HeartbeatLive).
  { intros h Hh. destruct (Z.leb_spec (SeenAt h) (sy_now s - HeartbeatLive)) as [|Hlt]; [done|exfalso].
    assert (Hin : h ∈ LiveHeartbeats (sy_now s) (sy_db s)).
    { unfold LiveHeartbeats. rewrite order_by_perm. apply elem_of_keep. split; [done|].
      unfold live. by apply Z.ltb_lt. }
    rewrite Hl in Hin. by apply not_elem_of_nil in Hin. }
  split; try done.
  - intros b Hb. destruct (I4 b Hb) as [H1 H2 H3 H4 H5 H6 H7]. split; try done.
    intros v [sub' [= _ <-]] _. split; [intros h Hh _; by apply Hold|]. intros Ha.
    destruct (Z.leb_spec (lastSent (pr_lease (be_proc b)) + HeartbeatLive) (sy_now s)) as [|Hlt]; [done|exfalso].
    destruct (H5 Ha Hlt) as (h & Hh & _ & Hs). specialize (Hold h Hh). lia.
  - unfold op_holds in *. rewrite Ho in I7. exact I7.
  - intros v [sub' [= _ <-]]. cbn. split; [lia|].
    destruct (sy_flight s) as [|f fs] eqn:Ef; [done|exfalso].
    destruct (I5 f) as (_ & Hr & h & Hh & _ & Hs); [left|]. specialize (Hold h Hh).
    unfold WriteLimit, SealLease, HeartbeatLive, Second in *. lia.
Qed.

(** Deleting keys while cleared: nothing refers to them. *)
Lemma Inv_delete s d' v :
  Inv s -> cleared_at s v -> keys_wf d' -> kd_beats d' = kd_beats (sy_db s) ->
  kd_lock d' = kd_lock (sy_db s) -> Inv (set_stored [] (set_db d' s)).
Proof.
  intros I Hv Hk Hb Hl. destruct (in_cleared _ I v Hv) as [Hle Hf].
  destruct I as [I1 I2 I3 I4 I5 I6 I7 I8]. split; try done.
  - intros h Hh. cbn in Hh. rewrite Hb in Hh. by apply I2.
  - intros b Hin. destruct (I4 b Hin) as [H1 H2 H3 H4 H5 H6 H7]. split; try done.
    + intros Ha Hlt. destruct (H5 Ha Hlt) as (h & Hh & Hi & Hs). exists h. cbn. rewrite Hb. done.
    + intros Ha Hlt. exfalso. destruct (H7 v Hv) as [_ Hs].
      { destruct Ha as [[[t E]|E] _]; unfold past; by rewrite E. }
      specialize (Hs Ha). cbn in Hlt. unfold SealLease, HeartbeatLive, Second in *. lia.
    + intros v' Hv' Hp. destruct (H7 v' Hv' Hp) as [H8 H9]. split; [|done]. cbn. by rewrite Hb.
  - cbn. intros f. rewrite Hf. by intros ?%not_elem_of_nil.
  - by intros d ?%not_elem_of_nil.
  - destruct Hv as [sub Ev]. unfold op_holds in *. cbn [set_stored set_db sy_op sy_db]. rewrite Ev in *.
    by apply (op_sound_cleared _ _ (sy_db s)).
Qed.
(** *** Backends *)

Lemma Inv_load s l b r sent commit rnd load db1 :
  Inv s -> sy_backends s = l ++ b :: r -> be_phase b = Checked sent -> rnd_ok rnd ->
  own_live b (sy_now s) (sy_db s) ->
  PrepareKeyring (be_cfg b) true commit rnd (sy_now s) (sy_db s) = (Ok load, db1) ->
  Inv (set_backends (l ++ with_proc
        {| pr_current := Some (kl_Keyring load); pr_counts := ∅; pr_lease := NewLease sent;
           pr_stopped := false |} Running b :: r)
      (set_db (WriteHeartbeat (be_inst b) (Some (kl_Active load)) (sy_now s) db1) s)).
Proof.
  intros I E Hp Hr Hlive Ep. assert (Hb : b ∈ sy_backends s) by (rewrite E; apply in_mid; by left).
  pose proof (in_backends _ I b Hb) as Hg.
  assert (Hpast : past b) by (unfold past; by rewrite Hp).
  pose proof (not_cleared s b I Hb Hpast Hlive) as Hno.
  pose proof (evolves_prepare (be_cfg b) true commit rnd (sy_now s) (sy_db s) (gb_kek _ _ Hg) Hr (in_keys _ I)) as Ev.
  rewrite Ep in Ev. destruct Ev as (W & _ & _). cbn [snd] in W.
  destruct (prepare_leaves _ _ _ _ _ _ _ _ (gb_kek _ _ Hg) Hr (in_keys _ I) Ep) as (G & Lk & B & F & Ea & Hin).
  assert (C : db_change s (WriteHeartbeat (be_inst b) (Some (kl_Active load)) (sy_now s) db1)).
  { apply WriteHeartbeat_change; [done|by split|]. intros h Hh. by apply (in_beats _ I), F. }
  assert (I' : Inv (set_db (WriteHeartbeat (be_inst b) (Some (kl_Active load)) (sy_now s) db1) s)).
  { apply (Inv_db s _ (fun i => i = inst_ID (be_inst b)) I C); [|by left].
    eapply beats_from_trans; [|apply WriteHeartbeat_from]. intros h Hh. left. by apply F. }
  apply (Inv_backend _ l b); [done|done|done|]. split.
  - apply Hg.
  - apply map_Forall_empty.
  - done.
  - intros _. cbn. apply Hg. unfold sent_of. by rewrite Hp.
  - intros _ _. destruct (WriteHeartbeat_mine (be_inst b) (Some (kl_Active load)) (sy_now s) db1)
      as (h & Hh & Hi & Hs & _). exists h. split_and!; [done|done|]. rewrite Hs. cbn.
    apply Hg. unfold sent_of. by rewrite Hp.
  - intros _ _ k [= <-]. rewrite <- Ea. exact Hin.
  - intros v Hv. by destruct (Hno v).
Qed.

Lemma Inv_prepare s cfg create commit rnd r d' :
  Inv s -> valid_kek (Active cfg) -> rnd_ok rnd ->
  PrepareKeyring cfg create commit rnd (sy_now s) (sy_db s) = (r, d') -> Inv (set_db d' s).
Proof.
  intros I Hv Hr Ep.
  pose proof (evolves_prepare cfg create commit rnd (sy_now s) (sy_db s) Hv Hr (in_keys _ I)) as Ev.
  rewrite Ep in Ev. destruct Ev as (W & _ & _). cbn [snd] in W.
  destruct (prepare_leaves _ _ _ _ _ _ _ _ Hv Hr (in_keys _ I) Ep) as (G & Lk & B & F & _).
  apply (Inv_db s d' (fun _ => False)); [done|by split| |right; by intros ? ? ? []].
  intros h Hh. left. by apply F.
Qed.

Lemma Inv_rotate s cfg retire commit rnd :
  Inv s -> rnd_ok rnd -> Inv (set_db (RotateStep1 cfg retire false commit rnd (sy_now s) (sy_db s)).2 s).
Proof.
  intros I Hr. destruct (evolves_rotate cfg retire false commit rnd (sy_now s) (sy_db s) Hr (in_keys _ I)) as (W & _).
  destruct (rotate_meta cfg retire false commit rnd (sy_now s) (sy_db s)) as [B Lk].
  apply (Inv_db s _ (fun _ => False)); [done| |by apply beats_from_same|right; by intros ? ? ? []]. split.
  - exact W.
  - apply counts_kept_grows, rotate_counts.
  - exact Lk.
  - by apply beats_kept_same.
Qed.

Lemma Inv_tick s l b r (seen : bool) :
  Inv s -> sy_backends s = l ++ b :: r -> be_phase b = Running ->
  Inv (set_backends (l ++
      (if seen && negb (String.eqb (DestructiveSubcommand (MaintenanceHolder (sy_db s))) "")
       then with_proc (stop (be_proc b)) Running b else at_phase (Ticking (sy_now s)) b) :: r) s).
Proof.
  intros I E Hp. assert (Hb : b ∈ sy_backends s) by (rewrite E; apply in_mid; by left).
  pose proof (in_backends _ I b Hb) as [H1 H2 H3 H4 H5 H6 H7].
  assert (Hpast : past b) by (unfold past; by rewrite Hp).
  destruct (seen && _); (apply (Inv_backend s l b); [done|done|done|]).
  - split; try done; try by intros [_ ?]. intros v Hv _. split; [by apply (H7 v Hv)|by intros [_ ?]].
  - assert (Ha : armed (at_phase (Ticking (sy_now s)) b) -> armed b).
    { intros [_ ?]. split; [by right|done]. }
    split; try done.
    + intros t [= <-]. lia.
    + intros Hx. by apply H4, Ha.
    + intros Hx. by apply H5, Ha.
    + intros Hx. by apply H6, Ha.
    + intros v Hv _. destruct (H7 v Hv Hpast) as [Hy Hz]. split; [done|]. intros Hx. by apply Hz, Ha.
Qed.

Lemma Inv_tock s l b r sent env rnd go p d' :
  Inv s -> sy_backends s = l ++ b :: r -> be_phase b = Ticking sent -> rnd_ok rnd ->
  own_live b (sy_now s) (sy_db s) ->
  Tick env (be_cfg b) (be_inst b) rnd sent (sy_now s) (be_proc b) (sy_db s) = (go, p, d') ->
  Inv (set_backends (l ++ with_proc p Running b :: r) (set_db d' s)).
Proof.
  intros I E Hp Hr Hlive Et. assert (Hb : b ∈ sy_backends s) by (rewrite E; apply in_mid; by left).
  pose proof (in_backends _ I b Hb) as [H1 H2 H3 H4 H5 H6 H7].
  assert (Hpast : past b) by (unfold past; by rewrite Hp).
  pose proof (not_cleared s b I Hb Hpast Hlive) as Hno.
  pose proof (evolves_tick env (be_cfg b) (be_inst b) rnd sent (sy_now s) (be_proc b) (sy_db s) Hr H2 (in_keys _ I)) as Ev.
  rewrite Et in Ev. destruct Ev as (W & _ & _). cbn [snd] in W.
  pose proof (Tick_leaves _ _ _ _ _ _ _ _ _ _ _ Et) as [G Lk K F Ac Cn].
  assert (C : db_change s d') by (split; [done|done|done|apply K; apply I]).
  assert (I' : Inv (set_db d' s)) by (apply (Inv_db s d' _ I C F); by left).
  apply (Inv_backend _ l b); [done|done|done|].
  destruct (Tick_backed _ _ _ _ _ _ _ _ _ _ _ Et) as [Hs Hl].
  assert (Hsent : sent <= sy_now s) by (apply H3; unfold sent_of; by rewrite Hp).
  assert (D : pr_lease p = pr_lease (be_proc b) \/
    (backed (be_inst b) (sy_now s) p d' /\ pr_lease p = Renew sent (pr_lease (be_proc b)))).
  { assert (Hd : {pr_lease p = pr_lease (be_proc b)} + {pr_lease p <> pr_lease (be_proc b)})
      by (decide equality; [apply bool_dec|apply Z.eq_dec]).
    destruct Hd as [?|Hne]; [by left|right]. by apply Hl. }
  assert (Ha : armed (with_proc p Running b) -> armed b).
  { intros [_ Hx]. cbn in Hx. rewrite Hs in Hx. apply orb_false_iff in Hx as [? _]. split; [left; by exists sent|done]. }
  split; try done.
  - cbn. by apply Cn.
  - intros Hx. specialize (H4 (Ha Hx)). cbn. destruct D as [->|[_ ->]]; [done|]. cbn.
    destruct (Z.ltb_spec (lastSent (pr_lease (be_proc b))) sent); lia.
  - intros Hx. specialize (H5 (Ha Hx)). unfold lease_backed. cbn.
    destruct D as [->|[(k & _ & _ & h & Hh & Hi & Hsn & _) ->]].
    + intros Hlt. destruct (H5 Hlt) as (h & Hh & Hi & Hle).
      destruct (dc_kept _ _ C h Hh) as (h' & Hh' & Hi' & Hle'); [lia|].
      exists h'. split_and!; [done|congruence|lia].
    + intros _. exists h. split_and!; [done|done|]. specialize (H4 (Ha Hx)). cbn.
      destruct (Z.ltb_spec (lastSent (pr_lease (be_proc b))) sent); lia.
  - intros Hx Hlt k Ek. cbn in Hlt, Ek. destruct D as [D|[(k0 & Ek0 & Hk0 & _) _]].
    + rewrite D in Hlt. pose proof (H6 (Ha Hx) Hlt) as Hk.
      destruct (pr_current (be_proc b)) as [k1|] eqn:Ek1.
      * destruct (Ac k1 eq_refl) as (k' & Ek' & Hact). rewrite Ek in Ek'. injection Ek' as <-.
        destruct Hact as [->|?]; [|done]. by apply G, Hk.
      * unfold Tick in Et. rewrite Ek1 in Et. injection Et as <- <- <-. congruence.
    + rewrite Ek in Ek0. by injection Ek0 as <-.
  - intros v Hv. by destruct (Hno v).
Qed.

(** A seal: under a lease, so with a key that is in the table. *)
Lemma gate_open t p : gate t p = Ok tt -> pr_stopped p = false /\ t <= lastSent (pr_lease p) + SealLease.
Proof.
  unfold gate. destruct (pr_stopped p); [done|]. unfold CheckLease.
  destruct (Z.leb_spec (t - lastSent (pr_lease p)) SealLease); [|done]. intros _. split; [done|lia].
Qed.

Lemma Seal_gate current g bd plain nonce c v c' :
  plain <> "" -> Seal current g bd plain nonce c = (Ok v, c') ->
  g = Ok tt /\ (counts_ok c -> counts_ok c').
Proof.
  intros Hp. unfold Seal. rewrite (proj2 (String.eqb_neq _ _) Hp). destruct current as [k|]; [|done].
  destruct g as [[]|e]; [|done]. unfold SealActive, SealWith. rewrite (proj2 (String.eqb_neq _ _) Hp).
  destruct (deks k !! active k); [|done]. destruct (aad bd); [|done]. intros [= _ <-]. split; [done|].
  intros Hc. by apply counts_ok_add.
Qed.

Lemma Inv_seal s l b r k bd plain nonce v c :
  Inv s -> sy_backends s = l ++ b :: r -> (exists sent, be_phase b = Ticking sent) \/ be_phase b = Running ->
  pr_current (be_proc b) = Some k -> plain <> "" ->
  Seal (pr_current (be_proc b)) (gate (sy_now s) (be_proc b)) bd plain nonce (pr_counts (be_proc b)) = (Ok v, c) ->
  Inv (set_flight ({| if_owner := inst_ID (be_inst b); if_dek := ActiveDEK k; if_sealed := sy_now s |}
                   :: sy_flight s)
        (set_backends (l ++ with_proc (set_counts c (be_proc b)) (be_phase b) b :: r) s)).
Proof.
  intros I E Hp Ek Hne Es. assert (Hb : b ∈ sy_backends s) by (rewrite E; apply in_mid; by left).
  pose proof (in_backends _ I b Hb) as Hg. destruct (Seal_gate _ _ _ _ _ _ _ _ Hne Es) as [Hgate Hc].
  apply gate_open in Hgate as [Hst Hlt]. assert (Ha : armed b) by by split.
  assert (Hpast : past b) by (unfold past; destruct Hp as [[t ->]| ->]; done).
  assert (Hno : forall v, ~ cleared_at s v).
  { intros v' Hv. destruct (in_cleared _ I v' Hv) as [Hle _].
    destruct (gb_silent _ _ Hg v' Hv Hpast) as [_ Hs]. specialize (Hs Ha).
    unfold SealLease, HeartbeatLive, Second in *. lia. }
  assert (I' : Inv (set_backends (l ++ with_proc (set_counts c (be_proc b)) (be_phase b) b :: r) s)).
  { apply (Inv_backend s l b); [done|done|done|]. destruct Hg as [H1 H2 H3 H4 H5 H6 H7].
    split; try done. by apply Hc. }
  destruct I' as [I1 I2 I3 I4 I5 I6 I7 I8]. split; try done.
  - intros x Hx. by destruct (I4 x Hx).
  - cbn [set_flight sy_flight]. intros f [->|Hf]%elem_of_cons; [|by apply I5]. unfold good_flight. cbn.
    split; [by apply (gb_key _ _ Hg Ha Hlt)|]. split; [unfold WriteLimit, Second; lia|].
    destruct (gb_lease _ _ Hg Ha) as (h & Hh & Hi & Hs);
      [unfold SealLease, HeartbeatLive, Second in *; lia|].
    exists h. split_and!; [done|done|lia].
  - intros v' Hv. by destruct (Hno v').
Qed.

Lemma Inv_land s l f r (written : bool) :
  Inv s -> sy_flight s = l ++ f :: r ->
  Inv (set_flight (l ++ r) (if written then set_stored (if_dek f :: sy_stored s) s else s)).
Proof.
  intros [I1 I2 I3 I4 I5 I6 I7 I8] E.
  assert (Hf : forall x, x ∈ l ++ r -> x ∈ sy_flight s) by (intros x Hx; rewrite E; apply in_mid; by right).
  assert (Hin : f ∈ sy_flight s) by (rewrite E; apply in_mid; by left).
  assert (Hno : forall v, ~ cleared_at s v).
  { intros v Hv. destruct (I8 v Hv) as [_ H]. rewrite H in E. by destruct l. }
  destruct written; (split; try done).
  - intros b Hb. by destruct (I4 b Hb).
  - intros x Hx. by apply I5, Hf.
  - cbn. intros d [->|Hd]%elem_of_cons; [|by apply I6]. by apply (I5 f Hin).
  - intros v Hv. by destruct (Hno v).
  - intros b Hb. by destruct (I4 b Hb).
  - intros x Hx. by apply I5, Hf.
  - intros v Hv. by destruct (Hno v).
Qed.

Lemma Inv_drop s l d r : Inv s -> sy_stored s = l ++ d :: r -> Inv (set_stored (l ++ r) s).
Proof.
  intros [I1 I2 I3 I4 I5 I6 I7 I8] E. split; try done.
  - intros b Hb. by destruct (I4 b Hb).
  - cbn. intros x Hx. apply I6. rewrite E. apply in_mid. by right.
Qed.

Lemma Inv_leave s l b r :
  Inv s -> sy_backends s = l ++ b :: r -> Forall (fun f => if_owner f <> inst_ID (be_inst b)) (sy_flight s) ->
  Inv (set_backends (l ++ at_phase Gone b :: r) (set_db (DeleteHeartbeat (be_inst b) (sy_db s)) s)).
Proof.
  intros [I1 I2 I3 I4 I5 I6 I7 I8] E Hf. rewrite Forall_forall in Hf.
  assert (Hsub : forall h, h ∈ kd_beats (DeleteHeartbeat (be_inst b) (sy_db s)) <->
    h ∈ kd_beats (sy_db s) /\ InstanceID h <> inst_ID (be_inst b)).
  { intros h. cbn. rewrite elem_of_keep, negb_true_iff, N.eqb_neq. done. }
  split; try done.
  - intros h [Hh _]%Hsub. by apply I2.
  - cbn [set_backends sy_backends]. rewrite E in I3. by rewrite map_app in *.
  - cbn [set_backends sy_backends]. intros x [->|Hx]%in_mid.
    + assert (Hb : b ∈ sy_backends s) by (rewrite E; apply in_mid; by left).
      destruct (good_gone s b (I4 b Hb)) as [H1 H2 H3 H4 H5 H6 H7].
      split; try done; try by intros [[[? ?]|?] _]. 
    + assert (Hx' : x ∈ sy_backends s) by (rewrite E; apply in_mid; by right).
      assert (Hne : inst_ID (be_inst x) <> inst_ID (be_inst b)).
      { rewrite E, map_app in I3. cbn [map] in I3. apply NoDup_app in I3 as (_ & N1 & [N2 _]%NoDup_cons).
        intros Heq. apply elem_of_app in Hx as [Hx|Hx].
        - apply (N1 (inst_ID (be_inst x))).
          + apply list_elem_of_In, (in_map (fun b => inst_ID (be_inst b))). by apply list_elem_of_In.
          + rewrite Heq. left.
        - apply N2. rewrite <- Heq. apply list_elem_of_In, (in_map (fun b => inst_ID (be_inst b))).
          by apply list_elem_of_In. }
      destruct (I4 x Hx') as [H1 H2 H3 H4 H5 H6 H7]. split; try done.
      * intros Ha Hl. destruct (H5 Ha Hl) as (h & Hh & Hi & Hs). exists h.
        split_and!; [|done|done]. apply Hsub. split; [done|]. by rewrite Hi.
      * intros v Hv Hp. destruct (H7 v Hv Hp) as [Ho Hl]. split; [|done].
        intros h [Hh _]%Hsub. by apply Ho.
  - intros f Hin. destruct (I5 f Hin) as (H1 & H2 & h & Hh & Hi & Hs). split_and!; [done|apply H2|apply H2|].
    exists h. split_and!; [|done|done]. apply Hsub. split; [done|]. rewrite Hi. by apply Hf.
Qed.

(** *** Passes *)

(** What runs under the lock changes, and nothing else. *)
Lemma Inv_pass s k pending :
  Inv s -> op_sound (OpPass k pending) (sy_db s) -> Inv (set_op (OpPass k pending) s).
Proof.
  intros [I1 I2 I3 I4 I5 I6 I7 I8] Ho. split; try done.
  - intros b Hb. destruct (I4 b Hb) as [H1 H2 H3 H4 H5 H6 H7]. split; try done. by intros v [sub Hv].
  - by intros v [sub Hv].
Qed.

Lemma pass_sound s k pending :
  Inv s -> sy_op s = OpPass k pending -> op_sound (OpPass k pending) (sy_db s).
Proof. intros I E. rewrite <- E. apply I. Qed.

Lemma Inv_keys s k0 pending cfg k n :
  Inv s -> sy_op s = OpPass k0 pending -> NewKeyring cfg (LoadDataKeys (sy_db s)) = Ok (k, n) ->
  Inv (set_op (OpPass (Some k) pending) s).
Proof.
  intros I E [[Ea|Ea] Hz]%add_active; [by rewrite Ea in Hz|]. rewrite LoadDataKeys_ids in Ea.
  apply Inv_pass; [done|]. split; [by intros k' [= <-]|]. by apply (pass_sound s k0).
Qed.

Lemma Inv_first_key s k0 pending cfg commit rnd load d' :
  Inv s -> sy_op s = OpPass k0 pending -> rnd_ok rnd -> valid_kek (Active cfg) ->
  PrepareKeyring cfg true commit rnd (sy_now s) (sy_db s) = (Ok load, d') ->
  Inv (set_op (OpPass (Some (kl_Keyring load)) pending) (set_db d' s)).
Proof.
  intros I E Hr Hv Ep. pose proof (Inv_prepare _ _ _ _ _ _ _ I Hv Hr Ep) as I'.
  destruct (prepare_leaves _ _ _ _ _ _ _ _ Hv Hr (in_keys _ I) Ep) as (G & _ & _ & _ & Ea & Hin).
  apply Inv_pass; [done|]. split; [intros k' [= <-]; by rewrite <- Ea|]. cbn.
  intros i Hi. apply G. by apply (pass_sound s k0 pending I E).
Qed.

Lemma Inv_pass_seal s k pending :
  Inv s -> sy_op s = OpPass (Some k) pending -> Inv (set_op (OpPass (Some k) (ActiveDEK k :: pending)) s).
Proof.
  intros I E. pose proof (pass_sound _ _ _ I E) as [Hk Hp]. apply Inv_pass; [done|]. split; [done|].
  intros i [->|Hi]%elem_of_cons; [by apply Hk|by apply Hp].
Qed.

(** The conversion of a backend seals through the gate. *)
Lemma Inv_convert s k0 pending l b r k bd plain nonce v c :
  Inv s -> sy_op s = OpPass k0 pending ->
  sy_backends s = l ++ b :: r -> (exists sent, be_phase b = Ticking sent) \/ be_phase b = Running ->
  pr_current (be_proc b) = Some k -> plain <> "" ->
  Seal (pr_current (be_proc b)) (gate (sy_now s) (be_proc b)) bd plain nonce (pr_counts (be_proc b)) = (Ok v, c) ->
  Inv (set_op (OpPass k0 (ActiveDEK k :: pending))
        (set_backends (l ++ with_proc (set_counts c (be_proc b)) (be_phase b) b :: r) s)).
Proof.
  intros I Eo E Hp Ek Hne Es. pose proof (pass_sound _ _ _ I Eo) as [Hk Hpe].
  pose proof (Inv_seal _ _ _ _ _ _ _ _ _ _ I E Hp Ek Hne Es) as Is.
  destruct (in_flight _ Is {| if_owner := inst_ID (be_inst b); if_dek := ActiveDEK k; if_sealed := sy_now s |})
    as [Hin _]; [left|]. cbn in Hin.
  assert (Hb : b ∈ sy_backends s) by (rewrite E; apply in_mid; by left).
  destruct (Seal_gate _ _ _ _ _ _ _ _ Hne Es) as [_ Hc].
  apply Inv_pass; [|split; [done|by intros i [->|Hi]%elem_of_cons; [|by apply Hpe]]].
  apply (Inv_backend s l b); [done|done|done|].
  destruct (in_backends _ I b Hb) as [H1 H2 H3 H4 H5 H6 H7]. split; try done. by apply Hc.
Qed.

Lemma Inv_batch s k pending (committed : bool) :
  Inv s -> sy_op s = OpPass k pending ->
  Inv (set_op (OpPass k []) (if committed then set_stored (pending ++ sy_stored s) s else s)).
Proof.
  intros I E. pose proof (pass_sound _ _ _ I E) as [Hk Hp].
  assert (Hs : op_sound (OpPass k []) (sy_db s)) by by split; [|intros i ?%not_elem_of_nil].
  destruct committed; [|by apply Inv_pass].
  apply Inv_pass; [|done]. destruct I as [I1 I2 I3 I4 I5 I6 I7 I8]. split; try done.
  - intros b Hb. by destruct (I4 b Hb).
  - cbn. intros d [Hd|Hd]%elem_of_app; [by apply Hp|by apply I6].
Qed.

Lemma Inv_flush s cs :
  Inv s -> Forall (fun p => 0 <= p.2) cs -> Inv (set_db (FlushSealCounts cs (sy_db s)) s).
Proof.
  intros I Hcs. destruct (evolves_flush cs (sy_db s) Hcs (in_keys _ I)) as (W & _).
  destruct (FlushSealCounts_meta cs (sy_db s)) as [B Lk].
  apply (Inv_db s _ (fun _ => False)); [done| |by apply beats_from_same|right; by intros ? ? ? []]. split.
  - exact W.
  - intros id Hid. by apply sealed_flush.
  - exact Lk.
  - by apply beats_kept_same.
Qed.

(** *** Every step *)

Lemma Inv_starts s s' : Inv s -> starts true s s' -> Inv s'.
Proof.
  intros I. destruct 1.
  - by apply Inv_start.
  - by eapply Inv_check.
  - eapply Inv_load; eauto.
  - assert (Hb : b ∈ sy_backends s) by (rewrite H; apply in_mid; by left).
    pose proof (Inv_prepare s _ _ _ _ _ _ I (gb_kek _ _ (in_backends _ I b Hb)) H1 H2) as I'.
    apply (Inv_backend _ l b); [done|done|done|]. by apply good_gone, (in_backends _ I').
Qed.

Lemma Inv_leaves s s' : Inv s -> leaves true s s' -> Inv s'.
Proof.
  intros I. destruct 1 as [l b r E|l b r goes_on E Hd].
  - assert (Hb : b ∈ sy_backends s) by (rewrite E; apply in_mid; by left).
    apply (Inv_backend _ l b); [done|done|done|]. by apply good_gone, (in_backends _ I).
  - destruct (Hd eq_refl) as [-> Hf]. by apply Inv_leave.
Qed.

Lemma Inv_keeps s s' : Inv s -> keeps s s' -> Inv s'.
Proof.
  intros I. destruct 1.
  - by apply Inv_rotate.
  - destruct (PrepareKeyring _ _ _ _ _ _) as [x d'] eqn:Ep. by eapply Inv_prepare.
  - by apply Inv_flush.
Qed.

Lemma Inv_converts s s' : Inv s -> converts s s' -> Inv s'.
Proof.
  intros I. destruct 1.
  - apply TryMaintenanceLock_ok in H0 as ->. apply Inv_lock; [done|done|].
    by split; [|intros i ?%not_elem_of_nil].
  - by eapply Inv_keys.
  - by eapply Inv_first_key.
  - by eapply Inv_pass_seal.
  - by eapply Inv_convert.
  - by apply Inv_batch.
  - by apply Inv_lock.
Qed.

Lemma Inv_destroys s s' : Inv s -> destroys s s' -> Inv s'.
Proof.
  intros I. destruct 1.
  - apply TryMaintenanceLock_ok in H2 as ->. apply Inv_lock; [done|done|]. by apply (destructive_app me sub).
  - destruct (LiveHeartbeats (sy_now s) (sy_db s)) eqn:El; [by apply Inv_cleared|by apply Inv_lock].
  - rewrite <- (set_db_stored s) by done. apply (Inv_delete s _ v); [done|by eexists| |done|done].
    by apply (evolves_delete (sy_db s)), I.
  - pose proof (evolves_delete (sy_db s) (in_keys _ I)) as (W & _).
    destruct (insert_wf _ _ _ _ _ _ H0 W H1) as (W' & _ & Hb & _).
    pose proof (insert_meta (Active cfg) rnd (sy_now s) (deleteDataKeys (sy_db s)).2) as [_ Hl].
    rewrite H1 in Hl. by apply (Inv_delete s _ v); [done|by eexists|done|done|done].
  - by apply Inv_lock.
Qed.

Lemma Inv_step s s' : Inv s -> step true true s s' -> Inv s'.
Proof.
  intros I. destruct 1 as [[]| |[]|[]| | | |].
  - by apply Inv_time.
  - by apply (Inv_starts s).
  - by apply (Inv_tick s l b).
  - eapply Inv_tock; eauto.
  - eapply Inv_seal; eauto.
  - by apply Inv_land.
  - by eapply Inv_drop.
  - by apply (Inv_leaves s).
  - by apply (Inv_keeps s).
  - by apply (Inv_converts s).
  - by apply (Inv_destroys s).
Qed.

Lemma Inv_reachable s : reachable true true s -> Inv s.
Proof.
  intros (s0 & H0 & Hr). apply Inv_initial in H0. induction Hr as [|x y z Hs _ IH]; [done|].
  apply IH. by eapply Inv_step.
Qed.

(** C2: Destructive commands and sealing exclude each other, under four conditions:
    every backend writes its next heartbeat while the last one is live; a request
    that seals ends within thirty seconds; a backend that removes its heartbeat has
    drained, so it has no value on its way and seals no more; and the session that
    holds the maintenance lock is not lost.  Then in every state the system
    reaches, every encrypted value in the database, every one a request has on its
    way to it, and every one in the open batch of a pass that converts or
    re-encrypts, is under a data key that the table has; and once an operator
    command has the lock and has found no live heartbeat, until it gives the lock
    back, no value is on its way and no backend can seal.  Without the first
    condition or the third the conclusion fails, see
    [paused_backend_seals_under_deleted_key] and
    [undrained_exit_seals_under_deleted_key]. *)
Theorem prompt_backends_keep_secrets s :
  reachable true true s ->
  (forall d, d ∈ sy_stored s -> d ∈ key_ids (sy_db s)) /\
  (forall f, f ∈ sy_flight s -> if_dek f ∈ key_ids (sy_db s)) /\
  (forall k pending d, sy_op s = OpPass k pending -> d ∈ pending -> d ∈ key_ids (sy_db s)) /\
  (forall v, cleared_at s v -> sy_flight s = [] /\
     forall b, b ∈ sy_backends s -> be_phase b = Running \/ (exists t, be_phase b = Ticking t) ->
       gate (sy_now s) (be_proc b) = Err ErrSealPaused).
Proof.
  intros I%Inv_reachable. split_and!.
  - apply I.
  - intros f Hf. by apply (in_flight _ I f Hf).
  - intros k pending d E. by apply (pass_sound _ _ _ I E).
  - intros v Hv. destruct (in_cleared _ I v Hv) as [Hle Hf]. split; [done|]. intros b Hb Hp.
    unfold gate. destruct (pr_stopped (be_proc b)) eqn:Es; [done|].
    destruct (gb_silent _ _ (in_backends _ I b Hb) v Hv) as [_ Hs].
    { unfold past. by destruct Hp as [->|[t ->]]. }
    specialize (Hs ltac:(split; [tauto|done])). unfold CheckLease.
    destruct (Z.leb_spec (sy_now s - lastSent (pr_lease (be_proc b))) SealLease) as [Hlt|]; [|done].
    unfold SealLease, HeartbeatLive, Second in *. lia.
Qed.
End Invariant.

(** ** A backend that was paused *)

#[local] Existing Instances Toy.aead Toy.laws.

Module Paused.
Definition operator : LockHolder := {| AppName := OperatorApp "decrypt-all"; PID := 9; BackendStart := 0 |}.
Definition at_start : Sys :=
  {| sy_now := 0; sy_db := Demo.empty; sy_backends := []; sy_flight := []; sy_stored := []; sy_op := OpIdle |}.
Definition backend (p : Process) (ph : Phase) : Backend :=
  {| be_inst := Demo.me; be_cfg := Toy.cfg; be_proc := p; be_phase := ph |}.
(** The start of the backend, at time 0. *)
Definition loading : res OpError KeyLoad * KeyDB :=
  PrepareKeyring Toy.cfg true true Demo.rnd 0 (WriteHeartbeat Demo.me None 0 Demo.empty).
Definition load : KeyLoad :=
  match loading.1 with
  | Ok l => l
  | Err _ => {| kl_Keyring := {| deks := ∅; active := 0 |}; kl_DataKeys := 0; kl_Active := 0;
                kl_Created := false; kl_Rewrapped := 0; kl_UnusedPrevious := [] |}
  end.
Definition process : Process :=
  {| pr_current := Some (kl_Keyring load); pr_counts := ∅; pr_lease := NewLease 0; pr_stopped := false |}.
Definition locked : KeyDB := set_lock (Some operator) (WriteHeartbeat Demo.me (Some (kl_Active load)) 0 loading.2).
(** The step of the refresher that began at 100 s, after the pause, ends at 102 s. *)
Definition tock : bool * Process * KeyDB :=
  Tick (past_check Demo.all_ok) Toy.cfg Demo.me Demo.rnd (100 * Second) (102 * Second) process locked.
(** The value sealed at 104 s. *)
Definition sealing : res KeyError string * counts :=
  Seal (pr_current tock.1.2) (gate (104 * Second) tock.1.2) Toy.place "secret" Toy.nonce (pr_counts tock.1.2).
End Paused.

Lemma paused_loads : Paused.loading = (Ok Paused.load, Paused.loading.2).
Proof.
  unfold Paused.load. assert (H : match Paused.loading.1 with Ok _ => true | Err _ => false end = true) by by vm_compute.
  destruct Paused.loading as [[l|e] d]; done.
Qed.

Lemma paused_seals : exists v c k, Paused.sealing = (Ok v, c) /\
  pr_current Paused.tock.1.2 = Some k /\ ActiveDEK k = 1 /\ be_phase (Paused.backend Paused.tock.1.2 Running) = Running.
Proof.
  assert (H : match Paused.sealing.1, pr_current Paused.tock.1.2 with
    | Ok _, Some k => ActiveDEK k =? 1 | _, _ => false end = true) by by vm_compute.
  destruct Paused.sealing as [[v|e] c]; [|done]. cbn [fst] in H.
  destruct (pr_current Paused.tock.1.2) as [k|] eqn:E; [|done]. exists v, c, k.
  apply Z.eqb_eq in H. by split_and!.
Qed.

(** A paused backend can still seal under a deleted key.  A backend is paused for
    more than ninety seconds; its next step of the refresher looks at the
    maintenance lock just before [decrypt-all] takes it and finds no live
    heartbeat, and writes its heartbeat just after: the key is still there, so
    the lease is renewed.  The operator deletes the data keys, and the backend
    seals a value that no key opens.  The contract's write-then-check is kept at
    the start of a backend but not by its refresher. *)
Theorem paused_backend_seals_under_deleted_key :
  exists s, reachable false true s /\ sy_stored s = [1] /\ kd_keys (sy_db s) = [].
Proof.
  destruct paused_seals as (v & c & k & Es & Ek & Ea & _).
  eexists. split.
  { exists Paused.at_start. split; [split_and!; [exact keys_wf_empty|done..]|].
    eapply rtc_l; [apply by_start, (st_start _ _ Demo.me Toy.cfg); [constructor|exact valid_kek_demo]|].
    eapply rtc_l; [by apply by_start, (st_check _ _ [] (Paused.backend no_process (Written 0)) [] 0)|].
    eapply rtc_l; [apply by_start, (st_load _ _ [] (Paused.backend no_process (Checked 0)) [] 0 true Demo.rnd
      Paused.load Paused.loading.2); [done|done|exact rnd_ok_demo|done|exact paused_loads]|].
    eapply rtc_l; [apply by_time, (st_time _ (100 * Second)); [by apply Z.leb_le; vm_compute|constructor]|].
    eapply rtc_l; [by apply by_refresh, (st_tick _ _ [] (Paused.backend Paused.process Running) [] true)|].
    eapply rtc_l; [apply by_time, (st_time _ (101 * Second)); [by apply Z.leb_le; vm_compute|constructor]|].
    eapply rtc_l; [apply by_destroy, (op_lock _ "decrypt-all" Paused.operator Paused.locked);
      [by left|done|done|done]|].
    eapply rtc_l; [by apply by_destroy, (op_check _ "decrypt-all")|].
    eapply rtc_l; [apply by_time, (st_time _ (102 * Second)); [by apply Z.leb_le; vm_compute|constructor]|].
    eapply rtc_l; [apply by_refresh, (st_tock _ _ [] (Paused.backend Paused.process (Ticking (100 * Second))) []
      (100 * Second) Demo.all_ok Demo.rnd Paused.tock.1.1 Paused.tock.1.2 Paused.tock.2);
      [done|done|exact rnd_ok_demo|done|]|].
    { change (Paused.tock = (Paused.tock.1.1, Paused.tock.1.2, Paused.tock.2)).
      by destruct Paused.tock as [[? ?] ?]. }
    eapply rtc_l; [by apply by_destroy, (op_delete _ (101 * Second))|].
    eapply rtc_l; [apply by_time, (st_time _ (104 * Second)); [by apply Z.leb_le; vm_compute|constructor]|].
    eapply rtc_l; [by apply by_seal, (st_seal _ [] (Paused.backend Paused.tock.1.2 Running) [] k Toy.place "secret"
      Toy.nonce v c); [|right| | |]|].
    eapply rtc_l; [by apply by_seal, (st_land _ [] {| if_owner := inst_ID Demo.me; if_dek := ActiveDEK k;
      if_sealed := 104 * Second |} [] true)|].
    apply rtc_refl. }
  split; [|done]. cbn [set_flight set_stored sy_stored if_dek]. rewrite Ea. done.
Qed.

(** ** A backend that leaves without a drain *)

Module Undrained.
Definition value : InFlight :=
  {| if_owner := inst_ID Demo.me; if_dek := ActiveDEK (kl_Keyring Paused.load); if_sealed := 5 * Second |}.
Definition tables : KeyDB := WriteHeartbeat Demo.me (Some (kl_Active Paused.load)) 0 Paused.loading.2.
(** Five seconds after its start the backend has sealed a value. *)
Definition sealed (c : counts) : Sys :=
  {| sy_now := 5 * Second; sy_db := tables;
     sy_backends := [Paused.backend (set_counts c Paused.process) Running];
     sy_flight := [value]; sy_stored := []; sy_op := OpIdle |}.
End Undrained.

Lemma first_seal : exists v c, Seal (pr_current Paused.process) (gate (5 * Second) Paused.process)
  Toy.place "secret" Toy.nonce (pr_counts Paused.process) = (Ok v, c).
Proof.
  assert (Hb : match (Seal (pr_current Paused.process) (gate (5 * Second) Paused.process) Toy.place "secret"
    Toy.nonce (pr_counts Paused.process)).1 with Ok _ => true | Err _ => false end = true) by by vm_compute.
  destruct (Seal _ _ _ _ _ _) as [[v|e] c]; [by exists v, c|done].
Qed.

Lemma sealed_key : if_dek Undrained.value = 1.
Proof. by vm_compute. Qed.

Lemma sealed_reachable prompt drained : exists c, reachable prompt drained (Undrained.sealed c).
Proof.
  destruct first_seal as (v & c & Es). exists c, Paused.at_start.
  split; [split_and!; [exact keys_wf_empty|done..]|].
  eapply rtc_l; [apply by_start, (st_start _ _ Demo.me Toy.cfg); [constructor|exact valid_kek_demo]|].
  eapply rtc_l; [by apply by_start, (st_check _ _ [] (Paused.backend no_process (Written 0)) [] 0)|].
  eapply rtc_l; [apply by_start, (st_load _ _ [] (Paused.backend no_process (Checked 0)) [] 0 true Demo.rnd
    Paused.load Paused.loading.2); [done|done|exact rnd_ok_demo| |exact paused_loads]|].
  { clear Es. intros _. eexists. split; [left|split; reflexivity]. }
  eapply rtc_l; [apply by_time, (st_time _ (5 * Second)); [by apply Z.leb_le; vm_compute|constructor]|].
  eapply rtc_l; [by apply by_seal, (st_seal _ [] (Paused.backend Paused.process Running) [] (kl_Keyring Paused.load)
    Toy.place "secret" Toy.nonce v c); [|right| | |]|].
  apply rtc_refl.
Qed.

(** A backend that leaves without a clean drain loses a value.  A request has sealed
    a value and its statement has not reached the database when the server fails, or
    when the drain gives the request up; [main] removes the heartbeat all the same,
    [decrypt-all] finds no live heartbeat and deletes the data keys, and the value
    lands under a key that is gone. *)
Theorem undrained_exit_seals_under_deleted_key :
  exists s, reachable true false s /\ sy_stored s = [1] /\ kd_keys (sy_db s) = [].
Proof.
  destruct (sealed_reachable true false) as (c & s0 & H0 & Hr). eexists. split.
  { exists s0. split; [exact H0|]. etransitivity; [exact Hr|].
    eapply rtc_l; [by apply by_leave, (st_leave _ _ [] (Paused.backend (set_counts c Paused.process) Running) [] true)|].
    eapply rtc_l; [apply by_destroy, (op_lock _ "decrypt-all" Paused.operator
      (set_lock (Some Paused.operator) (DeleteHeartbeat Demo.me Undrained.tables))); [by left|done|done|done]|].
    eapply rtc_l; [by apply by_destroy, (op_check _ "decrypt-all")|].
    eapply rtc_l; [by apply by_destroy, (op_delete _ (5 * Second))|].
    eapply rtc_l; [by apply by_seal, (st_land _ [] Undrained.value [] true)|].
    apply rtc_refl. }
  split; [|done]. cbn [set_flight set_stored sy_stored]. by rewrite sealed_key.
Qed.

Lemma prompt_backends_keep_secrets_witness :
  exists s, sy_stored s = [1] /\ 1 ∈ key_ids (sy_db s).
Proof.
  assert (Hr : exists s, reachable true true s /\ sy_stored s = [1]).
  { destruct (sealed_reachable true true) as (c & s0 & H0 & Hr). eexists. split.
    - exists s0. split; [exact H0|]. etransitivity; [exact Hr|].
      eapply rtc_l; [by apply by_seal, (st_land _ [] Undrained.value [] true)|]. apply rtc_refl.
    - cbn [set_flight set_stored sy_stored]. by rewrite sealed_key. }
  destruct Hr as (s & Hr & Hs). exists s. split; [done|].
  destruct (prompt_backends_keep_secrets s Hr) as (H & _). apply H. rewrite Hs. left.
Defined.
