(* ===== verification/OperatorCommand.v ===== *)
(** * The operator's encryption command

    [cmd/paceday-operator/encryption.go], with the key configuration of
    [config/encryption.go]: the checks of the flags, the schema version, the
    maintenance lock and the heartbeats, the subcommands on the tables of
    [EncryptionOps] and [EncryptionKeys], the exit codes and the audit record.
    A function of the command reads and writes [Op], the database and what the
    process remembers, and may leave early with an exit code.  Whether a call of
    the database succeeds is an oracle, one answer per call. *)

From stdpp Require Import gmap strings.
From S2P Require Import Prelude GoInt GoTime GoText GoEncoding LinkStore SecretBox EncryptionKeys SecretStore EncryptionOps EncryptionProtocol.

#[local] Open Scope string_scope.
#[local] Open Scope list_scope.
#[local] Open Scope Z_scope.

(** ** Configured keys *)

Definition committedTestKeys : list string :=
  ["cGFjZWRheS1lMmUtdGVzdC1rZXktTk9ULVNFQ1JFVCE="; "cGFjZWRheS1lMmUtdGVzdC1rZXktMi1OT1RTRUNSRVQ="].

Inductive ConfigRefusal := RefusedParse (r : Refusal) | RefusedTestKey (v : Var) (id : string).

(** [KEK.SameBytes]. *)
Definition SameBytes (k : KEK) (b : string) : bool := (slen b =? 32) && String.eqb (kek_key k) b.

Definition test_key (k : KEK) : bool :=
  existsb (fun b64 => SameBytes k (default "" (DecodeStrict StdEncoding b64))) committedTestKeys.

Definition DecideEncryptionKeys (getenv : string -> string) : res ConfigRefusal KeyConfig :=
  match ParseKeyConfig (getenv "PACEDAY_ENCRYPTION_KEY") (getenv "PACEDAY_ENCRYPTION_KEY_PREVIOUS") with
  | Err r => Err (RefusedParse r)
  | Ok cfg =>
      if String.eqb (getenv "PACEDAY_ENCRYPTION_ALLOW_TEST_KEY") "true" then Ok cfg
      else match List.find test_key (All cfg) with
           | Some k => Err (RefusedTestKey (kek_Var k) (kek_ID k))
           | None => Ok cfg
           end
  end.

(** ** The invocation *)

(** Exit codes. *)
Definition exitOK : Z := 0.
Definition exitFailed : Z := 1.
Definition exitUsage : Z := 2.
Definition exitPlain : Z := 3.
Definition exitKey : Z := 4.
Definition exitLock : Z := 5.
Definition exitBackends : Z := 6.

Inductive Sub := Status | ConvertCmd | RotateCmd | DecryptAll | ResetLost | Downgrade.

#[export] Instance Sub_eq_dec : EqDecision Sub.
Proof. solve_decision. Defined.

Definition sub_name (s : Sub) : string :=
  match s with
  | Status => "status" | ConvertCmd => "convert" | RotateCmd => "rotate-data-key"
  | DecryptAll => "decrypt-all" | ResetLost => "reset-lost-key" | Downgrade => "downgrade-schema"
  end.

(** [subcommands]. *)
Definition subcommand (name : string) : option Sub :=
  List.find (fun s => String.eqb (sub_name s) name) [Status; ConvertCmd; RotateCmd; DecryptAll; ResetLost; Downgrade].

Definition mutating (s : Sub) : bool := negb (bool_decide (s = Status)).

(** The flags, where the flag package accepts them. *)
Record encryptionRun := {
  r_sub : Sub;
  r_operator : string;
  r_reason : string;
  r_check : bool;
  r_confirm : bool;
  r_empty : bool;
  r_batch : Z;
  r_retire : Z;
  r_wait : Z;
}.

(** The checks of [runEncryption] on the flags. *)
Definition usage_ok (r : encryptionRun) (dsn : string) : bool :=
  negb (mutating (r_sub r) &&
        (String.eqb (TrimSpace (r_operator r)) "" || String.eqb (TrimSpace (r_reason r)) "")) &&
  negb (bool_decide (r_sub r = RotateCmd) && (r_retire r <=? 0)) &&
  negb (bool_decide (r_sub r = ResetLost) && negb (r_confirm r)) &&
  negb ((bool_decide (r_sub r = ConvertCmd) || bool_decide (r_sub r = RotateCmd)) &&
        ((r_batch r <? 1) || (1000 <? r_batch r))) &&
  negb (String.eqb dsn "").

(** ** What a run reads and writes *)

(** A row of operator_audit, with its [AuditDetails]. *)
Record AuditRow := {
  ad_Action : string;
  ad_Operator : string;
  ad_Reason : string;
  ad_Outcome : string;
  ad_KeyIDs : option (string * list string);
  ad_Created : list Z;
  ad_Retired : list Z;
  ad_Removed : list Z;
  ad_Counts : gmap string (gmap string Z);
  ad_Losses : option Z;
}.

Record Op := {
  o_store : Store;
  o_schema : option (Z * bool);    (** the version and whether it is dirty *)
  o_hasAudit : bool;               (** whether operator_audit exists *)
  o_audit : list AuditRow;
  o_now : Z;
  o_calls : nat;                   (** calls of the database so far *)
  o_polls : nat;                   (** looks at the heartbeats while waiting *)
  o_audited : bool;                (** [encryptionRun.audited] *)
}.

Definition set_store (st : Store) (o : Op) : Op :=
  {| o_store := st; o_schema := o_schema o; o_hasAudit := o_hasAudit o; o_audit := o_audit o;
     o_now := o_now o; o_calls := o_calls o; o_polls := o_polls o; o_audited := o_audited o |}.
Definition set_schema (v : option (Z * bool)) (o : Op) : Op :=
  {| o_store := o_store o; o_schema := v; o_hasAudit := o_hasAudit o; o_audit := o_audit o;
     o_now := o_now o; o_calls := o_calls o; o_polls := o_polls o; o_audited := o_audited o |}.
Definition set_audited (o : Op) : Op :=
  {| o_store := o_store o; o_schema := o_schema o; o_hasAudit := o_hasAudit o; o_audit := o_audit o;
     o_now := o_now o; o_calls := o_calls o; o_polls := o_polls o; o_audited := true |}.
Definition add_audit (r : AuditRow) (o : Op) : Op :=
  {| o_store := o_store o; o_schema := o_schema o; o_hasAudit := o_hasAudit o; o_audit := o_audit o ++ [r];
     o_now := o_now o; o_calls := o_calls o; o_polls := o_polls o; o_audited := o_audited o |}.
Definition called (o : Op) : Op :=
  {| o_store := o_store o; o_schema := o_schema o; o_hasAudit := o_hasAudit o; o_audit := o_audit o;
     o_now := o_now o; o_calls := S (o_calls o); o_polls := o_polls o; o_audited := o_audited o |}.
Definition set_keydb (d : KeyDB) (o : Op) : Op :=
  set_store {| st_secrets := st_secrets (o_store o); st_keys := d |} o.
Definition set_secrets (d : SecretDB) (o : Op) : Op :=
  set_store {| st_secrets := d; st_keys := st_keys (o_store o) |} o.
Definition keydb (o : Op) : KeyDB := st_keys (o_store o).

(** Either an early exit code, or a value. *)
Definition M (A : Type) : Type := Op -> (Z + A) * Op.
Definition mret {A} (a : A) : M A := fun o => (inr a, o).
Definition mexit {A} (code : Z) : M A := fun o => (inl code, o).
Definition mbind {A B} (m : M A) (k : A -> M B) : M B :=
  fun o => match m o with (inr a, o1) => k a o1 | (inl c, o1) => (inl c, o1) end.
Definition mget {A} (f : Op -> A) : M A := fun o => (inr (f o), o).
Definition mput (f : Op -> Op) : M unit := fun o => (inr tt, f o).

Declare Scope op_scope.
Delimit Scope op_scope with op.
Notation "x <~ m ;; k" := (mbind m (fun x => k))
  (at level 100, m at next level, right associativity) : op_scope.
Notation "m ;; k" := (mbind m (fun _ => k)) (at level 100, right associativity) : op_scope.
#[local] Open Scope op_scope.

Section Command.
Context {A : AEAD}.
(** Whether call [n] of the database succeeds; whether the audit record is written;
    the random bytes; what other sessions do to the keys and heartbeats between
    two looks while the command waits, and how long that takes. *)
Context (ok : nat -> bool) (writes : bool) (rnd : Random).
Context (meanwhile : nat -> KeyDB -> KeyDB) (pollEvery : Z).
(** A pass: the other sessions, the statements and commits, its random bytes, the
    order of identities, its fuel. *)
Context (others : nat -> SecretDB -> SecretDB) (statements commits : nat -> bool)
  (nonce : nat -> string) (before : string -> list string -> list string -> bool) (fuel : nat).
(** The embedded migrations: this work's version, the newest, the one before this
    work's; what the migrations do to the tables. *)
Context (want : option Z) (latest below : Z) (migrated : Store -> Store).
(** This process's connection. *)
Context (pid : Z) (backendStart : Z).
(** The run. *)
Context (r : encryptionRun).

Definition call : M bool := fun o => (inr (ok (o_calls o)), called o).

(** A call that must succeed. *)
Definition must : M unit := b <~ call ;; if b then mret tt else mexit exitFailed.

(** ** Audit *)

Definition auditAction (s : Sub) : string :=
  match s with
  | Status => "" | ConvertCmd => "encryption_convert" | RotateCmd => "encryption_rotate_data_key"
  | DecryptAll => "encryption_decrypt_all" | ResetLost => "encryption_reset_lost_key"
  | Downgrade => "encryption_downgrade_schema"
  end.

Definition keyIDs (cfg : KeyConfig) : option (string * list string) :=
  Some (kek_ID (Active cfg), PreviousIDs cfg).

(** [AuditDetails] with an outcome only. *)
Definition details (out : string) : AuditRow :=
  {| ad_Action := auditAction (r_sub r); ad_Operator := r_operator r; ad_Reason := r_reason r;
     ad_Outcome := out; ad_KeyIDs := None; ad_Created := []; ad_Retired := []; ad_Removed := [];
     ad_Counts := ∅; ad_Losses := None |}.

Definition with_keys (cfg : KeyConfig) (created retired removed : list Z) (d : AuditRow) : AuditRow :=
  {| ad_Action := ad_Action d; ad_Operator := ad_Operator d; ad_Reason := ad_Reason d;
     ad_Outcome := ad_Outcome d; ad_KeyIDs := keyIDs cfg; ad_Created := created; ad_Retired := retired;
     ad_Removed := removed; ad_Counts := ad_Counts d; ad_Losses := ad_Losses d |}.

Definition with_counts (c : gmap string (gmap string Z)) (l : option Z) (d : AuditRow) : AuditRow :=
  {| ad_Action := ad_Action d; ad_Operator := ad_Operator d; ad_Reason := ad_Reason d;
     ad_Outcome := ad_Outcome d; ad_KeyIDs := ad_KeyIDs d; ad_Created := ad_Created d;
     ad_Retired := ad_Retired d; ad_Removed := ad_Removed d; ad_Counts := c; ad_Losses := l |}.

(** [audit]: the exit code, or a failure when the record cannot be written. *)
Definition audit (d : AuditRow) (code : Z) : M Z := fun o =>
  let o := set_audited o in
  if writes && o_hasAudit o then (inr code, add_audit d o) else (inr exitFailed, o).

(** [outcome]. *)
Definition outcome (code : Z) (part : bool) : string :=
  if negb (code =? exitOK) && negb part then "failed"
  else if part || negb (code =? exitOK) then "partial" else "completed".

(** ** Keys *)

Definition keyFailure {B} (e : KeyError) : M B :=
  mexit (match e with ErrWrongKey _ | ErrUnknownKEK _ | ErrNoActiveDEK => exitKey | _ => exitFailed end).

Definition opFailure {B} (e : OpError) : M B :=
  match e with KeyErr e => keyFailure e | _ => mexit exitFailed end.

Definition isDekActive (w : WrappedDEK) : bool := bool_decide (w_State w = DekActive).

(** [operatorKeyring]. *)
Definition operatorKeyring (cfg : KeyConfig) : M Keyring :=
  must ;;
  deks <~ mget (fun o => LoadDataKeys (keydb o)) ;;
  if existsb (fun w => isDekActive w && negb (String.eqb (w_KEKID w) (kek_ID (Active cfg)))) deks
  then mexit exitKey
  else if negb (existsb isDekActive deks) then
    must ;;
    commit <~ call ;;
    load <~ (fun o => let '(x, d) := PrepareKeyring cfg true commit rnd (o_now o) (keydb o) in
                      (inr x, set_keydb d o)) ;;
    match load with Ok l => mret (kl_Keyring l) | Err e => opFailure e end
  else match NewKeyring cfg deks with Ok (k, _) => mret k | Err e => keyFailure e end.

(** ** Passes *)

(** [storage.RunPass] on the tables of the run: what it did, whether it failed, and
    the seals it counted. *)
Definition pass (opt : PassOptions) : M (PassResult * bool * counts) := fun o =>
  let '(x, s) := RunPass others statements commits nonce before fuel opt ∅ (st_secrets (o_store o)) in
  (inr (ps_res s, match x with Ok _ => false | Err _ => true end, ps_counts s),
   set_secrets (ps_db s) o).

(** [FlushSealCounts]; a failure is ignored. *)
Definition flushCounts (c : counts) : M unit :=
  b <~ call ;;
  if b then mput (fun o => set_keydb (FlushSealCounts (TakeSealCounts c).1 (keydb o)) o) else mret tt.

(** Whether a pass left something to do. *)
Definition unfinished (x : PassResult) : bool := Partial x || negb (Nat.eqb (length (Failures x)) 0).

Definition pass_code (failed : bool) (x : PassResult) : Z :=
  if failed || unfinished x then exitFailed else exitOK.

Definition options (kind : PassKind) (batch : Z) (k : option Keyring) (retire : Z) (empty : bool) : PassOptions :=
  {| po_Kind := kind; po_Batch := batch; po_Keyring := k; po_Seal := None; po_Retire := retire;
     po_EmptyUndecryptable := empty; po_MaxSweeps := 0 |}.

(** ** Subcommands *)

Definition convert (cfg : KeyConfig) : M Z :=
  k <~ operatorKeyring cfg ;;
  p <~ pass (options PassConvert (r_batch r) (Some k) 0 false) ;;
  let '(x, failed, c) := p in
  flushCounts c ;;
  let code := pass_code failed x in
  audit (with_counts (Counts x) None (with_keys cfg [] [] [] (details (outcome code (unfinished x))))) code.

(** Step 2 of [rotate]: every live backend seals with the active key, or the wait
    is over ([false]).  The wait is counted in looks. *)
Fixpoint wait_backends (looks : nat) (active deadline : Z) : M (option bool) :=
  b <~ call ;;
  if negb b then mret None
  else
    live <~ mget (fun o => LiveHeartbeats (o_now o) (keydb o)) ;;
    if forallb (fun h => bool_decide (ActiveDEK_ h = Some active)) live then mret (Some true)
    else
      now <~ mget o_now ;;
      if deadline <? now then mret (Some false)
      else match looks with
      | O => mret (Some false)
      | S n =>
          mput (fun o => let o' := set_keydb (meanwhile (o_polls o) (keydb o)) o in
            {| o_store := o_store o'; o_schema := o_schema o'; o_hasAudit := o_hasAudit o';
               o_audit := o_audit o'; o_now := o_now o' + pollEvery; o_calls := o_calls o';
               o_polls := S (o_polls o'); o_audited := o_audited o' |}) ;;
          wait_backends n active deadline
      end.

(** Looks enough for the wait: the deadline passes before the last one. *)
Definition looks_for (wait : Z) : nat := S (S (Z.to_nat (wait / pollEvery))).

Definition rotate (cfg : KeyConfig) : M Z :=
  operatorKeyring cfg ;;
  begun <~ call ;;
  commit <~ call ;;
  step1 <~ (fun o =>
    if negb begun then (inr (Err ErrStorageKeys), o)
    else let '(x, d) := RotateStep1 cfg (r_retire r) false commit rnd (o_now o) (keydb o) in
         (inr x, set_keydb d o)) ;;
  match step1 with
  | Err _ => audit (with_keys cfg [] [] [] (details "failed")) exitFailed
  | Ok newID =>
      let created := if newID =? 0 then [] else [newID] in
      let retired := if newID =? 0 then [] else [r_retire r] in
      let d out := with_keys cfg created retired [] (details out) in
      b <~ call ;;
      act <~ mget (fun o => ActiveDataKey (keydb o)) ;;
      match b, act with
      | true, Some (active, _, _) =>
          now <~ mget o_now ;;
          waited <~ wait_backends (looks_for (r_wait r)) active (now + r_wait r) ;;
          match waited with
          | None => audit (d "failed") exitFailed
          | Some false => audit (d "partial") exitFailed
          | Some true =>
              fun o =>
                match operatorKeyring cfg o with
                | (inl _, o1) => audit (d "failed") exitFailed o1
                | (inr k, o1) =>
                    (p <~ pass (options PassRotate (r_batch r) (Some k) (r_retire r) false) ;;
                     let '(x, failed, c) := p in
                     flushCounts c ;;
                     let code := pass_code failed x in
                     audit (with_counts (Counts x) None (d (outcome code (unfinished x)))) code) o1
                end
          end
      | _, _ => audit (d "failed") exitFailed
      end
  end.

Definition decryptAll (cfg : KeyConfig) : M Z :=
  must ;;
  deks <~ mget (fun o => LoadDataKeys (keydb o)) ;;
  k <~ match deks with
       | [] => mret None
       | _ => match NewKeyring cfg deks with Ok (k, _) => mret (Some k) | Err e => keyFailure e end
       end ;;
  p <~ pass (options PassDecrypt 100 k 0 (r_empty r)) ;;
  let '(x, failed, _) := p in
  let code := pass_code failed x in
  last <~ (if code =? exitOK then
             b <~ call ;;
             commit <~ call ;;
             fun o =>
               if negb b then (inr (exitFailed, []), o)
               else match DeleteAllDataKeysIfUnused commit (o_store o) with
                    | (Ok (ids, true), st) => (inr (exitOK, ids), set_store st o)
                    | (_, st) => (inr (exitFailed, []), set_store st o)
                    end
           else mret (code, [])) ;;
  let '(code, removed) := last in
  audit (with_counts (Counts x) (if r_empty r then Some (LossesCleared x) else None)
           (with_keys cfg [] [] removed (details (outcome code (unfinished x))))) code.

Definition resetLostKey (cfg : KeyConfig) : M Z :=
  must ;;
  deks <~ mget (fun o => LoadDataKeys (keydb o)) ;;
  match OpensAny cfg deks with
  | Some _ => mexit exitKey
  | None =>
      commit <~ call ;;
      done_ <~ (fun o => let '(x, st) := ResetLostKey cfg commit rnd (o_now o) (o_store o) in
                         (inr x, set_store st o)) ;;
      match done_ with
      | Err _ => audit (with_keys cfg [] [] [] (details "failed")) exitFailed
      | Ok (x, removed, created) =>
          audit (with_counts (Counts x) (Some (LossesCleared x))
                   (with_keys cfg [created] [] removed (details "completed"))) exitOK
      end
  end.

(** The down step drops the tables of keys and heartbeats. *)
Definition dropped (d : KeyDB) : KeyDB :=
  {| kd_keys := []; kd_next := kd_next d; kd_beats := []; kd_lock := kd_lock d |}.

(** [DowngradeSchema] and its caller: refused before the step, or the step. *)
Definition downgrade : M Z :=
  match want with
  | None => audit (details "failed") exitFailed
  | Some v =>
      b <~ call ;;
      st <~ mget o_store ;;
      ver <~ mget o_schema ;;
      if negb b then audit (details "failed") exitFailed
      else if negb (DowngradeCheck st) then mret exitFailed
      else
        c <~ call ;;
        match ver with
        | Some (cur, dirty) =>
            if negb c then audit (details "failed") exitFailed
            else if dirty || negb (cur =? v) then mret exitFailed
            else
              stepped <~ call ;;
              e <~ call ;;
              if negb stepped then
                mput (fun o => if e then o else set_schema (Some (below, true)) o) ;;
                audit (details "failed") exitFailed
              else
                mput (fun o => set_keydb (dropped (keydb o)) (set_schema (Some (below, false)) o)) ;;
                if e then audit (details "completed") exitOK else audit (details "failed") exitFailed
        | None => audit (details "failed") exitFailed
        end
  end.

Definition status : M Z :=
  must ;;
  cs <~ mget (fun o => read_columns (st_secrets (o_store o))) ;;
  mret (if r_check r && (0 <? PlainTotal cs) then exitPlain else exitOK).

(** ** The command *)

Definition destructive_sub (s : Sub) : bool :=
  bool_decide (s = DecryptAll) || bool_decide (s = ResetLost) || bool_decide (s = Downgrade).

Definition run_sub (cfg : KeyConfig) : M Z :=
  match r_sub r with
  | Status => status
  | ConvertCmd => convert cfg
  | RotateCmd => rotate cfg
  | DecryptAll => decryptAll cfg
  | ResetLost => resetLostKey cfg
  | Downgrade => downgrade
  end.

(** What runs under the lock: a destructive subcommand refuses live backends. *)
Definition under_lock (cfg : KeyConfig) : M Z :=
  (if destructive_sub (r_sub r) then
     must ;;
     live <~ mget (fun o => LiveHeartbeats (o_now o) (keydb o)) ;;
     match live with [] => mret tt | _ => mexit exitBackends end
   else mret tt) ;;
  run_sub cfg.

(** This process, as the holder of the lock. *)
Definition holder : LockHolder :=
  {| AppName := OperatorApp (sub_name (r_sub r)); PID := pid; BackendStart := backendStart |}.

(** The lock is released whatever the subcommand answers. *)
Definition locked (cfg : KeyConfig) : M Z := fun o =>
  match TryMaintenanceLock holder (keydb o) with
  | (Err _, d) => (inl exitLock, set_keydb d o)
  | (Ok _, d) =>
      let '(x, o1) := under_lock cfg (set_keydb d o) in
      (x, set_keydb (Release (keydb o1)) o1)
  end.

Definition dispatch (cfg : KeyConfig) : M Z :=
  match want with
  | None => mexit exitFailed
  | Some v =>
      must ;;
      ver <~ mget o_schema ;;
      let below_this := match ver with Some (cur, dirty) => negb dirty && (cur <? v) | None => false end in
      if below_this then
        if bool_decide (r_sub r = Status) then mret (if r_check r then exitFailed else exitOK)
        else
          has <~ mget o_hasAudit ;;
          b <~ call ;;
          (if b && has then mret tt else mput set_audited) ;;
          mexit exitFailed
      else
        must ;;
        mput (fun o => {| o_store := migrated (o_store o); o_schema := Some (latest, false); o_hasAudit := true;
                          o_audit := o_audit o; o_now := o_now o; o_calls := o_calls o;
                          o_polls := o_polls o; o_audited := o_audited o |}) ;;
        if bool_decide (r_sub r = Status) then status
        else
          must ;;
          locked cfg
  end.

(** The exit code, whether the run left early or not. *)
Definition code_of (x : Z + Z) : Z := match x with inl c => c | inr c => c end.

(** The rest of [runEncryption] once the keys are known: the connection, the run, and
    the audit record of a failure that has none. *)
Definition connected (cfg : KeyConfig) (o : Op) : Z * Op :=
  match must o with
  | (inl c, o1) => (c, o1)
  | (inr _, o1) =>
      let '(x, o2) := dispatch cfg o1 in
      if mutating (r_sub r) && (code_of x =? exitFailed) && negb (o_audited o2) then
        let '(y, o3) := audit (details "failed") exitFailed o2 in (code_of y, o3)
      else (code_of x, o2)
  end.

(** The subcommands that read the configured keys. *)
Definition needs_key (s : Sub) : bool :=
  match s with ConvertCmd | RotateCmd | DecryptAll | ResetLost => true | Status | Downgrade => false end.

(** The zero [KeyConfig]. *)
Definition no_keys : KeyConfig := {| Active := {| kek_ID := ""; kek_key := ""; kek_Var := EnvKey |}; Previous := [] |}.

(** [runEncryption], where the flags parse. *)
Definition runEncryption (getenv : string -> string) (o : Op) : Z * Op :=
  if negb (usage_ok r (getenv "DATABASE_URL")) then (exitUsage, o)
  else if needs_key (r_sub r) then
    match DecideEncryptionKeys getenv with
    | Err _ => (exitKey, o)
    | Ok cfg => connected cfg o
    end
  else connected no_keys o.

(** ** The audit record *)

Definition same_audit (o o' : Op) : Prop :=
  o_audit o' = o_audit o /\ o_hasAudit o' = o_hasAudit o /\ o_audited o' = o_audited o.

Definition refusal_code (c : Z) : Prop := c = exitFailed \/ c = exitKey \/ c = exitLock \/ c = exitBackends.

(** A part of a run that writes no record, and the codes it may leave with. *)
Definition quiet {B} (m : M B) : Prop :=
  forall o, same_audit o (m o).2 /\ forall c, (m o).1 = inl c -> refusal_code c.

(** The record of a run with exit code [c]. *)
Definition record_of (c : Z) (row : AuditRow) : Prop :=
  ad_Action row = auditAction (r_sub r) /\ ad_Operator row = r_operator r /\ ad_Reason row = r_reason r /\
  (ad_Outcome row = "completed" <-> c = exitOK).

(** What a subcommand does about its record. *)
Definition audits (m : M Z) : Prop :=
  forall o, o_audited o = false -> let '(x, o') := m o in
    o_hasAudit o' = o_hasAudit o /\
    ((o_audited o' = false /\ o_audit o' = o_audit o /\ refusal_code (code_of x)) \/
     (o_audited o' = true /\ writes && o_hasAudit o = true /\ (code_of x = exitOK \/ code_of x = exitFailed) /\
      exists row, o_audit o' = o_audit o ++ [row] /\ record_of (code_of x) row) \/
     (o_audited o' = true /\ writes && o_hasAudit o = false /\ o_audit o' = o_audit o /\ code_of x = exitFailed)).

Lemma quiet_bind {B C} (m : M B) (k : B -> M C) : quiet m -> (forall b, quiet (k b)) -> quiet (mbind m k).
Proof.
  intros Hm Hk o. destruct (Hm o) as [(S1 & S2 & S3) Hc]. unfold mbind. destruct (m o) as [[c|b] o1]; cbn in *.
  - split; [done|]. intros c' [= <-]. by apply Hc.
  - destruct (Hk b o1) as [(T1 & T2 & T3) Hd]. split; [|done]. split_and!; congruence.
Qed.

Lemma quiet_ret {B} (b : B) : quiet (mret b).
Proof. by intros o. Qed.
Lemma quiet_exit {B} c : refusal_code c -> quiet (@mexit B c).
Proof. intros H o. split; [done|]. by intros c' [= <-]. Qed.
Lemma quiet_get {B} (f : Op -> B) : quiet (mget f).
Proof. by intros o. Qed.
Lemma quiet_put (f : Op -> Op) : (forall o, same_audit o (f o)) -> quiet (mput f).
Proof. by intros H o. Qed.
Lemma quiet_call : quiet call.
Proof. by intros o. Qed.
Lemma quiet_must : quiet must.
Proof. apply quiet_bind; [apply quiet_call|]. intros []; [apply quiet_ret|apply quiet_exit; by left]. Qed.
Lemma quiet_do {B} (f : Op -> B) (g : Op -> Op) : (forall o, same_audit o (g o)) -> quiet (fun o => (inr (f o), g o)).
Proof. intros H o. by split. Qed.
Lemma quiet_keyFailure {B} e : quiet (@keyFailure B e).
Proof. apply quiet_exit. destruct e; unfold refusal_code; auto. Qed.
Lemma quiet_opFailure {B} e : quiet (@opFailure B e).
Proof. destruct e; try (apply quiet_exit; by left). apply quiet_keyFailure. Qed.

Lemma quiet_ext {B} (m m' : M B) : (forall o, m o = m' o) -> quiet m -> quiet m'.
Proof. intros H Hq o. rewrite <- H. apply Hq. Qed.

Lemma quiet_operatorKeyring cfg : quiet (operatorKeyring cfg).
Proof.
  apply quiet_bind; [apply quiet_must|]. intros _. apply quiet_bind; [apply quiet_get|]. intros ws.
  destruct (existsb _ ws); [apply quiet_exit; unfold refusal_code; auto|].
  destruct (negb _).
  - apply quiet_bind; [apply quiet_must|]. intros _. apply quiet_bind; [apply quiet_call|]. intros commit.
    apply quiet_bind.
    + intros o. by destruct (PrepareKeyring _ _ _ _ _ _).
    + intros [l|e]; [apply quiet_ret|apply quiet_opFailure].
  - destruct (NewKeyring cfg ws) as [[k n]|e]; [apply quiet_ret|apply quiet_keyFailure].
Qed.

Lemma quiet_pass opt : quiet (pass opt).
Proof. intros o. unfold pass. by destruct (RunPass _ _ _ _ _ _ _ _ _). Qed.

Lemma quiet_flushCounts c : quiet (flushCounts c).
Proof. apply quiet_bind; [apply quiet_call|]. intros []; [by apply quiet_put|apply quiet_ret]. Qed.

Lemma quiet_wait n active deadline : quiet (wait_backends n active deadline).
Proof.
  induction n as [|n IH]; cbn [wait_backends]; (apply quiet_bind; [apply quiet_call|]); intros [];
    cbn [negb]; try apply quiet_ret; (apply quiet_bind; [apply quiet_get|]); intros live;
    (destruct (forallb _ live); [apply quiet_ret|]); (apply quiet_bind; [apply quiet_get|]); intros now;
    (destruct (deadline <? now); [apply quiet_ret|]); [apply quiet_ret|].
  apply quiet_bind; [by apply quiet_put|]. intros _. apply IH.
Qed.

Lemma audits_post {B} (Q : B -> Prop) (m : M B) (k : B -> M Z) :
  quiet m -> (forall o b, (m o).1 = inr b -> Q b) -> (forall b, Q b -> audits (k b)) -> audits (mbind m k).
Proof.
  intros Hm HQ Hk o Ho. destruct (Hm o) as [(S1 & S2 & S3) Hc]. specialize (HQ o). unfold mbind.
  destruct (m o) as [[c|b] o1]; cbn in *.
  - split; [done|]. left. split_and!; [congruence|done|by apply Hc].
  - specialize (Hk b (HQ b eq_refl) o1). destruct (k b o1) as [x o2]. rewrite S3, S2, S1 in Hk. by apply Hk.
Qed.

Lemma audits_bind {B} (m : M B) (k : B -> M Z) : quiet m -> (forall b, audits (k b)) -> audits (mbind m k).
Proof. intros Hm Hk. by apply (audits_post (fun _ => True)). Qed.

Lemma audits_exit (m : M Z) c : refusal_code c -> (forall o, m o = (inl c, o) \/ m o = (inr c, o)) -> audits m.
Proof. intros H Hm o Ho. destruct (Hm o) as [-> | ->]; (split; [done|]; by left). Qed.

(** A record of this run. *)
Definition ours (d : AuditRow) : Prop :=
  ad_Action d = auditAction (r_sub r) /\ ad_Operator d = r_operator r /\ ad_Reason d = r_reason r.

Lemma audits_audit d c :
  ours d -> c = exitOK \/ c = exitFailed -> (ad_Outcome d = "completed" <-> c = exitOK) -> audits (audit d c).
Proof.
  intros (H1 & H2 & H3) Hc Ho o Hs. unfold audit. change (o_hasAudit (set_audited o)) with (o_hasAudit o).
  destruct (writes && o_hasAudit o); cbn.
  - split; [done|]. right. left. split_and!; [done|done|done|]. by exists d.
  - split; [done|]. right. right. by split_and!.
Qed.

Lemma outcome_completed c x failed :
  c = pass_code failed x -> outcome c (unfinished x) = "completed" <-> c = exitOK.
Proof. intros ->. unfold pass_code. by destruct failed, (unfinished x). Qed.

Lemma pass_code_cases failed x : pass_code failed x = exitOK \/ pass_code failed x = exitFailed.
Proof. unfold pass_code. destruct (_ || _); auto. Qed.

Lemma audits_failed d : ours d -> ad_Outcome d <> "completed" -> audits (audit d exitFailed).
Proof. intros Hd Ho. apply audits_audit; [done|by right|]. by split. Qed.

(** The end of a pass, with its record. *)
Lemma audits_pass opt (d : string -> AuditRow) :
  (forall out, ours (d out) /\ ad_Outcome (d out) = out) ->
  audits (p <~ pass opt ;;
          let '(x, failed, c) := p in
          flushCounts c ;;
          let code := pass_code failed x in
          audit (with_counts (Counts x) None (d (outcome code (unfinished x)))) code).
Proof.
  intros Hd. apply audits_bind; [apply quiet_pass|]. intros [[x failed] c].
  apply audits_bind; [apply quiet_flushCounts|]. intros _. cbv zeta.
  destruct (Hd (outcome (pass_code failed x) (unfinished x))) as [Ho E].
  apply audits_audit; [exact Ho|apply pass_code_cases|]. cbn. rewrite E. by apply (outcome_completed _ _ failed).
Qed.

Lemma audits_convert cfg : audits (convert cfg).
Proof.
  apply audits_bind; [apply quiet_operatorKeyring|]. intros k.
  by apply (audits_pass _ (fun out => with_keys cfg [] [] [] (details out))).
Qed.

Lemma audits_decryptAll cfg : audits (decryptAll cfg).
Proof.
  apply audits_bind; [apply quiet_must|]. intros _. apply audits_bind; [apply quiet_get|]. intros ws.
  apply audits_bind.
  { destruct ws; [apply quiet_ret|]. destruct (NewKeyring _ _) as [[k n]|e]; [apply quiet_ret|apply quiet_keyFailure]. }
  intros k. apply audits_bind; [apply quiet_pass|]. intros [[x failed] c]. cbv zeta.
  apply (audits_post (fun p => (p.1 = exitOK \/ p.1 = exitFailed) /\ (p.1 = exitOK -> unfinished x = false))).
  - destruct (pass_code failed x =? exitOK); [|apply quiet_ret].
    apply quiet_bind; [apply quiet_call|]. intros b. apply quiet_bind; [apply quiet_call|]. intros commit o.
    destruct b; cbn [negb]; [|done]. by destruct (DeleteAllDataKeysIfUnused _ _) as [[[ids []]|e] st].
  - intros o [code removed]. destruct (pass_code failed x =? exitOK) eqn:Ec.
    + intros H. assert (Hc : code = exitOK \/ code = exitFailed).
      { unfold mbind, call in H. destruct (ok (o_calls o)); cbn [negb] in H; [|injection H as <- _; by right].
        destruct (DeleteAllDataKeysIfUnused _ _) as [[[ids []]|e] st]; injection H as <- _; auto. }
      split; [done|]. intros _. apply Z.eqb_eq in Ec. unfold pass_code in Ec. by destruct failed, (unfinished x).
    + intros [= <- <-]. split; [apply pass_code_cases|]. cbn. intros E. by rewrite E in Ec.
  - intros [code removed] [Hc Hu]. cbn in Hc, Hu. apply audits_audit; [done|done|]. cbn.
    destruct Hc as [-> | ->]; [by rewrite Hu|]. by destruct (unfinished x).
Qed.

Lemma audits_resetLostKey cfg : audits (resetLostKey cfg).
Proof.
  apply audits_bind; [apply quiet_must|]. intros _. apply audits_bind; [apply quiet_get|]. intros ws.
  destruct (OpensAny cfg ws); [apply (audits_exit _ exitKey); unfold refusal_code; auto|].
  apply audits_bind; [apply quiet_call|]. intros commit. apply audits_bind.
  - intros o. by destruct (ResetLostKey _ _ _ _ _).
  - intros [[[x removed] created]|e]; [|by apply audits_failed]. by apply audits_audit; [|left|].
Qed.

Lemma audits_downgrade : audits downgrade.
Proof.
  unfold downgrade. destruct want as [v|]; [|by apply audits_failed].
  apply audits_bind; [apply quiet_call|]. intros b. apply audits_bind; [apply quiet_get|]. intros st.
  apply audits_bind; [apply quiet_get|]. intros ver.
  destruct b; cbn [negb]; [|by apply audits_failed].
  destruct (DowngradeCheck st); cbn [negb]; [|apply (audits_exit _ exitFailed); [by left|auto]].
  apply audits_bind; [apply quiet_call|]. intros c. destruct ver as [[cur dirty]|]; [|by apply audits_failed].
  destruct c; cbn [negb]; [|by apply audits_failed].
  destruct (dirty || negb (cur =? v)); [apply (audits_exit _ exitFailed); [by left|auto]|].
  apply audits_bind; [apply quiet_call|]. intros stepped. apply audits_bind; [apply quiet_call|]. intros e.
  destruct stepped; cbn [negb].
  - apply audits_bind; [by apply quiet_put|]. intros _.
    destruct e; [by apply audits_audit; [|left|]|by apply audits_failed].
  - apply audits_bind; [apply quiet_put; by destruct e|]. intros _. by apply audits_failed.
Qed.

Lemma audits_rotate cfg : audits (rotate cfg).
Proof.
  apply audits_bind; [apply quiet_operatorKeyring|]. intros _.
  apply audits_bind; [apply quiet_call|]. intros begun. apply audits_bind; [apply quiet_call|]. intros commit.
  apply audits_bind.
  { intros o. destruct begun; cbn [negb]; [|done]. by destruct (RotateStep1 _ _ _ _ _ _ _). }
  intros [newID|e]; [|by apply audits_failed]. cbv zeta.
  apply audits_bind; [apply quiet_call|]. intros b. apply audits_bind; [apply quiet_get|]. intros act.
  destruct b; [|by apply audits_failed]. destruct act as [[[active kek] n]|]; [|by apply audits_failed].
  apply audits_bind; [apply quiet_get|]. intros now. apply audits_bind; [apply quiet_wait|].
  intros [[]|]; [|by apply audits_failed|by apply audits_failed].
  intros o Ho. destruct (quiet_operatorKeyring cfg o) as [(S1 & S2 & S3) _].
  destruct (operatorKeyring cfg o) as [[c|k] o1]; cbn in S1, S2, S3.
  - pose proof (audits_failed (with_keys cfg (if newID =? 0 then [] else [newID])
      (if newID =? 0 then [] else [r_retire r]) [] (details "failed")) ltac:(done) ltac:(done) o1) as H.
    destruct (audit _ _ o1) as [x o2]. rewrite S3, S2, S1 in H. by apply H.
  - pose proof (audits_pass (options PassRotate (r_batch r) (Some k) (r_retire r) false)
      (fun out => with_keys cfg (if newID =? 0 then [] else [newID])
        (if newID =? 0 then [] else [r_retire r]) [] (details out)) ltac:(done) o1) as H.
    destruct (mbind _ _ o1) as [x o2]. rewrite S3, S2, S1 in H. by apply H.
Qed.

Lemma audits_run_sub cfg : r_sub r <> Status -> audits (run_sub cfg).
Proof.
  intros Hs. unfold run_sub. destruct (r_sub r); [done|apply audits_convert|apply audits_rotate|
    apply audits_decryptAll|apply audits_resetLostKey|apply audits_downgrade].
Qed.

Lemma audits_locked cfg : r_sub r <> Status -> audits (locked cfg).
Proof.
  intros Hs o Ho. unfold locked. destruct (TryMaintenanceLock _ _) as [[[]|e] d].
  - assert (H : audits (under_lock cfg)).
    { apply audits_bind; [|intros _; by apply audits_run_sub]. destruct (destructive_sub _); [|apply quiet_ret].
      apply quiet_bind; [apply quiet_must|]. intros _. apply quiet_bind; [apply quiet_get|].
      intros []; [apply quiet_ret|apply quiet_exit; unfold refusal_code; auto]. }
    specialize (H (set_keydb d o) Ho). destruct (under_lock cfg (set_keydb d o)) as [x o1]. by apply H.
  - split; [done|]. left. split_and!; [done|done|]. unfold refusal_code; auto.
Qed.

(** The schema is older than this work. *)
Definition below_this (o : Op) : bool :=
  match want, o_schema o with
  | Some v, Some (cur, dirty) => negb dirty && (cur <? v)
  | _, _ => false
  end.

(** What keeps a run that ends with exit 1 from leaving a record. *)
Definition no_record (o o' : Op) : Prop :=
  ok (o_calls o) = false \/ writes && o_hasAudit o' = false \/
  (below_this o = true /\ (o_hasAudit o = false \/ ok (S (S (o_calls o))) = false)).

Definition recorded (o : Op) (c : Z) (o' : Op) : Prop :=
  (c = exitOK \/ c = exitFailed) /\ exists row, o_audit o' = o_audit o ++ [row] /\ record_of c row.

Lemma dispatch_records cfg o : o_audited o = false -> r_sub r <> Status ->
  let '(x, o') := dispatch cfg o in
  recorded o (code_of x) o' /\ o_audited o' = true \/
  o_audit o' = o_audit o /\ o_audited o' = false /\ refusal_code (code_of x) \/
  o_audit o' = o_audit o /\ o_audited o' = true /\ code_of x = exitFailed /\
    (writes && o_hasAudit o' = false \/
     below_this o = true /\ (o_hasAudit o = false \/ ok (S (o_calls o)) = false)).
Proof.
  intros Ho Hs. unfold dispatch, below_this. destruct want as [v|]; [|right; left; by split_and!; [| |left]].
  unfold must, call, mbind, mget, mret, mexit, mput. destruct (ok (o_calls o)); [|right; left; by split_and!; [| |left]].
  change (o_schema (called o)) with (o_schema o). destruct (match o_schema o with Some _ => _ | None => _ end).
  - rewrite bool_decide_eq_false_2 by done. cbn. destruct (ok (S (o_calls o))), (o_hasAudit o); cbn;
      try (right; right; split_and!; [done|done|done|right; split; [done|auto]]).
    right. left. split_and!; [done|done|by left].
  - cbn. destruct (ok (S (o_calls o))); [|right; left; by split_and!; [| |left]].
    rewrite bool_decide_eq_false_2 by done. cbn. destruct (ok (S (S (o_calls o)))); [|right; left; by split_and!; [| |left]].
    match goal with |- context [locked cfg ?s] => pose proof (audits_locked cfg Hs s Ho) as H; destruct (locked cfg s) as [x o'] end.
    cbn in H. destruct H as (E & [(H1 & H2 & H3)|[(H1 & H2 & H3 & H4)|(H1 & H2 & H3 & H4)]]).
    + right. left. by split_and!.
    + left. by split.
    + right. right. rewrite E. split_and!; [done|done|done|by left].
Qed.

(** A status run writes no record. *)
Lemma status_quiet cfg o : r_sub r = Status -> o_audit (dispatch cfg o).2 = o_audit o.
Proof.
  intros Hs. unfold dispatch. destruct want as [v|]; [|done]. rewrite !(bool_decide_eq_true_2 _ Hs).
  unfold status, must, call, mbind, mget, mret, mexit, mput.
  repeat (case_match; simplify_eq/=; try done).
Qed.

Lemma connected_records cfg o code o' :
  o_audited o = false -> connected cfg o = (code, o') ->
  (o_audit o' = o_audit o \/ mutating (r_sub r) = true /\ recorded o code o') /\
  (mutating (r_sub r) = true -> code = exitOK -> recorded o code o') /\
  (mutating (r_sub r) = true -> code = exitFailed -> recorded o code o' \/ no_record o o').
Proof.
  intros Ho. unfold connected, must, call, mbind, no_record.
  destruct (ok (o_calls o)) eqn:Ec; [|intros [= <- <-]; split_and!; [by left|done|]; intros _ _; right; by left].
  cbn. destruct (mutating (r_sub r)) eqn:Em.
  2:{ assert (Hs : r_sub r = Status) by (destruct (r_sub r); done).
      pose proof (status_quiet cfg (called o) Hs) as H. destruct (dispatch cfg (called o)) as [x o2]. cbn.
      intros [= <- <-]. by split_and!; [left| |]. }
  assert (Hs : r_sub r <> Status) by by destruct (r_sub r).
  pose proof (dispatch_records cfg (called o) Ho Hs) as H. destruct (dispatch cfg (called o)) as [x o2].
  destruct H as [[H1 H2]|[(H1 & H2 & H3)|(H1 & H2 & H3 & H4)]]; rewrite H2; cbn [andb negb].
  - rewrite andb_false_r. intros [= <- <-]. by split_and!; [right|intros|left].
  - destruct (Z.eqb_spec (code_of x) exitFailed) as [E|E]; cbn [andb].
    + unfold audit. change (o_hasAudit (set_audited o2)) with (o_hasAudit o2).
      destruct (writes && o_hasAudit o2) eqn:Ew; cbn; intros [= <- <-].
      * assert (R : recorded o exitFailed (add_audit (details "failed") (set_audited o2))).
        { split; [by right|]. exists (details "failed"). split; [cbn; by rewrite H1|done]. }
        by split_and!; [right|intros|left].
      * split_and!; [by left|done|]. intros _ _. right. right. by left.
    + intros [= <- <-]. split_and!; [by left|intros _ E'|done].
      exfalso. rewrite E' in H3. by destruct H3 as [?|[?|[?|?]]].
  - rewrite andb_false_r. intros [= <- <-]. rewrite H3. split_and!; [by left|done|]. intros _ _. right. right. exact H4.
Qed.

(** One record per run.  A run adds at most one row to operator_audit, with the action
    of its subcommand, its operator and reason, and outcome [completed] exactly when
    it ends with exit 0; only a mutating run that ends with exit 0 or 1 adds one.
    Exit 0 of a mutating run has its row.  Exit 1 has it too, unless the database
    could not be reached, the row could not be written, or the schema is older than
    this work and the audit table is missing or could not be looked up. *)
Theorem one_record getenv o code o' :
  o_audited o = false -> runEncryption getenv o = (code, o') ->
  (o_audit o' = o_audit o \/ mutating (r_sub r) = true /\ recorded o code o') /\
  (mutating (r_sub r) = true -> code = exitOK -> recorded o code o') /\
  (mutating (r_sub r) = true -> code = exitFailed -> recorded o code o' \/ no_record o o').
Proof.
  intros Ho. unfold runEncryption. destruct (negb (usage_ok r _)); [intros [= <- <-]; by split_and!; [left| |]|].
  destruct (needs_key _); [destruct (DecideEncryptionKeys getenv) as [cfg|e]|]; [|intros [= <- <-]; by split_and!; [left| |]|];
    by apply connected_records.
Qed.

(** ** What a run may change *)

Definition same_data (st st' : Store) : Prop :=
  st_secrets st' = st_secrets st /\ kd_keys (st_keys st') = kd_keys (st_keys st).

Definition spared (o o' : Op) : Prop := same_data (o_store o) (o_store o').

(** A part that changes no secret and no data key. *)
Definition reads {B} (m : M B) : Prop := forall o, spared o (m o).2.
(** A part that changes none of them when it leaves early. *)
Definition spares {B} (m : M B) : Prop := forall o c, (m o).1 = inl c -> spared o (m o).2.
(** A part that never leaves early. *)
Definition stays {B} (m : M B) : Prop := forall o, exists b, (m o).1 = inr b.
(** A run that ends with exit 0 or 1. *)
Definition settles (m : M Z) : Prop := forall o, code_of (m o).1 = exitOK \/ code_of (m o).1 = exitFailed.
(** A run that changes nothing when it ends with another code. *)
Definition refuses (m : M Z) : Prop :=
  forall o, spared o (m o).2 \/ code_of (m o).1 = exitOK \/ code_of (m o).1 = exitFailed.

Lemma refuses_reads {B} (m : M B) (k : B -> M Z) : reads m -> (forall b, refuses (k b)) -> refuses (mbind m k).
Proof.
  intros Hm Hk o. specialize (Hm o). unfold mbind. destruct (m o) as [[c|b] o1]; cbn in *; [by left|].
  destruct (Hk b o1) as [H|H]; [left|by right]. unfold spared, same_data in *. destruct Hm, H. split; congruence.
Qed.

Lemma refuses_spares {B} (m : M B) (k : B -> M Z) : spares m -> (forall b, settles (k b)) -> refuses (mbind m k).
Proof.
  intros Hm Hk o. specialize (Hm o). unfold mbind. destruct (m o) as [[c|b] o1]; cbn in *; [left; by apply (Hm c)|].
  right. apply Hk.
Qed.

Lemma refuses_settles m : settles m -> refuses m.
Proof. intros H o. right. apply H. Qed.

Lemma settles_bind {B} (m : M B) (k : B -> M Z) : stays m -> (forall b, settles (k b)) -> settles (mbind m k).
Proof. intros Hm Hk o. destruct (Hm o) as [b E]. unfold mbind. destruct (m o) as [x o1]. cbn in E. subst x. apply Hk. Qed.

Lemma settles_audit d c : c = exitOK \/ c = exitFailed -> settles (audit d c).
Proof. intros H o. unfold audit. destruct (writes && _); cbn; [done|by right]. Qed.

Lemma stays_bind {B C} (m : M B) (k : B -> M C) : stays m -> (forall b, stays (k b)) -> stays (mbind m k).
Proof. intros Hm Hk o. destruct (Hm o) as [b E]. unfold mbind. destruct (m o) as [x o1]. cbn in E. subst x. apply Hk. Qed.

Lemma stays_run {B} (m : M B) : (forall o, exists b o1, m o = (inr b, o1)) -> stays m.
Proof. intros H o. destruct (H o) as (b & o1 & ->). by exists b. Qed.

Lemma stays_call : stays call. Proof. intros o. by eexists. Qed.
Lemma stays_get {B} (f : Op -> B) : stays (mget f). Proof. intros o. by eexists. Qed.
Lemma stays_put f : stays (mput f). Proof. intros o. by eexists. Qed.
Lemma stays_ret {B} (b : B) : stays (mret b). Proof. intros o. by eexists. Qed.

Lemma stays_pass opt : stays (pass opt).
Proof. intros o. unfold pass. destruct (RunPass _ _ _ _ _ _ _ _ _). by eexists. Qed.

Lemma stays_flush c : stays (flushCounts c).
Proof. apply stays_bind; [apply stays_call|]. intros []; [apply stays_put|apply stays_ret]. Qed.

Lemma stays_wait n active deadline : stays (wait_backends n active deadline).
Proof.
  induction n as [|n IH]; cbn [wait_backends]; (apply stays_bind; [apply stays_call|]); intros [];
    cbn [negb]; try apply stays_ret; (apply stays_bind; [apply stays_get|]); intros live;
    (destruct (forallb _ live); [apply stays_ret|]); (apply stays_bind; [apply stays_get|]); intros now;
    (destruct (deadline <? now); [apply stays_ret|]); [apply stays_ret|].
  apply stays_bind; [apply stays_put|]. intros _. apply IH.
Qed.

Lemma reads_must : reads must.
Proof. intros o. unfold must, call, mbind. by destruct (ok _). Qed.

Lemma reads_bind {B C} (m : M B) (k : B -> M C) : reads m -> (forall b, reads (k b)) -> reads (mbind m k).
Proof.
  intros Hm Hk o. specialize (Hm o). unfold mbind. destruct (m o) as [[c|b] o1]; cbn in *; [done|].
  specialize (Hk b o1). unfold spared, same_data in *. destruct Hm, Hk. split; congruence.
Qed.

Lemma reads_keyFailure {B} e : reads (@keyFailure B e).
Proof. by intros o. Qed.

(** The keyring's early exits leave the key table as it was. *)
Lemma spares_operatorKeyring cfg : spares (operatorKeyring cfg).
Proof.
  intros o c. unfold operatorKeyring, must, call, mbind, mget, mret, mexit. destruct (ok _); [|done]. cbn.
  destruct (existsb _ _); [done|]. destruct (negb _).
  - destruct (ok _); [|done]. cbn. destruct (PrepareKeyring _ _ _ _ _ _) as [[l|e] d] eqn:E; cbn; [done|].
    assert (Hd : kd_keys d = kd_keys (keydb o)).
    { revert E. unfold PrepareKeyring. cbn zeta.
      match goal with |- context [let '(made, db2) := ?t in _] => destruct t as [[new|e'] db2] end;
        [|by intros [= _ <-]].
      destruct (rewrap_all _ _ _ _ _) as [[[ws db3] n]|e']; [|by intros [= _ <-]].
      destruct (NewKeyring _ _) as [[k u]|e']; [|by intros [= _ <-]].
      destruct (negb _); [by intros [= _ <-]|done]. }
    intros _. unfold opFailure, keyFailure, mexit. destruct e; by split.
  - destruct (NewKeyring _ _) as [[k n]|e]; [done|]. by destruct e.
Qed.

Lemma settles_pass opt (d : string -> AuditRow) :
  settles (p <~ pass opt ;;
           let '(x, failed, c) := p in
           flushCounts c ;;
           let code := pass_code failed x in
           audit (with_counts (Counts x) None (d (outcome code (unfinished x)))) code).
Proof.
  apply settles_bind; [apply stays_pass|]. intros [[x failed] c]. apply settles_bind; [apply stays_flush|].
  intros _. apply settles_audit, pass_code_cases.
Qed.

Lemma settles_failed d : settles (audit d exitFailed).
Proof. apply settles_audit. by right. Qed.

Lemma refuses_convert cfg : refuses (convert cfg).
Proof.
  apply refuses_spares; [apply spares_operatorKeyring|]. intros k.
  apply (settles_pass _ (fun out => with_keys cfg [] [] [] (details out))).
Qed.

Lemma refuses_rotate cfg : refuses (rotate cfg).
Proof.
  apply refuses_spares; [apply spares_operatorKeyring|]. intros _.
  apply settles_bind; [apply stays_call|]. intros begun. apply settles_bind; [apply stays_call|]. intros commit.
  apply settles_bind.
  { intros o. destruct begun; cbn [negb]; [|by eexists]. destruct (RotateStep1 _ _ _ _ _ _ _). by eexists. }
  intros [newID|e]; [|apply settles_failed]. cbv zeta.
  apply settles_bind; [apply stays_call|]. intros b. apply settles_bind; [apply stays_get|]. intros act.
  destruct b; [|apply settles_failed]. destruct act as [[[active kek] n]|]; [|apply settles_failed].
  apply settles_bind; [apply stays_get|]. intros now. apply settles_bind; [apply stays_wait|].
  intros [[]|]; [|apply settles_failed..]. intros o. destruct (operatorKeyring cfg o) as [[c|k] o1].
  - apply settles_failed.
  - apply (settles_pass _ (fun out => with_keys cfg (if newID =? 0 then [] else [newID])
        (if newID =? 0 then [] else [r_retire r]) [] (details out))).
Qed.

Lemma refuses_decryptAll cfg : refuses (decryptAll cfg).
Proof.
  apply refuses_reads; [apply reads_must|]. intros _. apply refuses_reads; [by intros o|]. intros ws.
  apply refuses_reads.
  { destruct ws; [by intros o|]. destruct (NewKeyring _ _) as [[k n]|e]; [by intros o|apply reads_keyFailure]. }
  intros k. apply refuses_settles, settles_bind; [apply stays_pass|]. intros [[x failed] c]. cbv zeta. intros o.
  unfold mbind, call, mret. destruct (pass_code_cases failed x) as [E|E]; rewrite E; cbn;
    [|by apply settles_audit; right].
  destruct (ok (o_calls o)); cbn [negb]; [|by apply settles_audit; right].
  destruct (DeleteAllDataKeysIfUnused _ _) as [[[ids []]|e] st]; apply settles_audit; auto.
Qed.

Lemma refuses_resetLostKey cfg : refuses (resetLostKey cfg).
Proof.
  apply refuses_reads; [apply reads_must|]. intros _. apply refuses_reads; [by intros o|]. intros ws.
  destruct (OpensAny cfg ws); [intros o; by left|]. apply refuses_settles, settles_bind; [apply stays_call|].
  intros commit. apply settles_bind.
  - intros o. destruct (ResetLostKey _ _ _ _ _). by eexists.
  - intros [[[x removed] created]|e]; apply settles_audit; auto.
Qed.

Lemma settles_exit m c : c = exitOK \/ c = exitFailed -> (forall o, (m o).1 = inr c) -> settles m.
Proof. intros Hc H o. by rewrite H. Qed.

Lemma settles_downgrade : settles downgrade.
Proof.
  assert (Hr : settles (mret exitFailed)) by (apply (settles_exit _ exitFailed); [by right|done]).
  unfold downgrade. destruct want as [v|]; [|apply settles_failed].
  apply settles_bind; [apply stays_call|]. intros b. apply settles_bind; [apply stays_get|]. intros st.
  apply settles_bind; [apply stays_get|]. intros ver. destruct b; cbn [negb]; [|apply settles_failed].
  destruct (DowngradeCheck _); cbn [negb]; [|exact Hr].
  apply settles_bind; [apply stays_call|]. intros c. destruct ver as [[cur dirty]|]; [|apply settles_failed].
  destruct c; cbn [negb]; [|apply settles_failed]. destruct (_ || _); [exact Hr|].
  apply settles_bind; [apply stays_call|]. intros stepped. apply settles_bind; [apply stays_call|]. intros e.
  destruct stepped; cbn [negb]; (apply settles_bind; [apply stays_put|]); intros _; [|apply settles_failed].
  destruct e; [apply settles_audit; by left|apply settles_failed].
Qed.

Lemma reads_refuses m : reads m -> refuses m.
Proof. intros H o. by left. Qed.

Lemma reads_status : reads status.
Proof. apply reads_bind; [apply reads_must|]. intros _. by intros o. Qed.

Lemma refuses_run_sub cfg : refuses (run_sub cfg).
Proof.
  unfold run_sub. destruct (r_sub r); [apply reads_refuses, reads_status|apply refuses_convert|apply refuses_rotate|
    apply refuses_decryptAll|apply refuses_resetLostKey|apply refuses_settles, settles_downgrade].
Qed.

(** What allows a run to change secrets and data keys: it holds the lock, and where its
    subcommand is destructive no backend is alive. *)
Definition allowed (o : Op) (c : Z) (o' : Op) : Prop :=
  (c = exitOK \/ c = exitFailed) /\ kd_lock (keydb o) = None /\ kd_lock (keydb o') = None /\
  (destructive_sub (r_sub r) = true -> LiveHeartbeats (o_now o) (keydb o) = []).

Lemma locked_guards cfg o : let '(x, o') := locked cfg o in
  kd_lock (keydb o') = kd_lock (keydb o) /\ (spared o o' \/ allowed o (code_of x) o').
Proof.
  unfold locked, TryMaintenanceLock. destruct (kd_lock (keydb o)) as [h|] eqn:El.
  { split; [exact El|]. left. by split. }
  set (o1 := set_keydb _ o). unfold allowed.
  assert (H : spared o (under_lock cfg o1).2 \/
    (code_of (under_lock cfg o1).1 = exitOK \/ code_of (under_lock cfg o1).1 = exitFailed) /\
    (destructive_sub (r_sub r) = true -> LiveHeartbeats (o_now o) (keydb o) = [])).
  { unfold under_lock. destruct (destructive_sub _).
    - unfold must, call, mbind, mget, mret. destruct (ok _); [|by left]. cbv beta iota.
      change (LiveHeartbeats (o_now (called o1)) (keydb (called o1))) with (LiveHeartbeats (o_now o) (keydb o)).
      destruct (LiveHeartbeats _ _); [|by left]. destruct (refuses_run_sub cfg (called o1)); auto.
    - cbn. destruct (refuses_run_sub cfg o1); auto. by right. }
  destruct (under_lock cfg o1) as [x o2]. cbn in H. split; [done|].
  destruct H as [H|[H1 H2]]; [by left|right]. by split_and!.
Qed.

(** The data a run starts from: as stored, or as migrated. *)
Definition base (st : Store) (o : Op) : Prop := st = o_store o \/ st = migrated (o_store o).

Lemma dispatch_guards cfg o :
  exists st, base st o /\ kd_lock (keydb (dispatch cfg o).2) = kd_lock (st_keys st) /\
    (same_data st (o_store (dispatch cfg o).2) \/
     mutating (r_sub r) = true /\ st = migrated (o_store o) /\
     allowed (set_store st o) (code_of (dispatch cfg o).1) (dispatch cfg o).2).
Proof.
  assert (Hold : base (o_store o) o) by by left. assert (Hnew : base (migrated (o_store o)) o) by by right.
  unfold dispatch, must, call, mbind, mget, mret, mexit, mput.
  destruct want as [v|]; [|by exists (o_store o); split_and!; [| |left]].
  destruct (ok (o_calls o)); [|by exists (o_store o); split_and!; [| |left]].
  change (o_schema (called o)) with (o_schema o). destruct (match o_schema o with Some _ => _ | None => _ end).
  { exists (o_store o). destruct (bool_decide _); [by split_and!; [| |left]|].
    cbv beta iota zeta. destruct (_ && _); by split_and!; [| |left]. }
  cbv beta iota zeta. destruct (ok (o_calls (called o))); [|by exists (o_store o); split_and!; [| |left]].
  exists (migrated (o_store o)). cbv beta iota zeta.
  destruct (bool_decide _) eqn:Es.
  { unfold status, must, call, mbind, mget, mret, mexit. destruct (ok _); by split_and!; [| |left]. }
  destruct (ok _); [|by split_and!; [| |left]]. cbv beta iota zeta.
  match goal with |- context [locked cfg (called ?s)] => set (o2 := s) end.
  pose proof (locked_guards cfg (called o2)) as H. destruct (locked cfg (called o2)) as [x o3].
  destruct H as [H1 H2]. split_and!; [done|done|]. destruct H2 as [H2|H2]; [by left|right].
  split_and!; [|done|exact H2]. unfold mutating. by rewrite Es.
Qed.

Lemma connected_guards cfg o code o' :
  connected cfg o = (code, o') ->
  exists st, base st o /\ kd_lock (keydb o') = kd_lock (st_keys st) /\
    (same_data st (o_store o') \/
     mutating (r_sub r) = true /\ st = migrated (o_store o) /\ allowed (set_store st o) code o').
Proof.
  unfold connected, must, call, mbind. destruct (ok (o_calls o)); cbn.
  2:{ intros [= <- <-]. exists (o_store o). split_and!; [by left|done|by left]. }
  pose proof (dispatch_guards cfg (called o)) as H. destruct (dispatch cfg (called o)) as [x o2].
  destruct (mutating _ && (code_of x =? exitFailed) && _) eqn:E.
  - apply andb_true_iff in E as [[_ Hc%Z.eqb_eq]%andb_true_iff _]. cbn in H. rewrite Hc in H. unfold audit.
    destruct (writes && _); intros [= <- <-]; exact H.
  - intros [= <- <-]. exact H.
Qed.

(** C37: Every change is guarded.  A run changes secrets or data keys only as a mutating
    subcommand that ends with exit 0 or 1, on a migrated schema, having found the
    maintenance lock free, and for decrypt-all, reset-lost-key and downgrade-schema
    having found no live backend.  Otherwise (usage, key, lock, backend or version
    refusals, lost connections) both are as they were or as the migration left them.
    The lock is afterwards as it was: held by its holder, or free. *)
Theorem changes_are_guarded getenv o code o' :
  runEncryption getenv o = (code, o') ->
  exists st, base st o /\ kd_lock (keydb o') = kd_lock (st_keys st) /\
    (same_data st (o_store o') \/
     mutating (r_sub r) = true /\ st = migrated (o_store o) /\ allowed (set_store st o) code o').
Proof.
  assert (Hold : base (o_store o) o) by by left.
  unfold runEncryption. destruct (negb (usage_ok r _)); [by intros [= <- <-]; exists (o_store o); split_and!; [| |left]|].
  destruct (needs_key _); [destruct (DecideEncryptionKeys getenv) as [cfg|e]|]; [apply connected_guards| |apply connected_guards].
  intros [= <- <-]; by exists (o_store o); split_and!; [| |left].
Qed.

(** ** What exit code 0 says *)

(** A pass that left nothing to do, and the secrets it left. *)
Definition finished (opt : PassOptions) (st' : Store) : Prop :=
  exists db x s, RunPass others statements commits nonce before fuel opt ∅ db = (Ok x, s) /\
    Partial (ps_res s) = false /\ Failures (ps_res s) = [] /\ st_secrets st' = ps_db s.

Definition promise (st : Store) (o' : Op) : Prop :=
  match r_sub r with
  | Status => True
  | ConvertCmd => exists k, finished (options PassConvert (r_batch r) (Some k) 0 false) (o_store o')
  | RotateCmd => exists k, finished (options PassRotate (r_batch r) (Some k) (r_retire r) false) (o_store o')
  | DecryptAll => countSealed (st_secrets (o_store o')) = 0 /\ kd_keys (keydb o') = []
  | ResetLost => countSealed (st_secrets (o_store o')) = 0 /\ kept_unsealed Inventory (st_secrets st) (st_secrets (o_store o')) /\
      exists row, kd_keys (keydb o') = [row] /\ is_active row = true /\ ~ (kr_ID row ∈ key_ids (st_keys st))
  | Downgrade => same_data st (o_store o') /\ DowngradeCheck st = true /\ o_schema o' = Some (below, false)
  end.

Lemma mbind_ok {B} (m : M B) (k : B -> M Z) o :
  code_of (mbind m k o).1 = exitOK ->
  (exists b o1, m o = (inr b, o1) /\ code_of (k b o1).1 = exitOK /\ mbind m k o = k b o1) \/
  (exists o1, m o = (inl exitOK, o1)).
Proof.
  unfold mbind. destruct (m o) as [[c|b] o1]; cbn; [intros ->; right; by exists o1|]. intros H. left. by exists b, o1.
Qed.

(** Early exits are never exit 0, so a run that ends with it ran to its end. *)
Lemma quiet_ok {B} (m : M B) (k : B -> M Z) o :
  quiet m -> code_of (mbind m k o).1 = exitOK ->
  exists b o1, m o = (inr b, o1) /\ code_of (k b o1).1 = exitOK /\ mbind m k o = k b o1.
Proof.
  intros Hq H. destruct (mbind_ok _ _ _ H) as [?|[o1 E]]; [done|]. exfalso. destruct (Hq o) as [_ Hc].
  rewrite E in Hc. by destruct (Hc exitOK eq_refl) as [|[|[|]]].
Qed.

Lemma audit_keeps d c o : o_store (audit d c o).2 = o_store o /\ o_schema (audit d c o).2 = o_schema o.
Proof. unfold audit. by destruct (writes && _). Qed.

Lemma audit_ok d c o : code_of (audit d c o).1 = exitOK -> c = exitOK.
Proof. unfold audit. by destruct (writes && _). Qed.

Lemma audit_failed d o : code_of (audit d exitFailed o).1 <> exitOK.
Proof. intros H%audit_ok. discriminate. Qed.

(** The pass of convert and rotate. *)
Lemma pass_ok opt (d : string -> AuditRow) o :
  let m := (p <~ pass opt ;;
           let '(x, failed, c) := p in
           flushCounts c ;;
           let code := pass_code failed x in
           audit (with_counts (Counts x) None (d (outcome code (unfinished x)))) code) in
  code_of (m o).1 = exitOK -> finished opt (o_store (m o).2).
Proof.
  intros m. unfold m, finished. intros H.
  destruct (quiet_ok _ _ _ (quiet_pass opt) H) as ([[x failed] c] & o1 & E1 & H1 & ->).
  destruct (quiet_ok _ _ _ (quiet_flushCounts c) H1) as ([] & o2 & E2 & H2 & ->).
  pose proof (audit_ok _ _ _ H2) as Hc. rewrite (proj1 (audit_keeps _ _ _)).
  assert (Hs : st_secrets (o_store o2) = st_secrets (o_store o1)).
  { unfold flushCounts, call, mbind in E2. destruct (ok _); by injection E2 as <-. }
  rewrite Hs. unfold pass in E1. exists (st_secrets (o_store o)).
  destruct (RunPass _ _ _ _ _ _ _ _ _) as [y s]. injection E1 as <- Hf <- <-. unfold pass_code, unfinished in Hc.
  destruct y as [y|e]; subst failed; [|done]. exists y, s.
  destruct (Partial (ps_res s)), (Failures (ps_res s)); by split_and!.
Qed.

Lemma convert_ok cfg o : code_of (convert cfg o).1 = exitOK ->
  exists k, finished (options PassConvert (r_batch r) (Some k) 0 false) (o_store (convert cfg o).2).
Proof.
  unfold convert. intros H. destruct (quiet_ok _ _ _ (quiet_operatorKeyring cfg) H) as (k & o1 & _ & H1 & ->).
  exists k. by apply (pass_ok _ (fun out => with_keys cfg [] [] [] (details out))).
Qed.

Lemma rotate_ok cfg o : code_of (rotate cfg o).1 = exitOK ->
  exists k, finished (options PassRotate (r_batch r) (Some k) (r_retire r) false) (o_store (rotate cfg o).2).
Proof.
  unfold rotate. intros H. destruct (quiet_ok _ _ _ (quiet_operatorKeyring cfg) H) as (k0 & o1 & _ & H1 & ->). clear H.
  destruct (quiet_ok _ _ _ quiet_call H1) as (begun & o2 & _ & H2 & ->). clear H1.
  destruct (quiet_ok _ _ _ quiet_call H2) as (commit & o3 & _ & H3 & ->). clear H2.
  apply quiet_ok in H3 as (step1 & o4 & _ & H4 & ->).
  2:{ intros o4. destruct begun; cbn [negb]; [|done]. by destruct (RotateStep1 _ _ _ _ _ _ _). }
  destruct step1 as [newID|e]; [|by apply audit_failed in H4]. cbv zeta in *.
  destruct (quiet_ok _ _ _ quiet_call H4) as (b & o5 & _ & H5 & ->). clear H4.
  destruct (quiet_ok _ _ _ (quiet_get _) H5) as (act & o6 & _ & H6 & ->). clear H5.
  destruct b; [|by apply audit_failed in H6]. destruct act as [[[active kek] n]|]; [|by apply audit_failed in H6].
  destruct (quiet_ok _ _ _ (quiet_get _) H6) as (now & o7 & _ & H7 & ->). clear H6.
  destruct (quiet_ok _ _ _ (quiet_wait _ _ _) H7) as ([[]|] & o8 & _ & H8 & ->); [|by apply audit_failed in H8..].
  destruct (operatorKeyring cfg o8) as [[c|k] o9]; [by apply audit_failed in H8|]. exists k.
  by apply (pass_ok _ (fun out => with_keys cfg (if newID =? 0 then [] else [newID])
        (if newID =? 0 then [] else [r_retire r]) [] (details out))).
Qed.

Lemma countSealed_nonneg db : 0 <= countSealed db.
Proof. unfold countSealed, sum_over, count_where. induction Inventory; cbn; lia. Qed.

Lemma decryptAll_ok cfg o : code_of (decryptAll cfg o).1 = exitOK ->
  countSealed (st_secrets (o_store (decryptAll cfg o).2)) = 0 /\ kd_keys (keydb (decryptAll cfg o).2) = [].
Proof.
  unfold decryptAll. intros H. destruct (quiet_ok _ _ _ quiet_must H) as ([] & o1 & _ & H1 & ->). clear H.
  destruct (quiet_ok _ _ _ (quiet_get _) H1) as (ws & o2 & _ & H2 & ->). clear H1.
  apply quiet_ok in H2 as (k & o3 & _ & H3 & ->).
  2:{ destruct ws; [apply quiet_ret|]. destruct (NewKeyring _ _) as [[k n]|e]; [apply quiet_ret|apply quiet_keyFailure]. }
  destruct (quiet_ok _ _ _ (quiet_pass _) H3) as ([[x failed] c] & o4 & _ & H4 & ->). clear H3. cbv zeta in *.
  revert H4. destruct (pass_code_cases failed x) as [-> | ->]; cbn; [|by intros ?%audit_failed].
  unfold mbind, call. cbv beta iota zeta. destruct (ok (o_calls o4)); cbn [negb]; [|by intros ?%audit_failed].
  set (o5 := called (called o4)). unfold DeleteAllDataKeysIfUnused.
  destruct (Z.ltb_spec 0 (countSealed (st_secrets (o_store o5)))) as [Hc|Hc]; [by intros ?%audit_failed|].
  unfold deleteDataKeys. destruct (ok (o_calls (called o4))); [|by intros ?%audit_failed].
  intros _. unfold keydb. rewrite !(proj1 (audit_keeps _ _ _)). cbn. split; [|done].
  pose proof (countSealed_nonneg (st_secrets (o_store o5))) as Hn. cbn in Hn, Hc. lia.
Qed.

Lemma resetLostKey_ok {L : AEADLaws A} cfg o : keys_wf (keydb o) -> rnd_ok rnd -> code_of (resetLostKey cfg o).1 = exitOK ->
  let o' := (resetLostKey cfg o).2 in
  countSealed (st_secrets (o_store o')) = 0 /\ kept_unsealed Inventory (st_secrets (o_store o)) (st_secrets (o_store o')) /\
  exists row, kd_keys (keydb o') = [row] /\ is_active row = true /\ ~ (kr_ID row ∈ key_ids (keydb o)).
Proof.
  intros Hwf Hr. unfold resetLostKey, must, call, mbind, mget, mret, mexit. destruct (ok (o_calls o)); [|done]. cbv beta iota zeta.
  destruct (OpensAny _ _); [done|]. set (o1 := called (called o)).
  change (o_store o1) with (o_store o). unfold ResetLostKey.
  destruct (reset_columns_spec Inventory empty_result (st_secrets (o_store o))) as (_ & C2 & C3).
  destruct (reset_columns _ _ _) as [res db1]. cbn [snd] in C2, C3.
  pose proof (evolves_delete (keydb o) Hwf) as (W1 & _ & _).
  unfold deleteDataKeys in *. cbn [snd] in W1. fold (keydb o) in *.
  destruct (insertDataKey _ _ _ _) as [[w|e] k2] eqn:Ei; [|by intros ?%audit_failed].
  destruct (ok _); [|by intros ?%audit_failed]. intros _. cbv zeta. unfold keydb.
  rewrite !(proj1 (audit_keeps _ _ _)). cbn [o_store set_store st_secrets st_keys].
  destruct (insert_wf _ _ _ _ _ _ Hr W1 Ei) as (_ & _ & _ & row & Ek & <- & Ha & Hid & _ & _).
  split_and!; [by apply clean_countSealed|exact C3|]. exists row. rewrite Ek. split_and!; [done|done|]. cbn in Hid. rewrite Hid.
  intros (x & Hx & Hin)%list_elem_of_In%in_map_iff. apply list_elem_of_In in Hin. destruct Hwf as (_ & _ & Hf & _).
  rewrite Forall_forall in Hf. destruct (Hf x Hin) as [Hlt _]. cbn in Hx. lia.
Qed.

Lemma downgrade_ok o : code_of (downgrade o).1 = exitOK ->
  same_data (o_store o) (o_store (downgrade o).2) /\ DowngradeCheck (o_store o) = true /\ o_schema (downgrade o).2 = Some (below, false).
Proof.
  unfold downgrade. destruct want as [v|]; [|by intros ?%audit_failed].
  unfold call, mbind, mget, mret, mput. cbv beta iota zeta. destruct (ok (o_calls o)); cbn [negb]; [|by intros ?%audit_failed].
  change (o_store (called o)) with (o_store o). destruct (DowngradeCheck (o_store o)) eqn:Ec; cbn [negb]; [|done].
  destruct (o_schema _) as [[cur dirty]|]; [|by intros ?%audit_failed]. destruct (ok _); cbn [negb]; [|by intros ?%audit_failed].
  destruct (_ || _); [done|]. destruct (ok (o_calls (called (called o)))); cbn [negb]; [|by intros ?%audit_failed].
  destruct (ok _); [|by intros ?%audit_failed]. intros _. rewrite !(proj1 (audit_keeps _ _ _)), (proj2 (audit_keeps _ _ _)).
  split_and!; [|done|done]. split; [done|]. cbn. unfold DowngradeCheck in Ec.
  apply negb_true_iff, orb_false_iff in Ec as [Hl%Z.ltb_ge _]. destruct (kd_keys (st_keys (o_store o))); [done|cbn in Hl; lia].
Qed.

Lemma run_sub_ok {L : AEADLaws A} cfg o : keys_wf (keydb o) -> rnd_ok rnd ->
  code_of (run_sub cfg o).1 = exitOK -> promise (o_store o) (run_sub cfg o).2.
Proof.
  intros Hwf Hr. unfold run_sub, promise. destruct (r_sub r); [done|apply convert_ok|apply rotate_ok|
    apply decryptAll_ok|by apply resetLostKey_ok|apply downgrade_ok].
Qed.

(** The promise looks at the data and the schema only. *)
Lemma promise_same st st' o o' :
  same_data st st' -> spared o o' -> o_schema o' = o_schema o -> promise st' o -> promise st o'.
Proof.
  intros [A1 A2] [B1 B2] C.
  assert (F : forall opt, finished opt (o_store o) -> finished opt (o_store o')).
  { intros opt (db & x & s & H1 & H2 & H3 & H4). exists db, x, s. split_and!; [done|done|done|by rewrite B1]. }
  unfold promise, DowngradeCheck, key_ids, same_data. rewrite B1, C, <- A1, <- A2. unfold keydb. rewrite B2.
  destruct (r_sub r); try done; intros [k Hk]; exists k; by apply F.
Qed.

Lemma locked_ok {L : AEADLaws A} cfg o : keys_wf (keydb o) -> rnd_ok rnd ->
  code_of (locked cfg o).1 = exitOK -> promise (o_store o) (locked cfg o).2.
Proof.
  intros Hwf Hr. unfold locked, TryMaintenanceLock. destruct (kd_lock (keydb o)); [done|].
  set (o1 := set_keydb _ o). assert (W : keys_wf (keydb o1)) by exact Hwf.
  assert (H : code_of (under_lock cfg o1).1 = exitOK -> promise (o_store o1) (under_lock cfg o1).2).
  { assert (W' : keys_wf (keydb (called o1))) by exact W.
    unfold under_lock. destruct (destructive_sub _); [|by apply run_sub_ok].
    unfold must, call, mbind, mget, mret, mexit. destruct (ok _); [|done]. cbv beta iota zeta.
    destruct (LiveHeartbeats _ _); [|done]. by apply (run_sub_ok cfg (called o1)). }
  destruct (under_lock cfg o1) as [x o2]. cbn in H |- *. intros E. eapply promise_same, H, E; by split.
Qed.

Lemma dispatch_ok {L : AEADLaws A} cfg o :
  mutating (r_sub r) = true -> keys_wf (st_keys (migrated (o_store o))) -> rnd_ok rnd ->
  code_of (dispatch cfg o).1 = exitOK -> promise (migrated (o_store o)) (dispatch cfg o).2.
Proof.
  intros Hm Hwf Hr. assert (Hs : r_sub r <> Status) by by destruct (r_sub r).
  unfold dispatch, must, call, mbind, mget, mret, mexit, mput. destruct want as [v|]; [|done].
  rewrite !(bool_decide_eq_false_2 _ Hs). destruct (ok (o_calls o)); [cbv beta iota zeta|done].
  destruct (match o_schema _ with Some _ => _ | None => _ end); [by destruct (ok _ && _)|].
  destruct (ok _); [cbv beta iota zeta|done]. destruct (ok _); [cbv beta iota zeta|done].
  match goal with |- context [locked cfg ?s] => exact (locked_ok cfg s Hwf Hr) end.
Qed.

(** What exit 0 promises.  After decrypt-all no encrypted or damaged value and no data
    key is left; after reset-lost-key no encrypted value is left, rows that held
    none are untouched, and the one data key is active with an id no earlier key had;
    after downgrade-schema the data passed the check, is unchanged and the schema is
    the one below; after convert and rotate-data-key the last pass ended without an
    error, a failure or a value left over, and the secrets are the ones it left. *)
Theorem exit_0_keeps_promise {L : AEADLaws A} getenv o o' :
  keys_wf (st_keys (migrated (o_store o))) -> rnd_ok rnd -> mutating (r_sub r) = true ->
  runEncryption getenv o = (exitOK, o') -> promise (migrated (o_store o)) o'.
Proof.
  intros Hwf Hr Hm. assert (H : forall cfg, connected cfg o = (exitOK, o') -> promise (migrated (o_store o)) o').
  { intros cfg. unfold connected, must, call, mbind, mexit, mret. destruct (ok _); [cbv beta iota zeta|done].
    pose proof (dispatch_ok cfg (called o) Hm Hwf Hr) as H. destruct (dispatch cfg (called o)) as [x o2].
    destruct (mutating _ && (code_of x =? exitFailed) && _); [by destruct (audit _ _ o2) as [[]] eqn:E;
      pose proof (audit_failed (details "failed") o2) as F; rewrite E in F; intros [= F' _]|].
    intros [= E <-]. by apply H. }
  unfold runEncryption. destruct (negb _); [done|]. destruct (needs_key _); [|apply H].
  destruct (DecideEncryptionKeys getenv); [apply H|done].
Qed.

(** ** The wait for the backends *)

Lemma looks_enough w : 0 < pollEvery -> w < Z.of_nat (looks_for w) * pollEvery.
Proof.
  intros Hp. unfold looks_for. pose proof (Z.mod_pos_bound w pollEvery Hp) as Hm.
  pose proof (Z.div_mod w pollEvery) as Hd. assert (Hq : w / pollEvery <= Z.of_nat (Z.to_nat (w / pollEvery))) by lia.
  rewrite !Nat2Z.inj_succ. nia.
Qed.

(** What the wait answers. *)
Lemma wait_answers n active deadline o : 0 < pollEvery -> deadline - o_now o < Z.of_nat n * pollEvery ->
  let '(x, o') := wait_backends n active deadline o in
  match x with
  | inr (Some true) => Forall (fun h => ActiveDEK_ h = Some active) (LiveHeartbeats (o_now o') (keydb o'))
  | inr (Some false) => deadline < o_now o'
  | inr None => True
  | inl _ => False
  end.
Proof.
  intros Hp. revert o. induction n as [|n IH]; intros o Hn; cbn [wait_backends]; unfold mbind, call, mget, mput, mret;
    cbv beta iota zeta; (destruct (ok _); cbn [negb]; [|done]);
    (destruct (forallb _ _) eqn:Ef; [by apply Forall_forall; intros h Hh; rewrite forallb_forall in Ef;
      apply list_elem_of_In, Ef, bool_decide_eq_true in Hh|]);
    (destruct (Z.ltb_spec deadline (o_now (called o))) as [Hd|Hd]; [done|]); cbn in Hd; [lia|].
  apply IH. cbn. lia.
Qed.

Lemma wait_more n k active deadline o : 0 < pollEvery -> deadline - o_now o < Z.of_nat n * pollEvery ->
  wait_backends (n + k) active deadline o = wait_backends n active deadline o.
Proof.
  intros Hp. revert o. induction n as [|n IH]; intros o Hn; cbn [Nat.add wait_backends].
  - destruct k; [done|]. cbn [wait_backends]. unfold mbind, call, mget, mret. cbv beta iota zeta.
    destruct (ok _); cbn [negb]; [|done]. destruct (forallb _ _); [done|].
    destruct (Z.ltb_spec deadline (o_now (called o))) as [Hd|Hd]; [done|]. cbn in Hd. lia.
  - unfold mbind, call, mget, mput, mret. cbv beta iota zeta. destruct (ok _); cbn [negb]; [|done].
    destruct (forallb _ _); [done|]. destruct (deadline <? o_now (called o)); [done|].
    cbv beta iota zeta. apply IH. cbn. lia.
Qed.

(** The wait of rotate-data-key ends.  The looks counted are enough: more make no
    difference.  It ends either with every live backend sealing with the active key,
    or past its deadline, or with a failed look. *)
Theorem rotation_wait_ends active o : 0 < pollEvery ->
  let m := wait_backends (looks_for (r_wait r)) active (o_now o + r_wait r) in
  (forall k, wait_backends (looks_for (r_wait r) + k) active (o_now o + r_wait r) o = m o) /\
  match (m o).1 with
  | inr (Some true) =>
      Forall (fun h => ActiveDEK_ h = Some active) (LiveHeartbeats (o_now (m o).2) (keydb (m o).2))
  | inr (Some false) => o_now o + r_wait r < o_now (m o).2
  | inr None => True
  | inl _ => False
  end.
Proof.
  intros Hp. assert (Hn : o_now o + r_wait r - o_now o < Z.of_nat (looks_for (r_wait r)) * pollEvery).
  { pose proof (looks_enough (r_wait r) Hp). lia. }
  split; [intros k; by apply wait_more|]. pose proof (wait_answers _ active _ o Hp Hn) as H.
  by destruct (wait_backends _ _ _ o).
Qed.
End Command.

(** ** A run *)

#[local] Existing Instances Toy.aead Toy.laws.

Module OperatorDemo.
Definition getenv (name : string) : string :=
  if String.eqb name "PACEDAY_ENCRYPTION_KEY" then "20250101:YWFhYWFhYWFhYWFhYWFhYWFhYWFhYWFhYWFhYWFhYWE="
  else if String.eqb name "PACEDAY_ENCRYPTION_KEY_PREVIOUS" then "20260101:YmJiYmJiYmJiYmJiYmJiYmJiYmJiYmJiYmJiYmJiYmI="
  else if String.eqb name "DATABASE_URL" then "postgres://db" else "".
Definition run (s : Sub) : encryptionRun :=
  {| r_sub := s; r_operator := "ada"; r_reason := "leaving"; r_check := false; r_confirm := true;
     r_empty := false; r_batch := 100; r_retire := 1; r_wait := 300; |}.
(** The keys of [Demo.older], one secret sealed under key 1 and one plain. *)
Definition secrets : SecretDB :=
  let v := match (SealActive {| deks := {[1 := {| e_aead := Toy.key32 "y"; e_kekID := "20260101"; e_state := DekActive |}]};
                                active := 1 |} (BindingOf OpsDemo.zoom ["u"]) "token" Toy.nonce ∅).1 with
           | Ok v => v | Err _ => "" end in
  OpsDemo.with_settings [OpsDemo.row "u" 1 [("zoom_tokens", Some v)]; OpsDemo.bob].
Definition start (audit_table : bool) (d : KeyDB) : Op :=
  {| o_store := {| st_secrets := secrets; st_keys := d |}; o_schema := Some (34, false); o_hasAudit := audit_table;
     o_audit := []; o_now := 1000; o_calls := 0; o_polls := 0; o_audited := false |}.
End OperatorDemo.

(** A run in which every call that [calls] allows succeeds. *)
#[local] Abbreviation go s calls o :=
  (runEncryption calls true Demo.rnd (fun _ d => d) 2
    (fun _ d => d) (fun _ => true) (fun _ => true) OpsDemo.nonce OpsDemo.before 3
    (Some 34) 34 32 (fun st => st) 9 0 (OperatorDemo.run s) OperatorDemo.getenv o).

Lemma one_record_witness :
  let x := go DecryptAll (fun _ => true) (OperatorDemo.start true Demo.older) in
  x.1 = exitOK /\ exists row, o_audit x.2 = [row] /\ ad_Action row = "encryption_decrypt_all" /\ ad_Outcome row = "completed".
Proof.
  intros x. assert (Hc : x.1 = exitOK) by (vm_compute; reflexivity). split; [exact Hc|].
  destruct (one_record (fun _ => true) true Demo.rnd (fun _ d => d) 2
    (fun _ d => d) (fun _ => true) (fun _ => true) OpsDemo.nonce OpsDemo.before 3
    (Some 34) 34 32 (fun st => st) 9 0 (OperatorDemo.run DecryptAll) OperatorDemo.getenv
    (OperatorDemo.start true Demo.older) x.1 x.2 eq_refl (surjective_pairing x)) as (_ & H & _).
  destruct (H eq_refl Hc) as (_ & row & E & Ha & _ & _ & Ho). exists row. split; [exact E|]. split; [exact Ha|].
  by apply Ho.
Defined.

Lemma changes_are_guarded_witness :
  let o := OperatorDemo.start true (set_lock (Some Paused.operator) Demo.older) in
  let x := go DecryptAll (fun _ => true) o in
  x.1 = exitLock /\ same_data (o_store o) (o_store x.2) /\ kd_lock (keydb x.2) = Some Paused.operator.
Proof.
  intros o x. split; [vm_compute; reflexivity|].
  destruct (changes_are_guarded (fun _ => true) true Demo.rnd (fun _ d => d) 2
    (fun _ d => d) (fun _ => true) (fun _ => true) OpsDemo.nonce OpsDemo.before 3
    (Some 34) 34 32 (fun st => st) 9 0 (OperatorDemo.run DecryptAll) OperatorDemo.getenv o x.1 x.2
    (surjective_pairing x)) as (st & Hb & Hl & H).
  assert (Est : st = o_store o) by by destruct Hb. rewrite Est in Hl, H. split; [|exact Hl].
  destruct H as [H|(_ & _ & _ & H & _)]; [exact H|discriminate H].
Defined.

Lemma exit_0_keeps_promise_witness :
  let x := go DecryptAll (fun _ => true) (OperatorDemo.start true Demo.older) in
  countSealed OperatorDemo.secrets = 1 /\ countSealed (st_secrets (o_store x.2)) = 0 /\ kd_keys (keydb x.2) = [].
Proof.
  intros x. split; [vm_compute; reflexivity|].
  apply (exit_0_keeps_promise (fun _ => true) true Demo.rnd (fun _ d => d) 2
    (fun _ d => d) (fun _ => true) (fun _ => true) OpsDemo.nonce OpsDemo.before 3
    (Some 34) 34 32 (fun st => st) 9 0 (OperatorDemo.run DecryptAll) OperatorDemo.getenv
    (OperatorDemo.start true Demo.older) x.2); [exact keys_wf_older|exact rnd_ok_demo|reflexivity|].
  assert (Hc : x.1 = exitOK) by (vm_compute; reflexivity). rewrite <- Hc. exact (surjective_pairing x).
Defined.

Lemma rotation_wait_ends_witness :
  let o := OperatorDemo.start true (WriteHeartbeat Demo.me None 1000 Demo.older) in
  let m looks := wait_backends (fun _ => true) (fun _ d => d) 2 looks 1 (o_now o + 15) in
  (forall k, m (looks_for 2 15 + k)%nat o = m (looks_for 2 15) o) /\
  (m (looks_for 2 15) o).1 = inr (Some false) /\ o_now o + 15 < o_now (m (looks_for 2 15) o).2.
Proof.
  intros o m. destruct (rotation_wait_ends (fun _ => true) (fun _ d => d) 2
    {| r_sub := RotateCmd; r_operator := "ada"; r_reason := "yearly"; r_check := false; r_confirm := false;
       r_empty := false; r_batch := 100; r_retire := 1; r_wait := 15 |} 1 o eq_refl) as [H1 H2].
  split; [exact H1|].
  assert (E : (m (looks_for 2 15) o).1 = inr (Some false)) by (vm_compute; reflexivity). split; [exact E|].
  unfold m in *. cbv beta zeta in H2. cbn [r_wait] in H2. rewrite E in H2. exact H2.
Defined.

(** The look for the audit table fails, and a run on an older schema that ends with
    exit 1 leaves no record in the table that is there. *)
Lemma record_skipped :
  let o := set_schema (Some (30, false)) (OperatorDemo.start true Demo.older) in
  let x := go ConvertCmd (fun n => negb (Nat.eqb n 2)) o in
  x.1 = exitFailed /\ o_audit x.2 = [] /\ o_hasAudit x.2 = true /\
  length (o_audit (go ConvertCmd (fun _ => true) o).2) = 1%nat.
Proof. vm_compute. by split_and!. Qed.
