(* ===== verification/GoURL.v ===== *)
(** * [net/url]: parsing and escaping, as the code uses them

    [Parse] as the Go version of go.mod defines it: the scheme, the authority
    with its user information and optional port, the path with its
    percent-decoding, the query and the fragment; [Hostname], [Port] and
    [PathEscape]; and what [http.NewRequest] keeps of a parsed URL.  The lemmas
    say what a URL made of plain parts parses to. *)

From S2P Require Import Prelude GoInt GoTime GoText GoEncoding.

#[local] Open Scope string_scope.
#[local] Open Scope Z_scope.

(** ** Strings *)

(** [s] without the prefix [p]. *)
Fixpoint strip_prefix (p s : string) : option string :=
  match p, s with
  | EmptyString, _ => Some s
  | String a p', String b s' => if Ascii.eqb a b then strip_prefix p' s' else None
  | String _ _, EmptyString => None
  end.

(** The part before the first occurrence of [sep] and the part after it:
    [strings.Index] with both slices. *)
Fixpoint cut_str (sep s : string) : option (string * string) :=
  match strip_prefix sep s with
  | Some r => Some ("", r)
  | None =>
      match s with
      | EmptyString => None
      | String c t => match cut_str sep t with Some (a, b) => Some (String c a, b) | None => None end
      end
  end.

(** The same for the last occurrence of a character: [strings.LastIndex]. *)
Fixpoint cut_last (c : ascii) (s : string) : option (string * string) :=
  match s with
  | EmptyString => None
  | String d t =>
      match cut_last c t with
      | Some (a, b) => Some (String d a, b)
      | None => if Ascii.eqb d c then Some ("", t) else None
      end
  end.

(** [strings.Contains(s, string(c))]. *)
Definition has_char (c : ascii) (s : string) : bool :=
  negb (sforallb (fun d => negb (Ascii.eqb d c)) s).

(** [strings.HasSuffix] and [strings.TrimSuffix]. *)
Fixpoint strip_suffix (suf s : string) : option string :=
  if String.eqb s suf then Some ""
  else match s with
       | EmptyString => None
       | String c t => match strip_suffix suf t with Some r => Some (String c r) | None => None end
       end.

Definition HasSuffix (s suf : string) : bool :=
  match strip_suffix suf s with Some _ => true | None => false end.

Definition TrimSuffix (s suf : string) : string :=
  match strip_suffix suf s with Some r => r | None => s end.

(** [strings.TrimRight(s, string(c))]. *)
Definition TrimRight (c : ascii) (s : string) : string := trim_right (Ascii.eqb c) s.

Definition is_alnum (c : ascii) : bool := is_lower c || is_upper c || is_digit c.

Definition char_in (l : string) (c : ascii) : bool := has_char c l.

(** ** Escaping *)

Inductive encoding := encodePath | encodePathSegment | encodeHost | encodeZone
                    | encodeUserPassword | encodeFragment.

Definition in_host (m : encoding) : bool :=
  match m with encodeHost | encodeZone => true | _ => false end.

Definition shouldEscape (c : ascii) (m : encoding) : bool :=
  if is_alnum c then false
  else if in_host m && (char_in "!$&'()*+,;=:[]<>" c || (byte_of c =? 34)) then false
  else if char_in "-_.~" c then false
  else if char_in "$&+,/:;=?@" c && negb (in_host m) then
    match m with
    | encodePath => Ascii.eqb c "?"
    | encodePathSegment => char_in "/;,?" c
    | encodeUserPassword => char_in "@/?:" c
    | _ => false
    end
  else match m with encodeFragment => negb (char_in "!()*" c) | _ => true end.

Definition hex_val (c : ascii) : option Z :=
  if is_digit c then Some (byte_of c - 48)
  else if (97 <=? byte_of c) && (byte_of c <=? 102) then Some (byte_of c - 87)
  else if (65 <=? byte_of c) && (byte_of c <=? 70) then Some (byte_of c - 55)
  else None.

(** A percent-encoded byte that the mode refuses. *)
Definition pct_refused (m : encoding) (hi lo : Z) : bool :=
  let v := 16 * hi + lo in
  match m with
  | encodeHost => (hi <? 8) && negb (v =? 37)
  | encodeZone => negb (v =? 37) && negb (v =? 32) && shouldEscape (char v) encodeHost
  | _ => false
  end.

Fixpoint unescape (m : encoding) (s : string) : option string :=
  match s with
  | EmptyString => Some ""
  | String c t =>
      if Ascii.eqb c "%" then
        match t with
        | String a (String b r) =>
            match hex_val a, hex_val b with
            | Some hi, Some lo =>
                if pct_refused m hi lo then None
                else match unescape m r with
                     | Some u => Some (String (char (16 * hi + lo)) u)
                     | None => None
                     end
            | _, _ => None
            end
        | _ => None
        end
      else if in_host m && (byte_of c <? 128) && shouldEscape c m then None
      else match unescape m t with Some u => Some (String c u) | None => None end
  end.

Definition hex_upper (k : Z) : ascii := if k <? 10 then char (48 + k) else char (55 + k).

Fixpoint escape (m : encoding) (s : string) : string :=
  match s with
  | EmptyString => ""
  | String c t =>
      if shouldEscape c m
      then String "%" (String (hex_upper (byte_of c / 16)) (String (hex_upper (byte_of c mod 16)) (escape m t)))
      else String c (escape m t)
  end.

(** [url.PathEscape]. *)
Definition PathEscape (s : string) : string := escape encodePathSegment s.

(** ** URLs *)

Record URL := {
  Scheme : string;
  Opaque_ : string;
  User : option (string * option string);
  Host : string;
  Path : string;
  RawPath : string;
  ForceQuery : bool;
  RawQuery : string;
  Fragment : string }.

(** "" or a colon and digits. *)
Definition validOptionalPort (port : string) : bool :=
  match port with
  | EmptyString => true
  | String c t => Ascii.eqb c ":" && sforallb is_digit t
  end.

(** The scheme and the rest; [None] is the error "missing protocol scheme". *)
Fixpoint getScheme_from (acc whole s : string) : option (string * string) :=
  match s with
  | EmptyString => Some ("", whole)
  | String c t =>
      if is_lower c || is_upper c then getScheme_from (acc +:+ String c "") whole t
      else if is_digit c || char_in "+-." c then
        if String.eqb acc "" then Some ("", whole) else getScheme_from (acc +:+ String c "") whole t
      else if Ascii.eqb c ":" then
        if String.eqb acc "" then None else Some (acc, t)
      else Some ("", whole)
  end.

Definition getScheme (s : string) : option (string * string) := getScheme_from "" s s.

Definition validUserinfo (s : string) : bool :=
  sforallb (fun c => is_alnum c || char_in "-._:~!$&'()*+,;=%@" c) s.

Definition parseHost (host : string) : option string :=
  match host with
  | String "[" _ =>
      match cut_last "]" host with
      | None => None
      | Some (inner, colonPort) =>
          if negb (validOptionalPort colonPort) then None
          else match cut_str "%25" inner with
               | Some (h, z) =>
                   match unescape encodeHost h, unescape encodeZone ("%25" +:+ z),
                         unescape encodeHost (String "]" colonPort) with
                   | Some a, Some b, Some c => Some (a +:+ b +:+ c)
                   | _, _, _ => None
                   end
               | None => unescape encodeHost host
               end
      end
  | _ =>
      match cut_last ":" host with
      | Some (_, p) => if validOptionalPort (String ":" p) then unescape encodeHost host else None
      | None => unescape encodeHost host
      end
  end.

Definition parseAuthority (authority : string) : option (option (string * option string) * string) :=
  match cut_last "@" authority with
  | None => match parseHost authority with Some h => Some (None, h) | None => None end
  | Some (userinfo, h) =>
      match parseHost h with
      | None => None
      | Some h =>
          if negb (validUserinfo userinfo) then None
          else match cut ":" userinfo with
               | None =>
                   match unescape encodeUserPassword userinfo with
                   | Some u => Some (Some (u, None), h) | None => None end
               | Some (u, p) =>
                   match unescape encodeUserPassword u, unescape encodeUserPassword p with
                   | Some u, Some p => Some (Some (u, Some p), h)
                   | _, _ => None
                   end
               end
      end
  end.

(** [setPath]: the decoded path, and the raw one when it is not the default
    encoding. *)
Definition setPath (p : string) : option (string * string) :=
  match unescape encodePath p with
  | None => None
  | Some path => Some (path, if String.eqb p (escape encodePath path) then "" else p)
  end.

Definition ctl_byte (c : ascii) : bool := (byte_of c <? 32) || (byte_of c =? 127).

(** The query: [ForceQuery] when the only question mark ends the text. *)
Definition split_query (rest : string) : string * bool * string :=
  match cut "?" rest with
  | None => (rest, false, "")
  | Some (a, EmptyString) => (a, true, "")
  | Some (a, q) => (a, false, q)
  end.

(** The user information, the host and the path text after the scheme. *)
Definition split_authority (scheme rest : string) : option (option (string * option string) * string * string) :=
  let has_scheme := negb (String.eqb scheme "") in
  match strip_prefix "//" rest with
  | Some authority =>
      if has_scheme || negb (HasPrefix rest "///") then
        let '(a, path) := match cut "/" authority with
                          | Some (a, p) => (a, String "/" p) | None => (authority, "") end in
        match parseAuthority a with Some (u, h) => Some (u, h, path) | None => None end
      else Some (None, "", rest)
  | None => Some (None, "", rest)
  end.

(** [url.parse(rawURL, false)], the fragment cut off. *)
Definition parse (raw : string) : option URL :=
  if negb (sforallb (fun c => negb (ctl_byte c)) raw) then None
  else if String.eqb raw "*" then
    Some {| Scheme := ""; Opaque_ := ""; User := None; Host := ""; Path := "*"; RawPath := "";
            ForceQuery := false; RawQuery := ""; Fragment := "" |}
  else match getScheme raw with
  | None => None
  | Some (scheme, rest) =>
      let scheme := ToLower scheme in
      let '(rest, force, query) := split_query rest in
      let url op user host path rawpath :=
        {| Scheme := scheme; Opaque_ := op; User := user; Host := host; Path := path;
           RawPath := rawpath; ForceQuery := force; RawQuery := query; Fragment := "" |} in
      if negb (HasPrefix rest "/") && negb (String.eqb scheme "") then Some (url rest None "" "" "")
      else if negb (HasPrefix rest "/")
              && has_char ":" (match cut "/" rest with Some (a, _) => a | None => rest end) then None
      else match split_authority scheme rest with
           | None => None
           | Some (user, host, path) =>
               match setPath path with
               | None => None
               | Some (p, rp) => Some (url "" user host p rp)
               end
           end
  end.

Definition set_Fragment (u : URL) (f : string) : URL :=
  {| Scheme := Scheme u; Opaque_ := Opaque_ u; User := User u; Host := Host u; Path := Path u;
     RawPath := RawPath u; ForceQuery := ForceQuery u; RawQuery := RawQuery u; Fragment := f |}.

(** [url.Parse]. *)
Definition Parse (raw : string) : option URL :=
  let '(u, frag) := match cut "#" raw with Some (a, f) => (a, f) | None => (raw, "") end in
  match parse u with
  | None => None
  | Some url =>
      if String.eqb frag "" then Some url
      else match unescape encodeFragment frag with
           | Some f => Some (set_Fragment url f)
           | None => None
           end
  end.

(** [splitHostPort]: the colon of a valid port cut, then a pair of brackets. *)
Definition unbracket (h : string) : string :=
  match h with
  | String "[" t => match strip_suffix "]" t with Some inner => inner | None => h end
  | _ => h
  end.

Definition splitHostPort (hostPort : string) : string * string :=
  let '(h, p) := match cut_last ":" hostPort with
                 | Some (a, b) => if validOptionalPort (String ":" b) then (a, b) else (hostPort, "")
                 | None => (hostPort, "")
                 end in
  (unbracket h, p).

Definition Hostname (u : URL) : string := fst (splitHostPort (Host u)).
Definition Port (u : URL) : string := snd (splitHostPort (Host u)).

(** What [http.NewRequest] keeps: an empty port goes.  [hasPort] looks for a
    colon after the last bracket. *)
Definition hasPort (s : string) : bool :=
  match cut_last ":" s with
  | Some (_, b) => negb (has_char "]" b)
  | None => false
  end.

Definition removeEmptyPort (host : string) : string :=
  if hasPort host then TrimSuffix host ":" else host.

Definition set_Host (u : URL) (h : string) : URL :=
  {| Scheme := Scheme u; Opaque_ := Opaque_ u; User := User u; Host := h; Path := Path u;
     RawPath := RawPath u; ForceQuery := ForceQuery u; RawQuery := RawQuery u; Fragment := Fragment u |}.

Definition NewRequestURL (raw : string) : option URL :=
  match Parse raw with Some u => Some (set_Host u (removeEmptyPort (Host u))) | None => None end.

(** ** Lemmas: strings *)

Definition free_of (c : ascii) (s : string) : bool := sforallb (fun d => negb (Ascii.eqb d c)) s.

Lemma has_char_free c s : has_char c s = negb (free_of c s).
Proof. done. Qed.

Lemma free_of_app c a b : free_of c (a +:+ b) = free_of c a && free_of c b.
Proof. apply sforallb_app. Qed.

Lemma free_of_cons c d s : free_of c (String d s) = negb (Ascii.eqb d c) && free_of c s.
Proof. done. Qed.

Lemma str_app_cons c a b : String c a +:+ b = String c (a +:+ b).
Proof. done. Qed.

Lemma str_app_length a b : String.length (a +:+ b) = (String.length a + String.length b)%nat.
Proof. induction a as [|c a IH]; [done|]. rewrite str_app_cons. cbn. by rewrite IH. Qed.

Lemma str_app_inj_l a b c : a +:+ b = a +:+ c -> b = c.
Proof. induction a as [|d a IH]; [done|]. rewrite !str_app_cons. intros H. injection H as H. auto. Qed.

Lemma str_app_inj_r a b c : a +:+ c = b +:+ c -> a = b.
Proof.
  revert b. induction a as [|d a IH]; intros [|e b] H; [done| | |].
  - apply (f_equal String.length) in H. rewrite !str_app_length in H. cbn in H. lia.
  - apply (f_equal String.length) in H. rewrite !str_app_length in H. cbn in H. lia.
  - rewrite !str_app_cons in H. injection H as -> H. f_equal. auto.
Qed.

Lemma strip_prefix_app p s : strip_prefix p (p +:+ s) = Some s.
Proof. induction p as [|c p IH]; [by destruct s|]. rewrite str_app_cons. cbn. by rewrite Ascii.eqb_refl. Qed.

Lemma strip_prefix_Some p s r : strip_prefix p s = Some r -> s = p +:+ r.
Proof.
  revert s. induction p as [|c p IH]; intros s; [by cbn; intros [= ->]|].
  destruct s as [|d s]; [done|]. cbn [strip_prefix]. destruct (Ascii.eqb_spec c d) as [->|]; [|done].
  intros H. rewrite str_app_cons. f_equal. auto.
Qed.

Lemma cut_app c a b : free_of c a = true -> cut c (a +:+ String c b) = Some (a, b).
Proof.
  induction a as [|d a IH]; intros H; [change ("" +:+ String c b) with (String c b); cbn [cut]; by rewrite Ascii.eqb_refl|].
  rewrite free_of_cons in H. apply andb_true_iff in H as [Hd H]. rewrite str_app_cons. cbn.
  destruct (Ascii.eqb d c); [done|]. by rewrite IH.
Qed.

Lemma cut_free c s : free_of c s = true -> cut c s = None.
Proof.
  induction s as [|d s IH]; [done|]. rewrite free_of_cons. intros [Hd H]%andb_true_iff. cbn.
  destruct (Ascii.eqb d c); [done|]. by rewrite IH.
Qed.

Lemma cut_last_free c s : free_of c s = true -> cut_last c s = None.
Proof.
  induction s as [|d s IH]; [done|]. rewrite free_of_cons. intros [Hd H]%andb_true_iff. cbn.
  rewrite IH by done. by destruct (Ascii.eqb d c).
Qed.

Lemma cut_last_app c a b : free_of c b = true -> cut_last c (a +:+ String c b) = Some (a, b).
Proof.
  intros Hb. induction a as [|d a IH].
  - change ("" +:+ String c b) with (String c b). cbn [cut_last]. by rewrite cut_last_free, Ascii.eqb_refl.
  - rewrite str_app_cons. cbn [cut_last]. by rewrite IH.
Qed.

Lemma cut_last_None c s : cut_last c s = None -> free_of c s = true.
Proof.
  induction s as [|d s IH]; [done|]. cbn [cut_last]. rewrite free_of_cons.
  destruct (cut_last c s) as [[a b]|]; [done|]. destruct (Ascii.eqb d c); [done|]. intros _. by rewrite IH.
Qed.

Lemma cut_last_Some c s a b : cut_last c s = Some (a, b) -> s = a +:+ String c b /\ free_of c b = true.
Proof.
  revert a. induction s as [|d s IH]; intros a; [done|]. cbn [cut_last].
  destruct (cut_last c s) as [[a' b']|] eqn:E.
  - intros [= <- <-]. destruct (IH a' eq_refl) as [-> Hb]. by rewrite str_app_cons.
  - destruct (Ascii.eqb_spec d c) as [->|]; [|done]. intros [= <- <-].
    split; [done|by apply cut_last_None].
Qed.

Lemma strip_suffix_Some suf s r : strip_suffix suf s = Some r -> s = r +:+ suf.
Proof.
  revert r. induction s as [|c s IH]; intros r; cbn [strip_suffix].
  - destruct (String.eqb_spec "" suf) as [<-|]; [by intros [= <-]|done].
  - destruct (String.eqb_spec (String c s) suf) as [<-|]; [by intros [= <-]|].
    destruct (strip_suffix suf s) as [r'|] eqn:E; [|done]. intros [= <-].
    rewrite str_app_cons. f_equal. auto.
Qed.

Lemma strip_suffix_app suf r : strip_suffix suf (r +:+ suf) = Some r.
Proof.
  induction r as [|c r IH].
  - change ("" +:+ suf) with suf. destruct suf as [|d suf]; cbn [strip_suffix]; by rewrite String.eqb_refl.
  - rewrite str_app_cons. cbn [strip_suffix].
    destruct (String.eqb_spec (String c (r +:+ suf)) suf) as [E|]; [|by rewrite IH].
    apply (f_equal String.length) in E. cbn in E. rewrite str_app_length in E. lia.
Qed.

Lemma TrimSuffix_app r suf : TrimSuffix (r +:+ suf) suf = r.
Proof. unfold TrimSuffix. by rewrite strip_suffix_app. Qed.

Lemma HasSuffix_app r suf : HasSuffix (r +:+ suf) suf = true.
Proof. unfold HasSuffix. by rewrite strip_suffix_app. Qed.

Lemma HasSuffix_TrimSuffix s suf : HasSuffix s suf = true -> s = TrimSuffix s suf +:+ suf.
Proof.
  unfold HasSuffix, TrimSuffix. destruct (strip_suffix suf s) as [r|] eqn:E; [|done]. intros _.
  by apply strip_suffix_Some.
Qed.

Lemma smap_app f a b : smap f (a +:+ b) = smap f a +:+ smap f b.
Proof. induction a as [|c a IH]; [done|]. rewrite !str_app_cons. cbn. by rewrite IH. Qed.

(** [lower] is idempotent, and fixes what is not an upper-case letter. *)
Lemma lower_not_upper c : is_upper c = false -> lower c = c.
Proof. unfold lower. by intros ->. Qed.

Lemma lower_lower c : lower (lower c) = lower c.
Proof. destruct c as [[] [] [] [] [] [] [] []]; reflexivity. Qed.

Lemma ToLower_idem s : ToLower (ToLower s) = ToLower s.
Proof. unfold ToLower. induction s as [|c s IH]; [done|]. cbn. by rewrite IH, lower_lower. Qed.

Lemma ToLower_app a b : ToLower (a +:+ b) = ToLower a +:+ ToLower b.
Proof. apply smap_app. Qed.

Lemma EqualFold_refl s : EqualFold s s = true.
Proof. apply String.eqb_refl. Qed.

(** ** Lemmas: escaping *)

Lemma hex_val_upper k : 0 <= k < 16 -> hex_val (hex_upper k) = Some k.
Proof.
  intros H. assert (Hk : exists n, (n < 16)%nat /\ k = Z.of_nat n) by (exists (Z.to_nat k); lia).
  destruct Hk as (n & Hn & ->). do 16 (destruct n as [|n]; [reflexivity|]). lia.
Qed.

Lemma unescape_pct m a b r hi lo :
  hex_val a = Some hi -> hex_val b = Some lo -> pct_refused m hi lo = false ->
  unescape m (String "%" (String a (String b r))) =
    match unescape m r with Some u => Some (String (char (16 * hi + lo)) u) | None => None end.
Proof. intros H1 H2 H3. cbn [unescape]. change (Ascii.eqb "%" "%") with true. cbv iota. by rewrite H1, H2, H3. Qed.

Lemma unescape_char m c r :
  Ascii.eqb c "%" = false -> in_host m && (byte_of c <? 128) && shouldEscape c m = false ->
  unescape m (String c r) = match unescape m r with Some u => Some (String c u) | None => None end.
Proof. intros H1 H2. cbn [unescape]. by rewrite H1, H2. Qed.

(** In a path, an escaped text reads back, whatever follows it. *)
Lemma unescape_escape m s t u :
  m = encodePath \/ m = encodePathSegment -> unescape encodePath t = Some u ->
  unescape encodePath (escape m s +:+ t) = Some (s +:+ u).
Proof.
  intros Hm Ht. induction s as [|c s IH]; [done|]. cbn [escape].
  pose proof (byte_of_range c) as Hc. destruct (shouldEscape c m) eqn:E; rewrite ?str_app_cons.
  - rewrite (unescape_pct _ _ _ _ (byte_of c / 16) (byte_of c mod 16)).
    + rewrite IH, <- Z.div_mod by lia. by rewrite char_byte_of.
    + apply hex_val_upper. dlia.
    + apply hex_val_upper. dlia.
    + done.
  - rewrite unescape_char; [by rewrite IH| |done].
    destruct (Ascii.eqb_spec c "%") as [->|]; [|done]. by destruct Hm as [-> | ->].
Qed.

(** Text the mode takes as it is. *)
Definition plain_in (m : encoding) (c : ascii) : bool :=
  negb (Ascii.eqb c "%") && negb (in_host m && (byte_of c <? 128) && shouldEscape c m).

Lemma unescape_plain m s : sforallb (plain_in m) s = true -> unescape m s = Some s.
Proof.
  induction s as [|c s IH]; [done|]. cbn [sforallb]. intros [Hc Hs]%andb_true_iff.
  apply andb_true_iff in Hc as [H1 H2]. apply negb_true_iff in H1, H2.
  rewrite unescape_char by done. by rewrite IH.
Qed.

Lemma escape_plain m s : sforallb (fun c => negb (shouldEscape c m)) s = true -> escape m s = s.
Proof.
  induction s as [|c s IH]; [done|]. cbn [sforallb escape]. intros [Hc Hs]%andb_true_iff.
  destruct (shouldEscape c m); [done|]. by rewrite IH.
Qed.

(** ** Lemmas: URLs made of plain parts *)

(** A character of a host name. *)
Definition host_char (c : ascii) : bool := is_alnum c || Ascii.eqb c "-" || Ascii.eqb c ".".

Definition host_text (h : string) : bool := negb (String.eqb h "") && sforallb host_char h.

(** A colon and digits, or nothing. *)
Definition port_text (p : string) : string := if String.eqb p "" then "" else ":" +:+ p.

(** Text of a URL that neither the query, the fragment nor the control-byte
    rule touches. *)
Definition url_char (c : ascii) : bool :=
  negb (ctl_byte c) && negb (Ascii.eqb c "?") && negb (Ascii.eqb c "#").

Definition rooted (p : string) : Prop := p = "" \/ exists r, p = String "/" r.

Definition https_url (host path rawpath : string) : URL :=
  {| Scheme := "https"; Opaque_ := ""; User := None; Host := host; Path := path; RawPath := rawpath;
     ForceQuery := false; RawQuery := ""; Fragment := "" |}.

(** A property of characters that holds of the whole of ASCII is checked on
    each of the 256 bytes. *)
Ltac byte_cases c := destruct c as [[] [] [] [] [] [] [] []]; vm_compute; try done.

Lemma host_char_plain c : host_char c = true ->
  plain_in encodeHost c = true /\ url_char c = true /\
  Ascii.eqb c "/" = false /\ Ascii.eqb c ":" = false /\ Ascii.eqb c "@" = false /\ Ascii.eqb c "[" = false.
Proof. byte_cases c. Qed.

Lemma digit_plain c : is_digit c = true ->
  plain_in encodeHost c = true /\ url_char c = true /\ Ascii.eqb c "/" = false /\
  Ascii.eqb c ":" = false /\ Ascii.eqb c "@" = false.
Proof. byte_cases c. Qed.

Lemma sforallb_free c p s :
  (forall d, p d = true -> Ascii.eqb d c = false) -> sforallb p s = true -> free_of c s = true.
Proof. intros H. apply sforallb_impl. intros d Hd. by rewrite H. Qed.

Lemma host_text_free h c : (forall d, host_char d = true -> Ascii.eqb d c = false) ->
  host_text h = true -> free_of c h = true.
Proof. intros H [_ Hh]%andb_true_iff. by apply (sforallb_free c host_char). Qed.

Lemma host_text_no_bracket h x : host_text h = true -> h <> String "[" x.
Proof.
  intros [_ Hh]%andb_true_iff ->. cbn [sforallb] in Hh. by apply andb_true_iff in Hh as [? _].
Qed.

Lemma port_digits_plain p : sforallb is_digit p = true -> sforallb (plain_in encodeHost) (port_text p) = true.
Proof.
  intros Hp. unfold port_text. destruct (String.eqb p ""); [done|]. rewrite str_app_cons. cbn [sforallb].
  apply andb_true_iff. split; [done|]. revert Hp. apply sforallb_impl. intros c Hc. by apply digit_plain.
Qed.

Lemma cut_last_port h p :
  free_of ":" h = true -> sforallb is_digit p = true ->
  cut_last ":" (h +:+ port_text p) = if String.eqb p "" then None else Some (h, p).
Proof.
  intros Hh Hp. unfold port_text. destruct (String.eqb_spec p "") as [->|Hne].
  - rewrite app_nil_str. by apply cut_last_free.
  - apply cut_last_app. apply (sforallb_free ":" is_digit); [|done]. intros d Hd. by apply digit_plain.
Qed.

Lemma host_no_colon h : host_text h = true -> free_of ":" h = true.
Proof. apply host_text_free. intros d Hd. by apply host_char_plain. Qed.

(** A host of plain text with an optional port. *)
Lemma parseHost_plain h p :
  host_text h = true -> sforallb is_digit p = true ->
  parseHost (h +:+ port_text p) = Some (h +:+ port_text p).
Proof.
  intros Hh Hp. pose proof (host_text_no_bracket h) as Hb.
  assert (Hu : unescape encodeHost (h +:+ port_text p) = Some (h +:+ port_text p)).
  { apply unescape_plain. rewrite sforallb_app, port_digits_plain, andb_true_r by done.
    apply andb_true_iff in Hh as [_ Hh]. revert Hh. apply sforallb_impl. intros c Hc. by apply host_char_plain. }
  unfold parseHost. rewrite cut_last_port, Hu by (done || by apply host_no_colon).
  assert (Hv : validOptionalPort (String ":" p) = true) by (cbn; by rewrite Hp).
  assert (Hn : forall r, h +:+ port_text p <> String "[" r).
  { intros r E. destruct h as [|d h]; [by apply andb_true_iff in Hh as [? _]|].
    rewrite str_app_cons in E. injection E as -> _. by apply (Hb h). }
  destruct (h +:+ port_text p) as [|c r] eqn:E.
  - destruct (String.eqb p ""); [done|]. by rewrite Hv.
  - destruct c as [[] [] [] [] [] [] [] []]; try (by destruct (Hn r));
      destruct (String.eqb p ""); try done; by rewrite Hv.
Qed.

Lemma host_port_url h p : host_text h = true -> sforallb is_digit p = true ->
  sforallb url_char (h +:+ port_text p) = true /\ free_of "/" (h +:+ port_text p) = true /\
  free_of "@" (h +:+ port_text p) = true.
Proof.
  intros Hh Hp.
  assert (Hhp : sforallb (fun c => host_char c || is_digit c || Ascii.eqb c ":") (h +:+ port_text p) = true).
  { rewrite sforallb_app. apply andb_true_iff. split.
    - apply andb_true_iff in Hh as [_ Hh]. revert Hh. apply sforallb_impl. by intros c ->.
    - unfold port_text. destruct (String.eqb p ""); [done|]. rewrite str_app_cons. cbn [sforallb].
      revert Hp. apply sforallb_impl. intros c ->. by rewrite orb_true_r. }
  assert (Hc : forall c, host_char c || is_digit c || Ascii.eqb c ":" = true ->
                url_char c = true /\ Ascii.eqb c "/" = false /\ Ascii.eqb c "@" = false).
  { intros c. byte_cases c. }
  split; [|split].
  - revert Hhp. apply sforallb_impl. intros c ?. by apply Hc.
  - revert Hhp. apply sforallb_free. intros c ?. by apply Hc.
  - revert Hhp. apply sforallb_free. intros c ?. by apply Hc.
Qed.

Lemma parseAuthority_plain h p :
  host_text h = true -> sforallb is_digit p = true ->
  parseAuthority (h +:+ port_text p) = Some (None, h +:+ port_text p).
Proof.
  intros Hh Hp. unfold parseAuthority. destruct (host_port_url h p) as (_ & _ & Hat); [done..|].
  rewrite cut_last_free by done. by rewrite parseHost_plain.
Qed.

Lemma url_char_free s : sforallb url_char s = true ->
  free_of "#" s = true /\ free_of "?" s = true /\ sforallb (fun c => negb (ctl_byte c)) s = true.
Proof.
  intros H. split; [|split].
  - revert H. apply sforallb_free. intros d [_ Hd]%andb_true_iff. by apply negb_true_iff.
  - revert H. apply sforallb_free. intros d [Hd _]%andb_true_iff. apply andb_true_iff in Hd as [_ Hd].
    by apply negb_true_iff.
  - revert H. apply sforallb_impl. intros d [Hd _]%andb_true_iff. by apply andb_true_iff in Hd as [? _].
Qed.

Lemma split_authority_plain h p path :
  host_text h = true -> sforallb is_digit p = true -> rooted path ->
  split_authority "https" ("//" +:+ ((h +:+ port_text p) +:+ path)) = Some (None, h +:+ port_text p, path).
Proof.
  intros Hh Hp Hr. unfold split_authority. rewrite strip_prefix_app. cbn [String.eqb Ascii.eqb Bool.eqb negb orb].
  destruct (host_port_url h p) as (_ & Hs & _); [done..|].
  destruct Hr as [->|[r ->]].
  - rewrite app_nil_str, cut_free by done. by rewrite parseAuthority_plain.
  - rewrite cut_app by done. by rewrite parseAuthority_plain.
Qed.

(** What [url.Parse] answers for [https://host[:port]path]. *)
Lemma Parse_https h p path dec rp :
  host_text h = true -> sforallb is_digit p = true -> rooted path ->
  sforallb url_char path = true -> setPath path = Some (dec, rp) ->
  Parse ("https://" +:+ ((h +:+ port_text p) +:+ path)) = Some (https_url (h +:+ port_text p) dec rp).
Proof.
  intros Hh Hp Hr Hc Hset. set (rest := (h +:+ port_text p) +:+ path).
  assert (Hu : sforallb url_char ("https://" +:+ rest) = true).
  { unfold rest. rewrite sforallb_app. apply andb_true_iff. split; [by vm_compute|].
    rewrite sforallb_app, Hc, andb_true_r. by apply host_port_url. }
  destruct (url_char_free _ Hu) as (H1 & _ & H3).
  assert (Hq : free_of "?" ("//" +:+ rest) = true).
  { destruct (url_char_free _ Hu) as (_ & H2 & _). change ("https://" +:+ rest) with ("https:" +:+ ("//" +:+ rest)) in H2.
    rewrite free_of_app in H2. by apply andb_true_iff in H2 as [_ ?]. }
  unfold Parse. rewrite cut_free by done. unfold parse. rewrite H3. cbn [negb].
  assert (Hs : String.eqb ("https://" +:+ rest) "*" = false) by done. rewrite Hs.
  assert (Hg : getScheme ("https://" +:+ rest) = Some ("https", "//" +:+ rest)) by done. rewrite Hg.
  change (ToLower "https") with "https". unfold split_query. rewrite cut_free by done. cbn zeta.
  assert (Hp2 : HasPrefix ("//" +:+ rest) "/" = true) by (by destruct rest). rewrite Hp2. cbn [negb andb].
  unfold rest. rewrite split_authority_plain by done. by rewrite Hset.
Qed.

(** ** Hosts and ports *)

Lemma splitHostPort_plain h p :
  host_text h = true -> sforallb is_digit p = true -> splitHostPort (h +:+ port_text p) = (h, p).
Proof.
  intros Hh Hp. unfold splitHostPort. rewrite cut_last_port by (done || by apply host_no_colon).
  assert (Hb : unbracket h = h).
  { destruct h as [|c r]; [done|]. pose proof (host_text_no_bracket _ r Hh) as Hn.
    destruct c as [[] [] [] [] [] [] [] []]; done. }
  unfold port_text. destruct (String.eqb_spec p "") as [->|].
  - by rewrite app_nil_str, Hb.
  - assert (Hv : validOptionalPort (String ":" p) = true) by (cbn; by rewrite Hp). by rewrite Hv, Hb.
Qed.

Lemma Hostname_https h p path rp : host_text h = true -> sforallb is_digit p = true ->
  Hostname (https_url (h +:+ port_text p) path rp) = h /\ Port (https_url (h +:+ port_text p) path rp) = p.
Proof. intros Hh Hp. unfold Hostname, Port. cbn [Host https_url]. by rewrite splitHostPort_plain. Qed.

(** Removing an empty port moves neither the name nor the port, when the name
    holds no colon. *)
Lemma removeEmptyPort_split host :
  free_of ":" (fst (splitHostPort host)) = true ->
  splitHostPort (removeEmptyPort host) = splitHostPort host.
Proof.
  unfold removeEmptyPort, hasPort. destruct (cut_last ":" host) as [[a b]|] eqn:E; [|done].
  destruct (has_char "]" b) eqn:Eb; [done|]. cbn [negb].
  apply cut_last_Some in E as [-> Hb]. unfold TrimSuffix.
  destruct (strip_suffix ":" (a +:+ String ":" b)) as [r|] eqn:Es; [|done].
  apply strip_suffix_Some in Es.
  assert (Hb0 : b = "").
  { destruct (decide (b = "")) as [|Hne]; [done|].
    assert (Hl : cut_last ":" (r +:+ ":") = Some (r, "")) by by apply cut_last_app.
    rewrite <- Es, cut_last_app in Hl by done. congruence. }
  subst b. apply str_app_inj_r in Es as <-. unfold splitHostPort.
  rewrite (cut_last_app ":" a "") by done. cbn [validOptionalPort sforallb fst snd]. 
  change (Ascii.eqb ":" ":" && true) with true. cbv iota. cbn [fst]. intros Hf.
  destruct (cut_last ":" a) as [[x y]|] eqn:Ea; [|done]. exfalso.
  apply cut_last_Some in Ea as [-> _].
  assert (Hx : free_of ":" (x +:+ String ":" y) = true); [|rewrite free_of_app, free_of_cons in Hx; cbn in Hx; by rewrite andb_false_r in Hx].
  revert Hf. generalize (x +:+ String ":" y). intros s. unfold unbracket.
  destruct s as [|c t]; [done|].
  destruct c as [[] [] [] [] [] [] [] []]; try done.
  destruct (strip_suffix "]" t) as [i|] eqn:Ei; [|done]. apply strip_suffix_Some in Ei as ->.
  intros Hi. rewrite free_of_cons, free_of_app, Hi. done.
Qed.
