(* ===== verification/Destinations.v ===== *)
(** * Where a model provider's key may be sent

    config/llm_hosts.go and config/llm_user_destinations.go (what the operator
    approved, read from the environment), nlp/destination.go and
    nlp/user_destination.go (the checks before a request and at the moment of
    sending), and the five clients of nlp/ with the one request each makes.
    The network is an argument: what the inner transport answers to a request.
    Reading a provider's answer ([extract]) is an argument too. *)

From S2P Require Import Prelude GoInt GoTime GoText GoEncoding GoURL.

#[local] Open Scope string_scope.
#[local] Open Scope Z_scope.

(** ** Host names (config/llm_hosts.go) *)

Definition len (s : string) : Z := Z.of_nat (String.length s).

Definition last_char (s : string) : option ascii :=
  (fix go s := match s with
               | EmptyString => None
               | String c EmptyString => Some c
               | String _ t => go t
               end) s.

Definition is_hyphen (c : option ascii) : bool :=
  match c with Some c => Ascii.eqb c "-" | None => false end.

Definition first_char (s : string) : option ascii :=
  match s with String c _ => Some c | EmptyString => None end.

(** [ValidDNSLabel]. *)
Definition ValidDNSLabel (s : string) : bool :=
  if (len s =? 0) || (63 <? len s) || is_hyphen (first_char s) || is_hyphen (last_char s) then false
  else sforallb (fun c => is_alnum c || Ascii.eqb c "-") s.

(** One decimal field of an IPv4 literal, as [netip.ParseAddr] reads it: no
    leading zero, at most 255. *)
Definition ipv4_field (f : string) : bool :=
  negb (String.eqb f "") && sforallb is_digit f && (len f <=? 3)
  && ((len f =? 1) || negb (HasPrefix f "0")) && (digits_val 0 f <=? 255).

(** Whether [netip.ParseAddr] accepts the text as an IPv4 address.  Its IPv6
    forms hold a colon, which no DNS label does. *)
Definition ParseAddr4 (s : string) : bool :=
  match Split "." s with
  | [a; b; c; d] => forallb ipv4_field [a; b; c; d]
  | _ => false
  end.

(** [ValidDNSHostName]. *)
Definition ValidDNSHostName (s : string) : bool :=
  if (String.eqb s "") || (253 <? len s) then false
  else if ParseAddr4 s then false
  else forallb ValidDNSLabel (Split "." s).

(** ** Approved hosts of the cloud providers *)

Definition EnvLLMApprovedHostsAzureOpenAI := "PACEDAY_LLM_APPROVED_HOSTS_AZURE_OPENAI".
Definition EnvLLMApprovedHostsVertex := "PACEDAY_LLM_APPROVED_HOSTS_VERTEX".
Definition EnvLLMApprovedHostsBedrock := "PACEDAY_LLM_APPROVED_HOSTS_BEDROCK".

(** [llmApprovedHostsVars], in the order of its sorted keys. *)
Definition llmApprovedHostsVars : list (string * string) :=
  [("azure_openai", EnvLLMApprovedHostsAzureOpenAI);
   ("bedrock", EnvLLMApprovedHostsBedrock);
   ("vertex", EnvLLMApprovedHostsVertex)].

(** [map[string]map[string]bool] whose values are all true. *)
Definition LLMApprovedHosts := gmap string (gset string).

Definition hosts_of (a : LLMApprovedHosts) (provider : string) : gset string :=
  default ∅ (a !! provider).

Definition Enabled (a : LLMApprovedHosts) (provider : string) : bool :=
  (0 <? Z.of_nat (size (hosts_of a provider))).

Definition ApprovedHost (a : LLMApprovedHosts) (provider host : string) : bool :=
  if String.eqb host "" then false
  else bool_decide (ToLower host ∈ hosts_of a provider).

(** [approvedHostEntry]. *)
Definition approvedHostEntry (entry : string) : option string :=
  let host := match cut_str "://" entry with
              | Some (scheme, rest) =>
                  if negb (EqualFold scheme "https") then None else Some (TrimSuffix rest "/")
              | None => Some entry
              end in
  match host with
  | None => None
  | Some h => if negb (ValidDNSHostName h) then None else Some (ToLower h)
  end.

(** A startup notice: the variable and the entry its sentence quotes. *)
Record Notice := { nt_variable : string; nt_entry : string }.

(** The loop both variables' parsers share: each comma-separated entry is
    trimmed; an empty one is skipped, a malformed one is a notice. *)
Fixpoint parse_entries {A} (entry_of : string -> option A) (variable : string) (l : list string)
  : list A * list Notice :=
  match l with
  | [] => ([], [])
  | e :: r =>
      let '(xs, ns) := parse_entries entry_of variable r in
      let e := TrimSpace e in
      if String.eqb e "" then (xs, ns)
      else match entry_of e with
           | None => (xs, {| nt_variable := variable; nt_entry := e |} :: ns)
           | Some x => (x :: xs, ns)
           end
  end.

Definition ParseApprovedHosts (variable raw : string) : list string * list Notice :=
  parse_entries approvedHostEntry variable (Split "," raw).

Fixpoint decide_hosts (getenv : string -> string) (vars : list (string * string))
  (out : LLMApprovedHosts) (notices : list Notice) : LLMApprovedHosts * list Notice :=
  match vars with
  | [] => (out, notices)
  | (provider, variable) :: r =>
      let '(hosts, malformed) := ParseApprovedHosts variable (getenv variable) in
      let notices := (notices ++ malformed)%list in
      match hosts with
      | [] => decide_hosts getenv r out notices
      | _ => decide_hosts getenv r (<[provider := list_to_set hosts]> out) notices
      end
  end.

Definition DecideLLMApprovedHosts (getenv : string -> string) : LLMApprovedHosts * list Notice :=
  decide_hosts getenv llmApprovedHostsVars ∅ [].

(** ** Approved destinations of openai and anthropic
    (config/llm_user_destinations.go) *)

Definition EnvLLMApprovedHostsOpenAI := "PACEDAY_LLM_APPROVED_HOSTS_OPENAI".
Definition EnvLLMApprovedHostsAnthropic := "PACEDAY_LLM_APPROVED_HOSTS_ANTHROPIC".
Definition EnvLLMApprovedOriginsOllama := "PACEDAY_LLM_APPROVED_ORIGINS_OLLAMA".
Definition OpenAIPublicHost := "api.openai.com".
Definition AnthropicPublicHost := "api.anthropic.com".

Record Gateway := { gw_Host : string; gw_Prefix : string }.

#[global] Instance Gateway_eq_dec : EqDecision Gateway.
Proof. solve_decision. Defined.

#[global] Instance Gateway_countable : Countable Gateway.
Proof.
  apply (inj_countable' (fun g => (gw_Host g, gw_Prefix g))
           (fun p => {| gw_Host := p.1; gw_Prefix := p.2 |})). by intros [].
Defined.

Record LLMUserDestinations := { ud_OpenAI : gset Gateway; ud_Anthropic : gset Gateway }.

Definition ApprovedGateway (d : LLMUserDestinations) (provider : string) (g : Gateway) : bool :=
  let g := {| gw_Host := ToLower (gw_Host g); gw_Prefix := gw_Prefix g |} in
  if String.eqb (gw_Host g) "" then false
  else if String.eqb provider "openai" then
    (String.eqb (gw_Host g) OpenAIPublicHost && String.eqb (gw_Prefix g) "")
    || bool_decide (g ∈ ud_OpenAI d)
  else if String.eqb provider "anthropic" then
    (String.eqb (gw_Host g) AnthropicPublicHost && String.eqb (gw_Prefix g) "")
    || bool_decide (g ∈ ud_Anthropic d)
  else false.

Definition segment_char (c : ascii) : bool := is_alnum c || char_in "._~-" c.

Definition bad_segment (seg : string) : bool :=
  String.eqb seg "" || String.eqb seg "." || String.eqb seg ".." || negb (sforallb segment_char seg).

(** [gatewayPrefix]. *)
Definition gatewayPrefix (path : string) : option string :=
  let path := TrimSuffix path "/" in
  match path with
  | EmptyString => Some ""
  | String _ rest => if existsb bad_segment (Split "/" rest) then None else Some path
  end.

(** [gatewayEntry]. *)
Definition gatewayEntry (entry : string) : option Gateway :=
  let rest := match cut_str "://" entry with
              | Some (scheme, r) => if negb (EqualFold scheme "https") then None else Some r
              | None => if has_char "/" entry then None else Some entry
              end in
  match rest with
  | None => None
  | Some rest =>
      let '(host, path) := match cut "/" rest with
                           | Some (h, p) => (h, String "/" p) | None => (rest, "") end in
      if negb (ValidDNSHostName host) then None
      else match gatewayPrefix path with
           | None => None
           | Some prefix => Some {| gw_Host := ToLower host; gw_Prefix := prefix |}
           end
  end.

Definition ParseGatewayEntries (variable raw : string) : list Gateway * list Notice :=
  parse_entries gatewayEntry variable (Split "," raw).

(** [DecideLLMUserDestinations]; the notice for the retired variable names no
    entry. *)
Definition DecideLLMUserDestinations (getenv : string -> string) : LLMUserDestinations * list Notice :=
  let '(o, n1) := ParseGatewayEntries EnvLLMApprovedHostsOpenAI (getenv EnvLLMApprovedHostsOpenAI) in
  let '(a, n2) := ParseGatewayEntries EnvLLMApprovedHostsAnthropic (getenv EnvLLMApprovedHostsAnthropic) in
  let n3 := if negb (String.eqb (TrimSpace (getenv EnvLLMApprovedOriginsOllama)) "")
            then [{| nt_variable := EnvLLMApprovedOriginsOllama; nt_entry := "" |}] else [] in
  ({| ud_OpenAI := list_to_set o; ud_Anthropic := list_to_set a |}, (n1 ++ n2 ++ n3)%list).

(** ** A user-set base URL *)

Record BaseURL := { b_Scheme : string; b_Host : string; b_Port : string; b_Prefix : string }.

(** A port of a base URL: no leading zero, from 1 to 65535. *)
Definition port_ok (port : string) : bool :=
  match Atoi port with
  | None => false
  | Some n => (1 <=? n) && (n <=? 65535) && negb (HasPrefix port "0")
  end.

(** The first [n] bytes and the rest. *)
Fixpoint split_at (n : nat) (s : string) : string * string :=
  match n, s with
  | O, _ => ("", s)
  | S k, String c t => let '(a, b) := split_at k t in (String c a, b)
  | S _, EmptyString => ("", "")
  end.

Definition base_char_refused (c : ascii) : bool :=
  char_in "?#\@%" c || (byte_of c <=? 32) || (byte_of c =? 127).

(** [ParseBaseURL].  The scheme [url.Parse] found is never longer than the
    text, so the slices are in range. *)
Definition ParseBaseURL (raw : string) : option BaseURL :=
  if String.eqb raw "" || negb (sforallb (fun c => negb (base_char_refused c)) raw) then None
  else match Parse raw with
  | None => None
  | Some u =>
      if String.eqb (Scheme u) "" || negb (String.eqb (Opaque_ u) "")
         || (match User u with Some _ => true | None => false end)
         || String.eqb (Host u) "" || negb (String.eqb (RawQuery u) "") || ForceQuery u
         || negb (String.eqb (Fragment u) "") || negb (String.eqb (RawPath u) "") then None
      else
        let '(s, rest) := split_at (String.length (Scheme u)) raw in
        if negb (EqualFold s (Scheme u)) || negb (String.eqb rest ("://" +:+ Host u +:+ Path u)) then None
        else match gatewayPrefix (Path u) with
        | None => None
        | Some prefix =>
            let host := Hostname u in
            if String.eqb host "" || HasSuffix (Host u) ":" then None
            else
              let port := Port u in
              if negb (String.eqb port "") && negb (port_ok port) then None
              else Some {| b_Scheme := ToLower (Scheme u); b_Host := ToLower host;
                           b_Port := port; b_Prefix := prefix |}
        end
  end.

(** ** The policy in force

    [policyMu] guards it; [SetApprovedHosts] and [SetUserDestinations] replace
    one half, and restoring puts the previous value back. *)

Record Policy := { approved : LLMApprovedHosts; userDestinations : LLMUserDestinations }.

(** Before main has read the environment. *)
Definition initial_policy : Policy :=
  {| approved := ∅; userDestinations := {| ud_OpenAI := ∅; ud_Anthropic := ∅ |} |}.

Definition SetApprovedHosts (h : LLMApprovedHosts) (pol : Policy) : Policy :=
  {| approved := h; userDestinations := userDestinations pol |}.

Definition SetUserDestinations (d : LLMUserDestinations) (pol : Policy) : Policy :=
  {| approved := approved pol; userDestinations := d |}.

(** What main installs at start. *)
Definition policy_of_env (getenv : string -> string) : Policy :=
  SetUserDestinations (fst (DecideLLMUserDestinations getenv))
    (SetApprovedHosts (fst (DecideLLMApprovedHosts getenv)) initial_policy).

(** ** Providers (nlp/providers.go) *)

Definition ProviderOpenAI := "openai".
Definition ProviderAnthropic := "anthropic".
Definition ProviderAzureOpenAI := "azure_openai".
Definition ProviderBedrock := "bedrock".
Definition ProviderVertex := "vertex".

Definition KeyProviders : list string :=
  [ProviderOpenAI; ProviderAnthropic; ProviderAzureOpenAI; ProviderBedrock; ProviderVertex].

Definition IsKeyProvider (p : string) : bool := existsb (String.eqb p) KeyProviders.

(** The value a Go map gives for a string key, "" when the key is absent. *)
Fixpoint assoc (k : string) (m : list (string * string)) : string :=
  match m with
  | [] => ""
  | (x, v) :: r => if String.eqb x k then v else assoc k r
  end.

Definition displayNames : list (string * string) :=
  [(ProviderOpenAI, "OpenAI"); (ProviderAnthropic, "Anthropic"); (ProviderAzureOpenAI, "Azure OpenAI");
   (ProviderBedrock, "AWS Bedrock"); (ProviderVertex, "Google Vertex AI")].

Definition chatPaths : list (string * string) :=
  [(ProviderOpenAI, "/v1/chat/completions"); (ProviderAnthropic, "/v1/messages")].

Definition publicHosts : list (string * string) :=
  [(ProviderOpenAI, OpenAIPublicHost); (ProviderAnthropic, AnthropicPublicHost)].

Definition vertexExpressHost := "aiplatform.googleapis.com".

(** ** Refusals *)

Definition ReasonProviderNotEnabled := "provider_not_enabled".
Definition ReasonDestinationNotApproved := "destination_not_approved".
Definition ReasonDestinationNotSet := "destination_not_set".

Record DestinationRefusal := { r_Provider : string; r_Reason : string; r_Property : string; r_Message : string }.

Definition refuseNotEnabled (provider : string) : DestinationRefusal :=
  let what := if String.eqb provider ProviderVertex then vertexExpressHost
              else "an endpoint for " +:+ assoc provider displayNames in
  {| r_Provider := provider; r_Reason := ReasonProviderNotEnabled; r_Property := "";
     r_Message := provider +:+ " is not enabled on this deployment; ask your administrator to approve " +:+ what |}.

Definition refuseNotApproved (provider property : string) : DestinationRefusal :=
  let verb := if String.eqb property "azureEndpoint" then "is not" else "does not lead to" in
  {| r_Provider := provider; r_Reason := ReasonDestinationNotApproved; r_Property := property;
     r_Message := property +:+ " " +:+ verb +:+ " an approved " +:+ assoc provider displayNames
                  +:+ " endpoint on this deployment" |}.

Definition refuseAzureNotSet : DestinationRefusal :=
  {| r_Provider := ProviderAzureOpenAI; r_Reason := ReasonDestinationNotSet; r_Property := "azureEndpoint";
     r_Message := "the Azure endpoint is not set; save an approved endpoint in Settings first" |}.

Definition refuseBaseURL (provider : string) : DestinationRefusal :=
  {| r_Provider := provider; r_Reason := ReasonDestinationNotApproved; r_Property := "llmBaseUrl";
     r_Message := "llmBaseUrl is not an approved " +:+ assoc provider displayNames
                  +:+ " destination on this deployment; clear it in Settings to use "
                  +:+ assoc provider publicHosts |}.

Definition refuseSend (message : string) (provider : string) : DestinationRefusal :=
  {| r_Provider := provider; r_Reason := ReasonDestinationNotApproved; r_Property := ""; r_Message := message |}.

(** ** The matching rules *)

(** [approvedURL]: [None] is a nil URL. *)
Definition approvedURL (pol : Policy) (provider : string) (u : option URL) : bool :=
  match u with
  | None => false
  | Some u =>
      if negb (String.eqb (Scheme u) "https")
         || (match User u with Some _ => true | None => false end)
         || negb (String.eqb (Opaque_ u) "") then false
      else if negb (String.eqb (Port u) "") && negb (String.eqb (Port u) "443") then false
      else ApprovedHost (approved pol) provider (Hostname u)
  end.

Definition approvedRawURL (pol : Policy) (provider raw : string) : bool :=
  match Parse raw with Some u => approvedURL pol provider (Some u) | None => false end.

Definition baseURLApproved (pol : Policy) (provider : string) (b : BaseURL) : bool :=
  String.eqb (b_Scheme b) "https" && (String.eqb (b_Port b) "" || String.eqb (b_Port b) "443")
  && ApprovedGateway (userDestinations pol) provider {| gw_Host := b_Host b; gw_Prefix := b_Prefix b |}.

(** [userRequestURL]: the one URL of a request, or the refusal. *)
Definition userRequestURL (pol : Policy) (provider base : string) : res DestinationRefusal string :=
  let base := if String.eqb base "" then "https://" +:+ assoc provider publicHosts else base in
  match ParseBaseURL base with
  | Some b =>
      if baseURLApproved pol provider b
      then Ok ("https://" +:+ b_Host b +:+ b_Prefix b +:+ assoc provider chatPaths)
      else Err (refuseBaseURL provider)
  | None => Err (refuseBaseURL provider)
  end.

(** ** The five clients *)

Inductive LLMClient :=
| OpenAIClient (APIKey Model BaseURL : string)
| AnthropicClient (APIKey Model BaseURL : string)
| AzureOpenAIClient (APIKey Endpoint Deployment APIVersion : string)
| BedrockClient (APIKey Region ModelID : string)
| VertexClient (APIKey ModelID : string).

Definition azure_requestURL (endpoint deployment version : string) : string :=
  TrimRight "/" endpoint +:+ "/openai/deployments/" +:+ deployment
  +:+ "/chat/completions?api-version=" +:+ version.

Definition bedrock_host (region : string) : string := "bedrock-runtime." +:+ region +:+ ".amazonaws.com".

Definition bedrock_requestURL (region model : string) : string :=
  "https://" +:+ bedrock_host region +:+ "/model/" +:+ PathEscape model +:+ "/converse".

Definition vertex_requestURL (model : string) : string :=
  "https://" +:+ vertexExpressHost +:+ "/v1/publishers/google/models/" +:+ PathEscape model +:+ ":generateContent".

(** The Azure and Bedrock checks, on the values they read. *)
Definition azure_check (pol : Policy) (endpoint deployment version : string) : option DestinationRefusal :=
  if negb (Enabled (approved pol) ProviderAzureOpenAI) then Some (refuseNotEnabled ProviderAzureOpenAI)
  else if String.eqb endpoint "" then Some refuseAzureNotSet
  else if negb (approvedRawURL pol ProviderAzureOpenAI (azure_requestURL endpoint deployment version))
  then Some (refuseNotApproved ProviderAzureOpenAI "azureEndpoint")
  else None.

Definition bedrock_check (pol : Policy) (region : string) : option DestinationRefusal :=
  if negb (Enabled (approved pol) ProviderBedrock) then Some (refuseNotEnabled ProviderBedrock)
  else if negb (ValidDNSLabel region)
          || negb (approvedRawURL pol ProviderBedrock ("https://" +:+ bedrock_host region +:+ "/"))
  then Some (refuseNotApproved ProviderBedrock "awsRegion")
  else None.

Definition vertex_check (pol : Policy) : option DestinationRefusal :=
  if negb (ApprovedHost (approved pol) ProviderVertex vertexExpressHost)
  then Some (refuseNotEnabled ProviderVertex) else None.

Definition refusal {A} (r : res DestinationRefusal A) : option DestinationRefusal :=
  match r with Ok _ => None | Err e => Some e end.

(** [CheckDestination]: [None] when the client may send now. *)
Definition CheckDestination (pol : Policy) (c : LLMClient) : option DestinationRefusal :=
  match c with
  | OpenAIClient _ _ base => refusal (userRequestURL pol ProviderOpenAI base)
  | AnthropicClient _ _ base => refusal (userRequestURL pol ProviderAnthropic base)
  | AzureOpenAIClient _ e d v => azure_check pol e d v
  | BedrockClient _ r _ => bedrock_check pol r
  | VertexClient _ _ => vertex_check pol
  end.

(** ** Sending *)

(** What the provider is asked; "" and 0 where its document has no such
    member. *)
Record Payload := { pl_Model : string; pl_MaxTokens : Z; pl_System : string; pl_User : string }.

(** A request as the transport gets it. *)
Record Request := {
  rq_URL : option URL;
  rq_Host : string;
  rq_Headers : list (string * string);
  rq_Payload : Payload }.

Record Response := { rs_Status : Z; rs_Location : bool; rs_Body : string }.

Inductive SendError :=
| Refused (r : DestinationRefusal)
| NoAnswer                       (** the inner transport's own error *)
| Redirected                     (** errRedirect, errUserRedirect *)
| BadURL                         (** http.NewRequest's error *)
| ErrorStatus (status : Z) (body : string)
| Unexpected.                    (** the body is not the expected document *)

Section Sending.
Context (pol : Policy) (network : Request -> option Response).

(** [approvedOnlyTransport.RoundTrip]: what is handed to the inner transport,
    and the answer. *)
Definition approvedOnly_RoundTrip (provider : string) (req : Request)
  : list Request * res SendError Response :=
  if negb (approvedURL pol provider (rq_URL req))
     || (negb (String.eqb (rq_Host req) "")
         && negb (EqualFold (rq_Host req) (match rq_URL req with Some u => Host u | None => "" end)))
  then ([], Err (Refused (refuseSend ("refused to send the " +:+ assoc provider displayNames
                            +:+ " key to a host this deployment has not approved") provider)))
  else ([req], match network req with Some r => Ok r | None => Err NoAnswer end).

(** The test of [userOnlyTransport.RoundTrip]. *)
Definition userOnly_ok (provider : string) (req : Request) : bool :=
  match rq_URL req with
  | None => false
  | Some u =>
      let chat := assoc provider chatPaths in
      negb (String.eqb chat "") && (match User u with Some _ => false | None => true end)
      && String.eqb (Opaque_ u) "" && String.eqb (RawQuery u) "" && negb (ForceQuery u)
      && String.eqb (Fragment u) "" && HasSuffix (Path u) chat
      && (String.eqb (RawPath u) "" || String.eqb (RawPath u) (Path u))
      && (String.eqb (rq_Host req) "" || EqualFold (rq_Host req) (Host u))
      && (let b := {| b_Scheme := ToLower (Scheme u); b_Host := ToLower (Hostname u); b_Port := Port u;
                      b_Prefix := TrimSuffix (Path u) chat |} in
          negb (String.eqb (b_Host b) "") && baseURLApproved pol provider b)
  end.

Definition userOnly_RoundTrip (provider : string) (req : Request)
  : list Request * res SendError Response :=
  if negb (userOnly_ok provider req)
  then ([], Err (Refused (refuseSend ("refused to send a " +:+ assoc provider displayNames
                            +:+ " request to a destination this deployment has not approved") provider)))
  else ([req], match network req with Some r => Ok r | None => Err NoAnswer end).

(** A status [http.Client] follows when a Location comes with it. *)
Definition redirect_status (s : Z) : bool := existsb (Z.eqb s) [301; 302; 303; 307; 308].

(** [http.Client.Do]: one round trip; [CheckRedirect] refuses the first
    redirect. *)
Definition client_Do (RoundTrip : Request -> list Request * res SendError Response) (req : Request)
  : list Request * res SendError Response :=
  let '(sent, r) := RoundTrip req in
  (sent, match r with
         | Ok resp => if redirect_status (rs_Status resp) && rs_Location resp then Err Redirected else Ok resp
         | Err e => Err e
         end).

(** [postJSONWith]; the payload is encoded by the network. *)
Definition postJSONWith (RoundTrip : Request -> list Request * res SendError Response) (url : string)
  (headers : list (string * string)) (payload : Payload) (extract : string -> option string)
  : list Request * res SendError string :=
  match NewRequestURL url with
  | None => ([], Err BadURL)
  | Some u =>
      let req := {| rq_URL := Some u; rq_Host := Host u;
                    rq_Headers := ("Content-Type", "application/json") :: headers; rq_Payload := payload |} in
      let '(sent, r) := client_Do RoundTrip req in
      (sent, match r with
             | Err e => Err e
             | Ok resp =>
                 if 300 <=? rs_Status resp then Err (ErrorStatus (rs_Status resp) (rs_Body resp))
                 else match extract (rs_Body resp) with Some t => Ok t | None => Err Unexpected end
             end)
  end.

(** Each client refuses first, then posts through the transport of its
    provider. *)
Definition openai_Complete (extract : string -> option string) (key model base system user : string)
  : list Request * res SendError string :=
  match userRequestURL pol ProviderOpenAI base with
  | Err r => ([], Err (Refused r))
  | Ok target => postJSONWith (userOnly_RoundTrip ProviderOpenAI) target
                   [("Authorization", "Bearer " +:+ key)]
                   {| pl_Model := model; pl_MaxTokens := 0; pl_System := system; pl_User := user |} extract
  end.

Definition anthropic_Complete (extract : string -> option string) (key model base system user : string)
  : list Request * res SendError string :=
  match userRequestURL pol ProviderAnthropic base with
  | Err r => ([], Err (Refused r))
  | Ok target => postJSONWith (userOnly_RoundTrip ProviderAnthropic) target
                   [("x-api-key", key); ("anthropic-version", "2023-06-01")]
                   {| pl_Model := model; pl_MaxTokens := 1024; pl_System := system; pl_User := user |} extract
  end.

Definition azure_Complete (extract : string -> option string) (key endpoint deployment version system user : string)
  : list Request * res SendError string :=
  match azure_check pol endpoint deployment version with
  | Some r => ([], Err (Refused r))
  | None => postJSONWith (approvedOnly_RoundTrip ProviderAzureOpenAI) (azure_requestURL endpoint deployment version)
              [("api-key", key)]
              {| pl_Model := ""; pl_MaxTokens := 1024; pl_System := system; pl_User := user |} extract
  end.

Definition bedrock_Complete (extract : string -> option string) (key region model system user : string)
  : list Request * res SendError string :=
  match bedrock_check pol region with
  | Some r => ([], Err (Refused r))
  | None => postJSONWith (approvedOnly_RoundTrip ProviderBedrock) (bedrock_requestURL region model)
              [("Authorization", "Bearer " +:+ key)]
              {| pl_Model := ""; pl_MaxTokens := 1024; pl_System := system; pl_User := user |} extract
  end.

Definition vertex_Complete (extract : string -> option string) (key model system user : string)
  : list Request * res SendError string :=
  match vertex_check pol with
  | Some r => ([], Err (Refused r))
  | None => postJSONWith (approvedOnly_RoundTrip ProviderVertex) (vertex_requestURL model)
              [("x-goog-api-key", key)]
              {| pl_Model := ""; pl_MaxTokens := 0; pl_System := system; pl_User := user |} extract
  end.

(** [LLMClient.Complete]: what is sent and what comes back. *)
Definition Complete (extract : string -> option string) (c : LLMClient) (system user : string)
  : list Request * res SendError string :=
  match c with
  | OpenAIClient key m base => openai_Complete extract key m base system user
  | AnthropicClient key m base => anthropic_Complete extract key m base system user
  | AzureOpenAIClient key e d v => azure_Complete extract key e d v system user
  | BedrockClient key r m => bedrock_Complete extract key r m system user
  | VertexClient key m => vertex_Complete extract key m system user
  end.
End Sending.

(** ** The checks of a settings write *)

Definition MsgAzureEndpointNotApproved :=
  "azureEndpoint must be an https URL whose host is approved for azure_openai on this deployment".
Definition MsgAzureEndpointNotEnabled :=
  "azureEndpoint cannot be set: azure_openai is not enabled on this deployment".
Definition MsgAWSRegionInvalid := "awsRegion must be a valid AWS region name".
Definition MsgLLMBaseURLNotApproved :=
  "llmBaseUrl must be an OpenAI or Anthropic destination approved on this deployment".

(** [AzureEndpointWriteProblem]: "" when acceptable. *)
Definition AzureEndpointWriteProblem (pol : Policy) (v : string) : string :=
  if String.eqb v "" then ""
  else match CheckDestination pol (AzureOpenAIClient "" v "d" "v") with
       | None => ""
       | Some r => if String.eqb (r_Reason r) ReasonProviderNotEnabled then MsgAzureEndpointNotEnabled
                   else MsgAzureEndpointNotApproved
       end.

Definition AWSRegionWriteProblem (v : string) : string :=
  if String.eqb v "" || ValidDNSLabel v then "" else MsgAWSRegionInvalid.

Definition LLMBaseURLWriteProblem (pol : Policy) (v : string) : string :=
  if String.eqb v "" then ""
  else match ParseBaseURL v with
       | Some b => if existsb (fun p => baseURLApproved pol p b) [ProviderOpenAI; ProviderAnthropic]
                   then "" else MsgLLMBaseURLNotApproved
       | None => MsgLLMBaseURLNotApproved
       end.

Definition OrgBaseURLWriteProblem (pol : Policy) (provider v : string) : string :=
  let msg := "baseUrl must be an approved " +:+ assoc provider displayNames
             +:+ " destination on this deployment: an approved origin and exactly its path prefix, with no query, fragment or credentials" in
  if String.eqb v "" then ""
  else match ParseBaseURL v with
       | Some b => if (String.eqb provider ProviderOpenAI || String.eqb provider ProviderAnthropic)
                      && baseURLApproved pol provider b then "" else msg
       | None => msg
       end.

Definition OrgAzureEndpointShapeProblem (v : string) : string :=
  let msg := "azureEndpoint must be https://<host> with no path, query, fragment or credentials" in
  if String.eqb v "" then ""
  else match Parse v with
       | None => msg
       | Some u =>
           if negb (String.eqb (Scheme u) "https") || negb (String.eqb (Opaque_ u) "")
              || (match User u with Some _ => true | None => false end)
              || String.eqb (Host u) "" || negb (String.eqb (Port u) "") || negb (String.eqb (RawQuery u) "")
              || ForceQuery u || negb (String.eqb (Fragment u) "") || has_char "#" v
              || (negb (String.eqb (Path u) "") && negb (String.eqb (Path u) "/"))
              || negb (String.eqb (RawPath u) "") then msg
           else if negb (String.eqb v ("https://" +:+ Host u))
                   && negb (String.eqb v ("https://" +:+ Host u +:+ "/")) then msg
           else ""
       end.

(** ** Host names are plain text *)

Lemma lower_host_char c : host_char (lower c) = host_char c.
Proof. byte_cases c. Qed.

Lemma host_text_lower h : host_text (ToLower h) = host_text h.
Proof.
  unfold host_text, ToLower. f_equal; [by destruct h|].
  induction h as [|c h IH]; [done|]. cbn [smap sforallb]. by rewrite lower_host_char, IH.
Qed.

Lemma ValidDNSLabel_chars s : ValidDNSLabel s = true -> s <> "" /\ sforallb host_char s = true.
Proof.
  unfold ValidDNSLabel. destruct (_ || _ || _ || _) eqn:E; [done|]. intros H. split.
  - intros ->. by cbn in E.
  - revert H. apply sforallb_impl. intros c H. unfold host_char. apply orb_true_iff in H as [-> | ->]; [done|].
    by rewrite orb_true_r.
Qed.

Lemma Split_chars sep p s :
  forallb (sforallb p) (Split sep s) = true -> p sep = true -> sforallb p s = true.
Proof.
  intros H Hsep. induction s as [|c s IH]; [done|]. cbn [Split] in H. cbn [sforallb].
  destruct (Ascii.eqb_spec c sep) as [->|Hn].
  - cbn [forallb] in H. rewrite Hsep. by apply IH.
  - destruct (Split sep s) as [|h t] eqn:E; [by destruct (Split_nonempty sep s)|].
    cbn [forallb sforallb] in H. apply andb_true_iff in H as [[Hc Hh]%andb_true_iff Ht].
    rewrite Hc. apply IH. cbn [forallb]. by rewrite Hh, Ht.
Qed.

Lemma ValidDNSHostName_text s : ValidDNSHostName s = true -> host_text s = true.
Proof.
  unfold ValidDNSHostName, host_text. destruct (String.eqb s ""); [done|]. cbn [orb negb].
  destruct (253 <? len s); [done|]. destruct (ParseAddr4 s); [done|]. intros H.
  cbn [andb]. apply (Split_chars "."); [|done]. revert H. rewrite !forallb_elem. intros H x Hx.
  by apply ValidDNSLabel_chars, H.
Qed.

(** ** Approved prefixes *)

Lemma segment_char_path c : segment_char c || Ascii.eqb c "/" = true ->
  plain_in encodePath c = true /\ negb (shouldEscape c encodePath) = true /\ url_char c = true.
Proof. byte_cases c. Qed.

(** A prefix [gatewayPrefix] returns. *)
Definition prefix_ok (p : string) : bool :=
  match p with
  | EmptyString => true
  | String c rest => Ascii.eqb c "/" && negb (existsb bad_segment (Split "/" rest))
  end.

Definition path_char (c : ascii) : bool := segment_char c || Ascii.eqb c "/".

Lemma prefix_ok_chars p : prefix_ok p = true -> rooted p /\ sforallb path_char p = true.
Proof.
  destruct p as [|c rest]; [by split; [left|]|]. cbn [prefix_ok].
  destruct (Ascii.eqb_spec c "/") as [->|]; [|done]. cbn [andb]. intros H%negb_true_iff.
  split; [by right; exists rest|]. cbn [sforallb]. apply andb_true_iff. split; [done|].
  apply (Split_chars "/"); [|done]. rewrite forallb_elem. intros x Hx.
  rewrite existsb_elem_false in H. specialize (H x Hx). unfold bad_segment in H.
  apply orb_false_iff in H as [_ H%negb_false_iff]. revert H. apply sforallb_impl.
  intros d Hd. unfold path_char. by rewrite Hd.
Qed.

Lemma gatewayPrefix_ok path p :
  rooted path -> gatewayPrefix path = Some p -> prefix_ok p = true /\ (path = p \/ path = p +:+ "/").
Proof.
  intros Hr. unfold gatewayPrefix.
  assert (Ht : path = TrimSuffix path "/" \/ path = TrimSuffix path "/" +:+ "/").
  { unfold TrimSuffix. destruct (strip_suffix "/" path) eqn:E; [|by left]. right. by apply strip_suffix_Some. }
  assert (Hc : match TrimSuffix path "/" with EmptyString => True | String c _ => c = "/"%char end).
  { destruct Hr as [->|[r ->]]; [done|]. destruct Ht as [Ht|Ht].
    - destruct (TrimSuffix _ _) as [|c t]; [done|]. congruence.
    - destruct (TrimSuffix _ _) as [|c t]; [done|]. rewrite str_app_cons in Ht. congruence. }
  destruct (TrimSuffix path "/") as [|c rest].
  - intros [= <-]. done.
  - subst c. destruct (existsb bad_segment (Split "/" rest)) eqn:E; [done|]. intros [= <-].
    cbn [prefix_ok]. by rewrite E.
Qed.

(** ** Well-formed policies *)

Definition gateway_ok (g : Gateway) : Prop :=
  host_text (gw_Host g) = true /\ ToLower (gw_Host g) = gw_Host g /\ prefix_ok (gw_Prefix g) = true.

Definition policy_wf (pol : Policy) : Prop :=
  (forall p h, h ∈ hosts_of (approved pol) p -> host_text h = true /\ ToLower h = h)
  /\ (forall g, g ∈ ud_OpenAI (userDestinations pol) -> gateway_ok g)
  /\ (forall g, g ∈ ud_Anthropic (userDestinations pol) -> gateway_ok g).

Section Entries.
Context {A : Type} (entry_of : string -> option A) (variable : string).

Lemma parse_entries_elem l x :
  x ∈ fst (parse_entries entry_of variable l) <->
  exists e, e ∈ l /\ TrimSpace e <> "" /\ entry_of (TrimSpace e) = Some x.
Proof.
  induction l as [|e l IH]; cbn [parse_entries].
  - cbn. split; [by intros ?%elem_of_nil|]. by intros (? & ?%elem_of_nil & _).
  - destruct (parse_entries entry_of variable l) as [xs ns] eqn:E. cbn [fst] in IH.
    destruct (String.eqb_spec (TrimSpace e) "") as [E0|E0].
    + cbn [fst]. rewrite IH. split.
      * intros (e' & ? & ?). exists e'. split; [by right|done].
      * intros (e' & [->|?]%elem_of_cons & ? & ?); [done|eauto].
    + destruct (entry_of (TrimSpace e)) as [y|] eqn:Ey; cbn [fst]; rewrite ?elem_of_cons, IH.
      * split.
        { intros [->|(e' & ? & ?)]; [exists e|exists e']; (split; [|done]); [left|by right]. }
        { intros (e' & [->|?]%elem_of_cons & ? & ?); [left; congruence|right; eauto]. }
      * split.
        { intros (e' & ? & ?). exists e'. split; [by right|done]. }
        { intros (e' & [->|?]%elem_of_cons & ? & ?); [congruence|eauto]. }
Qed.

Lemma parse_entries_notice l n :
  n ∈ snd (parse_entries entry_of variable l) <->
  exists e, e ∈ l /\ TrimSpace e <> "" /\ entry_of (TrimSpace e) = None
            /\ n = {| nt_variable := variable; nt_entry := TrimSpace e |}.
Proof.
  induction l as [|e l IH]; cbn [parse_entries].
  - cbn. split; [by intros ?%elem_of_nil|]. by intros (? & ?%elem_of_nil & _).
  - destruct (parse_entries entry_of variable l) as [xs ns] eqn:E. cbn [snd] in IH.
    destruct (String.eqb_spec (TrimSpace e) "") as [E0|E0].
    + cbn [snd]. rewrite IH. split.
      * intros (e' & ? & ?). exists e'. split; [by right|done].
      * intros (e' & [->|?]%elem_of_cons & ? & ?); [done|eauto].
    + destruct (entry_of (TrimSpace e)) as [y|] eqn:Ey; cbn [snd]; rewrite ?elem_of_cons, IH.
      * split.
        { intros (e' & ? & ?). exists e'. split; [by right|done]. }
        { intros (e' & [->|?]%elem_of_cons & ? & ? & ?); [congruence|eauto]. }
      * split.
        { intros [->|(e' & ? & ?)]; [exists e|exists e']; (split; [|done]); [left|by right]. }
        { intros (e' & [->|?]%elem_of_cons & ? & ? & ->); [by left|right; eauto]. }
Qed.
End Entries.

(** The host an entry approves is a lower-case DNS name. *)
Lemma approvedHostEntry_wf e h :
  approvedHostEntry e = Some h -> host_text h = true /\ ToLower h = h.
Proof.
  unfold approvedHostEntry. cbn zeta.
  assert (Hx : forall o : option string,
    match o with Some x => if negb (ValidDNSHostName x) then None else Some (ToLower x) | None => None end = Some h ->
    exists x, ValidDNSHostName x = true /\ h = ToLower x).
  { intros [x|]; [|done]. destruct (ValidDNSHostName x) eqn:V; [|done]. intros [= <-]. by exists x. }
  intros (x & V & ->)%Hx.
  rewrite host_text_lower, ToLower_idem. split; [by apply ValidDNSHostName_text|done].
Qed.

Lemma gatewayEntry_ok e g : gatewayEntry e = Some g -> gateway_ok g.
Proof.
  unfold gatewayEntry. cbn zeta.
  generalize (match cut_str "://" e with
              | Some (scheme, r) => if negb (EqualFold scheme "https") then None else Some r
              | None => if has_char "/" e then None else Some e end).
  intros [rest|]; [|done].
  destruct (match cut "/" rest with Some (h, p) => (h, String "/" p) | None => (rest, "") end)
    as [host path] eqn:E.
  destruct (ValidDNSHostName host) eqn:V; [|done]. cbn [negb].
  destruct (gatewayPrefix path) as [p|] eqn:P; [|done]. intros [= <-].
  assert (Hr : rooted path) by (destruct (cut "/" rest) as [[a b]|]; injection E as <- <-; [right; eauto|by left]).
  split; [|split]; cbn [gw_Host gw_Prefix].
  - rewrite host_text_lower. by apply ValidDNSHostName_text.
  - apply ToLower_idem.
  - by apply (gatewayPrefix_ok path).
Qed.

Lemma hosts_of_insert (out : LLMApprovedHosts) q s p :
  hosts_of (<[q := s]> out) p = if decide (q = p) then s else hosts_of out p.
Proof.
  unfold LLMApprovedHosts in out. unfold hosts_of. destruct (decide (q = p)) as [->|Hn].
  - transitivity (default ∅ (Some s)); [f_equal; apply (lookup_insert_eq out)|done].
  - f_equal. by apply (lookup_insert_ne out).
Qed.

(** What one pass over the variables leaves for each provider. *)
Lemma decide_hosts_spec getenv vars out ns p h :
  NoDup (map fst vars) ->
  (forall q, q ∈ map fst vars -> out !! q = None) ->
  h ∈ hosts_of (fst (decide_hosts getenv vars out ns)) p <->
  (exists v, (p, v) ∈ vars /\ h ∈ fst (ParseApprovedHosts v (getenv v))) \/ h ∈ hosts_of out p.
Proof.
  revert out ns. induction vars as [|[q v] vars IH]; intros out ns Hnd Hout.
  - cbn [decide_hosts fst]. split; [by right|]. intros [(v & ?%elem_of_nil & _)|?]; done.
  - cbn [decide_hosts]. destruct (ParseApprovedHosts v (getenv v)) as [hosts mal] eqn:E.
    assert (Hh : fst (ParseApprovedHosts v (getenv v)) = hosts) by by rewrite E.
    cbn [map fst] in Hnd. apply NoDup_cons in Hnd as [Hq Hnd].
    assert (Hq0 : hosts_of out q = ∅) by (unfold hosts_of; by rewrite Hout by left).
    assert (Hgoal : h ∈ hosts_of (if decide (hosts = []) then out else <[q:=list_to_set hosts]> out) p <->
              (q = p /\ h ∈ hosts) \/ h ∈ hosts_of out p).
    { destruct (decide (hosts = [])) as [->|Hne].
      - split; [by right|]. intros [[_ ?%elem_of_nil]|?]; done.
      - rewrite hosts_of_insert. destruct (decide (q = p)) as [->|Hn].
        + rewrite elem_of_list_to_set, Hq0. split; [by left|]. by intros [[_ ?]|?%elem_of_empty].
        + split; [by right|]. by intros [[??]|?]. }
    assert (Hstep : fst (match hosts with
                | [] => decide_hosts getenv vars out (ns ++ mal)%list
                | _ => decide_hosts getenv vars (<[q:=list_to_set hosts]> out) (ns ++ mal)%list end)
              = fst (decide_hosts getenv vars (if decide (hosts = []) then out
                       else <[q:=list_to_set hosts]> out) (ns ++ mal)%list)) by (by destruct hosts).
    rewrite Hstep, IH; [|done|].
    + rewrite Hgoal. split.
      * intros [(w & Hw & Hx)|[[-> Hx]|Hx]]; [left; exists w; split; [by right|done]| |by right].
        left. exists v. split; [left|by rewrite Hh].
      * intros [(w & [[= -> ->]|Hw]%elem_of_cons & Hx)|Hx]; [|left; eauto|by right; right].
        right. left. by rewrite Hh in Hx.
    + intros r Hr. destruct (decide (hosts = [])); [apply Hout; by right|].
      etransitivity; [by apply (lookup_insert_ne (out : gmap string (gset string))); intros ->|].
      apply Hout. by right.
Qed.

(** The variable of a provider. *)
Definition hosts_variable (p : string) : option string :=
  match List.find (fun v => String.eqb (fst v) p) llmApprovedHostsVars with
  | Some (_, v) => Some v
  | None => None
  end.

Lemma hosts_variable_elem p v : hosts_variable p = Some v <-> (p, v) ∈ llmApprovedHostsVars.
Proof.
  unfold hosts_variable, llmApprovedHostsVars. cbn [List.find fst].
  repeat match goal with |- context [String.eqb ?a p] => destruct (String.eqb_spec a p) as [<-|?] end;
    rewrite ?elem_of_cons, ?elem_of_nil; split; try (intros [= <-]; tauto); try done;
    intros H; repeat destruct H as [H|H]; try done; congruence.
Qed.

Lemma Decide_hosts getenv p h :
  h ∈ hosts_of (fst (DecideLLMApprovedHosts getenv)) p <->
  exists v e, hosts_variable p = Some v /\ e ∈ Split "," (getenv v) /\ TrimSpace e <> ""
              /\ approvedHostEntry (TrimSpace e) = Some h.
Proof.
  unfold DecideLLMApprovedHosts. rewrite decide_hosts_spec.
  - setoid_rewrite hosts_variable_elem. setoid_rewrite parse_entries_elem. split.
    + intros [(v & Hv & e & ? & ? & ?)|H]; [by exists v, e|]. by apply elem_of_empty in H.
    + intros (v & e & ? & ? & ? & ?). left. exists v. split; [done|]. by exists e.
  - cbn. repeat constructor; rewrite ?elem_of_cons, ?elem_of_nil; intros H; repeat destruct H as [H|H]; done.
  - done.
Qed.

Lemma Decide_destinations getenv :
  fst (DecideLLMUserDestinations getenv) =
  {| ud_OpenAI := list_to_set (fst (ParseGatewayEntries EnvLLMApprovedHostsOpenAI
                                      (getenv EnvLLMApprovedHostsOpenAI)));
     ud_Anthropic := list_to_set (fst (ParseGatewayEntries EnvLLMApprovedHostsAnthropic
                                         (getenv EnvLLMApprovedHostsAnthropic))) |}.
Proof.
  unfold DecideLLMUserDestinations.
  destruct (ParseGatewayEntries EnvLLMApprovedHostsOpenAI _) as [o n1].
  by destruct (ParseGatewayEntries EnvLLMApprovedHostsAnthropic _) as [a n2].
Qed.

Lemma gateway_entries variable raw g :
  g ∈ (list_to_set (fst (ParseGatewayEntries variable raw)) : gset Gateway) <->
  exists e, e ∈ Split "," raw /\ TrimSpace e <> "" /\ gatewayEntry (TrimSpace e) = Some g.
Proof. rewrite elem_of_list_to_set. apply parse_entries_elem. Qed.

Lemma env_wf getenv : policy_wf (policy_of_env getenv).
Proof.
  unfold policy_of_env, policy_wf. cbn [approved userDestinations SetUserDestinations SetApprovedHosts].
  rewrite Decide_destinations. cbn [ud_OpenAI ud_Anthropic]. setoid_rewrite gateway_entries.
  split; [|split].
  - intros p h. rewrite Decide_hosts. intros (v & e & _ & _ & _ & H). by apply approvedHostEntry_wf in H.
  - intros g (e & _ & _ & H). by apply gatewayEntry_ok in H.
  - intros g (e & _ & _ & H). by apply gatewayEntry_ok in H.
Qed.

(** ** What the transports let through *)

Lemma approvedURL_inv pol p u : approvedURL pol p (Some u) = true ->
  Scheme u = "https" /\ User u = None /\ Opaque_ u = "" /\ (Port u = "" \/ Port u = "443")
  /\ Hostname u <> "" /\ ToLower (Hostname u) ∈ hosts_of (approved pol) p.
Proof.
  unfold approvedURL, ApprovedHost.
  destruct (String.eqb_spec (Scheme u) "https"); [|done]. destruct (User u); [done|].
  destruct (String.eqb_spec (Opaque_ u) ""); [|done]. cbn [negb orb].
  destruct (String.eqb_spec (Hostname u) "") as [|Hh].
  - by destruct (negb _ && negb _).
  - destruct (String.eqb_spec (Port u) ""); [|destruct (String.eqb_spec (Port u) "443"); [|done]];
      cbn [negb andb]; intros H%bool_decide_eq_true_1; auto 8.
Qed.

(** The destination a request for [provider] has, as the operator reads it:
    https on the default port, no credentials, a host on the list; for openai
    and anthropic, exactly the chat operation below an approved prefix, with
    no query. *)
Definition cloud_destination (pol : Policy) (provider : string) (u : URL) : Prop :=
  Scheme u = "https" /\ User u = None /\ (Port u = "" \/ Port u = "443")
  /\ ToLower (Hostname u) ∈ hosts_of (approved pol) provider.

Definition chat_destination (pol : Policy) (provider : string) (u : URL) : Prop :=
  ToLower (Scheme u) = "https" /\ User u = None /\ (Port u = "" \/ Port u = "443")
  /\ RawQuery u = "" /\ Fragment u = ""
  /\ exists prefix, Path u = prefix +:+ assoc provider chatPaths
     /\ ApprovedGateway (userDestinations pol) provider
          {| gw_Host := Hostname u; gw_Prefix := prefix |} = true.

Lemma ApprovedGateway_lower d p h x :
  ApprovedGateway d p {| gw_Host := ToLower h; gw_Prefix := x |}
  = ApprovedGateway d p {| gw_Host := h; gw_Prefix := x |}.
Proof. unfold ApprovedGateway. cbn [gw_Host gw_Prefix]. by rewrite ToLower_idem. Qed.

Lemma userOnly_ok_inv pol p req : userOnly_ok pol p req = true ->
  exists u, rq_URL req = Some u /\ chat_destination pol p u
            /\ (rq_Host req = "" \/ EqualFold (rq_Host req) (Host u) = true).
Proof.
  unfold userOnly_ok. destruct (rq_URL req) as [u|]; [|done]. intros H. exists u. split; [done|].
  repeat match goal with H : _ && _ = true |- _ => apply andb_true_iff in H as [H ?] end.
  unfold baseURLApproved in *. cbn [b_Host b_Prefix b_Port b_Scheme] in *. zbool.
  repeat match goal with H : String.eqb _ _ = true |- _ => apply String.eqb_eq in H end.
  rewrite ApprovedGateway_lower in *.
  assert (User u = None) by by destruct (User u). split.
  - unfold chat_destination. repeat match goal with |- _ /\ _ => split end; try done.
    + match goal with H : _ || _ = true |- Port u = "" \/ _ =>
        apply orb_true_iff in H as [H%String.eqb_eq|H%String.eqb_eq]; [by left|by right] end.
    + exists (TrimSuffix (Path u) (assoc p chatPaths)). split; [by apply HasSuffix_TrimSuffix|done].
  - destruct (String.eqb_spec (rq_Host req) ""); [by left|by right].
Qed.

Definition provider_of (c : LLMClient) : string :=
  match c with
  | OpenAIClient _ _ _ => ProviderOpenAI
  | AnthropicClient _ _ _ => ProviderAnthropic
  | AzureOpenAIClient _ _ _ _ => ProviderAzureOpenAI
  | BedrockClient _ _ _ => ProviderBedrock
  | VertexClient _ _ => ProviderVertex
  end.

(** The headers that carry the client's key. *)
Definition key_headers (c : LLMClient) : list (string * string) :=
  match c with
  | OpenAIClient key _ _ => [("Authorization", "Bearer " +:+ key)]
  | AnthropicClient key _ _ => [("x-api-key", key); ("anthropic-version", "2023-06-01")]
  | AzureOpenAIClient key _ _ _ => [("api-key", key)]
  | BedrockClient key _ _ => [("Authorization", "Bearer " +:+ key)]
  | VertexClient key _ => [("x-goog-api-key", key)]
  end.

Definition approved_destination (pol : Policy) (c : LLMClient) (u : URL) : Prop :=
  match c with
  | OpenAIClient _ _ _ | AnthropicClient _ _ _ => chat_destination pol (provider_of c) u
  | _ => cloud_destination pol (provider_of c) u
  end.

Section Sent.
Context (pol : Policy) (network : Request -> option Response).

Lemma cloud_RoundTrip_sent p req r : r ∈ fst (approvedOnly_RoundTrip pol network p req) ->
  r = req /\ fst (approvedOnly_RoundTrip pol network p req) = [req]
  /\ exists u, rq_URL req = Some u /\ cloud_destination pol p u
     /\ (rq_Host req = "" \/ EqualFold (rq_Host req) (Host u) = true).
Proof.
  unfold approvedOnly_RoundTrip. destruct (rq_URL req) as [u|]; [|by intros ?%elem_of_nil].
  destruct (_ || _) eqn:E; [by intros ?%elem_of_nil|]. cbn [fst]. intros ->%list_elem_of_singleton.
  split; [done|]. split; [done|]. exists u. split; [done|].
  apply orb_false_iff in E as [A%negb_false_iff H].
  apply approvedURL_inv in A as (? & ? & ? & ? & ? & ?). split; [by repeat split|].
  apply andb_false_iff in H as [H|H]; apply negb_false_iff in H; [|by right].
  left. by apply String.eqb_eq.
Qed.

Lemma user_RoundTrip_sent p req r : r ∈ fst (userOnly_RoundTrip pol network p req) ->
  r = req /\ fst (userOnly_RoundTrip pol network p req) = [req]
  /\ exists u, rq_URL req = Some u /\ chat_destination pol p u
     /\ (rq_Host req = "" \/ EqualFold (rq_Host req) (Host u) = true).
Proof.
  unfold userOnly_RoundTrip. destruct (userOnly_ok pol p req) eqn:E; [|by intros ?%elem_of_nil].
  cbn [negb fst]. intros ->%list_elem_of_singleton. split; [done|]. split; [done|]. by apply userOnly_ok_inv.
Qed.

Lemma postJSONWith_sent rt url hs pl ex :
  fst (postJSONWith rt url hs pl ex) =
  match NewRequestURL url with
  | None => []
  | Some u => fst (rt {| rq_URL := Some u; rq_Host := Host u;
                         rq_Headers := ("Content-Type", "application/json") :: hs; rq_Payload := pl |})
  end.
Proof.
  unfold postJSONWith, client_Do. destruct (NewRequestURL url) as [u|]; [|done].
  by destruct (rt _) as [sent r].
Qed.

(** The one request a client makes when nothing refuses it. *)
Definition the_request (c : LLMClient) (u : URL) (pl : Payload) : Request :=
  {| rq_URL := Some u; rq_Host := Host u;
     rq_Headers := ("Content-Type", "application/json") :: key_headers c; rq_Payload := pl |}.

(** Where a client's request goes, when its check passes. *)
Definition target_of (c : LLMClient) : option string :=
  match c with
  | OpenAIClient _ _ base => match userRequestURL pol ProviderOpenAI base with Ok t => Some t | Err _ => None end
  | AnthropicClient _ _ base => match userRequestURL pol ProviderAnthropic base with Ok t => Some t | Err _ => None end
  | AzureOpenAIClient _ e d v => match azure_check pol e d v with None => Some (azure_requestURL e d v) | Some _ => None end
  | BedrockClient _ r m => match bedrock_check pol r with None => Some (bedrock_requestURL r m) | Some _ => None end
  | VertexClient _ m => match vertex_check pol with None => Some (vertex_requestURL m) | Some _ => None end
  end.

Definition transport_of (c : LLMClient) : Request -> list Request * res SendError Response :=
  match c with
  | OpenAIClient _ _ _ | AnthropicClient _ _ _ => userOnly_RoundTrip pol network (provider_of c)
  | _ => approvedOnly_RoundTrip pol network (provider_of c)
  end.

(** [Complete] is the check, then one post through the provider's transport. *)
Lemma Complete_shape ex c s u : exists pl,
  Complete pol network ex c s u =
  match target_of c with
  | Some url => postJSONWith (transport_of c) url (key_headers c) pl ex
  | None => match CheckDestination pol c with Some r => ([], Err (Refused r)) | None => ([], Err BadURL) end
  end.
Proof.
  destruct c as [key m base|key m base|key e d v|key r m|key m];
    [exists {| pl_Model := m; pl_MaxTokens := 0; pl_System := s; pl_User := u |}
    |exists {| pl_Model := m; pl_MaxTokens := 1024; pl_System := s; pl_User := u |}
    |exists {| pl_Model := ""; pl_MaxTokens := 1024; pl_System := s; pl_User := u |}
    |exists {| pl_Model := ""; pl_MaxTokens := 1024; pl_System := s; pl_User := u |}
    |exists {| pl_Model := ""; pl_MaxTokens := 0; pl_System := s; pl_User := u |}];
    cbn [Complete target_of CheckDestination transport_of key_headers provider_of];
    unfold openai_Complete, anthropic_Complete, azure_Complete, bedrock_Complete, vertex_Complete.
  - by destruct (userRequestURL pol ProviderOpenAI base).
  - by destruct (userRequestURL pol ProviderAnthropic base).
  - by destruct (azure_check pol e d v).
  - by destruct (bedrock_check pol r).
  - by destruct (vertex_check pol).
Qed.

Lemma transport_sent c req r : r ∈ fst (transport_of c req) ->
  r = req /\ fst (transport_of c req) = [req]
  /\ exists u, rq_URL req = Some u /\ approved_destination pol c u
     /\ (rq_Host req = "" \/ EqualFold (rq_Host req) (Host u) = true).
Proof.
  destruct c; first [apply user_RoundTrip_sent | apply cloud_RoundTrip_sent].
Qed.

Lemma Complete_sent ex c s u r : r ∈ fst (Complete pol network ex c s u) ->
  fst (Complete pol network ex c s u) = [r]
  /\ exists x pl, r = the_request c x pl /\ approved_destination pol c x.
Proof.
  destruct (Complete_shape ex c s u) as [pl ->]. destruct (target_of c) as [url|].
  - rewrite postJSONWith_sent. destruct (NewRequestURL url) as [x|]; [|by intros ?%elem_of_nil].
    intros H. apply transport_sent in H as (-> & E & x' & [= <-] & Hd & _). split; [done|].
    by exists x, pl.
  - destruct (CheckDestination pol c); by intros ?%elem_of_nil.
Qed.
End Sent.

(** ** A destination that passes the check is sent to *)

Lemma path_chars p : sforallb path_char p = true ->
  setPath p = Some (p, "") /\ sforallb url_char p = true.
Proof.
  intros H. unfold setPath. split.
  - rewrite unescape_plain.
    + rewrite escape_plain; [by rewrite String.eqb_refl|].
      revert H. apply sforallb_impl. intros c Hc. by apply segment_char_path.
    + revert H. apply sforallb_impl. intros c Hc. by apply segment_char_path.
  - revert H. apply sforallb_impl. intros c Hc. by apply segment_char_path.
Qed.

Lemma removeEmptyPort_text h : host_text h = true -> removeEmptyPort h = h.
Proof.
  intros H. unfold removeEmptyPort, hasPort. by rewrite cut_last_free by by apply host_no_colon.
Qed.

(** What a request to [https://host/path] carries. *)
Lemma NewRequestURL_https h path dec rp :
  host_text h = true -> rooted path -> sforallb url_char path = true -> setPath path = Some (dec, rp) ->
  NewRequestURL ("https://" +:+ h +:+ path) = Some (https_url h dec rp).
Proof.
  intros Hh Hr Hc Hs. unfold NewRequestURL. pose proof (Parse_https h "" path dec rp Hh) as P.
  change (port_text "") with "" in P. rewrite app_nil_str in P. rewrite P by done.
  cbn [Host https_url]. by rewrite removeEmptyPort_text.
Qed.

Lemma Hostname_text h dec rp : host_text h = true ->
  Hostname (https_url h dec rp) = h /\ Port (https_url h dec rp) = "".
Proof.
  intros H. pose proof (Hostname_https h "" dec rp H eq_refl) as P.
  change (port_text "") with "" in P. by rewrite app_nil_str in P.
Qed.

Lemma ApprovedGateway_ok pol p g : policy_wf pol -> ApprovedGateway (userDestinations pol) p g = true ->
  host_text (gw_Host g) = true /\ prefix_ok (gw_Prefix g) = true
  /\ (p = ProviderOpenAI \/ p = ProviderAnthropic).
Proof.
  intros (_ & Wo & Wa). unfold ApprovedGateway. cbn [gw_Host gw_Prefix].
  destruct (String.eqb _ ""); [done|].
  assert (K : forall (s : gset Gateway) pub, host_text pub = true ->
    (forall g, g ∈ s -> gateway_ok g) ->
    (String.eqb (ToLower (gw_Host g)) pub && String.eqb (gw_Prefix g) "")
      || bool_decide ({| gw_Host := ToLower (gw_Host g); gw_Prefix := gw_Prefix g |} ∈ s) = true ->
    host_text (gw_Host g) = true /\ prefix_ok (gw_Prefix g) = true).
  { intros s pub Hpub W [[H1%String.eqb_eq H2%String.eqb_eq]%andb_true_iff|H%bool_decide_eq_true_1]%orb_true_iff.
    - rewrite <- host_text_lower, H1, H2. done.
    - apply W in H as (H & _ & ?). cbn [gw_Host] in H. by rewrite host_text_lower in H. }
  destruct (String.eqb_spec p "openai") as [->|].
  { intros H. apply K in H as [??]; [|done..]. repeat split; [done..|by left]. }
  destruct (String.eqb_spec p "anthropic") as [->|]; [|done].
  intros H. apply K in H as [??]; [|done..]. repeat split; [done..|by right].
Qed.

Lemma rooted_app p q : rooted p -> rooted q -> rooted (p +:+ q).
Proof.
  intros [->|[r ->]] Hq; [done|]. right. exists (r +:+ q). by rewrite str_app_cons.
Qed.

Lemma user_target_ok pol p base url hs pl :
  policy_wf pol -> userRequestURL pol p base = Ok url ->
  exists u, NewRequestURL url = Some u
    /\ userOnly_ok pol p {| rq_URL := Some u; rq_Host := Host u; rq_Headers := hs; rq_Payload := pl |} = true.
Proof.
  intros W. unfold userRequestURL. cbn zeta.
  destruct (ParseBaseURL _) as [b|]; [|done]. destruct (baseURLApproved pol p b) eqn:A; [|done].
  intros [= <-]. unfold baseURLApproved in A. apply andb_true_iff in A as [_ A].
  destruct (ApprovedGateway_ok _ _ _ W A) as (Hh & Hp & Hpv). cbn [gw_Host gw_Prefix] in *.
  destruct (prefix_ok_chars _ Hp) as [Hr Hc].
  assert (Hchat : assoc p chatPaths <> "" /\ rooted (assoc p chatPaths) /\ sforallb path_char (assoc p chatPaths) = true).
  { destruct Hpv as [->| ->]; (split; [done|split; [right; by eexists|done]]). }
  destruct Hchat as (Hne & Hcr & Hcc).
  assert (Hall : sforallb path_char (b_Prefix b +:+ assoc p chatPaths) = true)
    by (rewrite sforallb_app; by apply andb_true_iff).
  destruct (path_chars _ Hall) as [Hset Hurl].
  exists (https_url (b_Host b) (b_Prefix b +:+ assoc p chatPaths) "").
  split; [by apply NewRequestURL_https; [|apply rooted_app| |]|].
  destruct (Hostname_text (b_Host b) (b_Prefix b +:+ assoc p chatPaths) "" Hh) as [Hn Hport].
  unfold userOnly_ok. cbn [rq_URL rq_Host]. rewrite Hn, Hport.
  cbn [User Opaque_ RawQuery ForceQuery Fragment RawPath Scheme Path Host https_url].
  rewrite HasSuffix_app, TrimSuffix_app, EqualFold_refl, orb_true_r. cbn [b_Host].
  unfold baseURLApproved. cbn [b_Scheme b_Port b_Host b_Prefix]. rewrite ApprovedGateway_lower, A.
  assert (String.eqb (assoc p chatPaths) "" = false) as -> by by apply String.eqb_neq.
  assert (String.eqb (ToLower (b_Host b)) "" = false) as -> by (destruct (b_Host b); [by cbn in Hh|done]).
  done.
Qed.

Lemma approvedURL_removeEmptyPort pol p u :
  policy_wf pol -> approvedURL pol p (Some u) = true ->
  approvedURL pol p (Some (set_Host u (removeEmptyPort (Host u)))) = true.
Proof.
  intros (W & _) A. pose proof (approvedURL_inv _ _ _ A) as (_ & _ & _ & _ & _ & Hin).
  apply W in Hin as [Hh _]. rewrite host_text_lower in Hh. apply host_no_colon in Hh.
  revert A. unfold approvedURL, Hostname, Port in *. cbn [Scheme User Opaque_ Host set_Host].
  by rewrite removeEmptyPort_split.
Qed.

Lemma approved_https pol p h dec rp dec' rp' : host_text h = true ->
  approvedURL pol p (Some (https_url h dec rp)) = approvedURL pol p (Some (https_url h dec' rp')).
Proof.
  intros Hh. unfold approvedURL. destruct (Hostname_text h dec rp Hh) as [-> ->].
  by destruct (Hostname_text h dec' rp' Hh) as [-> ->].
Qed.

Lemma escape_url_char s : sforallb url_char (PathEscape s) = true.
Proof.
  unfold PathEscape. induction s as [|c s IH]; [done|]. cbn [escape].
  assert (Hx : forall k, 0 <= k < 16 -> url_char (hex_upper k) = true).
  { intros k Hk. assert (exists n, (n < 16)%nat /\ k = Z.of_nat n) as (n & Hn & ->) by (exists (Z.to_nat k); lia).
    do 16 (destruct n as [|n]; [reflexivity|]). lia. }
  pose proof (byte_of_range c). destruct (shouldEscape c encodePathSegment) eqn:E; cbn [sforallb].
  - rewrite !Hx by dlia. by rewrite IH.
  - rewrite IH, andb_true_r. revert E. byte_cases c.
Qed.

Lemma unescape_app x y z :
  sforallb path_char x = true -> unescape encodePath y = Some z ->
  unescape encodePath (x +:+ y) = Some (x +:+ z).
Proof.
  intros Hx Hy. induction x as [|c x IH]; [done|]. rewrite !str_app_cons.
  cbn [sforallb] in Hx. apply andb_true_iff in Hx as [Hc Hx].
  destruct (segment_char_path c Hc) as (Hp & _ & _). apply andb_true_iff in Hp as [H1 H2].
  rewrite unescape_char; [by rewrite IH|by apply negb_true_iff|by apply negb_true_iff].
Qed.

(** A path with one escaped segment decodes to the text that was escaped. *)
Lemma setPath_escape a m b :
  sforallb path_char a = true -> unescape encodePath b = Some b ->
  exists rp, setPath (a +:+ PathEscape m +:+ b) = Some (a +:+ m +:+ b, rp).
Proof.
  intros Ha Hb. unfold setPath, PathEscape.
  rewrite (unescape_app a _ (m +:+ b)); [by eexists|done|].
  by apply unescape_escape; [right|].
Qed.

Lemma bedrock_host_text r : ValidDNSLabel r = true -> host_text (bedrock_host r) = true.
Proof.
  intros [_ H]%ValidDNSLabel_chars. unfold host_text, bedrock_host. by rewrite !sforallb_app, H.
Qed.

(** The request of a cloud client whose check passed reaches the transport and
    passes it. *)
Lemma cloud_target_ok pol c url : policy_wf pol ->
  match c with OpenAIClient _ _ _ | AnthropicClient _ _ _ => False | _ => True end ->
  target_of pol c = Some url ->
  exists u, NewRequestURL url = Some u /\ approvedURL pol (provider_of c) (Some u) = true.
Proof.
  intros W Hc. destruct c as [| |key e d v|key r m|key m]; try done; cbn [target_of provider_of].
  - unfold azure_check. destruct (Enabled _ _); [|done]. destruct (String.eqb e ""); [done|].
    unfold approvedRawURL. destruct (Parse (azure_requestURL e d v)) as [u|] eqn:P; [|done].
    destruct (approvedURL _ _ _) eqn:A; [|done]. intros [= <-].
    exists (set_Host u (removeEmptyPort (Host u))). unfold NewRequestURL. rewrite P.
    split; [done|]. by apply approvedURL_removeEmptyPort.
  - unfold bedrock_check. destruct (Enabled _ _); [|done]. cbn [negb].
    destruct (ValidDNSLabel r) eqn:V; [|done]. cbn [negb orb].
    destruct (approvedRawURL _ _ _) eqn:A; [|done]. intros [= <-].
    pose proof (bedrock_host_text r V) as Hh.
    destruct (setPath_escape "/model/" m "/converse") as [rp Hs]; [done..|].
    exists (https_url (bedrock_host r) ("/model/" +:+ m +:+ "/converse") rp). split.
    + apply NewRequestURL_https; [done|right; by eexists| |done].
      by rewrite !sforallb_app, escape_url_char.
    + unfold approvedRawURL in A.
      pose proof (Parse_https (bedrock_host r) "" "/" "/" "" Hh eq_refl (or_intror (ex_intro _ "" eq_refl)) eq_refl eq_refl) as P.
      change (port_text "") with "" in P. rewrite app_nil_str in P. rewrite P in A.
      by rewrite (approved_https _ _ _ _ _ "/" "").
  - unfold vertex_check. destruct (ApprovedHost _ _ _) eqn:A; [|done]. intros [= <-].
    destruct (setPath_escape "/v1/publishers/google/models/" m ":generateContent") as [rp Hs]; [done..|].
    exists (https_url vertexExpressHost ("/v1/publishers/google/models/" +:+ m +:+ ":generateContent") rp). split.
    + apply NewRequestURL_https; [done|right; by eexists| |done].
      rewrite !sforallb_app, escape_url_char. done.
    + unfold approvedURL. destruct (Hostname_text vertexExpressHost
        ("/v1/publishers/google/models/" +:+ m +:+ ":generateContent") rp eq_refl) as [-> ->]. done.
Qed.

Lemma target_ok pol network c url hs pl : policy_wf pol -> target_of pol c = Some url ->
  exists u, NewRequestURL url = Some u /\
    fst (transport_of pol network c {| rq_URL := Some u; rq_Host := Host u; rq_Headers := hs; rq_Payload := pl |})
    = [{| rq_URL := Some u; rq_Host := Host u; rq_Headers := hs; rq_Payload := pl |}].
Proof.
  intros W.
  assert (U : forall p base url, userRequestURL pol p base = Ok url -> exists u, NewRequestURL url = Some u /\
    fst (userOnly_RoundTrip pol network p {| rq_URL := Some u; rq_Host := Host u; rq_Headers := hs; rq_Payload := pl |})
    = [{| rq_URL := Some u; rq_Host := Host u; rq_Headers := hs; rq_Payload := pl |}]).
  { intros p base x H. destruct (user_target_ok pol p base x hs pl W H) as (u & Hu & Hok).
    exists u. split; [done|]. unfold userOnly_RoundTrip. by rewrite Hok. }
  assert (K : match c with OpenAIClient _ _ _ | AnthropicClient _ _ _ => False | _ => True end ->
    target_of pol c = Some url -> exists u, NewRequestURL url = Some u /\
    fst (approvedOnly_RoundTrip pol network (provider_of c)
           {| rq_URL := Some u; rq_Host := Host u; rq_Headers := hs; rq_Payload := pl |})
    = [{| rq_URL := Some u; rq_Host := Host u; rq_Headers := hs; rq_Payload := pl |}]).
  { intros Hc H. destruct (cloud_target_ok pol c url W Hc H) as (u & Hu & A). exists u. split; [done|].
    unfold approvedOnly_RoundTrip. cbn [rq_URL rq_Host]. rewrite A, EqualFold_refl.
    by rewrite andb_false_r. }
  destruct c as [key m base|key m base|key e d v|key r m|key m]; cbn [transport_of];
    [| |by apply K..]; cbn [target_of provider_of].
  - destruct (userRequestURL pol ProviderOpenAI base) eqn:E; [|done]. intros [= <-]. by eapply U.
  - destruct (userRequestURL pol ProviderAnthropic base) eqn:E; [|done]. intros [= <-]. by eapply U.
Qed.

Lemma check_target pol c :
  match target_of pol c with Some _ => CheckDestination pol c = None | None => CheckDestination pol c <> None end.
Proof.
  destruct c as [key m base|key m base|key e d v|key r m|key m]; cbn [target_of CheckDestination].
  - by destruct (userRequestURL pol ProviderOpenAI base).
  - by destruct (userRequestURL pol ProviderAnthropic base).
  - by destruct (azure_check pol e d v).
  - by destruct (bedrock_check pol r).
  - by destruct (vertex_check pol).
Qed.

(** ** Base URLs as text *)

Lemma Split_last sep x : List.last (Split sep (x +:+ String sep "")) "x" = "".
Proof.
  induction x as [|c x IH].
  - change ("" +:+ String sep "") with (String sep ""). cbn [Split]. by rewrite Ascii.eqb_refl.
  - rewrite str_app_cons. cbn [Split].
    assert (exists h k t, Split sep (x +:+ String sep "") = h :: k :: t) as (h & k & t & E).
    { clear. induction x as [|c x IH].
      - change ("" +:+ String sep "") with (String sep ""). cbn [Split]. rewrite Ascii.eqb_refl. by exists "", "", [].
      - rewrite str_app_cons. cbn [Split]. destruct IH as (h & k & t & E). rewrite E.
        destruct (Ascii.eqb c sep); by eexists _, _, _. }
    rewrite E in *. by destruct (Ascii.eqb c sep).
Qed.

(** An approved prefix does not end in a slash. *)
Lemma prefix_ok_last p : prefix_ok p = true -> strip_suffix "/" p = None.
Proof.
  intros H. destruct (strip_suffix "/" p) as [r|] eqn:E; [|done]. apply strip_suffix_Some in E as ->.
  destruct r as [|c r]; [done|]. rewrite str_app_cons in H. cbn [prefix_ok] in H.
  apply andb_true_iff in H as [_ H%negb_true_iff]. rewrite existsb_elem_false in H.
  assert (Hin : List.last (Split "/" (r +:+ "/")) "x" ∈ Split "/" (r +:+ "/")).
  { destruct (Split "/" (r +:+ "/")) as [|h t] eqn:E; [by destruct (Split_nonempty "/" (r +:+ "/"))|].
    apply list_elem_of_In. destruct (@exists_last _ (h :: t)) as (l & a & ->); [done|].
    rewrite List.last_last. apply in_or_app. right. by left. }
  apply H in Hin. by rewrite Split_last in Hin.
Qed.

Lemma gatewayPrefix_print p tail : prefix_ok p = true -> tail = "" \/ tail = "/" ->
  gatewayPrefix (p +:+ tail) = Some p.
Proof.
  intros Hp Ht. unfold gatewayPrefix.
  assert (TrimSuffix (p +:+ tail) "/" = p) as ->.
  { destruct Ht as [->| ->]; [|by rewrite TrimSuffix_app].
    rewrite app_nil_str. unfold TrimSuffix. by rewrite prefix_ok_last. }
  destruct p as [|c rest]; [done|]. cbn [prefix_ok] in Hp.
  apply andb_true_iff in Hp as [_ Hp%negb_true_iff]. by rewrite Hp.
Qed.

(** The text of a base URL. *)
Definition base_text (b : BaseURL) : string :=
  b_Scheme b +:+ "://" +:+ (b_Host b +:+ port_text (b_Port b)) +:+ b_Prefix b.

Definition base_wf (b : BaseURL) : Prop :=
  b_Scheme b = "https" /\ host_text (b_Host b) = true /\ ToLower (b_Host b) = b_Host b
  /\ sforallb is_digit (b_Port b) = true /\ (b_Port b = "" \/ port_ok (b_Port b) = true)
  /\ prefix_ok (b_Prefix b) = true.

Lemma split_at_app a b : split_at (String.length a) (a +:+ b) = (a, b).
Proof. induction a as [|c a IH]; [by destruct b|]. rewrite str_app_cons. cbn. by rewrite IH. Qed.

Lemma base_chars_ok b tail : base_wf b -> tail = "" \/ tail = "/" ->
  sforallb (fun c => negb (base_char_refused c)) (base_text b +:+ tail) = true.
Proof.
  intros (Hs & Hh & _ & Hp & _ & Hx) Ht. unfold base_text. rewrite Hs, !sforallb_app.
  apply andb_true_iff in Hh as [_ Hh]. apply prefix_ok_chars in Hx as [_ Hx].
  assert (Hd : sforallb (fun c => negb (base_char_refused c)) (port_text (b_Port b)) = true).
  { unfold port_text. destruct (String.eqb _ ""); [done|]. rewrite str_app_cons. cbn [sforallb].
    apply andb_true_iff. split; [done|]. revert Hp. apply sforallb_impl. intros c. byte_cases c. }
  rewrite Hd. rewrite (sforallb_impl host_char _ (b_Host b)); [|intros c; byte_cases c|done].
  rewrite (sforallb_impl path_char _ (b_Prefix b)); [|intros c; byte_cases c|done].
  by destruct Ht as [->| ->].
Qed.

Lemma HasSuffix_colon h p : host_text h = true -> sforallb is_digit p = true ->
  HasSuffix (h +:+ port_text p) ":" = false.
Proof.
  intros Hh Hp. unfold HasSuffix.
  destruct (strip_suffix ":" (h +:+ port_text p)) as [r|] eqn:E; [|done].
  apply strip_suffix_Some in E. pose proof (cut_last_app ":" r "" eq_refl) as C.
  rewrite <- E, cut_last_port in C by (done || by apply host_no_colon).
  destruct (String.eqb_spec p ""); [done|]. congruence.
Qed.

(** ** Properties *)

(** C5: A provider's key is handed to the network only in a request to a
    destination approved for that provider, whatever the stored endpoint,
    region, base URL or model is and whatever the network answers: at most one
    request, https, default port, no credentials in the URL, and for openai
    and anthropic exactly the chat operation below an approved prefix. *)
Theorem key_goes_to_approved_only pol network ex c system user req :
  req ∈ fst (Complete pol network ex c system user) ->
  fst (Complete pol network ex c system user) = [req] /\
  exists u pl, req = the_request c u pl /\ approved_destination pol c u.
Proof. apply Complete_sent. Qed.

(** The check before sending and the transport at the moment of sending agree:
    under the policy main installs, a client whose check passes sends exactly
    one request, and one whose check refuses sends nothing and answers the
    refusal. *)
Theorem check_agrees_with_transport getenv network ex c system user :
  let pol := policy_of_env getenv in
  match CheckDestination pol c with
  | None => exists u pl, fst (Complete pol network ex c system user) = [the_request c u pl]
                         /\ approved_destination pol c u
  | Some r => Complete pol network ex c system user = ([], Err (Refused r))
  end.
Proof.
  cbn zeta. set (pol := policy_of_env getenv). pose proof (env_wf getenv : policy_wf pol) as W.
  pose proof (check_target pol c) as T. pose proof (Complete_shape pol network ex c system user) as [pl E].
  destruct (target_of pol c) as [url|] eqn:Ht.
  - rewrite T. destruct (target_ok pol network c url (("Content-Type", "application/json") :: key_headers c) pl W Ht)
      as (u & Hu & Hf).
    assert (Hs : fst (Complete pol network ex c system user) = [the_request c u pl])
      by (rewrite E, postJSONWith_sent, Hu; exact Hf).
    exists u, pl. split; [done|].
    destruct (Complete_sent pol network ex c system user (the_request c u pl)) as (_ & x & pl' & Hx & Hd);
      [rewrite Hs; by apply list_elem_of_singleton|].
    unfold the_request in Hx. by injection Hx as <- _ _.
  - destruct (CheckDestination pol c); [done|by destruct T].
Qed.

(** Reading back: the text of a base URL over https, with or without the one
    trailing slash the code accepts, parses to that base URL. *)
Theorem base_url_roundtrip b tail :
  base_wf b -> tail = "" \/ tail = "/" -> ParseBaseURL (base_text b +:+ tail) = Some b.
Proof.
  intros W Ht. pose proof (base_chars_ok b tail W Ht) as Hc.
  destruct W as (Hs & Hh & Hl & Hp & Hport & Hx). pose proof (prefix_ok_chars _ Hx) as [Hr Hxc].
  set (path := b_Prefix b +:+ tail). set (host := b_Host b +:+ port_text (b_Port b)).
  assert (Ht2 : rooted tail /\ sforallb path_char tail = true)
    by (destruct Ht as [->| ->]; [by split; [left|]|split; [right; by exists ""|done]]).
  assert (Hpath : sforallb path_char path = true) by (unfold path; rewrite sforallb_app, Hxc; by apply Ht2).
  destruct (path_chars _ Hpath) as [Hset Hurl].
  assert (E : base_text b +:+ tail = "https://" +:+ host +:+ path).
  { unfold base_text, path, host. rewrite Hs. by rewrite !app_assoc_str. }
  assert (P : Parse (base_text b +:+ tail) = Some (https_url host path "")).
  { rewrite E. apply Parse_https; [done..| |done|done]. apply rooted_app; [done|by apply Ht2]. }
  unfold ParseBaseURL. rewrite Hc, P. rewrite E.
  assert (Hh0 : String.eqb host "" = false).
  { unfold host. destruct (b_Host b); [by cbn in Hh|done]. }
  cbn [Scheme Opaque_ User Host RawQuery ForceQuery Fragment RawPath https_url Path].
  rewrite Hh0. cbn [String.eqb Ascii.eqb Bool.eqb negb orb].
  change ("https://" +:+ host +:+ path) with ("https" +:+ ("://" +:+ host +:+ path)).
  rewrite split_at_app, EqualFold_refl, String.eqb_refl. cbn [negb orb].
  unfold path. rewrite gatewayPrefix_print by done. cbn zeta. unfold host.
  destruct (Hostname_https (b_Host b) (b_Port b) (b_Prefix b +:+ tail) "" Hh Hp) as [-> ->].
  assert (String.eqb (b_Host b) "" = false) as -> by (destruct (b_Host b); [by cbn in Hh|done]).
  rewrite HasSuffix_colon by done. cbn [orb].
  assert (negb (String.eqb (b_Port b) "") && negb (port_ok (b_Port b)) = false) as ->.
  { destruct Hport as [->| ->]; [done|by rewrite andb_false_r]. }
  rewrite Hl. change (ToLower "https") with "https". destruct b; cbn in *; by subst.
Qed.

(** What the operator's variables approve, exactly: a host is approved for a
    cloud provider when one entry of that provider's variable, trimmed, is the
    host or https://host, and nothing else approves it. *)
Theorem approved_hosts_exact getenv p h :
  ApprovedHost (approved (policy_of_env getenv)) p h = true <->
  h <> "" /\ exists v e, hosts_variable p = Some v /\ e ∈ Split "," (getenv v) /\ TrimSpace e <> ""
             /\ approvedHostEntry (TrimSpace e) = Some (ToLower h).
Proof.
  unfold ApprovedHost, policy_of_env. cbn [approved SetUserDestinations SetApprovedHosts].
  rewrite <- Decide_hosts. destruct (String.eqb_spec h "") as [->|].
  - split; [done|]. by intros [? _].
  - rewrite bool_decide_eq_true. tauto.
Qed.

(** The type of an entry's host: a lower-case DNS name, and the policy main
    installs holds nothing else. *)
Theorem installed_policy_wf getenv : policy_wf (policy_of_env getenv).
Proof. apply env_wf. Qed.

(** With none of the variables set, no cloud key is ever sent, and an openai or
    anthropic key goes to its own vendor's public host only, on the chat
    operation and with no prefix. *)
Theorem nothing_set_public_only getenv network ex c system user req :
  (forall v, getenv v = "") ->
  req ∈ fst (Complete (policy_of_env getenv) network ex c system user) ->
  exists u, rq_URL req = Some u /\ ToLower (Scheme u) = "https"
    /\ ((provider_of c = ProviderOpenAI /\ ToLower (Hostname u) = OpenAIPublicHost /\ Path u = "/v1/chat/completions")
        \/ (provider_of c = ProviderAnthropic /\ ToLower (Hostname u) = AnthropicPublicHost /\ Path u = "/v1/messages")).
Proof.
  intros Henv H. apply Complete_sent in H as (_ & u & pl & -> & Hd).
  assert (Hcloud : forall p x, x ∉ hosts_of (approved (policy_of_env getenv)) p).
  { intros p x Hx. unfold policy_of_env in Hx. cbn [approved SetUserDestinations SetApprovedHosts] in Hx.
    apply Decide_hosts in Hx as (v & e & _ & He & Hne & _). rewrite Henv in He. cbn in He.
    by apply list_elem_of_singleton in He as ->. }
  assert (Huser : ud_OpenAI (userDestinations (policy_of_env getenv)) = ∅
                  /\ ud_Anthropic (userDestinations (policy_of_env getenv)) = ∅).
  { unfold policy_of_env. cbn [userDestinations SetUserDestinations]. rewrite Decide_destinations, !Henv.
    by split. }
  exists u. split; [done|]. destruct Huser as [Eo Ea].
  destruct c; cbn [approved_destination provider_of] in *;
    try (destruct Hd as (_ & _ & _ & Hd); by apply Hcloud in Hd);
    destruct Hd as (Hs & _ & _ & _ & _ & x & Hpath & A); split; [done| |done|];
    revert Eo Ea A; generalize (userDestinations (policy_of_env getenv)); intros d Eo Ea A;
    unfold ApprovedGateway in A; cbn [gw_Host gw_Prefix] in A;
    destruct (String.eqb (ToLower (Hostname u)) ""); try done; cbn in A.
  - rewrite Eo in A. apply orb_true_iff in A as [A|A%bool_decide_eq_true_1]; [|by apply elem_of_empty in A].
    apply andb_true_iff in A as [A1%String.eqb_eq ->%String.eqb_eq]. left. by rewrite Hpath.
  - rewrite Ea in A. apply orb_true_iff in A as [A|A%bool_decide_eq_true_1]; [|by apply elem_of_empty in A].
    apply andb_true_iff in A as [A1%String.eqb_eq ->%String.eqb_eq]. right. by rewrite Hpath.
Qed.

(** A base URL a settings write accepts is sent to by at least one of the two
    providers that read it; the organisation's check names the one. *)
Theorem accepted_base_url_sends pol v provider :
  (OrgBaseURLWriteProblem pol provider v = "" -> v <> "" ->
   (provider = ProviderOpenAI /\ forall key m, CheckDestination pol (OpenAIClient key m v) = None)
   \/ (provider = ProviderAnthropic /\ forall key m, CheckDestination pol (AnthropicClient key m v) = None))
  /\ (LLMBaseURLWriteProblem pol v = "" -> v <> "" -> forall key m,
      CheckDestination pol (OpenAIClient key m v) = None \/ CheckDestination pol (AnthropicClient key m v) = None).
Proof.
  assert (K : forall p b, ParseBaseURL v = Some b -> baseURLApproved pol p b = true -> v <> "" ->
              exists t, userRequestURL pol p v = Ok t).
  { intros p b P A Hv. unfold userRequestURL. destruct (String.eqb_spec v ""); [done|]. cbn zeta.
    rewrite P, A. by eexists. }
  split; intros H Hv; [|intros key m].
  - unfold OrgBaseURLWriteProblem in H. destruct (String.eqb_spec v ""); [done|].
    destruct (ParseBaseURL v) as [b|] eqn:P; [|done].
    destruct (String.eqb provider ProviderOpenAI || String.eqb provider ProviderAnthropic) eqn:O; [|done].
    destruct (baseURLApproved pol provider b) eqn:A; [|done].
    destruct (K provider b eq_refl A Hv) as [t Ht].
    apply orb_true_iff in O as [O%String.eqb_eq|O%String.eqb_eq]; subst provider; [left|right];
      (split; [done|]); intros key m; cbn [CheckDestination]; by rewrite Ht.
  - unfold LLMBaseURLWriteProblem in H. destruct (String.eqb_spec v ""); [done|].
    destruct (ParseBaseURL v) as [b|] eqn:P; [|done]. cbn [existsb] in H.
    destruct (baseURLApproved pol ProviderOpenAI b) eqn:A.
    + left. destruct (K _ b eq_refl A Hv) as [t Ht]. cbn [CheckDestination]. by rewrite Ht.
    + right. destruct (baseURLApproved pol ProviderAnthropic b) eqn:A'; [|done].
      destruct (K _ b eq_refl A' Hv) as [t Ht]. cbn [CheckDestination]. by rewrite Ht.
Qed.

(** ** Witnesses *)

Definition demo_env (v : string) : string :=
  if String.eqb v EnvLLMApprovedHostsAzureOpenAI then "Paceday.openai.azure.com, *.example.com"
  else if String.eqb v EnvLLMApprovedHostsOpenAI then "https://gw.example.com/llm/" else "".

Definition demo_azure : LLMClient :=
  AzureOpenAIClient "key" "https://paceday.openai.azure.com/" "gpt" "2024-02-01".

Definition demo_payload (m : string) (n : Z) : Payload :=
  {| pl_Model := m; pl_MaxTokens := n; pl_System := "s"; pl_User := "u" |}.

Definition demo_azure_request : Request :=
  the_request demo_azure
    {| Scheme := "https"; Opaque_ := ""; User := None; Host := "paceday.openai.azure.com";
       Path := "/openai/deployments/gpt/chat/completions"; RawPath := ""; ForceQuery := false;
       RawQuery := "api-version=2024-02-01"; Fragment := "" |} (demo_payload "" 1024).

(** A network that redirects everything. *)
Definition demo_network (_ : Request) : option Response :=
  Some {| rs_Status := 302; rs_Location := true; rs_Body := "" |}.

Example demo_notices : snd (DecideLLMApprovedHosts demo_env)
  = [{| nt_variable := EnvLLMApprovedHostsAzureOpenAI; nt_entry := "*.example.com" |}].
Proof. vm_compute. reflexivity. Qed.

Lemma key_goes_to_approved_only_witness :
  demo_azure_request ∈ fst (Complete (policy_of_env demo_env) demo_network (fun s => Some s) demo_azure "s" "u")
  /\ exists u pl, demo_azure_request = the_request demo_azure u pl
                  /\ approved_destination (policy_of_env demo_env) demo_azure u.
Proof.
  assert (H : demo_azure_request ∈ fst (Complete (policy_of_env demo_env) demo_network (fun s => Some s) demo_azure "s" "u")).
  { replace (fst (Complete (policy_of_env demo_env) demo_network (fun s => Some s) demo_azure "s" "u"))
      with [demo_azure_request] by (vm_compute; reflexivity). by left. }
  split; [exact H|].
  exact (proj2 (key_goes_to_approved_only _ _ _ _ _ _ _ H)).
Defined.

Lemma base_url_roundtrip_witness :
  ParseBaseURL (base_text {| b_Scheme := "https"; b_Host := "gw.example.com"; b_Port := "443"; b_Prefix := "/llm" |} +:+ "/")
  = Some {| b_Scheme := "https"; b_Host := "gw.example.com"; b_Port := "443"; b_Prefix := "/llm" |}.
Proof.
  apply base_url_roundtrip; [|by right]. repeat split; try (vm_compute; reflexivity).
  right. vm_compute. reflexivity.
Defined.

Definition demo_anthropic_request : Request :=
  the_request (AnthropicClient "key" "m" "")
    (https_url "api.anthropic.com" "/v1/messages" "") (demo_payload "m" 1024).

Lemma nothing_set_public_only_witness :
  exists u, rq_URL demo_anthropic_request = Some u /\ ToLower (Scheme u) = "https"
    /\ ((ProviderAnthropic = ProviderOpenAI /\ ToLower (Hostname u) = OpenAIPublicHost /\ Path u = "/v1/chat/completions")
        \/ (ProviderAnthropic = ProviderAnthropic /\ ToLower (Hostname u) = AnthropicPublicHost /\ Path u = "/v1/messages")).
Proof.
  apply (nothing_set_public_only (fun _ => "") demo_network (fun s => Some s) (AnthropicClient "key" "m" "") "s" "u");
    [done|].
  replace (fst (Complete (policy_of_env (fun _ => "")) demo_network (fun s => Some s) (AnthropicClient "key" "m" "") "s" "u"))
    with [demo_anthropic_request] by (vm_compute; reflexivity). by left.
Defined.
