(* ===== verification/AdminStore.v ===== *)
(** * The administrators' tables

    storage/sso_stepup.go (admin step-up grants, the operator's event table and
    the Microsoft tenant pin), storage/sso_providers.go and
    sso_providers_secrets.go (the SSO configurations and their sealed secrets).
    The tables are one record; a transaction is a function that either gives
    the tables after its commit or leaves them as they were.  A secret is
    sealed and opened through an interface, [Vault], which [SecretBox]
    implements. *)

From S2P Require Import Prelude GoInt GoTime GoText GoEncoding GoURL SecretBox SecretStore.

#[local] Open Scope string_scope.
#[local] Open Scope Z_scope.

(** ** What secretbox promises its callers *)

(** Sealing and opening for the process, in one transaction: the nonce is
    drawn by the implementation. *)
Class Vault := {
  v_seal : Binding -> string -> res KeyError string;
  v_open : Binding -> string -> res DecryptError string }.

Class VaultLaws (V : Vault) : Prop := {
  v_seal_empty b : v_seal b "" = Ok "";
  v_open_empty b : v_open b "" = Ok "";
  v_seal_open b p s : v_seal b p = Ok s -> v_open b s = Ok p;
  v_seal_text b p s : p <> "" -> v_seal b p = Ok s -> TrimSpace s <> "" }.

Lemma v_seal_nonempty {V : Vault} {L : VaultLaws V} b p s : p <> "" -> v_seal b p = Ok s -> s <> "".
Proof. intros Hp E H. apply (v_seal_text b p s Hp E). by rewrite H. Qed.

Lemma TrimSpace_head c r : is_space c = false -> TrimSpace (String c r) <> "".
Proof. intros H. unfold TrimSpace. cbn [trim_left]. rewrite H. cbn [trim_right]. by rewrite H. Qed.

(** The process's keyring, its seal gate and the nonce of one write. *)
Definition process_vault {A : AEAD} (kr : option Keyring) (gate : res KeyError unit)
  (nonce : string) (c : counts) : Vault :=
  {| v_seal := fun b p => fst (Seal kr gate b p nonce c);
     v_open := fun b s => Open kr b s |}.

(** [SecretBox] keeps the promise, whatever the gate, as long as the active
    data key is held. *)
Lemma process_vault_laws {A : AEAD} {L : AEADLaws A} kr gate nonce c e :
  dek_id (active kr) -> String.length nonce = NonceSize -> deks kr !! active kr = Some e ->
  VaultLaws (process_vault (Some kr) gate nonce c).
Proof.
  intros Hd Hn He. split; cbn [process_vault v_seal v_open].
  - done.
  - done.
  - intros b p s. unfold Seal. destruct (String.eqb_spec p "") as [->|Hp]; [by intros [= <-]|].
    destruct gate as [u0|g0]; [|done]. unfold SealActive.
    destruct (SealWith kr (active kr) b p nonce c) as [r c'] eqn:E. cbn [fst]. intros ->.
    by eapply (SealWith_opens kr kr (active kr) b p nonce c s c' e e).
  - intros b p s Hp. unfold Seal. destruct (String.eqb_spec p "") as [->|_]; [done|].
    destruct gate as [u0|g0]; [|done]. unfold SealActive.
    destruct (SealWith kr (active kr) b p nonce c) as [r c'] eqn:E. cbn [fst]. intros ->.
    apply SealWith_Ok in E as [[-> _]|(_ & e0 & a & _ & _ & ->)]; [done|].
    by apply TrimSpace_head.
Qed.

(** ** Rows *)

Abbreviation uuid := string (only parsing).

(** [uuid.Nil], as text. *)
Definition Nil : uuid := "00000000-0000-0000-0000-000000000000".

Record User := { us_ID : uuid; us_Email : string; us_OrgID : option uuid }.
Record Org := { og_ID : uuid; og_Domain : string; og_Tenant : option string }.

Record Grant := {
  gr_ID : uuid;
  gr_UserID : uuid;
  gr_OrgID : uuid;
  gr_Provider : string;
  gr_Purpose : string;
  gr_IssuedAt : Z;
  gr_ExpiresAt : Z;
  gr_ConsumedAt : option Z }.

(** The details of an event, one constructor per kind. *)
Inductive Details :=
| StepupDetails (org : option uuid) (provider outcome : string) (reason : option string) (purpose : string)
| ProviderWritten (org provider_id : uuid) (op via : string)
| OrgAIWritten (org : uuid) (via : string) (changed : list string) (version : Z) (session_iat : option Z).

Record Event := {
  ev_ID : uuid;
  ev_UserID : uuid;
  ev_OrgID : option uuid;
  ev_Kind : string;
  ev_Details : Details;
  ev_CreatedAt : Z }.

(** A row of sso_providers: the two secrets are the stored texts. *)
Record SSORow := {
  sp_ID : uuid;
  sp_Domain : string;
  sp_Name : string;
  sp_Type : string;
  sp_Enabled : bool;
  sp_Issuer : string;
  sp_ClientID : string;
  sp_RawSecret : string;
  sp_EntryPoint : string;
  sp_SAMLIssuer : string;
  sp_RawCert : string;
  sp_CreatedAt : Z;
  sp_UpdatedAt : Z }.

(** A row of org_ai_configurations. *)
Record OrgAIRow := {
  oa_Provider : string;
  oa_Model : string;
  oa_BaseURL : string;
  oa_AzureEndpoint : string;
  oa_AzureDeployment : string;
  oa_AzureAPIVersion : string;
  oa_AWSRegion : string;
  oa_RawKey : string;
  oa_PersonalKeysAllowed : bool;
  oa_Version : Z;
  oa_UpdatedAt : option Z;
  oa_UpdatedBy : option uuid }.

Record AdminDB := {
  ad_users : gmap uuid User;
  ad_orgs : gmap uuid Org;
  ad_grants : list Grant;
  ad_events : list Event;
  ad_providers : list SSORow;
  ad_orgai : gmap uuid OrgAIRow;
  ad_confirms : gmap (uuid * uuid) (Z * Z) }.

Definition set_orgs (f : gmap uuid Org -> gmap uuid Org) (db : AdminDB) : AdminDB :=
  {| ad_users := ad_users db; ad_orgs := f (ad_orgs db); ad_grants := ad_grants db; ad_events := ad_events db;
     ad_providers := ad_providers db; ad_orgai := ad_orgai db; ad_confirms := ad_confirms db |}.
Definition set_users (f : gmap uuid User -> gmap uuid User) (db : AdminDB) : AdminDB :=
  {| ad_users := f (ad_users db); ad_orgs := ad_orgs db; ad_grants := ad_grants db; ad_events := ad_events db;
     ad_providers := ad_providers db; ad_orgai := ad_orgai db; ad_confirms := ad_confirms db |}.
Definition set_grants (f : list Grant -> list Grant) (db : AdminDB) : AdminDB :=
  {| ad_users := ad_users db; ad_orgs := ad_orgs db; ad_grants := f (ad_grants db); ad_events := ad_events db;
     ad_providers := ad_providers db; ad_orgai := ad_orgai db; ad_confirms := ad_confirms db |}.
Definition set_events (f : list Event -> list Event) (db : AdminDB) : AdminDB :=
  {| ad_users := ad_users db; ad_orgs := ad_orgs db; ad_grants := ad_grants db; ad_events := f (ad_events db);
     ad_providers := ad_providers db; ad_orgai := ad_orgai db; ad_confirms := ad_confirms db |}.
Definition set_providers (f : list SSORow -> list SSORow) (db : AdminDB) : AdminDB :=
  {| ad_users := ad_users db; ad_orgs := ad_orgs db; ad_grants := ad_grants db; ad_events := ad_events db;
     ad_providers := f (ad_providers db); ad_orgai := ad_orgai db; ad_confirms := ad_confirms db |}.
Definition set_orgai (f : gmap uuid OrgAIRow -> gmap uuid OrgAIRow) (db : AdminDB) : AdminDB :=
  {| ad_users := ad_users db; ad_orgs := ad_orgs db; ad_grants := ad_grants db; ad_events := ad_events db;
     ad_providers := ad_providers db; ad_orgai := f (ad_orgai db); ad_confirms := ad_confirms db |}.
Definition set_confirms (f : gmap (uuid * uuid) (Z * Z) -> gmap (uuid * uuid) (Z * Z)) (db : AdminDB) : AdminDB :=
  {| ad_users := ad_users db; ad_orgs := ad_orgs db; ad_grants := ad_grants db; ad_events := ad_events db;
     ad_providers := ad_providers db; ad_orgai := ad_orgai db; ad_confirms := f (ad_confirms db) |}.

(** ** Transactions *)

Inductive StoreError :=
| ErrDB                          (** a statement or the commit failed *)
| ErrTenantPinned
| ErrGrantNeedsOrg
| ErrActorRequired
| ErrSSOClientSecretRequired
| ErrSSOClientSecretTargetChanged
| ErrSSOClientSecretEmpty
| ErrSeal (e : KeyError).

(** What the database generates in one transaction, and whether one of its
    statements or its commit fails. *)
Record TxEnv := {
  tx_event : uuid;
  tx_grant : uuid;
  tx_provider : uuid;
  tx_now : Z;
  tx_fails : bool }.

(** A body gives its answer and, when it commits, the tables after it;
    anything else rolls back. *)
Definition transact {X} (env : TxEnv) (db : AdminDB) (body : res StoreError (X * option AdminDB))
  : res StoreError X * AdminDB :=
  match body with
  | Err e => (Err (if tx_fails env then ErrDB else e), db)
  | Ok (x, committed) =>
      if tx_fails env then (Err ErrDB, db)
      else (Ok x, match committed with Some db' => db' | None => db end)
  end.

(** ** Events (storage/sso_stepup.go) *)

Definition SSOEventStepup := "sso_stepup".
Definition SSOEventProviderWritten := "sso_provider_written".
Definition SSOEventLLMOrgAIWritten := "llm_org_ai_written".

Definition insertSSOEvent (env : TxEnv) (user : uuid) (org : option uuid) (kind : string) (details : Details)
  (db : AdminDB) : res StoreError AdminDB :=
  if String.eqb user Nil then Err ErrActorRequired
  else Ok (set_events (fun l => (l ++ [{| ev_ID := tx_event env; ev_UserID := user; ev_OrgID := org;
                                          ev_Kind := kind; ev_Details := details;
                                          ev_CreatedAt := tx_now env |}])%list) db).

(** ** Grants *)

Definition SSOStepupGrantTTL : Z := 10 * Minute.
Definition SSOGrantPurposeSSOWrite := "sso_write".
Definition SSOGrantPurposeLLMOrgKeyWrite := "llm_org_key_write".

Definition issueGrant (env : TxEnv) (user org : uuid) (provider purpose : string) (now : Z) (db : AdminDB)
  : Grant * AdminDB :=
  let g := {| gr_ID := tx_grant env; gr_UserID := user; gr_OrgID := org; gr_Provider := provider;
              gr_Purpose := purpose; gr_IssuedAt := now; gr_ExpiresAt := now + SSOStepupGrantTTL;
              gr_ConsumedAt := None |} in
  (g, set_grants (fun l => (l ++ [g])%list) db).

(** The condition of the consuming statement. *)
Definition live_for (user org : uuid) (purpose : string) (now : Z) (g : Grant) : bool :=
  String.eqb (gr_UserID g) user && String.eqb (gr_OrgID g) org && String.eqb (gr_Purpose g) purpose
  && (match gr_ConsumedAt g with None => true | Some _ => false end) && (now <? gr_ExpiresAt g).

(** [ORDER BY issued_at DESC LIMIT 1]; among equals, the first stored. *)
Fixpoint newest (l : list Grant) : option Grant :=
  match l with
  | [] => None
  | g :: r => match newest r with
              | Some h => if gr_IssuedAt g <? gr_IssuedAt h then Some h else Some g
              | None => Some g
              end
  end.

Definition consume (id : uuid) (now : Z) (g : Grant) : Grant :=
  if String.eqb (gr_ID g) id then
    {| gr_ID := gr_ID g; gr_UserID := gr_UserID g; gr_OrgID := gr_OrgID g; gr_Provider := gr_Provider g;
       gr_Purpose := gr_Purpose g; gr_IssuedAt := gr_IssuedAt g; gr_ExpiresAt := gr_ExpiresAt g;
       gr_ConsumedAt := Some now |}
  else g.

(** [consumeGrant]: the grant consumed, [None] when there is no live one. *)
Definition consumeGrant (user org : uuid) (purpose : string) (now : Z) (db : AdminDB)
  : option uuid * AdminDB :=
  match newest (keep (live_for user org purpose now) (ad_grants db)) with
  | None => (None, db)
  | Some g => (Some (gr_ID g), set_grants (map (consume (gr_ID g) now)) db)
  end.

(** [ConsumeSSOStepupGrant]: one statement. *)
Definition ConsumeSSOStepupGrant (env : TxEnv) (user org : uuid) (purpose : string) (now : Z) (db : AdminDB)
  : res StoreError bool * AdminDB :=
  let '(id, db') := consumeGrant user org purpose now db in
  transact env db (Ok (match id with Some _ => true | None => false end, Some db')).

(** ** The outcome of a step-up *)

Record Outcome := {
  so_UserID : uuid;
  so_OrgID : option uuid;
  so_Provider : string;
  so_Granted : bool;
  so_Reason : string;
  so_PinTenant : string;
  so_Purpose : string;
  so_Now : Z }.

(** The pinning statement: the row, when its tenant is null or this one. *)
Definition pinTenant (org : uuid) (tenant : string) (db : AdminDB) : res StoreError AdminDB :=
  match ad_orgs db !! org with
  | Some o =>
      match og_Tenant o with
      | Some t => if String.eqb t tenant then Ok db else Err ErrTenantPinned
      | None => Ok (set_orgs (<[org := {| og_ID := og_ID o; og_Domain := og_Domain o; og_Tenant := Some tenant |}]>) db)
      end
  | None => Err ErrTenantPinned
  end.

Definition outcome_purpose (o : Outcome) : string :=
  if String.eqb (so_Purpose o) "" then SSOGrantPurposeSSOWrite else so_Purpose o.

Definition outcome_details (o : Outcome) : Details :=
  StepupDetails (so_OrgID o) (so_Provider o) (if so_Granted o then "granted" else "denied")
    (if so_Granted o then None else Some (so_Reason o))
    (if String.eqb (outcome_purpose o) SSOGrantPurposeSSOWrite then "" else outcome_purpose o).

(** [RecordSSOStepupOutcome]. *)
Definition RecordSSOStepupOutcome (env : TxEnv) (o : Outcome) (db : AdminDB)
  : res StoreError (option Grant) * AdminDB :=
  transact env db (
    let record g db :=
      db' <-? insertSSOEvent env (so_UserID o) (so_OrgID o) SSOEventStepup (outcome_details o) db ;;
      Ok (g, Some db') in
    if so_Granted o then
      match so_OrgID o with
      | None => Err ErrGrantNeedsOrg
      | Some org =>
          pinned <-? (if String.eqb (so_PinTenant o) "" then Ok db else pinTenant org (so_PinTenant o) db) ;;
          let '(g, db') := issueGrant env (so_UserID o) org (so_Provider o) (outcome_purpose o) (so_Now o) pinned in
          record (Some g) db'
      end
    else record None db).

(** [GetOrgMSTenantID]. *)
Definition GetOrgMSTenantID (db : AdminDB) (org : uuid) : option string :=
  match ad_orgs db !! org with
  | Some o => Some (default "" (og_Tenant o))
  | None => None
  end.

(** ** SSO configurations (storage/sso_providers.go) *)

(** A configuration as read: each secret is opened on its own, and a failure
    leaves it empty. *)
Record SSOProvider := {
  pr_row : SSORow;
  pr_ClientSecret : string;
  pr_Cert : string;
  pr_ClientSecretErr : option DecryptError;
  pr_SecretErr : option DecryptError }.

Section Store.
Context {V : Vault}.

Definition open_or_empty (b : Binding) (raw : string) : string * option DecryptError :=
  match v_open b raw with Ok p => (p, None) | Err e => ("", Some e) end.

(** [openSecrets], on the row as scanned. *)
Definition openSecrets (r : SSORow) : SSOProvider :=
  let '(s, e1) := open_or_empty (bindSSO "oidc_client_secret" (sp_ID r)) (sp_RawSecret r) in
  let '(c, e2) := open_or_empty (bindSSO "saml_cert" (sp_ID r)) (sp_RawCert r) in
  {| pr_row := r; pr_ClientSecret := s; pr_Cert := c; pr_ClientSecretErr := e1;
     pr_SecretErr := match e1 with Some e => Some e | None => e2 end |}.

Definition HasClientSecret (p : SSOProvider) : bool :=
  negb (String.eqb (pr_ClientSecret p) "") || negb (String.eqb (sp_RawSecret (pr_row p)) "").

Definition domain_is (d : string) (r : SSORow) : bool := String.eqb (ToLower (sp_Domain r)) (ToLower d).

(** [GetSSOProviderByDomain]: the enabled configuration. *)
Definition GetSSOProviderByDomain (db : AdminDB) (d : string) : option SSOProvider :=
  openSecrets <$> List.find (fun r => domain_is (TrimSpace d) r && sp_Enabled r) (ad_providers db).

(** [GetSSOProviderByDomainAnyState]. *)
Definition GetSSOProviderByDomainAnyState (db : AdminDB) (d : string) : option SSOProvider :=
  openSecrets <$> List.find (domain_is d) (ad_providers db).

(** [KeepableClientSecret]: [None] when the stored secret may be kept. *)
Definition KeepableClientSecret (current : option SSOProvider) (issuer clientID : string) : option StoreError :=
  match current with
  | None => Some ErrSSOClientSecretRequired
  | Some p =>
      if negb (String.eqb (sp_Type (pr_row p)) "oidc") || negb (HasClientSecret p)
      then Some ErrSSOClientSecretRequired
      else if negb (String.eqb (sp_Issuer (pr_row p)) issuer) || negb (String.eqb (sp_ClientID (pr_row p)) clientID)
      then Some ErrSSOClientSecretTargetChanged
      else None
  end.

Record OIDCWrite := {
  ow_Domain : string;
  ow_Name : string;
  ow_Issuer : string;
  ow_ClientID : string;
  ow_Secret : option string }.

(** The row after a write: [created] and [enabled] are the stored ones on a
    replace. *)
Definition oidc_row (id : uuid) (domain : string) (w : OIDCWrite) (enabled : bool) (raw : string)
  (created now : Z) : SSORow :=
  {| sp_ID := id; sp_Domain := domain; sp_Name := ow_Name w; sp_Type := "oidc"; sp_Enabled := enabled;
     sp_Issuer := ow_Issuer w; sp_ClientID := ow_ClientID w; sp_RawSecret := raw;
     sp_EntryPoint := ""; sp_SAMLIssuer := ""; sp_RawCert := ""; sp_CreatedAt := created; sp_UpdatedAt := now |}.

Definition put_row (r : SSORow) (x : SSORow) : SSORow := if String.eqb (sp_ID x) (sp_ID r) then r else x.

Definition seal_or (b : Binding) (p : string) : res StoreError string :=
  match v_seal b p with Ok s => Ok s | Err e => Err (ErrSeal e) end.

(** [saveOIDCProvider]: the configuration stored, whether it is a create, and
    the tables.  The row locked is the one read, so the insert's conflict
    clause does not apply within the transaction. *)
Definition saveOIDCProvider (env : TxEnv) (w : OIDCWrite) (db : AdminDB)
  : res StoreError (SSOProvider * bool * AdminDB) :=
  let domain := ToLower (ow_Domain w) in
  let current := openSecrets <$> List.find (domain_is domain) (ad_providers db) in
  decided <-? match ow_Secret w with
              | None =>
                  match KeepableClientSecret current (ow_Issuer w) (ow_ClientID w) with
                  | Some e => Err e
                  | None => Ok (None : option string)
                  end
              | Some s => if String.eqb s "" then Err ErrSSOClientSecretEmpty else Ok (Some s)
              end ;;
  match current with
  | Some p =>
      let r := pr_row p in
      raw <-? match decided with
              | None => Ok (sp_RawSecret r)
              | Some s => seal_or (bindSSO "oidc_client_secret" (sp_ID r)) s
              end ;;
      let r' := oidc_row (sp_ID r) (ToLower (sp_Domain r)) w (sp_Enabled r) raw (sp_CreatedAt r) (tx_now env) in
      Ok (openSecrets r', false, set_providers (map (put_row r')) db)
  | None =>
      let s := default "" decided in
      raw <-? seal_or (bindSSO "oidc_client_secret" (tx_provider env)) s ;;
      cert <-? seal_or (bindSSO "saml_cert" (tx_provider env)) "" ;;
      let r0 := oidc_row (tx_provider env) domain w true raw (tx_now env) (tx_now env) in
      let r' := {| sp_ID := sp_ID r0; sp_Domain := sp_Domain r0; sp_Name := sp_Name r0; sp_Type := sp_Type r0;
                   sp_Enabled := sp_Enabled r0; sp_Issuer := sp_Issuer r0; sp_ClientID := sp_ClientID r0;
                   sp_RawSecret := raw; sp_EntryPoint := ""; sp_SAMLIssuer := ""; sp_RawCert := cert;
                   sp_CreatedAt := sp_CreatedAt r0; sp_UpdatedAt := sp_UpdatedAt r0 |} in
      Ok ({| pr_row := r'; pr_ClientSecret := s; pr_Cert := ""; pr_ClientSecretErr := None;
             pr_SecretErr := None |}, true, set_providers (fun l => (l ++ [r'])%list) db)
  end.

(** [upsertSSOProvider]: the row with empty secrets, then the two secrets
    sealed for its id. *)
Definition upsertSSOProvider (env : TxEnv) (p : SSOProvider) (db : AdminDB)
  : res StoreError (SSOProvider * bool * AdminDB) :=
  let q := pr_row p in
  let domain := ToLower (TrimSpace (sp_Domain q)) in
  let existing := List.find (domain_is domain) (ad_providers db) in
  let id := match existing with Some r => sp_ID r | None => tx_provider env end in
  raw <-? seal_or (bindSSO "oidc_client_secret" id) (pr_ClientSecret p) ;;
  cert <-? seal_or (bindSSO "saml_cert" id) (pr_Cert p) ;;
  let r' := {| sp_ID := id;
               sp_Domain := match existing with Some r => sp_Domain r | None => domain end;
               sp_Name := sp_Name q; sp_Type := sp_Type q; sp_Enabled := sp_Enabled q;
               sp_Issuer := sp_Issuer q; sp_ClientID := sp_ClientID q; sp_RawSecret := raw;
               sp_EntryPoint := sp_EntryPoint q; sp_SAMLIssuer := sp_SAMLIssuer q; sp_RawCert := cert;
               sp_CreatedAt := match existing with Some r => sp_CreatedAt r | None => tx_now env end;
               sp_UpdatedAt := tx_now env |} in
  let out := {| pr_row := r'; pr_ClientSecret := pr_ClientSecret p; pr_Cert := pr_Cert p;
                pr_ClientSecretErr := None; pr_SecretErr := None |} in
  match existing with
  | Some _ => Ok (out, false, set_providers (map (put_row r')) db)
  | None => Ok (out, true, set_providers (fun l => (l ++ [r'])%list) db)
  end.

(** A provider write and its event, in one transaction: the body of
    [SaveOIDCProviderRecorded] and [UpsertSSOProviderRecorded]. *)
Definition recorded_write (env : TxEnv) (actor org : uuid) (via : string)
  (r : res StoreError (SSOProvider * bool * AdminDB)) : res StoreError (SSOProvider * option AdminDB) :=
  x <-? r ;;
  let '(p, inserted, db1) := x in
  db2 <-? insertSSOEvent env actor (Some org) SSOEventProviderWritten
            (ProviderWritten org (sp_ID (pr_row p)) (if inserted : bool then "create" else "update") via) db1 ;;
  Ok (p, Some db2).

(** [SaveOIDCProviderRecorded]. *)
Definition SaveOIDCProviderRecorded (env : TxEnv) (w : OIDCWrite) (actor org : uuid) (via : string) (db : AdminDB)
  : res StoreError SSOProvider * AdminDB :=
  transact env db (recorded_write env actor org via (saveOIDCProvider env w db)).

(** [UpsertSSOProviderRecorded]. *)
Definition UpsertSSOProviderRecorded (env : TxEnv) (p : SSOProvider) (actor org : uuid) (via : string) (db : AdminDB)
  : res StoreError SSOProvider * AdminDB :=
  transact env db (recorded_write env actor org via (upsertSSOProvider env p db)).

(** [DeleteSSOProviderRecorded]: whether a row was found. *)
Definition DeleteSSOProviderRecorded (env : TxEnv) (d : string) (actor org : uuid) (via : string) (db : AdminDB)
  : res StoreError bool * AdminDB :=
  transact env db (
    match List.find (domain_is (ToLower d)) (ad_providers db) with
    | None => Ok (false, None)
    | Some r =>
        db2 <-? insertSSOEvent env actor (Some org) SSOEventProviderWritten
                  (ProviderWritten org (sp_ID r) "delete" via)
                  (set_providers (keep (fun x => negb (domain_is (ToLower d) x))) db) ;;
        Ok (true, Some db2)
    end).
End Store.

(** ** Facts: transactions *)

Lemma transact_inv {X} env db (body : res StoreError (X * option AdminDB)) r db' :
  transact env db body = (r, db') ->
  (exists x c, body = Ok (x, c) /\ tx_fails env = false /\ r = Ok x /\ db' = default db c)
  \/ ((exists e, r = Err e) /\ db' = db).
Proof.
  unfold transact. destruct body as [[x c]|e]; [|intros [= <- <-]; right; eauto].
  destruct (tx_fails env); intros [= <- <-]; [right; eauto|]. left. exists x, c. by destruct c.
Qed.

Lemma insertSSOEvent_Ok env user org kind details db db' :
  insertSSOEvent env user org kind details db = Ok db' ->
  user <> Nil /\ db' = set_events (fun l => (l ++ [{| ev_ID := tx_event env; ev_UserID := user; ev_OrgID := org;
      ev_Kind := kind; ev_Details := details; ev_CreatedAt := tx_now env |}])%list) db.
Proof. unfold insertSSOEvent. destruct (String.eqb_spec user Nil); [done|]. by intros [= <-]. Qed.

(** ** Facts: grants *)

Lemma newest_Some l g : newest l = Some g ->
  g ∈ l /\ forall h, h ∈ l -> gr_IssuedAt h <= gr_IssuedAt g.
Proof.
  revert g. induction l as [|x l IH]; intros g; [done|]. cbn [newest].
  destruct (newest l) as [h|] eqn:E.
  - destruct (IH h eq_refl) as [Hin Hmax]. destruct (Z.ltb_spec (gr_IssuedAt x) (gr_IssuedAt h)); intros [= <-].
    + split; [by right|]. intros y [->|Hy]%elem_of_cons; [lia|auto].
    + split; [by left|]. intros y [->|Hy]%elem_of_cons; [lia|]. specialize (Hmax y Hy). lia.
  - intros [= <-]. split; [by left|]. intros y [->|Hy]%elem_of_cons; [lia|].
    destruct l as [|z l]; [by apply elem_of_nil in Hy|]. cbn [newest] in E. destruct (newest l); [|done].
    by destruct (gr_IssuedAt z <? gr_IssuedAt g).
Qed.

Lemma newest_None l : newest l = None -> l = [].
Proof.
  destruct l as [|x l]; [done|]. cbn [newest]. destruct (newest l); [|done].
  by destruct (gr_IssuedAt x <? gr_IssuedAt g).
Qed.

Lemma consume_id id now g : gr_ID (consume id now g) = gr_ID g.
Proof. unfold consume. by destruct (String.eqb (gr_ID g) id). Qed.

Lemma consumeGrant_Some user org purpose now db id db' :
  consumeGrant user org purpose now db = (Some id, db') ->
  exists g, g ∈ ad_grants db /\ gr_ID g = id /\ live_for user org purpose now g = true
    /\ (forall h, h ∈ ad_grants db -> live_for user org purpose now h = true -> gr_IssuedAt h <= gr_IssuedAt g)
    /\ db' = set_grants (map (consume id now)) db.
Proof.
  unfold consumeGrant. destruct (newest _) as [g|] eqn:E; [|done]. intros [= <- <-].
  apply newest_Some in E as [Hin Hmax]. apply elem_of_keep in Hin as [Hin Hl].
  exists g. repeat split; try done. intros h Hh Hlh. apply Hmax, elem_of_keep. done.
Qed.

Lemma consumeGrant_None user org purpose now db db' :
  consumeGrant user org purpose now db = (None, db') ->
  db' = db /\ forall h, h ∈ ad_grants db -> live_for user org purpose now h = false.
Proof.
  unfold consumeGrant. destruct (newest _) eqn:E; [done|]. intros [= <-]. split; [done|].
  intros h Hh. apply newest_None in E. apply not_true_iff_false. intros Hl.
  assert (H : h ∈ keep (live_for user org purpose now) (ad_grants db)) by by apply elem_of_keep.
  rewrite E in H. by apply elem_of_nil in H.
Qed.

(** ** The type of the tables *)

Definition grant_ok (g : Grant) : Prop :=
  gr_ExpiresAt g = gr_IssuedAt g + SSOStepupGrantTTL
  /\ (gr_Purpose g = SSOGrantPurposeSSOWrite \/ gr_Purpose g = SSOGrantPurposeLLMOrgKeyWrite).

(** Identifiers and lower-cased domains are unique, domains are stored
    lower-cased, grants live ten minutes and name one of the two purposes,
    every event has an actor. *)
Record db_wf (db : AdminDB) : Prop := {
  wf_grants : NoDup (map gr_ID (ad_grants db));
  wf_grant_ok g : g ∈ ad_grants db -> grant_ok g;
  wf_providers : NoDup (map sp_ID (ad_providers db));
  wf_domains : NoDup (map sp_Domain (ad_providers db));
  wf_lower r : r ∈ ad_providers db -> ToLower (sp_Domain r) = sp_Domain r;
  wf_actor e : e ∈ ad_events db -> ev_UserID e <> Nil }.

(** The keys a transaction generates are not in use. *)
Definition fresh (env : TxEnv) (db : AdminDB) : Prop :=
  (tx_grant env ∉ map gr_ID (ad_grants db)) /\ (tx_provider env ∉ map sp_ID (ad_providers db)).

Lemma wf_issue env user org provider purpose now db :
  db_wf db -> fresh env db ->
  purpose = SSOGrantPurposeSSOWrite \/ purpose = SSOGrantPurposeLLMOrgKeyWrite ->
  db_wf (snd (issueGrant env user org provider purpose now db)).
Proof.
  intros W [Hf _] Hp. destruct W. split; cbn; auto.
  - rewrite map_app. apply NoDup_app. split; [done|]. split; [|repeat constructor; by intros ?%elem_of_nil].
    intros x Hx ->%list_elem_of_singleton. done.
  - intros g [Hg| ->%list_elem_of_singleton]%elem_of_app; [by apply wf_grant_ok0|]. by split.
Qed.

Lemma wf_event env user org kind details db db' :
  db_wf db -> insertSSOEvent env user org kind details db = Ok db' -> db_wf db'.
Proof.
  intros W [Hu ->]%insertSSOEvent_Ok. destruct W. split; cbn; auto.
  intros e [He| ->%list_elem_of_singleton]%elem_of_app; [by apply wf_actor0|done].
Qed.

Lemma wf_consume user org purpose now db id db' :
  db_wf db -> consumeGrant user org purpose now db = (id, db') -> db_wf db'.
Proof.
  intros W E. destruct id as [id|].
  - apply consumeGrant_Some in E as (g & _ & _ & _ & _ & ->). destruct W. split; cbn; auto.
    + rewrite map_map. erewrite map_ext; [done|]. intros h. apply consume_id.
    + intros h (x & -> & Hx)%list_elem_of_fmap. apply wf_grant_ok0 in Hx. unfold consume.
      by destruct (String.eqb (gr_ID x) id).
  - by apply consumeGrant_None in E as [-> _].
Qed.

Lemma wf_pin org tenant db db' : db_wf db -> pinTenant org tenant db = Ok db' -> db_wf db'.
Proof.
  intros W. unfold pinTenant. destruct (ad_orgs db !! org) as [o|]; [|done].
  destruct (og_Tenant o) as [t|]; [destruct (String.eqb t tenant); [|done]|]; intros [= <-]; [done|].
  destruct W. by split.
Qed.

(** Members of a list with the same value of a field are one, when the field is
    unique in the list. *)
Lemma inj_of_NoDup {X Y} (f : X -> Y) l x r : NoDup (map f l) -> x ∈ l -> r ∈ l -> f x = f r -> x = r.
Proof.
  induction l as [|y l IH]; [by intros _ ?%elem_of_nil|].
  cbn [map]. intros [Hn Hnd]%NoDup_cons Hx Hr E.
  assert (Hin : forall z, z ∈ l -> f z ∈ map f l) by (intros z Hz; by apply (list_elem_of_fmap_2 f)).
  apply elem_of_cons in Hr as [->|Hr]; apply elem_of_cons in Hx as [->|Hx]; try done; [| |by apply IH].
  - destruct Hn. rewrite <- E. by apply Hin.
  - destruct Hn. rewrite E. by apply Hin.
Qed.

(** Rows keep their identifiers and domains when one of them is replaced by a
    row of the same identifier and domain. *)
Lemma wf_put db (r r' : SSORow) :
  db_wf db -> r ∈ ad_providers db -> sp_ID r' = sp_ID r -> sp_Domain r' = sp_Domain r ->
  db_wf (set_providers (map (put_row r')) db).
Proof.
  intros W Hr Hid Hd. destruct W.
  pose proof (fun x Hx => inj_of_NoDup sp_ID _ x r wf_providers0 Hx Hr) as Hsame.
  assert (Hids : forall x, x ∈ ad_providers db -> sp_ID (put_row r' x) = sp_ID x /\ sp_Domain (put_row r' x) = sp_Domain x).
  { intros x Hx. unfold put_row. destruct (String.eqb_spec (sp_ID x) (sp_ID r')) as [E|]; [|done].
    rewrite E, Hid in *. rewrite (Hsame x Hx) by congruence. by split. }
  split; cbn; auto.
  - rewrite map_map. erewrite map_ext_in; [exact wf_providers0|]. intros x Hx. apply Hids. by apply list_elem_of_In.
  - rewrite map_map. erewrite map_ext_in; [exact wf_domains0|]. intros x Hx. apply Hids. by apply list_elem_of_In.
  - intros x (y & -> & Hy)%list_elem_of_fmap. destruct (Hids y Hy) as [_ ->]. auto.
Qed.

Lemma find_domain_None db d : db_wf db ->
  List.find (domain_is d) (ad_providers db) = None -> ToLower d ∉ map sp_Domain (ad_providers db).
Proof.
  intros W Hn Hin. apply list_elem_of_fmap in Hin as (r & Hd & Hr).
  pose proof (List.find_none _ _ Hn r ltac:(by apply list_elem_of_In)) as Hf.
  unfold domain_is in Hf. by rewrite (wf_lower _ W) , Hd, String.eqb_refl in Hf.
Qed.

Lemma find_domain_Some db d r :
  List.find (domain_is d) (ad_providers db) = Some r -> r ∈ ad_providers db /\ ToLower (sp_Domain r) = ToLower d.
Proof.
  intros [Hin Hd]%List.find_some. split; [by apply list_elem_of_In|]. by apply String.eqb_eq.
Qed.

(** A new row under a domain no row has. *)
Lemma wf_add_row env db r d :
  db_wf db -> fresh env db -> sp_ID r = tx_provider env -> sp_Domain r = ToLower d ->
  List.find (domain_is d) (ad_providers db) = None ->
  db_wf (set_providers (fun l => (l ++ [r])%list) db).
Proof.
  intros W [_ Hf] Hid Hd Hn. pose proof (find_domain_None db d W Hn) as Hnd. destruct W. split; cbn; auto.
  - rewrite map_app. apply NoDup_app. split; [done|]. split; [|repeat constructor; by intros ?%elem_of_nil].
    intros x Hx ->%list_elem_of_singleton. by rewrite Hid in Hx.
  - rewrite map_app. apply NoDup_app. split; [done|]. split; [|repeat constructor; by intros ?%elem_of_nil].
    intros x Hx ->%list_elem_of_singleton. by rewrite Hd in Hx.
  - intros x [Hx| ->%list_elem_of_singleton]%elem_of_app; [auto|]. by rewrite Hd, ToLower_idem.
Qed.

Lemma sublist_map {X Y} (f : X -> Y) l k : sublist l k -> sublist (map f l) (map f k).
Proof. induction 1; cbn; by constructor. Qed.

Section StoreFacts.
Context {V : Vault}.

Lemma openSecrets_row r : pr_row (openSecrets r) = r.
Proof.
  unfold openSecrets. by destruct (open_or_empty _ (sp_RawSecret r)), (open_or_empty _ (sp_RawCert r)).
Qed.

Lemma openSecrets_empty r : VaultLaws V -> sp_RawSecret r = "" -> HasClientSecret (openSecrets r) = false.
Proof.
  intros L E. unfold HasClientSecret. rewrite openSecrets_row, E. unfold openSecrets, open_or_empty.
  rewrite E, v_open_empty. by destruct (match v_open _ (sp_RawCert r) with Ok p => (p, None) | Err e => ("", Some e) end).
Qed.

(** A secret may be left out only when the row is an OIDC configuration with a
    stored secret, for the same issuer and client id, byte for byte. *)
Lemma Keepable_None r issuer clientID : VaultLaws V ->
  KeepableClientSecret (Some (openSecrets r)) issuer clientID = None ->
  sp_Type r = "oidc" /\ sp_RawSecret r <> "" /\ sp_Issuer r = issuer /\ sp_ClientID r = clientID.
Proof.
  intros L. unfold KeepableClientSecret. rewrite openSecrets_row.
  destruct (String.eqb_spec (sp_Type r) "oidc"); [|done]. cbn [negb orb].
  destruct (HasClientSecret (openSecrets r)) eqn:H; [|done]. cbn [negb].
  destruct (String.eqb_spec (sp_Issuer r) issuer); [|done]. cbn [negb orb].
  destruct (String.eqb_spec (sp_ClientID r) clientID); [|done]. intros _. repeat split; try done.
  intros E. by rewrite openSecrets_empty in H.
Qed.

(** The stored text of the secret after a replace of [r]. *)
Definition secret_after (r : SSORow) (w : OIDCWrite) (raw : string) : Prop :=
  match ow_Secret w with
  | None => raw = sp_RawSecret r /\ raw <> "" /\ sp_Type r = "oidc"
            /\ sp_Issuer r = ow_Issuer w /\ sp_ClientID r = ow_ClientID w
  | Some s => s <> "" /\ v_seal (bindSSO "oidc_client_secret" (sp_ID r)) s = Ok raw
  end.

Definition replaced (env : TxEnv) (r : SSORow) (w : OIDCWrite) (raw : string) : SSORow :=
  oidc_row (sp_ID r) (ToLower (sp_Domain r)) w (sp_Enabled r) raw (sp_CreatedAt r) (tx_now env).

Definition created (env : TxEnv) (w : OIDCWrite) (raw cert : string) : SSORow :=
  {| sp_ID := tx_provider env; sp_Domain := ToLower (ow_Domain w); sp_Name := ow_Name w;
     sp_Type := "oidc"; sp_Enabled := true; sp_Issuer := ow_Issuer w; sp_ClientID := ow_ClientID w;
     sp_RawSecret := raw; sp_EntryPoint := ""; sp_SAMLIssuer := ""; sp_RawCert := cert;
     sp_CreatedAt := tx_now env; sp_UpdatedAt := tx_now env |}.

Lemma saveOIDC_replace env w db p ins db' r : VaultLaws V ->
  List.find (domain_is (ToLower (ow_Domain w))) (ad_providers db) = Some r ->
  saveOIDCProvider env w db = Ok (p, ins, db') ->
  ins = false /\ exists raw, secret_after r w raw /\ p = openSecrets (replaced env r w raw)
    /\ db' = set_providers (map (put_row (replaced env r w raw))) db.
Proof.
  intros L F. unfold saveOIDCProvider, secret_after. cbn zeta. rewrite F.
  cbn [fmap option_fmap option_map]. rewrite openSecrets_row. destruct (ow_Secret w) as [s|].
  - destruct (String.eqb_spec s "") as [|Hs]; [done|]. cbn [rbind].
    unfold seal_or. destruct (v_seal _ s) as [raw|] eqn:Es; [|done]. cbn [rbind]. intros [= <- <- <-].
    split; [done|]. by exists raw.
  - destruct (KeepableClientSecret _ _ _) eqn:K; [done|]. cbn [rbind]. intros [= <- <- <-].
    apply Keepable_None in K as (? & ? & ? & ?); [|done]. split; [done|]. by exists (sp_RawSecret r).
Qed.

Lemma saveOIDC_create env w db p ins db' :
  List.find (domain_is (ToLower (ow_Domain w))) (ad_providers db) = None ->
  saveOIDCProvider env w db = Ok (p, ins, db') ->
  ins = true /\ exists s raw cert, ow_Secret w = Some s /\ s <> ""
    /\ v_seal (bindSSO "oidc_client_secret" (tx_provider env)) s = Ok raw
    /\ pr_row p = created env w raw cert
    /\ db' = set_providers (fun l => (l ++ [created env w raw cert])%list) db.
Proof.
  intros F. unfold saveOIDCProvider. cbn zeta. rewrite F. cbn [fmap option_fmap option_map].
  destruct (ow_Secret w) as [s|]; [|done]. destruct (String.eqb_spec s "") as [|Hs]; [done|]. cbn [rbind].
  change (default "" (Some s)) with s. unfold seal_or. destruct (v_seal (bindSSO "oidc_client_secret" (tx_provider env)) s) as [raw|] eqn:Es; [|done]. cbn [rbind].
  destruct (v_seal (bindSSO "saml_cert" (tx_provider env)) "") as [cert|]; [|done]. cbn [rbind]. intros [= <- <- <-].
  split; [done|]. by exists s, raw, cert.
Qed.

Lemma wf_save env w db p ins db' : VaultLaws V ->
  db_wf db -> fresh env db -> saveOIDCProvider env w db = Ok (p, ins, db') -> db_wf db'.
Proof.
  intros L W Hf E. destruct (List.find (domain_is (ToLower (ow_Domain w))) (ad_providers db)) as [r|] eqn:F.
  - destruct (saveOIDC_replace _ _ _ _ _ _ _ L F E) as (_ & raw & _ & _ & ->).
    apply find_domain_Some in F as [Hr Hd]. apply (wf_put db r); [done..|].
    cbn [replaced oidc_row sp_Domain]. by apply (wf_lower _ W).
  - destruct (saveOIDC_create _ _ _ _ _ _ F E) as (_ & s & raw & cert & _ & _ & _ & _ & ->).
    apply (wf_add_row env db _ (ToLower (ow_Domain w))); [done..| |done]. cbn. by rewrite ToLower_idem.
Qed.

Lemma wf_upsert env q db p ins db' :
  db_wf db -> fresh env db -> upsertSSOProvider env q db = Ok (p, ins, db') -> db_wf db'.
Proof.
  intros W Hf. unfold upsertSSOProvider. cbn zeta.
  destruct (List.find _ (ad_providers db)) as [r|] eqn:F.
  - destruct (seal_or _ (pr_ClientSecret q)) as [raw|]; [|done]. cbn [rbind].
    destruct (seal_or _ (pr_Cert q)) as [cert|]; [|done]. cbn [rbind]. intros [= <- <- <-].
    apply find_domain_Some in F as [Hr _]. by apply (wf_put db r).
  - destruct (seal_or _ (pr_ClientSecret q)) as [raw|]; [|done]. cbn [rbind].
    destruct (seal_or _ (pr_Cert q)) as [cert|]; [|done]. cbn [rbind]. intros [= <- <- <-].
    eapply (wf_add_row env db); [done..| |exact F]. cbn. by rewrite ToLower_idem.
Qed.

Lemma recorded_write_Ok env actor org via r p c :
  recorded_write env actor org via r = Ok (p, c) ->
  exists ins db1 db2, r = Ok (p, ins, db1) /\ c = Some db2
    /\ insertSSOEvent env actor (Some org) SSOEventProviderWritten
         (ProviderWritten org (sp_ID (pr_row p)) (if ins : bool then "create" else "update") via) db1 = Ok db2.
Proof.
  unfold recorded_write. destruct r as [[[q ins] db1]|]; [|done]. cbn [rbind].
  destruct (insertSSOEvent _ _ _ _ _ db1) as [db2|] eqn:E; [|done]. cbn [rbind]. intros [= <- <-].
  by exists ins, db1, db2.
Qed.

Lemma wf_delete_rows (f : SSORow -> bool) db : db_wf db -> db_wf (set_providers (keep f) db).
Proof.
  intros W. destruct W. split; cbn; auto.
  - eapply sublist_NoDup; [exact wf_providers0|]. apply sublist_map, keep_sublist.
  - eapply sublist_NoDup; [exact wf_domains0|]. apply sublist_map, keep_sublist.
  - intros r [Hr _]%elem_of_keep. auto.
Qed.
End StoreFacts.

(** ** The operations as one type *)

Section Ops.
Context {V : Vault}.

Inductive AdminOp :=
| OpStepup (env : TxEnv) (o : Outcome)
| OpConsume (env : TxEnv) (user org : uuid) (purpose : string) (now : Z)
| OpSave (env : TxEnv) (w : OIDCWrite) (actor org : uuid) (via : string)
| OpUpsert (env : TxEnv) (p : SSOProvider) (actor org : uuid) (via : string)
| OpDelete (env : TxEnv) (domain : string) (actor org : uuid) (via : string).

Definition apply_op (op : AdminOp) (db : AdminDB) : AdminDB :=
  match op with
  | OpStepup env o => snd (RecordSSOStepupOutcome env o db)
  | OpConsume env u g p now => snd (ConsumeSSOStepupGrant env u g p now db)
  | OpSave env w a g via => snd (SaveOIDCProviderRecorded env w a g via db)
  | OpUpsert env p a g via => snd (UpsertSSOProviderRecorded env p a g via db)
  | OpDelete env d a g via => snd (DeleteSSOProviderRecorded env d a g via db)
  end.

Definition op_env (op : AdminOp) : TxEnv :=
  match op with
  | OpStepup env _ | OpConsume env _ _ _ _ | OpSave env _ _ _ _ | OpUpsert env _ _ _ _ | OpDelete env _ _ _ _ => env
  end.

(** The handlers record step-ups with one of the two purposes. *)
Definition op_ok (op : AdminOp) : Prop :=
  match op with
  | OpStepup _ o => outcome_purpose o = SSOGrantPurposeSSOWrite \/ outcome_purpose o = SSOGrantPurposeLLMOrgKeyWrite
  | _ => True
  end.

(** What a recorded outcome does when it commits. *)
Lemma RecordOutcome_inv env o db r db' :
  RecordSSOStepupOutcome env o db = (r, db') ->
  (exists db1 db2, tx_fails env = false
    /\ (if so_Granted o
        then exists org pinned, so_OrgID o = Some org
             /\ (if String.eqb (so_PinTenant o) "" then Ok db else pinTenant org (so_PinTenant o) db) = Ok pinned
             /\ issueGrant env (so_UserID o) org (so_Provider o) (outcome_purpose o) (so_Now o) pinned = (db1.1, db1.2)
             /\ r = Ok (Some db1.1)
        else db1.2 = db /\ r = Ok None)
    /\ insertSSOEvent env (so_UserID o) (so_OrgID o) SSOEventStepup (outcome_details o) db1.2 = Ok db2
    /\ db' = db2)
  \/ ((exists e, r = Err e) /\ db' = db).
Proof.
  unfold RecordSSOStepupOutcome. intros H. apply transact_inv in H as [(x & c & E & Hf & -> & ->)|]; [|by right].
  left. cbn zeta in E. destruct (so_Granted o) eqn:G.
  - destruct (so_OrgID o) as [org|] eqn:O; [|done].
    destruct (if String.eqb (so_PinTenant o) "" then Ok db else _) as [pinned|] eqn:P; [|done]. cbn [rbind] in E.
    destruct (issueGrant _ _ _ _ _ _ pinned) as [g db1] eqn:I.
    destruct (insertSSOEvent _ _ _ _ _ db1) as [db2|] eqn:Ev; [|done]. cbn [rbind] in E. injection E as <- <-.
    exists (g, db1), db2. split; [done|]. split; [|done]. by exists org, pinned.
  - destruct (insertSSOEvent _ _ _ _ _ db) as [db2|] eqn:Ev; [|done]. cbn [rbind] in E. injection E as <- <-.
    by exists ({| gr_ID := ""; gr_UserID := ""; gr_OrgID := ""; gr_Provider := ""; gr_Purpose := "";
                  gr_IssuedAt := 0; gr_ExpiresAt := 0; gr_ConsumedAt := None |}, db), db2.
Qed.

Lemma pin_rest org t db db' : pinTenant org t db = Ok db' ->
  ad_grants db' = ad_grants db /\ ad_providers db' = ad_providers db /\ ad_events db' = ad_events db.
Proof.
  unfold pinTenant. destruct (ad_orgs db !! org) as [o|]; [|done].
  destruct (og_Tenant o) as [x|]; [destruct (String.eqb x t); [|done]|]; by intros [= <-].
Qed.

Lemma outcome_wf env o db r db' :
  db_wf db -> fresh env db ->
  outcome_purpose o = SSOGrantPurposeSSOWrite \/ outcome_purpose o = SSOGrantPurposeLLMOrgKeyWrite ->
  RecordSSOStepupOutcome env o db = (r, db') -> db_wf db'.
Proof.
  intros W Hf Hp H. apply RecordOutcome_inv in H as [(d1 & db2 & _ & Hg & Hev & ->)|[_ ->]]; [|done].
  eapply wf_event; [|exact Hev]. destruct (so_Granted o).
  - destruct Hg as (org & pinned & _ & P & I & _).
    assert (Wp : db_wf pinned /\ ad_grants pinned = ad_grants db /\ ad_providers pinned = ad_providers db).
    { destruct (String.eqb (so_PinTenant o) ""); [by injection P as <-|].
      split; [by eapply wf_pin|]. by apply pin_rest in P as (-> & -> & _). }
    destruct Wp as (Wp & Eg & Ep).
    assert (Fp : fresh env pinned) by (unfold fresh; rewrite Eg, Ep; exact Hf).
    pose proof (wf_issue env (so_UserID o) org (so_Provider o) (outcome_purpose o) (so_Now o) pinned Wp Fp Hp) as Wi.
    by rewrite I in Wi.
  - by destruct Hg as [-> _].
Qed.

Lemma op_wf `{L : !VaultLaws V} op db : db_wf db -> fresh (op_env op) db -> op_ok op -> db_wf (apply_op op db).
Proof.
  intros W Hf Hok. destruct op as [env o|env u g p now|env w a g via|env p a g via|env d a g via]; cbn [apply_op op_env op_ok] in *.
  - destruct (RecordSSOStepupOutcome env o db) as [r db'] eqn:E. by eapply outcome_wf.
  - unfold ConsumeSSOStepupGrant. destruct (consumeGrant u g p now db) as [id db'] eqn:E.
    destruct (transact _ _ _) as [r db2] eqn:T. cbn [snd].
    apply transact_inv in T as [(x & c & [= <- <-] & _ & _ & ->)|[_ ->]]; [|done]. by eapply wf_consume.
  - unfold SaveOIDCProviderRecorded. destruct (transact _ _ _) as [r db2] eqn:T. cbn [snd].
    apply transact_inv in T as [(x & c & E & _ & _ & ->)|[_ ->]]; [|done].
    apply recorded_write_Ok in E as (ins & db1 & db3 & E & -> & Ev). cbn [default from_option id].
    eapply wf_event; [|exact Ev]. by eapply wf_save.
  - unfold UpsertSSOProviderRecorded. destruct (transact _ _ _) as [r db2] eqn:T. cbn [snd].
    apply transact_inv in T as [(x & c & E & _ & _ & ->)|[_ ->]]; [|done].
    apply recorded_write_Ok in E as (ins & db1 & db3 & E & -> & Ev). cbn [default from_option id].
    eapply wf_event; [|exact Ev]. by eapply wf_upsert.
  - unfold DeleteSSOProviderRecorded. destruct (transact _ _ _) as [r db2] eqn:T. cbn [snd].
    apply transact_inv in T as [(x & c & E & _ & _ & ->)|[_ ->]]; [|done].
    destruct (List.find _ _) as [row|]; [|by injection E as <- <-].
    destruct (insertSSOEvent _ _ _ _ _ _) as [db3|] eqn:Ev; [|done]. cbn [rbind] in E. injection E as <- <-.
    cbn [default from_option id]. eapply wf_event; [|exact Ev]. by apply wf_delete_rows.
Qed.
End Ops.

(** ** Counting proofs *)

(** The grants of a user, an organisation and a purpose that are not spent. *)
Definition mine (user org : uuid) (purpose : string) (g : Grant) : bool :=
  String.eqb (gr_UserID g) user && String.eqb (gr_OrgID g) org && String.eqb (gr_Purpose g) purpose.

Definition unspent (user org : uuid) (purpose : string) (g : Grant) : bool :=
  mine user org purpose g && (match gr_ConsumedAt g with None => true | Some _ => false end).

Definition count_unspent (user org : uuid) (purpose : string) (db : AdminDB) : nat :=
  length (keep (unspent user org purpose) (ad_grants db)).

Lemma live_unspent user org purpose now g :
  live_for user org purpose now g = unspent user org purpose g && (now <? gr_ExpiresAt g).
Proof. reflexivity. Qed.

Lemma consume_mine u g p id now x : mine u g p (consume id now x) = mine u g p x.
Proof. unfold consume, mine. by destruct (String.eqb (gr_ID x) id). Qed.

(** Marking the one grant with this identifier lowers the count by one when it
    counts, and leaves it otherwise. *)
Lemma count_consume u g p id now l x :
  NoDup (map gr_ID l) -> x ∈ l -> gr_ID x = id -> gr_ConsumedAt x = None ->
  length (keep (unspent u g p) l)
  = (length (keep (unspent u g p) (map (consume id now) l)) + if mine u g p x then 1 else 0)%nat.
Proof.
  intros Hnd Hx Hid Hc. induction l as [|y l IH]; [by apply elem_of_nil in Hx|].
  cbn [map] in Hnd. apply NoDup_cons in Hnd as [Hn Hnd].
  assert (Hrest : forall k, id ∉ map gr_ID k -> map (consume id now) k = k).
  { induction k as [|z k IHk]; [done|]. cbn [map]. intros Hk. apply not_elem_of_cons in Hk as [H1 H2].
    rewrite IHk by done. unfold consume. destruct (String.eqb_spec (gr_ID z) id) as [E|]; [by destruct H1|done]. }
  assert (Ey : unspent u g p (consume id now y) = if String.eqb (gr_ID y) id then false else unspent u g p y).
  { unfold unspent. rewrite consume_mine. unfold consume. destruct (String.eqb (gr_ID y) id); [|done].
    cbn [gr_ConsumedAt]. by rewrite andb_false_r. }
  cbn [map]. unfold keep in *. cbn [List.filter]. rewrite Ey.
  apply elem_of_cons in Hx as [<-|Hx].
  - rewrite Hid, String.eqb_refl. rewrite Hrest by congruence. unfold unspent at 1. rewrite Hc, andb_true_r.
    destruct (mine u g p x); cbn; lia.
  - assert (Hne : gr_ID y <> id).
    { intros E. apply Hn. rewrite E, <- Hid. apply (list_elem_of_fmap_2 gr_ID _ _ Hx). }
    apply String.eqb_neq in Hne. rewrite Hne. specialize (IH Hnd Hx).
    destruct (unspent u g p y); cbn [length]; lia.
Qed.

Lemma consumeGrant_count u g p u' g' p' now db id db' :
  db_wf db -> consumeGrant u' g' p' now db = (Some id, db') ->
  count_unspent u g p db
  = (count_unspent u g p db'
     + if String.eqb u' u && String.eqb g' g && String.eqb p' p then 1 else 0)%nat.
Proof.
  intros W (x & Hx & Hid & Hl & _ & ->)%consumeGrant_Some. unfold count_unspent.
  rewrite live_unspent in Hl. apply andb_true_iff in Hl as [Hu _]. unfold unspent in Hu.
  apply andb_true_iff in Hu as [Hm Hc].
  destruct (gr_ConsumedAt x) eqn:Hnone; [discriminate Hc|].
  rewrite (count_consume u g p id now _ x (wf_grants _ W) Hx Hid Hnone).
  cbn [ad_grants set_grants]. do 2 f_equal. unfold mine in *.
  apply andb_true_iff in Hm as [[->%String.eqb_eq ->%String.eqb_eq]%andb_true_iff ->%String.eqb_eq]. done.
Qed.

Lemma issue_count u g p env user org provider purpose now db :
  count_unspent u g p (snd (issueGrant env user org provider purpose now db))
  = (count_unspent u g p db
     + if String.eqb user u && String.eqb org g && String.eqb purpose p then 1 else 0)%nat.
Proof.
  unfold count_unspent. cbn [issueGrant snd ad_grants set_grants]. rewrite keep_app, length_app.
  unfold keep at 2, unspent, mine. cbn [List.filter gr_UserID gr_OrgID gr_Purpose gr_ConsumedAt].
  rewrite andb_true_r. by destruct (_ && _ && _).
Qed.

(** ** Properties *)

Section Properties.
Context {V : Vault} {L : VaultLaws V}.

(** The tables keep their type under every operation: identifiers and domains
    unique, domains stored lower-cased, every grant for ten minutes and for
    one of the two purposes, every event with an actor. *)
Theorem admin_tables_wf ops db :
  db_wf db ->
  (forall pre op post, ops = (pre ++ op :: post)%list ->
     op_ok op /\ fresh (op_env op) (fold_left (fun d o => apply_op o d) pre db)) ->
  db_wf (fold_left (fun d o => apply_op o d) ops db).
Proof.
  intros W. induction ops as [|op ops IH] using rev_ind; intros H; [done|].
  rewrite fold_left_app. cbn [fold_left]. destruct (H ops op []) as [Hok Hf]; [done|].
  apply op_wf; [|done..]. apply IH. intros pre o post ->. apply (H pre o (post ++ [op])%list).
  by rewrite <- app_assoc.
Qed.

(** Replacing a configuration keeps its identifier and whether it is active;
    a secret left out stays the stored text, byte for byte, and only for the
    same issuer and client id; a secret given opens to what was given; the
    SAML values go; and the write is recorded once.  A write that is refused
    or fails changes nothing and records nothing. *)
Theorem save_replace_keeps env w actor org via db r res db' :
  List.find (domain_is (ToLower (ow_Domain w))) (ad_providers db) = Some r ->
  SaveOIDCProviderRecorded env w actor org via db = (res, db') ->
  match res with
  | Err _ => db' = db
  | Ok p =>
      exists r', pr_row p = r' /\ sp_ID r' = sp_ID r /\ sp_Enabled r' = sp_Enabled r
        /\ sp_Issuer r' = ow_Issuer w /\ sp_ClientID r' = ow_ClientID w
        /\ sp_RawCert r' = "" /\ sp_RawSecret r' <> ""
        /\ match ow_Secret w with
           | None => sp_RawSecret r' = sp_RawSecret r /\ sp_Issuer r' = sp_Issuer r /\ sp_ClientID r' = sp_ClientID r
           | Some s => v_open (bindSSO "oidc_client_secret" (sp_ID r')) (sp_RawSecret r') = Ok s
           end
        /\ ad_providers db' = map (put_row r') (ad_providers db)
        /\ ad_events db' = (ad_events db ++ [{| ev_ID := tx_event env; ev_UserID := actor; ev_OrgID := Some org;
             ev_Kind := SSOEventProviderWritten; ev_Details := ProviderWritten org (sp_ID r) "update" via;
             ev_CreatedAt := tx_now env |}])%list
  end.
Proof.
  intros F H. unfold SaveOIDCProviderRecorded in H.
  apply transact_inv in H as [(p & c & E & _ & -> & ->)|[[e ->] ->]]; [|done].
  apply recorded_write_Ok in E as (ins & db1 & db2 & E & -> & Ev).
  destruct (saveOIDC_replace _ _ _ _ _ _ _ L F E) as (-> & raw & Hs & -> & ->).
  apply insertSSOEvent_Ok in Ev as [_ ->]. cbn [default from_option id].
  rewrite openSecrets_row. exists (replaced env r w raw).
  assert (Hraw : raw <> "").
  { unfold secret_after in Hs. destruct (ow_Secret w) as [s|]; [|tauto].
    destruct Hs as [Hs1 Hs2]. by eapply v_seal_nonempty. }
  repeat split; try done. unfold secret_after in Hs.
  destruct (ow_Secret w) as [s|]; [by apply v_seal_open, Hs|].
  destruct Hs as (-> & _ & _ & Hi & Hc). cbn [replaced oidc_row sp_Issuer sp_ClientID sp_RawSecret].
  by rewrite Hi, Hc.
Qed.

(** A step-up outcome is all or nothing: granted, it issues one grant that is
    live for ten minutes from now for exactly its user, organisation and
    purpose, pins the tenant asked for and records it; denied, it records the
    reason and issues nothing; a failure, a tenant pinned elsewhere included,
    leaves every table as it was. *)
Theorem outcome_all_or_nothing env o db res db' :
  RecordSSOStepupOutcome env o db = (res, db') ->
  match res with
  | Err _ => db' = db
  | Ok g =>
      ad_events db' = (ad_events db ++ [{| ev_ID := tx_event env; ev_UserID := so_UserID o; ev_OrgID := so_OrgID o;
        ev_Kind := SSOEventStepup; ev_Details := outcome_details o; ev_CreatedAt := tx_now env |}])%list
      /\ if so_Granted o then
           exists org x, so_OrgID o = Some org /\ g = Some x /\ ad_grants db' = (ad_grants db ++ [x])%list
             /\ (forall u a p now, so_Now o <= now < so_Now o + 10 * Minute ->
                  live_for u a p now x = mine u a p x)
             /\ mine (so_UserID o) org (outcome_purpose o) x = true
             /\ (so_PinTenant o <> "" -> GetOrgMSTenantID db' org = Some (so_PinTenant o))
         else g = None /\ ad_grants db' = ad_grants db /\ ad_orgs db' = ad_orgs db
  end.
Proof.
  intros H. apply RecordOutcome_inv in H as [(d1 & db2 & _ & Hg & Ev & ->)|[[e ->] ->]]; [|done].
  apply insertSSOEvent_Ok in Ev as [_ ->]. destruct (so_Granted o).
  - destruct Hg as (org & pinned & Ho & P & I & ->).
    assert (Hp : ad_grants pinned = ad_grants db /\ ad_events pinned = ad_events db
              /\ (so_PinTenant o <> "" -> GetOrgMSTenantID pinned org = Some (so_PinTenant o))).
    { destruct (String.eqb_spec (so_PinTenant o) ""); [injection P as <-; by repeat split|].
      destruct (pin_rest _ _ _ _ P) as (E1 & _ & E2). repeat split; try done. intros _.
      unfold pinTenant in P. destruct (ad_orgs db !! org) as [x|] eqn:Hx; [|done].
      destruct (og_Tenant x) as [t|] eqn:T.
      - destruct (String.eqb_spec t (so_PinTenant o)) as [->|]; [|done]. injection P as <-.
        unfold GetOrgMSTenantID. by rewrite Hx, T.
      - injection P as <-. unfold GetOrgMSTenantID. cbn [ad_orgs set_orgs]. by rewrite lookup_insert_eq. }
    destruct Hp as (E1 & E2 & E3). unfold issueGrant in I. injection I as I1 I2.
    rewrite <- I2. cbn [ad_events set_events set_grants]. split; [by rewrite E2|].
    exists org, d1.1. rewrite <- I1. cbn [set_grants ad_grants set_events]. rewrite E1.
    repeat split; try done.
    + intros u a p now Hn. unfold live_for, mine, SSOStepupGrantTTL. cbn [gr_UserID gr_OrgID gr_Purpose gr_ConsumedAt gr_ExpiresAt].
      rewrite (proj2 (Z.ltb_lt _ _)) by lia. by rewrite !andb_true_r.
    + unfold mine. cbn [gr_UserID gr_OrgID gr_Purpose]. by rewrite !String.eqb_refl.
  - destruct Hg as [-> ->]. by repeat split.
Qed.
End Properties.

(** ** Witnesses *)

Module Demo.
Definition vault : Vault := process_vault (A := Toy.aead) (Some Toy.ring) (Ok tt) Toy.nonce ∅.
Lemma vault_laws : VaultLaws vault.
Proof. apply (process_vault_laws (L := Toy.laws) Toy.ring (Ok tt) Toy.nonce ∅ Toy.entry); vm_compute; repeat split; reflexivity || discriminate. Qed.

Definition env (n : string) : TxEnv :=
  {| tx_event := "event-" +:+ n; tx_grant := "grant-" +:+ n; tx_provider := "sso-" +:+ n; tx_now := 1000; tx_fails := false |}.
Definition db : AdminDB :=
  {| ad_users := {["u1" := {| us_ID := "u1"; us_Email := "ann@example.com"; us_OrgID := Some "o1" |}]};
     ad_orgs := {["o1" := {| og_ID := "o1"; og_Domain := "example.com"; og_Tenant := None |}]};
     ad_grants := []; ad_events := []; ad_providers := []; ad_orgai := ∅; ad_confirms := ∅ |}.
Definition outcome : Outcome :=
  {| so_UserID := "u1"; so_OrgID := Some "o1"; so_Provider := "microsoft"; so_Granted := true; so_Reason := "";
     so_PinTenant := "tenant"; so_Purpose := SSOGrantPurposeLLMOrgKeyWrite; so_Now := 1000 |}.
Definition created : OIDCWrite :=
  {| ow_Domain := "Example.com"; ow_Name := "Entra"; ow_Issuer := "https://issuer"; ow_ClientID := "id"; ow_Secret := Some "s3cret" |}.
Definition kept : OIDCWrite :=
  {| ow_Domain := "example.com"; ow_Name := "Entra 2"; ow_Issuer := "https://issuer"; ow_ClientID := "id"; ow_Secret := None |}.
Definition ops : list AdminOp := [OpStepup (env "1") outcome; OpSave (env "2") created "u1" "o1" "stepup"].
Definition after : AdminDB := fold_left (fun d o => apply_op (V := vault) o d) ops db.
End Demo.
#[local] Existing Instances Demo.vault Demo.vault_laws.

Lemma demo_wf : db_wf Demo.db.
Proof. split; [apply NoDup_nil_2|intros ? ?%elem_of_nil; done|apply NoDup_nil_2|apply NoDup_nil_2|intros ? ?%elem_of_nil; done..]. Qed.

Lemma admin_tables_wf_witness : db_wf Demo.after.
Proof.
  apply (admin_tables_wf Demo.ops Demo.db demo_wf). intros pre op post E.
  destruct pre as [|o1 [|o2 pre]]; [|..].
  - injection E as <- _. split; [by right|]. vm_compute. split; by intros ?%elem_of_nil.
  - injection E as <- <- _. split; [done|]. vm_compute. split; [|by intros ?%elem_of_nil].
    intros H%list_elem_of_singleton. discriminate H.
  - injection E as _ _ E. by destruct pre.
Defined.

Lemma save_replace_keeps_witness :
  exists r p db', List.find (domain_is "example.com") (ad_providers Demo.after) = Some r
    /\ SaveOIDCProviderRecorded (Demo.env "3") Demo.kept "u1" "o1" "breakglass" Demo.after = (Ok p, db')
    /\ sp_RawSecret (pr_row p) = sp_RawSecret r /\ sp_ID (pr_row p) = sp_ID r.
Proof.
  destruct (List.find (domain_is "example.com") (ad_providers Demo.after)) as [r|] eqn:F; [|vm_compute in F; discriminate F].
  destruct (SaveOIDCProviderRecorded (Demo.env "3") Demo.kept "u1" "o1" "breakglass" Demo.after) as [[p|e] db'] eqn:S;
    [|vm_compute in S; discriminate S].
  exists r, p, db'. split; [done|]. split; [done|].
  destruct (save_replace_keeps (Demo.env "3") Demo.kept "u1" "o1" "breakglass" Demo.after r (Ok p) db' F S)
    as (r' & -> & E1 & _ & _ & _ & _ & _ & [E2 _] & _).
  split; [exact E2|exact E1].
Defined.

Lemma outcome_all_or_nothing_witness :
  exists g db', RecordSSOStepupOutcome (Demo.env "1") Demo.outcome Demo.db = (Ok (Some g), db')
    /\ ad_grants db' = [g] /\ GetOrgMSTenantID db' "o1" = Some "tenant".
Proof.
  destruct (RecordSSOStepupOutcome (Demo.env "1") Demo.outcome Demo.db) as [[[g|]|e] db'] eqn:S;
    [|vm_compute in S; discriminate S..].
  exists g, db'. split; [done|].
  destruct (outcome_all_or_nothing (Demo.env "1") Demo.outcome Demo.db (Ok (Some g)) db' S)
    as (_ & org & x & E & Eg & Hg & _ & _ & Hp). injection E as <-. injection Eg as <-. split; [exact Hg|].
  apply Hp. discriminate.
Defined.
