(* ===== verification/OrgAI.v ===== *)
(** * The organisation's AI configuration

    storage/org_ai.go (the configuration of an organisation, each member's
    confirmation of one version of it, the write that spends an
    administrator's proof) and api/handlers_org_ai.go (the three operations of
    /api/organization/ai).  A transaction is one step on the tables; a handler
    is its reads and its write on the tables as they are at each of them. *)

From S2P Require Import Prelude GoInt GoTime GoText GoEncoding GoURL SecretBox SecretStore Destinations AdminStore.

#[local] Open Scope string_scope.
#[local] Open Scope Z_scope.

(** ** The configuration (storage/org_ai.go) *)

Definition OrgAIPropProvider := "provider".
Definition OrgAIPropModel := "model".
Definition OrgAIPropAPIKey := "apiKey".
Definition OrgAIPropBaseURL := "baseUrl".
Definition OrgAIPropAzureEndpoint := "azureEndpoint".
Definition OrgAIPropAzureDeployment := "azureDeployment".
Definition OrgAIPropAzureAPIVersion := "azureApiVersion".
Definition OrgAIPropAWSRegion := "awsRegion".
Definition OrgAIPropPersonalKeysAllowed := "personalKeysAllowed".

Record OrgAIConfig := {
  c_Provider : string;
  c_Model : string;
  c_BaseURL : string;
  c_AzureEndpoint : string;
  c_AzureDeployment : string;
  c_AzureAPIVersion : string;
  c_AWSRegion : string;
  c_APIKey : string;
  c_PersonalKeysAllowed : bool;
  c_Version : Z;
  c_UpdatedAt : option Z;
  c_rawKey : string;
  c_keyErr : option DecryptError }.

Definition defaultOrgAIConfig : OrgAIConfig :=
  {| c_Provider := ""; c_Model := ""; c_BaseURL := ""; c_AzureEndpoint := ""; c_AzureDeployment := "";
     c_AzureAPIVersion := ""; c_AWSRegion := ""; c_APIKey := ""; c_PersonalKeysAllowed := true;
     c_Version := 0; c_UpdatedAt := None; c_rawKey := ""; c_keyErr := None |}.

Definition is_some {A} (o : option A) : bool := match o with Some _ => true | None => false end.

Definition KeyPresent (c : OrgAIConfig) : bool := negb (String.eqb (c_APIKey c) "") || is_some (c_keyErr c).

Definition Complete (c : OrgAIConfig) : bool :=
  if String.eqb (c_Provider c) "" || negb (KeyPresent c) then false
  else if String.eqb (c_Provider c) "azure_openai"
  then negb (String.eqb (c_AzureEndpoint c) "") && negb (String.eqb (c_AzureDeployment c) "")
  else true.

(** One consistent read for a user. *)
Record OrgAIState := { os_OrgID : option uuid; os_Config : OrgAIConfig; os_Confirmed : Z }.

Definition InOrg (s : OrgAIState) : bool := is_some (os_OrgID s).
Definition Forbids (s : OrgAIState) : bool := InOrg s && negb (c_PersonalKeysAllowed (os_Config s)).
Definition Confirmed (s : OrgAIState) : bool :=
  InOrg s && negb (os_Confirmed s =? 0) && (os_Confirmed s =? c_Version (os_Config s)).

(** A row never written: the defaults of the columns. *)
Definition new_row : OrgAIRow :=
  {| oa_Provider := ""; oa_Model := ""; oa_BaseURL := ""; oa_AzureEndpoint := ""; oa_AzureDeployment := "";
     oa_AzureAPIVersion := ""; oa_AWSRegion := ""; oa_RawKey := ""; oa_PersonalKeysAllowed := true;
     oa_Version := 0; oa_UpdatedAt := None; oa_UpdatedBy := None |}.

(** A change as the body states it: [None] leaves the value. *)
Record OrgAIPatch := {
  p_Provider : option string;
  p_Model : option string;
  p_APIKey : option string;
  p_BaseURL : option string;
  p_AzureEndpoint : option string;
  p_AzureDeployment : option string;
  p_AzureAPIVersion : option string;
  p_AWSRegion : option string;
  p_PersonalKeysAllowed : option bool }.

Definition no_patch : OrgAIPatch :=
  {| p_Provider := None; p_Model := None; p_APIKey := None; p_BaseURL := None; p_AzureEndpoint := None;
     p_AzureDeployment := None; p_AzureAPIVersion := None; p_AWSRegion := None; p_PersonalKeysAllowed := None |}.

Definition provider_changed (p : OrgAIPatch) (stored : OrgAIConfig) : bool :=
  match p_Provider p with Some v => negb (String.eqb v (c_Provider stored)) | None => false end.

(** A provider change replaces every value but the personal-keys setting, the
    version and the time. *)
Definition merge_base (p : OrgAIPatch) (stored : OrgAIConfig) : OrgAIConfig :=
  if provider_changed p stored then
    {| c_Provider := default "" (p_Provider p); c_Model := ""; c_BaseURL := ""; c_AzureEndpoint := "";
       c_AzureDeployment := ""; c_AzureAPIVersion := ""; c_AWSRegion := ""; c_APIKey := "";
       c_PersonalKeysAllowed := c_PersonalKeysAllowed stored; c_Version := c_Version stored;
       c_UpdatedAt := c_UpdatedAt stored; c_rawKey := ""; c_keyErr := None |}
  else stored.

Definition pick {A} (v : option A) (old : A) : A := match v with Some x => x | None => old end.

(** The values after the patch, the version aside. *)
Definition merge_values (p : OrgAIPatch) (stored : OrgAIConfig) : OrgAIConfig :=
  let b := merge_base p stored in
  {| c_Provider := c_Provider b; c_Model := pick (p_Model p) (c_Model b);
     c_BaseURL := pick (p_BaseURL p) (c_BaseURL b);
     c_AzureEndpoint := pick (p_AzureEndpoint p) (c_AzureEndpoint b);
     c_AzureDeployment := pick (p_AzureDeployment p) (c_AzureDeployment b);
     c_AzureAPIVersion := pick (p_AzureAPIVersion p) (c_AzureAPIVersion b);
     c_AWSRegion := pick (p_AWSRegion p) (c_AWSRegion b);
     c_APIKey := pick (p_APIKey p) (c_APIKey b);
     c_PersonalKeysAllowed := pick (p_PersonalKeysAllowed p) (c_PersonalKeysAllowed b);
     c_Version := c_Version b; c_UpdatedAt := c_UpdatedAt b;
     c_rawKey := match p_APIKey p with Some _ => "" | None => c_rawKey b end;
     c_keyErr := match p_APIKey p with Some _ => None | None => c_keyErr b end |}.

Definition differ (name : string) (old new : string) : list string :=
  if String.eqb old new then [] else [name].

Definition dest_changes (stored next : OrgAIConfig) : list string :=
  (differ OrgAIPropBaseURL (c_BaseURL stored) (c_BaseURL next)
   ++ differ OrgAIPropAzureEndpoint (c_AzureEndpoint stored) (c_AzureEndpoint next)
   ++ differ OrgAIPropAzureDeployment (c_AzureDeployment stored) (c_AzureDeployment next)
   ++ differ OrgAIPropAzureAPIVersion (c_AzureAPIVersion stored) (c_AzureAPIVersion next)
   ++ differ OrgAIPropAWSRegion (c_AWSRegion stored) (c_AWSRegion next))%list.

Definition key_written (p : OrgAIPatch) (stored : OrgAIConfig) : bool :=
  is_some (p_APIKey p) || (provider_changed p stored && KeyPresent stored).

Definition set_version (c : OrgAIConfig) (v : Z) (at_ : option Z) : OrgAIConfig :=
  {| c_Provider := c_Provider c; c_Model := c_Model c; c_BaseURL := c_BaseURL c;
     c_AzureEndpoint := c_AzureEndpoint c; c_AzureDeployment := c_AzureDeployment c;
     c_AzureAPIVersion := c_AzureAPIVersion c; c_AWSRegion := c_AWSRegion c; c_APIKey := c_APIKey c;
     c_PersonalKeysAllowed := c_PersonalKeysAllowed c; c_Version := v; c_UpdatedAt := at_;
     c_rawKey := c_rawKey c; c_keyErr := c_keyErr c |}.

(** [OrgAIPatch.Merge]: the configuration after the change and the names of
    what changed. *)
Definition Merge (p : OrgAIPatch) (stored : OrgAIConfig) : OrgAIConfig * list string :=
  let next := merge_values p stored in
  let dests := dest_changes stored next in
  let changed := (differ OrgAIPropProvider (c_Provider stored) (c_Provider next)
                  ++ differ OrgAIPropModel (c_Model stored) (c_Model next) ++ dests
                  ++ (if key_written p stored then [OrgAIPropAPIKey] else [])
                  ++ (if Bool.eqb (c_PersonalKeysAllowed stored) (c_PersonalKeysAllowed next) then []
                      else [OrgAIPropPersonalKeysAllowed]))%list in
  let bump := provider_changed p stored || key_written p stored || negb (bool_decide (dests = [])) in
  (if bump then set_version next (c_Version stored + 1) (c_UpdatedAt next) else next, changed).

Inductive WriteStatus := OrgAIStored | OrgAIConflict | OrgAIStepupRequired | OrgAIFreshLoginRequired.

#[global] Instance WriteStatus_eq_dec : EqDecision WriteStatus.
Proof. solve_decision. Defined.

Record OrgAIWrite := {
  w_UserID : uuid;
  w_OrgID : uuid;
  w_Expected : Z;
  w_Patch : OrgAIPatch;
  w_BreakGlass : bool;
  w_SessionFresh : bool;
  w_SessionIAT : Z;
  w_Now : Z }.

Record WriteOutcome := { wo_Status : WriteStatus; wo_Config : OrgAIConfig; wo_Via : string; wo_Changed : list string }.

Definition unix (t : Z) : Z := t / Second.

(** The key of the partial unique index on break-glass changes. *)
Definition breakglass_key (e : Event) : option (uuid * Z) :=
  match ev_Details e with
  | OrgAIWritten _ via _ _ (Some iat) =>
      if String.eqb (ev_Kind e) SSOEventLLMOrgAIWritten && String.eqb via "breakglass"
      then Some (ev_UserID e, iat) else None
  | _ => None
  end.

Definition set_details (id : uuid) (d : Details) (e : Event) : Event :=
  if String.eqb (ev_ID e) id
  then {| ev_ID := ev_ID e; ev_UserID := ev_UserID e; ev_OrgID := ev_OrgID e; ev_Kind := ev_Kind e;
          ev_Details := d; ev_CreatedAt := ev_CreatedAt e |}
  else e.

Section Store.
Context {V : Vault}.

(** [orgAIScan.config], for an organisation's row, if any. *)
Definition config (org : uuid) (row : option OrgAIRow) : OrgAIConfig :=
  match row with
  | None => defaultOrgAIConfig
  | Some r =>
      let '(key, err) := open_or_empty (bindOrgAI org) (oa_RawKey r) in
      {| c_Provider := oa_Provider r; c_Model := oa_Model r; c_BaseURL := oa_BaseURL r;
         c_AzureEndpoint := oa_AzureEndpoint r; c_AzureDeployment := oa_AzureDeployment r;
         c_AzureAPIVersion := oa_AzureAPIVersion r; c_AWSRegion := oa_AWSRegion r; c_APIKey := key;
         c_PersonalKeysAllowed := oa_PersonalKeysAllowed r; c_Version := oa_Version r;
         c_UpdatedAt := oa_UpdatedAt r; c_rawKey := oa_RawKey r; c_keyErr := err |}
  end.

Definition GetOrgAIConfig (db : AdminDB) (org : uuid) : OrgAIConfig := config org (ad_orgai db !! org).

(** [ReadOrgAIState]: a user without a row is in no organisation. *)
Definition ReadOrgAIState (db : AdminDB) (user : uuid) : OrgAIState :=
  match ad_users db !! user with
  | None => {| os_OrgID := None; os_Config := defaultOrgAIConfig; os_Confirmed := 0 |}
  | Some u =>
      match us_OrgID u with
      | None => {| os_OrgID := None; os_Config := defaultOrgAIConfig; os_Confirmed := 0 |}
      | Some org =>
          {| os_OrgID := Some org; os_Config := GetOrgAIConfig db org;
             os_Confirmed := match ad_confirms db !! (user, org) with Some (v, _) => v | None => 0 end |}
      end
  end.

(** The row a configuration is stored as. *)
Definition row_of (c : OrgAIConfig) (raw : string) (now : Z) (by_ : uuid) : OrgAIRow :=
  {| oa_Provider := c_Provider c; oa_Model := c_Model c; oa_BaseURL := c_BaseURL c;
     oa_AzureEndpoint := c_AzureEndpoint c; oa_AzureDeployment := c_AzureDeployment c;
     oa_AzureAPIVersion := c_AzureAPIVersion c; oa_AWSRegion := c_AWSRegion c; oa_RawKey := raw;
     oa_PersonalKeysAllowed := c_PersonalKeysAllowed c; oa_Version := c_Version c;
     oa_UpdatedAt := Some now; oa_UpdatedBy := Some by_ |}.

(** The stored text of the key: kept byte for byte, or sealed for this
    organisation. *)
Definition key_text (org : uuid) (next stored : OrgAIConfig) : res StoreError string :=
  if negb (is_some (c_keyErr next))
     && (String.eqb (c_rawKey next) "" || negb (String.eqb (c_APIKey next) (c_APIKey stored)))
  then seal_or (bindOrgAI org) (c_APIKey next)
  else Ok (c_rawKey next).

(** Step 3: how the change is authorised, and the tables with the proof
    spent; or the refusal. *)
Definition authorize (env : TxEnv) (w : OrgAIWrite) (db : AdminDB) : WriteStatus + (string * AdminDB) :=
  match consumeGrant (w_UserID w) (w_OrgID w) SSOGrantPurposeLLMOrgKeyWrite (w_Now w) db with
  | (Some _, db1) => inr ("stepup", db1)
  | (None, db1) =>
      if w_BreakGlass w && w_SessionFresh w then
        let iat := unix (w_SessionIAT w) in
        if existsb (fun e => bool_decide (breakglass_key e = Some (w_UserID w, iat))) (ad_events db1)
        then inl OrgAIFreshLoginRequired
        else inr ("breakglass", set_events (fun l => (l ++ [{| ev_ID := tx_event env; ev_UserID := w_UserID w;
                    ev_OrgID := Some (w_OrgID w); ev_Kind := SSOEventLLMOrgAIWritten;
                    ev_Details := OrgAIWritten (w_OrgID w) "breakglass" [] 0 (Some iat);
                    ev_CreatedAt := tx_now env |}])%list) db1)
      else if w_BreakGlass w then inl OrgAIFreshLoginRequired else inl OrgAIStepupRequired
  end.

(** The operator's record: the claimed event completed, or a new one. *)
Definition record_write (env : TxEnv) (w : OrgAIWrite) (via : string) (changed : list string) (version : Z)
  (db : AdminDB) : res StoreError AdminDB :=
  if String.eqb via "breakglass" then
    Ok (set_events (map (set_details (tx_event env)
          (OrgAIWritten (w_OrgID w) via changed version (Some (unix (w_SessionIAT w)))))) db)
  else insertSSOEvent env (w_UserID w) (Some (w_OrgID w)) SSOEventLLMOrgAIWritten
         (OrgAIWritten (w_OrgID w) via changed version None) db.

(** The configuration a write answers. *)
Definition stored_config (c : OrgAIConfig) (raw : string) (now : Z) : OrgAIConfig :=
  {| c_Provider := c_Provider c; c_Model := c_Model c; c_BaseURL := c_BaseURL c;
     c_AzureEndpoint := c_AzureEndpoint c; c_AzureDeployment := c_AzureDeployment c;
     c_AzureAPIVersion := c_AzureAPIVersion c; c_AWSRegion := c_AWSRegion c; c_APIKey := c_APIKey c;
     c_PersonalKeysAllowed := c_PersonalKeysAllowed c; c_Version := c_Version c; c_UpdatedAt := Some now;
     c_rawKey := raw; c_keyErr := c_keyErr c |}.

Definition refused (s : WriteStatus) (c : OrgAIConfig) : WriteOutcome :=
  {| wo_Status := s; wo_Config := c; wo_Via := ""; wo_Changed := [] |}.

(** [WriteOrgAIConfig], one transaction. *)
Definition WriteOrgAIConfig (env : TxEnv) (w : OrgAIWrite) (db : AdminDB) : res StoreError WriteOutcome * AdminDB :=
  transact env db (
    match authorize env w db with
    | inl s => Ok (refused s defaultOrgAIConfig, None)
    | inr (via, db1) =>
        let row := default new_row (ad_orgai db1 !! w_OrgID w) in
        let stored := config (w_OrgID w) (Some row) in
        if negb (c_Version stored =? w_Expected w) then Ok (refused OrgAIConflict stored, None)
        else
          let '(next, changed) := Merge (w_Patch w) stored in
          raw <-? key_text (w_OrgID w) next stored ;;
          let db2 := set_orgai (<[w_OrgID w := row_of next raw (w_Now w) (w_UserID w)]>) db1 in
          db3 <-? record_write env w via changed (c_Version next) db2 ;;
          Ok ({| wo_Status := OrgAIStored; wo_Config := stored_config next raw (w_Now w);
                 wo_Via := via; wo_Changed := changed |}, Some db3)
    end).

Inductive ConfirmStatus := OrgAIConfirmed | OrgAIConfirmNotConfigured | OrgAIConfirmChanged.

(** [ConfirmOrgAI]. *)
Definition ConfirmOrgAI (env : TxEnv) (user org : uuid) (version now : Z) (db : AdminDB)
  : res StoreError (ConfirmStatus * OrgAIConfig) * AdminDB :=
  let cfg := GetOrgAIConfig db org in
  transact env db (
    if negb (Complete cfg) then Ok ((OrgAIConfirmNotConfigured, cfg), None)
    else if negb (c_Version cfg =? version) then Ok ((OrgAIConfirmChanged, cfg), None)
    else Ok ((OrgAIConfirmed, cfg), Some (set_confirms (<[(user, org) := (version, now)]>) db))).

(** [DeleteOrgAIConfirmations]. *)
Definition DeleteOrgAIConfirmations (env : TxEnv) (user : uuid) (db : AdminDB) : res StoreError unit * AdminDB :=
  transact env db (Ok (tt, Some (set_confirms (fun m => filter (fun kv => kv.1.1 <> user) m) db))).
End Store.

(** ** Facts: the version *)

(** What a version names: the provider, the destination and the key. *)
Definition core (c : OrgAIConfig) : string * string * string * string * string * string * string :=
  (c_Provider c, c_BaseURL c, c_AzureEndpoint c, c_AzureDeployment c, c_AzureAPIVersion c, c_AWSRegion c, c_rawKey c).

Lemma differ_nil n a b : differ n a b = [] <-> a = b.
Proof. unfold differ. by destruct (String.eqb_spec a b). Qed.

Lemma dest_changes_nil a b : dest_changes a b = [] <->
  c_BaseURL a = c_BaseURL b /\ c_AzureEndpoint a = c_AzureEndpoint b /\ c_AzureDeployment a = c_AzureDeployment b
  /\ c_AzureAPIVersion a = c_AzureAPIVersion b /\ c_AWSRegion a = c_AWSRegion b.
Proof. unfold dest_changes. by rewrite !app_nil, !differ_nil. Qed.

Lemma merge_base_same p c : provider_changed p c = false -> merge_base p c = c.
Proof. unfold merge_base. by intros ->. Qed.

(** A merge advances the version by one or keeps everything a version names. *)
Lemma Merge_version p stored next changed : Merge p stored = (next, changed) ->
  c_Version next = c_Version stored + 1
  \/ (c_Version next = c_Version stored /\ core next = core stored
      /\ c_APIKey next = c_APIKey stored /\ c_keyErr next = c_keyErr stored).
Proof.
  unfold Merge. cbn zeta. intros [= <- _]. destruct (provider_changed p stored) eqn:P; [by left|].
  unfold key_written. rewrite P. cbn [andb orb]. destruct (p_APIKey p) as [k|] eqn:K; [by left|].
  cbn [is_some orb]. destruct (bool_decide _) eqn:D; cbn [negb]; [|by left]. right.
  apply bool_decide_eq_true_1, dest_changes_nil in D as (D1 & D2 & D3 & D4 & D5).
  unfold merge_values in *. rewrite K in *. rewrite merge_base_same in * by done. cbn in *.
  unfold core. cbn. rewrite <- D1, <- D2, <- D3, <- D4, <- D5. done.
Qed.

Section StoreFacts.
Context {V : Vault} {L : VaultLaws V}.

Lemma config_raw org row : c_rawKey (config org (Some row)) = oa_RawKey row.
Proof. unfold config. by destruct (open_or_empty _ _). Qed.

Lemma config_version org row : c_Version (config org (Some row)) = oa_Version row.
Proof. unfold config. by destruct (open_or_empty _ _). Qed.

Lemma config_empty_key org row : oa_RawKey row = "" -> c_APIKey (config org (Some row)) = "" /\ c_keyErr (config org (Some row)) = None.
Proof. intros E. unfold config, open_or_empty. by rewrite E, v_open_empty. Qed.

(** A key nobody replaced is stored as it was. *)
Lemma key_text_kept org row next : let stored := config org (Some row) in
  core next = core stored -> c_APIKey next = c_APIKey stored -> c_keyErr next = c_keyErr stored ->
  key_text org next stored = Ok (oa_RawKey row).
Proof.
  cbn zeta. intros C K E.
  assert (R : c_rawKey next = oa_RawKey row) by (unfold core in C; injection C; intros; by rewrite <- (config_raw org)).
  unfold key_text. rewrite K, String.eqb_refl, E, R. cbn [negb]. rewrite orb_false_r.
  destruct (String.eqb_spec (oa_RawKey row) "") as [R0|]; [|by rewrite andb_false_r].
  destruct (config_empty_key org row R0) as [-> ->]. cbn [is_some negb andb].
  unfold seal_or. by rewrite v_seal_empty, R0.
Qed.

(** What the tables hold of an organisation, a missing row being a new one. *)
Definition row_at (db : AdminDB) (org : uuid) : OrgAIRow := default new_row (ad_orgai db !! org).

Definition version_at (db : AdminDB) (org : uuid) : Z := oa_Version (row_at db org).

Definition core_at (db : AdminDB) (org : uuid) :=
  let r := row_at db org in
  (oa_Provider r, oa_BaseURL r, oa_AzureEndpoint r, oa_AzureDeployment r, oa_AzureAPIVersion r, oa_AWSRegion r,
   oa_RawKey r).

Lemma core_config db org : core (config org (Some (row_at db org))) = core_at db org.
Proof. unfold core, core_at, config. by destruct (open_or_empty _ _). Qed.

Lemma GetOrgAIConfig_row db org : GetOrgAIConfig db org = config org (Some (row_at db org)).
Proof.
  unfold GetOrgAIConfig, row_at. destruct (ad_orgai db !! org) as [r|]; [done|].
  cbn [default from_option id config new_row oa_RawKey]. unfold open_or_empty. by rewrite v_open_empty.
Qed.

(** The authorisation touches the grants and the events only. *)
Lemma authorize_tables env w db via db1 : authorize env w db = inr (via, db1) ->
  ad_orgai db1 = ad_orgai db /\ ad_confirms db1 = ad_confirms db /\ ad_users db1 = ad_users db
  /\ ad_orgs db1 = ad_orgs db /\ ad_providers db1 = ad_providers db
  /\ (via = "stepup" \/ via = "breakglass").
Proof.
  unfold authorize. destruct (consumeGrant _ _ _ _ db) as [[id|] db0] eqn:E.
  - apply consumeGrant_Some in E as (g & _ & _ & _ & _ & ->). intros [= <- <-]. by repeat split; try left.
  - apply consumeGrant_None in E as [-> _].
    destruct (w_BreakGlass w && w_SessionFresh w); [|by destruct (w_BreakGlass w)].
    destruct (existsb _ _); [done|]. intros [= <- <-]. by repeat split; try right.
Qed.

Lemma record_write_tables env w via changed v db db' : record_write env w via changed v db = Ok db' ->
  ad_orgai db' = ad_orgai db /\ ad_confirms db' = ad_confirms db /\ ad_users db' = ad_users db
  /\ ad_orgs db' = ad_orgs db /\ ad_providers db' = ad_providers db /\ ad_grants db' = ad_grants db.
Proof.
  unfold record_write. destruct (String.eqb via "breakglass"); [by intros [= <-]|].
  by intros [_ ->]%insertSSOEvent_Ok.
Qed.

(** The outcomes of a write. *)
Lemma Write_cases env w db res db' : WriteOrgAIConfig env w db = (res, db') ->
  (exists via db1 next changed raw db3,
     tx_fails env = false /\ authorize env w db = inr (via, db1)
     /\ version_at db (w_OrgID w) = w_Expected w
     /\ Merge (w_Patch w) (config (w_OrgID w) (Some (row_at db (w_OrgID w)))) = (next, changed)
     /\ key_text (w_OrgID w) next (config (w_OrgID w) (Some (row_at db (w_OrgID w)))) = Ok raw
     /\ record_write env w via changed (c_Version next)
          (set_orgai (<[w_OrgID w := row_of next raw (w_Now w) (w_UserID w)]>) db1) = Ok db3
     /\ res = Ok {| wo_Status := OrgAIStored; wo_Config := stored_config next raw (w_Now w);
                    wo_Via := via; wo_Changed := changed |}
     /\ db' = db3)
  \/ (db' = db /\ ((exists e, res = Err e) \/ (exists o, res = Ok o /\ wo_Status o <> OrgAIStored))).
Proof.
  unfold WriteOrgAIConfig. intros H. apply transact_inv in H as [(x & c & E & Hf & -> & ->)|[He ->]];
    [|right; split; [done|by left]].
  destruct (authorize env w db) as [s|[via db1]] eqn:A.
  - injection E as <- <-. right. split; [done|]. right. eexists. split; [done|]. cbn.
    unfold authorize in A. destruct (consumeGrant _ _ _ _ db) as [[id|] db0]; [done|].
    destruct (w_BreakGlass w && w_SessionFresh w); [destruct (existsb _ _); [by injection A as <-|done]|].
    by destruct (w_BreakGlass w); injection A as <-.
  - pose proof (authorize_tables _ _ _ _ _ A) as (Eo & _).
    rewrite Eo in E. fold (row_at db (w_OrgID w)) in E. cbn zeta in E.
    rewrite config_version in E. fold (version_at db (w_OrgID w)) in E.
    destruct (Z.eqb_spec (version_at db (w_OrgID w)) (w_Expected w)) as [Ev|]; cbn [negb] in E.
    + destruct (Merge _ _) as [next changed] eqn:M. destruct (key_text _ next _) as [raw|] eqn:K; [|done].
      cbn [rbind] in E. destruct (record_write _ _ _ _ _ _) as [db3|] eqn:R; [|done]. cbn [rbind] in E.
      injection E as <- <-. left. by exists via, db1, next, changed, raw, db3.
    + injection E as <- <-. right. split; [done|]. right. by eexists.
Qed.

(** A write keeps or advances the version of its organisation, and keeps what
    the version names when it keeps the version; the others are untouched. *)
Lemma Write_mono env w db res db' org : WriteOrgAIConfig env w db = (res, db') ->
  (version_at db' org = version_at db org + 1 \/ (version_at db' org = version_at db org /\ core_at db' org = core_at db org)).
Proof.
  intros [(via & db1 & next & changed & raw & db3 & _ & A & _ & M & K & R & _ & ->)|[-> _]]%Write_cases; [|by right].
  apply record_write_tables in R as (R & _). apply authorize_tables in A as (A & _).
  assert (Hrow : row_at db3 org = if decide (org = w_OrgID w) then row_of next raw (w_Now w) (w_UserID w) else row_at db org).
  { unfold row_at. rewrite R. cbn [ad_orgai set_orgai]. rewrite A. destruct (decide (org = w_OrgID w)) as [->|];
      [by rewrite lookup_insert_eq|by rewrite lookup_insert_ne]. }
  unfold version_at, core_at. rewrite Hrow. destruct (decide (org = w_OrgID w)) as [->|]; [|by right].
  pose proof (Merge_version _ _ _ _ M) as [E|(E & C & K1 & K2)]; rewrite config_version in E.
  - left. by cbn.
  - right. cbn [row_of oa_Version]. split; [done|].
    rewrite key_text_kept in K by done. injection K as <-.
    pose proof C as C'. unfold core in C'. unfold config in C'. destruct (open_or_empty _ _). cbn in C'.
    injection C' as E1 E2 E3 E4 E5 E6 _. cbn [row_of oa_Provider oa_BaseURL oa_AzureEndpoint oa_AzureDeployment
      oa_AzureAPIVersion oa_AWSRegion oa_RawKey]. by rewrite E1, E2, E3, E4, E5, E6.
Qed.
End StoreFacts.

(** ** The handlers (api/handlers_org_ai.go) *)

(** A decoded JSON value; a number keeps its literal. *)
Inductive Json :=
| JNull
| JBool (b : bool)
| JNum (literal : string)
| JStr (s : string)
| JArr
| JObj.

(** [objectFields], from the members the decoder gives in body order ([None]:
    the body is not exactly one object): the names at their first place, each
    with its last value. *)
Definition objectFields (members : option (list (string * Json))) : option (list string * gmap string Json) :=
  match members with
  | None => None
  | Some l =>
      Some (fold_left (fun acc m =>
              let '(names, values) := acc in
              ((if bool_decide (m.1 ∈ dom values) then names else (names ++ [m.1])%list), <[m.1 := m.2]> values))
            l ([] : list string, ∅ : gmap string Json))
  end.

Definition wholeNumber (v : Json) : option Z :=
  match v with JNum lit => Atoi lit | _ => None end.

Record OrgAIBody := { bd_version : Z; bd_patch : OrgAIPatch; bd_order : list string }.

Definition orgAIStringProps : list string :=
  [OrgAIPropProvider; OrgAIPropModel; OrgAIPropAPIKey; OrgAIPropBaseURL; OrgAIPropAzureEndpoint;
   OrgAIPropAzureDeployment; OrgAIPropAzureAPIVersion; OrgAIPropAWSRegion].

Definition orgAIVersionProp := "configurationVersion".

Definition msgOrgAIInvalidJSON := "invalid JSON".
Definition msgOrgAIVersionRequired := "configurationVersion is required: send the version you were shown".
Definition msgOrgAIVersionNull := "configurationVersion must not be null".
Definition msgOrgAIVersionType := "invalid JSON: configurationVersion has the wrong type".
Definition msgOrgAIVersionNegative := "configurationVersion must be 0 or more".
Definition msgOrgAINothingToChange := "send at least one property to change".
(** Two quotes: the messages name the empty provider, or quote a property. *)
Definition quote1 : string := String (char 34) "".
Definition quote2 : string := quote1 +:+ quote1.
Definition msgOrgAIConfirmBadBody :=
  "invalid request: send {" +:+ quote1 +:+ orgAIVersionProp +:+ quote1 +:+ ": <the version you were shown>}".
Definition msgOrgAIProviderInvalid :=
  "provider must be one of: " +:+ quote2 +:+ ", openai, anthropic, azure_openai, bedrock, vertex".
Definition msgOrgAIRemovalAlone :=
  "provider " +:+ quote2 +:+ " removes the whole configuration; send no other property with it".
Definition msgOrgAIKeyOnChange := "apiKey is required when provider changes".
Definition msgOrgAIChanged :=
  "the organisation's AI configuration changed since you were shown it; review the current configuration".
Definition msgOrgAINotConfiguredYet :=
  "your organisation's AI configuration is not complete, so there is nothing to confirm".

(** [orgAIField], as the patch with the field set. *)
Definition set_field (p : OrgAIPatch) (name s : string) : OrgAIPatch :=
  let at_ n old := if String.eqb name n then Some s else old in
  let last := existsb (String.eqb name)
                [OrgAIPropProvider; OrgAIPropModel; OrgAIPropAPIKey; OrgAIPropBaseURL; OrgAIPropAzureEndpoint;
                 OrgAIPropAzureDeployment; OrgAIPropAzureAPIVersion] in
  {| p_Provider := at_ OrgAIPropProvider (p_Provider p); p_Model := at_ OrgAIPropModel (p_Model p);
     p_APIKey := at_ OrgAIPropAPIKey (p_APIKey p); p_BaseURL := at_ OrgAIPropBaseURL (p_BaseURL p);
     p_AzureEndpoint := at_ OrgAIPropAzureEndpoint (p_AzureEndpoint p);
     p_AzureDeployment := at_ OrgAIPropAzureDeployment (p_AzureDeployment p);
     p_AzureAPIVersion := at_ OrgAIPropAzureAPIVersion (p_AzureAPIVersion p);
     p_AWSRegion := if last then p_AWSRegion p else Some s;
     p_PersonalKeysAllowed := p_PersonalKeysAllowed p |}.

Definition set_personal (p : OrgAIPatch) (b : bool) : OrgAIPatch :=
  {| p_Provider := p_Provider p; p_Model := p_Model p; p_APIKey := p_APIKey p; p_BaseURL := p_BaseURL p;
     p_AzureEndpoint := p_AzureEndpoint p; p_AzureDeployment := p_AzureDeployment p;
     p_AzureAPIVersion := p_AzureAPIVersion p; p_AWSRegion := p_AWSRegion p; p_PersonalKeysAllowed := Some b |}.

Definition known_prop (n : string) : bool :=
  String.eqb n orgAIVersionProp || String.eqb n OrgAIPropPersonalKeysAllowed
  || existsb (String.eqb n) orgAIStringProps.

(** Check (4): the properties one at a time, in body order. *)
Fixpoint read_props (values : gmap string Json) (names : list string) (p : OrgAIPatch) (order : list string)
  : res string (OrgAIPatch * list string) :=
  match names with
  | [] => Ok (p, order)
  | n :: r =>
      if String.eqb n orgAIVersionProp then read_props values r p order
      else
        let wrong := "invalid JSON: " +:+ n +:+ " has the wrong type" in
        match default JNull (values !! n) with
        | JNull => Err (n +:+ " must not be null")
        | JBool b =>
            if String.eqb n OrgAIPropPersonalKeysAllowed
            then read_props values r (set_personal p b) (order ++ [n])%list else Err wrong
        | JStr s =>
            if String.eqb n OrgAIPropPersonalKeysAllowed then Err wrong
            else read_props values r (set_field p n s) (order ++ [n])%list
        | _ => Err wrong
        end
  end.

(** [parseOrgAIBody]: the body after its shape checks, or the first failing
    check's message. *)
Definition parseOrgAIBody (members : option (list (string * Json))) : res string OrgAIBody :=
  match objectFields members with
  | None => Err msgOrgAIInvalidJSON
  | Some (names, values) =>
      match List.find (fun n => negb (known_prop n)) names with
      | Some n => Err ("unknown property: " +:+ n)
      | None =>
          version <-? match values !! orgAIVersionProp with
                      | None => Err msgOrgAIVersionRequired
                      | Some JNull => Err msgOrgAIVersionNull
                      | Some v => match wholeNumber v with
                                  | None => Err msgOrgAIVersionType
                                  | Some n => if n <? 0 then Err msgOrgAIVersionNegative else Ok n
                                  end
                      end ;;
          po <-? read_props values names no_patch [] ;;
          let '(p, order) := po in
          match order with
          | [] => Err msgOrgAINothingToChange
          | _ =>
              let bad_provider := match p_Provider p with
                                  | Some v => negb (String.eqb v "") && negb (IsKeyProvider v) | None => false end in
              let removal_with := match p_Provider p with
                                  | Some v => String.eqb v "" && (1 <? Z.of_nat (length order)) | None => false end in
              let shape := match p_AzureEndpoint p with
                           | Some e => OrgAzureEndpointShapeProblem e | None => "" end in
              if bad_provider then Err msgOrgAIProviderInvalid
              else if removal_with then Err msgOrgAIRemovalAlone
              else if negb (String.eqb shape "") then Err shape
              else Ok {| bd_version := version; bd_patch := p; bd_order := order |}
          end
      end
  end.

(** [orgAIApplies]. *)
Definition orgAIApplies (provider prop : string) : bool :=
  if String.eqb prop OrgAIPropModel then negb (String.eqb provider ProviderAzureOpenAI)
  else if String.eqb prop OrgAIPropBaseURL
  then String.eqb provider ProviderOpenAI || String.eqb provider ProviderAnthropic
  else if String.eqb prop OrgAIPropAzureEndpoint || String.eqb prop OrgAIPropAzureDeployment
          || String.eqb prop OrgAIPropAzureAPIVersion
  then String.eqb provider ProviderAzureOpenAI
  else if String.eqb prop OrgAIPropAWSRegion then String.eqb provider ProviderBedrock
  else true.

(** The provider the configuration has after the change. *)
Definition effective_provider (p : OrgAIPatch) (stored : OrgAIConfig) : string :=
  match p_Provider p with Some v => v | None => c_Provider stored end.

(** Check (12) for one property. *)
Definition destination_problem (pol : Policy) (effective : string) (p : OrgAIPatch) (baseline : OrgAIConfig)
  (n : string) : string :=
  if String.eqb n OrgAIPropBaseURL then
    match p_BaseURL p with
    | Some v => if String.eqb v (c_BaseURL baseline) then "" else OrgBaseURLWriteProblem pol effective v
    | None => "" end
  else if String.eqb n OrgAIPropAzureEndpoint then
    match p_AzureEndpoint p with
    | Some v => if String.eqb v (c_AzureEndpoint baseline) then "" else AzureEndpointWriteProblem pol v
    | None => "" end
  else if String.eqb n OrgAIPropAWSRegion then
    match p_AWSRegion p with
    | Some v => if String.eqb v (c_AWSRegion baseline) then "" else AWSRegionWriteProblem v
    | None => "" end
  else "".

Fixpoint first_problem (f : string -> string) (l : list string) : string :=
  match l with
  | [] => ""
  | n :: r => if String.eqb (f n) "" then first_problem f r else f n
  end.

(** [orgAIStateProblem]: "" when the body fits what is stored. *)
Definition orgAIStateProblem (pol : Policy) (b : OrgAIBody) (stored : OrgAIConfig) : string :=
  let p := bd_patch b in
  let changed := match p_Provider p with
                 | Some v => negb (String.eqb v "") && negb (String.eqb v (c_Provider stored)) | None => false end in
  let no_key := match p_APIKey p with Some k => String.eqb k "" | None => true end in
  if changed && no_key then msgOrgAIKeyOnChange
  else
    let effective := effective_provider p stored in
    if String.eqb effective "" then
      match p_Provider p with
      | Some _ => ""
      | None =>
          first_problem (fun n =>
            if String.eqb n OrgAIPropProvider || String.eqb n OrgAIPropPersonalKeysAllowed then ""
            else if String.eqb n OrgAIPropAPIKey && no_key then ""
            else n +:+ " requires a provider") (bd_order b)
      end
    else
      let misplaced := first_problem (fun n =>
            if String.eqb n OrgAIPropProvider || String.eqb n OrgAIPropAPIKey
               || String.eqb n OrgAIPropPersonalKeysAllowed then ""
            else if orgAIApplies effective n then "" else n +:+ " does not apply to " +:+ effective) (bd_order b) in
      if negb (String.eqb misplaced "") then misplaced
      else first_problem (destination_problem pol effective p (if changed then defaultOrgAIConfig else stored))
             (bd_order b).

(** [orgAIView]: what every member reads; no key. *)
Record View := {
  vw_Configured : bool;
  vw_KeySet : bool;
  vw_PersonalKeysAllowed : bool;
  vw_Version : Z;
  vw_UpdatedAt : option Z;
  vw_Provider : option string;
  vw_Model : option string;
  vw_BaseURL : option string;
  vw_AzureEndpoint : option string;
  vw_AzureDeployment : option string;
  vw_AzureAPIVersion : option string;
  vw_AWSRegion : option string }.

Definition orgAIView (c : OrgAIConfig) : View :=
  let p := c_Provider c in
  let isp x := String.eqb p x in
  let when (b : bool) (v : string) := if b then Some v else None in
  {| vw_Configured := Complete c; vw_KeySet := negb (isp "") && KeyPresent c;
     vw_PersonalKeysAllowed := c_PersonalKeysAllowed c; vw_Version := c_Version c; vw_UpdatedAt := c_UpdatedAt c;
     vw_Provider := when (negb (isp "")) p;
     vw_Model := when (isp ProviderOpenAI || isp ProviderAnthropic || isp ProviderBedrock || isp ProviderVertex) (c_Model c);
     vw_BaseURL := when (isp ProviderOpenAI || isp ProviderAnthropic) (c_BaseURL c);
     vw_AzureEndpoint := when (isp ProviderAzureOpenAI) (c_AzureEndpoint c);
     vw_AzureDeployment := when (isp ProviderAzureOpenAI) (c_AzureDeployment c);
     vw_AzureAPIVersion := when (isp ProviderAzureOpenAI) (c_AzureAPIVersion c);
     vw_AWSRegion := when (isp ProviderBedrock) (c_AWSRegion c) |}.

(** ** The operations *)

Inductive Denied := OrgMembershipRequired | OrgNotFound.

(** [orgCaller]: membership. *)
Definition orgCaller (db : AdminDB) (user : uuid) : Denied + (User * Org) :=
  match ad_users db !! user with
  | None => inl OrgMembershipRequired
  | Some u =>
      match us_OrgID u with
      | None => inl OrgMembershipRequired
      | Some org => match ad_orgs db !! org with None => inl OrgNotFound | Some o => inr (u, o) end
      end
  end.

(** The caller's session: its address and issue time ([None]: the zero time),
    and the deployment's break-glass list. *)
Record Session := { ss_User : uuid; ss_Email : string; ss_IAT : option Z }.

Definition breakGlassFreshness : Z := 10 * Minute.

(** A session issued under ten minutes ago, and at most a minute in the
    future. *)
Definition session_fresh (s : Session) (now : Z) : bool :=
  match ss_IAT s with
  | None => false
  | Some iat => (now - iat <? breakGlassFreshness) && (- Minute <? now - iat)
  end.

Inductive Response :=
| R200 (v : View)
| R400 (msg : string)
| R403Membership (d : Denied)
| R403StepupRequired
| R403FreshLogin
| R409 (v : View) (reason msg : string)
| R500.

Section Handlers.
Context {V : Vault} (pol : Policy) (breakGlass : gset string).

(** [GetOrganizationAI]. *)
Definition GetOrganizationAI (db : AdminDB) (s : Session) (fails : bool) : Response :=
  match orgCaller db (ss_User s) with
  | inl d => R403Membership d
  | inr (_, org) => if fails then R500 else R200 (orgAIView (GetOrgAIConfig db (og_ID org)))
  end.

(** [PatchOrganizationAI] up to the write: an answer, or the write to make.
    [db0] is the tables when the membership is read, [db1] when the
    configuration is. *)
Definition patch_checks (db0 db1 : AdminDB) (fails : bool) (s : Session) (now : Z)
  (members : option (list (string * Json))) : Response + (OrgAIBody * OrgAIWrite) :=
  match orgCaller db0 (ss_User s) with
  | inl d => inl (R403Membership d)
  | inr (user, org) =>
      match parseOrgAIBody members with
      | Err msg => inl (R400 msg)
      | Ok body =>
          if fails then inl R500
          else
            let stored := GetOrgAIConfig db1 (og_ID org) in
            if negb (c_Version stored =? bd_version body)
            then inl (R409 (orgAIView stored) "configuration_changed" msgOrgAIChanged)
            else
              let msg := orgAIStateProblem pol body stored in
              if negb (String.eqb msg "") then inl (R400 msg)
              else inr (body, {| w_UserID := us_ID user; w_OrgID := og_ID org; w_Expected := bd_version body;
                                 w_Patch := bd_patch body;
                                 w_BreakGlass := bool_decide (ToLower (ss_Email s) ∈ breakGlass);
                                 w_SessionFresh := session_fresh s now;
                                 w_SessionIAT := default 0 (ss_IAT s); w_Now := now |})
      end
  end.

(** The answer to a write, [db3] being the tables at the re-read. *)
Definition patch_answer (out : res StoreError WriteOutcome) (db3 : AdminDB) (org : uuid) (fails : bool) : Response :=
  match out with
  | Err _ => R500
  | Ok o =>
      match wo_Status o with
      | OrgAIConflict => R409 (orgAIView (wo_Config o)) "configuration_changed" msgOrgAIChanged
      | OrgAIStepupRequired => R403StepupRequired
      | OrgAIFreshLoginRequired => R403FreshLogin
      | OrgAIStored => if fails then R500 else R200 (orgAIView (GetOrgAIConfig db3 org))
      end
  end.

(** [parseConsentBody]. *)
Definition parseConsentBody (members : option (list (string * Json))) : option Z :=
  match objectFields members with
  | Some ([n], values) =>
      if String.eqb n orgAIVersionProp then
        match values !! orgAIVersionProp with
        | Some v => match wholeNumber v with Some k => if 1 <=? k then Some k else None | None => None end
        | None => None
        end
      else None
  | _ => None
  end.

(** [ConfirmOrganizationAI]: the answer but for the status of the 200, which
    [AIDecision] gives, and the tables after it. *)
Definition ConfirmOrganizationAI (env : TxEnv) (db0 db1 : AdminDB) (s : Session) (now : Z)
  (members : option (list (string * Json))) : option Response * AdminDB :=
  match parseConsentBody members with
  | None => (Some (R400 msgOrgAIConfirmBadBody), db1)
  | Some version =>
      match orgCaller db0 (ss_User s) with
      | inl d => (Some (R403Membership d), db1)
      | inr (user, org) =>
          let '(r, db2) := ConfirmOrgAI env (us_ID user) (og_ID org) version now db1 in
          (match r with
           | Err _ => Some R500
           | Ok (OrgAIConfirmNotConfigured, c) =>
               Some (R409 (orgAIView c) "organization_not_configured" msgOrgAINotConfiguredYet)
           | Ok (OrgAIConfirmChanged, c) => Some (R409 (orgAIView c) "configuration_changed" msgOrgAIChanged)
           | Ok (OrgAIConfirmed, _) => None
           end, db2)
      end
  end.
End Handlers.

(** ** Histories *)

(** One committed operation on the tables, under whatever keys the process has
    then; a membership changes. *)
Inductive step (db : AdminDB) : AdminDB -> Prop :=
| step_write (V : Vault) (L : VaultLaws V) env w :
    tx_event env ∉ map ev_ID (ad_events db) -> step db (snd (WriteOrgAIConfig env w db))
| step_confirm (V : Vault) (L : VaultLaws V) env user org version now :
    step db (snd (ConfirmOrgAI env user org version now db))
| step_unconfirm env user : step db (snd (DeleteOrgAIConfirmations env user db))
| step_admin (V : Vault) (L : VaultLaws V) op :
    tx_event (op_env op) ∉ map ev_ID (ad_events db) -> step db (apply_op op db)
| step_member u : step db (set_users (<[us_ID u := u]>) db).

Section HistoryFacts.

Lemma confirm_tables {V : Vault} env user org version now db r db' :
  ConfirmOrgAI env user org version now db = (r, db') ->
  ad_orgai db' = ad_orgai db /\
  ((ad_confirms db' = ad_confirms db /\ forall c, r <> Ok (OrgAIConfirmed, c))
   \/ (ad_confirms db' = <[(user, org) := (version, now)]> (ad_confirms db)
       /\ r = Ok (OrgAIConfirmed, GetOrgAIConfig db org)
       /\ Complete (GetOrgAIConfig db org) = true /\ c_Version (GetOrgAIConfig db org) = version)).
Proof.
  unfold ConfirmOrgAI. intros H. apply transact_inv in H as [(x & c & E & _ & -> & ->)|[[e ->] ->]];
    [|split; [done|by left]].
  destruct (Complete (GetOrgAIConfig db org)) eqn:C; cbn [negb] in E; [|injection E as <- <-; split; [done|by left]].
  destruct (Z.eqb_spec (c_Version (GetOrgAIConfig db org)) version) as [Ev|]; cbn [negb] in E;
    injection E as <- <-; (split; [done|]); [right|by left]. by repeat split.
Qed.

Lemma unconfirm_tables env user db r db' : DeleteOrgAIConfirmations env user db = (r, db') ->
  ad_orgai db' = ad_orgai db /\ forall k v, ad_confirms db' !! k = Some v -> ad_confirms db !! k = Some v.
Proof.
  unfold DeleteOrgAIConfirmations. intros H. apply transact_inv in H as [(x & c & E & _ & -> & ->)|[_ ->]]; [|done].
  injection E as _ <-. split; [done|]. cbn [default from_option id ad_confirms set_confirms].
  intros k v H. by apply map_lookup_filter_Some in H as [? _].
Qed.

Lemma op_tables {V : Vault} op db : ad_orgai (apply_op op db) = ad_orgai db /\ ad_confirms (apply_op op db) = ad_confirms db.
Proof.
  assert (E : forall env u o k d db1 db2, insertSSOEvent env u o k d db1 = Ok db2 ->
              ad_orgai db2 = ad_orgai db1 /\ ad_confirms db2 = ad_confirms db1)
    by (intros env u o k d db1 db2 [_ ->]%insertSSOEvent_Ok; done).
  destruct op as [env o|env u g p now|env w a g via|env p a g via|env d a g via]; cbn [apply_op].
  - destruct (RecordSSOStepupOutcome env o db) as [r db'] eqn:H. cbn [snd].
    apply RecordOutcome_inv in H as [(d1 & db2 & _ & Hg & Ev & ->)|[_ ->]]; [|done].
    apply E in Ev as [-> ->]. destruct (so_Granted o); [|by destruct Hg as [-> _]].
    destruct Hg as (org & pinned & _ & P & I & _). injection I as _ <-. cbn [ad_orgai ad_confirms set_grants].
    destruct (String.eqb _ ""); [by injection P as <-|]. unfold pinTenant in P.
    destruct (ad_orgs db !! org) as [x|]; [|done].
    destruct (og_Tenant x) as [t|]; [destruct (String.eqb t _); [|done]|]; by injection P as <-.
  - unfold ConsumeSSOStepupGrant. destruct (consumeGrant u g p now db) as [id db'] eqn:H.
    destruct (transact _ _ _) as [r db2] eqn:T. cbn [snd].
    apply transact_inv in T as [(x & c & [= <- <-] & _ & _ & ->)|[_ ->]]; [|done]. cbn.
    destruct id; [apply consumeGrant_Some in H as (? & _ & _ & _ & _ & ->)|apply consumeGrant_None in H as [-> _]]; done.
  - unfold SaveOIDCProviderRecorded. destruct (transact _ _ _) as [r db2] eqn:T. cbn [snd].
    apply transact_inv in T as [(x & c & H & _ & _ & ->)|[_ ->]]; [|done].
    apply recorded_write_Ok in H as (ins & db1 & db3 & H & -> & Ev). cbn [default from_option id].
    apply E in Ev as [-> ->]. unfold saveOIDCProvider in H. cbn zeta in H.
    repeat (match type of H with
      | context [match ?x with _ => _ end] => destruct x; try done
      | context [rbind ?x _] => destruct x; cbn [rbind] in H; try done end); by injection H as _ _ <-.
  - unfold UpsertSSOProviderRecorded. destruct (transact _ _ _) as [r db2] eqn:T. cbn [snd].
    apply transact_inv in T as [(x & c & H & _ & _ & ->)|[_ ->]]; [|done].
    apply recorded_write_Ok in H as (ins & db1 & db3 & H & -> & Ev). cbn [default from_option id].
    apply E in Ev as [-> ->]. unfold upsertSSOProvider in H. cbn zeta in H.
    repeat (match type of H with
      | context [rbind ?x _] => destruct x; cbn [rbind] in H; try done end).
    destruct (List.find _ _); by injection H as _ _ <-.
  - unfold DeleteSSOProviderRecorded. destruct (transact _ _ _) as [r db2] eqn:T. cbn [snd].
    apply transact_inv in T as [(x & c & H & _ & _ & ->)|[_ ->]]; [|done].
    destruct (List.find _ _) as [row|]; [|by injection H as <- <-].
    destruct (insertSSOEvent _ _ _ _ _ _) as [db3|] eqn:Ev; [|done]. cbn [rbind] in H. injection H as <- <-.
    cbn [default from_option id]. by apply E in Ev as [-> ->].
Qed.

(** Versions only advance, and a version names one provider, destination and
    key. *)
Definition mono (org : uuid) (a b : AdminDB) : Prop :=
  version_at a org < version_at b org \/ (version_at b org = version_at a org /\ core_at b org = core_at a org).

#[global] Instance mono_preorder org : PreOrder (mono org).
Proof.
  split; [by right|]. intros a b c [H1|[H1 C1]] [H2|[H2 C2]]; unfold mono; [left; lia|left; lia|left; lia|].
  right. split; [lia|congruence].
Qed.

Lemma same_rows_mono org a b : ad_orgai b = ad_orgai a -> mono org a b.
Proof. intros E. right. unfold version_at, core_at, row_at. by rewrite E. Qed.

Lemma step_mono org a b : step a b -> mono org a b.
Proof.
  intros [V L env w Hev|V L env user org' version now|env user|V L op Hev|u].
  - destruct (WriteOrgAIConfig env w a) as [r b'] eqn:E. cbn [snd].
    destruct (Write_mono _ _ _ _ _ org E) as [H|H]; [left; lia|by right].
  - destruct (ConfirmOrgAI _ _ _ _ _ a) as [r b'] eqn:E. apply same_rows_mono. by apply confirm_tables in E as [? _].
  - destruct (DeleteOrgAIConfirmations env user a) as [r b'] eqn:E. apply same_rows_mono.
    by apply unconfirm_tables in E as [? _].
  - apply same_rows_mono. by apply op_tables.
  - by apply same_rows_mono.
Qed.

Lemma rtc_mono org a b : rtc step a b -> mono org a b.
Proof. induction 1 as [|x y z H _ IH]; [done|]. etransitivity; [by apply step_mono|done]. Qed.

(** Every confirmation stored was recorded by the operation, for the
    configuration as it then was. *)
Definition recorded (a b : AdminDB) (user org : uuid) (v : Z) : Prop :=
  exists (V : Vault) env now c d r,
    VaultLaws V /\ rtc step a c /\ rtc step d b
    /\ ConfirmOrgAI env user org v now c = (r, d) /\ r = Ok (OrgAIConfirmed, GetOrgAIConfig c org)
    /\ Complete (GetOrgAIConfig c org) = true /\ c_Version (GetOrgAIConfig c org) = v.

Lemma recorded_step a b c user org v : recorded a b user org v -> step b c -> recorded a c user org v.
Proof.
  intros (V & env & now & x & d & r & L & H1 & H2 & H) S.
  exists V, env, now, x, d, r. split; [done|]. split; [done|]. split; [|done]. by eapply rtc_r.
Qed.

Lemma confirms_recorded a b : ad_confirms a = ∅ -> rtc step a b ->
  forall user org v t, ad_confirms b !! (user, org) = Some (v, t) -> recorded a b user org v.
Proof.
  intros Ha. revert b. apply (rtc_ind_r (fun b => forall user org v t,
    ad_confirms b !! (user, org) = Some (v, t) -> recorded a b user org v)); [|intros x y H S IH].
  - intros user org v t E. by rewrite Ha in E.
  - intros user org v t E.
    assert (Hold : ad_confirms x !! (user, org) = Some (v, t) -> recorded a y user org v).
    { intros Ex. eapply recorded_step; [by eapply IH|done]. }
    destruct S as [V L env w Hev|V L env user' org' version now|env user'|V L op Hev|u].
    + apply Hold. destruct (WriteOrgAIConfig env w x) as [r y] eqn:W. cbn [snd] in E.
      apply Write_cases in W as [(via & db1 & next & changed & raw & db3 & _ & A & _ & _ & _ & R & _ & ->)|[-> _]]; [|done].
      apply record_write_tables in R as (_ & R & _). rewrite R in E. cbn [ad_confirms set_orgai] in E.
      apply authorize_tables in A as (_ & A & _). by rewrite A in E.
    + pose proof (step_confirm x V L env user' org' version now) as S.
      destruct (ConfirmOrgAI env user' org' version now x) as [r y] eqn:C. cbn [snd] in *.
      pose proof (confirm_tables _ _ _ _ _ _ _ _ C) as (_ & [[Ec _]|(Ec & Er & Hc & Hv)]); [by rewrite Ec in E; apply Hold|].
      rewrite Ec in E. destruct (decide ((user', org') = (user, org))) as [[= -> ->]|Hn].
      * rewrite lookup_insert_eq in E. injection E as -> ->.
        by exists V, env, t, x, y, r.
      * rewrite lookup_insert_ne in E by done. by apply Hold.
    + apply Hold. destruct (DeleteOrgAIConfirmations env user' x) as [r y] eqn:D. cbn [snd] in E.
      apply unconfirm_tables in D as [_ D]. by apply D.
    + apply Hold. destruct (op_tables op x) as [_ Eo]. by rewrite Eo in E.
    + by apply Hold.
Qed.
End HistoryFacts.

(** ** Facts: what a body says *)

Definition field (p : OrgAIPatch) (n : string) : option string :=
  if String.eqb n OrgAIPropProvider then p_Provider p
  else if String.eqb n OrgAIPropModel then p_Model p
  else if String.eqb n OrgAIPropAPIKey then p_APIKey p
  else if String.eqb n OrgAIPropBaseURL then p_BaseURL p
  else if String.eqb n OrgAIPropAzureEndpoint then p_AzureEndpoint p
  else if String.eqb n OrgAIPropAzureDeployment then p_AzureDeployment p
  else if String.eqb n OrgAIPropAzureAPIVersion then p_AzureAPIVersion p
  else if String.eqb n OrgAIPropAWSRegion then p_AWSRegion p
  else None.

(** A string property the patch sets is one the body names. *)
Definition patch_named (p : OrgAIPatch) (order : list string) : Prop :=
  forall n, field p n <> None -> n ∈ order.

Lemma field_cases (P : string -> Prop) n :
  P OrgAIPropProvider -> P OrgAIPropModel -> P OrgAIPropAPIKey -> P OrgAIPropBaseURL -> P OrgAIPropAzureEndpoint ->
  P OrgAIPropAzureDeployment -> P OrgAIPropAzureAPIVersion -> P OrgAIPropAWSRegion ->
  n ∈ orgAIStringProps -> P n.
Proof.
  intros ? ? ? ? ? ? ? ? H. unfold orgAIStringProps in H.
  repeat (apply elem_of_cons in H as [->|H]; [done|]). by apply elem_of_nil in H.
Qed.

Lemma set_field_field p n s m : n ∈ orgAIStringProps ->
  field (set_field p n s) m = if String.eqb n m then Some s else field p m.
Proof.
  intros Hn. unfold field. pattern n. apply field_cases; [..|exact Hn]; unfold set_field;
    cbn [p_Provider p_Model p_APIKey p_BaseURL p_AzureEndpoint p_AzureDeployment p_AzureAPIVersion p_AWSRegion];
    repeat match goal with |- context [String.eqb m ?x] => destruct (String.eqb_spec m x) as [->|?]; [reflexivity|] end;
    match goal with |- _ = if String.eqb ?x m then _ else _ => destruct (String.eqb_spec x m) as [<-|?]; [congruence|done] end.
Qed.

Lemma known_string n : known_prop n = true -> String.eqb n orgAIVersionProp = false ->
  String.eqb n OrgAIPropPersonalKeysAllowed = false -> n ∈ orgAIStringProps.
Proof.
  unfold known_prop. intros H E1 E2. rewrite E1, E2 in H. cbn [orb] in H. apply existsb_elem in H as (x & Hx & ->%String.eqb_eq). done.
Qed.

Lemma read_props_named values names p order p' order' :
  (forall n, n ∈ names -> known_prop n = true) -> patch_named p order ->
  read_props values names p order = Ok (p', order') -> patch_named p' order'.
Proof.
  revert p order. induction names as [|n r IH]; intros p order Hk Hp; [by intros [= <- <-]|].
  cbn [read_props]. assert (Hkr : forall m, m ∈ r -> known_prop m = true) by (intros m Hm; apply Hk; by right).
  destruct (String.eqb n orgAIVersionProp) eqn:E1; [by apply IH|].
  assert (Hgrow : patch_named p (order ++ [n])%list) by (intros m Hm; apply elem_of_app; left; by apply Hp).
  destruct (default JNull (values !! n)) as [|b|lit|s| |]; try done.
  - destruct (String.eqb n OrgAIPropPersonalKeysAllowed) eqn:E2; [|done]. by apply IH.
  - destruct (String.eqb n OrgAIPropPersonalKeysAllowed) eqn:E2; [done|]. apply IH; [done|].
    intros m. rewrite set_field_field by (apply known_string; [apply Hk; by left|done..]).
    destruct (String.eqb_spec n m) as [<-|]; [intros _; apply elem_of_app; right; by left|by apply Hgrow].
Qed.

Lemma parse_named members b : parseOrgAIBody members = Ok b ->
  patch_named (bd_patch b) (bd_order b)
  /\ (match p_Provider (bd_patch b) with
      | Some v => (v = "" \/ IsKeyProvider v = true) /\ (v = "" -> length (bd_order b) = 1%nat)
      | None => True end).
Proof.
  unfold parseOrgAIBody. destruct (objectFields members) as [[names values]|]; [|done].
  destruct (List.find _ names) eqn:F; [done|].
  assert (Hk : forall n, n ∈ names -> known_prop n = true).
  { intros n Hn. apply list_elem_of_In in Hn. pose proof (List.find_none _ _ F n Hn) as Hf. by apply negb_false_iff in Hf. }
  match goal with |- context [rbind ?x _] => destruct x as [version|]; [|done] end. cbn [rbind].
  destruct (read_props values names no_patch []) as [[p order]|] eqn:R; [|done]. cbn [rbind].
  assert (Hn : patch_named p order).
  { eapply read_props_named; [exact Hk| |exact R]. intros n Hn. unfold field in Hn. cbn in Hn.
    by repeat destruct (String.eqb n _). }
  destruct order as [|x order]; [done|].
  cbn zeta. match goal with |- context [if ?x then Err msgOrgAIProviderInvalid else _] => destruct x eqn:B; [done|] end.
  match goal with |- context [if ?x then Err msgOrgAIRemovalAlone else _] => destruct x eqn:Rm; [done|] end.
  destruct (negb _); [done|]. intros [= <-]. cbn [bd_patch bd_order]. split; [done|].
  destruct (p_Provider p) as [w|]; [|done]. destruct (String.eqb_spec w "") as [Hw|Hw].
  - split; [by left|]. intros _. cbn [andb] in Rm. apply Z.ltb_ge in Rm. cbn [length] in *. lia.
  - split; [|done]. right. cbn [negb andb] in B. by apply negb_false_iff.
Qed.

(** ** The type of a configuration *)

Definition destination_props : list string :=
  [OrgAIPropModel; OrgAIPropBaseURL; OrgAIPropAzureEndpoint; OrgAIPropAzureDeployment; OrgAIPropAzureAPIVersion;
   OrgAIPropAWSRegion].

Definition value_of (c : OrgAIConfig) (n : string) : string :=
  if String.eqb n OrgAIPropModel then c_Model c
  else if String.eqb n OrgAIPropBaseURL then c_BaseURL c
  else if String.eqb n OrgAIPropAzureEndpoint then c_AzureEndpoint c
  else if String.eqb n OrgAIPropAzureDeployment then c_AzureDeployment c
  else if String.eqb n OrgAIPropAzureAPIVersion then c_AzureAPIVersion c
  else if String.eqb n OrgAIPropAWSRegion then c_AWSRegion c
  else "".

(** A configuration holds a supported provider, or none, and a value only for
    the properties of its provider. *)
Definition fits (c : OrgAIConfig) : Prop :=
  (c_Provider c = "" \/ IsKeyProvider (c_Provider c) = true)
  /\ forall n, n ∈ destination_props -> value_of c n <> "" ->
       c_Provider c <> "" /\ orgAIApplies (c_Provider c) n = true.

Lemma first_problem_nil f l : first_problem f l = "" <-> forall n, n ∈ l -> f n = "".
Proof.
  induction l as [|x l IH]; cbn [first_problem]; [split; [intros _ n ?%elem_of_nil|]; done|].
  destruct (String.eqb_spec (f x) "") as [E|E].
  - rewrite IH. split; [intros H n [->|Hn]%elem_of_cons; auto|intros H n Hn; apply H; by right].
  - split; [done|]. intros H. destruct E. apply H. by left.
Qed.

Lemma dest_cases (P : string -> Prop) n :
  P OrgAIPropModel -> P OrgAIPropBaseURL -> P OrgAIPropAzureEndpoint -> P OrgAIPropAzureDeployment ->
  P OrgAIPropAzureAPIVersion -> P OrgAIPropAWSRegion -> n ∈ destination_props -> P n.
Proof.
  intros ? ? ? ? ? ? H. unfold destination_props in H.
  repeat (apply elem_of_cons in H as [->|H]; [done|]). by apply elem_of_nil in H.
Qed.

Lemma value_merge p stored n : n ∈ destination_props ->
  value_of (merge_values p stored) n = pick (field p n) (value_of (merge_base p stored) n).
Proof. intros Hn. pattern n. apply dest_cases; [reflexivity..|exact Hn]. Qed.

Lemma dest_not_free n : n ∈ destination_props ->
  String.eqb n OrgAIPropProvider = false /\ String.eqb n OrgAIPropAPIKey = false
  /\ String.eqb n OrgAIPropPersonalKeysAllowed = false.
Proof. intros Hn. pattern n. apply dest_cases; [by repeat split..|exact Hn]. Qed.

(** What the state check lets through, for one property of the body. *)
Lemma state_problem_prop pol b stored n :
  orgAIStateProblem pol b stored = "" -> n ∈ bd_order b -> n ∈ destination_props ->
  (effective_provider (bd_patch b) stored <> "" /\ orgAIApplies (effective_provider (bd_patch b) stored) n = true)
  \/ p_Provider (bd_patch b) = Some "".
Proof.
  intros H Hn Hd. destruct (dest_not_free n Hd) as (N1 & N2 & N3).
  unfold orgAIStateProblem in H. cbn zeta in H. destruct (_ && _) in H; [done|].
  destruct (String.eqb_spec (effective_provider (bd_patch b) stored) "") as [E|E].
  - destruct (p_Provider (bd_patch b)) as [v|] eqn:P.
    + right. unfold effective_provider in E. rewrite P in E. by subst v.
    + rewrite first_problem_nil in H. specialize (H n Hn). cbn beta in H. rewrite N1, N2, N3 in H.
      cbn [orb andb] in H. by destruct n.
  - left. split; [done|].
    destruct (String.eqb_spec (first_problem (fun n =>
            if String.eqb n OrgAIPropProvider || String.eqb n OrgAIPropAPIKey
               || String.eqb n OrgAIPropPersonalKeysAllowed then ""
            else if orgAIApplies (effective_provider (bd_patch b) stored) n then ""
                 else n +:+ " does not apply to " +:+ effective_provider (bd_patch b) stored) (bd_order b)) "") as [M|M];
      [|done].
    rewrite first_problem_nil in M. specialize (M n Hn). cbn beta in M. rewrite N1, N2, N3 in M. cbn [orb] in M.
    destruct (orgAIApplies _ n); [done|]. by destruct n.
Qed.

Lemma effective_merge p stored next changed : Merge p stored = (next, changed) ->
  c_Provider next = effective_provider p stored /\ forall n, n ∈ destination_props ->
    value_of next n = value_of (merge_values p stored) n.
Proof.
  unfold Merge. cbn zeta. intros [= <- _]. split.
  - assert (E : c_Provider (merge_values p stored) = effective_provider p stored).
    { unfold merge_values, merge_base, effective_provider, provider_changed. cbn zeta.
      destruct (p_Provider p) as [v|]; cbn [c_Provider]; [|done].
      by destruct (String.eqb_spec v (c_Provider stored)) as [->|]. }
    by destruct (_ || _).
  - intros n _. by destruct (_ || _).
Qed.

Lemma merge_fits pol b stored next changed :
  fits stored -> patch_named (bd_patch b) (bd_order b) ->
  (match p_Provider (bd_patch b) with
   | Some v => (v = "" \/ IsKeyProvider v = true) /\ (v = "" -> length (bd_order b) = 1%nat) | None => True end) ->
  orgAIStateProblem pol b stored = "" -> Merge (bd_patch b) stored = (next, changed) -> fits next.
Proof.
  intros [F1 F2] Hnamed Hprov Hst M. apply effective_merge in M as [Ep Ev]. split.
  - rewrite Ep. unfold effective_provider. destruct (p_Provider (bd_patch b)); [tauto|done].
  - intros n Hn Hv. rewrite Ev, value_merge in Hv by done. rewrite Ep.
    destruct (field (bd_patch b) n) as [s|] eqn:Ef.
    + assert (Hin : n ∈ bd_order b) by (apply Hnamed; by rewrite Ef).
      destruct (state_problem_prop pol b stored n Hst Hin Hn) as [H|H]; [done|]. exfalso.
      rewrite H in Hprov. destruct Hprov as [_ Hlen]. specialize (Hlen eq_refl).
      assert (Hp : OrgAIPropProvider ∈ bd_order b) by (apply Hnamed; cbn; by rewrite H).
      destruct (bd_order b) as [|x [|y l]]; [by apply elem_of_nil in Hp| |done].
      apply list_elem_of_singleton in Hp as <-. apply list_elem_of_singleton in Hin as ->.
      by destruct (dest_not_free _ Hn).
    + cbn [pick] in Hv. unfold merge_base, provider_changed in Hv. unfold effective_provider.
      destruct (p_Provider (bd_patch b)) as [v|]; [|by apply F2].
      destruct (String.eqb_spec v (c_Provider stored)) as [->|]; [by apply F2|]. exfalso. revert Hv.
      pattern n. apply dest_cases; [by intros []..|exact Hn].
Qed.

Lemma first_problem_ext f g l : (forall n, f n = g n) -> first_problem f l = first_problem g l.
Proof. intros H. induction l as [|x l IH]; cbn [first_problem]; [done|]. by rewrite H, IH. Qed.

(** The state check reads only what a version names. *)
Lemma state_problem_core pol b c c' : core c = core c' -> orgAIStateProblem pol b c = orgAIStateProblem pol b c'.
Proof.
  unfold core. intros [= E1 E2 E3 E4 E5 E6 E7].
  assert (D : forall (ch : bool) eff p n,
    destination_problem pol eff p (if ch then defaultOrgAIConfig else c) n
    = destination_problem pol eff p (if ch then defaultOrgAIConfig else c') n).
  { intros [] eff p n; [done|]. unfold destination_problem. by rewrite E2, E3, E6. }
  unfold orgAIStateProblem, effective_provider. cbn zeta. rewrite E1.
  by rewrite (first_problem_ext _ _ (bd_order b) (D _ _ _)).
Qed.

(** ** The operators' record *)

Lemma set_details_others id d l : id ∉ map ev_ID l -> map (set_details id d) l = l.
Proof.
  induction l as [|x l IH]; [done|]. cbn [map]. intros [H1 H2]%not_elem_of_cons. rewrite IH by done.
  unfold set_details. destruct (String.eqb_spec (ev_ID x) id) as [E|]; [by destruct H1|done].
Qed.

(** The event a write leaves, and how the write was authorised. *)
Lemma authorize_record {V : Vault} env w db via db1 changed v db2 db3 :
  tx_event env ∉ map ev_ID (ad_events db) -> authorize env w db = inr (via, db1) ->
  ad_events db2 = ad_events db1 -> record_write env w via changed v db2 = Ok db3 ->
  exists d, ad_events db3 = (ad_events db ++ [{| ev_ID := tx_event env; ev_UserID := w_UserID w;
      ev_OrgID := Some (w_OrgID w); ev_Kind := SSOEventLLMOrgAIWritten;
      ev_Details := OrgAIWritten (w_OrgID w) via changed v d; ev_CreatedAt := tx_now env |}])%list
    /\ ((via = "stepup" /\ d = None)
        \/ (via = "breakglass" /\ d = Some (unix (w_SessionIAT w)) /\ w_BreakGlass w = true /\ w_SessionFresh w = true
            /\ ad_grants db1 = ad_grants db
            /\ forall e, e ∈ ad_events db -> breakglass_key e <> Some (w_UserID w, unix (w_SessionIAT w)))).
Proof.
  intros Hev A E2 R. unfold authorize in A. destruct (consumeGrant _ _ _ _ db) as [[id|] db0] eqn:G.
  - injection A as <- <-. unfold record_write in R. cbn [String.eqb Ascii.eqb Bool.eqb] in R.
    apply insertSSOEvent_Ok in R as [_ ->]. apply consumeGrant_Some in G as (x & _ & _ & _ & _ & ->).
    exists None. cbn [ad_events set_events]. rewrite E2. cbn [ad_events set_grants]. split; [done|by left].
  - apply consumeGrant_None in G as [-> _].
    destruct (w_BreakGlass w && w_SessionFresh w) eqn:B; [|by destruct (w_BreakGlass w)].
    apply andb_true_iff in B as [B1 B2].
    destruct (existsb _ (ad_events db)) eqn:X; [done|]. injection A as <- <-.
    unfold record_write in R. cbn [String.eqb Ascii.eqb Bool.eqb] in R. injection R as <-.
    exists (Some (unix (w_SessionIAT w))). cbn [ad_events set_events]. rewrite E2. cbn [ad_events set_events].
    rewrite map_app, set_details_others by done. cbn [map]. unfold set_details at 1. cbn [ev_ID].
    rewrite String.eqb_refl. split; [done|]. right. repeat split; try done. intros e He Hk.
    rewrite existsb_elem_false in X. specialize (X e He). by rewrite bool_decide_eq_false in X.
Qed.

Lemma op_events {V : Vault} op db : ad_events (apply_op op db) = ad_events db
  \/ exists e, ad_events (apply_op op db) = (ad_events db ++ [e])%list /\ breakglass_key e = None.
Proof.
  assert (E : forall env u o k org pid x via db1 db2,
     insertSSOEvent env u o k (ProviderWritten org pid x via) db1 = Ok db2 -> ad_events db1 = ad_events db ->
     exists e, ad_events db2 = (ad_events db ++ [e])%list /\ breakglass_key e = None).
  { intros env u o k org pid x via db1 db2 [_ ->]%insertSSOEvent_Ok <-. by eexists. }
  destruct op as [env o|env u g p now|env w a g via|env p a g via|env d a g via]; cbn [apply_op].
  - destruct (RecordSSOStepupOutcome env o db) as [r db'] eqn:H. cbn [snd].
    apply RecordOutcome_inv in H as [(d1 & db2 & _ & Hg & Ev & ->)|[_ ->]]; [|by left]. right.
    apply insertSSOEvent_Ok in Ev as [_ ->]. cbn [ad_events set_events].
    assert (He : ad_events d1.2 = ad_events db).
    { destruct (so_Granted o); [|by destruct Hg as [-> _]].
      destruct Hg as (org & pinned & _ & P & I & _). injection I as _ <-. cbn [ad_events set_grants].
      destruct (String.eqb _ ""); [by injection P as <-|]. by apply pin_rest in P as (_ & _ & ?). }
    rewrite He. by eexists.
  - unfold ConsumeSSOStepupGrant. destruct (consumeGrant u g p now db) as [id db'] eqn:H.
    destruct (transact _ _ _) as [r db2] eqn:T. cbn [snd]. left.
    apply transact_inv in T as [(x & c & [= <- <-] & _ & _ & ->)|[_ ->]]; [|done]. cbn.
    destruct id; [apply consumeGrant_Some in H as (? & _ & _ & _ & _ & ->)|apply consumeGrant_None in H as [-> _]]; done.
  - unfold SaveOIDCProviderRecorded. destruct (transact _ _ _) as [r db2] eqn:T. cbn [snd].
    apply transact_inv in T as [(x & c & H & _ & _ & ->)|[_ ->]]; [|by left]. right.
    apply recorded_write_Ok in H as (ins & db1 & db3 & H & -> & Ev). cbn [default from_option id].
    eapply E; [exact Ev|]. unfold saveOIDCProvider in H. cbn zeta in H.
    repeat (match type of H with
      | context [match ?x with _ => _ end] => destruct x; try done
      | context [rbind ?x _] => destruct x; cbn [rbind] in H; try done end); by injection H as _ _ <-.
  - unfold UpsertSSOProviderRecorded. destruct (transact _ _ _) as [r db2] eqn:T. cbn [snd].
    apply transact_inv in T as [(x & c & H & _ & _ & ->)|[_ ->]]; [|by left]. right.
    apply recorded_write_Ok in H as (ins & db1 & db3 & H & -> & Ev). cbn [default from_option id].
    eapply E; [exact Ev|]. unfold upsertSSOProvider in H. cbn zeta in H.
    repeat (match type of H with
      | context [rbind ?x _] => destruct x; cbn [rbind] in H; try done end).
    destruct (List.find _ _); by injection H as _ _ <-.
  - unfold DeleteSSOProviderRecorded. destruct (transact _ _ _) as [r db2] eqn:T. cbn [snd].
    apply transact_inv in T as [(x & c & H & _ & _ & ->)|[_ ->]]; [|by left].
    destruct (List.find _ _) as [row|]; [|by injection H as <- <-; left]. right.
    destruct (insertSSOEvent _ _ _ _ _ _) as [db3|] eqn:Ev; [|done]. cbn [rbind] in H. injection H as <- <-.
    cbn [default from_option id]. by eapply E.
Qed.

Lemma step_events a b : step a b -> ad_events b = ad_events a
  \/ exists e, ad_events b = (ad_events a ++ [e])%list
     /\ (breakglass_key e = None \/ forall e', e' ∈ ad_events a -> breakglass_key e' <> breakglass_key e).
Proof.
  intros [V L env w Hev|V L env user org' version now|env user|V L op Hev|u].
  - destruct (WriteOrgAIConfig env w a) as [r b'] eqn:E. cbn [snd].
    apply Write_cases in E as [(via & db1 & next & changed & raw & db3 & _ & A & _ & M & K & R & _ & ->)|[-> _]]; [|by left].
    destruct (authorize_record env w a via db1 changed (c_Version next)
                (set_orgai (<[w_OrgID w := row_of next raw (w_Now w) (w_UserID w)]>) db1) db3 Hev A eq_refl R)
      as (d & -> & Hd).
    right. eexists. split; [done|]. unfold breakglass_key at 1 3. cbn [ev_Details ev_Kind ev_UserID].
    destruct Hd as [[-> ->]|(-> & -> & _ & _ & _ & Hd)]; [by left|right].
    cbn [String.eqb Ascii.eqb Bool.eqb andb]. intros e' He'. by apply Hd.
  - left. unfold ConfirmOrgAI. destruct (transact _ _ _) as [r db2] eqn:T. cbn [snd].
    apply transact_inv in T as [(x & c & H & _ & _ & ->)|[_ ->]]; [|done].
    destruct (negb (Complete _)); [by injection H as <- <-|]. by destruct (negb _); injection H as <- <-.
  - left. unfold DeleteOrgAIConfirmations. destruct (transact _ _ _) as [r db2] eqn:T. cbn [snd].
    by apply transact_inv in T as [(x & c & [= <- <-] & _ & _ & ->)|[_ ->]].
  - destruct (op_events op a) as [H|(e & H & He)]; [by left|]. right. exists e. split; [done|by left].
  - by left.
Qed.

(** What a member reads as confirmed was recorded for the configuration in
    force. *)
Lemma confirmed_shown (V : Vault) (L : VaultLaws V) db0 db user st :
  ad_confirms db0 = ∅ -> rtc step db0 db ->
  st = ReadOrgAIState db user -> Confirmed st = true ->
  exists org (Vc : Vault) env now dbc dbd,
    os_OrgID st = Some org /\ rtc step db0 dbc /\ rtc step dbd db
    /\ ConfirmOrgAI (V := Vc) env user org (c_Version (os_Config st)) now dbc
       = (Ok (OrgAIConfirmed, GetOrgAIConfig (V := Vc) dbc org), dbd)
    /\ Complete (GetOrgAIConfig (V := Vc) dbc org) = true
    /\ core (GetOrgAIConfig (V := Vc) dbc org) = core (os_Config st).
Proof.
  intros H0 H ->. unfold ReadOrgAIState. destruct (ad_users db !! user) as [u|]; [|done].
  destruct (us_OrgID u) as [org|]; [|done]. unfold Confirmed. cbn [os_OrgID os_Config os_Confirmed InOrg is_some].
  destruct (ad_confirms db !! (user, org)) as [[v t]|] eqn:E; [|done].
  intros [_ Hv%Z.eqb_eq]%andb_true_iff.
  destruct (confirms_recorded db0 db H0 H user org v t E) as (Vc & env & now & dbc & dbd & r & Lc & H1 & H2 & C & -> & Hc & Hvc).
  exists org, Vc, env, now, dbc, dbd. rewrite <- Hv. repeat split; try done.
  rewrite (GetOrgAIConfig_row (V := Vc)), (GetOrgAIConfig_row (V := V)), !core_config.
  assert (M : mono org dbc db).
  { etransitivity; [|by apply rtc_mono]. pose proof (confirm_tables _ _ _ _ _ _ _ _ C) as [Eo _]. by apply same_rows_mono. }
  destruct M as [M|[_ M]]; [|done]. exfalso.
  rewrite (GetOrgAIConfig_row (V := Vc)), config_version in Hvc.
  rewrite (GetOrgAIConfig_row (V := V)), config_version in Hv. unfold version_at in M. lia.
Qed.

(** ** Properties *)

(** What a member confirmed is what is used: whenever a member reads as
    confirmed, in a history that began with no confirmation, the operation
    recorded their confirmation for a configuration that was complete, had this
    version, and had the provider, the destination and the stored key of the
    one in force now. *)
Theorem confirmed_is_what_was_shown (V : Vault) (L : VaultLaws V) db0 db user st :
  ad_confirms db0 = ∅ -> rtc step db0 db ->
  st = ReadOrgAIState db user -> Confirmed st = true ->
  exists org (Vc : Vault) env now dbc dbd,
    os_OrgID st = Some org /\ rtc step db0 dbc /\ rtc step dbd db
    /\ ConfirmOrgAI (V := Vc) env user org (c_Version (os_Config st)) now dbc
       = (Ok (OrgAIConfirmed, GetOrgAIConfig (V := Vc) dbc org), dbd)
    /\ Complete (GetOrgAIConfig (V := Vc) dbc org) = true
    /\ core (GetOrgAIConfig (V := Vc) dbc org) = core (os_Config st).
Proof. exact (confirmed_shown V L db0 db user st). Qed.

(** C11: A change is stored whole or not at all.  Stored, the version was the one
    the administrator named; the row is the merge of the patch; exactly one
    unspent grant for this purpose was spent, or the session was on the
    break-glass list, fresh and not used before; no grant for SSO writes was
    spent; and one record was added.  Any other outcome leaves every table as
    it was. *)
Theorem write_spends_one_proof (V : Vault) (L : VaultLaws V) env w db res db' :
  db_wf db -> tx_event env ∉ map ev_ID (ad_events db) ->
  WriteOrgAIConfig env w db = (res, db') ->
  match res with
  | Ok o =>
      if decide (wo_Status o = OrgAIStored) then
        version_at db (w_OrgID w) = w_Expected w
        /\ (exists next raw, Merge (w_Patch w) (config (w_OrgID w) (Some (row_at db (w_OrgID w)))) = (next, wo_Changed o)
             /\ ad_orgai db' = <[w_OrgID w := row_of next raw (w_Now w) (w_UserID w)]> (ad_orgai db)
             /\ (exists d, ad_events db' = (ad_events db ++ [{| ev_ID := tx_event env; ev_UserID := w_UserID w;
                    ev_OrgID := Some (w_OrgID w); ev_Kind := SSOEventLLMOrgAIWritten;
                    ev_Details := OrgAIWritten (w_OrgID w) (wo_Via o) (wo_Changed o) (c_Version next) d;
                    ev_CreatedAt := tx_now env |}])%list))
        /\ (forall u g, count_unspent u g SSOGrantPurposeSSOWrite db' = count_unspent u g SSOGrantPurposeSSOWrite db)
        /\ ((wo_Via o = "stepup" /\ count_unspent (w_UserID w) (w_OrgID w) SSOGrantPurposeLLMOrgKeyWrite db
               = S (count_unspent (w_UserID w) (w_OrgID w) SSOGrantPurposeLLMOrgKeyWrite db'))
            \/ (wo_Via o = "breakglass" /\ w_BreakGlass w = true /\ w_SessionFresh w = true
                /\ ad_grants db' = ad_grants db
                /\ forall e, e ∈ ad_events db -> breakglass_key e <> Some (w_UserID w, unix (w_SessionIAT w))))
      else db' = db
  | Err _ => db' = db
  end.
Proof.
  intros W Hev H. destruct (Write_cases _ _ _ _ _ H) as [(via & db1 & next & changed & raw & db3 & _ & A & Hv & M & K & R & -> & ->)|[-> Hr]].
  2:{ destruct Hr as [[e ->]|(o & -> & Ho)]; [done|]. by rewrite decide_False. }
  cbn [wo_Status wo_Changed wo_Via]. rewrite decide_True by done. split; [done|].
  pose proof (record_write_tables _ _ _ _ _ _ _ R) as (Ro & _ & _ & _ & _ & Rg).
  pose proof (authorize_tables _ _ _ _ _ A) as (Ao & _).
  destruct (authorize_record env w db via db1 changed (c_Version next)
              (set_orgai (<[w_OrgID w := row_of next raw (w_Now w) (w_UserID w)]>) db1) db3 Hev A eq_refl R)
    as (d & Hd & Hcase).
  split; [exists next, raw; split; [done|]; split; [by rewrite Ro; cbn [ad_orgai set_orgai]; rewrite Ao|by exists d]|].
  unfold count_unspent. rewrite Rg. cbn [ad_grants set_orgai].
  destruct Hcase as [[-> _]|(-> & _ & B1 & B2 & Hg & Hk)].
  - unfold authorize in A. destruct (consumeGrant _ _ _ _ db) as [[id|] db0] eqn:G;
      [|destruct (w_BreakGlass w && w_SessionFresh w); [by destruct (existsb _ _)|by destruct (w_BreakGlass w)]].
    injection A as <-. pose proof (fun u g p => consumeGrant_count u g p _ _ _ _ _ _ _ W G) as C.
    unfold count_unspent in C. split.
    + intros u g. rewrite C. change (String.eqb SSOGrantPurposeLLMOrgKeyWrite SSOGrantPurposeSSOWrite) with false.
      rewrite andb_false_r. lia.
    + left. split; [done|]. rewrite C, !String.eqb_refl. cbn [andb]. lia.
  - rewrite Hg. split; [done|]. right. by repeat split.
Qed.

(** The checks made on an earlier read still hold when the change is stored:
    the version names what they looked at.  So a configuration keeps its type:
    a supported provider or none, and a value only for its provider's
    properties. *)
Theorem checks_hold_at_write (V1 V2 : Vault) (L1 : VaultLaws V1) (L2 : VaultLaws V2) pol bg db0 db1 db2 env s now
  members body w o db3 :
  rtc step db1 db2 ->
  patch_checks (V := V1) pol bg db0 db1 false s now members = inr (body, w) ->
  WriteOrgAIConfig (V := V2) env w db2 = (Ok o, db3) -> wo_Status o = OrgAIStored ->
  orgAIStateProblem pol body (GetOrgAIConfig (V := V2) db2 (w_OrgID w)) = ""
  /\ (fits (GetOrgAIConfig (V := V2) db2 (w_OrgID w)) -> fits (GetOrgAIConfig (V := V2) db3 (w_OrgID w))).
Proof.
  intros Hrtc Hc Hw Ho. unfold patch_checks in Hc. destruct (orgCaller db0 (ss_User s)) as [|[u org]]; [done|].
  destruct (parseOrgAIBody members) as [b|] eqn:P; [|done]. cbn zeta in Hc.
  destruct (Z.eqb_spec (c_Version (GetOrgAIConfig (V := V1) db1 (og_ID org))) (bd_version b)) as [Hv|]; [|done].
  destruct (String.eqb_spec (orgAIStateProblem pol b (GetOrgAIConfig (V := V1) db1 (og_ID org))) "") as [Hp|]; [|done].
  injection Hc as <- <-. cbn [w_OrgID] in *.
  apply Write_cases in Hw as [(via & d1 & next & changed & raw & d3 & _ & A & Hev & M & K & R & _ & ->)|[_ [[e ?]|(o' & [= <-] & ?)]]];
    [|done..]. cbn [w_OrgID w_Expected w_Patch w_Now w_UserID] in *.
  assert (Hcore : core (GetOrgAIConfig (V := V2) db2 (og_ID org)) = core (GetOrgAIConfig (V := V1) db1 (og_ID org))).
  { rewrite (GetOrgAIConfig_row (V := V2)), (GetOrgAIConfig_row (V := V1)), !core_config.
    rewrite (GetOrgAIConfig_row (V := V1)), config_version in Hv. fold (version_at db1 (og_ID org)) in Hv.
    destruct (rtc_mono (og_ID org) _ _ Hrtc) as [Hm|[_ Hm]]; [lia|done]. }
  assert (Hp2 : orgAIStateProblem pol b (GetOrgAIConfig (V := V2) db2 (og_ID org)) = "")
    by by rewrite (state_problem_core _ _ _ _ Hcore).
  split; [done|]. intros F. destruct (parse_named _ _ P) as [N1 N2].
  rewrite (GetOrgAIConfig_row (V := V2)) in *. 
  pose proof (merge_fits pol b _ next changed F N1 N2 Hp2 M) as Fn.
  apply record_write_tables in R as (R & _).
  assert (Hrow : row_at d3 (og_ID org) = row_of next raw now (us_ID u)).
  { unfold row_at. rewrite R. cbn [ad_orgai set_orgai]. by rewrite lookup_insert_eq. }
  rewrite Hrow. revert Fn. unfold fits, config. destruct (open_or_empty _ _). done.
Qed.

(** The version advances by exactly one when the provider changes, a key is
    given or a destination value changes, and never otherwise. *)
Theorem version_advances_iff p stored next changed :
  Merge p stored = (next, changed) ->
  (c_Version next = c_Version stored + 1 <->
   provider_changed p stored = true \/ p_APIKey p <> None
   \/ dest_changes stored (merge_values p stored) <> [])
  /\ (c_Version next <> c_Version stored + 1 -> c_Version next = c_Version stored).
Proof.
  unfold Merge. cbn zeta. intros [= <- _].
  assert (Hm : c_Version (merge_values p stored) = c_Version stored).
  { unfold merge_values, merge_base. by destruct (provider_changed p stored). }
  unfold key_written. destruct (provider_changed p stored); cbn [orb andb]; [by split; [split; [by left|]|]|].
  destruct (p_APIKey p) as [k|]; cbn [is_some orb]; [split; [split; [by right; left|done]|done]|].
  destruct (bool_decide _) eqn:D; cbn [negb].
  - apply bool_decide_eq_true_1 in D. rewrite Hm. split; [|done]. split; [lia|]. intros [H|[H|H]]; done.
  - apply bool_decide_eq_false_1 in D. split; [split; [by right; right|done]|done].
Qed.

(** A break-glass session makes at most one change: no two records carry the
    same user and session, whatever the history. *)
Theorem breakglass_session_once db0 db :
  NoDup (omap breakglass_key (ad_events db0)) -> rtc step db0 db -> NoDup (omap breakglass_key (ad_events db)).
Proof.
  intros H0 H. revert H0. induction H as [|x y z S _ IH]; [done|]. intros H0. apply IH.
  destruct (step_events _ _ S) as [->|(e & -> & He)]; [done|].
  rewrite omap_app. cbn [omap list_omap]. destruct (breakglass_key e) as [k|]; [|by rewrite app_nil_r].
  apply NoDup_app. split; [done|]. split; [|repeat constructor; by intros ?%elem_of_nil].
  intros k' (e' & He' & Hk')%list_elem_of_omap ->%list_elem_of_singleton.
  destruct He as [He|He]; [done|]. by apply (He e').
Qed.

(** What members read never depends on the key, only on whether there is
    one. *)
Theorem view_hides_key c c' :
  KeyPresent c = KeyPresent c' ->
  (c_Provider c, c_Model c, c_BaseURL c, c_AzureEndpoint c, c_AzureDeployment c, c_AzureAPIVersion c, c_AWSRegion c,
   c_PersonalKeysAllowed c, c_Version c, c_UpdatedAt c)
  = (c_Provider c', c_Model c', c_BaseURL c', c_AzureEndpoint c', c_AzureDeployment c', c_AzureAPIVersion c',
     c_AWSRegion c', c_PersonalKeysAllowed c', c_Version c', c_UpdatedAt c') ->
  orgAIView c = orgAIView c'.
Proof.
  intros K [= E1 E2 E3 E4 E5 E6 E7 E8 E9 E10]. unfold orgAIView, Complete.
  by rewrite K, E1, E2, E3, E4, E5, E6, E7, E8, E9, E10.
Qed.

(** ** Witnesses *)

Module OrgDemo.
#[local] Existing Instances AdminStore.Demo.vault AdminStore.Demo.vault_laws.

Definition members : list (string * Json) :=
  [(orgAIVersionProp, JNum "0"); (OrgAIPropProvider, JStr "openai"); (OrgAIPropAPIKey, JStr "sk-org");
   (OrgAIPropModel, JStr "gpt")].
Definition session : Session := {| ss_User := "u1"; ss_Email := "ann@example.com"; ss_IAT := Some 900 |}.
Definition pol : Policy := policy_of_env (fun _ => "").

(** The administrator's proof, the change, the confirmation. *)
Definition granted : AdminDB := snd (RecordSSOStepupOutcome (AdminStore.Demo.env "1") AdminStore.Demo.outcome AdminStore.Demo.db).
Definition change : OrgAIBody * OrgAIWrite :=
  match patch_checks pol ∅ granted granted false session 1000 (Some members) with
  | inr x => x
  | inl _ => ({| bd_version := 0; bd_patch := no_patch; bd_order := [] |},
              {| w_UserID := ""; w_OrgID := ""; w_Expected := 0; w_Patch := no_patch; w_BreakGlass := false;
                 w_SessionFresh := false; w_SessionIAT := 0; w_Now := 0 |})
  end.
Definition written := WriteOrgAIConfig (AdminStore.Demo.env "2") (snd change) granted.
Definition confirmed := ConfirmOrgAI (AdminStore.Demo.env "3") "u1" "o1" 1 1001 (snd written).

Lemma granted_step : step AdminStore.Demo.db granted.
Proof. exact (step_admin AdminStore.Demo.db _ _ (OpStepup (AdminStore.Demo.env "1") AdminStore.Demo.outcome) (not_elem_of_nil _)). Qed.

Lemma written_step : step granted (snd written).
Proof.
  apply step_write; [exact _|]. replace (map ev_ID (ad_events granted)) with ["event-1"] by (vm_compute; reflexivity).
  intros H%list_elem_of_singleton. discriminate H.
Qed.

Lemma confirmed_history : rtc step AdminStore.Demo.db (snd confirmed).
Proof.
  eapply rtc_l; [exact granted_step|]. eapply rtc_l; [exact written_step|]. eapply rtc_l; [|reflexivity].
  apply step_confirm. exact _.
Qed.
End OrgDemo.
#[local] Existing Instances AdminStore.Demo.vault AdminStore.Demo.vault_laws.

Lemma confirmed_is_what_was_shown_witness :
  Confirmed (ReadOrgAIState (snd OrgDemo.confirmed) "u1") = true
  /\ exists org, os_OrgID (ReadOrgAIState (snd OrgDemo.confirmed) "u1") = Some org.
Proof.
  assert (H : Confirmed (ReadOrgAIState (snd OrgDemo.confirmed) "u1") = true) by (vm_compute; reflexivity).
  split; [exact H|].
  destruct (confirmed_is_what_was_shown _ _ AdminStore.Demo.db (snd OrgDemo.confirmed) "u1" _ eq_refl
              OrgDemo.confirmed_history eq_refl H) as (org & _ & _ & _ & _ & _ & E & _).
  exists org. exact E.
Defined.

Lemma write_spends_one_proof_witness :
  exists o, fst OrgDemo.written = Ok o /\ wo_Status o = OrgAIStored /\ version_at OrgDemo.granted "o1" = 0
    /\ count_unspent "u1" "o1" SSOGrantPurposeLLMOrgKeyWrite OrgDemo.granted
       = S (count_unspent "u1" "o1" SSOGrantPurposeLLMOrgKeyWrite (snd OrgDemo.written)).
Proof.
  assert (W : db_wf OrgDemo.granted).
  { split; [|intros g Hg|apply NoDup_nil_2|apply NoDup_nil_2|intros r ?%elem_of_nil; done|intros e He].
    - replace (map gr_ID (ad_grants OrgDemo.granted)) with ["grant-1"] by (vm_compute; reflexivity). apply NoDup_singleton.
    - apply list_elem_of_singleton in Hg as ->. split; [vm_compute; reflexivity|right; vm_compute; reflexivity].
    - apply list_elem_of_singleton in He as ->. discriminate. }
  assert (Hev : tx_event (AdminStore.Demo.env "2") ∉ map ev_ID (ad_events OrgDemo.granted)).
  { replace (map ev_ID (ad_events OrgDemo.granted)) with ["event-1"] by (vm_compute; reflexivity).
    intros H%list_elem_of_singleton. discriminate H. }
  destruct (fst OrgDemo.written) as [o|e] eqn:R; [|vm_compute in R; discriminate R].
  exists o. split; [reflexivity|].
  assert (Hs : wo_Status o = OrgAIStored) by (vm_compute in R; injection R as <-; reflexivity).
  split; [exact Hs|].
  assert (E : WriteOrgAIConfig (AdminStore.Demo.env "2") (snd OrgDemo.change) OrgDemo.granted = (Ok o, snd OrgDemo.written))
    by (rewrite <- R; unfold OrgDemo.written; apply surjective_pairing).
  pose proof (write_spends_one_proof _ _ (AdminStore.Demo.env "2") (snd OrgDemo.change) OrgDemo.granted (Ok o) _ W Hev E) as P.
  cbv beta iota in P. rewrite decide_True in P by exact Hs. destruct P as (Hv & _ & _ & [[_ Hc]|(_ & Hb & _)]).
  - split; [exact Hv|exact Hc].
  - vm_compute in Hb. discriminate Hb.
Defined.

Lemma checks_hold_at_write_witness :
  exists body w o, patch_checks OrgDemo.pol ∅ OrgDemo.granted OrgDemo.granted false OrgDemo.session 1000 (Some OrgDemo.members) = inr (body, w)
    /\ fst OrgDemo.written = Ok o /\ wo_Status o = OrgAIStored
    /\ orgAIStateProblem OrgDemo.pol body (GetOrgAIConfig OrgDemo.granted "o1") = "".
Proof.
  destruct (patch_checks OrgDemo.pol ∅ OrgDemo.granted OrgDemo.granted false OrgDemo.session 1000 (Some OrgDemo.members))
    as [r|[body w]] eqn:C; [vm_compute in C; discriminate C|].
  destruct (fst OrgDemo.written) as [o|e] eqn:R; [|vm_compute in R; discriminate R].
  exists body, w, o. split; [reflexivity|]. split; [reflexivity|].
  assert (Hs : wo_Status o = OrgAIStored) by (vm_compute in R; injection R as <-; reflexivity).
  split; [exact Hs|].
  assert (Ew : snd OrgDemo.change = w) by (unfold OrgDemo.change; rewrite C; reflexivity).
  assert (E : WriteOrgAIConfig (AdminStore.Demo.env "2") w OrgDemo.granted = (Ok o, snd OrgDemo.written))
    by (rewrite <- R, <- Ew; unfold OrgDemo.written; apply surjective_pairing).
  pose proof (checks_hold_at_write _ _ _ _ OrgDemo.pol ∅ OrgDemo.granted OrgDemo.granted OrgDemo.granted _ OrgDemo.session
    1000 _ body w o (snd OrgDemo.written) (rtc_refl _ _) C E Hs) as [P _].
  assert (Eo : w_OrgID w = "o1") by (rewrite <- Ew; vm_compute; reflexivity).
  rewrite Eo in P. exact P.
Defined.

Lemma version_advances_iff_witness :
  exists next changed, Merge (w_Patch (snd OrgDemo.change)) defaultOrgAIConfig = (next, changed) /\ c_Version next = 1.
Proof.
  destruct (Merge (w_Patch (snd OrgDemo.change)) defaultOrgAIConfig) as [next changed] eqn:M.
  exists next, changed. split; [reflexivity|].
  apply (version_advances_iff _ _ _ _ M). left. vm_compute. reflexivity.
Defined.

Lemma breakglass_session_once_witness : NoDup (omap breakglass_key (ad_events (snd OrgDemo.confirmed))).
Proof. apply (breakglass_session_once AdminStore.Demo.db); [apply NoDup_nil_2|exact OrgDemo.confirmed_history]. Defined.

Lemma view_hides_key_witness :
  orgAIView (stored_config defaultOrgAIConfig "" 5) = orgAIView (stored_config defaultOrgAIConfig "raw" 5).
Proof. apply view_hides_key; reflexivity. Defined.
