(* ===== verification/Stepup.v ===== *)
(** * The administrator's step-up

    domain/domain.go, auth/stepup.go, config/idp.go (the addresses) and the
    start and callback of api/handlers_sso_stepup.go: a fresh sign-in at Google
    or Microsoft that proves its user an administrator of the organisation's
    domain, and ends in one grant ([AdminStore]) or in a recorded refusal.  The
    identity providers, and the libraries that exchange a code and verify a
    token, are the parameter [IdP]; JSON and HMAC are the class [StateSeal]. *)

From S2P Require Import Prelude GoInt GoTime GoText GoEncoding GoURL SecretBox SecretStore Destinations AdminStore OrgAI.

#[local] Open Scope string_scope.
#[local] Open Scope Z_scope.

(** ** Domains (domain/domain.go) *)

Definition genericDomains : gset string :=
  list_to_set ["gmail.com"; "googlemail.com"; "outlook.com"; "hotmail.com"; "live.com"; "msn.com";
    "yahoo.com"; "yahoo.fr"; "yahoo.co.uk"; "icloud.com"; "me.com"; "mac.com"; "protonmail.com"; "proton.me";
    "aol.com"; "mail.com"; "gmx.com"; "yandex.com"; "yandex.ru"; "zoho.com"; "fastmail.com"].

Definition ExtractDomain (email : string) : string :=
  match SplitN2 email "@" with
  | [_; d] => ToLower (TrimSpace d)
  | _ => ""
  end.

Definition IsGenericDomain (d : string) : bool := bool_decide (d ∈ genericDomains).

(** [strings.Count(s, string(c))]. *)
Fixpoint count_char (c : ascii) (s : string) : nat :=
  match s with
  | EmptyString => O
  | String d r => ((if Ascii.eqb d c then 1 else 0) + count_char c r)%nat
  end.

Definition EmailBelongsToDomain (email d : string) : bool :=
  if negb (Nat.eqb (count_char "@" email) 1) then false
  else let emailDomain := ExtractDomain email in
       negb (String.eqb emailDomain "") && String.eqb emailDomain (ToLower (TrimSpace d)).

Definition DomainMatchesOrg (d orgDomain : string) : bool := negb (String.eqb d "") && EqualFold d orgDomain.

(** ** The identity providers' addresses (config/idp.go)

    [Guard] and [Notice], which shape the connections and the log of a test
    deployment, are left out. *)

Record IdPEndpoint := {
  ie_AuthURL : string;
  ie_TokenURL : string;
  ie_JWKSURL : string;
  ie_Issuer : string;
  ie_APIBase : string }.

Definition TenantPlaceholder := "{tenantid}".

Definition ProductionGoogleIdP : IdPEndpoint :=
  {| ie_AuthURL := "https://accounts.google.com/o/oauth2/v2/auth";
     ie_TokenURL := "https://oauth2.googleapis.com/token";
     ie_JWKSURL := "https://www.googleapis.com/oauth2/v3/certs";
     ie_Issuer := "https://accounts.google.com";
     ie_APIBase := "https://admin.googleapis.com/admin/directory/v1" |}.

Definition ProductionMicrosoftIdP : IdPEndpoint :=
  {| ie_AuthURL := "https://login.microsoftonline.com/organizations/oauth2/v2.0/authorize";
     ie_TokenURL := "https://login.microsoftonline.com/organizations/oauth2/v2.0/token";
     ie_JWKSURL := "https://login.microsoftonline.com/common/discovery/v2.0/keys";
     ie_Issuer := "https://login.microsoftonline.com/" +:+ TenantPlaceholder +:+ "/v2.0";
     ie_APIBase := "https://graph.microsoft.com/v1.0" |}.

Definition GoogleIdPAt (base : string) : IdPEndpoint :=
  let base := TrimRight "/" base in
  {| ie_AuthURL := base +:+ "/o/oauth2/v2/auth"; ie_TokenURL := base +:+ "/token";
     ie_JWKSURL := base +:+ "/oauth2/v3/certs"; ie_Issuer := base;
     ie_APIBase := base +:+ "/admin/directory/v1" |}.

Definition MicrosoftIdPAt (base : string) : IdPEndpoint :=
  let base := TrimRight "/" base in
  {| ie_AuthURL := base +:+ "/organizations/oauth2/v2.0/authorize";
     ie_TokenURL := base +:+ "/organizations/oauth2/v2.0/token";
     ie_JWKSURL := base +:+ "/common/discovery/v2.0/keys";
     ie_Issuer := base +:+ "/" +:+ TenantPlaceholder +:+ "/v2.0"; ie_APIBase := base +:+ "/v1.0" |}.

(** ** The conversation (auth/stepup.go) *)

Definition StepupGoogle := "google".
Definition StepupMicrosoft := "microsoft".
Definition googleDirectoryScope := "https://www.googleapis.com/auth/admin.directory.user.readonly".

Definition qualifyingEntraRoles : list string :=
  ["62e90394-69f5-4237-9190-012177145e10"; "e8611ab8-c189-46e8-94e1-60213ab1f814";
   "9b895d92-2cd3-44c7-9d02-a6ac2d5ea5c3"; "158c047a-c907-4556-b7ef-446551a6b5f7"].

Definition HasQualifyingEntraRole (ids : list string) : bool :=
  existsb (fun id => existsb (String.eqb (ToLower (TrimSpace id))) qualifyingEntraRoles) ids.

Record StepupProvider := {
  pv_Name : string;
  pv_ClientID : string;
  pv_RedirectURL : string;
  pv_Scopes : list string;
  pv_ep : IdPEndpoint }.

Definition NewGoogleStepup (clientID redirectURL : string) (ep : IdPEndpoint) : StepupProvider :=
  {| pv_Name := StepupGoogle; pv_ClientID := clientID; pv_RedirectURL := redirectURL;
     pv_Scopes := ["openid"; "email"; googleDirectoryScope]; pv_ep := ep |}.

Definition NewMicrosoftStepup (clientID redirectURL : string) (ep : IdPEndpoint) : StepupProvider :=
  {| pv_Name := StepupMicrosoft; pv_ClientID := clientID; pv_RedirectURL := redirectURL;
     pv_Scopes := ["openid"; "profile"; "email"; "User.Read"; "Organization.Read.All"; "RoleManagement.Read.Directory"];
     pv_ep := ep |}.

Definition identityScopes : list string := ["openid"; "profile"; "email"; "User.Read"].

Definition ExtraScopes (p : StepupProvider) : list string :=
  keep (fun s => negb (existsb (String.eqb s) identityScopes)) (pv_Scopes p).

(** The parameters [AuthURL] sends to the provider's authorization endpoint,
    the ones the OAuth library adds left out. *)
Definition AuthURL (p : StepupProvider) (state nonce loginHint hd : string) : list (string * string) :=
  ([("state", state); ("nonce", nonce); ("access_type", "online")]
   ++ (if String.eqb loginHint "" then [] else [("login_hint", loginHint)])
   ++ (if String.eqb (pv_Name p) StepupGoogle
       then ("prompt", "select_account consent") :: (if String.eqb hd "" then [] else [("hd", hd)])
       else [("prompt", "login")]))%list.

(** The claims of a verified ID token; [email_verified] is the raw JSON text. *)
Record StepupClaims := {
  cl_Issuer : string;
  cl_Nonce : string;
  cl_Email : string;
  cl_EmailVerified : string;
  cl_HD : string;
  cl_TenantID : string;
  cl_PreferredUsername : string;
  cl_WIDs : option (list string) }.

Record StepupIdentity := {
  id_Email : string;
  id_EmailVerified : bool;
  id_HD : string;
  id_TenantID : string;
  id_PreferredUsername : string;
  id_WIDs : option (list string);
  id_AccessToken : string }.

(** An answer of a provider's API: the status and the decoded body. *)
Record ApiAnswer (A : Type) := { an_Status : Z; an_Body : option A }.
Arguments an_Status {A}.
Arguments an_Body {A}.

Record GoogleUser := { gu_IsAdmin : bool; gu_IsDelegatedAdmin : bool }.
Record OrgEntry := { oe_ID : string; oe_Domains : list string }.

(** The providers and the libraries in front of them: the code exchanged and
    the ID token verified (signature, audience, expiry), as an access token
    and claims; and what a GET with that access token answers. *)
Record IdP := {
  idp_token : StepupProvider -> string -> option (string * StepupClaims);
  idp_user : string -> string -> option (ApiAnswer GoogleUser);
  idp_organization : string -> string -> option (ApiAnswer (list OrgEntry));
  idp_roles : string -> string -> option (ApiAnswer (list string)) }.

(** [strings.ContainsAny]. *)
Definition ContainsAny (s chars : string) : bool := negb (sforallb (fun c => negb (char_in chars c)) s).

(** [strings.Replace(s, old, new, 1)] for a non-empty [old]. *)
Definition replace_first (s old new : string) : string :=
  match cut_str old s with Some (a, b) => a +:+ new +:+ b | None => s end.

Definition issuerOK (p : StepupProvider) (iss tid : string) : bool :=
  if String.eqb (pv_Name p) StepupMicrosoft then
    negb (String.eqb tid "") && negb (ContainsAny tid "/?#")
    && String.eqb iss (replace_first (ie_Issuer (pv_ep p)) TenantPlaceholder tid)
  else if String.eqb iss (ie_Issuer (pv_ep p)) then true
  else String.eqb (ie_Issuer (pv_ep p)) (ie_Issuer ProductionGoogleIdP) && String.eqb iss "accounts.google.com".

(** A JSON string. *)
Definition quoted (s : string) : string := quote1 +:+ s +:+ quote1.

(** [Exchange]; every failure is [ErrStepupToken]. *)
Definition Exchange (idp : IdP) (p : StepupProvider) (code nonce : string) : option StepupIdentity :=
  match idp_token idp p code with
  | None => None
  | Some (access, c) =>
      if negb (issuerOK p (cl_Issuer c) (cl_TenantID c)) then None
      else if String.eqb nonce "" || negb (String.eqb (cl_Nonce c) nonce) then None
      else Some {| id_Email := cl_Email c;
                   id_EmailVerified := String.eqb (cl_EmailVerified c) "true"
                                       || String.eqb (cl_EmailVerified c) (quoted "true");
                   id_HD := cl_HD c; id_TenantID := cl_TenantID c;
                   id_PreferredUsername := cl_PreferredUsername c; id_WIDs := cl_WIDs c;
                   id_AccessToken := access |}
  end.

(** [getJSON]: [None] for every error. *)
Definition getJSON {A} (get : string -> string -> option (ApiAnswer A)) (accessToken rawURL : string) : option A :=
  match NewRequestURL rawURL with
  | None => None
  | Some _ =>
      match get rawURL accessToken with
      | None => None
      | Some r => if negb (an_Status r =? 200) then None else an_Body r
      end
  end.

Definition GoogleIsAdmin (idp : IdP) (p : StepupProvider) (accessToken email : string) : option bool :=
  u ← getJSON (idp_user idp) accessToken
        (ie_APIBase (pv_ep p) +:+ "/users/" +:+ PathEscape email +:+ "?fields=isAdmin,isDelegatedAdmin");
  Some (gu_IsAdmin u || gu_IsDelegatedAdmin u).

Definition MicrosoftOrganization (idp : IdP) (p : StepupProvider) (accessToken : string)
  : option (string * list string) :=
  r ← getJSON (idp_organization idp) accessToken
        (ie_APIBase (pv_ep p) +:+ "/organization?$select=id,verifiedDomains");
  match r with
  | [o] => Some (oe_ID o, oe_Domains o)
  | _ => None
  end.

Definition MicrosoftDirectoryRoles (idp : IdP) (p : StepupProvider) (accessToken : string) : option (list string) :=
  getJSON (idp_roles idp) accessToken
    (ie_APIBase (pv_ep p) +:+ "/me/memberOf/microsoft.graph.directoryRole?$select=roleTemplateId").

(** ** The process's configuration *)

Definition EnvAdminEmails := "PACEDAY_ADMIN_EMAILS".
Definition stepupStartPath := "/api/admin/sso/stepup".
Definition stepupCallbackPath := "/api/admin/sso/stepup/callback".
Definition stepupCookieTTL : Z := 10 * Minute.

Record StepupConfig := {
  sc_google : option StepupProvider;
  sc_microsoft : option StepupProvider;
  sc_breakGlass : gset string;
  sc_frontendURL : string }.

(** [stepupConfig.provider]. *)
Definition provider (c : StepupConfig) (name : string) : option StepupProvider :=
  if String.eqb name StepupGoogle then sc_google c
  else if String.eqb name StepupMicrosoft then sc_microsoft c else None.

(** [newSSOHandlers]: the break-glass list. *)
Definition breakGlassList (raw : string) : gset string :=
  list_to_set (keep (fun e => negb (String.eqb e "")) (map (fun e => ToLower (TrimSpace e)) (Split "," raw))).

(** [ssoOptionsFromEnv], with [newSSOHandlers]. *)
Definition stepupConfigOf (getenv : string -> string) (google microsoft : IdPEndpoint) (frontendURL : string)
  : StepupConfig :=
  let appURL := TrimRight "/" (TrimSpace (getenv "APP_URL")) in
  let redirect := appURL +:+ stepupCallbackPath in
  let configured id sec (p : StepupProvider) :=
    if negb (String.eqb appURL "") && negb (String.eqb (getenv id) "") && negb (String.eqb (getenv sec) "")
    then Some p else None in
  {| sc_google := configured "GOOGLE_CLIENT_ID" "GOOGLE_CLIENT_SECRET"
                    (NewGoogleStepup (getenv "GOOGLE_CLIENT_ID") redirect google);
     sc_microsoft := configured "MICROSOFT_CLIENT_ID" "MICROSOFT_CLIENT_SECRET"
                       (NewMicrosoftStepup (getenv "MICROSOFT_CLIENT_ID") redirect microsoft);
     sc_breakGlass := breakGlassList (getenv EnvAdminEmails); sc_frontendURL := frontendURL |}.

(** ** The state cookie (api/handlers_sso_stepup.go) *)

Record StepupState := {
  ss_UserID : uuid;
  ss_OrgID : uuid;
  ss_Provider : string;
  ss_Nonce : string;
  ss_Expires : Z;
  ss_Purpose : string }.

(** [stepupState.purpose], on a state that may be nil. *)
Definition state_purpose (s : option StepupState) : string :=
  match s with
  | None => SSOGrantPurposeSSOWrite
  | Some s => if String.eqb (ss_Purpose s) "" then SSOGrantPurposeSSOWrite else ss_Purpose s
  end.

(** The state as JSON, and the HMAC of a text under the process's key. *)
Class StateSeal := {
  st_marshal : StepupState -> string;
  st_unmarshal : string -> option StepupState;
  st_mac : string -> string }.

(** The strings of a state are ASCII, its expiry a positive [int64]. *)
Definition ascii_text (s : string) : bool := sforallb (fun c => byte_of c <? 128) s.
Definition state_text (s : StepupState) : bool :=
  ascii_text (ss_UserID s) && ascii_text (ss_OrgID s) && ascii_text (ss_Provider s) && ascii_text (ss_Nonce s)
  && ascii_text (ss_Purpose s) && (0 <? ss_Expires s) && (ss_Expires s <? 2 ^ 63).

Class StateSealLaws (S : StateSeal) : Prop := {
  st_roundtrip s : state_text s = true -> st_unmarshal (st_marshal s) = Some s }.

Section State.
Context {S : StateSeal}.

Definition signState (s : StepupState) : string :=
  let p := EncodeToString RawURLEncoding (st_marshal s) in
  p +:+ "." +:+ EncodeToString RawURLEncoding (st_mac p).

(** [readState]: the state when its signature is valid, and whether every
    binding holds for [user]; [cookie] and [q] are what the request carries. *)
Definition readState (cookie : option string) (q : string) (user : User) (now : Z) : option StepupState * bool :=
  match cookie with
  | None => (None, false)
  | Some value =>
      match cut "." value with
      | None => (None, false)
      | Some (p, sig) =>
          match DecodeRaw RawURLEncoding sig with
          | None => (None, false)
          | Some got =>
              if negb (String.eqb got (st_mac p)) then (None, false)
              else match DecodeRaw RawURLEncoding p with
                   | None => (None, false)
                   | Some raw =>
                       match st_unmarshal raw with
                       | None => (None, false)
                       | Some s =>
                           (Some s, String.eqb (ss_UserID s) (us_ID user)
                                    && bool_decide (us_OrgID user = Some (ss_OrgID s))
                                    && (unix now <? ss_Expires s)
                                    && negb (String.eqb (ss_Nonce s) "") && String.eqb q (ss_Nonce s))
                       end
                   end
          end
      end
  end.

(** ** GET /api/admin/sso/stepup *)

Definition hex_lower (k : Z) : ascii := if k <? 10 then char (48 + k) else char (87 + k).

(** [hex.EncodeToString]. *)
Fixpoint hexString (s : string) : string :=
  match s with
  | EmptyString => ""
  | String c r => String (hex_lower (byte_of c / 16)) (String (hex_lower (byte_of c mod 16)) (hexString r))
  end.

(** [stepupPurposeParam], over the values of the parameter ([[]]: absent). *)
Definition stepupPurposeParam (vals : list string) : option string :=
  match vals with
  | [] => Some ""
  | [v] => if String.eqb v SSOGrantPurposeSSOWrite || String.eqb v SSOGrantPurposeLLMOrgKeyWrite then Some v else None
  | _ => None
  end.

Definition msgStepupPurposeInvalid := "purpose must be 'sso_write' or 'llm_org_key_write'".

Inductive StartAnswer :=
| Start400 (msg : string)
| Start403
| Start503 (msg : string)
| Start500
| StartRedirect (st : StepupState) (cookie : string) (p : StepupProvider) (params : list (string * string)).

(** [startStepup]; [random] is 24 bytes of the system, [None] an error. *)
Definition startStepup (c : StepupConfig) (db : AdminDB) (s : Session) (name : string) (purposes : list string)
  (random : option string) (now : Z) : StartAnswer :=
  if String.eqb name "" then Start400 "Query argument provider is required, but not found"
  else if negb (String.eqb name StepupGoogle) && negb (String.eqb name StepupMicrosoft)
  then Start400 "provider must be 'google' or 'microsoft'"
  else match stepupPurposeParam purposes with
  | None => Start400 msgStepupPurposeInvalid
  | Some purpose =>
      let purpose := if String.eqb purpose SSOGrantPurposeSSOWrite then "" else purpose in
      match orgCaller db (ss_User s) with
      | inl _ => Start403
      | inr (user, org) =>
          match provider c name with
          | None => Start503 (name +:+ " step-up not configured")
          | Some p =>
              match random with
              | None => Start500
              | Some b =>
                  let nonce := hexString b in
                  let st := {| ss_UserID := us_ID user; ss_OrgID := og_ID org; ss_Provider := name;
                               ss_Nonce := nonce; ss_Expires := unix (now + stepupCookieTTL);
                               ss_Purpose := purpose |} in
                  let email := if String.eqb (ss_Email s) "" then us_Email user else ss_Email s in
                  StartRedirect st (signState st) p (AuthURL p nonce nonce email (og_Domain org))
              end
          end
      end
  end.

(** ** GET /api/admin/sso/stepup/callback *)

Definition reasonStateMismatch := "state_mismatch".
Definition reasonTokenInvalid := "token_invalid".
Definition reasonNoHD := "no_hd".
Definition reasonHDMismatch := "hd_mismatch".
Definition reasonTIDMismatch := "tid_mismatch".
Definition reasonTIDChanged := "tid_changed".
Definition reasonEmailMismatch := "email_mismatch".
Definition reasonNotAdmin := "not_admin".

Definition containsFold (l : list string) (s : string) : bool := existsb (fun v => EqualFold (TrimSpace v) s) l.

(** The query of a callback: [Get] of each parameter. *)
Record CallbackQuery := { cq_State : string; cq_Error : string; cq_Code : string }.

(** What the checks answer: the reason of a refusal ("": granted), the tenant
    to pin, and the reasons registered for the budget's answer, in order. *)
Record Checked := { ck_Reason : string; ck_Pin : string; ck_Expiry : list string }.

Definition refuse_with (expiry : list string) (reason : string) : Checked :=
  {| ck_Reason := reason; ck_Pin := ""; ck_Expiry := expiry |}.

(** The Google half of [checkStepup]. *)
Definition checkGoogle (idp : IdP) (p : StepupProvider) (org : Org) (email : string) (id : StepupIdentity) : Checked :=
  let before := [reasonTokenInvalid] in
  if String.eqb (id_HD id) "" then refuse_with before reasonNoHD
  else if negb (EqualFold (TrimSpace (id_HD id)) (og_Domain org)) then refuse_with before reasonHDMismatch
  else if negb (id_EmailVerified id) || negb (EqualFold (id_Email id) email) then refuse_with before reasonEmailMismatch
  else
    let running := [reasonTokenInvalid; reasonNotAdmin] in
    match GoogleIsAdmin idp p (id_AccessToken id) (id_Email id) with
    | Some true => {| ck_Reason := ""; ck_Pin := ""; ck_Expiry := running |}
    | _ => refuse_with running reasonNotAdmin
    end.

(** The Microsoft half; [pinned] is what [GetOrgMSTenantID] reads, [None] an
    error. *)
Definition checkMicrosoft (idp : IdP) (pinned : option string) (p : StepupProvider) (org : Org) (email : string)
  (id : StepupIdentity) : Checked :=
  let running := [reasonTokenInvalid; reasonTIDMismatch] in
  match MicrosoftOrganization idp p (id_AccessToken id) with
  | None => refuse_with running reasonTIDMismatch
  | Some (tid, verified) =>
      if String.eqb tid "" || negb (String.eqb tid (id_TenantID id)) || negb (containsFold verified (og_Domain org))
      then refuse_with running reasonTIDMismatch
      else match pinned with
      | None => refuse_with running reasonTIDMismatch
      | Some pinned =>
          if negb (String.eqb pinned "") && negb (String.eqb pinned tid) then refuse_with running reasonTIDChanged
          else if negb (EqualFold (id_PreferredUsername id) email) && negb (EqualFold (id_Email id) email)
          then refuse_with running reasonEmailMismatch
          else
            let running := [reasonTokenInvalid; reasonTIDMismatch; reasonNotAdmin] in
            match (match id_WIDs id with
                   | Some roles => Some roles
                   | None => MicrosoftDirectoryRoles idp p (id_AccessToken id)
                   end) with
            | None => refuse_with running reasonNotAdmin
            | Some roles =>
                if HasQualifyingEntraRole roles
                then {| ck_Reason := ""; ck_Pin := tid; ck_Expiry := running |}
                else refuse_with running reasonNotAdmin
            end
      end
  end.

(** [checkStepup]. *)
Definition checkStepup (c : StepupConfig) (idp : IdP) (pinned : option string) (s : Session) (q : CallbackQuery)
  (user : User) (org : Org) (st : StepupState) : Checked :=
  match provider c (ss_Provider st) with
  | None => refuse_with [] reasonTokenInvalid
  | Some p =>
      if negb (String.eqb (cq_Error q) "") || String.eqb (cq_Code q) "" then refuse_with [] reasonTokenInvalid
      else match Exchange idp p (cq_Code q) (ss_Nonce st) with
      | None => refuse_with [reasonTokenInvalid] reasonTokenInvalid
      | Some id =>
          let email := if String.eqb (ss_Email s) "" then us_Email user else ss_Email s in
          if String.eqb (ss_Provider st) StepupGoogle then checkGoogle idp p org email id
          else checkMicrosoft idp pinned p org email id
      end
  end.

(** What the callback answers the browser; [BudgetAnswers] when the budget
    already did or will. *)
Inductive CallbackAnswer :=
| Unauthorized
| BudgetAnswers
| ServerFailure
| Landing (url : string).

Definition stepupTarget (c : StepupConfig) (purpose reason : string) : string :=
  (if String.eqb reason "" then sc_frontendURL c +:+ "/settings?stepup=granted"
   else sc_frontendURL c +:+ "/settings?stepup=denied&reason=" +:+ reason)
  +:+ (if String.eqb purpose SSOGrantPurposeLLMOrgKeyWrite then "&purpose=" +:+ SSOGrantPurposeLLMOrgKeyWrite else "").

(** What step 5 meets: the connection it reserves, whether it owns the answer,
    and its two transactions at most. *)
Inductive Reserve := Reserved | ReserveFails | ReserveExpired.

Record RecordEnv := {
  re_conn : Reserve;
  re_commit : bool;
  re_tx1 : TxEnv;
  re_tx2 : TxEnv;
  re_Now : Z }.

(** [finishStepup]. *)
Definition finishStepup (c : StepupConfig) (env : RecordEnv) (user : uuid) (org : option uuid)
  (prov purpose reason pin : string) (db : AdminDB) : CallbackAnswer * AdminDB :=
  match re_conn env with
  | ReserveExpired => (BudgetAnswers, db)
  | ReserveFails => (ServerFailure, db)
  | Reserved =>
      if negb (re_commit env) then (BudgetAnswers, db)
      else
        let o granted reason pin :=
          {| so_UserID := user; so_OrgID := org; so_Provider := prov; so_Granted := granted;
             so_Reason := reason; so_PinTenant := pin; so_Purpose := purpose; so_Now := re_Now env |} in
        match RecordSSOStepupOutcome (re_tx1 env) (o (String.eqb reason "") reason pin) db with
        | (Ok _, db1) => (Landing (stepupTarget c purpose reason), db1)
        | (Err ErrTenantPinned, db1) =>
            match RecordSSOStepupOutcome (re_tx2 env) (o false reasonTIDChanged "") db1 with
            | (Ok _, db2) => (Landing (stepupTarget c purpose reasonTIDChanged), db2)
            | (Err _, db2) => (ServerFailure, db2)
            end
        | (Err _, db1) => (ServerFailure, db1)
        end
  end.

(** What the callback read, before it records: the outcome to record, or an
    answer; [db] the tables when it reads, [pin_fails] whether the read of the
    pinned tenant fails. *)
Record Plan := {
  pl_User : uuid;
  pl_Org : option uuid;
  pl_Provider : string;
  pl_Purpose : string;
  pl_Reason : string;
  pl_Pin : string }.

Definition callback_plan (c : StepupConfig) (idp : IdP) (db : AdminDB) (pin_fails : bool) (s : Session)
  (cookie : option string) (q : CallbackQuery) (now : Z) : option Plan :=
  match ad_users db !! ss_User s with
  | None => None
  | Some user =>
      let '(st, ok) := readState cookie (cq_State q) user now in
      let plan org reason pin :=
        {| pl_User := us_ID user; pl_Org := org;
           pl_Provider := match st with Some st => ss_Provider st | None => "" end;
           pl_Purpose := state_purpose st; pl_Reason := reason; pl_Pin := pin |} in
      match st with
      | Some st' =>
          if negb ok then Some (plan (us_OrgID user) reasonStateMismatch "")
          else match ad_orgs db !! ss_OrgID st' with
          | None => Some (plan (us_OrgID user) reasonStateMismatch "")
          | Some org =>
              let k := checkStepup c idp (if pin_fails : bool then None else GetOrgMSTenantID db (og_ID org)) s q user org st' in
              Some (plan (Some (og_ID org)) (ck_Reason k) (ck_Pin k))
          end
      | None => Some (plan (us_OrgID user) reasonStateMismatch "")
      end
  end.

(** [stepupCallback]: its reads on [db], its record on [db'], the tables as
    they are by then. *)
Definition stepupCallback (c : StepupConfig) (idp : IdP) (db : AdminDB) (pin_fails : bool) (s : Session)
  (cookie : option string) (q : CallbackQuery) (now : Z) (env : RecordEnv) (db' : AdminDB)
  : CallbackAnswer * AdminDB :=
  match callback_plan c idp db pin_fails s cookie q now with
  | None => (Unauthorized, db')
  | Some p => finishStepup c env (pl_User p) (pl_Org p) (pl_Provider p) (pl_Purpose p) (pl_Reason p) (pl_Pin p) db'
  end.
End State.

(** ** Facts: the cookie *)

(** Rows are keyed by their identifier. *)
Definition keyed (db : AdminDB) : Prop :=
  (forall k u, ad_users db !! k = Some u -> us_ID u = k) /\ (forall k o, ad_orgs db !! k = Some o -> og_ID o = k).

Lemma orgCaller_inr db u user org : keyed db -> orgCaller db u = inr (user, org) ->
  ad_users db !! u = Some user /\ us_ID user = u /\ us_OrgID user = Some (og_ID org)
  /\ ad_orgs db !! og_ID org = Some org.
Proof.
  intros [Ku Ko]. unfold orgCaller. destruct (ad_users db !! u) as [x|] eqn:E; [|done].
  destruct (us_OrgID x) as [k|] eqn:Eo; [|done]. destruct (ad_orgs db !! k) as [o|] eqn:Ek; [|done].
  intros [= -> ->]. rewrite (Ko _ _ Ek). by rewrite (Ku _ _ E).
Qed.

Lemma raw_no_dot s : free_of "." (EncodeToString RawURLEncoding s) = true.
Proof.
  apply (Encode_chars RawURLEncoding); [done|]. intros k Hk.
  apply (forallb_seq64 (fun k => negb (Ascii.eqb (enc_char RawURLEncoding k) "."))); [by vm_compute|done].
Qed.

Lemma hexString_empty s : hexString s = "" -> s = "".
Proof. by destruct s. Qed.

Section StateFacts.
Context {S : StateSeal} {L : StateSealLaws S}.

(** Reading what was signed: the state, and the test of its bindings. *)
Lemma readState_sign st q user now : state_text st = true ->
  readState (Some (signState st)) q user now
  = (Some st, String.eqb (ss_UserID st) (us_ID user) && bool_decide (us_OrgID user = Some (ss_OrgID st))
              && (unix now <? ss_Expires st) && negb (String.eqb (ss_Nonce st) "") && String.eqb q (ss_Nonce st)).
Proof.
  intros T. unfold readState, signState. rewrite str_cons, (cut_app "." _ _ (raw_no_dot _)). cbv beta iota zeta.
  rewrite !(DecodeRaw_Encode _ RawURLEncoding_ok) by done. rewrite String.eqb_refl. cbn [negb].
  by rewrite st_roundtrip.
Qed.

(** What a start signed, and when. *)
Definition started (c : StepupConfig) (st : StepupState) (t : Z) : Prop :=
  state_text st = true /\
  exists db s name purposes random p params,
    keyed db /\ startStepup c db s name purposes random t = StartRedirect st (signState st) p params.

Lemma start_inv c db s name purposes random now st cookie p params :
  keyed db -> startStepup c db s name purposes random now = StartRedirect st cookie p params ->
  exists user org b,
    ad_users db !! ss_User s = Some user /\ us_OrgID user = Some (og_ID org)
    /\ ad_orgs db !! og_ID org = Some org /\ random = Some b /\ cookie = signState st
    /\ provider c name = Some p /\ (name = StepupGoogle \/ name = StepupMicrosoft)
    /\ st = {| ss_UserID := ss_User s; ss_OrgID := og_ID org; ss_Provider := name; ss_Nonce := hexString b;
               ss_Expires := unix (now + stepupCookieTTL); ss_Purpose := ss_Purpose st |}
    /\ (ss_Purpose st = "" \/ ss_Purpose st = SSOGrantPurposeLLMOrgKeyWrite)
    /\ params = AuthURL p (hexString b) (hexString b) (if String.eqb (ss_Email s) "" then us_Email user else ss_Email s)
                  (og_Domain org).
Proof.
  intros K. unfold startStepup. destruct (String.eqb_spec name ""); [done|].
  destruct (String.eqb_spec name StepupGoogle) as [Hg|Hg]; cbn [negb andb];
    [|destruct (String.eqb_spec name StepupMicrosoft) as [Hm|Hm]; [|done]]; cbn [negb];
    (destruct (stepupPurposeParam purposes) as [v|] eqn:Ep; [|done]);
    (destruct (orgCaller db (ss_User s)) as [d|[user org]] eqn:Ec; [done|]);
    (destruct (provider c name) as [pv|] eqn:Epv; [|done]);
    (destruct random as [b|]; [|done]); intros [= <- <- <- <-]; cbn [ss_Purpose];
    (apply orgCaller_inr in Ec as (E1 & E2 & E3 & E4); [|done]); exists user, org, b; rewrite E2.
  all: (assert (Hv : (if String.eqb v SSOGrantPurposeSSOWrite then "" else v) = ""
                     \/ (if String.eqb v SSOGrantPurposeSSOWrite then "" else v) = SSOGrantPurposeLLMOrgKeyWrite)
    by (unfold stepupPurposeParam in Ep; destruct purposes as [|x [|]]; [injection Ep as <-; by left| |done];
        destruct (String.eqb_spec x SSOGrantPurposeSSOWrite) as [->|]; [injection Ep as <-; by left|];
        destruct (String.eqb_spec x SSOGrantPurposeLLMOrgKeyWrite) as [->|]; [injection Ep as <-; by right|done])).
  all: split_and!; try done; try exact Hv; (by left) || (by right).
Qed.

(** No forgery: a cookie whose signature verifies carries a text this process
    signed at a start. *)
Definition signed_here (c : StepupConfig) (cookie : option string) : Prop :=
  forall value p sig, cookie = Some value -> cut "." value = Some (p, sig) ->
    DecodeRaw RawURLEncoding sig = Some (st_mac p) ->
    exists st t, started c st t /\ p = EncodeToString RawURLEncoding (st_marshal st).

Lemma readState_signed c cookie q user now st ok :
  signed_here c cookie -> readState cookie q user now = (Some st, ok) ->
  exists t, started c st t
    /\ (ok = true -> ss_UserID st = us_ID user /\ us_OrgID user = Some (ss_OrgID st)
                     /\ unix now < ss_Expires st /\ ss_Nonce st <> "" /\ q = ss_Nonce st).
Proof.
  intros Hs. unfold readState. destruct cookie as [value|]; [|done].
  destruct (cut "." value) as [[p sig]|] eqn:Ec; [|done].
  destruct (DecodeRaw RawURLEncoding sig) as [got|] eqn:Ed; [|done].
  destruct (String.eqb_spec got (st_mac p)) as [->|]; [|done]. cbn [negb].
  destruct (Hs value p sig eq_refl Ec Ed) as (st' & t & Hst & ->).
  rewrite (DecodeRaw_Encode _ RawURLEncoding_ok) by done.
  rewrite st_roundtrip by apply Hst. intros [= <- Hok]. exists t. split; [done|]. intros ->.
  apply andb_true_iff in Hok as [[[[H1%String.eqb_eq H2%bool_decide_eq_true_1]%andb_true_iff H3%Z.ltb_lt]%andb_true_iff
    H4]%andb_true_iff H5%String.eqb_eq].
  repeat split; try done. intros E. by rewrite E in H4.
Qed.
End StateFacts.

(** ** Facts: the checks *)

(** The signed-in person administers the organisation's hosted domain. *)
Definition google_admin (idp : IdP) (p : StepupProvider) (org : Org) (email : string) (id : StepupIdentity) : Prop :=
  EqualFold (TrimSpace (id_HD id)) (og_Domain org) = true /\ id_HD id <> ""
  /\ id_EmailVerified id = true /\ EqualFold (id_Email id) email = true
  /\ GoogleIsAdmin idp p (id_AccessToken id) (id_Email id) = Some true.

(** The signed-in person administers the tenant that verified the
    organisation's domain, and no other tenant is pinned. *)
Definition microsoft_admin (idp : IdP) (pinned : option string) (p : StepupProvider) (org : Org) (email : string)
  (id : StepupIdentity) (tid : string) : Prop :=
  exists verified roles,
    MicrosoftOrganization idp p (id_AccessToken id) = Some (tid, verified) /\ tid <> "" /\ tid = id_TenantID id
    /\ containsFold verified (og_Domain org) = true /\ (pinned = Some "" \/ pinned = Some tid)
    /\ (EqualFold (id_PreferredUsername id) email = true \/ EqualFold (id_Email id) email = true)
    /\ match id_WIDs id with
       | Some r => roles = r
       | None => MicrosoftDirectoryRoles idp p (id_AccessToken id) = Some roles
       end
    /\ HasQualifyingEntraRole roles = true.

Lemma checkGoogle_granted idp p org email id :
  ck_Reason (checkGoogle idp p org email id) = "" ->
  ck_Pin (checkGoogle idp p org email id) = "" /\ google_admin idp p org email id.
Proof.
  unfold checkGoogle, google_admin. destruct (String.eqb_spec (id_HD id) ""); [done|].
  destruct (EqualFold (TrimSpace (id_HD id)) (og_Domain org)); [|done]. cbn [negb].
  destruct (id_EmailVerified id); [|done]. destruct (EqualFold (id_Email id) email); [|done]. cbn [negb orb].
  destruct (GoogleIsAdmin _ _ _ _) as [[]|]; done.
Qed.

Lemma checkMicrosoft_granted idp pinned p org email id :
  ck_Reason (checkMicrosoft idp pinned p org email id) = "" ->
  microsoft_admin idp pinned p org email id (ck_Pin (checkMicrosoft idp pinned p org email id)).
Proof.
  unfold checkMicrosoft, microsoft_admin.
  destruct (MicrosoftOrganization _ _ _) as [[tid verified]|]; [|done].
  destruct (String.eqb_spec tid ""); [done|]. destruct (String.eqb_spec tid (id_TenantID id)); [|done]. cbn [negb orb].
  destruct (containsFold verified _) eqn:Ev; [|done]. cbn [negb]. destruct pinned as [t|]; [|done].
  destruct (negb (String.eqb t "") && negb (String.eqb t tid)) eqn:Et; [done|].
  destruct (negb (EqualFold _ email) && negb (EqualFold _ email)) eqn:Ee; [done|].
  destruct (match id_WIDs id with Some r => Some r | None => _ end) as [roles|] eqn:Er; [|done].
  destruct (HasQualifyingEntraRole roles) eqn:Eq; [|done]. intros _. cbn [ck_Pin]. exists verified, roles.
  split; [done|]. split; [done|]. split; [done|]. split; [done|]. split; [|split; [|split; [|done]]].
  - destruct (String.eqb_spec t "") as [->|]; [by left|]. destruct (String.eqb_spec t tid) as [->|]; [by right|done].
  - destruct (EqualFold (id_PreferredUsername id) email); [by left|]. destruct (EqualFold (id_Email id) email); [by right|done].
  - destruct (id_WIDs id); [by injection Er as ->|done].
Qed.

Lemma Exchange_nonce idp p code nonce id : Exchange idp p code nonce = Some id ->
  exists claims, idp_token idp p code = Some (id_AccessToken id, claims) /\ cl_Nonce claims = nonce
    /\ issuerOK p (cl_Issuer claims) (cl_TenantID claims) = true /\ nonce <> ""
    /\ id_TenantID id = cl_TenantID claims /\ id_Email id = cl_Email claims /\ id_HD id = cl_HD claims.
Proof.
  unfold Exchange. destruct (idp_token idp p code) as [[access c]|]; [|done].
  destruct (issuerOK _ _ _) eqn:Ei; [|done]. cbn [negb]. destruct (String.eqb_spec nonce ""); [done|].
  destruct (String.eqb_spec (cl_Nonce c) nonce) as [E|]; [|done]. intros [= <-]. cbn. by exists c.
Qed.

(** The two providers' halves as one. *)
Definition proved (idp : IdP) (pinned : option string) (p : StepupProvider) (org : Org) (email : string)
  (id : StepupIdentity) (prov pin : string) : Prop :=
  if String.eqb prov StepupGoogle then pin = "" /\ google_admin idp p org email id
  else microsoft_admin idp pinned p org email id pin.

Lemma checkStepup_granted c idp pinned s q user org st :
  let k := checkStepup c idp pinned s q user org st in
  ck_Reason k = "" ->
  exists p id, provider c (ss_Provider st) = Some p /\ cq_Error q = "" /\ cq_Code q <> ""
    /\ Exchange idp p (cq_Code q) (ss_Nonce st) = Some id
    /\ proved idp pinned p org (if String.eqb (ss_Email s) "" then us_Email user else ss_Email s) id (ss_Provider st) (ck_Pin k).
Proof.
  cbn zeta. unfold checkStepup, proved. destruct (provider c (ss_Provider st)) as [p|]; [|done].
  destruct (String.eqb_spec (cq_Error q) ""); [|done]. destruct (String.eqb_spec (cq_Code q) ""); [done|]. cbn [negb orb].
  destruct (Exchange idp p _ _) as [id|] eqn:Ex; [|done]. intros H. exists p, id. split; [done|]. split; [done|].
  split; [done|]. split; [done|]. destruct (String.eqb (ss_Provider st) StepupGoogle).
  - by apply checkGoogle_granted in H.
  - by apply checkMicrosoft_granted.
Qed.

(** What stands behind a plan without a reason to refuse. *)
Lemma plan_granted `{L : StateSealLaws} c idp db pf s cookie q now p :
  keyed db -> signed_here c cookie ->
  callback_plan c idp db pf s cookie q now = Some p -> pl_Reason p = "" ->
  exists user org st t pv id,
    ad_users db !! ss_User s = Some user /\ us_OrgID user = Some (og_ID org) /\ ad_orgs db !! og_ID org = Some org
    /\ started c st t /\ ss_UserID st = ss_User s /\ ss_OrgID st = og_ID org /\ cq_State q = ss_Nonce st
    /\ unix now < ss_Expires st
    /\ provider c (ss_Provider st) = Some pv /\ Exchange idp pv (cq_Code q) (ss_Nonce st) = Some id
    /\ proved idp (if pf : bool then None else GetOrgMSTenantID db (og_ID org)) pv org
         (if String.eqb (ss_Email s) "" then us_Email user else ss_Email s) id (ss_Provider st) (pl_Pin p)
    /\ pl_User p = ss_User s /\ pl_Org p = Some (og_ID org) /\ pl_Provider p = ss_Provider st
    /\ pl_Purpose p = state_purpose (Some st).
Proof.
  intros [Ku Ko] Hs. unfold callback_plan. destruct (ad_users db !! ss_User s) as [user|] eqn:Eu; [|done].
  destruct (readState cookie (cq_State q) user now) as [[st|] ok] eqn:Er; [|by intros [= <-]].
  destruct ok; cbn [negb]; [|by intros [= <-]].
  destruct (ad_orgs db !! ss_OrgID st) as [org|] eqn:Eo; [|by intros [= <-]].
  destruct (readState_signed c cookie _ _ _ _ _ Hs Er) as (t & Hst & Hok).
  destruct (Hok eq_refl) as (H1 & H2 & H3 & H4 & H5).
  intros [= <-]. cbn [pl_Reason pl_Pin pl_User pl_Org pl_Provider pl_Purpose]. intros H.
  apply checkStepup_granted in H as (pv & id & E1 & _ & _ & E2 & E3).
  pose proof (Ku _ _ Eu) as Eid. pose proof (Ko _ _ Eo) as Eoid.
  exists user, org, st, t, pv, id. rewrite Eoid in *. split_and!; first [exact E3|congruence|done].
Qed.

(** ** Facts: the record *)

(** The grant a recorded outcome issues. *)
Definition granted_by (env : TxEnv) (o : Outcome) (org : uuid) : Grant :=
  {| gr_ID := tx_grant env; gr_UserID := so_UserID o; gr_OrgID := org; gr_Provider := so_Provider o;
     gr_Purpose := outcome_purpose o; gr_IssuedAt := so_Now o; gr_ExpiresAt := so_Now o + SSOStepupGrantTTL;
     gr_ConsumedAt := None |}.

Definition outcome_event (env : TxEnv) (o : Outcome) : Event :=
  {| ev_ID := tx_event env; ev_UserID := so_UserID o; ev_OrgID := so_OrgID o; ev_Kind := SSOEventStepup;
     ev_Details := outcome_details o; ev_CreatedAt := tx_now env |}.

(** A recorded outcome: one event, and one grant when it is granted. *)
Definition records (env : TxEnv) (o : Outcome) (db db' : AdminDB) : Prop :=
  ad_events db' = (ad_events db ++ [outcome_event env o])%list
  /\ ad_providers db' = ad_providers db /\ ad_users db' = ad_users db /\ ad_orgai db' = ad_orgai db
  /\ ad_confirms db' = ad_confirms db
  /\ (if so_Granted o
      then exists org, so_OrgID o = Some org /\ ad_grants db' = (ad_grants db ++ [granted_by env o org])%list
           /\ (so_PinTenant o <> "" -> exists x, ad_orgs db' !! org = Some x /\ og_Tenant x = Some (so_PinTenant o))
      else ad_grants db' = ad_grants db /\ ad_orgs db' = ad_orgs db).

Lemma pin_sets org t db db' : pinTenant org t db = Ok db' ->
  exists x, ad_orgs db' !! org = Some x /\ og_Tenant x = Some t.
Proof.
  unfold pinTenant. destruct (ad_orgs db !! org) as [x|] eqn:E; [|done].
  destruct (og_Tenant x) as [u|] eqn:Et.
  - destruct (String.eqb_spec u t) as [->|]; [|done]. intros [= <-]. by exists x.
  - intros [= <-]. cbn [ad_orgs set_orgs]. rewrite lookup_insert_eq. by eexists.
Qed.

Lemma RecordOutcome_records env o db r db' :
  RecordSSOStepupOutcome env o db = (r, db') ->
  (exists x, r = Ok x /\ records env o db db') \/ (exists e, r = Err e /\ db' = db).
Proof.
  intros [(d & db2 & _ & Hg & Hev & ->)|[[e ->] ->]]%RecordOutcome_inv; [|right; by exists e].
  apply insertSSOEvent_Ok in Hev as [_ ->]. left. unfold records. destruct (so_Granted o).
  - destruct Hg as (org & pinned & Ho & Hp & Hi & ->). injection Hi as <- <-. eexists. split; [done|].
    assert (T : so_PinTenant o <> "" -> exists x, ad_orgs pinned !! org = Some x /\ og_Tenant x = Some (so_PinTenant o)).
    { intros Hne. apply String.eqb_neq in Hne. rewrite Hne in Hp. by apply pin_sets in Hp. }
    assert (P : ad_grants pinned = ad_grants db /\ ad_events pinned = ad_events db /\ ad_providers pinned = ad_providers db
              /\ ad_users pinned = ad_users db /\ ad_orgai pinned = ad_orgai db /\ ad_confirms pinned = ad_confirms db).
    { destruct (String.eqb (so_PinTenant o) ""); [by injection Hp as <-|]. unfold pinTenant in Hp.
      destruct (ad_orgs db !! org) as [x|]; [|done].
      destruct (og_Tenant x) as [t|]; [destruct (String.eqb t _); [|done]|]; by injection Hp as <-. }
    destruct P as (P1 & P2 & P3 & P4 & P5 & P6). cbn. rewrite P1, P2, P3, P4, P5, P6.
    repeat split. by exists org.
  - destruct Hg as [-> ->]. exists None. by repeat split.
Qed.

(** The outcome [finishStepup] records first. *)
Definition finish_outcome (env : RecordEnv) (p : Plan) : Outcome :=
  {| so_UserID := pl_User p; so_OrgID := pl_Org p; so_Provider := pl_Provider p;
     so_Granted := String.eqb (pl_Reason p) ""; so_Reason := pl_Reason p; so_PinTenant := pl_Pin p;
     so_Purpose := pl_Purpose p; so_Now := re_Now env |}.

(** The outcome it records when another tenant was pinned meanwhile. *)
Definition changed_outcome (env : RecordEnv) (p : Plan) : Outcome :=
  {| so_UserID := pl_User p; so_OrgID := pl_Org p; so_Provider := pl_Provider p;
     so_Granted := false; so_Reason := reasonTIDChanged; so_PinTenant := ""; so_Purpose := pl_Purpose p;
     so_Now := re_Now env |}.

Definition finish (c : StepupConfig) (env : RecordEnv) (p : Plan) (db : AdminDB) : CallbackAnswer * AdminDB :=
  finishStepup c env (pl_User p) (pl_Org p) (pl_Provider p) (pl_Purpose p) (pl_Reason p) (pl_Pin p) db.

Lemma finish_cases c env p db a db' : finish c env p db = (a, db') ->
  (records (re_tx1 env) (finish_outcome env p) db db' /\ a = Landing (stepupTarget c (pl_Purpose p) (pl_Reason p)))
  \/ (records (re_tx2 env) (changed_outcome env p) db db' /\ a = Landing (stepupTarget c (pl_Purpose p) reasonTIDChanged)
      /\ fst (RecordSSOStepupOutcome (re_tx1 env) (finish_outcome env p) db) = Err ErrTenantPinned)
  \/ (db' = db /\ (a = BudgetAnswers \/ a = ServerFailure)).
Proof.
  unfold finish, finishStepup. destruct (re_conn env); [|intros [= <- <-]; auto|intros [= <- <-]; auto].
  destruct (re_commit env); cbn [negb]; [|intros [= <- <-]; auto]. cbn zeta.
  fold (finish_outcome env p). fold (changed_outcome env p).
  destruct (RecordSSOStepupOutcome (re_tx1 env) (finish_outcome env p) db) as [r db1] eqn:E1.
  destruct (RecordOutcome_records _ _ _ _ _ E1) as [(x & -> & R)|(e & -> & ->)].
  - intros [= <- <-]. by left.
  - destruct e; try (intros [= <- <-]; by auto).
    destruct (RecordSSOStepupOutcome (re_tx2 env) (changed_outcome env p) db) as [r2 db2] eqn:E2.
    destruct (RecordOutcome_records _ _ _ _ _ E2) as [(x & -> & R)|(e & -> & ->)]; intros [= <- <-]; auto.
Qed.

(** The user the callback found. *)
Definition ss_UserOf (db : AdminDB) (s : Session) : uuid :=
  match ad_users db !! ss_User s with Some u => us_ID u | None => ss_User s end.

Lemma plan_user {S : StateSeal} c idp db pf s cookie q now p :
  callback_plan c idp db pf s cookie q now = Some p -> pl_User p = ss_UserOf db s.
Proof.
  unfold callback_plan, ss_UserOf. destruct (ad_users db !! ss_User s) as [user|]; [|done].
  destruct (readState _ _ _ _) as [[st|] ok]; [|by intros [= <-]].
  destruct ok; cbn [negb]; [|by intros [= <-]]. by destruct (ad_orgs db !! ss_OrgID st); intros [= <-].
Qed.

(** ** Properties *)

Section Properties.
Context {S : StateSeal} {L : StateSealLaws S}.

(** C10: A callback issues a grant only to a caller who started this step-up
    from the same account, for the organisation they are in, less than ten
    minutes before, whose provider token carries that start's nonce, and who
    administers the organisation's domain there: the hosted domain at Google,
    or at Microsoft the tenant that verified the domain, which is pinned from
    then on.  The grant is for the purpose of the start and lasts ten
    minutes. *)
Theorem grant_needs_administrator c idp db pf s cookie q now env db' a db'' g :
  keyed db -> signed_here c cookie ->
  stepupCallback c idp db pf s cookie q now env db' = (a, db'') ->
  g ∈ ad_grants db'' -> g ∉ ad_grants db' ->
  exists user org st t pv id pin,
    ad_users db !! ss_User s = Some user /\ us_OrgID user = Some (og_ID org) /\ ad_orgs db !! og_ID org = Some org
    /\ started c st t /\ ss_UserID st = ss_User s /\ ss_OrgID st = og_ID org
    /\ cq_State q = ss_Nonce st /\ unix now < ss_Expires st
    /\ provider c (ss_Provider st) = Some pv /\ Exchange idp pv (cq_Code q) (ss_Nonce st) = Some id
    /\ proved idp (if pf : bool then None else GetOrgMSTenantID db (og_ID org)) pv org
         (if String.eqb (ss_Email s) "" then us_Email user else ss_Email s) id (ss_Provider st) pin
    /\ (pin <> "" -> exists o, ad_orgs db'' !! og_ID org = Some o /\ og_Tenant o = Some pin)
    /\ gr_UserID g = ss_User s /\ gr_OrgID g = og_ID org /\ gr_Purpose g = state_purpose (Some st)
    /\ gr_ExpiresAt g = re_Now env + 10 * Minute /\ gr_ConsumedAt g = None
    /\ a = Landing (stepupTarget c (state_purpose (Some st)) "").
Proof.
  intros K Hs. unfold stepupCallback. destruct (callback_plan c idp db pf s cookie q now) as [p|] eqn:Ep;
    [|by intros [= _ <-] Hin Hout]. fold (finish c env p db').
  intros [[R Ha]|[(R & _ & _)|[-> _]]]%finish_cases Hin Hout; [| |done].
  - destruct R as (_ & _ & _ & _ & _ & R). cbn [finish_outcome so_Granted] in R.
    destruct (String.eqb_spec (pl_Reason p) "") as [Hr|]; [|destruct R as [R _]; by rewrite R in Hin].
    destruct R as (org' & Ho & Hg & Ht). rewrite Hg in Hin. apply elem_of_app in Hin as [|Hin]; [done|].
    apply list_elem_of_singleton in Hin as ->.
    destruct (plan_granted c idp db pf s cookie q now p K Hs Ep Hr)
      as (user & org & st & t & pv & id & E1 & E2 & E3 & E4 & E5 & E6 & E7 & E8 & E9 & E10 & E11 & P1 & P2 & P3 & P4).
    cbn [finish_outcome so_OrgID so_PinTenant] in Ho, Ht. rewrite P2 in Ho. injection Ho as <-.
    exists user, org, st, t, pv, id, (pl_Pin p).
    rewrite Hr, P4 in Ha. split_and!; try done.
    cbn [granted_by gr_Purpose]. unfold outcome_purpose. cbn [finish_outcome so_Purpose]. rewrite P4.
    unfold state_purpose. destruct (String.eqb_spec (ss_Purpose st) "") as [|Hne]; [done|].
    by destruct (String.eqb_spec (ss_Purpose st) "").
  - destruct R as (_ & _ & _ & _ & _ & R & _). by rewrite R in Hin.
Qed.

(** The cookie of a start reads back as its state, and its bindings hold
    for the account that started, in the same organisation, with the nonce as
    the query's state, within ten minutes; and for nothing else. *)
Theorem state_for_its_caller c db s name purposes b t st cookie p params u q now :
  keyed db -> b <> "" -> state_text st = true ->
  startStepup c db s name purposes (Some b) t = StartRedirect st cookie p params ->
  exists user org, ad_users db !! ss_User s = Some user /\ us_OrgID user = Some (og_ID org)
    /\ readState (Some cookie) q u now
       = (Some st, bool_decide (us_ID u = us_ID user /\ us_OrgID u = us_OrgID user
                                /\ unix now < unix (t + 10 * Minute) /\ q = hexString b))
    /\ ("nonce", hexString b) ∈ params /\ ("state", hexString b) ∈ params.
Proof.
  intros K Hb T H. pose proof K as [Ku _].
  destruct (start_inv _ _ _ _ _ _ _ _ _ _ _ K H) as (user & org & b' & E1 & E2 & E3 & [= <-] & -> & Ep & En & Est & _ & Epar).
  exists user, org. split; [done|]. split; [done|]. split; [|split].
  - rewrite readState_sign by done. f_equal. rewrite Est. cbn [ss_UserID ss_OrgID ss_Expires ss_Nonce].
    rewrite <- (Ku _ _ E1). apply eq_bool_prop_intro. rewrite bool_decide_spec, !andb_True, bool_decide_spec.
    assert (Hn : hexString b <> "") by (intros ?%hexString_empty; done). apply String.eqb_neq in Hn. rewrite Hn, E2.
    rewrite !Is_true_true, !String.eqb_eq, Z.ltb_lt. unfold stepupCookieTTL. cbn [negb]. intuition congruence.
  - rewrite Epar. apply list_elem_of_In. cbn. auto.
  - rewrite Epar. apply list_elem_of_In. cbn. auto.
Qed.

(** What the browser is told is what was recorded: the page of a grant is
    shown exactly when one grant was issued, any other page names the reason
    recorded with no grant; and when the page is a failure or the budget's,
    nothing was recorded and no grant exists. *)
Theorem landing_tells_what_was_recorded c idp db pf s cookie q now env db' a db'' :
  stepupCallback c idp db pf s cookie q now env db' = (a, db'') ->
  (exists purpose reason e,
     a = Landing (stepupTarget c purpose reason) /\ ad_events db'' = (ad_events db' ++ [e])%list
     /\ ev_UserID e = ss_UserOf db s /\ ev_Kind e = SSOEventStepup
     /\ (exists org prov pp, ev_Details e = StepupDetails org prov (if String.eqb reason "" then "granted" else "denied")
                        (if String.eqb reason "" then None else Some reason) pp)
     /\ length (ad_grants db'') = (length (ad_grants db') + if String.eqb reason "" then 1 else 0)%nat)
  \/ (db'' = db' /\ (a = Unauthorized \/ a = BudgetAnswers \/ a = ServerFailure)).
Proof.
  unfold stepupCallback. destruct (callback_plan c idp db pf s cookie q now) as [p|] eqn:Ep; [|intros [= <- <-]; auto].
  pose proof (plan_user _ _ _ _ _ _ _ _ _ Ep) as Hu.
  fold (finish c env p db'). intros [[R ->]|[(R & -> & _)|[-> [-> | ->]]]]%finish_cases; [| |by auto|by auto]; left.
  - destruct R as (Ee & _ & _ & _ & _ & Rg). exists (pl_Purpose p), (pl_Reason p), (outcome_event (re_tx1 env) (finish_outcome env p)).
    rewrite <- Hu. cbn [finish_outcome so_Granted] in Rg. split_and!; try done.
    + cbn [outcome_event ev_Details outcome_details finish_outcome so_OrgID so_Provider so_Granted so_Reason]. by eexists _, _, _.
    + destruct (String.eqb (pl_Reason p) ""); [destruct Rg as (org & _ & -> & _); by rewrite length_app|].
      destruct Rg as [-> _]. lia.
  - destruct R as (Ee & _ & _ & _ & _ & Rg & _). exists (pl_Purpose p), reasonTIDChanged, (outcome_event (re_tx2 env) (changed_outcome env p)).
    rewrite <- Hu, Rg. split_and!; try done; try (cbn; lia).
    cbn [outcome_event ev_Details outcome_details changed_outcome so_OrgID so_Provider so_Granted so_Reason]. by eexists _, _, _.
Qed.
End Properties.

(** ** A concrete step-up *)

Module StepupDemo.

(** Fields in URL base64, separated by dots; the "mac" is a label. *)
Definition field (s : string) : string := EncodeToString RawURLEncoding s.
Definition marshal (s : StepupState) : string :=
  field (ss_UserID s) +:+ String "." (field (ss_OrgID s) +:+ String "." (field (ss_Provider s) +:+ String "."
    (field (ss_Nonce s) +:+ String "." (itoa (ss_Expires s) +:+ String "." (field (ss_Purpose s)))))).

Definition unmarshal (raw : string) : option StepupState :=
  match Split "." raw with
  | [u; o; p; n; e; pp] =>
      u ← DecodeRaw RawURLEncoding u; o ← DecodeRaw RawURLEncoding o; p ← DecodeRaw RawURLEncoding p;
      n ← DecodeRaw RawURLEncoding n; pp ← DecodeRaw RawURLEncoding pp;
      Some {| ss_UserID := u; ss_OrgID := o; ss_Provider := p; ss_Nonce := n; ss_Expires := digits_val 0 e;
              ss_Purpose := pp |}
  | _ => None
  end.

Definition seal : StateSeal := {| st_marshal := marshal; st_unmarshal := unmarshal; st_mac := fun p => "mac:" +:+ p |}.

Lemma field_free s : sforallb (fun c => negb (Ascii.eqb c ".")) (field s) = true.
Proof. exact (raw_no_dot s). Qed.

Lemma seal_laws : StateSealLaws seal.
Proof.
  split. intros s T. cbn [st_marshal st_unmarshal seal]. unfold unmarshal, marshal.
  assert (Hd : 0 < ss_Expires s) by (unfold state_text in T; repeat apply andb_true_iff in T as [T ?]; by apply Z.ltb_lt).
  destruct (itoa_pos _ Hd) as (Hv & Hdig & _).
  assert (Hf : sforallb (fun c => negb (Ascii.eqb c ".")) (itoa (ss_Expires s)) = true).
  { eapply sforallb_impl; [|exact Hdig]. intros c Hc. destruct (Ascii.eqb_spec c ".") as [->|]; [discriminate Hc|done]. }
  rewrite !Split_app by first [apply field_free|exact Hf]. rewrite Split_none by apply field_free.
  unfold field. rewrite !(DecodeRaw_Encode _ RawURLEncoding_ok) by done. cbn [mbind option_bind]. rewrite Hv.
  by destruct s.
Qed.
#[local] Existing Instances seal seal_laws.

Definition getenv (v : string) : string :=
  if String.eqb v "APP_URL" then "https://paceday.example/"
  else if String.eqb v "PACEDAY_ADMIN_EMAILS" then " Root@example.com, " else "configured".

Definition cfg : StepupConfig := stepupConfigOf getenv ProductionGoogleIdP ProductionMicrosoftIdP "https://app.paceday.example".

Definition session : Session := {| ss_User := "u1"; ss_Email := "ann@example.com"; ss_IAT := Some 900 |}.
Definition random : string := "24 bytes from the system".
Definition db : AdminDB := AdminStore.Demo.db.

Definition start : StartAnswer := startStepup cfg db session "google" ["llm_org_key_write"] (Some random) (1000 * Second).
Definition state : StepupState :=
  {| ss_UserID := "u1"; ss_OrgID := "o1"; ss_Provider := "google"; ss_Nonce := hexString random;
     ss_Expires := 1600; ss_Purpose := "llm_org_key_write" |}.
Definition cookie : option string := Some (signState state).

(** Google says that Ann administers example.com. *)
Definition idp : IdP :=
  {| idp_token := fun _ code =>
       if String.eqb code "the code"
       then Some ("access", {| cl_Issuer := "accounts.google.com"; cl_Nonce := hexString random;
                               cl_Email := "Ann@Example.com"; cl_EmailVerified := "true"; cl_HD := "example.com";
                               cl_TenantID := ""; cl_PreferredUsername := ""; cl_WIDs := None |})
       else None;
     idp_user := fun _ _ => Some {| an_Status := 200;
                                    an_Body := Some {| gu_IsAdmin := true; gu_IsDelegatedAdmin := false |} |};
     idp_organization := fun _ _ => None; idp_roles := fun _ _ => None |}.

Definition query : CallbackQuery := {| cq_State := hexString random; cq_Error := ""; cq_Code := "the code" |}.
Definition env : RecordEnv :=
  {| re_conn := Reserved; re_commit := true; re_tx1 := AdminStore.Demo.env "1"; re_tx2 := AdminStore.Demo.env "2";
     re_Now := 1100 * Second |}.

Definition outcome := stepupCallback cfg idp db false session cookie query (1099 * Second) env db.
Definition grant : Grant :=
  {| gr_ID := "grant-1"; gr_UserID := "u1"; gr_OrgID := "o1"; gr_Provider := "google"; gr_Purpose := "llm_org_key_write";
     gr_IssuedAt := 1100 * Second; gr_ExpiresAt := 1700 * Second; gr_ConsumedAt := None |}.

Lemma db_keyed : keyed db.
Proof. by split; intros k x H; unfold db, AdminStore.Demo.db in H; cbn in H; apply lookup_singleton_Some in H as [<- <-]. Qed.

Lemma cookie_signed : signed_here cfg cookie.
Proof.
  intros value p sig [= <-] Hc _. vm_compute in Hc. injection Hc as <- _. exists state, (1000 * Second).
  split; [|by vm_compute]. split; [by vm_compute|].
  eexists db, session, "google", ["llm_org_key_write"], (Some random), _, _. split; [exact db_keyed|].
  vm_compute. reflexivity.
Qed.
End StepupDemo.
#[local] Existing Instances StepupDemo.seal StepupDemo.seal_laws.

Lemma grant_needs_administrator_witness :
  fst StepupDemo.outcome = Landing "https://app.paceday.example/settings?stepup=granted&purpose=llm_org_key_write"
  /\ StepupDemo.grant ∈ ad_grants (snd StepupDemo.outcome)
  /\ gr_Purpose StepupDemo.grant = SSOGrantPurposeLLMOrgKeyWrite.
Proof.
  assert (Hin : StepupDemo.grant ∈ ad_grants (snd StepupDemo.outcome)) by (apply list_elem_of_In; vm_compute; auto).
  split; [by vm_compute|]. split; [exact Hin|].
  destruct (grant_needs_administrator StepupDemo.cfg StepupDemo.idp StepupDemo.db false StepupDemo.session StepupDemo.cookie
    StepupDemo.query (1099 * Second) StepupDemo.env StepupDemo.db _ _ StepupDemo.grant StepupDemo.db_keyed
    StepupDemo.cookie_signed (surjective_pairing _) Hin) as (user & org & st & H).
  - vm_compute. intros H. by apply elem_of_nil in H.
  - reflexivity.
Defined.

Lemma state_for_its_caller_witness :
  exists p params, StepupDemo.start = StartRedirect StepupDemo.state (signState StepupDemo.state) p params
    /\ fst (readState StepupDemo.cookie "" {| us_ID := "u2"; us_Email := ""; us_OrgID := None |} 0) = Some StepupDemo.state.
Proof.
  destruct StepupDemo.start as [| | | |st cookie p params] eqn:E; try discriminate E.
  assert (H : st = StepupDemo.state /\ cookie = signState StepupDemo.state) by (vm_compute in E; injection E as <- <- _ _; by vm_compute).
  destruct H as [-> ->]. exists p, params. split; [reflexivity|].
  destruct (state_for_its_caller StepupDemo.cfg StepupDemo.db StepupDemo.session "google" ["llm_org_key_write"]
    StepupDemo.random (1000 * Second) StepupDemo.state (signState StepupDemo.state) p params
    {| us_ID := "u2"; us_Email := ""; us_OrgID := None |} "" 0 StepupDemo.db_keyed ltac:(discriminate)
    eq_refl E) as (user & org & _ & _ & R & _).
  unfold StepupDemo.cookie. rewrite R. reflexivity.
Defined.

Lemma landing_tells_what_was_recorded_witness :
  length (ad_grants (snd StepupDemo.outcome)) = 1%nat.
Proof.
  destruct (landing_tells_what_was_recorded StepupDemo.cfg StepupDemo.idp StepupDemo.db false StepupDemo.session StepupDemo.cookie
    StepupDemo.query (1099 * Second) StepupDemo.env StepupDemo.db _ _ (surjective_pairing _)); vm_compute; reflexivity.
Defined.
