(* ===== verification/SsoAdmin.v ===== *)
(** * Administering single sign-on

    api/handlers_sso.go (the configurations an organisation's administrators
    write, read and delete), the write gate of api/handlers_sso_stepup.go, and
    [ListSSOProvidersByOrg] of storage/sso_providers.go.  A write is two
    phases: the checks, the last of which spends the proof, give a job, and
    the job is stored; anything may happen between them. *)

From S2P Require Import Prelude GoInt GoTime GoText GoEncoding GoURL SecretBox SecretStore Destinations AdminStore OrgAI Stepup.

#[local] Open Scope string_scope.
#[local] Open Scope Z_scope.

(** ** The write gate (api/handlers_sso_stepup.go) *)

Record StepupRequired := {
  sr_URL : string;
  sr_Scopes : list (string * list string);
  sr_Without : list string }.

Definition withoutStepupSSOWrites := "sso_configuration_writes".
Definition withoutStepupOrgAIWrites := "organization_ai_configuration_writes".

(** [stepupRequired]. *)
Definition stepupRequired (c : StepupConfig) : StepupRequired :=
  let scopes p := match p with Some p => [(pv_Name p, ExtraScopes p)] | None => [] end in
  {| sr_URL := stepupStartPath; sr_Scopes := (scopes (sc_google c) ++ scopes (sc_microsoft c))%list;
     sr_Without := [withoutStepupSSOWrites] |}.

Inductive OptionsAnswer := Options400 | Options403 (d : Denied) | Options200 (o : StepupRequired).

(** [getStepupOptions] with [GetSsoStepupOptions]. *)
Definition getStepupOptions (c : StepupConfig) (db : AdminDB) (s : Session) (purposes : list string) : OptionsAnswer :=
  match stepupPurposeParam purposes with
  | None => Options400
  | Some purpose =>
      match orgCaller db (ss_User s) with
      | inl d => Options403 d
      | inr _ =>
          let b := stepupRequired c in
          Options200 (if String.eqb purpose SSOGrantPurposeLLMOrgKeyWrite
                      then {| sr_URL := sr_URL b; sr_Scopes := sr_Scopes b; sr_Without := [withoutStepupOrgAIWrites] |}
                      else b)
      end
  end.

Inductive Gate :=
| GateVia (via : string)
| GateFreshLogin
| GateStepup (b : StepupRequired)
| GateFailure.

(** [authorizeWrite]: how the write is authorised, and the tables with the
    grant spent. *)
Definition authorizeWrite (c : StepupConfig) (env : TxEnv) (s : Session) (user org : uuid) (now : Z) (db : AdminDB)
  : Gate * AdminDB :=
  match ConsumeSSOStepupGrant env user org SSOGrantPurposeSSOWrite now db with
  | (Err _, db') => (GateFailure, db')
  | (Ok true, db') => (GateVia "stepup", db')
  | (Ok false, db') =>
      (if bool_decide (ToLower (ss_Email s) ∈ sc_breakGlass c)
       then if session_fresh s now then GateVia "breakglass" else GateFreshLogin
       else GateStepup (stepupRequired c), db')
  end.

(** ** The body of a write (api/handlers_sso.go) *)

Definition samlProperties : list string := ["saml_entry_point"; "saml_issuer"; "saml_cert"].

Definition ssoProviderWriteProperties : list string :=
  ["domain"; "provider_name"; "provider_type"; "oidc_issuer"; "oidc_client_id"; "oidc_client_secret"].

(** A property decoded into a string: null and absence leave it empty; [None]
    is a value of another type. *)
Definition string_prop (values : gmap string Json) (name : string) : option string :=
  match values !! name with
  | None | Some JNull => Some ""
  | Some (JStr v) => Some v
  | Some _ => None
  end.

(** Into a pointer: null leaves it nil. *)
Definition pointer_prop (values : gmap string Json) (name : string) : option (option string) :=
  match values !! name with
  | None | Some JNull => Some None
  | Some (JStr v) => Some (Some v)
  | Some _ => None
  end.

(** The first of some names in byte order. *)
Fixpoint first_in_order (l : list string) : option string :=
  match l with
  | [] => None
  | n :: r => match first_in_order r with
              | None => Some n
              | Some m => Some (if String.leb n m then n else m)
              end
  end.

(** [decodeSSOProviderWrite], over the members of the body ([None]: not one
    JSON object). *)
Definition decodeSSOProviderWrite (members : option (list (string * Json))) : res string OIDCWrite :=
  match objectFields members with
  | None => Err "invalid JSON"
  | Some (names, values) =>
      match string_prop values "domain", string_prop values "provider_name", string_prop values "provider_type",
            string_prop values "oidc_issuer", string_prop values "oidc_client_id",
            pointer_prop values "oidc_client_secret" with
      | Some domain, Some name, Some type, Some issuer, Some client, Some secret =>
          match List.find (fun n => bool_decide (n ∈ dom values)) samlProperties with
          | Some n => Err (n +:+ " is not supported")
          | None =>
              match first_in_order (keep (fun n => negb (existsb (String.eqb n) ssoProviderWriteProperties)) names) with
              | Some n => Err ("unknown property: " +:+ n)
              | None =>
                  if String.eqb domain "" || String.eqb name "" || String.eqb type ""
                  then Err "domain, provider_name and provider_type are required"
                  else if String.eqb type "saml" then Err "provider_type 'saml' is not supported"
                  else if negb (String.eqb type "oidc") then Err "provider_type must be 'oidc'"
                  else if String.eqb issuer "" then Err "oidc_issuer is required"
                  else if String.eqb client "" then Err "oidc_client_id is required"
                  else if bool_decide ("oidc_client_secret" ∈ dom values)
                          && String.eqb (default "" secret) ""
                  then Err "oidc_client_secret must not be empty"
                  else Ok {| ow_Domain := domain; ow_Name := name; ow_Issuer := issuer; ow_ClientID := client;
                             ow_Secret := secret |}
              end
          end
      | _, _, _, _, _, _ => Err "invalid JSON"
      end
  end.

(** [ssoKeepRefusal]: "" for any other outcome. *)
Definition ssoKeepRefusal (e : StoreError) : string :=
  match e with
  | ErrSSOClientSecretEmpty => "oidc_client_secret must not be empty"
  | ErrSSOClientSecretTargetChanged => "oidc_client_secret is required when oidc_issuer or oidc_client_id changes"
  | ErrSSOClientSecretRequired => "oidc_client_secret is required"
  | _ => ""
  end.

(** What leaves the server of a configuration. *)
Record SsoProvider := {
  sv_Id : uuid;
  sv_Domain : string;
  sv_ProviderName : string;
  sv_ProviderType : string;
  sv_Active : bool;
  sv_OidcIssuer : string;
  sv_OidcClientId : string;
  sv_HasOidcClientSecret : bool;
  sv_SamlEntryPoint : string;
  sv_SamlIssuer : string;
  sv_HasSamlCert : bool;
  sv_CreatedAt : Z;
  sv_UpdatedAt : Z }.

Definition HasSAMLCert (p : SSOProvider) : bool :=
  negb (String.eqb (pr_Cert p) "") || negb (String.eqb (sp_RawCert (pr_row p)) "").

Definition ssoProviderView (p : SSOProvider) : SsoProvider :=
  let r := pr_row p in
  {| sv_Id := sp_ID r; sv_Domain := sp_Domain r; sv_ProviderName := sp_Name r; sv_ProviderType := sp_Type r;
     sv_Active := sp_Enabled r; sv_OidcIssuer := sp_Issuer r; sv_OidcClientId := sp_ClientID r;
     sv_HasOidcClientSecret := HasClientSecret p; sv_SamlEntryPoint := sp_EntryPoint r;
     sv_SamlIssuer := sp_SAMLIssuer r; sv_HasSamlCert := HasSAMLCert p;
     sv_CreatedAt := sp_CreatedAt r; sv_UpdatedAt := sp_UpdatedAt r |}.

(** [ORDER BY s.created_at]; among equals, the first stored. *)
Fixpoint insert_created (r : SSORow) (l : list SSORow) : list SSORow :=
  match l with
  | [] => [r]
  | x :: t => if sp_CreatedAt x <=? sp_CreatedAt r then x :: insert_created r t else r :: l
  end.

Definition by_created (l : list SSORow) : list SSORow := fold_left (fun acc r => insert_created r acc) l [].

(** ** The operations *)

Inductive Answer :=
| A400 (msg : string)
| A403Membership (d : Denied)
| A403Domain
| A403Gate (g : Gate)
| A404
| A500
| A201 (v : SsoProvider)
| A204
| A200 (l : list SsoProvider).

(** A write that passed the gate and is not stored yet. *)
Inductive JobKind := JobSave (w : OIDCWrite) | JobDelete (domain : string).
Record Job := { jb_User : uuid; jb_Org : uuid; jb_Via : string; jb_Kind : JobKind }.

Section Handlers.
Context {V : Vault}.

Definition ListSSOProvidersByOrg (db : AdminDB) (org : uuid) : list SSOProvider :=
  match ad_orgs db !! org with
  | None => []
  | Some o => map openSecrets (by_created (keep (fun r => String.eqb (og_Domain o) (sp_Domain r)) (ad_providers db)))
  end.

(** [ListSsoProviders]. *)
Definition ListSsoProviders (db : AdminDB) (s : Session) (fails : bool) : Answer :=
  match ad_users db !! ss_User s with
  | Some {| us_OrgID := Some org |} =>
      if fails then A500 else A200 (map ssoProviderView (ListSSOProvidersByOrg db org))
  | _ => A403Membership OrgMembershipRequired
  end.

(** The last step before the store, as an answer or a job. *)
Definition gated (c : StepupConfig) (env : TxEnv) (s : Session) (user org : uuid) (now : Z) (kind : JobKind)
  (db : AdminDB) : (Answer + Job) * AdminDB :=
  match authorizeWrite c env s user org now db with
  | (GateVia via, db') => (inr {| jb_User := user; jb_Org := org; jb_Via := via; jb_Kind := kind |}, db')
  | (GateFailure, db') => (inl A500, db')
  | (g, db') => (inl (A403Gate g), db')
  end.

(** [createSSOProvider] up to its store: [db0] is the tables when the
    membership is read, [db1] when the current configuration is ([fails]: that
    read fails), [db] when the grant is spent. *)
Definition createSSOProvider (c : StepupConfig) (db0 db1 : AdminDB) (fails : bool) (env : TxEnv) (s : Session) (now : Z)
  (members : option (list (string * Json))) (db : AdminDB) : (Answer + Job) * AdminDB :=
  match orgCaller db0 (ss_User s) with
  | inl d => (inl (A403Membership d), db)
  | inr (user, org) =>
      match decodeSSOProviderWrite members with
      | Err msg => (inl (A400 msg), db)
      | Ok body =>
          if negb (DomainMatchesOrg (ow_Domain body) (og_Domain org)) then (inl A403Domain, db)
          else
            let body := {| ow_Domain := ToLower (ow_Domain body); ow_Name := ow_Name body; ow_Issuer := ow_Issuer body;
                           ow_ClientID := ow_ClientID body; ow_Secret := ow_Secret body |} in
            let refusal := match ow_Secret body with
                           | Some _ => ""
                           | None => match KeepableClientSecret (GetSSOProviderByDomainAnyState db1 (ow_Domain body))
                                             (ow_Issuer body) (ow_ClientID body) with
                                     | Some e => ssoKeepRefusal e
                                     | None => ""
                                     end
                           end in
            if negb (is_some (ow_Secret body)) && fails then (inl A500, db)
            else if negb (String.eqb refusal "") then (inl (A400 refusal), db)
            else gated c env s (us_ID user) (og_ID org) now (JobSave body) db
      end
  end.

(** [deleteSSOProvider] up to its store. *)
Definition deleteSSOProvider (c : StepupConfig) (db0 : AdminDB) (env : TxEnv) (s : Session) (now : Z) (segment : string)
  (db : AdminDB) : (Answer + Job) * AdminDB :=
  match orgCaller db0 (ss_User s) with
  | inl d => (inl (A403Membership d), db)
  | inr (user, org) =>
      let d := ToLower segment in
      if negb (DomainMatchesOrg d (og_Domain org)) then (inl A403Domain, db)
      else gated c env s (us_ID user) (og_ID org) now (JobDelete d) db
  end.

(** The store of a job, and the answer. *)
Definition store (env : TxEnv) (j : Job) (db : AdminDB) : Answer * AdminDB :=
  match jb_Kind j with
  | JobSave w =>
      match SaveOIDCProviderRecorded env w (jb_User j) (jb_Org j) (jb_Via j) db with
      | (Ok p, db') => (A201 (ssoProviderView p), db')
      | (Err e, db') => (if String.eqb (ssoKeepRefusal e) "" then A500 else A400 (ssoKeepRefusal e), db')
      end
  | JobDelete d =>
      match DeleteSSOProviderRecorded env d (jb_User j) (jb_Org j) (jb_Via j) db with
      | (Ok true, db') => (A204, db')
      | (Ok false, db') => (A404, db')
      | (Err _, db') => (A500, db')
      end
  end.
End Handlers.

(** ** Facts: what a step does to the tables *)

(** The record of a stored write authorised by a step-up. *)
Definition is_written (u g : uuid) (e : Event) : bool :=
  String.eqb (ev_UserID e) u &&
  match ev_Details e with
  | ProviderWritten org _ _ via => String.eqb org g && String.eqb via "stepup"
  | _ => false
  end.

(** The record of a step-up granted for SSO writes. *)
Definition is_granted (u g : uuid) (e : Event) : bool :=
  String.eqb (ev_UserID e) u &&
  match ev_Details e with
  | StepupDetails (Some org) _ outcome _ purpose =>
      String.eqb org g && String.eqb outcome "granted" && String.eqb purpose ""
  | _ => false
  end.

Definition written (u g : uuid) (db : AdminDB) : nat := length (keep (is_written u g) (ad_events db)).
Definition granted (u g : uuid) (db : AdminDB) : nat := length (keep (is_granted u g) (ad_events db)).
Definition unspent_sso (u g : uuid) (db : AdminDB) : nat := count_unspent u g SSOGrantPurposeSSOWrite db.

(** Organisations are never renamed, and keyed by their identifier. *)
Definition same_orgs (db db' : AdminDB) : Prop :=
  forall k o, ad_orgs db !! k = Some o -> exists o', ad_orgs db' !! k = Some o' /\ og_Domain o' = og_Domain o /\ og_ID o' = og_ID o.

Lemma same_orgs_refl db : same_orgs db db.
Proof. intros k o H. by exists o. Qed.

Lemma same_orgs_eq db db' : ad_orgs db' = ad_orgs db -> same_orgs db db'.
Proof. intros E k o H. exists o. by rewrite E. Qed.

Lemma same_orgs_trans a b c : same_orgs a b -> same_orgs b c -> same_orgs a c.
Proof.
  intros H1 H2 k o (o1 & E1 & D1 & I1)%H1. apply H2 in E1 as (o2 & E2 & D2 & I2).
  exists o2. repeat split; congruence.
Qed.

Definition kept_orgs (db db' : AdminDB) : Prop := same_orgs db db' /\ same_orgs db' db.

Lemma kept_orgs_eq db db' : ad_orgs db' = ad_orgs db -> kept_orgs db db'.
Proof. intros E. by split; apply same_orgs_eq. Qed.

Lemma kept_keyed db db' : kept_orgs db db' -> (forall k o, ad_orgs db !! k = Some o -> og_ID o = k) ->
  forall k o, ad_orgs db' !! k = Some o -> og_ID o = k.
Proof. intros [_ H] K k o (o' & Ho' & _ & <-)%H. by apply K. Qed.

Lemma pin_kept_orgs org t db db' : pinTenant org t db = Ok db' -> kept_orgs db db'.
Proof.
  unfold pinTenant. destruct (ad_orgs db !! org) as [x|] eqn:E; [|done].
  assert (R : kept_orgs db (set_orgs (<[org := {| og_ID := og_ID x; og_Domain := og_Domain x; og_Tenant := Some t |}]>) db)).
  { split; intros k o Hk; cbn [ad_orgs set_orgs] in *; (destruct (decide (k = org)) as [->|];
      [rewrite lookup_insert_eq in *|rewrite lookup_insert_ne in * by done; by exists o]).
    - eexists. split; [done|]. rewrite E in Hk. by injection Hk as <-.
    - injection Hk as <-. by exists x. }
  destruct (og_Tenant x) as [u|]; [destruct (String.eqb u t); [|done]|]; intros [= <-]; [by apply kept_orgs_eq|exact R].
Qed.

Lemma length_keep_snoc {X} (f : X -> bool) l x :
  length (keep f (l ++ [x])%list) = (length (keep f l) + if f x then 1 else 0)%nat.
Proof. rewrite keep_app, length_app. unfold keep at 2. cbn [List.filter]. by destruct (f x). Qed.

Lemma purpose_mark o :
  String.eqb (if String.eqb (outcome_purpose o) SSOGrantPurposeSSOWrite then "" else outcome_purpose o) ""
  = String.eqb (outcome_purpose o) SSOGrantPurposeSSOWrite.
Proof.
  destruct (String.eqb_spec (outcome_purpose o) SSOGrantPurposeSSOWrite); [done|].
  unfold outcome_purpose. destruct (String.eqb_spec (so_Purpose o) ""); [done|]. by apply String.eqb_neq.
Qed.

(** A recorded outcome: what it grants is what it records. *)
Lemma outcome_counts env o db r db' u g :
  RecordSSOStepupOutcome env o db = (r, db') ->
  written u g db' = written u g db
  /\ (granted u g db' + unspent_sso u g db = granted u g db + unspent_sso u g db')%nat
  /\ ad_providers db' = ad_providers db /\ kept_orgs db db' /\ ad_users db' = ad_users db.
Proof.
  intros E. pose proof E as E'.
  apply RecordOutcome_inv in E' as [(d & db2 & _ & Hg & Hev & ->)|[_ ->]]; [|split_and!; try lia; by (done || apply kept_orgs_eq)].
  assert (Ho : kept_orgs db db2).
  { apply insertSSOEvent_Ok in Hev as [_ ->]. destruct (so_Granted o).
    - destruct Hg as (org & pinned & _ & Hp & Hi & _). injection Hi as _ <-.
      destruct (String.eqb _ ""); [injection Hp as <-; by apply kept_orgs_eq|].
      by apply pin_kept_orgs in Hp.
    - destruct Hg as [-> _]. by apply kept_orgs_eq. }
  apply RecordOutcome_records in E as [(x & _ & (Ee & Ep & Eu & _ & _ & R))|(e & _ & ->)];
    [|split_and!; try lia; by (done || apply kept_orgs_eq)].
  unfold written, granted, unspent_sso, count_unspent. rewrite Ee, !length_keep_snoc.
  assert (Hw : is_written u g (outcome_event env o) = false) by (unfold is_written; apply andb_false_r).
  rewrite Hw. split; [lia|]. split; [|done]. destruct (so_Granted o) eqn:G.
  - destruct R as (org & Hor & -> & _). rewrite length_keep_snoc.
    replace (is_granted u g (outcome_event env o)) with (unspent u g SSOGrantPurposeSSOWrite (granted_by env o org)); [lia|].
    unfold is_granted, unspent, mine, outcome_event, outcome_details. cbn [ev_UserID ev_Details granted_by gr_UserID
      gr_OrgID gr_Purpose gr_ConsumedAt]. rewrite G, Hor, andb_true_r, purpose_mark.
    change (String.eqb "granted" "granted") with true. by rewrite andb_true_r, andb_assoc.
  - destruct R as [-> _].
    replace (is_granted u g (outcome_event env o)) with false; [lia|].
    unfold is_granted, outcome_event, outcome_details. cbn [ev_UserID ev_Details]. rewrite G.
    change (String.eqb "denied" "granted") with false.
    destruct (so_OrgID o); rewrite ?andb_false_r; cbn [andb]; by rewrite ?andb_false_r.
Qed.

Lemma finish_counts c env p db a db' u g :
  finish c env p db = (a, db') ->
  written u g db' = written u g db
  /\ (granted u g db' + unspent_sso u g db = granted u g db + unspent_sso u g db')%nat
  /\ ad_providers db' = ad_providers db /\ kept_orgs db db' /\ ad_users db' = ad_users db.
Proof.
  unfold finish, finishStepup.
  assert (R0 : forall d, written u g d = written u g d /\ (granted u g d + unspent_sso u g d = granted u g d + unspent_sso u g d)%nat
               /\ ad_providers d = ad_providers d /\ kept_orgs d d /\ ad_users d = ad_users d)
    by (intros d; split_and!; try lia; by (done || apply kept_orgs_eq)).
  destruct (re_conn env); [|by intros [= _ <-]|by intros [= _ <-]].
  destruct (re_commit env); cbn [negb]; [|by intros [= _ <-]]. cbn zeta.
  destruct (RecordSSOStepupOutcome (re_tx1 env) _ db) as [r db1] eqn:E1.
  pose proof (outcome_counts _ _ _ _ _ u g E1) as H1.
  destruct r as [x|[]]; try (by intros [= _ <-]).
  apply RecordOutcome_records in E1 as [(x & Hx & _)|(e & _ & ->)]; [discriminate Hx|].
  destruct (RecordSSOStepupOutcome (re_tx2 env) _ db) as [r2 db2] eqn:E2.
  pose proof (outcome_counts _ _ _ _ _ u g E2) as H2. by destruct r2; intros [= _ <-].
Qed.

(** What the counts are made of, and the rest, is untouched. *)
Definition same_counts (u g : uuid) (db db' : AdminDB) : Prop :=
  written u g db' = written u g db /\ granted u g db' = granted u g db /\ unspent_sso u g db' = unspent_sso u g db.

Definition job_of (u g : uuid) (j : Job) : bool :=
  String.eqb (jb_User j) u && String.eqb (jb_Org j) g && String.eqb (jb_Via j) "stepup".

(** Spending turns an unspent grant into a job. *)
Lemma gated_counts c env s user org now kind db r db' u g :
  db_wf db -> gated c env s user org now kind db = (r, db') ->
  written u g db' = written u g db /\ granted u g db' = granted u g db
  /\ ad_providers db' = ad_providers db /\ ad_orgs db' = ad_orgs db /\ ad_users db' = ad_users db
  /\ match r with
     | inl _ => unspent_sso u g db' = unspent_sso u g db
     | inr j => unspent_sso u g db = (unspent_sso u g db' + if job_of u g j then 1 else 0)%nat
                /\ jb_User j = user /\ jb_Org j = org /\ jb_Kind j = kind
     end.
Proof.
  intros W. unfold gated, authorizeWrite, ConsumeSSOStepupGrant.
  destruct (consumeGrant user org SSOGrantPurposeSSOWrite now db) as [id db1] eqn:E.
  destruct (transact env db _) as [x db2] eqn:T. apply transact_inv in T as [(y & k & Hk & _ & -> & ->)|[[e ->] ->]].
  - injection Hk as <- <-. cbn [default from_option Datatypes.id]. destruct id as [id|].
    + intros [= <- <-]. pose proof (consumeGrant_count u g SSOGrantPurposeSSOWrite _ _ _ _ _ _ _ W E) as Hc.
      apply consumeGrant_Some in E as (x & _ & _ & _ & _ & ->). rewrite String.eqb_refl, andb_true_r in Hc.
      repeat split; try done. unfold job_of. cbn [jb_User jb_Org jb_Via].
      change (String.eqb "stepup" "stepup") with true. by rewrite andb_true_r.
    + apply consumeGrant_None in E as [-> _].
      assert (Hn : forall v, v = "breakglass" -> String.eqb v "stepup" = false) by (by intros ? ->).
      destruct (bool_decide _); [destruct (session_fresh s now)|]; intros [= <- <-]; repeat split; try done.
      unfold job_of. cbn [jb_User jb_Org jb_Via]. rewrite (Hn _ eq_refl), andb_false_r. lia.
  - intros [= <- <-]. by repeat split.
Qed.

Section StoreFacts.
Context {V : Vault} {L : VaultLaws V}.

(** A provider write's event. *)
Definition provider_event (env : TxEnv) (actor org id : uuid) (op via : string) : Event :=
  {| ev_ID := tx_event env; ev_UserID := actor; ev_OrgID := Some org; ev_Kind := SSOEventProviderWritten;
     ev_Details := ProviderWritten org id op via; ev_CreatedAt := tx_now env |}.

(** The domain a job is for. *)
Definition job_domain (j : Job) : string :=
  match jb_Kind j with JobSave w => ow_Domain w | JobDelete d => d end.

(** A row that appears or goes is one of the job's domain, and the event names
    it. *)
Definition changes_own (dom : string) (id : uuid) (db db' : AdminDB) : Prop :=
  forall r, (r ∈ ad_providers db /\ (r ∉ ad_providers db')) \/ ((r ∉ ad_providers db) /\ r ∈ ad_providers db') ->
    sp_ID r = id /\ ToLower (sp_Domain r) = ToLower dom.

Lemma ToLower_eq a b : ToLower a = b -> ToLower b = b.
Proof. intros <-. apply ToLower_idem. Qed.

(** A stored configuration. *)
Lemma save_effect env w actor org via db res db' :
  db_wf db -> fresh env db -> SaveOIDCProviderRecorded env w actor org via db = (res, db') ->
  (db' = db /\ exists e, res = Err e)
  \/ exists p op, res = Ok p /\ ad_events db' = (ad_events db ++ [provider_event env actor org (sp_ID (pr_row p)) op via])%list
     /\ ad_grants db' = ad_grants db /\ ad_orgs db' = ad_orgs db /\ ad_users db' = ad_users db
     /\ changes_own (ow_Domain w) (sp_ID (pr_row p)) db db'.
Proof.
  intros W Hf. unfold SaveOIDCProviderRecorded. intros H.
  apply transact_inv in H as [(x & k & Hk & _ & -> & ->)|[He ->]]; [|by left]. right.
  apply recorded_write_Ok in Hk as (ins & db1 & db2 & Hs & -> & Hev). cbn [default from_option Datatypes.id].
  apply insertSSOEvent_Ok in Hev as [_ ->].
  destruct (List.find (domain_is (ToLower (ow_Domain w))) (ad_providers db)) as [r|] eqn:F.
  - destruct (saveOIDC_replace _ _ _ _ _ _ _ L F Hs) as (-> & raw & _ & -> & ->).
    apply find_domain_Some in F as [Hr Hd]. rewrite ToLower_idem in Hd.
    exists (openSecrets (replaced env r w raw)), "update". split; [done|]. split; [done|]. do 3 (split; [done|]).
    rewrite openSecrets_row. intros q. cbn [ad_providers set_events set_providers].
    intros [[Hq Hn]|[Hn Hq]].
    + assert (E : sp_ID q = sp_ID r).
      { destruct (String.eqb_spec (sp_ID q) (sp_ID r)) as [|Hne]; [done|]. destruct Hn.
        apply list_elem_of_fmap. exists q. split; [|done]. unfold put_row. cbn [replaced oidc_row sp_ID].
        by apply String.eqb_neq in Hne as ->. }
      split; [done|]. by rewrite (inj_of_NoDup sp_ID _ q r (wf_providers _ W) Hq Hr E).
    + apply list_elem_of_fmap in Hq as (q0 & -> & Hq0). unfold put_row in *. cbn [replaced oidc_row sp_ID] in *.
      destruct (String.eqb (sp_ID q0) (sp_ID r)); [|done]. split; [done|]. cbn [replaced oidc_row sp_Domain]. by rewrite ToLower_idem.
  - destruct (saveOIDC_create _ _ _ _ _ _ F Hs) as (-> & s & raw & cert & _ & _ & _ & Ep & ->).
    exists x, "create". rewrite Ep. split; [done|]. split; [done|]. do 3 (split; [done|]).
    intros q. cbn [ad_providers set_events set_providers]. intros [[Hq Hn]|[Hn Hq]].
    + destruct Hn. apply elem_of_app. by left.
    + apply elem_of_app in Hq as [|Hq]; [done|]. apply list_elem_of_singleton in Hq as ->.
      split; [done|]. cbn [created sp_Domain]. by rewrite ToLower_idem.
Qed.

(** A deleted one. *)
Lemma delete_effect env d actor org via db res db' :
  db_wf db -> DeleteSSOProviderRecorded env d actor org via db = (res, db') ->
  (db' = db /\ res <> Ok true)
  \/ exists id, res = Ok true /\ ad_events db' = (ad_events db ++ [provider_event env actor org id "delete" via])%list
     /\ ad_grants db' = ad_grants db /\ ad_orgs db' = ad_orgs db /\ ad_users db' = ad_users db
     /\ changes_own d id db db'.
Proof.
  intros W. unfold DeleteSSOProviderRecorded. intros H.
  apply transact_inv in H as [(x & k & Hk & _ & -> & ->)|[[e ->] ->]]; [|by left].
  destruct (List.find _ _) as [r|] eqn:F; [|injection Hk as <- <-; by left].
  destruct (insertSSOEvent _ _ _ _ _ _) as [db2|] eqn:Hev; [|done]. cbn [rbind] in Hk. injection Hk as <- <-.
  apply insertSSOEvent_Ok in Hev as [_ ->]. right. exists (sp_ID r). do 5 (split; [done|]).
  apply find_domain_Some in F as [Hr Hd]. rewrite ToLower_idem in Hd.
  intros q. cbn [default from_option Datatypes.id ad_providers set_events set_providers]. rewrite elem_of_keep.
  intros [[Hq Hn]|[Hn [Hq _]]]; [|done].
  destruct (domain_is (ToLower d) q) eqn:E; [|destruct Hn; by split].
  unfold domain_is in E. apply String.eqb_eq in E. rewrite ToLower_idem in E. split; [|done].
  f_equal. eapply (inj_of_NoDup sp_Domain); [exact (wf_domains _ W)|done..|].
  rewrite <- (wf_lower _ W q Hq), <- (wf_lower _ W r Hr). congruence.
Qed.
End StoreFacts.

(** A change of the organisation's AI configuration spends no proof for an SSO
    write. *)
Lemma orgai_counts {V : Vault} {L : VaultLaws V} env w db res db' u g :
  db_wf db -> tx_event env ∉ map ev_ID (ad_events db) -> WriteOrgAIConfig env w db = (res, db') ->
  same_counts u g db db' /\ ad_providers db' = ad_providers db /\ ad_orgs db' = ad_orgs db.
Proof.
  intros W Hev [(via & db1 & next & changed & raw & db3 & _ & A & _ & _ & _ & R & _ & ->)|[-> _]]%Write_cases; [|done].
  destruct (authorize_record env w db via db1 changed (c_Version next)
              (set_orgai (<[w_OrgID w := row_of next raw (w_Now w) (w_UserID w)]>) db1) db3 Hev A eq_refl R) as (d & Ee & _).
  pose proof (authorize_tables _ _ _ _ _ A) as (_ & _ & _ & A4 & A5 & _).
  apply record_write_tables in R as (_ & _ & _ & R4 & R5 & R6). unfold same_counts, written, granted.
  rewrite Ee, !length_keep_snoc. unfold is_written at 2, is_granted at 2. cbn [ev_Details]. rewrite !andb_false_r.
  rewrite R4, R5. split; [|by split]. split; [lia|]. split; [lia|]. unfold unspent_sso, count_unspent. rewrite R6.
  cbn [ad_grants set_orgai]. unfold authorize in A. destruct (consumeGrant _ _ _ _ db) as [[id|] db0] eqn:E.
  - injection A as _ <-. pose proof (consumeGrant_count u g SSOGrantPurposeSSOWrite _ _ _ _ _ _ _ W E) as Hc.
    change (String.eqb SSOGrantPurposeLLMOrgKeyWrite SSOGrantPurposeSSOWrite) with false in Hc.
    rewrite andb_false_r, Nat.add_0_r in Hc. by unfold count_unspent in Hc.
  - apply consumeGrant_None in E as [-> _]. destruct (w_BreakGlass w && w_SessionFresh w); [|by destruct (w_BreakGlass w)].
    destruct (existsb _ _); [done|]. by injection A as _ <-.
Qed.

(** ** The administrators' system *)

(** The tables, what they were before, and the writes that passed the gate. *)
Record Sys := { sy_db : AdminDB; sy_past : list AdminDB; sy_jobs : list Job }.

Definition moved (s : Sys) (db : AdminDB) (jobs : list Job) : Sys :=
  {| sy_db := db; sy_past := sy_db s :: sy_past s; sy_jobs := jobs |}.

(** What a handler read is the tables at some time before. *)
Definition read_by (s : Sys) (db : AdminDB) : Prop := db = sy_db s \/ db ∈ sy_past s.

(** The keys a transaction generates are new. *)
Definition new_keys (env : TxEnv) (db : AdminDB) : Prop := fresh env db /\ (tx_event env ∉ map ev_ID (ad_events db)).

Section System.
Context {S : StateSeal} {V : Vault} (c : StepupConfig).

Inductive step (s : Sys) : Sys -> Prop :=
| sy_callback idp db0 pf ses cookie q now env a db' :
    read_by s db0 -> signed_here c cookie -> new_keys (re_tx1 env) (sy_db s) -> new_keys (re_tx2 env) (sy_db s) ->
    stepupCallback c idp db0 pf ses cookie q now env (sy_db s) = (a, db') -> step s (moved s db' (sy_jobs s))
| sy_create db0 db1 fails env ses now members j db' :
    read_by s db0 -> read_by s db1 -> createSSOProvider c db0 db1 fails env ses now members (sy_db s) = (inr j, db') ->
    step s (moved s db' (sy_jobs s ++ [j])%list)
| sy_refuse db0 db1 fails env ses now members a db' :
    read_by s db0 -> read_by s db1 -> createSSOProvider c db0 db1 fails env ses now members (sy_db s) = (inl a, db') ->
    step s (moved s db' (sy_jobs s))
| sy_delete db0 env ses now segment j db' :
    read_by s db0 -> deleteSSOProvider c db0 env ses now segment (sy_db s) = (inr j, db') ->
    step s (moved s db' (sy_jobs s ++ [j])%list)
| sy_refuse_delete db0 env ses now segment a db' :
    read_by s db0 -> deleteSSOProvider c db0 env ses now segment (sy_db s) = (inl a, db') ->
    step s (moved s db' (sy_jobs s))
| sy_store l j r env a db' :
    sy_jobs s = (l ++ j :: r)%list -> new_keys env (sy_db s) -> store env j (sy_db s) = (a, db') ->
    step s (moved s db' (l ++ r)%list)
| sy_lost l j r : sy_jobs s = (l ++ j :: r)%list -> step s (moved s (sy_db s) (l ++ r)%list)
| sy_orgai env w res db' :
    new_keys env (sy_db s) -> w_UserID w <> Nil -> WriteOrgAIConfig env w (sy_db s) = (res, db') ->
    step s (moved s db' (sy_jobs s))
| sy_user u : step s (moved s (set_users (<[us_ID u := u]>) (sy_db s)) (sy_jobs s))
| sy_org o : ad_orgs (sy_db s) !! og_ID o = None ->
    step s (moved s (set_orgs (<[og_ID o := o]>) (sy_db s)) (sy_jobs s)).

(** The jobs under way that a step-up authorised. *)
Definition pending (u g : uuid) (s : Sys) : nat := length (keep (job_of u g) (sy_jobs s)).

(** A job is for the domain of its organisation. *)
Definition job_own (db : AdminDB) (j : Job) : Prop :=
  exists o, ad_orgs db !! jb_Org j = Some o /\ ToLower (job_domain j) = ToLower (og_Domain o).

Record sys_ok (s : Sys) : Prop := {
  ok_wf : db_wf (sy_db s);
  ok_keyed d : read_by s d -> forall k o, ad_orgs d !! k = Some o -> og_ID o = k;
  ok_past d : read_by s d -> same_orgs d (sy_db s);
  ok_jobs j : j ∈ sy_jobs s -> job_own (sy_db s) j;
  ok_counts u g : (written u g (sy_db s) + pending u g s + unspent_sso u g (sy_db s) <= granted u g (sy_db s))%nat }.

Lemma job_own_same db db' j : same_orgs db db' -> job_own db j -> job_own db' j.
Proof. intros H (o & (o' & E & D & _)%H & Hd). exists o'. split; [done|]. by rewrite D. Qed.

(** What a step needs to show. *)
Lemma ok_move s db' jobs : sys_ok s -> db_wf db' -> same_orgs (sy_db s) db' ->
  (forall k o, ad_orgs db' !! k = Some o -> og_ID o = k) ->
  (forall j, j ∈ jobs -> j ∈ sy_jobs s \/ job_own (sy_db s) j) ->
  (forall u g, written u g db' + length (keep (job_of u g) jobs) + unspent_sso u g db' + granted u g (sy_db s)
     <= granted u g db' + (written u g (sy_db s) + pending u g s + unspent_sso u g (sy_db s)))%nat ->
  sys_ok (moved s db' jobs).
Proof.
  intros H W O K J C. split; cbn [moved sy_db sy_past sy_jobs].
  - done.
  - intros d [->|[->|Hd]%elem_of_cons]; [done|apply (ok_keyed _ H); by left|apply (ok_keyed _ H); by right].
  - intros d [->|[->|Hd]%elem_of_cons]; [apply same_orgs_refl|done|].
    eapply same_orgs_trans; [|exact O]. apply (ok_past _ H). by right.
  - intros j Hj. eapply job_own_same; [exact O|]. destruct (J j Hj) as [Hj'|]; [by apply (ok_jobs _ H)|done].
  - intros u g. specialize (C u g). pose proof (ok_counts _ H u g). unfold pending in *. cbn [moved sy_jobs]. lia.
Qed.
End System.

Section Preservation.
Context {S : StateSeal} {LS : StateSealLaws S} {V : Vault} {L : VaultLaws V} (c : StepupConfig).

Lemma plan_purpose idp db pf s cookie q now p : signed_here c cookie ->
  callback_plan c idp db pf s cookie q now = Some p ->
  pl_Purpose p = SSOGrantPurposeSSOWrite \/ pl_Purpose p = SSOGrantPurposeLLMOrgKeyWrite.
Proof.
  intros Hs. unfold callback_plan. destruct (ad_users db !! ss_User s) as [user|]; [|done].
  destruct (readState cookie (cq_State q) user now) as [[st|] ok] eqn:E; [|intros [= <-]; by left].
  destruct (readState_signed c _ _ _ _ _ _ Hs E) as (t & (_ & d & se & n & pu & ra & pv & pa & Kd & Hst) & _).
  destruct (start_inv _ _ _ _ _ _ _ _ _ _ _ Kd Hst) as (_ & _ & _ & _ & _ & _ & _ & _ & _ & _ & _ & Hp & _).
  assert (state_purpose (Some st) = SSOGrantPurposeSSOWrite \/ state_purpose (Some st) = SSOGrantPurposeLLMOrgKeyWrite).
  { unfold state_purpose. destruct Hp as [-> | ->]; [by left|by right]. }
  destruct ok; cbn [negb]; [destruct (ad_orgs db !! ss_OrgID st)|]; by intros [= <-].
Qed.

Lemma finish_wf env p db a db' :
  db_wf db -> fresh (re_tx1 env) db -> fresh (re_tx2 env) db ->
  pl_Purpose p = SSOGrantPurposeSSOWrite \/ pl_Purpose p = SSOGrantPurposeLLMOrgKeyWrite ->
  finish c env p db = (a, db') -> db_wf db'.
Proof.
  intros W F1 F2 Hp. unfold finish, finishStepup.
  destruct (re_conn env); [|by intros [= _ <-]|by intros [= _ <-]].
  destruct (re_commit env); cbn [negb]; [|by intros [= _ <-]]. cbn zeta.
  fold (finish_outcome env p). fold (changed_outcome env p).
  assert (Hpo : forall o, so_Purpose o = pl_Purpose p ->
            outcome_purpose o = SSOGrantPurposeSSOWrite \/ outcome_purpose o = SSOGrantPurposeLLMOrgKeyWrite).
  { intros o Ho. unfold outcome_purpose. rewrite Ho. destruct (String.eqb _ ""); [by left|done]. }
  destruct (RecordSSOStepupOutcome (re_tx1 env) (finish_outcome env p) db) as [r db1] eqn:E1.
  assert (W1 : db_wf db1) by exact (outcome_wf _ _ _ _ _ W F1 (Hpo (finish_outcome env p) eq_refl) E1).
  destruct r as [x|[]]; try (by intros [= _ <-]).
  apply RecordOutcome_records in E1 as [(x & Hx & _)|(e & _ & ->)]; [discriminate Hx|].
  destruct (RecordSSOStepupOutcome (re_tx2 env) (changed_outcome env p) db) as [r2 db2] eqn:E2.
  assert (W2 : db_wf db2) by exact (outcome_wf _ _ _ _ _ W F2 (Hpo (changed_outcome env p) eq_refl) E2).
  by destruct r2; intros [= _ <-].
Qed.

Lemma gated_wf env s user org now kind db r db' :
  db_wf db -> gated c env s user org now kind db = (r, db') -> db_wf db'.
Proof.
  intros W. unfold gated, authorizeWrite, ConsumeSSOStepupGrant.
  destruct (consumeGrant user org SSOGrantPurposeSSOWrite now db) as [id db1] eqn:E.
  pose proof (wf_consume _ _ _ _ _ _ _ W E) as W1.
  destruct (transact env db _) as [x db2] eqn:T. apply transact_inv in T as [(y & k & Hk & _ & -> & ->)|[[e ->] ->]];
    [|by intros [= _ <-]].
  injection Hk as <- <-. cbn [default from_option Datatypes.id].
  destruct id; [by intros [= _ <-]|]. destruct (bool_decide _); [destruct (session_fresh s now)|]; by intros [= _ <-].
Qed.

Lemma set_details_actor id d e : ev_UserID (set_details id d e) = ev_UserID e.
Proof. unfold set_details. by destruct (String.eqb _ _). Qed.

Lemma orgai_wf env w db res db' : db_wf db -> w_UserID w <> Nil -> WriteOrgAIConfig env w db = (res, db') -> db_wf db'.
Proof.
  intros W Hu [(via & db1 & next & changed & raw & db3 & _ & A & _ & _ & _ & R & _ & ->)|[-> _]]%Write_cases; [|done].
  assert (W1 : db_wf db1).
  { unfold authorize in A. destruct (consumeGrant _ _ _ _ db) as [[id|] db0] eqn:E.
    - injection A as _ <-. by eapply wf_consume.
    - apply consumeGrant_None in E as [-> _]. destruct (w_BreakGlass w && w_SessionFresh w); [|by destruct (w_BreakGlass w)].
      destruct (existsb _ _); [done|]. injection A as _ <-. destruct W. split; cbn; auto.
      intros e [He| ->%list_elem_of_singleton]%elem_of_app; [by apply wf_actor|done]. }
  unfold record_write in R. destruct (String.eqb via "breakglass").
  - injection R as <-. destruct W1. split; cbn; auto.
    intros e (e0 & -> & He0)%list_elem_of_fmap. rewrite set_details_actor. by apply wf_actor.
  - eapply wf_event; [|exact R]. destruct W1. by split.
Qed.

(** A request that reaches the gate, for the domain of the caller's
    organisation; or an answer before it. *)
Lemma create_inv db0 db1 fails env s now members db r db' :
  createSSOProvider c db0 db1 fails env s now members db = (r, db') ->
  (exists a, r = inl a /\ db' = db)
  \/ exists user org w, orgCaller db0 (ss_User s) = inr (user, org)
       /\ ToLower (ow_Domain w) = ToLower (og_Domain org)
       /\ gated c env s (us_ID user) (og_ID org) now (JobSave w) db = (r, db').
Proof.
  unfold createSSOProvider. destruct (orgCaller db0 (ss_User s)) as [d|[user org]]; [intros [= <- <-]; eauto|].
  destruct (decodeSSOProviderWrite members) as [body|]; [|intros [= <- <-]; eauto].
  destruct (DomainMatchesOrg _ _) eqn:D; cbn [negb]; [|intros [= <- <-]; eauto].
  destruct (_ && fails); [intros [= <- <-]; eauto|].
  destruct (negb (String.eqb _ "")); [intros [= <- <-]; eauto|]. intros H. right. do 3 eexists. split; [done|].
  split; [|exact H]. cbn [ow_Domain]. rewrite ToLower_idem. unfold DomainMatchesOrg, EqualFold in D.
  apply andb_true_iff in D as [_ D]. by apply String.eqb_eq.
Qed.

Lemma delete_inv db0 env s now segment db r db' :
  deleteSSOProvider c db0 env s now segment db = (r, db') ->
  (exists a, r = inl a /\ db' = db)
  \/ exists user org, orgCaller db0 (ss_User s) = inr (user, org)
       /\ ToLower (ToLower segment) = ToLower (og_Domain org)
       /\ gated c env s (us_ID user) (og_ID org) now (JobDelete (ToLower segment)) db = (r, db').
Proof.
  unfold deleteSSOProvider. destruct (orgCaller db0 (ss_User s)) as [d|[user org]]; [intros [= <- <-]; eauto|].
  destruct (DomainMatchesOrg _ _) eqn:D; cbn [negb]; [|intros [= <- <-]; eauto].
  intros H. right. do 2 eexists. split; [done|]. split; [|exact H]. unfold DomainMatchesOrg, EqualFold in D.
  apply andb_true_iff in D as [_ D]. by apply String.eqb_eq.
Qed.

Lemma orgCaller_org db u user org : orgCaller db u = inr (user, org) -> exists k, ad_orgs db !! k = Some org.
Proof.
  unfold orgCaller. destruct (ad_users db !! u) as [x|]; [|done]. destruct (us_OrgID x) as [k|]; [|done].
  destruct (ad_orgs db !! k) as [o|] eqn:E; [|done]. intros [= _ <-]. by exists k.
Qed.

(** A gate passed: the invariant with the job. *)
Lemma ok_gated s db0 env ses user org now kind r db' :
  sys_ok s -> read_by s db0 -> orgCaller db0 (ss_User ses) = inr (user, org) ->
  (forall j, jb_Kind j = kind -> ToLower (job_domain j) = ToLower (og_Domain org)) ->
  gated c env ses (us_ID user) (og_ID org) now kind (sy_db s) = (r, db') ->
  sys_ok (moved s db' (sy_jobs s ++ match r with inl _ => [] | inr j => [j] end)%list).
Proof.
  intros H Hr Hc Hd G. pose proof (ok_wf _ H) as W.
  pose proof (gated_counts c _ _ _ _ _ _ _ _ _ "" "" W G) as (_ & _ & _ & Eo & _ & Hj).
  apply ok_move; [done|by eapply gated_wf|by apply same_orgs_eq| | |].
  - intros k o. rewrite Eo. apply (ok_keyed _ H). by left.
  - intros j [Hj'|Hj']%elem_of_app; [by left|right]. destruct r as [a|j']; [by apply elem_of_nil in Hj'|].
    apply list_elem_of_singleton in Hj' as ->. destruct Hj as (_ & _ & Eorg & Ek).
    apply orgCaller_org in Hc as (k & Hk). pose proof (ok_keyed _ H _ Hr _ _ Hk) as Hid.
    destruct (ok_past _ H _ Hr _ _ Hk) as (o' & Ho' & Do' & _). exists o'. rewrite Eorg, Hid. split; [done|].
    rewrite Do'. by apply Hd.
  - intros u g. pose proof (gated_counts c _ _ _ _ _ _ _ _ _ u g W G) as (E1 & E2 & _ & _ & _ & Hj2).
    unfold pending. destruct r as [a|j].
    + rewrite app_nil_r, E1, E2, Hj2. lia.
    + destruct Hj2 as [E3 _]. rewrite length_keep_snoc, E1, E2, E3. lia.
Qed.

Lemma keep_remove {X} (f : X -> bool) l x r :
  length (keep f (l ++ x :: r)%list) = (length (keep f (l ++ r)%list) + if f x then 1 else 0)%nat.
Proof. unfold keep. rewrite !List.filter_app. cbn [List.filter]. rewrite !length_app. destruct (f x); cbn [length]; lia. Qed.

Lemma store_wf env j db a db' : db_wf db -> fresh env db -> store env j db = (a, db') -> db_wf db'.
Proof.
  intros W F. unfold store. destruct (jb_Kind j) as [w|d].
  - pose proof (op_wf (OpSave env w (jb_User j) (jb_Org j) (jb_Via j)) db W F I) as H. cbn [apply_op] in H.
    by destruct (SaveOIDCProviderRecorded _ _ _ _ _ db) as [[x|e] db1]; intros [= _ <-].
  - pose proof (op_wf (OpDelete env d (jb_User j) (jb_Org j) (jb_Via j)) db W F I) as H. cbn [apply_op] in H.
    by destruct (DeleteSSOProviderRecorded _ _ _ _ _ db) as [[[]|e] db1]; intros [= _ <-].
Qed.

(** A stored job: nothing, or one event for the job's actor and organisation,
    and rows of its domain only. *)
Lemma store_effect env j db a db' : db_wf db -> fresh env db -> store env j db = (a, db') ->
  db' = db \/ exists id op, ad_events db' = (ad_events db ++ [provider_event env (jb_User j) (jb_Org j) id op (jb_Via j)])%list
    /\ ad_grants db' = ad_grants db /\ ad_orgs db' = ad_orgs db /\ changes_own (job_domain j) id db db'.
Proof.
  intros W F. unfold store, job_domain. destruct (jb_Kind j) as [w|d].
  - destruct (SaveOIDCProviderRecorded _ _ _ _ _ db) as [r db1] eqn:E.
    apply save_effect in E as [[-> _]|(p & op & -> & E1 & E2 & E3 & _ & E4)]; [by destruct r; intros [= _ <-]; left| |done|done].
    intros [= _ <-]. right. by eexists _, _.
  - destruct (DeleteSSOProviderRecorded _ _ _ _ _ db) as [r db1] eqn:E.
    apply delete_effect in E as [[-> Hr]|(id & -> & E1 & E2 & E3 & _ & E4)]; [|intros [= _ <-]; right; by eexists _, _|done].
    destruct r as [[]|]; intros [= _ <-]; by left.
Qed.

Lemma ok_store s l j r env a db' :
  sys_ok s -> sy_jobs s = (l ++ j :: r)%list -> new_keys env (sy_db s) -> store env j (sy_db s) = (a, db') ->
  sys_ok (moved s db' (l ++ r)%list).
Proof.
  intros H Ej [F _] E. pose proof (ok_wf _ H) as W. pose proof (store_wf _ _ _ _ _ W F E) as W'.
  assert (Hjobs : forall j', j' ∈ (l ++ r)%list -> j' ∈ sy_jobs s \/ job_own (sy_db s) j').
  { intros j' Hj'. left. rewrite Ej. apply elem_of_app in Hj' as [|]; apply elem_of_app; [by left|right; by right]. }
  apply store_effect in E as [->|(id & op & E1 & E2 & E3 & _)]; [| |done|done].
  - apply ok_move; try done; [apply same_orgs_refl|apply (ok_keyed _ H); by left|].
    intros u g. unfold pending. rewrite Ej, keep_remove. lia.
  - apply ok_move; try done; [by apply same_orgs_eq|rewrite E3; apply (ok_keyed _ H); by left|].
    intros u g. unfold pending, written, granted, unspent_sso, count_unspent. rewrite Ej, keep_remove, E1, E2, !length_keep_snoc.
    assert (Hg : is_granted u g (provider_event env (jb_User j) (jb_Org j) id op (jb_Via j)) = false) by apply andb_false_r.
    rewrite Hg. unfold is_written, job_of. cbn [ev_UserID ev_Details provider_event]. rewrite andb_assoc. lia.
Qed.

Lemma step_ok s s' : sys_ok s -> step c s s' -> sys_ok s'.
Proof.
  intros H St. pose proof (ok_wf _ H) as W. destruct St as [idp db0 pf ses cookie q now env a db' Hr Hs [F1 _] [F2 _] E
    |db0 db1 fails env ses now members j db' Hr _ E|db0 db1 fails env ses now members a db' Hr _ E
    |db0 env ses now segment j db' Hr E|db0 env ses now segment a db' Hr E|l j r env a db' Ej Hk E|l j r Ej
    |env w res db' [F1 F2] Hu E|u|o Ho].
  - unfold stepupCallback in E. destruct (callback_plan _ _ _ _ _ _ _ _) as [p|] eqn:Ep.
    + fold (finish c env p (sy_db s)) in E. pose proof (finish_counts c env p _ _ _ "" "" E) as (_ & _ & _ & Ko & _).
      apply ok_move; [done|exact (finish_wf env p _ a db' W F1 F2 (plan_purpose _ _ _ _ _ _ _ _ Hs Ep) E)|apply Ko| |by left|].
      * eapply kept_keyed; [exact Ko|]. apply (ok_keyed _ H). by left.
      * intros u g. pose proof (finish_counts c env p _ _ _ u g E) as (E1 & E2 & _). unfold pending. lia.
    + injection E as _ <-. apply ok_move; try done; [apply same_orgs_refl|apply (ok_keyed _ H); by left|by left|].
      intros u g. unfold pending. lia.
  - apply create_inv in E as [(a & [=] & _)|(user & org & w & Hc & Hd & G)].
    eapply (ok_gated s db0 env ses user org now _ _ _ H Hr Hc) in G; [exact G|]. intros j' Hj'. unfold job_domain. by rewrite Hj'.
  - apply create_inv in E as [(a' & _ & ->)|(user & org & w & Hc & Hd & G)].
    + apply ok_move; try done; [apply same_orgs_refl|apply (ok_keyed _ H); by left|by left|intros u g; unfold pending; lia].
    + eapply (ok_gated s db0 env ses user org now _ _ _ H Hr Hc) in G; [by rewrite app_nil_r in G|].
      intros j' Hj'. unfold job_domain. by rewrite Hj'.
  - apply delete_inv in E as [(a & [=] & _)|(user & org & Hc & Hd & G)].
    eapply (ok_gated s db0 env ses user org now _ _ _ H Hr Hc) in G; [exact G|]. intros j' Hj'. unfold job_domain. by rewrite Hj'.
  - apply delete_inv in E as [(a' & _ & ->)|(user & org & Hc & Hd & G)].
    + apply ok_move; try done; [apply same_orgs_refl|apply (ok_keyed _ H); by left|by left|intros u g; unfold pending; lia].
    + eapply (ok_gated s db0 env ses user org now _ _ _ H Hr Hc) in G; [by rewrite app_nil_r in G|].
      intros j' Hj'. unfold job_domain. by rewrite Hj'.
  - by eapply ok_store.
  - apply ok_move; try done; [apply same_orgs_refl|apply (ok_keyed _ H); by left| |].
    + intros j' Hj'. left. rewrite Ej. apply elem_of_app in Hj' as [|]; apply elem_of_app; [by left|right; by right].
    + intros u g. unfold pending. rewrite Ej, keep_remove. lia.
  - pose proof (orgai_counts _ _ _ _ _ "" "" W F2 E) as (_ & _ & Eo).
    apply ok_move; [done|by eapply orgai_wf|by apply same_orgs_eq|rewrite Eo; apply (ok_keyed _ H); by left|by left|].
    intros u g. pose proof (orgai_counts _ _ _ _ _ u g W F2 E) as ((E1 & E2 & E3) & _). unfold pending. lia.
  - apply ok_move; [done|by destruct W; split|by apply same_orgs_eq|exact (ok_keyed _ H (sy_db s) (or_introl eq_refl))|by left|].
    intros u' g. unfold pending. change (written u' g (set_users (<[us_ID u := u]>) (sy_db s))) with (written u' g (sy_db s)).
    change (unspent_sso u' g (set_users (<[us_ID u := u]>) (sy_db s))) with (unspent_sso u' g (sy_db s)).
    change (granted u' g (set_users (<[us_ID u := u]>) (sy_db s))) with (granted u' g (sy_db s)). lia.
  - apply ok_move; [done|by destruct W; split| | |by left|].
    + intros k o' Hk. cbn [ad_orgs set_orgs]. exists o'. rewrite lookup_insert_ne; [done|]. intros <-. congruence.
    + intros k o'. cbn [ad_orgs set_orgs]. destruct (decide (k = og_ID o)) as [->|Hne].
      * rewrite lookup_insert_eq. by intros [= <-].
      * rewrite lookup_insert_ne by done. apply (ok_keyed _ H). by left.
    + intros u g. unfold pending. change (written u g (set_orgs (<[og_ID o := o]>) (sy_db s))) with (written u g (sy_db s)).
      change (unspent_sso u g (set_orgs (<[og_ID o := o]>) (sy_db s))) with (unspent_sso u g (sy_db s)).
      change (granted u g (set_orgs (<[og_ID o := o]>) (sy_db s))) with (granted u g (sy_db s)). lia.
Qed.

Lemma reachable_ok s s' : sys_ok s -> rtc (step c) s s' -> sys_ok s'.
Proof. intros H R. induction R as [|x y z Hxy _ IH]; [done|]. apply IH. by eapply step_ok. Qed.
End Preservation.

Lemma gated_refused c env s user org now kind db a db' :
  gated c env s user org now kind db = (inl a, db') -> db' = db.
Proof.
  unfold gated, authorizeWrite, ConsumeSSOStepupGrant.
  destruct (consumeGrant user org SSOGrantPurposeSSOWrite now db) as [id db1] eqn:E.
  destruct (transact env db _) as [x db2] eqn:T. apply transact_inv in T as [(y & k & Hk & _ & -> & ->)|[[e ->] ->]];
    [|by intros [= _ <-]].
  injection Hk as <- <-. destruct id; [done|]. apply consumeGrant_None in E as [-> _].
  destruct (bool_decide _); [destruct (session_fresh s now)|]; by intros [= _ <-].
Qed.

(** How a job got through the gate. *)
Definition authorised (c : StepupConfig) (s : Session) (user org : uuid) (now : Z) (j : Job) (db db' : AdminDB) : Prop :=
  (jb_Via j = "stepup" /\ exists x, x ∈ ad_grants db /\ live_for user org SSOGrantPurposeSSOWrite now x = true
     /\ db' = set_grants (map (consume (gr_ID x) now)) db)
  \/ (jb_Via j = "breakglass" /\ ToLower (ss_Email s) ∈ sc_breakGlass c /\ session_fresh s now = true /\ db' = db
      /\ forall x, x ∈ ad_grants db -> live_for user org SSOGrantPurposeSSOWrite now x = false).

Lemma gated_authorised c env s user org now kind db j db' :
  gated c env s user org now kind db = (inr j, db') ->
  jb_User j = user /\ jb_Org j = org /\ jb_Kind j = kind /\ authorised c s user org now j db db'.
Proof.
  unfold gated, authorizeWrite, ConsumeSSOStepupGrant.
  destruct (consumeGrant user org SSOGrantPurposeSSOWrite now db) as [id db1] eqn:E.
  destruct (transact env db _) as [x db2] eqn:T. apply transact_inv in T as [(y & k & Hk & _ & -> & ->)|[[e ->] ->]]; [|done].
  injection Hk as <- <-. cbn [default from_option Datatypes.id]. destruct id as [id|].
  - intros [= <- <-]. do 3 (split; [done|]). left. split; [done|].
    apply consumeGrant_Some in E as (x & Hx & <- & Hl & _ & ->). by exists x.
  - apply consumeGrant_None in E as [-> Hn]. destruct (bool_decide_reflect (ToLower (ss_Email s) ∈ sc_breakGlass c)); [|done].
    destruct (session_fresh s now) eqn:F; [|done]. intros [= <- <-]. do 3 (split; [done|]). right. by repeat split.
Qed.

(** The body that says a write. *)
Definition body_of (w : OIDCWrite) : list (string * Json) :=
  ([("domain", JStr (ow_Domain w)); ("provider_name", JStr (ow_Name w)); ("provider_type", JStr "oidc");
    ("oidc_issuer", JStr (ow_Issuer w)); ("oidc_client_id", JStr (ow_ClientID w))]
   ++ match ow_Secret w with Some s => [("oidc_client_secret", JStr s)] | None => [] end)%list.

(** ** Properties *)

Section Properties.
Context {S : StateSeal} {LS : StateSealLaws S} {V : Vault} {L : VaultLaws V} (c : StepupConfig).

(** The tables before anyone administered anything. *)
Definition pristine (s : Sys) : Prop :=
  db_wf (sy_db s) /\ (forall k o, ad_orgs (sy_db s) !! k = Some o -> og_ID o = k)
  /\ ad_events (sy_db s) = [] /\ ad_grants (sy_db s) = [] /\ sy_past s = [] /\ sy_jobs s = [].

Lemma pristine_ok s : pristine s -> sys_ok s.
Proof.
  intros (W & K & E & G & P & J). split; [done| | | |].
  - intros d [->|Hd]; [done|]. rewrite P in Hd. by apply elem_of_nil in Hd.
  - intros d [->|Hd]; [apply same_orgs_refl|]. rewrite P in Hd. by apply elem_of_nil in Hd.
  - intros j Hj. rewrite J in Hj. by apply elem_of_nil in Hj.
  - intros u g. unfold written, pending, unspent_sso, count_unspent, granted. rewrite E, G, J. cbn. lia.
Qed.

(** C12: However requests interleave, a user has stored at most as many SSO
    changes for an organisation on step-ups as the records show granted to
    them for it: stored ones, ones past the gate and unspent grants together
    never exceed the grants.  A proof for the AI configuration is never
    counted. *)
Theorem sso_writes_are_granted s0 s u g :
  pristine s0 -> rtc (step c) s0 s ->
  (written u g (sy_db s) + pending u g s + unspent_sso u g (sy_db s) <= granted u g (sy_db s))%nat.
Proof. intros P R. apply (ok_counts s). eapply reachable_ok; [by apply pristine_ok|exact R]. Qed.

(** A configuration appears, changes or goes only in the store of a job,
    with one record that names it and the organisation it was done for, and
    its domain is that organisation's own. *)
Theorem rows_change_for_their_domain s0 s s' r :
  pristine s0 -> rtc (step c) s0 s -> step c s s' ->
  (r ∈ ad_providers (sy_db s) /\ (r ∉ ad_providers (sy_db s')))
  \/ ((r ∉ ad_providers (sy_db s)) /\ r ∈ ad_providers (sy_db s')) ->
  exists e op via o, ad_events (sy_db s') = (ad_events (sy_db s) ++ [e])%list
    /\ ev_Details e = ProviderWritten (og_ID o) (sp_ID r) op via
    /\ ad_orgs (sy_db s') !! og_ID o = Some o /\ ToLower (sp_Domain r) = ToLower (og_Domain o).
Proof.
  intros P R St. assert (H : sys_ok s) by (eapply reachable_ok; [by apply pristine_ok|exact R]).
  pose proof (ok_wf _ H) as W.
  assert (Same : forall db, ad_providers db = ad_providers (sy_db s) ->
     (r ∈ ad_providers (sy_db s) /\ (r ∉ ad_providers db)) \/ ((r ∉ ad_providers (sy_db s)) /\ r ∈ ad_providers db) -> False)
    by (intros db ->; tauto).
  destruct St as [idp db0 pf ses cookie q now env a db' Hr Hs [F1 _] [F2 _] E
    |db0 db1 fails env ses now members j db' Hr _ E|db0 db1 fails env ses now members a db' Hr _ E
    |db0 env ses now segment j db' Hr E|db0 env ses now segment a db' Hr E|l j r0 env a db' Ej [F _] E|l j r0 Ej
    |env w res db' [F1 F2] Hu E|u|o Ho]; cbn [moved sy_db]; intros D; try (exfalso; by apply (Same _ eq_refl D)).
  - unfold stepupCallback in E. destruct (callback_plan _ _ _ _ _ _ _ _) as [p|]; [|injection E as _ <-; exfalso; by apply (Same _ eq_refl D)].
    fold (finish c env p (sy_db s)) in E. pose proof (finish_counts c env p _ _ _ "" "" E) as (_ & _ & Ep & _). exfalso. by apply (Same _ Ep D).
  - apply create_inv in E as [(a & [=] & _)|(user & org & w & _ & _ & G)].
    pose proof (gated_counts c _ _ _ _ _ _ _ _ _ "" "" W G) as (_ & _ & Ep & _). exfalso. by apply (Same _ Ep D).
  - apply create_inv in E as [(a' & _ & ->)|(user & org & w & _ & _ & G)]; [exfalso; by apply (Same _ eq_refl D)|].
    apply gated_refused in G as ->. exfalso. by apply (Same _ eq_refl D).
  - apply delete_inv in E as [(a & [=] & _)|(user & org & _ & _ & G)].
    pose proof (gated_counts c _ _ _ _ _ _ _ _ _ "" "" W G) as (_ & _ & Ep & _). exfalso. by apply (Same _ Ep D).
  - apply delete_inv in E as [(a' & _ & ->)|(user & org & _ & _ & G)]; [exfalso; by apply (Same _ eq_refl D)|].
    apply gated_refused in G as ->. exfalso. by apply (Same _ eq_refl D).
  - apply store_effect in E as [->|(id & op & E1 & _ & E3 & Hch)]; [exfalso; by apply (Same _ eq_refl D)| |done|done].
    destruct (Hch r D) as [Hid Hdom]. destruct (ok_jobs _ H j) as (o & Ho & Hd); [rewrite Ej; apply elem_of_app; right; by left|].
    pose proof (ok_keyed _ H _ (or_introl eq_refl) _ _ Ho) as Hk.
    exists (provider_event env (jb_User j) (jb_Org j) id op (jb_Via j)), op, (jb_Via j), o.
    split; [done|]. split; [by rewrite Hk, Hid|]. split; [by rewrite E3, Hk|]. congruence.
  - pose proof (orgai_counts _ _ _ _ _ "" "" W F2 E) as (_ & Ep & _). exfalso. by apply (Same _ Ep D).
Qed.

(** Every refusal before the store leaves all tables as they were, the
    proof included; and a write that passes is for the caller, their
    organisation and its own domain, and was authorised by one live grant for
    SSO writes, spent, or by a fresh session of the break-glass list. *)
Theorem refusals_spend_nothing db0 db1 fails env s now members db r db' :
  createSSOProvider c db0 db1 fails env s now members db = (r, db') ->
  match r with
  | inl _ => db' = db
  | inr j => exists user org w, orgCaller db0 (ss_User s) = inr (user, org) /\ jb_Kind j = JobSave w
      /\ jb_User j = us_ID user /\ jb_Org j = og_ID org /\ ToLower (ow_Domain w) = ToLower (og_Domain org)
      /\ authorised c s (us_ID user) (og_ID org) now j db db'
  end.
Proof.
  intros [(a & -> & ->)|(user & org & w & Hc & Hd & G)]%create_inv; [done|]. destruct r as [a|j].
  - by apply gated_refused in G.
  - apply gated_authorised in G as (H1 & H2 & H3 & H4). by exists user, org, w.
Qed.

(** A body that says a write is decoded into it, whatever its values, as
    long as none that is required is empty. *)
Theorem decode_body_roundtrip w :
  ow_Domain w <> "" -> ow_Name w <> "" -> ow_Issuer w <> "" -> ow_ClientID w <> "" -> ow_Secret w <> Some "" ->
  decodeSSOProviderWrite (Some (body_of w)) = Ok w.
Proof.
  destruct w as [d n i cid sec]. cbn [ow_Domain ow_Name ow_Issuer ow_ClientID ow_Secret].
  intros Hd Hn Hi Hc Hs. apply String.eqb_neq in Hd, Hn, Hi, Hc.
  unfold decodeSSOProviderWrite. destruct (objectFields _) as [[names values]|] eqn:E; [|destruct sec; discriminate E].
  assert (P : string_prop values "domain" = Some d /\ string_prop values "provider_name" = Some n
    /\ string_prop values "provider_type" = Some "oidc" /\ string_prop values "oidc_issuer" = Some i
    /\ string_prop values "oidc_client_id" = Some cid /\ pointer_prop values "oidc_client_secret" = Some sec
    /\ List.find (fun n => bool_decide (n ∈ dom values)) samlProperties = None
    /\ first_in_order (keep (fun n => negb (existsb (String.eqb n) ssoProviderWriteProperties)) names) = None
    /\ bool_decide ("oidc_client_secret" ∈ dom values) && String.eqb (default "" sec) "" = false).
  { destruct sec as [x|]; injection E as <- <-; do 8 (split; [vm_compute; reflexivity|]); [|vm_compute; reflexivity].
    cbn [default from_option Datatypes.id]. replace (String.eqb x "") with false; [apply andb_false_r|].
    symmetry. apply String.eqb_neq. congruence. }
  destruct P as (P1 & P2 & P3 & P4 & P5 & P6 & P7 & P8 & P9).
  rewrite P1, P2, P3, P4, P5, P6, P7, P8, P9, Hd, Hn, Hi, Hc. reflexivity.
Qed.
End Properties.

(** ** A concrete history *)

Module SsoDemo.
#[local] Existing Instances AdminStore.Demo.vault AdminStore.Demo.vault_laws StepupDemo.seal StepupDemo.seal_laws.

Definition start : Sys := {| sy_db := AdminStore.Demo.db; sy_past := []; sy_jobs := [] |}.

(** Ann's step-up for SSO writes. *)
Definition state : StepupState :=
  {| ss_UserID := "u1"; ss_OrgID := "o1"; ss_Provider := "google"; ss_Nonce := hexString StepupDemo.random;
     ss_Expires := 1600; ss_Purpose := "" |}.
Definition cookie : option string := Some (signState state).
Definition granted_db : AdminDB :=
  snd (stepupCallback StepupDemo.cfg StepupDemo.idp AdminStore.Demo.db false StepupDemo.session cookie StepupDemo.query
         (1099 * Second) StepupDemo.env AdminStore.Demo.db).
Definition granted_sys : Sys := moved start granted_db [].

(** Her write, past the gate and stored. *)
Definition create := createSSOProvider StepupDemo.cfg granted_db granted_db false (AdminStore.Demo.env "3") StepupDemo.session
  (1200 * Second) (Some (body_of AdminStore.Demo.created)) granted_db.
Definition job : Job := {| jb_User := "u1"; jb_Org := "o1"; jb_Via := "stepup";
  jb_Kind := JobSave {| ow_Domain := "example.com"; ow_Name := "Entra"; ow_Issuer := "https://issuer"; ow_ClientID := "id";
                        ow_Secret := Some "s3cret" |} |}.
Definition authorised_sys : Sys := moved granted_sys (snd create) [job].
Definition stored := store (AdminStore.Demo.env "4") job (snd create).
Definition stored_sys : Sys := moved authorised_sys (snd stored) [].

Lemma start_pristine : pristine start.
Proof.
  split; [exact demo_wf|]. split; [|done]. intros k o H. unfold start, AdminStore.Demo.db in H. cbn in H.
  by apply lookup_singleton_Some in H as [<- <-].
Qed.

Lemma sso_cookie_signed : signed_here StepupDemo.cfg cookie.
Proof.
  intros value p sig [= <-] Hc _. vm_compute in Hc. injection Hc as <- _. exists state, (1000 * Second).
  split; [|by vm_compute]. split; [by vm_compute|].
  eexists AdminStore.Demo.db, StepupDemo.session, "google", [], (Some StepupDemo.random), _, _.
  split; [exact StepupDemo.db_keyed|]. vm_compute. reflexivity.
Qed.

Lemma key_new n db : ("grant-" +:+ n) ∉ map gr_ID (ad_grants db) -> ("sso-" +:+ n) ∉ map sp_ID (ad_providers db) ->
  ("event-" +:+ n) ∉ map ev_ID (ad_events db) -> new_keys (AdminStore.Demo.env n) db.
Proof. intros H1 H2 H3. repeat split; assumption. Qed.

Ltac not_in := intros H; apply list_elem_of_In in H; vm_compute in H; repeat destruct H as [H|H]; (discriminate H || exact H).

Lemma step1 : step StepupDemo.cfg start granted_sys.
Proof.
  eapply (sy_callback _ start StepupDemo.idp AdminStore.Demo.db false StepupDemo.session cookie StepupDemo.query
            (1099 * Second) StepupDemo.env); [by left|exact sso_cookie_signed| | |exact (surjective_pairing _)];
    apply key_new; not_in.
Qed.

Lemma step2 : step StepupDemo.cfg granted_sys authorised_sys.
Proof.
  eapply (sy_create _ granted_sys granted_db granted_db false (AdminStore.Demo.env "3") StepupDemo.session (1200 * Second)
            (Some (body_of AdminStore.Demo.created)) job); [by left|by left|]. vm_compute. reflexivity.
Qed.

Lemma step3 : step StepupDemo.cfg authorised_sys stored_sys.
Proof.
  eapply (sy_store _ authorised_sys [] job [] (AdminStore.Demo.env "4")); [done| |exact (surjective_pairing _)].
  apply key_new; not_in.
Qed.
End SsoDemo.
#[local] Existing Instances AdminStore.Demo.vault AdminStore.Demo.vault_laws StepupDemo.seal StepupDemo.seal_laws.

Lemma sso_writes_are_granted_witness :
  written "u1" "o1" (sy_db SsoDemo.stored_sys) = 1%nat /\ (1 <= granted "u1" "o1" (sy_db SsoDemo.stored_sys))%nat.
Proof.
  assert (W : written "u1" "o1" (sy_db SsoDemo.stored_sys) = 1%nat) by (vm_compute; reflexivity).
  split; [exact W|].
  pose proof (sso_writes_are_granted StepupDemo.cfg SsoDemo.start SsoDemo.stored_sys "u1" "o1" SsoDemo.start_pristine
    (rtc_l _ _ _ _ SsoDemo.step1 (rtc_l _ _ _ _ SsoDemo.step2 (rtc_l _ _ _ _ SsoDemo.step3 (rtc_refl _ _))))) as H.
  rewrite W in H. lia.
Defined.

Lemma rows_change_for_their_domain_witness :
  exists r e, r ∈ ad_providers (sy_db SsoDemo.stored_sys) /\ ev_Details e = ProviderWritten "o1" (sp_ID r) "create" "stepup".
Proof.
  destruct (ad_providers (sy_db SsoDemo.stored_sys)) as [|r l] eqn:E; [vm_compute in E; discriminate E|].
  assert (Hl : l = []) by (vm_compute in E; injection E as _ <-; reflexivity). subst l.
  exists r. destruct (rows_change_for_their_domain StepupDemo.cfg SsoDemo.start SsoDemo.authorised_sys SsoDemo.stored_sys r
    SsoDemo.start_pristine (rtc_l _ _ _ _ SsoDemo.step1 (rtc_l _ _ _ _ SsoDemo.step2 (rtc_refl _ _))) SsoDemo.step3)
    as (e & op & via & o & Ee & Ed & _).
  - right. split; [vm_compute; apply not_elem_of_nil|]. rewrite E. left.
  - exists e. split; [left|]. rewrite Ed. assert (Ha : e = provider_event (AdminStore.Demo.env "4") "u1" "o1" (sp_ID r) "create" "stepup").
    { assert (Hr : sp_ID r = "sso-4") by (vm_compute in E; injection E as <-; reflexivity). rewrite Hr.
      vm_compute in Ee. injection Ee as <-. reflexivity. }
    rewrite Ha in Ed. cbn [ev_Details provider_event] in Ed. rewrite Ed. reflexivity.
Defined.

Lemma refusals_spend_nothing_witness :
  exists via, fst SsoDemo.create = inr SsoDemo.job /\ jb_Via SsoDemo.job = via /\ via = "stepup".
Proof.
  assert (E : SsoDemo.create = (inr SsoDemo.job, snd SsoDemo.create)) by (vm_compute; reflexivity).
  pose proof (refusals_spend_nothing StepupDemo.cfg _ _ _ _ _ _ _ _ _ _ E) as H. cbv beta iota in H.
  destruct H as (user & org & w & _ & _ & _ & _ & _ & [(Hv & _)|(Hv & _)]); [|discriminate Hv].
  exists "stepup". split; [rewrite E; reflexivity|]. split; [exact Hv|reflexivity].
Defined.

Lemma decode_body_roundtrip_witness : decodeSSOProviderWrite (Some (body_of AdminStore.Demo.kept)) = Ok AdminStore.Demo.kept.
Proof. apply decode_body_roundtrip; discriminate. Defined.
