(* ===== verification/Credentials.v ===== *)
(** * Stored credentials and their renewal

    auth/token_store.go (the Google tokens), auth/microsoft_oauth.go (the
    Outlook record), storage/credentials.go (the Zoom record, the losses, the
    removals) and auth/credential_lifecycle.go (the sources that renew a
    credential).  Statements that share no transaction are separate steps of
    the tables; a source's [Token] is the steps between which another session
    can act.  The OAuth library and the provider are the parameter [OAuth];
    the JSON of a stored record is the class [TokenCodec]. *)

From S2P Require Import Prelude GoInt GoTime GoText GoEncoding GoURL SecretBox SecretStore AdminStore.

#[local] Open Scope string_scope.
#[local] Open Scope Z_scope.

(** ** Tables *)

(** An [oauth2.Token]; an expiry of [None] is the zero time. *)
Record Token := { t_Access : string; t_Refresh : string; t_Expiry : option Z }.

#[global] Instance Token_eq_dec : EqDecision Token.
Proof. solve_decision. Defined.

(** A row of oauth_tokens: the two tokens as stored. *)
Record TokenRow := { tk_Access : string; tk_Refresh : string; tk_Expiry : option Z; tk_UpdatedAt : Z }.

(** The columns of a settings row this code writes; NULL and "" are read
    alike. *)
Record CredSettings := {
  cs_Microsoft : string;
  cs_Zoom : string;
  cs_CalendarProvider : string;
  cs_Conferencing : string }.

(** A row as inserted: the defaults of the columns. *)
Definition new_settings : CredSettings :=
  {| cs_Microsoft := ""; cs_Zoom := ""; cs_CalendarProvider := "google"; cs_Conferencing := "meet" |}.

Record CredDB := {
  cd_tokens : gmap (uuid * string) TokenRow;
  cd_settings : gmap uuid CredSettings;
  cd_losses : gset (uuid * string);
  cd_audit : list (uuid * string * string) }.

Definition set_tokens (f : gmap (uuid * string) TokenRow -> gmap (uuid * string) TokenRow) (db : CredDB) : CredDB :=
  {| cd_tokens := f (cd_tokens db); cd_settings := cd_settings db; cd_losses := cd_losses db; cd_audit := cd_audit db |}.
Definition set_settings (f : gmap uuid CredSettings -> gmap uuid CredSettings) (db : CredDB) : CredDB :=
  {| cd_tokens := cd_tokens db; cd_settings := f (cd_settings db); cd_losses := cd_losses db; cd_audit := cd_audit db |}.
Definition set_losses (f : gset (uuid * string) -> gset (uuid * string)) (db : CredDB) : CredDB :=
  {| cd_tokens := cd_tokens db; cd_settings := cd_settings db; cd_losses := f (cd_losses db); cd_audit := cd_audit db |}.
Definition set_audit (f : list (uuid * string * string) -> list (uuid * string * string)) (db : CredDB) : CredDB :=
  {| cd_tokens := cd_tokens db; cd_settings := cd_settings db; cd_losses := cd_losses db; cd_audit := f (cd_audit db) |}.

Inductive CredError :=
| ErrNoUser
| ErrUnknownProvider
| ErrDatabase
| ErrSealing (e : KeyError)
| ErrUndecryptable (e : DecryptError)
| ErrRecord.                       (** the stored record is no JSON *)

(** Which statement of a call fails, if one does, by its number. *)
Abbreviation Failing := (nat -> bool) (only parsing).

Definition CredentialGoogle := "google".
Definition CredentialOutlook := "outlook".
Definition CredentialZoom := "zoom".

(** ** The losses (storage/credentials.go) *)

Definition validCredentialProvider (p : string) : bool :=
  String.eqb p CredentialGoogle || String.eqb p CredentialOutlook || String.eqb p CredentialZoom.

(** [RecordCredentialLoss]: whether this starts a loss. *)
Definition RecordCredentialLoss (fails : bool) (user : uuid) (p : string) (db : CredDB) : res CredError bool * CredDB :=
  if String.eqb user Nil then (Err ErrNoUser, db)
  else if negb (validCredentialProvider p) then (Err ErrUnknownProvider, db)
  else if fails then (Err ErrDatabase, db)
  else (Ok (negb (bool_decide ((user, p) ∈ cd_losses db))), set_losses (fun l => {[(user, p)]} ∪ l) db).

(** [ClearCredentialLoss]. *)
Definition ClearCredentialLoss (fails : bool) (user : uuid) (p : string) (db : CredDB) : res CredError unit * CredDB :=
  if fails then (Err ErrDatabase, db) else (Ok tt, set_losses (fun l => l ∖ {[(user, p)]}) db).

Definition IsCredentialLost (db : CredDB) (user : uuid) (p : string) : bool := bool_decide ((user, p) ∈ cd_losses db).

(** [RecordLoss]: the loss, and one entry of the owner's log when it starts,
    unless that write fails. *)
Definition RecordLoss (fails audit_fails : bool) (owner : uuid) (p : string) (db : CredDB) : CredDB :=
  match RecordCredentialLoss fails owner p db with
  | (Ok true, db') => if audit_fails then db' else set_audit (fun l => (l ++ [(owner, "connection_lost", p)])%list) db'
  | (_, db') => db'
  end.

(** ** The Google tokens (auth/token_store.go) *)

Definition primaryCalendar := "primary".

(** What [secretbox.Seal] gives a caller that can only fail on it. *)
Definition seal_for {V : Vault} (b : Binding) (p : string) : res CredError string :=
  match v_seal b p with Ok s => Ok s | Err e => Err (ErrSealing e) end.

Definition open_for {V : Vault} (b : Binding) (s : string) : res CredError string :=
  match v_open b s with Ok p => Ok p | Err e => Err (ErrUndecryptable e) end.

Section Google.
Context {V : Vault}.

(** [UpsertUserToken]: an empty refresh token keeps the stored one. *)
Definition UpsertUserToken (fails : Failing) (now : Z) (user : uuid) (t : Token) (db : CredDB)
  : res CredError unit * CredDB :=
  if String.eqb user Nil then (Err ErrNoUser, db)
  else match seal_for (bindOAuthToken "access_token" user primaryCalendar) (t_Access t) with
  | Err e => (Err e, db)
  | Ok access =>
      match seal_for (bindOAuthToken "refresh_token" user primaryCalendar) (t_Refresh t) with
      | Err e => (Err e, db)
      | Ok refresh =>
          if fails 0%nat then (Err ErrDatabase, db)
          else
            let kept := match cd_tokens db !! (user, primaryCalendar) with Some r => tk_Refresh r | None => refresh end in
            let row := {| tk_Access := access; tk_Refresh := if String.eqb refresh "" then kept else refresh;
                          tk_Expiry := t_Expiry t; tk_UpdatedAt := now |} in
            ClearCredentialLoss (fails 1%nat) user CredentialGoogle (set_tokens (<[(user, primaryCalendar) := row]>) db)
      end
  end.

(** The rows of a user, and their calendars. *)
Definition rows_of (user : uuid) (db : CredDB) : gmap (uuid * string) TokenRow :=
  filter (fun kr => kr.1.1 = user) (cd_tokens db).

Definition calendars_of (user : uuid) (db : CredDB) : list string := map (fun kr => kr.1.2) (map_to_list (rows_of user db)).

(** The loop of [UpdateUserToken]: each row that is still there. *)
Fixpoint update_rows (fails : Failing) (now : Z) (user : uuid) (t : Token) (cals : list string) (db : CredDB)
  : res CredError unit * CredDB :=
  match cals with
  | [] => (Ok tt, db)
  | cal :: rest =>
      match seal_for (bindOAuthToken "access_token" user cal) (t_Access t) with
      | Err e => (Err e, db)
      | Ok access =>
          match seal_for (bindOAuthToken "refresh_token" user cal) (t_Refresh t) with
          | Err e => (Err e, db)
          | Ok refresh =>
              if fails (length rest) then (Err ErrDatabase, db)
              else update_rows fails now user t rest
                     (set_tokens (alter (fun _ => {| tk_Access := access; tk_Refresh := refresh; tk_Expiry := t_Expiry t;
                                                     tk_UpdatedAt := now |}) (user, cal)) db)
          end
      end
  end.

(** [UpdateUserToken]: [read_fails] the listing of the rows. *)
Definition UpdateUserToken (read_fails : bool) (fails : Failing) (now : Z) (user : uuid) (t : Token) (db : CredDB)
  : res CredError unit * CredDB :=
  if String.eqb user Nil then (Err ErrNoUser, db)
  else if read_fails then (Err ErrDatabase, db)
  else update_rows fails now user t (calendars_of user db) db.

(** [ORDER BY updated_at DESC LIMIT 1]; among equals, any: the first. *)
Fixpoint latest_row (l : list ((uuid * string) * TokenRow)) : option ((uuid * string) * TokenRow) :=
  match l with
  | [] => None
  | x :: r => match latest_row r with
              | Some y => if tk_UpdatedAt x.2 <? tk_UpdatedAt y.2 then Some y else Some x
              | None => Some x
              end
  end.

(** [LoadUserToken] with [scanToken]. *)
Definition LoadUserToken (fails : bool) (user : uuid) (db : CredDB) : res CredError (option Token) :=
  if String.eqb user Nil then Err ErrNoUser
  else if fails then Err ErrDatabase
  else match latest_row (map_to_list (rows_of user db)) with
  | None => Ok None
  | Some ((_, cal), r) =>
      access <-? open_for (bindOAuthToken "access_token" user cal) (tk_Access r) ;;
      refresh <-? open_for (bindOAuthToken "refresh_token" user cal) (tk_Refresh r) ;;
      Ok (Some {| t_Access := access; t_Refresh := refresh; t_Expiry := tk_Expiry r |})
  end.

(** [DeleteUserToken]: two statements. *)
Definition DeleteUserToken (fails : Failing) (user : uuid) (db : CredDB) : res CredError unit * CredDB :=
  if String.eqb user Nil then (Err ErrNoUser, db)
  else if fails 0%nat then (Err ErrDatabase, db)
  else ClearCredentialLoss (fails 1%nat) user CredentialGoogle
         (set_tokens (fun m => filter (fun kr => kr.1.1 <> user) m) db).
End Google.

(** ** Outlook and Zoom: one record in a column of the settings row *)

(** The record as JSON, an object. *)
Class TokenCodec := {
  tc_marshal : Token -> string;
  tc_unmarshal : string -> option Token }.

Definition token_text (t : Token) : bool :=
  sforallb (fun c => byte_of c <? 128) (t_Access t) && sforallb (fun c => byte_of c <? 128) (t_Refresh t).

Class TokenCodecLaws (C : TokenCodec) : Prop := {
  tc_roundtrip t : token_text t = true -> tc_unmarshal (tc_marshal t) = Some t;
  tc_object t : tc_marshal t <> "";
  tc_empty : tc_unmarshal "" = None }.

Definition set_microsoft (v : string) (s : CredSettings) : CredSettings :=
  {| cs_Microsoft := v; cs_Zoom := cs_Zoom s; cs_CalendarProvider := cs_CalendarProvider s;
     cs_Conferencing := cs_Conferencing s |}.
Definition set_zoom (v : string) (s : CredSettings) : CredSettings :=
  {| cs_Microsoft := cs_Microsoft s; cs_Zoom := v; cs_CalendarProvider := cs_CalendarProvider s;
     cs_Conferencing := cs_Conferencing s |}.
Definition set_calendar (v : string) (s : CredSettings) : CredSettings :=
  {| cs_Microsoft := cs_Microsoft s; cs_Zoom := cs_Zoom s; cs_CalendarProvider := v;
     cs_Conferencing := cs_Conferencing s |}.
Definition set_conferencing (v : string) (s : CredSettings) : CredSettings :=
  {| cs_Microsoft := cs_Microsoft s; cs_Zoom := cs_Zoom s; cs_CalendarProvider := cs_CalendarProvider s;
     cs_Conferencing := v |}.

(** [INSERT INTO settings (user_id) ... ON CONFLICT DO NOTHING]. *)
Definition ensure_settings (user : uuid) (db : CredDB) : CredDB :=
  match cd_settings db !! user with
  | Some _ => db
  | None => set_settings (<[user := new_settings]>) db
  end.

Definition SettingsColMicrosoft := "microsoft_tokens".
Definition SettingsColZoom := "zoom_tokens".

Section Records.
Context {V : Vault} {C : TokenCodec}.

(** [LoadMicrosoftToken]: a failing read is "none". *)
Definition LoadMicrosoftToken (fails : bool) (user : uuid) (db : CredDB) : res CredError (option Token) :=
  match cd_settings db !! user with
  | None => Ok None
  | Some s =>
      if fails || String.eqb (cs_Microsoft s) "" then Ok None
      else
        plain <-? open_for (bindSettings SettingsColMicrosoft user) (cs_Microsoft s) ;;
        match tc_unmarshal plain with None => Err ErrRecord | Some t => Ok (Some t) end
  end.

(** [SaveMicrosoftToken]: three statements. *)
Definition SaveMicrosoftToken (fails : Failing) (user : uuid) (t : Token) (db : CredDB) : res CredError unit * CredDB :=
  if String.eqb user Nil then (Err ErrNoUser, db)
  else
    let refresh := if String.eqb (t_Refresh t) ""
                   then match LoadMicrosoftToken (fails 3%nat) user db with Ok (Some old) => t_Refresh old | _ => "" end
                   else t_Refresh t in
    let data := tc_marshal {| t_Access := t_Access t; t_Refresh := refresh; t_Expiry := t_Expiry t |} in
    if fails 0%nat then (Err ErrDatabase, db)
    else
      let db1 := ensure_settings user db in
      match seal_for (bindSettings SettingsColMicrosoft user) data with
      | Err e => (Err e, db1)
      | Ok sealed =>
          if fails 1%nat then (Err ErrDatabase, db1)
          else ClearCredentialLoss (fails 2%nat) user CredentialOutlook
                 (set_settings (alter (fun s => set_calendar "outlook" (set_microsoft sealed s)) user) db1)
      end.

(** [UpdateMicrosoftCredential], for the record of a renewed token. *)
Definition UpdateMicrosoftCredential (fails : bool) (user : uuid) (t : Token) (db : CredDB) : res CredError unit * CredDB :=
  match seal_for (bindSettings SettingsColMicrosoft user) (tc_marshal t) with
  | Err e => (Err e, db)
  | Ok sealed =>
      if fails then (Err ErrDatabase, db)
      else (Ok tt, set_settings (alter (fun s => if String.eqb (cs_Microsoft s) "" then s else set_microsoft sealed s) user) db)
  end.

(** [LoadZoomCredential], as a token. *)
Definition LoadZoomCredential (fails : bool) (user : uuid) (db : CredDB) : res CredError (option Token) :=
  if fails then Err ErrDatabase
  else match cd_settings db !! user with
  | None => Ok None
  | Some s =>
      if String.eqb (TrimSpace (cs_Zoom s)) "" then Ok None
      else
        plain <-? open_for (bindSettings SettingsColZoom user) (cs_Zoom s) ;;
        match tc_unmarshal plain with None => Err ErrRecord | Some t => Ok (Some t) end
  end.

(** [SaveZoomCredential]: one transaction. *)
Definition SaveZoomCredential (fails : bool) (user : uuid) (t : Token) (db : CredDB) : res CredError unit * CredDB :=
  if String.eqb user Nil then (Err ErrNoUser, db)
  else if fails then (Err ErrDatabase, db)
  else
    let db1 := ensure_settings user db in
    let old := match cd_settings db1 !! user with Some s => cs_Zoom s | None => "" end in
    let refresh := if String.eqb (t_Refresh t) "" then
                     match open_for (bindSettings SettingsColZoom user) old with
                     | Ok plain => match tc_unmarshal plain with Some o => t_Refresh o | None => "" end
                     | Err _ => ""
                     end
                   else t_Refresh t in
    match seal_for (bindSettings SettingsColZoom user)
            (tc_marshal {| t_Access := t_Access t; t_Refresh := refresh; t_Expiry := t_Expiry t |}) with
    | Err e => (Err e, db)
    | Ok sealed =>
        (Ok tt, set_losses (fun l => l ∖ {[(user, CredentialZoom)]})
                  (set_settings (alter (fun s => set_conferencing "zoom" (set_zoom sealed s)) user) db1))
    end.

(** [UpdateZoomCredential]. *)
Definition UpdateZoomCredential (fails : bool) (user : uuid) (t : Token) (db : CredDB) : res CredError unit * CredDB :=
  match seal_for (bindSettings SettingsColZoom user) (tc_marshal t) with
  | Err e => (Err e, db)
  | Ok sealed =>
      if fails then (Err ErrDatabase, db)
      else (Ok tt, set_settings (alter (fun s => if String.eqb (cs_Zoom s) "" then s else set_zoom sealed s) user) db)
  end.

Definition UndecryptableRemoved : string := String (char 0) "undecryptable".

(** [removeCredential]: one transaction; the removed value. *)
Definition removeCredential (fails : bool) (user : uuid) (column p : string) (value : CredSettings -> string)
  (update : CredSettings -> CredSettings) (db : CredDB) : res CredError string * CredDB :=
  if String.eqb user Nil then (Err ErrNoUser, db)
  else if fails then (Err ErrDatabase, db)
  else
    let raw := match cd_settings db !! user with Some s => value s | None => "" end in
    let db' := set_losses (fun l => l ∖ {[(user, p)]}) (set_settings (alter update user) db) in
    if String.eqb (TrimSpace raw) "" then (Ok "", db')
    else match open_for (bindSettings column user) raw with
    | Err _ => (Ok UndecryptableRemoved, db')
    | Ok plain => (Ok (if String.eqb (TrimSpace plain) "" then "" else plain), db')
    end.

Definition RemoveZoomCredential (fails : bool) (user : uuid) : CredDB -> res CredError string * CredDB :=
  removeCredential fails user SettingsColZoom CredentialZoom cs_Zoom (fun s => set_conferencing "meet" (set_zoom "" s)).

Definition RemoveMicrosoftCredential (fails : bool) (user : uuid) : CredDB -> res CredError string * CredDB :=
  removeCredential fails user SettingsColMicrosoft CredentialOutlook cs_Microsoft
    (fun s => let s' := set_microsoft "" s in
              if String.eqb (cs_Conferencing s') "teams" then set_conferencing "meet" s' else s').
End Records.

(** ** The store of one provider's credential (auth/credential_lifecycle.go) *)

(** The Go interface [credentialStore], for any owner ([cr_load], [cr_save]),
    with the connection and the disconnection of the same credential, when
    nothing is stored, and when what is stored is as this code leaves it before
    an instant. *)
Class CredentialStore := {
  cr_provider : string;
  cr_load : bool -> uuid -> CredDB -> res CredError (option Token);
  cr_save : bool -> Z -> uuid -> Token -> CredDB -> res CredError unit * CredDB;
  cr_connect : Failing -> Z -> uuid -> Token -> CredDB -> res CredError unit * CredDB;
  cr_disconnect : Failing -> uuid -> CredDB -> res CredError unit * CredDB;
  cr_absent : uuid -> CredDB -> Prop;
  cr_ready : Z -> uuid -> CredDB -> Prop }.

(** A token as connected: one without a refresh token keeps the stored one. *)
Definition connected (t : Token) (old : option Token) : Token :=
  {| t_Access := t_Access t;
     t_Refresh := if String.eqb (t_Refresh t) "" then match old with Some o => t_Refresh o | None => "" end else t_Refresh t;
     t_Expiry := t_Expiry t |}.

(** What the sources rely on. *)
Class CredentialStoreLaws (T : CredentialStore) : Prop := {
  cr_absent_load u db : u <> Nil -> cr_absent u db -> cr_load false u db = Ok None;
  cr_absent_save fails now u t db : cr_absent u db -> snd (cr_save fails now u t db) = db;
  cr_save_load now u t t0 db db' : u <> Nil -> token_text t = true -> cr_load false u db = Ok (Some t0) ->
    cr_save false now u t db = (Ok tt, db') -> cr_load false u db' = Ok (Some t);
  cr_connect_load fails now u t old db db' : u <> Nil -> token_text (connected t old) = true -> cr_ready now u db ->
    cr_load false u db = Ok old -> cr_connect fails now u t db = (Ok tt, db') ->
    cr_load false u db' = Ok (Some (connected t old)) /\ (u, cr_provider) ∉ cd_losses db';
  cr_disconnect_absent fails u db db' : cr_disconnect fails u db = (Ok tt, db') ->
    cr_absent u db' /\ (u, cr_provider) ∉ cd_losses db';
  cr_save_other fails now u u' t db : u' <> u -> cr_load false u' (snd (cr_save fails now u t db)) = cr_load false u' db;
  cr_save_losses fails now u t db : cd_losses (snd (cr_save fails now u t db)) = cd_losses db
    /\ cd_audit (snd (cr_save fails now u t db)) = cd_audit db;
  cr_load_losses fails u db f g : cr_load fails u (set_losses f (set_audit g db)) = cr_load fails u db;
  cr_load_fails u db t : cr_load true u db <> Ok (Some t);
  cr_known : validCredentialProvider cr_provider = true }.

Definition unit_of {E X} (r : res E X) : res E unit := match r with Ok _ => Ok tt | Err e => Err e end.

Definition googleStore {V : Vault} : CredentialStore :=
  {| cr_provider := CredentialGoogle; cr_load := LoadUserToken;
     cr_save := fun fails now => UpdateUserToken fails (fun _ => fails) now;
     cr_connect := UpsertUserToken; cr_disconnect := DeleteUserToken;
     cr_ready := fun now u db => forall cal r, cd_tokens db !! (u, cal) = Some r ->
       cal = primaryCalendar /\ tk_UpdatedAt r < now;
     cr_absent := fun u db => forall cal, cd_tokens db !! (u, cal) = None |}.

Definition microsoftStore {V : Vault} {C : TokenCodec} : CredentialStore :=
  {| cr_provider := CredentialOutlook; cr_load := LoadMicrosoftToken;
     cr_save := fun fails _ => UpdateMicrosoftCredential fails;
     cr_connect := fun fails _ u t db => SaveMicrosoftToken (fun n => negb (Nat.eqb n 3) && fails n) u t db;
     cr_disconnect := fun fails u db => (unit_of (fst (RemoveMicrosoftCredential (fails 0%nat) u db)),
                                         snd (RemoveMicrosoftCredential (fails 0%nat) u db));
     cr_ready := fun _ _ _ => True;
     cr_absent := fun u db => forall s, cd_settings db !! u = Some s -> cs_Microsoft s = "" |}.

Definition zoomStore {V : Vault} {C : TokenCodec} : CredentialStore :=
  {| cr_provider := CredentialZoom; cr_load := LoadZoomCredential;
     cr_save := fun fails _ => UpdateZoomCredential fails;
     cr_connect := fun fails _ => SaveZoomCredential (fails 0%nat);
     cr_disconnect := fun fails u db => (unit_of (fst (RemoveZoomCredential (fails 0%nat) u db)),
                                         snd (RemoveZoomCredential (fails 0%nat) u db));
     cr_ready := fun _ u db => forall s, cd_settings db !! u = Some s -> cs_Zoom s = "" \/ TrimSpace (cs_Zoom s) <> "";
     cr_absent := fun u db => forall s, cd_settings db !! u = Some s -> cs_Zoom s = "" |}.

(** ** Renewal *)

(** The OAuth library: whether a token is still valid, and what asking the
    provider with a refresh token can answer. *)
Class OAuth := { oa_valid : Token -> Z -> bool }.

Inductive RenewAnswer :=
| Renewed (t : Token)
| RefusedForGood                   (** [invalid_grant] *)
| FailedForNow.

(** [renewingSource]. *)
Record Source := {
  so_owner : uuid;
  so_configured : bool;
  so_zeroExpiryIsExpired : bool;
  so_cur : option Token }.

Definition with_cur (t : Token) (s : Source) : Source :=
  {| so_owner := so_owner s; so_configured := so_configured s; so_zeroExpiryIsExpired := so_zeroExpiryIsExpired s;
     so_cur := Some t |}.

Inductive TokenResult :=
| Got (t : Token)
| LostNoRefresh                    (** expired, and no refresh token stored *)
| LostRefused (recorded : bool)
| NotConfigured
| Undecryptable (e : DecryptError)
| Temporary.

Section Renewal.
Context {T : CredentialStore} {O : OAuth}.

Definition usable (s : Source) (now : Z) (t : option Token) : bool :=
  match t with
  | None => false
  | Some t =>
      if String.eqb (t_Access t) "" then false
      else if so_zeroExpiryIsExpired s && (match t_Expiry t with None => true | Some _ => false end) then false
      else oa_valid t now
  end.

(** [Token] up to the renewal: the source's own token, or under the owner's
    lock the stored one; the source, and its answer or the refresh token it asks
    with. *)
Definition token_begin (fails : bool) (now : Z) (s : Source) (db : CredDB) : Source * (TokenResult + string) :=
  match (if usable s now (so_cur s) then so_cur s else None) with
  | Some cur => (s, inl (Got cur))
  | None =>
      let load := cr_load fails (so_owner s) db in
      match load with
      | Err (ErrUndecryptable e) => (s, inl (Undecryptable e))
      | _ =>
          let s' := match load with Ok (Some latest) => with_cur latest s | _ => s end in
          match (match load with
                 | Ok (Some latest) => if usable s now (Some latest) then Some latest else None
                 | _ => None
                 end) with
          | Some latest => (s', inl (Got latest))
          | None =>
              match so_cur s' with
              | None => (s', inl LostNoRefresh)
              | Some cur =>
                  if String.eqb (t_Refresh cur) "" then (s', inl LostNoRefresh)
                  else if negb (so_configured s) then (s', inl NotConfigured)
                  else (s', inr (t_Refresh cur))
              end
          end
      end
  end.

(** After a refusal for good: whether the refused token is still the stored
    one. *)
Definition still_stored (fails : bool) (s : Source) (refresh : string) (db : CredDB) : bool :=
  match cr_load fails (so_owner s) db with
  | Ok (Some latest) => String.eqb (t_Refresh latest) refresh
  | _ => false
  end.

(** The renewed token, with the old refresh token when the provider sent
    none. *)
Definition kept_refresh (refresh : string) (t : Token) : Token :=
  if String.eqb (t_Refresh t) "" then {| t_Access := t_Access t; t_Refresh := refresh; t_Expiry := t_Expiry t |} else t.

(** What may fail in one call of [Token], and the tables at each access, as
    changes other sessions make in between. *)
Record TokenEnv := {
  te_load : bool;
  te_reload : bool;
  te_save : bool;
  te_record : bool;
  te_audit : bool;
  te_between1 : CredDB -> CredDB;
  te_between2 : CredDB -> CredDB }.

(** [renewingSource.Token]. *)
Definition Source_Token (env : TokenEnv) (now : Z) (answer : string -> RenewAnswer) (s : Source) (db : CredDB)
  : Source * TokenResult * CredDB :=
  match token_begin (te_load env) now s db with
  | (s1, inl r) => (s1, r, db)
  | (s1, inr refresh) =>
      let db1 := te_between1 env db in
      match answer refresh with
      | FailedForNow => (s1, Temporary, db1)
      | RefusedForGood =>
          if still_stored (te_reload env) s1 refresh db1
          then (s1, LostRefused true, RecordLoss (te_record env) (te_audit env) (so_owner s) cr_provider (te_between2 env db1))
          else (s1, LostRefused false, db1)
      | Renewed t =>
          let t := kept_refresh refresh t in
          (with_cur t s1, Got t, snd (cr_save (te_save env) now (so_owner s) t db1))
      end
  end.
End Renewal.

(** ** Facts: the three stores keep the laws *)

Lemma set_settings_id f db : f (cd_settings db) = cd_settings db -> set_settings f db = db.
Proof. unfold set_settings. intros ->. by destruct db. Qed.

Lemma set_tokens_id f db : f (cd_tokens db) = cd_tokens db -> set_tokens f db = db.
Proof. unfold set_tokens. intros ->. by destruct db. Qed.

Lemma not_in_cleared (x : uuid * string) (l : gset (uuid * string)) : x ∉ l ∖ {[x]}.
Proof. intros [_ H]%elem_of_difference. by apply H, elem_of_singleton. Qed.

Section Laws.
Context {V : Vault} {L : VaultLaws V} {C : TokenCodec} {CL : TokenCodecLaws C}.

Lemma open_seal b p s : seal_for b p = Ok s -> open_for b s = Ok p.
Proof.
  unfold seal_for, open_for. destruct (v_seal b p) as [x|] eqn:E; [|done]. intros [= <-].
  by rewrite (v_seal_open b p x E).
Qed.

Lemma seal_not_empty b p s : p <> "" -> seal_for b p = Ok s -> s <> "".
Proof.
  unfold seal_for. destruct (v_seal b p) as [x|] eqn:E; [|done]. intros Hp [= <-]. by apply (v_seal_nonempty b p x).
Qed.

Lemma seal_blank b p s : p <> "" -> seal_for b p = Ok s -> String.eqb (TrimSpace s) "" = false.
Proof.
  intros Hp Es. apply String.eqb_neq. unfold seal_for in Es. destruct (v_seal _ _) as [y|] eqn:Ey; [|done].
  injection Es as <-. by apply (v_seal_text _ _ _ Hp Ey).
Qed.

Lemma ensure_settings_Some u db : exists s, cd_settings (ensure_settings u db) !! u = Some s
  /\ (cd_settings db !! u = Some s \/ (cd_settings db !! u = None /\ s = new_settings)).
Proof.
  unfold ensure_settings. destruct (cd_settings db !! u) as [s|] eqn:E; [exists s; auto|].
  exists new_settings. cbn [cd_settings set_settings]. rewrite lookup_insert_eq. auto.
Qed.

(** A removal that answers has removed. *)
Lemma removeCredential_spec fails u column p value update db :
  unit_of (fst (removeCredential fails u column p value update db)) = Ok tt ->
  snd (removeCredential fails u column p value update db)
  = set_losses (fun l => l ∖ {[(u, p)]}) (set_settings (alter update u) db).
Proof.
  unfold removeCredential. destruct (String.eqb u Nil); [done|]. destruct fails; [done|]. cbv zeta.
  destruct (String.eqb _ ""); [done|]. by destruct (open_for _ _).
Qed.

Lemma microsoft_laws : CredentialStoreLaws microsoftStore.
Proof.
  split; cbn [microsoftStore cr_load cr_save cr_absent cr_provider cr_connect cr_disconnect cr_ready].
  - intros u db _ H. unfold LoadMicrosoftToken. destruct (cd_settings db !! u) as [s|]; [|done].
    by rewrite (H s eq_refl).
  - intros fails now u t db H. unfold UpdateMicrosoftCredential. destruct (seal_for _ _); [|done]. destruct fails; [done|].
    apply set_settings_id, alter_id. intros s Hs. by rewrite (H s Hs).
  - intros now u t t0 db db' _ Ht. unfold LoadMicrosoftToken, UpdateMicrosoftCredential.
    destruct (cd_settings db !! u) as [s|] eqn:E; [|done]. destruct (String.eqb_spec (cs_Microsoft s) "") as [|Hne]; [done|].
    intros _. destruct (seal_for _ _) as [x|] eqn:Es; [|done]. intros [= <-].
    cbn [cd_settings set_settings]. rewrite lookup_alter_eq, E. cbn [fmap option_fmap option_map].
    apply String.eqb_neq in Hne. rewrite Hne. cbn [set_microsoft cs_Microsoft orb].
    pose proof (seal_not_empty _ _ _ (tc_object t) Es) as Hx. apply String.eqb_neq in Hx. rewrite Hx.
    rewrite (open_seal _ _ _ Es). cbn [rbind]. by rewrite tc_roundtrip.
  - intros fails now u t old db db' Hu Ht _ Hl H. unfold SaveMicrosoftToken in H. apply String.eqb_neq in Hu. rewrite Hu in H.
    cbn [Nat.eqb negb andb] in H. rewrite Hl in H.
    assert (E : {| t_Access := t_Access t; t_Refresh := if String.eqb (t_Refresh t) "" then match (Ok old : res CredError _) with
                Ok (Some o) => t_Refresh o | _ => "" end else t_Refresh t; t_Expiry := t_Expiry t |} = connected t old).
    { unfold connected. by destruct old. }
    cbv zeta in H. rewrite E in H. clear E. destruct (fails 0%nat); [done|].
    destruct (seal_for _ _) as [x|] eqn:Es; [|done]. destruct (fails 1%nat); [done|].
    unfold ClearCredentialLoss in H. destruct (fails 2%nat); [done|]. injection H as <-.
    split; [|cbn [cd_losses set_losses]; apply not_in_cleared].
    unfold LoadMicrosoftToken. cbn [cd_settings set_losses set_settings]. rewrite lookup_alter_eq.
    destruct (ensure_settings_Some u db) as [s0 [-> _]]. cbn [fmap option_fmap option_map set_calendar set_microsoft cs_Microsoft orb].
    pose proof (seal_not_empty _ _ _ (tc_object _) Es) as Hx. apply String.eqb_neq in Hx. rewrite Hx.
    rewrite (open_seal _ _ _ Es). cbn [rbind]. by rewrite tc_roundtrip.
  - intros fails u db db' H. unfold RemoveMicrosoftCredential in H.
    injection H as H1 <-. apply removeCredential_spec in H1 as ->. split; [|cbn [cd_losses set_losses]; apply not_in_cleared]. intros s. cbn [cd_settings set_losses set_settings].
    rewrite lookup_alter_eq. intros (s0 & _ & ->)%fmap_Some. cbn. by destruct (String.eqb _ "teams").
  - intros fails now u u' t db Hne. unfold UpdateMicrosoftCredential, LoadMicrosoftToken. destruct (seal_for _ _); [|done].
    destruct fails; [done|]. cbn [snd cd_settings set_settings]. by rewrite lookup_alter_ne.
  - intros fails now u t db. unfold UpdateMicrosoftCredential. destruct (seal_for _ _); [|done]. by destruct fails.
  - done.
  - intros u db t. unfold LoadMicrosoftToken. by destruct (cd_settings db !! u).
  - done.
Qed.

Lemma zoom_laws : CredentialStoreLaws zoomStore.
Proof.
  split; cbn [zoomStore cr_load cr_save cr_absent cr_provider cr_connect cr_disconnect cr_ready].
  - intros u db _ H. unfold LoadZoomCredential. destruct (cd_settings db !! u) as [s|]; [|done].
    by rewrite (H s eq_refl).
  - intros fails now u t db H. unfold UpdateZoomCredential. destruct (seal_for _ _); [|done]. destruct fails; [done|].
    apply set_settings_id, alter_id. intros s Hs. by rewrite (H s Hs).
  - intros now u t t0 db db' _ Ht. unfold LoadZoomCredential, UpdateZoomCredential.
    destruct (cd_settings db !! u) as [s|] eqn:E; [|done]. destruct (String.eqb_spec (TrimSpace (cs_Zoom s)) "") as [|Hne]; [done|].
    intros _. destruct (seal_for _ _) as [x|] eqn:Es; [|done]. intros [= <-].
    cbn [cd_settings set_settings]. rewrite lookup_alter_eq, E. cbn [fmap option_fmap option_map].
    destruct (String.eqb_spec (cs_Zoom s) "") as [H0|_]; [by rewrite H0 in Hne|]. cbn [set_zoom cs_Zoom].
    rewrite (seal_blank _ _ _ (tc_object t) Es), (open_seal _ _ _ Es). cbn [rbind]. by rewrite tc_roundtrip.
  - intros fails now u t old db db' Hu Ht Hr Hl H. unfold SaveZoomCredential in H. apply String.eqb_neq in Hu. rewrite Hu in H.
    destruct (fails 0%nat); [done|]. cbv zeta in H.
    destruct (ensure_settings_Some u db) as [s0 [E0 Es0]]. rewrite E0 in H.
    assert (E : {| t_Access := t_Access t;
                   t_Refresh := if String.eqb (t_Refresh t) "" then
                     match open_for (bindSettings SettingsColZoom u) (cs_Zoom s0) with
                     | Ok plain => match tc_unmarshal plain with Some o => t_Refresh o | None => "" end
                     | Err _ => "" end else t_Refresh t; t_Expiry := t_Expiry t |} = connected t old).
    { unfold connected. f_equal. destruct (String.eqb (t_Refresh t) ""); [|done]. unfold LoadZoomCredential in Hl.
      destruct Es0 as [Es0|[Es0 ->]].
      - rewrite Es0 in Hl. destruct (String.eqb_spec (TrimSpace (cs_Zoom s0)) "") as [Hz|Hz].
        + injection Hl as <-. destruct (Hr s0 Es0) as [Hz0|]; [|done]. rewrite Hz0. unfold open_for. by rewrite v_open_empty, tc_empty.
        + destruct (open_for _ _) as [plain|]; [|done]. cbn [rbind] in Hl.
          destruct (tc_unmarshal plain); [by injection Hl as <-|done].
      - rewrite Es0 in Hl. injection Hl as <-. unfold open_for. cbn [new_settings cs_Zoom]. by rewrite v_open_empty, tc_empty. }
    rewrite E in H. clear E. destruct (seal_for _ _) as [x|] eqn:Es; [|done]. injection H as <-.
    split; [|cbn [cd_losses set_losses]; apply not_in_cleared].
    unfold LoadZoomCredential. cbn [cd_settings set_losses set_settings]. rewrite lookup_alter_eq, E0.
    cbn [fmap option_fmap option_map set_conferencing set_zoom cs_Zoom].
    rewrite (seal_blank _ _ _ (tc_object _) Es), (open_seal _ _ _ Es). cbn [rbind]. by rewrite tc_roundtrip.
  - intros fails u db db' H. unfold RemoveZoomCredential in H. injection H as H1 <-. apply removeCredential_spec in H1 as ->.
    split; [|cbn [cd_losses set_losses]; apply not_in_cleared]. intros s. cbn [cd_settings set_losses set_settings].
    rewrite lookup_alter_eq. intros (s0 & _ & ->)%fmap_Some. done.
  - intros fails now u u' t db Hne. unfold UpdateZoomCredential, LoadZoomCredential. destruct (seal_for _ _); [|done].
    destruct fails; [done|]. cbn [snd cd_settings set_settings]. by rewrite lookup_alter_ne.
  - intros fails now u t db. unfold UpdateZoomCredential. destruct (seal_for _ _); [|done]. by destruct fails.
  - done.
  - done.
  - done.
Qed.

(** A row that holds a token, sealed in its place. *)
Definition row_opens (u cal : string) (t : Token) (r : TokenRow) : Prop :=
  open_for (bindOAuthToken "access_token" u cal) (tk_Access r) = Ok (t_Access t)
  /\ open_for (bindOAuthToken "refresh_token" u cal) (tk_Refresh r) = Ok (t_Refresh t)
  /\ tk_Expiry r = t_Expiry t.

Lemma latest_row_elem l x : latest_row l = Some x -> x ∈ l.
Proof.
  revert x. induction l as [|y l IH]; intros x; [done|]. cbn [latest_row]. destruct (latest_row l) as [z|] eqn:E.
  - destruct (_ <? _); intros [= <-]; [right; by apply IH|left].
  - intros [= <-]. left.
Qed.

Lemma latest_row_None l : latest_row l = None -> l = [].
Proof. destruct l as [|y l]; [done|]. cbn [latest_row]. destruct (latest_row l); [|done]. by destruct (_ <? _). Qed.

Lemma elem_of_rows u db k r : (k, r) ∈ map_to_list (rows_of u db) <-> cd_tokens db !! k = Some r /\ k.1 = u.
Proof. rewrite elem_of_map_to_list. unfold rows_of. by rewrite map_lookup_filter_Some. Qed.

Lemma elem_of_calendars u db cal : cal ∈ calendars_of u db <-> is_Some (cd_tokens db !! (u, cal)).
Proof.
  unfold calendars_of. rewrite list_elem_of_fmap. split.
  - intros ([[u' cal'] r] & -> & Hin). apply elem_of_rows in Hin as [Hin Hu]. cbn in *. subst. by exists r.
  - intros [r Hr]. exists ((u, cal), r). split; [done|]. by apply elem_of_rows.
Qed.

(** What a loop over some calendars leaves: the other rows, and a token in
    each of theirs. *)
Lemma update_rows_spec now u t cals db db' : update_rows (fun _ => false) now u t cals db = (Ok tt, db') ->
  (forall k, k.1 <> u \/ k.2 ∉ cals -> cd_tokens db' !! k = cd_tokens db !! k)
  /\ (forall k, is_Some (cd_tokens db' !! k) <-> is_Some (cd_tokens db !! k))
  /\ (forall cal r, cal ∈ cals -> cd_tokens db' !! (u, cal) = Some r -> row_opens u cal t r).
Proof.
  revert db. induction cals as [|a cals IH]; intros db.
  - intros [= <-]. split; [done|]. split; [done|]. intros cal r H. by apply elem_of_nil in H.
  - cbn [update_rows]. destruct (seal_for (bindOAuthToken "access_token" u a) _) as [x|] eqn:Ex; [|done].
    destruct (seal_for (bindOAuthToken "refresh_token" u a) _) as [y|] eqn:Ey; [|done].
    intros (H1 & H2 & H3)%IH. cbn [cd_tokens set_tokens] in *. split; [|split].
    + intros k Hk. rewrite H1 by (rewrite elem_of_cons in Hk; tauto). apply lookup_alter_ne.
      intros <-. cbn in Hk. rewrite elem_of_cons in Hk. tauto.
    + intros k. rewrite H2. destruct (decide (k = (u, a))) as [->|]; [|by rewrite lookup_alter_ne].
      rewrite lookup_alter_eq. apply fmap_is_Some.
    + intros cal r Hcal Hr. destruct (decide (cal ∈ cals)) as [|Hn]; [by apply H3|].
      apply elem_of_cons in Hcal as [->|]; [|done]. rewrite H1 in Hr by (right; done). rewrite lookup_alter_eq in Hr.
      apply fmap_Some in Hr as (r0 & _ & ->). split; [|split]; cbn; [by eapply open_seal..|done].
Qed.

Lemma update_rows_other fails now u t cals db u' :
  u' <> u -> rows_of u' (snd (update_rows fails now u t cals db)) = rows_of u' db.
Proof.
  intros Hne. revert db. induction cals as [|a cals IH]; intros db; [done|]. cbn [update_rows].
  destruct (seal_for _ _); [|done]. destruct (seal_for _ _); [|done]. destruct (fails _); [done|].
  rewrite IH. unfold rows_of. cbn [cd_tokens set_tokens]. apply map_eq. intros k. apply option_eq. intros r.
  rewrite !map_lookup_filter_Some. split; intros [Hk Hu]; (split; [|done]).
  - rewrite lookup_alter_ne in Hk; [done|]. intros <-. by cbn in Hu.
  - rewrite lookup_alter_ne; [done|]. intros <-. by cbn in Hu.
Qed.

Lemma update_rows_losses fails now u t cals db :
  cd_losses (snd (update_rows fails now u t cals db)) = cd_losses db
  /\ cd_audit (snd (update_rows fails now u t cals db)) = cd_audit db.
Proof.
  revert db. induction cals as [|a cals IH]; intros db; [done|]. cbn [update_rows].
  destruct (seal_for _ _); [|done]. destruct (seal_for _ _); [|done]. destruct (fails _); [done|]. by rewrite !(proj1 (IH _)), !(proj2 (IH _)).
Qed.

(** The refresh token a reconnect keeps: the one of the user's only row. *)
Lemma kept_opens u db old :
  u <> Nil -> (forall cal r, cd_tokens db !! (u, cal) = Some r -> cal = primaryCalendar) ->
  LoadUserToken false u db = Ok old ->
  open_for (bindOAuthToken "refresh_token" u primaryCalendar)
    (match cd_tokens db !! (u, primaryCalendar) with Some r => tk_Refresh r | None => "" end)
  = Ok (match old with Some o => t_Refresh o | None => "" end).
Proof.
  intros Hu Hb. apply String.eqb_neq in Hu. unfold LoadUserToken. rewrite Hu.
  destruct (latest_row _) as [[[u' cal] r]|] eqn:E.
  - apply latest_row_elem, elem_of_rows in E as [E Eu]. cbn in Eu. subst u'. pose proof (Hb _ _ E). subst cal. rewrite E.
    destruct (open_for _ (tk_Access r)) as [a|]; [|done]. cbn [rbind].
    destruct (open_for _ (tk_Refresh r)) as [b|]; [|done]. cbn [rbind]. by intros [= <-].
  - intros [= <-]. apply latest_row_None in E. destruct (cd_tokens db !! (u, primaryCalendar)) as [r|] eqn:Er.
    + exfalso. eapply (not_elem_of_nil ((u, primaryCalendar), r)). rewrite <- E. by apply elem_of_rows.
    + unfold open_for. by rewrite v_open_empty.
Qed.

Lemma google_laws : CredentialStoreLaws googleStore.
Proof.
  split; cbn [googleStore cr_load cr_save cr_absent cr_provider cr_connect cr_disconnect cr_ready].
  - intros u db Hu H. unfold LoadUserToken. apply String.eqb_neq in Hu. rewrite Hu.
    destruct (latest_row _) as [[[u' cal] r]|] eqn:E; [|done]. apply latest_row_elem, elem_of_rows in E as [E Eu].
    cbn in Eu. subst. by rewrite H in E.
  - intros fails now u t db H. unfold UpdateUserToken. destruct (String.eqb u Nil); [done|]. destruct fails; [done|].
    replace (calendars_of u db) with (@nil string); [done|]. symmetry. apply elem_of_nil_inv.
    intros cal Hin. apply elem_of_calendars in Hin as [r Hr]. by rewrite H in Hr.
  - intros now u t t0 db db' Hu Ht. unfold UpdateUserToken, LoadUserToken. apply String.eqb_neq in Hu. rewrite Hu.
    intros H0 Hup. destruct (update_rows_spec _ _ _ _ _ _ Hup) as (_ & H2 & H3).
    destruct (latest_row (map_to_list (rows_of u db'))) as [[[u' cal] r]|] eqn:E.
    + apply latest_row_elem, elem_of_rows in E as [Er Eu]. cbn in Eu. subst u'.
      destruct (H3 cal r) as (E1 & E2 & E3); [apply elem_of_calendars, H2; by exists r|done|].
      rewrite E1, E2. cbn [rbind]. rewrite E3. by destruct t.
    + exfalso. apply latest_row_None in E. destruct (latest_row (map_to_list (rows_of u db))) as [[[u' cal] r]|] eqn:E0; [|done].
      apply latest_row_elem, elem_of_rows in E0 as [Er Eu]. cbn in Eu. subst u'.
      destruct (proj2 (H2 (u, cal))) as [r' Hr']; [by exists r|].
      assert (Hin : ((u, cal), r') ∈ map_to_list (rows_of u db')) by by apply elem_of_rows.
      rewrite E in Hin. by apply elem_of_nil in Hin.
  - intros fails now u t old db db' Hu Ht Hb Hl H. unfold UpsertUserToken in H. apply String.eqb_neq in Hu as Hu'. rewrite Hu' in H.
    destruct (seal_for _ (t_Access t)) as [x|] eqn:Ex; [|done]. destruct (seal_for _ (t_Refresh t)) as [y|] eqn:Ey; [|done].
    destruct (fails 0%nat); [done|]. unfold ClearCredentialLoss in H. destruct (fails 1%nat); [done|].
    cbv zeta in H. injection H as <-. split; [|cbn [cd_losses set_losses]; apply not_in_cleared].
    set (kept := match cd_tokens db !! (u, primaryCalendar) with Some r => tk_Refresh r | None => y end).
    set (row := {| tk_Access := x; tk_Refresh := if String.eqb y "" then kept else y; tk_Expiry := t_Expiry t; tk_UpdatedAt := now |}).
    assert (Hin : forall k r, (k, r) ∈ map_to_list (rows_of u (set_tokens (<[(u, primaryCalendar) := row]>) db))
              -> k = (u, primaryCalendar) /\ r = row).
    { intros [u' cal] r [Hk Eu]%elem_of_rows. cbn in Eu. subst u'. cbn [cd_tokens set_tokens] in Hk.
      destruct (decide (cal = primaryCalendar)) as [->|Hne]; [rewrite lookup_insert_eq in Hk; by injection Hk|].
      rewrite lookup_insert_ne in Hk by congruence. by destruct (Hb _ _ Hk). }
    assert (Hrow : forall tok, row_opens u primaryCalendar tok row ->
              LoadUserToken false u (set_losses (fun l => l ∖ {[(u, CredentialGoogle)]}) (set_tokens (<[(u, primaryCalendar) := row]>) db))
              = Ok (Some tok)).
    { intros tok (E1 & E2 & E3). unfold LoadUserToken. rewrite Hu'.
      change (rows_of u (set_losses _ ?d)) with (rows_of u d).
      destruct (latest_row _) as [[k r]|] eqn:E.
      - apply latest_row_elem, Hin in E as [-> ->]. rewrite E1, E2. cbn [rbind]. rewrite E3. by destruct tok.
      - exfalso. apply latest_row_None in E. eapply (not_elem_of_nil ((u, primaryCalendar), row)). rewrite <- E.
        apply elem_of_rows. cbn [cd_tokens set_tokens]. by rewrite lookup_insert_eq. }
    apply Hrow. split; [by eapply open_seal|]. split; [|done]. cbn [row tk_Refresh connected t_Refresh].
    destruct (String.eqb_spec (t_Refresh t) "") as [Ez|Hnz].
    + assert (Ey' : y = "") by (rewrite Ez in Ey; unfold seal_for in Ey; rewrite v_seal_empty in Ey; by injection Ey).
      rewrite Ey'. cbn [String.eqb]. unfold kept. rewrite Ey'. apply (kept_opens u db old Hu); [|done].
      intros cal r Hk. by destruct (Hb cal r Hk).
    + pose proof (seal_not_empty _ _ _ Hnz Ey) as Hy. apply String.eqb_neq in Hy. rewrite Hy. by eapply open_seal.
  - intros fails u db db' H. unfold DeleteUserToken in H. destruct (String.eqb u Nil); [done|]. destruct (fails 0%nat); [done|].
    unfold ClearCredentialLoss in H. destruct (fails 1%nat); [done|]. injection H as <-.
    split; [|cbn [cd_losses set_losses]; apply not_in_cleared]. intros cal. cbn [cd_tokens set_losses set_tokens].
    apply map_lookup_filter_None. right. intros r _ Hn. by apply Hn.
  - intros fails now u u' t db Hne. unfold LoadUserToken, UpdateUserToken.
    destruct (String.eqb u Nil); [done|]. destruct fails; [done|]. by rewrite update_rows_other.
  - intros fails now u t db. unfold UpdateUserToken. destruct (String.eqb u Nil); [done|]. destruct fails; [done|].
    apply update_rows_losses.
  - done.
  - intros u db t. unfold LoadUserToken. by destruct (String.eqb u Nil).
  - done.
Qed.
End Laws.

(** ** One owner's sources in one process *)

(** What the holder of the owner's lock is doing. *)
Inductive Phase :=
| Asking (refresh : string)
| Answered (refresh : string) (t : Token)
| Refused (refresh : string).

(** The tables, the sources, the holder of the lock, and the refresh tokens the
    provider has exchanged. *)
Record World := {
  wo_db : CredDB;
  wo_sources : list Source;
  wo_holder : option (nat * Phase);
  wo_exchanged : list string }.

Definition world (db : CredDB) (l : list Source) (h : option (nat * Phase)) (x : list string) : World :=
  {| wo_db := db; wo_sources := l; wo_holder := h; wo_exchanged := x |}.

Section World.
Context {T : CredentialStore} {TL : CredentialStoreLaws T} {O : OAuth} (owner : uuid).

(** The reads and the writes succeed; the owner may reconnect at any time, and
    stays connected.  A rotating provider answers with a refresh token never
    seen. *)
Inductive wstep (w : World) : World -> Prop :=
| w_source s : so_owner s = owner ->
    wstep w (world (wo_db w) (wo_sources w ++ [s])%list (wo_holder w) (wo_exchanged w))
| w_got i s s' r now : wo_sources w !! i = Some s -> wo_holder w = None ->
    token_begin false now s (wo_db w) = (s', inl r) ->
    wstep w (world (wo_db w) (<[i := s']> (wo_sources w)) None (wo_exchanged w))
| w_ask i s s' refresh now : wo_sources w !! i = Some s -> wo_holder w = None ->
    token_begin false now s (wo_db w) = (s', inr refresh) ->
    wstep w (world (wo_db w) (<[i := s']> (wo_sources w)) (Some (i, Asking refresh)) (wo_exchanged w))
| w_exchange i refresh t : wo_holder w = Some (i, Asking refresh) ->
    t_Refresh t <> "" -> t_Refresh t <> refresh -> t_Refresh t ∉ wo_exchanged w -> token_text t = true ->
    wstep w (world (wo_db w) (wo_sources w) (Some (i, Answered refresh t)) (wo_exchanged w ++ [refresh])%list)
| w_fail i refresh : wo_holder w = Some (i, Asking refresh) ->
    wstep w (world (wo_db w) (wo_sources w) None (wo_exchanged w))
| w_refuse i refresh : wo_holder w = Some (i, Asking refresh) ->
    wstep w (world (wo_db w) (wo_sources w) (Some (i, Refused refresh)) (wo_exchanged w))
| w_save i s refresh t now db' : wo_holder w = Some (i, Answered refresh t) -> wo_sources w !! i = Some s ->
    cr_save false now owner (kept_refresh refresh t) (wo_db w) = (Ok tt, db') ->
    wstep w (world db' (<[i := with_cur (kept_refresh refresh t) s]> (wo_sources w)) None (wo_exchanged w))
| w_lose i s refresh db' : wo_holder w = Some (i, Refused refresh) -> wo_sources w !! i = Some s ->
    db' = (if still_stored false s refresh (wo_db w) then RecordLoss false false owner cr_provider (wo_db w) else wo_db w) ->
    wstep w (world db' (wo_sources w) None (wo_exchanged w))
| w_connect fails now t old db' : cr_ready now owner (wo_db w) -> token_text (connected t old) = true ->
    cr_load false owner (wo_db w) = Ok old -> t_Refresh t ∉ wo_exchanged w ->
    cr_connect fails now owner t (wo_db w) = (Ok tt, db') ->
    wstep w (world db' (wo_sources w) (wo_holder w) (wo_exchanged w)).

(** The owner's sources; something stored; and an exchanged refresh token
    stored only while its renewal is being saved. *)
Record world_ok (w : World) : Prop := {
  wk_owner s : s ∈ wo_sources w -> so_owner s = owner;
  wk_stored : exists t, cr_load false owner (wo_db w) = Ok (Some t)
    /\ (t_Refresh t ∈ wo_exchanged w -> exists i r u, wo_holder w = Some (i, Answered r u));
  wk_asking i r : wo_holder w = Some (i, Asking r) -> r ∉ wo_exchanged w;
  wk_answered i r t : wo_holder w = Some (i, Answered r t) -> t_Refresh t <> "" /\ token_text t = true /\ (t_Refresh t ∉ wo_exchanged w);
  wk_once : NoDup (wo_exchanged w) }.

(** What a source that asks asks with: the stored refresh token. *)
Lemma begin_asks now s db s' refresh t :
  cr_load false (so_owner s) db = Ok (Some t) -> token_begin false now s db = (s', inr refresh) ->
  refresh = t_Refresh t /\ so_owner s' = so_owner s.
Proof.
  intros Hl. unfold token_begin. destruct (if usable s now (so_cur s) then so_cur s else None); [done|].
  cbv zeta. rewrite Hl. destruct (usable s now (Some t)); [done|]. cbn [with_cur so_cur].
  destruct (String.eqb (t_Refresh t) ""); [done|]. destruct (so_configured s); cbn [negb]; [|done].
  by intros [= <- <-].
Qed.

Lemma begin_owner fails now s db s' r : token_begin fails now s db = (s', r) -> so_owner s' = so_owner s.
Proof.
  unfold token_begin. destruct (if usable s now (so_cur s) then so_cur s else None); [by intros [= <- _]|]. cbv zeta.
  set (load := cr_load fails (so_owner s) db).
  assert (H : so_owner (match load with Ok (Some latest) => with_cur latest s | _ => s end) = so_owner s)
    by (destruct load as [[x|]|]; done).
  destruct load as [o|[]]; try (by intros [= <- _]);
    (destruct (match _ with Some _ => _ | None => _ end) as [y|]; [by intros [= <- _]|]) || idtac;
    repeat match goal with |- context [match ?x with _ => _ end] => destruct x; try (by intros [= <- _]) end.
Qed.

Lemma insert_owner i s (l : list Source) : so_owner s = owner -> (forall x, x ∈ l -> so_owner x = owner) ->
  forall x, x ∈ <[i := s]> l -> so_owner x = owner.
Proof.
  intros Hs Hl x Hx. apply list_elem_of_lookup in Hx as [j Hj]. destruct (decide (i = j)) as [->|Hne].
  - apply list_lookup_insert_Some in Hj as [(_ & <- & _)|(H & _)]; done.
  - rewrite list_lookup_insert_ne in Hj by done. apply Hl. by eapply list_elem_of_lookup_2.
Qed.

Lemma load_RecordLoss fails b b' u u' p db : cr_load fails u (RecordLoss b b' u' p db) = cr_load fails u db.
Proof.
  unfold RecordLoss, RecordCredentialLoss. destruct (String.eqb u' Nil); [done|].
  destruct (negb (validCredentialProvider p)); [done|]. destruct b; [done|].
  destruct (negb _); [destruct b'|].
  - apply (cr_load_losses fails u db (fun l => {[(u', p)]} ∪ l) (fun l => l)).
  - apply (cr_load_losses fails u db (fun l => {[(u', p)]} ∪ l) (fun l => (l ++ [(u', "connection_lost", p)])%list)).
  - apply (cr_load_losses fails u db (fun l => {[(u', p)]} ∪ l) (fun l => l)).
Qed.

(** Changing a source and freeing the lock keeps the rest. *)
Lemma ok_source w i s h : world_ok w -> so_owner s = owner -> wo_holder w = None ->
  (forall j r, h = Some (j, Asking r) -> r ∉ wo_exchanged w) -> (forall j r t, h <> Some (j, Answered r t)) ->
  world_ok (world (wo_db w) (<[i := s]> (wo_sources w)) h (wo_exchanged w)).
Proof.
  intros [H1 [t [Hl Hx]] _ _ H5] Hs Hh Ha Hb.
  assert (Hnx : t_Refresh t ∉ wo_exchanged w) by (intros (? & ? & ? & E)%Hx; congruence).
  split; cbn [world wo_db wo_sources wo_holder wo_exchanged]; [by apply insert_owner| |done| |done].
  - by exists t.
  - intros j r u E. by destruct (Hb j r u).
Qed.

(** Letting the lock go when nothing was answered. *)
Lemma ok_release w i r h db : world_ok w -> wo_holder w = Some (i, Asking r) \/ wo_holder w = Some (i, Refused r) ->
  cr_load false owner db = cr_load false owner (wo_db w) ->
  (forall j x, h <> Some (j, Asking x)) -> (forall j x t, h <> Some (j, Answered x t)) ->
  world_ok (world db (wo_sources w) h (wo_exchanged w)).
Proof.
  intros [H1 [t [Hl Hx]] _ _ H5] Hh Hdb Ha Hb.
  assert (Hnx : t_Refresh t ∉ wo_exchanged w) by (intros (? & ? & ? & E)%Hx; destruct Hh; congruence).
  split; cbn [world wo_db wo_sources wo_holder wo_exchanged]; [done| | | |done].
  - exists t. by rewrite Hdb.
  - intros j x E. by destruct (Ha j x).
  - intros j x u E. by destruct (Hb j x u).
Qed.

Lemma wstep_ok w w' : owner <> Nil -> world_ok w -> wstep w w' -> world_ok w'.
Proof.
  intros Ho Hw Hs. pose proof Hw as [H1 [t0 [Hl Hx]] H3 H4 H5]. destruct Hs.
  - split; cbn [world wo_db wo_sources wo_holder wo_exchanged]; [|by exists t0|done|done|done].
    intros x [Hx'|Hx'%list_elem_of_singleton]%elem_of_app; [by apply H1|by subst].
  - apply (ok_source w i s' None); [done| |done|done|done].
    rewrite (begin_owner _ _ _ _ _ _ H2). by apply H1, (list_elem_of_lookup_2 _ i).
  - assert (Es : so_owner s = owner) by by apply H1, (list_elem_of_lookup_2 _ i).
    rewrite <- Es in Hl. destruct (begin_asks _ _ _ _ _ _ Hl H2) as [-> Eo].
    apply (ok_source w i s'); [done|congruence|done| |done].
    intros j r [= <- <-] (? & ? & ? & E)%Hx. congruence.
  - pose proof (H3 _ _ H) as Hr. split; cbn [world wo_db wo_sources wo_holder wo_exchanged]; [done| | | |].
    + exists t0. split; [done|]. eauto.
    + done.
    + intros j r u [= <- <- <-]. split; [done|]. split; [done|].
      rewrite elem_of_app, list_elem_of_singleton. tauto.
    + apply NoDup_app. split; [done|]. split; [|apply NoDup_singleton].
      intros x Hin Heq%list_elem_of_singleton. by subst.
  - apply (ok_release w i refresh); auto; done.
  - apply (ok_release w i refresh); auto; done.
  - destruct (H4 _ _ _ H) as (Hne & Htext & Hnx). unfold kept_refresh in *. apply String.eqb_neq in Hne. rewrite Hne in *.
    split; cbn [world wo_db wo_sources wo_holder wo_exchanged]; [|exists t|done|done|done].
    + apply insert_owner; [|done]. apply (H1 s). by apply (list_elem_of_lookup_2 _ i).
    + split; [|done]. by apply (cr_save_load now owner t t0 (wo_db w)).
  - apply (ok_release w i refresh); auto; try done. subst db'.
    destruct (still_stored _ _ _ _); [apply load_RecordLoss|done].
  - destruct (cr_connect_load fails now owner t old (wo_db w) db' Ho H0 H H2 H7) as [Hl' _].
    split; cbn [world wo_db wo_sources wo_holder wo_exchanged]; [done| |done|done|done].
    eexists. split; [done|]. intros Hin. apply Hx. unfold connected in Hin. cbn [t_Refresh] in Hin.
    destruct (String.eqb (t_Refresh t) ""); [|done]. rewrite Hl in H2. by injection H2 as <-.
Qed.
End World.

(** ** Theorems *)

Section Theorems.
Context {T : CredentialStore} {TL : CredentialStoreLaws T} {O : OAuth}.

(** C9: Whatever the owner's sources of one process do, in whatever order, with
    the owner reconnecting in between: when the stores' reads and writes succeed,
    the provider rotates and nobody disconnects, no refresh token is exchanged
    twice, and once no renewal is under way the stored one is one that was never
    exchanged. *)
Theorem refresh_token_sent_once owner w0 w : owner <> Nil ->
  (forall s, s ∈ wo_sources w0 -> so_owner s = owner) ->
  (exists t, cr_load false owner (wo_db w0) = Ok (Some t)) ->
  wo_holder w0 = None -> wo_exchanged w0 = [] ->
  rtc (wstep owner) w0 w ->
  NoDup (wo_exchanged w)
  /\ exists t, cr_load false owner (wo_db w) = Ok (Some t) /\ (wo_holder w = None -> t_Refresh t ∉ wo_exchanged w).
Proof.
  intros Ho Hs [t Hl] Hh Hx Hr.
  assert (Hw : world_ok owner w0).
  { split; rewrite ?Hh, ?Hx; try done; [|by apply NoDup_nil]. exists t. split; [done|]. by intros H%elem_of_nil. }
  assert (H : world_ok owner w).
  { clear -Ho Hr Hw TL. induction Hr as [|w w1 w2 H1 _ IH]; [done|]. apply IH. by apply (wstep_ok owner w). }
  destruct H as [_ [t' [Hl' Hn]] _ _ Hnd]. split; [done|]. exists t'. split; [done|].
  intros Hnone Hin. destruct (Hn Hin) as (? & ? & ? & E). congruence.
Qed.

(** No failure, nobody else. *)
Definition quiet : TokenEnv :=
  {| te_load := false; te_reload := false; te_save := false; te_record := false; te_audit := false;
     te_between1 := fun db => db; te_between2 := fun db => db |}.

(** A call of [Token] nothing disturbs is a run of the steps of the process
    from lock to unlock: the same tables, the same source, and at most one
    refresh token exchanged. *)
Theorem Token_is_steps owner w i s now answer s' r db' :
  wo_sources w !! i = Some s -> so_owner s = owner -> wo_holder w = None ->
  (forall refresh t, answer refresh = Renewed t ->
     t_Refresh t <> "" /\ t_Refresh t <> refresh /\ (t_Refresh t ∉ wo_exchanged w) /\ token_text t = true
     /\ fst (cr_save false now owner t (wo_db w)) = Ok tt) ->
  Source_Token quiet now answer s (wo_db w) = (s', r, db') ->
  exists ex, (length ex <= 1)%nat
    /\ rtc (wstep owner) w (world db' (<[i := s']> (wo_sources w)) None (wo_exchanged w ++ ex)%list).
Proof.
  intros Hi Hs Hh Ha. unfold Source_Token. cbn [quiet te_load te_reload te_save te_record te_between1 te_between2].
  destruct (token_begin false now s (wo_db w)) as [s1 [r1|refresh]] eqn:Eb.
  - intros [= <- <- <-]. exists []. split; [cbn; lia|]. rewrite app_nil_r. apply rtc_once. by eapply w_got.
  - assert (Hask : wstep owner w (world (wo_db w) (<[i := s1]> (wo_sources w)) (Some (i, Asking refresh)) (wo_exchanged w)))
      by by eapply w_ask.
    assert (Hl1 : <[i := s1]> (wo_sources w) !! i = Some s1)
      by (apply list_lookup_insert_eq; by eapply lookup_lt_Some).
    rewrite Hs.
    destruct (answer refresh) as [t| |] eqn:Ea.
    + destruct (Ha _ _ Ea) as (H1 & H2 & H3 & H4 & Hf). intros [= <- <- <-]. exists [refresh]. split; [done|].
      eapply rtc_l; [exact Hask|]. eapply rtc_l; [by eapply (w_exchange owner _ i refresh t)|]. apply rtc_once.
      cbn [world wo_db wo_sources wo_holder wo_exchanged].
      rewrite <- (list_insert_insert_eq (wo_sources w) i (with_cur (kept_refresh refresh t) s1) s1).
      assert (Hk : kept_refresh refresh t = t) by (unfold kept_refresh; by apply String.eqb_neq in H1 as ->). rewrite <- Hk in Hf.
      destruct (cr_save false now owner (kept_refresh refresh t) (wo_db w)) as [e d] eqn:Es. cbn [fst snd] in *. subst e.
      eapply (w_save owner (world _ _ _ _) i s1); [done..|]. exact Es.
    + destruct (still_stored false s1 refresh (wo_db w)) eqn:Est; intros [= <- <- <-]; exists [];
        (split; [cbn; lia|]); rewrite app_nil_r; (eapply rtc_l; [exact Hask|]);
        (eapply rtc_l; [by eapply (w_refuse owner (world _ _ _ _) i refresh)|]); apply rtc_once;
        eapply (w_lose owner (world _ _ _ _) i s1 refresh); try done; cbn [world wo_db]; by rewrite Est.
    + intros [= <- <- <-]. exists []. split; [cbn; lia|]. rewrite app_nil_r.
      eapply rtc_l; [exact Hask|]. apply rtc_once. by eapply (w_fail owner (world _ _ _ _) i refresh).
Qed.

(** C36: A disconnection made while the provider is asked to renew wins.  When it
    lands after the renewal has read the credential and before a refused
    refresh token is compared with the stored one, then whatever the provider
    answers and whatever fails, the renewal puts nothing back and records no
    loss, and the next read finds nothing stored.  (One that lands between the
    comparison and the record of the loss leaves a loss behind:
    [disconnect_marked_lost].) *)
Theorem disconnect_wins env now answer s s1 refresh fails db db1 s' r db' : so_owner s <> Nil ->
  token_begin (te_load env) now s db = (s1, inr refresh) ->
  cr_disconnect fails (so_owner s) db = (Ok tt, db1) ->
  (forall d, te_between1 env d = db1) ->
  Source_Token env now answer s db = (s', r, db') ->
  db' = db1 /\ cr_load false (so_owner s) db' = Ok None /\ ((so_owner s, cr_provider) ∉ cd_losses db') /\ r <> LostRefused true.
Proof.
  intros Hu Hb Hd He. unfold Source_Token. rewrite Hb, He.
  destruct (cr_disconnect_absent _ _ _ _ Hd) as [Habs Hlost].
  assert (Hst : still_stored (te_reload env) s1 refresh db1 = false).
  { unfold still_stored. rewrite (begin_owner _ _ _ _ _ _ Hb). destruct (te_reload env).
    - pose proof (cr_load_fails (so_owner s) db1) as H. destruct (cr_load true _ _) as [[t|]|]; [by destruct (H t)|done..].
    - by rewrite (cr_absent_load _ _ Hu Habs). }
  pose proof (cr_absent_load _ _ Hu Habs). rewrite Hst.
  destruct (answer refresh); rewrite ?cr_absent_save by done; by intros [= <- <- <-].
Qed.

(** A loss is recorded by a renewal exactly when the provider refused for
    good a refresh token that was read back as the stored one; it is then the
    owner's, for this provider, and the owner's log has one entry when it starts
    (unless that write fails) and none when it is already known.  Every other call leaves the losses and the
    log alone, whatever fails. *)
Theorem loss_needs_refusal env now answer s s' r db db' : so_owner s <> Nil ->
  Source_Token env now answer s db = (s', r, db') ->
  match r with
  | LostRefused true =>
      exists s1 refresh latest,
        token_begin (te_load env) now s db = (s1, inr refresh) /\ answer refresh = RefusedForGood
        /\ cr_load (te_reload env) (so_owner s) (te_between1 env db) = Ok (Some latest) /\ t_Refresh latest = refresh
        /\ let base := te_between2 env (te_between1 env db) in
           if te_record env then db' = base
           else cd_losses db' = {[(so_owner s, cr_provider)]} ∪ cd_losses base
                /\ cd_audit db' = (cd_audit base ++ (if IsCredentialLost base (so_owner s) cr_provider || te_audit env then []
                                                     else [(so_owner s, "connection_lost", cr_provider)]))%list
  | _ => exists base, (base = db \/ base = te_between1 env db)
         /\ cd_losses db' = cd_losses base /\ cd_audit db' = cd_audit base
  end.
Proof.
  intros Hu. unfold Source_Token. destruct (token_begin (te_load env) now s db) as [s1 [r1|refresh]] eqn:Eb.
  { intros [= <- <- <-]. assert (H : r1 <> LostRefused true).
    { clear -Eb. unfold token_begin in Eb. intros ->.
      repeat match type of Eb with context [match ?x with _ => _ end] => destruct x; try discriminate Eb end. }
    destruct r1 as [| |[]| | |]; try done; exists db; auto. }
  pose proof (cr_save_losses (te_save env) now (so_owner s)) as Hsv.
  destruct (answer refresh) as [t| |] eqn:Ea; [| |intros [= <- <- <-]; exists (te_between1 env db); auto].
  - intros [= <- <- <-]. exists (te_between1 env db). split; [auto|]. apply Hsv.
  - destruct (still_stored _ _ _ _) eqn:Est; [|intros [= <- <- <-]; exists (te_between1 env db); auto].
    intros [= <- <- <-]. unfold still_stored in Est. rewrite (begin_owner _ _ _ _ _ _ Eb) in Est.
    destruct (cr_load _ _ _) as [[latest|]|] eqn:El; [|done..]. apply String.eqb_eq in Est.
    exists s1, refresh, latest. split_and!; try done. cbv zeta. unfold RecordLoss, RecordCredentialLoss.
    apply String.eqb_neq in Hu. rewrite Hu, cr_known. cbn [negb]. destruct (te_record env); [done|].
    unfold IsCredentialLost. destruct (bool_decide _), (te_audit env); cbn [negb orb]; (split; [done|]); rewrite ?app_nil_r; done.
Qed.

(** A renewal writes for its owner only: whoever caused it and whatever the
    answer, another user's credential reads as it did, and the losses of others
    are those the tables had. *)
Theorem renewal_is_the_owners env now answer s s' r db db' u : u <> so_owner s ->
  Source_Token env now answer s db = (s', r, db') ->
  exists base, (base = db \/ base = te_between1 env db \/ base = te_between2 env (te_between1 env db))
    /\ cr_load false u db' = cr_load false u base
    /\ (forall p, (u, p) ∈ cd_losses db' <-> (u, p) ∈ cd_losses base).
Proof.
  intros Hu. unfold Source_Token. destruct (token_begin (te_load env) now s db) as [s1 [r1|refresh]].
  { intros [= <- <- <-]. exists db. auto. }
  destruct (answer refresh) as [t| |].
  - intros [= <- <- <-]. exists (te_between1 env db). split; [auto|].
    rewrite (cr_save_other (te_save env) now (so_owner s) u) by done.
    by rewrite (proj1 (cr_save_losses (te_save env) now (so_owner s) _ _)).
  - destruct (still_stored _ _ _ _); [|intros [= <- <- <-]; exists (te_between1 env db); auto].
    intros [= <- <- <-]. exists (te_between2 env (te_between1 env db)). split; [auto|]. rewrite load_RecordLoss. split; [done|].
    intros p. unfold RecordLoss, RecordCredentialLoss. destruct (String.eqb _ Nil); [done|]. destruct (negb _); [done|].
    destruct (te_record env); [done|].
    destruct (negb _); [destruct (te_audit env)|]; cbn [cd_losses set_losses set_audit];
      rewrite elem_of_union, elem_of_singleton; (split; [intros [[= -> _]|]|]; auto; done).
  - intros [= <- <- <-]. exists (te_between1 env db). auto.
Qed.
End Theorems.

(** For each of the three credentials: what is connected is what is read
    back, a connection without a refresh token keeping the stored one, and a
    connection ends a loss. *)
Theorem connected_is_loaded {V : Vault} {L : VaultLaws V} {C : TokenCodec} {CL : TokenCodecLaws C} S fails now u t old db db' :
  S ∈ [googleStore; microsoftStore; zoomStore] -> u <> Nil -> token_text (connected t old) = true ->
  cr_ready (CredentialStore := S) now u db -> cr_load (CredentialStore := S) false u db = Ok old ->
  cr_connect (CredentialStore := S) fails now u t db = (Ok tt, db') ->
  cr_load (CredentialStore := S) false u db' = Ok (Some (connected t old))
  /\ IsCredentialLost db' u (cr_provider (CredentialStore := S)) = false.
Proof.
  intros HS Hu Ht Hr Hl Hc.
  assert (Laws : CredentialStoreLaws S).
  { rewrite !elem_of_cons in HS. destruct HS as [->|[->|[->|[]%elem_of_nil]]];
      [apply google_laws|apply microsoft_laws|apply zoom_laws]. }
  destruct (cr_connect_load _ _ _ _ _ _ _ Hu Ht Hr Hl Hc) as [H1 H2]. split; [done|]. by apply bool_decide_eq_false.
Qed.

(** ** Concrete runs *)

Lemma unpacked {X Y Z} (x : X * Y * Z) : x = (fst (fst x), snd (fst x), snd x).
Proof. by destruct x as [[]]. Qed.

(** A record written as an object of two digits. *)
Fixpoint bits (p : positive) : string :=
  match p with xH => "" | xO q => String "0" (bits q) | xI q => String "1" (bits q) end.
Fixpoint unbits (s : string) : positive :=
  match s with
  | EmptyString => xH
  | String c r => if Ascii.eqb c "0" then xO (unbits r) else xI (unbits r)
  end.

Lemma unbits_bits p : unbits (bits p) = p.
Proof. induction p as [p IH|p IH|]; cbn; congruence. Qed.

Definition bits_codec : TokenCodec :=
  {| tc_marshal t := String "{" (bits (encode (t_Access t, t_Refresh t, t_Expiry t)));
     tc_unmarshal s := match s with
                       | String "{" r => '(a, b, e) ← decode (unbits r); Some {| t_Access := a; t_Refresh := b; t_Expiry := e |}
                       | _ => None
                       end |}.

Lemma bits_laws : TokenCodecLaws bits_codec.
Proof.
  split; [|done..]. intros t _. cbn [bits_codec tc_marshal tc_unmarshal]. rewrite unbits_bits, decode_encode. by destruct t.
Qed.

Module CredDemo.
#[local] Existing Instances AdminStore.Demo.vault AdminStore.Demo.vault_laws.
#[local] Existing Instance bits_codec.

Definition clock : OAuth := {| oa_valid t now := match t_Expiry t with None => true | Some e => now <? e end |}.
Definition tok (a r : string) (e : Z) : Token := {| t_Access := a; t_Refresh := r; t_Expiry := Some e |}.
Definition empty : CredDB := {| cd_tokens := ∅; cd_settings := ∅; cd_losses := ∅; cd_audit := [] |}.
Definition google (r : string) (now : Z) (db : CredDB) : CredDB :=
  snd (UpsertUserToken (fun _ => false) now "u1" (tok ("a" +:+ r) r (now + 10)) db).
(** The user u1 connected at 100, and the session's source. *)
Definition db : CredDB := google "r1" 100 empty.
Definition source : Source :=
  {| so_owner := "u1"; so_configured := true; so_zeroExpiryIsExpired := false; so_cur := Some (tok "ar1" "r1" 110) |}.
(** A provider that rotates, and one that has revoked. *)
Definition rotates (now : Z) (r : string) : RenewAnswer :=
  if String.eqb r "r1" then Renewed (tok "ar2" "r2" (now + 10))
  else if String.eqb r "r2" then Renewed (tok "ar3" "r3" (now + 10)) else FailedForNow.
Definition revokes (_ : string) : RenewAnswer := RefusedForGood.
Definition start : World := world db [source] None [].
End CredDemo.
#[local] Existing Instances AdminStore.Demo.vault AdminStore.Demo.vault_laws bits_codec bits_laws CredDemo.clock.
#[local] Existing Instances googleStore google_laws.

Lemma demo_load : LoadUserToken false "u1" CredDemo.db = Ok (Some (CredDemo.tok "ar1" "r1" 110)).
Proof. by vm_compute. Qed.

Lemma demo_begin : token_begin false 200 CredDemo.source CredDemo.db = (CredDemo.source, inr "r1").
Proof. by vm_compute. Qed.

(** The run of one renewal. *)
Lemma Token_is_steps_witness :
  exists ex, (length ex <= 1)%nat
    /\ rtc (wstep "u1") CredDemo.start
         (world (snd (Source_Token quiet 200 (CredDemo.rotates 200) CredDemo.source CredDemo.db))
            [fst (fst (Source_Token quiet 200 (CredDemo.rotates 200) CredDemo.source CredDemo.db))] None ex).
Proof.
  apply (Token_is_steps "u1" CredDemo.start 0 CredDemo.source 200 (CredDemo.rotates 200) _
           (snd (fst (Source_Token quiet 200 (CredDemo.rotates 200) CredDemo.source CredDemo.db))) _
           eq_refl eq_refl eq_refl); [|by vm_compute].
  intros refresh t. unfold CredDemo.rotates.
  destruct (String.eqb_spec refresh "r1") as [->|]; [|destruct (String.eqb_spec refresh "r2") as [->|]; [|done]];
    intros [= <-]; (split_and!; [done|done|apply not_elem_of_nil|by vm_compute|by vm_compute]).
Defined.

Lemma refresh_token_sent_once_witness :
  exists w, rtc (wstep "u1") CredDemo.start w /\ wo_exchanged w = ["r1"] /\ NoDup (wo_exchanged w).
Proof.
  assert (Hr : rtc (wstep "u1") CredDemo.start
                 (world CredDemo.db [CredDemo.source] (Some (0%nat, Answered "r1" (CredDemo.tok "ar2" "r2" 210))) ["r1"])).
  { eapply rtc_l; [exact (w_ask "u1" CredDemo.start 0 CredDemo.source CredDemo.source "r1" 200 eq_refl eq_refl demo_begin)|].
    apply rtc_once.
    refine (w_exchange "u1" (world CredDemo.db [CredDemo.source] (Some (0%nat, Asking "r1")) []) 0 "r1"
              (CredDemo.tok "ar2" "r2" 210) eq_refl _ _ _ eq_refl); [discriminate..|apply not_elem_of_nil]. }
  eexists. split; [exact Hr|]. split; [done|].
  refine (proj1 (refresh_token_sent_once "u1" CredDemo.start _ _ _ _ _ _ Hr)); [discriminate| |exists (CredDemo.tok "ar1" "r1" 110); exact demo_load|reflexivity..].
  intros s Hs. apply list_elem_of_singleton in Hs as ->. reflexivity.
Defined.

(** A disconnection while the provider is asked. *)
Definition disconnected : CredDB := snd (DeleteUserToken (fun _ => false) "u1" CredDemo.db).
Definition crossed (db1 : CredDB) : TokenEnv :=
  {| te_load := false; te_reload := false; te_save := false; te_record := false; te_audit := false;
     te_between1 := fun _ => db1; te_between2 := fun db => db |}.

Lemma disconnect_wins_witness :
  snd (Source_Token (crossed disconnected) 200 (CredDemo.rotates 200) CredDemo.source CredDemo.db) = disconnected.
Proof.
  refine (proj1 (disconnect_wins (crossed disconnected) 200 (CredDemo.rotates 200) CredDemo.source CredDemo.source "r1"
                   (fun _ => false) CredDemo.db disconnected _ _ _ _ demo_begin _ _ (unpacked _)));
    [discriminate|by vm_compute|reflexivity].
Defined.

Lemma loss_needs_refusal_witness :
  snd (fst (Source_Token quiet 200 CredDemo.revokes CredDemo.source CredDemo.db)) = LostRefused true
  /\ cd_audit (snd (Source_Token quiet 200 CredDemo.revokes CredDemo.source CredDemo.db)) = [("u1", "connection_lost", "google")].
Proof.
  split; [by vm_compute|].
  assert (Hrun : Source_Token quiet 200 CredDemo.revokes CredDemo.source CredDemo.db
                 = (CredDemo.source, LostRefused true, RecordLoss false false "u1" "google" CredDemo.db)) by by vm_compute.
  rewrite Hrun. cbn [snd].
  destruct (loss_needs_refusal quiet 200 CredDemo.revokes CredDemo.source _ _ CredDemo.db _ ltac:(discriminate) Hrun)
    as (s1 & refresh & latest & _ & _ & _ & _ & _ & H).
  rewrite H. by vm_compute.
Defined.

Lemma renewal_is_the_owners_witness :
  exists base, LoadUserToken false "u2" (snd (Source_Token quiet 200 CredDemo.revokes CredDemo.source CredDemo.db))
               = LoadUserToken false "u2" base /\ base = CredDemo.db.
Proof.
  pose proof (renewal_is_the_owners quiet 200 CredDemo.revokes CredDemo.source _ _ CredDemo.db _ "u2" ltac:(discriminate)
                (unpacked _)) as (base & Hb & H & _).
  exists base. split; [exact H|]. by destruct Hb as [-> | [-> | ->]].
Defined.

Definition zoomed := SaveZoomCredential false "u1" (CredDemo.tok "a" "r" 50) CredDemo.db.

Lemma connected_is_loaded_witness :
  LoadZoomCredential false "u1" (snd zoomed) = Ok (Some (CredDemo.tok "a" "r" 50))
  /\ IsCredentialLost (snd zoomed) "u1" CredentialZoom = false.
Proof.
  assert (E : zoomed = (Ok tt, snd zoomed)) by by vm_compute.
  assert (El : LoadZoomCredential false "u1" CredDemo.db = Ok None) by by vm_compute.
  assert (Er : cr_ready (CredentialStore := zoomStore) 100 "u1" CredDemo.db) by (intros s Hs; vm_compute in Hs; discriminate Hs).
  assert (Ht : token_text (connected (CredDemo.tok "a" "r" 50) None) = true) by by vm_compute.
  assert (Hin : zoomStore ∈ [googleStore; microsoftStore; zoomStore]) by (rewrite !elem_of_cons; auto).
  exact (connected_is_loaded zoomStore (fun _ => false) 100 "u1" (CredDemo.tok "a" "r" 50) None CredDemo.db (snd zoomed)
           Hin ltac:(discriminate) Ht Er El E).
Defined.

(** *** What the lock does not cover *)

(** The owner reconnects after the refused token was read back and before the
    loss is written: the new credential, still good, is marked lost. *)
Example reconnect_marked_lost :
  let env := {| te_load := false; te_reload := false; te_save := false; te_record := false; te_audit := false;
                te_between1 := fun db => db; te_between2 := CredDemo.google "n1" 200 |} in
  let '(_, r, db') := Source_Token env 200 CredDemo.revokes CredDemo.source CredDemo.db in
  LoadUserToken false "u1" db' = Ok (Some (CredDemo.tok "an1" "n1" 210)) /\ IsCredentialLost db' "u1" CredentialGoogle = true.
Proof. by vm_compute. Qed.

(** The owner disconnects in the same gap: the credential is removed, its loss
    cleared, and then the loss of a credential nobody has any more is recorded. *)
Example disconnect_marked_lost :
  let removed := fun db => snd (DeleteUserToken (fun _ => false) "u1" db) in
  let env := {| te_load := false; te_reload := false; te_save := false; te_record := false; te_audit := false;
                te_between1 := fun db => db; te_between2 := removed |} in
  let '(_, r, db') := Source_Token env 200 CredDemo.revokes CredDemo.source CredDemo.db in
  LoadUserToken false "u1" db' = Ok None /\ r = LostRefused true /\ IsCredentialLost db' "u1" CredentialGoogle = true.
Proof. by vm_compute. Qed.

(** The owner reconnects while the provider renews the old credential: the
    renewal of the replaced one is stored over the new one. *)
Example reconnect_overwritten :
  let env := crossed (CredDemo.google "n1" 200 CredDemo.db) in
  let '(_, r, db') := Source_Token env 200 (CredDemo.rotates 200) CredDemo.source CredDemo.db in
  LoadUserToken false "u1" (te_between1 env CredDemo.db) = Ok (Some (CredDemo.tok "an1" "n1" 210))
  /\ LoadUserToken false "u1" db' = Ok (Some (CredDemo.tok "ar2" "r2" 210)).
Proof. by vm_compute. Qed.

(** A renewal that could not be stored: at its expiry the same source reads the
    old credential back over the one it renewed and presents the exchanged
    refresh token again. *)
Example unsaved_renewal_sends_twice :
  let env := {| te_load := false; te_reload := false; te_save := true; te_record := false; te_audit := false;
                te_between1 := fun db => db; te_between2 := fun db => db |} in
  let '(s', r, db') := Source_Token env 200 (CredDemo.rotates 200) CredDemo.source CredDemo.db in
  snd (token_begin false 200 CredDemo.source CredDemo.db) = inr "r1"
  /\ r = Got (CredDemo.tok "ar2" "r2" 210) /\ snd (token_begin false 300 s' db') = inr "r1".
Proof. by vm_compute. Qed.
