(* ===== verification/AISettings.v ===== *)
(** * A user's AI settings and the secrets of the settings row

    storage/settings_ai.go (the AI choice as read, one key per provider, the
    presence flags) and storage/settings_secrets.go (the nine secrets of a row:
    opened on their own, and written back byte for byte unless changed). *)

From S2P Require Import Prelude GoInt GoTime GoText GoEncoding GoURL SecretBox SecretStore Destinations AdminStore.

#[local] Open Scope string_scope.
#[local] Open Scope Z_scope.

(** ** The choice (storage/settings_ai.go) *)

Definition LLMChoiceOff := "".
Definition LLMChoiceOrganization := "organization".
Definition LLMChoiceUnsupported := "unsupported".

Definition readableProviders : list string :=
  [LLMChoiceOff; LLMChoiceOrganization; "openai"; "anthropic"; "azure_openai"; "bedrock"; "vertex"].

Definition ReadLLMProvider (stored : string) : string :=
  if existsb (String.eqb stored) readableProviders then stored else LLMChoiceUnsupported.

Record LLMAPIKeys := { k_OpenAI : string; k_Anthropic : string; k_AzureOpenAI : string; k_Bedrock : string; k_Vertex : string }.

(** [LLMAPIKeys.For]: "" for anything but the five. *)
Definition For (k : LLMAPIKeys) (provider : string) : string :=
  if String.eqb provider "openai" then k_OpenAI k
  else if String.eqb provider "anthropic" then k_Anthropic k
  else if String.eqb provider "azure_openai" then k_AzureOpenAI k
  else if String.eqb provider "bedrock" then k_Bedrock k
  else if String.eqb provider "vertex" then k_Vertex k
  else "".

(** [LLMAPIKeys.Set]: [None] for anything but the five. *)
Definition SetKey (k : LLMAPIKeys) (provider key : string) : option LLMAPIKeys :=
  let at_ p old := if String.eqb provider p then key else old in
  if existsb (String.eqb provider) KeyProviders then
    Some {| k_OpenAI := at_ "openai" (k_OpenAI k); k_Anthropic := at_ "anthropic" (k_Anthropic k);
            k_AzureOpenAI := at_ "azure_openai" (k_AzureOpenAI k); k_Bedrock := at_ "bedrock" (k_Bedrock k);
            k_Vertex := at_ "vertex" (k_Vertex k) |}
  else None.

Definition AllKeys (k : LLMAPIKeys) : list string :=
  keep (fun v => negb (String.eqb v "")) [k_OpenAI k; k_Anthropic k; k_AzureOpenAI k; k_Bedrock k; k_Vertex k].

(** ** The row *)

(** One secret as read. *)
Record settingsSecret := { ss_raw : string; ss_plain : string; ss_err : option DecryptError; ss_replaced : bool }.

Record KeyFlags := { f_keys : list (string * bool); f_selected : bool; f_unbound : bool }.

Record AISettings := {
  s_LLMProvider : string;
  s_StoredLLMProvider : string;
  s_LLMModel : string;
  s_LLMBaseURL : string;
  s_LLMAPIKeys : LLMAPIKeys;
  s_LLMUnboundAPIKey : string;
  s_AzureEndpoint : string;
  s_AzureDeployment : string;
  s_AzureAPIVersion : string;
  s_AWSRegion : string;
  s_BedrockModel : string;
  s_VertexModel : string;
  s_MicrosoftTokens : string;
  s_ZoomTokens : string;
  s_WebcalURL : string;
  s_secrets : gmap string settingsSecret }.

Definition storedProvider (s : AISettings) : string :=
  if String.eqb (s_LLMProvider s) LLMChoiceUnsupported && negb (String.eqb (s_StoredLLMProvider s) "")
  then s_StoredLLMProvider s else s_LLMProvider s.

(** ** Secrets (storage/settings_secrets.go) *)

Definition SettingsColMicrosoftTokens := "microsoft_tokens".
Definition SettingsColZoomTokens := "zoom_tokens".
Definition SettingsColWebcalURL := "webcal_url".
Definition SettingsColLLMUnboundKey := "llm_api_key".

Definition LLMKeyColumn (provider : string) : string :=
  if existsb (String.eqb provider) KeyProviders then "llm_api_key_" +:+ provider else "".

Definition secretColumns : list string :=
  [SettingsColMicrosoftTokens; SettingsColZoomTokens; SettingsColWebcalURL; SettingsColLLMUnboundKey;
   "llm_api_key_openai"; "llm_api_key_anthropic"; "llm_api_key_azure_openai"; "llm_api_key_bedrock";
   "llm_api_key_vertex"].

(** [fieldOf]: the plaintext field of a column, [None] when it has none. *)
Definition fieldOf (s : AISettings) (column : string) : option string :=
  if String.eqb column SettingsColMicrosoftTokens then Some (s_MicrosoftTokens s)
  else if String.eqb column SettingsColZoomTokens then Some (s_ZoomTokens s)
  else if String.eqb column SettingsColWebcalURL then Some (s_WebcalURL s)
  else if String.eqb column SettingsColLLMUnboundKey then Some (s_LLMUnboundAPIKey s)
  else if String.eqb column "llm_api_key_openai" then Some (k_OpenAI (s_LLMAPIKeys s))
  else if String.eqb column "llm_api_key_anthropic" then Some (k_Anthropic (s_LLMAPIKeys s))
  else if String.eqb column "llm_api_key_azure_openai" then Some (k_AzureOpenAI (s_LLMAPIKeys s))
  else if String.eqb column "llm_api_key_bedrock" then Some (k_Bedrock (s_LLMAPIKeys s))
  else if String.eqb column "llm_api_key_vertex" then Some (k_Vertex (s_LLMAPIKeys s))
  else None.

(** An assignment through the pointer [fieldOf] gives. *)
Definition set_fieldOf (s : AISettings) (column v : string) : AISettings :=
  let at_ c old := if String.eqb column c then v else old in
  let k := s_LLMAPIKeys s in
  {| s_LLMProvider := s_LLMProvider s; s_StoredLLMProvider := s_StoredLLMProvider s; s_LLMModel := s_LLMModel s;
     s_LLMBaseURL := s_LLMBaseURL s;
     s_LLMAPIKeys := {| k_OpenAI := at_ "llm_api_key_openai" (k_OpenAI k);
                        k_Anthropic := at_ "llm_api_key_anthropic" (k_Anthropic k);
                        k_AzureOpenAI := at_ "llm_api_key_azure_openai" (k_AzureOpenAI k);
                        k_Bedrock := at_ "llm_api_key_bedrock" (k_Bedrock k);
                        k_Vertex := at_ "llm_api_key_vertex" (k_Vertex k) |};
     s_LLMUnboundAPIKey := at_ SettingsColLLMUnboundKey (s_LLMUnboundAPIKey s);
     s_AzureEndpoint := s_AzureEndpoint s; s_AzureDeployment := s_AzureDeployment s;
     s_AzureAPIVersion := s_AzureAPIVersion s; s_AWSRegion := s_AWSRegion s; s_BedrockModel := s_BedrockModel s;
     s_VertexModel := s_VertexModel s;
     s_MicrosoftTokens := at_ SettingsColMicrosoftTokens (s_MicrosoftTokens s);
     s_ZoomTokens := at_ SettingsColZoomTokens (s_ZoomTokens s);
     s_WebcalURL := at_ SettingsColWebcalURL (s_WebcalURL s); s_secrets := s_secrets s |}.

Definition set_secret (s : AISettings) (column : string) (x : settingsSecret) : AISettings :=
  {| s_LLMProvider := s_LLMProvider s; s_StoredLLMProvider := s_StoredLLMProvider s; s_LLMModel := s_LLMModel s;
     s_LLMBaseURL := s_LLMBaseURL s; s_LLMAPIKeys := s_LLMAPIKeys s; s_LLMUnboundAPIKey := s_LLMUnboundAPIKey s;
     s_AzureEndpoint := s_AzureEndpoint s; s_AzureDeployment := s_AzureDeployment s;
     s_AzureAPIVersion := s_AzureAPIVersion s; s_AWSRegion := s_AWSRegion s; s_BedrockModel := s_BedrockModel s;
     s_VertexModel := s_VertexModel s; s_MicrosoftTokens := s_MicrosoftTokens s; s_ZoomTokens := s_ZoomTokens s;
     s_WebcalURL := s_WebcalURL s; s_secrets := <[column := x]> (s_secrets s) |}.

(** [SecretErr]: a value a writer replaced has none. *)
Definition SecretErr (s : AISettings) (column : string) : option DecryptError :=
  match s_secrets s !! column with
  | Some r => if ss_replaced r then None else ss_err r
  | None => None
  end.

(** [MarkSecretReplaced]. *)
Definition MarkSecretReplaced (s : AISettings) (column : string) : AISettings :=
  set_secret s column
    match s_secrets s !! column with
    | Some r => {| ss_raw := ss_raw r; ss_plain := ss_plain r; ss_err := ss_err r; ss_replaced := true |}
    | None => {| ss_raw := ""; ss_plain := ""; ss_err := None; ss_replaced := true |}
    end.

Definition secretPresent (s : AISettings) (column value : string) : bool :=
  negb (String.eqb value "") || (match SecretErr s column with Some _ => true | None => false end).

(** [RefreshKeyFlags]: presence, whether or not the key can be opened. *)
Definition RefreshKeyFlags (s : AISettings) : KeyFlags :=
  let k := s_LLMAPIKeys s in
  {| f_keys := map (fun p => (p, secretPresent s ("llm_api_key_" +:+ p) (For k p))) KeyProviders;
     f_selected := (let col := LLMKeyColumn (s_LLMProvider s) in
                    if String.eqb col "" then false else secretPresent s col (For k (s_LLMProvider s)));
     f_unbound := secretPresent s SettingsColLLMUnboundKey (s_LLMUnboundAPIKey s) |}.

(** A fresh map of secrets. *)
Definition no_secrets (s : AISettings) : AISettings :=
  {| s_LLMProvider := s_LLMProvider s; s_StoredLLMProvider := s_StoredLLMProvider s; s_LLMModel := s_LLMModel s;
     s_LLMBaseURL := s_LLMBaseURL s; s_LLMAPIKeys := s_LLMAPIKeys s; s_LLMUnboundAPIKey := s_LLMUnboundAPIKey s;
     s_AzureEndpoint := s_AzureEndpoint s; s_AzureDeployment := s_AzureDeployment s;
     s_AzureAPIVersion := s_AzureAPIVersion s; s_AWSRegion := s_AWSRegion s; s_BedrockModel := s_BedrockModel s;
     s_VertexModel := s_VertexModel s; s_MicrosoftTokens := s_MicrosoftTokens s; s_ZoomTokens := s_ZoomTokens s;
     s_WebcalURL := s_WebcalURL s; s_secrets := ∅ |}.

Section Secrets.
Context {V : Vault}.

(** [openSettingsSecrets], over the stored texts of the columns read. *)
Definition openSettingsSecrets (user : uuid) (raw : list (string * string)) (s : AISettings) : AISettings :=
  fold_left (fun s cr =>
    let '(plain, err) := open_or_empty (bindSettings cr.1 user) cr.2 in
    set_fieldOf (set_secret s cr.1 {| ss_raw := cr.2; ss_plain := plain; ss_err := err; ss_replaced := false |})
      cr.1 plain) raw (no_secrets s).

(** [storedSecretText]: what a save writes to a column. *)
Definition storedSecretText (s : AISettings) (column : string) (user : uuid) : res KeyError string :=
  let f := default "" (fieldOf s column) in
  match s_secrets s !! column with
  | Some r => if negb (ss_replaced r) && String.eqb f (ss_plain r) then Ok (ss_raw r)
              else v_seal (bindSettings column user) f
  | None => v_seal (bindSettings column user) f
  end.
End Secrets.

(** ** Facts *)

Lemma fieldOf_columns s c : is_Some (fieldOf s c) <-> c ∈ secretColumns.
Proof.
  unfold fieldOf, secretColumns. rewrite !elem_of_cons.
  repeat match goal with |- context [String.eqb c ?x] =>
    destruct (String.eqb_spec c x) as [->|?]; [split; [intros _; tauto|by eexists]|] end.
  split; [by intros [? ?]|]. intros H. repeat (destruct H as [H|H]; [done|]). by apply elem_of_nil in H.
Qed.

Lemma fieldOf_set s c d v : c ∈ secretColumns ->
  fieldOf (set_fieldOf s c v) d = if String.eqb c d then Some v else fieldOf s d.
Proof.
  intros H. unfold secretColumns in H.
  assert (K : forall x, x ∈ secretColumns ->
            fieldOf (set_fieldOf s x v) d = if String.eqb x d then Some v else fieldOf s d).
  { intros x Hx. unfold secretColumns in Hx. unfold fieldOf.
    repeat (apply elem_of_cons in Hx as [->|Hx];
      [repeat match goal with |- context [String.eqb d ?y] => destruct (String.eqb_spec d y) as [->|?]; [reflexivity|] end;
       match goal with |- _ = if String.eqb ?y d then _ else _ => destruct (String.eqb_spec y d) as [<-|?]; [congruence|done] end|]).
    by apply elem_of_nil in Hx. }
  by apply K.
Qed.

Lemma fieldOf_secret s c x d : fieldOf (set_secret s c x) d = fieldOf s d.
Proof. reflexivity. Qed.

Section SecretFacts.
Context {V : Vault} {L : VaultLaws V}.

(** After a read, every column read holds its stored text and what it opened
    to. *)
Lemma open_columns user raw s c :
  NoDup (map fst raw) -> (forall x, x ∈ map fst raw -> x ∈ secretColumns) -> c ∈ map fst raw ->
  exists t, (c, t) ∈ raw /\
    s_secrets (openSettingsSecrets user raw s) !! c
    = Some {| ss_raw := t; ss_plain := fst (open_or_empty (bindSettings c user) t);
              ss_err := snd (open_or_empty (bindSettings c user) t); ss_replaced := false |}
    /\ fieldOf (openSettingsSecrets user raw s) c = Some (fst (open_or_empty (bindSettings c user) t)).
Proof.
  intros Hnd Hc. revert s. induction raw as [|[d t] raw IH] using rev_ind; intros s Hin; [by apply elem_of_nil in Hin|].
  rewrite map_app in *. cbn [map fst] in *. unfold openSettingsSecrets. rewrite fold_left_app. cbn [fold_left fst snd].
  fold (openSettingsSecrets user raw s). apply NoDup_app in Hnd as (Hnd & Hd & _).
  destruct (open_or_empty (bindSettings d user) t) as [plain err] eqn:E.
  destruct (decide (c = d)) as [->|Hne].
  - exists t. split; [apply elem_of_app; right; by left|]. rewrite E. cbn [fst snd]. split.
    + cbn [s_secrets set_fieldOf set_secret]. by rewrite lookup_insert_eq.
    + rewrite fieldOf_set by (apply Hc, elem_of_app; right; by left). by rewrite String.eqb_refl.
  - apply elem_of_app in Hin as [Hin| ->%list_elem_of_singleton]; [|done].
    destruct (IH Hnd (fun x Hx => Hc x (proj2 (elem_of_app _ _ _) (or_introl Hx))) s Hin) as (u & Hu & H1 & H2).
    exists u. split; [apply elem_of_app; by left|]. split.
    + cbn [s_secrets set_fieldOf set_secret]. by rewrite lookup_insert_ne.
    + rewrite fieldOf_set by (apply Hc, elem_of_app; right; by left).
      destruct (String.eqb_spec d c); [congruence|]. by rewrite fieldOf_secret.
Qed.

(** ** Properties *)

(** A save after a read keeps every secret it did not change: the stored text
    of each column, one that could not be opened included, is written back
    byte for byte, whatever the process's keys are by then. *)
Theorem unchanged_secrets_kept (V' : Vault) user raw s c t :
  NoDup (map fst raw) -> (forall x, x ∈ map fst raw -> x ∈ secretColumns) -> (c, t) ∈ raw ->
  storedSecretText (V := V') (openSettingsSecrets (V := V) user raw s) c user = Ok t.
Proof.
  intros Hnd Hc Hin. assert (Hk : c ∈ map fst raw) by apply (list_elem_of_fmap_2 fst _ _ Hin).
  destruct (open_columns user raw s c Hnd Hc Hk) as (u & Hu & H1 & H2).
  assert (u = t) as ->.
  { clear -Hnd Hin Hu. induction raw as [|[x y] raw IH]; [by apply elem_of_nil in Hu|].
    cbn [map fst] in Hnd. apply NoDup_cons in Hnd as [Hn Hnd].
    assert (Hx : forall v, (c, v) ∈ raw -> c <> x) by (intros v Hv <-; apply Hn, (list_elem_of_fmap_2 fst _ _ Hv)).
    apply elem_of_cons in Hu as [[= <- <-]|Hu]; apply elem_of_cons in Hin as [Hin|Hin]; try congruence.
    - by destruct (Hx _ Hin).
    - injection Hin as -> ->. by destruct (Hx _ Hu).
    - by apply IH. }
  unfold storedSecretText. rewrite H1, H2. cbn [ss_replaced ss_plain ss_raw negb andb default from_option id].
  by rewrite String.eqb_refl.
Qed.

(** A secret a writer set is what the next read gives, an empty one and one
    equal to what was read included; the other columns keep theirs. *)
Theorem replaced_secret_reads_back user raw s c v t d u :
  NoDup (map fst raw) -> (forall x, x ∈ map fst raw -> x ∈ secretColumns) -> c ∈ map fst raw ->
  let after := set_fieldOf (MarkSecretReplaced (openSettingsSecrets user raw s) c) c v in
  (storedSecretText after c user = Ok t -> v_open (bindSettings c user) t = Ok v)
  /\ ((d, u) ∈ raw -> d <> c -> storedSecretText after d user = storedSecretText (openSettingsSecrets user raw s) d user).
Proof.
  intros Hnd Hc Hk. cbn zeta. split.
  - unfold storedSecretText. rewrite fieldOf_set, String.eqb_refl by auto.
    cbn [s_secrets set_fieldOf MarkSecretReplaced set_secret default from_option id]. rewrite lookup_insert_eq.
    destruct (s_secrets _ !! c); cbn [ss_replaced negb andb]; intros H;
      (destruct (decide (v = "")) as [->|];
       [rewrite v_seal_empty in H; injection H as <-; apply v_open_empty|by apply v_seal_open]).
  - intros _ Hd. unfold storedSecretText. rewrite fieldOf_set by auto.
    destruct (String.eqb_spec c d); [congruence|]. unfold MarkSecretReplaced. rewrite fieldOf_secret.
    cbn [s_secrets set_fieldOf set_secret]. by rewrite lookup_insert_ne by congruence.
Qed.
End SecretFacts.

(** A stored choice survives a read and a save: whatever is stored, saving the
    document as read writes it back. *)
Theorem stored_choice_kept stored s :
  s_StoredLLMProvider s = stored -> s_LLMProvider s = ReadLLMProvider stored -> storedProvider s = stored.
Proof.
  intros E1 E2. unfold storedProvider. rewrite E1, E2. unfold ReadLLMProvider.
  destruct (existsb (String.eqb stored) readableProviders) eqn:R.
  - destruct (String.eqb_spec stored LLMChoiceUnsupported) as [->|]; [by vm_compute in R|done].
  - rewrite String.eqb_refl. destruct (String.eqb_spec stored "") as [->|]; [by vm_compute in R|done].
Qed.

(** ** Witnesses *)

#[local] Existing Instances AdminStore.Demo.vault AdminStore.Demo.vault_laws.

Definition demo_settings : AISettings :=
  {| s_LLMProvider := "openai"; s_StoredLLMProvider := "openai"; s_LLMModel := "gpt-x"; s_LLMBaseURL := "";
     s_LLMAPIKeys := {| k_OpenAI := ""; k_Anthropic := ""; k_AzureOpenAI := ""; k_Bedrock := ""; k_Vertex := "" |};
     s_LLMUnboundAPIKey := ""; s_AzureEndpoint := ""; s_AzureDeployment := ""; s_AzureAPIVersion := "";
     s_AWSRegion := ""; s_BedrockModel := ""; s_VertexModel := ""; s_MicrosoftTokens := ""; s_ZoomTokens := "";
     s_WebcalURL := ""; s_secrets := ∅ |}.

(** One key that opens, one sealed under a lost key, one stored before
    encryption. *)
Definition demo_raw : list (string * string) :=
  [("llm_api_key_openai", match v_seal (bindSettings "llm_api_key_openai" "u1") "sk-own" with Ok s => s | Err _ => "" end);
   ("zoom_tokens", "pdenc:v1:9:AAAA"); ("webcal_url", "https://cal.example/ics")].

Lemma demo_raw_nodup : NoDup (map fst demo_raw).
Proof. apply NoDup_ListNoDup. repeat constructor; cbn; intuition discriminate. Qed.

Lemma demo_raw_columns x : x ∈ map fst demo_raw -> x ∈ secretColumns.
Proof.
  change (map fst demo_raw) with ["llm_api_key_openai"; "zoom_tokens"; "webcal_url"].
  intros [->|[->|[->|[]%not_elem_of_nil]%elem_of_cons]%elem_of_cons]%elem_of_cons; unfold secretColumns; set_solver.
Qed.

Lemma unchanged_secrets_kept_witness :
  snd (open_or_empty (bindSettings "zoom_tokens" "u1") "pdenc:v1:9:AAAA") <> None
  /\ storedSecretText (openSettingsSecrets "u1" demo_raw demo_settings) "zoom_tokens" "u1" = Ok "pdenc:v1:9:AAAA".
Proof.
  split; [vm_compute; discriminate|].
  apply (unchanged_secrets_kept (V := AdminStore.Demo.vault) AdminStore.Demo.vault "u1" demo_raw demo_settings "zoom_tokens" "pdenc:v1:9:AAAA" demo_raw_nodup demo_raw_columns).
  right. left.
Defined.

Lemma replaced_secret_reads_back_witness :
  exists t, storedSecretText (set_fieldOf (MarkSecretReplaced (openSettingsSecrets "u1" demo_raw demo_settings) "zoom_tokens")
              "zoom_tokens" "new") "zoom_tokens" "u1" = Ok t
    /\ v_open (bindSettings "zoom_tokens" "u1") t = Ok "new".
Proof.
  destruct (storedSecretText (set_fieldOf (MarkSecretReplaced (openSettingsSecrets "u1" demo_raw demo_settings) "zoom_tokens")
              "zoom_tokens" "new") "zoom_tokens" "u1") as [t|e] eqn:E; [|vm_compute in E; discriminate E].
  assert (Hc : "zoom_tokens" ∈ map fst demo_raw) by (right; left).
  exists t. split; [reflexivity|].
  apply (proj1 (replaced_secret_reads_back "u1" demo_raw demo_settings "zoom_tokens" "new" t "webcal_url" "https://cal.example/ics"
    demo_raw_nodup demo_raw_columns Hc)).
  exact E.
Defined.

Lemma stored_choice_kept_witness : storedProvider demo_settings = "openai".
Proof. apply stored_choice_kept; reflexivity. Defined.
