(* ===== verification/AIDecision.v ===== *)
(** * Which AI configuration a request runs on

    nlp/llm_factory.go (the decision table, the probe, the clients it builds,
    the redaction of keys) and nlp/ai_source.go, over the settings
    ([AISettings]), the organisation's state ([OrgAI]) and the clients
    ([Destinations]). *)

From S2P Require Import Prelude GoInt GoTime GoText GoEncoding GoURL SecretBox SecretStore Destinations AdminStore OrgAI AISettings.

#[local] Open Scope string_scope.
#[local] Open Scope Z_scope.

Definition ReasonOff := "off".
Definition ReasonNeedsKey := "needs_key".
Definition ReasonOrganizationUnconfirmed := "organization_unconfirmed".
Definition ReasonNothingConfigured := "nothing_configured".
Definition ReasonProviderRemovedOrganizationAvailable := "provider_removed_organization_available".
Definition ReasonProviderRemoved := "provider_removed".
Definition ReasonPersonalKeysForbidden := "personal_keys_forbidden".
Definition EnablerUser := "user".
Definition EnablerOrganizationAdmin := "organization_admin".
Definition ConfigurationOwn := "own".
Definition ConfigurationOrganization := "organization".

Definition defaultOpenAIModel := "gpt-4o-mini".
Definition defaultAnthropicModel := "claude-haiku-4-5-20251001".
Definition defaultAzureAPIVersion := "2024-02-01".
Definition defaultBedrockRegion := "us-east-1".
Definition defaultBedrockModel := "anthropic.claude-sonnet-4-5-20251001-v1:0".
Definition defaultVertexModel := "gemini-2.0-flash-001".

Record AINotConfigured := { nc_Reason : string; nc_Provider : string; nc_Enablers : list string; nc_Message : string }.

Record AIState := { st_Settings : AISettings; st_Org : OrgAIState }.

Record Decision := {
  d_Provider : string;
  d_Client : option LLMClient;
  d_NotConfigured : option AINotConfigured;
  d_Configuration : string;
  d_Secrets : list string;
  d_Err : option DecryptError }.

(** [Decision.Organization]. *)
Definition Organization (d : Decision) : bool := String.eqb (d_Configuration d) ConfigurationOrganization.

(** ** Redaction *)

(** [strings.ReplaceAll(s, k, r)] for a non-empty [k]; every replacement takes
    at least one byte, so the text's length is enough fuel. *)
Fixpoint replace_fuel (n : nat) (k r s : string) : string :=
  match n with
  | O => s
  | S m => match cut_str k s with
           | Some (a, b) => a +:+ r +:+ replace_fuel m k r b
           | None => s
           end
  end.

Definition ReplaceAll (s k r : string) : string := replace_fuel (String.length s) k r s.

(** [sort.Slice] by decreasing length; among equals, the first first: at most
    eight keys are sorted, and below a dozen the library sorts by insertion. *)
Fixpoint insert_longest (k : string) (l : list string) : list string :=
  match l with
  | [] => [k]
  | x :: r => if len k <=? len x then x :: insert_longest k r else k :: x :: r
  end.

Definition longest_first (l : list string) : list string := fold_left (fun acc k => insert_longest k acc) l [].

Definition RedactSecrets (msg : string) (secrets : list string) : string :=
  fold_left (fun m k => ReplaceAll m k "[redacted]") (longest_first (keep (fun s => negb (String.eqb s "")) secrets)) msg.

Definition Redact (d : Decision) (msg : string) : string := RedactSecrets msg (d_Secrets d).

(** ** Sentences *)

Definition adminFixes (enablers : list string) : bool := existsb (String.eqb EnablerOrganizationAdmin) enablers.

Definition consentSentence :=
  "Your text and meeting details (titles, attendee emails, Slack and Notion excerpts) are sent to your organisation's AI provider account, which its administrators can access outside Paceday.".

Definition upper (c : ascii) : ascii := if is_lower c then ascii_of_nat (nat_of_ascii c - 32) else c.

Definition upperFirst (saved : bool) (sentence : string) : string :=
  match sentence with
  | String c r => if saved then sentence else String (upper c) r
  | EmptyString => ""
  end.

Definition removedName (s : AISettings) : string :=
  if String.eqb (s_StoredLLMProvider s) "ollama" then "Ollama" else "Your previous AI provider".

Definition choiceName (s : AISettings) : string :=
  let n := assoc (s_LLMProvider s) displayNames in
  if negb (String.eqb n "") then n
  else if String.eqb (s_StoredLLMProvider s) "ollama" then "Ollama"
  else "a provider Paceday no longer supports".

Definition useOrgAI : string := "choose " +:+ quote1 +:+ "Use my organisation's AI" +:+ quote1 +:+ " in Settings".

Definition notConfiguredMessage (reason provider : string) (saved : bool) (s : AISettings) (st : AIState)
  (enablers : list string) : string :=
  let name := assoc provider displayNames in
  let orgName := assoc (c_Provider (os_Config (st_Org st))) displayNames in
  let admin := adminFixes enablers in
  let adminOnly := admin && (Z.of_nat (length enablers) =? 1) in
  let off := "AI features are off: " in
  let prefix := if saved then off else "" in
  let not_finished := prefix +:+ upperFirst saved "your organisation does not allow personal API keys and has not finished setting up its AI. An administrator of your organisation can set it up." in
  if String.eqb reason ReasonOff then
    if saved then off +:+ "you turned them off in Settings. Choose a provider in Settings to turn them on."
    else "Off is not a provider, so there is nothing to test. Choose a provider to test it."
  else if String.eqb reason ReasonNeedsKey then
    if saved then off +:+ name +:+ " needs an API key. Add one in Settings."
    else name +:+ " needs an API key. Enter one to test it."
  else if String.eqb reason ReasonOrganizationUnconfirmed then
    if saved then "AI features are off until you confirm: your organisation provides AI through " +:+ orgName +:+ ". "
                  +:+ consentSentence +:+ " Confirm in Paceday to turn AI on."
    else "Your organisation provides AI through " +:+ orgName +:+ ". " +:+ consentSentence
         +:+ " Confirm in Paceday to test it."
  else if String.eqb reason ReasonNothingConfigured then
    if adminOnly then not_finished
    else if admin && saved then off +:+ "no AI provider is set up. Add your own API key in Settings, or ask an administrator of your organisation to set up its AI."
    else if admin then "Your organisation has not set up AI, so there is nothing to test. Add your own key in Settings, or ask an administrator of your organisation to set up its AI."
    else if saved then off +:+ "no AI provider is set up. Add your own API key in Settings."
    else "There is no AI provider to test. Choose a provider and add your key in Settings."
  else if String.eqb reason ReasonPersonalKeysForbidden then
    if adminOnly then not_finished
    else prefix +:+ upperFirst saved ("your organisation does not allow personal API keys, so your own choice ("
           +:+ choiceName s +:+ ") and any key you saved for it are kept but not used. Choose " +:+ quote1
           +:+ "Use my organisation's AI" +:+ quote1 +:+ " in Settings to use your organisation's AI.")
  else if String.eqb reason ReasonProviderRemovedOrganizationAvailable then
    if saved then off +:+ removedName s +:+ " is no longer supported. Your organisation provides AI: " +:+ useOrgAI +:+ "."
    else removedName s +:+ " is no longer supported, so it cannot be tested. Your organisation provides AI: " +:+ useOrgAI +:+ "."
  else
    let tail := if admin then "Choose another provider in Settings, or ask an administrator of your organisation to set up its AI."
                else "Choose another provider in Settings." in
    if saved then off +:+ removedName s +:+ " is no longer supported. " +:+ tail
    else removedName s +:+ " is no longer supported, so it cannot be tested. " +:+ tail.

(** ** The clients *)

Definition or_ (v def : string) : string := if String.eqb v "" then def else v.

(** [newProviderClient]: every value from the caller's own settings. *)
Definition newProviderClient (provider : string) (s : AISettings) (key model : string) : option LLMClient :=
  if String.eqb provider ProviderOpenAI then Some (OpenAIClient key (or_ model defaultOpenAIModel) (s_LLMBaseURL s))
  else if String.eqb provider ProviderAnthropic
  then Some (AnthropicClient key (or_ model defaultAnthropicModel) (s_LLMBaseURL s))
  else if String.eqb provider ProviderAzureOpenAI
  then Some (AzureOpenAIClient key (s_AzureEndpoint s) (s_AzureDeployment s) (or_ (s_AzureAPIVersion s) defaultAzureAPIVersion))
  else if String.eqb provider ProviderBedrock
  then Some (BedrockClient key (or_ (s_AWSRegion s) defaultBedrockRegion) (or_ (s_BedrockModel s) defaultBedrockModel))
  else if String.eqb provider ProviderVertex then Some (VertexClient key (or_ (s_VertexModel s) defaultVertexModel))
  else None.

(** [newOrgClient]: every value is the organisation's. *)
Definition newOrgClient (c : OrgAIConfig) : option LLMClient :=
  let p := c_Provider c in
  if String.eqb p ProviderOpenAI then Some (OpenAIClient (c_APIKey c) (or_ (c_Model c) defaultOpenAIModel) (c_BaseURL c))
  else if String.eqb p ProviderAnthropic
  then Some (AnthropicClient (c_APIKey c) (or_ (c_Model c) defaultAnthropicModel) (c_BaseURL c))
  else if String.eqb p ProviderAzureOpenAI
  then Some (AzureOpenAIClient (c_APIKey c) (c_AzureEndpoint c) (c_AzureDeployment c) (or_ (c_AzureAPIVersion c) defaultAzureAPIVersion))
  else if String.eqb p ProviderBedrock
  then Some (BedrockClient (c_APIKey c) (or_ (c_AWSRegion c) defaultBedrockRegion) (or_ (c_Model c) defaultBedrockModel))
  else if String.eqb p ProviderVertex then Some (VertexClient (c_APIKey c) (or_ (c_Model c) defaultVertexModel))
  else None.

(** ** The decision *)

Definition notConfigured (reason provider : string) (saved : bool) (s : AISettings) (st : AIState)
  (enablers : list string) : Decision :=
  {| d_Provider := provider; d_Client := None;
     d_NotConfigured := Some {| nc_Reason := reason; nc_Provider := provider; nc_Enablers := enablers;
                                nc_Message := notConfiguredMessage reason provider saved s st enablers |};
     d_Configuration := ""; d_Secrets := []; d_Err := None |}.

Definition decided_err (provider configuration : string) (e : DecryptError) : Decision :=
  {| d_Provider := provider; d_Client := None; d_NotConfigured := None; d_Configuration := configuration;
     d_Secrets := []; d_Err := Some e |}.

Definition configured (provider configuration : string) (c : option LLMClient) (secrets : list string) : Decision :=
  {| d_Provider := provider; d_Client := c; d_NotConfigured := None; d_Configuration := configuration;
     d_Secrets := secrets; d_Err := None |}.

(** [decide]: the table, in its order; [key] and [model], when given, replace
    the stored ones. *)
Definition decide_table (st : AIState) (choice : string) (key model : option string) (saved : bool) (own : list string)
  : Decision :=
  let s := st_Settings st in
  let org := st_Org st in
  let secrets := (own ++ [s_LLMUnboundAPIKey s])%list in
  let complete := InOrg org && Complete (os_Config org) in
  let nc reason provider enablers := notConfigured reason provider saved s st enablers in
  if String.eqb choice LLMChoiceOff then nc ReasonOff "" [EnablerUser]
  else if Forbids org && (IsKeyProvider choice || String.eqb choice LLMChoiceUnsupported) then
    if complete then nc ReasonPersonalKeysForbidden "" [EnablerUser]
    else nc ReasonPersonalKeysForbidden "" [EnablerOrganizationAdmin]
  else if IsKeyProvider choice then
    match (match key with Some _ => None | None => SecretErr s (LLMKeyColumn choice) end) with
    | Some e => decided_err choice ConfigurationOwn e
    | None =>
        let k := match key with Some k => k | None => For (s_LLMAPIKeys s) choice end in
        if String.eqb k "" then nc ReasonNeedsKey choice [EnablerUser]
        else configured choice ConfigurationOwn (newProviderClient choice s k (default "" model)) (secrets ++ [k])%list
    end
  else if String.eqb choice LLMChoiceOrganization then
    if complete && Confirmed org then
      let c := os_Config org in
      match c_keyErr c with
      | Some e => decided_err (c_Provider c) ConfigurationOrganization e
      | None => configured (c_Provider c) ConfigurationOrganization (newOrgClient c) (secrets ++ [c_APIKey c])%list
      end
    else if complete then nc ReasonOrganizationUnconfirmed "" [EnablerUser]
    else if Forbids org then nc ReasonNothingConfigured "" [EnablerOrganizationAdmin]
    else if InOrg org then nc ReasonNothingConfigured "" [EnablerUser; EnablerOrganizationAdmin]
    else nc ReasonNothingConfigured "" [EnablerUser]
  else if complete then nc ReasonProviderRemovedOrganizationAvailable "" [EnablerUser]
  else if InOrg org then nc ReasonProviderRemoved "" [EnablerUser; EnablerOrganizationAdmin]
  else nc ReasonProviderRemoved "" [EnablerUser].

(** [DecideState]: the saved choice. *)
Definition DecideState (st : AIState) : Decision :=
  decide_table st (s_LLMProvider (st_Settings st)) None None true (AllKeys (s_LLMAPIKeys (st_Settings st))).

Record AIStatus := {
  as_Configured : bool;
  as_Provider : string;
  as_Configuration : string;
  as_InOrganization : bool;
  as_NotConfigured : option AINotConfigured }.

(** [StatusOf]. *)
Definition StatusOf (st : AIState) : AIStatus :=
  let d := DecideState st in
  match d_NotConfigured d with
  | Some nc => {| as_Configured := false; as_Provider := ""; as_Configuration := "";
                  as_InOrganization := InOrg (st_Org st); as_NotConfigured := Some nc |}
  | None => {| as_Configured := true; as_Provider := d_Provider d; as_Configuration := d_Configuration d;
               as_InOrganization := InOrg (st_Org st); as_NotConfigured := None |}
  end.

Record ProbeRequest := { pb_Provider : option string; pb_Model : option string; pb_Key : option string }.

Definition MsgProbeProviderInvalid :=
  "llmProvider must be one of: " +:+ quote2 +:+ ", organization, unsupported, openai, anthropic, azure_openai, bedrock, vertex".
Definition MsgProbeUnsupportedNotSaved := "llmProvider unsupported can be probed only when it is your saved choice".
Definition MsgProbeOrganizationNoModel := "llmModel and llmApiKey cannot be used with your organisation's AI configuration".

(** [DecideProbeState]: a decision, or the 400 of a value the probe refuses. *)
Definition DecideProbeState (st : AIState) (req : ProbeRequest) : res string Decision :=
  let s := st_Settings st in
  let bad := match pb_Provider req with
             | None => None
             | Some p =>
                 if String.eqb p LLMChoiceUnsupported then
                   if String.eqb (s_LLMProvider s) LLMChoiceUnsupported then None else Some MsgProbeUnsupportedNotSaved
                 else if String.eqb p LLMChoiceOff || String.eqb p LLMChoiceOrganization || IsKeyProvider p then None
                 else Some MsgProbeProviderInvalid
             end in
  match bad with
  | Some m => Err m
  | None =>
      let choice := match pb_Provider req with Some p => p | None => s_LLMProvider s end in
      let named := match pb_Provider req with Some p => IsKeyProvider p | None => false end in
      if Forbids (st_Org st) && (named || is_some (pb_Key req)) then
        let what := match pb_Provider req with
                    | Some p => if IsKeyProvider p then assoc p displayNames else "the key you entered"
                    | None => "the key you entered" end in
        Ok {| d_Provider := ""; d_Client := None;
              d_NotConfigured := Some {| nc_Reason := ReasonPersonalKeysForbidden; nc_Provider := "";
                nc_Enablers := [EnablerOrganizationAdmin];
                nc_Message := "Your organisation does not allow personal API keys, so " +:+ what
                  +:+ " cannot be tested. An administrator of your organisation can change this." |};
              d_Configuration := ""; d_Secrets := []; d_Err := None |}
      else
        let is_saved := String.eqb choice (s_LLMProvider s) && negb (is_some (pb_Key req)) in
        let model := match pb_Model req with
                     | Some m => Some m
                     | None => if String.eqb choice (s_LLMProvider s) then Some (s_LLMModel s) else None end in
        let own := (AllKeys (s_LLMAPIKeys s) ++ match pb_Key req with Some k => [k] | None => [] end)%list in
        let d := decide_table st choice (pb_Key req) model is_saved own in
        if Organization d && (is_some (pb_Model req) || is_some (pb_Key req)) then Err MsgProbeOrganizationNoModel
        else Ok d
  end.

(** [OrganizationDestinationRefusal]. *)
Definition OrganizationDestinationRefusal (r : DestinationRefusal) : DestinationRefusal :=
  {| r_Provider := r_Provider r; r_Reason := r_Reason r; r_Property := r_Property r;
     r_Message := "Your organisation's AI destination is not approved on this deployment. An administrator of your organisation can fix this." |}.

(** [LoadAIState]: the settings, then one read of the organisation's state;
    either read may fail. *)
Definition LoadAIState (settings : option AISettings) (org : option OrgAIState) : option AIState :=
  match settings, org with
  | Some s, Some o => Some {| st_Settings := s; st_Org := o |}
  | _, _ => None
  end.

(** ** What the handlers answer with it *)

(** [ConfirmOrganizationAI]'s 200, read after the confirmation; [None] is the
    500 of a failed read. *)
Definition confirm_status (settings : option AISettings) (org : option OrgAIState) : option AIStatus :=
  match LoadAIState settings org with Some st => Some (StatusOf st) | None => None end.

(** ** Facts: redaction *)

(** [k] stands somewhere in [m]. *)
Definition occurs (k m : string) : Prop := exists a b, m = a +:+ k +:+ b.

Lemma occurs_inside k a m b : occurs k m -> occurs k (a +:+ m +:+ b).
Proof. intros (x & y & ->). exists (a +:+ x), (y +:+ b). by rewrite !app_assoc_str. Qed.

Lemma occurs_nil k : occurs k "" -> k = "".
Proof. intros (a & b & H). destruct a; [|discriminate H]. cbn in H. by destruct k. Qed.

Lemma prefix_found k m r : m = "" +:+ k +:+ r -> strip_prefix k m <> None.
Proof. intros ->. change ("" +:+ k +:+ r) with (k +:+ r). by rewrite strip_prefix_app. Qed.

Lemma cut_str_Some k m a b : cut_str k m = Some (a, b) -> m = a +:+ k +:+ b /\ ~ (k <> "" /\ occurs k a).
Proof.
  revert a. induction m as [|c m IH]; intros a; cbn [cut_str].
  - destruct (strip_prefix k "") as [r|] eqn:E; [|done]. intros [= <- <-]. apply strip_prefix_Some in E.
    split; [exact E|]. by intros [Hk ?%occurs_nil].
  - destruct (strip_prefix k (String c m)) as [r|] eqn:E.
    + intros [= <- <-]. apply strip_prefix_Some in E. split; [exact E|].
      by intros [Hk ?%occurs_nil].
    + destruct (cut_str k m) as [[a' b']|]; [|done]. intros [= <- ->]. destruct (IH a' eq_refl) as [-> Hn].
      split; [done|]. intros (Hk & x & y & H). destruct x as [|d x].
      * change (String c (a' +:+ k +:+ b)) with (String c a' +:+ k +:+ b) in E. rewrite H, !app_assoc_str in E.
        by eapply prefix_found; [|exact E].
      * injection H as _ H. apply Hn. split; [done|]. by exists x, y.
Qed.

Lemma cut_str_None k m : cut_str k m = None -> ~ occurs k m.
Proof.
  induction m as [|c m IH]; cbn [cut_str]; destruct (strip_prefix k _) as [r|] eqn:E; try done.
  - intros _ H. apply occurs_nil in H as ->. discriminate E.
  - destruct (cut_str k m) as [[a b]|]; [done|]. intros _ ([|d x] & y & H).
    + by apply prefix_found in H.
    + injection H as _ H. apply IH; [done|]. by exists x, y.
Qed.

(** A text without [c] that stands in [x c y] stands in [x] or in [y]. *)
Lemma occurs_split c s x y : free_of c s = true -> occurs s (x +:+ String c y) -> occurs s x \/ occurs s y.
Proof.
  intros F (a & b & H). revert x H. induction a as [|d a IH]; intros x H.
  - cbn in H. revert x H. induction s as [|e s IHs]; intros x H; [left; exists "", x; done|].
    rewrite free_of_cons in F. apply andb_true_iff in F as [Fe F].
    destruct x as [|z x]; cbn in H; injection H as Ez H.
    + subst e. by rewrite Ascii.eqb_refl in Fe.
    + subst z. left. clear IHs. enough (exists r, x = s +:+ r) as [r ->] by (by exists "", r).
      clear Fe. revert x H. induction s as [|e' s IHs]; intros x H; [by exists x|].
      rewrite free_of_cons in F. apply andb_true_iff in F as [Fe F].
      destruct x as [|z x]; cbn in H; injection H as Ez H; [subst e'; by rewrite Ascii.eqb_refl in Fe|].
      subst z. destruct (IHs F x H) as [r ->]. by exists r.
  - destruct x as [|z x]; cbn in H; injection H as Ez H; [right; by exists a, b|].
    destruct (IH x H) as [(u & v & ->)|Hy]; [left|by right]. by exists (String z u), v.
Qed.

Definition marker := "[redacted]".

(** A text a marker cannot make or complete. *)
Definition plain (s : string) : Prop :=
  s <> "" /\ free_of "[" s = true /\ free_of "]" s = true /\ ~ occurs s "redacted".

Lemma occurs_marker s x y : plain s -> occurs s (x +:+ marker +:+ y) -> occurs s x \/ occurs s y.
Proof.
  intros (_ & F1 & F2 & F3) H. change (marker +:+ y) with (String "[" ("redacted" +:+ String "]" y)) in H.
  apply occurs_split in H as [H|H]; [by left| |done].
  apply occurs_split in H as [H|H]; [done|by right|done].
Qed.

(** A replacement makes no occurrence that was not there. *)
Lemma replace_keeps n k s m : plain s -> ~ occurs s m -> ~ occurs s (replace_fuel n k marker m).
Proof.
  intros P. revert m. induction n as [|n IH]; intros m H; [done|]. cbn [replace_fuel].
  destruct (cut_str k m) as [[a b]|] eqn:E; [|done]. apply cut_str_Some in E as [-> _].
  intros [Ha|Hb]%occurs_marker; [|..|done].
  - apply H. destruct Ha as (x & y & ->). exists x, (y +:+ k +:+ b). by rewrite !app_assoc_str.
  - apply (IH b); [|done]. intros (x & y & ->). apply H. exists (a +:+ k +:+ x), y. by rewrite !app_assoc_str.
Qed.

(** And leaves none of what it replaces. *)
Lemma replace_removes n s m : plain s -> (String.length m <= n)%nat -> ~ occurs s (replace_fuel n s marker m).
Proof.
  intros P. revert m. induction n as [|n IH]; intros m Hl.
  - destruct m; [|cbn in Hl; lia]. cbn. intros H%occurs_nil. by destruct P as [P _].
  - cbn [replace_fuel]. destruct (cut_str s m) as [[a b]|] eqn:E; [|by apply cut_str_None].
    apply cut_str_Some in E as [-> Hn]. intros [Ha|Hb]%occurs_marker; [|..|done].
    + apply Hn. split; [apply P|done].
    + apply (IH b); [|done]. rewrite !slen_app in Hl. destruct P as [P _]. destruct s; [done|]. cbn in Hl. lia.
Qed.

Lemma insert_longest_elem k l s : s ∈ insert_longest k l <-> s = k \/ s ∈ l.
Proof.
  induction l as [|x l IH]; cbn [insert_longest]; [rewrite list_elem_of_singleton; split; [by left|];
    intros [|?%elem_of_nil]; done|].
  destruct (len k <=? len x); rewrite !elem_of_cons; [rewrite IH|]; tauto.
Qed.

Lemma longest_first_elem l s : s ∈ longest_first l <-> s ∈ l.
Proof.
  unfold longest_first. assert (H : forall acc, s ∈ fold_left (fun acc k => insert_longest k acc) l acc <-> s ∈ l \/ s ∈ acc).
  { induction l as [|x l IH]; intros acc; cbn [fold_left]; [split; [by right|by intros [?%elem_of_nil|]]|].
    rewrite IH, insert_longest_elem, elem_of_cons. tauto. }
  rewrite H. split; [by intros [|?%elem_of_nil]|by left].
Qed.

Lemma redact_fold l m s : plain s -> s ∈ l \/ ~ occurs s m ->
  ~ occurs s (fold_left (fun m k => ReplaceAll m k marker) l m).
Proof.
  intros P. revert m. induction l as [|k l IH]; intros m H; cbn [fold_left].
  - by destruct H as [?%elem_of_nil|].
  - apply IH. destruct H as [[->|H]%elem_of_cons|H]; [right; by apply replace_removes|by left|right; by apply replace_keeps].
Qed.

Lemma RedactSecrets_removes msg secrets s : plain s -> s ∈ secrets -> ~ occurs s (RedactSecrets msg secrets).
Proof.
  intros P H. apply redact_fold; [done|]. left. rewrite longest_first_elem. apply elem_of_keep. split; [done|].
  destruct P as [P _]. by destruct (String.eqb_spec s "").
Qed.

(** ** Facts: the clients *)

Definition client_key (c : LLMClient) : string :=
  match c with
  | OpenAIClient key _ _ | AnthropicClient key _ _ | AzureOpenAIClient key _ _ _ | BedrockClient key _ _
  | VertexClient key _ => key
  end.

(** Every key the user kept is among those that are replaced. *)
Lemma AllKeys_For keys p : For keys p <> "" -> For keys p ∈ AllKeys keys.
Proof.
  unfold AllKeys, For. intros H. apply elem_of_keep.
  repeat match goal with |- context [if String.eqb p ?b then _ else _] => destruct (String.eqb p b); [split; [set_solver|by apply negb_true_iff, String.eqb_neq]|] end.
  done.
Qed.

Lemma newProviderClient_key p s k m c : newProviderClient p s k m = Some c -> client_key c = k /\ provider_of c = p.
Proof.
  unfold newProviderClient. intros H.
  repeat match type of H with (if String.eqb ?a ?b then _ else _) = _ =>
    destruct (String.eqb_spec a b) as [->|]; [by injection H as <-|] end. done.
Qed.

Lemma newProviderClient_some p s k m : IsKeyProvider p = true -> is_Some (newProviderClient p s k m).
Proof.
  unfold IsKeyProvider, KeyProviders, newProviderClient. intros H. cbn [existsb] in H.
  repeat match goal with |- is_Some (if String.eqb ?a ?b then _ else _) =>
    destruct (String.eqb a b) eqn:?; [by eexists|] end. by rewrite ?orb_false_r in H; simplify_eq/=.
Qed.

(** The organisation's client is a user's client over the organisation's
    values. *)
Definition as_settings (c : OrgAIConfig) (s : AISettings) : AISettings :=
  {| s_LLMProvider := s_LLMProvider s; s_StoredLLMProvider := s_StoredLLMProvider s; s_LLMModel := s_LLMModel s;
     s_LLMBaseURL := c_BaseURL c; s_LLMAPIKeys := s_LLMAPIKeys s; s_LLMUnboundAPIKey := s_LLMUnboundAPIKey s;
     s_AzureEndpoint := c_AzureEndpoint c; s_AzureDeployment := c_AzureDeployment c;
     s_AzureAPIVersion := c_AzureAPIVersion c; s_AWSRegion := c_AWSRegion c; s_BedrockModel := c_Model c;
     s_VertexModel := c_Model c; s_MicrosoftTokens := ""; s_ZoomTokens := ""; s_WebcalURL := ""; s_secrets := ∅ |}.

Lemma newOrgClient_settings c s : newOrgClient c = newProviderClient (c_Provider c) (as_settings c s) (c_APIKey c) (c_Model c).
Proof. reflexivity. Qed.

(** ** Facts: the table *)

Section Table.
Context (st : AIState).
#[local] Abbreviation s := (st_Settings st).
#[local] Abbreviation org := (st_Org st).

(** Where a client comes from. *)
Inductive client_from (choice : string) (key model : option string) (c : LLMClient) (d : Decision) : Prop :=
| from_own k :
    IsKeyProvider choice = true -> Forbids org = false -> k <> "" ->
    k = match key with Some x => x | None => For (s_LLMAPIKeys s) choice end ->
    newProviderClient choice s k (default "" model) = Some c ->
    d_Configuration d = ConfigurationOwn -> d_Provider d = choice -> client_from choice key model c d
| from_org :
    choice = LLMChoiceOrganization -> InOrg org = true -> OrgAI.Complete (os_Config org) = true ->
    Confirmed org = true -> c_keyErr (os_Config org) = None -> newOrgClient (os_Config org) = Some c ->
    d_Configuration d = ConfigurationOrganization -> d_Provider d = c_Provider (os_Config org) ->
    client_from choice key model c d.

Lemma decide_client choice key model saved own c :
  d_Client (decide_table st choice key model saved own) = Some c ->
  client_from choice key model c (decide_table st choice key model saved own)
  /\ d_Secrets (decide_table st choice key model saved own) = (own ++ [s_LLMUnboundAPIKey s] ++ [client_key c])%list
  /\ d_NotConfigured (decide_table st choice key model saved own) = None
  /\ d_Err (decide_table st choice key model saved own) = None.
Proof.
  unfold decide_table. cbn zeta. destruct (String.eqb_spec choice LLMChoiceOff); [done|].
  destruct (Forbids org && _) eqn:F; [by destruct (InOrg org && _)|].
  destruct (IsKeyProvider choice) eqn:K.
  - rewrite orb_true_l, andb_true_r in F.
    destruct (match key with Some _ => None | None => _ end); [done|].
    destruct (String.eqb_spec (match key with Some k => k | None => For (s_LLMAPIKeys s) choice end) "") as [|Hk]; [done|].
    cbn [configured d_Client]. intros H. pose proof (newProviderClient_key _ _ _ _ _ H) as [E _].
    split; [by eapply from_own|]. split; [|done]. cbn [d_Secrets configured]. by rewrite E, <- app_assoc.
  - destruct (String.eqb_spec choice LLMChoiceOrganization) as [->|];
      [|by destruct (InOrg org && _); [|destruct (InOrg org)]].
    destruct (InOrg org && OrgAI.Complete (os_Config org)) eqn:C; cbn [andb];
      [|by destruct (Forbids org); [|destruct (InOrg org)]].
    destruct (Confirmed org) eqn:Cf; [|done]. destruct (c_keyErr (os_Config org)) eqn:Ke; [done|].
    cbn [configured d_Client]. intros H. apply andb_true_iff in C as [C1 C2].
    rewrite (newOrgClient_settings _ s) in H. pose proof (newProviderClient_key _ _ _ _ _ H) as [E _].
    rewrite <- (newOrgClient_settings _ s) in H.
    split; [by apply from_org|]. split; [|done]. cbn [d_Secrets configured]. by rewrite E, <- app_assoc.
Qed.

(** Without a client there is one reason or one error, and no secret. *)
Lemma decide_no_client choice key model saved own :
  (c_Provider (os_Config org) = "" \/ IsKeyProvider (c_Provider (os_Config org)) = true) ->
  let d := decide_table st choice key model saved own in
  d_Client d = None -> d_Secrets d = [] /\
  ((exists nc, d_NotConfigured d = Some nc /\ nc_Enablers nc <> [] /\ d_Err d = None /\ d_Configuration d = "")
   \/ (d_NotConfigured d = None /\ exists e, d_Err d = Some e)).
Proof.
  intros P. cbn zeta. unfold decide_table. cbn zeta.
  assert (N : forall reason provider e l d, d = notConfigured reason provider saved s st (e :: l) ->
     d_Secrets d = [] /\
     ((exists nc, d_NotConfigured d = Some nc /\ nc_Enablers nc <> [] /\ d_Err d = None /\ d_Configuration d = "")
      \/ (d_NotConfigured d = None /\ exists e, d_Err d = Some e))).
  { intros reason provider e l d ->. split; [done|]. left. eexists. by split. }
  assert (X : forall provider conf e, d_Secrets (decided_err provider conf e) = [] /\
     ((exists nc, d_NotConfigured (decided_err provider conf e) = Some nc /\ nc_Enablers nc <> []
         /\ d_Err (decided_err provider conf e) = None /\ d_Configuration (decided_err provider conf e) = "")
      \/ (d_NotConfigured (decided_err provider conf e) = None /\ exists e', d_Err (decided_err provider conf e) = Some e'))).
  { intros provider conf e. split; [done|]. right. split; [done|by eexists]. }
  destruct (String.eqb choice LLMChoiceOff); [intros _; by eapply N|].
  destruct (Forbids org && _); [destruct (InOrg org && _); intros _; by eapply N|].
  destruct (IsKeyProvider choice) eqn:K.
  - destruct (match key with Some _ => None | None => _ end); [intros _; apply X|].
    destruct (String.eqb _ ""); [intros _; by eapply N|]. cbn [configured d_Client].
    match goal with |- context [newProviderClient choice s ?k ?m] =>
      destruct (newProviderClient_some choice s k m K) as [c ->] end. done.
  - destruct (String.eqb choice LLMChoiceOrganization);
      [|destruct (InOrg org && _); [|destruct (InOrg org)]; intros _; by eapply N].
    destruct (InOrg org && OrgAI.Complete (os_Config org)) eqn:C; cbn [andb];
      [|destruct (Forbids org); [|destruct (InOrg org)]; intros _; by eapply N].
    destruct (Confirmed org); [|intros _; by eapply N].
    destruct (c_keyErr (os_Config org)); [intros _; apply X|]. cbn [configured d_Client].
    apply andb_true_iff in C as [_ C]. destruct P as [P|P]; [unfold OrgAI.Complete in C; by rewrite P in C|].
    rewrite (newOrgClient_settings _ s).
    match goal with |- context [newProviderClient ?p ?x ?k ?m] =>
      destruct (newProviderClient_some p x k m P) as [c ->] end. done.
Qed.
End Table.

(** ** Facts: the sentences *)

Lemma assoc_display p : assoc p displayNames ∈ "" :: map snd displayNames.
Proof. cbn [assoc displayNames map snd]. repeat (destruct (String.eqb _ p); [set_solver|]). set_solver. Qed.

(** The words that name the organisation's administrator. *)
Definition names_admin (msg : string) : bool :=
  match cut_str "dministrator of your organisation" msg with Some _ => true | None => false end.

(** The rows' reasons with their enablers. *)
Definition row_ok (reason : string) (enablers : list string) : bool :=
  existsb (fun r => bool_decide (r = (reason, enablers)))
    [(ReasonOff, [EnablerUser]); (ReasonNeedsKey, [EnablerUser]); (ReasonOrganizationUnconfirmed, [EnablerUser]);
     (ReasonNothingConfigured, [EnablerUser]); (ReasonNothingConfigured, [EnablerUser; EnablerOrganizationAdmin]);
     (ReasonNothingConfigured, [EnablerOrganizationAdmin]); (ReasonPersonalKeysForbidden, [EnablerUser]);
     (ReasonPersonalKeysForbidden, [EnablerOrganizationAdmin]);
     (ReasonProviderRemovedOrganizationAvailable, [EnablerUser]); (ReasonProviderRemoved, [EnablerUser]);
     (ReasonProviderRemoved, [EnablerUser; EnablerOrganizationAdmin])].

Lemma message_names reason provider saved s st enablers : row_ok reason enablers = true ->
  names_admin (notConfiguredMessage reason provider saved s st enablers) = adminFixes enablers.
Proof.
  unfold row_ok. cbn [existsb]. intros H. unfold notConfiguredMessage, removedName, choiceName. cbn zeta.
  pose proof (assoc_display provider) as H1. pose proof (assoc_display (c_Provider (os_Config (st_Org st)))) as H2.
  pose proof (assoc_display (s_LLMProvider s)) as H3.
  revert H1 H2 H3. generalize (assoc provider displayNames), (assoc (c_Provider (os_Config (st_Org st))) displayNames),
    (assoc (s_LLMProvider s) displayNames). intros n1 n2 n3 H1 H2 H3.
  repeat (apply orb_true_iff in H as [H|H];
    [apply bool_decide_eq_true_1 in H; injection H as <- <-;
     unfold ReasonOff, ReasonNeedsKey, ReasonOrganizationUnconfirmed, ReasonNothingConfigured, ReasonProviderRemoved,
       ReasonPersonalKeysForbidden, ReasonProviderRemovedOrganizationAvailable;
     cbn [String.eqb Ascii.eqb Bool.eqb];
     destruct saved; try destruct (String.eqb (s_StoredLLMProvider s) "ollama"); try (vm_compute; reflexivity);
     repeat match goal with
       | Hn : ?n ∈ _ |- context [?n] =>
           cbn [displayNames map snd] in Hn;
           repeat (apply elem_of_cons in Hn as [->|Hn]; [vm_compute; reflexivity|]); by apply elem_of_nil in Hn
       end|]). done.
Qed.

Lemma decide_row st choice key model saved own nc :
  d_NotConfigured (decide_table st choice key model saved own) = Some nc ->
  row_ok (nc_Reason nc) (nc_Enablers nc) = true
  /\ nc_Message nc = notConfiguredMessage (nc_Reason nc) (nc_Provider nc) saved (st_Settings st) st (nc_Enablers nc).
Proof.
  unfold decide_table. cbn zeta. intros H.
  repeat match type of H with
    | d_NotConfigured (notConfigured _ _ _ _ _ _) = _ => injection H as <-; split; [vm_compute|]; reflexivity
    | d_NotConfigured (configured _ _ _ _) = _ => discriminate H
    | d_NotConfigured (decided_err _ _ _) = _ => discriminate H
    | d_NotConfigured (if ?b then _ else _) = _ => destruct b
    | d_NotConfigured (match ?b with _ => _ end) = _ => destruct b
    end.
Qed.

(** ** The decisions a request can run on *)

(** The saved choice, or a probe the server accepts. *)
Definition decided (st : AIState) (d : Decision) : Prop :=
  d = DecideState st \/ exists req, DecideProbeState st req = Ok d.

(** What a probe runs on. *)
Definition probe_choice (st : AIState) (req : ProbeRequest) : string :=
  match pb_Provider req with Some p => p | None => s_LLMProvider (st_Settings st) end.

Definition forbidden_probe (st : AIState) (req : ProbeRequest) : bool :=
  Forbids (st_Org st)
  && ((match pb_Provider req with Some p => IsKeyProvider p | None => false end) || is_some (pb_Key req)).

Lemma probe_inv st req d : DecideProbeState st req = Ok d ->
  (forbidden_probe st req = true /\ d_Client d = None /\ d_Err d = None /\ d_Secrets d = [] /\ d_Configuration d = ""
   /\ exists nc, d_NotConfigured d = Some nc /\ nc_Reason nc = ReasonPersonalKeysForbidden
        /\ nc_Enablers nc = [EnablerOrganizationAdmin] /\ names_admin (nc_Message nc) = true)
  \/ (forbidden_probe st req = false
      /\ exists model saved, d = decide_table st (probe_choice st req) (pb_Key req) model saved
           (AllKeys (s_LLMAPIKeys (st_Settings st)) ++ match pb_Key req with Some k => [k] | None => [] end)%list
      /\ (Organization d = true -> pb_Model req = None /\ pb_Key req = None)).
Proof.
  unfold DecideProbeState, forbidden_probe, probe_choice. cbn zeta.
  match goal with |- context [match ?b with Some m => Err m | None => _ end = _] => destruct b; [done|] end.
  destruct (Forbids (st_Org st) && _).
  - intros [= <-]. left. repeat split. eexists. repeat split. cbn [nc_Message].
    assert (D : forall n, n ∈ "the key you entered" :: "" :: map snd displayNames -> names_admin
      ("Your organisation does not allow personal API keys, so " +:+ n
       +:+ " cannot be tested. An administrator of your organisation can change this.") = true).
    { intros n Hn. cbn [displayNames map snd] in Hn.
      repeat (apply elem_of_cons in Hn as [->|Hn]; [vm_compute; reflexivity|]). by apply elem_of_nil in Hn. }
    destruct (pb_Provider req) as [p|]; [|apply D; by left].
    destruct (IsKeyProvider p); [|apply D; by left]. apply D. right. apply assoc_display.
  - destruct (Organization _ && _) eqn:E; [done|]. intros [= <-]. right. split; [done|].
    eexists _, _. split; [done|]. intros O. rewrite O in E. cbn [andb] in E.
    apply orb_false_iff in E as [E1 E2]. by destruct (pb_Model req), (pb_Key req).
Qed.

(** A supported provider or none, as every stored configuration has. *)
Definition supported (st : AIState) : Prop :=
  c_Provider (os_Config (st_Org st)) = "" \/ IsKeyProvider (c_Provider (os_Config (st_Org st))) = true.

(** Exactly one of a client, a reason and a key that cannot be opened. *)
Definition one_outcome (d : Decision) : Prop :=
  match d_Client d, d_NotConfigured d, d_Err d with
  | Some c, None, None =>
      provider_of c = d_Provider d /\ client_key c <> "" /\ client_key c ∈ d_Secrets d
      /\ (d_Configuration d = ConfigurationOwn \/ d_Configuration d = ConfigurationOrganization)
  | None, Some nc, None =>
      d_Secrets d = [] /\ d_Configuration d = "" /\ nc_Enablers nc <> []
      /\ names_admin (nc_Message nc) = adminFixes (nc_Enablers nc)
  | None, None, Some _ => d_Secrets d = []
  | _, _, _ => False
  end.

Lemma table_one_outcome st choice key model saved own : supported st ->
  one_outcome (decide_table st choice key model saved own).
Proof.
  intros P. pose proof (decide_client st choice key model saved own) as C.
  pose proof (decide_no_client st choice key model saved own P) as N. cbn zeta in N.
  pose proof (decide_row st choice key model saved own) as R.
  set (d := decide_table st choice key model saved own) in *. clearbody d. unfold one_outcome.
  destruct (d_Client d) as [c|].
  - destruct (C c eq_refl) as (F & S & -> & ->). rewrite S.
    assert (H : client_key c <> "" /\ provider_of c = d_Provider d
                /\ (d_Configuration d = ConfigurationOwn \/ d_Configuration d = ConfigurationOrganization)).
    { destruct F as [k _ _ Hk _ Hc Hd Hp|_ _ Hcomp _ Hke Hc Hd Hp].
      - apply newProviderClient_key in Hc as [-> ->]. rewrite Hp. auto.
      - rewrite (newOrgClient_settings _ (st_Settings st)) in Hc. apply newProviderClient_key in Hc as [-> ->].
        rewrite Hp. split; [|auto]. unfold OrgAI.Complete, KeyPresent in Hcomp. rewrite Hke in Hcomp.
        destruct (String.eqb_spec (c_APIKey (os_Config (st_Org st))) ""); [|done].
        cbn in Hcomp. by rewrite orb_true_r in Hcomp. }
    destruct H as (H1 & H2 & H3). split_and!; [done..| |done]. rewrite !elem_of_app. right. right. by left.
  - destruct (N eq_refl) as (S & [(nc & E & He & -> & Hc)|(-> & e & ->)]); [|done]. rewrite E.
    destruct (R nc E) as [R1 R2]. split_and!; [done..|]. rewrite R2. by apply message_names.
Qed.

(** ** Properties *)

(** Every decision of a request has exactly one outcome: a client for the
    decided provider with a key that is among the texts the redaction
    replaces, or one reason with an enabler and a sentence that names the
    organisation's administrator exactly when the administrator is an enabler,
    or the error of a key that cannot be opened; only the first has a secret.
    The organisation's provider is one of the five, as [checks_hold_at_write]
    keeps it. *)
Theorem decision_one_outcome st d : supported st -> decided st d -> one_outcome d.
Proof.
  intros P [->|[req H]]; [by apply table_one_outcome|]. unfold one_outcome.
  apply probe_inv in H as [(_ & -> & -> & -> & -> & nc & -> & _ & Ee & Hn)|(_ & model & saved & -> & _)];
    [|by apply table_one_outcome]. by rewrite Ee.
Qed.

(** No client mixes two sources, and none runs against the organisation's
    rule.  A client of one's own is built from one's own settings with the key
    kept for exactly that provider (or the one submitted with the probe), and
    only where personal keys are allowed; a client of the organisation is
    built from its configuration alone, complete, confirmed by the caller in
    its current version and with nothing submitted; a probe that names a
    provider or carries a key while personal keys are forbidden has no
    client. *)
Theorem client_is_own_or_confirmed st req d c :
  DecideProbeState st req = Ok d -> d_Client d = Some c ->
  forbidden_probe st req = false /\
  if Organization d then
    probe_choice st req = LLMChoiceOrganization /\ InOrg (st_Org st) = true
    /\ OrgAI.Complete (os_Config (st_Org st)) = true /\ Confirmed (st_Org st) = true
    /\ newOrgClient (os_Config (st_Org st)) = Some c /\ client_key c = c_APIKey (os_Config (st_Org st))
    /\ pb_Model req = None /\ pb_Key req = None
  else
    Forbids (st_Org st) = false /\ provider_of c = probe_choice st req
    /\ client_key c = default (For (s_LLMAPIKeys (st_Settings st)) (probe_choice st req)) (pb_Key req)
    /\ exists model, newProviderClient (probe_choice st req) (st_Settings st) (client_key c) model = Some c.
Proof.
  intros H Hc. apply probe_inv in H as [(_ & E & _)|(Hf & model & saved & -> & Ho)]; [congruence|]. split; [done|].
  destruct (decide_client _ _ _ _ _ _ _ Hc) as ([k K F Hk Ek Hn Hd Hp|Ech I Cm Cf Ke Hn Hd Hp] & _).
  - unfold Organization. rewrite Hd. change (String.eqb ConfigurationOwn ConfigurationOrganization) with false.
    destruct (newProviderClient_key _ _ _ _ _ Hn) as [Ec Ep]. split_and!; [done..| |].
    + rewrite Ec, Ek. by destruct (pb_Key req).
    + exists (default "" model). by rewrite Ec.
  - assert (O : Organization (decide_table st (probe_choice st req) (pb_Key req) model saved
             (AllKeys (s_LLMAPIKeys (st_Settings st)) ++ match pb_Key req with Some k => [k] | None => [] end)%list) = true)
      by (unfold Organization; by rewrite Hd).
    rewrite O. specialize (Ho O) as [? ?]. split_and!; try done.
    rewrite (newOrgClient_settings _ (st_Settings st)) in Hn. by apply newProviderClient_key in Hn as [? _].
Qed.

(** C3: End to end: a request on the organisation's account is sent only for a
    caller whose confirmation is recorded for this provider, this destination
    and this stored key, and only to a destination this deployment approves,
    carrying the organisation's key. *)
Theorem organization_request_is_confirmed (V : Vault) (L : VaultLaws V) db0 db user settings d c pol network ex system text req :
  let st := {| st_Settings := settings; st_Org := ReadOrgAIState db user |} in
  ad_confirms db0 = ∅ -> rtc step db0 db -> decided st d -> Organization d = true -> d_Client d = Some c ->
  req ∈ fst (Destinations.Complete pol network ex c system text) ->
  newOrgClient (os_Config (st_Org st)) = Some c
  /\ (exists u pl, req = the_request c u pl /\ approved_destination pol c u)
  /\ exists org (Vc : Vault) env now dbc dbd,
       os_OrgID (st_Org st) = Some org /\ rtc step db0 dbc /\ rtc step dbd db
       /\ ConfirmOrgAI (V := Vc) env user org (c_Version (os_Config (st_Org st))) now dbc
          = (Ok (OrgAIConfirmed, GetOrgAIConfig (V := Vc) dbc org), dbd)
       /\ core (GetOrgAIConfig (V := Vc) dbc org) = core (os_Config (st_Org st)).
Proof.
  cbn zeta. intros H0 H Hd Ho Hc Hr. set (st := {| st_Settings := settings; st_Org := ReadOrgAIState db user |}) in *.
  assert (F : Confirmed (st_Org st) = true /\ newOrgClient (os_Config (st_Org st)) = Some c).
  { assert (K : forall ch key model saved own, d = decide_table st ch key model saved own ->
              Confirmed (st_Org st) = true /\ newOrgClient (os_Config (st_Org st)) = Some c).
    { intros ch key model saved own ->.
      destruct (decide_client _ _ _ _ _ _ _ Hc) as ([k _ _ _ _ _ E _|_ _ _ Cf _ Hn _ _] & _); [|done].
      unfold Organization in Ho. by rewrite E in Ho. }
    destruct Hd as [E|[rq E]]; [by eapply K|].
    apply probe_inv in E as [(_ & E & _)|(_ & model & saved & E & _)]; [congruence|by eapply K]. }
  destruct F as [Cf Hn]. split; [done|]. split; [by apply Destinations.Complete_sent in Hr as [_ Hr]|].
  destruct (confirmed_shown V L db0 db user (st_Org st) H0 H eq_refl Cf)
    as (org & Vc & env & now & dbc & dbd & E1 & H1 & H2 & C & _ & Ec).
  by exists org, Vc, env, now, dbc, dbd.
Qed.

(** What a provider answers never shows a key: the redacted text holds neither
    the key that was sent nor any key the caller stored or submitted, wherever
    and however often it stood in the answer, whichever other keys overlap
    with it.  [plain] excludes only what the marker itself spells. *)
Theorem redacted_hides_keys st req d c msg k :
  DecideProbeState st req = Ok d -> d_Client d = Some c -> plain k ->
  (k = client_key c \/ pb_Key req = Some k \/ k = s_LLMUnboundAPIKey (st_Settings st)
   \/ exists p, IsKeyProvider p = true /\ k = For (s_LLMAPIKeys (st_Settings st)) p) ->
  ~ occurs k (Redact d msg).
Proof.
  intros H Hc P Hk. apply RedactSecrets_removes; [done|].
  apply probe_inv in H as [(_ & E & _)|(_ & model & saved & -> & _)]; [congruence|].
  destruct (decide_client _ _ _ _ _ _ _ Hc) as (_ & -> & _). rewrite !elem_of_app, !list_elem_of_singleton.
  destruct Hk as [->|[->|[->|(p & Hp & ->)]]]; [auto|left; right; by left|auto|]. left. left.
  apply AllKeys_For. by destruct P.
Qed.

(** The model a user saved is never used by the saved choice: an OpenAI or
    Anthropic request decided for it names the default model whatever the
    settings hold, while the probe of the same choice names the saved one. *)
Theorem saved_model_not_used st c :
  d_Client (DecideState st) = Some c -> Organization (DecideState st) = false ->
  match c with
  | OpenAIClient _ m _ => m = defaultOpenAIModel
  | AnthropicClient _ m _ => m = defaultAnthropicModel
  | _ => True
  end
  /\ exists d c', DecideProbeState st {| pb_Provider := None; pb_Model := None; pb_Key := None |} = Ok d
       /\ d_Client d = Some c'
       /\ match c' with
          | OpenAIClient _ m _ => m = or_ (s_LLMModel (st_Settings st)) defaultOpenAIModel
          | AnthropicClient _ m _ => m = or_ (s_LLMModel (st_Settings st)) defaultAnthropicModel
          | _ => True
          end.
Proof.
  intros Hc Ho. destruct (decide_client _ _ _ _ _ _ _ Hc) as ([k K F Hk Ek Hn Hd Hp|_ _ _ _ _ _ Hd _] & _ & _ & Er).
  2:{ unfold Organization in Ho. unfold DecideState in Ho. by rewrite Hd in Ho. }
  set (ch := s_LLMProvider (st_Settings st)) in *.
  assert (M : forall m, match newProviderClient ch (st_Settings st) k m with
            | Some (OpenAIClient _ x _) => x = or_ m defaultOpenAIModel
            | Some (AnthropicClient _ x _) => x = or_ m defaultAnthropicModel
            | _ => True end).
  { intros m. unfold newProviderClient. by repeat destruct (String.eqb ch _). }
  split; [specialize (M ""); cbn in Hn; rewrite Hn in M; by destruct c|].
  destruct (newProviderClient_some ch (st_Settings st) k (s_LLMModel (st_Settings st)) K) as [c' Hc'].
  specialize (M (s_LLMModel (st_Settings st))). rewrite Hc' in M.
  assert (Hoff : String.eqb ch LLMChoiceOff = false) by (destruct (String.eqb_spec ch LLMChoiceOff) as [E|]; [by rewrite E in K|done]).
  unfold DecideProbeState. cbn [pb_Provider pb_Key pb_Model is_some orb]. rewrite andb_false_r. fold ch.
  rewrite String.eqb_refl. cbn [negb andb orb]. rewrite andb_false_r. eexists _, c'. split; [done|].
  assert (Es : SecretErr (st_Settings st) (LLMKeyColumn ch) = None).
  { unfold decide_table in Er. fold ch in Er. rewrite Hoff, F, K in Er. cbn [andb] in Er. by destruct (SecretErr _ _). }
  split; [|by destruct c'].
  unfold decide_table. rewrite Hoff, F, K, Es. cbn [andb]. fold ch in Ek. rewrite <- Ek.
  destruct (String.eqb_spec k ""); [done|]. exact Hc'.
Qed.

(** A change of the provider, the destination or the key ends the use of the
    organisation's account at once, for every member: until the member
    confirms the new version no decision runs on it. *)
Theorem change_needs_new_confirmation (V : Vault) (L : VaultLaws V) db0 db env w o db' user settings d :
  ad_confirms db0 = ∅ -> rtc step db0 db -> WriteOrgAIConfig env w db = (Ok o, db') ->
  core_at db' (w_OrgID w) <> core_at db (w_OrgID w) ->
  os_OrgID (ReadOrgAIState db' user) = Some (w_OrgID w) ->
  decided {| st_Settings := settings; st_Org := ReadOrgAIState db' user |} d ->
  Organization d = false.
Proof.
  intros H0 H W Hc Ho Hd.
  assert (K : Confirmed (ReadOrgAIState db' user) = false).
  { destruct (Confirmed (ReadOrgAIState db' user)) eqn:E; [exfalso|done].
    destruct (Write_mono env w db (Ok o) db' (w_OrgID w) W) as [Hv|[_ ?]]; [|done].
    revert Ho E. unfold ReadOrgAIState. destruct (ad_users db' !! user) as [u|]; [|done].
    destruct (us_OrgID u) as [org|]; [|done]. cbn [os_OrgID]. intros [= ->].
    unfold Confirmed. cbn [os_OrgID os_Config os_Confirmed InOrg is_some].
    assert (Ec : ad_confirms db' = ad_confirms db).
    { apply Write_cases in W as [(via & db1 & next & changed & raw & db3 & _ & A & _ & _ & _ & R & _ & ->)|[-> _]]; [|done].
      apply record_write_tables in R as (_ & -> & _). cbn [ad_confirms set_orgai]. by apply authorize_tables in A as (_ & A & _). }
    rewrite Ec. destruct (ad_confirms db !! (user, w_OrgID w)) as [[v t]|] eqn:E; [|done].
    intros [_ Ev%Z.eqb_eq]%andb_true_iff.
    destruct (confirms_recorded db0 db H0 H _ _ _ _ E) as (Vc & e & n & c1 & d1 & r & Lc & _ & H2 & C & _ & _ & Hvc).
    rewrite (GetOrgAIConfig_row (V := V)), config_version in Ev. fold (version_at db' (w_OrgID w)) in Ev.
    rewrite (GetOrgAIConfig_row (V := Vc)), config_version in Hvc. fold (version_at c1 (w_OrgID w)) in Hvc.
    pose proof (confirm_tables _ _ _ _ _ _ _ _ C) as [Eo _].
    destruct (same_rows_mono (w_OrgID w) _ _ Eo) as [?|[? _]], (rtc_mono (w_OrgID w) _ _ H2) as [?|[? _]]; lia. }
  set (st := {| st_Settings := settings; st_Org := ReadOrgAIState db' user |}) in *.
  assert (T : forall ch key model saved own, Organization (decide_table st ch key model saved own) = false).
  { intros. unfold decide_table. cbn zeta. change (st_Org st) with (ReadOrgAIState db' user). rewrite K, andb_false_r.
    repeat match goal with
      | |- context [if ?b then _ else _] => destruct b; try done
      | |- context [match ?b with Some _ => _ | None => _ end] => destruct b; try done
      end. }
  destruct Hd as [->|[rq E]]; [apply T|]. apply probe_inv in E as [(_ & _ & _ & _ & E & _)|(_ & model & saved & -> & _)];
    [unfold Organization; by rewrite E|apply T].
Qed.

(** A confirmation turns AI on: right after the operation answers that it is
    recorded, a member whose saved choice is the organisation reads as
    configured on it, through its provider. *)
Theorem confirm_turns_on (V : Vault) (L : VaultLaws V) env user u org version now db cfg db' settings :
  ad_users db !! user = Some u -> us_OrgID u = Some org -> 0 < version ->
  ConfirmOrgAI env user org version now db = (Ok (OrgAIConfirmed, cfg), db') ->
  s_LLMProvider settings = LLMChoiceOrganization ->
  confirm_status (Some settings) (Some (ReadOrgAIState db' user))
  = Some {| as_Configured := true; as_Provider := c_Provider cfg; as_Configuration := ConfigurationOrganization;
            as_InOrganization := true; as_NotConfigured := None |}.
Proof.
  intros Hu Ho Hv C Hs.
  assert (Eu : ad_users db' = ad_users db /\ ad_orgai db' = ad_orgai db
               /\ ad_confirms db' = <[(user, org) := (version, now)]> (ad_confirms db)
               /\ Complete (GetOrgAIConfig db org) = true /\ c_Version (GetOrgAIConfig db org) = version
               /\ cfg = GetOrgAIConfig db org).
  { pose proof (confirm_tables _ _ _ _ _ _ _ _ C) as (Eo & [[_ Hn]|(E1 & Er & E2 & E3)]); [by destruct (Hn cfg)|].
    injection Er as ->. split_and!; try done. unfold ConfirmOrgAI in C.
    apply transact_inv in C as [(x & c & E & _ & _ & ->)|[[e ?] _]]; [|done].
    rewrite E2, E3, Z.eqb_refl in E. injection E as _ <-. done. }
  destruct Eu as (E1 & E2 & E3 & E4 & E5 & ->).
  assert (R : ReadOrgAIState db' user
              = {| os_OrgID := Some org; os_Config := GetOrgAIConfig db org; os_Confirmed := version |}).
  { unfold ReadOrgAIState, GetOrgAIConfig. by rewrite E1, E2, E3, Hu, Ho, lookup_insert_eq. }
  unfold confirm_status, LoadAIState, StatusOf, DecideState. rewrite R. cbn [st_Settings st_Org]. rewrite Hs.
  unfold decide_table. cbn [st_Settings st_Org].
  change (String.eqb LLMChoiceOrganization LLMChoiceOff) with false.
  change (IsKeyProvider LLMChoiceOrganization) with false.
  change (String.eqb LLMChoiceOrganization LLMChoiceUnsupported) with false.
  cbn [orb]. rewrite andb_false_r. unfold Confirmed, InOrg. cbn [os_OrgID os_Config os_Confirmed is_some].
  rewrite E4, E5, Z.eqb_refl. destruct (Z.eqb_spec version 0); [lia|]. cbn [negb andb String.eqb Ascii.eqb Bool.eqb].
  rewrite String.eqb_refl. by destruct (c_keyErr _).
Qed.

(** ** Witnesses *)

#[local] Existing Instances AdminStore.Demo.vault AdminStore.Demo.vault_laws.

Definition demo_user (choice : string) : AISettings :=
  let s := openSettingsSecrets "u1" demo_raw demo_settings in
  {| s_LLMProvider := choice; s_StoredLLMProvider := choice; s_LLMModel := s_LLMModel s; s_LLMBaseURL := s_LLMBaseURL s;
     s_LLMAPIKeys := s_LLMAPIKeys s; s_LLMUnboundAPIKey := s_LLMUnboundAPIKey s; s_AzureEndpoint := s_AzureEndpoint s;
     s_AzureDeployment := s_AzureDeployment s; s_AzureAPIVersion := s_AzureAPIVersion s; s_AWSRegion := s_AWSRegion s;
     s_BedrockModel := s_BedrockModel s; s_VertexModel := s_VertexModel s; s_MicrosoftTokens := s_MicrosoftTokens s;
     s_ZoomTokens := s_ZoomTokens s; s_WebcalURL := s_WebcalURL s; s_secrets := s_secrets s |}.

Definition demo_state (choice : string) : AIState :=
  {| st_Settings := demo_user choice; st_Org := ReadOrgAIState (snd OrgDemo.confirmed) "u1" |}.

Definition demo_probe : ProbeRequest := {| pb_Provider := None; pb_Model := None; pb_Key := None |}.

Definition demo_org_request : Request :=
  the_request (OpenAIClient "sk-org" "gpt" "") (https_url "api.openai.com" "/v1/chat/completions" "")
    {| pl_Model := "gpt"; pl_MaxTokens := 0; pl_System := "s"; pl_User := "u" |}.

Lemma decision_one_outcome_witness : one_outcome (DecideState (demo_state LLMChoiceOrganization)).
Proof.
  apply (decision_one_outcome (demo_state LLMChoiceOrganization)); [right; vm_compute; reflexivity|by left].
Defined.

Lemma client_is_own_or_confirmed_witness :
  exists d c, DecideProbeState (demo_state "openai") demo_probe = Ok d /\ d_Client d = Some c /\ client_key c = "sk-own".
Proof.
  destruct (DecideProbeState (demo_state "openai") demo_probe) as [d|] eqn:E; [|vm_compute in E; discriminate E].
  destruct (d_Client d) as [c|] eqn:C; [|vm_compute in E; injection E as <-; discriminate C].
  exists d, c. split; [reflexivity|]. split; [exact C|].
  pose proof (client_is_own_or_confirmed _ _ _ _ E C) as [_ P].
  assert (O : Organization d = false) by (vm_compute in E; injection E as <-; vm_compute; reflexivity).
  rewrite O in P. destruct P as (_ & _ & -> & _). vm_compute. reflexivity.
Defined.

Lemma organization_request_is_confirmed_witness :
  demo_org_request ∈ fst (Destinations.Complete OrgDemo.pol demo_network (fun s => Some s) (OpenAIClient "sk-org" "gpt" "") "s" "u")
  /\ exists org, os_OrgID (ReadOrgAIState (snd OrgDemo.confirmed) "u1") = Some org.
Proof.
  assert (H : demo_org_request ∈ fst (Destinations.Complete OrgDemo.pol demo_network (fun s => Some s)
                (OpenAIClient "sk-org" "gpt" "") "s" "u")).
  { replace (fst (Destinations.Complete OrgDemo.pol demo_network (fun s => Some s) (OpenAIClient "sk-org" "gpt" "") "s" "u"))
      with [demo_org_request] by (vm_compute; reflexivity). by left. }
  split; [exact H|].
  destruct (organization_request_is_confirmed _ _ AdminStore.Demo.db (snd OrgDemo.confirmed) "u1" (demo_user LLMChoiceOrganization)
     (DecideState (demo_state LLMChoiceOrganization)) (OpenAIClient "sk-org" "gpt" "") OrgDemo.pol demo_network (fun s => Some s) "s" "u"
     demo_org_request eq_refl OrgDemo.confirmed_history) as (_ & _ & org & _ & _ & _ & _ & _ & E & _).
  - by left.
  - vm_compute. reflexivity.
  - vm_compute. reflexivity.
  - exact H.
  - exists org. exact E.
Defined.

Lemma redacted_hides_keys_witness :
  exists d c, DecideProbeState (demo_state "openai") demo_probe = Ok d /\ d_Client d = Some c
    /\ Redact d "bad key sk-own: sk-own" = "bad key [redacted]: [redacted]"
    /\ ~ occurs "sk-own" (Redact d "bad key sk-own: sk-own").
Proof.
  destruct (DecideProbeState (demo_state "openai") demo_probe) as [d|] eqn:E; [|vm_compute in E; discriminate E].
  destruct (d_Client d) as [c|] eqn:C; [|vm_compute in E; injection E as <-; discriminate C].
  exists d, c. split; [reflexivity|]. split; [exact C|].
  split; [vm_compute in E; injection E as <-; vm_compute; reflexivity|].
  apply (redacted_hides_keys _ _ _ _ _ "sk-own" E C).
  - split; [discriminate|]. split; [vm_compute; reflexivity|]. split; [vm_compute; reflexivity|].
    apply cut_str_None. vm_compute. reflexivity.
  - right. right. right. exists "openai". split; vm_compute; reflexivity.
Defined.

Lemma saved_model_not_used_witness :
  exists c, d_Client (DecideState (demo_state "openai")) = Some c
    /\ match c with OpenAIClient _ m _ => m = "gpt-4o-mini" | _ => True end
    /\ s_LLMModel (demo_user "openai") = "gpt-x".
Proof.
  destruct (d_Client (DecideState (demo_state "openai"))) as [c|] eqn:C; [|vm_compute in C; discriminate C].
  exists c. split; [reflexivity|]. split; [|vm_compute; reflexivity].
  assert (O : Organization (DecideState (demo_state "openai")) = false) by (vm_compute; reflexivity).
  pose proof (proj1 (saved_model_not_used (demo_state "openai") c C O)) as P. destruct c; [exact P|exact I..].
Defined.

(** The organisation's key is replaced after the confirmation. *)
Definition demo_rekey : OrgAIWrite :=
  {| w_UserID := "u1"; w_OrgID := "o1"; w_Expected := 1;
     w_Patch := set_field no_patch OrgAIPropAPIKey "sk-next"; w_BreakGlass := true; w_SessionFresh := true;
     w_SessionIAT := 900000000000; w_Now := 1002 |}.
Definition demo_changed := WriteOrgAIConfig (AdminStore.Demo.env "4") demo_rekey (snd OrgDemo.confirmed).

Lemma change_needs_new_confirmation_witness :
  Organization (DecideState {| st_Settings := demo_user LLMChoiceOrganization;
                               st_Org := ReadOrgAIState (snd demo_changed) "u1" |}) = false
  /\ Organization (DecideState (demo_state LLMChoiceOrganization)) = true.
Proof.
  split; [|vm_compute; reflexivity].
  destruct (fst demo_changed) as [o|e] eqn:R; [|vm_compute in R; discriminate R].
  assert (E : WriteOrgAIConfig (AdminStore.Demo.env "4") demo_rekey (snd OrgDemo.confirmed) = (Ok o, snd demo_changed))
    by (rewrite <- R; unfold demo_changed; apply surjective_pairing).
  apply (change_needs_new_confirmation _ _ AdminStore.Demo.db (snd OrgDemo.confirmed) (AdminStore.Demo.env "4") demo_rekey o
    (snd demo_changed) "u1" (demo_user LLMChoiceOrganization)); [reflexivity|exact OrgDemo.confirmed_history|exact E| | |by left].
  - vm_compute. discriminate.
  - vm_compute. reflexivity.
Defined.

Lemma confirm_turns_on_witness :
  exists cfg, fst OrgDemo.confirmed = Ok (OrgAIConfirmed, cfg)
    /\ confirm_status (Some (demo_user LLMChoiceOrganization)) (Some (ReadOrgAIState (snd OrgDemo.confirmed) "u1"))
       = Some {| as_Configured := true; as_Provider := c_Provider cfg; as_Configuration := ConfigurationOrganization;
                 as_InOrganization := true; as_NotConfigured := None |}.
Proof.
  destruct (fst OrgDemo.confirmed) as [[[] cfg]|e] eqn:R; try (vm_compute in R; discriminate R).
  exists cfg. split; [reflexivity|].
  assert (E : ConfirmOrgAI (AdminStore.Demo.env "3") "u1" "o1" 1 1001 (snd OrgDemo.written) = (Ok (OrgAIConfirmed, cfg), snd OrgDemo.confirmed))
    by (rewrite <- R; unfold OrgDemo.confirmed; apply surjective_pairing).
  apply (confirm_turns_on _ _ (AdminStore.Demo.env "3") "u1" {| us_ID := "u1"; us_Email := "ann@example.com"; us_OrgID := Some "o1" |} "o1" 1 1001
    (snd OrgDemo.written) cfg); [vm_compute; reflexivity|reflexivity|lia|exact E|reflexivity].
Defined.
