(* ===== verification/RequestBudget.v ===== *)
(** * The request budget

    [internal/budget/budget.go]: every request runs its handler on a goroutine of
    its own while the middleware waits for it, for the budget, or for the end of
    the request's context, whichever the runtime delivers first.  The two sides
    share [state] under a mutex, and the handler writes through [writer].  One
    event is one critical section or one channel operation, so that a sequence of
    events is an interleaving of the middleware, the handler, the clock and the
    context.  What [net/http] does with a response is written out: the first
    status line is the one sent, a body without one is a 200, and a handler that
    returns without writing has answered an empty 200. *)

From stdpp Require Import relations gmap strings.
From S2P Require Import Prelude GoInt GoTime.

#[local] Open Scope string_scope.
#[local] Open Scope list_scope.
#[local] Open Scope Z_scope.

(** [Default], [Message], [expiryGrace]. *)
Definition Default : Z := 90 * Second.
Definition Message : string := "request timed out".
Definition expiryGrace : Z := 100 * 1000000.

(** ** The response *)

Definition Headers : Type := gmap string (list string).

Record Wire := {
  w_Header : Headers;                  (** what [Header()] returns *)
  w_sent : option (Z * Headers);       (** the status and headers sent *)
  w_body : string;
}.

Definition wire_edit (f : Headers -> Headers) (w : Wire) : Wire :=
  {| w_Header := f (w_Header w); w_sent := w_sent w; w_body := w_body w |}.

Definition wire_WriteHeader (code : Z) (w : Wire) : Wire :=
  match w_sent w with
  | Some _ => w
  | None => {| w_Header := w_Header w; w_sent := Some (code, w_Header w); w_body := w_body w |}
  end.

Definition wire_Write (b : string) (w : Wire) : Wire :=
  let w := wire_WriteHeader 200 w in
  {| w_Header := w_Header w; w_sent := w_sent w; w_body := w_body w +:+ b |}.

Definition wire_Flush : Wire -> Wire := wire_WriteHeader 200.

(** The client's side of the response once the server is done with the request. *)
Definition received (w : Wire) : option (Z * Headers) * string :=
  let w := wire_WriteHeader 200 w in (w_sent w, w_body w).

Definition newline : string := String (Ascii.ascii_of_nat 10) "".
Definition quote : string := String (Ascii.ascii_of_nat 34) "".

(** [{"error":"request timed out"}] and a newline. *)
Definition expired_body : string :=
  "{" +:+ quote +:+ "error" +:+ quote +:+ ":" +:+ quote +:+ Message +:+ quote +:+ "}" +:+ newline.

Definition WriteExpired (w : Wire) : Wire :=
  wire_Write expired_body
    (wire_WriteHeader 503
       (wire_edit (fun h => <["X-Content-Type-Options" := ["nosniff"]]> (<["Content-Type" := ["application/json"]]> h)) w)).

(** ** What the two goroutines share *)

(** An answer registered for the expiry. *)
Definition Answer := Wire -> Wire.

Record state := {
  expired : bool;
  committed : bool;
  wrote : bool;
  onExpire : option Answer;
}.

Definition state0 : state :=
  {| expired := false; committed := false; wrote := false; onExpire := None |}.

Definition set_expired (s : state) : state :=
  {| expired := true; committed := committed s; wrote := wrote s; onExpire := onExpire s |}.
Definition set_committed (s : state) : state :=
  {| expired := expired s; committed := true; wrote := wrote s; onExpire := onExpire s |}.
Definition set_wrote (s : state) : state :=
  {| expired := expired s; committed := committed s; wrote := true; onExpire := onExpire s |}.
Definition set_onExpire (a : Answer) (s : state) : state :=
  {| expired := expired s; committed := committed s; wrote := wrote s; onExpire := Some a |}.

(** [Commit]; without a budget ([None]) the context decides. *)
Definition Commit (s : option state) (ctx_ended : bool) : bool * option state :=
  match s with
  | None => (negb ctx_ended, None)
  | Some s => if expired s then (false, Some s) else (true, Some (set_committed s))
  end.

Definition OnExpiry (a : Answer) (s : option state) : option state := option_map (set_onExpire a) s.

Definition Expired (s : option state) : bool :=
  match s with None => false | Some s => expired s end.

(** ** The handler's writer *)

(** [begin]: the handler's headers replace the writer's the first time. *)
Definition begin (h : Headers) (s : state) (w : Wire) : bool * state * Wire :=
  if expired s then (false, s, w)
  else if wrote s then (true, s, w)
  else (true, set_wrote s, wire_edit (fun _ => h) w).

Definition bw_WriteHeader (code : Z) (h : Headers) (s : state) (w : Wire) : state * Wire :=
  let '(ok, s', w') := begin h s w in (s', if ok then wire_WriteHeader code w' else w').

(** [false]: the error of a write that came too late. *)
Definition bw_Write (b : string) (h : Headers) (s : state) (w : Wire) : bool * state * Wire :=
  let '(ok, s', w') := begin h s w in (ok, s', if ok then wire_Write b w' else w').

Definition bw_Flush (h : Headers) (s : state) (w : Wire) : state * Wire :=
  let '(ok, s', w') := begin h s w in (s', if ok then wire_Flush w' else w').

(** ** The two goroutines *)

Inductive Ended := DeadlineExceeded | Canceled.

#[export] Instance Ended_eq_dec : EqDecision Ended.
Proof. solve_decision. Defined.

(** The serving goroutine: in its [select]; out of it; with [gone] read; waiting for
    a handler that owns the answer; with the answer claimed; done. *)
Inductive Middleware :=
| Selecting
| Woken
| Deciding (gone : bool)
| Awaiting
| Answering (gone : bool) (respond : option Answer)
| Returned
| Raised (p : string).

(** The handler's goroutine: its panic not yet recovered; about to close [done];
    [done] closed; released from the shutdown group. *)
Inductive Handler := HRunning | HPanicked (p : string) | HEnding | HClosed | HReleased.

(** What a handler does with the request. *)
Inductive Op :=
| OHeader (f : Headers -> Headers)
| OWriteHeader (code : Z)
| OWrite (b : string)
| OFlush
| OCommit
| OOnExpiry (a : Answer).

Record Sys := {
  y_now : Z;                       (** since the start of the request *)
  y_ctx : option Ended;            (** [ctx.Err()] of the handler's context *)
  y_st : state;
  y_h : Headers;                   (** the handler's own header map *)
  y_wire : Wire;
  y_mw : Middleware;
  y_handler : Handler;
  y_panicked : option string;      (** the channel [panicked] *)
  y_logged : list string;          (** panics logged and reported *)
  y_ops : list Op;                 (** what the handler has done, in order *)
}.

Definition with_mw (m : Middleware) (s : Sys) : Sys :=
  {| y_now := y_now s; y_ctx := y_ctx s; y_st := y_st s; y_h := y_h s; y_wire := y_wire s; y_mw := m;
     y_handler := y_handler s; y_panicked := y_panicked s; y_logged := y_logged s; y_ops := y_ops s |}.
Definition with_ctx (c : option Ended) (s : Sys) : Sys :=
  {| y_now := y_now s; y_ctx := c; y_st := y_st s; y_h := y_h s; y_wire := y_wire s; y_mw := y_mw s;
     y_handler := y_handler s; y_panicked := y_panicked s; y_logged := y_logged s; y_ops := y_ops s |}.
Definition with_now (t : Z) (s : Sys) : Sys :=
  {| y_now := t; y_ctx := y_ctx s; y_st := y_st s; y_h := y_h s; y_wire := y_wire s; y_mw := y_mw s;
     y_handler := y_handler s; y_panicked := y_panicked s; y_logged := y_logged s; y_ops := y_ops s |}.
Definition with_handler (h : Handler) (s : Sys) : Sys :=
  {| y_now := y_now s; y_ctx := y_ctx s; y_st := y_st s; y_h := y_h s; y_wire := y_wire s; y_mw := y_mw s;
     y_handler := h; y_panicked := y_panicked s; y_logged := y_logged s; y_ops := y_ops s |}.
Definition with_st (st : state) (w : Wire) (s : Sys) : Sys :=
  {| y_now := y_now s; y_ctx := y_ctx s; y_st := st; y_h := y_h s; y_wire := w; y_mw := y_mw s;
     y_handler := y_handler s; y_panicked := y_panicked s; y_logged := y_logged s; y_ops := y_ops s |}.
Definition with_h (h : Headers) (s : Sys) : Sys :=
  {| y_now := y_now s; y_ctx := y_ctx s; y_st := y_st s; y_h := h; y_wire := y_wire s; y_mw := y_mw s;
     y_handler := y_handler s; y_panicked := y_panicked s; y_logged := y_logged s; y_ops := y_ops s |}.
Definition did (o : Op) (s : Sys) : Sys :=
  {| y_now := y_now s; y_ctx := y_ctx s; y_st := y_st s; y_h := y_h s; y_wire := y_wire s; y_mw := y_mw s;
     y_handler := y_handler s; y_panicked := y_panicked s; y_logged := y_logged s; y_ops := y_ops s ++ [o] |}.

(** [ServeHTTP] before the handler's goroutine starts. *)
Definition start (w : Wire) : Sys :=
  {| y_now := 0; y_ctx := None; y_st := state0; y_h := w_Header w; y_wire := w; y_mw := Selecting;
     y_handler := HRunning; y_panicked := None; y_logged := []; y_ops := [] |}.

(** [cancel()]. *)
Definition cancelled (c : option Ended) : option Ended :=
  match c with None => Some Canceled | Some e => Some e end.

(** One operation of the handler. *)
Definition perform (o : Op) (s : Sys) : Sys :=
  let s := did o s in
  match o with
  | OHeader f => with_h (f (y_h s)) s
  | OWriteHeader code => let '(st, w) := bw_WriteHeader code (y_h s) (y_st s) (y_wire s) in with_st st w s
  | OWrite b => let '(_, st, w) := bw_Write b (y_h s) (y_st s) (y_wire s) in with_st st w s
  | OFlush => let '(st, w) := bw_Flush (y_h s) (y_st s) (y_wire s) in with_st st w s
  | OCommit =>
      match Commit (Some (y_st s)) (bool_decide (y_ctx s <> None)) with
      | (_, Some st) => with_st st (y_wire s) s
      | _ => s
      end
  | OOnExpiry a =>
      match OnExpiry a (Some (y_st s)) with Some st => with_st st (y_wire s) s | None => s end
  end.

(** The handler's deferred recovery of a panic. *)
Definition recovered (p : string) (s : Sys) : Sys :=
  let s := with_handler HEnding s in
  if expired (y_st s)
  then {| y_now := y_now s; y_ctx := y_ctx s; y_st := y_st s; y_h := y_h s; y_wire := y_wire s;
          y_mw := y_mw s; y_handler := y_handler s; y_panicked := y_panicked s;
          y_logged := y_logged s ++ [p]; y_ops := y_ops s |}
  else {| y_now := y_now s; y_ctx := y_ctx s; y_st := y_st s; y_h := y_h s; y_wire := y_wire s;
          y_mw := y_mw s; y_handler := y_handler s; y_panicked := Some p;
          y_logged := y_logged s; y_ops := y_ops s |}.

(** [<-done]. *)
Definition done_closed (s : Sys) : bool :=
  match y_handler s with HClosed | HReleased => true | _ => false end.

(** The serving goroutine after [<-done]: a panic is raised again; the deferred
    [cancel] runs. *)
Definition finish (s : Sys) : Sys :=
  with_ctx (cancelled (y_ctx s))
    (with_mw (match y_panicked s with Some p => Raised p | None => Returned end) s).

(** The critical section after the [select]. *)
Definition decide_ (gone : bool) (s : Sys) : Sys :=
  if wrote (y_st s) then with_mw Awaiting s
  else if committed (y_st s) then with_ctx (cancelled (y_ctx s)) (with_mw Awaiting s)
  else with_mw (Answering gone (onExpire (y_st s))) (with_st (set_expired (y_st s)) (y_wire s) s).

Definition answer (respond : option Answer) : Answer :=
  match respond with Some f => f | None => WriteExpired end.

(** The answer of the budget; none when the context had ended before it. *)
Definition answered (gone : bool) (respond : option Answer) (s : Sys) : Sys :=
  with_ctx (cancelled (y_ctx s))
    (with_mw Returned (with_st (y_st s) (if gone then y_wire s else answer respond (y_wire s)) s)).

(** ** Events *)

Inductive Event :=
| ETime (t : Z)            (** the clock advances *)
| EDeadline                (** the handler's context reaches its deadline *)
| EParent                  (** the request's context is cancelled: the client went away,
                               or the shutdown cancels requests *)
| EOp (o : Op)
| EReturn
| EPanic (p : string)
| ERecover
| EClose                   (** [close(done)] *)
| ERelease
| EDone                    (** the [select] takes [done], the timer, or the context *)
| ETimer
| ECtx
| EGone
| EDecide
| EAnswer
| EWait.

Section Budget.
Context (budget : Z).

(** An event of the handler's goroutine, and one of the serving one. *)
Definition handler_event (e : Event) (s : Sys) : option Sys :=
  match e, y_handler s with
  | EOp o, HRunning => Some (perform o s)
  | EReturn, HRunning => Some (with_handler HEnding s)
  | EPanic p, HRunning => Some (with_handler (HPanicked p) s)
  | ERecover, HPanicked p => Some (recovered p s)
  | EClose, HEnding => Some (with_handler HClosed s)
  | ERelease, HClosed => Some (with_handler HReleased s)
  | _, _ => None
  end.

Definition serving_event (e : Event) (s : Sys) : option Sys :=
  match e, y_mw s with
  | EDone, Selecting => if done_closed s then Some (finish s) else None
  | ETimer, Selecting => if budget <=? y_now s then Some (with_mw Woken s) else None
  | ECtx, Selecting => if bool_decide (y_ctx s <> None) then Some (with_mw Woken s) else None
  | EGone, Woken => Some (with_mw (Deciding (bool_decide (y_ctx s = Some Canceled))) s)
  | EDecide, Deciding gone => Some (decide_ gone s)
  | EAnswer, Answering gone respond => Some (answered gone respond s)
  | EWait, Awaiting => if done_closed s then Some (finish s) else None
  | _, _ => None
  end.

(** An event, where it is possible. *)
Definition run (e : Event) (s : Sys) : option Sys :=
  match e with
  | ETime t => if y_now s <=? t then Some (with_now t s) else None
  | EDeadline =>
      if bool_decide (y_ctx s = None) && (budget + expiryGrace <=? y_now s)
      then Some (with_ctx (Some DeadlineExceeded) s) else None
  | EParent => if bool_decide (y_ctx s = None) then Some (with_ctx (Some Canceled) s) else None
  | EOp _ | EReturn | EPanic _ | ERecover | EClose | ERelease => handler_event e s
  | EDone | ETimer | ECtx | EGone | EDecide | EAnswer | EWait => serving_event e s
  end.

Definition step (s s' : Sys) : Prop := exists e, run e s = Some s'.

Fixpoint runs (es : list Event) (s : Sys) : option Sys :=
  match es with
  | [] => Some s
  | e :: es => match run e s with Some s' => runs es s' | None => None end
  end.

Definition serving (s : Sys) : bool :=
  match y_mw s with Returned | Raised _ => false | _ => true end.

(** ** The handler without the budget *)

Definition direct (w : Wire) (o : Op) : Wire :=
  match o with
  | OHeader f => wire_edit f w
  | OWriteHeader code => wire_WriteHeader code w
  | OWrite b => wire_Write b w
  | OFlush => wire_Flush w
  | OCommit | OOnExpiry _ => w
  end.

Definition direct_run (ops : list Op) (w : Wire) : Wire := fold_left direct ops w.

(** ** The invariant *)

Section Invariant.
Context (w0 : Wire).

(** The wire holds what the handler alone would have put on it. *)
Definition transparent (s : Sys) : Prop :=
  let d := direct_run (y_ops s) w0 in
  w_Header d = y_h s /\ w_sent d = w_sent (y_wire s) /\ w_body d = w_body (y_wire s) /\
  (wrote (y_st s) = true <-> w_sent d <> None) /\ (wrote (y_st s) = false -> y_wire s = w0).

(** The budget has claimed the answer: nothing of the handler is on the wire. *)
Definition claimed (s : Sys) : Prop :=
  wrote (y_st s) = false /\ committed (y_st s) = false /\
  ((exists gone r, y_mw s = Answering gone r /\ y_wire s = w0 /\ (gone = false -> budget <= y_now s)) \/
   (y_mw s = Returned /\
    (y_wire s = w0 \/ exists r, budget <= y_now s /\ y_wire s = answer r w0))).

Definition waiting (s : Sys) : Prop :=
  match y_mw s with
  | Selecting => True
  | Woken => budget <= y_now s \/ y_ctx s = Some Canceled
  | Deciding gone => gone = false -> budget <= y_now s
  | Awaiting => wrote (y_st s) = true \/ committed (y_st s) = true
  | Answering _ _ => False
  | Returned | Raised _ => done_closed s = true
  end.

Record inv (s : Sys) : Prop := {
  inv_deadline : y_ctx s = Some DeadlineExceeded -> budget <= y_now s;
  inv_claimed : expired (y_st s) = true -> claimed s;
  inv_open : expired (y_st s) = false -> transparent s /\ waiting s;
}.

Lemma budget_inv_start : w_sent w0 = None -> inv (start w0).
Proof. intros E. split; [done|done|]. intros _. split; [|done]. by repeat split. Qed.

(** [perform] on the parts the middleware reads. *)
Lemma perform_same o s :
  y_now (perform o s) = y_now s /\ y_ctx (perform o s) = y_ctx s /\ y_mw (perform o s) = y_mw s /\
  y_handler (perform o s) = y_handler s /\ y_ops (perform o s) = y_ops s ++ [o] /\
  expired (y_st (perform o s)) = expired (y_st s).
Proof.
  destruct s as [now ctx [ex cm wr oe] h wire mw hd pk lg ops].
  by destruct o, ex, wr.
Qed.

Lemma perform_late o s :
  expired (y_st s) = true ->
  y_wire (perform o s) = y_wire s /\ wrote (y_st (perform o s)) = wrote (y_st s) /\
  committed (y_st (perform o s)) = committed (y_st s).
Proof.
  destruct s as [now ctx [ex cm wr oe] h wire mw hd pk lg ops]. cbn. intros ->. by destruct o.
Qed.

Lemma perform_open_flags o s :
  (wrote (y_st s) = true -> wrote (y_st (perform o s)) = true) /\
  (committed (y_st s) = true -> committed (y_st (perform o s)) = true).
Proof.
  destruct s as [now ctx [ex cm wr oe] h wire mw hd pk lg ops]. by destruct o, ex, wr, cm.
Qed.

(** The client cannot tell the two responses apart. *)
Definition shown (d w : Wire) : Prop :=
  w_sent d = w_sent w /\ w_body d = w_body w /\ (w_sent d = None -> w_Header d = w_Header w).

Lemma shown_WriteHeader code d w : shown d w ->
  shown (wire_WriteHeader code d) (wire_WriteHeader code w) /\ w_sent (wire_WriteHeader code d) <> None.
Proof.
  intros (E1 & E2 & E3). unfold shown, wire_WriteHeader. rewrite <- E1.
  destruct (w_sent d) eqn:E; cbn; [by rewrite <- E1, E|]. by rewrite <- E3.
Qed.

Lemma shown_Write b d w : shown d w ->
  shown (wire_Write b d) (wire_Write b w) /\ w_sent (wire_Write b d) <> None.
Proof.
  intros [H N]%(shown_WriteHeader 200). unfold wire_Write, shown in *. cbn.
  destruct H as (E1 & E2 & E3). split; [|done]. split_and!; [done|by rewrite E2|done].
Qed.

Lemma set_wrote_id st : wrote st = true -> set_wrote st = st.
Proof. destruct st. cbn. by intros ->. Qed.

Lemma begin_open s : expired (y_st s) = false -> transparent s ->
  begin (y_h s) (y_st s) (y_wire s) =
    (true, set_wrote (y_st s), (begin (y_h s) (y_st s) (y_wire s)).2) /\
  shown (direct_run (y_ops s) w0) (begin (y_h s) (y_st s) (y_wire s)).2.
Proof.
  intros E (E1 & E2 & E3 & E4 & E5). unfold begin, shown. rewrite E, E1.
  destruct (wrote (y_st s)) eqn:W; cbn [snd].
  - split; [by rewrite set_wrote_id|]. split_and!; [done|done|].
    by intros N%(proj1 E4 eq_refl).
  - split; [done|]. by split_and!.
Qed.

Lemma wire_WriteHeader_header code w : w_Header (wire_WriteHeader code w) = w_Header w.
Proof. unfold wire_WriteHeader. by destruct (w_sent w). Qed.

(** A write of the handler, whatever it writes. *)
Lemma write_transparent o (f : Wire -> Wire) s :
  expired (y_st s) = false -> transparent s ->
  (forall d, direct d o = f d) -> (forall d, w_Header (f d) = w_Header d) ->
  (forall d w, shown d w -> shown (f d) (f w) /\ w_sent (f d) <> None) ->
  perform o s = (let '(ok, st, w) := begin (y_h s) (y_st s) (y_wire s) in
                 with_st st (if ok then f w else w) (did o s)) ->
  transparent (perform o s).
Proof.
  intros E H Hd Hh Hf Ep. destruct (begin_open s E H) as [Eb Hs].
  apply Hf in Hs as [(H1 & H2 & H3) N]. unfold transparent. rewrite Ep, Eb.
  unfold direct_run in *. cbn [y_ops y_h y_st y_wire with_st did set_wrote wrote].
  rewrite fold_left_app. cbn [fold_left]. rewrite Hd, Hh.
  split_and!; [apply H|done|done|done|done].
Qed.

(** An operation that writes nothing. *)
Lemma quiet_transparent o s :
  transparent s -> (forall d, direct d o = d) ->
  y_h (perform o s) = y_h s -> y_wire (perform o s) = y_wire s ->
  wrote (y_st (perform o s)) = wrote (y_st s) -> transparent (perform o s).
Proof.
  intros H Hd E1 E2 E3. destruct (perform_same o s) as (_ & _ & _ & _ & Eo & _).
  unfold transparent, direct_run. rewrite Eo, E1, E2, E3, fold_left_app. cbn [fold_left].
  by rewrite Hd.
Qed.

(** An operation keeps the two sides in step. *)
Lemma perform_transparent o s :
  expired (y_st s) = false -> transparent s -> transparent (perform o s).
Proof.
  intros E H. destruct o as [f|code|b| | |a].
  - destruct H as (E1 & E2 & E3 & E4 & E5). unfold transparent, direct_run in *. cbn.
    rewrite fold_left_app. cbn. by rewrite E1.
  - apply (write_transparent _ (wire_WriteHeader code)); try done.
    + apply wire_WriteHeader_header.
    + apply shown_WriteHeader.
    + unfold perform, bw_WriteHeader. cbn [y_h y_st y_wire did]. by destruct (begin _ _ _) as [[[] ?] ?].
  - apply (write_transparent _ (wire_Write b)); try done.
    + intros d. apply (wire_WriteHeader_header 200).
    + apply shown_Write.
    + unfold perform, bw_Write. cbn [y_h y_st y_wire did]. by destruct (begin _ _ _) as [[[] ?] ?].
  - apply (write_transparent _ wire_Flush); try done.
    + apply wire_WriteHeader_header.
    + apply (shown_WriteHeader 200).
    + unfold perform, bw_Flush. cbn [y_h y_st y_wire did]. by destruct (begin _ _ _) as [[[] ?] ?].
  - apply (quiet_transparent OCommit s); [done|done| | |]; unfold perform; cbn; by rewrite E.
  - by apply (quiet_transparent (OOnExpiry a) s).
Qed.

Lemma waiting_perform o s : waiting s -> waiting (perform o s).
Proof.
  destruct (perform_same o s) as (E1 & E2 & E3 & E4 & _). destruct (perform_open_flags o s) as [F1 F2].
  unfold waiting, done_closed. rewrite E1, E2, E3, E4. destruct (y_mw s); try done.
  intros [H|H]; [left|right]; auto.
Qed.

Lemma claimed_perform o s : expired (y_st s) = true -> claimed s -> claimed (perform o s).
Proof.
  intros E (H1 & H2 & H3). destruct (perform_same o s) as (E1 & E2 & E3 & E4 & _).
  destruct (perform_late o s E) as (F1 & F2 & F3).
  unfold claimed. by rewrite E1, E3, F1, F2, F3.
Qed.

(** An event that leaves the response alone. *)
Lemma inv_move s s' :
  y_st s' = y_st s -> y_wire s' = y_wire s -> y_h s' = y_h s -> y_ops s' = y_ops s ->
  (y_ctx s' = Some DeadlineExceeded -> budget <= y_now s') ->
  (expired (y_st s) = true -> y_mw s' = y_mw s /\ y_now s <= y_now s') ->
  (expired (y_st s) = false -> waiting s -> waiting s') ->
  inv s -> inv s'.
Proof.
  intros E1 E2 E3 E4 Hd Hc Ho [_ Ic Io]. split; [done| |].
  - rewrite E1. intros E. destruct (Hc E) as [Em Hn]. destruct (Ic E) as (H1 & H2 & H3).
    unfold claimed. rewrite E1, E2, Em. split_and!; [done|done|].
    destruct H3 as [(g & r & H3 & H4 & H5)|(H3 & [H4|(r & H4 & H5)])]; [left|right; split; [done|]..].
    + exists g, r. split_and!; [done|done|]. intros Hg. specialize (H5 Hg). lia.
    + by left.
    + right. exists r. split; [lia|done].
  - rewrite E1. intros E. destruct (Io E) as [H1 H2]. split; [|by apply Ho].
    unfold transparent. by rewrite E1, E2, E3, E4.
Qed.

Lemma finish_fields s :
  y_st (finish s) = y_st s /\ y_wire (finish s) = y_wire s /\ y_h (finish s) = y_h s /\
  y_ops (finish s) = y_ops s /\ y_now (finish s) = y_now s /\
  y_mw (finish s) = match y_panicked s with Some p => Raised p | None => Returned end /\
  done_closed (finish s) = done_closed s.
Proof. done. Qed.

Lemma inv_finish s :
  inv s -> expired (y_st s) = false -> done_closed s = true -> inv (finish s).
Proof.
  intros Hi E D. apply (inv_move s); try done.
  - cbn. pose proof (inv_deadline _ Hi). destruct (y_ctx s) as [[]|]; cbn; intros; auto; done.
  - rewrite E. done.
  - intros _ _. unfold waiting. cbn. unfold done_closed in *. cbn. by destruct (y_panicked s).
Qed.

(** The middleware is in its [select] or past it only while nothing is claimed. *)
Lemma not_claimed s : inv s ->
  match y_mw s with Answering _ _ | Returned => False | _ => True end -> expired (y_st s) = false.
Proof.
  intros Hi Hm. destruct (expired (y_st s)) eqn:E; [|done].
  destruct (inv_claimed _ Hi E) as (_ & _ & [(g & r & Em & _)|[Em _]]); by rewrite Em in Hm.
Qed.

(** Events of the clock, the context and the handler's goroutine. *)
Lemma inv_around s s' :
  y_st s' = y_st s -> y_wire s' = y_wire s -> y_h s' = y_h s -> y_ops s' = y_ops s ->
  y_mw s' = y_mw s -> y_now s <= y_now s' ->
  (y_ctx s' = y_ctx s \/ y_ctx s = None) ->
  (y_ctx s' = Some DeadlineExceeded -> budget <= y_now s') ->
  (done_closed s = true -> done_closed s' = true) -> inv s -> inv s'.
Proof.
  intros E1 E2 E3 E4 E5 Hn Hc Hd Hk Hi. apply (inv_move s); try done.
  intros _. unfold waiting. rewrite E1, E5. destruct (y_mw s); try done.
  - intros [H|H]; [left; lia|right]. by destruct Hc as [->|Hc]; [|congruence].
  - intros H G. specialize (H G). lia.
Qed.

Lemma inv_handler e s s' : handler_event e s = Some s' -> inv s -> inv s'.
Proof.
  intros He Hi. pose proof (inv_deadline s Hi) as Hd. unfold handler_event in He.
  destruct e as [| | |o| |p| | | | | | | | | |]; try done; destruct (y_handler s) eqn:Eh; simplify_eq.
  2-3,5-6: apply (inv_around s); try done; try (by left); unfold done_closed; by rewrite Eh.
  - destruct (perform_same o s) as (E1 & E2 & _ & _ & _ & E).
    split; rewrite ?E1, ?E2, ?E; [done| |]; intros Ex.
    + by apply claimed_perform, inv_claimed.
    + destruct (inv_open _ Hi Ex). split; [by apply perform_transparent|by apply waiting_perform].
  - unfold recovered. case_match;
      (apply (inv_around s); try done; try (by left); unfold done_closed; by rewrite Eh).
Qed.

Lemma inv_decide gone s : y_mw s = Deciding gone -> inv s -> inv (decide_ gone s).
Proof.
  intros Em Hi. pose proof (not_claimed s Hi) as Hn. rewrite Em in Hn. specialize (Hn I).
  destruct (inv_open _ Hi Hn) as [Ht Hw]. unfold waiting in Hw. rewrite Em in Hw. unfold decide_.
  destruct (wrote (y_st s)) eqn:W; [|destruct (committed (y_st s)) eqn:C].
  - apply (inv_move s); try done; [apply Hi|by rewrite Hn|]. intros _ _. by left.
  - apply (inv_move s); try done; [|by rewrite Hn|intros _ _; by right].
    cbn. intros H. apply (inv_deadline _ Hi). by destruct (y_ctx s) as [[]|].
  - split; [apply Hi| |done]. intros _. split_and!; [done|done|]. left. exists gone, (onExpire (y_st s)).
    split_and!; [done|by apply Ht|done].
Qed.

Lemma inv_answer gone respond s :
  y_mw s = Answering gone respond -> inv s -> inv (answered gone respond s).
Proof.
  intros Em Hi. destruct (expired (y_st s)) eqn:E.
  - destruct (inv_claimed _ Hi E) as (W & C & [(g & r & Em' & Ew & Hb)|[Em' _]]); [|congruence].
    rewrite Em in Em'. injection Em' as <- <-. split; cbn; [|intros _|congruence].
    + intros H. apply (inv_deadline _ Hi). by destruct (y_ctx s) as [[]|].
    + split_and!; [done|done|]. right. split; [done|]. cbn. rewrite Ew.
      destruct gone; [by left|]. right. exists respond. by split; [apply Hb|].
  - destruct (inv_open _ Hi E) as [_ Hw]. unfold waiting in Hw. by rewrite Em in Hw.
Qed.

Lemma inv_serving e s s' : serving_event e s = Some s' -> inv s -> inv s'.
Proof.
  intros He Hi. pose proof (not_claimed s Hi) as Hn. pose proof (inv_deadline s Hi) as Hd.
  unfold serving_event in He.
  destruct e; try done; destruct (y_mw s) eqn:Em; try done; try (case_match eqn:El; try done); simplify_eq.
  - by apply inv_finish; [|apply Hn|].
  - apply Z.leb_le in El. apply (inv_move s); try done; rewrite Hn; try done. intros _ _. by left.
  - apply bool_decide_eq_true in El. apply (inv_move s); try done; rewrite Hn; try done. intros _ _.
    unfold waiting. cbn. destruct (y_ctx s) as [[]|]; [left; by apply Hd|by right|done].
  - apply (inv_move s); try done; rewrite Hn; try done. intros _. unfold waiting. rewrite Em. cbn.
    intros [H|H]; [by intros _|]. rewrite H. by rewrite bool_decide_eq_true_2.
  - by apply inv_decide.
  - by apply inv_answer.
  - by apply inv_finish; [|apply Hn|].
Qed.

Lemma budget_inv_step s s' : step s s' -> inv s -> inv s'.
Proof.
  intros [e He] Hi. pose proof (inv_deadline s Hi) as Hd.
  destruct e; cbn [run] in He; try (by eapply inv_handler); try (by eapply inv_serving);
    case_match eqn:El; simplify_eq.
  - apply Z.leb_le in El. apply (inv_around s); try done; cbn; [by left|].
    intros H. specialize (Hd H). lia.
  - apply andb_true_iff in El as [E1 E2]. apply bool_decide_eq_true in E1. apply Z.leb_le in E2.
    unfold expiryGrace in E2. apply (inv_around s); try done; cbn; [by right|lia].
  - apply bool_decide_eq_true in El. apply (inv_around s); try done. by right.
Qed.

Lemma inv_reachable s : w_sent w0 = None -> rtc step (start w0) s -> inv s.
Proof.
  intros E. apply rtc_ind_r; [by apply budget_inv_start|]. intros x y _ Hs. by apply budget_inv_step.
Qed.

End Invariant.
End Budget.

(** ** Commitment and progress *)

Section Progress.
Context (budget : Z).

Lemma reachable_runs es s s' : runs budget es s = Some s' -> rtc (step budget) s s'.
Proof.
  revert s. induction es as [|e es IH]; cbn; intros s H; [by injection H as ->|].
  destruct (run budget e s) as [x|] eqn:E; [|done]. eapply rtc_l; [by exists e|by apply IH].
Qed.

Lemma committed_step s s' : step budget s s' -> committed (y_st s) = true -> committed (y_st s') = true.
Proof.
  intros [e He] C. destruct e; cbn [run] in He; unfold handler_event, serving_event in He;
    try (destruct (y_handler s) eqn:Eh; try done); try (destruct (y_mw s) eqn:Em; try done);
    try (case_match; try done); simplify_eq; try done;
    try (by apply perform_open_flags); unfold recovered, decide_; rewrite ?C; repeat case_match; done.
Qed.

Lemma expired_step s s' : step budget s s' -> expired (y_st s) = true -> expired (y_st s') = true.
Proof.
  intros [e He] C. destruct e; cbn [run] in He; unfold handler_event, serving_event in He;
    try (destruct (y_handler s) eqn:Eh; try done); try (destruct (y_mw s) eqn:Em; try done);
    try (case_match; try done); simplify_eq; try done;
    try (destruct (perform_same o s) as (_ & _ & _ & _ & _ & ->)); unfold recovered, decide_;
    repeat case_match; done.
Qed.

Lemma expired_stays s s' :
  expired (y_st s) = true -> rtc (step budget) s s' -> expired (y_st s') = true.
Proof. intros E H. induction H; [done|]. eauto using expired_step. Qed.

Lemma committed_open w0 s s' :
  inv budget w0 s -> committed (y_st s) = true -> rtc (step budget) s s' ->
  inv budget w0 s' /\ expired (y_st s') = false.
Proof.
  intros Hi C H. assert (K : inv budget w0 s' /\ committed (y_st s') = true).
  { induction H as [|x y z Hs _ IH]; [done|]. apply IH; [by eapply budget_inv_step|by eapply committed_step]. }
  destruct K as [K C']. split; [done|]. destruct (expired (y_st s')) eqn:E; [|done].
  destruct (inv_claimed _ _ _ K E) as (_ & C'' & _). congruence.
Qed.

Definition serving_step (s s' : Sys) : Prop := exists e, serving_event budget e s = Some s'.

(** What the serving goroutine still has to do. *)
Definition rank (s : Sys) : nat :=
  match y_mw s with
  | Selecting => 4 | Woken => 3 | Deciding _ => 2 | Awaiting | Answering _ _ => 1
  | Returned | Raised _ => 0
  end.

Lemma serving_rank s s' : serving_step s s' -> (rank s' < rank s)%nat.
Proof.
  intros [e He]. unfold serving_event in He. unfold rank at 2.
  destruct e; try done; destruct (y_mw s) eqn:Em; try done;
    try (destruct (done_closed s); [|done]); try (destruct (budget <=? y_now s); [|done]);
    try (destruct (bool_decide _); [|done]); injection He as <-; unfold rank; cbn;
    unfold decide_; try (destruct (y_panicked s)); try lia.
  all: destruct (wrote (y_st s)), (committed (y_st s)); cbn; lia.
Qed.

(** Waiting for a handler that owns the answer. *)
Definition waits_for_handler (s : Sys) : Prop :=
  y_mw s = Awaiting /\ done_closed s = false /\ (wrote (y_st s) = true \/ committed (y_st s) = true).

Lemma serving_progress w0 s :
  inv budget w0 s -> serving s = true -> budget <= y_now s \/ y_ctx s <> None ->
  (exists s', serving_step s s' /\ (budget <= y_now s' \/ y_ctx s' <> None)) \/ waits_for_handler s.
Proof.
  intros Hi Hs Hd. pose proof (not_claimed _ _ _ Hi) as Hn. unfold serving in Hs.
  unfold serving_step, serving_event. destruct (y_mw s) eqn:Em; try done.
  - left. destruct Hd as [Hd|Hd].
    + eexists. split; [exists ETimer; by apply Z.leb_le in Hd as ->|by left].
    + eexists. split; [exists ECtx; by rewrite bool_decide_eq_true_2|by right].
  - left. eexists. split; [by exists EGone|done].
  - left. eexists. split; [by exists EDecide|]. unfold decide_. repeat case_match; cbn; try done.
    right. by destruct (y_ctx s).
  - destruct (inv_open _ _ _ Hi (Hn I)) as [_ Hw]. unfold waiting in Hw. rewrite Em in Hw.
    destruct (done_closed s) eqn:D; [left|right; done].
    eexists. split; [exists EWait; done|]. right. cbn. by destruct (y_ctx s).
  - left. eexists. split; [by exists EAnswer|]. right. cbn. by destruct (y_ctx s).
Qed.

Lemma serving_inv w0 s s' : serving_step s s' -> inv budget w0 s -> inv budget w0 s'.
Proof. intros [e He]. by eapply inv_serving. Qed.

(** ** Properties *)

(** The client's response is the handler's or the budget's, never a mixture.
    While the budget has not claimed the answer, what has been sent is exactly
    what the handler would have sent without the budget.  Once it has, nothing
    the handler ever did is on the wire: the response is untouched, or it is
    the whole answer of the budget -- the registered one, or the 503 -- put
    there no earlier than the budget, and the handler had neither started its
    response nor committed.  Without a claim the serving goroutine returns only
    after the handler. *)
Theorem one_answer w s :
  w_sent w = None -> rtc (step budget) (start w) s ->
  if expired (y_st s) then
    wrote (y_st s) = false /\ committed (y_st s) = false /\
    (y_wire s = w \/ exists respond, budget <= y_now s /\ y_wire s = answer respond w)
  else
    w_sent (y_wire s) = w_sent (direct_run (y_ops s) w) /\
    w_body (y_wire s) = w_body (direct_run (y_ops s) w) /\
    (serving s = false -> done_closed s = true).
Proof.
  intros E Hs. pose proof (inv_reachable _ _ _ E Hs) as Hi. destruct (expired (y_st s)) eqn:Ex.
  - destruct (inv_claimed _ _ _ Hi Ex) as (H1 & H2 & [(g & r & _ & H3 & _)|(_ & H3)]);
      (split_and!; [done|done|]); [by left|done].
  - destruct (inv_open _ _ _ Hi Ex) as [(_ & H2 & H3 & _) Hw]. split_and!; [done|done|].
    unfold waiting in Hw. unfold serving. by destruct (y_mw s).
Qed.

(** Committed work decides its own answer.  When [Commit] says yes, the budget
    never claims the answer after it, in any continuation: what is sent is the
    handler's and the serving goroutine returns only after the handler.  When
    it says no, the budget had claimed the answer, and nothing the handler
    writes afterwards is sent. *)
Theorem committed_answer w s s1 s2 ended :
  w_sent w = None -> rtc (step budget) (start w) s -> run budget (EOp OCommit) s = Some s1 ->
  rtc (step budget) s1 s2 ->
  if (Commit (Some (y_st s)) ended).1 then
    expired (y_st s2) = false /\
    w_sent (y_wire s2) = w_sent (direct_run (y_ops s2) w) /\
    w_body (y_wire s2) = w_body (direct_run (y_ops s2) w) /\
    (serving s2 = false -> done_closed s2 = true)
  else
    expired (y_st s) = true /\
    (y_wire s2 = w \/ exists respond, budget <= y_now s2 /\ y_wire s2 = answer respond w).
Proof.
  intros E Hs H1 H2. assert (Hs1 : step budget s s1) by by eexists.
  assert (Hi1 : inv budget w s1) by (eapply budget_inv_step; [exact Hs1|by apply inv_reachable]).
  cbn [run] in H1. unfold handler_event in H1. destruct (y_handler s); try done.
  assert (s1 = perform OCommit s) as -> by congruence. clear H1. cbn [Commit]. destruct (expired (y_st s)) eqn:Ex; cbn [fst].
  - split; [done|]. assert (Ex2 : expired (y_st s2) = true).
    { apply (expired_stays (perform OCommit s)); [|done].
      destruct (perform_same OCommit s) as (_ & _ & _ & _ & _ & ->). exact Ex. }
    assert (Hi2 : inv budget w s2).
    { clear -H2 Hi1. induction H2; [done|]. apply IHrtc. by eapply budget_inv_step. }
    destruct (inv_claimed _ _ _ Hi2 Ex2) as (_ & _ & [(g & r & _ & H3 & _)|(_ & H3)]); [by left|done].
  - destruct (committed_open w (perform OCommit s) s2) as [Hi2 Ex2]; [done| |done|].
    { unfold perform. cbn. by rewrite Ex. }
    destruct (inv_open _ _ _ Hi2 Ex2) as [(_ & G2 & G3 & _) Hw]. split_and!; [done|done|done|].
    unfold waiting in Hw. unfold serving. by destruct (y_mw s2).
Qed.

(** C40: The budget bounds the wait.  In every state the middleware reaches, once the
    budget has elapsed or the request's context has ended, at most four steps of
    the serving goroutine alone -- whatever the handler does or does not do --
    lead to its return, or to its waiting for a handler that has started its
    response or has committed and has not returned yet; and no run of these
    steps is longer. *)
Theorem budget_ends_the_wait w s :
  w_sent w = None -> rtc (step budget) (start w) s ->
  budget <= y_now s \/ y_ctx s <> None ->
  (exists s', rtc serving_step s s' /\ (serving s' = false \/ waits_for_handler s')) /\
  (forall n s', nsteps serving_step n s s' -> (n <= 4)%nat).
Proof.
  intros E Hs Hd. pose proof (inv_reachable _ _ _ E Hs) as Hi. clear Hs. split.
  - remember (rank s) as n eqn:En. revert s En Hi Hd.
    induction n as [n IH] using lt_wf_ind. intros s -> Hi Hd.
    destruct (serving s) eqn:Es; [|by exists s; split; [|left]].
    destruct (serving_progress w s Hi Es Hd) as [(s1 & H1 & H2)|H]; [|by exists s; split; [|right]].
    destruct (IH (rank s1) (serving_rank _ _ H1) s1 eq_refl (serving_inv _ _ _ H1 Hi) H2) as (s' & H3 & H4).
    exists s'. split; [by eapply rtc_l|done].
  - intros n s' H. enough (H' : (n + rank s' <= rank s)%nat).
    { enough (rank s <= 4)%nat by lia. unfold rank. destruct (y_mw s); lia. }
    clear -H. induction H as [|n x y z Hxy _ IH]; [lia|]. apply serving_rank in Hxy. lia.
Qed.
End Progress.

(** The answer without a registration is a complete JSON 503. *)
Lemma WriteExpired_received w :
  w_sent w = None -> w_body w = "" ->
  exists h, received (WriteExpired w) = (Some (503, h), expired_body) /\
    h !! "Content-Type" = Some ["application/json"].
Proof.
  intros E1 E2. unfold WriteExpired. set (w' := wire_edit _ w).
  exists (w_Header w'). split.
  - unfold received, wire_Write, wire_WriteHeader. cbn [w_sent w_body w_Header w' wire_edit].
    rewrite E1. cbn [w_sent w_body w_Header]. by rewrite E2.
  - unfold w', wire_edit. cbn [w_Header]. unfold Headers.
    by rewrite (lookup_insert_ne (M := gmap string)), (lookup_insert_eq (M := gmap string)).
Qed.

(** ** Concrete runs *)

Module BudgetDemo.
Definition blank : Wire := {| w_Header := ∅; w_sent := None; w_body := "" |}.
(** A handler that commits, outlives the budget, and answers. *)
Definition commits : list Event := [EOp OCommit].
Definition outlives : list Event :=
  [ETime (Default + Second); ETimer; EGone; EDecide; EOp (OWriteHeader 201); EOp (OWrite "saved");
   EReturn; EClose; EWait].
(** A handler that is still running at the budget, and writes late. *)
Definition late : list Event :=
  [ETime Default; ETimer; EGone; EDecide; EOp (OWrite "late"); EAnswer; EOp (OWrite "later")].
(** The shutdown cancels the requests while a handler runs. *)
Definition cancelled_run : list Event := [ETime Second; EParent; ECtx; EGone; EDecide; EAnswer].
(** A handler that panics while the serving goroutine is about to claim the answer. *)
Definition panics : list Event :=
  [ETime Default; ETimer; EGone; EPanic "boom"; ERecover; EDecide; EAnswer; EClose; ERelease].
Definition after (es : list Event) : Sys := default (start blank) (runs Default es (start blank)).
Lemma after_reachable es :
  bool_decide (is_Some (runs Default es (start blank))) = true -> rtc (step Default) (start blank) (after es).
Proof.
  intros [s E]%bool_decide_eq_true. unfold after. rewrite E. by apply (reachable_runs Default es).
Qed.
End BudgetDemo.

(** A request cancelled by the shutdown reads as a success.  At the end of the
    drain the server cancels the contexts of the requests it still serves; the
    middleware takes this for a client that went away and returns without
    writing, while the handler is still running, and the client, still
    connected, receives an empty 200. *)
Theorem cancelled_request_answers_200 :
  exists s, rtc (step Default) (start BudgetDemo.blank) s /\
    y_mw s = Returned /\ y_handler s = HRunning /\ y_ops s = [] /\ y_now s < Default /\
    received (y_wire s) = (Some (200, ∅), "").
Proof.
  exists (BudgetDemo.after BudgetDemo.cancelled_run).
  split; [apply BudgetDemo.after_reachable; by vm_compute|]. by vm_compute.
Qed.

(** A panic between the end of the wait and the claim is neither raised again nor
    logged. *)
Lemma panic_is_lost :
  exists s, rtc (step Default) (start BudgetDemo.blank) s /\
    y_mw s = Returned /\ y_handler s = HReleased /\ y_panicked s = Some "boom" /\ y_logged s = [].
Proof.
  exists (BudgetDemo.after BudgetDemo.panics).
  split; [apply BudgetDemo.after_reachable; by vm_compute|]. by vm_compute.
Qed.

Lemma one_answer_witness :
  let s := BudgetDemo.after BudgetDemo.late in
  expired (y_st s) = true /\ wrote (y_st s) = false /\
  option_map fst (w_sent (y_wire s)) = Some 503 /\ w_body (y_wire s) = expired_body.
Proof.
  cbv zeta. pose proof (one_answer Default BudgetDemo.blank (BudgetDemo.after BudgetDemo.late) eq_refl) as H.
  assert (E : expired (y_st (BudgetDemo.after BudgetDemo.late)) = true) by by vm_compute.
  rewrite E in H. destruct H as (H & _); [apply BudgetDemo.after_reachable; by vm_compute|].
  split; [exact E|]. split; [exact H|]. split; vm_compute; reflexivity.
Defined.

Lemma committed_answer_witness :
  let s2 := BudgetDemo.after (BudgetDemo.commits ++ BudgetDemo.outlives) in
  expired (y_st s2) = false /\ serving s2 = false /\
  (w_sent (y_wire s2), w_body (y_wire s2)) = (Some (201, ∅), "saved").
Proof.
  cbv zeta. split.
  - refine (proj1 (committed_answer Default BudgetDemo.blank (start BudgetDemo.blank)
      (BudgetDemo.after BudgetDemo.commits) (BudgetDemo.after (BudgetDemo.commits ++ BudgetDemo.outlives)) false
      eq_refl (rtc_refl _ _) _ _)).
    + by vm_compute.
    + apply (reachable_runs Default BudgetDemo.outlives). by vm_compute.
  - split; vm_compute; reflexivity.
Defined.

Lemma budget_ends_the_wait_witness :
  let s := BudgetDemo.after [ETime Default] in
  exists s', rtc (serving_step Default) s s' /\ (serving s' = false \/ waits_for_handler s').
Proof.
  cbv zeta. refine (proj1 (budget_ends_the_wait Default BudgetDemo.blank _ eq_refl _ _)).
  - apply BudgetDemo.after_reachable. by vm_compute.
  - left. apply Z.leb_le. vm_compute. reflexivity.
Defined.
