(* ===== verification/Lifecycle.v ===== *)
(** * Tracked work and the shutdown sequence

    [internal/lifecycle/lifecycle.go].  A [Group] is the set of the units that
    run, and a channel that is closed while there is none; [Track] and the
    function it returns are two critical sections.  [Shutdown] runs beside the
    units: its steps, those of its [Wait], the clock, the server it shuts down
    and the units that start and end are events of one system.  Channels are
    numbers, and closing a closed one panics, as in Go. *)

From stdpp Require Import relations gmap strings sorting.
From S2P Require Import Prelude GoInt GoTime.

#[local] Open Scope string_scope.
#[local] Open Scope list_scope.
#[local] Open Scope Z_scope.

(** ** Units *)

Section Units.
(** What the functions [Detail] look at. *)
Context {World : Type}.

Record Unit_ := { Kind : string; ID : string; Detail : option (World -> string) }.

(** [String]. *)
Definition unit_string (u : Unit_) : string :=
  Kind u +:+ (if String.eqb (ID u) "" then "" else " " +:+ ID u).

(** The line of an abandoned unit. *)
Definition abandoned (w : World) (u : Unit_) : string :=
  "shutdown: abandoned " +:+ unit_string u +:+
  match Detail u with
  | Some f => if String.eqb (f w) "" then "" else " (" +:+ f w +:+ ")"
  | None => ""
  end.

(** ** The group *)

Record Group := {
  next : Z;                  (** a [uint64] *)
  units : gmap Z Unit_;
  idle : nat;                (** the channel of the moment *)
  chans : nat;               (** channels made so far *)
  closed : gset nat;
  fired : gset Z;            (** the units whose [sync.Once] has run *)
  work_cancelled : bool;     (** [ctx] *)
  shutting : bool;
  drainDeadline : Z;         (** 0 until the drain starts *)
}.

Definition NewGroup : Group :=
  {| next := 0; units := ∅; idle := 0; chans := 1; closed := {[0%nat]}; fired := ∅;
     work_cancelled := false; shutting := false; drainDeadline := 0 |}.

Definition Track (u : Unit_) (g : Group) : Z * Group :=
  let first := bool_decide (units g = ∅) in
  (next g,
   {| next := (next g + 1) mod 2 ^ 64; units := <[next g := u]> (units g);
      idle := if first then chans g else idle g; chans := if first then S (chans g) else chans g;
      closed := closed g; fired := fired g;
      work_cancelled := work_cancelled g; shutting := shutting g; drainDeadline := drainDeadline g |}).

(** The function [Track] returned for [id]; [None] is a panic. *)
Definition done_ (id : Z) (g : Group) : option Group :=
  if bool_decide (id ∈ fired g) then Some g
  else
    let us := delete id (units g) in
    let empty := bool_decide (us = ∅) in
    if empty && bool_decide (idle g ∈ closed g) then None
    else Some {| next := next g; units := us; idle := idle g; chans := chans g;
                 closed := if empty then {[idle g]} ∪ closed g else closed g;
                 fired := {[id]} ∪ fired g;
                 work_cancelled := work_cancelled g; shutting := shutting g;
                 drainDeadline := drainDeadline g |}.

(** [Pending]: oldest first. *)
Definition Pending (g : Group) : list Unit_ :=
  omap (fun id => units g !! id) (merge_sort Z.le (elements (dom (units g)))).

Definition BeginShutdown (g : Group) : Group :=
  {| next := next g; units := units g; idle := idle g; chans := chans g; closed := closed g;
     fired := fired g; work_cancelled := work_cancelled g; shutting := true;
     drainDeadline := drainDeadline g |}.
Definition setDrainDeadline (t : Z) (g : Group) : Group :=
  {| next := next g; units := units g; idle := idle g; chans := chans g; closed := closed g;
     fired := fired g; work_cancelled := work_cancelled g; shutting := shutting g;
     drainDeadline := t |}.
Definition cancel (g : Group) : Group :=
  {| next := next g; units := units g; idle := idle g; chans := chans g; closed := closed g;
     fired := fired g; work_cancelled := true; shutting := shutting g;
     drainDeadline := drainDeadline g |}.

(** ** A group against the list of what runs *)

Inductive GroupEvent := GTrack (u : Unit_) | GDone (id : Z).

Definition group_event (e : GroupEvent) (g : Group) : option Group :=
  match e with
  | GTrack u => Some (Track u g).2
  | GDone id => if (0 <=? id) && (id <? next g) then done_ id g else Some g
  end.

Fixpoint group_run (es : list GroupEvent) (g : Group) : option Group :=
  match es with
  | [] => Some g
  | e :: es => match group_event e g with Some g' => group_run es g' | None => None end
  end.

(** What runs, with its number, oldest first. *)
Fixpoint running (n : Z) (l : list (Z * Unit_)) (es : list GroupEvent) : list (Z * Unit_) :=
  match es with
  | [] => l
  | GTrack u :: es => running (n + 1) (l ++ [(n, u)]) es
  | GDone id :: es => running n (if (0 <=? id) && (id <? n) then keep (fun p => negb (p.1 =? id)) l else l) es
  end.

(** The group holds the units of the list. *)
Record holds (n : Z) (l : list (Z * Unit_)) (g : Group) : Prop := {
  h_next : next g = n;
  h_nonneg : 0 <= n;
  h_sorted : StronglySorted Z.lt (l.*1);
  h_range : Forall (fun p => 0 <= p.1 < n) l;
  h_units : units g = list_to_map l;
  h_fired : forall id, id ∈ fired g <-> 0 <= id < n /\ id ∉ l.*1;
  h_chans : (idle g < chans g)%nat /\ forall c, c ∈ closed g -> (c < chans g)%nat;
  h_idle : idle g ∈ closed g <-> l = [];
}.

Lemma sorted_fst_lt (n : Z) (l : list (Z * Unit_)) id :
  Forall (fun p => 0 <= p.1 < n) l -> id ∈ l.*1 -> 0 <= id < n.
Proof. intros H (p & -> & Hp)%list_elem_of_fmap. rewrite Forall_forall in H. by apply H. Qed.

Lemma holds_NewGroup : holds 0 [] NewGroup.
Proof.
  split; try done; cbn.
  - constructor.
  - intros id. split; [intros H; set_solver|lia].
  - split; [lia|]. intros c ->%elem_of_singleton. lia.
Qed.

Lemma map_nil_iff (l : list (Z * Unit_)) : (list_to_map l : gmap Z Unit_) = ∅ <-> l = [].
Proof.
  split; [|by intros ->]. destruct l as [|[i u] l]; [done|]. cbn.
  intros H. by apply insert_non_empty in H.
Qed.

Lemma holds_Track n l g u :
  holds n l g -> n + 1 < 2 ^ 64 -> holds (n + 1) (l ++ [(n, u)]) (Track u g).2.
Proof.
  intros [H1 H2 H3 H4 H5 H6 [H7 H7'] H8] Hn. unfold Track.
  assert (Hfresh : n ∉ l.*1) by (intros Hin; apply (sorted_fst_lt n l) in Hin; [lia|done]).
  split; cbn.
  - rewrite H1. apply Z.mod_small. lia.
  - lia.
  - rewrite fmap_app. apply StronglySorted_app. split_and!; [|done|by repeat constructor].
    intros x y Hx Hy. cbn in Hy. apply list_elem_of_singleton in Hy as ->.
    apply (sorted_fst_lt n l) in Hx; [lia|done].
  - apply Forall_app. split; [|repeat constructor; cbn; lia].
    eapply Forall_impl; [exact H4|]. intros p; cbn. lia.
  - by rewrite list_to_map_snoc, H1, H5.
  - intros id. rewrite H6, fmap_app, not_elem_of_app. cbn. rewrite list_elem_of_singleton.
    destruct (decide (id = n)) as [->|Hne]; [split; lia|].
    split; intros [? ?]; split_and!; try done; lia || by destruct_and!.
  - case_bool_decide; (split; [lia|]); intros c Hc; specialize (H7' c Hc); lia.
  - split; [|by intros [_ ?]%app_nil]. rewrite H5. case_bool_decide as Hl.
    + intros Hc. specialize (H7' _ Hc). lia.
    + intros ->%H8. by destruct Hl.
Qed.

(** The removal of a number from the list. *)
Lemma keep_other (id : Z) (l : list (Z * Unit_)) :
  list_to_map (keep (fun p => negb (p.1 =? id)) l) = delete id (list_to_map l : gmap Z Unit_).
Proof.
  induction l as [|[i u] l IH]; [by cbn; rewrite delete_empty|].
  change (list_to_map ((i, u) :: l)) with (<[i:=u]> (list_to_map l : gmap Z Unit_)).
  unfold keep in *. cbn [List.filter fst]. destruct (Z.eqb_spec i id) as [->|Hne]; cbn [negb].
  - by rewrite IH, delete_insert_eq.
  - cbn. rewrite IH. by rewrite delete_insert_ne by done.
Qed.

Lemma keep_fst (id : Z) (l : list (Z * Unit_)) i :
  i ∈ (keep (fun p => negb (p.1 =? id)) l).*1 <-> i ∈ l.*1 /\ i <> id.
Proof.
  rewrite !list_elem_of_fmap. split.
  - intros (p & -> & [Hp Hn]%elem_of_keep). split; [by exists p|].
    intros E. by rewrite E, Z.eqb_refl in Hn.
  - intros [(p & -> & Hp) Hn]. exists p. split; [done|]. apply elem_of_keep. split; [done|].
    apply negb_true_iff. by apply Z.eqb_neq.
Qed.

Lemma holds_done id n l g :
  holds n l g -> 0 <= id < n ->
  exists g', done_ id g = Some g' /\ holds n (keep (fun p => negb (p.1 =? id)) l) g'.
Proof.
  intros [H1 H2 H3 H4 H5 H6 [H7 H7'] H8] Hid. unfold done_. case_bool_decide as Hf.
  - exists g. split; [done|]. apply H6 in Hf as [_ Hf].
    enough (keep (fun p => negb (p.1 =? id)) l = l) as -> by done.
    clear -Hf. unfold keep. induction l as [|[i u] l IH]; [done|]. cbn in *.
    apply not_elem_of_cons in Hf as [Hi Hf]. destruct (Z.eqb_spec i id); [congruence|]. cbn. by rewrite IH.
  - assert (Hin : id ∈ l.*1) by (destruct (decide (id ∈ l.*1)); [done|by destruct Hf; apply H6]).
    set (l' := keep _ l).
    assert (E : delete id (units g) = list_to_map l') by (unfold l'; by rewrite H5, keep_other).
    rewrite E. assert (Hne : idle g ∉ closed g).
    { rewrite H8. intros ->. by apply not_elem_of_nil in Hin. }
    rewrite (bool_decide_eq_false_2 (idle g ∈ closed g)) by done. rewrite andb_false_r.
    eexists. split; [done|]. split; cbn; try done.
    + eapply StronglySorted_sub; [|exact H3]. apply fmap_sublist, keep_sublist.
    + rewrite Forall_forall in *. intros x [Hx _]%elem_of_keep. by apply H4.
    + intros i. rewrite elem_of_union, elem_of_singleton, H6. unfold l'. rewrite keep_fst.
      destruct (decide (i = id)) as [->|]; [|tauto]. split; [|by left]. intros _. split; [done|tauto].
    + split; [done|]. case_bool_decide; [|done]. intros c [->%elem_of_singleton|Hc]%elem_of_union; auto.
    + case_bool_decide as Hl; rewrite map_nil_iff in Hl.
      * split; [done|]. intros _. apply elem_of_union_l. by apply elem_of_singleton.
      * split; [done|]. intros Hl'. done.
Qed.

Lemma omap_list_to_map (l : list (Z * Unit_)) :
  NoDup l.*1 -> omap (fun id => (list_to_map l : gmap Z Unit_) !! id) l.*1 = l.*2.
Proof.
  intros Hnd. assert (H : forall k, k ⊆ l -> omap (fun id => (list_to_map l : gmap Z Unit_) !! id) k.*1 = k.*2).
  { induction k as [|[i u] k IH]; intros Hk; [done|]. cbn.
    assert (Hi : (list_to_map l : gmap Z Unit_) !! i = Some u).
    { apply elem_of_list_to_map_1; [done|]. apply Hk. left. }
    rewrite Hi. f_equal. apply IH. intros x Hx. apply Hk. by right. }
  by apply H.
Qed.

Lemma sorted_nodup (k : list Z) : StronglySorted Z.lt k -> NoDup k.
Proof.
  induction 1 as [|x k _ IH Hx]; constructor; [|done].
  intros Hin. rewrite Forall_forall in Hx. specialize (Hx x Hin). lia.
Qed.

Lemma sorted_elements (k : list Z) (X : gset Z) :
  StronglySorted Z.lt k -> (forall i, i ∈ X <-> i ∈ k) -> merge_sort Z.le (elements X) = k.
Proof.
  intros Hs HX. apply (StronglySorted_unique Z.le).
  - apply Sorted_StronglySorted; [intros x y z; lia|]. apply Sorted_merge_sort. intros x y; lia.
  - clear HX. induction Hs as [|x k _ IH Hx]; constructor; [done|].
    eapply Forall_impl; [exact Hx|]. cbn. lia.
  - rewrite merge_sort_Permutation. apply NoDup_Permutation; [apply NoDup_elements|by apply sorted_nodup|].
    intros i. rewrite elem_of_elements. apply HX.
Qed.

Lemma Pending_holds n l g : holds n l g -> Pending g = l.*2.
Proof.
  intros H. pose proof (h_sorted _ _ _ H) as Hs. unfold Pending.
  rewrite (sorted_elements l.*1); [|done|].
  - rewrite (h_units _ _ _ H). apply omap_list_to_map. by apply sorted_nodup.
  - intros i. rewrite (h_units _ _ _ H). by rewrite dom_list_to_map, elem_of_list_to_set.
Qed.

Definition tracks (es : list GroupEvent) : Z :=
  Z.of_nat (length (keep (fun e => match e with GTrack _ => true | GDone _ => false end) es)).

Lemma tracks_cons e es :
  tracks (e :: es) = match e with GTrack _ => 1 | GDone _ => 0 end + tracks es.
Proof. unfold tracks, keep. destruct e; cbn [List.filter length]; lia. Qed.

Lemma tracks_app es es' : tracks (es ++ es') = tracks es + tracks es'.
Proof. unfold tracks. rewrite keep_app, length_app. lia. Qed.

Lemma group_event_holds e n l g :
  holds n l g -> n + match e with GTrack _ => 1 | GDone _ => 0 end < 2 ^ 64 ->
  exists g', group_event e g = Some g' /\
    holds (n + match e with GTrack _ => 1 | GDone _ => 0 end) (running n l [e]) g'.
Proof.
  intros H Hn. destruct e as [u|id]; cbn.
  - eexists. split; [done|]. by apply holds_Track.
  - rewrite Z.add_0_r, (h_next _ _ _ H). destruct ((0 <=? id) && (id <? n)) eqn:E; [|by exists g].
    apply holds_done; [done|]. apply andb_true_iff in E as [E1%Z.leb_le E2%Z.ltb_lt]. lia.
Qed.

Lemma running_cons n l e es :
  running n l (e :: es) =
  running (n + match e with GTrack _ => 1 | GDone _ => 0 end) (running n l [e]) es.
Proof. destruct e; cbn; [done|]. by rewrite Z.add_0_r. Qed.

Lemma group_run_holds es : forall n l g,
  holds n l g -> n + tracks es < 2 ^ 64 ->
  exists g', group_run es g = Some g' /\ holds (n + tracks es) (running n l es) g'.
Proof.
  induction es as [|e es IH]; intros n l g H Hn.
  - exists g. unfold tracks. cbn. by rewrite Z.add_0_r.
  - rewrite tracks_cons in *. assert (0 <= tracks es) by (unfold tracks; lia).
    destruct (group_event_holds e n l g H) as (g1 & E1 & H1); [lia|].
    destruct (IH _ _ _ H1) as (g2 & E2 & H2); [lia|].
    exists g2. cbn [group_run]. rewrite E1. split; [done|]. rewrite running_cons.
    by replace (n + (_ + tracks es)) with (n + match e with GTrack _ => 1 | GDone _ => 0 end + tracks es) by lia.
Qed.

(** ** The sequence *)

Record Phases := { Notice : Z; Drain : Z; Grace : Z }.

(** [DefaultPhases]. *)
Definition DefaultPhases : Phases := {| Notice := 5 * Second; Drain := 30 * Second; Grace := 5 * Second |}.

(** Where [Wait] is: about to read the channel, in its [select], about to count. *)
Inductive Waiter := WRead | WOn (c : nat) | WCount.

(** One step of [Wait]: where it goes on, or [true]. *)
Definition wait_step (w : Waiter) (g : Group) : option (Waiter + bool) :=
  match w with
  | WRead => Some (inl (WOn (idle g)))
  | WOn c => if bool_decide (c ∈ closed g) then Some (inl WCount) else None
  | WCount => Some (if bool_decide (units g = ∅) then inr true else inl WRead)
  end.

(** Where [Shutdown] is. *)
Inductive Stage :=
| Serving
| Noticing (until_ : Z)
| Draining (until_ : Z) (w : Waiter)
| Joining (until_ : Z) (unitsIdle : bool)      (** [<-srvDone] *)
| Cancelling
| Gracing (until_ : Z) (w : Waiter)
| Reporting
| Over (clean : bool) (at_ : Z).

Record Shut := {
  sd_now : Z;
  sd_group : Group;
  sd_stage : Stage;
  sd_server : option bool;       (** whether [srv.Shutdown] returned without error *)
  sd_requests : bool;            (** [cancelRequests] was called *)
  sd_closed : bool;              (** [srv.Close] *)
  sd_log : list string;
  sd_t0 : Z;                     (** when the sequence began *)
  sd_mark : Z;                   (** the next unit's number when the drain began, and again when
                                     the abandoned units were listed *)
}.

Definition at_rest : Shut :=
  {| sd_now := 0; sd_group := NewGroup; sd_stage := Serving; sd_server := None; sd_requests := false;
     sd_closed := false; sd_log := []; sd_t0 := 0; sd_mark := 0 |}.

Definition to_stage (st : Stage) (s : Shut) : Shut :=
  {| sd_now := sd_now s; sd_group := sd_group s; sd_stage := st; sd_server := sd_server s;
     sd_requests := sd_requests s; sd_closed := sd_closed s; sd_log := sd_log s;
     sd_t0 := sd_t0 s; sd_mark := sd_mark s |}.
Definition to_now (t : Z) (s : Shut) : Shut :=
  {| sd_now := t; sd_group := sd_group s; sd_stage := sd_stage s; sd_server := sd_server s;
     sd_requests := sd_requests s; sd_closed := sd_closed s; sd_log := sd_log s;
     sd_t0 := sd_t0 s; sd_mark := sd_mark s |}.
Definition to_group (g : Group) (s : Shut) : Shut :=
  {| sd_now := sd_now s; sd_group := g; sd_stage := sd_stage s; sd_server := sd_server s;
     sd_requests := sd_requests s; sd_closed := sd_closed s; sd_log := sd_log s;
     sd_t0 := sd_t0 s; sd_mark := sd_mark s |}.

(** Time that a stage waits for; the others take none. *)
Definition due (s : Shut) : option Z :=
  match sd_stage s with
  | Noticing u | Draining u _ | Joining u _ | Gracing u _ => Some u
  | Cancelling | Reporting => Some (sd_now s)
  | Serving | Over _ _ => None
  end.

Inductive ShutEvent :=
| STime (t : Z)
| SGroup (e : GroupEvent)
| SSignal
| SDrain
| SServer (ok : bool)
| SWait
| STimeout
| SJoin
| SCancel
| SReport (w : World).

Section Sequence.
Context (ph : Phases).

Definition shut_event (e : ShutEvent) (s : Shut) : option Shut :=
  match e, sd_stage s with
  | STime t, _ =>
      if (sd_now s <=? t) && match due s with Some d => t <=? d | None => true end
      then Some (to_now t s) else None
  | SGroup e, _ => match group_event e (sd_group s) with Some g => Some (to_group g s) | None => None end
  | SSignal, Serving =>
      Some {| sd_now := sd_now s; sd_group := BeginShutdown (sd_group s);
              sd_stage := Noticing (sd_now s + Notice ph); sd_server := None; sd_requests := false;
              sd_closed := false; sd_log := sd_log s; sd_t0 := sd_now s; sd_mark := sd_mark s |}
  | SDrain, Noticing u =>
      if u <=? sd_now s then
        let end_ := sd_now s + Drain ph in
        Some {| sd_now := sd_now s; sd_group := setDrainDeadline end_ (sd_group s);
                sd_stage := Draining end_ WRead; sd_server := None; sd_requests := sd_requests s;
                sd_closed := sd_closed s; sd_log := sd_log s; sd_t0 := sd_t0 s;
                sd_mark := next (sd_group s) |}
      else None
  | SServer ok, (Draining _ _ | Joining _ _) =>
      match sd_server s with
      | None => Some {| sd_now := sd_now s; sd_group := sd_group s; sd_stage := sd_stage s;
                        sd_server := Some ok; sd_requests := sd_requests s; sd_closed := sd_closed s;
                        sd_log := sd_log s; sd_t0 := sd_t0 s; sd_mark := sd_mark s |}
      | Some _ => None
      end
  | SWait, Draining u w =>
      match wait_step w (sd_group s) with
      | Some (inl w') => Some (to_stage (Draining u w') s)
      | Some (inr b) => Some (to_stage (Joining u b) s)
      | None => None
      end
  | SWait, Gracing u w =>
      match wait_step w (sd_group s) with
      | Some (inl w') => Some (to_stage (Gracing u w') s)
      | Some (inr _) => Some (to_stage Reporting s)
      | None => None
      end
  | STimeout, Draining u (WOn _) =>
      if u <=? sd_now s then Some (to_stage (Joining u false) s) else None
  | STimeout, Gracing u (WOn _) =>
      if u <=? sd_now s then Some (to_stage Reporting s) else None
  | SJoin, Joining _ unitsIdle =>
      match sd_server s with
      | Some ok =>
          if unitsIdle && ok then
            Some {| sd_now := sd_now s; sd_group := sd_group s; sd_stage := Over true (sd_now s);
                    sd_server := sd_server s; sd_requests := sd_requests s; sd_closed := sd_closed s;
                    sd_log := sd_log s ++ ["shutdown: drained cleanly"]; sd_t0 := sd_t0 s;
                    sd_mark := sd_mark s |}
          else Some (to_stage Cancelling s)
      | None => None
      end
  | SCancel, Cancelling =>
      Some {| sd_now := sd_now s; sd_group := cancel (sd_group s);
              sd_stage := Gracing (sd_now s + Grace ph) WRead; sd_server := sd_server s;
              sd_requests := true; sd_closed := sd_closed s; sd_log := sd_log s; sd_t0 := sd_t0 s;
              sd_mark := sd_mark s |}
  | SReport w, Reporting =>
      Some {| sd_now := sd_now s; sd_group := sd_group s; sd_stage := Over false (sd_now s);
              sd_server := sd_server s; sd_requests := sd_requests s; sd_closed := true;
              sd_log := sd_log s ++ map (abandoned w) (Pending (sd_group s)); sd_t0 := sd_t0 s;
              sd_mark := next (sd_group s) |}
  | _, _ => None
  end.

Fixpoint shut_run (es : list ShutEvent) (s : Shut) : option Shut :=
  match es with
  | [] => Some s
  | e :: es => match shut_event e s with Some s' => shut_run es s' | None => None end
  end.

(** The units an event sequence tracks. *)
Definition group_events (es : list ShutEvent) : list GroupEvent :=
  omap (fun e => match e with SGroup e => Some e | _ => None end) es.

(** ** The invariant *)

Definition newer (m : Z) (g : Group) : Prop := forall id, id ∈ dom (units g) -> m <= id.

Definition stage_ok (s : Shut) : Prop :=
  let g := sd_group s in
  let t0 := sd_t0 s in
  match sd_stage s with
  | Serving => True
  | Noticing u => sd_now s <= u /\ u = t0 + Notice ph
  | Draining u w => sd_now s <= u /\ u = t0 + Notice ph + Drain ph /\ sd_mark s <= next g
  | Joining u b =>
      sd_now s <= u /\ u = t0 + Notice ph + Drain ph /\ sd_mark s <= next g /\
      (b = true -> newer (sd_mark s) g)
  | Cancelling => sd_now s <= t0 + Notice ph + Drain ph
  | Gracing u w =>
      sd_now s <= u /\ u <= t0 + Notice ph + Drain ph + Grace ph /\
      work_cancelled g = true /\ sd_requests s = true
  | Reporting =>
      sd_now s <= t0 + Notice ph + Drain ph + Grace ph /\ work_cancelled g = true /\ sd_requests s = true
  | Over true a =>
      a <= t0 + Notice ph + Drain ph /\ sd_mark s <= next g /\ newer (sd_mark s) g /\ sd_server s = Some true
  | Over false a =>
      a <= t0 + Notice ph + Drain ph + Grace ph /\ work_cancelled g = true /\ sd_requests s = true /\
      sd_closed s = true /\ sd_mark s <= next g /\
      exists w, forall id u, units g !! id = Some u -> id < sd_mark s -> abandoned w u ∈ sd_log s
  end.

Context (Hph : 0 <= Notice ph /\ 0 <= Drain ph /\ 0 <= Grace ph).

Definition sinv (n : Z) (s : Shut) : Prop :=
  (exists l, holds n l (sd_group s)) /\ stage_ok s.

Lemma holds_flags n l g g' :
  next g' = next g -> units g' = units g -> idle g' = idle g -> chans g' = chans g ->
  closed g' = closed g -> fired g' = fired g -> holds n l g -> holds n l g'.
Proof.
  intros E1 E2 E3 E4 E5 E6 [H1 H2 H3 H4 H5 H6 H7 H8].
  by split; rewrite ?E1, ?E2, ?E3, ?E4, ?E5, ?E6.
Qed.

Definition added (e : GroupEvent) : Z := match e with GTrack _ => 1 | GDone _ => 0 end.

(** What an event of the group leaves to the sequence. *)
Lemma group_event_frame e n l g g' :
  holds n l g -> n + added e < 2 ^ 64 -> group_event e g = Some g' ->
  next g <= next g' /\ work_cancelled g' = work_cancelled g /\
  forall id u, units g' !! id = Some u -> units g !! id = Some u \/ id = next g.
Proof.
  intros H Hn He. pose proof (h_next _ _ _ H) as E. pose proof (h_nonneg _ _ _ H) as E0.
  destruct e as [u|id]; cbn in *.
  - injection He as <-. cbn. split_and!; [rewrite E, Z.mod_small; lia|done|].
    intros i v. rewrite lookup_insert_Some. intros [[<- _]|[_ ?]]; auto.
  - assert (Hid : next g <= next g /\ work_cancelled g = work_cancelled g /\
      forall i v, units g !! i = Some v -> units g !! i = Some v \/ i = next g) by (split_and!; [lia|done|auto]).
    destruct (_ && _); [|by injection He as <-].
    unfold done_ in He. case_bool_decide; [by injection He as <-|].
    destruct (_ && _); [done|]. injection He as <-. cbn. split_and!; [lia|done|].
    intros i v. rewrite lookup_delete_Some. tauto.
Qed.

Lemma newer_frame m g g' :
  m <= next g -> (forall id u, units g' !! id = Some u -> units g !! id = Some u \/ id = next g) ->
  newer m g -> newer m g'.
Proof.
  intros Hm Hu Hn id [u Hi]%elem_of_dom. destruct (Hu _ _ Hi) as [Hg| ->]; [|done].
  apply Hn. by apply elem_of_dom.
Qed.

Lemma sinv_group e n s g' :
  sinv n s -> n + added e < 2 ^ 64 -> group_event e (sd_group s) = Some g' ->
  sinv (n + added e) (to_group g' s).
Proof.
  intros [[l Hl] Hs] Hn He. destruct (group_event_frame _ _ _ _ _ Hl Hn He) as (F1 & F2 & F3).
  destruct (group_event_holds e n l _ Hl) as (g2 & E2 & H2); [exact Hn|].
  assert (g2 = g') as -> by congruence. split; [by eexists|].
  unfold stage_ok in *. cbn. destruct (sd_stage s) as [|u|u w|u b| |u w| |[] a]; rewrite ?F2; try done.
  - destruct Hs as (?&?&?). split_and!; [done|done|lia].
  - destruct Hs as (?&?&?&Hb). split_and!; [done|done|lia|].
    intros Hb'. apply (newer_frame _ (sd_group s)); auto.
  - destruct Hs as (?&?&Hb&?). split_and!; [done|lia| |done]. by apply (newer_frame _ (sd_group s)).
  - destruct Hs as (?&?&?&?&?&w&Hw). split_and!; try done; [lia|]. exists w. intros id u Hu Hi.
    destruct (F3 _ _ Hu) as [Hg| ->]; [by apply (Hw id)|lia].
Qed.

Lemma wait_step_true w g : wait_step w g = Some (inr true) -> units g = ∅.
Proof.
  destruct w; cbn; try done; by case_bool_decide.
Qed.

Lemma wait_step_inr w g b : wait_step w g = Some (inr b) -> b = true.
Proof. destruct w; cbn; try done; case_bool_decide; try done; by intros [= <-]. Qed.

Lemma elem_Pending n l g id u : holds n l g -> units g !! id = Some u -> u ∈ Pending g.
Proof.
  intros H Hu. rewrite (Pending_holds _ _ _ H). rewrite (h_units _ _ _ H) in Hu.
  apply elem_of_list_to_map_2 in Hu. apply list_elem_of_fmap. by exists (id, u).
Qed.

Lemma sinv_time n s t : sinv n s -> sd_now s <= t ->
  match due s with Some d => t <= d | None => True end -> sinv n (to_now t s).
Proof.
  intros [Hg Hs] Ht Hd. split; [done|]. unfold stage_ok, due in *. cbn.
  destruct (sd_stage s) as [|u|u w|u b| |u w| |[] a]; try exact Hs.
  - split; [done|apply Hs].
  - split; [done|apply Hs].
  - split; [done|apply Hs].
  - lia.
  - split; [done|apply Hs].
  - split; [lia|apply Hs].
Qed.

Lemma sinv_signal n s s' : sinv n s -> shut_event SSignal s = Some s' -> sinv n s'.
Proof.
  intros [[l Hl] Hs] He. cbn in He. destruct (sd_stage s) eqn:E; try done. injection He as <-.
  split; [exists l; by apply (holds_flags n l (sd_group s))|]. unfold stage_ok. cbn. lia.
Qed.

Lemma sinv_drain n s s' : sinv n s -> shut_event SDrain s = Some s' -> sinv n s'.
Proof.
  intros [[l Hl] Hs] He. unfold stage_ok in Hs. cbn in He. destruct (sd_stage s) eqn:E; try done.
  case_match eqn:El; [|done]. injection He as <-. apply Z.leb_le in El.
  split; [exists l; by apply (holds_flags n l (sd_group s))|]. unfold stage_ok. cbn. lia.
Qed.

Lemma sinv_server n s s' ok : sinv n s -> shut_event (SServer ok) s = Some s' -> sinv n s'.
Proof.
  intros [[l Hl] Hs] He. unfold stage_ok in Hs. cbn in He.
  destruct (sd_stage s) eqn:E; try done; destruct (sd_server s); try done; injection He as <-;
    (split; [by exists l|exact Hs]).
Qed.

Lemma sinv_wait n s s' : sinv n s -> shut_event SWait s = Some s' -> sinv n s'.
Proof.
  intros [[l Hl] Hs] He. unfold stage_ok in Hs. cbn in He. destruct (sd_stage s) eqn:E; try done.
  - destruct (wait_step w (sd_group s)) as [[w'|b]|] eqn:Ew; [| |done]; injection He as <-;
      (split; [by exists l|]); unfold stage_ok; cbn; [done|].
    destruct Hs as (?&?&?). split_and!; [done|done|done|]. intros ->.
    apply wait_step_true in Ew. intros id Hid. rewrite Ew in Hid. set_solver.
  - destruct (wait_step w (sd_group s)) as [[w'|b]|] eqn:Ew; [| |done]; injection He as <-;
      (split; [by exists l|]); unfold stage_ok; cbn; [done|].
    destruct Hs as (?&?&?&?). split_and!; [lia|done|done].
Qed.

Lemma sinv_timeout n s s' : sinv n s -> shut_event STimeout s = Some s' -> sinv n s'.
Proof.
  intros [[l Hl] Hs] He. unfold stage_ok in Hs. cbn in He.
  destruct (sd_stage s) as [| |u []| | |u []| |] eqn:E; try done;
    (case_match; [|done]); injection He as <-; (split; [by exists l|]); unfold stage_ok; cbn.
  - destruct Hs as (?&?&?). split_and!; [assumption..|discriminate].
  - destruct Hs as (?&?&?&?). split_and!; [lia|assumption..].
Qed.

Lemma sinv_join n s s' : sinv n s -> shut_event SJoin s = Some s' -> sinv n s'.
Proof.
  intros [[l Hl] Hs] He. unfold stage_ok in Hs. cbn in He.
  destruct (sd_stage s) as [| | |u b| | | |] eqn:E; try done. destruct (sd_server s) as [ok|]; [|done].
  destruct Hs as (?&?&?&Hb).
  destruct b; [destruct ok|]; injection He as <-; (split; [by exists l|]); unfold stage_ok; cbn; [|lia..].
  split_and!; [lia|done|auto|done].
Qed.

Lemma sinv_cancel n s s' : sinv n s -> shut_event SCancel s = Some s' -> sinv n s'.
Proof.
  intros [[l Hl] Hs] He. unfold stage_ok in Hs. cbn in He. destruct (sd_stage s) eqn:E; try done.
  injection He as <-. split; [exists l; by apply (holds_flags n l (sd_group s))|]. unfold stage_ok. cbn.
  split_and!; [lia|lia|done|done].
Qed.

Lemma sinv_report n s s' w : sinv n s -> shut_event (SReport w) s = Some s' -> sinv n s'.
Proof.
  intros [[l Hl] Hs] He. unfold stage_ok in Hs. cbn in He. destruct (sd_stage s) eqn:E; try done.
  injection He as <-. split; [by exists l|]. destruct Hs as (?&?&?). unfold stage_ok. cbn.
  split_and!; try done. exists w. intros id u Hu _. apply elem_of_app. right.
  apply list_elem_of_In, in_map, list_elem_of_In. by eapply elem_Pending.
Qed.

Lemma sinv_event e n s s' :
  sinv n s -> n + tracks (group_events [e]) < 2 ^ 64 -> shut_event e s = Some s' ->
  sinv (n + tracks (group_events [e])) s'.
Proof.
  intros Hi Hn He. destruct e as [t|e| | |ok| | | | |w].
  2: { cbn [shut_event] in He. destruct (group_event e (sd_group s)) as [g'|] eqn:Eg; [|done].
       injection He as <-. assert (E : tracks (group_events [SGroup e]) = added e) by by destruct e.
       rewrite E in *. by apply sinv_group. }
  all: change (tracks (group_events _)) with 0; rewrite Z.add_0_r.
  - cbn in He. destruct (_ && _) eqn:E; [|done]. injection He as <-.
    apply andb_true_iff in E as [E1%Z.leb_le E2]. apply sinv_time; [done|done|].
    destruct (due s); [by apply Z.leb_le|done].
  - by eapply sinv_signal.
  - by eapply sinv_drain.
  - by eapply sinv_server.
  - by eapply sinv_wait.
  - by eapply sinv_timeout.
  - by eapply sinv_join.
  - by eapply sinv_cancel.
  - by eapply sinv_report.
Qed.

Lemma sinv_run es : forall n s s',
  sinv n s -> n + tracks (group_events es) < 2 ^ 64 -> shut_run es s = Some s' ->
  sinv (n + tracks (group_events es)) s'.
Proof.
  induction es as [|e es IH]; intros n s s' Hi Hn He.
  - injection He as <-. change (tracks (group_events [])) with 0. by rewrite Z.add_0_r.
  - cbn in He. destruct (shut_event e s) as [s1|] eqn:E1; [|done].
    assert (Et : tracks (group_events (e :: es)) = tracks (group_events [e]) + tracks (group_events es)).
    { rewrite <- tracks_app. f_equal. by destruct e. }
    assert (0 <= tracks (group_events es)) by (unfold tracks; lia).
    assert (0 <= tracks (group_events [e])) by (unfold tracks; lia).
    rewrite Et, Z.add_assoc in *. apply (IH _ s1); [|lia|done]. apply (sinv_event e n s); [done|lia|done].
Qed.

Lemma sinv_at_rest : sinv 0 at_rest.
Proof. split; [exists []; apply holds_NewGroup|done]. Qed.

(** ** The sequence ends *)

(** What [Wait] can still do: its steps until it answers or is given up, as
    long as no unit starts.  A channel that is not the channel of the moment
    costs one more round. *)
Definition wait_left (w : Waiter) (g : Group) : Z :=
  match w with
  | WRead => 3
  | WOn c => if bool_decide (c = idle g) then 2 else 5
  | WCount => if bool_decide (units g = ∅) then 1 else 4
  end.

Definition server_left (s : Shut) : Z := match sd_server s with None => 1 | Some _ => 0 end.

(** What the sequence can still do, as long as no unit starts. *)
Definition steps_left (s : Shut) : Z :=
  match sd_stage s with
  | Serving | Noticing _ => 11
  | Draining _ w => 6 + server_left s + wait_left w (sd_group s)
  | Joining _ _ => 6 + server_left s
  | Cancelling => 5
  | Gracing _ w => 1 + wait_left w (sd_group s)
  | Reporting => 1
  | Over _ _ => 0
  end.

(** The steps of the sequence and of the server it stops: not the clock, not a
    unit, not the signal that begins it. *)
Definition step_of_sequence (e : ShutEvent) : Z :=
  match e with STime _ | SGroup _ | SSignal => 0 | _ => 1 end.

Definition sequence_steps (es : list ShutEvent) : Z :=
  fold_right (fun e n => step_of_sequence e + n) 0 es.

Lemma wait_left_range w g : 1 <= wait_left w g <= 5.
Proof. destruct w; cbn; try case_bool_decide; lia. Qed.

Lemma steps_left_range s : 0 <= steps_left s <= 12.
Proof.
  unfold steps_left, server_left.
  destruct (sd_stage s) as [|u|u w|u b| |u w| |c a], (sd_server s); try lia;
    pose proof (wait_left_range w (sd_group s)); lia.
Qed.

Lemma wait_step_left n l w w' g :
  holds n l g -> wait_step w g = Some (inl w') -> wait_left w' g + 1 <= wait_left w g.
Proof.
  intros H. destruct w as [|c|]; cbn.
  - intros [= <-]. cbn. by rewrite bool_decide_eq_true_2.
  - case_bool_decide as Hc; [|done]. intros [= <-]. cbn.
    destruct (decide (c = idle g)) as [->|Hn]; [|rewrite (bool_decide_eq_false_2 (c = idle g)) by done; case_bool_decide; lia].
    apply (h_idle _ _ _ H) in Hc. pose proof (h_units _ _ _ H) as Hu. rewrite Hc in Hu. cbn in Hu.
    rewrite Hu, !bool_decide_eq_true_2 by done. lia.
  - case_bool_decide; [done|]. intros [= <-]. cbn. lia.
Qed.

(** Only a unit that starts gives [Wait] more to do. *)
Lemma wait_left_group w e g g' : group_event e g = Some g' -> wait_left w g' <= wait_left w g + 3 * added e.
Proof.
  destruct e as [u|id]; cbn.
  - intros [= <-]. destruct w as [|c|]; cbn; repeat case_bool_decide; try lia; naive_solver.
  - destruct (_ && _); [|intros [= <-]; lia]. unfold done_. case_bool_decide; [intros [= <-]; lia|].
    destruct (_ && _); [done|]. intros [= <-].
    destruct w as [|c|]; cbn; repeat case_bool_decide; try lia; try done.
    match goal with H : delete _ _ <> ∅ |- _ => exfalso; apply H end.
    match goal with H : units g = ∅ |- _ => rewrite H end. apply delete_empty.
Qed.

Lemma event_left n s s' e :
  sinv n s -> sd_stage s <> Serving -> shut_event e s = Some s' ->
  sd_stage s' <> Serving /\ sd_t0 s' = sd_t0 s /\
  step_of_sequence e + steps_left s' <= steps_left s + 3 * tracks (group_events [e]).
Proof.
  intros [[l Hl] _] Hb He. destruct e as [t|e| | |ok| | | | |w].
  2: { cbn [shut_event] in He. destruct (group_event e (sd_group s)) as [g'|] eqn:Eg; [|done].
       injection He as <-. split; [done|]. split; [done|].
       change (step_of_sequence (SGroup e)) with 0.
       replace (tracks (group_events [SGroup e])) with (added e) by by destruct e.
       assert (0 <= added e) by (destruct e; cbn; lia).
       unfold steps_left, server_left. cbn. destruct (sd_stage s) as [|u|u w|u b| |u w| |c a]; try lia;
         pose proof (wait_left_group w _ _ _ Eg); lia. }
  all: change (tracks (group_events _)) with 0; cbn in He; unfold steps_left, server_left, step_of_sequence.
  1: { destruct (_ && _); [|done]. injection He as <-. cbn. split_and!; [done|done|].
       destruct (sd_stage s); lia. }
  all: destruct (sd_stage s) as [|u|u x|u b| |u x| |c a] eqn:E; try done.
  - destruct (_ <=? _); [|done]. injection He as <-. cbn. split_and!; [done|done|lia].
  - destruct (sd_server s); [done|]. injection He as <-. cbn. split_and!; [done|done|lia].
  - destruct (sd_server s); [done|]. injection He as <-. cbn. split_and!; [done|done|lia].
  - pose proof (wait_left_range x (sd_group s)).
    destruct (wait_step x (sd_group s)) as [[y|y]|] eqn:Ew; [| |done]; injection He as <-; cbn;
      (split_and!; [done|done|]); [pose proof (wait_step_left _ _ _ _ _ Hl Ew)|]; lia.
  - pose proof (wait_left_range x (sd_group s)).
    destruct (wait_step x (sd_group s)) as [[y|y]|] eqn:Ew; [| |done]; injection He as <-; cbn;
      (split_and!; [done|done|]); [pose proof (wait_step_left _ _ _ _ _ Hl Ew)|]; lia.
  - pose proof (wait_left_range x (sd_group s)). destruct x; try done. destruct (_ <=? _); [|done].
    injection He as <-. cbn in *. split_and!; [done|done|lia].
  - pose proof (wait_left_range x (sd_group s)). destruct x; try done. destruct (_ <=? _); [|done].
    injection He as <-. cbn in *. split_and!; [done|done|lia].
  - destruct (sd_server s) as [ok|]; [|done]. destruct (_ && _); injection He as <-; cbn; (split_and!; [done|done|lia]).
  - injection He as <-. cbn. split_and!; [done|done|lia].
  - injection He as <-. cbn. split_and!; [done|done|lia].
Qed.

Lemma run_left es : forall n s s',
  sinv n s -> n + tracks (group_events es) < 2 ^ 64 -> sd_stage s <> Serving -> shut_run es s = Some s' ->
  sd_stage s' <> Serving /\ sd_t0 s' = sd_t0 s /\
  sequence_steps es + steps_left s' <= steps_left s + 3 * tracks (group_events es).
Proof.
  induction es as [|e es IH]; intros n s s' Hi Hn Hb He.
  - injection He as <-. change (tracks (group_events [])) with 0. cbn. split_and!; [done|done|lia].
  - cbn [shut_run] in He. destruct (shut_event e s) as [s1|] eqn:E1; [|done].
    assert (Et : tracks (group_events (e :: es)) = tracks (group_events [e]) + tracks (group_events es)).
    { rewrite <- tracks_app. f_equal. by destruct e. }
    assert (0 <= tracks (group_events es)) by (unfold tracks; lia).
    assert (0 <= tracks (group_events [e])) by (unfold tracks; lia).
    destruct (event_left n s s1 e Hi Hb E1) as (Hb1 & T1 & L1).
    destruct (IH (n + tracks (group_events [e])) s1 s') as (Hb2 & T2 & L2);
      [apply (sinv_event e n s); [done|lia|done]|lia|done|done|].
    split; [done|]. split; [congruence|]. cbn [sequence_steps fold_right] in *.
    change (fold_right _ 0 es) with (sequence_steps es) in *. lia.
Qed.

(** A sequence that has begun and is not over can go on: by a step of its own,
    by waiting for an instant in the future, or by the answer of a server
    whose time is up. *)
Definition goes_on (s : Shut) : Prop :=
  (exists e s', e <> SServer true /\ e <> SServer false /\ step_of_sequence e = 1 /\ shut_event e s = Some s') \/
  (exists t, sd_now s < t /\ due s = Some t /\ is_Some (shut_event (STime t) s)) \/
  (sd_server s = None /\ sd_now s = sd_t0 s + Notice ph + Drain ph /\
   forall ok, is_Some (shut_event (SServer ok) s)).

Lemma goes_on_step e s s' :
  e <> SServer true -> e <> SServer false -> step_of_sequence e = 1 -> shut_event e s = Some s' -> goes_on s.
Proof. intros. left. by exists e, s'. Qed.

Lemma goes_on_time u s : sd_now s < u -> due s = Some u -> goes_on s.
Proof.
  intros Hu Hd. right; left. exists u. split_and!; [done|done|]. cbn. rewrite Hd, Z.leb_refl.
  rewrite (proj2 (Z.leb_le _ _)) by lia. by eexists.
Qed.

Lemma begun_goes_on (w0 : World) s :
  stage_ok s -> sd_stage s <> Serving -> (forall c a, sd_stage s <> Over c a) -> goes_on s.
Proof.
  unfold stage_ok. intros Hs Hb Ho.
  destruct (sd_stage s) as [|u|u w|u b| |u w| |c a] eqn:E; [done|..|by destruct (Ho c a)].
  - destruct (Z.leb_spec u (sd_now s)) as [Hu|Hu]; [|by apply (goes_on_time u); [|unfold due; rewrite E]].
    eapply (goes_on_step SDrain); [done..|]. cbn. by rewrite E, (proj2 (Z.leb_le _ _)).
  - destruct w as [|c|].
    + eapply (goes_on_step SWait); [done..|]. cbn. by rewrite E.
    + destruct (Z.leb_spec u (sd_now s)) as [Hu|Hu]; [|by apply (goes_on_time u); [|unfold due; rewrite E]].
      eapply (goes_on_step STimeout); [done..|]. cbn. by rewrite E, (proj2 (Z.leb_le _ _)).
    + destruct (wait_step WCount (sd_group s)) as [[y|y]|] eqn:Ew; [..|cbn in Ew; by case_bool_decide];
        (eapply (goes_on_step SWait); [done..|]); cbn [shut_event]; by rewrite E, Ew.
  - destruct (sd_server s) as [ok|] eqn:Es.
    + destruct (b && ok) eqn:Eb; (eapply (goes_on_step SJoin); [done..|]); cbn; by rewrite E, Es, Eb.
    + destruct Hs as (H1 & H2 & _). destruct (decide (sd_now s = u)) as [Hu|Hu].
      * right; right. split; [done|]. split; [lia|]. intros ok. cbn. rewrite E, Es. by eexists.
      * apply (goes_on_time u); [lia|unfold due; by rewrite E].
  - eapply (goes_on_step SCancel); [done..|]. cbn. by rewrite E.
  - destruct w as [|c|].
    + eapply (goes_on_step SWait); [done..|]. cbn. by rewrite E.
    + destruct (Z.leb_spec u (sd_now s)) as [Hu|Hu]; [|by apply (goes_on_time u); [|unfold due; rewrite E]].
      eapply (goes_on_step STimeout); [done..|]. cbn. by rewrite E, (proj2 (Z.leb_le _ _)).
    + destruct (wait_step WCount (sd_group s)) as [[y|y]|] eqn:Ew; [..|cbn in Ew; by case_bool_decide];
        (eapply (goes_on_step SWait); [done..|]); cbn [shut_event]; by rewrite E, Ew.
  - eapply (goes_on_step (SReport w0)); [done..|]. cbn. by rewrite E.
Qed.
End Sequence.

(** ** Properties *)

(** C38: The group is the list of the units that run.  After any sequence of units
    starting and ending, in any order and with [done] called any number of
    times, no channel is closed twice, [Pending] lists exactly the units that
    started and did not end, oldest first, and the channel that [Wait] selects
    on is closed exactly when there is none. *)
Theorem group_refines_list es :
  tracks es < 2 ^ 64 ->
  exists g, group_run es NewGroup = Some g /\
    Pending g = (running 0 [] es).*2 /\ (idle g ∈ closed g <-> running 0 [] es = []).
Proof.
  intros Hn. destruct (group_run_holds es 0 [] NewGroup holds_NewGroup) as (g & E & H); [lia|].
  exists g. split; [done|]. split; [by eapply Pending_holds|apply H].
Qed.

(** What the shutdown reports is what happened.  When it reports a clean drain,
    it does so within the notice and the drain, the server had closed without
    error, and a unit that still runs was started after the drain began.
    Otherwise it ends within the notice, the drain and the grace; the requests
    and the work context were cancelled and the server closed; and every unit
    that was running when it listed them, and still runs, is in the log. *)
Theorem shutdown_outcome ph es s :
  0 <= Notice ph /\ 0 <= Drain ph /\ 0 <= Grace ph -> tracks (group_events es) < 2 ^ 64 ->
  shut_run ph es at_rest = Some s ->
  match sd_stage s with
  | Over true at_ =>
      at_ <= sd_t0 s + Notice ph + Drain ph /\ sd_server s = Some true /\
      forall id u, units (sd_group s) !! id = Some u -> sd_mark s <= id
  | Over false at_ =>
      at_ <= sd_t0 s + Notice ph + Drain ph + Grace ph /\
      work_cancelled (sd_group s) = true /\ sd_requests s = true /\ sd_closed s = true /\
      exists w, forall id u, units (sd_group s) !! id = Some u -> id < sd_mark s -> abandoned w u ∈ sd_log s
  | _ => True
  end.
Proof.
  intros Hph Hn He. destruct (sinv_run ph Hph es 0 at_rest s (sinv_at_rest ph)) as [_ Hs]; [lia|done|].
  unfold stage_ok in Hs. destruct (sd_stage s) as [| | | | | | |[] a]; try done.
  - destruct Hs as (H1 & _ & H3 & H4). split_and!; [done|done|]. intros id u Hu.
    apply H3. by apply elem_of_dom.
  - destruct Hs as (H1 & H2 & H3 & H4 & _ & H5). by split_and!.
Qed.

(** C39: The shutdown ends within its phases, on every path.  Take any state the
    sequence reaches once it has begun and any run from there, whatever units
    start, run and end meanwhile and whatever the server answers.  Besides the
    clock and the units, the run has at most twelve steps, and three more for
    every unit that starts.  Where it has come to, either the sequence is over,
    within the notice and the drain when it reports a clean drain and within
    the notice, the drain and the grace when it does not; or that time has not
    passed and the sequence goes on: it has a step to make, or waits for an
    instant still to come, or the drain has ended and the server it asked to
    stop by then has only to answer.  No unit has to return.  (A step that is
    due takes no time; [http.Server.Shutdown] answers at the latest when its
    context ends.) *)
Theorem shutdown_ends ph (w : World) es s es' s' :
  0 <= Notice ph /\ 0 <= Drain ph /\ 0 <= Grace ph ->
  tracks (group_events es) + tracks (group_events es') < 2 ^ 64 ->
  shut_run ph es at_rest = Some s -> sd_stage s <> Serving -> shut_run ph es' s = Some s' ->
  sequence_steps es' <= 12 + 3 * tracks (group_events es') /\
  match sd_stage s' with
  | Over true at_ => at_ <= sd_t0 s + Notice ph + Drain ph
  | Over false at_ => at_ <= sd_t0 s + Notice ph + Drain ph + Grace ph
  | _ => sd_now s' <= sd_t0 s + Notice ph + Drain ph + Grace ph /\ goes_on ph s'
  end.
Proof.
  intros Hph Hn He Hs He'. assert (0 <= tracks (group_events es')) by (unfold tracks; lia).
  assert (Hi : sinv ph (tracks (group_events es)) s).
  { rewrite <- (Z.add_0_l (tracks _)). apply (sinv_run ph Hph es 0 at_rest s (sinv_at_rest ph)); [lia|done]. }
  destruct (run_left ph Hph es' _ s s' Hi) as (Hb & T & L); [lia|done|done|].
  pose proof (sinv_run ph Hph es' _ s s' Hi ltac:(lia) He') as [_ Hok].
  pose proof (steps_left_range s). pose proof (steps_left_range s'). split; [lia|]. rewrite <- T.
  pose proof (begun_goes_on ph w s' Hok Hb) as Hgo. unfold stage_ok in Hok.
  destruct (sd_stage s') as [|u|u x|u b| |u x| |[] a] eqn:E; [done|..]; (try (split; [lia|apply Hgo; discriminate]));
    lia.
Qed.
End Units.

(** ** Concrete runs *)

Module DrainDemo.
Definition request : Unit_ := {| Kind := "request"; ID := "POST /api/book/x"; Detail := @None (unit -> string) |}.
Definition completion : Unit_ :=
  {| Kind := "booking-completion"; ID := "b-42"; Detail := Some (fun _ : unit => "hosts not done: h1") |}.
(** The drain finds the group empty; a request that was still arriving is then
    served, and leaves the completion of a booking behind. *)
Definition late_request : list (@ShutEvent unit) :=
  [SSignal; STime (5 * Second); SDrain; SWait; SWait; SWait;
   SGroup (GTrack request); SGroup (GTrack completion); SGroup (GDone 0); SServer true; SJoin].
(** A unit that outlives the drain and the grace. *)
Definition stuck : list (@ShutEvent unit) :=
  [SGroup (GTrack request); SGroup (GTrack completion); SSignal; STime (5 * Second); SDrain; SWait;
   SGroup (GDone 0); STime (35 * Second); STimeout; SServer true; SJoin; SCancel; SWait; STime (40 * Second);
   STimeout; SReport tt].
Definition after (es : list (@ShutEvent unit)) : Shut := default at_rest (shut_run DefaultPhases es at_rest).
End DrainDemo.

(** A clean shutdown can leave a unit behind.  The units are found idle once,
    before the server has closed its last connection: a request that arrives on
    it is served, hands the completion of its booking to the group and ends;
    the shutdown then reports a clean drain while the completion runs, neither
    awaited nor listed as abandoned. *)
Theorem clean_shutdown_leaves_unit :
  exists es s, shut_run DefaultPhases es at_rest = Some s /\
    sd_stage s = Over true (5 * Second) /\ Pending (sd_group s) = [DrainDemo.completion] /\
    work_cancelled (sd_group s) = false /\ sd_log s = ["shutdown: drained cleanly"].
Proof.
  exists DrainDemo.late_request, (DrainDemo.after DrainDemo.late_request).
  split_and!; vm_compute; reflexivity.
Qed.

Lemma group_refines_list_witness :
  let es := [GTrack DrainDemo.request; GTrack DrainDemo.completion; GDone 0; GDone 0] in
  exists g, group_run es NewGroup = Some g /\ Pending g = [DrainDemo.completion].
Proof.
  cbv zeta. destruct (group_refines_list
    [GTrack DrainDemo.request; GTrack DrainDemo.completion; GDone 0; GDone 0]) as (g & E & P & _); [done|].
  exists g. split; [exact E|exact P].
Defined.

Lemma shutdown_outcome_witness :
  let s := DrainDemo.after DrainDemo.stuck in
  sd_stage s = Over false (40 * Second) /\ work_cancelled (sd_group s) = true /\
  exists w, abandoned w DrainDemo.completion ∈ sd_log s.
Proof.
  cbv zeta. pose proof (shutdown_outcome DefaultPhases DrainDemo.stuck (DrainDemo.after DrainDemo.stuck)) as H.
  assert (E : sd_stage (DrainDemo.after DrainDemo.stuck) = Over false (40 * Second)) by (vm_compute; reflexivity).
  rewrite E in H. specialize (H ltac:(by repeat split) ltac:(apply Z.ltb_lt; vm_compute; reflexivity) ltac:(vm_compute; reflexivity)).
  destruct H as (_ & H1 & _ & _ & w & H2).
  split; [exact E|]. split; [exact H1|]. exists w.
  apply (H2 1); [vm_compute; reflexivity|apply Z.ltb_lt; vm_compute; reflexivity].
Defined.

(** From the notice on: the rest of the run of a unit that outlives every
    phase has nine steps and ends with the grace. *)
Lemma shutdown_ends_witness :
  let es' := skipn 3 DrainDemo.stuck in
  let s := DrainDemo.after (firstn 3 DrainDemo.stuck) in
  exists s', shut_run DefaultPhases es' s = Some s' /\ sequence_steps es' = 9 /\
    sequence_steps es' <= 12 + 3 * tracks (group_events es') /\ sd_stage s' = Over false (40 * Second) /\
    40 * Second <= sd_t0 s + 5 * Second + 30 * Second + 5 * Second.
Proof.
  intros es' s.
  assert (Es : sd_stage s = Noticing (5 * Second)) by (vm_compute; reflexivity).
  assert (E' : exists s', shut_run DefaultPhases es' s = Some s' /\ sd_stage s' = Over false (40 * Second))
    by (eexists; split; vm_compute; reflexivity).
  destruct E' as (s' & E1 & E2).
  destruct (shutdown_ends DefaultPhases tt (firstn 3 DrainDemo.stuck) s es' s') as [H1 H2];
    [done|done|vm_compute; reflexivity|rewrite Es; discriminate|exact E1|].
  rewrite E2 in H2. exists s'. split_and!; [exact E1|vm_compute; reflexivity|exact H1|exact E2|exact H2].
Defined.
