(* ===== verification/RateLimit.v ===== *)
(** * The fixed-window rate limiters

    [api/ratelimit_booking.go] and [api/ratelimit_detect.go]: the limiter of the
    public booking routes, the sign-in detection limiter, and the client address
    both are keyed on.  A limiter is its map of buckets and the time of its last
    sweep; every operation runs under the limiter's mutex and is one function. *)

From S2P Require Import Prelude GoInt GoTime GoText.

#[local] Open Scope string_scope.
#[local] Open Scope list_scope.
#[local] Open Scope Z_scope.

(** [ipBucket]. *)
Record ipBucket := Bucket { count : Z; windowEnd : time }.

(** [fixedWindowLimiter]; the clock is an argument of [take]. *)
Record Limiter := {
  limit : Z;
  window : Z;
  buckets : gmap string ipBucket;
  lastSweep : time;
}.

Definition newFixedWindowLimiter (n w : Z) : Limiter :=
  {| limit := n; window := w; buckets := ∅; lastSweep := zero_time |}.

Definition bookingCreateLimiter : Limiter := newFixedWindowLimiter 20 (10 * Minute).
Definition bookingSlotsLimiter : Limiter := newFixedWindowLimiter 120 Minute.

Definition set_buckets (m : gmap string ipBucket) (l : Limiter) : Limiter :=
  {| limit := limit l; window := window l; buckets := m; lastSweep := lastSweep l |}.

(** Expired clients are dropped at most once a window. *)
Definition sweep (now : time) (l : Limiter) : Limiter :=
  if window l <=? Sub now (lastSweep l) then
    {| limit := limit l; window := window l;
       buckets := filter (fun kv => After now (windowEnd kv.2) = false) (buckets l);
       lastSweep := now |}
  else l.

(** [take]: whether the request is allowed, how long until the window ends, and
    the limiter afterwards. *)
Definition take (key : string) (now : time) (l0 : Limiter) : bool * Z * Limiter :=
  let l := sweep now l0 in
  let fresh :=
    (true, 0, set_buckets (<[key := Bucket 1 (Add now (window l))]> (buckets l)) l) in
  match buckets l !! key with
  | None => fresh
  | Some b =>
      if After now (windowEnd b) then fresh
      else if limit l <=? count b then (false, Sub (windowEnd b) now, l)
      else (true, 0, set_buckets (<[key := Bucket (count b + 1) (windowEnd b)]> (buckets l)) l)
  end.

Definition limiter_size (l : Limiter) : nat := size (buckets l).

Definition reset (l : Limiter) : Limiter :=
  {| limit := limit l; window := window l; buckets := ∅; lastSweep := zero_time |}.

Definition setLimit (n : Z) (l : Limiter) : Limiter :=
  if n <=? 0 then l
  else {| limit := n; window := window l; buckets := buckets l; lastSweep := lastSweep l |}.

Definition SetPublicBookingLimits (create slots : Z) (ls : Limiter * Limiter) : Limiter * Limiter :=
  (setLimit create ls.1, setLimit slots ls.2).

(** [retryAfterSeconds]: whole seconds, between 1 and the window. *)
Definition retryAfterSeconds (wait win : Z) : Z :=
  let secs := Z.quot (wrap64 (wait + Second - 1)) Second in
  let secs := if Z.quot win Second <? secs then Z.quot win Second else secs in
  if secs <? 1 then 1 else secs.

(** [allowPublicBooking]: [Some r] is the 429 with its Retry-After. *)
Definition allowPublicBooking (client : string) (now : time) (l : Limiter) : option Z * Limiter :=
  let '(ok, wait, l') := take client now l in
  (if ok : bool then None else Some (retryAfterSeconds wait (window l')), l').

(** [allowDetect]: the limiter of the sign-in detection, 20 a minute. *)
Definition detectLimiter : Limiter := newFixedWindowLimiter 20 Minute.
Definition allowDetect (ip : string) (now : time) (l : Limiter) : bool * Limiter :=
  let '(ok, _, l') := take ip now l in (ok, l').

(** ** The client's address *)

Section ClientIP.
(** [net.IP] and [net.IPNet] with their parsers and printer. *)
Context {IP Net : Type} (ParseIP : string -> option IP) (ParseCIDR : string -> option Net)
  (HostNet : IP -> Net) (Contains : Net -> IP -> bool) (IPString : IP -> string)
  (SplitHostPort : string -> option string).

(** [strings.Split] on one character. *)
Fixpoint split_on (fuel : nat) (c : ascii) (s : string) : list string :=
  match fuel with
  | O => [s]
  | S k => match cut c s with Some (a, b) => a :: split_on k c b | None => [s] end
  end.
Definition Split (c : ascii) (s : string) : list string := split_on (String.length s) c s.

Definition trusted_part (p : string) : list Net :=
  let part := TrimSpace p in
  if String.eqb part "" then []
  else if negb (existsb (Ascii.eqb "/") (String.list_ascii_of_string part)) then
    match ParseIP part with Some ip => [HostNet ip] | None => [] end
  else match ParseCIDR part with Some n => [n] | None => [] end.

Definition parseTrustedProxies (v : string) : list Net := flat_map trusted_part (Split "," v).

Definition clientIP (remoteAddr xRealIP : string) (trusted : list Net) : string :=
  let host := default remoteAddr (SplitHostPort remoteAddr) in
  match ParseIP host with
  | None => host
  | Some peer =>
      if existsb (fun n => Contains n peer) trusted then
        match ParseIP (TrimSpace xRealIP) with
        | Some xri => IPString xri
        | None => IPString peer
        end
      else IPString peer
  end.

(** A peer that is no trusted proxy is keyed on its own address. *)
Lemma clientIP_untrusted addr xri1 xri2 trusted :
  (forall peer n, ParseIP (default addr (SplitHostPort addr)) = Some peer -> n ∈ trusted ->
     Contains n peer = false) ->
  clientIP addr xri1 trusted = clientIP addr xri2 trusted.
Proof.
  intros H. unfold clientIP. destruct (ParseIP (default addr _)) as [peer|] eqn:E; [|done].
  rewrite (proj2 (existsb_elem_false _ _)); [done|]. intros n Hn. by apply (H peer).
Qed.
End ClientIP.

(** ** What the limiter remembers of a client *)

(** The bucket that counts at [now]: none when the window is over. *)
Definition current (l : Limiter) (key : string) (now : time) : option ipBucket :=
  match buckets l !! key with
  | Some b => if After now (windowEnd b) then None else Some b
  | None => None
  end.

Lemma sweep_params now l : limit (sweep now l) = limit l /\ window (sweep now l) = window l.
Proof. unfold sweep. by case_if. Qed.

(** Sweeping forgets only what no longer counts. *)
Lemma sweep_current now now' l key :
  t_ns now <= t_ns now' -> current (sweep now l) key now' = current l key now'.
Proof.
  intros Hle. unfold sweep, current. case_if; [|done]. simpl.
  destruct (buckets l !! key) as [b|] eqn:Eb.
  - destruct (After now (windowEnd b)) eqn:Ea.
    + rewrite (map_lookup_filter_None_2 _ _ _).
      * rewrite (proj2 (After_lt _ _)); [done|]. apply After_lt in Ea. lia.
      * right. intros b' Hb'. simpl. rewrite Eb in Hb'. injection Hb' as <-. by rewrite Ea.
    + rewrite (map_lookup_filter_Some_2 _ _ _ b); [done|done|]. done.
  - rewrite (map_lookup_filter_None_2 _ _ _); [done|]. by left.
Qed.

Lemma take_cases key now l :
  let '(ok, wait, l') := take key now l in
  limit l' = limit l /\ window l' = window l /\
  match current l key now with
  | None => ok = true /\ wait = 0 /\
      buckets l' = <[key := Bucket 1 (Add now (window l))]> (buckets (sweep now l))
  | Some b =>
      if limit l <=? count b
      then ok = false /\ wait = Sub (windowEnd b) now /\ l' = sweep now l
      else ok = true /\ wait = 0 /\
        buckets l' = <[key := Bucket (count b + 1) (windowEnd b)]> (buckets (sweep now l))
  end.
Proof.
  rewrite <- (sweep_current now now l key) by done.
  pose proof (sweep_params now l) as [Hl Hw].
  unfold take. cbv zeta. unfold current. rewrite <- Hl, <- Hw.
  destruct (buckets (sweep now l) !! key) as [b|]; [|done].
  destruct (After now (windowEnd b)); [done|].
  by destruct (limit (sweep now l) <=? count b).
Qed.

(** What a request leaves of its own client's bucket. *)
Lemma take_same key now now' l :
  0 <= window l -> t_ns now <= t_ns now' ->
  t_ns now' <= t_ns (default (Add now (window l)) (windowEnd <$> current l key now)) ->
  current (take key now l).2 key now' =
  match current l key now with
  | None => Some (Bucket 1 (Add now (window l)))
  | Some b => if limit l <=? count b then Some b else Some (Bucket (count b + 1) (windowEnd b))
  end.
Proof.
  intros Hw Hle Hend. pose proof (take_cases key now l) as H.
  destruct (take key now l) as [[ok wait] l']. cbn [snd]. destruct H as (Hl & Hwin & H).
  destruct (current l key now) as [b|] eqn:Ec; simpl in Hend.
  - destruct (limit l <=? count b).
    + destruct H as (_ & _ & ->). rewrite sweep_current by done.
      unfold current in Ec |- *. destruct (buckets l !! key) as [b'|]; [|done].
      destruct (After now (windowEnd b')); [done|]. injection Ec as ->.
      by rewrite (proj2 (After_ge _ _)).
    + destruct H as (_ & _ & Hb). unfold current. rewrite Hb, lookup_insert_eq. simpl.
      by rewrite (proj2 (After_ge _ _)).
  - destruct H as (_ & _ & Hb). unfold current. rewrite Hb, lookup_insert_eq. simpl.
    by rewrite (proj2 (After_ge _ _)).
Qed.

(** Requests of other clients leave it alone. *)
Lemma take_other key key' now now' l :
  key <> key' -> t_ns now <= t_ns now' ->
  current (take key now l).2 key' now' = current l key' now'.
Proof.
  intros Hk Hle. pose proof (take_cases key now l) as H.
  rewrite <- (sweep_current now now' l key') by done.
  destruct (take key now l) as [[ok wait] l']. cbn [snd]. destruct H as (_ & _ & H).
  destruct (current l key now) as [b|].
  - destruct (limit l <=? count b).
    + by destruct H as (_ & _ & ->).
    + destruct H as (_ & _ & Hb). unfold current. by rewrite Hb, lookup_insert_ne.
  - destruct H as (_ & _ & Hb). unfold current. by rewrite Hb, lookup_insert_ne.
Qed.

(** ** Sequences of requests *)

(** The answers to a sequence of requests. *)
Fixpoint takes (rs : list (string * time)) (l : Limiter) : list bool :=
  match rs with
  | [] => []
  | (key, now) :: r => (take key now l).1.1 :: takes r (take key now l).2
  end.

(** The answers given to one client. *)
Fixpoint answers_of (key : string) (rs : list (string * time)) (bs : list bool) : list bool :=
  match rs, bs with
  | r :: rs', b :: bs' =>
      if String.eqb r.1 key then b :: answers_of key rs' bs' else answers_of key rs' bs'
  | _, _ => []
  end.

(** [k] more answers of a window that has already counted [c] requests. *)
Definition window_answers (lim c : Z) (k : nat) : list bool :=
  map (fun i => c + Z.of_nat i <? lim) (List.seq 0 k).

Lemma window_answers_S lim c k :
  window_answers lim c (S k) = (c <? lim) :: window_answers lim (c + 1) k.
Proof.
  unfold window_answers. cbn [List.seq map]. rewrite Z.add_0_r. f_equal.
  rewrite <- seq_shift, List.map_map. apply map_ext. intros i. f_equal. lia.
Qed.

Lemma window_answers_full lim c c' k : lim <= c -> lim <= c' ->
  window_answers lim c k = window_answers lim c' k.
Proof.
  intros H H'. apply map_ext. intros i.
  rewrite !(proj2 (Z.ltb_ge _ _)); [done|lia..].
Qed.

Definition requests_of (key : string) (rs : list (string * time)) : nat :=
  length (keep (fun r => String.eqb r.1 key) rs).

Lemma requests_of_cons key r rs :
  requests_of key (r :: rs) =
  if String.eqb r.1 key then S (requests_of key rs) else requests_of key rs.
Proof. unfold requests_of. simpl. by destruct (String.eqb r.1 key). Qed.

(** Non-decreasing times from [t0] on, none after [t1]. *)
Fixpoint in_order (t0 t1 : Z) (rs : list (string * time)) : Prop :=
  match rs with
  | [] => True
  | (_, t) :: r => t0 <= t_ns t <= t1 /\ in_order (t_ns t) t1 r
  end.

Lemma current_later l key now now' b :
  current l key now = Some b -> t_ns now' <= t_ns (windowEnd b) -> current l key now' = Some b.
Proof.
  unfold current. destruct (buckets l !! key) as [b'|]; [|done].
  destruct (After now _); [done|]. intros [= ->] H. by rewrite (proj2 (After_ge _ _)).
Qed.

(** Inside an open window the answers are decided by the count alone. *)
Lemma takes_in_window key rs now b l :
  0 <= window l ->
  current l key now = Some b ->
  in_order (t_ns now) (t_ns (windowEnd b)) rs ->
  answers_of key rs (takes rs l) = window_answers (limit l) (count b) (requests_of key rs).
Proof.
  intros Hw. revert now b l Hw. induction rs as [|[k t] rs IH]; intros now b l Hw Hc; [done|].
  intros [Ht Hin]. cbn [takes answers_of fst].
  assert (Hct : current l key t = Some b) by (eapply current_later; [done|lia]).
  pose proof (take_cases k t l) as Hcases.
  destruct (take k t l) as [[ok wait] l'] eqn:Et. destruct Hcases as (Hl & Hwin & Hcases).
  rewrite requests_of_cons. cbn [fst snd].
  destruct (String.eqb_spec k key) as [->|Hne].
  - pose proof (take_same key t t l Hw ltac:(lia)) as Hs. rewrite Et, Hct in Hs. simpl in Hs.
    specialize (Hs ltac:(lia)). rewrite Hct in Hcases.
    rewrite window_answers_S.
    destruct (Z.leb_spec (limit l) (count b)) as [Hf|Hf].
    + destruct Hcases as (-> & _ & _). rewrite (proj2 (Z.ltb_ge _ _)) by done. f_equal.
      rewrite <- Hl. rewrite (IH t b l'); [|lia|done|done].
      rewrite Hl. by apply window_answers_full; lia.
    + destruct Hcases as (-> & _ & _). rewrite (proj2 (Z.ltb_lt _ _)) by done. f_equal.
      rewrite <- Hl. by rewrite (IH t (Bucket (count b + 1) (windowEnd b)) l'); [|lia|done|].
  - rewrite <- Hl. apply (IH t); [lia| |done].
    pose proof (take_other k key t t l Hne ltac:(lia)) as Ho. rewrite Et in Ho. simpl in Ho.
    by rewrite Ho.
Qed.

(** ** Properties *)

(** A client with no open window, whose first request comes at [now]: while the
    window that request opens lasts, the first [limit] of its requests are
    allowed and all the later ones are refused, whatever the other clients send
    in between. *)
Theorem limiter_allows_exactly key now rs l :
  1 <= limit l -> 0 <= window l -> current l key now = None ->
  in_order (t_ns now) (t_ns now + window l) rs ->
  answers_of key ((key, now) :: rs) (takes ((key, now) :: rs) l) =
  window_answers (limit l) 0 (S (requests_of key rs)).
Proof.
  intros Hlim Hw Hc Hin. cbn [takes answers_of fst].
  rewrite String.eqb_refl, window_answers_S, (proj2 (Z.ltb_lt _ _)) by lia.
  pose proof (take_cases key now l) as Hcases.
  assert (Hle : t_ns now <= t_ns (Add now (window l))) by (simpl; lia).
  pose proof (take_same key now now l Hw ltac:(lia)) as Hs.
  rewrite Hc in Hs, Hcases. specialize (Hs Hle).
  destruct (take key now l) as [[ok wait] l']. destruct Hcases as (Hl & Hwin & -> & _).
  cbn [fst snd] in *. f_equal. rewrite <- Hl.
  by rewrite (takes_in_window key rs now _ l' ltac:(lia) Hs Hin).
Qed.

Lemma limiter_allows_exactly_witness :
  let l := newFixedWindowLimiter 2 Minute in
  let t k := Time (k * Second) UTC in
  let rs := [("b", t 101); ("a", t 102); ("a", t 103); ("b", t 104)] in
  answers_of "a" (("a", t 100) :: rs) (takes (("a", t 100) :: rs) l)
  = window_answers 2 0 3.
Proof.
  intros l t rs. apply (limiter_allows_exactly "a" (t 100) rs l).
  - vm_compute. discriminate.
  - vm_compute. discriminate.
  - reflexivity.
  - vm_compute. repeat split; discriminate.
Defined.

(** The Retry-After of a refusal is at least one second and at most the
    window, and waiting that long reaches the end of the window when the
    window is not longer than that. *)
Theorem retryAfter_bounds wait win :
  Second <= win -> win <= max_int64 - Second -> wait <= win ->
  1 <= retryAfterSeconds wait win <= Z.quot win Second /\
  (wait <= Z.quot win Second * Second -> 
   min_int64 + Second <= wait -> wait <= retryAfterSeconds wait win * Second).
Proof.
  intros H1 H2 H3. unfold retryAfterSeconds, Second, min_int64, max_int64 in *.
  assert (Hq : 1 <= Z.quot win 1000000000).
  { rewrite Z.quot_div_nonneg by lia. dlia. }
  destruct (decide (min_int64 <= wait + 1000000000 - 1)) as [Hmin|Hmin];
    unfold min_int64 in Hmin.
  - rewrite wrap64_small by (unfold min_int64, max_int64; lia).
    destruct (Z.ltb_spec (Z.quot win 1000000000) (Z.quot (wait + 1000000000 - 1) 1000000000));
      case_if; zbool; (split; [lia|]); intros; try lia.
    + destruct (decide (0 <= wait + 1000000000 - 1)); [|lia].
      rewrite Z.quot_div_nonneg in * by lia. dlia.
    + destruct (decide (0 <= wait + 1000000000 - 1)); [|lia].
      rewrite Z.quot_div_nonneg in * by lia. dlia.
  - split; [|lia]. generalize (Z.quot (wrap64 (wait + 1000000000 - 1)) 1000000000). intros s.
    destruct (Z.ltb_spec (Z.quot win 1000000000) s); case_if; zbool; lia.
Qed.

Lemma retryAfter_bounds_witness :
  1 <= retryAfterSeconds (90 * Second + 1) (10 * Minute) <= Z.quot (10 * Minute) Second /\
  90 * Second + 1 <= retryAfterSeconds (90 * Second + 1) (10 * Minute) * Second.
Proof.
  destruct (retryAfter_bounds (90 * Second + 1) (10 * Minute)) as [H1 H2];
    [vm_compute; discriminate..|].
  split; [exact H1|]. apply H2; vm_compute; discriminate.
Defined.
