(* ===== verification/BookingWindow.v ===== *)
(** * The daily window and the 15-minute grid of a scheduling link

    [engine/booking_window.go]: [wallClock], [clockMinutes], [LinkWindow],
    [GridSlots].  A link's hours are wall-clock times; these functions resolve
    them on days where the offset from UTC changes. *)

From S2P Require Import Prelude GoInt GoTime GoText Interval LinkStore.

#[local] Open Scope string_scope.
#[local] Open Scope list_scope.
#[local] Open Scope Z_scope.

(** [AvailableSlot] has the shape of an interval. *)
Abbreviation AvailableSlot := interval.

Definition gridStep : Z := 15.

(** ** wallClock *)

(** The three offsets probed: a day before, at, and a day after. *)
Definition probes : list Z := [- (24 * Hour); 0; 24 * Hour].

Definition candidate (loc : Location) (naive : time) (probe : Z) : time :=
  Add naive (- (offset_of (In (Add naive probe) loc) * Second)).

(** The candidate reads as the wall clock asked for. *)
Definition reads_as (day : time) (h m : Z) (c : time) : bool :=
  let lc := In c (t_loc day) in
  bool_decide (DateOf lc = DateOf day) && (HourOf lc =? h) && (MinuteOf lc =? m) &&
  (SecondOf lc =? 0).

Record probing := { best : option time; earliest : time }.

Definition probe_step (day : time) (h m : Z) (naive : time) (st : probing) (probe : Z) : probing :=
  let c := candidate (t_loc day) naive probe in
  {| best := if reads_as day h m c
             then match best st with
                  | None => Some c
                  | Some b => if Before c b then Some c else Some b
                  end
             else best st;
     earliest := if IsZero (earliest st) || Before c (earliest st) then c else earliest st |}.

Definition naive_of (day : time) (h m : Z) : time :=
  let c := DateOf day in Date (c_year c) (c_month c) (c_day c) h m 0 0 UTC.

Definition wallClock (day : time) (h m : Z) : time * bool :=
  let st := fold_left (probe_step day h m (naive_of day h m)) probes
              {| best := None; earliest := zero_time |} in
  match best st with
  | Some b => (In b (t_loc day), true)
  | None => (In (ZoneEnd (In (earliest st) (t_loc day))) (t_loc day), false)
  end.

(** ** The window and the grid *)

Definition clockMinutes (hhmm : string) : option Z :=
  match SplitN2 (TrimSpace hhmm) ":" with
  | [a; b] =>
      '(h, _) ← scan_int a;
      '(m, _) ← scan_int b;
      if (h <? 0) || (23 <? h) || (m <? 0) || (59 <? m) then None else Some (h * 60 + m)
  | _ => None
  end.

Definition LinkWindow (link : SchedulingLink) (day : time) : option (time * time) :=
  match clockMinutes (WindowStart link), clockMinutes (WindowEnd link) with
  | Some sm, Some em =>
      let start := (wallClock day (sm / 60) (sm mod 60)).1 in
      let end_ := (wallClock day (em / 60) (em mod 60)).1 in
      if After end_ start then Some (start, end_) else None
  | _, _ => None
  end.

(** The minutes of the grid, from the opening time to midnight. *)
Fixpoint grid_minutes (fuel : nat) (m : Z) : list Z :=
  match fuel with
  | O => []
  | S k => if m <? 24 * 60 then m :: grid_minutes k (m + gridStep) else []
  end.

(** One grid start: kept when it exists, is not before the opening and ends no
    later than the close. *)
Definition grid_slot (day ws we : time) (dur m : Z) : list AvailableSlot :=
  let '(t, exists_) := wallClock day (m / 60) (m mod 60) in
  if negb exists_ || Before t ws then []
  else if After (Add t dur) we then []
  else [Iv t (Add t dur)].

Definition GridSlots (link : SchedulingLink) (day : time) (durationMinutes : Z)
    : list AvailableSlot :=
  if durationMinutes <=? 0 then []
  else
    match LinkWindow link day, clockMinutes (WindowStart link) with
    | Some (ws, we), Some sm =>
        flat_map (grid_slot day ws we (dur_minutes durationMinutes)) (grid_minutes 97 sm)
    | _, _ => []
    end.

(** ** wallClock: facts *)

(** The wall clock asked for, as seconds. *)
Definition wall_sec (day : time) (h m : Z) : Z :=
  (local_sec day / day_secs) * day_secs + h * 3600 + m * 60.

Definition clock_ok (h m : Z) : Prop := 0 <= h < 24 /\ 0 <= m < 60.

Lemma naive_of_ns day h m : t_ns (naive_of day h m) = wall_sec day h m * Second.
Proof.
  unfold naive_of, Date. rewrite resolve_UTC. cbn [t_ns].
  change (0 / Second) with 0. change (0 mod Second) with 0.
  pose proof (DateOf_range day) as Hv. unfold civil_valid in Hv. zbool.
  rewrite naive_sec_valid by lia.
  unfold DateOf in *. rewrite days_of_civil_of_days. unfold wall_sec. lia.
Qed.

(** A candidate, in seconds. *)
Definition cand (loc : Location) (N probe : Z) : Z := N - off_at loc (N + probe).

Lemma candidate_ns day h m p :
  t_ns (candidate (t_loc day) (naive_of day h m) (p * Second)) =
  cand (t_loc day) (wall_sec day h m) p * Second.
Proof.
  unfold candidate, cand, offset_of, unix_sec. unfold Add at 1. cbn [t_ns In t_loc].
  unfold Add. cbn [t_ns]. rewrite naive_of_ns, <- Z.mul_add_distr_r, Z.div_mul by done. lia.
Qed.

Lemma reads_as_wall day h m c s :
  clock_ok h m -> t_ns c = s * Second ->
  reads_as day h m c = true <-> s + off_at (t_loc day) s = wall_sec day h m.
Proof.
  intros [Hh Hm] Hs.
  assert (E : local_sec (In c (t_loc day)) = s + off_at (t_loc day) s).
  { unfold local_sec, offset_of, unix_sec, In. cbn [t_ns t_loc].
    by rewrite Hs, Z.div_mul. }
  unfold reads_as. rewrite !andb_true_iff, bool_decide_eq_true, !Z.eqb_eq. split.
  - intros (((HD & HH) & HM) & HS). rewrite <- E, local_sec_fields, HH, HM, HS, HD.
    unfold DateOf, wall_sec. rewrite days_of_civil_of_days. lia.
  - intros Hw. rewrite Hw in E.
    destruct (fields_local_sec (In c (t_loc day)) (c_year (DateOf day)) (c_month (DateOf day))
      (c_day (DateOf day)) h m 0) as (HD & HH & HM & HS); [|lia|lia|lia| |].
    + replace (Civil _ _ _) with (DateOf day) by (by destruct (DateOf day)).
      apply DateOf_range.
    + rewrite E. unfold DateOf, wall_sec. rewrite days_of_civil_of_days. lia.
    + rewrite HD, HH, HM, HS. by destruct (DateOf day).
Qed.

(** The probing over the three candidates, in seconds. *)
Definition valid_at (loc : Location) (N s : Z) : bool := s + off_at loc s =? N.

Definition pick (loc : Location) (N : Z) (b : option Z) (p : Z) : option Z :=
  let c := cand loc N p in
  if valid_at loc N c
  then match b with None => Some c | Some b' => if c <? b' then Some c else Some b' end
  else b.

Definition sec_probes : list Z := [- day_secs; 0; day_secs].

Lemma probes_secs : probes = map (fun p => p * Second) sec_probes.
Proof. reflexivity. Qed.

Lemma candidate_eq day h m p :
  candidate (t_loc day) (naive_of day h m) (p * Second) =
  Time (cand (t_loc day) (wall_sec day h m) p * Second) UTC.
Proof.
  rewrite <- candidate_ns. unfold candidate, Add. cbn [t_ns t_loc]. reflexivity.
Qed.

(** One probing step, in seconds. *)
Lemma probe_step_pick day h m naive N p b e :
  candidate (t_loc day) naive (p * Second) = Time (cand (t_loc day) N p * Second) UTC ->
  (reads_as day h m (Time (cand (t_loc day) N p * Second) UTC) = true <->
   cand (t_loc day) N p + off_at (t_loc day) (cand (t_loc day) N p) = N) ->
  best (probe_step day h m naive
    {| best := (fun s => Time (s * Second) UTC) <$> b; earliest := e |} (p * Second)) =
  (fun s => Time (s * Second) UTC) <$> pick (t_loc day) N b p.
Proof.
  intros Hcand Hr. unfold probe_step. cbn [best]. rewrite Hcand.
  unfold pick, valid_at. destruct (reads_as _ _ _ _).
  - rewrite (proj2 (Z.eqb_eq _ _)) by (by apply Hr).
    destruct b as [b|]; cbn [fmap option_fmap option_map]; [|done].
    unfold Before. cbn [t_ns].
    replace (cand (t_loc day) N p * Second <? b * Second) with (cand (t_loc day) N p <? b)
      by (unfold Second; lia).
    by destruct (_ <? b).
  - rewrite (proj2 (Z.eqb_neq _ _)); [done|]. intros Hw. apply Hr in Hw. discriminate.
Qed.

Lemma best_pick day h m naive N l b e :
  (forall p b e, best (probe_step day h m naive
    {| best := (fun s => Time (s * Second) UTC) <$> b; earliest := e |} (p * Second)) =
    (fun s => Time (s * Second) UTC) <$> pick (t_loc day) N b p) ->
  best (fold_left (probe_step day h m naive) (map (fun p => p * Second) l)
    {| best := (fun s => Time (s * Second) UTC) <$> b; earliest := e |}) =
  (fun s => Time (s * Second) UTC) <$> fold_left (pick (t_loc day) N) l b.
Proof.
  intros Hs. revert b e. induction l as [|p l IH]; intros b e; [done|].
  cbn [map fold_left]. specialize (Hs p b e).
  destruct (probe_step _ _ _ _ _ _) as [b' e']. cbn [best] in Hs. subst b'. apply IH.
Qed.

(** The outcome of the probing, in seconds. *)
Definition first_reading (loc : Location) (N : Z) : option Z :=
  fold_left (pick loc N) sec_probes None.

Lemma wallClock_reading day h m :
  clock_ok h m ->
  match first_reading (t_loc day) (wall_sec day h m) with
  | Some s => wallClock day h m = (Time (s * Second) (t_loc day), true)
  | None => (wallClock day h m).2 = false
  end.
Proof.
  intros Hc. unfold wallClock. rewrite probes_secs.
  pose proof (best_pick day h m (naive_of day h m) (wall_sec day h m) sec_probes None zero_time)
    as G.
  fold (first_reading (t_loc day) (wall_sec day h m)) in G.
  cbn [fmap option_fmap option_map] in G. rewrite G.
  2:{ intros p b e. apply probe_step_pick; [apply candidate_eq|].
      by apply reads_as_wall. }
  by destruct (first_reading _ _).
Qed.

Lemma pick_fold loc N l b :
  match fold_left (pick loc N) l b with
  | None => b = None /\ forall p, p ∈ l -> valid_at loc N (cand loc N p) = false
  | Some s =>
      (b = Some s \/ exists p, p ∈ l /\ s = cand loc N p /\ valid_at loc N s = true) /\
      (forall p, p ∈ l -> valid_at loc N (cand loc N p) = true -> s <= cand loc N p) /\
      (forall b', b = Some b' -> s <= b')
  end.
Proof.
  revert b. induction l as [|p l IH]; intros b; simpl.
  - destruct b; split_and!; try done; try (by left);
      try (intros ? H; by apply not_elem_of_nil in H). intros b' [= ->]. lia.
  - specialize (IH (pick loc N b p)).
    destruct (fold_left _ _ _) as [s|].
    + destruct IH as (H1 & H2 & H3). unfold pick in *.
      destruct (valid_at loc N (cand loc N p)) eqn:E.
      * assert (Hle : s <= cand loc N p).
        { destruct b as [b|]; [|by apply H3].
          destruct (Z.ltb_spec (cand loc N p) b); [by apply H3|]. specialize (H3 _ eq_refl). lia. }
        split_and!.
        -- destruct H1 as [H1|(q & Hq & Hs)]; [|right; exists q; by rewrite elem_of_cons; auto].
           destruct b as [b|]; [|injection H1 as <-; right; exists p; rewrite elem_of_cons; auto].
           destruct (_ <? b); injection H1 as <-; [right; exists p; rewrite elem_of_cons; auto|by left].
        -- intros q [->|Hq]%elem_of_cons; auto.
        -- intros b' ->. destruct (Z.ltb_spec (cand loc N p) b'); [lia|by apply H3].
      * split_and!; [|intros q [->|Hq]%elem_of_cons; [congruence|auto]|done].
        destruct H1 as [H1|(q & Hq & Hs)]; [by left|right; exists q; rewrite elem_of_cons; auto].
    + destruct IH as [H1 H2]. unfold pick in *.
      destruct (valid_at loc N (cand loc N p)) eqn:E.
      * destruct b as [b|]; [destruct (_ <? b); done|done].
      * split; [done|]. intros q [->|Hq]%elem_of_cons; auto.
Qed.

(** A place where the offset changes at most once within a day of the wall
    clock [N]. *)
Definition one_change (loc : Location) (N : Z) : Prop :=
  loc_ok loc = true /\
  (length (changes (loc_tx loc) (N - day_secs) (N + day_secs)) <= 1)%nat.

(** Every instant that reads as the wall clock is one of the candidates. *)
Lemma valid_is_cand loc N s :
  one_change loc N -> s + off_at loc s = N -> exists p, p ∈ sec_probes /\ s = cand loc N p.
Proof.
  intros [Hok Hc] Hv.
  destruct (off_at_window loc _ _ Hok Hc ltac:(unfold day_secs; lia)) as [T HT].
  pose proof (off_at_bound loc s Hok) as Hb. unfold day_secs in *.
  rewrite HT in Hv by lia. unfold sec_probes, cand, day_secs.
  destruct (s <? T).
  - exists (- 86400). split; [left|]. change (N + - 86400) with (N - 86400). lia.
  - exists 86400. split; [right; right; left|]. lia.
Qed.

(** The wall clocks that exist: [wallClock] finds the first instant that reads
    as the wall clock, and finds one exactly when there is one. *)
Lemma wallClock_first day h m :
  clock_ok h m -> one_change (t_loc day) (wall_sec day h m) ->
  let loc := t_loc day in let N := wall_sec day h m in
  (exists s, wallClock day h m = (Time (s * Second) loc, true) /\ s + off_at loc s = N /\
     forall s', s' + off_at loc s' = N -> s <= s') \/
  ((wallClock day h m).2 = false /\ forall s', s' + off_at loc s' <> N).
Proof.
  intros Hc H1 loc N.
  pose proof (wallClock_reading day h m Hc) as Hf.
  pose proof (pick_fold loc N sec_probes None) as Hp.
  unfold first_reading in Hf. fold loc N in Hf.
  destruct (fold_left (pick loc N) sec_probes None) as [s|] eqn:E.
  - left. exists s. destruct Hp as ([?|(p & _ & _ & Hv)] & Hmin & _); [done|].
    split; [done|]. split; [by apply Z.eqb_eq in Hv|].
    intros s' Hs'. destruct (valid_is_cand loc N s' H1 Hs') as (q & Hq & ->).
    apply Hmin; [done|]. by apply Z.eqb_eq.
  - right. destruct Hp as [_ Hnone]. split; [done|].
    intros s' Hs'. destruct (valid_is_cand loc N s' H1 Hs') as (q & Hq & ->).
    specialize (Hnone q Hq). apply Z.eqb_neq in Hnone. done.
Qed.

(** ** Skipped wall clocks *)

(** The wall clock is at least two days after Go's zero time, which the probing
    uses as "no candidate yet". *)
Definition after_zero (N : Z) : Prop := unix_sec zero_time + 2 * day_secs < N.

Lemma earliest_step day h m naive N p st :
  candidate (t_loc day) naive (p * Second) = Time (cand (t_loc day) N p * Second) UTC ->
  earliest (probe_step day h m naive st (p * Second)) =
  if IsZero (earliest st) || Before (Time (cand (t_loc day) N p * Second) UTC) (earliest st)
  then Time (cand (t_loc day) N p * Second) UTC else earliest st.
Proof. intros H. unfold probe_step. cbn [earliest]. by rewrite H. Qed.

Lemma min_step loc N p c :
  unix_sec zero_time < c ->
  (if IsZero (Time (c * Second) UTC) || Before (Time (cand loc N p * Second) UTC) (Time (c * Second) UTC)
   then Time (cand loc N p * Second) UTC else Time (c * Second) UTC) =
  Time (Z.min c (cand loc N p) * Second) UTC.
Proof.
  intros Hc. unfold IsZero, Before. cbn [t_ns].
  change (unix_sec zero_time) with (-62135596800) in Hc.
  rewrite (proj2 (Z.eqb_neq _ _)) by (cbn [zero_time t_ns]; unfold Second; lia). simpl.
  destruct (Z.ltb_spec (cand loc N p * Second) (c * Second)); do 2 f_equal;
    unfold Second in *; lia.
Qed.

Lemma fold_left_3 {A B} (f : A -> B -> A) a x y z :
  fold_left f [x; y; z] a = f (f (f a x) y) z.
Proof. reflexivity. Qed.

Lemma earliest_min_gen day h m naive N loc :
  loc = t_loc day ->
  (forall p, candidate loc naive (p * Second) = Time (cand loc N p * Second) UTC) ->
  loc_ok loc = true -> after_zero N ->
  earliest (fold_left (probe_step day h m naive)
    [- day_secs * Second; 0 * Second; day_secs * Second]
    {| best := None; earliest := zero_time |}) =
  Time (Z.min (Z.min (cand loc N (- day_secs)) (cand loc N 0)) (cand loc N day_secs) * Second) UTC.
Proof.
  intros Hl Hcand Hok Hz. subst loc. rewrite fold_left_3.
  unfold after_zero in Hz.
  pose proof (off_at_bound (t_loc day) (N + - day_secs) Hok).
  pose proof (off_at_bound (t_loc day) (N + 0) Hok).
  rewrite !(earliest_step _ _ _ _ N _ _ (Hcand _)).
  cbn [earliest].
  replace (IsZero zero_time) with true by reflexivity. cbn [orb].
  rewrite !min_step by (unfold cand, day_secs in *; lia). reflexivity.
Qed.

Lemma probes_eq : probes = [- day_secs * Second; 0 * Second; day_secs * Second].
Proof. reflexivity. Qed.

Lemma earliest_min day h m :
  loc_ok (t_loc day) = true -> after_zero (wall_sec day h m) ->
  earliest (fold_left (probe_step day h m (naive_of day h m)) probes
    {| best := None; earliest := zero_time |}) =
  Time (Z.min (Z.min (cand (t_loc day) (wall_sec day h m) (- day_secs))
    (cand (t_loc day) (wall_sec day h m) 0)) (cand (t_loc day) (wall_sec day h m) day_secs)
    * Second) UTC.
Proof.
  intros Hok Hz. rewrite probes_eq.
  exact (earliest_min_gen day h m _ _ _ eq_refl (candidate_eq day h m) Hok Hz).
Qed.

Lemma wallClock_missing day h m e :
  (wallClock day h m).2 = false ->
  earliest (fold_left (probe_step day h m (naive_of day h m)) probes
    {| best := None; earliest := zero_time |}) = e ->
  wallClock day h m = (In (ZoneEnd (In e (t_loc day))) (t_loc day), false).
Proof.
  unfold wallClock. generalize (fold_left (probe_step day h m (naive_of day h m)) probes
    {| best := None; earliest := zero_time |}). intros st Hf <-.
  destruct (best st); [discriminate|reflexivity].
Qed.

(** The earliest candidate of a skipped wall clock lies in the period that ends
    at the change. *)
Lemma gap_period loc N :
  one_change loc N -> (forall s, s + off_at loc s <> N) ->
  exists T,
    z_end (lookup loc (Z.min (Z.min (cand loc N (- day_secs)) (cand loc N 0))
      (cand loc N day_secs))) = Some T /\
    T + off_at loc (T - 1) <= N < T + off_at loc T /\ T ∈ (loc_tx loc).*1.
Proof.
  intros [Hok Hch] Hn.
  pose proof (off_at_bound loc (N - day_secs) Hok) as Ha.
  pose proof (off_at_bound loc (N + day_secs) Hok) as Hb.
  pose proof Hok as Hok'. unfold loc_ok in Hok'. zbool.
  assert (Hno : forall x, off_at loc (N - x) <> x) by (intros x Hx; apply (Hn (N - x)); lia).
  destruct (changes (loc_tx loc) (N - day_secs) (N + day_secs)) as [|[T o] [|]] eqn:Ec;
    [| |simpl in Hch; lia].
  - exfalso. apply (Hno (off_at loc (N - day_secs))).
    unfold off_at at 1, lookup. rewrite (lookup_tx_quiet _ _ _ _ _ (N - _) Ec);
      [reflexivity|lia].
  - destruct (lookup_tx_one (loc_first loc) None (loc_tx loc) _ _ T o ltac:(done) Ec
      ltac:(unfold day_secs; lia)) as (HT & HE & Hl).
    assert (Ho : forall s, N - day_secs <= s <= N + day_secs ->
      off_at loc s = if s <? T then off_at loc (N - day_secs) else off_at loc (N + day_secs)).
    { intros s Hs. unfold off_at, lookup. rewrite Hl by done. by destruct (s <? T). }
    set (a := off_at loc (N - day_secs)) in *. set (b := off_at loc (N + day_secs)) in *.
    assert (Hga : T <= N - a).
    { pose proof (Hno a) as Hx. rewrite Ho in Hx by lia.
      destruct (Z.ltb_spec (N - a) T); [done|lia]. }
    assert (Hgb : N - b < T).
    { pose proof (Hno b) as Hx. rewrite Ho in Hx by lia.
      destruct (Z.ltb_spec (N - b) T); done. }
    exists T. split_and!.
    + assert (Em : Z.min (Z.min (cand loc N (- day_secs)) (cand loc N 0)) (cand loc N day_secs)
        = N - b).
      { unfold cand. rewrite (Ho (N + 0)) by (unfold day_secs; lia).
        replace (N + - day_secs) with (N - day_secs) by lia. fold a b.
        destruct (N + 0 <? T); lia. }
      rewrite Em. unfold lookup. rewrite Hl by lia.
      by rewrite (proj2 (Z.ltb_lt (N - b) T)).
    + rewrite Ho by lia. rewrite (proj2 (Z.ltb_lt (T - 1) T)) by lia. lia.
    + rewrite (Ho T) by lia. rewrite (proj2 (Z.ltb_ge T T)) by lia. lia.
    + assert (Hin : (T, o) ∈ changes (loc_tx loc) (N - day_secs) (N + day_secs))
        by (rewrite Ec; left).
      apply elem_of_keep in Hin as [Hin _]. by apply (list_elem_of_fmap_2 fst) in Hin.
Qed.

(** A wall clock that the change of offset skips resolves to the instant of
    the change, whose wall clock jumps over it. *)
Lemma wallClock_gap day h m :
  clock_ok h m ->
  let loc := t_loc day in let N := wall_sec day h m in
  one_change loc N -> after_zero N -> (forall s, s + off_at loc s <> N) ->
  exists T, wallClock day h m = (Time (T * Second) loc, false) /\
    T + off_at loc (T - 1) <= N < T + off_at loc T /\ T ∈ (loc_tx loc).*1.
Proof.
  intros Hc loc N H1 Hz Hn.
  destruct (wallClock_first day h m Hc H1) as [(s & _ & Hs & _)|[Hf _]]; [by apply Hn in Hs|].
  destruct (gap_period loc N H1 Hn) as (T & HE & HT).
  exists T. split; [|exact HT].
  rewrite (wallClock_missing day h m _ Hf (earliest_min day h m (proj1 H1) Hz)).
  by rewrite (ZoneEnd_at _ _ _ _ HE).
Qed.

(** ** The grid: facts *)

Lemma elem_of_grid_minutes fuel m x :
  24 * 60 <= m + gridStep * Z.of_nat fuel ->
  x ∈ grid_minutes fuel m <-> m <= x < 24 * 60 /\ (x - m) mod gridStep = 0.
Proof.
  unfold gridStep. revert m. induction fuel as [|k IH]; intros m Hf; simpl.
  - rewrite elem_of_nil. split; [done|]. lia.
  - destruct (Z.ltb_spec m (24 * 60)).
    + rewrite elem_of_cons, IH by (unfold gridStep; lia). unfold gridStep. split.
      * intros [->|?]; [|dlia]. rewrite Z.sub_diag. done || lia.
      * intros [Hx Hd]. destruct (decide (x = m)); [by left|right]. dlia.
    + rewrite elem_of_nil. split; [done|]. lia.
Qed.

Lemma clockMinutes_range s n : clockMinutes s = Some n -> 0 <= n < 24 * 60.
Proof.
  unfold clockMinutes. destruct (SplitN2 _ _) as [|a [|b [|]]]; try done.
  destruct (scan_int a) as [[h ?]|], (scan_int b) as [[m ?]|]; try done.
  cbn [mbind option_bind]. destruct (_ || _) eqn:E; [done|]. intros [= <-]. zbool. lia.
Qed.

Lemma clock_ok_minutes x : 0 <= x < 24 * 60 -> clock_ok (x / 60) (x mod 60).
Proof. unfold clock_ok. dlia. Qed.

(** A slot is one of the grid's exactly when its start is a grid minute of the
    day that exists and the slot lies inside the window. *)
Lemma elem_of_GridSlots link day dur s :
  s ∈ GridSlots link day dur <->
  0 < dur /\ exists ws we sm x,
    LinkWindow link day = Some (ws, we) /\ clockMinutes (WindowStart link) = Some sm /\
    sm <= x < 24 * 60 /\ (x - sm) mod gridStep = 0 /\
    wallClock day (x / 60) (x mod 60) = (iv_start s, true) /\
    t_ns ws <= t_ns (iv_start s) /\ t_ns (iv_start s) + dur_minutes dur <= t_ns we /\
    iv_end s = Add (iv_start s) (dur_minutes dur).
Proof.
  unfold GridSlots. destruct (Z.leb_spec dur 0).
  { rewrite elem_of_nil. split; [done|]. lia. }
  destruct (LinkWindow link day) as [[ws we]|] eqn:Ew.
  2:{ rewrite elem_of_nil. split; [done|]. intros (_ & ? & ? & ? & ? & ? & _). done. }
  destruct (clockMinutes (WindowStart link)) as [sm|] eqn:Es.
  2:{ rewrite elem_of_nil. split; [done|]. intros (_ & ? & ? & ? & ? & _ & ? & _). done. }
  pose proof (clockMinutes_range _ _ Es) as Hsm.
  rewrite elem_of_flat_map.
  setoid_rewrite elem_of_grid_minutes; [|unfold gridStep; lia].
  assert (G : forall x, s ∈ grid_slot day ws we (dur_minutes dur) x <->
    wallClock day (x / 60) (x mod 60) = (iv_start s, true) /\
    t_ns ws <= t_ns (iv_start s) /\ t_ns (iv_start s) + dur_minutes dur <= t_ns we /\
    iv_end s = Add (iv_start s) (dur_minutes dur)).
  { intros x. unfold grid_slot. destruct (wallClock day _ _) as [t ex].
    destruct ex; simpl; [|rewrite elem_of_nil; split; [done|intros ([= ] & _)]].
    destruct (Before t ws) eqn:E1; ztime.
    { rewrite elem_of_nil. split; [done|]. intros ([= ->] & ? & _). lia. }
    destruct (Z.ltb_spec (t_ns we) (t_ns t + dur_minutes dur)).
    { rewrite elem_of_nil. split; [done|]. intros ([= ->] & ? & ? & _). lia. }
    rewrite list_elem_of_singleton. split.
    - intros ->. simpl. auto.
    - intros ([= ->] & _ & _ & He). destruct s; simpl in *. by subst. }
  setoid_rewrite G. split.
  - intros (x & Hx & Hr). split; [done|]. exists ws, we, sm, x. tauto.
  - intros (_ & ws' & we' & sm' & x & [= <- <-] & [= <-] & Hx). exists x. tauto.
Qed.

(** Every slot of the grid has the length asked for. *)
Lemma GridSlots_length link day dur s :
  dur <= max_dur_minutes -> s ∈ GridSlots link day dur ->
  t_ns (iv_end s) = t_ns (iv_start s) + dur * Minute /\ 0 < dur.
Proof.
  intros Hd (Hp & ws & we & sm & x & H)%elem_of_GridSlots.
  destruct H as (_ & _ & _ & _ & _ & _ & _ & ->). simpl.
  rewrite dur_minutes_small by (unfold max_dur_minutes in *; lia). done.
Qed.

(** ** The date of a found wall clock *)

Lemma probe_step_best_reads day h m naive st p :
  (forall b, best st = Some b -> reads_as day h m b = true) ->
  forall b, best (probe_step day h m naive st p) = Some b -> reads_as day h m b = true.
Proof.
  intros Hst b. unfold probe_step. cbn [best].
  destruct (reads_as day h m (candidate _ _ p)) eqn:Er; [|apply Hst].
  destruct (best st) as [b2|] eqn:E2; [|intros [= <-]; exact Er].
  destruct (Before _ b2); intros [= <-]; [exact Er|by apply Hst].
Qed.

Lemma fold_best_reads day h m naive l st :
  (forall b, best st = Some b -> reads_as day h m b = true) ->
  forall b, best (fold_left (probe_step day h m naive) l st) = Some b -> reads_as day h m b = true.
Proof.
  revert st. induction l as [|p l IH]; intros st Hst; [exact Hst|].
  cbn [fold_left]. apply IH. by apply probe_step_best_reads.
Qed.

(** A wall clock that was found is on the date asked for, whatever the zone. *)
Lemma wallClock_date day h m t :
  wallClock day h m = (t, true) -> DateOf t = DateOf day /\ t_loc t = t_loc day.
Proof.
  unfold wallClock.
  pose proof (fold_best_reads day h m (naive_of day h m) probes
    {| best := None; earliest := zero_time |} ltac:(discriminate)) as G. revert G.
  generalize (fold_left (probe_step day h m (naive_of day h m)) probes
    {| best := None; earliest := zero_time |}). intros st G.
  destruct (best st) as [b|]; [|discriminate]. intros [= <-].
  specialize (G b eq_refl). unfold reads_as in G. zbool.
  split; [|reflexivity]. by apply bool_decide_eq_true in H.
Qed.

(** Wall clocks, and so the slots of the grid, fall on whole seconds. *)
Lemma fold_best_second day h m l st :
  (forall b, best st = Some b -> t_ns b mod Second = 0) ->
  (forall p, p ∈ l -> p ∈ probes) ->
  forall b, best (fold_left (probe_step day h m (naive_of day h m)) l st) = Some b ->
  t_ns b mod Second = 0.
Proof.
  revert st. induction l as [|p l IH]; intros st Hst Hl; [exact Hst|].
  cbn [fold_left]. apply IH; [|intros q Hq; apply Hl; by right].
  assert (Hc : t_ns (candidate (t_loc day) (naive_of day h m) p) mod Second = 0).
  { unfold candidate, Add. cbn [t_ns]. rewrite naive_of_ns.
    generalize (wall_sec day h m) as w, (offset_of (In (Time (wall_sec day h m * Second + p)
      (t_loc (naive_of day h m))) (t_loc day))) as o.
    intros w o. replace (w * Second + - (o * Second)) with ((w - o) * Second) by ring.
    apply Z.mod_mul. discriminate. }
  unfold probe_step. cbn [best].
  destruct (reads_as day h m _); [|exact Hst].
  destruct (best st) as [b2|] eqn:E2; [|intros b [= <-]; exact Hc].
  destruct (Before _ b2); intros b [= <-]; [exact Hc|by apply Hst].
Qed.

Lemma wallClock_second day h m t : wallClock day h m = (t, true) -> t_ns t mod Second = 0.
Proof.
  unfold wallClock.
  pose proof (fold_best_second day h m probes
    {| best := None; earliest := zero_time |} ltac:(discriminate) (fun _ H => H)) as G. revert G.
  generalize (fold_left (probe_step day h m (naive_of day h m)) probes
    {| best := None; earliest := zero_time |}). intros st G.
  destruct (best st) as [b|]; [|discriminate]. intros [= <-]. exact (G b eq_refl).
Qed.

Lemma GridSlots_second link day dur s :
  s ∈ GridSlots link day dur -> t_ns (iv_start s) mod Second = 0.
Proof. by intros (_ & ws & we & sm & x & _ & _ & _ & _ & H%wallClock_second & _)%elem_of_GridSlots. Qed.

(** ** Properties *)

(** C33: [wallClock] resolves a wall clock of a day in a zone whose offset changes at
    most once around it: to the first instant that reads as it when there is
    one (the first of the two on a day the clocks go back), and otherwise to the
    instant the clocks jump over it, reported as missing. *)
Theorem wallClock_correct day h m :
  clock_ok h m -> one_change (t_loc day) (wall_sec day h m) -> after_zero (wall_sec day h m) ->
  let loc := t_loc day in let N := wall_sec day h m in
  (exists s, wallClock day h m = (Time (s * Second) loc, true) /\ s + off_at loc s = N /\
     forall s', s' + off_at loc s' = N -> s <= s') \/
  (exists T, wallClock day h m = (Time (T * Second) loc, false) /\
     T + off_at loc (T - 1) <= N < T + off_at loc T /\ T ∈ (loc_tx loc).*1 /\
     forall s', s' + off_at loc s' <> N).
Proof.
  intros Hc H1 Hz loc N. destruct (wallClock_first day h m Hc H1) as [H|[_ H]]; [by left|].
  right. destruct (wallClock_gap day h m Hc H1 Hz H) as (T & HT & HN & Hin). by exists T.
Qed.

(** The grid of a day: the slots are exactly the existing wall clocks every
    quarter of an hour from the opening time that start no earlier than the
    window and end no later; each is on the day asked for, at a whole second. *)
Theorem GridSlots_exact link day dur s :
  (s ∈ GridSlots link day dur <->
   0 < dur /\ exists ws we sm x,
     LinkWindow link day = Some (ws, we) /\ clockMinutes (WindowStart link) = Some sm /\
     sm <= x < 24 * 60 /\ (x - sm) mod gridStep = 0 /\
     wallClock day (x / 60) (x mod 60) = (iv_start s, true) /\
     t_ns ws <= t_ns (iv_start s) /\ t_ns (iv_start s) + dur_minutes dur <= t_ns we /\
     iv_end s = Add (iv_start s) (dur_minutes dur)) /\
  (s ∈ GridSlots link day dur -> DateOf (iv_start s) = DateOf day /\ t_ns (iv_start s) mod Second = 0).
Proof.
  split; [apply elem_of_GridSlots|]. intros H. split; [|by eapply GridSlots_second].
  by apply elem_of_GridSlots in H as (_ & ws & we & sm & x & _ & _ & _ & _ & [? _]%wallClock_date & _).
Qed.

Module WindowDemo.
(** New York around 2025: daylight time from 9 March to 2 November. *)
Definition new_york : Location := {|
  loc_name := "America/New_York"; loc_first := -18000;
  loc_tx := [(1741503600, -14400); (1762063200, -18000)] |}.
Definition link : SchedulingLink := {|
  ID := 7%N; OwnerUserID := 1%N; Slug := "ada-30min"; Title := "Chat";
  DurationOptions := [30]; DaysOfWeek := [0]; WindowStart := "01:30"; WindowEnd := "03:30";
  BufferBefore := 0; BufferAfter := 0; MinNoticeMinutes := 0; UsageType := "single_use";
  MaxUses := None; UsesCount := 0; Active := true; BookingHorizonDays := 10;
  RefusalMessage := RefusalSpecific |}.
Definition spring : time := Date 2025 3 9 0 0 0 0 new_york.
Definition autumn : time := Date 2025 11 2 0 0 0 0 new_york.
Definition shown (l : list AvailableSlot) : list (Z * string) :=
  map (fun s => (t_ns (iv_start s) / Second, FormatHHMM (iv_start s))) l.
End WindowDemo.

(** The skipped hour has no slot; the repeated one is offered once, at its first
    occurrence. *)
Example spring_grid :
  WindowDemo.shown (GridSlots WindowDemo.link WindowDemo.spring 30) =
  [(1741501800, "01:30"); (1741502700, "01:45"); (1741503600, "03:00")].
Proof. vm_compute. reflexivity. Qed.

Example autumn_grid :
  WindowDemo.shown (GridSlots WindowDemo.link WindowDemo.autumn 60) =
  [(1762061400, "01:30"); (1762062300, "01:45"); (1762066800, "02:00"); (1762067700, "02:15");
   (1762068600, "02:30")].
Proof. vm_compute. reflexivity. Qed.

Lemma wallClock_correct_witness :
  exists T, wallClock WindowDemo.spring 2 30 = (Time (T * Second) WindowDemo.new_york, false) /\
    T = 1741503600.
Proof.
  destruct (wallClock_correct WindowDemo.spring 2 30) as [(s & Hs & _)|(T & HT & _)].
  - unfold clock_ok. lia.
  - split; [reflexivity|]. apply Nat.leb_le. vm_compute. reflexivity.
  - unfold after_zero. vm_compute. reflexivity.
  - exfalso. apply (f_equal snd) in Hs. vm_compute in Hs. discriminate.
  - exists T. split; [exact HT|].
    assert (E : T * Second = 1741503600 * Second).
    { transitivity (t_ns (wallClock WindowDemo.spring 2 30).1); [by rewrite HT|].
      vm_compute. reflexivity. }
    unfold Second in E. lia.
Defined.

Lemma GridSlots_exact_witness :
  let s := Iv (Time (1741503600 * Second) WindowDemo.new_york)
              (Time (1741505400 * Second) WindowDemo.new_york) in
  s ∈ GridSlots WindowDemo.link WindowDemo.spring 30 /\ DateOf (iv_start s) = Civil 2025 3 9.
Proof.
  intros s. assert (H : s ∈ GridSlots WindowDemo.link WindowDemo.spring 30)
    by (apply list_elem_of_In; vm_compute; tauto).
  split; [exact H|]. apply (GridSlots_exact WindowDemo.link WindowDemo.spring 30 s). exact H.
Defined.
