(* ===== verification/Calendar.v ===== *)
(** * Calendar events and the calendar client interface

    [engine/cal_iface.go]: [calendarOps] and the credential errors;
    [engine/booking.go]: [parseEventTime], [parseTime];
    [engine/focus_time.go]: [parseHHMM], [startOfWeek].  The calendar provider
    (Google, Outlook) is not part of the repository: a client is a record of
    functions over a calendar state of the provider's. *)

From S2P Require Import Prelude GoInt GoTime GoText Interval LinkStore.

#[local] Open Scope string_scope.
#[local] Open Scope list_scope.
#[local] Open Scope Z_scope.

(** ** Events *)

Record Attendee := {
  Email : string;
  ResponseStatus : string;
  Self : bool;
  Organizer_ : bool;
}.

(** [calendar.EventDateTime]. *)
Record EventDateTime := { DateTime : string; Date_ : string }.

Record Event := {
  ev_Id : string;
  Summary : string;
  Description : string;
  Location_ : string;
  Status : string;
  Transparency : string;
  Visibility : string;
  ColorId : string;
  OrganizerSelf : option bool;     (** [Organizer]: nil, or its [Self] *)
  ev_Start : option EventDateTime;
  ev_End : option EventDateTime;
  Attendees : list Attendee;
}.

Definition transparent (ev : Event) : bool := String.eqb (Transparency ev) "transparent".

(** The time of an event written by the backend. *)
Definition at_time (t : time) : option EventDateTime :=
  Some {| DateTime := FormatRFC3339 t; Date_ := "" |}.

(** ** Times of events and settings *)

Section Parsing.
(** The zone of the server process. *)
Context (local : Location).

(** [time.Parse(time.RFC3339, s)] with its error dropped: the zero time. *)
Definition parse_or_zero (s : string) : time := default zero_time (ParseRFC3339 local s).

Definition parseEventTime (ev : Event) : time * time :=
  match ev_Start ev, ev_End ev with
  | Some s, Some e => (parse_or_zero (DateTime s), parse_or_zero (DateTime e))
  | _, _ => (zero_time, zero_time)
  end.

(** The interval of an event whose two times are readable. *)
Definition eventInterval (ev : Event) : option interval :=
  let '(s, e) := parseEventTime ev in
  if negb (IsZero s) && negb (IsZero e) then Some (Iv s e) else None.

(** The busy intervals of a list of events: the loop shared by [hostBusy],
    [memberBusy] and [scheduleDay]. *)
Definition event_busy (evs : list Event) : list interval :=
  flat_map (fun ev => if transparent ev then []
                      else match eventInterval ev with Some iv => [iv] | None => [] end) evs.

(** Both times parse without error. *)
Definition parsed_times (ev : Event) : option (time * time) :=
  match ev_Start ev, ev_End ev with
  | Some s, Some e =>
      start ← ParseRFC3339 local (DateTime s);
      end_ ← ParseRFC3339 local (DateTime e);
      Some (start, end_)
  | _, _ => None
  end.
End Parsing.

(** [fmt.Sscanf(hhmm, "%d:%d", &h, &m)]: the fields read before the first
    mismatch, zero for the others. *)
Definition scan_hhmm (s : string) : Z * Z :=
  match scan_int s with
  | None => (0, 0)
  | Some (h, rest) =>
      match skip_char ":" rest with
      | None => (h, 0)
      | Some rest' => match scan_int rest' with Some (m, _) => (h, m) | None => (h, 0) end
      end
  end.

Definition scan_or_zero (s : string) : Z :=
  match scan_int s with Some (n, _) => n | None => 0 end.

Definition parseHHMM (hhmm : string) (day : time) (loc : Location) : time :=
  let '(h, m) := scan_hhmm hhmm in
  let c := DateOf day in Date (c_year c) (c_month c) (c_day c) h m 0 0 loc.

Definition parseTime (hhmm : string) (date : time) : time :=
  match SplitN2 hhmm ":" with
  | [a; b] =>
      let c := DateOf date in
      Date (c_year c) (c_month c) (c_day c) (scan_or_zero a) (scan_or_zero b) 0 0 (t_loc date)
  | _ => date
  end.

Definition startOfWeek (t : time) : time :=
  let wd := if WeekdayOf t =? 0 then 7 else WeekdayOf t in
  let c := DateOf t in Date (c_year c) (c_month c) (c_day c - wd + 1) 0 0 0 0 (t_loc t).

(** ** The client interface *)

(** Why an operation of the engine fails. *)
Inductive Error :=
| ErrCalendarNotConnected
| ErrCredentialStore
| ErrProvider                    (** the calendar provider failed *)
| ErrStorage                     (** the database failed *)
| ErrExpired                     (** [budget.ErrExpired] *)
| ErrHostCalendarUnreadable
| ErrOutOfHoursAllowance
| ErrArgument.                   (** a refused argument *)

#[export] Instance Error_eq_dec : EqDecision Error.
Proof. solve_decision. Defined.

Abbreviation result := (res Error).

(** [LoadCalendarToken]: the outcome of reading the stored credential. *)
Inductive TokenRead :=
| TokenFound
| TokenNone          (** no row, or a nil token *)
| TokenNoUser        (** [auth.ErrNoUser] *)
| TokenFailed.       (** the store could not be read *)

Definition LoadCalendarToken (r : TokenRead) : result unit :=
  match r with
  | TokenNoUser => Err ErrCalendarNotConnected
  | TokenFailed => Err ErrCredentialStore
  | TokenNone => Err ErrCalendarNotConnected
  | TokenFound => Ok tt
  end.

(** [calendarOps] over a provider whose state is [S]; [calendarID] is the
    calendar of the credential.  Every call may fail. *)
Class CalendarOps (S : Type) := {
  calendarID : string;
  listEvents : S -> time -> time -> result (list Event);
  createEvent : S -> Event -> result string * S;
  updateEvent : S -> string -> Event -> result unit * S;
  deleteEvent : S -> string -> result unit * S;
  getEvent : S -> string -> result Event;
  getFreeBusy : S -> list string -> time -> time -> result (list (string * list interval));
}.

(** ** Facts *)

Lemma elem_of_event_busy local evs iv :
  iv ∈ event_busy local evs <->
  exists ev, ev ∈ evs /\ transparent ev = false /\ eventInterval local ev = Some iv.
Proof.
  unfold event_busy. rewrite elem_of_flat_map. split.
  - intros (ev & Hev & H). destruct (transparent ev) eqn:Et; [by apply not_elem_of_nil in H|].
    destruct (eventInterval local ev) as [iv'|] eqn:E; [|by apply not_elem_of_nil in H].
    apply list_elem_of_singleton in H as ->. eauto.
  - intros (ev & Hev & Ht & E). exists ev. split; [done|]. rewrite Ht, E. left.
Qed.

(** The Monday of a week: a Monday, at most six days back. *)
Lemma startOfWeek_civil t :
  let wd := if WeekdayOf t =? 0 then 7 else WeekdayOf t in
  startOfWeek t =
  Time (resolve (t_loc t) ((local_sec t / day_secs - wd + 1) * day_secs) * Second) (t_loc t).
Proof.
  unfold startOfWeek, Date. cbv zeta.
  change (0 / Second) with 0. change (0 mod Second) with 0.
  pose proof (DateOf_range t) as Hv. unfold civil_valid in Hv. zbool.
  rewrite naive_sec_valid by lia.
  assert (E : forall k, days_of_civil (c_year (DateOf t)) (c_month (DateOf t)) (c_day (DateOf t) - k + 1)
      = local_sec t / day_secs - k + 1).
  { intros k. rewrite <- (days_of_civil_of_days (local_sec t / day_secs)).
    unfold DateOf, days_of_civil. lia. }
  rewrite E. change (0 * 3600) with 0. change (0 * 60) with 0. by rewrite !Z.add_0_r.
Qed.

(** ** Properties *)

(** A time that RFC 3339 can hold: whole seconds of the years 0 to 9999, at an
    offset of whole minutes. *)
Definition writable (t : time) : Prop :=
  loc_ok (t_loc t) = true /\ 0 <= c_year (DateOf t) < 10000 /\ t_ns t mod Second = 0 /\
  offset_of t mod 60 = 0.

(** An event the engine writes is read back, by the reader of every component
    and whatever the zone of its process, at the instants it was written with. *)
Theorem written_event_read_back local ev s e :
  writable s -> writable e -> ev_Start ev = at_time s -> ev_End ev = at_time e ->
  (exists s' e', parsed_times local ev = Some (s', e') /\ t_ns s' = t_ns s /\ t_ns e' = t_ns e) /\
  t_ns (parseEventTime local ev).1 = t_ns s /\ t_ns (parseEventTime local ev).2 = t_ns e.
Proof.
  intros (Hs1 & Hs2 & Hs3 & Hs4) (He1 & He2 & He3 & He4) Hs He.
  destruct (ParseRFC3339_format local s Hs1 Hs2 Hs3 Hs4) as (s' & Hps & Hns).
  destruct (ParseRFC3339_format local e He1 He2 He3 He4) as (e' & Hpe & Hne).
  unfold parsed_times, parseEventTime, parse_or_zero. rewrite Hs, He. unfold at_time.
  cbn [DateTime]. rewrite Hps, Hpe. cbn. split; [by exists s', e'|done].
Qed.

Module CalendarDemo.
Definition zone : Location := FixedZone (-5 * 3600).
Definition s : time := Date 2025 1 6 9 30 0 0 zone.
Definition e : time := Date 2025 1 6 10 0 0 0 zone.
Definition ev : Event := {|
  ev_Id := "e1"; Summary := ""; Description := ""; Location_ := ""; Status := "";
  Transparency := ""; Visibility := ""; ColorId := ""; OrganizerSelf := None;
  ev_Start := at_time s; ev_End := at_time e; Attendees := [] |}.
End CalendarDemo.

Lemma written_event_read_back_witness :
  t_ns (parseEventTime UTC CalendarDemo.ev).1 = t_ns CalendarDemo.s /\
  FormatRFC3339 CalendarDemo.s = "2025-01-06T09:30:00-05:00".
Proof.
  split; [|vm_compute; reflexivity].
  apply (written_event_read_back UTC CalendarDemo.ev CalendarDemo.s CalendarDemo.e);
    [..|reflexivity|reflexivity]; unfold writable; split_and!; vm_compute;
    reflexivity || (split; [discriminate|reflexivity]) || discriminate || reflexivity.
Defined.
