(* ===== verification/Settings.v ===== *)
(** * A user's settings

    [storage/settings.go]: the working hours and lunch breaks of a settings row,
    the windows the engines read from them, and the auto-schedule watermark with
    its compare-and-set. *)

From S2P Require Import Prelude GoInt GoTime GoText LinkStore.

#[local] Open Scope string_scope.
#[local] Open Scope list_scope.
#[local] Open Scope Z_scope.

(** ** Schedules *)

Record DaySchedule := { Enabled : bool; DS_Start : string; DS_End : string }.

Record WorkingHoursSchedule := {
  WH_Mode : string;
  WH_Default : DaySchedule;
  WH_Days : gmap string DaySchedule;      (** a nil map is the empty one *)
}.

(** The columns of a settings row the engines read. *)
Record Settings := {
  WorkStart : string;
  WorkEnd : string;
  Timezone : string;
  FocusMinBlockMinutes : Z;
  FocusMaxBlockMinutes : Z;
  FocusDailyTargetMinutes : Z;
  OutOfHoursMeetingsPerWeek : Z;
  AutoDeclineOutsideWorkingHours : bool;
  FocusLabel : string;
  FocusColor : string;
  LunchStart : string;
  LunchEnd : string;
  ProtectLunch : bool;
  BufferBeforeMinutes : Z;
  BufferAfterMinutes : Z;
  BufferEnabled : bool;
  BufferMinMeetingMinutes : Z;
  BufferSkipBackToBack : bool;
  WorkingHours : WorkingHoursSchedule;
  LunchBreaks : gmap string DaySchedule;
  CompressionEnabled : bool;
  AutoScheduleEnabled : bool;
  AutoScheduleCron : string;
}.

Definition defaultWorkingHours (workStart workEnd : string) : WorkingHoursSchedule :=
  {| WH_Mode := "all_days";
     WH_Default := {| Enabled := true;
                      DS_Start := if String.eqb workStart "" then "09:00" else workStart;
                      DS_End := if String.eqb workEnd "" then "18:00" else workEnd |};
     WH_Days := ∅ |}.

Definition set_hours (w : WorkingHoursSchedule) (s : Settings) : Settings :=
  {| WorkStart := WorkStart s; WorkEnd := WorkEnd s; Timezone := Timezone s;
     FocusMinBlockMinutes := FocusMinBlockMinutes s; FocusMaxBlockMinutes := FocusMaxBlockMinutes s;
     FocusDailyTargetMinutes := FocusDailyTargetMinutes s;
     OutOfHoursMeetingsPerWeek := OutOfHoursMeetingsPerWeek s;
     AutoDeclineOutsideWorkingHours := AutoDeclineOutsideWorkingHours s;
     FocusLabel := FocusLabel s; FocusColor := FocusColor s; LunchStart := LunchStart s;
     LunchEnd := LunchEnd s; ProtectLunch := ProtectLunch s;
     BufferBeforeMinutes := BufferBeforeMinutes s; BufferAfterMinutes := BufferAfterMinutes s;
     BufferEnabled := BufferEnabled s; BufferMinMeetingMinutes := BufferMinMeetingMinutes s;
     BufferSkipBackToBack := BufferSkipBackToBack s; WorkingHours := w;
     LunchBreaks := LunchBreaks s; CompressionEnabled := CompressionEnabled s;
     AutoScheduleEnabled := AutoScheduleEnabled s; AutoScheduleCron := AutoScheduleCron s |}.

Definition normalizeSchedules (s : Settings) : Settings :=
  let w := WorkingHours s in
  let d := WH_Default w in
  if String.eqb (WH_Mode w) "" then set_hours (defaultWorkingHours (WorkStart s) (WorkEnd s)) s
  else if String.eqb (WH_Mode w) "all_days" && String.eqb (DS_Start d) "" &&
          String.eqb (DS_End d) "" && negb (Enabled d)
  then set_hours {| WH_Mode := WH_Mode w;
                    WH_Default := WH_Default (defaultWorkingHours (WorkStart s) (WorkEnd s));
                    WH_Days := WH_Days w |} s
  else s.

(** [strings.ToLower(day.Weekday().String())]. *)
Definition weekday_key (day : time) : string :=
  match WeekdayOf day with
  | 0 => "sunday" | 1 => "monday" | 2 => "tuesday" | 3 => "wednesday"
  | 4 => "thursday" | 5 => "friday" | _ => "saturday"
  end.

(** A window: its start, its end, and whether it is on. *)
Definition window_of (d : DaySchedule) : string * string * bool :=
  (DS_Start d, DS_End d,
   Enabled d && negb (String.eqb (DS_Start d) "") && negb (String.eqb (DS_End d) "")).

(** [WorkWindow]; [None] is the nil receiver. *)
Definition WorkWindow (settings : option Settings) (day : time) : string * string * bool :=
  match settings with
  | None => ("09:00", "18:00", true)
  | Some s0 =>
      let s := normalizeSchedules s0 in
      if EqualFold (WH_Mode (WorkingHours s)) "by_day" then
        match WH_Days (WorkingHours s) !! weekday_key day with
        | None => ("", "", false)
        | Some entry => window_of entry
        end
      else
        let entry := WH_Default (WorkingHours s) in
        window_of (if String.eqb (DS_Start entry) "" || String.eqb (DS_End entry) ""
                   then WH_Default (defaultWorkingHours (WorkStart s) (WorkEnd s)) else entry)
  end.

Definition LunchWindow (settings : option Settings) (day : time) : string * string * bool :=
  match settings with
  | None => ("", "", false)
  | Some s0 =>
      let s := normalizeSchedules s0 in
      match LunchBreaks s !! weekday_key day with
      | Some entry => window_of entry
      | None =>
          (LunchStart s, LunchEnd s,
           ProtectLunch s && negb (String.eqb (LunchStart s) "") && negb (String.eqb (LunchEnd s) ""))
      end
  end.

(** ** The auto-schedule watermark *)

(** The scheduling columns of a row, with the watermark. *)
Record AutoRow := {
  ar_User : uuid;
  ar_Enabled : bool;
  ar_Cron : string;
  ar_Zone : string;
  ar_LastRun : option time;
}.

(** [AutoScheduleCandidate]. *)
Record AutoScheduleCandidate := {
  ac_UserID : uuid; CronExpr : string; ac_Timezone : string; LastRun : option time }.

(** Two instants, or two nulls: [IS NOT DISTINCT FROM]. *)
Definition same_mark (a b : option time) : bool :=
  match a, b with
  | None, None => true
  | Some x, Some y => t_ns x =? t_ns y
  | _, _ => false
  end.

Definition ListAutoScheduleCandidates (rows : list AutoRow) : list AutoScheduleCandidate :=
  map (fun r => {| ac_UserID := ar_User r; CronExpr := ar_Cron r; ac_Timezone := ar_Zone r;
                   LastRun := ar_LastRun r |}) (keep ar_Enabled rows).

(** The watermark a save writes: [now] when the save turns auto-schedule on or
    changes its schedule or zone, else the stored one. *)
Definition saved_mark (stored : option AutoRow) (enabled : bool) (cron zone_ : string) (now : time)
    : option time :=
  match stored with
  | None => if enabled then Some now else None
  | Some r =>
      if enabled && (negb (ar_Enabled r) || negb (String.eqb (ar_Cron r) cron) ||
                     negb (String.eqb (ar_Zone r) zone_))
      then Some now else ar_LastRun r
  end.

(** [SaveSettingsForUserAt], on the scheduling columns; a save without a user
    is an error that writes nothing. *)
Definition SaveSchedule (u : uuid) (enabled : bool) (cron zone_ : string) (now : time)
    (rows : list AutoRow) : list AutoRow :=
  if N.eqb u uuid_nil then rows else
  let stored := List.find (fun r => N.eqb (ar_User r) u) rows in
  let row := {| ar_User := u; ar_Enabled := enabled; ar_Cron := cron; ar_Zone := zone_;
                ar_LastRun := saved_mark stored enabled cron zone_ now |} in
  match stored with
  | None => rows ++ [row]
  | Some _ => map (fun r => if N.eqb (ar_User r) u then row else r) rows
  end.

Definition GetAutoScheduleLastRun (u : uuid) (rows : list AutoRow) : option time :=
  r ← List.find (fun r => N.eqb (ar_User r) u) rows; ar_LastRun r.

Definition advanceable (u : uuid) (observed : option time) (r : AutoRow) : bool :=
  N.eqb (ar_User r) u && ar_Enabled r && same_mark (ar_LastRun r) observed.

Definition set_mark (to : time) (r : AutoRow) : AutoRow :=
  {| ar_User := ar_User r; ar_Enabled := ar_Enabled r; ar_Cron := ar_Cron r; ar_Zone := ar_Zone r;
     ar_LastRun := Some to |}.

(** [AdvanceAutoScheduleWatermark]: one conditional update; whether it moved
    exactly one row.  Without a user it is an error that writes nothing. *)
Definition AdvanceAutoScheduleWatermark (u : uuid) (observed : option time) (to : time)
    (rows : list AutoRow) : bool * list AutoRow :=
  if N.eqb u uuid_nil then (false, rows)
  else (Nat.eqb (length (keep (advanceable u observed) rows)) 1,
        map (fun r => if advanceable u observed r then set_mark to r else r) rows).

Definition ListUsersWithAutoDecline (rows : list (uuid * bool)) : list uuid :=
  map fst (keep snd rows).

Definition timeFormatOrDefault (v : string) : string := if String.eqb v "" then "12h" else v.
Definition recapSendTimeOrDefault (v : string) : string := if String.eqb v "" then "08:00" else v.
Definition recapSendToOrDefault (v : string) : string := if String.eqb v "" then "dm" else v.

(** ** Windows: facts *)

(** Normalising is done once: a second time changes nothing. *)
Lemma default_start_nonempty a b :
  String.eqb (DS_Start (WH_Default (defaultWorkingHours a b))) "" = false.
Proof. simpl. by destruct (String.eqb a "") eqn:E. Qed.

(** Nothing left to default. *)
Definition unset_default (s : Settings) : bool :=
  let w := WorkingHours s in
  let d := WH_Default w in
  String.eqb (WH_Mode w) "all_days" && String.eqb (DS_Start d) "" && String.eqb (DS_End d) "" &&
  negb (Enabled d).

Definition normal (s : Settings) : Prop :=
  String.eqb (WH_Mode (WorkingHours s)) "" = false /\ unset_default s = false.

Lemma normalizeSchedules_fix s : normal s -> normalizeSchedules s = s.
Proof. unfold normal, normalizeSchedules, unset_default. cbv zeta. by intros [-> ->]. Qed.

Lemma normalizeSchedules_normal s : normal (normalizeSchedules s).
Proof.
  unfold normalizeSchedules. cbv zeta. fold (unset_default s).
  destruct (String.eqb (WH_Mode (WorkingHours s)) "") eqn:Em; [|destruct (unset_default s) eqn:E].
  - split; [reflexivity|]. unfold unset_default. cbn [WorkingHours set_hours].
    rewrite default_start_nonempty. cbn. done.
  - split; [exact Em|]. unfold unset_default. cbn [WorkingHours set_hours WH_Default].
    by rewrite default_start_nonempty, andb_false_r.
  - by split.
Qed.

Lemma normalizeSchedules_idem s : normalizeSchedules (normalizeSchedules s) = normalizeSchedules s.
Proof. apply normalizeSchedules_fix, normalizeSchedules_normal. Qed.

Lemma window_of_enabled d a b :
  window_of d = (a, b, true) -> a <> "" /\ b <> "" /\ Enabled d = true.
Proof.
  unfold window_of. intros [= <- <- H]. zbool. rewrite !String.eqb_neq in *. done.
Qed.

(** ** The watermark: facts *)

Section Watermark.
Implicit Types (rows : list AutoRow) (u : uuid).

Definition one_row u rows : Prop := length (keep (fun r => N.eqb (ar_User r) u) rows) = 1%nat.

Lemma keep_advanceable u observed rows :
  keep (advanceable u observed) rows =
  keep (fun r => ar_Enabled r && same_mark (ar_LastRun r) observed)
       (keep (fun r => N.eqb (ar_User r) u) rows).
Proof.
  induction rows as [|r rows IH]; [done|]. unfold advanceable in *. simpl.
  destruct (N.eqb (ar_User r) u); simpl; [|done].
  destruct (ar_Enabled r && _); by rewrite IH.
Qed.

(** After an advance the rows of the user are those moved. *)
Lemma advance_rows u observed to rows :
  u <> uuid_nil ->
  keep (fun r => N.eqb (ar_User r) u) (AdvanceAutoScheduleWatermark u observed to rows).2 =
  map (fun r => if ar_Enabled r && same_mark (ar_LastRun r) observed then set_mark to r else r)
      (keep (fun r => N.eqb (ar_User r) u) rows).
Proof.
  intros Hu%N.eqb_neq. unfold AdvanceAutoScheduleWatermark. rewrite Hu. simpl.
  induction rows as [|r rows IH]; [done|]. simpl.
  assert (Ea : advanceable u observed r =
    N.eqb (ar_User r) u && (ar_Enabled r && same_mark (ar_LastRun r) observed))
    by (unfold advanceable; by rewrite andb_assoc).
  rewrite Ea. destruct (N.eqb (ar_User r) u) eqn:E; cbn [andb].
  - cbn [map]. rewrite <- IH. by destruct (ar_Enabled r && _); simpl; rewrite E.
  - by rewrite E.
Qed.

Lemma advance_none u observed to rows :
  keep (advanceable u observed) rows = [] ->
  AdvanceAutoScheduleWatermark u observed to rows = (false, rows).
Proof.
  intros H. unfold AdvanceAutoScheduleWatermark. rewrite H.
  destruct (N.eqb u uuid_nil); [done|]. f_equal. revert H.
  induction rows as [|x l IH]; [done|]. simpl.
  destruct (advanceable u observed x); [done|]. intros Hl. by rewrite IH.
Qed.

Lemma same_mark_refl m : same_mark m m = true.
Proof. destruct m; simpl; [apply Z.eqb_refl|done]. Qed.
End Watermark.

(** ** Properties *)

(** The windows of a stored row and of its normalised form are the same: a row
    read back (normalised by the read) gives the engines the windows it gave
    before. *)
Theorem windows_of_normalized s day :
  WorkWindow (Some (normalizeSchedules s)) day = WorkWindow (Some s) day /\
  LunchWindow (Some (normalizeSchedules s)) day = LunchWindow (Some s) day.
Proof. unfold WorkWindow, LunchWindow. by rewrite normalizeSchedules_idem. Qed.

(** No slot runs twice: of two schedulers that observed the same watermark of a
    user and both try to advance it to a later instant, the second is refused,
    whatever it tries to write, and the watermark is the first one's. *)
Theorem watermark_once u observed to1 to2 rows :
  one_row u rows -> same_mark (Some to1) observed = false ->
  let first := AdvanceAutoScheduleWatermark u observed to1 rows in
  first.1 = true ->
  let second := AdvanceAutoScheduleWatermark u observed to2 first.2 in
  second.1 = false /\ second.2 = first.2 /\
  keep (fun r => N.eqb (ar_User r) u) second.2 =
    map (set_mark to1) (keep (fun r => N.eqb (ar_User r) u) rows).
Proof.
  intros Hone Hd first Hf second.
  assert (Hu : u <> uuid_nil).
  { intros ->. by unfold first, AdvanceAutoScheduleWatermark in Hf. }
  pose proof (advance_rows u observed to1 rows Hu) as Hrows.
  assert (E1 : first = AdvanceAutoScheduleWatermark u observed to1 rows) by reflexivity.
  rewrite <- E1 in Hrows. unfold second. clear second. clearbody first.
  unfold one_row in Hone. rewrite E1 in Hf. unfold AdvanceAutoScheduleWatermark in Hf.
  rewrite (proj2 (N.eqb_neq _ _) Hu) in Hf. cbn [fst] in Hf.
  rewrite keep_advanceable in Hf.
  destruct (keep (fun r => N.eqb (ar_User r) u) rows) as [|r [|]]; [done| |done].
  cbn [keep List.filter] in Hf. cbn [map] in Hrows. unfold keep in Hf. simpl in Hf.
  destruct (ar_Enabled r && same_mark (ar_LastRun r) observed) eqn:Ea; [|done].
  assert (Hnone : keep (advanceable u observed) first.2 = []).
  { rewrite keep_advanceable, Hrows. simpl. simpl in Hd. by rewrite Hd, andb_false_r. }
  rewrite (advance_none u observed to2 first.2 Hnone). split; [done|]. split; [done|].
  exact Hrows.
Qed.

(** A save never rewinds a watermark: with auto-schedule staying on under the
    same schedule and zone the stored watermark survives whatever the caller
    read before, and every other user's row is untouched. *)
Theorem save_keeps_watermark u enabled cron zone_ now rows r :
  List.find (fun r => N.eqb (ar_User r) u) rows = Some r -> u <> uuid_nil ->
  (enabled = false \/ (ar_Enabled r = true /\ ar_Cron r = cron /\ ar_Zone r = zone_)) ->
  GetAutoScheduleLastRun u (SaveSchedule u enabled cron zone_ now rows) = ar_LastRun r /\
  keep (fun r => negb (N.eqb (ar_User r) u)) (SaveSchedule u enabled cron zone_ now rows) =
  keep (fun r => negb (N.eqb (ar_User r) u)) rows.
Proof.
  intros Hf Hu%N.eqb_neq Hsame. unfold SaveSchedule. rewrite Hu, Hf.
  assert (Hm : saved_mark (Some r) enabled cron zone_ now = ar_LastRun r).
  { unfold saved_mark. destruct Hsame as [->|(-> & -> & ->)]; [done|].
    by rewrite !String.eqb_refl, andb_false_r. }
  rewrite Hm. split.
  - unfold GetAutoScheduleLastRun. clear Hm Hsame. revert Hf. induction rows as [|x rows IH]; [done|].
    simpl. destruct (N.eqb (ar_User x) u) eqn:E; simpl; [by rewrite N.eqb_refl|]. rewrite E. apply IH.
  - clear Hm Hsame Hf. induction rows as [|x rows IH]; [done|]. simpl.
    destruct (N.eqb (ar_User x) u) eqn:E; simpl; [by rewrite N.eqb_refl|]. by rewrite E, IH.
Qed.

(** ** A concrete row *)

Definition demo_rows : list AutoRow :=
  [{| ar_User := 1%N; ar_Enabled := true; ar_Cron := "0 8 * * *"; ar_Zone := "UTC";
      ar_LastRun := Some (Time 0 UTC) |};
   {| ar_User := 2%N; ar_Enabled := false; ar_Cron := "0 8 * * *"; ar_Zone := "UTC";
      ar_LastRun := None |}].

Lemma watermark_once_witness :
  let first := AdvanceAutoScheduleWatermark 1%N (Some (Time 0 UTC)) (Time Hour UTC) demo_rows in
  first.1 = true /\
  (AdvanceAutoScheduleWatermark 1%N (Some (Time 0 UTC)) (Time (2 * Hour) UTC) first.2).1 = false.
Proof.
  intros first. assert (H : first.1 = true) by reflexivity. split; [exact H|].
  destruct (watermark_once 1%N (Some (Time 0 UTC)) (Time Hour UTC) (Time (2 * Hour) UTC) demo_rows
    eq_refl eq_refl H) as (H1 & _). exact H1.
Defined.

Lemma save_keeps_watermark_witness :
  GetAutoScheduleLastRun 1%N
    (SaveSchedule 1%N true "0 8 * * *" "UTC" (Time (5 * Hour) UTC) demo_rows) = Some (Time 0 UTC).
Proof.
  destruct (save_keeps_watermark 1%N true "0 8 * * *" "UTC" (Time (5 * Hour) UTC) demo_rows _ eq_refl
    ltac:(discriminate) (or_intror (conj eq_refl (conj eq_refl eq_refl)))) as [H _]. exact H.
Defined.
