(* ===== verification/AutoDecline.v ===== *)
(** * Declining invitations outside working hours

    [engine/auto_decline.go]: the window of working days, the policy for one
    invitation, the run of one user and the run of everyone.  A user's calendar
    is the list of its events; the provider's answers are parameters. *)

From S2P Require Import Prelude GoInt GoTime GoText GoEncoding Interval LinkStore Calendar Settings.

#[local] Open Scope string_scope.
#[local] Open Scope list_scope.
#[local] Open Scope Z_scope.

Definition AutoDeclineWorkingDays : nat := 10.

(** ** The window *)

Definition isWorkingDay (day : Z) : bool := (1 <=? day) && (day <=? 5).

(** The loop from midnight [cursor] with [todo] working days to go. *)
Fixpoint working_days_from (fuel : nat) (todo : nat) (cursor : time) : option time :=
  match fuel with
  | O => None
  | S fuel =>
      if isWorkingDay (WeekdayOf cursor) then
        match todo with
        | O | S O => Some (AddDate cursor 0 0 1)
        | S todo => working_days_from fuel todo (AddDate cursor 0 0 1)
        end
      else working_days_from fuel todo (AddDate cursor 0 0 1)
  end.

Definition midnight_of (now : time) : time :=
  let c := DateOf now in Date (c_year c) (c_month c) (c_day c) 0 0 0 0 (t_loc now).

(** [nextWorkingDaysWindow]; three days per working day are enough, and a zone whose midnight is missing repeats one. *)
Definition nextWorkingDaysWindow (now : time) (days : nat) : option (time * time) :=
  match days with
  | O => Some (now, now)
  | _ => e ← working_days_from (7 * days) days (midnight_of now); Some (now, e)
  end.

(** ** The policy *)

(** [settingsLocation]; [load] is [time.LoadLocation]. *)
Definition settingsLocation (load : string -> option Location) (name : string) : Location :=
  if String.eqb name "" then UTC else default UTC (load name).

Definition pending_status (status : string) : bool :=
  let s := ToLower status in
  String.eqb s "needsaction" || String.eqb s "tentative" || String.eqb s "pending".

Definition pending_self (a : Attendee) : bool := Self a && negb (Organizer_ a) && pending_status (ResponseStatus a).

Definition pendingSelfAttendee (ev : Event) : option Attendee := List.find pending_self (Attendees ev).

(** [policyClock]. *)
Definition policyClock (value : string) (date : time) : option time :=
  match Split ":" value with
  | [a; b] =>
      '(h, ra) ← getnum a false;
      '(m, rb) ← getnum b true;
      if negb (String.eqb ra "") || negb (String.eqb rb "") || (24 <=? h) || (60 <=? m) then None
      else let c := DateOf date in Some (Date (c_year c) (c_month c) (c_day c) h m 0 0 (t_loc date))
  | _ => None
  end.

(** The last check: an event of a working day. *)
Definition outside_policy (settings : Settings) (start end_ : time) : bool :=
  let '(workStartRaw, workEndRaw, enabled) := WorkWindow (Some settings) start in
  if negb enabled then true
  else match policyClock workStartRaw start, policyClock workEndRaw start with
  | Some workStart, Some workEnd =>
      if Before start workStart || After end_ workEnd then true
      else
        let '(lunchStartRaw, lunchEndRaw, lunchEnabled) := LunchWindow (Some settings) start in
        if negb lunchEnabled then false
        else match policyClock lunchStartRaw start, policyClock lunchEndRaw start with
        | Some lunchStart, Some lunchEnd => Before start lunchEnd && After end_ lunchStart
        | _, _ => false
        end
  | _, _ => false
  end.

(** [shouldAutoDecline]; [local] is the zone of the server. *)
Definition shouldAutoDecline (local : Location) (ev : Event) (settings : Settings) (loc : Location) : bool :=
  if String.eqb (Status ev) "cancelled" then false
  else match OrganizerSelf ev with
  | None | Some true => false
  | Some false =>
  match pendingSelfAttendee ev, ev_Start ev, ev_End ev with
  | Some _, Some s, Some e =>
      if negb (String.eqb (Date_ s) "") || negb (String.eqb (Date_ e) "") || String.eqb (DateTime s) ""
         || String.eqb (DateTime e) "" then false
      else match ParseRFC3339 local (DateTime s), ParseRFC3339 local (DateTime e) with
      | Some start, Some end_ =>
          if negb (After end_ start) then false else outside_policy settings (In start loc) (In end_ loc)
      | _, _ => false
      end
  | _, _, _ => false
  end end.

(** ** The run *)

(** The first pending attendee that is the user answers. *)
Fixpoint answer_first (l : list Attendee) : list Attendee :=
  match l with
  | [] => []
  | a :: r =>
      if pending_self a
      then {| Email := Email a; ResponseStatus := "declined"; Self := Self a; Organizer_ := Organizer_ a |} :: r
      else a :: answer_first r
  end.

Definition declined_event (ev : Event) : Event :=
  {| ev_Id := ev_Id ev; Summary := Summary ev; Description := Description ev; Location_ := Location_ ev;
     Status := Status ev; Transparency := Transparency ev; Visibility := Visibility ev; ColorId := ColorId ev;
     OrganizerSelf := OrganizerSelf ev; ev_Start := ev_Start ev; ev_End := ev_End ev;
     Attendees := answer_first (Attendees ev) |}.

(** What a run meets: the settings, the configuration, the credential, the
    client and the provider's answers to the list and to each update. *)
Record DeclineEnv := {
  de_settings : result Settings;
  de_oauth : bool;
  de_token : TokenRead;
  de_client : result unit;
  de_list : time -> time -> result (list Event);
  de_update : Event -> result unit;
  de_load : string -> option Location }.

(** The counted declines, the first error, and the updates that were sent. *)
Record DeclineRun := { dr_count : Z; dr_err : option Error; dr_sent : list Event }.

Definition first_error (old : option Error) (e : Error) : option Error := match old with Some _ => old | None => Some e end.

Section Run.
Context (local : Location) (env : DeclineEnv).

Definition decline_one (settings : Settings) (loc : Location) (run : DeclineRun) (ev : Event) : DeclineRun :=
  if negb (shouldAutoDecline local ev settings loc)
     || match pendingSelfAttendee ev with Some _ => false | None => true end
  then run
  else
    let ev' := declined_event ev in
    match de_update env ev' with
    | Err e => {| dr_count := dr_count run; dr_err := first_error (dr_err run) e; dr_sent := dr_sent run ++ [ev'] |}
    | Ok _ => {| dr_count := dr_count run + 1; dr_err := dr_err run; dr_sent := dr_sent run ++ [ev'] |}
    end.

Definition stopped (e : Error) : DeclineRun := {| dr_count := 0; dr_err := Some e; dr_sent := [] |}.
Definition idle : DeclineRun := {| dr_count := 0; dr_err := None; dr_sent := [] |}.

(** [RunForUser]. *)
Definition RunForUser (now : time) : DeclineRun :=
  match de_settings env with
  | Err e => stopped e
  | Ok settings =>
      if negb (AutoDeclineOutsideWorkingHours settings) then idle
      else if negb (de_oauth env) then stopped ErrArgument
      else match de_token env with
      | TokenFailed | TokenNoUser => stopped ErrCredentialStore
      | TokenNone => stopped ErrCalendarNotConnected
      | TokenFound =>
          let loc := settingsLocation (de_load env) (Timezone settings) in
          match nextWorkingDaysWindow (In now loc) AutoDeclineWorkingDays with
          | None => stopped ErrArgument
          | Some (start, end_) =>
              match de_client env with
              | Err e => stopped e
              | Ok _ =>
                  match de_list env start end_ with
                  | Err e => stopped e
                  | Ok events => fold_left (decline_one settings loc) events idle
                  end
              end
          end
      end
  end.
End Run.

(** [RunAll]: the users in order, until the context ends; [ended i] tells
    whether it has before the [i]-th. *)
Fixpoint run_users (local : Location) (env : uuid -> DeclineEnv) (now : uuid -> time) (ended : nat -> bool)
    (i : nat) (users : list uuid) (err : option Error) : option Error * list (uuid * DeclineRun) :=
  match users with
  | [] => (err, [])
  | u :: r =>
      if ended i then (Some ErrExpired, [])
      else
        let run := RunForUser local (env u) (now u) in
        let err' := match dr_err run with Some e => first_error err e | None => err end in
        let '(e, runs) := run_users local env now ended (S i) r err' in (e, (u, run) :: runs)
  end.

Definition RunAll (local : Location) (env : uuid -> DeclineEnv) (now : uuid -> time) (ended : nat -> bool)
    (rows : list (uuid * bool)) : option Error * list (uuid * DeclineRun) :=
  run_users local env now ended 0 (ListUsersWithAutoDecline rows) None.

(** ** Facts: the window *)

(** Every day of the zone begins at its midnight. *)
Definition midnights (loc : Location) : Prop :=
  forall y m d, 1 <= m <= 12 -> local_sec (Date y m d 0 0 0 0 loc) = days_of_civil y m d * day_secs.

Lemma days_of_civil_next y m d k : days_of_civil y m (d + k) = days_of_civil y m d + k.
Proof. unfold days_of_civil. lia. Qed.

(** The midnight of a day number. *)
Definition at_day (loc : Location) (t : time) (n : Z) : Prop := t_loc t = loc /\ local_sec t = n * day_secs.

Lemma at_day_weekday loc t n : at_day loc t n -> WeekdayOf t = (n + 4) mod 7.
Proof. intros [_ H]. unfold WeekdayOf. rewrite H, Z.div_mul by (unfold day_secs; lia). done. Qed.

Lemma DateOf_month t : 1 <= c_month (DateOf t) <= 12.
Proof. pose proof (DateOf_range t) as H. unfold civil_valid in H. lia. Qed.

Lemma local_sec_fraction y m d h mi sec ns loc : 0 <= ns < Second ->
  local_sec (Date y m d h mi sec ns loc) = local_sec (Date y m d h mi sec 0 loc).
Proof.
  intros H. unfold local_sec, offset_of, unix_sec, Date. cbn [t_ns t_loc].
  rewrite (Z.div_small ns Second H), (Z.mod_small ns Second H). change (0 / Second) with 0. change (0 mod Second) with 0.
  rewrite Z.div_add_l, (Z.div_small ns Second H) by (unfold Second; lia). rewrite Z.add_0_r, (Z.add_0_r (_ * Second)).
  by rewrite Z.div_mul by (unfold Second; lia).
Qed.

Lemma NanosecondOf_range t : 0 <= NanosecondOf t < Second.
Proof. unfold NanosecondOf, Second. dlia. Qed.

Lemma at_day_next loc t n : midnights loc -> at_day loc t n -> at_day loc (AddDate t 0 0 1) (n + 1).
Proof.
  intros Hm [Hl Hn]. unfold AddDate.
  assert (HourOf t = 0 /\ MinuteOf t = 0 /\ SecondOf t = 0) as (-> & -> & ->).
  { unfold HourOf, MinuteOf, SecondOf. rewrite Hn. unfold day_secs. split_and!; dlia. }
  split; [done|]. rewrite Hl, !Z.add_0_r, local_sec_fraction by apply NanosecondOf_range.
  rewrite Hm by apply DateOf_month. rewrite days_of_civil_next. do 2 f_equal.
  unfold DateOf. rewrite days_of_civil_of_days, Hn, Z.div_mul; [done|unfold day_secs; lia].
Qed.

Lemma midnight_of_day now : midnights (t_loc now) -> at_day (t_loc now) (midnight_of now) (local_sec now / day_secs).
Proof.
  intros Hm. split; [done|]. unfold midnight_of. rewrite Hm by apply DateOf_month. f_equal.
  unfold DateOf. apply days_of_civil_of_days.
Qed.

(** The working days among the [k] days from day number [n]. *)
Definition working (n : Z) : bool := isWorkingDay ((n + 4) mod 7).
Definition working_count (n : Z) (k : nat) : nat := length (keep working (seqZ n (Z.of_nat k))).

Lemma working_count_S n k : working_count n (S k) = ((if working n then 1 else 0) + working_count (n + 1) k)%nat.
Proof.
  unfold working_count. rewrite seqZ_cons by lia. replace (Z.succ n) with (n + 1) by lia.
  replace (Z.pred (Z.of_nat (S k))) with (Z.of_nat k) by lia. cbn [keep List.filter]. fold (keep working). by destruct (working n).
Qed.

(** Of three days in a row at least one is a working day. *)
Lemma weekend_is_two_days n : working n = false -> working (n + 1) = false -> working (n + 2) = true.
Proof.
  unfold working, isWorkingDay. intros H1 H2.
  assert (0 <= (n + 4) mod 7 < 7) by dlia.
  assert ((n + 1 + 4) mod 7 = ((n + 4) mod 7 + 1) mod 7) as E1 by dlia.
  assert ((n + 2 + 4) mod 7 = ((n + 4) mod 7 + 2) mod 7) as E2 by dlia.
  rewrite E1 in H2. rewrite E2. assert ((n + 4) mod 7 = 0 \/ (n + 4) mod 7 = 6) as [E|E] by lia; rewrite E in *; done.
Qed.

Lemma working_days_from_spec loc fuel todo cursor n : midnights loc -> at_day loc cursor n -> (1 <= todo)%nat ->
  (3 * todo <= fuel \/ (working n = true /\ 3 * todo - 2 <= fuel)
    \/ (working (n + 1) = true /\ 3 * todo - 1 <= fuel))%nat ->
  exists k e, working_days_from fuel todo cursor = Some e /\ at_day loc e (n + Z.of_nat (S k))
    /\ working_count n (S k) = todo /\ working (n + Z.of_nat k) = true.
Proof.
  intros Hm. revert todo cursor n. induction fuel as [|fuel IH]; intros todo cursor n Hat Ht Hf; [lia|].
  cbn [working_days_from]. rewrite (at_day_weekday loc cursor n Hat). fold (working n).
  pose proof (at_day_next loc cursor n Hm Hat) as Hnext. destruct (working n) eqn:Hw.
  - destruct todo as [|[|todo]]; [lia| |].
    + exists O, (AddDate cursor 0 0 1). split; [done|]. split; [exact Hnext|].
      rewrite working_count_S, Hw. split; [done|]. by rewrite Z.add_0_r.
    + destruct (IH (S todo) _ (n + 1) Hnext ltac:(lia)) as (k & e & He & Hd & Hc & Hl).
      { destruct (working (n + 1)) eqn:E1; [right; left; split; [done|lia]|].
        destruct (working (n + 2)) eqn:E2; [right; right; split; [by replace (n + 1 + 1) with (n + 2) by lia|lia]|].
        left. lia. }
      exists (S k), e. split; [done|]. split; [by replace (n + Z.of_nat (S (S k))) with (n + 1 + Z.of_nat (S k)) by lia|].
      rewrite working_count_S, Hw, Hc. split; [done|]. by replace (n + Z.of_nat (S k)) with (n + 1 + Z.of_nat k) by lia.
  - destruct (IH todo _ (n + 1) Hnext Ht) as (k & e & He & Hd & Hc & Hl).
    { destruct (working (n + 1)) eqn:E1; [right; left; split; [done|lia]|].
      pose proof (weekend_is_two_days n Hw E1) as E2. right. right.
      split; [by replace (n + 1 + 1) with (n + 2) by lia|]. destruct Hf as [Hf|[[Hf _]|[Hf _]]]; [lia|done|done]. }
    exists (S k), e. split; [done|]. split; [by replace (n + Z.of_nat (S (S k))) with (n + 1 + Z.of_nat (S k)) by lia|].
    rewrite working_count_S, Hw, Hc. split; [done|]. by replace (n + Z.of_nat (S k)) with (n + 1 + Z.of_nat k) by lia.
Qed.

Lemma UTC_midnights : midnights UTC.
Proof.
  intros y m d H. unfold local_sec, offset_of, unix_sec, Date. cbn [t_ns t_loc]. rewrite resolve_UTC, naive_sec_valid by done.
  change (0 / Second) with 0. change (0 mod Second) with 0. rewrite !Z.add_0_r, Z.div_mul by (unfold Second; lia).
  unfold off_at, lookup. cbn. lia.
Qed.

(** ** Facts: the policy *)

(** The two times of a timed event. *)
Definition timed (local : Location) (ev : Event) : option (time * time) :=
  match ev_Start ev, ev_End ev with
  | Some s, Some e =>
      if String.eqb (Date_ s) "" && String.eqb (Date_ e) "" then
        if String.eqb (DateTime s) "" || String.eqb (DateTime e) "" then None else parsed_times local ev
      else None
  | _, _ => None
  end.

(** Outside the working hours of the day it starts on, or over its protected
    lunch. *)
Definition policy_window (settings : Settings) (start end_ : time) : Prop :=
  exists ws we on, WorkWindow (Some settings) start = (ws, we, on) /\
  (on = false \/ exists a b, policyClock ws start = Some a /\ policyClock we start = Some b /\
     (t_ns start < t_ns a \/ t_ns b < t_ns end_ \/
      exists ls le c d, LunchWindow (Some settings) start = (ls, le, true) /\ policyClock ls start = Some c /\
        policyClock le start = Some d /\ t_ns start < t_ns d /\ t_ns c < t_ns end_)).

Lemma outside_policy_spec settings start end_ : outside_policy settings start end_ = true <-> policy_window settings start end_.
Proof.
  unfold outside_policy, policy_window. destruct (WorkWindow (Some settings) start) as [[ws we] on].
  assert (Hone : forall P : string -> string -> bool -> Prop, (exists ws' we' on', (ws, we, on) = (ws', we', on') /\ P ws' we' on') <-> P ws we on).
  { intros P. split; [by intros (? & ? & ? & [= -> -> ->] & HP)|]. intros HP. by exists ws, we, on. }
  rewrite Hone. destruct on; cbn [negb]; [|split; [by left|done]].
  destruct (policyClock ws start) as [a|]; [|split; [done|]; intros [|(? & ? & ? & _)]; done].
  destruct (policyClock we start) as [b|]; [|split; [done|]; intros [|(? & ? & _ & ? & _)]; done].
  destruct (Before start a || After end_ b) eqn:Ho.
  - split; [|done]. intros _. right. exists a, b. split; [done|]. split; [done|].
    apply orb_true_iff in Ho as [H%Before_lt|H%After_lt]; auto.
  - apply orb_false_iff in Ho as [H1%Before_ge H2%After_ge]. destruct (LunchWindow (Some settings) start) as [[ls le] on].
    split.
    + destruct on; cbn [negb]; [|done]. destruct (policyClock ls start) as [c|] eqn:Ec; [|done].
      destruct (policyClock le start) as [d|] eqn:Ed; [|done]. intros [H3%Before_lt H4%After_lt]%andb_true_iff.
      right. exists a, b. split; [done|]. split; [done|]. right. right. by exists ls, le, c, d.
    + intros [|(a' & b' & [= <-] & [= <-] & [H|[H|(ls' & le' & c & d & [= <- <- ->] & Hc & Hd & H3 & H4)]])]; [done|lia|lia|].
      cbn [negb]. rewrite Hc, Hd. by rewrite (proj2 (Before_lt _ _) H3), (proj2 (After_lt _ _) H4).
Qed.

Lemma pendingSelfAttendee_Some ev : pendingSelfAttendee ev <> None <-> exists a, a ∈ Attendees ev /\ pending_self a = true.
Proof.
  unfold pendingSelfAttendee. destruct (List.find pending_self (Attendees ev)) as [a|] eqn:E.
  - apply List.find_some in E as [Hin Hp]. apply list_elem_of_In in Hin. split; [eauto|done].
  - split; [done|]. intros (a & Ha%list_elem_of_In & Hp). by rewrite (List.find_none _ _ E a Ha) in Hp.
Qed.

Lemma shouldAutoDecline_timed local ev settings loc : shouldAutoDecline local ev settings loc = true <->
  Status ev <> "cancelled" /\ OrganizerSelf ev = Some false /\ pendingSelfAttendee ev <> None /\
  exists start end_, timed local ev = Some (start, end_) /\ t_ns start < t_ns end_ /\
    outside_policy settings (In start loc) (In end_ loc) = true.
Proof.
  unfold shouldAutoDecline, timed, parsed_times. destruct (String.eqb_spec (Status ev) "cancelled") as [Hc|Hc]; [split; [done|by intros []]|].
  destruct (OrganizerSelf ev) as [[]|]; try (split; [done|by intros (_ & ? & _)]).
  destruct (pendingSelfAttendee ev) as [a|]; [|split; [done|by intros (_ & _ & ? & _)]].
  destruct (ev_Start ev) as [s|]; [|split; [done|by intros (_ & _ & _ & ? & ? & ? & _)]].
  destruct (ev_End ev) as [e|]; [|split; [done|by intros (_ & _ & _ & ? & ? & ? & _)]].
  destruct (String.eqb (Date_ s) ""); cbn [negb orb andb]; [|split; [done|by intros (_ & _ & _ & ? & ? & ? & _)]].
  destruct (String.eqb (Date_ e) ""); cbn [negb orb andb]; [|split; [done|by intros (_ & _ & _ & ? & ? & ? & _)]].
  destruct (String.eqb (DateTime s) "" || String.eqb (DateTime e) ""); [split; [done|by intros (_ & _ & _ & ? & ? & ? & _)]|].
  destruct (ParseRFC3339 local (DateTime s)) as [st|]; cbn [mbind option_bind]; [|split; [done|by intros (_ & _ & _ & ? & ? & ? & _)]].
  destruct (ParseRFC3339 local (DateTime e)) as [en|]; cbn [mbind option_bind]; [|split; [done|by intros (_ & _ & _ & ? & ? & ? & _)]].
  destruct (After en st) eqn:Ea; cbn [negb].
  - apply After_lt in Ea. split.
    + intros H. split_and!; try done. by exists st, en.
    + by intros (_ & _ & _ & st' & en' & [= <- <-] & _ & H).
  - apply After_ge in Ea. split; [done|]. intros (_ & _ & _ & st' & en' & [= <- <-] & H & _). lia.
Qed.

Lemma pending_self_spec a : pending_self a = true <->
  Self a = true /\ Organizer_ a = false /\ ToLower (ResponseStatus a) ∈ ["needsaction"; "tentative"; "pending"].
Proof.
  unfold pending_self, pending_status. cbv zeta.
  rewrite !andb_true_iff, negb_true_iff, !orb_true_iff, !String.eqb_eq, !elem_of_cons, elem_of_nil. tauto.
Qed.

Lemma timed_spec local ev start end_ : timed local ev = Some (start, end_) <->
  exists s e, ev_Start ev = Some s /\ ev_End ev = Some e /\ Date_ s = "" /\ Date_ e = "" /\
    DateTime s <> "" /\ DateTime e <> "" /\
    ParseRFC3339 local (DateTime s) = Some start /\ ParseRFC3339 local (DateTime e) = Some end_.
Proof.
  unfold timed, parsed_times. split.
  - destruct (ev_Start ev) as [s|]; [|done]. destruct (ev_End ev) as [e|]; [|done].
    destruct (String.eqb_spec (Date_ s) ""); [|done]. destruct (String.eqb_spec (Date_ e) ""); [cbn [andb]|done].
    destruct (String.eqb_spec (DateTime s) ""); [done|]. destruct (String.eqb_spec (DateTime e) ""); [done|]. cbn [orb].
    destruct (ParseRFC3339 local (DateTime s)) as [st|] eqn:Es; [|done]. cbn [mbind option_bind].
    destruct (ParseRFC3339 local (DateTime e)) as [en|] eqn:Ee; [|done]. intros [= <- <-]. by exists s, e.
  - intros (s & e & -> & -> & -> & -> & Hs%String.eqb_neq & He%String.eqb_neq & Es & Ee).
    rewrite Hs, He. cbn [String.eqb andb orb]. rewrite Es. cbn [mbind option_bind]. by rewrite Ee.
Qed.

(** ** The policy, spelled out *)

(** A text that reads as [h] hours and [m] minutes: two digits each, or one for the
    hours. *)
Definition clock_text (v : string) (h m : Z) : Prop :=
  0 <= h < 24 /\ 0 <= m < 60 /\
  (v = append_int h 2 +:+ String ":" (append_int m 2) \/
   h < 10 /\ v = String (digit h) (String ":" (append_int m 2))).

(** The instant at which the clocks read the text on the date of [day]. *)
Definition clock_on (day : time) (v : string) (t : time) : Prop :=
  exists h m, clock_text v h m /\
    t = Date (c_year (DateOf day)) (c_month (DateOf day)) (c_day (DateOf day)) h m 0 0 (t_loc day).

(** The user works from [from] to [to] on the day: by the entry of the weekday when
    the mode is by day, and otherwise by the default one, or by the older pair of
    times when that is not complete. *)
Definition working_hours (s : Settings) (day : time) (from to : string) : Prop :=
  exists d, let n := normalizeSchedules s in
    (if EqualFold (WH_Mode (WorkingHours n)) "by_day" then WH_Days (WorkingHours n) !! weekday_key day = Some d
     else let e := WH_Default (WorkingHours n) in
          d = if bool_decide (DS_Start e = "" \/ DS_End e = "")
              then WH_Default (defaultWorkingHours (WorkStart n) (WorkEnd n)) else e) /\
    Enabled d = true /\ DS_Start d = from /\ DS_End d = to /\ from <> "" /\ to <> "".

(** Lunch is protected from [from] to [to] on the day: by the entry of the weekday,
    or by the older setting where there is none. *)
Definition protected_lunch (s : Settings) (day : time) (from to : string) : Prop :=
  let n := normalizeSchedules s in
  match LunchBreaks n !! weekday_key day with
  | Some d => Enabled d = true /\ DS_Start d = from /\ DS_End d = to
  | None => ProtectLunch n = true /\ LunchStart n = from /\ LunchEnd n = to
  end /\ from <> "" /\ to <> "".

(** Out of the working hours of the day it starts on, or over its protected
    lunch; hours that cannot be read keep every event. *)
Definition off_hours (s : Settings) (start end_ : time) : Prop :=
  (forall from to, ~ working_hours s start from to) \/
  exists from to a b, working_hours s start from to /\ clock_on start from a /\ clock_on start to b /\
    (t_ns start < t_ns a \/ t_ns b < t_ns end_ \/
     exists lf lt c d, protected_lunch s start lf lt /\ clock_on start lf c /\ clock_on start lt d /\
       t_ns start < t_ns d /\ t_ns c < t_ns end_).

Lemma digit_of_char c : is_digit c = true -> digit (digit_val c) = c /\ 0 <= digit_val c < 10.
Proof.
  unfold is_digit, digit, digit_val, byte_of. intros H. zbool. split; [|lia].
  replace (48 + (Z.of_nat (nat_of_ascii c) - 48)) with (Z.of_nat (nat_of_ascii c)) by lia.
  by rewrite Nat2Z.id, ascii_nat_embedding.
Qed.

Lemma append_two_digits n : 0 <= n < 100 ->
  append_int n 2 = String (digit (n / 10)) (String (digit (n mod 10)) "").
Proof.
  intros Hn. unfold append_int. rewrite (proj2 (Z.ltb_ge n 0)), Z.abs_eq by lia. change (10 ^ Z.of_nat 2) with 100.
  rewrite (proj2 (Z.ltb_lt n 100)) by lia. cbn [pad_digits]. by rewrite (Z.mod_small (n / 10) 10) by (split; [dlia|dlia]).
Qed.

Lemma two_digits x y : 0 <= x < 10 -> 0 <= y < 10 ->
  append_int (x * 10 + y) 2 = String (digit x) (String (digit y) "").
Proof.
  intros Hx Hy. rewrite append_two_digits by lia. do 2 f_equal; [|f_equal]; f_equal; dlia.
Qed.

Lemma getnum_two v n : getnum v true = Some (n, "") -> 0 <= n < 100 /\ v = append_int n 2.
Proof.
  unfold getnum. destruct v as [|a [|b r]]; [done|by destruct (is_digit a)|].
  destruct (is_digit a) eqn:Ea; cbn [negb]; [|done]. destruct (is_digit b) eqn:Eb; [|done]. intros [= <- ->].
  apply digit_of_char in Ea as [Ea Ha], Eb as [Eb Hb]. split; [lia|]. by rewrite two_digits, Ea, Eb by lia.
Qed.

Lemma getnum_one_or_two v n : getnum v false = Some (n, "") ->
  0 <= n < 100 /\ (v = append_int n 2 \/ (n < 10 /\ v = String (digit n) "")).
Proof.
  intros H. destruct v as [|a [|b r]]; [done| |].
  - cbn [getnum] in H. destruct (is_digit a) eqn:Ea; cbn [negb] in H; [|done]. injection H as <-.
    apply digit_of_char in Ea as [Ea Ha]. split; [lia|]. right. split; [lia|by rewrite Ea].
  - assert (Hb : is_digit b = true).
    { unfold getnum in H. destruct (is_digit a); cbn [negb] in H; [|done]. by destruct (is_digit b). }
    assert (H' : getnum (String a (String b r)) true = Some (n, "")) by (revert H; unfold getnum; by rewrite Hb).
    apply getnum_two in H' as [Hn Hv]. split; [done|by left].
Qed.

Lemma Split_two sep v a b : Split sep v = [a; b] -> v = a +:+ String sep b.
Proof.
  revert a. induction v as [|c r IH]; intros a; [done|]. cbn [Split]. destruct (Ascii.eqb_spec c sep) as [->|Hc].
  - intros [= <- E]. assert (r = b) as ->; [|done]. clear -E. revert b E. induction r as [|d r IH]; intros b; cbn [Split].
    + by intros [= <-].
    + destruct (Ascii.eqb d sep); [intros [= ? ?]; by destruct (Split_nonempty sep r)|].
      destruct (Split sep r) as [|h [|]] eqn:E; [by destruct (Split_nonempty sep r)| |done].
      intros [= <-]. f_equal. by apply IH.
  - destruct (Split sep r) as [|h t] eqn:E; [by destruct (Split_nonempty sep r)|]. intros [= <- ->].
    change (String c h +:+ String sep b) with (String c (h +:+ String sep b)). f_equal. by apply IH.
Qed.

(** Every text a clock reads, checked one by one. *)
Definition reads_parts (v : string) (h m : Z) : bool :=
  match Split ":" v with
  | [a; b] => match getnum a false, getnum b true with
              | Some (h', ra), Some (m', rb) => String.eqb ra "" && String.eqb rb "" && (h' =? h) && (m' =? m)
              | _, _ => false end
  | _ => false
  end.

Lemma clock_text_parts v h m : clock_text v h m -> reads_parts v h m = true.
Proof.
  intros (Hh & Hm & Hv).
  assert (C : forallb (fun h => forallb (fun m => reads_parts (append_int h 2 +:+ String ":" (append_int m 2)) h m &&
      ((10 <=? h) || reads_parts (String (digit h) (String ":" (append_int m 2))) h m))
    (seqZ 0 60)) (seqZ 0 24) = true) by (vm_compute; reflexivity).
  rewrite forallb_elem in C. specialize (C h). rewrite forallb_elem in C.
  specialize (C ltac:(apply elem_of_seqZ; lia) m ltac:(apply elem_of_seqZ; lia)).
  apply andb_true_iff in C as [C1 C2]. destruct Hv as [->|[Hs ->]]; [done|].
  apply orb_true_iff in C2 as [C2%Z.leb_le|C2]; [lia|done].
Qed.

Lemma policyClock_exact v day t : policyClock v day = Some t <-> clock_on day v t.
Proof.
  unfold policyClock, clock_on. split.
  - destruct (Split ":" v) as [|a [|b [|]]] eqn:E; try done. apply Split_two in E as ->.
    destruct (getnum a false) as [[h ra]|] eqn:Ea; [cbn [mbind option_bind]|done].
    destruct (getnum b true) as [[m rb]|] eqn:Eb; [cbn [mbind option_bind]|done].
    destruct (String.eqb_spec ra "") as [->|]; [|done]. destruct (String.eqb_spec rb "") as [->|]; [|done].
    cbn [negb orb]. destruct (Z.leb_spec 24 h); [done|]. destruct (Z.leb_spec 60 m); [done|]. intros [= <-].
    apply getnum_two in Eb as [Hm ->]. apply getnum_one_or_two in Ea as [Hh Hv]. exists h, m. split; [|done].
    split; [lia|]. split; [lia|]. destruct Hv as [->|[Hs ->]]; [by left|right]. by split.
  - intros (h & m & Hc & ->). pose proof (clock_text_parts v h m Hc) as Hp. destruct Hc as (Hh & Hm & _). unfold reads_parts in Hp.
    destruct (Split ":" v) as [|a [|b [|]]]; try done. destruct (getnum a false) as [[h' ra]|]; [|done].
    destruct (getnum b true) as [[m' rb]|]; [|done]. cbn [mbind option_bind].
    apply andb_true_iff in Hp as [[[-> ->]%andb_true_iff <-%Z.eqb_eq]%andb_true_iff <-%Z.eqb_eq].
    cbn [negb orb]. rewrite (proj2 (Z.leb_gt 24 h')), (proj2 (Z.leb_gt 60 m')) by lia. done.
Qed.

Lemma WorkWindow_on s day from to : WorkWindow (Some s) day = (from, to, true) <-> working_hours s day from to.
Proof.
  unfold WorkWindow, working_hours. cbv zeta. destruct (EqualFold _ "by_day").
  - destruct (WH_Days _ !! _) as [d|]; [|split; [done|by intros (? & ? & _)]]. unfold window_of. split.
    + intros [= <- <- [[H1 H2%negb_true_iff%String.eqb_neq]%andb_true_iff H3%negb_true_iff%String.eqb_neq]%andb_true_iff]. by exists d.
    + intros (d' & [= <-] & -> & <- & <- & H1%String.eqb_neq & H2%String.eqb_neq). by rewrite H1, H2.
  - set (e := WH_Default (WorkingHours (normalizeSchedules s))). set (l := WH_Default (defaultWorkingHours _ _)).
    assert (He : (String.eqb (DS_Start e) "" || String.eqb (DS_End e) "") = bool_decide (DS_Start e = "" \/ DS_End e = "")).
    { destruct (String.eqb_spec (DS_Start e) ""), (String.eqb_spec (DS_End e) ""); symmetry; [apply bool_decide_eq_true; tauto..|].
      apply bool_decide_eq_false. tauto. }
    rewrite He. generalize (if bool_decide (DS_Start e = "" \/ DS_End e = "") then l else e). clear. intros d. unfold window_of. split.
    + intros [= <- <- [[H1 H2%negb_true_iff%String.eqb_neq]%andb_true_iff H3%negb_true_iff%String.eqb_neq]%andb_true_iff]. by exists d.
    + intros (d' & -> & -> & <- & <- & H1%String.eqb_neq & H2%String.eqb_neq). by rewrite H1, H2.
Qed.

Lemma LunchWindow_on s day from to : LunchWindow (Some s) day = (from, to, true) <-> protected_lunch s day from to.
Proof.
  unfold LunchWindow, protected_lunch. cbv zeta. destruct (LunchBreaks _ !! _) as [d|]; unfold window_of; split.
  1,3: intros [= <- <- [[H1 H2%negb_true_iff%String.eqb_neq]%andb_true_iff H3%negb_true_iff%String.eqb_neq]%andb_true_iff]; by split_and!.
  all: intros ((-> & <- & <-) & H1%String.eqb_neq & H2%String.eqb_neq); by rewrite H1, H2.
Qed.

Lemma policy_window_spec s start end_ : policy_window s start end_ <-> off_hours s start end_.
Proof.
  unfold policy_window, off_hours. setoid_rewrite policyClock_exact. setoid_rewrite LunchWindow_on. split.
  - intros (ws & we & on & Hw & H). destruct on.
    + destruct H as [?|(a & b & Ha & Hb & H)]; [done|right]. exists ws, we, a, b. split; [by apply WorkWindow_on|].
      split; [done|]. split; [done|]. done.
    + left. intros from to Hon%WorkWindow_on. rewrite Hw in Hon. by injection Hon.
  - intros [Hno|(from & to & a & b & Hon%WorkWindow_on & Ha & Hb & H)].
    + destruct (WorkWindow (Some s) start) as [[ws we] on] eqn:Hw. exists ws, we, on. split; [done|]. left.
      destruct on; [|done]. destruct (Hno ws we). by apply WorkWindow_on.
    + exists from, to, true. split; [done|]. right. exists a, b. done.
Qed.

(** ** Theorems *)

(** The window of a run starts now and ends at the midnight after the given
    number of Mondays to Fridays, today counted: the loop finds it, and no day
    more. *)
Theorem window_ends_after_the_last_working_day now days :
  midnights (t_loc now) -> (1 <= days)%nat ->
  exists e k, nextWorkingDaysWindow now days = Some (now, e)
    /\ at_day (t_loc now) e (local_sec now / day_secs + Z.of_nat (S k))
    /\ working_count (local_sec now / day_secs) (S k) = days
    /\ working (local_sec now / day_secs + Z.of_nat k) = true.
Proof.
  intros Hm Hd. destruct (working_days_from_spec (t_loc now) (7 * days) days (midnight_of now) (local_sec now / day_secs))
    as (k & e & He & H1 & H2 & H3); [done|by apply midnight_of_day|done|left; lia|].
  exists e, k. unfold nextWorkingDaysWindow. destruct days; [lia|]. by rewrite He.
Qed.

(** C29: An event is declined exactly when it is not cancelled; someone else organises
    it; the user is an attendee, not marked as its organiser, whose answer is
    still open, which is needsAction, tentative or pending in any case of letters;
    it has a start and an end with a time and no date, the end after the start;
    and in the user's zone it lies outside the working hours of the day it starts
    on, or that day has none, or it meets that day's protected lunch.  Times of
    the settings that do not read as hours and minutes keep every event. *)
Theorem policy_exact local ev settings loc : shouldAutoDecline local ev settings loc = true <->
  Status ev <> "cancelled" /\ OrganizerSelf ev = Some false /\
  (exists a, a ∈ Attendees ev /\ Self a = true /\ Organizer_ a = false /\
     ToLower (ResponseStatus a) ∈ ["needsaction"; "tentative"; "pending"]) /\
  exists s e start end_, ev_Start ev = Some s /\ ev_End ev = Some e /\ Date_ s = "" /\ Date_ e = "" /\
    DateTime s <> "" /\ DateTime e <> "" /\
    ParseRFC3339 local (DateTime s) = Some start /\ ParseRFC3339 local (DateTime e) = Some end_ /\
    t_ns start < t_ns end_ /\ off_hours settings (In start loc) (In end_ loc).
Proof.
  rewrite shouldAutoDecline_timed, pendingSelfAttendee_Some. setoid_rewrite outside_policy_spec. setoid_rewrite policy_window_spec.
  setoid_rewrite pending_self_spec. setoid_rewrite timed_spec. split.
  - intros (H1 & H2 & H3 & start & end_ & (s & e & H4) & H5). split_and!; try done. exists s, e, start, end_. tauto.
  - intros (H1 & H2 & H3 & s & e & start & end_ & H4). split_and!; try done. exists start, end_. split; [exists s, e; tauto|tauto].
Qed.

(** ** Facts: the run *)

Definition update_ok (env : DeclineEnv) (ev : Event) : bool := match de_update env ev with Ok _ => true | Err _ => false end.
Definition update_err (env : DeclineEnv) (ev : Event) : option Error := match de_update env ev with Ok _ => None | Err e => Some e end.

(** The updates a list of events calls for. *)
Definition answers (local : Location) (settings : Settings) (loc : Location) (events : list Event) : list Event :=
  map declined_event (keep (fun ev => shouldAutoDecline local ev settings loc) events).

Lemma should_pending local ev settings loc : shouldAutoDecline local ev settings loc = true -> pendingSelfAttendee ev <> None.
Proof. by intros (_ & _ & H & _)%shouldAutoDecline_timed. Qed.

Lemma decline_fold local env settings loc events run :
  fold_left (decline_one local env settings loc) events run =
  {| dr_count := dr_count run + Z.of_nat (length (keep (update_ok env) (answers local settings loc events)));
     dr_err := match dr_err run with
               | Some e => Some e
               | None => head (omap (update_err env) (answers local settings loc events))
               end;
     dr_sent := dr_sent run ++ answers local settings loc events |}.
Proof.
  revert run. induction events as [|ev events IH]; intros run.
  - unfold answers. cbn. rewrite app_nil_r, Z.add_0_r. destruct run as [c [er|] s]; done.
  - cbn [fold_left]. rewrite IH. clear IH. unfold decline_one, answers. cbn [keep List.filter]. fold (keep (update_ok env)).
    destruct (shouldAutoDecline local ev settings loc) eqn:Es; cbn [negb orb]; [|done].
    pose proof (should_pending _ _ _ _ Es) as Hp. destruct (pendingSelfAttendee ev); [|done]. cbn [map].
    set (x := declined_event ev). set (rest := map declined_event _). cbv zeta.
    assert (Hk : keep (update_ok env) (x :: rest) = if update_ok env x then x :: keep (update_ok env) rest else keep (update_ok env) rest) by done.
    assert (Ho : omap (update_err env) (x :: rest) = match update_err env x with
                 | Some e => e :: omap (update_err env) rest | None => omap (update_err env) rest end) by done.
    rewrite Hk, Ho. unfold update_ok at 2, update_err at 2. destruct (de_update env x) as [[]|er]; cbn [dr_count dr_err dr_sent].
    + f_equal; [cbn [length]; lia|by rewrite <- app_assoc].
    + f_equal; [by destruct (dr_err run)|by rewrite <- app_assoc].
Qed.

(** A run with the policy on, over a calendar that can be read, sends an answer
    for exactly the events of its window the policy names, in their order, tries
    every one whatever the others answer, counts those that were taken and
    reports the first that was not. *)
Theorem run_declines_exactly local env now settings start end_ events :
  de_settings env = Ok settings -> AutoDeclineOutsideWorkingHours settings = true -> de_oauth env = true ->
  de_token env = TokenFound -> de_client env = Ok tt ->
  let loc := settingsLocation (de_load env) (Timezone settings) in
  nextWorkingDaysWindow (In now loc) AutoDeclineWorkingDays = Some (start, end_) ->
  de_list env start end_ = Ok events ->
  RunForUser local env now =
  {| dr_count := Z.of_nat (length (keep (update_ok env) (answers local settings loc events)));
     dr_err := head (omap (update_err env) (answers local settings loc events));
     dr_sent := answers local settings loc events |}.
Proof.
  intros H1 H2 H3 H4 H5 loc H6 H7. unfold RunForUser. rewrite H1, H2, H3, H4. cbn [negb]. cbv zeta. fold loc. rewrite H6, H5, H7.
  apply decline_fold.
Qed.

(** The user is on the list of attendees at most once. *)
Definition one_self (ev : Event) : Prop := (length (keep Self (Attendees ev)) <= 1)%nat.

Lemma answered_no_self l : keep Self l = [] -> List.find pending_self l = None.
Proof.
  induction l as [|a l IH]; [done|]. cbn [keep List.filter List.find]. unfold pending_self at 1.
  destruct (Self a) eqn:E; [done|]. cbn [andb]. exact IH.
Qed.

Lemma answer_first_settles l : (length (keep Self l) <= 1)%nat -> List.find pending_self (answer_first l) = None.
Proof.
  induction l as [|a l IH]; [done|]. cbn [keep List.filter answer_first]. fold (keep Self l). destruct (pending_self a) eqn:E.
  - assert (Hs : Self a = true) by (unfold pending_self in E; by destruct (Self a)). rewrite Hs. cbn [length]. intros H.
    assert (Hn : keep Self l = []) by (destruct (keep Self l); [done|cbn in H; lia]).
    cbn [List.find]. unfold pending_self at 1. cbn [Self Organizer_ ResponseStatus].
    replace (pending_status "declined") with false by done. rewrite andb_false_r. by apply answered_no_self.
  - intros H. cbn [List.find]. rewrite E. apply IH. destruct (Self a); cbn [length] in H; lia.
Qed.

(** Nobody's calendar is touched who has not asked for it, an update changes
    nothing of an event but the user's answer, and what was answered is never
    answered again. *)
Theorem answered_once local env now ev' : ev' ∈ dr_sent (RunForUser local env now) ->
  exists settings ev start end_ events,
    de_settings env = Ok settings /\ AutoDeclineOutsideWorkingHours settings = true
    /\ de_list env start end_ = Ok events /\ ev ∈ events /\ ev' = declined_event ev
    /\ shouldAutoDecline local ev settings (settingsLocation (de_load env) (Timezone settings)) = true
    /\ (one_self ev -> forall local' settings' loc', shouldAutoDecline local' ev' settings' loc' = false).
Proof.
  unfold RunForUser. destruct (de_settings env) as [settings|]; [|by intros ?%not_elem_of_nil].
  destruct (AutoDeclineOutsideWorkingHours settings) eqn:Ha; [|by intros ?%not_elem_of_nil].
  destruct (de_oauth env); [|by intros ?%not_elem_of_nil]. destruct (de_token env); try by intros ?%not_elem_of_nil.
  cbn [negb]. cbv zeta. set (loc := settingsLocation _ _).
  destruct (nextWorkingDaysWindow _ _) as [[s e]|]; [|by intros ?%not_elem_of_nil].
  destruct (de_client env); [|by intros ?%not_elem_of_nil]. destruct (de_list env s e) as [events|] eqn:El; [|by intros ?%not_elem_of_nil].
  rewrite decline_fold. cbn [dr_sent idle app]. intros (ev & -> & [Hin Hs]%elem_of_keep)%list_elem_of_fmap.
  exists settings, ev, s, e, events. split_and!; try done. intros Ho local' settings' loc'.
  apply not_true_iff_false. intros H%should_pending. apply H. by apply answer_first_settles.
Qed.

(** Everyone who asked for it is served in turn, whatever happened to those
    before, as long as the batch's context lives. *)
Theorem everyone_is_served local env now ended rows :
  (forall i, ended i = false) ->
  snd (RunAll local env now ended rows) = map (fun u => (u, RunForUser local (env u) (now u))) (ListUsersWithAutoDecline rows).
Proof.
  intros Hn. unfold RunAll. generalize (ListUsersWithAutoDecline rows) as users, 0%nat as i, (@None Error) as err.
  induction users as [|u users IH]; intros i err; [done|]. cbn [run_users map]. rewrite Hn.
  specialize (IH (S i) (match dr_err (RunForUser local (env u) (now u)) with Some e => first_error err e | None => err end)).
  destruct (run_users _ _ _ _ _ _ _) as [e runs]. cbn [snd] in *. by rewrite IH.
Qed.

(** ** A small example: Monday, nine to five, lunch at noon *)

Module DeclineDemo.
Definition settings : Settings := {|
  WorkStart := "09:00"; WorkEnd := "17:00"; Timezone := ""; FocusMinBlockMinutes := 30;
  FocusMaxBlockMinutes := 120; FocusDailyTargetMinutes := 240; OutOfHoursMeetingsPerWeek := 0;
  AutoDeclineOutsideWorkingHours := true; FocusLabel := "Focus"; FocusColor := "";
  LunchStart := "12:00"; LunchEnd := "13:00"; ProtectLunch := true; BufferBeforeMinutes := 0;
  BufferAfterMinutes := 0; BufferEnabled := false; BufferMinMeetingMinutes := 0; BufferSkipBackToBack := false;
  WorkingHours := {| WH_Mode := "all_days"; WH_Default := {| Enabled := true; DS_Start := "09:00"; DS_End := "17:00" |};
                     WH_Days := ∅ |};
  LunchBreaks := ∅; CompressionEnabled := true; AutoScheduleEnabled := false; AutoScheduleCron := "" |}.
Definition me (status : string) : Attendee := {| Email := "me@x.org"; ResponseStatus := status; Self := true; Organizer_ := false |}.
Definition boss : Attendee := {| Email := "boss@x.org"; ResponseStatus := "accepted"; Self := false; Organizer_ := true |}.
Definition event (id start end_ status : string) (organizer : option bool) : Event := {|
  ev_Id := id; Summary := id; Description := ""; Location_ := ""; Status := "confirmed"; Transparency := ""; Visibility := "";
  ColorId := ""; OrganizerSelf := organizer; ev_Start := Some {| DateTime := start; Date_ := "" |};
  ev_End := Some {| DateTime := end_; Date_ := "" |}; Attendees := [boss; me status] |}.
Definition early : Event := event "early" "2025-01-06T08:30:00Z" "2025-01-06T09:30:00Z" "needsAction" (Some false).
Definition fine : Event := event "fine" "2025-01-06T10:00:00Z" "2025-01-06T11:00:00Z" "needsAction" (Some false).
Definition lunch : Event := event "lunch" "2025-01-06T12:30:00Z" "2025-01-06T13:30:00Z" "tentative" (Some false).
Definition mine : Event := event "mine" "2025-01-06T20:00:00Z" "2025-01-06T21:00:00Z" "needsAction" (Some true).
Definition taken : Event := event "taken" "2025-01-06T20:00:00Z" "2025-01-06T21:00:00Z" "accepted" (Some false).
Definition now : time := Date 2025 1 6 8 0 0 0 UTC.
Definition env : DeclineEnv := {|
  de_settings := Ok settings; de_oauth := true; de_token := TokenFound; de_client := Ok tt;
  de_list := fun _ _ => Ok [early; fine; lunch; mine; taken];
  de_update := fun ev => if String.eqb (ev_Id ev) "early" then Err ErrProvider else Ok tt;
  de_load := fun _ => None |}.
Definition run : DeclineRun := RunForUser UTC env now.
End DeclineDemo.

Lemma window_ends_after_the_last_working_day_witness :
  nextWorkingDaysWindow DeclineDemo.now 10 = Some (DeclineDemo.now, Date 2025 1 18 0 0 0 0 UTC)
  /\ exists e k, nextWorkingDaysWindow DeclineDemo.now 10 = Some (DeclineDemo.now, e)
    /\ working_count (local_sec DeclineDemo.now / day_secs) (S k) = 10%nat.
Proof.
  split; [vm_compute; reflexivity|].
  destruct (window_ends_after_the_last_working_day DeclineDemo.now 10 UTC_midnights ltac:(lia)) as (e & k & H1 & _ & H2 & _).
  exists e, k. split; [exact H1|exact H2].
Defined.

Lemma run_declines_exactly_witness :
  map ev_Id (dr_sent DeclineDemo.run) = ["early"; "lunch"] /\
  DeclineDemo.run = {|
    dr_count := Z.of_nat (length (keep (update_ok DeclineDemo.env)
      (answers UTC DeclineDemo.settings UTC [DeclineDemo.early; DeclineDemo.fine; DeclineDemo.lunch; DeclineDemo.mine; DeclineDemo.taken])));
    dr_err := head (omap (update_err DeclineDemo.env)
      (answers UTC DeclineDemo.settings UTC [DeclineDemo.early; DeclineDemo.fine; DeclineDemo.lunch; DeclineDemo.mine; DeclineDemo.taken]));
    dr_sent := answers UTC DeclineDemo.settings UTC [DeclineDemo.early; DeclineDemo.fine; DeclineDemo.lunch; DeclineDemo.mine; DeclineDemo.taken] |}.
Proof.
  split; [vm_compute; reflexivity|].
  assert (Hw : nextWorkingDaysWindow (In DeclineDemo.now UTC) AutoDeclineWorkingDays
               = Some (DeclineDemo.now, Date 2025 1 18 0 0 0 0 UTC)) by (vm_compute; reflexivity).
  exact (run_declines_exactly UTC DeclineDemo.env DeclineDemo.now DeclineDemo.settings _ _ _
           eq_refl eq_refl eq_refl eq_refl eq_refl Hw eq_refl).
Defined.

Lemma answered_once_witness :
  declined_event DeclineDemo.lunch ∈ dr_sent DeclineDemo.run
  /\ exists settings ev, declined_event DeclineDemo.lunch = declined_event ev
       /\ shouldAutoDecline UTC ev settings (settingsLocation (de_load DeclineDemo.env) (Timezone settings)) = true.
Proof.
  assert (H : declined_event DeclineDemo.lunch ∈ dr_sent DeclineDemo.run).
  { replace (dr_sent DeclineDemo.run) with [declined_event DeclineDemo.early; declined_event DeclineDemo.lunch] by by vm_compute.
    right. left. }
  split; [exact H|]. destruct (answered_once UTC DeclineDemo.env DeclineDemo.now _ H) as (s & ev & _ & _ & _ & _ & _ & _ & _ & E & Hd & _).
  exists s, ev. split; [exact E|exact Hd].
Defined.

Lemma everyone_is_served_witness :
  map (fun r => dr_count (snd r)) (snd (RunAll UTC (fun _ => DeclineDemo.env) (fun _ => DeclineDemo.now) (fun _ => false)
    [(1%N, true); (2%N, false); (3%N, true)])) = [1; 1].
Proof. rewrite everyone_is_served by reflexivity. vm_compute. reflexivity. Defined.
