(* ===== verification/FreeBusy.v ===== *)
(** * Free/busy of participants

    [engine/freebusy_service.go] with its cache, [calendar/freebusy.go]
    ([GetFreeBusy]) and the checks of [api/handlers_freebusy.go].  The cache is
    shared by all users; a query runs at one instant. *)

From S2P Require Import Prelude GoInt GoTime GoText GoURL Interval LinkStore Calendar.

#[local] Open Scope string_scope.
#[local] Open Scope list_scope.
#[local] Open Scope Z_scope.

Definition personalDomains : list string :=
  ["gmail.com"; "googlemail.com"; "outlook.com"; "hotmail.com"; "yahoo.com"; "icloud.com"; "live.com"; "msn.com";
   "proton.me"; "protonmail.com"].

(** What follows the last at-sign; [found] is what followed the last one so
    far. *)
Fixpoint after_last (c : ascii) (found : option string) (s : string) : option string :=
  match s with
  | EmptyString => found
  | String d r => after_last c (if Ascii.eqb d c then Some r else found) r
  end.

Definition emailDomain (email : string) : string := default "" (after_last "@" None email).

Definition personal (email : string) : bool := existsb (String.eqb (emailDomain email)) personalDomains.

Definition normal_email (email : string) : string := ToLower (TrimSpace email).

Record ParticipantBusy := { pb_Email : string; pb_Coverage : string; pb_Busy : list interval }.

(** ** The cache *)

Record cachedResult := { cc_slots : list interval; cc_coverage : string; cc_expiresAt : time }.

Abbreviation Cache := (gmap string cachedResult).

(** [getCached]: an entry that is missing or too old is deleted. *)
Definition getCached (now : time) (key : string) (c : Cache) : option cachedResult * Cache :=
  match c !! key with
  | Some e => if After now (cc_expiresAt e) then (None, delete key c) else (Some e, c)
  | None => (None, delete key c)
  end.

Definition setCached (key : string) (r : cachedResult) (c : Cache) : Cache := <[key := r]> c.

(** The key of an email for a user (in text) and the first day of the range. *)
Definition cache_key (user email : string) (start : time) : string :=
  user +:+ ":" +:+ email +:+ ":" +:+ FormatDateOnly (In start UTC).

(** ** The providers *)

(** A calendar of Google's answer: its busy times and its errors. *)
Record GoogleCalendar := { gc_Busy : list (string * string); gc_Errors : list string }.

(** [CalendarClient.GetFreeBusy] on the answer's calendars. *)
Definition GetFreeBusy (local : Location) (calendars : list (string * GoogleCalendar)) : gmap string (list interval) :=
  list_to_map (map (fun kv => (kv.1, map (fun b => Iv (parse_or_zero local b.1) (parse_or_zero local b.2)) (gc_Busy kv.2))) calendars).

Inductive CredentialKind := CredentialGoogle | CredentialOutlook.

(** What a query meets: the requester's settings, credentials and clients, the
    providers' answers, and whether a credential is recorded as lost. *)
Record FreeBusyEnv := {
  fb_now : time;
  fb_local : Location;
  fb_provider : result string;
  fb_token : CredentialKind -> TokenRead;
  fb_client : result unit;
  fb_google : list string -> time -> time -> result (list (string * GoogleCalendar));
  fb_outlook : list string -> time -> time -> result (gmap string (list interval));
  fb_lost : CredentialKind -> result bool }.

Section Query.
Context (env : FreeBusyEnv) (user : string) (start end_ : time).

(** The first loop: what is answered at once, the emails to ask for, and the
    cache. *)
Fixpoint sort_out (emails : list string) (c : Cache) : list ParticipantBusy * list string * Cache :=
  match emails with
  | [] => ([], [], c)
  | raw :: r =>
      let email := normal_email raw in
      if personal email then
        let '(done_, ask, c) := sort_out r c in
        ({| pb_Email := email; pb_Coverage := "unknown"; pb_Busy := [] |} :: done_, ask, c)
      else
        match getCached (fb_now env) (cache_key user email start) c with
        | (Some e, c) =>
            let '(done_, ask, c) := sort_out r c in
            ({| pb_Email := email; pb_Coverage := cc_coverage e; pb_Busy := cc_slots e |} :: done_, ask, c)
        | (None, c) => let '(done_, ask, c) := sort_out r c in (done_, email :: ask, c)
        end
  end.

Definition credential (provider : string) : CredentialKind :=
  if String.eqb (ToLower provider) "outlook" then CredentialOutlook else CredentialGoogle.

(** What the requester's provider answers; [None] is the nil map. *)
Definition fetch (kind : CredentialKind) (emails : list string) : option (gmap string (list interval)) :=
  match fb_token env kind with
  | TokenFound =>
      match kind with
      | CredentialOutlook => match fb_outlook env emails start end_ with Ok m => Some m | Err _ => None end
      | CredentialGoogle =>
          match fb_client env with
          | Ok _ => match fb_google env emails start end_ with Ok cals => Some (GetFreeBusy (fb_local env) cals) | Err _ => None end
          | Err _ => None
          end
      end
  | _ => None
  end.

Definition cacheable (kind : CredentialKind) (fetched : option (gmap string (list interval))) : bool :=
  match fetched with
  | Some _ => true
  | None => match fb_lost env kind with Ok lost => negb lost | Err _ => false end
  end.

(** The answer for one email that was asked for. *)
Definition answer_for (fetched : option (gmap string (list interval))) (email : string) : ParticipantBusy :=
  match m ← fetched; m !! email with
  | Some slots => {| pb_Email := email; pb_Coverage := "known"; pb_Busy := slots |}
  | None => {| pb_Email := email; pb_Coverage := "unknown"; pb_Busy := [] |}
  end.

Definition remember (keep_ : bool) (c : Cache) (p : ParticipantBusy) : Cache :=
  if keep_ then setCached (cache_key user (pb_Email p) start)
    {| cc_slots := pb_Busy p; cc_coverage := pb_Coverage p; cc_expiresAt := Add (fb_now env) (15 * Minute) |} c
  else c.

(** [Query]. *)
Definition Query (emails : list string) (c : Cache) : result (list ParticipantBusy) * Cache :=
  match fb_provider env with
  | Err e => (Err e, c)
  | Ok provider =>
      let '(done_, ask, c) := sort_out emails c in
      match ask with
      | [] => (Ok done_, c)
      | _ =>
          let kind := credential provider in
          let fetched := fetch kind ask in
          let answers := map (answer_for fetched) ask in
          (Ok (done_ ++ answers), fold_left (remember (cacheable kind fetched)) answers c)
      end
  end.
End Query.

(** ** The handler *)

Inductive FreeBusyAnswer :=
| FreeBusyError (code : Z) (msg : string)
| FreeBusyShown (start end_ : time) (participants : list ParticipantBusy) (busy : gmap string (list interval)).

Record FreeBusyBody := { fq_Emails : list string; fq_StartTime : string; fq_EndTime : string }.

(** The [busy] object of the answer: a later result of an email wins. *)
Definition busy_by_email (results : list ParticipantBusy) : gmap string (list interval) :=
  fold_left (fun m r => <[pb_Email r := pb_Busy r]> m) results ∅.

(** [query]; [signed_in] is whether there is a user. *)
Definition query (env : FreeBusyEnv) (signed_in : bool) (user : string) (body : option FreeBusyBody) (c : Cache)
  : FreeBusyAnswer * Cache :=
  if negb signed_in then (FreeBusyError 401 "unauthorized", c)
  else match body with
  | None => (FreeBusyError 400 "invalid JSON", c)
  | Some b =>
      if Nat.eqb (length (fq_Emails b)) 0 then (FreeBusyError 400 "emails is required", c)
      else if (20 <? length (fq_Emails b))%nat then (FreeBusyError 400 "max 20 emails per request", c)
      else match ParseRFC3339 (fb_local env) (fq_StartTime b) with
      | None => (FreeBusyError 400 "start_time must be RFC3339", c)
      | Some start =>
      match ParseRFC3339 (fb_local env) (fq_EndTime b) with
      | None => (FreeBusyError 400 "end_time must be RFC3339", c)
      | Some end_ =>
          match Query env user start end_ (fq_Emails b) c with
          | (Err _, c') => (FreeBusyError 500 "query", c')
          | (Ok results, c') => (FreeBusyShown start end_ results (busy_by_email results), c')
          end
      end end
  end.

(** ** Facts *)

(** The keys of a user. *)
Definition key_of (user key : string) : Prop := exists rest, key = user +:+ ":" +:+ rest.

Lemma cache_key_of user email start : key_of user (cache_key user email start).
Proof. by eexists. Qed.

(** Two caches that agree on the keys of a user. *)
Definition agree (user : string) (c d : Cache) : Prop := forall key, key_of user key -> c !! key = d !! key.

(** What a change of the keys of a user leaves. *)
Definition untouched (user : string) (c c' : Cache) : Prop := forall key, ~ key_of user key -> c' !! key = c !! key.

Lemma untouched_trans user c1 c2 c3 : untouched user c1 c2 -> untouched user c2 c3 -> untouched user c1 c3.
Proof. intros H1 H2 k Hk. by rewrite H2, H1. Qed.

Lemma delete_agree user key c d : agree user c d -> agree user (delete key c) (delete key d).
Proof.
  intros H k Hk. destruct (decide (key = k)) as [->|Hn]; [by rewrite !lookup_delete_eq|].
  rewrite !lookup_delete_ne by done. by apply H.
Qed.

Lemma delete_untouched user key c : key_of user key -> untouched user c (delete key c).
Proof. intros Hk k Hn. apply lookup_delete_ne. by intros ->. Qed.

Lemma getCached_agree user now key c d : key_of user key -> agree user c d ->
  fst (getCached now key c) = fst (getCached now key d) /\ agree user (snd (getCached now key c)) (snd (getCached now key d)).
Proof.
  intros Hk H. unfold getCached. rewrite (H key Hk). destruct (d !! key) as [e|]; [|split; [done|by apply delete_agree]].
  destruct (After now (cc_expiresAt e)); split; try done. by apply delete_agree.
Qed.

Lemma getCached_untouched user now key c : key_of user key -> untouched user c (snd (getCached now key c)).
Proof.
  intros Hk. unfold getCached. destruct (c !! key) as [e|]; [|by apply delete_untouched].
  destruct (After now (cc_expiresAt e)); [by apply delete_untouched|done].
Qed.

Lemma sort_out_agree env user start emails c d : agree user c d ->
  fst (sort_out env user start emails c) = fst (sort_out env user start emails d)
  /\ agree user (snd (sort_out env user start emails c)) (snd (sort_out env user start emails d)).
Proof.
  revert c d. induction emails as [|raw r IH]; intros c d H; [done|]. cbn [sort_out]. destruct (personal (normal_email raw)).
  - destruct (IH c d H) as [E1 E2]. destruct (sort_out _ _ _ r c) as [[a b] c1], (sort_out _ _ _ r d) as [[a' b'] d1].
    cbn [fst snd] in *. by injection E1 as -> ->.
  - destruct (getCached_agree user (fb_now env) (cache_key user (normal_email raw) start) c d (cache_key_of _ _ _) H) as [E1 E2].
    destruct (getCached _ _ c) as [o c1], (getCached _ _ d) as [o' d1]. cbn [fst snd] in *. subst o'.
    destruct (IH c1 d1 E2) as [E3 E4]. destruct (sort_out _ _ _ r c1) as [[a b] c2], (sort_out _ _ _ r d1) as [[a' b'] d2].
    cbn [fst snd] in *. injection E3 as -> ->. by destruct o.
Qed.

Lemma sort_out_untouched env user start emails c : untouched user c (snd (sort_out env user start emails c)).
Proof.
  revert c. induction emails as [|raw r IH]; intros c; [done|]. cbn [sort_out]. destruct (personal (normal_email raw)).
  - specialize (IH c). by destruct (sort_out _ _ _ r c) as [[a b] c1].
  - pose proof (getCached_untouched user (fb_now env) (cache_key user (normal_email raw) start) c (cache_key_of _ _ _)) as H.
    destruct (getCached _ _ c) as [o c1]. cbn [snd] in H. specialize (IH c1). destruct (sort_out _ _ _ r c1) as [[a b] c2].
    cbn [snd] in *. pose proof (untouched_trans _ _ _ _ H IH). by destruct o.
Qed.

Lemma remember_agree env user start k ps c d : agree user c d ->
  agree user (fold_left (remember env user start k) ps c) (fold_left (remember env user start k) ps d).
Proof.
  revert c d. induction ps as [|p ps IH]; intros c d H; [done|]. cbn [fold_left]. apply IH. unfold remember, setCached.
  destruct k; [|done]. intros key Hk. destruct (decide (cache_key user (pb_Email p) start = key)) as [->|Hn].
  - by rewrite !lookup_insert_eq.
  - rewrite !lookup_insert_ne by done. by apply H.
Qed.

Lemma remember_untouched env user start k ps c : untouched user c (fold_left (remember env user start k) ps c).
Proof.
  revert c. induction ps as [|p ps IH]; intros c; [done|]. cbn [fold_left]. eapply untouched_trans; [|apply IH].
  unfold remember, setCached. destruct k; [|done]. intros key Hk. apply lookup_insert_ne. intros <-. apply Hk, cache_key_of.
Qed.

Lemma key_of_disjoint user other key : String.length user = String.length other -> user <> other ->
  key_of user key -> ~ key_of other key.
Proof.
  intros Hl Hne [r ->] [s E]. apply Hne. clear Hne. revert other Hl E. induction user as [|c user IH]; intros [|d other] Hl E; try done.
  rewrite !str_app_cons in E. injection E as -> E. f_equal. apply IH; [by injection Hl|exact E].
Qed.

(** ** Theorems *)

(** The cache keeps users apart: a query writes entries of its own user only,
    and what it answers and leaves for that user does not depend on the entries
    of others. *)
Theorem cache_keeps_users_apart env user start end_ emails c d : agree user c d ->
  fst (Query env user start end_ emails c) = fst (Query env user start end_ emails d)
  /\ agree user (snd (Query env user start end_ emails c)) (snd (Query env user start end_ emails d))
  /\ forall other, String.length other = String.length user -> other <> user ->
       agree other (snd (Query env user start end_ emails c)) c.
Proof.
  intros H. assert (Hu : untouched user c (snd (Query env user start end_ emails c))).
  { unfold Query. destruct (fb_provider env) as [p|]; [|done]. pose proof (sort_out_untouched env user start emails c) as Hs.
    destruct (sort_out _ _ _ _ c) as [[a b] c1]. cbn [snd] in Hs. destruct b; [exact Hs|]. cbn [snd].
    eapply untouched_trans; [exact Hs|apply remember_untouched]. }
  split; [|split].
  3:{ intros other Hl Hne key Hk. apply Hu. by apply (key_of_disjoint other user). }
  all: unfold Query; destruct (fb_provider env) as [p|]; [|done]; destruct (sort_out_agree env user start emails c d H) as [E1 E2];
    destruct (sort_out _ _ _ _ c) as [[a b] c1], (sort_out _ _ _ _ d) as [[a' b'] d1]; cbn [fst snd] in *; injection E1 as -> ->.
  - by destruct b'.
  - destruct b'; [exact E2|]. cbn [snd]. by apply remember_agree.
Qed.

(** The emails a query asks the provider about. *)
Definition asked (env : FreeBusyEnv) (user : string) (start : time) (emails : list string) (c : Cache) : list string :=
  snd (fst (sort_out env user start emails c)).

Lemma sort_out_emails env user start emails c :
  map pb_Email (fst (fst (sort_out env user start emails c))) ++ asked env user start emails c ≡ₚ map normal_email emails.
Proof.
  unfold asked. revert c. induction emails as [|raw r IH]; intros c; [done|]. cbn [sort_out map]. destruct (personal (normal_email raw)).
  - specialize (IH c). destruct (sort_out _ _ _ r c) as [[a b] c1]. cbn [fst snd map app pb_Email] in *. by rewrite IH.
  - destruct (getCached _ _ c) as [[e|] c1]; specialize (IH c1); destruct (sort_out _ _ _ r c1) as [[a b] c2]; cbn [fst snd map app pb_Email] in *.
    + by rewrite IH.
    + by rewrite <- Permutation_middle, IH.
Qed.

Lemma sort_out_asked env user start emails c e : e ∈ asked env user start emails c ->
  personal e = false /\ exists raw, raw ∈ emails /\ e = normal_email raw.
Proof.
  unfold asked. revert c. induction emails as [|raw r IH]; intros c; [by intros ?%not_elem_of_nil|]. cbn [sort_out].
  destruct (personal (normal_email raw)) eqn:Ep.
  - specialize (IH c). destruct (sort_out _ _ _ r c) as [[a b] c1]. cbn [fst snd] in *. intros (H1 & x & Hx & ->)%IH.
    split; [done|]. exists x. split; [by right|done].
  - destruct (getCached _ _ c) as [[en|] c1]; specialize (IH c1); destruct (sort_out _ _ _ r c1) as [[a b] c2]; cbn [fst snd] in *.
    + intros (H1 & x & Hx & ->)%IH. split; [done|]. exists x. split; [by right|done].
    + intros [->|(H1 & x & Hx & ->)%IH]%elem_of_cons.
      * split; [done|]. exists raw. split; [left|done].
      * split; [done|]. exists x. split; [by right|done].
Qed.

Lemma answer_email fetched e : pb_Email (answer_for fetched e) = e.
Proof. unfold answer_for. by destruct (m ← fetched; m !! e). Qed.

Lemma answers_emails fetched l : map pb_Email (map (answer_for fetched) l) = l.
Proof. induction l as [|e l IH]; [done|]. cbn [map]. by rewrite answer_email, IH. Qed.

(** Everyone asked about is answered about, once for each time, whatever the
    cache and the provider do; and the provider is asked about nobody on a
    personal domain. *)
Theorem everyone_is_answered env user start end_ emails c results :
  fst (Query env user start end_ emails c) = Ok results ->
  map pb_Email results ≡ₚ map normal_email emails
  /\ (forall e, e ∈ asked env user start emails c -> personal e = false /\ e ∈ map normal_email emails).
Proof.
  intros H. split.
  - unfold Query in H. destruct (fb_provider env) as [p|]; [|done]. pose proof (sort_out_emails env user start emails c) as Hs. unfold asked in Hs.
    destruct (sort_out _ _ _ _ c) as [[a b] c1]. cbn [fst snd] in *. destruct b as [|x b].
    + injection H as <-. by rewrite app_nil_r in Hs.
    + injection H as <-. cbn [map app] in *. rewrite List.map_app. cbn [map]. by rewrite answer_email, answers_emails.
  - intros e (H1 & raw & Hr & ->)%sort_out_asked. split; [done|]. by apply list_elem_of_fmap_2.
Qed.

(** The first loop never adds an entry. *)
Lemma sort_out_missing env user start emails c key : c !! key = None ->
  snd (sort_out env user start emails c) !! key = None.
Proof.
  revert c. induction emails as [|raw r IH]; intros c H; [done|]. cbn [sort_out]. destruct (personal (normal_email raw)).
  - specialize (IH c H). by destruct (sort_out _ _ _ r c) as [[a b] c1].
  - assert (H1 : snd (getCached (fb_now env) (cache_key user (normal_email raw) start) c) !! key = None).
    { unfold getCached. destruct (c !! cache_key user (normal_email raw) start) as [e|]; [destruct (After _ _)|]; cbn [snd]; [|done|];
        by apply lookup_delete_None; right. }
    destruct (getCached _ _ c) as [o c1]. specialize (IH c1 H1). destruct (sort_out _ _ _ r c1) as [[a b] c2]. by destruct o.
Qed.

(** Who is asked about has no entry left. *)
Lemma asked_missing env user start emails c e : e ∈ asked env user start emails c ->
  snd (sort_out env user start emails c) !! cache_key user e start = None.
Proof.
  unfold asked. revert c. induction emails as [|raw r IH]; intros c; [by intros ?%not_elem_of_nil|]. cbn [sort_out].
  destruct (personal (normal_email raw)).
  - specialize (IH c). by destruct (sort_out _ _ _ r c) as [[a b] c1].
  - destruct (getCached _ _ c) as [[en|] c1] eqn:Eg; specialize (IH c1);
      pose proof (sort_out_missing env user start r c1) as Hm; destruct (sort_out _ _ _ r c1) as [[a b] c2]; cbn [fst snd] in *; [done|].
    intros [->|H]%elem_of_cons; [|by apply IH]. apply Hm. unfold getCached in Eg.
    destruct (c !! cache_key user (normal_email raw) start) as [en|]; [destruct (After _ _)|]; try done; injection Eg as <-; apply lookup_delete_eq.
Qed.

Lemma missing_asked env user start emails c raw : raw ∈ emails -> personal (normal_email raw) = false ->
  c !! cache_key user (normal_email raw) start = None -> normal_email raw ∈ asked env user start emails c.
Proof.
  unfold asked. revert c. induction emails as [|x r IH]; intros c Hr Hp Hm; [by apply not_elem_of_nil in Hr|]. cbn [sort_out].
  apply elem_of_cons in Hr. destruct (personal (normal_email x)) eqn:Ex.
  - destruct Hr as [->|Hr]; [congruence|]. specialize (IH c Hr Hp Hm). by destruct (sort_out _ _ _ r c) as [[a b] c1].
  - pose proof (sort_out_missing env user start [x] c) as Hk. destruct (getCached _ _ c) as [o c1] eqn:Eg.
    assert (Hm1 : c1 !! cache_key user (normal_email raw) start = None).
    { specialize (Hk _ Hm). cbn [sort_out] in Hk. rewrite Ex, Eg in Hk. by destruct o. }
    destruct Hr as [->|Hr].
    + assert (o = None) as -> by (unfold getCached in Eg; rewrite Hm in Eg; by injection Eg as <- _).
      destruct (sort_out _ _ _ r c1) as [[a b] c2]. left.
    + specialize (IH c1 Hr Hp Hm1). destruct (sort_out _ _ _ r c1) as [[a b] c2]. destruct o; [exact IH|by right].
Qed.

Lemma remember_nothing env user start ps c : fold_left (remember env user start false) ps c = c.
Proof. revert c. induction ps as [|q ps IH]; intros c; [done|apply IH]. Qed.

(** A lookup that failed while the requester's credential is recorded as lost
    (or it is not known whether it is) leaves nothing in the cache for those
    asked about: the next query of that day asks for them again, whoever it
    finds the credential with. *)
Theorem lost_credential_is_asked_again env env' user start end_ emails c provider :
  fb_provider env = Ok provider ->
  fetch env start end_ (credential provider) (asked env user start emails c) = None ->
  fb_lost env (credential provider) <> Ok false ->
  forall e, e ∈ asked env user start emails c -> e ∈ asked env' user start emails (snd (Query env user start end_ emails c)).
Proof.
  intros Hp Hf Hl e He. destruct (sort_out_asked _ _ _ _ _ _ He) as (Hpe & raw & Hr & ->). apply missing_asked; [done|done|].
  pose proof (asked_missing _ _ _ _ _ _ He) as Hm. unfold asked in Hf. unfold Query. rewrite Hp.
  destruct (sort_out _ _ _ _ c) as [[a b] c1]. cbn [fst snd] in Hm, Hf. destruct b as [|x b]; [exact Hm|].
  rewrite Hf. unfold cacheable. destruct (fb_lost env (credential provider)) as [[]|]; [| |]; cbn [negb snd].
  - by rewrite remember_nothing.
  - done.
  - by rewrite remember_nothing.
Qed.

(** ** Concrete runs *)

Module FreeBusyDemo.

Definition day (h : Z) : time := Date 2026 3 2 h 0 0 0 UTC.

(** Ann is busy from two to three; Google answers the busy times that meet the
    range, and no times but an error for a calendar it may not read. *)
Definition google (emails : list string) (start end_ : time) : result (list (string * GoogleCalendar)) :=
  Ok (map (fun e =>
    (e, if String.eqb e "eve@corp.io" then {| gc_Busy := []; gc_Errors := ["notFound"] |}
        else {| gc_Busy := if Before (day 14) end_ && Before start (day 15) then [("2026-03-02T14:00:00Z", "2026-03-02T15:00:00Z")] else [];
                gc_Errors := [] |})) emails).

Definition env (connected : bool) : FreeBusyEnv :=
  {| fb_now := day 8; fb_local := UTC; fb_provider := Ok "google"; fb_token := fun _ => if connected then TokenFound else TokenNone;
     fb_client := Ok tt; fb_google := google; fb_outlook := fun _ _ _ => Err ErrProvider; fb_lost := fun _ => Ok (negb connected) |}.

Definition body (emails : list string) (from to : string) : FreeBusyBody := {| fq_Emails := emails; fq_StartTime := from; fq_EndTime := to |}.

Definition cached (user : string) : Cache :=
  {[cache_key user "ann@corp.io" (day 9) := {| cc_slots := []; cc_coverage := "known"; cc_expiresAt := day 9 |}]}.

End FreeBusyDemo.
Import FreeBusyDemo.

Example query_shown : query (env true) true "u" (Some (body [" Ann@corp.io"; "bob@gmail.com"] "2026-03-02T09:00:00Z" "2026-03-02T18:00:00Z")) ∅
  = (FreeBusyShown (day 9) (day 18)
       [{| pb_Email := "bob@gmail.com"; pb_Coverage := "unknown"; pb_Busy := [] |};
        {| pb_Email := "ann@corp.io"; pb_Coverage := "known"; pb_Busy := [Iv (day 14) (day 15)] |}]
       {["bob@gmail.com" := []; "ann@corp.io" := [Iv (day 14) (day 15)]]},
     {["u:ann@corp.io:2026-03-02" := {| cc_slots := [Iv (day 14) (day 15)]; cc_coverage := "known"; cc_expiresAt := Add (day 8) (15 * Minute) |}]}).
Proof. vm_compute. reflexivity. Qed.

Lemma everyone_is_answered_witness :
  map pb_Email [{| pb_Email := "bob@gmail.com"; pb_Coverage := "unknown"; pb_Busy := [] |};
                {| pb_Email := "ann@corp.io"; pb_Coverage := "known"; pb_Busy := [Iv (day 14) (day 15)] |}]
    ≡ₚ map normal_email [" Ann@corp.io"; "bob@gmail.com"]
  /\ (forall e, e ∈ asked (env true) "u" (day 9) [" Ann@corp.io"; "bob@gmail.com"] ∅ ->
        personal e = false /\ e ∈ map normal_email [" Ann@corp.io"; "bob@gmail.com"]).
Proof. apply (everyone_is_answered (env true) "u" (day 9) (day 18)). vm_compute. reflexivity. Defined.

Lemma cache_keeps_users_apart_witness :
  fst (Query (env true) "u" (day 9) (day 18) ["ann@corp.io"] (cached "v")) = fst (Query (env true) "u" (day 9) (day 18) ["ann@corp.io"] ∅)
  /\ agree "v" (snd (Query (env true) "u" (day 9) (day 18) ["ann@corp.io"] (cached "v"))) (cached "v").
Proof.
  destruct (cache_keeps_users_apart (env true) "u" (day 9) (day 18) ["ann@corp.io"] (cached "v") ∅) as (E & _ & H).
  - intros key [rest ->]. unfold cached. rewrite lookup_empty. apply lookup_singleton_ne. discriminate.
  - split; [exact E|]. apply H; [reflexivity|discriminate].
Defined.

Lemma lost_credential_is_asked_again_witness :
  "ann@corp.io" ∈ asked (env true) "u" (day 9) ["ann@corp.io"] (snd (Query (env false) "u" (day 9) (day 18) ["ann@corp.io"] ∅)).
Proof.
  apply (lost_credential_is_asked_again (env false) (env true) "u" (day 9) (day 18) ["ann@corp.io"] ∅ "google"
    eq_refl eq_refl ltac:(discriminate)). vm_compute. left.
Defined.

(** The key leaves the range out: after a question about the morning, a
    question about the whole day is answered with the morning's busy times. *)
Example morning_answers_for_the_day :
  let c := snd (Query (env true) "u" (day 9) (day 12) ["ann@corp.io"] ∅) in
  fst (Query (env true) "u" (day 9) (day 18) ["ann@corp.io"] c)
    = Ok [{| pb_Email := "ann@corp.io"; pb_Coverage := "known"; pb_Busy := [] |}]
  /\ fst (Query (env true) "u" (day 9) (day 18) ["ann@corp.io"] ∅)
    = Ok [{| pb_Email := "ann@corp.io"; pb_Coverage := "known"; pb_Busy := [Iv (day 14) (day 15)] |}].
Proof. vm_compute. split; reflexivity. Qed.

(** A calendar Google may not read is reported as known and free. *)
Example refused_calendar_is_known_free :
  fst (Query (env true) "u" (day 9) (day 18) ["eve@corp.io"] ∅) = Ok [{| pb_Email := "eve@corp.io"; pb_Coverage := "known"; pb_Busy := [] |}].
Proof. vm_compute. reflexivity. Qed.
