(* ===== verification/Scheduler.v ===== *)
(** * The automatic focus-time scheduler

    [scheduler/cron.go] and [engine/autoschedule.go]: once a minute every user
    whose next slot after their watermark has come is run, after the watermark
    was advanced to the tick.  Several schedulers (the replicas of the backend)
    and the saves of the settings act on the same rows; their interleaving is a
    step relation.  The cron library is an interface. *)

From stdpp Require Import relations.
From S2P Require Import Prelude GoInt GoTime GoText Interval LinkStore Settings.

#[local] Open Scope string_scope.
#[local] Open Scope list_scope.
#[local] Open Scope Z_scope.

(** The cron library: the parser of five-field expressions and the next
    activation of a schedule after an instant. *)
Class CronLib (Sched : Type) := {
  cronParse : string -> option Sched;
  Next : Sched -> time -> time;
}.

(** What the library promises of the activation [n] after [t]: it is later, at a
    whole minute (an expression has no seconds), in the zone of [t].  For a
    schedule that never activates it answers the zero time instead. *)
Definition good_next (t n : time) : Prop :=
  t_ns t < t_ns n /\ t_ns n mod Minute = 0 /\ t_loc n = t_loc t.

(** A run of one user: the watermark it advanced from, the slot it is for, the
    tick, and the week handed to the engine. *)
Record Run := {
  run_user : uuid;
  run_from : time;
  run_slot : time;
  run_at : time;
  run_week : time;
}.

(** What one candidate meets: the drain has ended before it, or before its
    watermark is advanced; the update fails. *)
Record TickEnv := { stop_before : bool; stop_inside : bool; updateFails : bool }.

Section Scheduler.
Context {Sched : Type} {L : CronLib Sched} (load : string -> option Location).

(** [ParseAutoScheduleCron]. *)
Definition ParseAutoScheduleCron (expr : string) : option Sched :=
  if Nat.eqb (length (Fields expr)) 5 then cronParse expr else None.

(** The wall clock of [t] in its zone, as an instant of UTC. *)
Definition wall_of (w : time) : time :=
  let c := DateOf w in
  Date (c_year c) (c_month c) (c_day c) (HourOf w) (MinuteOf w) (SecondOf w) (NanosecondOf w) UTC.

(** [nextSlot]. *)
Definition nextSlot (sched : Sched) (watermark : time) (loc : Location) : time :=
  let n := Next sched (wall_of (In watermark loc)) in
  let c := DateOf n in
  Date (c_year c) (c_month c) (c_day c) (HourOf n) (MinuteOf n) 0 0 loc.

(** [consider]: the run, if any, and the rows. *)
Definition consider (env : TickEnv) (c : AutoScheduleCandidate) (at_ : time) (rows : list AutoRow)
    : option Run * list AutoRow :=
  match ParseAutoScheduleCron (CronExpr c) with
  | None => (None, rows)
  | Some sched =>
      match load (ac_Timezone c) with
      | None => (None, rows)
      | Some loc =>
          match LastRun c with
          | None =>
              (None, if updateFails env then rows
                     else (AdvanceAutoScheduleWatermark (ac_UserID c) None at_ rows).2)
          | Some w =>
              if After (nextSlot sched w loc) at_ then (None, rows)
              else if stop_inside env then (None, rows)
              else if updateFails env then (None, rows)
              else
                let '(advanced, rows') :=
                  AdvanceAutoScheduleWatermark (ac_UserID c) (Some w) at_ rows in
                if negb advanced then (None, rows')
                else (Some {| run_user := ac_UserID c; run_from := w;
                              run_slot := nextSlot sched w loc; run_at := at_;
                              run_week := In at_ loc |}, rows')
          end
      end
  end.

(** The loop of [tick] over the candidates; [i] is the position of the next
    one. *)
Fixpoint consider_all (env : nat -> TickEnv) (i : nat) (cs : list AutoScheduleCandidate)
    (at_ : time) (rows : list AutoRow) : list Run * list AutoRow :=
  match cs with
  | [] => ([], rows)
  | c :: r =>
      if stop_before (env i) then ([], rows)
      else
        let '(run, rows1) := consider (env i) c at_ rows in
        let '(runs, rows2) := consider_all env (S i) r at_ rows1 in
        (option_list run ++ runs, rows2)
  end.

(** [tick]: whether it was not dropped, the runs and the rows; [locked] is a
    previous tick still running, [listFails] the failure of the listing. *)
Definition tick (env : nat -> TickEnv) (locked listFails : bool) (at_ : time)
    (rows : list AutoRow) : bool * list Run * list AutoRow :=
  if locked then (false, [], rows)
  else if listFails then (true, [], rows)
  else let '(runs, rows') := consider_all env 0 (ListAutoScheduleCandidates rows) at_ rows in
       (true, runs, rows').

(** ** Several schedulers and the saves *)

(** The clock the processes share, the rows, what each scheduler is doing
    (idle, or in a tick with the candidates left of its listing) and the runs
    so far. *)
Record System := {
  sys_now : Z;
  sys_rows : list AutoRow;
  sys_ticks : list (option (time * list AutoScheduleCandidate));
  sys_runs : list Run;
}.

Inductive sys_step (s : System) : System -> Prop :=
| s_clock t (Ht : sys_now s <= t) :
    sys_step s {| sys_now := t; sys_rows := sys_rows s; sys_ticks := sys_ticks s;
                  sys_runs := sys_runs s |}
| s_save u enabled cron zone_ now (Hnow : t_ns now = sys_now s) :
    sys_step s {| sys_now := sys_now s;
                  sys_rows := SaveSchedule u enabled cron zone_ now (sys_rows s);
                  sys_ticks := sys_ticks s; sys_runs := sys_runs s |}
| s_fire i at_ (Hi : sys_ticks s !! i = Some None) (Hat : t_ns at_ <= sys_now s) :
    sys_step s {| sys_now := sys_now s; sys_rows := sys_rows s;
                  sys_ticks := <[i := Some (at_, ListAutoScheduleCandidates (sys_rows s))]> (sys_ticks s);
                  sys_runs := sys_runs s |}
| s_consider i at_ c cs env r rows'
    (Hi : sys_ticks s !! i = Some (Some (at_, c :: cs)))
    (Hc : consider env c at_ (sys_rows s) = (r, rows')) :
    sys_step s {| sys_now := sys_now s; sys_rows := rows';
                  sys_ticks := <[i := Some (at_, cs)]> (sys_ticks s);
                  sys_runs := sys_runs s ++ option_list r |}
| s_return i at_ cs (Hi : sys_ticks s !! i = Some (Some (at_, cs))) :
    sys_step s {| sys_now := sys_now s; sys_rows := sys_rows s;
                  sys_ticks := <[i := None]> (sys_ticks s); sys_runs := sys_runs s |}.
End Scheduler.

(** ** The watermark update: facts *)

Lemma advance_shape u observed to rows b rows' :
  AdvanceAutoScheduleWatermark u observed to rows = (b, rows') ->
  rows' = rows \/ rows' = map (fun r => if advanceable u observed r then set_mark to r else r) rows.
Proof. unfold AdvanceAutoScheduleWatermark. destruct (N.eqb u uuid_nil); intros [= _ <-]; auto. Qed.

Lemma advance_won u observed to rows rows' :
  AdvanceAutoScheduleWatermark u observed to rows = (true, rows') ->
  rows' = map (fun r => if advanceable u observed r then set_mark to r else r) rows /\
  exists r, r ∈ rows /\ advanceable u observed r = true.
Proof.
  unfold AdvanceAutoScheduleWatermark. destruct (N.eqb u uuid_nil); [done|].
  intros [= H <-]. split; [done|]. apply Nat.eqb_eq in H.
  destruct (keep (advanceable u observed) rows) as [|r l] eqn:E; [done|].
  exists r. assert (Hr : r ∈ keep (advanceable u observed) rows) by (rewrite E; left).
  by apply elem_of_keep in Hr.
Qed.

(** The mark of a row after an update: its own or the new one. *)
Lemma advanced_row u observed to rows r :
  r ∈ map (fun r => if advanceable u observed r then set_mark to r else r) rows <->
  exists r0, r0 ∈ rows /\ r = if advanceable u observed r0 then set_mark to r0 else r0.
Proof.
  rewrite list_elem_of_In, in_map_iff. setoid_rewrite <- list_elem_of_In.
  split; intros (r0 & H1 & H2); eauto.
Qed.

Lemma advance_users u observed to rows :
  map ar_User (map (fun r => if advanceable u observed r then set_mark to r else r) rows) =
  map ar_User rows.
Proof. rewrite map_map. apply map_ext. intros r. by destruct (advanceable _ _ _). Qed.

Lemma users_unique rows r1 r2 :
  NoDup (map ar_User rows) -> r1 ∈ rows -> r2 ∈ rows -> ar_User r1 = ar_User r2 -> r1 = r2.
Proof.
  induction rows as [|r rows IH]; cbn [map]; intros Hnd H1 H2 Hu; [by apply not_elem_of_nil in H1|].
  apply NoDup_cons in Hnd as [Hn Hnd].
  assert (G : forall x, x ∈ rows -> ar_User x <> ar_User r).
  { intros x Hx E. apply Hn. rewrite <- E. apply list_elem_of_In, in_map, list_elem_of_In, Hx. }
  apply elem_of_cons in H1 as [->|H1], H2 as [->|H2]; [done| | |by apply IH].
  - by apply G in H2.
  - by apply G in H1.
Qed.

(** ** The invariant *)

Definition marked_at (rows : list AutoRow) (u : uuid) (lo : Z) : Prop :=
  exists r w, r ∈ rows /\ ar_User r = u /\ ar_LastRun r = Some w /\ lo <= t_ns w.

(** Two runs of one user, in the order they happened: the later one starts from
    a watermark at or after the tick of the earlier one. *)
Definition run_order (a b : Run) : Prop :=
  run_user a = run_user b -> t_ns (run_at a) <= t_ns (run_from b).

Definition run_covers_slot (r : Run) : Prop :=
  t_ns (run_from r) < t_ns (run_slot r) <= t_ns (run_at r).

Record sys_inv (s : System) : Prop := {
  si_users : NoDup (map ar_User (sys_rows s));
  si_marks : forall r w, r ∈ sys_rows s -> ar_LastRun r = Some w -> t_ns w <= sys_now s;
  si_ticks : forall i at_ cs, sys_ticks s !! i = Some (Some (at_, cs)) -> t_ns at_ <= sys_now s;
  si_runs : forall r, r ∈ sys_runs s -> marked_at (sys_rows s) (run_user r) (t_ns (run_at r));
  si_slots : Forall run_covers_slot (sys_runs s);
  si_order : ForallOrdPairs run_order (sys_runs s);
}.

Section Invariant.
Context {Sched : Type} {L : CronLib Sched} (load : string -> option Location).

(** The next slot of a candidate is after its watermark. *)
Definition forward_at (c : AutoScheduleCandidate) : Prop :=
  forall sched loc w, ParseAutoScheduleCron (CronExpr c) = Some sched -> load (ac_Timezone c) = Some loc ->
    LastRun c = Some w -> t_ns w < t_ns (nextSlot sched w loc).

(** A run is the outcome of a won update for a slot that has come. *)
Lemma consider_run env c at_ rows r rows' :
  consider load env c at_ rows = (Some r, rows') ->
  exists sched loc,
    ParseAutoScheduleCron (CronExpr c) = Some sched /\ load (ac_Timezone c) = Some loc /\
    run_user r = ac_UserID c /\ LastRun c = Some (run_from r) /\ run_at r = at_ /\
    run_slot r = nextSlot sched (run_from r) loc /\ run_week r = In at_ loc /\
    t_ns (run_slot r) <= t_ns at_ /\ stop_inside env = false /\ updateFails env = false /\
    AdvanceAutoScheduleWatermark (ac_UserID c) (LastRun c) at_ rows = (true, rows').
Proof.
  unfold consider. destruct (ParseAutoScheduleCron (CronExpr c)) as [sched|]; [|discriminate].
  destruct (load (ac_Timezone c)) as [loc|]; [|discriminate].
  destruct (LastRun c) as [w|]; [|discriminate].
  destruct (After (nextSlot sched w loc) at_) eqn:Ea; [discriminate|].
  destruct (stop_inside env); [discriminate|]. destruct (updateFails env); [discriminate|].
  destruct (AdvanceAutoScheduleWatermark _ _ _ _) as [[] rows1]; [|discriminate].
  intros [= <- <-]. apply After_ge in Ea. exists sched, loc. split_and!; done.
Qed.

(** Without a run the rows stay, or an update was tried whose watermark is
    empty or has a slot that has come. *)
Lemma consider_norun env c at_ rows rows' :
  forward_at c -> consider load env c at_ rows = (None, rows') ->
  rows' = rows \/ exists b observed,
    AdvanceAutoScheduleWatermark (ac_UserID c) observed at_ rows = (b, rows') /\
    forall w, observed = Some w -> t_ns w <= t_ns at_.
Proof.
  intros Hfwd. unfold consider.
  destruct (ParseAutoScheduleCron (CronExpr c)) as [sched|] eqn:Ep; [|by intros [= <-]; left].
  destruct (load (ac_Timezone c)) as [loc|] eqn:El; [|by intros [= <-]; left].
  destruct (LastRun c) as [w|] eqn:Ew.
  - destruct (After _ _) eqn:Ea; [by intros [= <-]; left|].
    destruct (stop_inside env); [by intros [= <-]; left|].
    destruct (updateFails env); [by intros [= <-]; left|].
    destruct (AdvanceAutoScheduleWatermark _ (Some w) _ _) as [b rows1] eqn:E.
    destruct b; [discriminate|]. intros [= <-]. right. exists false, (Some w). split; [done|].
    intros w' [= <-]. apply After_ge in Ea. specialize (Hfwd _ _ w Ep El Ew). lia.
  - destruct (updateFails env); [by intros [= <-]; left|].
    destruct (AdvanceAutoScheduleWatermark _ None _ _) as [b rows1] eqn:E.
    intros [= <-]. right. exists b, None. done.
Qed.
End Invariant.

(** ** The rows under an update *)

Lemma same_mark_Some m w : same_mark m (Some w) = true -> exists x, m = Some x /\ t_ns x = t_ns w.
Proof. destruct m as [x|]; simpl; [|done]. intros H%Z.eqb_eq. eauto. Qed.

(** An update to a later instant keeps every lower bound of a mark. *)
Lemma marked_advance u observed to rows b rows' v lo :
  AdvanceAutoScheduleWatermark u observed to rows = (b, rows') ->
  (forall w, observed = Some w -> t_ns w <= t_ns to) ->
  marked_at rows v lo -> marked_at rows' v lo.
Proof.
  intros [->| ->]%advance_shape Hto; [done|]. intros (r & w & Hr & Hu & Hw & Hlo).
  destruct (advanceable u observed r) eqn:Ea.
  - exists (set_mark to r), to. split_and!; [|done|done|].
    + apply advanced_row. exists r. by rewrite Ea.
    + unfold advanceable in Ea. rewrite Hw in Ea. apply andb_true_iff in Ea as [_ Ea].
      destruct observed as [x|]; [|done]. simpl in Ea. apply Z.eqb_eq in Ea.
      specialize (Hto x eq_refl). lia.
  - exists r, w. split_and!; try done. apply advanced_row. exists r. by rewrite Ea.
Qed.

Lemma marks_advance u observed to rows b rows' now :
  AdvanceAutoScheduleWatermark u observed to rows = (b, rows') -> t_ns to <= now ->
  (forall r w, r ∈ rows -> ar_LastRun r = Some w -> t_ns w <= now) ->
  forall r w, r ∈ rows' -> ar_LastRun r = Some w -> t_ns w <= now.
Proof.
  intros [->| ->]%advance_shape Hto H r w Hr Hw; [by eapply H|].
  apply advanced_row in Hr as (r0 & Hr0 & ->).
  destruct (advanceable u observed r0); [by injection Hw as <-|by eapply H].
Qed.

Lemma users_advance u observed to rows b rows' :
  AdvanceAutoScheduleWatermark u observed to rows = (b, rows') ->
  map ar_User rows' = map ar_User rows.
Proof. intros [->| ->]%advance_shape; [done|]. apply advance_users. Qed.

(** ** The rows under a save *)

Lemma find_user rows u r :
  List.find (fun r => N.eqb (ar_User r) u) rows = Some r -> r ∈ rows /\ ar_User r = u.
Proof. intros [H%list_elem_of_In E%N.eqb_eq]%List.find_some. done. Qed.

Lemma saved_mark_later stored enabled cron zone_ now w :
  ar_LastRun stored = Some w -> t_ns w <= t_ns now ->
  exists w', saved_mark (Some stored) enabled cron zone_ now = Some w' /\ t_ns w <= t_ns w' <= t_ns now.
Proof.
  intros Hw Hn. unfold saved_mark. destruct (enabled && _); [exists now|exists w; rewrite Hw]; split; done || lia.
Qed.

Lemma save_users u enabled cron zone_ now rows :
  NoDup (map ar_User rows) -> NoDup (map ar_User (SaveSchedule u enabled cron zone_ now rows)).
Proof.
  intros H. unfold SaveSchedule. destruct (N.eqb u uuid_nil); [done|].
  destruct (List.find _ rows) as [r|] eqn:Ef.
  - rewrite map_map. erewrite map_ext; [exact H|]. intros x. simpl.
    destruct (N.eqb_spec (ar_User x) u) as [->|]; done.
  - rewrite map_app. apply NoDup_app. split_and!; [done| |apply NoDup_singleton].
    intros x Hx ->%list_elem_of_singleton. simpl in Hx.
    apply list_elem_of_In, in_map_iff in Hx as (r & Hr & Hin).
    pose proof (List.find_none _ _ Ef r Hin) as E. simpl in E. by apply N.eqb_neq in E.
Qed.

Lemma save_marks u enabled cron zone_ now rows t :
  t_ns now <= t -> (forall r w, r ∈ rows -> ar_LastRun r = Some w -> t_ns w <= t) ->
  forall r w, r ∈ SaveSchedule u enabled cron zone_ now rows -> ar_LastRun r = Some w -> t_ns w <= t.
Proof.
  intros Hn H r w. unfold SaveSchedule. destruct (N.eqb u uuid_nil); [by apply H|].
  destruct (List.find _ rows) as [r0|] eqn:Ef.
  - apply find_user in Ef as [Hin _].
    intros (x & Hx & Hin')%list_elem_of_In%in_map_iff Hw. apply list_elem_of_In in Hin'.
    destruct (N.eqb (ar_User x) u); subst r; [|by eapply H]. cbn [ar_LastRun] in Hw.
    unfold saved_mark in Hw. destruct (enabled && _); [by injection Hw as <-|exact (H r0 w Hin Hw)].
  - intros [Hr|Hr%list_elem_of_singleton]%elem_of_app Hw; [by eapply H|]. subst r. simpl in Hw.
    destruct enabled; [by injection Hw as <-|done].
Qed.

Lemma marked_save u enabled cron zone_ now rows v lo :
  NoDup (map ar_User rows) ->
  (forall r w, r ∈ rows -> ar_LastRun r = Some w -> t_ns w <= t_ns now) ->
  marked_at rows v lo -> marked_at (SaveSchedule u enabled cron zone_ now rows) v lo.
Proof.
  intros Hnd Hm (r & w & Hr & Hu & Hw & Hlo). unfold SaveSchedule.
  destruct (N.eqb u uuid_nil); [by exists r, w|].
  destruct (List.find _ rows) as [r0|] eqn:Ef.
  - destruct (N.eqb_spec (ar_User r) u) as [E|E].
    + apply find_user in Ef as [Hin Hu0].
      assert (r0 = r) as -> by (eapply users_unique; [exact Hnd|done|done|congruence]).
      destruct (saved_mark_later r enabled cron zone_ now w Hw ltac:(by eapply Hm)) as (w' & Hs & Hw').
      exists (Build_AutoRow u enabled cron zone_ (saved_mark (Some r) enabled cron zone_ now)), w'.
      split_and!; [|by rewrite <- Hu|exact Hs|lia].
      apply list_elem_of_In, in_map_iff. exists r. rewrite E, N.eqb_refl.
      split; [done|by apply list_elem_of_In].
    + exists r, w. split_and!; try done. apply list_elem_of_In, in_map_iff. exists r.
      rewrite (proj2 (N.eqb_neq _ _) E). split; [done|by apply list_elem_of_In].
  - exists r, w. split_and!; try done. apply elem_of_app. by left.
Qed.

(** ** The invariant is kept *)

Lemma ForallOrdPairs_snoc_run (rs : list Run) r :
  ForallOrdPairs run_order rs -> (forall a, a ∈ rs -> run_order a r) ->
  ForallOrdPairs run_order (rs ++ [r]).
Proof. intros H Hr. apply ForallOrdPairs_snoc; [done|]. by apply Forall_forall. Qed.

Section Preserved.
Context {Sched : Type} {L : CronLib Sched} (load : string -> option Location).

(** A run's row is the one its update moved, so every earlier run of the user
    ended by the watermark it started from. *)
Lemma run_after rows c r at_ rows' a :
  NoDup (map ar_User rows) -> LastRun c = Some (run_from r) -> run_user r = ac_UserID c ->
  AdvanceAutoScheduleWatermark (ac_UserID c) (LastRun c) at_ rows = (true, rows') ->
  marked_at rows (run_user a) (t_ns (run_at a)) -> run_order a r.
Proof.
  intros Hnd Hl Hu (_ & r0 & Hr0 & Ha)%advance_won (ra & w & Hra & Hua & Hw & Hlo) Euser.
  unfold advanceable in Ha. rewrite Hl in Ha. apply andb_true_iff in Ha as [Ha Hm].
  apply andb_true_iff in Ha as [Hu0%N.eqb_eq _].
  assert (r0 = ra) as -> by (eapply users_unique; [exact Hnd|done|done|congruence]).
  rewrite Hw in Hm. simpl in Hm. apply Z.eqb_eq in Hm. lia.
Qed.

Lemma inv_consider s i at_ c cs env r rows' :
  sys_inv s -> sys_ticks s !! i = Some (Some (at_, c :: cs)) -> forward_at load c ->
  consider load env c at_ (sys_rows s) = (r, rows') ->
  sys_inv {| sys_now := sys_now s; sys_rows := rows'; sys_ticks := <[i := Some (at_, cs)]> (sys_ticks s);
             sys_runs := sys_runs s ++ option_list r |}.
Proof.
  intros [Hu Hm Ht Hr Hs Ho] Hi Hfwd Hc. pose proof (Ht i at_ (c :: cs) Hi) as Hat.
  assert (Hticks : forall j a l, <[i := Some (at_, cs)]> (sys_ticks s) !! j = Some (Some (a, l)) ->
    t_ns a <= sys_now s).
  { intros j a l [(_ & [= <- <-] & _)|[_ Hj]]%list_lookup_insert_Some; [done|by eapply Ht]. }
  destruct r as [r|].
  - apply consider_run in Hc
      as (sched & loc & Hp & Hl & Huser & Hlast & Hra & Hslot & _ & Hle & _ & _ & Hadv).
    pose proof (Hfwd _ _ (run_from r) Hp Hl Hlast) as Hlt. rewrite <- Hslot in Hlt.
    assert (Hto : forall w, LastRun c = Some w -> t_ns w <= t_ns at_)
      by (rewrite Hlast; intros w [= <-]; lia).
    split; cbn [sys_now sys_rows sys_ticks sys_runs option_list].
    + by rewrite (users_advance _ _ _ _ _ _ Hadv).
    + by eapply marks_advance.
    + done.
    + intros r' [Hr'|Hr'%list_elem_of_singleton]%elem_of_app.
      * eapply marked_advance; [exact Hadv|done|by apply Hr].
      * subst r'. apply advance_won in Hadv as (-> & r0 & Hr0 & Ha).
        exists (set_mark at_ r0), at_. split_and!; [| |done|by rewrite Hra].
        2:{ rewrite Huser. unfold advanceable in Ha. zbool. by apply N.eqb_eq. }
        apply advanced_row. exists r0. by rewrite Ha.
    + apply Forall_app. split; [done|]. repeat constructor; [done|by rewrite Hra].
    + apply ForallOrdPairs_snoc_run; [done|]. intros a Ha. by eapply run_after; [..|by apply Hr].
  - destruct (consider_norun load env c at_ (sys_rows s) rows' Hfwd Hc) as [->|(b & o & Hadv & Hto)];
      split; cbn [sys_now sys_rows sys_ticks sys_runs option_list]; rewrite ?app_nil_r; try done.
    + by rewrite (users_advance _ _ _ _ _ _ Hadv).
    + by eapply marks_advance.
    + intros r Hr'. eapply marked_advance; [exact Hadv|done|by apply Hr].
Qed.

Lemma inv_sys_step s s' :
  (forall i at_ c cs, sys_ticks s !! i = Some (Some (at_, c :: cs)) -> forward_at load c) ->
  sys_inv s -> sys_step load s s' -> sys_inv s'.
Proof.
  intros Hfwd Hinv Hst. pose proof Hinv as [Hu Hm Ht Hr Hs Ho].
  destruct Hst as [t Ht'|u en cron zone_ now Hnow|i at_ Hi Hat|i at_ c cs env r rows' Hi Hc|i at_ cs Hi].
  - split; cbn [sys_now sys_rows sys_ticks sys_runs]; try done.
    + intros r w H1 H2. specialize (Hm r w H1 H2). lia.
    + intros i a cs Hi. specialize (Ht i a cs Hi). lia.
  - split; cbn [sys_now sys_rows sys_ticks sys_runs]; try done.
    + by apply save_users.
    + apply save_marks; [lia|done].
    + intros r Hin. apply marked_save; [done| |by apply Hr]. intros r' w H1 H2.
      specialize (Hm r' w H1 H2). lia.
  - split; cbn [sys_now sys_rows sys_ticks sys_runs]; try done.
    intros j a l [(_ & [= <- <-] & _)|[_ Hj]]%list_lookup_insert_Some; [done|by eapply Ht].
  - eapply inv_consider; [done|done|by eapply Hfwd|done].
  - split; cbn [sys_now sys_rows sys_ticks sys_runs]; try done.
    intros j a l [(_ & H & _)|[_ Hj]]%list_lookup_insert_Some; [done|by eapply Ht].
Qed.
End Preserved.

(** ** Slots away from the changes of the clocks *)

Lemma wall_of_ns w : t_ns (wall_of w) = t_ns w + offset_of w * Second.
Proof.
  unfold wall_of, Date. pose proof (DateOf_range w) as Hv. unfold civil_valid in Hv. zbool.
  rewrite resolve_UTC. cbn [t_ns].
  assert (Hn : NanosecondOf w / Second = 0 /\ NanosecondOf w mod Second = NanosecondOf w).
  { unfold NanosecondOf. split; [apply Z.div_small, Z.mod_pos_bound; done|apply Z.mod_mod; done]. }
  destruct Hn as [-> ->]. rewrite naive_sec_valid by lia. rewrite Z.add_0_r, <- local_sec_fields.
  unfold local_sec, unix_sec, NanosecondOf, Second in *. dlia.
Qed.

Lemma nextSlot_ns {Sched} {L : CronLib Sched} (sched : Sched) w loc :
  good_next (wall_of (In w loc)) (Next sched (wall_of (In w loc))) ->
  t_ns (nextSlot sched w loc) = resolve loc (unix_sec (Next sched (wall_of (In w loc)))) * Second.
Proof.
  intros (_ & Hmin & Hloc). unfold nextSlot. cbv zeta. revert Hloc Hmin.
  generalize (Next sched (wall_of (In w loc))). intros n Hloc Hmin.
  unfold Date. cbn [t_ns]. change (0 / Second) with 0. change (0 mod Second) with 0.
  pose proof (DateOf_range n) as Hv. unfold civil_valid in Hv. zbool.
  rewrite naive_sec_valid by lia. rewrite !Z.add_0_r.
  assert (Hs : SecondOf n = 0).
  { unfold SecondOf, local_sec, unix_sec. unfold wall_of, Date in Hloc. cbn [t_loc] in Hloc.
    unfold offset_of. rewrite Hloc. change (off_at UTC _) with 0. unfold Minute, Second in *. dlia. }
  pose proof (local_sec_fields n) as Hf. rewrite Hs in Hf.
  replace (days_of_civil (c_year (DateOf n)) (c_month (DateOf n)) (c_day (DateOf n)) * day_secs +
    HourOf n * 3600 + MinuteOf n * 60) with (local_sec n) by lia.
  unfold local_sec, offset_of. rewrite Hloc. unfold wall_of, Date. cbn [t_loc].
  change (off_at UTC _) with 0. by rewrite Z.add_0_r.
Qed.

(** A stretch of a zone without a change of its clocks has one offset. *)
Lemma off_at_steady loc lo hi x :
  changes (loc_tx loc) lo hi = [] -> lo <= x <= hi -> off_at loc x = off_at loc lo.
Proof. intros Hc Hx. unfold off_at, lookup. by rewrite (lookup_tx_quiet _ _ _ lo hi x). Qed.

Lemma changes_within tx lo hi lo' hi' :
  changes tx lo hi = [] -> lo <= lo' -> hi' <= hi -> changes tx lo' hi' = [].
Proof.
  intros Hc Hlo Hhi. unfold changes, keep in *. induction tx as [|[T o] tx IH]; [done|].
  cbn [List.filter fst] in *. revert Hc.
  destruct (Z.ltb_spec lo T), (Z.leb_spec T hi), (Z.ltb_spec lo' T), (Z.leb_spec T hi'); cbn [andb];
    try done; try lia; exact IH.
Qed.

(** When the clocks of the zone do not change from a day before the watermark
    until two days after it, the next slot is after the watermark: the wall clock
    found is later, and reads as a later instant. *)
Lemma nextSlot_forward {Sched} {L : CronLib Sched} (sched : Sched) w loc :
  loc_ok loc = true ->
  changes (loc_tx loc) (unix_sec w - day_secs) (unix_sec w + 2 * day_secs) = [] ->
  good_next (wall_of (In w loc)) (Next sched (wall_of (In w loc))) ->
  t_ns w < t_ns (nextSlot sched w loc).
Proof.
  intros Hok Hc Hg. rewrite nextSlot_ns by done. destruct Hg as (Hlt & Hmin & _).
  rewrite wall_of_ns in Hlt. unfold offset_of in Hlt. cbn [In t_loc t_ns] in Hlt.
  change (unix_sec (In w loc)) with (unix_sec w) in Hlt.
  revert Hlt Hmin. generalize (Next sched (wall_of (In w loc))). intros n Hlt Hmin.
  assert (Hn : t_ns n = unix_sec n * Second) by (unfold unix_sec, Minute, Second in *; dlia).
  rewrite resolve_eq by done. rewrite Hn in Hlt. set (N := unix_sec n) in *. clearbody N.
  assert (Hst : forall x, unix_sec w - day_secs <= x <= unix_sec w + 2 * day_secs ->
    off_at loc x = off_at loc (unix_sec w)).
  { intros x Hx. rewrite (off_at_steady loc _ _ x Hc Hx), (off_at_steady loc _ _ (unix_sec w) Hc); [done|].
    unfold day_secs. lia. }
  pose proof (off_at_bound loc (unix_sec w) Hok) as Hb.
  assert (Hw : t_ns w < (unix_sec w + 1) * Second) by (unfold unix_sec, Second; dlia).
  assert (Hw' : unix_sec w * Second <= t_ns w) by (unfold unix_sec, Second; dlia).
  destruct (Z.le_gt_cases (unix_sec w + day_secs) N) as [Hfar|Hnear].
  - pose proof (off_at_bound loc (N - off_at loc N) Hok). unfold Second in *. nia.
  - assert (HN : unix_sec w + off_at loc (unix_sec w) < N + 1) by (unfold Second in *; nia).
    rewrite (Hst N) by lia. rewrite (Hst (N - off_at loc (unix_sec w))) by lia.
    unfold Second in *. nia.
Qed.

(** *** A stretch of time away from the changes of the clocks *)

Section Stretch.
Context {Sched : Type} {L : CronLib Sched} (load : string -> option Location) (lo hi : Z).

(** A stored expression whose schedule activates. *)
Definition activates (expr : string) : Prop :=
  forall sched t, ParseAutoScheduleCron expr = Some sched -> good_next t (Next sched t).

(** The clocks of a stored zone do not change from a day before the stretch until
    two days after it. *)
Definition steady (zone : string) : Prop :=
  forall loc, load zone = Some loc -> loc_ok loc = true /\
    changes (loc_tx loc) (lo / Second - day_secs) (hi / Second + 2 * day_secs) = [].

(** A state in the stretch. *)
Record ordinary (s : System) : Prop := {
  or_now : lo <= sys_now s <= hi;
  or_ticks : forall i at_ cs, sys_ticks s !! i = Some (Some (at_, cs)) -> lo <= t_ns at_;
  or_rows : forall r, r ∈ sys_rows s -> activates (ar_Cron r) /\ steady (ar_Zone r);
}.

(** A step that stays in it. *)
Definition ordinary_step (s s' : System) : Prop := sys_step load s s' /\ ordinary s'.

Definition mark_in (m : option time) : Prop := forall w, m = Some w -> lo <= t_ns w <= hi.

Definition ordinary_candidate (c : AutoScheduleCandidate) : Prop :=
  activates (CronExpr c) /\ steady (ac_Timezone c) /\ mark_in (LastRun c).

Record stretch_inv (s : System) : Prop := {
  st_ordinary : ordinary s;
  st_marks : forall r, r ∈ sys_rows s -> mark_in (ar_LastRun r);
  st_candidates : forall i at_ cs c, sys_ticks s !! i = Some (Some (at_, cs)) -> c ∈ cs -> ordinary_candidate c;
}.

Lemma ordinary_forward c : ordinary_candidate c -> forward_at load c.
Proof.
  intros (Ha & Hs & Hm) sched loc w Hp Hl Hw. destruct (Hs loc Hl) as [Hok Hc]. specialize (Hm w Hw).
  apply nextSlot_forward; [done| |by apply Ha].
  eapply changes_within; [exact Hc|unfold unix_sec, Second in *; dlia..].
Qed.

Lemma advance_marks u observed to rows b rows' :
  AdvanceAutoScheduleWatermark u observed to rows = (b, rows') -> lo <= t_ns to <= hi ->
  (forall r, r ∈ rows -> mark_in (ar_LastRun r)) -> forall r, r ∈ rows' -> mark_in (ar_LastRun r).
Proof.
  intros [->| ->]%advance_shape Hto H r Hr; [by apply H|].
  apply advanced_row in Hr as (r0 & Hr0 & ->). destruct (advanceable u observed r0); [|by apply H].
  intros w [= <-]. done.
Qed.

Lemma save_mark_in u enabled cron zone_ now rows :
  lo <= t_ns now <= hi -> (forall r, r ∈ rows -> mark_in (ar_LastRun r)) ->
  forall r, r ∈ SaveSchedule u enabled cron zone_ now rows -> mark_in (ar_LastRun r).
Proof.
  intros Hn H r. unfold SaveSchedule. destruct (N.eqb u uuid_nil); [by apply H|].
  destruct (List.find _ rows) as [r0|] eqn:Ef.
  - apply find_user in Ef as [Hin _]. intros (x & Hx & Hin')%list_elem_of_In%in_map_iff.
    apply list_elem_of_In in Hin'. destruct (N.eqb (ar_User x) u); subst r; [|by apply H].
    intros w. cbn [ar_LastRun]. unfold saved_mark.
    destruct (enabled && _); [by intros [= <-]|by apply H].
  - intros [Hr|Hr%list_elem_of_singleton]%elem_of_app; [by apply H|]. subst r. intros w. simpl.
    destruct enabled; [by intros [= <-]|done].
Qed.

Lemma consider_marks env c at_ rows r rows' :
  consider load env c at_ rows = (r, rows') -> lo <= t_ns at_ <= hi ->
  (forall x, x ∈ rows -> mark_in (ar_LastRun x)) -> forall x, x ∈ rows' -> mark_in (ar_LastRun x).
Proof.
  intros Hc Hat H. revert Hc. unfold consider.
  destruct (ParseAutoScheduleCron _); [|by intros [= _ <-]]. destruct (load _); [|by intros [= _ <-]].
  destruct (LastRun c) as [w|].
  - destruct (After _ _); [by intros [= _ <-]|]. destruct (stop_inside env); [by intros [= _ <-]|].
    destruct (updateFails env); [by intros [= _ <-]|].
    destruct (AdvanceAutoScheduleWatermark _ _ _ _) as [[] rows1] eqn:E; intros [= _ <-];
      by apply (advance_marks _ _ _ _ _ _ E).
  - destruct (updateFails env); [by intros [= _ <-]|].
    destruct (AdvanceAutoScheduleWatermark _ _ _ _) as [b rows1] eqn:E. intros [= _ <-].
    by apply (advance_marks _ _ _ _ _ _ E).
Qed.

Lemma inv_ordinary_step s s' : sys_inv s -> stretch_inv s -> ordinary_step s s' -> stretch_inv s'.
Proof.
  intros Hi [Ho Hm Hc] [Hst Ho'].
  split; [done| |]; destruct Hst as [t Ht'|u en cron zone_ now Hnow|i at_ Hi' Hat|i at_ c cs env r rows' Hi' Hco|i at_ cs Hi'];
    cbn [sys_rows sys_ticks]; try done.
  - apply save_mark_in; [|done]. rewrite Hnow. apply Ho.
  - eapply consider_marks; [exact Hco| |done]. split; [by eapply Ho|].
    pose proof (si_ticks _ Hi _ _ _ Hi'). pose proof (or_now _ Ho). lia.
  - intros j a l x [(_ & [= <- <-] & _)|[_ Hj]]%list_lookup_insert_Some Hx; [|by eapply Hc].
    unfold ListAutoScheduleCandidates in Hx. apply list_elem_of_In, in_map_iff in Hx as (row & <- & Hr).
    apply list_elem_of_In, elem_of_keep in Hr as [Hr _]. destruct (or_rows _ Ho row Hr). by split_and!; [| |apply Hm].
  - intros j a l x [(_ & [= <- <-] & _)|[_ Hj]]%list_lookup_insert_Some Hx; [|by eapply Hc].
    eapply (Hc i at_); [exact Hi'|by right].
  - intros j a l x [(_ & H & _)|[_ Hj]]%list_lookup_insert_Some Hx; [done|by eapply Hc].
Qed.

Lemma reachable_ordinary s s' :
  rtc ordinary_step s s' -> sys_inv s -> stretch_inv s -> sys_inv s' /\ stretch_inv s'.
Proof.
  induction 1 as [|s s1 s2 Hst _ IH]; [done|]. intros Hi Ho. apply IH.
  - eapply inv_sys_step; [|exact Hi|apply Hst]. intros i at_ c cs Hc.
    apply ordinary_forward. eapply st_candidates; [exact Ho|exact Hc|left].
  - by eapply inv_ordinary_step.
Qed.
End Stretch.

(** ** Properties *)

(** A system that has not run anything yet: one row per user, no watermark in
    the future, every scheduler idle. *)
Definition fresh_system (s : System) : Prop :=
  NoDup (map ar_User (sys_rows s)) /\
  (forall r w, r ∈ sys_rows s -> ar_LastRun r = Some w -> t_ns w <= sys_now s) /\
  Forall (fun t => t = None) (sys_ticks s) /\ sys_runs s = [].

Lemma fresh_inv s : fresh_system s -> sys_inv s.
Proof.
  intros (Hu & Hm & Ht & Hr). split; rewrite ?Hr; [done|done| | | |].
  - intros i at_ cs Hi. rewrite Forall_lookup in Ht. by specialize (Ht i _ Hi).
  - intros r H. by apply not_elem_of_nil in H.
  - constructor.
  - constructor.
Qed.

(** C8: Away from the changes of the clocks no slot runs twice.  Take a stretch of
    time such that no stored zone changes its clocks from a day before it until two
    days after it, in which every stored schedule activates.  However the ticks of
    any number of schedulers, the saves of the settings and the clock are
    interleaved in it, the runs of a user are in order: each is for a slot after
    the watermark it started from and no later than its tick, and the next one
    starts from a watermark no earlier than that tick, for a slot after it.
    Around a change of the clocks, and for a schedule that never activates, a slot
    does run again: [repeated_hour_reruns_slot], [skipped_hour_reruns_slot],
    [never_matching_runs_every_minute]. *)
Theorem no_slot_runs_twice {Sched} {L : CronLib Sched} load lo hi s0 s :
  fresh_system s0 -> ordinary load lo hi s0 ->
  (forall r w, r ∈ sys_rows s0 -> ar_LastRun r = Some w -> lo <= t_ns w) ->
  rtc (ordinary_step load lo hi) s0 s ->
  Forall run_covers_slot (sys_runs s) /\
  ForallOrdPairs (fun a b => run_user a = run_user b ->
    t_ns (run_slot a) <= t_ns (run_at a) <= t_ns (run_from b) /\
    t_ns (run_from b) < t_ns (run_slot b)) (sys_runs s).
Proof.
  intros Hf Ho0 Hlo Hr.
  assert (Hst : stretch_inv load lo hi s0).
  { destruct Hf as (_ & Hm & Ht & _). split; [done| |].
    - intros r Hin w Hw. specialize (Hlo r w Hin Hw). specialize (Hm r w Hin Hw).
      pose proof (or_now _ _ _ _ Ho0). lia.
    - intros i at_ cs c Hi. rewrite Forall_lookup in Ht. by specialize (Ht i _ Hi). }
  destruct (reachable_ordinary load lo hi s0 s Hr (fresh_inv s0 Hf) Hst) as [[_ _ _ _ Hs Ho] _].
  split; [done|]. clear Hr Hf. induction Ho as [|a rs Ha Ho IH]; constructor.
  - inversion Hs as [|? ? Hca Hcs]; subst. rewrite Forall_forall in Ha, Hcs |- *.
    intros b Hb Hu. specialize (Ha b Hb Hu). specialize (Hcs b Hb).
    unfold run_covers_slot in *. lia.
  - inversion Hs; subst. by apply IH.
Qed.

Lemma advanceable_unique u observed rows :
  NoDup (map ar_User rows) -> (length (keep (advanceable u observed) rows) <= 1)%nat.
Proof.
  induction rows as [|r rows IH]; cbn [map]; intros Hnd; [simpl; lia|].
  apply NoDup_cons in Hnd as [Hn Hnd]. specialize (IH Hnd).
  unfold keep in *. cbn [List.filter]. destruct (advanceable u observed r) eqn:E; [|done].
  destruct (List.filter (advanceable u observed) rows) as [|x l] eqn:El; [simpl; lia|].
  exfalso. apply Hn. assert (Hx : x ∈ keep (advanceable u observed) rows) by (unfold keep; rewrite El; left).
  apply elem_of_keep in Hx as [Hx Hax]. unfold advanceable in *.
  apply andb_true_iff in E as [[E%N.eqb_eq _]%andb_true_iff _].
  apply andb_true_iff in Hax as [[Hax%N.eqb_eq _]%andb_true_iff _].
  rewrite E, <- Hax. by apply list_elem_of_In, in_map, list_elem_of_In.
Qed.

(** What one candidate leads to.  A run happens when the stored schedule and
    zone are usable, the next slot after the observed watermark has come, the
    drain has not ended, and the row still has that watermark and is still on;
    the row is then at the tick.  Otherwise nothing is written, but that an
    empty watermark is set to the tick. *)
Theorem consider_outcome {Sched} {L : CronLib Sched} load env c at_ rows run rows' :
  NoDup (map ar_User rows) -> consider load env c at_ rows = (run, rows') ->
  match run with
  | Some r =>
      exists sched loc row,
        ParseAutoScheduleCron (CronExpr c) = Some sched /\ load (ac_Timezone c) = Some loc /\
        LastRun c = Some (run_from r) /\ run_slot r = nextSlot sched (run_from r) loc /\
        t_ns (run_slot r) <= t_ns at_ /\ run_at r = at_ /\ run_week r = In at_ loc /\
        stop_inside env = false /\ updateFails env = false /\
        row ∈ rows /\ advanceable (ac_UserID c) (LastRun c) row = true /\ set_mark at_ row ∈ rows'
  | None =>
      rows' = rows \/
      LastRun c = None /\
      rows' = map (fun r => if advanceable (ac_UserID c) None r then set_mark at_ r else r) rows
  end.
Proof.
  intros Hnd Hc. destruct run as [r|].
  - apply consider_run in Hc
      as (sched & loc & Hp & Hl & _ & Hlast & Hra & Hslot & Hweek & Hle & Hs & Hf & Hadv).
    apply advance_won in Hadv as (-> & row & Hrow & Ha).
    exists sched, loc, row. split_and!; try done. apply advanced_row. exists row. by rewrite Ha.
  - revert Hc. unfold consider.
    destruct (ParseAutoScheduleCron (CronExpr c)); [|by intros [= <-]; left].
    destruct (load (ac_Timezone c)); [|by intros [= <-]; left]. destruct (LastRun c) as [w|].
    + destruct (After _ _); [by intros [= <-]; left|].
      destruct (stop_inside env); [by intros [= <-]; left|].
      destruct (updateFails env); [by intros [= <-]; left|].
      unfold AdvanceAutoScheduleWatermark. destruct (N.eqb _ _); [by intros [= <-]; left|].
      pose proof (advanceable_unique (ac_UserID c) (Some w) rows Hnd) as Hlen.
      destruct (Nat.eqb _ 1) eqn:E; [discriminate|]. intros [= <-]. left.
      apply Nat.eqb_neq in E.
      assert (Hk : keep (advanceable (ac_UserID c) (Some w)) rows = []) by (apply length_zero_iff_nil; lia).
      clear -Hk. induction rows as [|r rows IH]; [done|]. unfold keep in *. cbn [List.filter map] in *.
      destruct (advanceable (ac_UserID c) (Some w) r); [discriminate|]. by rewrite IH.
    + destruct (updateFails env); [by intros [= <-]; left|]. intros [= <-].
      unfold AdvanceAutoScheduleWatermark. destruct (N.eqb _ _); [by left|by right].
Qed.

(** ** Concrete schedules *)

Module CronDemo.
(** A cron library that knows the daily schedules "m h * * *" and takes every
    other expression for one that never activates. *)
Definition sched := option (Z * Z).

Definition parse (expr : string) : option sched :=
  match Fields expr with
  | [m; h; "*"; "*"; "*"] =>
      match scan_int m, scan_int h with
      | Some (mi, _), Some (ho, _) => Some (Some (mi, ho))
      | _, _ => None
      end
  | _ => Some None
  end.

Definition next (s : sched) (t : time) : time :=
  match s with
  | None => zero_time
  | Some (mi, ho) =>
      let today := t_ns t / (day_secs * Second) * (day_secs * Second) + ho * Hour + mi * Minute in
      let k := Z.max 0 ((t_ns t - today) / (day_secs * Second) + 1) in
      Time (today + k * (day_secs * Second)) (t_loc t)
  end.

#[export] Instance lib : CronLib sched := {| cronParse := parse; Next := next |}.

Lemma daily_good mi ho t : good_next t (next (Some (mi, ho)) t).
Proof. unfold good_next. cbn. unfold day_secs, Hour, Minute, Second. split_and!; [dlia|dlia|done]. Qed.

Definition row (expr zone : string) (mark : time) : AutoRow :=
  {| ar_User := 1%N; ar_Enabled := true; ar_Cron := expr; ar_Zone := zone; ar_LastRun := Some mark |}.

Definition calm : nat -> TickEnv :=
  fun _ => {| stop_before := false; stop_inside := false; updateFails := false |}.

(** The clocks of New York go back on 2 November 2025. *)
Definition new_york : Location := {|
  loc_name := "America/New_York"; loc_first := -18000;
  loc_tx := [(1741503600, -14400); (1762063200, -18000)] |}.
Definition load (zone : string) : option Location :=
  if String.eqb zone "UTC" then Some UTC
  else if String.eqb zone "America/New_York" then Some new_york else None.

(** The ticks of [n] minutes from [at_] on, one scheduler alone. *)
Fixpoint ticks (n : nat) (at_ : time) (rows : list AutoRow) : list Run * list AutoRow :=
  match n with
  | O => ([], rows)
  | S k =>
      let '(_, runs, rows1) := tick load calm false false at_ rows in
      let '(more, rows2) := ticks k (Add at_ Minute) rows1 in (runs ++ more, rows2)
  end.

Definition ran_at (r : Run) : string := FormatHHMM (run_week r).
End CronDemo.

(** In an hour the clocks repeat, a slot can lie before the watermark, and then
    it runs at every tick.  In New York, when the backend comes back at ten past
    one the second time, the slot of half past one (taken at its first
    occurrence) is run at each of the next twenty-one ticks. *)
Theorem repeated_hour_reruns_slot :
  let runs := (CronDemo.ticks 40 (Time (1762063800 * Second) UTC)
    [CronDemo.row "30 1 * * *" "America/New_York" (Time (1761975000 * Second) UTC)]).1 in
  map (fun r => FormatRFC3339 (run_slot r)) runs = repeat "2025-11-02T01:30:00-04:00" 21 /\
  option_map CronDemo.ran_at (head runs) = Some "01:10" /\
  option_map CronDemo.ran_at (last runs) = Some "01:30".
Proof.
  vm_compute. auto.
Qed.

(** In an hour the clocks skip, in a zone west of Greenwich, a slot is taken an hour
    early and then run at every tick until the clocks have gone forward.  In New
    York, on the morning of 9 March 2025, the slot of half past two is run at 01:30
    and at each of the next thirty ticks, the last at 03:00. *)
Theorem skipped_hour_reruns_slot :
  let runs := (CronDemo.ticks 60 (Time (1741501200 * Second) UTC)
    [CronDemo.row "30 2 * * *" "America/New_York" (Time (1741419000 * Second) UTC)]).1 in
  map (fun r => FormatRFC3339 (run_slot r)) runs = repeat "2025-03-09T01:30:00-05:00" 31 /\
  option_map CronDemo.ran_at (head runs) = Some "01:30" /\
  option_map CronDemo.ran_at (last runs) = Some "03:00".
Proof.
  vm_compute. auto.
Qed.

(** A schedule that never activates, which the parser accepts, runs at every
    tick: the next slot is then in year 1. *)
Theorem never_matching_runs_every_minute :
  let runs := (CronDemo.ticks 10 (Date 2025 1 6 9 0 0 0 UTC)
    [CronDemo.row "0 0 31 2 *" "UTC" (Date 2025 1 6 8 0 0 0 UTC)]).1 in
  map (fun r => FormatRFC3339 (run_slot r)) runs = repeat "0001-01-01T00:00:00Z" 10.
Proof. vm_compute. reflexivity. Qed.

(** ** Witnesses *)

Module CronRace.
(** The daily schedules alone. *)
#[export] Instance daily_lib : CronLib (Z * Z) := {|
  cronParse expr := match CronDemo.parse expr with Some (Some d) => Some d | _ => None end;
  Next d t := CronDemo.next (Some d) t;
|}.

Definition load (zone : string) : option Location := if String.eqb zone "UTC" then Some UTC else None.

Definition at_ : time := Date 2025 1 6 1 30 20 0 UTC.
(** The stretch: the week around it. *)
Definition lo : Z := t_ns (Date 2025 1 3 0 0 0 0 UTC).
Definition hi : Z := t_ns (Date 2025 1 10 0 0 0 0 UTC).
Definition rows : list AutoRow := [CronDemo.row "30 1 * * *" "UTC" (Date 2025 1 5 1 30 20 0 UTC)].
Definition listed := Some (at_, ListAutoScheduleCandidates rows).

(** Two schedulers tick at the same instant, both having listed the user. *)
Definition state (ticks : list (option (time * list AutoScheduleCandidate))) (rows : list AutoRow)
    (runs : list Run) : System :=
  {| sys_now := t_ns at_; sys_rows := rows; sys_ticks := ticks; sys_runs := runs |}.
Definition start : System := state [None; None] rows [].
Definition run : Run :=
  {| run_user := 1%N; run_from := Date 2025 1 5 1 30 20 0 UTC; run_slot := Date 2025 1 6 1 30 0 0 UTC;
     run_at := at_; run_week := at_ |}.
Definition candidate : AutoScheduleCandidate :=
  {| ac_UserID := 1%N; CronExpr := "30 1 * * *"; ac_Timezone := "UTC";
     LastRun := Some (Date 2025 1 5 1 30 20 0 UTC) |}.
Definition moved : list AutoRow := [CronDemo.row "30 1 * * *" "UTC" at_].
Definition stop : System := state [Some (at_, []); Some (at_, [])] moved [run].
End CronRace.

#[local] Existing Instance CronRace.daily_lib.

Lemma daily_activates expr : activates expr.
Proof. intros [mi ho] t _. apply CronDemo.daily_good. Qed.

Lemma steady_race lo hi zone : steady CronRace.load lo hi zone.
Proof.
  intros loc. unfold CronRace.load. destruct (String.eqb zone "UTC"); [|discriminate]. by intros [= <-].
Qed.

Lemma CronRace_fresh : fresh_system CronRace.start.
Proof.
  split_and!; [apply NoDup_singleton| |repeat constructor|done].
  intros r w ->%list_elem_of_singleton [= <-]. vm_compute. discriminate.
Qed.

Lemma CronRace_first :
  consider CronRace.load (CronDemo.calm 0) CronRace.candidate CronRace.at_ CronRace.rows =
  (Some CronRace.run, CronRace.moved).
Proof. vm_compute. reflexivity. Qed.

Lemma CronRace_second :
  consider CronRace.load (CronDemo.calm 0) CronRace.candidate CronRace.at_ CronRace.moved =
  (None, CronRace.moved).
Proof. vm_compute. reflexivity. Qed.

Lemma ordinary_race ticks rows runs :
  (forall i at_ cs, ticks !! i = Some (Some (at_, cs)) -> at_ = CronRace.at_) ->
  ordinary CronRace.load CronRace.lo CronRace.hi (CronRace.state ticks rows runs).
Proof.
  intros Ht. split.
  - split; apply Z.leb_le; reflexivity.
  - intros i at_ cs Hi. rewrite (Ht _ _ _ Hi). apply Z.leb_le. reflexivity.
  - intros r _. split; [apply daily_activates|apply steady_race].
Qed.

Lemma ticks_race (x y : option (time * list AutoScheduleCandidate)) :
  (forall z, z = x \/ z = y -> forall a cs, z = Some (a, cs) -> a = CronRace.at_) ->
  forall i at_ cs, [x; y] !! i = Some (Some (at_, cs)) -> at_ = CronRace.at_.
Proof.
  intros H [|[|i]] at_ cs E; [injection E as E..|done].
  - exact (H x (or_introl eq_refl) _ _ E).
  - exact (H y (or_intror eq_refl) _ _ E).
Qed.

Lemma CronRace_ordinary : ordinary CronRace.load CronRace.lo CronRace.hi CronRace.start.
Proof. apply ordinary_race, ticks_race. by intros z [->| ->]. Qed.

Lemma CronRace_marks r w : r ∈ sys_rows CronRace.start -> ar_LastRun r = Some w -> CronRace.lo <= t_ns w.
Proof. intros ->%list_elem_of_singleton [= <-]. apply Z.leb_le. reflexivity. Qed.

Lemma CronRace_runs :
  rtc (ordinary_step CronRace.load CronRace.lo CronRace.hi) CronRace.start CronRace.stop.
Proof.
  assert (Hat : t_ns CronRace.at_ <= t_ns CronRace.at_) by apply Z.le_refl.
  pose (s1 := CronRace.state [CronRace.listed; None] CronRace.rows []).
  pose (s2 := CronRace.state [CronRace.listed; CronRace.listed] CronRace.rows []).
  pose (s3 := CronRace.state [Some (CronRace.at_, []); CronRace.listed] CronRace.moved [CronRace.run]).
  assert (O : forall ticks rows runs,
    (forall i at_ cs, ticks !! i = Some (Some (at_, cs)) -> at_ = CronRace.at_) ->
    ordinary CronRace.load CronRace.lo CronRace.hi (CronRace.state ticks rows runs)) by apply ordinary_race.
  apply (rtc_l _ _ s1); [split; [exact (s_fire _ CronRace.start 0 CronRace.at_ eq_refl Hat)|]|].
  { apply O, ticks_race. intros z [->| ->] a cs; [by intros [= <- _]|done]. }
  apply (rtc_l _ _ s2); [split; [exact (s_fire _ s1 1 CronRace.at_ eq_refl Hat)|]|].
  { apply O, ticks_race. intros z [->| ->] a cs; by intros [= <- _]. }
  apply (rtc_l _ _ s3); [split; [exact (s_consider _ s2 0 CronRace.at_ _ _ _ _ _ eq_refl CronRace_first)|]|].
  { apply O, ticks_race. intros z [->| ->] a cs; by intros [= <- _]. }
  apply rtc_once. split; [exact (s_consider _ s3 1 CronRace.at_ _ _ _ _ _ eq_refl CronRace_second)|].
  apply O, ticks_race. intros z [->| ->] a cs; by intros [= <- _].
Qed.

Lemma no_slot_runs_twice_witness :
  length (sys_runs CronRace.stop) = 1%nat /\ Forall run_covers_slot (sys_runs CronRace.stop).
Proof.
  split; [reflexivity|].
  exact (proj1 (no_slot_runs_twice CronRace.load CronRace.lo CronRace.hi CronRace.start CronRace.stop
    CronRace_fresh CronRace_ordinary CronRace_marks CronRace_runs)).
Defined.

Lemma consider_outcome_witness :
  exists row, row ∈ CronRace.rows /\ set_mark CronRace.at_ row ∈ CronRace.moved.
Proof.
  destruct (consider_outcome CronRace.load (CronDemo.calm 0) CronRace.candidate CronRace.at_
    CronRace.rows (Some CronRace.run) CronRace.moved (NoDup_singleton _) CronRace_first)
    as (_ & _ & row & _ & _ & _ & _ & _ & _ & _ & _ & _ & Hrow & _ & Hset).
  exists row. split; [exact Hrow|exact Hset].
Defined.
