(* ===== verification/Buffer.v ===== *)
(** * Buffers around meetings

    [engine/buffer.go]: the intervals treated as busy around qualifying
    meetings, clamped to the working day. *)

From S2P Require Import Prelude GoInt GoTime GoText Interval Calendar Settings.

#[local] Open Scope string_scope.
#[local] Open Scope list_scope.
#[local] Open Scope Z_scope.

(** A meeting that gets buffers: opaque, readable, long enough. *)
Definition qualifying (local : Location) (minDur : Z) (ev : Event) : list interval :=
  if transparent ev then []
  else match parsed_times local ev with
  | None => []
  | Some (start, end_) => if int_minutes (Sub end_ start) <? minDur then [] else [Iv start end_]
  end.

(** The buffers of one meeting. *)
Definition buffers_of (before after : Z) (workStart workEnd : time) (m : interval) : list interval :=
  (if 0 <? before then
     let b := Add (iv_start m) (- before) in
     let bStart := if Before b workStart then workStart else b in
     if Before bStart (iv_start m) then [Iv bStart (iv_start m)] else []
   else []) ++
  (if 0 <? after then
     let b := Add (iv_end m) after in
     let bEnd := if After b workEnd then workEnd else b in
     if After bEnd (iv_end m) then [Iv (iv_end m) bEnd] else []
   else []).

(** The buffer meets a qualifying meeting. *)
Definition meets (meetings : list interval) (buf : interval) : bool :=
  existsb (fun m => Before (iv_start buf) (iv_end m) && After (iv_end buf) (iv_start m)) meetings.

Definition ComputeBufferBlocks (local : Location) (events : list Event) (s : Settings)
    (workStart workEnd : time) : list interval :=
  if negb (BufferEnabled s) then []
  else if (BufferBeforeMinutes s =? 0) && (BufferAfterMinutes s =? 0) then []
  else
    let minDur := if BufferMinMeetingMinutes s <=? 0 then 1 else BufferMinMeetingMinutes s in
    let meetings := flat_map (qualifying local minDur) events in
    let buffers :=
      flat_map (buffers_of (dur_minutes (BufferBeforeMinutes s)) (dur_minutes (BufferAfterMinutes s))
                  workStart workEnd) meetings in
    if negb (BufferSkipBackToBack s) then buffers
    else keep (fun buf => negb (meets meetings buf)) buffers.

(** ** Facts *)

Lemma elem_of_qualifying local minDur ev m :
  m ∈ qualifying local minDur ev <->
  transparent ev = false /\ parsed_times local ev = Some (iv_start m, iv_end m) /\
  minDur <= int_minutes (Sub (iv_end m) (iv_start m)).
Proof.
  unfold qualifying. destruct (transparent ev).
  { rewrite elem_of_nil. intuition congruence. }
  destruct (parsed_times local ev) as [[s e]|].
  2:{ rewrite elem_of_nil. split; [done|]. intros (_ & [=] & _). }
  destruct (Z.ltb_spec (int_minutes (Sub e s)) minDur).
  - rewrite elem_of_nil. split; [done|]. intros (_ & [= -> ->] & ?). lia.
  - rewrite list_elem_of_singleton. split; [by intros ->|].
    intros (_ & [= -> ->] & _). by destruct m.
Qed.

Lemma elem_of_buffers_of before after ws we m buf :
  buf ∈ buffers_of before after ws we m <->
  (0 < before /\ iv_end buf = iv_start m /\ t_ns (iv_start buf) < t_ns (iv_start m) /\
   iv_start buf = (if Before (Add (iv_start m) (- before)) ws then ws
                   else Add (iv_start m) (- before))) \/
  (0 < after /\ iv_start buf = iv_end m /\ t_ns (iv_end m) < t_ns (iv_end buf) /\
   iv_end buf = (if After (Add (iv_end m) after) we then we else Add (iv_end m) after)).
Proof.
  unfold buffers_of. rewrite elem_of_app. apply Morphisms_Prop.or_iff_morphism.
  - destruct (Z.ltb_spec 0 before); [|rewrite elem_of_nil; lia].
    destruct (Before _ (iv_start m)) eqn:E; ztime.
    + rewrite list_elem_of_singleton. split; [intros ->; simpl; auto|].
      intros (_ & H1 & _ & H2). destruct buf; simpl in *. by subst.
    + rewrite elem_of_nil. split; [done|]. intros (_ & _ & H1 & H2). rewrite H2 in H1. lia.
  - destruct (Z.ltb_spec 0 after); [|rewrite elem_of_nil; lia].
    destruct (After _ (iv_end m)) eqn:E; ztime.
    + rewrite list_elem_of_singleton. split; [intros ->; simpl; auto|].
      intros (_ & H1 & _ & H2). destruct buf; simpl in *. by subst.
    + rewrite elem_of_nil. split; [done|]. intros (_ & _ & H1 & H2). rewrite H2 in H1. lia.
Qed.

(** Every buffer is one side of a qualifying meeting. *)
Lemma ComputeBufferBlocks_elem local events s ws we buf :
  buf ∈ ComputeBufferBlocks local events s ws we ->
  BufferEnabled s = true /\
  exists ev m, ev ∈ events /\
    m ∈ qualifying local (if BufferMinMeetingMinutes s <=? 0 then 1 else BufferMinMeetingMinutes s) ev /\
    buf ∈ buffers_of (dur_minutes (BufferBeforeMinutes s)) (dur_minutes (BufferAfterMinutes s)) ws we m.
Proof.
  unfold ComputeBufferBlocks. destruct (BufferEnabled s); simpl; [|by intros ?%not_elem_of_nil].
  destruct (_ && _); [by intros ?%not_elem_of_nil|]. intros H. split; [done|].
  assert (G : buf ∈ flat_map (buffers_of (dur_minutes (BufferBeforeMinutes s))
    (dur_minutes (BufferAfterMinutes s)) ws we) (flat_map (qualifying local
      (if BufferMinMeetingMinutes s <=? 0 then 1 else BufferMinMeetingMinutes s)) events)).
  { destruct (BufferSkipBackToBack s); simpl in H; [by apply elem_of_keep in H as [? _]|done]. }
  apply elem_of_flat_map in G as (m & Hm & Hb). apply elem_of_flat_map in Hm as (ev & Hev & Hm).
  eauto.
Qed.

(** ** Properties *)

(** Buffers stay inside the working day and touch their meeting: a buffer of a
    meeting that lies within the working day does too, is not empty, and is
    never longer than the setting asks. *)
Theorem buffers_within_workday local events s ws we buf :
  - max_dur_minutes <= BufferBeforeMinutes s <= max_dur_minutes ->
  - max_dur_minutes <= BufferAfterMinutes s <= max_dur_minutes ->
  buf ∈ ComputeBufferBlocks local events s ws we ->
  t_ns (iv_start buf) < t_ns (iv_end buf) /\
  exists ev start end_, ev ∈ events /\ transparent ev = false /\
    parsed_times local ev = Some (start, end_) /\
    ((iv_end buf = start /\ t_ns ws <= t_ns (iv_start buf) /\
      t_ns start - BufferBeforeMinutes s * Minute <= t_ns (iv_start buf)) \/
     (iv_start buf = end_ /\ t_ns (iv_end buf) <= t_ns we /\
      t_ns (iv_end buf) <= t_ns end_ + BufferAfterMinutes s * Minute)).
Proof.
  intros Hb Ha (He & ev & m & Hev & Hm & Hbuf)%ComputeBufferBlocks_elem.
  apply elem_of_qualifying in Hm as (Ht & Hp & _).
  apply elem_of_buffers_of in Hbuf as [(H0 & H1 & H2 & H3)|(H0 & H1 & H2 & H3)];
    rewrite dur_minutes_small in * by done.
  - split; [by rewrite H1|]. exists ev, (iv_start m), (iv_end m). split_and!; try done.
    left. split; [done|]. rewrite H3. destruct (Before _ _) eqn:E; ztime; simpl in *; lia.
  - split; [by rewrite H1|]. exists ev, (iv_start m), (iv_end m). split_and!; try done.
    right. split; [done|]. rewrite H3. destruct (After _ _) eqn:E; ztime; simpl in *; lia.
Qed.

(** A meeting that gets a buffer, in the calendar's own terms: an opaque event
    of the day, readable, of at least the minimum length. *)
Definition long_meeting (local : Location) (s : Settings) (events : list Event)
    (start end_ : time) : Prop :=
  exists ev, ev ∈ events /\ transparent ev = false /\ parsed_times local ev = Some (start, end_) /\
    Z.max 1 (BufferMinMeetingMinutes s) <= int_minutes (Sub end_ start).

(** The minutes from [lo] to [hi] are a buffer the settings ask for: buffers are
    on, and with back-to-back skipping no long meeting shares them. *)
Definition buffer_due (local : Location) (s : Settings) (events : list Event) (lo hi : Z) : Prop :=
  BufferEnabled s = true /\
  (BufferSkipBackToBack s = true -> forall start end_, long_meeting local s events start end_ ->
     t_ns end_ <= lo \/ hi <= t_ns start).

Lemma long_meeting_qualifying local s events m :
  long_meeting local s events (iv_start m) (iv_end m) <->
  m ∈ flat_map (qualifying local
    (if BufferMinMeetingMinutes s <=? 0 then 1 else BufferMinMeetingMinutes s)) events.
Proof.
  assert (E : (if BufferMinMeetingMinutes s <=? 0 then 1 else BufferMinMeetingMinutes s)
    = Z.max 1 (BufferMinMeetingMinutes s)) by (destruct (Z.leb_spec (BufferMinMeetingMinutes s) 0); lia).
  rewrite E, elem_of_flat_map. unfold long_meeting. by setoid_rewrite elem_of_qualifying.
Qed.

(** A computed buffer that is due is kept by the back-to-back rule. *)
Lemma due_buffer_kept local events s ws we m buf lo hi :
  long_meeting local s events (iv_start m) (iv_end m) -> buffer_due local s events lo hi ->
  (BufferBeforeMinutes s <> 0 \/ BufferAfterMinutes s <> 0) ->
  buf ∈ buffers_of (dur_minutes (BufferBeforeMinutes s)) (dur_minutes (BufferAfterMinutes s)) ws we m ->
  lo <= t_ns (iv_start buf) -> t_ns (iv_end buf) <= hi ->
  buf ∈ ComputeBufferBlocks local events s ws we.
Proof.
  intros Hm%long_meeting_qualifying [He Hd] Hnz Hbuf Hlo Hhi. unfold ComputeBufferBlocks. rewrite He. simpl.
  destruct (_ && _) eqn:E0; [zbool; lia|].
  set (ms := flat_map (qualifying local _) events) in *.
  assert (Hall : buf ∈ flat_map (buffers_of (dur_minutes (BufferBeforeMinutes s))
    (dur_minutes (BufferAfterMinutes s)) ws we) ms) by (apply elem_of_flat_map; eauto).
  destruct (BufferSkipBackToBack s) eqn:Es; simpl; [|done].
  apply elem_of_keep. split; [done|]. apply negb_true_iff, not_true_iff_false.
  unfold meets. rewrite existsb_elem. intros (x & Hx%long_meeting_qualifying & Ht).
  rewrite andb_true_iff, Before_lt, After_lt in Ht.
  destruct (Hd eq_refl _ _ Hx); lia.
Qed.

(** Every instant of the working day in a buffer that is due is covered. *)
Lemma due_buffers_covered local events s ws we start end_ x :
  0 <= BufferBeforeMinutes s <= max_dur_minutes -> 0 <= BufferAfterMinutes s <= max_dur_minutes ->
  long_meeting local s events start end_ -> t_ns ws <= x < t_ns we ->
  (t_ns start - BufferBeforeMinutes s * Minute <= x < t_ns start /\
   buffer_due local s events (t_ns start - BufferBeforeMinutes s * Minute) (t_ns start)) \/
  (t_ns end_ <= x < t_ns end_ + BufferAfterMinutes s * Minute /\
   buffer_due local s events (t_ns end_) (t_ns end_ + BufferAfterMinutes s * Minute)) ->
  covered (ComputeBufferBlocks local events s ws we) x.
Proof.
  intros Hb Ha Hm Hw [[Hx Hd]|[Hx Hd]].
  - set (b := Add start (- dur_minutes (BufferBeforeMinutes s))).
    assert (Eb : t_ns b = t_ns start - BufferBeforeMinutes s * Minute).
    { unfold b. rewrite dur_minutes_small by (unfold max_dur_minutes in *; lia). simpl. lia. }
    exists (Iv (if Before b ws then ws else b) start).
    split; [|unfold covers; simpl; destruct (Before b ws); lia].
    apply (due_buffer_kept _ _ _ _ _ (Iv start end_) _ _ _ Hm Hd); [lia| | |simpl; lia].
    + apply elem_of_buffers_of. left. rewrite dur_minutes_small at 1 by (unfold max_dur_minutes in *; lia).
      split; [unfold Minute, Second in *; lia|]. fold b. split_and!; [done| |done].
      simpl. destruct (Before b ws); lia.
    + simpl. destruct (Before b ws) eqn:E; ztime; lia.
  - set (b := Add end_ (dur_minutes (BufferAfterMinutes s))).
    assert (Eb : t_ns b = t_ns end_ + BufferAfterMinutes s * Minute).
    { unfold b. rewrite dur_minutes_small by (unfold max_dur_minutes in *; lia). simpl. lia. }
    exists (Iv end_ (if After b we then we else b)).
    split; [|unfold covers; simpl; destruct (After b we); lia].
    apply (due_buffer_kept _ _ _ _ _ (Iv start end_) _ _ _ Hm Hd); [lia| |simpl; lia|].
    + apply elem_of_buffers_of. right. rewrite dur_minutes_small at 1 by (unfold max_dur_minutes in *; lia).
      split; [unfold Minute, Second in *; lia|]. fold b. split_and!; [done| |done].
      simpl. destruct (After b we); lia.
    + simpl. destruct (After b we) eqn:E; ztime; lia.
Qed.

(** With back-to-back skipping on, no buffer overlaps a qualifying meeting. *)
Theorem buffers_skip_back_to_back local events s ws we buf ev m x :
  BufferSkipBackToBack s = true ->
  buf ∈ ComputeBufferBlocks local events s ws we -> ev ∈ events ->
  m ∈ qualifying local (if BufferMinMeetingMinutes s <=? 0 then 1 else BufferMinMeetingMinutes s) ev ->
  covers buf x -> ~ covers m x.
Proof.
  unfold ComputeBufferBlocks. intros Hs. rewrite Hs.
  destruct (BufferEnabled s); simpl; [|by intros ?%not_elem_of_nil].
  destruct (_ && _); [by intros ?%not_elem_of_nil|].
  intros [Hbuf Hn]%elem_of_keep Hev Hm [Hx1 Hx2] [Hm1 Hm2]. apply negb_true_iff in Hn.
  assert (Ht : meets (flat_map (qualifying local (if BufferMinMeetingMinutes s <=? 0 then 1
    else BufferMinMeetingMinutes s)) events) buf = true); [|congruence].
  apply existsb_elem. exists m. split; [apply elem_of_flat_map; eauto|].
  apply andb_true_iff. rewrite Before_lt, After_lt. lia.
Qed.

(** ** A concrete day *)

Module Demo.
Definition settings : Settings := {|
  WorkStart := "09:00"; WorkEnd := "17:00"; Timezone := "UTC"; FocusMinBlockMinutes := 30;
  FocusMaxBlockMinutes := 120; FocusDailyTargetMinutes := 240; OutOfHoursMeetingsPerWeek := 0;
  AutoDeclineOutsideWorkingHours := false; FocusLabel := "Focus"; FocusColor := "";
  LunchStart := "12:00"; LunchEnd := "13:00"; ProtectLunch := true; BufferBeforeMinutes := 10;
  BufferAfterMinutes := 15; BufferEnabled := true; BufferMinMeetingMinutes := 20;
  BufferSkipBackToBack := true; WorkingHours := defaultWorkingHours "" "";
  LunchBreaks := ∅; CompressionEnabled := true; AutoScheduleEnabled := false;
  AutoScheduleCron := "" |}.

Definition at_ (h m : Z) : time := Date 2025 1 6 h m 0 0 UTC.

Definition meeting (id : string) (s e : time) : Event := {|
  ev_Id := id; Summary := ""; Description := ""; Location_ := ""; Status := "";
  Transparency := ""; Visibility := ""; ColorId := ""; OrganizerSelf := None;
  ev_Start := at_time s; ev_End := at_time e; Attendees := [] |}.

Definition events : list Event := [meeting "a" (at_ 9 5) (at_ 10 0); meeting "b" (at_ 10 10) (at_ 11 0)].
End Demo.

Example demo_buffers :
  map (fun iv => (FormatHHMM (iv_start iv), FormatHHMM (iv_end iv)))
    (ComputeBufferBlocks UTC Demo.events Demo.settings (Demo.at_ 9 0) (Demo.at_ 17 0))
  = [("09:00", "09:05"); ("10:00", "10:10"); ("11:00", "11:15")].
Proof. vm_compute. reflexivity. Qed.

Lemma buffers_within_workday_witness :
  exists ev start end_, ev ∈ Demo.events /\ transparent ev = false /\
    parsed_times UTC ev = Some (start, end_) /\
    ((Demo.at_ 9 5 = start /\ t_ns (Demo.at_ 9 0) <= t_ns (Demo.at_ 9 0) /\
      t_ns start - 10 * Minute <= t_ns (Demo.at_ 9 0)) \/
     (Demo.at_ 9 0 = end_ /\ t_ns (Demo.at_ 9 5) <= t_ns (Demo.at_ 17 0) /\
      t_ns (Demo.at_ 9 5) <= t_ns end_ + 15 * Minute)).
Proof.
  apply (buffers_within_workday UTC Demo.events Demo.settings (Demo.at_ 9 0) (Demo.at_ 17 0)
    (Iv (Demo.at_ 9 0) (Demo.at_ 9 5))).
  - vm_compute. split; discriminate.
  - vm_compute. split; discriminate.
  - apply list_elem_of_In. vm_compute. tauto.
Defined.

Lemma buffers_skip_back_to_back_witness :
  forall x, covers (Iv (Demo.at_ 10 0) (Demo.at_ 10 10)) x ->
    ~ covers (Iv (Demo.at_ 10 10) (Demo.at_ 11 0)) x.
Proof.
  intros x. apply (buffers_skip_back_to_back UTC Demo.events Demo.settings (Demo.at_ 9 0)
    (Demo.at_ 17 0) _ (Demo.meeting "b" (Demo.at_ 10 10) (Demo.at_ 11 0))).
  - reflexivity.
  - apply list_elem_of_In. vm_compute. tauto.
  - right. left.
  - apply list_elem_of_In. vm_compute. tauto.
Defined.
