(* ===== verification/FocusTime.v ===== *)
(** * The focus-time engine

    [engine/focus_time.go] and [engine/focus_time_cleaner.go]: the search for
    free time in a working day, the blocks created in it, the run over a week
    and the clearing of a week.  The calendar is the interface [CalendarOps]
    over a provider state. *)

From S2P Require Import Prelude GoInt GoTime GoText Interval LinkStore Calendar Settings Buffer.

#[local] Open Scope string_scope.
#[local] Open Scope list_scope.
#[local] Open Scope Z_scope.

(** ** Results *)

(** [FocusBlock], a block created by a run. *)
Record FocusBlock := { F_Event : string; F_Start : time; F_End : time; F_Date : string }.

(** A line of [FocusRunResult.Errors]: what failed, on which date. *)
Inductive FocusError :=
| ListFailed (date : string) (e : Error)
| CreateFailed (date : string) (e : Error)
| SaveFailed (date : string).

Record FocusRunResult := {
  WeekStart : time;
  CreatedBlocks : list FocusBlock;
  SkippedDays : list string;
  TotalMinutes : Z;
  Errors : list FocusError;
}.

Definition add_error (e : FocusError) (r : FocusRunResult) : FocusRunResult :=
  {| WeekStart := WeekStart r; CreatedBlocks := CreatedBlocks r; SkippedDays := SkippedDays r;
     TotalMinutes := TotalMinutes r; Errors := Errors r ++ [e] |}.

Definition add_skipped (d : string) (r : FocusRunResult) : FocusRunResult :=
  {| WeekStart := WeekStart r; CreatedBlocks := CreatedBlocks r;
     SkippedDays := SkippedDays r ++ [d]; TotalMinutes := TotalMinutes r; Errors := Errors r |}.

Definition add_block (b : FocusBlock) (minutes : Z) (r : FocusRunResult) : FocusRunResult :=
  {| WeekStart := WeekStart r; CreatedBlocks := CreatedBlocks r ++ [b];
     SkippedDays := SkippedDays r; TotalMinutes := TotalMinutes r + minutes; Errors := Errors r |}.

(** ** Free slots and their scores *)

Record scoredSlot := { ss_iv : interval; ss_score : Z }.

Definition iv_minutes (iv : interval) : Z := int_minutes (Sub (iv_end iv) (iv_start iv)).

Definition scoreSlot (iv : interval) (day : time) : Z :=
  let hour := HourOf (iv_start iv) in
  (if hour <? 12 then 30 else 0) + (if (14 <=? hour) && (hour <? 17) then 20 else 0)
  + Z.quot (iv_minutes iv) 30 * 10
  - (if (WeekdayOf day =? 1) && (hour <? 10) then 10 else 0).

(** [sortByScore]: insertion from the end, stable, highest score first; the
    sorted prefix is kept reversed. *)
Fixpoint sift_score (x : scoredSlot) (rprefix : list scoredSlot) : list scoredSlot :=
  match rprefix with
  | y :: r => if ss_score y <? ss_score x then y :: sift_score x r else x :: rprefix
  | [] => [x]
  end.

Definition sortByScore (l : list scoredSlot) : list scoredSlot :=
  rev (fold_left (fun r x => sift_score x r) l []).

(** An opaque event clamped to the working window, when it meets it. *)
Definition clamp_event (local : Location) (workStart workEnd : time) (ev : Event) : list interval :=
  if transparent ev then []
  else match parsed_times local ev with
  | None => []
  | Some (start, end_) =>
      if Before end_ workStart || After start workEnd then []
      else [Iv (if Before start workStart then workStart else start)
               (if After end_ workEnd then workEnd else end_)]
  end.

Definition lunch_busy (s : Settings) (day : time) (loc : Location) : list interval :=
  let '(ls, le, on) := LunchWindow (Some s) (In day loc) in
  if on then [Iv (parseHHMM ls day loc) (parseHHMM le day loc)] else [].

Definition buildBusy (local : Location) (events : list Event) (workStart workEnd : time)
    (s : Settings) (day : time) (loc : Location) : list interval :=
  mergeIntervals (lunch_busy s day loc ++ flat_map (clamp_event local workStart workEnd) events
                  ++ ComputeBufferBlocks local events s workStart workEnd).

(** The free slots long enough for a block, best first. *)
Definition candidates (s : Settings) (day : time) (free : list interval) : list scoredSlot :=
  sortByScore (map (fun iv => {| ss_iv := iv; ss_score := scoreSlot iv day |})
                 (keep (fun iv => FocusMinBlockMinutes s <=? iv_minutes iv) free)).

(** The block cut from a free slot, if it is long enough once buffered. *)
Definition block_in (s : Settings) (iv : interval) : option interval :=
  let blockDur := Z.min (iv_minutes iv) (FocusMaxBlockMinutes s) in
  let blockStart := Add (iv_start iv) (dur_minutes (BufferBeforeMinutes s)) in
  let e := Add blockStart (dur_minutes blockDur) in
  let limit := Add (iv_end iv) (dur_minutes (- BufferAfterMinutes s)) in
  let b := Iv blockStart (if After e limit then limit else e) in
  if iv_minutes b <? FocusMinBlockMinutes s then None else Some b.

Section Engine.
Context {S : Type} {C : CalendarOps S}.
(** [time.LoadLocation], the zone of the process, the user, and the storage
    calls that fail: the read of the day's minutes, dropped by the code, and
    the save of a block. *)
Context (load : string -> option Location) (local : Location) (user : uuid)
  (minutesFail : string -> bool) (saveFails : string -> bool).

Definition focus_event (s : Settings) (b : interval) : Event :=
  {| ev_Id := ""; Summary := FocusLabel s; Description := "Scheduled by Clockwise-like";
     Location_ := ""; Status := ""; Transparency := "transparent"; Visibility := "public";
     ColorId := "7"; OrganizerSelf := None; ev_Start := at_time (iv_start b);
     ev_End := at_time (iv_end b); Attendees := [] |}.

(** One candidate: the minutes still wanted, the calendar, the tables and the
    result, before and after. *)
Definition place_block (s : Settings) (date : string) (dayNumber : Z)
    (acc : Z * S * Tables * FocusRunResult) (iv : interval) : Z * S * Tables * FocusRunResult :=
  let '(remaining, st, t, r) := acc in
  if remaining <=? 0 then acc
  else match block_in s iv with
  | None => acc
  | Some b =>
      match createEvent st (focus_event s b) with
      | (Err e, st') => (remaining, st', t, add_error (CreateFailed date e) r)
      | (Ok id, st') =>
          let '(t', r') :=
            if saveFails id then (t, add_error (SaveFailed date) r)
            else (SaveFocusBlock user id dayNumber (iv_start b) (iv_end b) t, r) in
          let m := iv_minutes b in
          (remaining - m, st', t',
           add_block {| F_Event := id; F_Start := iv_start b; F_End := iv_end b; F_Date := date |} m r')
      end
  end.

Definition dateString (day : time) : string := FormatDateOnly day.

Definition zone_or_utc (s : Settings) : Location := default UTC (load (Timezone s)).

Definition processDay (s : Settings) (day : time) (st : S) (t : Tables) (r : FocusRunResult)
    : S * Tables * FocusRunResult :=
  let date := dateString day in
  let existing := if minutesFail date then 0 else FocusMinutesForDay t user (day_number day) in
  if FocusDailyTargetMinutes s <=? existing then (st, t, add_skipped date r)
  else
    let loc := zone_or_utc s in
    let '(ws, we, enabled) := WorkWindow (Some s) (In day loc) in
    if negb enabled then (st, t, add_skipped date r)
    else
      let workStart := parseHHMM ws day loc in
      let workEnd := parseHHMM we day loc in
      let c := DateOf day in
      let dayStart := Date (c_year c) (c_month c) (c_day c) 0 0 0 0 loc in
      match listEvents st dayStart (Add dayStart (24 * Hour)) with
      | Err e => (st, t, add_error (ListFailed date e) r)
      | Ok events =>
          let busy := buildBusy local events workStart workEnd s day loc in
          let free := subtractIntervals (Iv workStart workEnd) busy in
          let '(_, st', t', r') :=
            fold_left (place_block s date (day_number day))
              (map ss_iv (candidates s day free))
              (FocusDailyTargetMinutes s - existing, st, t, r) in
          (st', t', r')
      end.

(** The five days of a week, Monday first. *)
Definition RunForUser (s : result Settings) (client : result unit) (targetWeek : time)
    (st : S) (t : Tables) : result FocusRunResult * S * Tables :=
  if N.eqb user uuid_nil then (Err ErrArgument, st, t)
  else match s with
  | Err e => (Err e, st, t)
  | Ok s =>
      match client with
      | Err e => (Err e, st, t)
      | Ok _ =>
          let monday := startOfWeek targetWeek in
          let '(st', t', r) :=
            fold_left (fun acc i => let '(st, t, r) := acc in
                                    processDay s (AddDate monday 0 0 i) st t r)
              [0; 1; 2; 3; 4]
              (st, t, {| WeekStart := monday; CreatedBlocks := []; SkippedDays := [];
                         TotalMinutes := 0; Errors := [] |}) in
          (Ok r, st', t')
      end
  end.

(** [Run]: the user of the context. *)
Definition Run (s : result Settings) (client : result unit) (targetWeek : time)
    (st : S) (t : Tables) : result FocusRunResult * S * Tables :=
  if N.eqb user uuid_nil then (Err ErrArgument, st, t) else RunForUser s client targetWeek st t.

(** [ClearWeek]: the number of blocks, whether any deletion failed. *)
Definition clear_block (deleteFails : string -> bool) (acc : S * Tables * bool)
    (b : FocusBlockRow) : S * Tables * bool :=
  let '(st, t, bad) := acc in
  let '(d, st') := deleteEvent st (FB_Event b) in
  let bad1 := match d with Ok _ => false | Err _ => true end in
  let '(t', bad2) := if deleteFails (FB_Event b) then (t, true)
                     else (DeleteFocusBlock user (FB_Event b) t, false) in
  (st', t', bad || bad1 || bad2).

Definition ClearWeek (client : result unit) (listFails : bool) (deleteFails : string -> bool)
    (targetWeek : time) (st : S) (t : Tables) : result (Z * bool) * S * Tables :=
  if N.eqb user uuid_nil then (Err ErrArgument, st, t)
  else match client with
  | Err e => (Err e, st, t)
  | Ok _ =>
      if listFails then (Err ErrStorage, st, t)
      else
        let blocks := ListFocusBlocksForUserWeek t user (startOfWeek targetWeek) in
        let '(st', t', bad) := fold_left (clear_block deleteFails) blocks (st, t, false) in
        (Ok (Z.of_nat (length blocks), bad), st', t')
  end.
End Engine.

(** ** Sorting *)

Lemma sift_score_perm x l : sift_score x l ≡ₚ x :: l.
Proof.
  induction l as [|y l IH]; simpl; [done|]. destruct (_ <? _); [|done].
  rewrite IH. apply Permutation_swap.
Qed.

Lemma sortByScore_perm l : sortByScore l ≡ₚ l.
Proof.
  unfold sortByScore. rewrite <- Permutation_rev.
  assert (G : forall acc, fold_left (fun r x => sift_score x r) l acc ≡ₚ l ++ acc).
  { induction l as [|x l IH]; intros acc; simpl; [done|].
    rewrite IH, sift_score_perm. symmetry. apply Permutation_middle. }
  by rewrite G, app_nil_r.
Qed.

Definition score_le (a b : scoredSlot) : Prop := ss_score a <= ss_score b.

Lemma sift_score_sorted x l : StronglySorted score_le l -> StronglySorted score_le (sift_score x l).
Proof.
  induction 1 as [|y l Hs IH Hf]; simpl; [repeat constructor|].
  destruct (Z.ltb_spec (ss_score y) (ss_score x)).
  - constructor; [done|]. rewrite sift_score_perm. constructor; [unfold score_le; lia|done].
  - constructor; [by constructor|]. constructor; [done|].
    eapply Forall_impl; [exact Hf|]. unfold score_le. intros z Hz. lia.
Qed.

(** Best first. *)
Lemma sortByScore_sorted l : StronglySorted (fun a b => ss_score b <= ss_score a) (sortByScore l).
Proof.
  unfold sortByScore.
  assert (G : forall acc, StronglySorted score_le acc ->
    StronglySorted score_le (fold_left (fun r x => sift_score x r) l acc)).
  { induction l as [|x l IH]; intros acc Ha; simpl; [done|]. by apply IH, sift_score_sorted. }
  specialize (G [] ltac:(constructor)). by apply StronglySorted_rev in G.
Qed.

(** ** Blocks *)

(** The settings the API accepts, as far as blocks need them. *)
Record focus_settings_ok (s : Settings) : Prop := {
  fs_before : 0 <= BufferBeforeMinutes s <= max_dur_minutes;
  fs_after : 0 <= BufferAfterMinutes s <= max_dur_minutes;
  fs_min : 1 <= FocusMinBlockMinutes s;
  fs_max : 0 <= FocusMaxBlockMinutes s;
}.

Lemma iv_minutes_nonneg_ge iv n : 0 < n -> n <= iv_minutes iv ->
  n * Minute <= t_ns (iv_end iv) - t_ns (iv_start iv).
Proof.
  intros Hn H. apply int_minutes_ge in H; [|done]. unfold Sub, clamp64 in H.
  unfold min_int64, max_int64, Minute, Second in *. lia.
Qed.

Lemma iv_minutes_bound iv n : 0 <= n ->
  t_ns (iv_end iv) - t_ns (iv_start iv) <= n * Minute -> iv_minutes iv <= n.
Proof.
  intros Hn H. unfold iv_minutes. rewrite <- (int_minutes_exact n).
  apply int_minutes_le_mono. unfold Sub, clamp64.
  unfold min_int64, max_int64, Minute, Second in *. lia.
Qed.

Lemma iv_minutes_range iv : - max_dur_minutes <= iv_minutes iv <= max_dur_minutes.
Proof.
  unfold iv_minutes, int_minutes.
  change max_dur_minutes with (Z.quot max_int64 Minute) at 2.
  change (- max_dur_minutes) with (Z.quot min_int64 Minute).
  unfold Sub, clamp64. split; apply Z.quot_le_mono; try done;
    unfold min_int64, max_int64; lia.
Qed.

Lemma block_in_spec s iv b :
  focus_settings_ok s -> block_in s iv = Some b ->
  within iv b /\ t_ns (iv_start b) < t_ns (iv_end b) /\
  FocusMinBlockMinutes s <= iv_minutes b <= FocusMaxBlockMinutes s.
Proof.
  intros [Hb Ha Hmin Hmax]. unfold block_in. pose proof (iv_minutes_range iv) as Hm.
  assert (Hd : - max_dur_minutes <= Z.min (iv_minutes iv) (FocusMaxBlockMinutes s)
    <= max_dur_minutes /\ Z.min (iv_minutes iv) (FocusMaxBlockMinutes s) <= FocusMaxBlockMinutes s)
    by (unfold max_dur_minutes in *; lia).
  revert Hd. generalize (Z.min (iv_minutes iv) (FocusMaxBlockMinutes s)) as d. intros d [Hd HdM].
  cbv zeta. rewrite !dur_minutes_small by (unfold max_dur_minutes in *; lia).
  set (lim := Add (iv_end iv) _). set (e := Add (Add (iv_start iv) _) _).
  set (end_ := if After e lim then lim else e).
  assert (He : t_ns end_ <= t_ns e /\ t_ns end_ <= t_ns lim).
  { unfold end_. destruct (After e lim) eqn:E; [apply After_lt in E|apply After_ge in E]; lia. }
  clearbody end_. destruct (Z.ltb_spec (iv_minutes (Iv (Add (iv_start iv)
    (BufferBeforeMinutes s * Minute)) end_)) (FocusMinBlockMinutes s)) as [|Hge]; [discriminate|].
  intros [= <-]. assert (Hp : 0 < FocusMinBlockMinutes s) by lia.
  pose proof (iv_minutes_nonneg_ge _ _ Hp Hge) as Hlen.
  unfold e, lim, within, Add in *. cbn [iv_start iv_end t_ns] in *.
  assert (0 < Minute) by done. split_and!; try nia.
  apply iv_minutes_bound; [done|]. cbn [iv_start iv_end t_ns]. nia.
Qed.

(** ** A day *)

Definition minutes_of (b : FocusBlock) : Z := iv_minutes (Iv (F_Start b) (F_End b)).
Definition focus_interval (b : FocusBlock) : interval := Iv (F_Start b) (F_End b).
Definition total_minutes (l : list FocusBlock) : Z := foldr Z.add 0 (map minutes_of l).

(** The candidates some blocks were cut from, in order. *)
Definition cut_from (s : Settings) (date : string) (picks : list interval) (new : list FocusBlock)
    : Prop :=
  Forall2 (fun iv fb => block_in s iv = Some (focus_interval fb) /\ F_Date fb = date) picks new.

Section DayFacts.
Context {S : Type} {C : CalendarOps S} (user : uuid) (saveFails : string -> bool).

(** Placing the candidates one after the other. *)
Lemma place_blocks_spec s date dn ivs rem (st : S) t r rem' st' t' r' :
  0 <= FocusMaxBlockMinutes s -> focus_settings_ok s ->
  fold_left (place_block user saveFails s date dn) ivs (rem, st, t, r) = (rem', st', t', r') ->
  exists picks new, sublist picks ivs /\ cut_from s date picks new /\
    CreatedBlocks r' = CreatedBlocks r ++ new /\
    TotalMinutes r' = TotalMinutes r + total_minutes new /\
    WeekStart r' = WeekStart r /\ SkippedDays r' = SkippedDays r /\
    (new = [] \/ total_minutes new < rem + FocusMaxBlockMinutes s).
Proof.
  intros HM Hok. revert rem st t r. induction ivs as [|iv ivs IH]; intros rem st t r; simpl.
  - intros [= <- <- <- <-]. exists [], []. rewrite app_nil_r. unfold total_minutes. simpl.
    split_and!; first [done|lia|by left|constructor].
  - assert (Skip : forall rm sx tx rx,
      fold_left (place_block user saveFails s date dn) ivs (rm, sx, tx, rx) = (rem', st', t', r') ->
      rm <= rem -> CreatedBlocks rx = CreatedBlocks r -> TotalMinutes rx = TotalMinutes r ->
      WeekStart rx = WeekStart r -> SkippedDays rx = SkippedDays r ->
      exists picks new, sublist picks (iv :: ivs) /\ cut_from s date picks new /\
        CreatedBlocks r' = CreatedBlocks r ++ new /\
        TotalMinutes r' = TotalMinutes r + total_minutes new /\
        WeekStart r' = WeekStart r /\ SkippedDays r' = SkippedDays r /\
        (new = [] \/ total_minutes new < rem + FocusMaxBlockMinutes s)).
    { intros rm sx tx rx H Hle E1 E2 E3 E4.
      destruct (IH _ _ _ _ H) as (picks & new & Hs & Hc & H1 & H2 & H3 & H4 & H5).
      exists picks, new. rewrite H1, H2, H3, H4, E1, E2, E3, E4. split_and!; try done.
      - by constructor.
      - destruct H5; [by left|right; lia]. }
    destruct (Z.leb_spec rem 0) as [Hr|Hr]; [intros H; apply (Skip _ _ _ _ H); done|].
    destruct (block_in s iv) as [b|] eqn:Eb; [|intros H; apply (Skip _ _ _ _ H); done].
    destruct (createEvent st (focus_event s b)) as [[id|e] st1]; [|intros H; apply (Skip _ _ _ _ H); done].
    destruct (if saveFails id then _ else _) as [t1 r1] eqn:Es. intros H.
    assert (Er : CreatedBlocks r1 = CreatedBlocks r /\ TotalMinutes r1 = TotalMinutes r /\
      WeekStart r1 = WeekStart r /\ SkippedDays r1 = SkippedDays r)
      by (destruct (saveFails id); injection Es as <- <-; done).
    destruct Er as (E1 & E2 & E3 & E4).
    destruct (IH _ _ _ _ H) as (picks & new & Hs & Hc & H1 & H2 & H3 & H4 & H5).
    cbn [CreatedBlocks TotalMinutes WeekStart SkippedDays add_block] in *.
    pose proof (block_in_spec _ _ _ Hok Eb) as (_ & _ & Hmin & Hmax).
    exists (iv :: picks), ({| F_Event := id; F_Start := iv_start b; F_End := iv_end b; F_Date := date |} :: new).
    rewrite H1, H2, H3, H4, E1, E2, E3, E4. unfold total_minutes. cbn [map foldr].
    fold (total_minutes new). unfold minutes_of at 1 2. cbn [F_Start F_End].
    assert (Eb' : Iv (iv_start b) (iv_end b) = b) by (by destruct b). rewrite Eb'.
    split_and!; try done.
    + by constructor.
    + constructor; [|done]. unfold focus_interval. simpl. by rewrite Eb'.
    + by rewrite <- app_assoc.
    + lia.
    + right. unfold total_minutes in *. destruct H5 as [->|H5]; simpl; lia.
Qed.
End DayFacts.

(** Apart or touching, in either order. *)
Definition disjoint_iv (a b : interval) : Prop := ordered a b \/ ordered b a.

(** What makes a day's times readable as a calendar shows them: the lunch and
    every opaque event end no earlier than they start. *)
Definition day_in_order (local : Location) (events : list Event) (s : Settings) (day : time)
    (loc : Location) : Prop :=
  Forall proper (lunch_busy s day loc) /\
  forall ev start end_, ev ∈ events -> transparent ev = false ->
    parsed_times local ev = Some (start, end_) -> t_ns start <= t_ns end_.

Lemma clamp_event_proper local ws we ev iv :
  (forall start end_, transparent ev = false -> parsed_times local ev = Some (start, end_) ->
     t_ns start <= t_ns end_) ->
  t_ns ws <= t_ns we -> iv ∈ clamp_event local ws we ev -> proper iv.
Proof.
  unfold clamp_event. intros H Hw. destruct (transparent ev); [by intros ?%not_elem_of_nil|].
  destruct (parsed_times local ev) as [[s e]|]; [|by intros ?%not_elem_of_nil].
  specialize (H s e eq_refl eq_refl).
  destruct (_ || _) eqn:E; [by intros ?%not_elem_of_nil|]. intros ->%list_elem_of_singleton.
  apply orb_false_iff in E as [E1%Before_ge E2%After_ge]. unfold proper. simpl.
  destruct (Before s ws) eqn:E3, (After e we) eqn:E4;
    rewrite ?Before_lt, ?Before_ge, ?After_lt, ?After_ge in *; simpl; lia.
Qed.

Lemma buildBusy_proper local events ws we s day loc :
  t_ns ws <= t_ns we -> day_in_order local events s day loc ->
  Forall proper (buildBusy local events ws we s day loc).
Proof.
  intros Hw [Hl He]. apply mergeIntervals_proper. rewrite !Forall_app. split_and!; [done| |].
  - apply Forall_forall. intros iv (ev & Hev & Hiv)%elem_of_flat_map.
    eapply clamp_event_proper; [|done|done]. eauto.
  - apply Forall_forall. intros iv (_ & ev & m & _ & _ & Hb)%ComputeBufferBlocks_elem.
    apply elem_of_buffers_of in Hb as [(_ & E & H & _)|(_ & E & H & _)]; unfold proper; rewrite E; lia.
Qed.

(** An instant of the working window inside an opaque event is busy. *)
Lemma buildBusy_event local events ws we s day loc ev start end_ x :
  ev ∈ events -> transparent ev = false -> parsed_times local ev = Some (start, end_) ->
  t_ns ws <= x < t_ns we -> t_ns start <= x < t_ns end_ ->
  covered (buildBusy local events ws we s day loc) x.
Proof.
  intros Hev Ht Hp Hw Hx. apply mergeIntervals_covered. rewrite !covered_app. right; left.
  exists (Iv (if Before start ws then ws else start) (if After end_ we then we else end_)). split.
  - apply elem_of_flat_map. exists ev. split; [done|]. unfold clamp_event. rewrite Ht, Hp.
    destruct (Before end_ ws || After start we) eqn:E; [|left].
    apply orb_true_iff in E as [E%Before_lt|E%After_lt]; lia.
  - unfold covers. simpl. destruct (Before start ws), (After end_ we); simpl; lia.
Qed.

Lemma buildBusy_other local events ws we s day loc iv x :
  iv ∈ lunch_busy s day loc \/ iv ∈ ComputeBufferBlocks local events s ws we ->
  covers iv x -> covered (buildBusy local events ws we s day loc) x.
Proof.
  intros Hiv Hx. apply mergeIntervals_covered. rewrite !covered_app.
  destruct Hiv; [left|right; right]; exists iv; done.
Qed.

(** An instant of the working window inside a buffer that is due is busy. *)
Lemma buildBusy_buffer local events ws we s day loc start end_ x :
  0 <= BufferBeforeMinutes s <= max_dur_minutes -> 0 <= BufferAfterMinutes s <= max_dur_minutes ->
  long_meeting local s events start end_ -> t_ns ws <= x < t_ns we ->
  (t_ns start - BufferBeforeMinutes s * Minute <= x < t_ns start /\
   buffer_due local s events (t_ns start - BufferBeforeMinutes s * Minute) (t_ns start)) \/
  (t_ns end_ <= x < t_ns end_ + BufferAfterMinutes s * Minute /\
   buffer_due local s events (t_ns end_) (t_ns end_ + BufferAfterMinutes s * Minute)) ->
  covered (buildBusy local events ws we s day loc) x.
Proof.
  intros Hb Ha Hm Hw Hx.
  destruct (due_buffers_covered _ _ _ _ _ _ _ _ Hb Ha Hm Hw Hx) as (iv & Hiv & Hc).
  eapply buildBusy_other; [by right|exact Hc].
Qed.

(** An instant of an interval is one of those around it. *)
Lemma within_covers w iv x :
  within w iv -> covers iv x -> t_ns (iv_start w) <= x < t_ns (iv_end w).
Proof. unfold within, covers. lia. Qed.

Lemma candidates_perm s day free :
  map ss_iv (candidates s day free) ≡ₚ keep (fun iv => FocusMinBlockMinutes s <=? iv_minutes iv) free.
Proof.
  unfold candidates. rewrite sortByScore_perm, map_map. simpl. by rewrite map_id.
Qed.

(** Blocks cut from candidates of the free time of a window. *)
Lemma cut_blocks_sound s date day ws we busy picks new :
  focus_settings_ok s -> Forall proper busy ->
  sublist picks (map ss_iv (candidates s day (subtractIntervals (Iv ws we) busy))) ->
  cut_from s date picks new ->
  Forall (fun b => F_Date b = date /\ within (Iv ws we) (focus_interval b) /\
    FocusMinBlockMinutes s <= minutes_of b <= FocusMaxBlockMinutes s /\
    forall x, covers (focus_interval b) x -> ~ covered busy x) new /\
  ForallOrdPairs (fun a b => disjoint_iv (focus_interval a) (focus_interval b)) new.
Proof.
  intros Hok Hb Hs Hc.
  assert (Hfree : forall iv, iv ∈ picks -> iv ∈ subtractIntervals (Iv ws we) busy).
  { intros iv Hiv. eapply elem_of_sublist in Hiv; [|exact Hs].
    rewrite candidates_perm in Hiv. by apply elem_of_keep in Hiv as [? _]. }
  split.
  - eapply Forall2_Forall_r; [|exact Hc]. intros iv fb Hiv [Hblk Hd].
    destruct (block_in_spec _ _ _ Hok Hblk) as (Hw & _ & Hm). specialize (Hfree iv Hiv).
    split; [done|]. split; [|split; [exact Hm|]].
    + eapply within_trans; [|exact Hw]. by eapply subtractIntervals_within.
    + intros x Hx. apply (subtractIntervals_covered (Iv ws we) busy x).
      exists iv. split; [done|]. unfold covers, within in *. lia.
  - eapply (ForallOrdPairs_Forall2 disjoint_iv); [|exact Hc|].
    + intros a b u v Hab [Ha _] [Hb' _].
      destruct (block_in_spec _ _ _ Hok Ha) as ([W1 W2] & _).
      destruct (block_in_spec _ _ _ Hok Hb') as ([W3 W4] & _).
      unfold disjoint_iv, ordered in *. lia.
    + eapply ForallOrdPairs_sublist; [exact Hs|].
      eapply ForallOrdPairs_perm; [|symmetry; apply candidates_perm|].
      { unfold disjoint_iv. tauto. }
      eapply ForallOrdPairs_sublist; [apply keep_sublist|].
      eapply ForallOrdPairs_impl; [|apply ForallOrdPairs_sorted; by apply subtractIntervals_ordered].
      unfold disjoint_iv. tauto.
Qed.

Section DaySpec.
Context {S : Type} {C : CalendarOps S}.
Context (load : string -> option Location) (local : Location) (user : uuid)
  (minutesFail : string -> bool) (saveFails : string -> bool).

#[local] Abbreviation processDay := (processDay load local user minutesFail saveFails).
#[local] Abbreviation zone := (zone_or_utc load).

Definition existing_minutes (t : Tables) (day : time) : Z :=
  if minutesFail (dateString day) then 0 else FocusMinutesForDay t user (day_number day).

(** What a day adds to the result. *)
Lemma processDay_cases s day (st : S) t r st' t' r' :
  focus_settings_ok s -> processDay s day st t r = (st', t', r') ->
  (st' = st /\ t' = t /\ CreatedBlocks r' = CreatedBlocks r /\ TotalMinutes r' = TotalMinutes r) \/
  exists ws we dayStart events picks new,
    existing_minutes t day < FocusDailyTargetMinutes s /\
    WorkWindow (Some s) (In day (zone s)) = (ws, we, true) /\
    dayStart = Date (c_year (DateOf day)) (c_month (DateOf day)) (c_day (DateOf day)) 0 0 0 0 (zone s) /\
    listEvents st dayStart (Add dayStart (24 * Hour)) = Ok events /\
    sublist picks (map ss_iv (candidates s day
      (subtractIntervals (Iv (parseHHMM ws day (zone s)) (parseHHMM we day (zone s)))
        (buildBusy local events (parseHHMM ws day (zone s)) (parseHHMM we day (zone s)) s day (zone s))))) /\
    cut_from s (dateString day) picks new /\
    CreatedBlocks r' = CreatedBlocks r ++ new /\
    TotalMinutes r' = TotalMinutes r + total_minutes new /\
    (new = [] \/ total_minutes new <
       FocusDailyTargetMinutes s - existing_minutes t day + FocusMaxBlockMinutes s).
Proof.
  intros Hok. unfold FocusTime.processDay. fold (existing_minutes t day).
  destruct (Z.leb_spec (FocusDailyTargetMinutes s) (existing_minutes t day)) as [|Hlt].
  { intros [= <- <- <-]. by left. }
  fold (zone s). generalize (zone s) as loc. intros loc.
  destruct (WorkWindow (Some s) (In day loc)) as [[ws we] en] eqn:Ew.
  destruct en; cbn [negb]; [|intros [= <- <- <-]; by left].
  destruct (listEvents _ _ _) as [events|e] eqn:El; [|intros [= <- <- <-]; by left].
  destruct (fold_left _ _ _) as [[[rem st1] t1] r1] eqn:Ef. intros [= <- <- <-]. right.
  apply place_blocks_spec in Ef as (picks & new & H1 & H2 & H3 & H4 & _ & _ & H5);
    [|apply Hok|exact Hok].
  exists ws, we. eexists. exists events, picks, new.
  split_and!; first [exact Hlt|reflexivity|eassumption].
Qed.

End DaySpec.

(** ** The week *)

Section WeekSpec.
Context {S : Type} {C : CalendarOps S}.
Context (load : string -> option Location) (local : Location) (user : uuid)
  (minutesFail : string -> bool) (saveFails : string -> bool).

(** The total of a run is the sum of the minutes of the blocks it reports,
    whichever calls failed. *)
Theorem run_total_is_sum s client targetWeek (st : S) t r st' t' :
  focus_settings_ok s ->
  RunForUser load local user minutesFail saveFails (Ok s) client targetWeek st t = (Ok r, st', t') ->
  TotalMinutes r = total_minutes (CreatedBlocks r).
Proof.
  intros Hok. unfold RunForUser. destruct (N.eqb user uuid_nil); [discriminate|].
  destruct client; [|discriminate].
  generalize (startOfWeek targetWeek) as monday. intros monday.
  destruct (fold_left _ _ _) as [[st1 t1] r1] eqn:Ef. intros [= <- <- <-]. revert Ef.
  set (r0 := {| WeekStart := monday; CreatedBlocks := []; SkippedDays := []; TotalMinutes := 0;
                Errors := [] |}).
  assert (H0 : TotalMinutes r0 = total_minutes (CreatedBlocks r0)) by reflexivity.
  revert H0. generalize r0 as r, st as s0, t as t0. clear r0.
  generalize [0; 1; 2; 3; 4] as days. intros days.
  induction days as [|i days IH]; intros r s0 t0 Hr; simpl; [by intros [= _ _ <-]|].
  destruct (processDay _ _ _ _ _ _ _ _ _ _) as [[s2 t2] r2] eqn:Ep. apply IH.
  destruct (processDay_cases _ _ _ _ _ _ _ _ _ _ _ _ _ Hok Ep)
    as [(_ & _ & E1 & E2)|(? & ? & ? & ? & ? & new & _ & _ & _ & _ & _ & _ & E1 & E2 & _)].
  - by rewrite E1, E2.
  - rewrite E1, E2, Hr. unfold total_minutes. rewrite map_app.
    induction (map minutes_of (CreatedBlocks r)) as [|m l IHl]; simpl; lia.
Qed.

Lemma clear_blocks_rows deleteFails blocks (st : S) t bad st' t' bad' r :
  fold_left (clear_block user deleteFails) blocks (st, t, bad) = (st', t', bad') ->
  r ∈ t_focus t' <-> r ∈ t_focus t /\
    forall b, b ∈ blocks -> deleteFails (FB_Event b) = false ->
      owned_by user r = true -> FB_Event r <> FB_Event b.
Proof.
  revert st t bad. induction blocks as [|b blocks IH]; intros st t bad; simpl.
  - intros [= _ <- _]. split; [intros H; split; [done|]|by intros [? _]].
    by intros b ?%not_elem_of_nil.
  - destruct (deleteEvent st (FB_Event b)) as [d st1].
    destruct (if deleteFails (FB_Event b) then _ else _) as [t1 bad2] eqn:Ed. intros H.
    rewrite (IH _ _ _ H). setoid_rewrite elem_of_cons.
    assert (Hrow : r ∈ t_focus t1 <-> r ∈ t_focus t /\ (deleteFails (FB_Event b) = false ->
      owned_by user r = true -> FB_Event r <> FB_Event b)).
    { destruct (deleteFails (FB_Event b)); injection Ed as <- _.
      - split; [intros Hr; split; [done|discriminate]|by intros [? _]].
      - simpl. rewrite elem_of_keep, negb_true_iff, andb_false_iff, String.eqb_neq.
        destruct (owned_by user r); split; intros [Hr Hn]; (split; [exact Hr|]).
        + destruct Hn; [discriminate|auto].
        + right. by apply Hn.
        + intros _ [=].
        + by left. }
    rewrite Hrow. split.
    + intros [[Hr Hb] Hall]. split; [done|]. intros b' [->|Hb']; eauto.
    + intros [Hr Hall]. split; [split; [done|]|]; eauto.
Qed.

(** Clearing a week removes every block of the user in that week whose row
    could be deleted, and no block of anyone else. *)
Theorem clear_week_scope client listFails deleteFails targetWeek (st : S) t n bad st' t' r :
  ClearWeek user client listFails deleteFails targetWeek st t = (Ok (n, bad), st', t') ->
  (owned_by user r = false -> r ∈ t_focus t' <-> r ∈ t_focus t) /\
  (r ∈ ListFocusBlocksForUserWeek t' user (startOfWeek targetWeek) ->
   deleteFails (FB_Event r) = true) /\
  n = Z.of_nat (length (ListFocusBlocksForUserWeek t user (startOfWeek targetWeek))).
Proof.
  unfold ClearWeek. destruct (N.eqb user uuid_nil); [discriminate|].
  destruct client; [|discriminate]. destruct listFails; [discriminate|].
  generalize (startOfWeek targetWeek) as monday. intros monday.
  destruct (fold_left _ _ _) as [[st1 t1] bad1] eqn:Ef. intros [= <- <- <- <-].
  pose proof (clear_blocks_rows _ _ _ _ _ _ _ _ r Ef) as Hrows.
  split; [|split; [|done]].
  - intros Ho. rewrite Hrows. split; [by intros [? _]|]. intros Hr. split; [done|].
    intros b _ _ Ho'. congruence.
  - unfold ListFocusBlocksForUserWeek. rewrite order_by_perm, elem_of_keep.
    intros [Hr Hk]. apply Hrows in Hr as [Hr Hall].
    destruct (deleteFails (FB_Event r)) eqn:Ed; [done|]. exfalso.
    assert (Ho : owned_by user r = true) by (zbool; done).
    refine (Hall r _ Ed Ho eq_refl).
    unfold ListFocusBlocksForUserWeek. rewrite order_by_perm, elem_of_keep. done.
Qed.
End WeekSpec.

(** ** A concrete calendar *)

Module Demo.
(** A provider that keeps every event it is given. *)
Definition calendar := list Event.

Definition with_id (id : string) (ev : Event) : Event :=
  {| ev_Id := id; Summary := Summary ev; Description := Description ev; Location_ := Location_ ev;
     Status := Status ev; Transparency := Transparency ev; Visibility := Visibility ev;
     ColorId := ColorId ev; OrganizerSelf := OrganizerSelf ev; ev_Start := ev_Start ev;
     ev_End := ev_End ev; Attendees := Attendees ev |}.

#[export] Instance calendar_ops : CalendarOps calendar := {|
  calendarID := "primary";
  listEvents st _ _ := Ok st;
  createEvent st ev := let id := itoa (Z.of_nat (length st)) in (Ok id, st ++ [with_id id ev]);
  updateEvent st _ _ := (Ok tt, st);
  deleteEvent st id := (Ok tt, keep (fun ev => negb (String.eqb (ev_Id ev) id)) st);
  getEvent st id := match List.find (fun ev => String.eqb (ev_Id ev) id) st with
                    | Some ev => Ok ev | None => Err ErrProvider end;
  getFreeBusy st emails _ _ := Ok [];
|}.

Definition settings (mode : string) (days : gmap string DaySchedule) (zone : string) : Settings := {|
  WorkStart := "09:00"; WorkEnd := "17:00"; Timezone := zone; FocusMinBlockMinutes := 30;
  FocusMaxBlockMinutes := 120; FocusDailyTargetMinutes := 240; OutOfHoursMeetingsPerWeek := 0;
  AutoDeclineOutsideWorkingHours := false; FocusLabel := "Focus"; FocusColor := "";
  LunchStart := "12:00"; LunchEnd := "13:00"; ProtectLunch := false; BufferBeforeMinutes := 0;
  BufferAfterMinutes := 0; BufferEnabled := false; BufferMinMeetingMinutes := 0;
  BufferSkipBackToBack := false;
  WorkingHours := {| WH_Mode := mode;
    WH_Default := {| Enabled := true; DS_Start := "09:00"; DS_End := "17:00" |};
    WH_Days := days |};
  LunchBreaks := ∅; CompressionEnabled := true; AutoScheduleEnabled := false;
  AutoScheduleCron := "" |}.

(** Ten minutes before and fifteen after every meeting, skipped back to back. *)
Definition buffered (s : Settings) : Settings := {|
  WorkStart := WorkStart s; WorkEnd := WorkEnd s; Timezone := Timezone s;
  FocusMinBlockMinutes := FocusMinBlockMinutes s; FocusMaxBlockMinutes := FocusMaxBlockMinutes s;
  FocusDailyTargetMinutes := FocusDailyTargetMinutes s;
  OutOfHoursMeetingsPerWeek := OutOfHoursMeetingsPerWeek s;
  AutoDeclineOutsideWorkingHours := AutoDeclineOutsideWorkingHours s; FocusLabel := FocusLabel s;
  FocusColor := FocusColor s; LunchStart := LunchStart s; LunchEnd := LunchEnd s;
  ProtectLunch := ProtectLunch s; BufferBeforeMinutes := 10; BufferAfterMinutes := 15;
  BufferEnabled := true; BufferMinMeetingMinutes := 20; BufferSkipBackToBack := true;
  WorkingHours := WorkingHours s; LunchBreaks := LunchBreaks s;
  CompressionEnabled := CompressionEnabled s; AutoScheduleEnabled := AutoScheduleEnabled s;
  AutoScheduleCron := AutoScheduleCron s |}.

Definition tables : Tables :=
  {| t_links := []; t_hosts := []; t_bookings := []; t_events := []; t_focus := [] |}.

(** Monday 6 January 2025 as [runFocus] reads it from the request. *)
Definition monday : time := Date 2025 1 6 0 0 0 0 UTC.

Definition busy_calendar : calendar :=
  [Buffer.Demo.meeting "m" (Date 2025 1 6 11 0 0 0 UTC) (Date 2025 1 6 12 0 0 0 UTC)].

Definition start_result : FocusRunResult :=
  {| WeekStart := monday; CreatedBlocks := []; SkippedDays := []; TotalMinutes := 0; Errors := [] |}.

Definition day (s : Settings) (st : calendar) (t : Tables) (r : FocusRunResult) :=
  processDay (fun _ => Some (FixedZone (-5 * 3600))) UTC 1%N (fun _ => false) (fun _ => false)
    s monday st t r.

(** The same user in UTC. *)
Definition day_utc (s : Settings) (st : calendar) (t : Tables) (r : FocusRunResult) :=
  processDay (fun _ => None) UTC 1%N (fun _ => false) (fun _ => false) s monday st t r.
End Demo.

#[local] Existing Instance Demo.calendar_ops.


Lemma run_total_is_sum_witness :
  exists r st' t',
    RunForUser (fun _ => None) UTC 1%N (fun _ => false) (fun _ => false)
      (Ok (Demo.settings "all_days" ∅ "UTC")) (Ok tt) Demo.monday Demo.busy_calendar Demo.tables
      = (Ok r, st', t') /\
    TotalMinutes r = total_minutes (CreatedBlocks r) /\ length (CreatedBlocks r) = 6%nat.
Proof.
  pose (run := RunForUser (fun _ => None) UTC 1%N (fun _ => false) (fun _ => false)
      (Ok (Demo.settings "all_days" ∅ "UTC")) (Ok tt) Demo.monday Demo.busy_calendar Demo.tables).
  assert (H : exists r, run = (Ok r, run.1.2, run.2) /\ length (CreatedBlocks r) = 6%nat)
    by (vm_compute; eexists; split; reflexivity).
  destruct H as (r & H & Hlen). exists r, run.1.2, run.2. split; [exact H|]. split; [|exact Hlen].
  apply (run_total_is_sum (fun _ => None) UTC 1%N (fun _ => false) (fun _ => false)
    (Demo.settings "all_days" ∅ "UTC") (Ok tt) Demo.monday Demo.busy_calendar Demo.tables r
    run.1.2 run.2); [|exact H].
  constructor; vm_compute; intuition discriminate.
Defined.

Lemma clear_week_scope_witness :
  let t := set_focus (fun _ => [{| FB_User := Some 1%N; FB_Event := "x"; FB_Start := Demo.monday;
      FB_End := Add Demo.monday Hour; FB_Date := day_number Demo.monday |};
      {| FB_User := Some 2%N; FB_Event := "y"; FB_Start := Demo.monday;
      FB_End := Add Demo.monday Hour; FB_Date := day_number Demo.monday |}]) Demo.tables in
  let c := ClearWeek 1%N (Ok tt) false (fun _ => false) Demo.monday ([] : Demo.calendar) t in
  c.1.1 = Ok (1, false) /\
  forall r, owned_by 1%N r = false -> r ∈ t_focus c.2 <-> r ∈ t_focus t.
Proof.
  intros t c. assert (H : c.1.1 = Ok (1, false)) by (vm_compute; reflexivity).
  split; [exact H|]. intros r Ho.
  apply (clear_week_scope 1%N (Ok tt) false (fun _ => false) Demo.monday ([] : Demo.calendar) t
    1 false c.1.2 c.2 r); [|exact Ho]. vm_compute. reflexivity.
Defined.

(** ** Two defects *)

(** A run does not see the blocks of earlier runs: they are written transparent
    and [buildBusy] ignores transparent events.  On a day with one free stretch,
    the first run creates one block (its target is not reached, and the stretch
    gives one block); the next run creates a second block at the same time. *)
Theorem rerun_stacks_blocks :
  let s := Demo.settings "all_days" ∅ "UTC" in
  let '(st1, t1, r1) := Demo.day_utc s [] Demo.tables Demo.start_result in
  let '(st2, t2, r2) := Demo.day_utc s st1 t1 Demo.start_result in
  exists b1 b2, CreatedBlocks r1 = [b1] /\ CreatedBlocks r2 = [b2] /\
    focus_interval b1 = focus_interval b2 /\ F_Event b1 <> F_Event b2 /\
    length (t_focus t2) = 2%nat /\ minutes_of b1 = 120.
Proof. vm_compute. do 2 eexists. repeat split; try reflexivity. discriminate. Qed.

(** West of UTC the weekday of the working hours is the day before: the week
    handed to the engine is at midnight UTC, and the schedule is looked up at
    that instant in the user's zone.  A user who works on Mondays and not on
    Sundays has the Monday skipped, and no calendar is read. *)
Theorem western_zone_reads_previous_day :
  let s := Demo.settings "by_day"
    {[ "monday" := {| Enabled := true; DS_Start := "09:00"; DS_End := "17:00" |} ]} "America/New_York" in
  WeekdayOf Demo.monday = 1 /\
  weekday_key (In Demo.monday (FixedZone (-5 * 3600))) = "sunday" /\
  (Demo.day s [] Demo.tables Demo.start_result).2 = add_skipped "2025-01-06" Demo.start_result.
Proof. vm_compute. auto. Qed.
