(* ===== verification/Habits.v ===== *)
(** * Habits

    [engine/habits.go] and [storage/habits.go]: the habits of a user, their
    occurrences, and the placement of the occurrences of a day around the
    calendar, the lunch, the focus blocks and one another.  The text the driver
    gives for a DATE column is a parameter ([DateDriver]); that of a TIME
    column is the stored text, whose seconds [parseTime] does not read. *)

From S2P Require Import Prelude GoInt GoTime GoText Interval LinkStore Calendar Settings Buffer.
From S2P Require Import FocusTime.

#[local] Open Scope string_scope.
#[local] Open Scope list_scope.
#[local] Open Scope Z_scope.

(** ** Storage *)

Record Habit := {
  H_ID : uuid;
  H_UserID : uuid;
  H_Title : string;
  DurationMinutes : Z;
  H_DaysOfWeek : list Z;
  H_WindowStart : string;
  H_WindowEnd : string;
  Priority : Z;
  Color : string;
  H_Active : bool;
}.

(** An occurrence; [O_Date] is its DATE column as a day number: in a row the
    stored date, in a value the day of [ScheduledDate]. *)
Record HabitOccurrence := {
  O_ID : uuid;
  O_Habit : uuid;
  O_Date : Z;
  O_Start : time;
  O_End : time;
  O_Status : string;
  O_Event : string;
}.

(** [scanOccurrence] takes the DATE column as a string and parses it with the
    error dropped.  The string is the driver's, a parameter. *)
Class DateDriver := dateText : Z -> string.

Definition scan_date `{DateDriver} (d : Z) : Z :=
  day_number (default zero_time (ParseDateOnly (dateText d))).

Definition scanOccurrence `{DateDriver} (o : HabitOccurrence) : HabitOccurrence :=
  {| O_ID := O_ID o; O_Habit := O_Habit o; O_Date := scan_date (O_Date o); O_Start := O_Start o;
     O_End := O_End o; O_Status := O_Status o; O_Event := O_Event o |}.

Definition CreateHabit (id : uuid) (h : Habit) (habits : list Habit) : Habit * list Habit :=
  let row := {| H_ID := id; H_UserID := H_UserID h; H_Title := H_Title h;
                DurationMinutes := DurationMinutes h; H_DaysOfWeek := H_DaysOfWeek h;
                H_WindowStart := H_WindowStart h; H_WindowEnd := H_WindowEnd h;
                Priority := Priority h; Color := Color h; H_Active := true |} in
  (row, habits ++ [row]).

Definition GetHabitByID (habits : list Habit) (id : uuid) : option Habit :=
  List.find (fun h => N.eqb (H_ID h) id) habits.

(** [ORDER BY priority DESC, created_at ASC]; rows are kept in creation order. *)
Definition ListHabitsByUser (habits : list Habit) (u : uuid) : list Habit :=
  order_by (fun h => - Priority h) (keep (fun h => N.eqb (H_UserID h) u) habits).

Definition ListActiveHabitsByUser (habits : list Habit) (u : uuid) : list Habit :=
  order_by (fun h => - Priority h) (keep (fun h => N.eqb (H_UserID h) u && H_Active h) habits).

Definition UpdateHabit (id : uuid) (h : Habit) (habits : list Habit) : option Habit * list Habit :=
  let habits' := map (fun row => if N.eqb (H_ID row) id then
      {| H_ID := id; H_UserID := H_UserID row; H_Title := H_Title h;
         DurationMinutes := DurationMinutes h; H_DaysOfWeek := H_DaysOfWeek h;
         H_WindowStart := H_WindowStart h; H_WindowEnd := H_WindowEnd h;
         Priority := Priority h; Color := Color h; H_Active := H_Active h |} else row) habits in
  (GetHabitByID habits' id, habits').

Definition DeactivateHabit (id : uuid) (habits : list Habit) : list Habit :=
  map (fun row => if N.eqb (H_ID row) id then
      {| H_ID := H_ID row; H_UserID := H_UserID row; H_Title := H_Title row;
         DurationMinutes := DurationMinutes row; H_DaysOfWeek := H_DaysOfWeek row;
         H_WindowStart := H_WindowStart row; H_WindowEnd := H_WindowEnd row;
         Priority := Priority row; Color := Color row; H_Active := false |} else row) habits.

Definition same_key (habit : uuid) (date : Z) (o : HabitOccurrence) : bool :=
  N.eqb (O_Habit o) habit && (O_Date o =? date).

(** [UpsertHabitOccurrence]: one row for a (habit, date) pair; [id] is the
    identifier of a new row.  The row it returns is read by no caller. *)
Definition UpsertHabitOccurrence (id : uuid) (o : HabitOccurrence) (occs : list HabitOccurrence)
    : list HabitOccurrence :=
  if existsb (same_key (O_Habit o) (O_Date o)) occs then
    map (fun row => if same_key (O_Habit o) (O_Date o) row then
      {| O_ID := O_ID row; O_Habit := O_Habit row; O_Date := O_Date row; O_Start := O_Start o;
         O_End := O_End o; O_Status := O_Status o; O_Event := O_Event o |} else row) occs
  else occs ++ [{| O_ID := id; O_Habit := O_Habit o; O_Date := O_Date o; O_Start := O_Start o;
                   O_End := O_End o; O_Status := O_Status o; O_Event := O_Event o |}].

Definition ListHabitOccurrences `{DateDriver} (occs : list HabitOccurrence) (habit : uuid)
    (from to : time) : list HabitOccurrence :=
  map scanOccurrence
    (order_by O_Date (keep (fun o => N.eqb (O_Habit o) habit && (day_number from <=? O_Date o) &&
                                     (O_Date o <=? day_number to)) occs)).

Definition UpdateHabitOccurrenceStatus `{DateDriver} (habits : list Habit)
    (occ habit user : uuid) (status : string) (occs : list HabitOccurrence)
    : option HabitOccurrence * list HabitOccurrence :=
  let hit o := N.eqb (O_ID o) occ && N.eqb (O_Habit o) habit &&
               existsb (fun h => N.eqb (H_ID h) habit && N.eqb (H_UserID h) user) habits in
  let occs' := map (fun o => if hit o then
      {| O_ID := O_ID o; O_Habit := O_Habit o; O_Date := O_Date o; O_Start := O_Start o;
         O_End := O_End o; O_Status := status; O_Event := O_Event o |} else o) occs in
  (option_map scanOccurrence (List.find hit occs'), occs').

Definition ListScheduledOccurrencesForDay `{DateDriver} (habits : list Habit) (occs : list HabitOccurrence)
    (user : uuid) (date : time) : list HabitOccurrence :=
  map scanOccurrence
    (keep (fun o => existsb (fun h => N.eqb (H_ID h) (O_Habit o) && N.eqb (H_UserID h) user) habits &&
                    (O_Date o =? day_number date) && String.eqb (O_Status o) "scheduled") occs).

(** ** Placement *)

(** The starts tried by [findFirstSlot], every 15 minutes from the opening:
    [fuel] is the number of iterations left. *)
Fixpoint first_slot_from (fuel : nat) (t windowEnd : time) (dur : Z) (merged : list interval)
    : option interval :=
  match fuel with
  | O => None
  | S k =>
      let e := Add t dur in
      if Before e windowEnd || Equal e windowEnd then
        if negb (overlapsMerged (Iv t e) merged) then Some (Iv t e)
        else first_slot_from k (Add t (15 * Minute)) windowEnd dur merged
      else None
  end.

Definition slot_count (windowStart windowEnd : time) (dur : Z) : nat :=
  Z.to_nat ((t_ns windowEnd - dur - t_ns windowStart) / (15 * Minute) + 1).

Definition findFirstSlot (windowStart windowEnd : time) (dur : Z) (merged : list interval)
    : option interval :=
  first_slot_from (slot_count windowStart windowEnd dur) windowStart windowEnd dur merged.

Definition habitWeekday (day : time) : Z := if WeekdayOf day =? 0 then 7 else WeekdayOf day.
Definition containsInt (l : list Z) (v : Z) : bool := existsb (fun x => x =? v) l.
Definition parseHabitTime (hhmm : string) (day : time) : time := parseTime hhmm day.

Definition habitColorID (hex : string) : string :=
  if String.eqb hex "#5B7FFF" then "9"
  else if String.eqb hex "#E9B949" then "5"
  else if String.eqb hex "#9B7AE0" then "3" else "8".

(** What became of a habit on a day. *)
Inductive Decision :=
| NotToday
| Completed (iv : interval)     (** kept, being done already *)
| Kept (iv : interval)          (** kept, still free *)
| Placed (iv : interval)        (** a new slot *)
| Missed.

(** The interval a decision takes up. *)
Definition taken (d : Decision) : list interval :=
  match d with Completed iv | Kept iv | Placed iv => [iv] | NotToday | Missed => [] end.

Section Engine.
Context {S : Type} {C : CalendarOps S} {D : DateDriver}.
Context (load : string -> option Location) (local : Location) (user : uuid).

(** The state a day works on: the calendar, the occurrences, the next row
    identifier, and the busy time gathered so far. *)
Record DayState := {
  ds_cal : S;
  ds_occs : list HabitOccurrence;
  ds_next : uuid;
  placedBusy : list interval;
}.

Definition upsert (o : HabitOccurrence) (st : DayState) : DayState :=
  {| ds_cal := ds_cal st; ds_occs := UpsertHabitOccurrence (ds_next st) o (ds_occs st);
     ds_next := N.succ (ds_next st); placedBusy := placedBusy st |}.

Definition take_iv (iv : interval) (st : DayState) : DayState :=
  {| ds_cal := ds_cal st; ds_occs := ds_occs st; ds_next := ds_next st;
     placedBusy := placedBusy st ++ [iv] |}.

(** [mergeIntervals] sorts its argument in place. *)
Definition sorted_busy (st : DayState) : DayState :=
  {| ds_cal := ds_cal st; ds_occs := ds_occs st; ds_next := ds_next st;
     placedBusy := sortIntervals (placedBusy st) |}.

Definition habit_event (h : Habit) (iv : interval) : Event :=
  {| ev_Id := ""; Summary := H_Title h; Description := ""; Location_ := ""; Status := "";
     Transparency := "opaque"; Visibility := ""; ColorId := habitColorID (Color h);
     OrganizerSelf := None; ev_Start := at_time (iv_start iv); ev_End := at_time (iv_end iv);
     Attendees := [] |}.

(** [createHabitEvent]: the identifier, empty when the call failed. *)
Definition createHabitEvent (h : Habit) (iv : interval) (st : S) : string * S :=
  match createEvent st (habit_event h iv) with
  | (Ok id, st') => (id, st')
  | (Err _, st') => ("", st')
  end.

(** [existingOccurrence]. *)
Definition existingOccurrence (habit : uuid) (day : time) (occs : list HabitOccurrence)
    : option HabitOccurrence := hd_error (ListHabitOccurrences occs habit day day).

Definition occurrence (h : Habit) (day : time) (iv : interval) (status ev : string)
    : HabitOccurrence :=
  {| O_ID := uuid_nil; O_Habit := H_ID h; O_Date := day_number day; O_Start := iv_start iv;
     O_End := iv_end iv; O_Status := status; O_Event := ev |}.

Definition displaced (o : HabitOccurrence) : HabitOccurrence :=
  {| O_ID := O_ID o; O_Habit := O_Habit o; O_Date := O_Date o; O_Start := O_Start o;
     O_End := O_End o; O_Status := "displaced"; O_Event := O_Event o |}.

Definition occ_interval (o : HabitOccurrence) : interval := Iv (O_Start o) (O_End o).

(** The search for a slot and what follows it. *)
Definition place_habit (calConnected : bool) (day : time) (h : Habit) (st0 : DayState)
    : Decision * DayState :=
  let st := sorted_busy st0 in
  let windowStart := parseHabitTime (H_WindowStart h) day in
  let windowEnd := parseHabitTime (H_WindowEnd h) day in
  let dur := dur_minutes (DurationMinutes h) in
  match findFirstSlot windowStart windowEnd dur (mergeIntervals (placedBusy st0)) with
  | None =>
      (Missed, upsert (occurrence h day (Iv windowStart (Add windowStart dur)) "missed" "") st)
  | Some slot =>
      let '(id, cal') := if calConnected then createHabitEvent h slot (ds_cal st)
                         else ("", ds_cal st) in
      let st' := {| ds_cal := cal'; ds_occs := ds_occs st; ds_next := ds_next st;
                    placedBusy := placedBusy st |} in
      (Placed slot, take_iv slot (upsert (occurrence h day slot "scheduled" id) st'))
  end.

(** One habit of the day. *)
Definition schedule_habit (calConnected : bool) (day : time) (h : Habit) (st : DayState)
    : Decision * DayState :=
  if negb (containsInt (H_DaysOfWeek h) (habitWeekday day)) then (NotToday, st)
  else match existingOccurrence (H_ID h) day (ds_occs st) with
  | Some o =>
      if String.eqb (O_Status o) "completed" then
        (Completed (occ_interval o), take_iv (occ_interval o) st)
      else if String.eqb (O_Status o) "scheduled" then
        if negb (overlapsMerged (occ_interval o) (mergeIntervals (placedBusy st)))
        then (Kept (occ_interval o), take_iv (occ_interval o) (sorted_busy st))
        else place_habit calConnected day h (upsert (displaced o) (sorted_busy st))
      else place_habit calConnected day h st
  | None => place_habit calConnected day h st
  end.

Fixpoint schedule_habits (calConnected : bool) (day : time) (hs : list Habit) (st : DayState)
    : list Decision * DayState :=
  match hs with
  | [] => ([], st)
  | h :: r =>
      let '(d, st1) := schedule_habit calConnected day h st in
      let '(ds, st2) := schedule_habits calConnected day r st1 in
      (d :: ds, st2)
  end.

(** The busy time of a day before any habit. *)
Definition calendar_busy (settings : option Settings) (day : time) (events : list Event)
    : list interval :=
  event_busy local events ++
  match settings with
  | None => []
  | Some s =>
      let loc := default UTC (load (Timezone s)) in
      let '(ws, we, on) := WorkWindow (Some s) (In day loc) in
      if on then ComputeBufferBlocks local events s (parseHHMM ws day loc) (parseHHMM we day loc)
      else []
  end.

Definition day_busy (settings : option Settings) (connected : bool) (focus : list FocusBlockRow)
    (day : time) (cal : S) : list interval :=
  let c := DateOf day in
  let dayStart := Date (c_year c) (c_month c) (c_day c) 0 0 0 0 (t_loc day) in
  (if connected then
     match listEvents cal dayStart (Add dayStart (24 * Hour)) with
     | Ok events => calendar_busy settings day events
     | Err _ => []
     end
   else []) ++
  match settings with
  | None => []
  | Some s =>
      let loc := default UTC (load (Timezone s)) in
      let '(ls, le, on) := LunchWindow (Some s) (In day loc) in
      if on then [Iv (parseHHMM ls day loc) (parseHHMM le day loc)] else []
  end ++
  map (fun fb => Iv (FB_Start fb) (FB_End fb))
    (keep (fun fb => bool_decide (DateOf (FB_Start fb) = DateOf day)) focus).

(** [scheduleDay]. *)
Definition scheduleDay (settings : option Settings) (t : Tables) (habits : list Habit) (day : time)
    (connected : bool) (cal : S) (occs : list HabitOccurrence) (next : uuid)
    : list Decision * DayState :=
  schedule_habits connected day habits
    {| ds_cal := cal; ds_occs := occs; ds_next := next;
       placedBusy := day_busy settings connected (ListFocusBlocksForUserWeek t user day) day cal |}.

(** [ReoptimizeAll]: fourteen days from now, in the user's zone. *)
Definition ReoptimizeAll (settings : option Settings) (t : Tables) (habits : list Habit)
    (connected : bool) (now0 : time) (cal : S) (occs : list HabitOccurrence) (next : uuid)
    : S * list HabitOccurrence * uuid :=
  let now := match settings with
             | Some s => match load (Timezone s) with Some loc => In now0 loc | None => now0 end
             | None => now0
             end in
  fold_left (fun acc i =>
      let '(cal, occs, next) := acc in
      let st := (scheduleDay settings t (ListActiveHabitsByUser habits user)
                   (AddDate now 0 0 (Z.of_nat i)) connected cal occs next).2 in
      (ds_cal st, ds_occs st, ds_next st))
    (List.seq 0 14) (cal, occs, next).
End Engine.

(** ** First fit: facts *)

Definition slot_at (ws : time) (dur k : Z) : interval :=
  Iv (Add ws (k * (15 * Minute))) (Add (Add ws (k * (15 * Minute))) dur).

Lemma Add_Add t a b : Add (Add t a) b = Add t (a + b).
Proof. unfold Add. simpl. f_equal. lia. Qed.

Lemma slot_at_0 ws dur : slot_at ws dur 0 = Iv ws (Add ws dur).
Proof. unfold slot_at. rewrite Z.mul_0_l. unfold Add. simpl. rewrite Z.add_0_r. by destruct ws. Qed.

Lemma slot_at_S ws dur k : slot_at (Add ws (15 * Minute)) dur k = slot_at ws dur (k + 1).
Proof.
  unfold slot_at. rewrite !Add_Add.
  by replace (15 * Minute + k * (15 * Minute)) with ((k + 1) * (15 * Minute)) by ring.
Qed.

Lemma Before_or_Equal a b : Before a b || Equal a b = (t_ns a <=? t_ns b).
Proof. unfold Before, Equal. lia. Qed.

Lemma first_slot_from_Some fuel ws we dur merged iv :
  first_slot_from fuel ws we dur merged = Some iv ->
  exists k, 0 <= k /\ iv = slot_at ws dur k /\ t_ns (iv_end iv) <= t_ns we /\
    overlapsMerged iv merged = false /\
    forall j, 0 <= j < k -> overlapsMerged (slot_at ws dur j) merged = true.
Proof.
  revert ws. induction fuel as [|fuel IH]; intros ws; cbn [first_slot_from]; [discriminate|].
  rewrite Before_or_Equal. destruct (Z.leb_spec (t_ns (Add ws dur)) (t_ns we)) as [Hle|]; [|discriminate].
  destruct (overlapsMerged (Iv ws (Add ws dur)) merged) eqn:Eo; cbn [negb].
  - intros (k & Hk & -> & He & Ho & Hall)%IH. rewrite slot_at_S in *. exists (k + 1).
    split; [lia|]. split; [done|]. split; [done|]. split; [done|]. intros j Hj.
    destruct (decide (j = 0)) as [->|]; [by rewrite slot_at_0|].
    replace j with (j - 1 + 1) by lia. rewrite <- slot_at_S. apply Hall. lia.
  - intros [= <-]. exists 0. rewrite slot_at_0. split_and!; [done|done|done|done|lia].
Qed.

Lemma first_slot_from_None fuel ws we dur merged k :
  first_slot_from fuel ws we dur merged = None ->
  0 <= k < Z.of_nat fuel -> t_ns (iv_end (slot_at ws dur k)) <= t_ns we ->
  overlapsMerged (slot_at ws dur k) merged = true.
Proof.
  revert ws k. induction fuel as [|fuel IH]; intros ws k; cbn [first_slot_from]; [lia|].
  rewrite Before_or_Equal. destruct (Z.leb_spec (t_ns (Add ws dur)) (t_ns we)) as [Hle|Hgt].
  - destruct (overlapsMerged (Iv ws (Add ws dur)) merged) eqn:Eo; cbn [negb]; [|discriminate].
    intros H Hk He. destruct (decide (k = 0)) as [->|]; [by rewrite slot_at_0|].
    replace k with (k - 1 + 1) in * by lia. rewrite <- slot_at_S in *. apply IH; [done|lia|done].
  - intros _ Hk He. unfold slot_at, Add in *. simpl in *. unfold Minute, Second in *. lia.
Qed.

(** The number of iterations covers every start that fits. *)
Lemma slot_count_enough ws we dur k :
  0 <= k -> t_ns (iv_end (slot_at ws dur k)) <= t_ns we -> k < Z.of_nat (slot_count ws we dur).
Proof.
  intros Hk He. unfold slot_count, slot_at, Add in *. cbn [iv_end t_ns] in He.
  assert (0 < 15 * Minute) by done.
  assert (k <= (t_ns we - dur - t_ns ws) / (15 * Minute)) by (apply Z.div_le_lower_bound; lia). lia.
Qed.

Lemma findFirstSlot_None ws we dur merged k :
  findFirstSlot ws we dur merged = None -> 0 <= k ->
  t_ns (iv_end (slot_at ws dur k)) <= t_ns we -> overlapsMerged (slot_at ws dur k) merged = true.
Proof.
  intros H Hk He. eapply first_slot_from_None; [exact H| |done].
  split; [done|]. by apply slot_count_enough.
Qed.

(** ** A day: facts *)

Definition fresh_iv (d : Decision) : list interval :=
  match d with Kept iv | Placed iv => [iv] | _ => [] end.

(** No instant of [iv] is in [busy]. *)
Definition free_of (busy : list interval) (iv : interval) : Prop :=
  forall x, covers iv x -> ~ covered busy x.

Lemma overlaps_free iv busy : overlapsMerged iv (mergeIntervals busy) = false -> free_of busy iv.
Proof.
  intros H x Hx Hc. apply (overlapsMerged_free _ _ _ H Hx). by apply mergeIntervals_covered.
Qed.

Section DayFacts.
Context {S : Type} {C : CalendarOps S} {D : DateDriver}.
Implicit Types (st : DayState (S := S)).

Lemma place_habit_spec con day h st d st' :
  place_habit con day h st = (d, st') ->
  placedBusy st' ≡ₚ placedBusy st ++ taken d /\ Forall (free_of (placedBusy st)) (fresh_iv d).
Proof.
  unfold place_habit.
  destruct (findFirstSlot _ _ _ _) as [slot|] eqn:Ef.
  - destruct (if con then _ else _) as [id cal'] eqn:Ec. intros [= <- <-]. simpl.
    split; [by rewrite sortIntervals_perm|]. repeat constructor.
    apply overlaps_free. apply first_slot_from_Some in Ef as (k & _ & -> & _ & Ho & _). done.
  - intros [= <- <-]. simpl. rewrite app_nil_r. split; [apply sortIntervals_perm|constructor].
Qed.

Lemma schedule_habit_spec con day h st d st' :
  schedule_habit con day h st = (d, st') ->
  placedBusy st' ≡ₚ placedBusy st ++ taken d /\ Forall (free_of (placedBusy st)) (fresh_iv d).
Proof.
  unfold schedule_habit. destruct (negb _).
  { intros [= <- <-]. simpl. rewrite app_nil_r. split; [done|constructor]. }
  destruct (existingOccurrence _ _ _) as [o|]; [|apply place_habit_spec].
  destruct (String.eqb _ _); [intros [= <- <-]; by split|].
  destruct (String.eqb _ _); [|apply place_habit_spec].
  destruct (overlapsMerged _ _) eqn:Eo; cbn [negb].
  - intros [H1 H2]%place_habit_spec. cbn [placedBusy upsert sorted_busy] in *.
    split; [by rewrite H1, sortIntervals_perm|].
    eapply Forall_impl; [exact H2|]. intros iv Hf x Hx Hc. apply (Hf x Hx).
    by apply (covered_perm _ _ (sortIntervals_perm _)).
  - intros [= <- <-]. simpl. split; [by rewrite sortIntervals_perm|].
    repeat constructor. by apply overlaps_free.
Qed.

Lemma schedule_habits_spec con day hs st ds st' :
  schedule_habits con day hs st = (ds, st') ->
  Forall (fun d => Forall (free_of (placedBusy st)) (fresh_iv d)) ds /\
  ForallOrdPairs (fun a b => Forall (free_of (taken a)) (fresh_iv b)) ds.
Proof.
  revert st ds st'. induction hs as [|h hs IH]; intros st ds st'; cbn [schedule_habits].
  - intros [= <- <-]. by repeat constructor.
  - destruct (schedule_habit con day h st) as [d st1] eqn:E1.
    destruct (schedule_habits con day hs st1) as [ds2 st2] eqn:E2. intros [= <- <-].
    destruct (schedule_habit_spec _ _ _ _ _ _ E1) as [Hp Hf].
    destruct (IH _ _ _ E2) as [Ha Ho].
    assert (Hsplit : forall iv, free_of (placedBusy st1) iv ->
      free_of (placedBusy st) iv /\ free_of (taken d) iv).
    { intros iv Hiv. split; intros x Hx Hc; apply (Hiv x Hx);
        apply (covered_perm _ _ Hp), covered_app; tauto. }
    split; constructor; try done.
    + eapply Forall_impl; [exact Ha|]. intros d' Hd'. eapply Forall_impl; [exact Hd'|].
      intros iv Hiv. by apply Hsplit.
    + eapply Forall_impl; [exact Ha|]. intros d' Hd'. eapply Forall_impl; [exact Hd'|].
      intros iv Hiv. by apply Hsplit.
Qed.

(** *** Occurrence rows *)

Definition keys (occs : list HabitOccurrence) : list (uuid * Z) :=
  map (fun o => (O_Habit o, O_Date o)) occs.

Lemma same_key_spec h d o : same_key h d o = true <-> (O_Habit o, O_Date o) = (h, d).
Proof.
  unfold same_key. rewrite andb_true_iff, N.eqb_eq, Z.eqb_eq. split; [by intros [-> ->]|by intros [= -> ->]].
Qed.

Lemma upsert_keys id o occs :
  NoDup (keys occs) -> NoDup (keys (UpsertHabitOccurrence id o occs)).
Proof.
  intros Hn. unfold UpsertHabitOccurrence. destruct (existsb _ occs) eqn:E.
  - unfold keys in *. rewrite map_map. erewrite map_ext; [exact Hn|].
    intros row. simpl. by destruct (same_key _ _ row).
  - unfold keys in *. rewrite map_app. simpl. apply NoDup_app. split; [done|]. split.
    + intros k Hk ->%list_elem_of_singleton. apply list_elem_of_In, in_map_iff in Hk as (row & Ek & Hrow).
      rewrite existsb_elem_false in E. specialize (E row (proj2 (list_elem_of_In _ _) Hrow)).
      apply not_true_iff_false in E. apply E. by apply same_key_spec.
    + apply NoDup_singleton.
Qed.

Lemma upsert_other id o occs row :
  same_key (O_Habit o) (O_Date o) row = false -> row ∈ occs ->
  row ∈ UpsertHabitOccurrence id o occs.
Proof.
  intros Hk Hr. unfold UpsertHabitOccurrence. destruct (existsb _ occs).
  - apply list_elem_of_In, in_map_iff. exists row. rewrite Hk. split; [done|].
    by apply list_elem_of_In.
  - apply elem_of_app. by left.
Qed.

(** The existing occurrence is the one row of its key, as it is read. *)
Lemma existingOccurrence_key h day occs row :
  NoDup (keys occs) -> row ∈ occs -> same_key h (day_number day) row = true ->
  existingOccurrence h day occs = Some (scanOccurrence row).
Proof.
  intros Hn Hr Hk. unfold existingOccurrence, ListHabitOccurrences.
  set (p := fun o => N.eqb (O_Habit o) h && (day_number day <=? O_Date o) && (O_Date o <=? day_number day)).
  assert (Hp : forall o, p o = same_key h (day_number day) o).
  { intros o. unfold p, same_key. destruct (N.eqb (O_Habit o) h); simpl; [|done]. lia. }
  assert (Hone : keep p occs = [row]).
  { revert Hn Hr. clear -Hp Hk. induction occs as [|o occs IH]; intros Hn Hr;
      [by apply not_elem_of_nil in Hr|].
    simpl. rewrite Hp. unfold keys in Hn. simpl in Hn. apply NoDup_cons in Hn as [Hni Hn].
    apply elem_of_cons in Hr as [->|Hr].
    - rewrite Hk. f_equal. destruct (keep p occs) as [|y l] eqn:Ek; [done|]. exfalso.
      assert (Hy : y ∈ keep p occs) by (rewrite Ek; left).
      apply elem_of_keep in Hy as [Hy Hpy]. rewrite Hp in Hpy. apply Hni.
      apply list_elem_of_In, in_map_iff. exists y. split; [|by apply list_elem_of_In].
      apply same_key_spec in Hpy, Hk. congruence.
    - destruct (same_key h (day_number day) o) eqn:Eo; [|by apply IH]. exfalso. apply Hni.
      apply list_elem_of_In, in_map_iff. exists row. split; [|by apply list_elem_of_In].
      apply same_key_spec in Eo, Hk. congruence. }
  rewrite Hone. done.
Qed.

Lemma existingOccurrence_row h day occs o :
  existingOccurrence h day occs = Some o ->
  O_Habit o = h /\ O_Date o = scan_date (day_number day).
Proof.
  unfold existingOccurrence, ListHabitOccurrences.
  set (p := fun o => N.eqb (O_Habit o) h && (day_number day <=? O_Date o) && (O_Date o <=? day_number day)).
  destruct (order_by O_Date (keep p occs)) as [|row l] eqn:E; cbn; [done|]. intros [= <-].
  assert (Ho : row ∈ keep p occs) by (rewrite <- (order_by_perm O_Date), E; left).
  apply elem_of_keep in Ho as [_ Ho]. unfold p in Ho.
  apply andb_true_iff in Ho as [[Hh%N.eqb_eq H1%Z.leb_le]%andb_true_iff H2%Z.leb_le].
  split; [done|]. cbn [O_Date scanOccurrence]. f_equal. lia.
Qed.

(** *** Dates as they are read *)

Definition zero_day : Z := day_number zero_time.
Definition midnight (d : Z) : time := Time (d * day_secs * Second) UTC.

(** What [database/sql] puts in a string for the [time.Time] of pgx's driver. *)
Definition rfc3339_dates : Prop := forall d, dateText d = FormatRFC3339 (midnight d).

(** A date is read as it is stored, or as the zero date. *)
Definition dates_read : Prop := forall d, scan_date d = d \/ scan_date d = zero_day.

Lemma rfc3339_scan d : rfc3339_dates -> scan_date d = zero_day.
Proof. intros H. unfold scan_date. by rewrite H, ParseDateOnly_RFC3339. Qed.

Lemma rfc3339_dates_read : rfc3339_dates -> dates_read.
Proof. intros H d. right. by apply rfc3339_scan. Qed.

Definition keeps (row : HabitOccurrence) (occs : list HabitOccurrence) : Prop :=
  NoDup (keys occs) /\ row ∈ occs.

Lemma upsert_keeps row id o occs :
  keeps row occs -> same_key (O_Habit o) (O_Date o) row = false ->
  keeps row (UpsertHabitOccurrence id o occs).
Proof. intros [Hn Hr] Hk. split; [by apply upsert_keys|by apply upsert_other]. Qed.

Lemma upsert_has id o occs :
  exists row, row ∈ UpsertHabitOccurrence id o occs /\
    O_Habit row = O_Habit o /\ O_Date row = O_Date o /\ O_Status row = O_Status o.
Proof.
  unfold UpsertHabitOccurrence. destruct (existsb _ occs) eqn:E.
  - apply existsb_exists in E as (row & Hr & Hk). eexists. split.
    + apply list_elem_of_In, in_map_iff. exists row. split; [reflexivity|done].
    + rewrite Hk. apply same_key_spec in Hk. injection Hk as -> ->. done.
  - eexists. split; [apply elem_of_app; right; left|done].
Qed.

Lemma place_habit_other con day h st row :
  same_key (H_ID h) (day_number day) row = false -> row ∈ ds_occs st ->
  row ∈ ds_occs (place_habit con day h st).2.
Proof.
  intros Hk Hr. unfold place_habit. destruct (findFirstSlot _ _ _ _) as [slot|].
  - destruct (if con then _ else _) as [id cal']. simpl. by apply upsert_other.
  - simpl. by apply upsert_other.
Qed.

Lemma place_habit_keeps con day h st row :
  keeps row (ds_occs st) -> same_key (H_ID h) (day_number day) row = false ->
  keeps row (ds_occs (place_habit con day h st).2).
Proof.
  intros Hkeep Hk. unfold place_habit. destruct (findFirstSlot _ _ _ _) as [slot|].
  - destruct (if con then _ else _) as [id cal']. simpl. by apply upsert_keeps.
  - simpl. by apply upsert_keeps.
Qed.

Lemma schedule_habit_keeps con day h st row :
  dates_read -> O_Date row <> zero_day -> O_Status row = "completed" ->
  keeps row (ds_occs st) -> keeps row (ds_occs (schedule_habit con day h st).2).
Proof.
  intros Hread Hz Hs Hkeep. unfold schedule_habit. destruct (negb _); [done|].
  destruct (same_key (H_ID h) (day_number day) row) eqn:Ek.
  - rewrite (existingOccurrence_key _ _ _ row) by (done || apply Hkeep). cbn. by rewrite Hs.
  - destruct (existingOccurrence _ _ _) as [o|] eqn:Eo; [|by apply place_habit_keeps].
    destruct (String.eqb _ _); [done|]. destruct (String.eqb _ _); [|by apply place_habit_keeps].
    destruct (negb _); [done|]. apply place_habit_keeps; [|done]. simpl.
    apply upsert_keeps; [done|]. cbn [O_Habit O_Date displaced].
    apply existingOccurrence_row in Eo as [-> ->].
    destruct (Hread (day_number day)) as [->| ->]; [done|].
    unfold same_key. apply andb_false_intro2. by apply Z.eqb_neq.
Qed.

Lemma schedule_habits_keeps con day hs st row :
  dates_read -> O_Date row <> zero_day -> O_Status row = "completed" ->
  keeps row (ds_occs st) -> keeps row (ds_occs (schedule_habits con day hs st).2).
Proof.
  intros Hread Hz Hs. revert st. induction hs as [|h hs IH]; intros st Hk; [done|].
  cbn [schedule_habits].
  pose proof (schedule_habit_keeps con day h st row Hread Hz Hs Hk) as H1.
  destruct (schedule_habit con day h st) as [d st1]. specialize (IH st1 H1).
  by destruct (schedule_habits con day hs st1).
Qed.
End DayFacts.

(** ** Properties *)

(** [findFirstSlot] is first fit: the answer is the earliest of the starts every
    15 minutes from the opening that ends by the close and meets no busy time;
    there is no answer only when every such start is taken, and the loop stops. *)
Theorem findFirstSlot_first_fit ws we dur merged :
  match findFirstSlot ws we dur merged with
  | Some iv =>
      exists k, 0 <= k /\ iv = slot_at ws dur k /\ t_ns (iv_end iv) <= t_ns we /\
        overlapsMerged iv merged = false /\
        forall j, 0 <= j < k -> overlapsMerged (slot_at ws dur j) merged = true
  | None =>
      forall k, 0 <= k -> t_ns (iv_end (slot_at ws dur k)) <= t_ns we ->
        overlapsMerged (slot_at ws dur k) merged = true
  end.
Proof.
  destruct (findFirstSlot ws we dur merged) as [iv|] eqn:E.
  - by apply first_slot_from_Some in E.
  - intros k. by apply findFirstSlot_None.
Qed.

(** The habits of a day do not collide: a slot kept or newly placed shares no
    instant with the calendar, the buffers, the lunch or the focus blocks of the
    day, nor with the interval of any habit handled before it. *)
Theorem scheduleDay_no_collision {S} {C : CalendarOps S} {D : DateDriver} load local user settings t habits day con
    (cal : S) occs next ds st :
  scheduleDay load local user settings t habits day con cal occs next = (ds, st) ->
  (forall d iv, d ∈ ds -> iv ∈ fresh_iv d ->
     free_of (day_busy load local settings con (ListFocusBlocksForUserWeek t user day) day cal) iv) /\
  ForallOrdPairs (fun a b => forall iv iv' x, iv ∈ taken a -> iv' ∈ fresh_iv b ->
     covers iv x -> ~ covers iv' x) ds.
Proof.
  unfold scheduleDay. intros H. destruct (schedule_habits_spec _ _ _ _ _ _ H) as [H1 H2]. split.
  - intros d iv Hd Hiv. rewrite Forall_forall in H1. specialize (H1 d Hd).
    rewrite Forall_forall in H1. by apply H1.
  - eapply ForallOrdPairs_impl; [|exact H2]. intros a b Hab iv iv' x Ha Hb Hx Hx'.
    rewrite Forall_forall in Hab. apply (Hab iv' Hb x Hx'). by exists iv.
Qed.

(** An occurrence the user completed survives every reoptimisation unchanged,
    whether the driver's dates are read as they are stored or as the zero date:
    only a row of the zero date itself could be overwritten. *)
Theorem completed_occurrence_survives {S} {C : CalendarOps S} {D : DateDriver} load local user
    settings t habits con now (cal : S) occs next row :
  dates_read -> O_Date row <> zero_day ->
  NoDup (keys occs) -> row ∈ occs -> O_Status row = "completed" ->
  row ∈ (ReoptimizeAll load local user settings t habits con now cal occs next).1.2.
Proof.
  intros Hread Hz Hn Hr Hs. unfold ReoptimizeAll. cbv zeta.
  match goal with |- row ∈ (fold_left ?f ?l _).1.2 => generalize l; set (step := f) end.
  intros days. assert (Hk : keeps row occs) by done. clear Hn Hr. revert cal occs next Hk.
  induction days as [|i days IH]; intros cal occs next Hk; [apply Hk|].
  cbn [fold_left]. unfold step at 2. apply IH. unfold scheduleDay.
  by apply schedule_habits_keeps.
Qed.

(** The date of an occurrence is lost when it is read: the driver delivers a
    DATE as RFC 3339 text, which [scanOccurrence] cannot parse, so every
    occurrence read carries the zero date.  A scheduled occurrence that no
    longer fits is then written back as displaced under that date: the table
    is left with a row of the year 1. *)
Theorem displaced_row_loses_date {S} {C : CalendarOps S} {D : DateDriver} con day h
    (st : DayState (S := S)) o :
  rfc3339_dates -> day_number day <> zero_day -> NoDup (keys (ds_occs st)) ->
  containsInt (H_DaysOfWeek h) (habitWeekday day) = true ->
  o ∈ ds_occs st -> same_key (H_ID h) (day_number day) o = true -> O_Status o = "scheduled" ->
  overlapsMerged (occ_interval o) (mergeIntervals (placedBusy st)) = true ->
  (forall habit from to, Forall (fun x => O_Date x = zero_day)
     (ListHabitOccurrences (ds_occs st) habit from to)) /\
  exists row, row ∈ ds_occs (schedule_habit con day h st).2 /\
    O_Habit row = H_ID h /\ O_Date row = zero_day /\ O_Status row = "displaced".
Proof.
  intros Hd Hday Hn Hw Ho Hk Hs Hov. split.
  { intros habit from to. apply Forall_map, Forall_true. intros x. by apply rfc3339_scan. }
  unfold schedule_habit. rewrite Hw, (existingOccurrence_key _ _ _ o) by done. cbn [negb].
  change (O_Status (scanOccurrence o)) with (O_Status o). rewrite Hs. cbn -[overlapsMerged].
  change (occ_interval (scanOccurrence o)) with (occ_interval o). rewrite Hov. cbn [negb].
  destruct (upsert_has (ds_next (sorted_busy st)) (displaced (scanOccurrence o)) (ds_occs st))
    as (row & Hrow & Hh & Hdt & Hst).
  cbn in Hh, Hdt, Hst. rewrite rfc3339_scan in Hdt by done.
  apply same_key_spec in Hk. injection Hk as Hkh _. exists row. split_and!; [|congruence|done|done].
  apply place_habit_other; [|exact Hrow]. unfold same_key. apply andb_false_intro2.
  apply Z.eqb_neq. congruence.
Qed.

(** ** A concrete habit *)

#[local] Existing Instance FocusTime.Demo.calendar_ops.

Module HabitDemo.
Definition driver : DateDriver := fun d => FormatRFC3339 (midnight d).
#[local] Existing Instance driver.
Definition walk : Habit := {|
  H_ID := 5%N; H_UserID := 1%N; H_Title := "Walk"; DurationMinutes := 30; H_DaysOfWeek := [1; 3];
  H_WindowStart := "09:00"; H_WindowEnd := "11:00"; Priority := 50; Color := "#E9B949";
  H_Active := true |}.
Definition reading : Habit := {|
  H_ID := 6%N; H_UserID := 1%N; H_Title := "Read"; DurationMinutes := 45; H_DaysOfWeek := [1];
  H_WindowStart := "09:00"; H_WindowEnd := "12:00"; Priority := 40; Color := ""; H_Active := true |}.
Definition done_row : HabitOccurrence := {|
  O_ID := 90%N; O_Habit := 5%N; O_Date := day_number FocusTime.Demo.monday;
  O_Start := Date 2025 1 6 10 0 0 0 UTC; O_End := Date 2025 1 6 10 30 0 0 UTC;
  O_Status := "completed"; O_Event := "" |}.

Definition run (hs : list Habit) (cal : FocusTime.Demo.calendar) (occs : list HabitOccurrence) :=
  scheduleDay (fun _ => Some UTC) UTC 1%N None FocusTime.Demo.tables hs FocusTime.Demo.monday true
    cal occs 1%N.

(** The walk of a Monday, scheduled over the ten o'clock meeting. *)
Definition taken_row : HabitOccurrence := {|
  O_ID := 91%N; O_Habit := 5%N; O_Date := day_number FocusTime.Demo.monday;
  O_Start := Date 2025 1 6 10 0 0 0 UTC; O_End := Date 2025 1 6 10 30 0 0 UTC;
  O_Status := "scheduled"; O_Event := "" |}.
Definition meeting_state : DayState := {|
  ds_cal := ([] : FocusTime.Demo.calendar); ds_occs := [taken_row]; ds_next := 1%N;
  placedBusy := [Iv (Date 2025 1 6 10 0 0 0 UTC) (Date 2025 1 6 11 0 0 0 UTC)] |}.
End HabitDemo.

#[local] Existing Instance HabitDemo.driver.

Lemma scheduleDay_no_collision_witness :
  let r := HabitDemo.run [HabitDemo.walk; HabitDemo.reading] FocusTime.Demo.busy_calendar [] in
  length (flat_map fresh_iv r.1) = 2%nat /\
  ForallOrdPairs (fun a b => forall iv iv' x, iv ∈ taken a -> iv' ∈ fresh_iv b ->
     covers iv x -> ~ covers iv' x) r.1.
Proof.
  intros r. split; [vm_compute; reflexivity|].
  apply (scheduleDay_no_collision (fun _ => Some UTC) UTC 1%N None FocusTime.Demo.tables
    [HabitDemo.walk; HabitDemo.reading] FocusTime.Demo.monday true FocusTime.Demo.busy_calendar []
    1%N r.1 r.2).
  exact (surjective_pairing r).
Defined.

Lemma completed_occurrence_survives_witness :
  HabitDemo.done_row ∈ (ReoptimizeAll (fun _ => Some UTC) UTC 1%N None FocusTime.Demo.tables
    [HabitDemo.walk] true FocusTime.Demo.monday ([] : FocusTime.Demo.calendar)
    [HabitDemo.done_row] 1%N).1.2.
Proof.
  apply (completed_occurrence_survives (fun _ => Some UTC) UTC 1%N None FocusTime.Demo.tables
    [HabitDemo.walk] true FocusTime.Demo.monday ([] : FocusTime.Demo.calendar)
    [HabitDemo.done_row] 1%N HabitDemo.done_row).
  - apply rfc3339_dates_read. intros d. reflexivity.
  - vm_compute. discriminate.
  - apply NoDup_singleton.
  - left.
  - reflexivity.
Defined.

Lemma displaced_row_loses_date_witness :
  existsb (fun o => (O_Date o =? zero_day) && String.eqb (O_Status o) "displaced")
    (ds_occs (schedule_habit true FocusTime.Demo.monday HabitDemo.walk HabitDemo.meeting_state).2)
    = true /\
  exists row, row ∈ ds_occs (schedule_habit true FocusTime.Demo.monday HabitDemo.walk
      HabitDemo.meeting_state).2 /\
    O_Habit row = 5%N /\ O_Date row = zero_day /\ O_Status row = "displaced".
Proof.
  split; [vm_compute; reflexivity|].
  apply (displaced_row_loses_date true FocusTime.Demo.monday HabitDemo.walk HabitDemo.meeting_state
    HabitDemo.taken_row).
  - intros d. reflexivity.
  - vm_compute. discriminate.
  - apply NoDup_singleton.
  - reflexivity.
  - left.
  - reflexivity.
  - reflexivity.
  - vm_compute. reflexivity.
Defined.

(** A habit is displaced by its own event.  Placed with the calendar connected,
    it is written there as an opaque event; the next reoptimisation reads that
    event as busy time, displaces the occurrence, moves it to the next free
    slot and creates a second event, the first one staying in the calendar. *)
Theorem reoptimize_displaces_itself :
  let r1 := HabitDemo.run [HabitDemo.walk] [] [] in
  let r2 := HabitDemo.run [HabitDemo.walk] (ds_cal r1.2) (ds_occs r1.2) in
  r1.1 = [Placed (Iv (Date 2025 1 6 9 0 0 0 UTC) (Date 2025 1 6 9 30 0 0 UTC))] /\
  r2.1 = [Placed (Iv (Date 2025 1 6 9 30 0 0 UTC) (Date 2025 1 6 10 0 0 0 UTC))] /\
  length (ds_cal r1.2) = 1%nat /\ length (ds_cal r2.2) = 2%nat.
Proof. vm_compute. auto. Qed.
