(* ===== verification/Cursor.v ===== *)
(** * Cursors over a free interval

    The loop shared by [FindSlots] and [Suggest]: starts at a fixed step while
    the meeting still ends inside the free interval. *)

From S2P Require Import Prelude GoInt GoTime Interval.

#[local] Open Scope list_scope.
#[local] Open Scope Z_scope.

(** [for !t.Add(dur).After(end) { ...; t = t.Add(step) }]; [fuel] is the number
    of iterations left. *)
Fixpoint cursor_from (fuel : nat) (t end_ : time) (dur step : Z) : list time :=
  match fuel with
  | O => []
  | S k => if After (Add t dur) end_ then [] else t :: cursor_from k (Add t step) end_ dur step
  end.

Definition cursor_fuel (t end_ : time) (dur step : Z) : nat :=
  Z.to_nat ((t_ns end_ - dur - t_ns t) / step + 1).

Definition cursor (t end_ : time) (dur step : Z) : list time :=
  cursor_from (cursor_fuel t end_ dur step) t end_ dur step.

Lemma Add_comp t a b : Add (Add t a) b = Add t (a + b).
Proof. unfold Add. simpl. f_equal. lia. Qed.

Lemma Add_0 t : Add t 0 = t.
Proof. unfold Add. rewrite Z.add_0_r. by destruct t. Qed.

Lemma elem_of_cursor_from fuel t end_ dur step x :
  0 < step ->
  x ∈ cursor_from fuel t end_ dur step <->
  exists k, 0 <= k < Z.of_nat fuel /\ x = Add t (k * step) /\ t_ns x + dur <= t_ns end_.
Proof.
  intros Hs. revert t. induction fuel as [|fuel IH]; intros t; cbn [cursor_from].
  - rewrite elem_of_nil. split; [done|]. intros (k & Hk & _). lia.
  - destruct (After (Add t dur) end_) eqn:E.
    + apply After_lt in E. unfold Add in E. simpl t_ns in E. rewrite elem_of_nil. split; [done|].
      intros (k & Hk & -> & H). unfold Add in H. simpl t_ns in H.
      assert (0 <= k * step) by (apply Z.mul_nonneg_nonneg; lia). lia.
    + apply After_ge in E. unfold Add in E at 1. simpl t_ns in E. rewrite elem_of_cons, IH. split.
      * intros [->|(k & Hk & -> & H)].
        -- exists 0. rewrite Z.mul_0_l, Add_0. split; [lia|done].
        -- exists (k + 1). rewrite Add_comp in *. split; [lia|]. split; [f_equal; ring|done].
      * intros (k & Hk & -> & H). destruct (decide (k = 0)) as [->|].
        -- left. by rewrite Z.mul_0_l, Add_0.
        -- right. exists (k - 1). rewrite Add_comp. split; [lia|]. split; [f_equal; ring|done].
Qed.

(** The loop runs to its end: every start that fits is tried, and no other. *)
Lemma elem_of_cursor t end_ dur step x :
  0 < step ->
  x ∈ cursor t end_ dur step <->
  exists k, 0 <= k /\ x = Add t (k * step) /\ t_ns x + dur <= t_ns end_.
Proof.
  intros Hs. unfold cursor. rewrite elem_of_cursor_from by done. split.
  - intros (k & Hk & H). exists k. split; [lia|done].
  - intros (k & Hk & -> & H). exists k. split; [|done]. split; [done|].
    unfold cursor_fuel, Add in *. simpl in H.
    assert (k <= (t_ns end_ - dur - t_ns t) / step) by (apply Z.div_le_lower_bound; lia). lia.
Qed.
