(* ===== verification/Teams.v ===== *)
(** * Teams

    [storage/teams.go]: teams, their members, invitations and no-meeting zones,
    with the removal that keeps an owner. *)

From S2P Require Import Prelude GoInt GoTime GoText LinkStore.

#[local] Open Scope string_scope.
#[local] Open Scope list_scope.
#[local] Open Scope Z_scope.

(** ** Rows *)

Record Team := { T_ID : uuid; T_OrgID : option uuid; T_Name : string; CreatedBy : uuid }.

Record TeamMember := { TM_Team : uuid; TM_User : uuid; Role : string }.

Record TeamInvite := {
  TI_ID : uuid; TI_Team : uuid; InviteeEmail : string; InvitedBy : uuid; Token : string;
  TI_Status : string; ExpiresAt : time }.

Record NoMeetingZone := {
  Z_ID : uuid; Z_Team : uuid; DayOfWeek : Z; StartTime : string; EndTime : string; Label : string }.

(** The tables; rows are in creation (or joining) order. *)
Record TeamTables := {
  tt_teams : list Team;
  tt_members : list TeamMember;
  tt_invites : list TeamInvite;
  tt_zones : list NoMeetingZone;
}.

Definition set_teams (f : list Team -> list Team) (t : TeamTables) : TeamTables :=
  {| tt_teams := f (tt_teams t); tt_members := tt_members t; tt_invites := tt_invites t;
     tt_zones := tt_zones t |}.
Definition set_members (f : list TeamMember -> list TeamMember) (t : TeamTables) : TeamTables :=
  {| tt_teams := tt_teams t; tt_members := f (tt_members t); tt_invites := tt_invites t;
     tt_zones := tt_zones t |}.
Definition set_invites (f : list TeamInvite -> list TeamInvite) (t : TeamTables) : TeamTables :=
  {| tt_teams := tt_teams t; tt_members := tt_members t; tt_invites := f (tt_invites t);
     tt_zones := tt_zones t |}.
Definition set_zones (f : list NoMeetingZone -> list NoMeetingZone) (t : TeamTables) : TeamTables :=
  {| tt_teams := tt_teams t; tt_members := tt_members t; tt_invites := tt_invites t;
     tt_zones := f (tt_zones t) |}.

(** ** Teams *)

Definition CreateTeam (id : uuid) (name : string) (createdBy : uuid) (t : TeamTables)
    : Team * TeamTables :=
  let row := {| T_ID := id; T_OrgID := None; T_Name := name; CreatedBy := createdBy |} in
  (row, set_teams (fun l => l ++ [row]) t).

Definition GetTeam (t : TeamTables) (id : uuid) : option Team :=
  List.find (fun r => N.eqb (T_ID r) id) (tt_teams t).

Definition member_of (team user : uuid) (m : TeamMember) : bool :=
  N.eqb (TM_Team m) team && N.eqb (TM_User m) user.

(** Newest first. *)
Definition ListTeamsForUser (t : TeamTables) (u : uuid) : list Team :=
  rev (keep (fun r => existsb (member_of (T_ID r) u) (tt_members t)) (tt_teams t)).

Definition RenameTeam (id : uuid) (name : string) : TeamTables -> TeamTables :=
  set_teams (map (fun r => if N.eqb (T_ID r) id
    then {| T_ID := T_ID r; T_OrgID := T_OrgID r; T_Name := name; CreatedBy := CreatedBy r |} else r)).

(** [DeleteTeam]; the rows of the team in the other tables go with it
    (ON DELETE CASCADE). *)
Definition DeleteTeam (id : uuid) (t : TeamTables) : TeamTables :=
  {| tt_teams := keep (fun r => negb (N.eqb (T_ID r) id)) (tt_teams t);
     tt_members := keep (fun r => negb (N.eqb (TM_Team r) id)) (tt_members t);
     tt_invites := keep (fun r => negb (N.eqb (TI_Team r) id)) (tt_invites t);
     tt_zones := keep (fun r => negb (N.eqb (Z_Team r) id)) (tt_zones t) |}.

(** ** Members *)

Definition AddTeamMember (team user : uuid) (role : string) (t : TeamTables) : TeamTables :=
  if existsb (member_of team user) (tt_members t) then t
  else set_members (fun l => l ++ [{| TM_Team := team; TM_User := user; Role := role |}]) t.

Definition RemoveTeamMember (team user : uuid) : TeamTables -> TeamTables :=
  set_members (keep (fun m => negb (member_of team user m))).

Definition owner_of (team : uuid) (m : TeamMember) : bool :=
  N.eqb (TM_Team m) team && String.eqb (Role m) "owner".

(** [RemoveTeamMemberKeepingOwner], one transaction under the team's lock;
    [false] is [ErrLastOwner]. *)
Definition RemoveTeamMemberKeepingOwner (team user : uuid) (t : TeamTables) : bool * TeamTables :=
  match List.find (member_of team user) (tt_members t) with
  | None => (true, t)
  | Some m =>
      let others := keep (fun m => owner_of team m && negb (N.eqb (TM_User m) user)) (tt_members t) in
      if String.eqb (Role m) "owner" && Nat.eqb (length others) 0 then (false, t)
      else (true, RemoveTeamMember team user t)
  end.

Definition GetTeamMember (t : TeamTables) (team user : uuid) : option TeamMember :=
  List.find (member_of team user) (tt_members t).

Definition ListTeamMembers (t : TeamTables) (team : uuid) : list TeamMember :=
  keep (fun m => N.eqb (TM_Team m) team) (tt_members t).

(** ** Invitations *)

Definition CreateTeamInvite (id team : uuid) (email : string) (by_ : uuid) (token : string)
    (now : time) (t : TeamTables) : TeamInvite * TeamTables :=
  let row := {| TI_ID := id; TI_Team := team; InviteeEmail := email; InvitedBy := by_;
                Token := token; TI_Status := "pending"; ExpiresAt := Add now (7 * 24 * Hour) |} in
  (row, set_invites (fun l => l ++ [row]) t).

Definition GetTeamInviteByToken (t : TeamTables) (token : string) : option TeamInvite :=
  List.find (fun i => String.eqb (Token i) token) (tt_invites t).

Definition set_status (status : string) (i : TeamInvite) : TeamInvite :=
  {| TI_ID := TI_ID i; TI_Team := TI_Team i; InviteeEmail := InviteeEmail i;
     InvitedBy := InvitedBy i; Token := Token i; TI_Status := status; ExpiresAt := ExpiresAt i |}.

Definition AcceptTeamInvite (id : uuid) : TeamTables -> TeamTables :=
  set_invites (map (fun i => if N.eqb (TI_ID i) id then set_status "accepted" i else i)).

Definition ExpireOldInvites (now : time) : TeamTables -> TeamTables :=
  set_invites (map (fun i => if String.eqb (TI_Status i) "pending" && Before (ExpiresAt i) now
                             then set_status "expired" i else i)).

(** ** No-meeting zones *)

Definition CreateNoMeetingZone (id team : uuid) (day : Z) (start end_ label : string)
    (t : TeamTables) : NoMeetingZone * TeamTables :=
  let row := {| Z_ID := id; Z_Team := team; DayOfWeek := day; StartTime := start; EndTime := end_;
                Label := label |} in
  (row, set_zones (fun l => l ++ [row]) t).

(** [ORDER BY day_of_week, start_time]; [minutes] reads the TIME column. *)
Definition ListNoMeetingZones (minutes : string -> Z) (t : TeamTables) (team : uuid)
    : list NoMeetingZone :=
  order_by DayOfWeek (order_by (fun z => minutes (StartTime z))
    (keep (fun z => N.eqb (Z_Team z) team) (tt_zones t))).

Definition zone_in (id team : uuid) (z : NoMeetingZone) : bool :=
  N.eqb (Z_ID z) id && N.eqb (Z_Team z) team.

Definition UpdateNoMeetingZone (id team : uuid) (day : Z) (start end_ label : string)
    (t : TeamTables) : option NoMeetingZone * TeamTables :=
  let t' := set_zones (map (fun z => if zone_in id team z
    then {| Z_ID := Z_ID z; Z_Team := Z_Team z; DayOfWeek := day; StartTime := start;
            EndTime := end_; Label := label |} else z)) t in
  (List.find (zone_in id team) (tt_zones t'), t').

Definition DeleteNoMeetingZone (id team : uuid) : TeamTables -> TeamTables :=
  set_zones (keep (fun z => negb (zone_in id team z))).

(** [OwnsTeamWithMember]. *)
Definition OwnsTeamWithMember (t : TeamTables) (owner member : uuid) : bool :=
  existsb (fun o => N.eqb (TM_User o) owner && String.eqb (Role o) "owner" &&
    existsb (fun m => N.eqb (TM_Team m) (TM_Team o) && N.eqb (TM_User m) member &&
                      negb (N.eqb (TM_User m) (TM_User o))) (tt_members t)) (tt_members t).

(** ** Properties *)

Definition has_owner (t : TeamTables) (team : uuid) : Prop :=
  exists m, m ∈ tt_members t /\ owner_of team m = true.

(** The operations on the membership that the handlers apply to a team. *)
Inductive member_step (t t' : TeamTables) : Prop :=
| ms_add (team user : uuid) (role : string) (H : t' = AddTeamMember team user role t)
| ms_remove (team user : uuid) (H : t' = (RemoveTeamMemberKeepingOwner team user t).2).

Lemma add_has_owner team user role t x :
  has_owner t x -> has_owner (AddTeamMember team user role t) x.
Proof.
  intros (m & Hm & Ho). unfold AddTeamMember. destruct (existsb _ _); [by exists m|].
  exists m. split; [|done]. simpl. apply elem_of_app. by left.
Qed.

Lemma remove_keeps_others team user t m :
  m ∈ tt_members t -> member_of team user m = false ->
  m ∈ tt_members (RemoveTeamMember team user t).
Proof. intros Hm Hk. simpl. apply elem_of_keep. by rewrite Hk. Qed.

Lemma remove_has_owner team user t x :
  NoDup (map (fun m => (TM_Team m, TM_User m)) (tt_members t)) ->
  has_owner t x -> has_owner (RemoveTeamMemberKeepingOwner team user t).2 x.
Proof.
  intros Hnd (m & Hm & Ho). unfold RemoveTeamMemberKeepingOwner.
  destruct (List.find (member_of team user) (tt_members t)) as [mu|] eqn:Ef; [|by exists m].
  apply List.find_some in Ef as [Hmu Hk]. apply list_elem_of_In in Hmu.
  destruct (String.eqb (Role mu) "owner" && _) eqn:El; [by exists m|]. cbn [snd].
  destruct (member_of team user m) eqn:Emm; [|exists m; split; [by apply remove_keeps_others|done]].
  assert (m = mu) as ->.
  { unfold member_of in *. apply andb_true_iff in Hk as [H1%N.eqb_eq H2%N.eqb_eq],
      Emm as [H3%N.eqb_eq H4%N.eqb_eq].
    apply (NoDup_map_elem (fun m => (TM_Team m, TM_User m)) (tt_members t)); [done..|]. congruence. }
  unfold owner_of in Ho. apply andb_true_iff in Ho as [Hx%N.eqb_eq Hr].
  unfold member_of in Hk. apply andb_true_iff in Hk as [Hteam%N.eqb_eq Huser%N.eqb_eq].
  rewrite Hr in El. cbn [andb] in El. apply Nat.eqb_neq in El.
  destruct (keep _ _) as [|o os] eqn:Ek in El; [done|].
  assert (Ho : o ∈ keep (fun m => owner_of team m && negb (N.eqb (TM_User m) user)) (tt_members t))
    by (rewrite Ek; left).
  apply elem_of_keep in Ho as [Ho Hp]. apply andb_true_iff in Hp as [Hown Hne%negb_true_iff].
  exists o. split.
  - apply remove_keeps_others; [done|]. unfold member_of. by rewrite Hne, andb_false_r.
  - unfold owner_of in *. congruence.
Qed.

Lemma member_step_keys t t' :
  member_step t t' ->
  NoDup (map (fun m => (TM_Team m, TM_User m)) (tt_members t)) ->
  NoDup (map (fun m => (TM_Team m, TM_User m)) (tt_members t')).
Proof.
  intros [team user role ->|team user ->] Hn.
  - unfold AddTeamMember. destruct (existsb _ _) eqn:E; [done|]. simpl.
    rewrite map_app. apply NoDup_app. split; [done|]. split; [|apply NoDup_singleton].
    intros k Hk ->%list_elem_of_singleton. apply list_elem_of_In, in_map_iff in Hk as (m & Ek & Hm).
    rewrite existsb_elem_false in E. specialize (E m (proj2 (list_elem_of_In _ _) Hm)).
    injection Ek as E1 E2. unfold member_of in E. by rewrite E1, E2, !N.eqb_refl in E.
  - unfold RemoveTeamMemberKeepingOwner. destruct (List.find _ _); [|done].
    destruct (_ && _); [done|]. simpl. revert Hn. generalize (tt_members t) as l. intros l.
    induction l as [|m l IH]; intros Hn; [done|]. simpl in *. apply NoDup_cons in Hn as [Hni Hn].
    destruct (negb _); [|by apply IH]. simpl. apply NoDup_cons. split; [|by apply IH].
    intros Hin. apply Hni. apply list_elem_of_In, in_map_iff in Hin as (x & Ex & Hx).
    apply list_elem_of_In in Hx. apply elem_of_keep in Hx as [Hx _].
    apply list_elem_of_In, in_map_iff. exists x. split; [done|]. by apply list_elem_of_In.
Qed.

(** A team that has an owner never loses its last one, whatever members are
    added and removed. *)
Theorem team_keeps_owner t t' team :
  rtc member_step t t' ->
  NoDup (map (fun m => (TM_Team m, TM_User m)) (tt_members t)) ->
  has_owner t team -> has_owner t' team.
Proof.
  induction 1 as [|t t1 t' Hs _ IH]; [done|]. intros Hn Ho.
  apply IH; [by apply (member_step_keys t)|].
  destruct Hs as [a u r ->|a u ->]; [by apply add_has_owner|by apply remove_has_owner].
Qed.

(** A person's minutes are shown only to an owner of a team they are on, and
    never to themselves by this gate. *)
Theorem OwnsTeamWithMember_spec t owner member :
  OwnsTeamWithMember t owner member = true <->
  owner <> member /\ exists team,
    (exists o, o ∈ tt_members t /\ TM_Team o = team /\ TM_User o = owner /\ Role o = "owner") /\
    (exists m, m ∈ tt_members t /\ TM_Team m = team /\ TM_User m = member).
Proof.
  unfold OwnsTeamWithMember. rewrite existsb_elem. setoid_rewrite andb_true_iff.
  setoid_rewrite andb_true_iff. setoid_rewrite existsb_elem.
  split.
  - intros (o & Ho & (Eo%N.eqb_eq & Er%String.eqb_eq) & m & Hm & Hk).
    apply andb_true_iff in Hk as [[Et%N.eqb_eq Em%N.eqb_eq]%andb_true_iff Hne%negb_true_iff].
    apply N.eqb_neq in Hne. split; [congruence|]. exists (TM_Team o). split; eauto 6.
  - intros (Hne & team & (o & Ho & Et & Eo & Er) & (m & Hm & Et' & Em)).
    exists o. split; [done|]. split; [by rewrite N.eqb_eq, String.eqb_eq|].
    exists m. split; [done|]. rewrite !andb_true_iff, negb_true_iff, !N.eqb_eq, N.eqb_neq.
    split_and!; congruence.
Qed.

Definition demo_team : TeamTables := {|
  tt_teams := [{| T_ID := 1%N; T_OrgID := None; T_Name := "Core"; CreatedBy := 10%N |}];
  tt_members := [{| TM_Team := 1%N; TM_User := 10%N; Role := "owner" |};
                 {| TM_Team := 1%N; TM_User := 11%N; Role := "member" |}];
  tt_invites := []; tt_zones := [] |}.

Lemma team_keeps_owner_witness :
  (RemoveTeamMemberKeepingOwner 1%N 10%N demo_team).1 = false /\
  has_owner (RemoveTeamMemberKeepingOwner 1%N 10%N
    (RemoveTeamMemberKeepingOwner 1%N 11%N demo_team).2).2 1%N.
Proof.
  split; [reflexivity|].
  apply (team_keeps_owner demo_team).
  - eapply rtc_l; [by eapply ms_remove|]. apply rtc_once. by eapply ms_remove.
  - apply NoDup_cons. split; [|apply NoDup_singleton]. apply not_elem_of_cons.
    split; [discriminate|apply not_elem_of_nil].
  - eexists. split; [left|reflexivity].
Defined.
