(* ===== verification/SmartSchedule.v ===== *)
(** * The smart scheduler

    [engine/smart_schedule.go]: the suggestion of meeting slots over the
    attendees' free time, their scores, the out-of-hours allowance, and the
    creation of a meeting. *)

From S2P Require Import Prelude GoInt GoTime GoText Interval LinkStore Calendar Settings Buffer.
From S2P Require Import FocusTime Cursor.

#[local] Open Scope string_scope.
#[local] Open Scope list_scope.
#[local] Open Scope Z_scope.

Record ScheduleRequest := {
  SR_DurationMinutes : Z;
  SR_Attendees : list string;
  RangeStart : time;
  RangeEnd : time;
  SR_Title : string;
  SR_Description : string;
  SR_Location : string;
  PreferredTimes : list string;
  AvoidTimes : list string;
}.

Record SuggestedSlot := { Sg_Start : time; Sg_End : time; Score : Z; Reasons : list string }.

(** ** Scores *)

(** [scoreCandidate]: the score and its reasons. *)
Definition scoreCandidate (start end_ : time) (focusBlocks : list FocusBlockRow) : Z * list string :=
  let hour := HourOf start in
  let wd := WeekdayOf start in
  let '(s1, r1) :=
    if (9 <=? hour) && (hour <? 12) then (40, ["Morning slot preferred for important meetings"])
    else if (14 <=? hour) && (hour <? 16) then (20, ["Early afternoon slot"]) else (0, []) in
  let '(s2, r2) :=
    if existsb (fun fb => Before start (FB_End fb) && After end_ (FB_Start fb)) focusBlocks
    then (s1 - 20, r1 ++ ["Overlaps with focus block"]) else (s1, r1) in
  let '(s3, r3) :=
    if (wd =? 5) && (14 <=? hour) then (s2 - 10, r2 ++ ["Friday afternoon — low energy"])
    else (s2, r2) in
  if (wd =? 1) || (wd =? 2) || (wd =? 3)
  then (s3 + 10, r3 ++ ["Earlier in week preferred for planning"]) else (s3, r3).

(** A byte minus '0', as an unsigned byte. *)
Definition digit_byte (c : ascii) : Z := (Z.of_N (N_of_ascii c) - 48) mod 256.

Definition parseHHMMParts (hhmm0 : string) : Z * Z :=
  match String.list_ascii_of_string (TrimSpace hhmm0) with
  | a :: b :: c :: d :: e :: _ =>
      if Ascii.eqb c ":" then (digit_byte a * 10 + digit_byte b, digit_byte d * 10 + digit_byte e)
      else (0, 0)
  | _ => (0, 0)
  end.

Definition timeInHHMMRange (h m : Z) (hhmmRange : string) : bool :=
  match SplitN2 hhmmRange "-" with
  | [a; b] =>
      let '(sh, sm) := parseHHMMParts a in
      let '(eh, em) := parseHHMMParts b in
      (sh * 60 + sm <=? h * 60 + m) && (h * 60 + m <? eh * 60 + em)
  | _ => false
  end.

Definition adjustScoreForPreferences (score : Z) (reasons : list string) (t : time) (loc : Location)
    (preferred avoid : list string) : Z * list string :=
  let h := HourOf (In t loc) in
  let m := MinuteOf (In t loc) in
  let '(s1, r1) := fold_left (fun '(s, r) rng => if timeInHHMMRange h m rng
      then (s + 25, r ++ ["Preferred time window"]) else (s, r)) preferred (score, reasons) in
  fold_left (fun '(s, r) rng => if timeInHHMMRange h m rng
      then (s - 40, r ++ ["Avoid time window"]) else (s, r)) avoid (s1, r1).

(** [sortSlotsByScore]: insertion from the end, stable, highest score first; the
    sorted prefix is kept reversed. *)
Fixpoint sift_slot (x : SuggestedSlot) (rprefix : list SuggestedSlot) : list SuggestedSlot :=
  match rprefix with
  | y :: r => if Score y <? Score x then y :: sift_slot x r else x :: rprefix
  | [] => [x]
  end.

Definition sortSlotsByScore (l : list SuggestedSlot) : list SuggestedSlot :=
  rev (fold_left (fun r x => sift_slot x r) l []).

(** [pickTopUnique]. *)
Definition too_close (minGap : Z) (s p : SuggestedSlot) : bool :=
  let diff := Sub (Sg_Start s) (Sg_Start p) in
  (if diff <? 0 then wrap64 (- diff) else diff) <? minGap.

Fixpoint pick_from (n : nat) (minGap : Z) (slots result : list SuggestedSlot) : list SuggestedSlot :=
  match slots with
  | [] => result
  | s :: r =>
      if Nat.leb n (length result) then result
      else if existsb (too_close minGap s) result then pick_from n minGap r result
      else pick_from n minGap r (result ++ [s])
  end.

Definition pickTopUnique (slots : list SuggestedSlot) (n : nat) (minGap : Z) : list SuggestedSlot :=
  pick_from n minGap slots [].

(** ** Working hours *)

Definition eventIsOutsideWork (start end_ : time) (settings : Settings) (loc : Location) : bool :=
  let '(ws, we, enabled) := WorkWindow (Some settings) (In start loc) in
  if negb enabled then true
  else Before start (parseHHMM ws (In start loc) loc) || After end_ (parseHHMM we (In start loc) loc).

(** The same test as [Suggest] writes it for a candidate. *)
Definition outsideWork (t end_ : time) (s : Settings) (loc : Location) : bool :=
  let '(ws, we, enabled) := WorkWindow (Some s) (In t loc) in
  negb enabled || Before t (parseHHMM ws t loc) || After end_ (parseHHMM we t loc).

Definition meets_lunch (t end_ : time) (s : Settings) (loc : Location) : bool :=
  let '(ls, le, enabled) := LunchWindow (Some s) (In t loc) in
  enabled && Before t (parseHHMM le t loc) && After end_ (parseHHMM ls t loc).

Section Engine.
Context {S : Type} {C : CalendarOps S}.
Context (load : string -> option Location) (local : Location).

Definition zone_of (s : Settings) : Location := default UTC (load (Timezone s)).

Definition counts_out_of_hours (settings : Settings) (loc : Location) (ev : Event) : bool :=
  let '(start, end_) := parseEventTime local ev in
  negb (IsZero start || IsZero end_) && eventIsOutsideWork start end_ settings loc.

Definition canScheduleOutOfHours (st : S) (settings : Settings) (anchor : time) : result bool :=
  if OutOfHoursMeetingsPerWeek settings <=? 0 then Ok false
  else
    let loc := zone_of settings in
    let weekStart := startOfWeek (In anchor loc) in
    events <-? listEvents st weekStart (AddDate weekStart 0 0 7) ;;
    Ok (Z.of_nat (length (keep (counts_out_of_hours settings loc) events))
        <? OutOfHoursMeetingsPerWeek settings).

(** The candidate at one start of a free block, unless it is left out. *)
Definition suggestion (s : Settings) (req : ScheduleRequest) (loc : Location) (allowOut : bool)
    (focusBlocks : list FocusBlockRow) (dur : Z) (t : time) : list SuggestedSlot :=
  let end_ := Add t dur in
  if outsideWork t end_ s loc && negb allowOut then []
  else if meets_lunch t end_ s loc then []
  else
    let '(sc, rs) := scoreCandidate t end_ focusBlocks in
    let '(sc', rs') := adjustScoreForPreferences sc rs t loc (PreferredTimes req) (AvoidTimes req) in
    [{| Sg_Start := t; Sg_End := end_; Score := sc'; Reasons := rs' |}].

Definition block_suggestions (s : Settings) (req : ScheduleRequest) (loc : Location)
    (allowOut : bool) (focusBlocks : list FocusBlockRow) (dur : Z) (free : interval)
    : list SuggestedSlot :=
  let t := if Before (iv_start free) (RangeStart req) then RangeStart req else iv_start free in
  flat_map (suggestion s req loc allowOut focusBlocks dur) (cursor t (iv_end free) dur (30 * Minute)).

(** [Suggest]; [focusBlocks] is the requester's week, empty when it could not
    be read. *)
Definition Suggest (settings : result Settings) (client : result unit)
    (focusBlocks : list FocusBlockRow) (req : ScheduleRequest) (st : S)
    : result (list SuggestedSlot) :=
  s <-? settings ;;
  _ <-? client ;;
  busyMap <-? getFreeBusy st (calendarID :: SR_Attendees req) (RangeStart req) (RangeEnd req) ;;
  let allBusy := mergeIntervals (flat_map snd busyMap) in
  let free := subtractIntervals (Iv (RangeStart req) (RangeEnd req)) allBusy in
  let loc := zone_of s in
  allowOut <-? canScheduleOutOfHours st s (RangeStart req) ;;
  let cands := flat_map (block_suggestions s req loc allowOut focusBlocks
                           (dur_minutes (SR_DurationMinutes req))) free in
  Ok (pickTopUnique (sortSlotsByScore cands) 3 Hour).

Definition meeting_event (req : ScheduleRequest) (slot : SuggestedSlot) : Event :=
  {| ev_Id := ""; Summary := SR_Title req; Description := SR_Description req;
     Location_ := SR_Location req; Status := ""; Transparency := ""; Visibility := "";
     ColorId := ""; OrganizerSelf := None; ev_Start := at_time (Sg_Start slot);
     ev_End := at_time (Sg_End slot);
     Attendees := map (fun e => {| Email := e; ResponseStatus := ""; Self := false;
                                   Organizer_ := false |}) (SR_Attendees req) |}.

(** [CreateMeeting]. *)
Definition CreateMeeting (settings : result Settings) (client : result unit)
    (req : ScheduleRequest) (slot : SuggestedSlot) (st : S) : result string * S :=
  let checked :=
    _ <-? client ;;
    s <-? settings ;;
    if eventIsOutsideWork (Sg_Start slot) (Sg_End slot) s (zone_of s) then
      allowed <-? canScheduleOutOfHours st s (Sg_Start slot) ;;
      if allowed : bool then Ok tt else Err ErrOutOfHoursAllowance
    else Ok tt in
  match checked with
  | Err e => (Err e, st)
  | Ok _ => createEvent st (meeting_event req slot)
  end.
End Engine.

(** ** Facts *)

Lemma sift_slot_perm x l : sift_slot x l ≡ₚ x :: l.
Proof.
  induction l as [|y l IH]; simpl; [done|]. destruct (_ <? _); [|done].
  rewrite IH. apply Permutation_swap.
Qed.

Lemma sortSlotsByScore_perm l : sortSlotsByScore l ≡ₚ l.
Proof.
  unfold sortSlotsByScore. rewrite <- Permutation_rev.
  assert (G : forall acc, fold_left (fun r x => sift_slot x r) l acc ≡ₚ l ++ acc).
  { induction l as [|x l IH]; intros acc; simpl; [done|].
    rewrite IH, sift_slot_perm. symmetry. apply Permutation_middle. }
  by rewrite G, app_nil_r.
Qed.

(** Starts at least a gap apart. *)
Definition apart_by (gap : Z) (a b : SuggestedSlot) : Prop :=
  gap <= Z.abs (t_ns (Sg_Start b) - t_ns (Sg_Start a)).

Lemma too_close_false gap s p :
  0 <= gap <= max_int64 -> too_close gap s p = false -> apart_by gap p s.
Proof.
  unfold too_close, apart_by, Sub, clamp64. intros Hg. cbv zeta.
  set (d := t_ns (Sg_Start s) - t_ns (Sg_Start p)).
  destruct (Z.ltb_spec (Z.max min_int64 (Z.min max_int64 d)) 0) as [Hneg|Hpos]; rewrite Z.ltb_ge.
  - intros H. destruct (decide (d < - max_int64)) as [Hsmall|Hbig]; [lia|].
    rewrite wrap64_small in H; unfold min_int64, max_int64 in *; lia.
  - unfold min_int64, max_int64 in *. lia.
Qed.

Lemma pick_from_spec n gap slots result :
  0 <= gap <= max_int64 ->
  ForallOrdPairs (apart_by gap) result -> (length result <= n)%nat ->
  let out := pick_from n gap slots result in
  ForallOrdPairs (apart_by gap) out /\ (length out <= n)%nat /\
  (forall s, s ∈ out -> s ∈ result \/ s ∈ slots) /\
  exists more, out = result ++ more.
Proof.
  intros Hg. revert result. induction slots as [|s slots IH]; intros result Ho Hn; simpl.
  - split_and!; try done; [auto|exists []; by rewrite app_nil_r].
  - destruct (Nat.leb_spec n (length result)).
    { split_and!; try done; [auto|exists []; by rewrite app_nil_r]. }
    destruct (existsb (too_close gap s) result) eqn:E.
    + destruct (IH result Ho Hn) as (H1 & H2 & H3 & H4). split_and!; try done.
      intros x Hx. destruct (H3 x Hx); [by left|right; by right].
    + destruct (IH (result ++ [s])) as (H1 & H2 & H3 & more & H4).
      * apply ForallOrdPairs_snoc; [done|]. apply Forall_forall. intros p Hp.
        apply too_close_false; [done|]. rewrite existsb_elem_false in E. by apply E.
      * rewrite length_app. simpl. lia.
      * split_and!; try done.
        -- intros x Hx. destruct (H3 x Hx) as [Hx'|Hx']; [|right; by right].
           apply elem_of_app in Hx' as [Hy| ->%list_elem_of_singleton]; [by left|right; left].
        -- exists (s :: more). by rewrite H4, <- app_assoc.
Qed.

Section Facts.
Context {S : Type} {C : CalendarOps S}.
Context (load : string -> option Location) (local : Location).

(** What a suggested slot went through. *)
Lemma Suggest_Ok settings client fbs req (st : S) slots s :
  Suggest load local settings client fbs req st = Ok slots -> s ∈ slots ->
  exists st_ busyMap free allowOut,
    settings = Ok st_ /\ client = Ok tt /\
    getFreeBusy st (calendarID :: SR_Attendees req) (RangeStart req) (RangeEnd req) = Ok busyMap /\
    free ∈ subtractIntervals (Iv (RangeStart req) (RangeEnd req)) (mergeIntervals (flat_map snd busyMap)) /\
    canScheduleOutOfHours load local st st_ (RangeStart req) = Ok allowOut /\
    s ∈ block_suggestions st_ req (zone_of load st_) allowOut fbs
          (dur_minutes (SR_DurationMinutes req)) free.
Proof.
  unfold Suggest. intros H Hs. destruct settings as [st_|]; [|discriminate].
  destruct client as [ []|e]; [|discriminate]. cbn [rbind] in H.
  destruct (getFreeBusy _ _ _ _) as [bm|] eqn:Eb; [|discriminate]. cbn [rbind] in H. cbv zeta in H.
  destruct (canScheduleOutOfHours _ _ _ _ _) as [al|] eqn:Ea; [|discriminate].
  cbn [rbind] in H. injection H as <-.
  pose proof (pick_from_spec 3 Hour (sortSlotsByScore (flat_map (block_suggestions st_ req
    (zone_of load st_) al fbs (dur_minutes (SR_DurationMinutes req)))
    (subtractIntervals (Iv (RangeStart req) (RangeEnd req)) (mergeIntervals (flat_map snd bm))))) []
    ltac:(vm_compute; split; discriminate) ltac:(constructor) ltac:(simpl; lia)) as (_ & _ & H3 & _).
  destruct (H3 s Hs) as [Hin%not_elem_of_nil|Hin]; [done|].
  rewrite sortSlotsByScore_perm in Hin. apply elem_of_flat_map in Hin as (free & Hf & Hin).
  exists st_, bm, free, al. done.
Qed.

Lemma elem_of_block_suggestions s req loc al fbs dur free x :
  x ∈ block_suggestions s req loc al fbs dur free ->
  Sg_End x = Add (Sg_Start x) dur /\
  t_ns (RangeStart req) <= t_ns (Sg_Start x) /\ t_ns (iv_start free) <= t_ns (Sg_Start x) /\
  t_ns (Sg_End x) <= t_ns (iv_end free) /\
  (al = true \/ outsideWork (Sg_Start x) (Sg_End x) s loc = false) /\
  meets_lunch (Sg_Start x) (Sg_End x) s loc = false.
Proof.
  unfold block_suggestions. intros (t & Ht & Hx)%elem_of_flat_map.
  apply elem_of_cursor in Ht as (k & Hk & Et & He); [|done].
  unfold suggestion in Hx. cbv zeta in Hx.
  destruct (outsideWork t (Add t dur) s loc && negb al) eqn:E1; [by apply not_elem_of_nil in Hx|].
  destruct (meets_lunch t (Add t dur) s loc) eqn:E2; [by apply not_elem_of_nil in Hx|].
  destruct (scoreCandidate _ _ _) as [sc rs]. destruct (adjustScoreForPreferences _ _ _ _ _ _) as [sc' rs'].
  apply list_elem_of_singleton in Hx as ->. cbn [Sg_Start Sg_End].
  assert (Hge : t_ns (RangeStart req) <= t_ns t /\ t_ns (iv_start free) <= t_ns t).
  { rewrite Et. unfold Add. cbn [t_ns]. assert (0 <= k * (30 * Minute)) by (unfold Minute, Second; lia).
    destruct (Before (iv_start free) (RangeStart req)) eqn:Eb;
      [apply Before_lt in Eb|apply Before_ge in Eb]; lia. }
  split_and!; try done; [apply Hge|apply Hge|].
  apply andb_false_iff in E1 as [E1|E1]; [by right|left]. by destruct al.
Qed.
End Facts.

(** ** Properties *)

(** A suggestion is a meeting of the requested length inside the requested
    range, free of every busy interval the provider reports for the requester
    and the attendees, clear of the lunch window, and inside working hours
    unless the out-of-hours allowance of the week is not spent. *)
Theorem Suggest_sound {S} {C : CalendarOps S} load local settings client fbs req (st : S) slots s x :
  0 <= SR_DurationMinutes req <= max_dur_minutes ->
  Suggest load local settings client fbs req st = Ok slots -> s ∈ slots ->
  t_ns (Sg_End s) = t_ns (Sg_Start s) + SR_DurationMinutes req * Minute /\
  t_ns (RangeStart req) <= t_ns (Sg_Start s) /\
  (t_ns (Sg_Start s) <= x < t_ns (Sg_End s) -> x < t_ns (RangeEnd req)) /\
  exists st_, settings = Ok st_ /\
    meets_lunch (Sg_Start s) (Sg_End s) st_ (zone_of load st_) = false /\
    (outsideWork (Sg_Start s) (Sg_End s) st_ (zone_of load st_) = false \/
     canScheduleOutOfHours load local st st_ (RangeStart req) = Ok true) /\
    forall busyMap email ivs iv,
      getFreeBusy st (calendarID :: SR_Attendees req) (RangeStart req) (RangeEnd req) = Ok busyMap ->
      (email, ivs) ∈ busyMap -> iv ∈ ivs ->
      t_ns (Sg_Start s) <= x < t_ns (Sg_End s) -> ~ covers iv x.
Proof.
  intros Hd H Hs.
  destruct (Suggest_Ok _ _ _ _ _ _ _ _ _ H Hs) as (st_ & bm & free & al & -> & _ & Hb & Hf & Ha & Hx).
  destruct (elem_of_block_suggestions _ _ _ _ _ _ _ _ Hx) as (E & H1 & H2 & H3 & H4 & H5).
  rewrite dur_minutes_small in * by lia.
  assert (Hcov : t_ns (Sg_Start s) <= x < t_ns (Sg_End s) ->
    covers (Iv (RangeStart req) (RangeEnd req)) x /\ ~ covered (mergeIntervals (flat_map snd bm)) x).
  { intros Hin. apply subtractIntervals_covered. exists free. split; [done|]. unfold covers. lia. }
  split; [by rewrite E|]. split; [done|]. split.
  { intros Hin. destruct (Hcov Hin) as [[_ Hlt] _]. exact Hlt. }
  exists st_. split; [done|]. split; [done|]. split.
  - destruct H4 as [->|H4]; [by right|by left].
  - intros bm' email ivs iv Hb' He Hiv Hin Hc. rewrite Hb in Hb'. injection Hb' as <-.
    destruct (Hcov Hin) as [_ Hn]. apply Hn, mergeIntervals_covered, covered_flat_map.
    exists (email, ivs). split; [done|]. by exists iv.
Qed.

(** At most three suggestions are returned, at least an hour apart. *)
Theorem Suggest_distinct {S} {C : CalendarOps S} load local settings client fbs req (st : S) slots :
  Suggest load local settings client fbs req st = Ok slots ->
  (length slots <= 3)%nat /\ ForallOrdPairs (apart_by Hour) slots.
Proof.
  unfold Suggest. intros H. destruct settings as [st_|]; [|discriminate].
  destruct client as [ []|e]; [|discriminate]. cbn [rbind] in H.
  destruct (getFreeBusy _ _ _ _) as [bm|]; [|discriminate]. cbn [rbind] in H. cbv zeta in H.
  destruct (canScheduleOutOfHours _ _ _ _ _) as [al|]; [|discriminate].
  cbn [rbind] in H. injection H as <-. unfold pickTopUnique.
  match goal with |- context [pick_from 3 Hour ?l []] => generalize l end. intros l.
  destruct (pick_from_spec 3 Hour l [] ltac:(vm_compute; split; discriminate) ltac:(constructor)
    ltac:(simpl; lia)) as (H1 & H2 & _). done.
Qed.

(** A meeting outside working hours is created only while the week's allowance
    is not spent; a refused meeting leaves the calendar as it was. *)
Theorem CreateMeeting_allowance {S} {C : CalendarOps S} load local settings client req slot (st : S)
    s :
  settings = Ok s ->
  eventIsOutsideWork (Sg_Start slot) (Sg_End slot) s (zone_of load s) = true ->
  canScheduleOutOfHours load local st s (Sg_Start slot) <> Ok true ->
  (exists e, CreateMeeting load local settings client req slot st = (Err e, st)) /\
  (client = Ok tt -> canScheduleOutOfHours load local st s (Sg_Start slot) = Ok false ->
   CreateMeeting load local settings client req slot st = (Err ErrOutOfHoursAllowance, st)).
Proof.
  intros -> Hout Hno. unfold CreateMeeting. cbv zeta.
  destruct client as [ []|e]; cbn [rbind]; [|split; [by eexists|discriminate]].
  rewrite Hout. destruct (canScheduleOutOfHours _ _ _ _ _) as [ []|e]; [done| |]; cbn [rbind].
  - split; [by eexists|done].
  - split; [by eexists|discriminate].
Qed.

(** When the instant has the same date in its own zone and in the user's, the
    suggestion's test and the creation's test of working hours agree. *)
Theorem work_tests_agree t end_ s loc :
  DateOf t = DateOf (In t loc) ->
  outsideWork t end_ s loc = eventIsOutsideWork t end_ s loc.
Proof.
  intros Hd. unfold outsideWork, eventIsOutsideWork.
  destruct (WorkWindow (Some s) (In t loc)) as [[ws we] en].
  assert (E : forall str, parseHHMM str t loc = parseHHMM str (In t loc) loc)
    by (intros str; unfold parseHHMM; by rewrite <- Hd).
  rewrite !E. by destruct en.
Qed.

(** When it has not, they do not.  In Auckland on a working Tuesday at ten in the
    morning, given in UTC (Monday evening there), a meeting is inside working
    hours for the creation and outside for the suggestion: the suggestion
    compares it with Monday's hours. *)
Theorem work_tests_disagree_east :
  let loc := FixedZone (13 * 3600) in
  let s := Buffer.Demo.settings in
  let t := Date 2025 1 6 21 0 0 0 UTC in
  FormatHHMM (In t loc) = "10:00" /\
  eventIsOutsideWork t (Add t (30 * Minute)) s loc = false /\
  outsideWork t (Add t (30 * Minute)) s loc = true.
Proof. vm_compute. auto. Qed.

(** ** A concrete request *)

#[local] Existing Instance FocusTime.Demo.calendar_ops.

Module SmartDemo.
Definition req : ScheduleRequest := {|
  SR_DurationMinutes := 60; SR_Attendees := ["bob@y.org"];
  RangeStart := Date 2025 1 6 8 0 0 0 UTC; RangeEnd := Date 2025 1 6 18 0 0 0 UTC;
  SR_Title := "Sync"; SR_Description := ""; SR_Location := "";
  PreferredTimes := ["10:00-12:00"]; AvoidTimes := [] |}.
Definition answer : result (list SuggestedSlot) :=
  Suggest (fun _ => Some UTC) UTC (Ok Buffer.Demo.settings) (Ok tt) [] req
    ([] : FocusTime.Demo.calendar).
Definition slots : list SuggestedSlot := match answer with Ok l => l | Err _ => [] end.
Definition late : SuggestedSlot :=
  {| Sg_Start := Date 2025 1 6 20 0 0 0 UTC; Sg_End := Date 2025 1 6 21 0 0 0 UTC; Score := 0;
     Reasons := [] |}.
End SmartDemo.

Example SmartDemo_slots :
  map (fun s => (FormatHHMM (Sg_Start s), Score s)) SmartDemo.slots
  = [("10:00", 75); ("11:00", 75); ("09:00", 50)].
Proof. vm_compute. reflexivity. Qed.

Lemma SmartDemo_answer : SmartDemo.answer = Ok SmartDemo.slots.
Proof. vm_compute. reflexivity. Qed.

Lemma Suggest_sound_witness :
  Forall (fun s => t_ns (Sg_End s) = t_ns (Sg_Start s) + 60 * Minute /\
    exists st_, Ok Buffer.Demo.settings = Ok st_ :> result Settings /\
      meets_lunch (Sg_Start s) (Sg_End s) st_ UTC = false) SmartDemo.slots.
Proof.
  apply Forall_forall. intros s Hs.
  destruct (Suggest_sound (fun _ => Some UTC) UTC (Ok Buffer.Demo.settings) (Ok tt) [] SmartDemo.req
    ([] : FocusTime.Demo.calendar) SmartDemo.slots s 0)
    as (H1 & _ & _ & st_ & H2 & H3 & _).
  - unfold max_dur_minutes. simpl. lia.
  - exact SmartDemo_answer.
  - exact Hs.
  - split; [exact H1|]. by exists st_.
Defined.

Lemma Suggest_distinct_witness : ForallOrdPairs (apart_by Hour) SmartDemo.slots.
Proof.
  exact (proj2 (Suggest_distinct (fun _ => Some UTC) UTC (Ok Buffer.Demo.settings) (Ok tt) []
    SmartDemo.req ([] : FocusTime.Demo.calendar) SmartDemo.slots SmartDemo_answer)).
Defined.

Lemma CreateMeeting_allowance_witness :
  CreateMeeting (fun _ => Some UTC) UTC (Ok Buffer.Demo.settings) (Ok tt) SmartDemo.req
    SmartDemo.late ([] : FocusTime.Demo.calendar) = (Err ErrOutOfHoursAllowance, []).
Proof.
  apply (CreateMeeting_allowance (fun _ => Some UTC) UTC (Ok Buffer.Demo.settings) (Ok tt)
    SmartDemo.req SmartDemo.late ([] : FocusTime.Demo.calendar) Buffer.Demo.settings eq_refl).
  - vm_compute. reflexivity.
  - discriminate.
  - reflexivity.
  - reflexivity.
Defined.

Lemma work_tests_agree_witness :
  let t := Date 2025 1 6 10 0 0 0 UTC in
  outsideWork t (Add t Hour) Buffer.Demo.settings UTC =
  eventIsOutsideWork t (Add t Hour) Buffer.Demo.settings UTC.
Proof. intros t. apply work_tests_agree. vm_compute. reflexivity. Defined.
