(* ===== verification/Compression.v ===== *)
(** * Meeting compression

    [engine/compression.go]: the proposals that move a day's meetings to leave a
    larger free stretch, and their application.  The busy time of the other
    meetings is a Go slice whose backing array the search shares with the lists
    it builds from it; the model keeps what the code then reads through it. *)

From S2P Require Import Prelude GoInt GoTime GoText Interval LinkStore Calendar Settings Buffer FocusTime.

#[local] Open Scope string_scope.
#[local] Open Scope list_scope.
#[local] Open Scope Z_scope.

Record MoveProposal := {
  EventID : string;
  EventTitle : string;
  CurrentStart : time;
  CurrentEnd : time;
  ProposedStart : time;
  ProposedEnd : time;
  FocusGainMinutes : Z;
}.

Record CompressionResult := {
  CR_Date : string;
  Proposals : list MoveProposal;
  TotalFocusGainMinutes : Z;
}.

(** [eventInterval]: an event with its readable times. *)
Record eventSpan := { es_event : Event; es_start : time; es_end : time }.

Definition span_interval (e : eventSpan) : interval := Iv (es_start e) (es_end e).

(** [classifyEvents]: the events that can be moved, and the others. *)
Definition readable_span (local : Location) (workStart workEnd : time) (ev : Event)
    : list eventSpan :=
  match parsed_times local ev with
  | None => []
  | Some (start, end_) =>
      if match ev_Start ev with Some s => String.eqb (DateTime s) "" | None => true end then []
      else if Before end_ workStart || After start workEnd then []
      else [{| es_event := ev; es_start := start; es_end := end_ |}]
  end.

Definition moveable_event (ev : Event) : bool :=
  match OrganizerSelf ev with Some self => self | None => false end && negb (transparent ev).

Definition classifyEvents (local : Location) (events : list Event) (workStart workEnd : time)
    : list eventSpan * list eventSpan :=
  let spans := flat_map (readable_span local workStart workEnd) events in
  (keep (fun e => moveable_event (es_event e)) spans,
   keep (fun e => negb (moveable_event (es_event e))) spans).

Definition toIntervals (l : list eventSpan) : list interval := map span_interval l.

Definition toIntervalsExcept (l : list eventSpan) (excludeID : string) : list interval :=
  map span_interval (keep (fun e => negb (String.eqb (ev_Id (es_event e)) excludeID)) l).

Definition extractAttendees (e : eventSpan) : list string :=
  map Email (keep (fun a => negb (Self a) && negb (String.eqb (ResponseStatus a) "declined"))
               (Attendees (es_event e))).

(** [generateAdjacentPositions]. *)
Definition positions_around (workStart : time) (dur : Z) (o : interval) : list time :=
  let t := Add (iv_start o) (- dur) in
  iv_end o :: (if negb (Before t workStart) then [t] else []).

Definition generateAdjacentPositions (others fixed : list interval) (workStart : time) (dur : Z)
    : list time :=
  workStart :: flat_map (positions_around workStart dur) (others ++ fixed).

Definition overlapsWith (iv : interval) (others : list interval) : bool :=
  existsb (fun o => Before (iv_start iv) (iv_end o) && After (iv_end iv) (iv_start o)) others.

Definition hasConflict (busy : list (string * list interval)) (start end_ : time) : bool :=
  existsb (fun p => existsb (fun s => Before start (iv_end s) && After end_ (iv_start s)) p.2) busy.

Definition largestSlot (slots : list interval) : Z :=
  fold_left (fun m s => let d := Sub (iv_end s) (iv_start s) in if m <? d then d else m) slots 0.

Section Engine.
Context {S : Type} {C : CalendarOps S}.
(** [time.LoadLocation], the zone of the process, Go's [==] on two times, and
    the capacity of a slice of [n] intervals grown by [append] one at a time. *)
Context (load : string -> option Location) (local : Location)
  (timeEq : time -> time -> bool) (growcap : nat -> nat).

(** What one move is searched with: the calendar, the bounds of the day, the
    fixed busy time and the largest free stretch today. *)
Record Search := {
  se_cal : S;
  se_start : time;
  se_end : time;
  se_fixed : list interval;
  se_largest : Z;
}.

(** [append(otherMoveable, otherFixed...)] then [append(..., candidate)] and
    the sort in place of [mergeIntervals]: when the capacity of
    [otherMoveable] holds them all they are one array, and [otherMoveable]
    afterwards reads the front of the sorted array. *)
Definition after_sort (others fixed : list interval) (cand : interval) : list interval :=
  let n := length others in
  if Nat.leb (n + length fixed + 1) (growcap n)
  then take n (sortIntervals (others ++ fixed ++ [cand])) else others.

(** The search over the candidate positions of one meeting; [others] is what
    [otherMoveable] reads when the position is tried. *)
Fixpoint try_positions (se : Search) (mv : eventSpan) (dur : Z) (emails : list string)
    (positions : list time) (others : list interval) : option MoveProposal :=
  match positions with
  | [] => None
  | candidate :: rest =>
      let proposedEnd := Add candidate dur in
      let iv := Iv candidate proposedEnd in
      if timeEq candidate (es_start mv) then try_positions se mv dur emails rest others
      else if After proposedEnd (se_end se) then try_positions se mv dur emails rest others
      else if overlapsWith iv (others ++ se_fixed se)
      then try_positions se mv dur emails rest others
      else if match emails with
              | [] => false
              | _ => match getFreeBusy (se_cal se) emails candidate proposedEnd with
                     | Err _ => true
                     | Ok busy => hasConflict busy candidate proposedEnd
                     end
              end
      then try_positions se mv dur emails rest others
      else
        let newFree := subtractIntervals (Iv (se_start se) (se_end se))
                         (mergeIntervals (others ++ se_fixed se ++ [iv])) in
        let gain := int_minutes (wrap64 (largestSlot newFree - se_largest se)) in
        if 30 <? gain then
          Some {| EventID := ev_Id (es_event mv); EventTitle := Summary (es_event mv);
                  CurrentStart := es_start mv; CurrentEnd := es_end mv;
                  ProposedStart := candidate; ProposedEnd := proposedEnd;
                  FocusGainMinutes := gain |}
        else try_positions se mv dur emails rest (after_sort others (se_fixed se) iv)
  end.

(** The proposal for one moveable meeting. *)
Definition propose (se : Search) (moveable : list eventSpan) (mv : eventSpan)
    : option MoveProposal :=
  let dur := Sub (es_end mv) (es_start mv) in
  let others := toIntervalsExcept moveable (ev_Id (es_event mv)) in
  try_positions se mv dur (extractAttendees mv)
    (generateAdjacentPositions others (se_fixed se) (se_start se) dur) others.

Definition lunch_of (lunch : string * string * bool) (date : time) (loc : Location)
    : list interval :=
  let '(ls, le, on) := lunch in
  if on then [Iv (parseHHMM ls date loc) (parseHHMM le date loc)] else [].

(** [SuggestForDay]. *)
Definition SuggestForDay (settings : result Settings) (client : result unit) (date : time)
    (st : S) : result CompressionResult :=
  s <-? settings ;;
  _ <-? client ;;
  let loc := default UTC (load (Timezone s)) in
  let '(ws, we, on) := WorkWindow (Some s) (In date loc) in
  let lunch := lunch_of (LunchWindow (Some s) (In date loc)) date loc in
  let dateStr := FormatDateOnly date in
  if negb on then Ok {| CR_Date := dateStr; Proposals := []; TotalFocusGainMinutes := 0 |}
  else
    let c := DateOf date in
    let dayStart := Date (c_year c) (c_month c) (c_day c) 0 0 0 0 loc in
    events <-? listEvents st dayStart (Add dayStart (24 * Hour)) ;;
    let workStart := parseHHMM ws date loc in
    let workEnd := parseHHMM we date loc in
    let '(moveable, fixed) := classifyEvents local events workStart workEnd in
    let currentFree := subtractIntervals (Iv workStart workEnd)
                         (mergeIntervals (toIntervals (moveable ++ fixed) ++ lunch)) in
    let se := {| se_cal := st; se_start := workStart; se_end := workEnd;
                 se_fixed := toIntervals fixed ++ lunch;
                 se_largest := largestSlot currentFree |} in
    let proposals := omap (propose se moveable) moveable in
    Ok {| CR_Date := dateStr; Proposals := proposals;
          TotalFocusGainMinutes := foldr Z.add 0 (map FocusGainMinutes proposals) |}.

(** ** Applying *)

Inductive ApplyFailure := AttendeeConflict (id : string) | CallFailed (id : string) (e : Error).

Definition moved (ev : Event) (p : MoveProposal) : Event :=
  {| ev_Id := ev_Id ev; Summary := Summary ev; Description := Description ev;
     Location_ := Location_ ev; Status := Status ev; Transparency := Transparency ev;
     Visibility := Visibility ev; ColorId := ColorId ev; OrganizerSelf := OrganizerSelf ev;
     ev_Start := at_time (ProposedStart p); ev_End := at_time (ProposedEnd p);
     Attendees := Attendees ev |}.

(** One proposal. *)
Definition apply_one (acc : S * list string * list ApplyFailure) (p : MoveProposal)
    : S * list string * list ApplyFailure :=
  let '(st, applied, failed) := acc in
  let conflict := match getFreeBusy st [] (ProposedStart p) (ProposedEnd p) with
                  | Ok busy => hasConflict busy (ProposedStart p) (ProposedEnd p)
                  | Err _ => false
                  end in
  if conflict then (st, applied, failed ++ [AttendeeConflict (EventID p)])
  else match getEvent st (EventID p) with
  | Err e => (st, applied, failed ++ [CallFailed (EventID p) e])
  | Ok existing =>
      match updateEvent st (EventID p) (moved existing p) with
      | (Err e, st') => (st', applied, failed ++ [CallFailed (EventID p) e])
      | (Ok _, st') => (st', applied ++ [EventID p], failed)
      end
  end.

Definition Apply (client : result unit) (proposals : list MoveProposal) (st : S)
    : result (list string * list ApplyFailure) * S :=
  match client with
  | Err e => (Err e, st)
  | Ok _ => let '(st', applied, failed) := fold_left apply_one proposals (st, [], []) in
            (Ok (applied, failed), st')
  end.

(** ** Facts *)

(** A found position was free of what the search read at that moment. *)
Lemma try_positions_shape se mv dur emails ps others p :
  try_positions se mv dur emails ps others = Some p ->
  EventID p = ev_Id (es_event mv) /\ ProposedEnd p = Add (ProposedStart p) dur /\
  t_ns (ProposedEnd p) <= t_ns (se_end se) /\ ProposedStart p ∈ ps /\
  30 < FocusGainMinutes p /\
  overlapsWith (Iv (ProposedStart p) (ProposedEnd p)) (se_fixed se) = false.
Proof.
  revert others. induction ps as [|c ps IH]; intros others; cbn [try_positions]; [discriminate|].
  assert (Next : forall o, try_positions se mv dur emails ps o = Some p ->
    EventID p = ev_Id (es_event mv) /\ ProposedEnd p = Add (ProposedStart p) dur /\
    t_ns (ProposedEnd p) <= t_ns (se_end se) /\ ProposedStart p ∈ c :: ps /\
    30 < FocusGainMinutes p /\
    overlapsWith (Iv (ProposedStart p) (ProposedEnd p)) (se_fixed se) = false).
  { intros o Ho. destruct (IH o Ho) as (H1 & H2 & H3 & H4 & H5 & H6). split_and!; try done. by apply list_elem_of_further. }
  cbv zeta. destruct (timeEq _ _); [apply Next|].
  destruct (After _ _) eqn:Ea; [apply Next|]. destruct (overlapsWith (Iv c _) _) eqn:Eo; [apply Next|].
  destruct (match emails with [] => false | _ => _ end); [apply Next|].
  destruct (Z.ltb_spec 30 (int_minutes (wrap64 (largestSlot (subtractIntervals
    (Iv (se_start se) (se_end se)) (mergeIntervals (others ++ se_fixed se ++
      [Iv c (Add c dur)]))) - se_largest se)))) as [Hg|]; [|apply Next].
  intros [= <-]. cbn [EventID ProposedEnd ProposedStart FocusGainMinutes].
  apply After_ge in Ea. split_and!; try done; [left|].
  unfold overlapsWith in *. rewrite existsb_app in Eo. by apply orb_false_iff in Eo as [_ Eo].
Qed.

(** With no spare capacity the search always reads the same meetings. *)
Lemma try_positions_no_alias se mv dur emails ps others p :
  (growcap (length others) < length others + length (se_fixed se) + 1)%nat ->
  try_positions se mv dur emails ps others = Some p ->
  overlapsWith (Iv (ProposedStart p) (ProposedEnd p)) others = false.
Proof.
  intros Hcap. induction ps as [|c ps IH]; cbn [try_positions]; [discriminate|]. cbv zeta.
  assert (Hs : forall iv, after_sort others (se_fixed se) iv = others).
  { intros iv. unfold after_sort. by rewrite (proj2 (Nat.leb_gt _ _)). }
  rewrite Hs. destruct (timeEq _ _); [exact IH|].
  destruct (After _ _); [exact IH|]. destruct (overlapsWith (Iv c _) _) eqn:Eo; [exact IH|].
  destruct (match emails with [] => false | _ => _ end); [exact IH|].
  destruct (30 <? _); [|exact IH]. intros [= <-]. cbn [ProposedEnd ProposedStart].
  unfold overlapsWith in *. rewrite existsb_app in Eo. by apply orb_false_iff in Eo as [Eo _].
Qed.

Lemma overlapsWith_free iv others o x :
  overlapsWith iv others = false -> o ∈ others -> covers iv x -> ~ covers o x.
Proof.
  unfold overlapsWith. rewrite existsb_elem_false. intros H Ho Hx Hox. specialize (H o Ho).
  apply not_true_iff_false in H. apply H. rewrite andb_true_iff, Before_lt, After_lt.
  unfold covers in *. lia.
Qed.
End Engine.

(** ** Properties *)

(** What a day's answer is made of. *)
Lemma SuggestForDay_Ok {S} {C : CalendarOps S} load local timeEq growcap settings client date (st : S) r p :
  SuggestForDay load local timeEq growcap settings client date st = Ok r -> p ∈ Proposals r ->
  exists s ws we events moveable fixed mv se,
    settings = Ok s /\
    WorkWindow (Some s) (In date (default UTC (load (Timezone s)))) = (ws, we, true) /\
    classifyEvents local events (se_start se) (se_end se) = (moveable, fixed) /\
    se_end se = parseHHMM we date (default UTC (load (Timezone s))) /\
    se_fixed se = toIntervals fixed ++ lunch_of (LunchWindow (Some s)
      (In date (default UTC (load (Timezone s))))) date (default UTC (load (Timezone s))) /\
    mv ∈ moveable /\ propose timeEq growcap se moveable mv = Some p.
Proof.
  unfold SuggestForDay. intros H Hp. destruct settings as [s|]; [|discriminate].
  destruct client; [|discriminate]. cbn [rbind] in H. cbv zeta in H.
  destruct (WorkWindow _ _) as [[ws we] on] eqn:Ew.
  destruct on; cbn [negb] in H; [|injection H as <-; by apply not_elem_of_nil in Hp].
  destruct (listEvents _ _ _) as [events|]; [|discriminate]. cbn [rbind] in H.
  destruct (classifyEvents _ _ _ _) as [moveable fixed] eqn:Ec.
  injection H as <-. cbn [Proposals] in Hp. apply list_elem_of_omap in Hp as (mv & Hmv & Hprop).
  exists s, ws, we, events, moveable, fixed, mv. eexists. split_and!; [done|done| | | |exact Hmv|exact Hprop];
    [exact Ec|reflexivity|reflexivity].
Qed.

(** A proposal moves a meeting of the user's own, by at least 31 minutes of gain,
    keeping its length, to an interval that ends inside the working day and
    meets no fixed event and not the lunch.  When no slice has spare capacity
    for the search, it meets no other moveable meeting either. *)
Theorem SuggestForDay_sound {S} {C : CalendarOps S} load local timeEq growcap settings client date
    (st : S) r p :
  SuggestForDay load local timeEq growcap settings client date st = Ok r -> p ∈ Proposals r ->
  exists s we (moveable : list eventSpan) mv (fixed : list eventSpan),
    settings = Ok s /\ mv ∈ moveable /\ EventID p = ev_Id (es_event mv) /\
    moveable_event (es_event mv) = true /\
    ProposedEnd p = Add (ProposedStart p) (Sub (es_end mv) (es_start mv)) /\
    t_ns (ProposedEnd p) <= t_ns (parseHHMM we date (default UTC (load (Timezone s)))) /\
    30 < FocusGainMinutes p /\
    (forall e x, e ∈ fixed -> covers (Iv (ProposedStart p) (ProposedEnd p)) x ->
       ~ covers (span_interval e) x) /\
    ((forall n, growcap n = n) -> forall e x, e ∈ moveable ->
       ev_Id (es_event e) <> ev_Id (es_event mv) ->
       covers (Iv (ProposedStart p) (ProposedEnd p)) x -> ~ covers (span_interval e) x).
Proof.
  intros H Hp. destruct (SuggestForDay_Ok _ _ _ _ _ _ _ _ _ _ H Hp)
    as (s & ws & we & evs & mvs & fixed & mv & se & Hs & _ & Hc & Hend & Hfix & Hmv & Hprop).
  unfold propose in Hprop. cbv zeta in Hprop.
  destruct (try_positions_shape _ _ _ _ _ _ _ _ _ Hprop) as (H1 & H2 & H3 & _ & H5 & H6).
  exists s, we, mvs, mv, fixed. rewrite Hend in H3.
  assert (Hm : moveable_event (es_event mv) = true).
  { unfold classifyEvents in Hc. injection Hc as <- <-. by apply elem_of_keep in Hmv as [_ ?]. }
  split_and!; try done.
  - intros e x He Hx. eapply overlapsWith_free; [exact H6| |exact Hx]. rewrite Hfix.
    apply elem_of_app. left. unfold toIntervals. apply list_elem_of_In, in_map, list_elem_of_In, He.
  - intros Hcap e x He Hne Hx.
    eapply overlapsWith_free; [eapply try_positions_no_alias; [|exact Hprop]| |exact Hx].
    + rewrite Hcap. lia.
    + unfold toIntervalsExcept. apply list_elem_of_In, in_map, list_elem_of_In, elem_of_keep.
      split; [done|]. apply negb_true_iff, String.eqb_neq. congruence.
Qed.

(** Applying checks nobody: the provider is asked about an empty list of people,
    so, as it answers that with nothing, no proposal is refused for a conflict. *)
Theorem Apply_checks_no_attendee {S} {C : CalendarOps S} client proposals (st st' : S) applied failed :
  (forall st a b, getFreeBusy (S := S) st [] a b = Ok []) ->
  Apply client proposals st = (Ok (applied, failed), st') ->
  forall id, AttendeeConflict id ∉ failed.
Proof.
  intros Hfb. unfold Apply. destruct client; [|discriminate].
  destruct (fold_left apply_one proposals (st, [], [])) as [[st1 a1] f1] eqn:Ef.
  intros [= <- <- <-] id.
  assert (G : forall ps st a f, AttendeeConflict id ∉ f ->
    AttendeeConflict id ∉ (fold_left apply_one ps (st, a, f)).2).
  { clear -Hfb. induction ps as [|p ps IH]; intros st a f Hf; [exact Hf|]. cbn [fold_left].
    unfold apply_one at 2. rewrite Hfb. cbn [hasConflict existsb].
    destruct (getEvent st (EventID p)) as [ev|e].
    - destruct (updateEvent _ _ _) as [[u|e] st1]; apply IH; [done|].
      rewrite elem_of_app, list_elem_of_singleton. by intros [?|?].
    - apply IH. rewrite elem_of_app, list_elem_of_singleton. by intros [?|?]. }
  specialize (G proposals st [] [] (not_elem_of_nil _)). by rewrite Ef in G.
Qed.

(** ** Concrete days *)

#[local] Existing Instance FocusTime.Demo.calendar_ops.

Module CompressDemo.
Definition settings : Settings := FocusTime.Demo.settings "all_days" ∅ "UTC".
Definition at_ := Buffer.Demo.at_.

Definition mine (id : string) (s e : time) : Event := {|
  ev_Id := id; Summary := id; Description := ""; Location_ := ""; Status := "";
  Transparency := ""; Visibility := ""; ColorId := ""; OrganizerSelf := Some true;
  ev_Start := at_time s; ev_End := at_time e; Attendees := [] |}.

(** The capacity of a slice of intervals grown by one: the next power of two. *)
Definition growcap (n : nat) : nat := if Nat.leb n 1 then n else Nat.pow 2 (Nat.log2_up n).

Definition suggest (grow : nat -> nat) (day : list Event) : result CompressionResult :=
  SuggestForDay (fun _ => Some UTC) UTC (fun a b => t_ns a =? t_ns b) grow (Ok settings) (Ok tt)
    (at_ 0 0) (day : FocusTime.Demo.calendar).

Definition answer grow day : CompressionResult :=
  match suggest grow day with
  | Ok r => r | Err _ => {| CR_Date := ""; Proposals := []; TotalFocusGainMinutes := 0 |} end.

Definition shown (p : MoveProposal) : string * string * string * Z :=
  (EventID p, FormatHHMM (ProposedStart p), FormatHHMM (ProposedEnd p), FocusGainMinutes p).

Definition full_day : list Event :=
  [mine "a" (at_ 9 45) (at_ 11 0); mine "b" (at_ 11 0) (at_ 13 0); mine "c" (at_ 13 15) (at_ 16 0);
   mine "m" (at_ 16 30) (at_ 17 0)].
Definition light_day : list Event :=
  [mine "a" (at_ 11 0) (at_ 11 30); mine "b" (at_ 14 0) (at_ 14 30)].
End CompressDemo.

Lemma CompressDemo_answer grow day :
  is_Some (match CompressDemo.suggest grow day with Ok r => Some r | Err _ => None end) ->
  CompressDemo.suggest grow day = Ok (CompressDemo.answer grow day).
Proof. unfold CompressDemo.answer. destruct (CompressDemo.suggest _ _); [done|by intros [? ?]]. Qed.

(** With capacities grown as powers of two, a position tried in vain overwrites
    the last of the other meetings: on the full day the search then proposes
    13:00 to 13:30, on top of the meeting at 13:15, for a gain of 165 minutes.
    Slices without spare capacity give no proposal. *)
Theorem shared_array_overlap :
  map CompressDemo.shown (Proposals (CompressDemo.answer CompressDemo.growcap CompressDemo.full_day))
    = [("m", "13:00", "13:30", 165)] /\
  Before (CompressDemo.at_ 13 15) (CompressDemo.at_ 13 30) = true /\
  Proposals (CompressDemo.answer id CompressDemo.full_day) = [].
Proof. vm_compute. auto. Qed.

(** The proposals of one answer are not meant together: on the light day both
    meetings are proposed the same nine o'clock, and applying the answer, which
    checks nothing, moves both there. *)
Theorem proposals_collide :
  let answer := CompressDemo.answer CompressDemo.growcap CompressDemo.light_day in
  map CompressDemo.shown (Proposals answer)
    = [("a", "09:00", "09:30", 120); ("b", "09:00", "09:30", 180)] /\
  (Apply (Ok tt) (Proposals answer) (CompressDemo.light_day : FocusTime.Demo.calendar)).1
    = Ok (["a"; "b"], []).
Proof. vm_compute. auto. Qed.

(** ** Witnesses *)

Module CompressWitness.
Definition gain : MoveProposal := {|
  EventID := "a"; EventTitle := "a"; CurrentStart := CompressDemo.at_ 11 0;
  CurrentEnd := CompressDemo.at_ 11 30; ProposedStart := CompressDemo.at_ 9 0;
  ProposedEnd := CompressDemo.at_ 9 30; FocusGainMinutes := 120 |}.
End CompressWitness.

Lemma SuggestForDay_sound_witness :
  Forall (fun p => 30 < FocusGainMinutes p)
    (Proposals (CompressDemo.answer id CompressDemo.light_day)) /\
  length (Proposals (CompressDemo.answer id CompressDemo.light_day)) = 2%nat.
Proof.
  split; [|vm_compute; reflexivity]. apply Forall_forall. intros p Hp.
  destruct (SuggestForDay_sound (fun _ => Some UTC) UTC (fun a b => t_ns a =? t_ns b) id
    (Ok CompressDemo.settings) (Ok tt) (CompressDemo.at_ 0 0)
    (CompressDemo.light_day : FocusTime.Demo.calendar)
    (CompressDemo.answer id CompressDemo.light_day) p)
    as (s & we & mvs & mv & fx & _ & _ & _ & _ & _ & _ & H & _); [|exact Hp|exact H].
  apply CompressDemo_answer. vm_compute. by eexists.
Defined.

Lemma Apply_checks_no_attendee_witness :
  exists applied failed st',
    Apply (Ok tt) [CompressWitness.gain] (CompressDemo.light_day : FocusTime.Demo.calendar)
      = (Ok (applied, failed), st') /\
    forall id, AttendeeConflict id ∉ failed.
Proof.
  eexists _, _, _. split; [reflexivity|].
  eapply (Apply_checks_no_attendee (Ok tt) [CompressWitness.gain]
    (CompressDemo.light_day : FocusTime.Demo.calendar)); [|reflexivity]. reflexivity.
Defined.
