(* ===== verification/PerItem.v ===== *)
(** * The bounded per-item pool

    [internal/peritem/peritem.go]: [runOne] decides from the clock and the
    budget whether one item's call starts and whether it counts as done; [Run]
    feeds the items in order to a bounded pool of workers and reports
    [budget.ErrExpired] when an item was not started or was cut.  [Run] is a
    step relation over its dispatcher and its workers; [run_pool] is what it
    promises to its callers. *)

From stdpp Require Import relations.
From S2P Require Import Prelude GoInt GoTime GoText Interval LinkStore Calendar.

#[local] Open Scope Z_scope.

(** ** One item *)

Record Settings := { Workers : Z; Margin : Z }.

(** [Default]: 4 workers, 10 s margin. *)
Definition DefaultPool : Settings := {| Workers := 4; Margin := 10 * Second |}.

Inductive Mode := Read | Create | Detached.

(** [Remaining]: the earlier of the context's deadline and the end of the
    drain, seen from [now]. *)
Definition Remaining (deadline drain : option Z) (now : Z) : option Z :=
  match deadline, drain with
  | None, None => None
  | Some e, None => Some (e - now)
  | None, Some d => Some (d - now)
  | Some e, Some d => Some ((if d <? e then d else e) - now)
  end.

(** What the clock and the context show while one item is handled. *)
Record ItemTiming := {
  ctx_ended : bool;          (** [ctx.Err() != nil] when the item is taken *)
  remaining : option Z;      (** [Remaining(ctx)] *)
  call_ended : bool;         (** [callCtx.Err() != nil] after the call *)
  ctx_ended_after : bool;    (** [ctx.Err() != nil] after the call *)
}.

(** The limit the call ran with ([None]: it was not started), and whether the
    item counts as done. *)
Record ItemRun := { call_limit : option Z; item_done : bool }.

Definition not_started : ItemRun := {| call_limit := None; item_done := false |}.

Definition runOne (mode : Mode) (limit margin : Z) (tm : ItemTiming) : ItemRun :=
  if ctx_ended tm then not_started
  else
    match mode with
    | Detached => {| call_limit := Some limit; item_done := true |}
    | _ =>
        if match remaining tm with Some r => r <=? margin | None => false end then not_started
        else
          match mode with
          | Create =>
              if match remaining tm with Some r => r <? limit + margin | None => false end
              then not_started
              else {| call_limit := Some limit; item_done := true |}
          | _ =>
              let shortened :=
                match remaining tm with Some r => r - margin <? limit | None => false end in
              let d := match remaining tm with
                       | Some r => if shortened then r - margin else limit
                       | None => limit
                       end in
              {| call_limit := Some d;
                 item_done := negb (call_ended tm && (shortened || ctx_ended_after tm)) |}
          end
    end.

(** ** The pool *)

(** The dispatcher is about to check, is handing item [next] over, or has
    closed the channel. *)
Inductive Dispatcher := Checking | Sending | Closed.

Record Pool := {
  next : nat;
  inflight : list nat;
  finished : list nat;
  cut : bool;
  disp : Dispatcher;
}.

Definition pool_start : Pool :=
  {| next := 0; inflight := []; finished := []; cut := false; disp := Checking |}.

(** [workers := s.Workers; if workers < 1 { workers = 1 }], at most one per
    item. *)
Definition worker_count (s : Settings) (n : nat) : nat :=
  Nat.min (Z.to_nat (Z.max 1 (Workers s))) n.

Section Steps.
Context (n : nat) (s : Settings).
(** Whether [runOne] reported the item done, and whether the request's
    context can end. *)
Context (ok : nat -> bool) (may_end : bool).

Inductive step : Pool -> Pool -> Prop :=
| step_check p :
    disp p = Checking -> (next p < n)%nat -> cut p = false ->
    step p {| next := next p; inflight := inflight p; finished := finished p;
              cut := cut p; disp := Sending |}
| step_stop p :
    disp p = Checking -> (next p < n)%nat -> cut p = true \/ may_end = true ->
    step p {| next := next p; inflight := inflight p; finished := finished p;
              cut := true; disp := Closed |}
| step_close p :
    disp p = Checking -> next p = n ->
    step p {| next := next p; inflight := inflight p; finished := finished p;
              cut := cut p; disp := Closed |}
| step_send p :
    disp p = Sending -> (length (inflight p) < worker_count s n)%nat ->
    step p {| next := S (next p); inflight := next p :: inflight p; finished := finished p;
              cut := cut p; disp := Checking |}
| step_finish p i l1 l2 :
    inflight p = l1 ++ i :: l2 ->
    step p {| next := next p; inflight := l1 ++ l2; finished := i :: finished p;
              cut := cut p || negb (ok i); disp := disp p |}.

Definition reachable : Pool -> Prop := rtc step pool_start.

(** [Run] returns: the channel is closed and the workers are done. *)
Definition returned (p : Pool) : Prop := disp p = Closed /\ inflight p = [].

(** ** The invariant *)

Record inv (p : Pool) : Prop := {
  inv_next : (next p <= n)%nat;
  inv_items : inflight p ++ finished p ≡ₚ List.seq 0 (next p);
  inv_workers : (length (inflight p) <= worker_count s n)%nat;
  inv_sending : disp p = Sending -> (next p < n)%nat;
  inv_uncut : cut p = false ->
    (forall i, i ∈ finished p -> ok i = true) /\ (disp p = Closed -> next p = n);
  inv_cut : cut p = true ->
    may_end = true \/ exists i, i ∈ finished p /\ ok i = false;
}.

Lemma inv_start : inv pool_start.
Proof.
  split; simpl; try done; try lia.
  intros _. split; [|done]. intros i H. by apply not_elem_of_nil in H.
Qed.

Lemma seq_S_cons k : k :: List.seq 0 k ≡ₚ List.seq 0 (S k).
Proof. rewrite seq_S. simpl. apply Permutation_cons_append. Qed.

Lemma inv_step p q : inv p -> step p q -> inv q.
Proof.
  intros [H1 H2 H3 H4 H5 H6] Hs.
  destruct Hs as [p Hd Hn Hc|p Hd Hn Hc|p Hd Hn|p Hd Hw|p i l1 l2 Hl]; split;
    cbn [next inflight finished cut disp] in *; try done.
  - intros Hc'. destruct (H5 Hc'). split; done.
  - intros _. destruct Hc as [Hc|Hc]; [by apply H6|by left].
  - intros Hc'. destruct (H5 Hc'). split; done.
  - apply H4 in Hd. lia.
  - rewrite <- seq_S_cons. by apply perm_skip.
  - intros Hc'. destruct (H5 Hc'). split; done.
  - rewrite <- H2, Hl. rewrite <- !app_assoc. simpl. apply Permutation_app_head.
    symmetry. apply Permutation_middle.
  - rewrite Hl in H3. rewrite length_app in *. simpl in H3. lia.
  - intros [Hc Ho]%orb_false_iff. destruct (H5 Hc) as [Hf Hcl]. split; [|done].
    intros j [->|Hj]%elem_of_cons; [by apply negb_false_iff|by apply Hf].
  - setoid_rewrite elem_of_cons. intros [Hc|Ho]%orb_true_iff.
    + destruct (H6 Hc) as [?|(j & Hj & Hok)]; [by left|right; eauto].
    + right. exists i. apply negb_true_iff in Ho. auto.
Qed.

Lemma reachable_inv p : reachable p -> inv p.
Proof.
  revert p. apply (rtc_ind_r inv pool_start); [apply inv_start|].
  intros p q _ Hs Hi. by eapply inv_step.
Qed.

(** Every reachable state either has returned or can take a step, provided
    there is a worker for a pending item. *)
Lemma progress p : inv p -> returned p \/ exists q, step p q.
Proof.
  intros [H1 H2 H3 H4 H5 H6]. unfold returned.
  destruct (inflight p) as [|i l] eqn:El.
  2:{ right. eexists. eapply (step_finish p i [] l). by rewrite El. }
  destruct (disp p) eqn:Ed.
  - right. destruct (decide (next p = n)) as [Hn|Hn].
    + eexists. by apply step_close.
    + destruct (cut p) eqn:Ec; eexists; [apply step_stop|apply step_check]; try done; lia || auto.
  - right. eexists. apply step_send; [done|]. rewrite El. simpl.
    specialize (H4 eq_refl). unfold worker_count. lia.
  - by left.
Qed.

(** The steps left: every step decreases it. *)
Definition fuel_of (p : Pool) : nat :=
  3 * (n - next p) + length (inflight p) +
  match disp p with Checking => 2 | Sending => 1 | Closed => 0 end.

Lemma step_decreases p q : inv p -> step p q -> (fuel_of q < fuel_of p)%nat.
Proof.
  intros [H1 H2 H3 H4 H5 H6] Hs. unfold fuel_of.
  destruct Hs as [p Hd Hn Hc|p Hd Hn Hc|p Hd Hn|p Hd Hw|p i l1 l2 Hl]; simpl; rewrite ?Hd.
  - lia.
  - lia.
  - lia.
  - specialize (H4 Hd). lia.
  - rewrite Hl, !length_app. simpl. lia.
Qed.

(** From every reachable state the pool reaches a return. *)
Lemma reaches_return p : reachable p -> exists q, rtc step p q /\ returned q.
Proof.
  remember (fuel_of p) as k eqn:Ek. revert p Ek.
  induction k as [k IH] using lt_wf_ind. intros p -> Hr.
  pose proof (reachable_inv p Hr) as Hi.
  destruct (progress p Hi) as [Hret|[q Hs]]; [by exists p; split; [apply rtc_refl|]|].
  destruct (IH (fuel_of q) (step_decreases p q Hi Hs) q eq_refl) as (q' & Hq & Hret).
  { by eapply rtc_r. }
  exists q'. split; [by eapply rtc_l|done].
Qed.

Lemma seq_elem k i : i ∈ List.seq 0 k <-> (i < k)%nat.
Proof. rewrite list_elem_of_In, in_seq. lia. Qed.

(** What a return means: uncut, every item ran once and was done; cut, an
    item was not done or the request ended. *)
Lemma returned_uncut p :
  reachable p -> returned p -> cut p = false ->
  finished p ≡ₚ List.seq 0 n /\ forall i, (i < n)%nat -> ok i = true.
Proof.
  intros Hr [Hd Hf] Hc. destruct (reachable_inv p Hr) as [H1 H2 H3 H4 H5 H6].
  destruct (H5 Hc) as [Hok Hn]. specialize (Hn Hd).
  rewrite Hf in H2. simpl in H2. rewrite Hn in H2. split; [done|].
  intros i Hi. apply Hok. rewrite H2. by apply seq_elem.
Qed.

Lemma returned_cut p :
  reachable p -> returned p -> cut p = true ->
  may_end = true \/ exists i, (i < n)%nat /\ ok i = false.
Proof.
  intros Hr _ Hc. destruct (reachable_inv p Hr) as [H1 H2 H3 H4 H5 H6].
  destruct (H6 Hc) as [?|(i & Hi & Ho)]; [by left|right].
  exists i. split; [|done].
  assert (i ∈ List.seq 0 (next p)) as Hs by (rewrite <- H2; apply elem_of_app; auto).
  apply seq_elem in Hs. lia.
Qed.
End Steps.

(** ** What the callers use *)

(** [Run] as its callers see it: the results of all the items, in order, when
    every item was done, [ErrExpired] otherwise. *)
Definition run_pool {A} (ok : nat -> bool) (n : nat) (f : nat -> A) : result (list A) :=
  if forallb ok (List.seq 0 n) then Ok (map f (List.seq 0 n)) else Err ErrExpired.

Lemma run_pool_Ok {A} ok n (f : nat -> A) l :
  run_pool ok n f = Ok l <-> l = map f (List.seq 0 n) /\ forall i, (i < n)%nat -> ok i = true.
Proof.
  unfold run_pool. destruct (forallb ok (List.seq 0 n)) eqn:E.
  - rewrite forallb_elem in E. split; [|by intros [-> _]].
    intros [= <-]. split; [done|]. intros i Hi. apply E. by apply seq_elem.
  - split; [done|]. intros [_ H]. apply not_true_iff_false in E. destruct E.
    apply forallb_elem. intros i Hi. apply H. by apply seq_elem.
Qed.

Lemma forallb_false_witness ok n :
  forallb ok (List.seq 0 n) = false -> exists i, (i < n)%nat /\ ok i = false.
Proof.
  induction n as [|n IH]; [done|]. rewrite seq_S, forallb_app. simpl.
  intros [H|H]%andb_false_iff.
  - destruct (IH H) as (i & Hi & Ho). exists i. split; [lia|done].
  - exists n. split; [lia|]. by apply andb_false_iff in H as [H|H].
Qed.

Lemma run_pool_Err {A} ok n (f : nat -> A) e :
  run_pool ok n f = Err e <-> e = ErrExpired /\ exists i, (i < n)%nat /\ ok i = false.
Proof.
  unfold run_pool. destruct (forallb ok (List.seq 0 n)) eqn:E.
  - split; [done|]. intros (_ & i & Hi & Ho). rewrite forallb_elem in E.
    rewrite E in Ho by (by apply seq_elem). done.
  - split.
    + intros [= <-]. split; [done|]. by apply forallb_false_witness.
    + intros [-> _]. done.
Qed.

(** ** Properties *)

(** The pool, however its dispatcher and its workers are interleaved: at most
    [Workers] items (and at least one worker) are in flight, no item is run
    twice, items are handed over in order, and the pool can always run on to a
    return.  Once returned, an uncut pool has run every item to the end; a cut
    one had an item that was not done, or the request ended. *)
Theorem pool_runs_items n s ok may_end p :
  reachable n s ok may_end p ->
  (length (inflight p) <= Z.to_nat (Z.max 1 (Workers s)))%nat /\
  inflight p ++ finished p ≡ₚ List.seq 0 (next p) /\
  (exists q, rtc (step n s ok may_end) p q /\ returned q) /\
  (returned p ->
   (cut p = false -> finished p ≡ₚ List.seq 0 n /\ forall i, (i < n)%nat -> ok i = true) /\
   (cut p = true -> may_end = true \/ exists i, (i < n)%nat /\ ok i = false)).
Proof.
  intros Hr. pose proof (reachable_inv n s ok may_end p Hr) as [_ Hitems Hw _ _ _].
  split_and!; [unfold worker_count in Hw; lia|done|by apply reaches_return|].
  intros Hret. split; [by apply (returned_uncut n s ok may_end p)|by apply (returned_cut n s ok may_end p)].
Qed.

(** What a started call is given.  A read never runs past the budget less the
    margin, nor past its own limit; a creation starts only with its whole limit
    and the margin left, and then always counts as done; nothing starts once
    the request's context has ended. *)
Theorem runOne_within_budget mode limit margin tm d r :
  call_limit (runOne mode limit margin tm) = Some d ->
  ctx_ended tm = false /\ d <= limit /\
  (mode <> Read -> d = limit /\ item_done (runOne mode limit margin tm) = true) /\
  (mode <> Detached -> remaining tm = Some r -> 
   margin < r /\ d + margin <= r).
Proof.
  unfold runOne. destruct (ctx_ended tm); [discriminate|].
  destruct mode; [| |by intros [= <-]];
    (destruct (remaining tm) as [r'|]; [destruct (Z.leb_spec r' margin); [discriminate|]|]);
    simpl; [destruct (Z.ltb_spec (r' - margin) limit)| |destruct (Z.ltb_spec r' (limit + margin));
      [discriminate|]|]; intros [= <-]; split_and!; try done; try lia; intros _ [= <-]; lia.
Qed.

Module PoolDemo.
Definition two : Settings := {| Workers := 2; Margin := 10 |}.
Definition p1 : Pool :=
  {| next := 0; inflight := []; finished := []; cut := false; disp := Sending |}.
Definition p2 : Pool :=
  {| next := 1; inflight := [0%nat]; finished := []; cut := false; disp := Checking |}.
Definition p3 : Pool :=
  {| next := 1; inflight := []; finished := [0%nat]; cut := false; disp := Checking |}.
Definition p4 : Pool :=
  {| next := 1; inflight := []; finished := [0%nat]; cut := false; disp := Closed |}.
Definition tight : ItemTiming :=
  {| ctx_ended := false; remaining := Some 25; call_ended := false; ctx_ended_after := false |}.
End PoolDemo.

Lemma PoolDemo_reachable : reachable 1 PoolDemo.two (fun _ => true) false PoolDemo.p4.
Proof.
  apply (rtc_l _ _ PoolDemo.p1); [apply (step_check 1 PoolDemo.two (fun _ => true) false pool_start); simpl; auto|].
  apply (rtc_l _ _ PoolDemo.p2); [apply (step_send 1 PoolDemo.two (fun _ => true) false PoolDemo.p1); simpl; auto|].
  apply (rtc_l _ _ PoolDemo.p3);
    [apply (step_finish 1 PoolDemo.two (fun _ => true) false PoolDemo.p2 0 [] []); reflexivity|].
  apply rtc_once, (step_close 1 PoolDemo.two (fun _ => true) false PoolDemo.p3); reflexivity.
Qed.

Lemma pool_runs_items_witness :
  returned PoolDemo.p4 /\ finished PoolDemo.p4 ≡ₚ List.seq 0 1.
Proof.
  split; [done|].
  destruct (pool_runs_items 1 PoolDemo.two (fun _ => true) false PoolDemo.p4 PoolDemo_reachable)
    as (_ & _ & _ & H).
  destruct (H ltac:(done)) as [H1 _]. by apply H1.
Defined.

Lemma runOne_within_budget_witness :
  call_limit (runOne Read 20 10 PoolDemo.tight) = Some 15 /\ 15 + 10 <= 25.
Proof.
  split; [reflexivity|].
  apply (runOne_within_budget Read 20 10 PoolDemo.tight 15 25); done.
Defined.
