(* ===== verification/BookingEngine.v ===== *)
(** * Collective availability and the booking flow

    [engine/booking.go]: slug generation, [CollectiveSlots] and [hostBusy],
    [ConfirmBooking] and the completion unit that creates the hosts' events
    and sends the confirmation. *)

From S2P Require Import Prelude GoInt GoTime GoText Interval LinkStore BookingWindow Calendar.
From S2P Require Import PerItem.

#[local] Open Scope string_scope.
#[local] Open Scope list_scope.
#[local] Open Scope Z_scope.

(** ** Slugs *)

(** The characters [slugify] writes for one character. *)
Definition slug_char (c : ascii) : string :=
  if is_lower c || is_digit c then String c EmptyString
  else if Ascii.eqb c "-" || Ascii.eqb c "_" || Ascii.eqb c " " then "-"
  else "".

Fixpoint slug_chars (s : string) : string :=
  match s with EmptyString => "" | String c r => slug_char c +:+ slug_chars r end.

Definition slugify (s : string) : string := Trim "-" (slug_chars s).

Definition hex_digit (k : Z) : ascii := if k <? 10 then digit k else ascii_of_nat (Z.to_nat (87 + k)).
Definition hex_byte (b : Z) : string :=
  String (hex_digit (b / 16)) (String (hex_digit (b mod 16)) EmptyString).

Section Slug.
(** [storage.SlugExists] and the bytes [crypto/rand] gives to each retry. *)
Context (exists_ : string -> result bool) (rand : nat -> Z * Z).

Fixpoint slug_loop (fuel i : nat) (base candidate : string) : result string :=
  match fuel with
  | O => Err ErrArgument
  | S k =>
      taken <-? exists_ candidate ;;
      if taken : bool then
        slug_loop k (S i) base (base +:+ "-" +:+ hex_byte (rand i).1 +:+ hex_byte (rand i).2)
      else Ok candidate
  end.

(** [GenerateSlug]; [None] is the run-time panic of indexing the fields of a
    blank name. *)
Definition GenerateSlug (ownerName : string) (durationMinutes : Z) : option (result string) :=
  match Fields ownerName with
  | [] => None
  | first :: _ =>
      let base := slugify (ToLower first) +:+ "-" +:+ itoa durationMinutes +:+ "min" in
      Some (slug_loop 10 0 base base)
  end.
End Slug.

(** ** The reads behind a host's busy time *)

Record BookingReads := {
  acceptedHosts : uuid -> result (list LinkHost);
  focusBlocks : uuid -> time -> result (list FocusBlockRow);
  hostBookings : uuid -> time -> time -> result (list time);
}.

(** The zero value: the storage package. *)
Definition storage_reads (t : Tables) : BookingReads :=
  {| acceptedHosts := fun l => Ok (GetAcceptedHosts t l);
     focusBlocks := fun u w => Ok (ListFocusBlocksForUserWeek t u w);
     hostBookings := fun u s e => Ok (GetBusyBookingsForUser t u s e) |}.

(** The hosts' calendars: their stored credentials, whether a client can be
    built from them, and the provider's answers. *)
Record Calendars := {
  loadToken : uuid -> TokenRead;
  clientOk : uuid -> bool;
  providerEvents : uuid -> time -> time -> result (list Event);
  providerCreate : uuid -> Event -> result string;
}.

Definition calendarClientForUser (cal : Calendars) (u : uuid) : result unit :=
  match loadToken cal u with
  | TokenFound => if clientOk cal u then Ok tt else Err ErrProvider
  | _ => Err ErrCalendarNotConnected
  end.

(** ** hostBusy *)

(** An error of [hostBusy]: a [*storageReadError] or an unreadable calendar. *)
Inductive HostError := StorageReadError (e : Error) | CalendarError (e : Error).

Definition storage_read {A} (r : result A) : res HostError A :=
  match r with Ok a => Ok a | Err e => Err (StorageReadError e) end.

Definition calendar_read {A} (r : result A) : res HostError A :=
  match r with Ok a => Ok a | Err e => Err (CalendarError e) end.

(** Buffer time around each event, added to the events themselves. *)
Definition with_buffers (link : SchedulingLink) (busy : list interval) : list interval :=
  if (0 <? BufferBefore link) || (0 <? BufferAfter link) then
    busy ++ map (fun b => Iv (Add (iv_start b) (- dur_minutes (BufferBefore link)))
                             (Add (iv_end b) (dur_minutes (BufferAfter link)))) busy
  else busy.

(** The flat list of starts and ends, two by two. *)
Fixpoint pairs_of (ts : list time) : list interval :=
  match ts with
  | s :: e :: r => Iv s e :: pairs_of r
  | _ => []
  end.

Definition hostBusy (local : Location) (reads : BookingReads) (cal : Calendars)
    (u : uuid) (start end_ : time) (link : SchedulingLink) : res HostError (list interval) :=
  _ <-? calendar_read (calendarClientForUser cal u) ;;
  events <-? calendar_read (providerEvents cal u start end_) ;;
  blocks <-? storage_read (focusBlocks reads u start) ;;
  times <-? storage_read (hostBookings reads u start end_) ;;
  Ok (with_buffers link (event_busy local events)
      ++ map (fun fb => Iv (FB_Start fb) (FB_End fb)) blocks
      ++ pairs_of times).

(** ** CollectiveSlots *)

(** What one host's read leaves: a storage failure, or busy intervals, the
    whole window when the calendar cannot be read. *)
Definition host_slice (local : Location) (reads : BookingReads) (cal : Calendars)
    (link : SchedulingLink) (ws we : time) (h : LinkHost) : result (list interval) :=
  match hostBusy local reads cal (LH_UserID h) ws we link with
  | Ok busy => Ok busy
  | Err (StorageReadError e) => Err e
  | Err (CalendarError _) => Ok [Iv ws we]
  end.

(** The first storage error, or the busy time of every host. *)
Fixpoint collect (rs : list (result (list interval))) : result (list interval) :=
  match rs with
  | [] => Ok []
  | Ok busy :: r => rest <-? collect r ;; Ok (busy ++ rest)
  | Err e :: _ => Err e
  end.

Definition CollectiveSlots (local : Location) (reads : BookingReads) (cal : Calendars)
    (ok : nat -> bool) (link : SchedulingLink) (date : time) (durationMinutes : Z)
    : result (list AvailableSlot) :=
  hosts <-? acceptedHosts reads (ID link) ;;
  match hosts with
  | [] => Ok []
  | h0 :: _ =>
      match LinkWindow link date with
      | None => Ok []
      | Some (ws, we) =>
          perHost <-? run_pool ok (length hosts)
                        (fun i => host_slice local reads cal link ws we (nth i hosts h0)) ;;
          allBusy <-? collect perHost ;;
          let merged := mergeIntervals allBusy in
          Ok (keep (fun c => negb (overlapsMerged c merged)) (GridSlots link date durationMinutes))
      end
  end.

(** ** ConfirmBooking *)

(** A host's calendar could not be read for the slot. *)
Definition unreadable (cal : Calendars) (start end_ : time) (h : LinkHost) : bool :=
  match calendarClientForUser cal (LH_UserID h) with
  | Err _ => true
  | Ok _ => match providerEvents cal (LH_UserID h) start end_ with Err _ => true | Ok _ => false end
  end.

(** What the request meets on its way to the insert: the connection
    ([None]: acquired; [Some ended]: refused, the context having ended or not),
    the answer of [budget.Commit], and the failure of the insert. *)
Record InsertPath := {
  conn_refused : option bool;
  commit_ok : bool;
  insert_fails : bool;
}.

(** The booking, or the error; the insert is the only write. *)
Definition ConfirmBooking (hosts : result (list LinkHost)) (cal : Calendars) (ok : nat -> bool)
    (path : InsertPath) (new_id : uuid) (link : SchedulingLink)
    (bookerName bookerEmail : string) (start end_ : time) (notes : string) (t : Tables)
    : result Booking * Tables :=
  match hosts with
  | Err e => (Err e, t)
  | Ok hs =>
      match run_pool ok (length hs)
              (fun i => match hs !! i with Some h => unreadable cal start end_ h | None => false end) with
      | Err e => (Err e, t)
      | Ok flags =>
          if existsb id flags then (Err ErrHostCalendarUnreadable, t)
          else match conn_refused path with
          | Some ended => (Err (if ended then ErrExpired else ErrStorage), t)
          | None =>
              if negb (commit_ok path) then (Err ErrExpired, t)
              else if insert_fails path then (Err ErrStorage, t)
              else
                let '(b, t') := CreateBooking new_id
                  {| B_ID := uuid_nil; B_LinkID := ID link; BookerName := bookerName;
                     BookerEmail := bookerEmail; B_Start := start; B_End := end_;
                     B_Status := ""; Notes := notes |} t in
                (Ok b, t')
          end
      end
  end.

(** ** The completion unit *)

Record User := { U_Email : string; U_Name : string; U_AvatarURL : string }.

Record hostEvent := { he_user : uuid; he_attendees : list string }.

(** The events to create: each host known by storage, with the hosts listed so
    far and the booker. *)
Fixpoint host_events (getUser : uuid -> option User) (booker : string)
    (emails : list string) (hosts : list LinkHost) : list hostEvent :=
  match hosts with
  | [] => []
  | h :: r =>
      match getUser (LH_UserID h) with
      | None => host_events getUser booker emails r
      | Some u =>
          let emails' := emails ++ [U_Email u] in
          {| he_user := LH_UserID h; he_attendees := emails' ++ [booker] |}
          :: host_events getUser booker emails' r
      end
  end.

Record completion := {
  prog_hosts : list uuid;
  prog_done : gset uuid;
  emailSent : bool;
}.

Definition markHost (u : uuid) (c : completion) : completion :=
  {| prog_hosts := prog_hosts c; prog_done := {[u]} ∪ prog_done c; emailSent := emailSent c |}.

(** [summary]: every host is done. *)
Definition summary (c : completion) : bool :=
  Nat.eqb (size (prog_done c)) (length (prog_hosts c)).

Definition booking_event (link : SchedulingLink) (b : Booking) (he : hostEvent) : Event :=
  {| ev_Id := ""; Summary := Title link; Description := Notes b; Location_ := "";
     Status := ""; Transparency := ""; Visibility := ""; ColorId := "";
     OrganizerSelf := None; ev_Start := at_time (B_Start b); ev_End := at_time (B_End b);
     Attendees := map (fun e => {| Email := e; ResponseStatus := ""; Self := false;
                                   Organizer_ := false |}) (he_attendees he) |}.

(** One item of the detached pool. *)
Definition complete_one (cal : Calendars) (link : SchedulingLink) (b : Booking)
    (st : completion * Tables) (he : hostEvent) : completion * Tables :=
  let '(prog, t) := st in
  match calendarClientForUser cal (he_user he) with
  | Err _ => (markHost (he_user he) prog, t)
  | Ok _ =>
      match providerCreate cal (he_user he) (booking_event link b he) with
      | Err _ => (prog, t)
      | Ok id => (markHost (he_user he) prog, SaveBookingEvent (B_ID b) (he_user he) id t)
      end
  end.

(** [completeBooking]: [started i] says whether the pool reached item [i]
    before the drain's hard cancellation, [sendMail] the outcome of the
    confirmation; the last component is whether the failure was reported. *)
Definition completeBooking (cal : Calendars) (getUser : uuid -> option User)
    (started : nat -> bool) (sendMail : bool) (link : SchedulingLink) (b : Booking)
    (hosts : list LinkHost) (t : Tables) : completion * Tables * bool :=
  let evs := host_events getUser (BookerEmail b) [] hosts in
  let ran := map snd (keep (fun p => started p.1) (imap (fun i he => (i, he)) evs)) in
  let '(prog, t') := fold_left (complete_one cal link b) ran
    ({| prog_hosts := map LH_UserID hosts; prog_done := ∅; emailSent := false |}, t) in
  ({| prog_hosts := prog_hosts prog; prog_done := prog_done prog; emailSent := sendMail |},
   t', negb (summary prog)).

(** ** Slugs: facts *)

Definition url_safe (c : ascii) : bool := is_lower c || is_digit c || Ascii.eqb c "-".

Lemma sforallb_trim_left p q s : sforallb p s = true -> sforallb p (trim_left q s) = true.
Proof.
  induction s as [|c s IH]; simpl; [done|]. intros [Hc Hs]%andb_true_iff.
  destruct (q c); [by apply IH|]. simpl. by rewrite Hc, Hs.
Qed.

Lemma sforallb_trim_right p q s : sforallb p s = true -> sforallb p (trim_right q s) = true.
Proof.
  induction s as [|c s IH]; simpl; [done|]. intros [Hc Hs]%andb_true_iff.
  destruct (q c && _); [done|]. simpl. by rewrite Hc, IH.
Qed.

Lemma slugify_safe s : sforallb url_safe (slugify s) = true.
Proof.
  unfold slugify, Trim. apply sforallb_trim_right, sforallb_trim_left.
  induction s as [|c s IH]; [done|]. simpl. rewrite sforallb_app, IH, andb_true_r.
  unfold slug_char. destruct (is_lower c || is_digit c) eqn:E.
  - simpl. unfold url_safe. by rewrite E.
  - by destruct (Ascii.eqb c "-" || Ascii.eqb c "_" || Ascii.eqb c " ").
Qed.

Lemma itoa_safe n : sforallb url_safe (itoa n) = true.
Proof.
  eapply sforallb_impl; [|apply itoa_chars]. intros c. unfold url_safe.
  intros [->| ->]%orb_true_iff; by rewrite ?orb_true_r.
Qed.

Lemma hex_digit_safe k : 0 <= k < 16 -> url_safe (hex_digit k) = true.
Proof.
  intros H. assert (C : k = 0 \/ k = 1 \/ k = 2 \/ k = 3 \/ k = 4 \/ k = 5 \/ k = 6
    \/ k = 7 \/ k = 8 \/ k = 9 \/ k = 10 \/ k = 11 \/ k = 12 \/ k = 13 \/ k = 14 \/ k = 15) by lia.
  by repeat destruct C as [->|C]; subst.
Qed.

Definition is_byte (b : Z) : Prop := 0 <= b < 256.

Lemma hex_byte_safe b : is_byte b -> sforallb url_safe (hex_byte b) = true.
Proof. unfold is_byte. intros H. simpl. by rewrite !hex_digit_safe by dlia. Qed.

Lemma slug_loop_safe exists_ rand fuel i base cand s :
  (forall k, is_byte (rand k).1 /\ is_byte (rand k).2) ->
  sforallb url_safe base = true -> sforallb url_safe cand = true ->
  slug_loop exists_ rand fuel i base cand = Ok s ->
  sforallb url_safe s = true /\ exists_ s = Ok false.
Proof.
  intros Hr Hb. revert i cand. induction fuel as [|k IH]; intros i cand Hc; simpl; [done|].
  destruct (exists_ cand) as [[]|] eqn:E; simpl; [|intros [= <-]; done|done].
  apply IH. destruct (Hr i). rewrite !sforallb_app, !hex_byte_safe, Hb by done. done.
Qed.

(** ** hostBusy and CollectiveSlots: facts *)

Lemma rbind_Ok {E A B} (r : res E A) (k : A -> res E B) b :
  rbind r k = Ok b <-> exists a, r = Ok a /\ k a = Ok b.
Proof.
  destruct r; simpl; split; [eauto|by intros (? & [= <-] & ?)|done|by intros (? & ? & _)].
Qed.

Lemma calendar_read_Ok {A} (r : result A) a : calendar_read r = Ok a <-> r = Ok a.
Proof. destruct r; simpl; split; congruence. Qed.

Lemma storage_read_Ok {A} (r : result A) a : storage_read r = Ok a <-> r = Ok a.
Proof. destruct r; simpl; split; congruence. Qed.

Lemma hostBusy_Ok local reads cal u ws we link busy :
  hostBusy local reads cal u ws we link = Ok busy <->
  exists events blocks times,
    calendarClientForUser cal u = Ok tt /\ providerEvents cal u ws we = Ok events /\
    focusBlocks reads u ws = Ok blocks /\ hostBookings reads u ws we = Ok times /\
    busy = with_buffers link (event_busy local events)
           ++ map (fun fb => Iv (FB_Start fb) (FB_End fb)) blocks ++ pairs_of times.
Proof.
  unfold hostBusy. rewrite rbind_Ok. setoid_rewrite rbind_Ok. setoid_rewrite rbind_Ok.
  setoid_rewrite rbind_Ok. setoid_rewrite calendar_read_Ok. setoid_rewrite storage_read_Ok.
  split.
  - intros ([] & H1 & events & H2 & blocks & H3 & times & H4 & [= <-]). eauto 10.
  - intros (events & blocks & times & H1 & H2 & H3 & H4 & ->). eauto 12.
Qed.

Lemma collect_Ok rs all :
  collect rs = Ok all ->
  Forall (fun r => exists busy, r = Ok busy) rs /\
  forall iv, iv ∈ all <-> exists busy, Ok busy ∈ rs /\ iv ∈ busy.
Proof.
  revert all. induction rs as [|[busy|e] rs IH]; intros all; simpl; [|intros H|done].
  - intros [= <-]. split; [done|]. intros iv. split; [intros H; by apply not_elem_of_nil in H|].
    intros (? & H & _). by apply not_elem_of_nil in H.
  - apply rbind_Ok in H as (rest & Hr & [= <-]). destruct (IH _ Hr) as [Hf Hc].
    split; [constructor; eauto|]. intros iv. rewrite elem_of_app, Hc. split.
    + intros [H|(b & Hb & H)]; [exists busy; split; [left|done]|exists b; split; [by right|done]].
    + intros (b & [[= ->]|Hb]%elem_of_cons & H); eauto.
Qed.

Lemma map_nth_seq_elem {A B} (f : A -> B) (l : list A) (d : A) :
  map (fun i => f (nth i l d)) (List.seq 0 (length l)) = map f l.
Proof.
  apply (nth_ext _ _ (f d) (f d)); rewrite !length_map, length_seq; [done|].
  intros i Hi. rewrite (map_nth f l d i).
  rewrite (nth_indep _ (f d) (f (nth 0 l d))) by (by rewrite length_map, length_seq).
  rewrite (map_nth (fun i => f (nth i l d)) (List.seq 0 (length l)) 0%nat i).
  by rewrite seq_nth.
Qed.

(** What a successful listing is made of. *)
Lemma CollectiveSlots_Ok local reads cal ok link date dur slots s :
  CollectiveSlots local reads cal ok link date dur = Ok slots -> s ∈ slots ->
  exists hosts ws we all,
    acceptedHosts reads (ID link) = Ok hosts /\ hosts <> [] /\
    LinkWindow link date = Some (ws, we) /\
    collect (map (host_slice local reads cal link ws we) hosts) = Ok all /\
    (forall i, (i < length hosts)%nat -> ok i = true) /\
    s ∈ GridSlots link date dur /\ overlapsMerged s (mergeIntervals all) = false.
Proof.
  unfold CollectiveSlots. intros (hosts & Hh & H)%rbind_Ok Hs.
  destruct hosts as [|h0 hs]; [injection H as <-; by apply not_elem_of_nil in Hs|].
  destruct (LinkWindow link date) as [[ws we]|] eqn:Ew;
    [|injection H as <-; by apply not_elem_of_nil in Hs].
  apply rbind_Ok in H as (perHost & Hp & H).
  apply rbind_Ok in H as (all & Ha & [= <-]).
  apply run_pool_Ok in Hp as [-> Hok].
  rewrite (map_nth_seq_elem (host_slice local reads cal link ws we) (h0 :: hs) h0) in Ha.
  apply elem_of_keep in Hs as [Hg Ho%negb_true_iff].
  exists (h0 :: hs), ws, we, all. done.
Qed.

(** An offered slot shares no instant with the busy time of any accepted host,
    and every host's calendar was read. *)
Lemma CollectiveSlots_free local reads cal ok link date dur slots s x :
  CollectiveSlots local reads cal ok link date dur = Ok slots -> s ∈ slots -> covers s x ->
  exists hosts ws we,
    acceptedHosts reads (ID link) = Ok hosts /\ hosts <> [] /\
    LinkWindow link date = Some (ws, we) /\ covers (Iv ws we) x /\
    forall h, h ∈ hosts -> exists busy,
      hostBusy local reads cal (LH_UserID h) ws we link = Ok busy /\ ~ covered busy x.
Proof.
  intros H Hs Hx.
  destruct (CollectiveSlots_Ok _ _ _ _ _ _ _ _ _ H Hs)
    as (hosts & ws & we & all & Hh & Hne & Hw & Ha & _ & Hg & Ho).
  exists hosts, ws, we. do 3 (split; [done|]).
  assert (Hwin : covers (Iv ws we) x).
  { apply elem_of_GridSlots in Hg as (_ & ws' & we' & sm & y & Hw' & _ & _ & _ & _ & H1 & H2 & He).
    rewrite Hw in Hw'. injection Hw' as <- <-.
    unfold covers in *. rewrite He in Hx. simpl in *. lia. }
  split; [done|]. intros h Hin.
  destruct (collect_Ok _ _ Ha) as [Hf Hc].
  assert (Hfree : ~ covered all x).
  { intros Hcov. apply (overlapsMerged_free _ _ _ Ho Hx).
    by apply mergeIntervals_covered. }
  assert (Hel : host_slice local reads cal link ws we h ∈
    map (host_slice local reads cal link ws we) hosts).
  { apply list_elem_of_In, in_map. by apply list_elem_of_In. }
  rewrite Forall_forall in Hf. destruct (Hf _ Hel) as [busy Hb].
  assert (Hnb : ~ covered busy x).
  { intros (iv & Hiv & Hivx). apply Hfree. exists iv. split; [|done].
    apply Hc. exists busy. by rewrite <- Hb. }
  unfold host_slice in Hb.
  destruct (hostBusy _ _ _ _ _ _ _) as [busy'|[e|e]] eqn:Eh; [|done|].
  - injection Hb as ->. by exists busy.
  - exfalso. injection Hb as <-. apply Hnb. exists (Iv ws we). split; [left|done].
Qed.

Lemma elem_of_pairs_of bs iv :
  iv ∈ pairs_of (flat_map (fun b => [B_Start b; B_End b]) bs) <->
  exists b, b ∈ bs /\ iv = Iv (B_Start b) (B_End b).
Proof.
  induction bs as [|b bs IH]; simpl.
  - rewrite elem_of_nil. split; [done|]. intros (? & H & _). by apply not_elem_of_nil in H.
  - rewrite elem_of_cons, IH. setoid_rewrite elem_of_cons. split.
    + intros [->|(b' & H & ->)]; eauto.
    + intros (b' & [->|H] & ->); eauto.
Qed.

(** The buffered interval of an event is busy with it. *)
Lemma with_buffers_covered link busy iv x :
  - max_dur_minutes <= BufferBefore link <= max_dur_minutes ->
  - max_dur_minutes <= BufferAfter link <= max_dur_minutes ->
  0 <= BufferBefore link -> 0 <= BufferAfter link ->
  iv ∈ busy ->
  t_ns (iv_start iv) - BufferBefore link * Minute <= x
    < t_ns (iv_end iv) + BufferAfter link * Minute ->
  covered (with_buffers link busy) x.
Proof.
  intros Hb Ha Hb0 Ha0 Hiv Hx. unfold with_buffers.
  destruct (_ || _) eqn:E.
  - eexists. split.
    + apply elem_of_app. right. apply list_elem_of_In, in_map, list_elem_of_In. exact Hiv.
    + unfold covers. simpl. rewrite !dur_minutes_small by done. lia.
  - zbool. exists iv. split; [done|]. unfold covers.
    replace (BufferBefore link) with 0 in * by lia. replace (BufferAfter link) with 0 in * by lia. lia.
Qed.

(** ** Properties *)

(** A generated slug is safe in a URL (lower-case letters, digits and hyphens)
    and was not taken when it was looked up; a name with no word in it stops
    the request with a run-time panic, and no other name does. *)
Theorem GenerateSlug_safe exists_ rand ownerName durationMinutes :
  (forall k, is_byte (rand k).1 /\ is_byte (rand k).2) ->
  (forall s, GenerateSlug exists_ rand ownerName durationMinutes = Some (Ok s) ->
     sforallb url_safe s = true /\ exists_ s = Ok false) /\
  (GenerateSlug exists_ rand ownerName durationMinutes = None <-> Fields ownerName = []).
Proof.
  intros Hr. unfold GenerateSlug. destruct (Fields ownerName) as [|first r]; [done|].
  split; [|done]. intros s H%(inj Some). eapply slug_loop_safe; [done| | |exact H];
    by rewrite !sforallb_app, slugify_safe, itoa_safe.
Qed.


(** Confirming writes one row or nothing: the row of a success is the one named
    in the answer, confirmed, and it is written only after the calendar of every
    accepted host could be read for the slot; every error leaves the tables as
    they were. *)
Theorem ConfirmBooking_all_or_nothing hosts cal ok path new_id link name email start end_ notes t r t' :
  ConfirmBooking hosts cal ok path new_id link name email start end_ notes t = (r, t') ->
  match r with
  | Err _ => t' = t
  | Ok b =>
      t' = set_bookings (fun bs => bs ++ [b]) t /\ B_ID b = new_id /\ B_LinkID b = ID link /\
      live b = true /\ B_Start b = start /\ B_End b = end_ /\
      exists hs, hosts = Ok hs /\ (forall i, (i < length hs)%nat -> ok i = true) /\
        forall h, h ∈ hs -> unreadable cal start end_ h = false
  end.
Proof.
  unfold ConfirmBooking. destruct hosts as [hs|e]; [|by intros [= <- <-]].
  destruct (run_pool _ _ _) as [flags|e] eqn:Ep; [|by intros [= <- <-]].
  destruct (existsb id flags) eqn:Ef; [by intros [= <- <-]|].
  destruct (conn_refused path) as [b|]; [by intros [= <- <-]|].
  destruct (commit_ok path); simpl; [|by intros [= <- <-]].
  destruct (insert_fails path); [by intros [= <- <-]|].
  intros [= <- <-]. split_and!; [done..|].
  apply run_pool_Ok in Ep as [-> Hok]. exists hs. split_and!; [done..|].
  intros h (i & Hi)%list_elem_of_lookup. rewrite existsb_elem_false in Ef.
  apply Ef. apply list_elem_of_In, in_map_iff. exists i. rewrite Hi. split; [done|].
  apply in_seq. apply lookup_lt_Some in Hi. lia.
Qed.

Module EngineDemo.
Definition link : SchedulingLink := {|
  ID := 7%N; OwnerUserID := 1%N; Slug := "ada-30min"; Title := "Chat";
  DurationOptions := [30]; DaysOfWeek := [1]; WindowStart := "09:00"; WindowEnd := "11:00";
  BufferBefore := 0; BufferAfter := 15; MinNoticeMinutes := 0; UsageType := "recurring";
  MaxUses := None; UsesCount := 0; Active := true; BookingHorizonDays := 10;
  RefusalMessage := RefusalSpecific |}.
Definition host : LinkHost := {| LH_LinkID := 7%N; LH_UserID := 1%N; LH_Status := "accepted" |}.
Definition tables : Tables := {|
  t_links := [link]; t_hosts := [host]; t_bookings := []; t_events := []; t_focus := [] |}.
Definition day : time := Date 2025 1 6 0 0 0 0 UTC.
Definition at_ (h m : Z) : time := Date 2025 1 6 h m 0 0 UTC.
Definition standup : Event := {|
  ev_Id := "e1"; Summary := "Standup"; Description := ""; Location_ := ""; Status := "";
  Transparency := ""; Visibility := ""; ColorId := ""; OrganizerSelf := None;
  ev_Start := at_time (at_ 9 30); ev_End := at_time (at_ 10 0); Attendees := [] |}.
Definition calendars : Calendars := {|
  loadToken := fun _ => TokenFound; clientOk := fun _ => true;
  providerEvents := fun _ _ _ => Ok [standup]; providerCreate := fun _ _ => Ok "ev1" |}.
Definition slots : list AvailableSlot :=
  match CollectiveSlots UTC (storage_reads tables) calendars (fun _ => true) link day 30 with
  | Ok l => l | Err _ => [] end.
Definition slot : AvailableSlot := Iv (at_ 10 15) (at_ 10 45).
Definition clear_path : InsertPath :=
  {| conn_refused := None; commit_ok := true; insert_fails := false |}.
End EngineDemo.

(** The stand-up and the quarter of an hour after it are not offered. *)
Example EngineDemo_slots :
  map (fun s => FormatHHMM (iv_start s)) EngineDemo.slots = ["09:00"; "10:15"; "10:30"].
Proof. vm_compute. reflexivity. Qed.

(** A host further west: their focus block of ten at night, dated the day before
    the owner's date, is not read, and its time is offered. *)
Lemma earlier_dated_block_is_offered :
  let block := {| FB_User := Some 1%N; FB_Event := "f1"; FB_Start := EngineDemo.at_ 10 0;
                  FB_End := EngineDemo.at_ 11 0; FB_Date := day_number EngineDemo.day - 1 |} in
  match CollectiveSlots UTC (storage_reads (set_focus (fun _ => [block]) EngineDemo.tables))
          EngineDemo.calendars (fun _ => true) EngineDemo.link EngineDemo.day 30 with
  | Ok slots => map (fun s => FormatHHMM (iv_start s)) slots = ["09:00"; "10:15"; "10:30"]
  | Err _ => False
  end.
Proof. vm_compute. reflexivity. Qed.

(** An event that ends five minutes before the window is not in the calendar's
    answer, so the quarter of an hour after it is offered. *)
Lemma buffer_before_window_is_offered :
  let early := {| ev_Id := "e0"; Summary := "Early"; Description := ""; Location_ := ""; Status := "";
    Transparency := ""; Visibility := ""; ColorId := ""; OrganizerSelf := None;
    ev_Start := at_time (EngineDemo.at_ 8 30); ev_End := at_time (EngineDemo.at_ 8 55); Attendees := [] |} in
  let meets s e ev := match eventInterval UTC ev with
    | Some iv => Before (iv_start iv) e && After (iv_end iv) s | None => false end in
  let cal := {| loadToken := fun _ => TokenFound; clientOk := fun _ => true;
    providerEvents := fun _ s e => Ok (keep (meets s e) [early]);
    providerCreate := fun _ _ => Ok "ev1" |} in
  BufferAfter EngineDemo.link = 15 /\
  match CollectiveSlots UTC (storage_reads EngineDemo.tables) cal (fun _ => true)
          EngineDemo.link EngineDemo.day 30 with
  | Ok slots => option_map (fun s => FormatHHMM (iv_start s)) (head slots) = Some "09:00"
  | Err _ => False
  end.
Proof. vm_compute. auto. Qed.

Lemma GenerateSlug_safe_witness :
  GenerateSlug (fun _ => Ok false) (fun _ => (0, 0)) "Ada Lovelace" 30 = Some (Ok "ada-30min") /\
  sforallb url_safe "ada-30min" = true.
Proof.
  assert (E : GenerateSlug (fun _ => Ok false) (fun _ => (0, 0)) "Ada Lovelace" 30 =
    Some (Ok "ada-30min")) by (vm_compute; reflexivity).
  split; [exact E|].
  apply (GenerateSlug_safe (fun _ => Ok false) (fun _ => (0, 0)) "Ada Lovelace" 30); [|exact E].
  intros k. unfold is_byte. simpl. lia.
Defined.


Lemma ConfirmBooking_all_or_nothing_witness :
  exists b t', ConfirmBooking (Ok [EngineDemo.host]) EngineDemo.calendars (fun _ => true)
      EngineDemo.clear_path 100%N EngineDemo.link "Bob" "bob@y.org" (EngineDemo.at_ 10 15)
      (EngineDemo.at_ 10 45) "" EngineDemo.tables = (Ok b, t') /\
    t' = set_bookings (fun bs => bs ++ [b]) EngineDemo.tables /\ live b = true.
Proof.
  eexists _, _. split; [reflexivity|].
  pose proof (ConfirmBooking_all_or_nothing (Ok [EngineDemo.host]) EngineDemo.calendars
    (fun _ => true) EngineDemo.clear_path 100%N EngineDemo.link "Bob" "bob@y.org"
    (EngineDemo.at_ 10 15) (EngineDemo.at_ 10 45) "" EngineDemo.tables _ _ eq_refl)
    as (H1 & _ & _ & H2 & _).
  split; [exact H1|exact H2].
Defined.
