(* ===== verification/TeamAvailability.v ===== *)
(** * Team availability

    [engine/team_availability.go]: the slots of a day when a whole team is
    free, and the team's analytics. *)

From S2P Require Import Prelude GoInt GoTime GoText Interval LinkStore Calendar PerItem.
From S2P Require Import BookingEngine Cursor Teams.

#[local] Open Scope string_scope.
#[local] Open Scope list_scope.
#[local] Open Scope Z_scope.

Record TeamSlot := { TS_Start : time; TS_End : time; QualityScore : Z }.

Record memberBusyData := { md_busy : list interval; md_focus : list interval }.

(** A member's calendar and focus blocks: the focus blocks of the week that
    start on the day, both busy and soft-busy. *)
Definition memberBusy (local : Location) (cal : Calendars) (focus : uuid -> time -> list FocusBlockRow)
    (user : uuid) (day dayStart dayEnd : time) : memberBusyData :=
  let events :=
    match calendarClientForUser cal user with
    | Ok _ => match providerEvents cal user dayStart dayEnd with Ok evs => evs | Err _ => [] end
    | Err _ => []
    end in
  let fbs := map (fun fb => Iv (FB_Start fb) (FB_End fb))
    (keep (fun fb => bool_decide (DateOf (FB_Start fb) = DateOf day)) (focus user day)) in
  {| md_busy := event_busy local events ++ fbs; md_focus := fbs |}.

(** [teamQualityScore]. *)
Definition disrupts (slot : interval) (m : memberBusyData) : bool :=
  existsb (fun fb => Before (iv_start slot) (iv_end fb) && After (iv_end slot) (iv_start fb)) (md_focus m).

Definition teamQualityScore (slot : interval) (members : list memberBusyData) : Z :=
  match members with
  | [] => 100
  | _ => 100 - Z.quot (Z.of_nat (length (keep (disrupts slot) members)) * 100)
                      (Z.of_nat (length members))
  end.

(** The slots of one free stretch. *)
Definition stretch_slots (dur : Z) (mdata : list memberBusyData) (f : interval) : list TeamSlot :=
  if Sub (iv_end f) (iv_start f) <? dur then []
  else map (fun c => {| TS_Start := c; TS_End := Add c dur;
                        QualityScore := teamQualityScore (Iv c (Add c dur)) mdata |})
         (cursor (iv_start f) (iv_end f) dur (15 * Minute)).

Definition zone_busy (day : time) (z : NoMeetingZone) : list interval :=
  if DayOfWeek z =? WeekdayOf day
  then [Iv (parseHHMM (StartTime z) day UTC) (parseHHMM (EndTime z) day UTC)] else [].

(** [FindSlots]; [ok] is the budget of the pool. *)
Definition FindSlots (local : Location) (cal : Calendars) (focus : uuid -> time -> list FocusBlockRow)
    (ok : nat -> bool) (members : result (list TeamMember)) (zones : result (list NoMeetingZone))
    (day : time) (durationMinutes : Z) : result (list TeamSlot) :=
  ms <-? members ;;
  match ms with
  | [] => Ok []
  | m0 :: _ =>
      zs <-? zones ;;
      let workStart := parseHHMM "09:00" day UTC in
      let workEnd := parseHHMM "18:00" day UTC in
      let c := DateOf day in
      let dayStart := Date (c_year c) (c_month c) (c_day c) 0 0 0 0 UTC in
      let dayEnd := Add dayStart (24 * Hour) in
      mdata <-? run_pool ok (length ms)
        (fun i => memberBusy local cal focus (TM_User (nth i ms m0)) day dayStart dayEnd) ;;
      let merged := mergeIntervals (flat_map md_busy mdata ++ flat_map (zone_busy day) zs) in
      let free := subtractIntervals (Iv workStart workEnd) merged in
      Ok (flat_map (stretch_slots (dur_minutes durationMinutes) mdata) free)
  end.

(** ** Analytics of a team *)

Record AnalyticsRow := { MeetingMinutes : Z; FocusMinutes : Z; FocusScore : Z }.

Record MemberAnalyticsSummary := {
  ma_User : uuid; ma_Meeting : Z; ma_Focus : Z; ma_Score : Z }.

Record TeamAnalytics := {
  AvgMeetingMinutes : Z; AvgFocusMinutes : Z; MemberBreakdown : list MemberAnalyticsSummary }.

Definition member_summary (week : uuid -> option AnalyticsRow) (m : TeamMember)
    : MemberAnalyticsSummary :=
  match week (TM_User m) with
  | Some r => {| ma_User := TM_User m; ma_Meeting := MeetingMinutes r; ma_Focus := FocusMinutes r;
                 ma_Score := FocusScore r |}
  | None => {| ma_User := TM_User m; ma_Meeting := 0; ma_Focus := 0; ma_Score := 0 |}
  end.

Definition GetTeamAnalytics (week : uuid -> option AnalyticsRow) (members : result (list TeamMember))
    : result TeamAnalytics :=
  ms <-? members ;;
  let rows := map (member_summary week) ms in
  let n := if Nat.eqb (length ms) 0 then 1 else Z.of_nat (length ms) in
  Ok {| AvgMeetingMinutes := Z.quot (foldr Z.add 0 (map ma_Meeting rows)) n;
        AvgFocusMinutes := Z.quot (foldr Z.add 0 (map ma_Focus rows)) n;
        MemberBreakdown := rows |}.

(** ** Facts *)

Definition slot_interval (s : TeamSlot) : interval := Iv (TS_Start s) (TS_End s).

Lemma elem_of_stretch dur mdata f s :
  s ∈ stretch_slots dur mdata f ->
  within f (slot_interval s) \/ dur < 0.
Proof.
  unfold stretch_slots. destruct (_ <? dur); [by intros ?%not_elem_of_nil|].
  intros (c & <- & Hc)%list_elem_of_In%in_map_iff. apply list_elem_of_In in Hc.
  apply elem_of_cursor in Hc as (k & Hk & -> & He); [|done].
  destruct (Z.ltb_spec dur 0); [by right|left]. unfold within, slot_interval, Add in *. simpl in *.
  unfold Minute, Second in *. lia.
Qed.

Lemma stretch_shape dur mdata f s :
  s ∈ stretch_slots dur mdata f ->
  TS_End s = Add (TS_Start s) dur /\ QualityScore s = teamQualityScore (slot_interval s) mdata.
Proof.
  unfold stretch_slots. destruct (_ <? dur); [by intros ?%not_elem_of_nil|].
  by intros (c & <- & Hc)%list_elem_of_In%in_map_iff.
Qed.

(** What a found slot is made of. *)
Lemma FindSlots_Ok local cal focus ok members zones day n slots s :
  FindSlots local cal focus ok members zones day n = Ok slots -> s ∈ slots ->
  exists ms zs dayStart mdata f,
    members = Ok ms /\ zones = Ok zs /\ ms <> [] /\
    mdata = map (fun m => memberBusy local cal focus (TM_User m) day dayStart (Add dayStart (24 * Hour))) ms /\
    f ∈ subtractIntervals (Iv (parseHHMM "09:00" day UTC) (parseHHMM "18:00" day UTC))
          (mergeIntervals (flat_map md_busy mdata ++ flat_map (zone_busy day) zs)) /\
    s ∈ stretch_slots (dur_minutes n) mdata f.
Proof.
  unfold FindSlots. intros (ms & Hms & H)%rbind_Ok Hs.
  destruct ms as [|m0 ms]; [injection H as <-; by apply not_elem_of_nil in Hs|].
  apply rbind_Ok in H as (zs & Hzs & H). cbv zeta in H.
  apply rbind_Ok in H as (mdata & Hm & [= <-]). apply run_pool_Ok in Hm as [-> _].
  apply elem_of_flat_map in Hs as (f & Hf & Hs).
  rewrite (map_nth_seq_elem (fun m => memberBusy local cal focus (TM_User m) day _ _) (m0 :: ms) m0)
    in Hf, Hs.
  exists (m0 :: ms), zs. eexists _, _, f. split_and!; try done.
Qed.

Lemma focus_in_busy local cal focus user day ds de fb :
  fb ∈ md_focus (memberBusy local cal focus user day ds de) ->
  fb ∈ md_busy (memberBusy local cal focus user day ds de).
Proof. intros H. simpl in *. apply elem_of_app. by right. Qed.

Lemma no_member_disrupted mdata slot :
  (forall m, m ∈ mdata -> disrupts slot m = false) -> teamQualityScore slot mdata = 100.
Proof.
  intros H. unfold teamQualityScore. destruct mdata as [|m0 ms]; [done|].
  replace (keep (disrupts slot) (m0 :: ms)) with (@nil memberBusyData); [reflexivity|].
  symmetry. revert H. generalize (m0 :: ms) as l. induction l as [|m l IH]; intros H; [done|].
  simpl. rewrite H by left. apply IH. intros m' Hm'. apply H. by right.
Qed.

(** ** Properties *)

(** A slot found for a team lies between 09:00 and 18:00 UTC and shares no
    instant with the readable calendar or the focus blocks of any member, nor
    with a no-meeting zone of the day. *)
Theorem FindSlots_sound local cal focus ok members zones day n slots s x :
  0 <= n <= max_dur_minutes ->
  FindSlots local cal focus ok members zones day n = Ok slots -> s ∈ slots ->
  covers (slot_interval s) x ->
  t_ns (parseHHMM "09:00" day UTC) <= x < t_ns (parseHHMM "18:00" day UTC) /\
  exists ms zs dayStart, members = Ok ms /\ zones = Ok zs /\
    (forall m, m ∈ ms -> ~ covered (md_busy (memberBusy local cal focus (TM_User m) day dayStart
                                               (Add dayStart (24 * Hour)))) x) /\
    (forall z, z ∈ zs -> ~ covered (zone_busy day z) x).
Proof.
  intros Hn H Hs Hx.
  destruct (FindSlots_Ok _ _ _ _ _ _ _ _ _ _ H Hs)
    as (ms & zs & ds & mdata & f & Hms & Hzs & _ & Hmd & Hf & Hsf).
  destruct (elem_of_stretch _ _ _ _ Hsf) as [Hw|Hneg].
  2:{ rewrite dur_minutes_small in Hneg by lia. unfold Minute, Second in Hneg. lia. }
  assert (Hfx : covers f x) by (unfold covers, within in *; lia).
  destruct (proj1 (subtractIntervals_covered (Iv (parseHHMM "09:00" day UTC)
    (parseHHMM "18:00" day UTC)) _ x) (ex_intro _ f (conj Hf Hfx))) as [Hwork Hfree].
  split; [exact Hwork|]. exists ms, zs, ds. split; [done|]. split; [done|].
  assert (Hn2 : ~ covered (flat_map md_busy mdata ++ flat_map (zone_busy day) zs) x).
  { intros Hc. apply Hfree. by apply mergeIntervals_covered. }
  rewrite covered_app, !covered_flat_map in Hn2. split.
  - intros m Hm Hc. apply Hn2. left. rewrite Hmd. eexists. split; [|exact Hc].
    apply list_elem_of_In, in_map_iff. exists m. split; [done|]. by apply list_elem_of_In.
  - intros z Hz Hc. apply Hn2. right. by exists z.
Qed.

(** Every slot found scores 100: focus blocks are also hard busy time, so no
    slot disrupts one, when they end after they start. *)
Theorem FindSlots_score_is_100 local cal focus ok members zones day n slots s :
  0 < n <= max_dur_minutes ->
  (forall u w fb, fb ∈ focus u w -> t_ns (FB_Start fb) < t_ns (FB_End fb)) ->
  FindSlots local cal focus ok members zones day n = Ok slots -> s ∈ slots ->
  QualityScore s = 100.
Proof.
  intros Hn Hfb H Hs.
  destruct (FindSlots_Ok _ _ _ _ _ _ _ _ _ _ H Hs)
    as (ms & zs & ds & mdata & f & _ & _ & _ & Hmd & Hf & Hsf).
  destruct (stretch_shape _ _ _ _ Hsf) as [He Hq]. rewrite Hq.
  destruct (elem_of_stretch _ _ _ _ Hsf) as [Hw|Hneg];
    rewrite dur_minutes_small in * by lia; [|unfold Minute, Second in Hneg; lia].
  apply no_member_disrupted. intros md Hm. unfold disrupts. apply existsb_elem_false.
  intros fb Hb. apply not_true_is_false. rewrite andb_true_iff, Before_lt, After_lt.
  intros [H1 H2]. rewrite Hmd in Hm. apply list_elem_of_In, in_map_iff in Hm as (m & <- & Hm).
  set (x := Z.max (t_ns (iv_start (slot_interval s))) (t_ns (iv_start fb))).
  assert (Hprop : t_ns (iv_start fb) < t_ns (iv_end fb)).
  { simpl in Hb. apply list_elem_of_In, in_map_iff in Hb as (r & <- & Hr).
    apply list_elem_of_In, elem_of_keep in Hr as [Hr _]. simpl. by eapply Hfb. }
  assert (Hx : covers f x /\ covers fb x).
  { unfold covers, within, x, slot_interval, Add in *. rewrite He in *. simpl in *.
    unfold Minute, Second in *. lia. }
  destruct Hx as [Hxf Hxb].
  destruct (proj1 (subtractIntervals_covered (Iv (parseHHMM "09:00" day UTC)
    (parseHHMM "18:00" day UTC)) _ x) (ex_intro _ f (conj Hf Hxf))) as [_ Hfree].
  apply Hfree, mergeIntervals_covered. rewrite covered_app. left. apply covered_flat_map.
  rewrite Hmd. eexists. split; [apply list_elem_of_In, in_map_iff; exists m; split; [reflexivity|done]|].
  exists fb. split; [|done]. by apply focus_in_busy.
Qed.

(** ** A concrete team *)

Module TeamDemo.
Definition cal : Calendars := {|
  loadToken := fun _ => TokenFound; clientOk := fun _ => true;
  providerEvents := fun _ _ _ => Ok []; providerCreate := fun _ _ => Err ErrProvider |}.
Definition day : time := Date 2025 1 6 0 0 0 0 UTC.
Definition focus (u : uuid) (w : time) : list FocusBlockRow :=
  if N.eqb u 11 then [{| FB_User := Some 11%N; FB_Event := "f"; FB_Start := Date 2025 1 6 9 0 0 0 UTC;
    FB_End := Date 2025 1 6 16 0 0 0 UTC; FB_Date := day_number day |}] else [].
Definition zone : NoMeetingZone := {| Z_ID := 1%N; Z_Team := 1%N; DayOfWeek := 1;
  StartTime := "16:30"; EndTime := "17:00"; Label := "" |}.
Definition slot : TeamSlot := {| TS_Start := Date 2025 1 6 16 0 0 0 UTC;
  TS_End := Date 2025 1 6 16 30 0 0 UTC; QualityScore := 100 |}.
Definition found : result (list TeamSlot) :=
  FindSlots UTC cal focus (fun _ => true) (Ok (ListTeamMembers demo_team 1%N)) (Ok [zone]) day 30.
Definition slots : list TeamSlot := match found with Ok l => l | Err _ => [] end.
End TeamDemo.

Lemma TeamDemo_found : TeamDemo.found = Ok TeamDemo.slots.
Proof. vm_compute. reflexivity. Qed.

Lemma TeamDemo_slot : TeamDemo.slot ∈ TeamDemo.slots.
Proof. apply list_elem_of_In. vm_compute. tauto. Qed.

Lemma FindSlots_sound_witness :
  t_ns (parseHHMM "09:00" TeamDemo.day UTC) <= t_ns (TS_Start TeamDemo.slot) <
    t_ns (parseHHMM "18:00" TeamDemo.day UTC) /\ length TeamDemo.slots = 4%nat.
Proof.
  split; [|vm_compute; reflexivity].
  apply (FindSlots_sound UTC TeamDemo.cal TeamDemo.focus (fun _ => true)
    (Ok (ListTeamMembers demo_team 1%N)) (Ok [TeamDemo.zone]) TeamDemo.day 30 TeamDemo.slots
    TeamDemo.slot (t_ns (TS_Start TeamDemo.slot))).
  - unfold max_dur_minutes. lia.
  - exact TeamDemo_found.
  - exact TeamDemo_slot.
  - vm_compute. split; [discriminate|reflexivity].
Defined.

Lemma FindSlots_score_is_100_witness : QualityScore TeamDemo.slot = 100.
Proof.
  apply (FindSlots_score_is_100 UTC TeamDemo.cal TeamDemo.focus (fun _ => true)
    (Ok (ListTeamMembers demo_team 1%N)) (Ok [TeamDemo.zone]) TeamDemo.day 30 TeamDemo.slots).
  - unfold max_dur_minutes. lia.
  - intros u w fb. unfold TeamDemo.focus. destruct (N.eqb u 11).
    + intros ->%list_elem_of_singleton. vm_compute. reflexivity.
    + by intros ?%not_elem_of_nil.
  - exact TeamDemo_found.
  - exact TeamDemo_slot.
Defined.
