(* ===== verification/BookingRule.v ===== *)
(** * The offerable-start rule

    [api/booking_rule.go] with [storage.GetUserTimezone]: the link's zone, its
    calendar days and horizon, the slots the public listing offers
    ([offeredSlots]) and the checks a booking goes through before any host is
    read ([cheapRefusal]).  The listing and the booking share the rule; the
    lemmas below are what they promise to each other. *)

From S2P Require Import Prelude GoInt GoTime GoText Interval LinkStore BookingWindow Calendar.

#[local] Open Scope string_scope.
#[local] Open Scope list_scope.
#[local] Open Scope Z_scope.

(** ** The interface of the booking engine *)

(** [api.BookingFlow], the engine as the handlers see it, over a state [S]. *)
Class BookingFlow (S : Type) := {
  flow_slots : S -> SchedulingLink -> time -> Z -> result (list AvailableSlot);
  flow_confirm : S -> SchedulingLink -> string -> string -> time -> time -> string ->
                 result Booking * S;
}.

(** What an engine promises to the rule: it offers slots of the link's grid. *)
Class BookingFlowLaws (S : Type) {F : BookingFlow S} : Prop := {
  flow_slots_grid st link day dur slots s :
    flow_slots st link day dur = Ok slots -> s ∈ slots -> s ∈ GridSlots link day dur;
}.

(** ** The link's zone *)

(** [GetUserTimezone]: the stored zone of the settings row, when there is one. *)
Definition GetUserTimezone (rows : list (uuid * string)) (u : uuid) : option string :=
  snd <$> List.find (fun r => N.eqb r.1 u) rows.

(** [linkLocation]; [load] is [time.LoadLocation] on the tz database. *)
Definition linkLocation (read : uuid -> result (option string)) (load : string -> option Location)
    (owner : uuid) : result Location :=
  tz <-? read owner ;;
  Ok (match tz with
      | None => UTC
      | Some name =>
          if String.eqb name "" || String.eqb name "Local" then UTC
          else default UTC (load name)
      end).

(** ** Calendar days *)

Definition noon (c : civil) (loc : Location) : time :=
  Date (c_year c) (c_month c) (c_day c) 12 0 0 0 loc.

Definition calendarDay (t : time) (loc : Location) : time := noon (DateOf (In t loc)) loc.

Definition parseCalendarDay (s : string) (loc : Location) : option time :=
  d ← ParseDateOnly s; Some (noon (DateOf d) loc).

Definition midnight_utc (t : time) : time :=
  let c := DateOf t in Date (c_year c) (c_month c) (c_day c) 0 0 0 0 UTC.

Definition daysBetween (a b : time) : Z := Z.quot (Sub (midnight_utc b) (midnight_utc a)) (24 * Hour).

(** ** The rule *)

Definition horizonDays (link : SchedulingLink) : Z :=
  if BookingHorizonDays link <=? 0 then DefaultBookingHorizonDays else BookingHorizonDays link.

Definition inHorizon (link : SchedulingLink) (today day : time) : bool :=
  let n := daysBetween today day in (0 <=? n) && (n <? horizonDays link).

Definition linkOpenOn (link : SchedulingLink) (day : time) : bool :=
  existsb (fun d => d =? WeekdayOf day) (DaysOfWeek link).

Definition earliest_start (link : SchedulingLink) (now : time) : time :=
  Add now (dur_minutes (MinNoticeMinutes link)).

Definition offeredSlots {S} `{BookingFlow S} (st : S) (link : SchedulingLink) (loc : Location)
    (day : time) (duration : Z) (now : time) : result (list AvailableSlot) :=
  if negb (inHorizon link (calendarDay now loc) day) || negb (linkOpenOn link day) then Ok []
  else
    slots <-? flow_slots st link day duration ;;
    Ok (map (fun s => Iv (toUTC (iv_start s)) (toUTC (iv_end s)))
            (keep (fun s => negb (Before (iv_start s) (earliest_start link now))) slots)).

(** [gen.BookingRefusalReason]. *)
Inductive RefusalReason := TooSoon | OutsideLinkHours | BeyondHorizon | HostBusy | Taken.

Definition reason_text (r : RefusalReason) : string :=
  match r with
  | TooSoon => "slot is too soon"
  | OutsideLinkHours => "slot is outside the link's days or hours"
  | BeyondHorizon => "slot is beyond the link's booking horizon"
  | HostBusy => "a host is busy at that time"
  | Taken => "slot is already booked"
  end.

(** [writeRefusal]: the text of the 409 and the reason it names, if any. *)
Definition writeRefusal (link : SchedulingLink) (r : RefusalReason) : string * option RefusalReason :=
  if negb (String.eqb (RefusalMessage link) RefusalSpecific)
  then ("slot is no longer available", None)
  else (reason_text r, Some r).

Definition on_grid (link : SchedulingLink) (day start end_ : time) (duration : Z) : bool :=
  linkOpenOn link day &&
  existsb (fun s => Equal (iv_start s) start && Equal (iv_end s) end_) (GridSlots link day duration).

(** [cheapRefusal], [day] and [today] being the calendar days of the start and
    of the clock. *)
Definition cheap_refusal_on (link : SchedulingLink) (today day : time) (start end_ : time)
    (duration : Z) (now : time) : option RefusalReason :=
  if horizonDays link <=? daysBetween today day then Some BeyondHorizon
  else if negb (on_grid link day start end_ duration) then Some OutsideLinkHours
  else if Before start (earliest_start link now) then Some TooSoon
  else None.

Definition cheapRefusal (link : SchedulingLink) (loc : Location) (start end_ : time)
    (duration : Z) (now : time) : option RefusalReason :=
  cheap_refusal_on link (calendarDay now loc) (calendarDay start loc) start end_ duration now.

(** ** Facts *)

(** A calendar day in a zone: the noon of its own date. *)
Definition is_calendar_day (loc : Location) (day : time) : Prop :=
  t_loc day = loc /\ day = noon (DateOf day) loc.

Lemma GridSlots_date link day dur s :
  s ∈ GridSlots link day dur ->
  DateOf (In (iv_start s) (t_loc day)) = DateOf day.
Proof.
  intros (_ & ws & we & sm & x & _ & _ & _ & _ & Hw & _)%elem_of_GridSlots.
  apply wallClock_date in Hw as [Hd Hl]. rewrite <- Hl. unfold In.
  by destruct (iv_start s).
Qed.

Lemma In_In t l1 l2 : In (In t l1) l2 = In t l2.
Proof. reflexivity. Qed.

Lemma calendarDay_slot link loc day dur s :
  is_calendar_day loc day -> s ∈ GridSlots link day dur ->
  calendarDay (toUTC (iv_start s)) loc = day.
Proof.
  intros [Hl Hd] Hs. apply GridSlots_date in Hs. rewrite Hl in Hs.
  unfold calendarDay, toUTC. rewrite In_In, Hs. by symmetry.
Qed.

Lemma elem_of_offeredSlots {S} `{BookingFlow S} st link loc day dur now slots s :
  offeredSlots st link loc day dur now = Ok slots ->
  s ∈ slots <->
  inHorizon link (calendarDay now loc) day = true /\ linkOpenOn link day = true /\
  exists engine_slots s0, flow_slots st link day dur = Ok engine_slots /\ s0 ∈ engine_slots /\
    t_ns (earliest_start link now) <= t_ns (iv_start s0) /\
    s = Iv (toUTC (iv_start s0)) (toUTC (iv_end s0)).
Proof.
  unfold offeredSlots. destruct (_ || _) eqn:E.
  - intros [= <-]. rewrite elem_of_nil. split; [done|]. intros (H1 & H2 & _).
    rewrite H1, H2 in E. done.
  - apply orb_false_iff in E as [E1 E2]. apply negb_false_iff in E1, E2.
    destruct (flow_slots st link day dur) as [l|e]; simpl; [|done]. intros [= <-].
    split.
    + intros Hs. apply list_elem_of_In, in_map_iff in Hs as (s0 & <- & Hs).
      apply list_elem_of_In, elem_of_keep in Hs as [Hs Hb%negb_true_iff].
      rewrite Before_ge in Hb. eauto 10.
    + intros (_ & _ & l' & s0 & [= <-] & Hs & Hb & ->).
      apply list_elem_of_In, in_map_iff. exists s0. split; [done|].
      apply list_elem_of_In, elem_of_keep. split; [done|].
      apply negb_true_iff. by apply Before_ge.
Qed.

Lemma on_grid_intro link day dur start end_ s :
  linkOpenOn link day = true -> s ∈ GridSlots link day dur ->
  t_ns (iv_start s) = t_ns start -> t_ns (iv_end s) = t_ns end_ ->
  on_grid link day start end_ dur = true.
Proof.
  intros Ho Hs H1 H2. unfold on_grid. rewrite Ho, andb_true_l. apply existsb_elem.
  exists s. split; [exact Hs|]. unfold Equal. by rewrite H1, H2, !Z.eqb_refl.
Qed.

Lemma cheap_refusal_on_accepts link today day dur start end_ now :
  daysBetween today day < horizonDays link ->
  on_grid link day start end_ dur = true ->
  t_ns (earliest_start link now) <= t_ns start ->
  cheap_refusal_on link today day start end_ dur now = None.
Proof.
  intros H1 H2 H3. unfold cheap_refusal_on.
  apply Z.leb_gt in H1. apply Before_ge in H3. rewrite H1, H2, H3. reflexivity.
Qed.

Lemma cheap_refusal_on_None link today day dur start end_ now :
  cheap_refusal_on link today day start end_ dur now = None ->
  daysBetween today day < horizonDays link /\
  linkOpenOn link day = true /\
  t_ns (earliest_start link now) <= t_ns start /\
  exists s, s ∈ GridSlots link day dur /\ t_ns (iv_start s) = t_ns start /\
  t_ns (iv_end s) = t_ns end_.
Proof.
  unfold cheap_refusal_on.
  destruct (Z.leb_spec (horizonDays link) (daysBetween today day)) as [|Hh]; [discriminate|].
  destruct (on_grid link day start end_ dur) eqn:Eg; [|discriminate].
  destruct (Before start (earliest_start link now)) eqn:Eb; [discriminate|]. intros _.
  unfold on_grid in Eg. apply andb_true_iff in Eg as [Eo Ex].
  apply existsb_elem in Ex as (s & Hs & He). unfold Equal in He.
  apply andb_true_iff in He as [He1%Z.eqb_eq He2%Z.eqb_eq].
  apply Before_ge in Eb. eauto 10.
Qed.

Lemma inHorizon_true link today day :
  inHorizon link today day = true <->
  0 <= daysBetween today day < horizonDays link.
Proof.
  unfold inHorizon. generalize (daysBetween today day) as n. intros n.
  rewrite andb_true_iff, Z.leb_le, Z.ltb_lt. lia.
Qed.

(** What the listing offers, the booking's cheap checks accept. *)
Lemma offered_not_refused {S} {F : BookingFlow S} {FL : BookingFlowLaws S}
    st link loc day dur now slots s :
  is_calendar_day loc day ->
  offeredSlots st link loc day dur now = Ok slots -> s ∈ slots ->
  calendarDay (iv_start s) loc = day /\
  cheapRefusal link loc (iv_start s) (iv_end s) dur now = None.
Proof.
  intros Hday Ho Hs.
  apply (elem_of_offeredSlots st link loc day dur now slots s Ho) in Hs
    as (Hh & Hop & l & s0 & Hl & Hs0 & Hn & ->).
  pose proof (flow_slots_grid _ _ _ _ _ _ Hl Hs0) as Hg.
  pose proof (calendarDay_slot link loc day dur s0 Hday Hg) as Hc.
  split; [exact Hc|].
  unfold cheapRefusal. cbn [iv_start iv_end]. rewrite Hc.
  apply inHorizon_true in Hh as [_ Hh].
  apply cheap_refusal_on_accepts; [exact Hh| |exact Hn].
  apply (on_grid_intro link day dur _ _ s0 Hop Hg); reflexivity.
Qed.

(** What the cheap checks accept is a slot of the link's grid on an open day,
    short of the horizon and past the notice. *)
Lemma cheapRefusal_None link loc start end_ dur now :
  cheapRefusal link loc start end_ dur now = None ->
  daysBetween (calendarDay now loc) (calendarDay start loc) < horizonDays link /\
  linkOpenOn link (calendarDay start loc) = true /\
  t_ns (earliest_start link now) <= t_ns start /\
  exists s, s ∈ GridSlots link (calendarDay start loc) dur /\ t_ns (iv_start s) = t_ns start /\
  t_ns (iv_end s) = t_ns end_.
Proof. apply cheap_refusal_on_None. Qed.

(** A booking accepted by the cheap checks, on a day that has not passed and
    whose slot the engine offers, is in the listing. *)
Lemma accepted_is_offered {S} {F : BookingFlow S} st link loc start end_ dur now slots s0 :
  cheapRefusal link loc start end_ dur now = None ->
  0 <= daysBetween (calendarDay now loc) (calendarDay start loc) ->
  flow_slots st link (calendarDay start loc) dur = Ok slots -> s0 ∈ slots ->
  t_ns (iv_start s0) = t_ns start -> t_ns (iv_end s0) = t_ns end_ ->
  exists offered, offeredSlots st link loc (calendarDay start loc) dur now = Ok offered /\
  Iv (toUTC start) (toUTC end_) ∈ offered.
Proof.
  intros Hc. destruct (cheapRefusal_None _ _ _ _ _ _ Hc) as (Hh & Hop & Hn & _).
  revert Hh Hop. generalize (calendarDay start loc) as day. intros day Hh Hop Hd Hf Hs Hst He.
  assert (Ho : exists offered, offeredSlots st link loc day dur now = Ok offered).
  { unfold offeredSlots. destruct (_ || _); [by eexists|]. rewrite Hf. by eexists. }
  destruct Ho as [offered Ho]. exists offered. split; [exact Ho|].
  apply (elem_of_offeredSlots st link loc day dur now offered _ Ho). split_and!.
  - apply inHorizon_true. by split.
  - exact Hop.
  - exists slots, s0. rewrite Hst. split_and!; [exact Hf|exact Hs|exact Hn|].
    unfold toUTC, In. by rewrite Hst, He.
Qed.
