(* ===== verification/LinkHandlers.v ===== *)
(** * Managing scheduling links

    [api/handlers_scheduling_links.go]: the handlers an owner creates, lists,
    reads, changes and deactivates links with, and co-hosts answer and leave
    with, over the tables of [LinkStore].  Times of creation and of invitation
    are not kept by the tables and left out of the answers. *)

From S2P Require Import Prelude GoInt GoTime GoText Interval LinkStore BookingWindow Calendar PerItem BookingEngine BookingRule.

#[local] Open Scope string_scope.
#[local] Open Scope list_scope.
#[local] Open Scope Z_scope.

(** ** Requests and answers *)

(** A body of [POST]; a list is [None] when absent or null. *)
Record schedulingLinkInput := {
  li_Title : string;
  li_Slug : string;
  li_DurationOptions : option (list Z);
  li_Durations : option (list Z);
  li_DaysOfWeek : option (list Z);
  li_Days : option (list string);
  li_WindowStart : string;
  li_WindowStartAlias : string;
  li_WindowEnd : string;
  li_WindowEndAlias : string;
  li_BufferBefore : Z;
  li_BufferAfter : Z;
  li_MinNoticeMinutes : Z;
  li_UsageType : string;
  li_MaxUses : option Z;
  li_CoHostEmails : list string;
  li_BookingHorizonDays : option Z;
  li_RefusalMessage : option string }.

(** A body of [PATCH]. *)
Record schedulingLinkPatch := {
  lp_Title : option string;
  lp_Slug : option string;
  lp_DurationOptions : option (list Z);
  lp_Durations : option (list Z);
  lp_DaysOfWeek : option (list Z);
  lp_Days : option (list string);
  lp_WindowStart : option string;
  lp_WindowStartAlias : option string;
  lp_WindowEnd : option string;
  lp_WindowEndAlias : option string;
  lp_BufferBefore : option Z;
  lp_BufferAfter : option Z;
  lp_MinNoticeMinutes : option Z;
  lp_UsageType : option string;
  lp_MaxUses : option Z;
  lp_Active : option bool;
  lp_CoHostEmails : option (list string);
  lp_BookingHorizonDays : option Z;
  lp_RefusalMessage : option string }.

Record schedulingHostDTO := {
  sh_UserID : uuid; sh_Email : string; sh_Name : string; sh_AvatarURL : string; sh_IsOwner : bool; sh_Status : string }.

Record schedulingLinkDTO := {
  sl_ID : uuid; sl_OwnerID : uuid; sl_Title : string; sl_Slug : string; sl_Durations : list Z; sl_Days : list string;
  sl_WindowStart : string; sl_WindowEnd : string; sl_BufferBefore : Z; sl_BufferAfter : Z; sl_MinNoticeMinutes : Z;
  sl_UsageType : string; sl_MaxUses : option Z; sl_UsesCount : Z; sl_Active : bool; sl_Hosts : list schedulingHostDTO;
  sl_IsOwner : bool; sl_MyStatus : string; sl_BookingHorizonDays : Z; sl_RefusalMessage : string; sl_TimeZone : string }.

Record hostInviteDTO := { hi_LinkID : uuid; hi_LinkTitle : string; hi_OwnerName : string; hi_OwnerEmail : string }.

Inductive LinkAnswer :=
| LinkError (code : Z) (msg : string)
| LinkPanic                               (** a run-time panic *)
| LinkShown (code : Z) (d : schedulingLinkDTO)
| LinksListed (owned shared : list schedulingLinkDTO)
| HostShown (created : bool) (h : option LinkHost)
| BookingsListed (l : list Booking)
| InvitesListed (l : list hostInviteDTO)
| Responded (status : string)
| NoContent.

(** ** Days and slugs *)

Definition day_name (d : Z) : option string :=
  match d with
  | 0 => Some "sun" | 1 => Some "mon" | 2 => Some "tue" | 3 => Some "wed" | 4 => Some "thu" | 5 => Some "fri"
  | 6 => Some "sat" | _ => None
  end.

Definition dayNames (days : list Z) : list string := omap day_name days.

Definition one_of (s : string) (l : list string) : bool := existsb (String.eqb s) l.

Definition day_number_of (raw : string) : option Z :=
  let s := ToLower (TrimSpace raw) in
  if one_of s ["sun"; "sunday"; "0"] then Some 0
  else if one_of s ["mon"; "monday"; "1"] then Some 1
  else if one_of s ["tue"; "tuesday"; "2"] then Some 2
  else if one_of s ["wed"; "wednesday"; "3"] then Some 3
  else if one_of s ["thu"; "thursday"; "4"] then Some 4
  else if one_of s ["fri"; "friday"; "5"] then Some 5
  else if one_of s ["sat"; "saturday"; "6"] then Some 6
  else None.

Definition dayNumbers (days : list string) : list Z := omap day_number_of days.

(** The loop of [normalizeSlug]: whether something is written, and whether its
    last character is the dash of a run. *)
Fixpoint slug_runes (written lastDash : bool) (s : string) : string :=
  match s with
  | EmptyString => ""
  | String c r =>
      if is_lower c || is_digit c then String c (slug_runes true false r)
      else if negb lastDash && written then String "-" (slug_runes true true r)
      else slug_runes written lastDash r
  end.

Definition normalizeSlug (raw : string) : string := Trim "-" (slug_runes false false (ToLower (TrimSpace raw))).

(** ** The checks of a link *)

Definition parseClock (value : string) : option Z :=
  let trimmed := TrimSpace value in
  match ParseHHMM trimmed with Some t => Some t | None => ParseHHMMSS trimmed end.

(** What the checks set on a link. *)
Definition checked (usage : string) (maxUses : option Z) (start end_ : string) (l : SchedulingLink) : SchedulingLink :=
  {| ID := ID l; OwnerUserID := OwnerUserID l; Slug := Slug l; Title := Title l; DurationOptions := DurationOptions l;
     DaysOfWeek := DaysOfWeek l; WindowStart := start; WindowEnd := end_; BufferBefore := BufferBefore l;
     BufferAfter := BufferAfter l; MinNoticeMinutes := MinNoticeMinutes l; UsageType := usage; MaxUses := maxUses;
     UsesCount := UsesCount l; Active := Active l; BookingHorizonDays := BookingHorizonDays l;
     RefusalMessage := RefusalMessage l |}.

(** [validateSchedulingLink]: the message of a 422, or the link as it leaves
    it. *)
Definition validateSchedulingLink (l : SchedulingLink) : res string SchedulingLink :=
  if String.eqb (TrimSpace (Title l)) "" then Err "title is required"
  else match DurationOptions l with
  | [] => Err "at least one duration is required"
  | _ =>
  if existsb (fun d => d <=? 0) (DurationOptions l) then Err "durations must be positive integers"
  else match DaysOfWeek l with
  | [] => Err "at least one day is required"
  | _ =>
  if existsb (fun d => (d <? 0) || (6 <? d)) (DaysOfWeek l)
  then Err "days_of_week must contain values between 0 and 6"
  else match parseClock (WindowStart l) with
  | None => Err "window times must use HH:MM"
  | Some start =>
  match parseClock (WindowEnd l) with
  | None => Err "window times must use HH:MM"
  | Some end_ =>
  if negb (start <? end_) then Err "window_start must be before window_end"
  else if (BufferBefore l <? 0) || (BufferAfter l <? 0) then Err "buffers must be zero or positive"
  else if MinNoticeMinutes l <? 0 then Err "min_notice_minutes must be zero or positive"
  else
    let usage := ToLower (TrimSpace (UsageType l)) in
    let usage := if String.eqb usage "" then "reusable" else usage in
    if negb (one_of usage ["reusable"; "recurring"; "single_use"])
    then Err "usage_type must be reusable, recurring, or single_use"
    else if String.eqb usage "recurring" && (match MaxUses l with Some n => n <=? 0 | None => true end)
    then Err "max_uses must be set to a positive integer for recurring links"
    else if (BookingHorizonDays l <? 1) || (365 <? BookingHorizonDays l)
    then Err "booking_horizon_days must be between 1 and 365"
    else if negb (one_of (RefusalMessage l) [RefusalGeneric; RefusalSpecific])
    then Err "refusal_message must be generic or specific"
    else Ok (checked usage (if String.eqb usage "recurring" then MaxUses l else None)
               (FormatClock start) (FormatClock end_) l)
  end end end end.

Definition or_else (a b : string) : string := if String.eqb a "" then b else a.

(** [normalized], before its checks. *)
Definition input_link (i : schedulingLinkInput) : SchedulingLink :=
  {| ID := uuid_nil; OwnerUserID := uuid_nil; Slug := normalizeSlug (li_Slug i); Title := TrimSpace (li_Title i);
     DurationOptions := match li_DurationOptions i with
                        | Some d => d
                        | None => match li_Durations i with Some d => d | None => [30] end
                        end;
     DaysOfWeek := match li_DaysOfWeek i with
                   | Some d => d
                   | None => match li_Days i with Some d => dayNumbers d | None => [1; 2; 3; 4; 5] end
                   end;
     WindowStart := or_else (or_else (li_WindowStart i) (li_WindowStartAlias i)) "09:00";
     WindowEnd := or_else (or_else (li_WindowEnd i) (li_WindowEndAlias i)) "17:00";
     BufferBefore := li_BufferBefore i; BufferAfter := li_BufferAfter i;
     MinNoticeMinutes := li_MinNoticeMinutes i; UsageType := li_UsageType i; MaxUses := li_MaxUses i;
     UsesCount := 0; Active := false;
     BookingHorizonDays := default DefaultBookingHorizonDays (li_BookingHorizonDays i);
     RefusalMessage := default RefusalGeneric (li_RefusalMessage i) |}.

Definition normalized (i : schedulingLinkInput) : res string SchedulingLink := validateSchedulingLink (input_link i).

(** The patched link of [updateLink], before its checks. *)
Definition patch_link (p : schedulingLinkPatch) (l : SchedulingLink) : SchedulingLink :=
  {| ID := ID l; OwnerUserID := OwnerUserID l;
     Slug := match lp_Slug p with Some s => normalizeSlug s | None => Slug l end;
     Title := match lp_Title p with Some s => TrimSpace s | None => Title l end;
     DurationOptions := match lp_Durations p with
                        | Some d => d
                        | None => default (DurationOptions l) (lp_DurationOptions p)
                        end;
     DaysOfWeek := match lp_Days p with
                   | Some d => dayNumbers d
                   | None => default (DaysOfWeek l) (lp_DaysOfWeek p)
                   end;
     WindowStart := match lp_WindowStart p with Some s => s | None => default (WindowStart l) (lp_WindowStartAlias p) end;
     WindowEnd := match lp_WindowEnd p with Some s => s | None => default (WindowEnd l) (lp_WindowEndAlias p) end;
     BufferBefore := default (BufferBefore l) (lp_BufferBefore p);
     BufferAfter := default (BufferAfter l) (lp_BufferAfter p);
     MinNoticeMinutes := default (MinNoticeMinutes l) (lp_MinNoticeMinutes p);
     UsageType := match lp_UsageType p with Some s => ToLower (TrimSpace s) | None => UsageType l end;
     MaxUses := match lp_MaxUses p with Some n => Some n | None => MaxUses l end;
     UsesCount := UsesCount l; Active := default (Active l) (lp_Active p);
     BookingHorizonDays := default (BookingHorizonDays l) (lp_BookingHorizonDays p);
     RefusalMessage := default (RefusalMessage l) (lp_RefusalMessage p) |}.

(** ** What a request meets *)

(** A row of users. *)
Record LinkUser := { lu_ID : uuid; lu_User : User }.

(** The calls a handler makes that can fail. *)
Inductive Call :=
| CallUser (u : uuid) | CallEmail (email : string) | CallZone (u : uuid) | CallSlug (slug : string)
| CallLink (id : uuid) | CallLinks | CallHosts (id : uuid) | CallStatus | CallBookings | CallInvites
| CallInsert | CallOwnerHost | CallCoHost (u : uuid) | CallUpdate | CallRemoveExcept | CallInvite (u : uuid)
| CallDelete | CallRespond | CallRemove.

(** Which calls fail, the users, their zones, the tz database, the random bytes
    of a slug and the generated key. *)
Record LinkEnv := {
  le_fails : Call -> bool;
  le_users : list LinkUser;
  le_zones : list (uuid * string);
  le_load : string -> option Location;
  le_rand : nat -> Z * Z;
  le_id : uuid }.

Section Handlers.
Context (env : LinkEnv).

Definition user_row (u : uuid) : option User := lu_User <$> List.find (fun r => N.eqb (lu_ID r) u) (le_users env).

(** [GetUserByID] and [GetUserByEmail]; a failure and an unknown user are told
    apart by no handler here. *)
Definition user_by_id (u : uuid) : option User := if le_fails env (CallUser u) then None else user_row u.
Definition user_by_email (raw : string) : option uuid :=
  let email := ToLower (TrimSpace raw) in
  if le_fails env (CallEmail email) then None
  else lu_ID <$> List.find (fun r => String.eqb (U_Email (lu_User r)) email) (le_users env).

Definition owner_zone (owner : uuid) : result Location :=
  linkLocation (fun u => if le_fails env (CallZone u) then Err ErrArgument else Ok (GetUserTimezone (le_zones env) u))
    (le_load env) owner.

Definition slug_taken (t : Tables) (s : string) : result bool :=
  if le_fails env (CallSlug s) then Err ErrArgument else Ok (SlugExists t s).

(** The host of a roster; [None] when the user cannot be read. *)
Definition host_row (link : SchedulingLink) (h : LinkHost) : schedulingHostDTO * bool :=
  let row u := {| sh_UserID := LH_UserID h; sh_Email := U_Email u; sh_Name := U_Name u; sh_AvatarURL := U_AvatarURL u;
                  sh_IsOwner := N.eqb (LH_UserID h) (OwnerUserID link); sh_Status := LH_Status h |} in
  match user_by_id (LH_UserID h) with
  | Some u => (row u, true)
  | None => (row {| U_Email := ""; U_Name := ""; U_AvatarURL := "" |}, false)
  end.

(** [buildSchedulingLinkDTO] with the hosts; [None] only when [strict]. *)
Definition buildSchedulingLinkDTO (t : Tables) (link : SchedulingLink) (loc : Location) (viewer : uuid) (strict : bool)
  : option schedulingLinkDTO :=
  let fails := le_fails env (CallHosts (ID link)) in
  let hosts := if fails then [] else GetLinkHosts t (ID link) in
  let rows := map (host_row link) hosts in
  if strict && (fails || negb (forallb snd rows)) then None
  else Some {|
    sl_ID := ID link; sl_OwnerID := OwnerUserID link; sl_Title := Title link; sl_Slug := Slug link;
    sl_Durations := DurationOptions link; sl_Days := dayNames (DaysOfWeek link); sl_WindowStart := WindowStart link;
    sl_WindowEnd := WindowEnd link; sl_BufferBefore := BufferBefore link; sl_BufferAfter := BufferAfter link;
    sl_MinNoticeMinutes := MinNoticeMinutes link; sl_UsageType := or_else (UsageType link) "reusable";
    sl_MaxUses := MaxUses link; sl_UsesCount := UsesCount link; sl_Active := Active link; sl_Hosts := map fst rows;
    sl_IsOwner := N.eqb (OwnerUserID link) viewer;
    sl_MyStatus := fold_left (fun acc h => if N.eqb (LH_UserID h) viewer then LH_Status h else acc) hosts "";
    sl_BookingHorizonDays := horizonDays link; sl_RefusalMessage := or_else (RefusalMessage link) RefusalGeneric;
    sl_TimeZone := loc_name loc |}.

(** [toSchedulingLinkDTO]: never strict. *)
Definition writeLink (code : Z) (t : Tables) (link : SchedulingLink) (loc : Location) (viewer : uuid) : LinkAnswer :=
  match buildSchedulingLinkDTO t link loc viewer false with
  | Some d => LinkShown code d
  | None => LinkPanic
  end.

(** ** Handlers *)

(** The co-hosts of a new link: who is not found is skipped. *)
Fixpoint add_cohosts (link : uuid) (emails : list string) (t : Tables) : Tables :=
  match emails with
  | [] => t
  | e :: r =>
      add_cohosts link r
        (match user_by_email e with
         | Some u => if le_fails env (CallCoHost u) then t else snd (AddLinkHost link u "pending" t)
         | None => t
         end)
  end.

(** The slug of a new link: the one asked for, or a generated one; [None] is
    the panic of a blank name. *)
Definition slug_for (t : Tables) (owner : User) (link : SchedulingLink) : option (res LinkAnswer string) :=
  if String.eqb (Slug link) "" then
    match DurationOptions link with
    | [] => Some (Err (LinkError 422 "at least one duration is required"))
    | d :: _ =>
        match GenerateSlug (slug_taken t) (le_rand env) (U_Name owner) d with
        | None => None
        | Some (Err _) => Some (Err (LinkError 500 "slug generation failed"))
        | Some (Ok s) => Some (Ok s)
        end
    end
  else match slug_taken t (Slug link) with
  | Err _ => Some (Err (LinkError 500 "slug check failed"))
  | Ok true => Some (Err (LinkError 409 "slug already exists"))
  | Ok false => Some (Ok (Slug link))
  end.

Definition with_owner_slug (owner : uuid) (slug : string) (l : SchedulingLink) : SchedulingLink :=
  {| ID := ID l; OwnerUserID := owner; Slug := slug; Title := Title l; DurationOptions := DurationOptions l;
     DaysOfWeek := DaysOfWeek l; WindowStart := WindowStart l; WindowEnd := WindowEnd l; BufferBefore := BufferBefore l;
     BufferAfter := BufferAfter l; MinNoticeMinutes := MinNoticeMinutes l; UsageType := UsageType l;
     MaxUses := MaxUses l; UsesCount := UsesCount l; Active := Active l; BookingHorizonDays := BookingHorizonDays l;
     RefusalMessage := RefusalMessage l |}.

(** [createLink]; a body of [None] does not decode. *)
Definition createLink (user : uuid) (body : option schedulingLinkInput) (t : Tables) : LinkAnswer * Tables :=
  match body with
  | None => (LinkError 400 "invalid request body", t)
  | Some input =>
  match normalized input with
  | Err msg => (LinkError 422 msg, t)
  | Ok link =>
  match user_by_id user with
  | None => (LinkError 500 "user not found", t)
  | Some owner =>
  match owner_zone user with
  | Err _ => (LinkError 500 "create link zone", t)
  | Ok loc =>
  match slug_for t owner link with
  | None => (LinkPanic, t)
  | Some (Err e) => (e, t)
  | Some (Ok slug) =>
      if le_fails env CallInsert then (LinkError 500 "create failed", t)
      else
        let '(created, t1) := CreateSchedulingLink (le_id env) (with_owner_slug user slug link) t in
        if le_fails env CallOwnerHost then (LinkError 500 "owner host failed", t1)
        else
          let t2 := snd (AddLinkHost (ID created) user "accepted" t1) in
          let t3 := add_cohosts (ID created) (li_CoHostEmails input) t2 in
          (writeLink 201 t3 created loc user, t3)
  end end end end end.

(** [ListSchedulingLinksByUser], newest first. *)
Definition ListSchedulingLinksByUser (t : Tables) (u : uuid) : list SchedulingLink :=
  map (with_uses t) (rev (keep (hosts_link t u) (t_links t))).

(** The loop of [listLinks]; a zone is read once per owner. *)
Fixpoint list_dtos (t : Tables) (user : uuid) (links : list SchedulingLink) : option (list schedulingLinkDTO) :=
  match links with
  | [] => Some []
  | l :: r =>
      match owner_zone (OwnerUserID l) with
      | Err _ => None
      | Ok loc =>
          d ← buildSchedulingLinkDTO t l loc user false;
          ds ← list_dtos t user r;
          Some (d :: ds)
      end
  end.

Definition listLinks (user : uuid) (t : Tables) : LinkAnswer :=
  if le_fails env CallLinks then LinkError 500 "internal error"
  else match list_dtos t user (ListSchedulingLinksByUser t user) with
  | None => LinkError 500 "list links zone"
  | Some ds => LinksListed (keep sl_IsOwner ds) (keep (fun d => negb (sl_IsOwner d)) ds)
  end.

(** The first checks on a link named by its identifier; [None] is one that does
    not parse. *)
Definition named_link (id : option uuid) (t : Tables) : res LinkAnswer SchedulingLink :=
  match id with
  | None => Err (LinkError 400 "invalid id")
  | Some id =>
      if le_fails env (CallLink id) then Err (LinkError 500 "internal error")
      else match GetSchedulingLinkByID t id with
      | None => Err (LinkError 404 "not found")
      | Some l => Ok l
      end
  end.

Definition owned_link (user : uuid) (id : option uuid) (t : Tables) : res LinkAnswer SchedulingLink :=
  l <-? named_link id t ;;
  if N.eqb (OwnerUserID l) user then Ok l else Err (LinkError 403 "forbidden").

Definition getLink (user : uuid) (id : option uuid) (t : Tables) : LinkAnswer :=
  match named_link id t with
  | Err e => e
  | Ok link =>
      let shown :=
        match owner_zone (OwnerUserID link) with
        | Err _ => LinkError 500 "getLink zone"
        | Ok loc =>
            match buildSchedulingLinkDTO t link loc user true with
            | None => LinkError 500 "getLink roster"
            | Some d => LinkShown 200 d
            end
        end in
      if N.eqb (OwnerUserID link) user then shown
      else if le_fails env CallStatus then LinkError 500 "getLink host status"
      else match GetLinkHostStatus t (ID link) user with
      | Some status => if String.eqb status "accepted" then shown else LinkError 404 "not found"
      | None => LinkError 404 "not found"
      end
  end.

(** The co-hosts a change sets: those found, in order. *)
Definition kept_hosts (emails : list string) : list uuid := omap user_by_email emails.

Fixpoint invite_all (link user : uuid) (l : list uuid) (t : Tables) : Tables :=
  match l with
  | [] => t
  | u :: r => invite_all link user r
                (if N.eqb u user || le_fails env (CallInvite u) then t else snd (InviteLinkHost link u t))
  end.

Definition set_roster (link user : uuid) (emails : list string) (t : Tables) : Tables :=
  let kept := kept_hosts emails in
  invite_all link user kept (if le_fails env CallRemoveExcept then t else RemoveLinkHostsExcept link user kept t).

(** [updateLink]. *)
Definition updateLink (user : uuid) (id : option uuid) (body : option schedulingLinkPatch) (t : Tables)
  : LinkAnswer * Tables :=
  match owned_link user id t with
  | Err e => (e, t)
  | Ok existing =>
  match body with
  | None => (LinkError 400 "invalid request body", t)
  | Some patch =>
  let updated := patch_link patch existing in
  if (match lp_Slug patch with Some _ => true | None => false end) && String.eqb (Slug updated) ""
  then (LinkError 422 "slug cannot be empty", t)
  else match validateSchedulingLink updated with
  | Err msg => (LinkError 422 msg, t)
  | Ok updated =>
  match owner_zone (OwnerUserID existing) with
  | Err _ => (LinkError 500 "update link zone", t)
  | Ok loc =>
  match (if String.eqb (Slug updated) (Slug existing) then Ok false else slug_taken t (Slug updated)) with
  | Err _ => (LinkError 500 "slug check failed", t)
  | Ok true => (LinkError 409 "slug already exists", t)
  | Ok false =>
      if le_fails env CallUpdate then (LinkError 500 "update failed", t)
      else
        let '(result, t1) := UpdateSchedulingLink (ID existing) updated t in
        let t2 := match lp_CoHostEmails patch with Some emails => set_roster (ID existing) user emails t1 | None => t1 end in
        (match result with Some l => writeLink 200 t2 l loc user | None => LinkPanic end, t2)
  end end end end end.

(** [deleteLink]. *)
Definition deleteLink (user : uuid) (id : option uuid) (t : Tables) : LinkAnswer * Tables :=
  match owned_link user id t with
  | Err e => (e, t)
  | Ok l => if le_fails env CallDelete then (LinkError 500 "delete failed", t) else (NoContent, DeleteSchedulingLink (ID l) t)
  end.

(** [GetBookingsByLink], latest first. *)
Definition GetBookingsByLink (t : Tables) (id : uuid) : list Booking :=
  order_by (fun b => - t_ns (B_Start b)) (keep (fun b => N.eqb (B_LinkID b) id) (t_bookings t)).

Definition listBookings (user : uuid) (id : option uuid) (t : Tables) : LinkAnswer :=
  match owned_link user id t with
  | Err e => e
  | Ok l => if le_fails env CallBookings then LinkError 500 "internal error" else BookingsListed (GetBookingsByLink t (ID l))
  end.

(** [inviteHost]; an email of [None] is a body that does not decode. *)
Definition inviteHost (user : uuid) (id : option uuid) (email : option string) (t : Tables) : LinkAnswer * Tables :=
  match owned_link user id t with
  | Err e => (e, t)
  | Ok l =>
      let required := (LinkError 400 "email is required", t) in
      match email with
      | None => required
      | Some email =>
          if String.eqb (TrimSpace email) "" then required
          else match user_by_email email with
          | None => (LinkError 404 "user not found", t)
          | Some invitee =>
              if le_fails env (CallInvite invitee) then (LinkError 500 "invite failed", t)
              else let '((h, created), t') := InviteLinkHost (ID l) invitee t in (HostShown created h, t')
          end
      end
  end.

(** [listHostInvites]: an invitation whose link or owner cannot be read is
    skipped. *)
Definition invite_dto (t : Tables) (h : LinkHost) : option hostInviteDTO :=
  l ← (if le_fails env (CallLink (LH_LinkID h)) then None else GetSchedulingLinkByID t (LH_LinkID h));
  o ← user_by_id (OwnerUserID l);
  Some {| hi_LinkID := ID l; hi_LinkTitle := Title l; hi_OwnerName := U_Name o; hi_OwnerEmail := U_Email o |}.

Definition listHostInvites (user : uuid) (t : Tables) : LinkAnswer :=
  if le_fails env CallInvites then LinkError 500 "internal error"
  else InvitesListed (omap (invite_dto t) (GetPendingInvitesForUser t user)).

(** [respondToInvite], for [acceptInvite] and [declineInvite]. *)
Definition respondToInvite (user : uuid) (id : option uuid) (status : string) (t : Tables) : LinkAnswer * Tables :=
  match id with
  | None => (LinkError 400 "invalid id", t)
  | Some link =>
      if le_fails env CallRespond then (LinkError 500 "update failed", t)
      else let '(matched, t') := RespondToHostInvite link user status t in
           (if matched : bool then Responded status else LinkError 404 "not found", t')
  end.

Definition acceptInvite (user : uuid) (id : option uuid) : Tables -> LinkAnswer * Tables := respondToInvite user id "accepted".
Definition declineInvite (user : uuid) (id : option uuid) : Tables -> LinkAnswer * Tables := respondToInvite user id "declined".

(** [leaveLink]. *)
Definition leaveLink (user : uuid) (id : option uuid) (t : Tables) : LinkAnswer * Tables :=
  match named_link id t with
  | Err e => (e, t)
  | Ok l =>
      if N.eqb (OwnerUserID l) user then (LinkError 400 "owner cannot leave link", t)
      else if le_fails env CallRemove then (LinkError 500 "leave failed", t)
      else let '(removed, t') := RemoveLinkHost (ID l) user t in
           (if removed : bool then NoContent else LinkError 404 "not found", t')
  end.
End Handlers.

(** ** Requests *)

Inductive LinkRequest :=
| ReqCreate (body : option schedulingLinkInput)
| ReqList
| ReqGet (id : option uuid)
| ReqUpdate (id : option uuid) (body : option schedulingLinkPatch)
| ReqDelete (id : option uuid)
| ReqBookings (id : option uuid)
| ReqInvite (id : option uuid) (email : option string)
| ReqInvites
| ReqAccept (id : option uuid)
| ReqDecline (id : option uuid)
| ReqLeave (id : option uuid).

(** One request of one user, served at once. *)
Definition serve (env : LinkEnv) (user : uuid) (r : LinkRequest) (t : Tables) : LinkAnswer * Tables :=
  match r with
  | ReqCreate body => createLink env user body t
  | ReqList => (listLinks env user t, t)
  | ReqGet id => (getLink env user id t, t)
  | ReqUpdate id body => updateLink env user id body t
  | ReqDelete id => deleteLink env user id t
  | ReqBookings id => (listBookings env user id t, t)
  | ReqInvite id email => inviteHost env user id email t
  | ReqInvites => (listHostInvites env user t, t)
  | ReqAccept id => acceptInvite env user id t
  | ReqDecline id => declineInvite env user id t
  | ReqLeave id => leaveLink env user id t
  end.

(** ** Facts: times of the day *)

Lemma frac_ns_range s scale : 0 <= scale -> 0 <= fst (frac_ns scale s) <= Z.max 0 (10 * scale - 1).
Proof.
  revert scale. induction s as [|c s IH]; intros scale Hs; cbn [frac_ns fst]; [lia|].
  destruct (is_digit c) eqn:Ec; [|cbn; lia]. specialize (IH (scale / 10) ltac:(dlia)).
  destruct (frac_ns (scale / 10) s) as [v r]. cbn [fst] in *.
  assert (0 <= digit_val c <= 9) by (unfold is_digit, digit_val in *; lia).
  assert (Z.max 0 (10 * (scale / 10) - 1) <= Z.max 0 (scale - 1)) by dlia. nia.
Qed.

Lemma parseClock_range s ns : parseClock s = Some ns -> 0 <= ns < 24 * Hour.
Proof.
  unfold parseClock. destruct (ParseHHMM (TrimSpace s)) as [x|] eqn:E1; [intros [= <-]|intros E2].
  - unfold ParseHHMM in E1. destruct (getnum _ false) as [[h r1]|] eqn:Eh; [|done]. cbn [mbind option_bind] in E1.
    destruct (skip_char _ _); [|done]. cbn [mbind option_bind] in E1.
    destruct (getnum s0 true) as [[m r2]|] eqn:Em; [|done]. cbn [mbind option_bind] in E1.
    destruct (_ || _) eqn:Eb; [done|]. destruct r2; [|done]. injection E1 as <-.
    apply getnum_nonneg in Eh, Em. unfold Hour, Minute, Second in *. lia.
  - unfold ParseHHMMSS in E2. destruct (get_clock _) as [[[[[h mi] sec] f] r]|] eqn:Ec; [|done].
    cbn [mbind option_bind] in E2. destruct r; [|done]. injection E2 as <-. unfold get_clock in Ec.
    destruct (getnum _ false) as [[h' r1]|] eqn:Eh; [|done]. cbn [mbind option_bind] in Ec.
    destruct (skip_char _ _); [|done]. cbn [mbind option_bind] in Ec.
    destruct (getnum s0 true) as [[m r2]|] eqn:Em; [|done]. cbn [mbind option_bind] in Ec.
    destruct (skip_char _ r2); [|done]. cbn [mbind option_bind] in Ec.
    destruct (getnum s1 true) as [[sc r3]|] eqn:Esc; [|done]. cbn [mbind option_bind] in Ec.
    destruct (_ || _) eqn:Eb; [done|]. destruct (get_frac r3) as [fr r4] eqn:Ef. injection Ec as -> -> -> -> ->.
    assert (0 <= f < Second).
    { assert (Z0 : forall x y : string, (0, x) = (f, y) -> 0 <= f < Second) by (intros ? ? [= <- _]; done).
      unfold get_frac in Ef. destruct r3 as [|a [|b r3]]; [by eapply Z0|by eapply Z0|].
      destruct (_ && _); [|by eapply Z0]. pose proof (frac_ns_range (String b r3) 100000000 ltac:(lia)).
      rewrite Ef in H. cbn [fst] in H. unfold Second. lia. }
    apply getnum_nonneg in Eh, Em, Esc. unfold Hour, Minute, Second in *. lia.
Qed.

Lemma clock_table :
  forallb (fun h => forallb (fun m =>
    bool_decide (clockMinutes (append_int h 2 +:+ ":" +:+ append_int m 2) = Some (h * 60 + m)))
    (seqZ 0 60)) (seqZ 0 24) = true.
Proof. by vm_compute. Qed.

(** What the checks store is what the window of a link reads. *)
Lemma clockMinutes_format ns : 0 <= ns < 24 * Hour -> clockMinutes (FormatClock ns) = Some (ns / Minute).
Proof.
  intros H. assert (Hh : 0 <= ns / Hour < 24) by (unfold Hour, Minute, Second in *; dlia).
  assert (Hm : 0 <= ns / Minute mod 60 < 60) by dlia.
  pose proof clock_table as T. rewrite forallb_elem in T.
  specialize (T (ns / Hour)). rewrite elem_of_seqZ in T. specialize (T ltac:(lia)).
  rewrite forallb_elem in T. specialize (T (ns / Minute mod 60)). rewrite elem_of_seqZ in T. specialize (T ltac:(lia)).
  apply bool_decide_eq_true in T. unfold FormatClock. rewrite T. f_equal.
  unfold Hour. rewrite (Z.mul_comm 60), <- Z.div_div by (unfold Minute, Second; lia).
  pose proof (Z.div_mod (ns / Minute) 60). lia.
Qed.

(** ** Facts: valid links *)

(** What a stored link keeps: the conditions the booking side relies on. *)
Record valid_link (l : SchedulingLink) : Prop := {
  vl_title : TrimSpace (Title l) <> "";
  vl_durations : DurationOptions l <> [] /\ Forall (fun d => 0 < d) (DurationOptions l);
  vl_days : DaysOfWeek l <> [] /\ Forall (fun d => 0 <= d <= 6) (DaysOfWeek l);
  vl_window : exists s e, clockMinutes (WindowStart l) = Some s /\ clockMinutes (WindowEnd l) = Some e
                /\ 0 <= s <= e /\ e < 24 * 60;
  vl_buffers : 0 <= BufferBefore l /\ 0 <= BufferAfter l /\ 0 <= MinNoticeMinutes l;
  vl_usage : UsageType l = "recurring" /\ (exists n, MaxUses l = Some n /\ 0 < n)
             \/ (UsageType l = "reusable" \/ UsageType l = "single_use") /\ MaxUses l = None;
  vl_horizon : 1 <= BookingHorizonDays l <= 365;
  vl_refusal : RefusalMessage l = RefusalGeneric \/ RefusalMessage l = RefusalSpecific }.

Lemma one_of_spec s l : one_of s l = true <-> s ∈ l.
Proof.
  unfold one_of. rewrite existsb_elem. split.
  - by intros (x & Hx & ->%String.eqb_eq).
  - intros H. exists s. by rewrite String.eqb_refl.
Qed.

Lemma existsb_Forall {A} (p : A -> bool) (P : A -> Prop) l :
  (forall x, p x = false -> P x) -> existsb p l = false -> Forall P l.
Proof. intros Hp H. rewrite existsb_elem_false in H. apply Forall_forall. auto. Qed.

Lemma validate_valid l l' : validateSchedulingLink l = Ok l' ->
  valid_link l' /\ Slug l' = Slug l /\ ID l' = ID l /\ OwnerUserID l' = OwnerUserID l /\ Active l' = Active l.
Proof.
  unfold validateSchedulingLink. destruct (String.eqb_spec (TrimSpace (Title l)) "") as [|Ht]; [done|].
  destruct (DurationOptions l) as [|d ds] eqn:Ed; [done|]. rewrite <- Ed. destruct (existsb _ (DurationOptions l)) eqn:Hd; [done|].
  destruct (DaysOfWeek l) as [|w ws] eqn:Ew; [done|]. rewrite <- Ew. destruct (existsb _ (DaysOfWeek l)) eqn:Hw; [done|].
  destruct (parseClock (WindowStart l)) as [s|] eqn:Es; [|done]. destruct (parseClock (WindowEnd l)) as [e|] eqn:Ee; [|done].
  destruct (s <? e) eqn:Hse; [|done]. cbn [negb]. destruct ((BufferBefore l <? 0) || _) eqn:Hb; [done|].
  destruct (MinNoticeMinutes l <? 0) eqn:Hn; [done|]. cbv zeta.
  set (usage := if String.eqb (ToLower (TrimSpace (UsageType l))) "" then _ else _).
  destruct (one_of usage _) eqn:Hu; [|done]. cbn [negb].
  destruct (String.eqb usage "recurring" && _) eqn:Hm; [done|]. destruct ((BookingHorizonDays l <? 1) || _) eqn:Hh; [done|].
  destruct (one_of (RefusalMessage l) _) eqn:Hr; [|done]. cbn [negb]. intros [= <-].
  split; [|done]. apply parseClock_range in Es, Ee.
  split; cbn [checked Title DurationOptions DaysOfWeek WindowStart WindowEnd BufferBefore BufferAfter MinNoticeMinutes
              UsageType MaxUses BookingHorizonDays RefusalMessage].
  - done.
  - split; [by rewrite Ed|]. eapply existsb_Forall; [|exact Hd]. intros x Hx. cbn in Hx. lia.
  - split; [by rewrite Ew|]. eapply existsb_Forall; [|exact Hw]. intros x Hx. cbn in Hx. lia.
  - exists (s / Minute), (e / Minute). rewrite !clockMinutes_format by done. unfold Hour in *.
    split_and!; [done..|apply Z.div_pos; unfold Minute, Second; lia|apply Z.div_le_mono; unfold Minute, Second; lia|].
    apply Z.div_lt_upper_bound; unfold Minute, Second in *; lia.
  - lia.
  - destruct (String.eqb_spec usage "recurring") as [->|Hne].
    + left. split; [done|]. cbn [andb] in Hm. destruct (MaxUses l) as [n|]; [|done]. exists n. split; [done|lia].
    + right. split; [|done]. apply one_of_spec in Hu. rewrite !elem_of_cons in Hu. destruct Hu as [|[|[|[]%elem_of_nil]]]; auto; done.
  - lia.
  - apply one_of_spec in Hr. rewrite !elem_of_cons in Hr. destruct Hr as [|[|[]%elem_of_nil]]; auto.
Qed.

Lemma valid_same_settings l l' : valid_link l ->
  Title l' = Title l -> DurationOptions l' = DurationOptions l -> DaysOfWeek l' = DaysOfWeek l ->
  WindowStart l' = WindowStart l -> WindowEnd l' = WindowEnd l -> BufferBefore l' = BufferBefore l ->
  BufferAfter l' = BufferAfter l -> MinNoticeMinutes l' = MinNoticeMinutes l -> UsageType l' = UsageType l ->
  MaxUses l' = MaxUses l -> BookingHorizonDays l' = BookingHorizonDays l -> RefusalMessage l' = RefusalMessage l ->
  valid_link l'.
Proof. intros [] E1 E2 E3 E4 E5 E6 E7 E8 E9 E10 E11 E12. split; rewrite ?E1, ?E2, ?E3, ?E4, ?E5, ?E6, ?E7, ?E8, ?E9, ?E10, ?E11, ?E12; done. Qed.

(** What a valid link is when it is inserted, and when it replaces a row. *)
Lemma valid_created id l t : valid_link l -> valid_link (fst (CreateSchedulingLink id l t)).
Proof.
  intros H. eapply valid_same_settings; [exact H|try done..]; cbn [CreateSchedulingLink fst with_uses DurationOptions
    DaysOfWeek UsageType BookingHorizonDays RefusalMessage].
  - destruct H as [_ [Hd _] _ _ _ _ _ _]. by destruct (DurationOptions l).
  - destruct H as [_ _ [Hd _] _ _ _ _ _]. by destruct (DaysOfWeek l).
  - destruct H as [_ _ _ _ _ [[-> _]|[[-> | ->] _]] _ _]; done.
  - destruct H as [_ _ _ _ _ _ Hh _]. by destruct (Z.eqb_spec (BookingHorizonDays l) 0) as [E|]; [lia|].
  - destruct H as [_ _ _ _ _ _ _ [-> | ->]]; done.
Qed.

Lemma valid_updated id l row : valid_link l -> valid_link row -> valid_link (update_row id l row).
Proof.
  intros H Hrow. unfold update_row. destruct (N.eqb _ _); [|done].
  eapply valid_same_settings; [exact H|try done..]; cbn [BookingHorizonDays RefusalMessage].
  - destruct H as [_ _ _ _ _ _ Hh _]. by destruct (Z.eqb_spec (BookingHorizonDays l) 0) as [E|]; [lia|].
  - destruct H as [_ _ _ _ _ _ _ [-> | ->]]; done.
Qed.

Lemma valid_deactivated id row : valid_link row -> valid_link (deactivate_row id row).
Proof. intros H. unfold deactivate_row. destruct (N.eqb _ _); [|done]. by eapply valid_same_settings. Qed.

(** ** Facts: what a request touches *)

Lemma owned_link_Ok env user id t l : owned_link env user id t = Ok l ->
  exists i row, id = Some i /\ row ∈ t_links t /\ ID row = i /\ ID l = i /\ l = with_uses t row /\ OwnerUserID row = user.
Proof.
  unfold owned_link, named_link. destruct id as [i|]; [|done]. destruct (le_fails env (CallLink i)); [done|].
  unfold GetSchedulingLinkByID, find_link. destruct (List.find _ (t_links t)) as [row|] eqn:Ef; [|done].
  cbn [fmap option_fmap option_map rbind]. destruct (N.eqb_spec (OwnerUserID (with_uses t row)) user) as [Ho|]; [|done].
  intros [= <-]. apply List.find_some in Ef as [Hin Hid%N.eqb_eq]. exists i, row. split_and!; try done.
  by apply list_elem_of_In.
Qed.

(** The links after a request: as they were, with a new one of the caller, or
    with one of the caller's changed or switched off. *)
Inductive links_effect (env : LinkEnv) (user : uuid) (t t' : Tables) : Prop :=
| lf_same : t_links t' = t_links t -> links_effect env user t t'
| lf_new l : valid_link l -> OwnerUserID l = user -> t_links t' = t_links (snd (CreateSchedulingLink (le_id env) l t)) ->
    links_effect env user t t'
| lf_changed id row l : row ∈ t_links t -> ID row = id -> OwnerUserID row = user -> valid_link l ->
    t_links t' = map (update_row id l) (t_links t) -> links_effect env user t t'
| lf_off id row : row ∈ t_links t -> ID row = id -> OwnerUserID row = user ->
    t_links t' = map (deactivate_row id) (t_links t) -> links_effect env user t t'.

(** The rows of the other tables. *)
Definition same_others (t t' : Tables) : Prop :=
  t_bookings t' = t_bookings t /\ t_events t' = t_events t /\ t_focus t' = t_focus t.

Lemma find_map_other {A} (p : A -> bool) f l :
  (forall x, p x = true -> f x = x) -> (forall x, p x = false -> p (f x) = false) ->
  List.find p (map f l) = List.find p l.
Proof.
  intros H1 H2. induction l as [|x l IH]; [done|]. cbn. destruct (p x) eqn:E; [by rewrite (H1 x E), E|].
  by rewrite (H2 x E).
Qed.

(** Whether a row of the hosts concerns another (link, user). *)
Lemma host_of_other link user link' user' h :
  (link, user) <> (link', user') -> host_of link' user' h = true -> host_of link user h = false.
Proof.
  unfold host_of. intros Hne [H1%N.eqb_eq H2%N.eqb_eq]%andb_true_iff. apply not_true_iff_false.
  intros [H3%N.eqb_eq H4%N.eqb_eq]%andb_true_iff. apply Hne. congruence.
Qed.

Lemma host_of_self link user status : host_of link user {| LH_LinkID := link; LH_UserID := user; LH_Status := status |} = true.
Proof. unfold host_of. cbn. by rewrite !N.eqb_refl. Qed.

Lemma host_of_new link user status link' user' : (link, user) <> (link', user') ->
  host_of link' user' {| LH_LinkID := link; LH_UserID := user; LH_Status := status |} = false.
Proof. intros H. apply (host_of_other link' user' link user); [congruence|apply host_of_self]. Qed.

(** The one map the host statements are, seen by another row. *)
Lemma find_rewritten link user status link' user' (l : list LinkHost) : (link, user) <> (link', user') ->
  List.find (host_of link' user')
    (map (fun h => if host_of link user h then {| LH_LinkID := link; LH_UserID := user; LH_Status := status |} else h) l)
  = List.find (host_of link' user') l.
Proof.
  intros H. apply find_map_other.
  - intros h Hh. by rewrite (host_of_other _ _ _ _ _ H Hh).
  - intros h Hh. destruct (host_of link user h); [|done]. by apply host_of_new.
Qed.

Lemma AddLinkHost_other link user status link' user' t : (link, user) <> (link', user') ->
  GetLinkHostStatus (snd (AddLinkHost link user status t)) link' user' = GetLinkHostStatus t link' user'.
Proof.
  intros H. unfold AddLinkHost, GetLinkHostStatus. cbn [snd]. destruct (existsb _ _); cbn [set_hosts t_hosts]; f_equal.
  - by apply find_rewritten.
  - apply find_snoc_other. by apply host_of_new.
Qed.

Lemma InviteLinkHost_other link user link' user' t : (link, user) <> (link', user') ->
  GetLinkHostStatus (snd (InviteLinkHost link user t)) link' user' = GetLinkHostStatus t link' user'.
Proof.
  intros H. unfold InviteLinkHost, GetLinkHostStatus. destruct (List.find (host_of link user) (t_hosts t)); [done|].
  cbn [snd set_hosts t_hosts]. f_equal. apply find_snoc_other. by apply host_of_new.
Qed.

Lemma RespondToHostInvite_other link user status link' user' t : (link, user) <> (link', user') ->
  GetLinkHostStatus (snd (RespondToHostInvite link user status t)) link' user' = GetLinkHostStatus t link' user'.
Proof. intros H. unfold RespondToHostInvite, GetLinkHostStatus. cbn [snd set_hosts t_hosts]. f_equal. by apply find_rewritten. Qed.

Lemma RemoveLinkHost_other link user link' user' t : (link, user) <> (link', user') ->
  GetLinkHostStatus (snd (RemoveLinkHost link user t)) link' user' = GetLinkHostStatus t link' user'.
Proof.
  intros H. unfold RemoveLinkHost, GetLinkHostStatus. cbn [snd set_hosts t_hosts]. f_equal. apply find_keep_same.
  intros h Hh. by rewrite (host_of_other _ _ _ _ _ H Hh).
Qed.

Lemma RemoveLinkHostsExcept_other link owner kept link' user' t :
  link <> link' \/ user' = owner \/ user' ∈ kept ->
  GetLinkHostStatus (RemoveLinkHostsExcept link owner kept t) link' user' = GetLinkHostStatus t link' user'.
Proof.
  intros H. unfold RemoveLinkHostsExcept, GetLinkHostStatus. cbn [set_hosts t_hosts]. f_equal. apply find_keep_same.
  intros h [H1%N.eqb_eq H2%N.eqb_eq]%andb_true_iff. apply negb_true_iff. apply not_true_iff_false.
  intros [[H3%N.eqb_eq H4%negb_true_iff]%andb_true_iff H5%negb_true_iff]%andb_true_iff.
  rewrite existsb_elem_false in H5. apply N.eqb_neq in H4. destruct H as [|[|Hk]]; try congruence.
  specialize (H5 _ Hk). rewrite H2, N.eqb_refl in H5. done.
Qed.

Lemma InviteLinkHost_self link user t :
  GetLinkHostStatus (snd (InviteLinkHost link user t)) link user = Some (default "pending" (GetLinkHostStatus t link user)).
Proof.
  unfold InviteLinkHost, GetLinkHostStatus. destruct (List.find (host_of link user) (t_hosts t)) as [h|] eqn:E;
    cbn [snd set_hosts t_hosts]; [by rewrite E|].
  assert (H : forall l, List.find (host_of link user) l = None ->
            List.find (host_of link user) (l ++ [{| LH_LinkID := link; LH_UserID := user; LH_Status := "pending" |}])
            = Some {| LH_LinkID := link; LH_UserID := user; LH_Status := "pending" |}).
  { induction l as [|x l IH]; cbn; [by rewrite host_of_self|]. by destruct (host_of link user x). }
  by rewrite (H _ E).
Qed.

(** Statements on the hosts of one link. *)
Definition hosts_of_link (link : uuid) (t t' : Tables) : Prop :=
  t_links t' = t_links t /\ same_others t t'
  /\ forall l u, l <> link -> GetLinkHostStatus t' l u = GetLinkHostStatus t l u.

#[global] Instance hosts_of_link_pre link : PreOrder (hosts_of_link link).
Proof.
  split; [by intros t|]. intros t1 t2 t3 (A1 & (B1 & B2 & B3) & C1) (A2 & (D1 & D2 & D3) & C2).
  split; [congruence|]. split; [split_and!; congruence|]. intros l u Hl. by rewrite C2, C1.
Qed.

Lemma hosts_add link u status t : hosts_of_link link t (snd (AddLinkHost link u status t)).
Proof.
  split; [|split]; [..|intros l v Hl; apply AddLinkHost_other; congruence];
    unfold AddLinkHost; cbn [snd]; by destruct (existsb _ _).
Qed.

Lemma hosts_invite link u t : hosts_of_link link t (snd (InviteLinkHost link u t)).
Proof.
  split; [|split]; [..|intros l v Hl; apply InviteLinkHost_other; congruence];
    unfold InviteLinkHost; by destruct (List.find _ _).
Qed.

Lemma hosts_except link owner kept t : hosts_of_link link t (RemoveLinkHostsExcept link owner kept t).
Proof. split; [done|]. split; [done|]. intros l u Hl. apply RemoveLinkHostsExcept_other. auto. Qed.

Lemma hosts_cohosts env link emails t : hosts_of_link link t (add_cohosts env link emails t).
Proof.
  revert t. induction emails as [|e r IH]; intros t; cbn [add_cohosts]; [done|].
  etransitivity; [|apply IH]. destruct (user_by_email env e); [|done]. destruct (le_fails env _); [done|apply hosts_add].
Qed.

Lemma hosts_invite_all env link user l t : hosts_of_link link t (invite_all env link user l t).
Proof.
  revert t. induction l as [|u r IH]; intros t; cbn [invite_all]; [done|].
  etransitivity; [|apply IH]. destruct (_ || _); [done|apply hosts_invite].
Qed.

Lemma hosts_roster env link user emails t : hosts_of_link link t (set_roster env link user emails t).
Proof.
  unfold set_roster. etransitivity; [|apply hosts_invite_all]. destruct (le_fails env _); [done|apply hosts_except].
Qed.

(** Whether a request of [user] may touch the row of [u] on [link]: their own
    answer, or a link of theirs. *)
Definition concerns (env : LinkEnv) (user : uuid) (t : Tables) (link u : uuid) : Prop :=
  u = user \/ link = le_id env \/ exists row, row ∈ t_links t /\ ID row = link /\ OwnerUserID row = user.

Definition effect (env : LinkEnv) (user : uuid) (t t' : Tables) : Prop :=
  links_effect env user t t' /\ same_others t t'
  /\ forall link u, ~ concerns env user t link u -> GetLinkHostStatus t' link u = GetLinkHostStatus t link u.

Lemma effect_same env user t : effect env user t t.
Proof. split; [by apply lf_same|]. by split. Qed.

(** A change of the links, then of the hosts of a link of the caller. *)
Lemma effect_then env user t t1 t' link :
  links_effect env user t t1 -> same_others t t1 -> t_hosts t1 = t_hosts t ->
  (forall u, concerns env user t link u) -> hosts_of_link link t1 t' -> effect env user t t'.
Proof.
  intros Hl (S1 & S2 & S3) Hh Hc (A & (B1 & B2 & B3) & C). split; [|split].
  - destruct Hl; [apply lf_same|eapply lf_new|eapply lf_changed|eapply lf_off]; try done; congruence.
  - split_and!; congruence.
  - intros l u Hn. rewrite C; [unfold GetLinkHostStatus; by rewrite Hh|]. intros ->. by apply Hn, Hc.
Qed.

Lemma createLink_effect env user body t : effect env user t (snd (createLink env user body t)).
Proof.
  unfold createLink. destruct body as [input|]; [|apply effect_same].
  destruct (normalized input) as [l|] eqn:En; [|apply effect_same].
  destruct (user_by_id env user) as [owner|]; [|apply effect_same]. destruct (owner_zone env user); [|apply effect_same].
  destruct (slug_for env t owner l) as [[slug|]|]; [|apply effect_same..].
  destruct (le_fails env CallInsert); [apply effect_same|].
  assert (Hl : valid_link (with_owner_slug user slug l)).
  { apply validate_valid in En as [Hv _]. by eapply valid_same_settings. }
  assert (Hnew : links_effect env user t (snd (CreateSchedulingLink (le_id env) (with_owner_slug user slug l) t)))
    by by eapply lf_new.
  destruct (CreateSchedulingLink _ _ t) as [created t1] eqn:Ec. cbn [snd] in Hnew.
  assert (Hid : ID created = le_id env) by (by injection Ec as <- _).
  assert (Hs : same_others t t1 /\ t_hosts t1 = t_hosts t) by (by injection Ec as _ <-). destruct Hs as [Hs Hh].
  destruct (le_fails env CallOwnerHost); cbn [snd]; eapply (effect_then env user t t1 _ (le_id env)); try done;
    try (intros u; right; by left). rewrite Hid. etransitivity; [apply hosts_add|apply hosts_cohosts].
Qed.

Lemma updateLink_effect env user id body t : effect env user t (snd (updateLink env user id body t)).
Proof.
  unfold updateLink. destruct (owned_link env user id t) as [existing|] eqn:Eo; [|apply effect_same].
  apply owned_link_Ok in Eo as (i & row & -> & Hin & Hid & Hi & -> & Ho).
  destruct body as [patch|]; [|apply effect_same]. cbv zeta. destruct (_ && _); [apply effect_same|].
  destruct (validateSchedulingLink _) as [l|] eqn:Ev; [|apply effect_same]. apply validate_valid in Ev as [Hv _].
  destruct (owner_zone env _); [|apply effect_same].
  destruct (if String.eqb _ _ then _ else _) as [[]|]; [apply effect_same| |apply effect_same].
  destruct (le_fails env CallUpdate); [apply effect_same|]. rewrite Hi. unfold UpdateSchedulingLink. cbn [snd].
  set (t1 := set_links (map (update_row i l)) t).
  eapply (effect_then env user t t1 _ i); [by eapply (lf_changed env user t t1 i row l)|done|done| |].
  - intros u. right. right. by exists row.
  - destruct (lp_CoHostEmails patch); [apply hosts_roster|done].
Qed.

Lemma respond_effect env user id status t : effect env user t (snd (respondToInvite env user id status t)).
Proof.
  unfold respondToInvite. destruct id as [i|]; [|apply effect_same]. destruct (le_fails env CallRespond); [apply effect_same|].
  destruct (RespondToHostInvite i user status t) as [m t'] eqn:E.
  assert (Et : t' = snd (RespondToHostInvite i user status t)) by by rewrite E. cbn [snd]. subst t'.
  split; [by apply lf_same|]. split; [done|]. intros link u Hn. apply RespondToHostInvite_other.
  intros [= <- <-]. apply Hn. by left.
Qed.

(** Every request touches what is the caller's, and nothing else. *)
Lemma serve_effect env user r t : effect env user t (snd (serve env user r t)).
Proof.
  destruct r; cbn [serve snd]; try apply effect_same.
  - apply createLink_effect.
  - apply updateLink_effect.
  - unfold deleteLink. destruct (owned_link env user id t) as [l|] eqn:Eo; [|apply effect_same].
    apply owned_link_Ok in Eo as (i & row & -> & Hin & Hid & Hi & -> & Ho).
    destruct (le_fails env CallDelete); [apply effect_same|]. rewrite Hi. cbn [snd].
    split; [by eapply (lf_off env user t _ i row)|]. by split.
  - unfold inviteHost. destruct (owned_link env user id t) as [l|] eqn:Eo; [|apply effect_same].
    apply owned_link_Ok in Eo as (i & row & -> & Hin & Hid & Hi & -> & Ho).
    destruct email as [e|]; [|apply effect_same]. destruct (String.eqb _ ""); [apply effect_same|].
    destruct (user_by_email env e) as [v|]; [|apply effect_same]. destruct (le_fails env _); [apply effect_same|].
    rewrite Hi. pose proof (hosts_invite i v t) as Hh. destruct (InviteLinkHost i v t) as [[h c] t'].
    eapply (effect_then env user t t t' i); [by apply lf_same|done|done| |exact Hh]. intros u. right. right. by exists row.
  - apply respond_effect.
  - apply respond_effect.
  - unfold leaveLink. destruct (named_link env id t) as [l|]; [|apply effect_same].
    destruct (N.eqb _ user); [apply effect_same|]. destruct (le_fails env CallRemove); [apply effect_same|].
    pose proof (fun link' user' => RemoveLinkHost_other (ID l) user link' user' t) as H.
    assert (Hs : t_links (snd (RemoveLinkHost (ID l) user t)) = t_links t /\ same_others t (snd (RemoveLinkHost (ID l) user t))) by done.
    destruct (RemoveLinkHost (ID l) user t) as [b t']. destruct Hs as [Hs1 Hs2].
    split; [by apply lf_same|]. split; [done|]. intros link u Hn. apply H. intros [= _ <-]. apply Hn. by left.
Qed.

(** ** Facts: slugs *)

Definition slug_char_ok (c : ascii) : bool := is_lower c || is_digit c.

(** A slug from a place where the last character was ([d]) or was not a dash;
    [open] when it may still end in a dash. *)
Fixpoint slug_tail (open d : bool) (s : string) : bool :=
  match s with
  | EmptyString => open || negb d
  | String c r => if slug_char_ok c then slug_tail open false r else Ascii.eqb c "-" && negb d && slug_tail open true r
  end.

(** A normal slug: runs of lower-case letters and digits with single dashes
    between them, or nothing. *)
Definition normal_slug (s : string) : bool :=
  match s with EmptyString => true | String c r => slug_char_ok c && slug_tail false false r end.

Lemma slug_runes_tail d s : slug_tail true d (slug_runes true d s) = true.
Proof.
  revert d. induction s as [|c r IH]; intros d; [done|]. cbn [slug_runes].
  destruct (is_lower c || is_digit c) eqn:Ec; [cbn [slug_tail]; unfold slug_char_ok; rewrite Ec; apply IH|].
  destruct d; cbn [negb andb]; [apply IH|]. cbn [slug_tail]. replace (slug_char_ok "-") with false by done. cbn. apply IH.
Qed.

Lemma slug_runes_start s : match slug_runes false false s with
                           | EmptyString => True
                           | String c r => slug_char_ok c = true /\ slug_tail true false r = true
                           end.
Proof.
  induction s as [|c r IH]; [done|]. cbn [slug_runes]. destruct (is_lower c || is_digit c) eqn:Ec; [|exact IH].
  split; [exact Ec|apply slug_runes_tail].
Qed.

Lemma not_dash c : slug_char_ok c = true -> Ascii.eqb "-" c = false.
Proof. intros H. apply not_true_iff_false. intros <-%Ascii.eqb_eq. done. Qed.

Lemma trim_right_nothing p s : trim_right p s = "" <-> sforallb p s = true.
Proof. destruct s as [|c r]; [done|]. cbn [trim_right sforallb]. by destruct (p c && sforallb p r). Qed.

Lemma trim_right_tail d s : slug_tail true d s = true ->
  slug_tail false d (trim_right (Ascii.eqb "-") s) = true \/ trim_right (Ascii.eqb "-") s = "".
Proof.
  revert d. induction s as [|c r IH]; intros d; cbn [slug_tail trim_right]; [by right|].
  destruct (slug_char_ok c) eqn:Ec.
  - intros H. rewrite (not_dash c Ec). left. cbn [andb slug_tail]. rewrite Ec. by destruct (IH false H) as [Hr | ->].
  - intros [[Hd Hn]%andb_true_iff Hr]%andb_true_iff. apply Ascii.eqb_eq in Hd as Ed. subst c. cbn [andb].
    destruct (sforallb _ r) eqn:Ef; [by right|]. left. destruct d; [done|].
    destruct (IH true Hr) as [H|H]; [exact H|]. apply trim_right_nothing in H. by rewrite H in Ef.
Qed.

(** A character a slug keeps is not cut or changed on the way. *)
Lemma slug_char_kept c : slug_char_ok c = true -> is_space c = false /\ lower c = c.
Proof.
  destruct c as [[] [] [] [] [] [] [] []]; vm_compute; (discriminate || by split).
Qed.

Lemma tail_kept d s : slug_tail false d s = true -> ToLower s = s /\ (forall p, (forall c, slug_char_ok c = true -> p c = false) ->
  trim_right p s = s \/ s = "") /\ slug_runes true d s = s.
Proof.
  revert d. induction s as [|c r IH]; intros d; cbn [slug_tail]; [auto|]. destruct (slug_char_ok c) eqn:Ec.
  - intros (H1 & H2 & H3)%IH. destruct (slug_char_kept c Ec) as [_ Hl]. split; [unfold ToLower in *; cbn [smap]; by rewrite Hl, H1|]. split.
    + intros p Hp. left. cbn [trim_right]. rewrite (Hp c Ec). cbn [andb]. by destruct (H2 p Hp) as [-> | ->].
    + cbn [slug_runes]. unfold slug_char_ok in Ec. by rewrite Ec, H3.
  - intros [[Hd%Ascii.eqb_eq Hn]%andb_true_iff Hr]%andb_true_iff. subst c. destruct r as [|x y] eqn:Er; [done|]. rewrite <- Er in *.
    destruct (IH true Hr) as (H1 & H2 & H3). split; [unfold ToLower in *; cbn [smap]; by rewrite H1|]. split.
    + intros p Hp. left. cbn [trim_right]. destruct (H2 p Hp) as [Ht|Ht]; [|by rewrite Ht in Er].
      destruct (sforallb p r) eqn:Ef; [|by rewrite andb_false_r, Ht]. apply trim_right_nothing in Ef. congruence.
    + cbn [slug_runes]. destruct d; [done|]. cbn. by rewrite H3.
Qed.

Lemma normalizeSlug_normal raw : normal_slug (normalizeSlug raw) = true.
Proof.
  unfold normalizeSlug, Trim. pose proof (slug_runes_start (ToLower (TrimSpace raw))) as H.
  destruct (slug_runes false false _) as [|c r]; [done|]. destruct H as [Hc Hr]. cbn [trim_left].
  rewrite (not_dash c Hc). cbn [trim_right]. rewrite (not_dash c Hc). cbn [andb normal_slug]. rewrite Hc.
  by destruct (trim_right_tail false r Hr) as [H | ->].
Qed.

Lemma normalizeSlug_fix s : normal_slug s = true -> normalizeSlug s = s.
Proof.
  destruct s as [|c r]; [done|]. cbn [normal_slug]. intros [Hc Hr]%andb_true_iff.
  destruct (slug_char_kept c Hc) as [Hs Hl]. destruct (tail_kept false r Hr) as (H1 & H2 & H3).
  assert (Ht : forall p, (forall c, slug_char_ok c = true -> p c = false) -> trim_right p (trim_left p (String c r)) = String c r).
  { intros p Hp. cbn [trim_left]. rewrite (Hp c Hc). cbn [trim_right]. rewrite (Hp c Hc).
    cbn [andb]. by destruct (H2 p Hp) as [-> | ->]. }
  unfold normalizeSlug, TrimSpace, Trim. rewrite Ht by (intros x Hx; by destruct (slug_char_kept x Hx)).
  unfold ToLower. cbn [smap]. unfold ToLower in H1. rewrite H1, Hl. cbn [slug_runes]. unfold slug_char_ok in Hc. rewrite Hc, H3.
  apply Ht. apply not_dash.
Qed.

(** ** Theorems *)

(** One request, of anyone, whatever fails in it. *)
Inductive lstep (t t' : Tables) : Prop :=
| lstep_serve env user r : t' = snd (serve env user r t) -> lstep t t'.

Lemma lstep_valid t t' : lstep t t' -> Forall valid_link (t_links t) -> Forall valid_link (t_links t').
Proof.
  intros [env user r ->] H. destruct (serve_effect env user r t) as (He & _ & _).
  destruct He as [-> | l Hv _ -> | id row l _ _ _ Hv -> | id row _ _ _ ->]; [done|..].
  - unfold CreateSchedulingLink. cbn [snd set_links t_links]. apply Forall_app. split; [done|]. apply Forall_singleton.
    pose proof (valid_created (le_id env) l t Hv) as Hc. by eapply valid_same_settings.
  - apply Forall_map. eapply Forall_impl; [exact H|]. intros x Hx. by apply valid_updated.
  - apply Forall_map. eapply Forall_impl; [exact H|]. intros x Hx. by apply valid_deactivated.
Qed.

(** C14: However requests on links follow each other, whoever makes them and
    whatever fails, every stored link keeps what the booking side relies on: a
    title, positive durations, days of the week, a window that reads as two times
    of the day in order, no negative buffer or notice, a number of uses exactly
    for a recurring link, a horizon of 1 to 365 days and a known refusal
    setting. *)
Theorem links_stay_valid t t' : rtc lstep t t' -> Forall valid_link (t_links t) -> Forall valid_link (t_links t').
Proof. induction 1 as [|t t1 t' H _ IH]; [done|]. intros Hv. by apply IH, (lstep_valid t). Qed.

(** C15: A request changes only what is its caller's: the links of others stay
    the same rows, and so does every other user's standing on every link the
    caller does not own; bookings, their events and focus blocks are not touched. *)
Theorem request_keeps_to_its_caller env user r t :
  NoDup (map ID (t_links t)) ->
  let t' := snd (serve env user r t) in
  (forall row, OwnerUserID row <> user -> row ∈ t_links t' <-> row ∈ t_links t)
  /\ (forall link u, u <> user -> link <> le_id env ->
        (forall row, row ∈ t_links t -> ID row = link -> OwnerUserID row <> user) ->
        GetLinkHostStatus t' link u = GetLinkHostStatus t link u)
  /\ t_bookings t' = t_bookings t /\ t_events t' = t_events t /\ t_focus t' = t_focus t.
Proof.
  intros Hnd t'. destruct (serve_effect env user r t) as (He & Hs & Hh). split; [|split; [|exact Hs]].
  - pose proof (fun x y => NoDup_map_elem ID (t_links t) x y Hnd) as Huniq.
    assert (Hmap : forall f row0, row0 ∈ t_links t -> OwnerUserID row0 = user ->
              (forall x, ID x <> ID row0 -> f x = x) -> (forall x, OwnerUserID (f x) = OwnerUserID x) ->
              forall row, OwnerUserID row <> user -> row ∈ map f (t_links t) <-> row ∈ t_links t).
    { intros f row0 Hin Ho Hf Hfo row Hne. rewrite list_elem_of_fmap.
      assert (Hid : forall x, x ∈ t_links t -> OwnerUserID x <> user -> f x = x).
      { intros x Hx Hxo. apply Hf. intros E. apply Hxo. by rewrite (Huniq x row0 Hx Hin E). }
      split.
      - intros (x & -> & Hx). rewrite Hfo in Hne. by rewrite (Hid x Hx Hne).
      - intros Hrow. exists row. by rewrite (Hid row Hrow Hne). }
    destruct He as [E | l Hv Ho E | id row0 l Hin Hid Ho Hv E | id row0 Hin Hid Ho E]; intros row Hne; unfold t'; rewrite E; [done|..].
    + unfold CreateSchedulingLink. cbn [snd set_links t_links]. rewrite elem_of_app, list_elem_of_singleton.
      split; [|by left]. intros [|Er]; [done|]. rewrite Er in Hne. cbn in Hne. congruence.
    + apply (Hmap _ row0); try done; intros x; unfold update_row; [intros Hx|]; destruct (N.eqb_spec (ID x) id); try done; congruence.
    + apply (Hmap _ row0); try done; intros x; unfold deactivate_row; [intros Hx|]; destruct (N.eqb_spec (ID x) id); try done; congruence.
  - intros link u Hu Hl Hrow. apply Hh. intros [|[|(row & Hin & E & Ho)]]; [congruence..|]. by apply (Hrow row).
Qed.

Lemma invite_all_status env link user l t u : (forall c, le_fails env c = false) -> u <> user ->
  GetLinkHostStatus (invite_all env link user l t) link u
  = if existsb (N.eqb u) l then Some (default "pending" (GetLinkHostStatus t link u)) else GetLinkHostStatus t link u.
Proof.
  intros Hf Hu. revert t. induction l as [|v l IH]; intros t; cbn [invite_all existsb]; [done|].
  rewrite IH, Hf, orb_false_r. destruct (N.eqb_spec u v) as [<-|Hne]; cbn [orb].
  - destruct (N.eqb_spec u user); [done|]. rewrite InviteLinkHost_self. cbn [default]. by destruct (existsb (N.eqb u) l).
  - destruct (N.eqb v user); [done|]. by rewrite InviteLinkHost_other by congruence.
Qed.

Lemma invite_all_owner env link user l t : GetLinkHostStatus (invite_all env link user l t) link user = GetLinkHostStatus t link user.
Proof.
  revert t. induction l as [|v l IH]; intros t; cbn [invite_all]; [done|]. rewrite IH.
  destruct (N.eqb_spec v user) as [|Hne]; cbn [orb]; [done|]. destruct (le_fails env _); [done|].
  apply InviteLinkHost_other. congruence.
Qed.

Lemma RemoveLinkHostsExcept_gone link owner kept u t : u <> owner -> u ∉ kept ->
  GetLinkHostStatus (RemoveLinkHostsExcept link owner kept t) link u = None.
Proof.
  intros Hu Hk. unfold RemoveLinkHostsExcept, GetLinkHostStatus. cbn [set_hosts t_hosts].
  destruct (List.find _ _) as [h|] eqn:E; [|done]. apply List.find_some in E as [Hin Hh]. exfalso.
  apply list_elem_of_In, elem_of_keep in Hin as [_ Hn]. apply andb_true_iff in Hh as [H1%N.eqb_eq H2%N.eqb_eq].
  apply negb_true_iff in Hn. rewrite H1, H2, N.eqb_refl in Hn. apply N.eqb_neq in Hu. rewrite Hu in Hn. cbn in Hn.
  apply negb_false_iff in Hn. rewrite existsb_elem in Hn. destruct Hn as (x & Hx & ->%N.eqb_eq). done.
Qed.

(** Setting the co-hosts of a link works by difference: those found among
    the listed addresses are hosts afterwards, with the standing they had or as
    invited; everyone else but the owner is no host of the link any more; the
    owner and the other links keep theirs. *)
Theorem roster_set_by_difference env link owner emails t u : (forall c, le_fails env c = false) ->
  let kept := kept_hosts env emails in
  let t' := set_roster env link owner emails t in
  GetLinkHostStatus t' link owner = GetLinkHostStatus t link owner
  /\ (u <> owner -> u ∈ kept -> GetLinkHostStatus t' link u = Some (default "pending" (GetLinkHostStatus t link u)))
  /\ (u <> owner -> u ∉ kept -> GetLinkHostStatus t' link u = None)
  /\ (forall l v, l <> link -> GetLinkHostStatus t' l v = GetLinkHostStatus t l v).
Proof.
  intros Hf kept t'. unfold t', set_roster. fold kept. rewrite Hf.
  split; [|split; [|split]].
  - rewrite invite_all_owner. apply RemoveLinkHostsExcept_other. auto.
  - intros Hu Hk. rewrite invite_all_status by done. rewrite RemoveLinkHostsExcept_other by auto.
    rewrite (proj2 (existsb_elem (N.eqb u) kept)); [done|]. exists u. by rewrite N.eqb_refl.
  - intros Hu Hk. rewrite invite_all_status by done. rewrite RemoveLinkHostsExcept_gone by done.
    destruct (existsb (N.eqb u) kept) eqn:E; [|done]. apply existsb_elem in E as (x & Hx & ->%N.eqb_eq). done.
  - intros l v Hl. pose proof (hosts_roster env link owner emails t) as (_ & _ & H).
    unfold set_roster in H. rewrite Hf in H. by apply H.
Qed.

(** The tables without a link. *)
Definition without_link (id : uuid) (t : Tables) : Tables := set_links (keep (fun l => negb (N.eqb (ID l) id))) t.

Lemma without_link_gone id t : GetSchedulingLinkByID (without_link id t) id = None.
Proof.
  unfold GetSchedulingLinkByID, find_link. destruct (List.find _ _) as [l|] eqn:E; [|done].
  apply List.find_some in E as [Hin Hid]. apply list_elem_of_In in Hin. cbn [without_link set_links t_links] in Hin.
  apply elem_of_keep in Hin as [_ Hn]. by rewrite Hid in Hn.
Qed.

(** Whether a link exists is not told: to a user who neither owns it nor is
    an accepted co-host, reading it answers, while the reads succeed, exactly
    what it would if there were no such link. *)
Theorem getLink_reveals_nothing env user id t :
  le_fails env CallStatus = false ->
  (forall l, GetSchedulingLinkByID t id = Some l -> OwnerUserID l <> user) ->
  GetLinkHostStatus t id user <> Some "accepted" ->
  getLink env user (Some id) t = getLink env user (Some id) (without_link id t).
Proof.
  intros Hf Ho Hs. unfold getLink, named_link. rewrite without_link_gone.
  destruct (le_fails env (CallLink id)); [done|]. destruct (GetSchedulingLinkByID t id) as [l|] eqn:E; [|done].
  assert (Hid : ID l = id).
  { unfold GetSchedulingLinkByID, find_link in E. destruct (List.find _ _) as [r|] eqn:Ef; [|done].
    injection E as <-. by apply List.find_some in Ef as [_ Ef%N.eqb_eq]. }
  specialize (Ho l eq_refl). apply N.eqb_neq in Ho. rewrite Ho, Hf, Hid.
  destruct (GetLinkHostStatus t id user) as [s|]; [|done]. destruct (String.eqb_spec s "accepted") as [->|]; done.
Qed.

Lemma map_id_if {A} (f : A -> A) (p : A -> bool) l :
  existsb p l = false -> map (fun x => if p x then f x else x) l = l.
Proof.
  intros H. rewrite existsb_elem_false in H. rewrite <- (map_id l) at 2. apply map_ext_in.
  intros x Hx. by rewrite (H x (proj2 (list_elem_of_In _ _) Hx)).
Qed.

Lemma keep_all {A} (p : A -> bool) l : existsb (fun x => negb (p x)) l = false -> keep p l = l.
Proof.
  intros H. rewrite existsb_elem_false in H. unfold keep. apply List.forallb_filter_id. apply List.forallb_forall. intros x Hx.
  specialize (H x (proj2 (list_elem_of_In _ _) Hx)). by apply negb_false_iff.
Qed.

Lemma set_hosts_id f t : f (t_hosts t) = t_hosts t -> set_hosts f t = t.
Proof. unfold set_hosts. intros ->. by destruct t. Qed.

(** A request that is refused (any answer of the 400s) has changed nothing;
    of the failures, only one leaves something: a link whose owner could not be
    made its host. *)
Theorem refused_changes_nothing env user r t code msg t' :
  serve env user r t = (LinkError code msg, t') ->
  t' = t \/ (code = 500 /\ msg = "owner host failed" /\ exists l, t' = snd (CreateSchedulingLink (le_id env) l t)).
Proof.
  destruct r; cbn [serve]; try (intros [= _ <-]; by left).
  - unfold createLink. destruct body as [i|]; [|intros [= _ _ <-]; by left]. destruct (normalized i); [|intros [= _ _ <-]; by left].
    destruct (user_by_id env user); [|intros [= _ _ <-]; by left]. destruct (owner_zone env user); [|intros [= _ _ <-]; by left].
    destruct (slug_for _ _ _ _) as [[s|e]|]; [|intros [= _ <-]; by left|done].
    destruct (le_fails env CallInsert); [intros [= _ _ <-]; by left|].
    destruct (CreateSchedulingLink _ _ t) as [cr t1] eqn:Ec. destruct (le_fails env CallOwnerHost).
    + intros [= <- <- <-]. right. split_and!; [done..|]. eexists. by rewrite Ec.
    + unfold writeLink. destruct (buildSchedulingLinkDTO _ _ _ _ _ _); done.
  - unfold updateLink. destruct (owned_link env user id t); [|intros [= _ <-]; by left]. destruct body; [|intros [= _ _ <-]; by left].
    cbv zeta. destruct (_ && _); [intros [= _ _ <-]; by left|]. destruct (validateSchedulingLink _); [|intros [= _ _ <-]; by left].
    destruct (owner_zone env _); [|intros [= _ _ <-]; by left].
    destruct (if String.eqb _ _ then _ else _) as [[]|]; [intros [= _ _ <-]; by left| |intros [= _ _ <-]; by left].
    destruct (le_fails env CallUpdate); [intros [= _ _ <-]; by left|].
    destruct (UpdateSchedulingLink _ _ t) as [[x|] t1]; [|done]. unfold writeLink.
    by destruct (buildSchedulingLinkDTO _ _ _ _ _ _).
  - unfold deleteLink. destruct (owned_link env user id t); [|intros [= _ <-]; by left].
    destruct (le_fails env CallDelete); [intros [= _ _ <-]; by left|done].
  - unfold inviteHost. destruct (owned_link env user id t); [|intros [= _ <-]; by left]. cbv zeta.
    destruct email as [e|]; [|intros [= _ _ <-]; by left]. destruct (String.eqb _ ""); [intros [= _ _ <-]; by left|].
    destruct (user_by_email env e); [|intros [= _ _ <-]; by left]. destruct (le_fails env _); [intros [= _ _ <-]; by left|].
    by destruct (InviteLinkHost _ _ t) as [[]].
  - unfold acceptInvite, respondToInvite. destruct id as [i|]; [|intros [= _ _ <-]; by left].
    destruct (le_fails env CallRespond); [intros [= _ _ <-]; by left|]. unfold RespondToHostInvite.
    destruct (existsb _ _) eqn:E; [done|]. intros [= _ _ <-]. left. by apply set_hosts_id, map_id_if.
  - unfold declineInvite, respondToInvite. destruct id as [i|]; [|intros [= _ _ <-]; by left].
    destruct (le_fails env CallRespond); [intros [= _ _ <-]; by left|]. unfold RespondToHostInvite.
    destruct (existsb _ _) eqn:E; [done|]. intros [= _ _ <-]. left. by apply set_hosts_id, map_id_if.
  - unfold leaveLink. destruct (named_link env id t) as [l|]; [|intros [= _ <-]; by left].
    destruct (N.eqb _ user); [intros [= _ _ <-]; by left|]. destruct (le_fails env CallRemove); [intros [= _ _ <-]; by left|].
    unfold RemoveLinkHost. destruct (existsb _ _) eqn:E; [done|]. intros [= _ _ <-]. left. apply set_hosts_id, keep_all.
    rewrite existsb_elem_false in E |- *. intros x Hx. cbn. rewrite negb_involutive. by apply E.
Qed.

(** The names a link's days are shown under read back as the days, and a
    slug that was normalised once is not changed again. *)
Theorem shown_settings_read_back days raw :
  dayNumbers (dayNames days) = keep (fun d => (0 <=? d) && (d <=? 6)) days
  /\ normal_slug (normalizeSlug raw) = true /\ normalizeSlug (normalizeSlug raw) = normalizeSlug raw.
Proof.
  split; [|split; [apply normalizeSlug_normal|apply normalizeSlug_fix, normalizeSlug_normal]].
  induction days as [|d r IH]; [done|]. unfold dayNames, dayNumbers in *. cbn [omap list_omap keep List.filter].
  destruct ((0 <=? d) && (d <=? 6)) eqn:E.
  - assert (Hd : d = 0 \/ d = 1 \/ d = 2 \/ d = 3 \/ d = 4 \/ d = 5 \/ d = 6) by lia.
    destruct Hd as [-> | [-> | [-> | [-> | [-> | [-> | ->]]]]]]; cbn [day_name omap list_omap];
      match goal with |- context [day_number_of ?x] => let y := eval vm_compute in (day_number_of x) in
        change (day_number_of x) with y end; cbn; by f_equal.
  - assert (Hn : day_name d = None); [|by rewrite Hn].
    destruct d as [|p|p]; [lia| |done]. do 3 (destruct p as [p|p|]; try done; try lia).
Qed.

(** ** A small example: Ada owns a link, Bob and Cy are invited *)

Module Demo.
Definition user (id : uuid) (email name : string) : LinkUser :=
  {| lu_ID := id; lu_User := {| U_Email := email; U_Name := name; U_AvatarURL := "" |} |}.
Definition env : LinkEnv := {|
  le_fails := fun _ => false;
  le_users := [user 1%N "ada@x.org" "Ada"; user 2%N "bob@x.org" "Bob"; user 3%N "cy@x.org" "Cy"];
  le_zones := [(1%N, "UTC")];
  le_load := fun name => if String.eqb name "UTC" then Some UTC else None;
  le_rand := fun n => (Z.of_nat n, 7);
  le_id := 9%N |}.
Definition later : LinkEnv := {|
  le_fails := le_fails env; le_users := le_users env; le_zones := le_zones env; le_load := le_load env;
  le_rand := le_rand env; le_id := 10%N |}.
Definition input (slug start end_ : string) (cohosts : list string) : schedulingLinkInput := {|
  li_Title := " Coffee "; li_Slug := slug; li_DurationOptions := None; li_Durations := Some [30; 45];
  li_DaysOfWeek := None; li_Days := Some ["mon"; "Tuesday"]; li_WindowStart := start; li_WindowStartAlias := "";
  li_WindowEnd := end_; li_WindowEndAlias := ""; li_BufferBefore := 0; li_BufferAfter := 5; li_MinNoticeMinutes := 0;
  li_UsageType := ""; li_MaxUses := None; li_CoHostEmails := cohosts; li_BookingHorizonDays := None;
  li_RefusalMessage := None |}.
Definition none : Tables := {| t_links := []; t_hosts := []; t_bookings := []; t_events := []; t_focus := [] |}.
Definition create (i : schedulingLinkInput) : LinkRequest := ReqCreate (Some i).
Definition one : Tables := Eval vm_compute in
  snd (serve env 1%N (create (input "Coffee -- Chat!" "" "" ["bob@x.org"])) none).
Definition drop_bob : schedulingLinkPatch := {|
  lp_Title := Some "Tea"; lp_Slug := None; lp_DurationOptions := None; lp_Durations := None; lp_DaysOfWeek := None;
  lp_Days := None; lp_WindowStart := None; lp_WindowStartAlias := None; lp_WindowEnd := None; lp_WindowEndAlias := None;
  lp_BufferBefore := None; lp_BufferAfter := None; lp_MinNoticeMinutes := None; lp_UsageType := None; lp_MaxUses := None;
  lp_Active := None; lp_CoHostEmails := Some ["Cy@x.org "]; lp_BookingHorizonDays := None; lp_RefusalMessage := None |}.
End Demo.

Example link_created : map Slug (t_links Demo.one) = ["coffee-chat"]
  /\ map (fun h => (LH_UserID h, LH_Status h)) (t_hosts Demo.one) = [(1%N, "accepted"); (2%N, "pending")].
Proof. by vm_compute. Qed.

Lemma links_stay_valid_witness :
  exists t', rtc lstep Demo.none t' /\ length (t_links t') = 1%nat /\ Forall valid_link (t_links t').
Proof.
  set (t' := snd (serve Demo.env 1%N (ReqUpdate (Some 9%N) (Some Demo.drop_bob)) Demo.one)). exists t'.
  assert (H : rtc lstep Demo.none t').
  { eapply rtc_l; [|apply rtc_once].
    - exact (lstep_serve _ _ Demo.env 1%N (Demo.create (Demo.input "Coffee -- Chat!" "" "" ["bob@x.org"])) eq_refl).
    - exact (lstep_serve _ _ Demo.env 1%N (ReqUpdate (Some 9%N) (Some Demo.drop_bob)) eq_refl). }
  split; [exact H|]. split; [reflexivity|]. exact (links_stay_valid _ _ H ltac:(constructor)).
Defined.

Lemma request_keeps_to_its_caller_witness :
  GetLinkHostStatus (snd (serve Demo.later 2%N (ReqAccept (Some 9%N)) Demo.one)) 9%N 2%N = Some "accepted"
  /\ GetLinkHostStatus (snd (serve Demo.later 2%N (ReqAccept (Some 9%N)) Demo.one)) 9%N 1%N
     = GetLinkHostStatus Demo.one 9%N 1%N.
Proof.
  split; [reflexivity|].
  destruct (request_keeps_to_its_caller Demo.later 2%N (ReqAccept (Some 9%N)) Demo.one (NoDup_singleton _)) as (_ & H & _).
  apply H; [discriminate|discriminate|]. intros row Hr _. apply list_elem_of_singleton in Hr as ->. discriminate.
Defined.

Lemma roster_set_by_difference_witness :
  GetLinkHostStatus (set_roster Demo.env 9%N 1%N ["cy@x.org"; "nobody@x.org"] Demo.one) 9%N 1%N = Some "accepted"
  /\ GetLinkHostStatus (set_roster Demo.env 9%N 1%N ["cy@x.org"; "nobody@x.org"] Demo.one) 9%N 2%N = None.
Proof.
  pose proof (roster_set_by_difference Demo.env 9%N 1%N ["cy@x.org"; "nobody@x.org"] Demo.one 2%N
                (fun _ => eq_refl)) as (H1 & _ & H3 & _).
  split; [exact H1|]. apply H3; [discriminate|]. vm_compute. intros H. by apply list_elem_of_singleton in H.
Defined.

Lemma getLink_reveals_nothing_witness :
  getLink Demo.env 2%N (Some 9%N) Demo.one = LinkError 404 "not found"
  /\ getLink Demo.env 2%N (Some 9%N) Demo.one = getLink Demo.env 2%N (Some 9%N) (without_link 9%N Demo.one).
Proof.
  split; [reflexivity|]. apply getLink_reveals_nothing; [reflexivity| |by vm_compute].
  intros l. vm_compute. by intros [= <-].
Defined.

Lemma refused_changes_nothing_witness :
  serve Demo.env 1%N (Demo.create (Demo.input "coffee-chat" "" "" [])) Demo.one
    = (LinkError 409 "slug already exists", Demo.one)
  /\ (Demo.one = Demo.one \/ (409 = 500 /\ "slug already exists" = "owner host failed"
        /\ exists l, Demo.one = snd (CreateSchedulingLink (le_id Demo.env) l Demo.one))).
Proof.
  assert (H : serve Demo.env 1%N (Demo.create (Demo.input "coffee-chat" "" "" [])) Demo.one
    = (LinkError 409 "slug already exists", Demo.one)) by by vm_compute.
  split; [exact H|]. exact (refused_changes_nothing _ _ _ _ _ _ _ H).
Defined.

(** An owner who lists their own address among the co-hosts is no accepted host
    of the new link: bookings are not checked against their calendar. *)
Example owner_listed_as_cohost :
  let t := snd (serve Demo.env 1%N (Demo.create (Demo.input "tea" "" "" ["ada@x.org"])) Demo.none) in
  map OwnerUserID (t_links t) = [1%N] /\ GetLinkHostStatus t 9%N 1%N = Some "pending" /\ GetAcceptedHosts t 9%N = [].
Proof. by vm_compute. Qed.

(** The owner cannot leave a link, but may decline it. *)
Example owner_declines :
  let t := snd (serve Demo.env 1%N (ReqDecline (Some 9%N)) Demo.one) in
  fst (serve Demo.env 1%N (ReqLeave (Some 9%N)) Demo.one) = LinkError 400 "owner cannot leave link"
  /\ fst (serve Demo.env 1%N (ReqDecline (Some 9%N)) Demo.one) = Responded "declined"
  /\ GetAcceptedHosts t 9%N = [].
Proof. by vm_compute. Qed.

(** A window whose ends differ by seconds is accepted and stored empty. *)
Example window_of_seconds :
  let t := snd (serve Demo.env 1%N (Demo.create (Demo.input "tea" "09:00:30" "09:00:45" [])) Demo.none) in
  map (fun l => (WindowStart l, WindowEnd l)) (t_links t) = [("09:00", "09:00")].
Proof. by vm_compute. Qed.
