(* ===== verification/BookingHandlers.v ===== *)
(** * The public booking handlers

    [api/handlers_booking.go]: the link page, the slot listing and the booking
    itself, with the guards in the order the handlers apply them.  The handlers
    are written against the interface of the booking engine ([BookingFlow]);
    the laws they rely on are [BookingStoreLaws]. *)

From S2P Require Import Prelude GoInt GoTime GoText Interval LinkStore RateLimit BookingWindow.
From S2P Require Import Calendar PerItem BookingEngine BookingRule.

#[local] Open Scope string_scope.
#[local] Open Scope list_scope.
#[local] Open Scope Z_scope.

(** ** Requests and replies *)

Record BookingBody := {
  bb_Name : string; bb_Email : string; bb_Start : string; bb_End : string; bb_Notes : string;
  bb_Duration : option Z; bb_DurationMinutes : option Z;
}.

Record publicHostDTO := { ph_Email : string; ph_Name : string; ph_AvatarURL : string }.

Record publicLinkDTO := {
  pl_Slug : string; pl_Title : string; pl_Durations : list Z; pl_Hosts : list publicHostDTO;
  pl_MinNoticeMinutes : Z; pl_UsageType : string; pl_Total : Z; pl_Checked : Z;
  pl_TimeZone : string; pl_BookingHorizonDays : Z;
}.

Record bookingConfirmationDTO := {
  bc_ID : uuid; bc_LinkSlug : string; bc_Title : string; bc_Start : string; bc_End : string;
  bc_DurationMinutes : Z; bc_Hosts : list publicHostDTO; bc_BookerName : string;
  bc_BookerEmail : string; bc_Notes : string;
}.

(** What the client receives. *)
Inductive Reply :=
| ErrorReply (code : Z) (msg : string)
| TooManyRequests (retryAfter : Z)
| Refusal (body : string * option RefusalReason)     (** the 409 *)
| ExpiredReply                                       (** the 503 of the budget *)
| LinkReply (dto : publicLinkDTO)
| DatesReply (dates : list string)
| SlotsReply (slots : list AvailableSlot)
| Created (dto : bookingConfirmationDTO).

Definition early {A} (ok : bool) (r : Reply) (k : res Reply A) : res Reply A :=
  if ok then k else Err r.

(** What surrounds a request: the users' rows and stored credentials, the reads
    that fail, the zone of the link's owner, the clock, and whether the request
    has ended when day [i] of the listing fails. *)
Record RequestEnv := {
  getUser : uuid -> option User;
  hasToken : uuid -> bool;
  linkReadFails : bool;
  overlapReadFails : bool;
  ownerZone : uuid -> result (option string);
  loadLocation : string -> option Location;
  clock : time;
  ended : nat -> bool;
}.

(** ** The link *)

Definition linkExhausted (link : option SchedulingLink) : bool :=
  match link with
  | None => true
  | Some l =>
      if String.eqb (UsageType l) "single_use" then 1 <=? UsesCount l
      else String.eqb (UsageType l) "recurring" &&
           match MaxUses l with Some m => m <=? UsesCount l | None => false end
  end.

Definition durationAllowed (link : SchedulingLink) (duration : Z) : bool :=
  if duration <=? 0 then false
  else match DurationOptions link with
       | [] => duration =? 30
       | opts => existsb (fun a => a =? duration) opts
       end.

Definition host_dto (u : User) : publicHostDTO :=
  {| ph_Email := U_Email u; ph_Name := U_Name u; ph_AvatarURL := U_AvatarURL u |}.

(** The accepted hosts storage knows. *)
Definition known_hosts (env : RequestEnv) (t : Tables) (link : uuid) : list (uuid * User) :=
  omap (fun h => u ← getUser env (LH_UserID h); Some (LH_UserID h, u)) (GetAcceptedHosts t link).

Definition publicLink (env : RequestEnv) (t : Tables) (link : SchedulingLink) (loc : Location)
    : publicLinkDTO :=
  let hosts := known_hosts env t (ID link) in
  {| pl_Slug := Slug link; pl_Title := Title link; pl_Durations := DurationOptions link;
     pl_Hosts := map (fun p => host_dto p.2) hosts;
     pl_MinNoticeMinutes := MinNoticeMinutes link;
     pl_UsageType := if String.eqb (UsageType link) "" then "reusable" else UsageType link;
     pl_Total := Z.of_nat (length hosts);
     pl_Checked := Z.of_nat (length (keep (fun p => hasToken env p.1) hosts));
     pl_TimeZone := loc_name loc; pl_BookingHorizonDays := horizonDays link |}.

Definition confirmation (env : RequestEnv) (t : Tables) (link : SchedulingLink) (b : Booking)
    : bookingConfirmationDTO :=
  {| bc_ID := B_ID b; bc_LinkSlug := Slug link; bc_Title := Title link;
     bc_Start := FormatRFC3339 (toUTC (B_Start b)); bc_End := FormatRFC3339 (toUTC (B_End b));
     bc_DurationMinutes := int_minutes (Sub (B_End b) (B_Start b));
     bc_Hosts := map (fun p => host_dto p.2) (known_hosts env t (ID link));
     bc_BookerName := BookerName b; bc_BookerEmail := BookerEmail b; bc_Notes := Notes b |}.

(** The first checks of every handler: the link is read, known and open. *)
Definition openLink (env : RequestEnv) (t : Tables) (slug : string) : res Reply SchedulingLink :=
  if linkReadFails env then Err (ErrorReply 500 "internal error")
  else match GetSchedulingLinkBySlug t slug with
  | None => Err (ErrorReply 404 "not found")
  | Some link =>
      if linkExhausted (Some link) then Err (ErrorReply 410 "link is no longer accepting bookings")
      else Ok link
  end.

Definition zoneOf (env : RequestEnv) (link : SchedulingLink) (msg : string) : res Reply Location :=
  match linkLocation (ownerZone env) (loadLocation env) (OwnerUserID link) with
  | Ok loc => Ok loc
  | Err _ => Err (ErrorReply 500 msg)
  end.

Definition reply_of (r : res Reply Reply) : Reply := match r with Ok x => x | Err x => x end.

(** [getLinkInfo]. *)
Definition getLinkInfo (env : RequestEnv) (t : Tables) (slug : string) : Reply :=
  reply_of
    (link <-? openLink env t slug ;;
     loc <-? zoneOf env link "link zone" ;;
     Ok (LinkReply (publicLink env t link loc))).

(** [budgetCut]. *)
Definition budgetCut (e : Error) : bool := bool_decide (e = ErrExpired).

Section Handlers.
Context {F : BookingFlow Tables}.

(** ** The listing *)

Definition defaultDuration (link : SchedulingLink) : Z :=
  match DurationOptions link with d :: _ => d | [] => 30 end.

Definition queryDuration (link : SchedulingLink) (raw : string) : res Reply Z :=
  if String.eqb raw "" then Ok (defaultDuration link)
  else match Atoi raw with
  | Some d => if durationAllowed link d then Ok d else Err (ErrorReply 400 "invalid duration")
  | None => Err (ErrorReply 400 "invalid duration")
  end.

(** The days of the horizon from day [i] on, those that offer a slot. *)
Fixpoint availableDays (env : RequestEnv) (t : Tables) (link : SchedulingLink) (loc : Location)
    (duration : Z) (i n : nat) : res Reply (list string) :=
  match n with
  | O => Ok []
  | S k =>
      let date := AddDate (calendarDay (clock env) loc) 0 0 (Z.of_nat i) in
      match offeredSlots t link loc date duration (clock env) with
      | Err e =>
          if budgetCut e || ended env i then Err ExpiredReply
          else availableDays env t link loc duration (S i) k
      | Ok slots =>
          days <-? availableDays env t link loc duration (S i) k ;;
          Ok (match slots with [] => days | _ => FormatDateOnly date :: days end)
      end
  end.

(** [getSlots], the rate limit apart. *)
Definition getSlots (env : RequestEnv) (t : Tables) (slug dateStr durationStr : string) : Reply :=
  reply_of
    (link <-? openLink env t slug ;;
     duration <-? queryDuration link durationStr ;;
     loc <-? zoneOf env link "link zone" ;;
     if String.eqb dateStr "" then
       days <-? availableDays env t link loc duration 0 (Z.to_nat (horizonDays link)) ;;
       Ok (DatesReply days)
     else match parseCalendarDay dateStr loc with
     | None => Err (ErrorReply 400 "invalid date format, use YYYY-MM-DD")
     | Some date =>
         match offeredSlots t link loc date duration (clock env) with
         | Err e => Err (if budgetCut e then ExpiredReply else ErrorReply 500 "internal error")
         | Ok available => Ok (SlotsReply available)
         end
     end).

(** ** The booking *)

(** The requested interval: its bounds and its length in minutes. *)
Definition requestedSlot (local : Location) (link : SchedulingLink) (body : BookingBody)
    : res Reply (time * time * Z) :=
  match ParseRFC3339 local (bb_Start body) with
  | None => Err (ErrorReply 400 "invalid start time, use RFC3339")
  | Some start =>
      let requested :=
        match bb_Duration body with
        | Some d => d
        | None => default 0 (bb_DurationMinutes body)
        end in
      bounds <-?
        (if negb (String.eqb (bb_End body) "") then
           match ParseRFC3339 local (bb_End body) with
           | None => Err (ErrorReply 400 "invalid end time, use RFC3339")
           | Some end_ =>
               let length := Sub end_ start in
               let whole := Z.rem length Minute =? 0 in
               let actual := Z.quot length Minute in
               if negb (requested =? 0) && (negb whole || negb (requested =? actual))
               then Err (ErrorReply 400 "duration does not match end time")
               else if negb whole then Err (ErrorReply 400 "invalid duration")
               else Ok (end_, actual)
           end
         else
           let d := if requested =? 0 then defaultDuration link else requested in
           Ok (Add start (dur_minutes d), d)) ;;
      let '(end_, d) := bounds in
      early (durationAllowed link d) (ErrorReply 400 "invalid duration")
        (early (After end_ start) (ErrorReply 400 "end must be after start")
           (Ok (start, end_, d)))
  end.

(** The slot to book: every check between the body and the insert. *)
Definition slotToBook (env : RequestEnv) (t : Tables) (link : SchedulingLink)
    (start end_ : time) (duration : Z) : res Reply AvailableSlot :=
  let failed := ErrorReply 500 "booking conflict check failed" in
  loc <-? zoneOf env link "booking conflict check failed" ;;
  match cheapRefusal link loc start end_ duration (clock env) with
  | Some reason => Err (Refusal (writeRefusal link reason))
  | None =>
      if overlapReadFails env then Err failed
      else if HasOverlappingBooking t (ID link) start end_
      then Err (Refusal (writeRefusal link Taken))
      else match offeredSlots t link loc (calendarDay start loc) duration (clock env) with
      | Err e => Err (if budgetCut e then ExpiredReply else failed)
      | Ok offered =>
          match List.find (fun s => Equal (iv_start s) start && Equal (iv_end s) end_) offered with
          | None => Err (Refusal (writeRefusal link HostBusy))
          | Some slot => Ok slot
          end
      end
  end.

(** The request as far as the insert: the link, the booker and the slot. *)
Definition bookingDecision (env : RequestEnv) (local : Location) (t : Tables) (slug : string)
    (body : option BookingBody) : res Reply (SchedulingLink * BookingBody * AvailableSlot) :=
  link <-? openLink env t slug ;;
  match body with
  | None => Err (ErrorReply 400 "invalid request body")
  | Some b =>
      let name := TrimSpace (bb_Name b) in
      let email := TrimSpace (bb_Email b) in
      if String.eqb name "" || String.eqb email "" || String.eqb (bb_Start b) ""
      then Err (ErrorReply 400 "name, email, and start are required")
      else
        r <-? requestedSlot local link b ;;
        let '(start, end_, d) := r in
        slot <-? slotToBook env t link start end_ d ;;
        Ok (link, {| bb_Name := name; bb_Email := email; bb_Start := bb_Start b;
                     bb_End := bb_End b; bb_Notes := bb_Notes b;
                     bb_Duration := bb_Duration b; bb_DurationMinutes := bb_DurationMinutes b |},
            slot)
  end.

(** The insert and its answer. *)
Definition insertBooking (env : RequestEnv) (t : Tables)
    (d : SchedulingLink * BookingBody * AvailableSlot) : Reply * Tables :=
  let '(link, b, slot) := d in
  match flow_confirm t link (bb_Name b) (bb_Email b) (iv_start slot) (iv_end slot) (bb_Notes b) with
  | (Ok booking, t') => (Created (confirmation env t' link booking), t')
  | (Err ErrExpired, t') => (ExpiredReply, t')
  | (Err ErrHostCalendarUnreadable, t') => (Refusal (writeRefusal link HostBusy), t')
  | (Err _, t') => (ErrorReply 500 "booking failed", t')
  end.

(** [createBooking], the rate limit apart. *)
Definition createBooking (env : RequestEnv) (local : Location) (t : Tables) (slug : string)
    (body : option BookingBody) : Reply * Tables :=
  match bookingDecision env local t slug body with
  | Err r => (r, t)
  | Ok d => insertBooking env t d
  end.

(** The handlers as routed: the limiter counts the request first. *)
Definition limited {A} (client : string) (now : time) (l : Limiter) (k : Reply * A) (a : A)
    : Reply * A * Limiter :=
  match allowPublicBooking client now l with
  | (Some retry, l') => (TooManyRequests retry, a, l')
  | (None, l') => (k, l')
  end.

Definition createBookingHandler (env : RequestEnv) (local : Location) (client : string)
    (lim : Limiter) (t : Tables) (slug : string) (body : option BookingBody)
    : Reply * Tables * Limiter :=
  limited client (clock env) lim (createBooking env local t slug body) t.
End Handlers.

(** ** What the handlers rely on *)

(** A live booking on a link the user hosts or owns. *)
Definition books_user (t : Tables) (u : uuid) (b : Booking) : Prop :=
  b ∈ t_bookings t /\ live b = true /\
  exists l, l ∈ t_links t /\ ID l = B_LinkID b /\ hosts_link t u l = true.

Definition booked_interval (b : Booking) : interval := Iv (B_Start b) (B_End b).

(** The promises of the engine over the storage tables: it offers only slots
    that are free of every accepted host's bookings, and its insert writes the
    one row or nothing. *)
Class BookingStoreLaws {F : BookingFlow Tables} : Prop := {
  store_slots_free t link day dur slots s h b x :
    flow_slots t link day dur = Ok slots -> s ∈ slots -> covers s x ->
    h ∈ GetAcceptedHosts t (ID link) -> books_user t (LH_UserID h) b ->
    ~ covers (booked_interval b) x;
  store_slots_hosted t link day dur slots s :
    flow_slots t link day dur = Ok slots -> s ∈ slots -> GetAcceptedHosts t (ID link) <> [];
  store_confirm_err t link name email start end_ notes e t' :
    flow_confirm t link name email start end_ notes = (Err e, t') -> t' = t;
  store_confirm_ok t link name email start end_ notes b t' :
    flow_confirm t link name email start end_ notes = (Ok b, t') ->
    exists id, (b, t') = CreateBooking id
      {| B_ID := uuid_nil; B_LinkID := ID link; BookerName := name; BookerEmail := email;
         B_Start := start; B_End := end_; B_Status := ""; Notes := notes |} t;
}.

(** The engine of [engine/booking.go] over the storage package. *)
Section EngineFlow.
Context (local : Location) (cal : Calendars) (ok : nat -> bool) (path : InsertPath) (new_id : uuid).

Definition engine_flow : BookingFlow Tables := {|
  flow_slots t link day dur := CollectiveSlots local (storage_reads t) cal ok link day dur;
  flow_confirm t link name email start end_ notes :=
    ConfirmBooking (Ok (GetAcceptedHosts t (ID link))) cal ok path new_id link
      name email start end_ notes t;
|}.

Lemma engine_flow_rule : @BookingFlowLaws Tables engine_flow.
Proof.
  constructor. intros t link day dur slots s H Hs.
  by destruct (CollectiveSlots_Ok _ _ _ _ _ _ _ _ _ H Hs) as (? & ? & ? & ? & ? & ? & ? & ? & ? & ? & ?).
Qed.

Lemma engine_slots_free t link day dur slots s h b x :
  CollectiveSlots local (storage_reads t) cal ok link day dur = Ok slots -> s ∈ slots ->
  covers s x -> h ∈ GetAcceptedHosts t (ID link) -> books_user t (LH_UserID h) b ->
  ~ covers (booked_interval b) x.
Proof.
  intros H Hs Hx Hh (Hb & Hlive & Hl) Hbx.
  destruct (CollectiveSlots_free _ _ _ _ _ _ _ _ _ _ H Hs Hx)
    as (hosts & ws & we & Hacc & _ & _ & Hwin & Hfree).
  simpl in Hacc. injection Hacc as <-.
  destruct (Hfree h Hh) as (busy & Hbusy & Hnc). apply Hnc.
  apply hostBusy_Ok in Hbusy as (evs & blocks & times & _ & _ & _ & Ht & ->).
  simpl in Ht. injection Ht as <-.
  exists (booked_interval b). split; [|done].
  rewrite !elem_of_app. do 2 right. apply elem_of_pairs_of. exists b. split; [|done].
  apply elem_of_busy_bookings. unfold covers in *. simpl in *. split_and!; [done|done|lia|lia|done].
Qed.

Lemma ConfirmBooking_cases hosts link name email start end_ notes t r t' :
  ConfirmBooking hosts cal ok path new_id link name email start end_ notes t = (r, t') ->
  (exists e, r = Err e /\ t' = t) \/
  (exists b, r = Ok b /\ (b, t') = CreateBooking new_id
    {| B_ID := uuid_nil; B_LinkID := ID link; BookerName := name; BookerEmail := email;
       B_Start := start; B_End := end_; B_Status := ""; Notes := notes |} t).
Proof.
  unfold ConfirmBooking. destruct hosts as [hs|e]; [|intros [= <- <-]; eauto].
  destruct (run_pool _ _ _) as [flags|e]; [|intros [= <- <-]; eauto].
  destruct (existsb id flags); [intros [= <- <-]; eauto|].
  destruct (conn_refused path) as [b|]; [intros [= <- <-]; eauto|].
  destruct (commit_ok path); simpl; [|intros [= <- <-]; eauto].
  destruct (insert_fails path); [intros [= <- <-]; eauto|].
  intros [= <- <-]. right. eauto.
Qed.

Lemma engine_flow_store : @BookingStoreLaws engine_flow.
Proof.
  constructor; cbn [flow_slots flow_confirm engine_flow].
  - intros *. apply engine_slots_free.
  - intros t link day dur slots s H Hs.
    by destruct (CollectiveSlots_Ok _ _ _ _ _ _ _ _ _ H Hs)
      as (hosts & ws & we & all & [= <-] & Hne & _).
  - intros * [(e' & _ & ->)|(b & [=] & _)]%ConfirmBooking_cases. done.
  - intros * [(e' & [=] & _)|(b' & [= <-] & H)]%ConfirmBooking_cases. eauto.
Qed.
End EngineFlow.

(** ** Facts on the decision *)

Section Facts.
Context {F : BookingFlow Tables}.

Lemma openLink_Ok env t slug link :
  openLink env t slug = Ok link ->
  GetSchedulingLinkBySlug t slug = Some link /\ linkExhausted (Some link) = false.
Proof.
  unfold openLink. destruct (linkReadFails env); [done|].
  destruct (GetSchedulingLinkBySlug t slug) as [l|]; [|done].
  destruct (linkExhausted (Some l)) eqn:El; [done|]. by intros [= <-].
Qed.

Lemma slotToBook_Ok env t link start end_ d slot :
  slotToBook env t link start end_ d = Ok slot ->
  exists loc offered,
    linkLocation (ownerZone env) (loadLocation env) (OwnerUserID link) = Ok loc /\
    cheapRefusal link loc start end_ d (clock env) = None /\
    HasOverlappingBooking t (ID link) start end_ = false /\
    offeredSlots t link loc (calendarDay start loc) d (clock env) = Ok offered /\
    slot ∈ offered /\ t_ns (iv_start slot) = t_ns start /\ t_ns (iv_end slot) = t_ns end_.
Proof.
  unfold slotToBook, zoneOf.
  destruct (linkLocation _ _ _) as [loc|]; cbn [rbind]; [|discriminate].
  destruct (cheapRefusal _ _ _ _ _ _) eqn:Ec; [discriminate|].
  destruct (overlapReadFails env); [discriminate|].
  destruct (HasOverlappingBooking _ _ _ _) eqn:Eo; [discriminate|].
  destruct (offeredSlots _ _ _ _ _ _) as [offered|] eqn:Es; [|discriminate].
  destruct (List.find _ offered) as [s|] eqn:Ef; [|discriminate]. intros [= ->].
  apply List.find_some in Ef as [Hin He]. apply list_elem_of_In in Hin.
  apply andb_true_iff in He as [H1%Equal_eq H2%Equal_eq].
  exists loc, offered. split_and!; first [reflexivity|assumption].
Qed.

Lemma early_Ok {A} ok r (k : res Reply A) a : early ok r k = Ok a <-> ok = true /\ k = Ok a.
Proof. destruct ok; simpl; split; intuition congruence. Qed.

Lemma requestedSlot_Ok local link b start end_ d :
  requestedSlot local link b = Ok (start, end_, d) ->
  ParseRFC3339 local (bb_Start b) = Some start /\ durationAllowed link d = true /\
  t_ns start < t_ns end_ /\
  (end_ = Add start (dur_minutes d) \/
   ParseRFC3339 local (bb_End b) = Some end_ /\ Sub end_ start = d * Minute).
Proof.
  unfold requestedSlot. destruct (ParseRFC3339 local (bb_Start b)) as [s|]; [|done].
  generalize (match bb_Duration b with Some d0 => d0 | None => default 0 (bb_DurationMinutes b) end).
  intros req H. apply rbind_Ok in H as ([e0 d0] & H1 & H2).
  rewrite !early_Ok in H2. destruct H2 as (Hd & He & [= -> -> ->]).
  apply After_lt in He. split_and!; [done|done|done|].
  destruct (String.eqb (bb_End b) ""); simpl in H1; [injection H1 as <- <-; by left|].
  destruct (ParseRFC3339 local (bb_End b)) as [e|]; [|done].
  right. revert H1. destruct (_ && _); [done|].
  destruct (Z.rem (Sub e start) Minute =? 0) eqn:Er; [|done]. intros [= <- <-].
  apply Z.eqb_eq in Er. split; [done|].
  rewrite (Z.quot_rem (Sub e start) Minute) at 1 by done. rewrite Er. lia.
Qed.

Lemma bookingDecision_Ok env local t slug body link b slot :
  bookingDecision env local t slug body = Ok (link, b, slot) ->
  exists b0 start end_ d,
    body = Some b0 /\ openLink env t slug = Ok link /\
    requestedSlot local link b0 = Ok (start, end_, d) /\
    slotToBook env t link start end_ d = Ok slot /\
    bb_Name b = TrimSpace (bb_Name b0) /\ bb_Email b = TrimSpace (bb_Email b0) /\
    bb_Notes b = bb_Notes b0 /\ bb_Name b <> "" /\ bb_Email b <> "".
Proof.
  unfold bookingDecision. intros (l & Hl & H)%rbind_Ok. destruct body as [b0|]; [|done].
  destruct (_ || _) eqn:Eb; [done|].
  apply orb_false_iff in Eb as [[En Em]%orb_false_iff _].
  apply String.eqb_neq in En, Em.
  apply rbind_Ok in H as ([[start end_] d] & Hr & H).
  apply rbind_Ok in H as (s & Hs & [= <- <- <-]).
  exists b0, start, end_, d. done.
Qed.

(** Before the insert no stage answers with a confirmation. *)
Definition not_created (r : Reply) : Prop := match r with Created _ => False | _ => True end.
Definition refuses {A} (r : res Reply A) : Prop :=
  match r with Err e => not_created e | Ok _ => True end.

Lemma refuses_Err {A} (r : res Reply A) e : refuses r -> r = Err e -> not_created e.
Proof. by intros H ->. Qed.

Lemma refuses_bind {A B} (r : res Reply A) (k : A -> res Reply B) :
  refuses r -> (forall a, refuses (k a)) -> refuses (rbind r k).
Proof. destruct r; simpl; auto. Qed.

Lemma refuses_early {A} ok e (k : res Reply A) : not_created e -> refuses k -> refuses (early ok e k).
Proof. by destruct ok. Qed.

Lemma openLink_refuses env t slug : refuses (openLink env t slug).
Proof. unfold openLink. repeat case_match; done. Qed.

Lemma requestedSlot_refuses local link b : refuses (requestedSlot local link b).
Proof.
  unfold requestedSlot. destruct (ParseRFC3339 local (bb_Start b)); [|done]. cbv zeta.
  apply refuses_bind.
  - destruct (negb (String.eqb (bb_End b) "")); [|done].
    destruct (ParseRFC3339 local (bb_End b)); [|done].
    destruct (_ && _); [done|]. by destruct (negb _).
  - intros [e d]. by repeat apply refuses_early.
Qed.

Lemma slotToBook_refuses env t link start end_ d : refuses (slotToBook env t link start end_ d).
Proof.
  unfold slotToBook. cbv zeta. apply refuses_bind.
  - unfold zoneOf. by destruct (linkLocation _ _ _).
  - intros loc. destruct (cheapRefusal _ _ _ _ _ _); [done|].
    destruct (overlapReadFails env); [done|]. destruct (HasOverlappingBooking _ _ _ _); [done|].
    destruct (offeredSlots _ _ _ _ _ _) as [l|e]; [by destruct (List.find _ l)|].
    by destruct (budgetCut e).
Qed.

Lemma bookingDecision_refuses env local t slug body :
  refuses (bookingDecision env local t slug body).
Proof.
  unfold bookingDecision. apply refuses_bind; [apply openLink_refuses|].
  intros link. destruct body as [b|]; [|done]. destruct (_ || _); [done|].
  apply refuses_bind; [apply requestedSlot_refuses|]. intros [[s e] d].
  apply refuses_bind; [apply slotToBook_refuses|]. done.
Qed.

Context {SL : BookingStoreLaws}.

(** The outcome of a booking request: either storage is untouched and the
    answer is not a confirmation, or the decision was reached, its one row is
    appended and the answer confirms it. *)
Lemma createBooking_cases env local t slug body r t' :
  createBooking env local t slug body = (r, t') ->
  (t' = t /\ not_created r) \/
  exists link b slot id row,
    bookingDecision env local t slug body = Ok (link, b, slot) /\
    (row, t') = CreateBooking id
      {| B_ID := uuid_nil; B_LinkID := ID link; BookerName := bb_Name b; BookerEmail := bb_Email b;
         B_Start := iv_start slot; B_End := iv_end slot; B_Status := ""; Notes := bb_Notes b |} t /\
    r = Created (confirmation env t' link row).
Proof.
  unfold createBooking.
  destruct (bookingDecision _ _ _ _ _) as [[[link b] slot]|e] eqn:Ed.
  - unfold insertBooking. destruct (flow_confirm _ _ _ _ _ _ _) as [[row|e] t1] eqn:Ef.
    + intros [= <- <-]. right. apply store_confirm_ok in Ef as [id Hid]. eauto 10.
    + apply store_confirm_err in Ef as ->. intros H. left. by destruct e; injection H as <- <-.
  - intros [= <- <-]. left. split; [done|].
    apply (refuses_Err _ e (bookingDecision_refuses env local t slug body) Ed).
Qed.
End Facts.

(** ** Invariants of the bookings table *)

Definition overlap (a b : Booking) : Prop :=
  t_ns (B_Start a) < t_ns (B_End b) /\ t_ns (B_Start b) < t_ns (B_End a).

(** Two bookings that may stand together: on different links, or one of them
    cancelled, or not at the same time. *)
Definition compatible (a b : Booking) : Prop :=
  B_LinkID a = B_LinkID b -> live a = true -> live b = true -> ~ overlap a b.

Definition no_double_booking (t : Tables) : Prop := ForallOrdPairs compatible (t_bookings t).

(** The number of bookings a link admits. *)
Definition capacity (l : SchedulingLink) : option Z :=
  if String.eqb (UsageType l) "single_use" then Some 1
  else if String.eqb (UsageType l) "recurring" then MaxUses l else None.

Definition within_capacity (t : Tables) : Prop :=
  forall l m, l ∈ t_links t -> capacity l = Some m -> uses_of t (ID l) <= Z.max 0 m.

(** A request served from start to end, by any engine that keeps its laws. *)
Inductive served (t t' : Tables) : Prop :=
| Served (F : BookingFlow Tables) (SL : @BookingStoreLaws F) (env : RequestEnv)
    (local : Location) (slug : string) (body : option BookingBody) (r : Reply)
    (Hserve : createBooking env local t slug body = (r, t')).

Lemma linkExhausted_capacity t l m :
  linkExhausted (Some (with_uses t l)) = false -> capacity l = Some m -> uses_of t (ID l) < m.
Proof.
  unfold linkExhausted, capacity. simpl.
  destruct (String.eqb (UsageType l) "single_use"); [intros H [= <-]; zbool; lia|].
  destruct (String.eqb (UsageType l) "recurring"); [|done]. simpl. intros H Hm.
  rewrite Hm in H. zbool. lia.
Qed.

Lemma uses_of_snoc t b id :
  uses_of (set_bookings (fun l => l ++ [b]) t) id =
  uses_of t id + (if N.eqb (B_LinkID b) id && live b then 1 else 0).
Proof.
  unfold uses_of. simpl. rewrite keep_app, length_app, Nat2Z.inj_add. f_equal. simpl.
  by destruct (N.eqb (B_LinkID b) id && live b).
Qed.

Lemma find_link_elem p t link :
  find_link p t = Some link -> exists l, l ∈ t_links t /\ p l = true /\ link = with_uses t l.
Proof.
  unfold find_link. intros (l & Hf & ->)%fmap_Some. apply List.find_some in Hf as [Hin Hp].
  exists l. split; [by apply list_elem_of_In|done].
Qed.

Lemma unique_id t l1 l2 :
  NoDup (map ID (t_links t)) -> l1 ∈ t_links t -> l2 ∈ t_links t -> ID l1 = ID l2 -> l1 = l2.
Proof.
  intros Hn H1 H2 E. apply list_elem_of_In, In_nth_error in H1 as [i Hi].
  apply list_elem_of_In, In_nth_error in H2 as [j Hj].
  assert (i = j) as ->; [|congruence].
  apply (proj1 (NoDup_nth_error (map ID (t_links t)))).
  - by apply NoDup_ListNoDup.
  - rewrite length_map. apply nth_error_Some. by rewrite Hi.
  - rewrite !nth_error_map, Hi, Hj. cbn. by rewrite E.
Qed.

Lemma served_links t t' : served t t' -> t_links t' = t_links t.
Proof.
  intros [F SL env local slug body r H].
  destruct (createBooking_cases _ _ _ _ _ _ _ H) as [[-> _]|(? & ? & ? & ? & ? & _ & [= _ ->] & _)];
    done.
Qed.

(** What a request adds: nothing, or one live booking of a link that was still
    open, sharing no time with the other bookings of the link. *)
Lemma served_adds t t' :
  served t t' ->
  t' = t \/
  exists row l, t' = set_bookings (fun bs => bs ++ [row]) t /\ live row = true /\
    l ∈ t_links t /\ B_LinkID row = ID l /\ linkExhausted (Some (with_uses t l)) = false /\
    Forall (fun b => compatible b row) (t_bookings t).
Proof.
  intros [F SL env local slug body r H].
  destruct (createBooking_cases _ _ _ _ _ _ _ H)
    as [[-> _]|(link & b & slot & id & row & Hd & Hrow & _)]; [by left|right].
  destruct (bookingDecision_Ok _ _ _ _ _ _ _ _ Hd)
    as (b0 & start & end_ & d & _ & Hopen & _ & Hslot & _).
  destruct (openLink_Ok _ _ _ _ Hopen) as [Hlink Hex].
  apply find_link_elem in Hlink as (l & Hl & _ & ->).
  destruct (slotToBook_Ok _ _ _ _ _ _ _ Hslot)
    as (loc & offered & _ & _ & Hover & _ & _ & Hs & He).
  injection Hrow as -> ->. eexists _, l. split; [reflexivity|].
  do 2 (split; [done|]). split; [done|]. split; [done|].
  apply Forall_forall. intros b' Hb' El Hlive _ [Ho1 Ho2]. simpl in *.
  assert (HasOverlappingBooking t (ID l) start end_ = true); [|congruence].
  apply HasOverlappingBooking_true. exists b'. rewrite <- Hs, <- He. done.
Qed.

(** C1: Requests served one after the other, whatever the calendars answer and
    whichever reads fail, never leave two live bookings of one link at the same
    time, if none were there. *)
Theorem serial_no_double_booking t t' :
  rtc served t t' -> no_double_booking t -> no_double_booking t'.
Proof.
  induction 1 as [|t t1 t' Hs _ IH]; [done|]. intros Hinv. apply IH.
  destruct (served_adds _ _ Hs) as [->|(row & l & -> & _ & _ & _ & _ & Hc)]; [done|].
  by apply ForallOrdPairs_snoc.
Qed.

(** A single-use link is booked at most once and a recurring link at most its
    maximum number of times, whatever requests are served one after the other. *)
Theorem serial_within_capacity t t' :
  rtc served t t' -> NoDup (map ID (t_links t)) -> within_capacity t -> within_capacity t'.
Proof.
  induction 1 as [|t t1 t' Hs _ IH]; [done|]. intros Hn Hinv.
  pose proof (served_links _ _ Hs) as El. apply IH; [by rewrite El|].
  destruct (served_adds _ _ Hs) as [->|(row & l & -> & Hlive & Hl & Hid & Hex & _)]; [done|].
  intros l' m Hl' Hm. simpl in Hl'. rewrite uses_of_snoc, Hlive, andb_true_r.
  destruct (N.eqb_spec (B_LinkID row) (ID l')) as [E|E].
  - assert (l = l') as -> by (apply (unique_id t); congruence).
    pose proof (linkExhausted_capacity _ _ _ Hex Hm). lia.
  - rewrite Z.add_0_r. by apply Hinv.
Qed.

(** ** From the listing to the booking *)

Section Listing.
Context {F : BookingFlow Tables} {FL : BookingFlowLaws Tables} {SL : BookingStoreLaws}.

Lemma zoneOf_Ok env link msg loc :
  zoneOf env link msg = Ok loc <->
  linkLocation (ownerZone env) (loadLocation env) (OwnerUserID link) = Ok loc.
Proof. unfold zoneOf. destruct (linkLocation _ _ _); split; congruence. Qed.

(** A listed day: what the reply was made from. *)
Lemma getSlots_listed env t slug dateStr durationStr slots :
  getSlots env t slug dateStr durationStr = SlotsReply slots ->
  exists link d loc day,
    openLink env t slug = Ok link /\ queryDuration link durationStr = Ok d /\
    linkLocation (ownerZone env) (loadLocation env) (OwnerUserID link) = Ok loc /\
    parseCalendarDay dateStr loc = Some day /\
    offeredSlots t link loc day d (clock env) = Ok slots.
Proof.
  unfold getSlots.
  pose proof (openLink_refuses env t slug) as R.
  destruct (openLink env t slug) as [link|e] eqn:El; cbn [rbind reply_of].
  2:{ intros ->. revert El. unfold openLink. repeat case_match; discriminate. }
  destruct (queryDuration link durationStr) as [d|e] eqn:Eq; cbn [rbind reply_of].
  2:{ intros ->. revert Eq. unfold queryDuration. repeat case_match; discriminate. }
  destruct (zoneOf env link "link zone") as [loc|e] eqn:Ez; cbn [rbind reply_of].
  2:{ intros ->. revert Ez. unfold zoneOf. case_match; discriminate. }
  destruct (String.eqb dateStr "").
  { destruct (availableDays _ _ _ _ _ _ _) as [days|e] eqn:Ea; cbn [rbind reply_of];
      [discriminate|]. intros ->. exfalso. revert Ea.
    generalize 0%nat, (Z.to_nat (horizonDays link)). intros i n. revert i.
    induction n as [|n IH]; intros i; cbn [availableDays]; [discriminate|].
    destruct (offeredSlots _ _ _ _ _ _) as [l|e].
    - specialize (IH (S i)). destruct (availableDays _ _ _ _ _ _ _); cbn [rbind]; [discriminate|exact IH].
    - destruct (budgetCut e || ended env i); [discriminate|]. apply IH. }
  destruct (parseCalendarDay dateStr loc) as [day|] eqn:Ep; cbn [rbind reply_of]; [|discriminate].
  destruct (offeredSlots _ _ _ _ _ _) as [l|e] eqn:Eo; cbn [rbind reply_of].
  2:{ destruct (budgetCut e); discriminate. }
  intros [= ->]. apply zoneOf_Ok in Ez. exists link, d, loc, day. auto.
Qed.

(** An offered slot overlaps no live booking of its own link. *)
Lemma offered_no_overlap t link loc day d now slots s :
  (forall b, b ∈ t_bookings t -> t_ns (B_Start b) < t_ns (B_End b)) ->
  (exists l, l ∈ t_links t /\ ID l = ID link) ->
  t_ns (iv_start s) < t_ns (iv_end s) ->
  offeredSlots t link loc day d now = Ok slots -> s ∈ slots ->
  HasOverlappingBooking t (ID link) (iv_start s) (iv_end s) = false.
Proof.
  intros Hprop (l & Hl & Hid) Hlt Ho Hs. apply not_true_is_false. intros Hover.
  apply HasOverlappingBooking_true in Hover as (b & Hb & Hlink & Hlive & H1 & H2).
  apply (elem_of_offeredSlots _ _ _ _ _ _ _ _ Ho) in Hs
    as (_ & _ & es & s0 & Hf & Hs0 & _ & ->).
  cbn [iv_start iv_end toUTC In t_ns] in *.
  pose proof (store_slots_hosted _ _ _ _ _ _ Hf Hs0) as Hne.
  destruct (GetAcceptedHosts t (ID link)) as [|h hs] eqn:Eh; [done|].
  assert (Hh : h ∈ GetAcceptedHosts t (ID link)) by (rewrite Eh; left).
  set (x := Z.max (t_ns (iv_start s0)) (t_ns (B_Start b))).
  assert (Hx : covers s0 x) by (unfold covers, x; lia).
  apply (store_slots_free _ _ _ _ _ _ _ b x Hf Hs0 Hx Hh).
  - split; [done|]. split; [done|]. exists l. split; [done|]. split; [congruence|].
    unfold hosts_link. apply orb_true_iff. right. apply existsb_elem.
    apply GetAcceptedHosts_elem in Hh as (Hin & E1 & E2). exists h. split; [done|].
    by rewrite E1, Hid, E2, !N.eqb_refl.
  - specialize (Hprop b Hb). unfold covers, booked_interval, x. simpl. lia.
Qed.

Lemma find_offered offered s start end_ :
  (forall x, x ∈ offered -> t_loc (iv_start x) = UTC /\ t_loc (iv_end x) = UTC) ->
  s ∈ offered -> t_ns start = t_ns (iv_start s) -> t_ns end_ = t_ns (iv_end s) ->
  List.find (fun x => Equal (iv_start x) start && Equal (iv_end x) end_) offered = Some s.
Proof.
  intros Hu Hs H1 H2. destruct (List.find _ offered) as [x|] eqn:E.
  - apply List.find_some in E as [Hin He]. apply list_elem_of_In in Hin.
    apply andb_true_iff in He as [E1%Equal_eq E2%Equal_eq].
    destruct (Hu x Hin) as [U1 U2], (Hu s Hs) as [U3 U4].
    destruct x as [[] []], s as [[] []]; simpl in *. subst. congruence.
  - exfalso. apply list_elem_of_In in Hs. apply (List.find_none _ _ E) in Hs.
    apply andb_false_iff in Hs. rewrite <- !not_true_iff_false, !Equal_eq in Hs. lia.
Qed.

(** What the listing offers passes every check before the insert. *)
Lemma offered_slotToBook env t link loc day d slots s start end_ :
  linkLocation (ownerZone env) (loadLocation env) (OwnerUserID link) = Ok loc ->
  overlapReadFails env = false ->
  (forall b, b ∈ t_bookings t -> t_ns (B_Start b) < t_ns (B_End b)) ->
  (exists l, l ∈ t_links t /\ ID l = ID link) ->
  is_calendar_day loc day ->
  offeredSlots t link loc day d (clock env) = Ok slots -> s ∈ slots ->
  t_ns start = t_ns (iv_start s) -> t_ns end_ = t_ns (iv_end s) ->
  t_ns start < t_ns end_ ->
  slotToBook env t link start end_ d = Ok s.
Proof.
  intros Hz Hf Hprop Hlink Hday Ho Hs H1 H2 Hlt.
  destruct (offered_not_refused _ _ _ _ _ _ _ _ Hday Ho Hs) as [Hc Hr].
  assert (E : calendarDay start loc = calendarDay (iv_start s) loc).
  { unfold calendarDay, In. by rewrite H1. }
  unfold slotToBook. cbv zeta. rewrite (proj2 (zoneOf_Ok env link _ loc) Hz). cbn [rbind].
  assert (Hr' : cheapRefusal link loc start end_ d (clock env) = None).
  { revert Hr. unfold cheapRefusal. rewrite E. unfold cheap_refusal_on, on_grid, Equal, Before.
    by rewrite H1, H2. }
  rewrite Hr', Hf, E, Hc, Ho.
  assert (Hov : HasOverlappingBooking t (ID link) start end_ = false).
  { rewrite H1, H2 in Hlt.
    pose proof (offered_no_overlap _ _ _ _ _ _ _ _ Hprop Hlink Hlt Ho Hs) as G.
    revert G. unfold HasOverlappingBooking, Before, After. by rewrite H1, H2. }
  rewrite Hov. rewrite (find_offered slots s start end_); [reflexivity| |assumption..].
  intros x Hx. apply (elem_of_offeredSlots _ _ _ _ _ _ _ _ Ho) in Hx
    as (_ & _ & _ & s0 & _ & _ & _ & ->). split; reflexivity.
Qed.
End Listing.

(** The request for a slot: its bounds as the listing writes them. *)
Definition asks_for (b : BookingBody) (s : AvailableSlot) : Prop :=
  TrimSpace (bb_Name b) <> "" /\ TrimSpace (bb_Email b) <> "" /\
  bb_Start b = FormatRFC3339 (iv_start s) /\ bb_End b = FormatRFC3339 (iv_end s) /\
  bb_Duration b = None /\ bb_DurationMinutes b = None.

(** The noon of every calendar day exists. *)
Definition noon_exists (loc : Location) : Prop :=
  forall str day, parseCalendarDay str loc = Some day -> is_calendar_day loc day.

Definition four_digit_year (t : time) : Prop := 0 <= c_year (DateOf t) < 10000.

Lemma queryDuration_allowed link raw d :
  raw <> "" -> queryDuration link raw = Ok d -> durationAllowed link d = true.
Proof.
  unfold queryDuration. intros Hr%String.eqb_neq. rewrite Hr.
  destruct (Atoi raw) as [d'|]; [|discriminate].
  destruct (durationAllowed link d') eqn:E; [|discriminate]. by intros [= <-].
Qed.

Lemma durationAllowed_bound link d :
  Forall (fun o => o <= max_dur_minutes) (DurationOptions link) ->
  durationAllowed link d = true -> 0 < d <= max_dur_minutes.
Proof.
  unfold durationAllowed. destruct (Z.leb_spec d 0); [done|]. intros Hf.
  destruct (DurationOptions link) as [|o os]; [intros ->%Z.eqb_eq; done|].
  rewrite existsb_elem. intros (x & Hx & ->%Z.eqb_eq). rewrite Forall_forall in Hf. auto.
Qed.

Lemma ParseRFC3339_utc local t :
  t_loc t = UTC -> four_digit_year t -> t_ns t mod Second = 0 ->
  exists t', ParseRFC3339 local (FormatRFC3339 t) = Some t' /\ t_ns t' = t_ns t.
Proof.
  intros Hu Hy Hs. apply ParseRFC3339_format; [by rewrite Hu|done|done|].
  unfold offset_of. by rewrite Hu.
Qed.

Lemma ParseRFC3339_nonempty local s t : ParseRFC3339 local s = Some t -> String.eqb s "" = false.
Proof. destruct s; [discriminate|reflexivity]. Qed.

(** A written interval of a whole number of minutes is read as itself. *)
Lemma requestedSlot_exact local link b s d :
  asks_for b s -> t_loc (iv_start s) = UTC -> t_loc (iv_end s) = UTC ->
  four_digit_year (iv_start s) -> four_digit_year (iv_end s) ->
  t_ns (iv_start s) mod Second = 0 -> 0 < d <= max_dur_minutes -> durationAllowed link d = true ->
  t_ns (iv_end s) = t_ns (iv_start s) + d * Minute ->
  exists start end_, requestedSlot local link b = Ok (start, end_, d) /\
    t_ns start = t_ns (iv_start s) /\ t_ns end_ = t_ns (iv_end s).
Proof.
  intros (_ & _ & Hbs & Hbe & Hb1 & Hb2) Hu1 Hu2 Hy1 Hy2 Hsec Hd Hallow Hlen.
  destruct (ParseRFC3339_utc local _ Hu1 Hy1 Hsec) as (st & Hst & Hstn).
  destruct (ParseRFC3339_utc local (iv_end s)) as (en & Hen & Henn); [done|done| |].
  { rewrite Hlen. unfold Minute. replace (d * (60 * Second)) with (d * 60 * Second) by ring.
    by rewrite Z.mod_add. }
  exists st, en. split; [|done]. unfold requestedSlot. cbv zeta.
  rewrite Hbs, Hst, Hbe, Hb1, Hb2, (ParseRFC3339_nonempty _ _ _ Hen), Hen. cbn [negb default].
  assert (El : Sub en st = d * Minute).
  { unfold Sub. rewrite Hstn, Henn, Hlen. replace (_ + _ - _) with (d * Minute) by ring.
    apply clamp64_small. unfold max_dur_minutes, min_int64, max_int64, Minute, Second in *. lia. }
  rewrite El, Z.rem_mul, Z.quot_mul by done. cbn [Z.eqb negb andb orb rbind].
  rewrite Hallow. cbn [early].
  assert (Ha : After en st = true).
  { apply After_lt. rewrite Hstn, Henn, Hlen. unfold Minute, Second. lia. }
  rewrite Ha. reflexivity.
Qed.

(** Offered slots are UTC, of the asked length, and start on a whole second. *)
Lemma offered_slot_shape {F : BookingFlow Tables} {FL : BookingFlowLaws Tables}
    t link loc day d now slots s :
  d <= max_dur_minutes -> offeredSlots t link loc day d now = Ok slots -> s ∈ slots ->
  t_loc (iv_start s) = UTC /\ t_loc (iv_end s) = UTC /\ t_ns (iv_start s) mod Second = 0 /\
  t_ns (iv_end s) = t_ns (iv_start s) + d * Minute /\ 0 < d.
Proof.
  intros Hd Ho Hs. apply (elem_of_offeredSlots _ _ _ _ _ _ _ _ Ho) in Hs
    as (_ & _ & es & s0 & Hf & Hs0 & _ & ->).
  pose proof (flow_slots_grid _ _ _ _ _ _ Hf Hs0) as Hg.
  pose proof (GridSlots_second _ _ _ _ Hg) as H2. destruct (GridSlots_length _ _ _ _ Hd Hg) as [H3 H4].
  split_and!; first [reflexivity|assumption].
Qed.

(** C4: The listing and the booking agree: a request that asks for a slot of a
    listed day, with a duration named in the query, is confirmed when the
    engine's insert succeeds, the tables and the clock being those of the
    listing.  The zone of the link has a noon every day, no option of the link
    overflows a duration, stored bookings end after they start, and the slot
    lies in the years 0 to 9999. *)
Theorem listed_slot_is_bookable {F : BookingFlow Tables} {FL : BookingFlowLaws Tables}
    {SL : BookingStoreLaws} env local t slug dateStr durationStr slots s b :
  getSlots env t slug dateStr durationStr = SlotsReply slots -> s ∈ slots ->
  durationStr <> "" -> asks_for b s -> overlapReadFails env = false ->
  (forall link loc, GetSchedulingLinkBySlug t slug = Some link ->
     linkLocation (ownerZone env) (loadLocation env) (OwnerUserID link) = Ok loc ->
     noon_exists loc) ->
  (forall l, l ∈ t_links t -> Forall (fun o => o <= max_dur_minutes) (DurationOptions l)) ->
  (forall b, b ∈ t_bookings t -> t_ns (B_Start b) < t_ns (B_End b)) ->
  four_digit_year (iv_start s) -> four_digit_year (iv_end s) ->
  exists link, GetSchedulingLinkBySlug t slug = Some link /\
    forall row t',
    flow_confirm t link (TrimSpace (bb_Name b)) (TrimSpace (bb_Email b)) (iv_start s) (iv_end s)
      (bb_Notes b) = (Ok row, t') ->
    createBooking env local t slug (Some b) = (Created (confirmation env t' link row), t').
Proof.
  intros Hl Hs Hraw Hb Hov Hnoon Hopts Hprop Hy1 Hy2.
  destruct (getSlots_listed _ _ _ _ _ _ Hl) as (link & d & loc & day & Hopen & Hq & Hz & Hp & Ho).
  destruct (openLink_Ok _ _ _ _ Hopen) as [Hlink _]. exists link. split; [exact Hlink|].
  pose proof (Hnoon link loc Hlink Hz) as Hnoon'.
  apply find_link_elem in Hlink as (l & Hin & _ & El).
  pose proof (queryDuration_allowed _ _ _ Hraw Hq) as Hallow.
  assert (Hd : 0 < d <= max_dur_minutes).
  { apply (durationAllowed_bound link); [|done]. rewrite El. exact (Hopts l Hin). }
  destruct (offered_slot_shape _ _ _ _ _ _ _ _ (proj2 Hd) Ho Hs) as (Hu1 & Hu2 & Hsec & Hlen & _).
  destruct (requestedSlot_exact local link b s d Hb Hu1 Hu2 Hy1 Hy2 Hsec Hd Hallow Hlen)
    as (start & end_ & Hr & H1 & H2).
  assert (Hslot : slotToBook env t link start end_ d = Ok s).
  { apply (offered_slotToBook env t link loc day d slots s); try assumption.
    - exists l. by rewrite El.
    - by apply (Hnoon' dateStr).
    - rewrite H1, H2, Hlen. unfold Minute, Second. lia. }
  intros row t' Hconf. unfold createBooking, bookingDecision. rewrite Hopen. cbn [rbind].
  destruct Hb as (Hn & He & Hbs & _).
  apply String.eqb_neq in Hn, He.
  assert (Hne : String.eqb (bb_Start b) "" = false).
  { rewrite Hbs. destruct (ParseRFC3339_utc local _ Hu1 Hy1 Hsec) as (st & Hst & _).
    by apply (ParseRFC3339_nonempty local _ st). }
  rewrite Hn, He, Hne. cbn [orb]. rewrite Hr. cbn [rbind]. rewrite Hslot. cbn [rbind].
  unfold insertBooking. cbn [bb_Name bb_Email bb_Notes]. by rewrite Hconf.
Qed.

(** In UTC every day has a noon. *)
Lemma noon_exists_UTC : noon_exists UTC.
Proof.
  intros str day. unfold parseCalendarDay. destruct (ParseDateOnly str) as [d|]; [|discriminate].
  intros [= <-]. assert (E : t_loc (noon (DateOf d) UTC) = UTC) by reflexivity.
  split; [exact E|]. f_equal.
  pose proof (DateOf_range d) as Hv. revert Hv. clear E. generalize (DateOf d). intros c Hv.
  unfold noon, Date. rewrite resolve_UTC. change (0 / Second) with 0. change (0 mod Second) with 0.
  rewrite naive_sec_valid by (unfold civil_valid in Hv; zbool; lia).
  unfold DateOf, local_sec, offset_of, unix_sec. cbn [t_ns t_loc].
  rewrite !Z.add_0_r, Z.div_mul by discriminate.
  rewrite Z.add_comm, Z.div_add by discriminate. change (12 * 3600 / day_secs) with 0.
  rewrite Z.add_0_l. symmetry. destruct c. by apply civil_of_days_of_civil.
Qed.

(** ** Storage after a request *)

(** A request writes one booking row or nothing, and says so: every answer but
    the 201 leaves the tables as they were; the 201 names the row it appended,
    confirmed, for the trimmed name and e-mail of the request, on the link of
    the slug, over exactly the requested interval. *)
Theorem createBooking_writes {F : BookingFlow Tables} {SL : BookingStoreLaws}
    env local t slug body r t' :
  createBooking env local t slug body = (r, t') ->
  match r with
  | Created dto =>
      exists link b start end_ d row,
        GetSchedulingLinkBySlug t slug = Some link /\ body = Some b /\
        requestedSlot local link b = Ok (start, end_, d) /\
        t' = set_bookings (fun bs => bs ++ [row]) t /\ dto = confirmation env t' link row /\
        B_LinkID row = ID link /\ live row = true /\
        BookerName row = TrimSpace (bb_Name b) /\ BookerEmail row = TrimSpace (bb_Email b) /\
        t_ns (B_Start row) = t_ns start /\ t_ns (B_End row) = t_ns end_
  | _ => t' = t
  end.
Proof.
  intros H. destruct (createBooking_cases _ _ _ _ _ _ _ H)
    as [[-> Hr]|(link & b & slot & id & row & Hd & Hrow & ->)]; [by destruct r|].
  destruct (bookingDecision_Ok _ _ _ _ _ _ _ _ Hd)
    as (b0 & start & end_ & d & -> & Hopen & Hreq & Hslot & Hn & He & _).
  destruct (openLink_Ok _ _ _ _ Hopen) as [Hlink _].
  destruct (slotToBook_Ok _ _ _ _ _ _ _ Hslot) as (loc & off & _ & _ & _ & _ & _ & Hs & Hend).
  injection Hrow as -> ->.
  exists link, b0, start, end_, d. eexists. split_and!; first [eassumption|reflexivity].
Qed.

(** A confirmed booking shares no time with any live booking, on whatever link,
    of any accepted host of the link: hosts are not double-booked across their
    links either. *)
Theorem created_hosts_free {F : BookingFlow Tables} {SL : BookingStoreLaws}
    env local t slug body dto t' h b row x :
  createBooking env local t slug body = (Created dto, t') ->
  t_bookings t' = t_bookings t ++ [row] ->
  h ∈ GetAcceptedHosts t (B_LinkID row) -> books_user t (LH_UserID h) b ->
  covers (booked_interval row) x -> ~ covers (booked_interval b) x.
Proof.
  intros H Ht' Hh Hb Hx.
  destruct (createBooking_cases _ _ _ _ _ _ _ H)
    as [[_ []]|(link & bb & slot & id & row' & Hd & Hrow & _)].
  injection Hrow as Er ->. simpl in Ht'. apply app_inv_head in Ht'. injection Ht' as <-.
  destruct (bookingDecision_Ok _ _ _ _ _ _ _ _ Hd) as (b0 & st & en & d & _ & _ & _ & Hslot & _).
  destruct (slotToBook_Ok _ _ _ _ _ _ _ Hslot) as (loc & off & _ & _ & _ & Ho & Hin & _).
  apply (elem_of_offeredSlots _ _ _ _ _ _ _ _ Ho) in Hin as (_ & _ & es & s0 & Hf & Hs0 & _ & Es).
  apply (store_slots_free _ _ _ _ _ _ h b x Hf Hs0); [|exact Hh|exact Hb].
  revert Hx. rewrite Es. unfold covers, booked_interval, toUTC, In. done.
Qed.

(** ** Requests served at the same time *)

(** A request in flight: read and decided, then inserted; each is one step on
    the tables, and other requests may run in between. *)
Inductive Phase :=
| Arrived (slug : string) (body : option BookingBody)
| Decided (d : SchedulingLink * BookingBody * AvailableSlot)
| Answered (r : Reply).

Section Concurrent.
Context {F : BookingFlow Tables} (env : RequestEnv) (local : Location).

Inductive cstep : Tables * list Phase -> Tables * list Phase -> Prop :=
| c_decide t ps i slug body
    (Hi : ps !! i = Some (Arrived slug body)) :
    cstep (t, ps) (t, <[i := match bookingDecision env local t slug body with
                             | Ok d => Decided d
                             | Err r => Answered r
                             end]> ps)
| c_insert t ps i d r t'
    (Hi : ps !! i = Some (Decided d)) (Hins : insertBooking env t d = (r, t')) :
    cstep (t, ps) (t', <[i := Answered r]> ps).

Definition confirmed_phase (p : Phase) : bool :=
  match p with Answered (Created _) => true | _ => false end.

Definition confirmed_count (ps : list Phase) : nat := length (keep confirmed_phase ps).

Lemma confirmed_count_insert ps i p q :
  ps !! i = Some p ->
  (confirmed_count (<[i := q]> ps) + Nat.b2n (confirmed_phase p) =
   confirmed_count ps + Nat.b2n (confirmed_phase q))%nat.
Proof.
  unfold confirmed_count. revert i. induction ps as [|p0 ps IH]; intros [|i] H; simpl in *;
    [done|done| |].
  - injection H as ->. destruct (confirmed_phase p), (confirmed_phase q); simpl; lia.
  - specialize (IH i H). destruct (confirmed_phase p0); simpl; lia.
Qed.

Lemma decision_unconfirmed t slug body :
  confirmed_phase (match bookingDecision env local t slug body with
                   | Ok d => Decided d | Err r => Answered r end) = false.
Proof.
  pose proof (bookingDecision_refuses env local t slug body) as R.
  destruct (bookingDecision env local t slug body) as [d|r]; [done|]. by destruct r.
Qed.

Lemma insert_counts {SL : BookingStoreLaws} t d r t' :
  insertBooking env t d = (r, t') ->
  length (t_bookings t') = (length (t_bookings t) + Nat.b2n (confirmed_phase (Answered r)))%nat.
Proof.
  destruct d as [[link b] slot]. unfold insertBooking.
  destruct (flow_confirm _ _ _ _ _ _ _) as [[row|e] t1] eqn:Ef.
  - intros [= <- <-]. apply store_confirm_ok in Ef as [id [= -> ->]]. simpl.
    rewrite length_app. reflexivity.
  - apply store_confirm_err in Ef as ->. intros H.
    destruct e; injection H as <- <-; simpl; lia.
Qed.

(** However requests interleave, storage holds one new booking for each
    request that was told it is confirmed, and no other. *)
Theorem interleaved_one_row_each {SL : BookingStoreLaws} c c' :
  rtc cstep c c' ->
  (length (t_bookings c'.1) + confirmed_count c.2 =
   length (t_bookings c.1) + confirmed_count c'.2)%nat.
Proof.
  induction 1 as [|c c1 c' Hstep _ IH]; [done|].
  destruct Hstep as [t ps i slug body Hi|t ps i d r t' Hi Hins]; simpl in *.
  - pose proof (confirmed_count_insert _ _ _ (match bookingDecision env local t slug body with
      | Ok d => Decided d | Err r => Answered r end) Hi) as Hc.
    rewrite decision_unconfirmed in Hc. simpl in Hc. lia.
  - pose proof (confirmed_count_insert _ _ _ (Answered r) Hi) as Hc.
    pose proof (insert_counts _ _ _ _ Hins) as Hl. simpl in Hc, Hl. lia.
Qed.

(** Both requests decide before either inserts. *)
Lemma both_decide_first t slug body d r1 t1 r2 t2 :
  bookingDecision env local t slug body = Ok d ->
  insertBooking env t d = (r1, t1) -> insertBooking env t1 d = (r2, t2) ->
  rtc cstep (t, [Arrived slug body; Arrived slug body]) (t2, [Answered r1; Answered r2]).
Proof.
  intros Hd H1 H2.
  pose proof (c_decide t [Arrived slug body; Arrived slug body] 0 slug body eq_refl) as S1.
  rewrite Hd in S1.
  pose proof (c_decide t [Decided d; Arrived slug body] 1 slug body eq_refl) as S2.
  rewrite Hd in S2.
  pose proof (c_insert t [Decided d; Decided d] 0 d r1 t1 eq_refl H1) as S3.
  pose proof (c_insert t1 [Answered r1; Decided d] 1 d r2 t2 eq_refl H2) as S4.
  simpl in S1, S2, S3, S4. by repeat (eapply rtc_l; [eassumption|]).
Qed.
End Concurrent.

(** ** A concrete link *)

Module Demo.
Definition link : SchedulingLink := {|
  ID := 7%N; OwnerUserID := 1%N; Slug := "ada-30min"; Title := "Chat";
  DurationOptions := [30; 60]; DaysOfWeek := [1; 2; 3; 4; 5]; WindowStart := "09:00";
  WindowEnd := "11:00"; BufferBefore := 0; BufferAfter := 0; MinNoticeMinutes := 60;
  UsageType := "single_use"; MaxUses := None; UsesCount := 0; Active := true;
  BookingHorizonDays := 10; RefusalMessage := RefusalSpecific |}.

Definition tables : Tables := {|
  t_links := [link];
  t_hosts := [{| LH_LinkID := 7%N; LH_UserID := 1%N; LH_Status := "accepted" |}];
  t_bookings := []; t_events := []; t_focus := [] |}.

Definition calendars : Calendars := {|
  loadToken := fun _ => TokenFound; clientOk := fun _ => true;
  providerEvents := fun _ _ _ => Ok []; providerCreate := fun _ _ => Ok "ev1" |}.

#[local] Instance flow : BookingFlow Tables :=
  engine_flow UTC calendars (fun _ => true)
    {| conn_refused := None; commit_ok := true; insert_fails := false |} 100%N.

(** Monday 6 January 2025, 08:00 UTC. *)
Definition now : time := Date 2025 1 6 8 0 0 0 UTC.

Definition env : RequestEnv := {|
  getUser := fun _ => Some {| U_Email := "ada@x.org"; U_Name := "Ada"; U_AvatarURL := "" |};
  hasToken := fun _ => true; linkReadFails := false; overlapReadFails := false;
  ownerZone := fun _ => Ok None; loadLocation := fun _ => None; clock := now;
  ended := fun _ => false |}.

Definition slot : AvailableSlot := Iv (Date 2025 1 6 9 30 0 0 UTC) (Date 2025 1 6 10 0 0 0 UTC).

Definition body : BookingBody := {|
  bb_Name := " Bob "; bb_Email := "bob@y.org"; bb_Start := FormatRFC3339 (iv_start slot);
  bb_End := FormatRFC3339 (iv_end slot); bb_Notes := ""; bb_Duration := None;
  bb_DurationMinutes := None |}.

Definition row : Booking := {|
  B_ID := 100%N; B_LinkID := 7%N; BookerName := "Bob"; BookerEmail := "bob@y.org";
  B_Start := iv_start slot; B_End := iv_end slot; B_Status := "confirmed"; Notes := "" |}.

Definition booked : Tables := set_bookings (fun _ => [row]) tables.
End Demo.

#[local] Existing Instance Demo.flow.

Example demo_created :
  createBooking Demo.env UTC Demo.tables "ada-30min" (Some Demo.body) =
  (Created (confirmation Demo.env Demo.booked (with_uses Demo.tables Demo.link) Demo.row), Demo.booked).
Proof. vm_compute. reflexivity. Qed.

Lemma demo_served : served Demo.tables Demo.booked.
Proof.
  apply (Served _ _ Demo.flow (engine_flow_store _ _ _ _ _) Demo.env UTC "ada-30min"
    (Some Demo.body) _ demo_created).
Defined.

Lemma serial_no_double_booking_witness :
  no_double_booking Demo.tables /\ no_double_booking Demo.booked.
Proof.
  assert (H : no_double_booking Demo.tables) by constructor. split; [exact H|].
  apply (serial_no_double_booking Demo.tables Demo.booked); [|exact H].
  apply rtc_once, demo_served.
Defined.

Lemma serial_within_capacity_witness :
  within_capacity Demo.booked /\ uses_of Demo.booked 7%N = 1.
Proof.
  split; [|reflexivity].
  apply (serial_within_capacity Demo.tables Demo.booked).
  - apply rtc_once, demo_served.
  - simpl. apply NoDup_singleton.
  - intros l m [->|[]%not_elem_of_nil]%elem_of_cons [= <-]. discriminate.
Defined.

Lemma listed_slot_is_bookable_witness :
  exists slots, getSlots Demo.env Demo.tables "ada-30min" "2025-01-06" "30" = SlotsReply slots /\
    Demo.slot ∈ slots /\
    exists link, GetSchedulingLinkBySlug Demo.tables "ada-30min" = Some link /\
    forall row t',
    flow_confirm Demo.tables link (TrimSpace (bb_Name Demo.body)) (TrimSpace (bb_Email Demo.body))
      (iv_start Demo.slot) (iv_end Demo.slot) (bb_Notes Demo.body) = (Ok row, t') ->
    createBooking Demo.env UTC Demo.tables "ada-30min" (Some Demo.body) =
      (Created (confirmation Demo.env t' link row), t').
Proof.
  pose (slots := match getSlots Demo.env Demo.tables "ada-30min" "2025-01-06" "30" with
                 | SlotsReply l => l | _ => [] end).
  assert (Hg : getSlots Demo.env Demo.tables "ada-30min" "2025-01-06" "30" = SlotsReply slots)
    by (vm_compute; reflexivity).
  assert (Hs : Demo.slot ∈ slots) by (apply list_elem_of_In; vm_compute; tauto).
  exists slots. split; [exact Hg|]. split; [exact Hs|].
  apply (listed_slot_is_bookable (FL := engine_flow_rule _ _ _ _ _)
    (SL := engine_flow_store _ _ _ _ _) Demo.env UTC Demo.tables "ada-30min" "2025-01-06" "30" slots
    Demo.slot Demo.body Hg Hs).
  - discriminate.
  - vm_compute. repeat split; discriminate.
  - reflexivity.
  - intros link loc _ [= <-]. exact noon_exists_UTC.
  - intros l [->|[]%not_elem_of_nil]%elem_of_cons. repeat constructor; discriminate.
  - intros b []%not_elem_of_nil.
  - vm_compute. split; congruence.
  - vm_compute. split; congruence.
Defined.

Lemma createBooking_writes_witness :
  exists dto, createBooking Demo.env UTC Demo.tables "ada-30min" (Some Demo.body) =
    (Created dto, Demo.booked) /\
    exists link b start end_ d row,
      GetSchedulingLinkBySlug Demo.tables "ada-30min" = Some link /\ Some Demo.body = Some b /\
      requestedSlot UTC link b = Ok (start, end_, d) /\
      Demo.booked = set_bookings (fun bs => bs ++ [row]) Demo.tables /\
      dto = confirmation Demo.env Demo.booked link row /\
      B_LinkID row = ID link /\ live row = true /\
      BookerName row = TrimSpace (bb_Name b) /\ BookerEmail row = TrimSpace (bb_Email b) /\
      t_ns (B_Start row) = t_ns start /\ t_ns (B_End row) = t_ns end_.
Proof.
  eexists. split; [exact demo_created|].
  exact (createBooking_writes (SL := engine_flow_store _ _ _ _ _)
    Demo.env UTC Demo.tables "ada-30min" (Some Demo.body) _ _ demo_created).
Defined.

(** The same host on a second link, already booked at noon. *)
Module Busy.
Definition other : SchedulingLink := with_uses Demo.tables Demo.link.
Definition noon_booking : Booking := {|
  B_ID := 50%N; B_LinkID := 8%N; BookerName := "Cy"; BookerEmail := "cy@z.org";
  B_Start := Date 2025 1 6 12 0 0 0 UTC; B_End := Date 2025 1 6 12 30 0 0 UTC;
  B_Status := "confirmed"; Notes := "" |}.
Definition second : SchedulingLink := {|
  ID := 8%N; OwnerUserID := 1%N; Slug := "ada-2"; Title := "Second";
  DurationOptions := [30]; DaysOfWeek := [1]; WindowStart := "09:00"; WindowEnd := "13:00";
  BufferBefore := 0; BufferAfter := 0; MinNoticeMinutes := 0; UsageType := "reusable";
  MaxUses := None; UsesCount := 0; Active := true; BookingHorizonDays := 10;
  RefusalMessage := RefusalGeneric |}.
Definition tables : Tables :=
  {| t_links := [Demo.link; second]; t_hosts := t_hosts Demo.tables;
     t_bookings := [noon_booking]; t_events := []; t_focus := [] |}.
Definition booked : Tables := set_bookings (fun l => l ++ [Demo.row]) tables.
End Busy.

Lemma created_hosts_free_witness :
  exists dto, createBooking Demo.env UTC Busy.tables "ada-30min" (Some Demo.body) =
    (Created dto, Busy.booked) /\
  forall x, covers (booked_interval Demo.row) x -> ~ covers (booked_interval Busy.noon_booking) x.
Proof.
  assert (H : exists dto, createBooking Demo.env UTC Busy.tables "ada-30min" (Some Demo.body) =
    (Created dto, Busy.booked)) by (vm_compute; eexists; reflexivity).
  destruct H as [dto H]. exists dto. split; [exact H|]. intros x.
  apply (created_hosts_free (SL := engine_flow_store _ _ _ _ _)
    Demo.env UTC Busy.tables "ada-30min" (Some Demo.body) dto Busy.booked
    {| LH_LinkID := 7%N; LH_UserID := 1%N; LH_Status := "accepted" |} Busy.noon_booking Demo.row x H).
  - reflexivity.
  - apply list_elem_of_In. vm_compute. tauto.
  - split; [left|]. split; [reflexivity|]. exists Busy.second.
    split; [right; left|]. split; reflexivity.
Defined.

(** Two requests for the same slot of the demo link. *)
Definition two_requests : list Phase :=
  [Arrived "ada-30min" (Some Demo.body); Arrived "ada-30min" (Some Demo.body)].

Definition demo_decision : SchedulingLink * BookingBody * AvailableSlot :=
  match bookingDecision Demo.env UTC Demo.tables "ada-30min" (Some Demo.body) with
  | Ok d => d
  | Err _ => (Demo.link, Demo.body, Demo.slot)
  end.

Definition double_booked : Tables := set_bookings (fun _ => [Demo.row; Demo.row]) Demo.tables.

Lemma demo_interleaving :
  exists r1 r2, rtc (cstep Demo.env UTC) (Demo.tables, two_requests)
    (double_booked, [Answered r1; Answered r2]) /\
  confirmed_phase (Answered r1) = true /\ confirmed_phase (Answered r2) = true.
Proof.
  assert (Hd : bookingDecision Demo.env UTC Demo.tables "ada-30min" (Some Demo.body) =
    Ok demo_decision) by (vm_compute; reflexivity).
  assert (H1 : exists r1, insertBooking Demo.env Demo.tables demo_decision = (r1, Demo.booked) /\
    confirmed_phase (Answered r1) = true) by (vm_compute; eauto).
  assert (H2 : exists r2, insertBooking Demo.env Demo.booked demo_decision = (r2, double_booked) /\
    confirmed_phase (Answered r2) = true) by (vm_compute; eauto).
  destruct H1 as (r1 & H1 & C1), H2 as (r2 & H2 & C2). exists r1, r2. split; [|split; assumption].
  exact (both_decide_first Demo.env UTC _ _ _ _ _ _ _ _ Hd H1 H2).
Defined.

Lemma interleaved_one_row_each_witness :
  exists ps, confirmed_count ps = 2%nat /\
    (length (t_bookings double_booked) + confirmed_count two_requests =
     length (t_bookings Demo.tables) + confirmed_count ps)%nat.
Proof.
  destruct demo_interleaving as (r1 & r2 & Hr & C1 & C2).
  exists [Answered r1; Answered r2]. split.
  - unfold confirmed_count. cbn [keep List.filter]. unfold keep, List.filter.
    rewrite C1, C2. reflexivity.
  - exact (interleaved_one_row_each Demo.env UTC (SL := engine_flow_store _ _ _ _ _) _ _ Hr).
Defined.

(** The known limit of the booking: two requests that both decide before either
    inserts can take the same slot.  The serial guarantee does not extend to
    interleaved requests. *)
Theorem interleaved_double_booking :
  exists ps, rtc (cstep Demo.env UTC) (Demo.tables, two_requests) (double_booked, ps) /\
    no_double_booking Demo.tables /\ ~ no_double_booking double_booked.
Proof.
  destruct demo_interleaving as (r1 & r2 & Hr & _). eexists. split; [exact Hr|].
  split; [constructor|]. unfold no_double_booking. simpl. intros H.
  inversion H as [|? ? Hc _]; subst. inversion Hc as [|? ? Hcc _]; subst.
  apply Hcc; [reflexivity|reflexivity|reflexivity|]. vm_compute. done.
Qed.
