(* ===== verification/TeamHandlers.v ===== *)
(** * Managing teams

    [api/handlers_teams.go]: the handlers teams are created, read and changed
    with, the invitations and their e-mail, the no-meeting zones, and the
    availability and analytics of a team, over the tables of [Teams].  Times of
    creation and joining are not kept by the tables and left out of the
    answers. *)

From S2P Require Import Prelude GoInt GoTime GoText GoURL Interval LinkStore Calendar PerItem BookingEngine Cursor Teams TeamAvailability BookingHandlers.

#[local] Open Scope string_scope.
#[local] Open Scope list_scope.
#[local] Open Scope Z_scope.

(** ** Addresses

    [net/mail.ParseAddress] as far as an address that must come back as it was
    given needs it: a dot-atom, an at-sign, and a dot-atom or the literal of an
    IP address, which [parse_ip] tells. *)

Definition is_vchar (c : ascii) : bool := ((33 <=? byte_of c) && (byte_of c <=? 126)) || (128 <=? byte_of c).
Definition char_of (cs : string) (c : ascii) : bool :=
  negb (sforallb (fun d => negb (Ascii.eqb d c)) cs).

(** The specials, the double quote among them. *)
Definition is_atext (c : ascii) : bool := is_vchar c && negb (char_of "()<>[]:;@\," c) && negb (byte_of c =? 34).
Definition is_dtext (c : ascii) : bool := is_vchar c && negb (char_of "[]\" c).

Fixpoint span (p : ascii -> bool) (s : string) : string * string :=
  match s with
  | String c r => if p c then let '(a, b) := span p r in (String c a, b) else ("", s)
  | EmptyString => ("", "")
  end.

(** No dot at either end and no two in a row. *)
Fixpoint dots_ok (after_dot : bool) (s : string) : bool :=
  match s with
  | EmptyString => negb after_dot
  | String c r => if Ascii.eqb c "." then negb after_dot && dots_ok true r else dots_ok false r
  end.

Definition consumeAtom (s : string) : option (string * string) :=
  let '(a, r) := span is_atext s in if dots_ok true a then Some (a, r) else None.

(** Whether the parser accepts [s] with [s] itself as its address. *)
Definition plain_address (parse_ip : string -> bool) (s : string) : bool :=
  match consumeAtom s with
  | Some (_, String at_ d) =>
      Ascii.eqb at_ "@" &&
      match d with
      | String "[" r => let '(lit, rest) := span is_dtext r in String.eqb rest "]" && parse_ip lit
      | _ => match consumeAtom d with Some (_, rest) => String.eqb rest "" | None => false end
      end
  | _ => false
  end.

(** [normalizeManagerEmail] of [api/handlers_manager.go]. *)
Definition normalizeManagerEmail (parse_ip : string -> bool) (raw : string) : res string string :=
  let email := ToLower (TrimSpace raw) in
  if String.eqb email "" then Err "email is required"
  else if plain_address parse_ip email then Ok email
  else Err "email must be a valid email address".

(** ** No-meeting zones *)

Record ZoneBody := { zb_DayOfWeek : Z; zb_StartTime : string; zb_EndTime : string; zb_Label : string }.

(** [validateNoMeetingZone]: the message of a 422. *)
Definition validateNoMeetingZone (dayOfWeek : Z) (startTime endTime : string) : option string :=
  if (dayOfWeek <? 1) || (7 <? dayOfWeek) then Some "dayOfWeek must be between 1 and 7"
  else if String.eqb (TrimSpace startTime) "" || String.eqb (TrimSpace endTime) ""
  then Some "startTime and endTime are required"
  else match ParseHHMM (TrimSpace startTime) with
  | None => Some "startTime must be HH:MM"
  | Some start =>
  match ParseHHMM (TrimSpace endTime) with
  | None => Some "endTime must be HH:MM"
  | Some end_ => if negb (start <? end_) then Some "startTime must be before endTime" else None
  end end.

Definition storageWeekday (apiDay : Z) : Z := if apiDay =? 7 then 0 else apiDay.
Definition apiWeekday (storageDay : Z) : Z := if storageDay =? 0 then 7 else storageDay.

Definition shown_zone (z : NoMeetingZone) : NoMeetingZone :=
  {| Z_ID := Z_ID z; Z_Team := Z_Team z; DayOfWeek := apiWeekday (DayOfWeek z); StartTime := StartTime z;
     EndTime := EndTime z; Label := Label z |}.

(** ** The invitation's e-mail *)

(** The environment of the mailer, and its sender. *)
Record MailEnv := { SMTP_HOST : string; SMTP_PORT : string; SMTP_FROM : string; BASE_URL : string }.

Record Mail := { m_Addr : string; m_From : string; m_To : string; m_Msg : string }.

Definition CRLF : string := String "013" (String "010" "").
Definition LF : string := String "010" "".
Definition quoted (s : string) : string := String "034" (s +:+ String "034" "").

Definition sendTeamInviteEmail (e : MailEnv) (to inviterName teamName token : string) : option Mail :=
  if String.eqb (SMTP_HOST e) "" || String.eqb (SMTP_FROM e) "" then None
  else
    let port := if String.eqb (SMTP_PORT e) "" then "587" else SMTP_PORT e in
    let base := if String.eqb (BASE_URL e) "" then "https://paceday.app" else BASE_URL e in
    let subject := inviterName +:+ " invited you to join the " +:+ quoted teamName +:+ " team on Paceday" in
    let body := "Hi," +:+ LF +:+ LF +:+ inviterName +:+ " has invited you to join the " +:+ quoted teamName
      +:+ " team on Paceday." +:+ LF +:+ LF +:+ "Accept your invite:" +:+ LF +:+ base +:+ "/invites/" +:+ token
      +:+ LF +:+ LF +:+ "This link expires in 7 days." +:+ LF +:+ LF +:+ "The Paceday team" in
    Some {| m_Addr := SMTP_HOST e +:+ ":" +:+ port; m_From := SMTP_FROM e; m_To := to;
            m_Msg := "From: " +:+ SMTP_FROM e +:+ CRLF +:+ "To: " +:+ to +:+ CRLF +:+ "Subject: " +:+ subject
                     +:+ CRLF +:+ CRLF +:+ body |}.

(** ** Answers *)

Record teamInvitePreview := {
  tp_TeamName : string; tp_InviterName : string; tp_Email : string; tp_TeamID : uuid; tp_ExpiresAt : time;
  tp_InviterEmail : option string }.

Inductive TeamAnswer :=
| TeamError (code : Z) (msg : string)
| TeamExpired                                            (** the 503 of the budget *)
| TeamShown (created : bool) (team : Team)
| TeamsListed (l : list Team)
| TeamDetail (team : Team) (members : list TeamMember)
| TeamInvited (i : TeamInvite) (mail : option Mail)      (** with the e-mail that follows the answer *)
| InvitePreviewed (p : teamInvitePreview)
| ZoneShown (created : bool) (z : NoMeetingZone)
| ZonesListed (l : list NoMeetingZone)
| SlotsListed (l : list TeamSlot)
| AnalyticsShown (a : TeamAnalytics)
| TeamNoContent.

(** ** What a request meets *)

Inductive TeamCall :=
| TCMember | TCTeam | TCTeams | TCMembers | TCUser (u : uuid) | TCCreate | TCOwner | TCRename | TCReread | TCDelete
| TCInvite | TCExpire | TCToken | TCJoin | TCAccept | TCRemove | TCZones | TCZoneAdd | TCZoneUpdate | TCZoneDelete.

(** Which calls fail, the users, the clock, the generated key and token, the
    mailer; [te_time] is how a TIME column gives a written time back and
    [te_minutes] the order of such columns. *)
Record TeamEnv := {
  te_fails : TeamCall -> bool;
  te_users : uuid -> option User;
  te_now : time;
  te_id : uuid;
  te_token : string;
  te_time : string -> string;
  te_minutes : string -> Z;
  te_ip : string -> bool;
  te_mail : MailEnv }.

(** [api.TeamAvailability], the engine as the handlers see it. *)
Class TeamEngine := {
  eng_FindSlots : TeamTables -> uuid -> time -> Z -> result (list TeamSlot);
  eng_GetTeamAnalytics : TeamTables -> uuid -> time -> result TeamAnalytics }.

(** What the handlers rely on: no slot meets a zone of its day. *)
Class TeamEngineLaws {E : TeamEngine} (zones : TeamTables -> uuid -> list NoMeetingZone) : Prop := {
  eng_slots_avoid_zones t team day n slots s x z :
    0 <= n <= max_dur_minutes -> eng_FindSlots t team day n = Ok slots -> s ∈ slots ->
    covers (slot_interval s) x -> z ∈ zones t team -> ~ covered (zone_busy day z) x }.

(** [engine.TeamAvailabilityEngine]. *)
#[global] Instance engine_availability (local : Location) (cal : Calendars) (focus : uuid -> time -> list FocusBlockRow)
    (ok : nat -> bool) (week : uuid -> time -> option AnalyticsRow) (minutes : string -> Z) : TeamEngine := {
  eng_FindSlots t team day n :=
    FindSlots local cal focus ok (Ok (ListTeamMembers t team)) (Ok (ListNoMeetingZones minutes t team)) day n;
  eng_GetTeamAnalytics t team weekStart := GetTeamAnalytics (fun u => week u weekStart) (Ok (ListTeamMembers t team)) }.

(** ** Handlers *)

Section Handlers.
Context (env : TeamEnv) {eng : TeamEngine}.

Definition readMember (t : TeamTables) (team user : uuid) : option TeamMember :=
  if te_fails env TCMember then None else GetTeamMember t team user.
Definition requireMember (t : TeamTables) (team user : uuid) : bool :=
  match readMember t team user with Some _ => true | None => false end.
Definition requireOwner (t : TeamTables) (team user : uuid) : bool :=
  match readMember t team user with Some m => String.eqb (Role m) "owner" | None => false end.

Definition readUser (u : uuid) : option User := if te_fails env (TCUser u) then None else te_users env u.
Definition readTeam (t : TeamTables) (id : uuid) : option Team := if te_fails env TCTeam then None else GetTeam t id.

Definition unauthorized : TeamAnswer := TeamError 401 "unauthorized".
Definition bad_team : TeamAnswer := TeamError 400 "invalid team id".
Definition forbidden : TeamAnswer := TeamError 403 "forbidden".
Definition failed (what : string) : TeamAnswer := TeamError 500 what.

(** A name of a body; [None] is a body that does not decode. *)
Definition named (body : option string) : option string :=
  match body with
  | Some name => if String.eqb (TrimSpace name) "" then None else Some (TrimSpace name)
  | None => None
  end.

(** [createTeam]. *)
Definition createTeam (user : uuid) (body : option string) (t : TeamTables) : TeamAnswer * TeamTables :=
  if N.eqb user uuid_nil then (unauthorized, t)
  else match named body with
  | None => (TeamError 400 "name is required", t)
  | Some name =>
      if te_fails env TCCreate then (failed "createTeam", t)
      else
        let '(team, t1) := CreateTeam (te_id env) name user t in
        (TeamShown true team, if te_fails env TCOwner then t1 else AddTeamMember (T_ID team) user "owner" t1)
  end.

Definition listTeams (user : uuid) (t : TeamTables) : TeamAnswer :=
  if N.eqb user uuid_nil then unauthorized
  else if te_fails env TCTeams then failed "listTeams" else TeamsListed (ListTeamsForUser t user).

(** [getTeam]; the members are empty when they cannot be read. *)
Definition getTeam (user : uuid) (id : option uuid) (t : TeamTables) : TeamAnswer :=
  match id with
  | None => bad_team
  | Some id =>
      if negb (requireMember t id user) then forbidden
      else if te_fails env TCTeam then failed "getTeam"
      else match GetTeam t id with
      | None => TeamError 404 "not found"
      | Some team => TeamDetail team (if te_fails env TCMembers then [] else ListTeamMembers t id)
      end
  end.

(** The first checks of a request only an owner may make. *)
Definition owned (user : uuid) (id : option uuid) (t : TeamTables) (k : uuid -> TeamAnswer * TeamTables)
  : TeamAnswer * TeamTables :=
  match id with
  | None => (bad_team, t)
  | Some id => if requireOwner t id user then k id else (forbidden, t)
  end.

Definition patchTeam (user : uuid) (id : option uuid) (body : option string) (t : TeamTables)
  : TeamAnswer * TeamTables :=
  owned user id t (fun id =>
    match named body with
    | None => (TeamError 400 "name is required", t)
    | Some name =>
        if te_fails env TCRename then (failed "patchTeam", t)
        else
          let t' := RenameTeam id name t in
          (match (if te_fails env TCReread then None else GetTeam t' id) with
           | Some team => TeamShown false team
           | None => failed "patchTeam"
           end, t')
    end).

Definition deleteTeam (user : uuid) (id : option uuid) (t : TeamTables) : TeamAnswer * TeamTables :=
  owned user id t (fun id =>
    if te_fails env TCDelete then (failed "deleteTeam", t) else (TeamNoContent, DeleteTeam id t)).

(** [inviteMember]. *)
Definition inviteMember (user : uuid) (id : option uuid) (body : option string) (t : TeamTables)
  : TeamAnswer * TeamTables :=
  owned user id t (fun id =>
    match named body with
    | None => (TeamError 400 "email is required", t)
    | Some raw =>
        match normalizeManagerEmail (te_ip env) raw with
        | Err msg => (TeamError 422 msg, t)
        | Ok email =>
            if te_fails env TCInvite then (failed "inviteMember", t)
            else
              let '(invite, t') := CreateTeamInvite (te_id env) id email user (te_token env) (te_now env) t in
              let inviterName := match readUser user with
                                 | Some u => if String.eqb (U_Name u) "" then "Someone" else U_Name u
                                 | None => "Someone"
                                 end in
              let teamName := match readTeam t' id with Some team => T_Name team | None => "a Paceday team" end in
              (TeamInvited invite (sendTeamInviteEmail (te_mail env) (InviteeEmail invite) inviterName teamName
                                     (Token invite)), t')
        end
    end).

(** The invitation of a token, after the old ones were expired: the tables, and
    the invitation while it is open. *)
Definition expired (t : TeamTables) : TeamTables :=
  if te_fails env TCExpire then t else ExpireOldInvites (te_now env) t.

Definition open_invite (what token : string) (t : TeamTables) : res TeamAnswer TeamInvite :=
  if te_fails env TCToken then Err (failed what)
  else match GetTeamInviteByToken t token with
  | None => Err (TeamError 404 "invite not found")
  | Some i => if String.eqb (TI_Status i) "pending" then Ok i else Err (TeamError 410 ("invite is " +:+ TI_Status i))
  end.

Definition getInvite (token : string) (t : TeamTables) : TeamAnswer * TeamTables :=
  let t := expired t in
  (match open_invite "getInvite" token t with
   | Err e => e
   | Ok i =>
       let inviter := readUser (InvitedBy i) in
       InvitePreviewed {|
         tp_TeamName := match readTeam t (TI_Team i) with Some team => T_Name team | None => "" end;
         tp_InviterName := match inviter with Some u => U_Name u | None => "" end;
         tp_Email := InviteeEmail i; tp_TeamID := TI_Team i; tp_ExpiresAt := ExpiresAt i;
         tp_InviterEmail := match inviter with
                            | Some u => if String.eqb (U_Email u) "" then None else Some (U_Email u)
                            | None => None
                            end |}
   end, t).

(** [acceptInvite]. *)
Definition acceptInvite (user : uuid) (token : string) (t : TeamTables) : TeamAnswer * TeamTables :=
  if N.eqb user uuid_nil then (unauthorized, t)
  else
    let t := expired t in
    match open_invite "acceptInvite" token t with
    | Err e => (e, t)
    | Ok i =>
        if match readUser user with Some u => EqualFold (U_Email u) (InviteeEmail i) | None => false end then
          if te_fails env TCJoin then (failed "acceptInvite", t)
          else
            let t1 := AddTeamMember (TI_Team i) user "member" t in
            if te_fails env TCAccept then (failed "acceptInvite", t1) else (TeamNoContent, AcceptTeamInvite (TI_ID i) t1)
        else (TeamError 403 "this invite is for a different email address", t)
    end.

(** [removeMember]: an owner removes anyone, and everyone themselves. *)
Definition removeMember (caller : uuid) (id target : option uuid) (t : TeamTables) : TeamAnswer * TeamTables :=
  match id, target with
  | None, _ => (bad_team, t)
  | _, None => (TeamError 400 "invalid user id", t)
  | Some id, Some target =>
      if negb (N.eqb caller target) && negb (requireOwner t id caller) then (forbidden, t)
      else if te_fails env TCRemove then (failed "removeMember", t)
      else let '(kept, t') := RemoveTeamMemberKeepingOwner id target t in
           (if kept : bool then TeamNoContent else TeamError 422 "the team owner cannot be removed", t')
  end.

(** The checks of a zone's body, and the zone as it is written. *)
Definition zone_body (body : option ZoneBody) : res TeamAnswer ZoneBody :=
  match body with
  | None => Err (TeamError 400 "invalid JSON")
  | Some b =>
      match validateNoMeetingZone (zb_DayOfWeek b) (zb_StartTime b) (zb_EndTime b) with
      | Some msg => Err (TeamError 422 msg)
      | None => Ok {| zb_DayOfWeek := storageWeekday (zb_DayOfWeek b); zb_StartTime := TrimSpace (zb_StartTime b);
                      zb_EndTime := TrimSpace (zb_EndTime b); zb_Label := TrimSpace (zb_Label b) |}
      end
  end.

Definition createZone (user : uuid) (id : option uuid) (body : option ZoneBody) (t : TeamTables)
  : TeamAnswer * TeamTables :=
  owned user id t (fun id =>
    match zone_body body with
    | Err e => (e, t)
    | Ok b =>
        if te_fails env TCZoneAdd then (failed "createZone", t)
        else let '(z, t') := CreateNoMeetingZone (te_id env) id (zb_DayOfWeek b) (te_time env (zb_StartTime b))
                               (te_time env (zb_EndTime b)) (zb_Label b) t in
             (ZoneShown true (shown_zone z), t')
    end).

Definition updateZone (user : uuid) (id zone : option uuid) (body : option ZoneBody) (t : TeamTables)
  : TeamAnswer * TeamTables :=
  owned user id t (fun id =>
    match zone with
    | None => (TeamError 400 "invalid zone id", t)
    | Some zone =>
    match zone_body body with
    | Err e => (e, t)
    | Ok b =>
        if te_fails env TCZoneUpdate then (failed "updateZone", t)
        else let '(z, t') := UpdateNoMeetingZone zone id (zb_DayOfWeek b) (te_time env (zb_StartTime b))
                               (te_time env (zb_EndTime b)) (zb_Label b) t in
             (match z with Some z => ZoneShown false (shown_zone z) | None => TeamError 404 "zone not found" end, t')
    end end).

Definition listZones (user : uuid) (id : option uuid) (t : TeamTables) : TeamAnswer :=
  match id with
  | None => bad_team
  | Some id =>
      if negb (requireMember t id user) then forbidden
      else if te_fails env TCZones then failed "listZones"
      else ZonesListed (map shown_zone (ListNoMeetingZones (te_minutes env) t id))
  end.

Definition deleteZone (user : uuid) (id zone : option uuid) (t : TeamTables) : TeamAnswer * TeamTables :=
  owned user id t (fun id =>
    match zone with
    | None => (TeamError 400 "invalid zone id", t)
    | Some zone => if te_fails env TCZoneDelete then (failed "deleteZone", t) else (TeamNoContent, DeleteNoMeetingZone zone id t)
    end).

(** The [duration] of a query: an hour when absent. *)
Definition queryMinutes (d : string) : option Z :=
  if String.eqb d "" then Some 60
  else n ← Atoi d; if (n <=? 0) || (24 * 60 <? n) then None else Some n.

Definition availability (user : uuid) (id : option uuid) (date duration : string) (t : TeamTables) : TeamAnswer :=
  match id with
  | None => bad_team
  | Some id =>
      if negb (requireMember t id user) then forbidden
      else match ParseDateOnly date with
      | None => TeamError 400 "date must be YYYY-MM-DD"
      | Some day =>
      match queryMinutes duration with
      | None => TeamError 400 "duration must be a positive integer (minutes)"
      | Some n =>
          match eng_FindSlots t id day n with
          | Ok slots => SlotsListed slots
          | Err e => if budgetCut e then TeamExpired else failed "availability"
          end
      end end
  end.

Definition analyticsHandler (user : uuid) (id : option uuid) (date : string) (t : TeamTables) : TeamAnswer :=
  match id with
  | None => bad_team
  | Some id =>
      if negb (requireMember t id user) then forbidden
      else match (if String.eqb date "" then Some (te_now env) else ParseDateOnly date) with
      | None => TeamError 400 "date must be YYYY-MM-DD"
      | Some d =>
          match eng_GetTeamAnalytics t id (startOfWeek d) with
          | Ok a => AnalyticsShown a
          | Err _ => failed "analyticsHandler"
          end
      end
  end.
End Handlers.

(** ** Requests *)

Inductive TeamRequest :=
| TRCreate (body : option string) | TRList | TRGet (id : option uuid) | TRPatch (id : option uuid) (body : option string)
| TRDelete (id : option uuid) | TRInvite (id : option uuid) (body : option string) | TRPreview (token : string)
| TRAccept (token : string) | TRRemove (id target : option uuid) | TRAddZone (id : option uuid) (body : option ZoneBody)
| TRUpdateZone (id zone : option uuid) (body : option ZoneBody) | TRZones (id : option uuid)
| TRDeleteZone (id zone : option uuid) | TRAvailability (id : option uuid) (date duration : string)
| TRAnalytics (id : option uuid) (date : string).

(** One request of one user, served at once. *)
Definition serveTeam (env : TeamEnv) {eng : TeamEngine} (user : uuid) (r : TeamRequest) (t : TeamTables)
  : TeamAnswer * TeamTables :=
  match r with
  | TRCreate body => createTeam env user body t
  | TRList => (listTeams env user t, t)
  | TRGet id => (getTeam env user id t, t)
  | TRPatch id body => patchTeam env user id body t
  | TRDelete id => deleteTeam env user id t
  | TRInvite id body => inviteMember env user id body t
  | TRPreview token => getInvite env token t
  | TRAccept token => acceptInvite env user token t
  | TRRemove id target => removeMember env user id target t
  | TRAddZone id body => createZone env user id body t
  | TRUpdateZone id zone body => updateZone env user id zone body t
  | TRZones id => (listZones env user id t, t)
  | TRDeleteZone id zone => deleteZone env user id zone t
  | TRAvailability id date duration => (availability env user id date duration t, t)
  | TRAnalytics id date => (analyticsHandler env user id date t, t)
  end.

(** ** Facts: what a request may write *)

Definition is_owner (t : TeamTables) (team user : uuid) : bool :=
  match GetTeamMember t team user with Some m => String.eqb (Role m) "owner" | None => false end.

Lemma requireOwner_owner env t team user : requireOwner env t team user = true -> is_owner t team user = true.
Proof. unfold requireOwner, readMember, is_owner. by destruct (te_fails env TCMember). Qed.

Definition valid_zone_body (b : ZoneBody) : Prop := exists raw, zone_body (Some raw) = Ok b.

(** The writes of a request, with what they were allowed by. *)
Inductive team_effect (env : TeamEnv) (user : uuid) (t t' : TeamTables) : Prop :=
| eff_none (E : t' = t)
| eff_created (name : string) (F : te_fails env TCOwner = true) (E : t' = snd (CreateTeam (te_id env) name user t))
| eff_owned (name : string)
    (E : t' = AddTeamMember (te_id env) user "owner" (snd (CreateTeam (te_id env) name user t)))
| eff_renamed (id : uuid) (name : string) (O : is_owner t id user = true) (E : t' = RenameTeam id name t)
| eff_deleted (id : uuid) (O : is_owner t id user = true) (E : t' = DeleteTeam id t)
| eff_invited (id : uuid) (email : string) (O : is_owner t id user = true)
    (A : plain_address (te_ip env) email = true /\ ToLower email = email)
    (E : t' = snd (CreateTeamInvite (te_id env) id email user (te_token env) (te_now env) t))
| eff_expired (E : t' = expired env t)
| eff_joined (i : TeamInvite) (token : string) (u : User) (accepted : bool)
    (G : GetTeamInviteByToken (expired env t) token = Some i) (P : TI_Status i = "pending")
    (R : readUser env user = Some u) (A : EqualFold (U_Email u) (InviteeEmail i) = true)
    (E : t' = (if accepted then AcceptTeamInvite (TI_ID i) else fun t => t)
                (AddTeamMember (TI_Team i) user "member" (expired env t)))
| eff_removed (id target : uuid) (O : user = target \/ is_owner t id user = true)
    (E : t' = snd (RemoveTeamMemberKeepingOwner id target t))
| eff_zone_added (id : uuid) (b : ZoneBody) (O : is_owner t id user = true) (V : valid_zone_body b)
    (E : t' = snd (CreateNoMeetingZone (te_id env) id (zb_DayOfWeek b) (te_time env (zb_StartTime b))
                     (te_time env (zb_EndTime b)) (zb_Label b) t))
| eff_zone_updated (id zone : uuid) (b : ZoneBody) (O : is_owner t id user = true) (V : valid_zone_body b)
    (E : t' = snd (UpdateNoMeetingZone zone id (zb_DayOfWeek b) (te_time env (zb_StartTime b))
                     (te_time env (zb_EndTime b)) (zb_Label b) t))
| eff_zone_deleted (id zone : uuid) (O : is_owner t id user = true) (E : t' = DeleteNoMeetingZone zone id t).

Lemma owned_effect env user id t k :
  (forall id, is_owner t id user = true -> team_effect env user t (snd (k id))) ->
  team_effect env user t (snd (owned env user id t k)).
Proof.
  intros H. unfold owned. destruct id as [id|]; [|by apply eff_none].
  destruct (requireOwner env t id user) eqn:E; [by apply H, (requireOwner_owner env)|by apply eff_none].
Qed.

Lemma normalizeManagerEmail_plain ip raw email :
  normalizeManagerEmail ip raw = Ok email -> plain_address ip email = true /\ ToLower email = email.
Proof.
  unfold normalizeManagerEmail. cbv zeta. destruct (String.eqb _ ""); [done|].
  destruct (plain_address ip _) eqn:E; [|done]. intros [= <-]. by rewrite ToLower_idem.
Qed.

Lemma zone_body_valid body b : zone_body body = Ok b -> valid_zone_body b.
Proof. destruct body as [raw|]; [|done]. by exists raw. Qed.

Lemma open_invite_Ok env what token t i : open_invite env what token t = Ok i ->
  GetTeamInviteByToken t token = Some i /\ TI_Status i = "pending".
Proof.
  unfold open_invite. destruct (te_fails env TCToken); [done|]. destruct (GetTeamInviteByToken t token) as [j|]; [|done].
  destruct (String.eqb_spec (TI_Status j) "pending"); [|done]. by intros [= <-].
Qed.

Lemma acceptInvite_effect env user token t : team_effect env user t (snd (acceptInvite env user token t)).
Proof.
  unfold acceptInvite. destruct (N.eqb user uuid_nil); [by apply eff_none|]. cbv zeta.
  destruct (open_invite _ _ _ _) as [i|e] eqn:Ei; [|by apply eff_expired]. apply open_invite_Ok in Ei as [Hg Hp].
  destruct (readUser env user) as [u|] eqn:Eu; [|by apply eff_expired].
  destruct (EqualFold _ _) eqn:Ea; [|by apply eff_expired]. destruct (te_fails env TCJoin); [by apply eff_expired|].
  destruct (te_fails env TCAccept); [by apply (eff_joined _ _ _ _ i token u false)|by apply (eff_joined _ _ _ _ i token u true)].
Qed.

Lemma serveTeam_effect env (eng : TeamEngine) user r t : team_effect env user t (snd (serveTeam env user r t)).
Proof.
  destruct r; cbn [serveTeam snd]; try by apply eff_none.
  - unfold createTeam. destruct (N.eqb user uuid_nil); [by apply eff_none|]. destruct (named body); [|by apply eff_none].
    destruct (te_fails env TCCreate); [by apply eff_none|]. cbn [CreateTeam T_ID snd].
    destruct (te_fails env TCOwner) eqn:E; [by eapply eff_created|by eapply eff_owned].
  - apply owned_effect. intros x Ho. destruct (named body); [|by apply eff_none].
    destruct (te_fails env TCRename); [by apply eff_none|]. by eapply eff_renamed.
  - apply owned_effect. intros x Ho. destruct (te_fails env TCDelete); [by apply eff_none|]. by eapply eff_deleted.
  - apply owned_effect. intros x Ho. destruct (named body) as [raw|]; [|by apply eff_none].
    destruct (normalizeManagerEmail _ raw) eqn:En; [|by apply eff_none].
    destruct (te_fails env TCInvite); [by apply eff_none|]. eapply eff_invited; [done|by eapply normalizeManagerEmail_plain|done].
  - by apply eff_expired.
  - apply acceptInvite_effect.
  - unfold removeMember. destruct id as [x|]; [|by apply eff_none]. destruct target as [u|]; [|by apply eff_none].
    destruct (negb (N.eqb user u) && negb (requireOwner env t x user)) eqn:Eo; [by apply eff_none|].
    destruct (te_fails env TCRemove); [by apply eff_none|].
    destruct (RemoveTeamMemberKeepingOwner x u t) as [b t'] eqn:E. apply (eff_removed _ _ _ _ x u); [|by rewrite E].
    destruct (N.eqb_spec user u) as [|Hn]; [by left|]. right. apply (requireOwner_owner env).
    by destruct (requireOwner env t x user).
  - apply owned_effect. intros x Ho. destruct (zone_body body) as [b|] eqn:Eb; [|by apply eff_none].
    destruct (te_fails env TCZoneAdd); [by apply eff_none|]. eapply eff_zone_added; [done|by eapply zone_body_valid|done].
  - apply owned_effect. intros x Ho. destruct zone as [z|]; [|by apply eff_none].
    destruct (zone_body body) as [b|] eqn:Eb; [|by apply eff_none].
    destruct (te_fails env TCZoneUpdate); [by apply eff_none|]. eapply eff_zone_updated; [done|by eapply zone_body_valid|done].
  - apply owned_effect. intros x Ho. destruct zone as [z|]; [|by apply eff_none].
    destruct (te_fails env TCZoneDelete); [by apply eff_none|]. by eapply eff_zone_deleted.
Qed.

(** ** Facts: the rows of a team *)

(** What of an invitation is not its status. *)
Definition invite_core (i : TeamInvite) : uuid * uuid * string * uuid * string * time :=
  (TI_ID i, TI_Team i, InviteeEmail i, InvitedBy i, Token i, ExpiresAt i).

Lemma keep_core (f : TeamInvite -> TeamInvite) x l : (forall i, invite_core (f i) = invite_core i) ->
  map invite_core (keep (fun i => N.eqb (TI_Team i) x) (map f l)) = map invite_core (keep (fun i => N.eqb (TI_Team i) x) l).
Proof.
  intros H. induction l as [|i l IH]; [done|]. cbn [map keep List.filter].
  assert (Et : TI_Team (f i) = TI_Team i) by (specialize (H i); unfold invite_core in H; congruence). rewrite Et.
  destruct (N.eqb (TI_Team i) x); cbn [map]; [rewrite H; f_equal|]; exact IH.
Qed.

(** Two tables agree on a team: its row, its zones, its invitations but for
    their status, and the standing of everyone but [user]. *)
Record same_team (user x : uuid) (t t' : TeamTables) : Prop := {
  st_row : keep (fun r => N.eqb (T_ID r) x) (tt_teams t') = keep (fun r => N.eqb (T_ID r) x) (tt_teams t);
  st_zones : keep (fun z => N.eqb (Z_Team z) x) (tt_zones t') = keep (fun z => N.eqb (Z_Team z) x) (tt_zones t);
  st_invites : map invite_core (keep (fun i => N.eqb (TI_Team i) x) (tt_invites t'))
               = map invite_core (keep (fun i => N.eqb (TI_Team i) x) (tt_invites t));
  st_members u : u <> user -> GetTeamMember t' x u = GetTeamMember t x u }.

Lemma same_team_refl user x t : same_team user x t t.
Proof. by split. Qed.

Lemma same_team_trans user x t1 t2 t3 : same_team user x t1 t2 -> same_team user x t2 t3 -> same_team user x t1 t3.
Proof. intros [] []. split; try congruence. intros u Hu. rewrite st_members1 by done. auto. Qed.

Lemma expired_same env user x t : same_team user x t (expired env t).
Proof. unfold expired. destruct (te_fails env TCExpire); [apply same_team_refl|]. split; try done. apply keep_core. intros i. by destruct (_ && _). Qed.

Lemma accept_same user x id t : same_team user x t (AcceptTeamInvite id t).
Proof. split; try done. apply keep_core. intros i. by destruct (N.eqb _ id). Qed.

Lemma member_of_row team user role x u :
  member_of x u {| TM_Team := team; TM_User := user; Role := role |} = N.eqb team x && N.eqb user u.
Proof. done. Qed.

Lemma join_member team user role t x u : (team <> x \/ user <> u) ->
  GetTeamMember (AddTeamMember team user role t) x u = GetTeamMember t x u.
Proof.
  intros H. unfold AddTeamMember, GetTeamMember. destruct (existsb _ _); [done|]. cbn [set_members tt_members].
  apply find_snoc_other. rewrite member_of_row. destruct H as [H|H]; apply N.eqb_neq in H; rewrite H; [done|apply andb_false_r].
Qed.

Lemma join_same user x team role t : same_team user x t (AddTeamMember team user role t).
Proof.
  split; try (unfold AddTeamMember; by destruct (existsb _ _)).
  intros u Hu. apply join_member. auto.
Qed.

Lemma remove_member team user t x u : (team <> x \/ user <> u) ->
  GetTeamMember (snd (RemoveTeamMemberKeepingOwner team user t)) x u = GetTeamMember t x u.
Proof.
  intros H. unfold RemoveTeamMemberKeepingOwner. destruct (List.find _ _); [|done]. destruct (_ && _); [done|].
  cbn [snd]. unfold GetTeamMember, RemoveTeamMember. cbn [set_members tt_members]. apply find_keep_same.
  intros m [H1%N.eqb_eq H2%N.eqb_eq]%andb_true_iff. unfold member_of. rewrite H1, H2.
  destruct H as [H|H]; apply not_eq_sym, N.eqb_neq in H; rewrite H; [done|by rewrite andb_false_r].
Qed.

Lemma remove_same user x team target t : team <> x \/ target = user ->
  same_team user x t (snd (RemoveTeamMemberKeepingOwner team target t)).
Proof.
  intros H. split; try (unfold RemoveTeamMemberKeepingOwner; destruct (List.find _ _); [by destruct (_ && _)|done]).
  intros u Hu. apply remove_member. destruct H as [H | ->]; auto.
Qed.

(** A write on another team. *)
Lemma other_key id x : id <> x -> N.eqb id x = false.
Proof. apply N.eqb_neq. Qed.

Lemma team_effect_same env user t t' x : team_effect env user t t' -> is_owner t x user = false -> x <> te_id env ->
  same_team user x t t'.
Proof.
  intros He Hx Hi. assert (Hne : forall id, is_owner t id user = true -> id <> x) by (intros id Ho ->; congruence).
  destruct He as [-> | name F -> | name -> | id name O -> | id O -> | id email O A -> | -> | i token u acc G P R A ->
                 | id target O -> | id b O V -> | id zone b O V -> | id zone O ->].
  - apply same_team_refl.
  - split; try done. apply keep_snoc_other. cbn. apply N.eqb_neq. congruence.
  - eapply same_team_trans; [|apply join_same]. split; try done. apply keep_snoc_other. cbn. apply N.eqb_neq. congruence.
  - pose proof (Hne id O) as Hn. split; try done. apply keep_map_same.
    + intros r. by destruct (N.eqb (T_ID r) id).
    + intros r Hr%N.eqb_eq. rewrite Hr. by rewrite other_key.
  - pose proof (Hne id O) as Hn.
    assert (Hk : forall k, N.eqb k x = true -> negb (N.eqb k id) = true).
    { intros k Hk%N.eqb_eq. rewrite Hk. by rewrite other_key. }
    split; cbn [DeleteTeam tt_teams tt_zones tt_invites].
    + apply keep_keep_same. auto.
    + apply keep_keep_same. auto.
    + f_equal. apply keep_keep_same. auto.
    + intros u _. apply find_keep_same. intros m [Hm _]%andb_true_iff. auto.
  - pose proof (Hne id O) as Hn. split; try done. f_equal. apply keep_snoc_other. by apply other_key.
  - apply expired_same.
  - eapply same_team_trans; [apply expired_same|].
    eapply same_team_trans; [apply (join_same user x (TI_Team i) "member")|].
    destruct acc; [apply accept_same|apply same_team_refl].
  - apply remove_same. destruct O as [O|O]; [by right|left; auto].
  - pose proof (Hne id O) as Hn. split; try done. apply keep_snoc_other. by apply other_key.
  - pose proof (Hne id O) as Hn. split; try done. apply keep_map_same.
    + intros z. by destruct (zone_in zone id z).
    + intros z Hz%N.eqb_eq. unfold zone_in. rewrite Hz, (other_key x id), andb_false_r by congruence. done.
  - pose proof (Hne id O) as Hn. split; try done. apply keep_keep_same.
    intros z Hz%N.eqb_eq. unfold zone_in. by rewrite Hz, (other_key x id), andb_false_r by congruence.
Qed.

(** ** Theorems *)

(** C16: A team is changed by its owners: whatever one request of a user who is no
    owner of a team does, the team keeps its name, its no-meeting zones, its
    invitations (but for their status) and the standing of everyone but that
    user. *)
Theorem only_owners_change_a_team env (eng : TeamEngine) user r t x :
  is_owner t x user = false -> x <> te_id env -> same_team user x t (snd (serveTeam env user r t)).
Proof. apply team_effect_same, serveTeam_effect. Qed.

(** One request of anyone, whatever fails in it but the row of a new team's
    owner; the key of a new team is a new one. *)
Inductive tstep (t t' : TeamTables) : Prop :=
| tstep_serve env (eng : TeamEngine) user r (F : te_fails env TCOwner = false)
    (K : forall m, m ∈ tt_members t -> TM_Team m <> te_id env) (E : t' = snd (serveTeam env user r t)).

Definition member_keys (t : TeamTables) : Prop := NoDup (map (fun m => (TM_Team m, TM_User m)) (tt_members t)).
Definition all_owned (t : TeamTables) : Prop := forall r, r ∈ tt_teams t -> has_owner t (T_ID r).

Lemma keys_sub t l : sublist l (tt_members t) -> member_keys t -> NoDup (map (fun m => (TM_Team m, TM_User m)) l).
Proof. intros Hs Hn. eapply sublist_NoDup; [exact Hn|]. by apply (fmap_sublist (fun m => (TM_Team m, TM_User m))). Qed.

Lemma keys_expired env t : member_keys (expired env t) <-> member_keys t.
Proof. unfold expired. by destruct (te_fails env TCExpire). Qed.

Lemma owned_expired env t : all_owned (expired env t) <-> all_owned t.
Proof. unfold expired. by destruct (te_fails env TCExpire). Qed.

Lemma join_owned team user role t : all_owned t -> all_owned (AddTeamMember team user role t).
Proof.
  intros H r Hr. apply add_has_owner, H. revert Hr. unfold AddTeamMember. by destruct (existsb _ _).
Qed.

(** A new team, with its creator as its owner. *)
Lemma create_owned id name user t : (forall m, m ∈ tt_members t -> TM_Team m <> id) -> all_owned t ->
  all_owned (AddTeamMember id user "owner" (snd (CreateTeam id name user t))).
Proof.
  intros K H r. unfold AddTeamMember. destruct (existsb _ _) eqn:E.
  - apply existsb_elem in E as (m & Hm & [Hk%N.eqb_eq _]%andb_true_iff). by destruct (K m Hm).
  - cbn [CreateTeam snd set_teams set_members tt_teams]. rewrite elem_of_app, list_elem_of_singleton. intros [Hr | ->].
    + destruct (H r Hr) as (m & Hm & Ho). exists m. split; [apply elem_of_app; by left|done].
    + eexists. split; [apply elem_of_app; right; apply list_elem_of_singleton; reflexivity|].
      unfold owner_of. cbn. by rewrite N.eqb_refl.
Qed.

Lemma remove_teams team user t : tt_teams (snd (RemoveTeamMemberKeepingOwner team user t)) = tt_teams t.
Proof. unfold RemoveTeamMemberKeepingOwner. destruct (List.find _ _); [by destruct (_ && _)|done]. Qed.

Lemma delete_owned id t : all_owned t -> all_owned (DeleteTeam id t).
Proof.
  intros H r [Hr Hn]%elem_of_keep. destruct (H r Hr) as (m & Hm & Ho). exists m. split; [|done].
  apply elem_of_keep. split; [done|]. apply andb_true_iff in Ho as [Ht%N.eqb_eq _]. by rewrite Ht.
Qed.

Lemma rename_owned id name t : all_owned t -> all_owned (RenameTeam id name t).
Proof. intros H r (r0 & -> & Hr)%list_elem_of_fmap. apply (H r0) in Hr. by destruct (N.eqb (T_ID r0) id). Qed.

Lemma tstep_owned t t' : tstep t t' -> member_keys t /\ all_owned t -> member_keys t' /\ all_owned t'.
Proof.
  intros [env eng user r F K E] [Hn Ho]. pose proof (serveTeam_effect env eng user r t) as He. rewrite <- E in He. clear E.
  destruct He as [-> | name F' -> | name -> | id name O -> | id O -> | id email O A -> | -> | i token u acc G P R A ->
                 | id target O -> | id b O V -> | id zone b O V -> | id zone O ->]; try done.
  - congruence.
  - split; [|by apply create_owned].
    apply (member_step_keys (snd (CreateTeam (te_id env) name user t)) _ (ms_add _ _ _ _ _ eq_refl)). exact Hn.
  - split; [done|by apply rename_owned].
  - split; [apply (keys_sub t); [apply keep_sublist|done]|by apply delete_owned].
  - by rewrite keys_expired, owned_expired.
  - assert (member_keys (AddTeamMember (TI_Team i) user "member" (expired env t)) /\
            all_owned (AddTeamMember (TI_Team i) user "member" (expired env t))) as [H1 H2].
    { split; [|by apply join_owned, owned_expired].
      apply (member_step_keys (expired env t) _ (ms_add _ _ _ _ _ eq_refl)). by apply keys_expired. }
    by destruct acc.
  - split; [exact (member_step_keys t _ (ms_remove _ _ _ _ eq_refl) Hn)|].
    intros r0. rewrite remove_teams. intros Hr. by apply remove_has_owner, Ho.
Qed.

(** C17: However requests on teams follow each other, whoever makes them, a team
    that exists has an owner, as long as the owner of a new team is written;
    and nobody is a member of a team twice. *)
Theorem teams_keep_an_owner t t' : rtc tstep t t' -> member_keys t /\ all_owned t -> member_keys t' /\ all_owned t'.
Proof. induction 1 as [|t t1 t' H _ IH]; [done|]. intros Hv. by apply IH, (tstep_owned t). Qed.

(** ** Facts: invitations *)

(** No invitation of the token is open. *)
Definition closed (token : string) (t : TeamTables) : Prop :=
  forall i, i ∈ tt_invites t -> Token i = token -> TI_Status i <> "pending".

Lemma GetTeamInviteByToken_elem t token i :
  GetTeamInviteByToken t token = Some i -> i ∈ tt_invites t /\ Token i = token.
Proof. intros [Hi%list_elem_of_In Ht%String.eqb_eq]%List.find_some. done. Qed.

Lemma map_closed token f t : (forall i, Token (f i) = Token i) -> (forall i, TI_Status (f i) = "pending" -> TI_Status i = "pending") ->
  closed token t -> closed token (set_invites (map f) t).
Proof. intros Ht Hs H i (j & -> & Hj)%list_elem_of_fmap Hi Hp. rewrite Ht in Hi. by apply (H j Hj Hi), Hs. Qed.

Lemma expired_closed env token t : closed token t -> closed token (expired env t).
Proof.
  unfold expired. destruct (te_fails env TCExpire); [done|]. apply map_closed; intros i; by destruct (_ && _).
Qed.

Lemma join_invites team user role t : tt_invites (AddTeamMember team user role t) = tt_invites t.
Proof. unfold AddTeamMember. by destruct (existsb _ _). Qed.

Lemma accept_closed token id t : closed token t -> closed token (AcceptTeamInvite id t).
Proof. apply map_closed; intros i; by destruct (N.eqb _ id). Qed.

Lemma remove_invites team user t : tt_invites (snd (RemoveTeamMemberKeepingOwner team user t)) = tt_invites t.
Proof. unfold RemoveTeamMemberKeepingOwner. destruct (List.find _ _); [by destruct (_ && _)|done]. Qed.

Lemma team_effect_closed env user t t' token : team_effect env user t t' -> te_token env <> token ->
  closed token t -> closed token t'.
Proof.
  intros He Hk H.
  destruct He as [-> | name F -> | name -> | id name O -> | id O -> | id email O A -> | -> | i tok u acc G P R A ->
                 | id target O -> | id b O V -> | id zone b O V -> | id zone O ->]; try exact H.
  - unfold closed. rewrite join_invites. exact H.
  - intros i [Hi _]%elem_of_keep. by apply H.
  - intros i [Hi | ->%list_elem_of_singleton]%elem_of_app; [by apply H|]. cbn. congruence.
  - by apply expired_closed.
  - apply (expired_closed env) in H. destruct acc; [apply accept_closed|]; unfold closed; by rewrite join_invites.
  - unfold closed. by rewrite remove_invites.
Qed.

(** A request of anyone after which an invitation it creates has another
    token. *)
Inductive later (token : string) (t t' : TeamTables) : Prop :=
| later_serve env (eng : TeamEngine) user r (K : te_token env <> token) (E : t' = snd (serveTeam env user r t)).

Lemma later_closed token t t' : rtc (later token) t t' -> closed token t -> closed token t'.
Proof.
  induction 1 as [|t t1 t' [env eng user r K ->] _ IH]; [done|]. intros H. apply IH.
  apply (team_effect_closed env user t _ token (serveTeam_effect env eng user r t) K H).
Qed.

Lemma closed_refuses env (eng : TeamEngine) user token t : closed token t -> fst (serveTeam env user (TRAccept token) t) <> TeamNoContent.
Proof.
  intros H. cbn [serveTeam]. unfold acceptInvite. destruct (N.eqb user uuid_nil); [done|]. cbv zeta.
  destruct (open_invite _ _ _ _) as [i|e] eqn:Ei.
  - apply open_invite_Ok in Ei as [Hg Hp]. apply GetTeamInviteByToken_elem in Hg as [Hi Ht].
    destruct (expired_closed env token t H i Hi Ht Hp).
  - cbn [fst]. unfold open_invite in Ei. destruct (te_fails env TCToken); [by injection Ei as <-|].
    destruct (GetTeamInviteByToken _ _) as [i|]; [|by injection Ei as <-]. destruct (String.eqb _ _); [done|by injection Ei as <-].
Qed.

Lemma pending_not_expired env t i : i ∈ tt_invites (expired env t) -> TI_Status i = "pending" ->
  i ∈ tt_invites t /\ (te_fails env TCExpire = false -> Before (ExpiresAt i) (te_now env) = false).
Proof.
  unfold expired. destruct (te_fails env TCExpire); [done|].
  intros (j & -> & Hj)%list_elem_of_fmap. destruct (String.eqb (TI_Status j) "pending") eqn:Ep; cbn [andb].
  - destruct (Before (ExpiresAt j) (te_now env)) eqn:Eb; done.
  - apply String.eqb_neq in Ep. done.
Qed.

Lemma expired_tokens env t : map Token (tt_invites (expired env t)) = map Token (tt_invites t).
Proof.
  unfold expired. destruct (te_fails env TCExpire); [done|]. cbn [ExpireOldInvites set_invites tt_invites].
  rewrite map_map. apply map_ext. intros i. by destruct (_ && _).
Qed.

Lemma accepted_closed t i : NoDup (map Token (tt_invites t)) -> i ∈ tt_invites t -> closed (Token i) (AcceptTeamInvite (TI_ID i) t).
Proof.
  intros Hn Hi j (k & -> & Hk)%list_elem_of_fmap Ht. destruct (N.eqb_spec (TI_ID k) (TI_ID i)); [done|].
  by rewrite (NoDup_map_elem Token (tt_invites t) k i Hn Hk Hi Ht) in n.
Qed.

Lemma join_is_member team user role t : exists m, GetTeamMember (AddTeamMember team user role t) team user = Some m.
Proof.
  unfold AddTeamMember, GetTeamMember. destruct (existsb _ _) eqn:E.
  - apply existsb_elem in E as (m & Hm%list_elem_of_In & Hk). destruct (List.find _ _) as [x|] eqn:Ef; [by exists x|].
    by rewrite (List.find_none _ _ Ef m Hm) in Hk.
  - cbn [set_members tt_members]. rewrite existsb_elem_false in E.
    destruct (List.find _ _) as [x|] eqn:Ef; [by exists x|]. apply (List.find_none _ _) with (x := {| TM_Team := team; TM_User := user; Role := role |}) in Ef.
    + by rewrite member_of_row, !N.eqb_refl in Ef.
    + apply in_app_iff. right. by left.
Qed.

(** C18: An invitation lets in the user of its address, once: who accepts it is a
    member afterwards, it was open, addressed to them and, while old invitations
    can be expired, not too old; and whatever is requested later, nobody accepts
    it again. *)
Theorem invite_admits_its_address_once env (eng : TeamEngine) user token t t' :
  NoDup (map Token (tt_invites t)) ->
  serveTeam env user (TRAccept token) t = (TeamNoContent, t') ->
  (exists i u m, i ∈ tt_invites t /\ Token i = token /\ TI_Status i = "pending"
     /\ readUser env user = Some u /\ EqualFold (U_Email u) (InviteeEmail i) = true
     /\ (te_fails env TCExpire = false -> Before (ExpiresAt i) (te_now env) = false)
     /\ GetTeamMember t' (TI_Team i) user = Some m)
  /\ forall t'' env' (eng' : TeamEngine) user', rtc (later token) t' t'' ->
       fst (serveTeam env' user' (TRAccept token) t'') <> TeamNoContent.
Proof.
  intros Hn. cbn [serveTeam]. unfold acceptInvite. destruct (N.eqb user uuid_nil); [done|]. cbv zeta.
  destruct (open_invite _ _ _ _) as [i|e] eqn:Ei.
  2:{ intros [= -> _]. unfold open_invite in Ei. destruct (te_fails env TCToken); [done|].
      destruct (GetTeamInviteByToken _ _) as [i|]; [|done]. by destruct (String.eqb _ _). }
  apply open_invite_Ok in Ei as [Hg Hp]. destruct (GetTeamInviteByToken_elem _ _ _ Hg) as [Hi Ht].
  destruct (readUser env user) as [u|]; [|done]. destruct (EqualFold _ _) eqn:Ea; [|done].
  destruct (te_fails env TCJoin); [done|]. destruct (te_fails env TCAccept); [done|]. intros [= <-].
  destruct (pending_not_expired env t i Hi Hp) as [Hit Hexp]. split.
  - destruct (join_is_member (TI_Team i) user "member" (expired env t)) as [m Hm]. by exists i, u, m.
  - intros t'' env' eng' user' Hl. apply (closed_refuses env' eng'). eapply later_closed; [exact Hl|]. rewrite <- Ht.
    apply accepted_closed; rewrite join_invites; [by rewrite expired_tokens|done].
Qed.

(** ** Facts: zones *)

(** What the engine relies on of a TIME column: the hour and the minute that
    were written are what its text starts with. *)
Definition reads_clock (time_text : string -> string) : Prop :=
  forall s ns, ParseHHMM s = Some ns -> scan_hhmm (time_text s) = (ns / Hour, ns / Minute mod 60).

(** The instant of the day at which the day begins. *)
Definition midnight (day : time) : Z :=
  t_ns (Date (c_year (DateOf day)) (c_month (DateOf day)) (c_day (DateOf day)) 0 0 0 0 UTC).

Lemma parseHHMM_clock text s ns day : reads_clock text -> ParseHHMM s = Some ns ->
  t_ns (parseHHMM (text s) day UTC) = midnight day + ns.
Proof.
  intros H Hs. unfold parseHHMM. rewrite (H s ns Hs). destruct (ParseHHMM_range s ns Hs) as (h & m & -> & Hh & Hm).
  assert ((h * 60 + m) * Minute / Hour = h) as ->.
  { unfold Hour. rewrite (Z.mul_comm 60 Minute), <- Z.div_div, Z.div_mul by (unfold Minute, Second; lia). dlia. }
  assert ((h * 60 + m) * Minute / Minute mod 60 = m) as -> by (rewrite Z.div_mul by (unfold Minute, Second; lia); dlia).
  unfold midnight, Date. cbn [t_ns]. rewrite !resolve_UTC. unfold naive_sec, Minute, Second. dlia.
Qed.

#[global] Instance engine_availability_laws local cal focus ok week minutes :
  TeamEngineLaws (E := engine_availability local cal focus ok week minutes) (ListNoMeetingZones minutes).
Proof.
  split. intros t team day n slots s x z Hn Hs Hin Hx Hz.
  destruct (FindSlots_sound local cal focus ok _ _ day n slots s x Hn Hs Hin Hx) as (_ & ms & zs & ds & _ & [= <-] & _ & H).
  by apply H.
Qed.

Lemma zone_body_Ok raw b : zone_body (Some raw) = Ok b -> exists start end_,
  1 <= zb_DayOfWeek raw <= 7 /\ zb_DayOfWeek b = storageWeekday (zb_DayOfWeek raw) /\ zb_StartTime b = TrimSpace (zb_StartTime raw)
  /\ zb_EndTime b = TrimSpace (zb_EndTime raw) /\ ParseHHMM (zb_StartTime b) = Some start
  /\ ParseHHMM (zb_EndTime b) = Some end_ /\ start < end_.
Proof.
  cbn [zone_body]. unfold validateNoMeetingZone.
  destruct ((zb_DayOfWeek raw <? 1) || _) eqn:Hd; [done|]. destruct (String.eqb _ "" || _); [done|].
  destruct (ParseHHMM (TrimSpace (zb_StartTime raw))) as [s|] eqn:Es; [|done]. destruct (ParseHHMM (TrimSpace (zb_EndTime raw))) as [e|] eqn:Ee; [|done].
  destruct (s <? e) eqn:Hse; [|done]. cbn [negb]. intros [= <-]. exists s, e. split_and!; cbn; auto; lia.
Qed.

Lemma zone_body_Err body e : zone_body body = Err e -> exists code msg, e = TeamError code msg.
Proof.
  unfold zone_body. destruct body as [b|]; [|intros [= <-]; eauto]. destruct (validateNoMeetingZone _ _ _); [|done].
  intros [= <-]. eauto.
Qed.

Lemma weekday_there_and_back d : 1 <= d <= 7 -> apiWeekday (storageWeekday d) = d /\ 0 <= storageWeekday d <= 6.
Proof. unfold apiWeekday, storageWeekday. destruct (Z.eqb_spec d 7); [by subst|]. destruct (Z.eqb_spec d 0); lia. Qed.

Lemma api_storage_weekday d e : 0 <= e < 7 -> apiWeekday e = d -> storageWeekday d = e.
Proof. intros He <-. unfold apiWeekday, storageWeekday. destruct (Z.eqb_spec e 0) as [->|]; [done|]. destruct (Z.eqb_spec e 7); lia. Qed.

Lemma ListNoMeetingZones_elem minutes t team z :
  z ∈ ListNoMeetingZones minutes t team <-> z ∈ tt_zones t /\ Z_Team z = team.
Proof.
  unfold ListNoMeetingZones. rewrite !order_by_perm, elem_of_keep, N.eqb_eq. done.
Qed.

Lemma queryMinutes_range d n : queryMinutes d = Some n -> 0 <= n <= max_dur_minutes.
Proof.
  unfold queryMinutes. destruct (String.eqb d ""); [intros [= <-]; unfold max_dur_minutes; lia|].
  destruct (Atoi d) as [k|]; [|done]. cbn [mbind option_bind]. destruct (_ || _) eqn:E; [done|]. intros [= <-].
  unfold max_dur_minutes. lia.
Qed.

(** C19: A zone is shown for the weekday it was asked for, and is kept free: no slot
    the availability of the team lists, to anyone, on a date of that weekday
    meets the time of the zone, whatever engine keeps the promise of the
    interface. *)
Theorem created_zone_is_kept_free env (eng : TeamEngine) (laws : TeamEngineLaws (ListNoMeetingZones (te_minutes env)))
    user id body t z t' :
  reads_clock (te_time env) ->
  serveTeam env user (TRAddZone (Some id) (Some body)) t = (ZoneShown true z, t') ->
  DayOfWeek z = zb_DayOfWeek body /\ exists start end_,
    ParseHHMM (TrimSpace (zb_StartTime body)) = Some start /\ ParseHHMM (TrimSpace (zb_EndTime body)) = Some end_ /\
    start < end_ /\
    forall env' user' date day duration slots s x,
      availability env' user' (Some id) date duration t' = SlotsListed slots -> s ∈ slots ->
      ParseDateOnly date = Some day -> apiWeekday (WeekdayOf day) = zb_DayOfWeek body -> covers (slot_interval s) x ->
      ~ midnight day + start <= x < midnight day + end_.
Proof.
  intros Hc. cbn [serveTeam]. unfold createZone, owned. destruct (requireOwner env t id user); [|done].
  destruct (zone_body (Some body)) as [b|] eqn:Eb; [|by apply zone_body_Err in Eb as (? & ? & ->)].
  destruct (te_fails env TCZoneAdd); [done|].
  intros [= <- <-]. destruct (zone_body_Ok body b Eb) as (start & end_ & Hd & Ed & Es & Ee & Hs & He & Hse).
  split; [cbn; rewrite Ed; by apply weekday_there_and_back|]. exists start, end_. rewrite <- Es, <- Ee.
  split; [done|]. split; [done|]. split; [done|]. intros env' user' date day duration slots s x Ha Hin Hday Hw Hx Hz.
  unfold availability in Ha. destruct (requireMember env' _ _ _); [|done]. cbn [negb] in Ha. rewrite Hday in Ha.
  destruct (queryMinutes duration) as [n|] eqn:En; [|done]. apply queryMinutes_range in En.
  destruct (eng_FindSlots _ id day n) as [sl|e] eqn:Ef; [|by destruct (budgetCut e)]. injection Ha as ->.
  eapply (eng_slots_avoid_zones _ id day n slots s x); [done|exact Ef|done|done| |].
  - apply ListNoMeetingZones_elem. cbn [set_zones tt_zones]. split; [apply elem_of_app; right; by apply list_elem_of_singleton|done].
  - unfold zone_busy. cbn [DayOfWeek StartTime EndTime]. rewrite Ed, (api_storage_weekday _ (WeekdayOf day)), Z.eqb_refl;
      [|apply WeekdayOf_range|done].
    eexists. split; [apply list_elem_of_singleton; reflexivity|]. unfold covers. cbn [iv_start iv_end].
    by rewrite (parseHHMM_clock _ _ start), (parseHHMM_clock _ _ end_).
Qed.

(** ** Facts: who is let in *)

Definition request_team (r : TeamRequest) : option uuid :=
  match r with
  | TRGet id | TRPatch id _ | TRDelete id | TRInvite id _ | TRRemove id _ | TRAddZone id _ | TRUpdateZone id _ _
  | TRZones id | TRDeleteZone id _ | TRAvailability id _ _ | TRAnalytics id _ => id
  | _ => None
  end.

(** Who may make a request on a team: a member may look, an owner may change,
    and everyone may leave. *)
Definition may_request (t : TeamTables) (team user : uuid) (r : TeamRequest) : bool :=
  match r with
  | TRGet _ | TRZones _ | TRAvailability _ _ _ | TRAnalytics _ _ =>
      match GetTeamMember t team user with Some _ => true | None => false end
  | TRRemove _ (Some target) => N.eqb user target || is_owner t team user
  | _ => is_owner t team user
  end.

Lemma requireMember_refused env t team user : GetTeamMember t team user = None -> requireMember env t team user = false.
Proof. unfold requireMember, readMember. intros ->. by destruct (te_fails env TCMember). Qed.

Lemma requireOwner_refused env t team user : is_owner t team user = false -> requireOwner env t team user = false.
Proof.
  intros H. destruct (requireOwner env t team user) eqn:E; [|done]. apply requireOwner_owner in E. congruence.
Qed.

(** A request on a team by someone who may not make it is refused in the same
    words for every team, whatever its rows are, and changes nothing. *)
Theorem strangers_are_refused env (eng : TeamEngine) user r t id :
  request_team r = Some id -> may_request t id user r = false ->
  serveTeam env user r t = (forbidden, t) \/ serveTeam env user r t = (TeamError 400 "invalid user id", t).
Proof.
  intros Hr Hm. destruct r; cbn [request_team] in Hr; try discriminate Hr; subst; cbn [may_request] in Hm; cbn [serveTeam];
    unfold patchTeam, deleteTeam, inviteMember, createZone, updateZone, deleteZone, owned, getTeam, listZones, availability,
      analyticsHandler, removeMember;
    try (rewrite requireOwner_refused by done; by left);
    try (rewrite requireMember_refused by (by destruct (GetTeamMember _ _ _)); by left).
  destruct target as [u|]; [|by right]. apply orb_false_iff in Hm as [Hu Ho]. rewrite Hu, (requireOwner_refused env) by done. by left.
Qed.

(** ** Facts: addresses *)

Lemma span_chars p s : sforallb p (fst (span p s)) = true /\ fst (span p s) +:+ snd (span p s) = s.
Proof.
  induction s as [|c s [IH1 IH2]]; [done|]. cbn [span]. destruct (p c) eqn:E; [|done]. destruct (span p s) as [a b].
  cbn [fst snd sforallb] in *. rewrite E, IH1, <- IH2. done.
Qed.

Lemma sforallb_weaken (p q : ascii -> bool) s : (forall c, p c = true -> q c = true) -> sforallb p s = true -> sforallb q s = true.
Proof. intros H. induction s as [|c s IH]; [done|]. cbn. intros [Hc Hs]%andb_true_iff. by rewrite (H c Hc), IH. Qed.

Lemma sforallb_append p a b : sforallb p (a +:+ b) = sforallb p a && sforallb p b.
Proof.
  induction a as [|c a IH]; [done|]. change (String c a +:+ b) with (String c (a +:+ b)). cbn [sforallb].
  by rewrite IH, andb_assoc.
Qed.

Lemma consumeAtom_vchar s a r : consumeAtom s = Some (a, r) -> s = a +:+ r /\ sforallb is_vchar a = true.
Proof.
  unfold consumeAtom. destruct (span_chars is_atext s) as [H1 H2]. destruct (span is_atext s) as [x y]. cbn [fst snd] in *.
  destruct (dots_ok true x); [|done]. intros [= <- <-]. split; [done|]. revert H1. apply sforallb_weaken.
  intros c [[Hc _]%andb_true_iff _]%andb_true_iff. done.
Qed.

Lemma plain_address_vchar ip s : plain_address ip s = true -> sforallb is_vchar s = true.
Proof.
  unfold plain_address. destruct (consumeAtom s) as [[a [|at_ d]]|] eqn:Ea; try done.
  apply consumeAtom_vchar in Ea as [-> Ha]. intros [Hat%Ascii.eqb_eq Hd]%andb_true_iff. subst at_.
  rewrite sforallb_append, Ha. cbn [sforallb andb]. change (is_vchar "@") with true. cbn [andb].
  assert (Hatom : (match consumeAtom d with Some (_, rest) => String.eqb rest "" | None => false end) = true -> sforallb is_vchar d = true).
  { destruct (consumeAtom d) as [[x y]|] eqn:Ed; [|done]. intros ->%String.eqb_eq.
    apply consumeAtom_vchar in Ed as [-> Hx]. by rewrite sforallb_append, Hx. }
  destruct d as [|c r]; [by apply Hatom|]. destruct (ascii_dec c "[") as [->|Hc].
  - cbn [sforallb]. change (is_vchar "[") with true. cbn [andb]. destruct (span_chars is_dtext r) as [H1 H2].
    destruct (span is_dtext r) as [lit rest]. cbn [fst snd] in *. apply andb_true_iff in Hd as [->%String.eqb_eq _].
    rewrite <- H2, sforallb_append. rewrite (sforallb_weaken is_dtext is_vchar lit); [done| |done].
    intros x [Hx _]%andb_true_iff. done.
  - apply Hatom. destruct c as [[] [] [] [] [] [] [] []]; try exact Hd. by destruct Hc.
Qed.

(** Where an invitation goes is one word without spaces or line ends, so the
    envelope and the [To] line of its e-mail are what they look like. *)
Theorem invitation_goes_to_one_word env (eng : TeamEngine) user id body t i mail t' :
  serveTeam env user (TRInvite id body) t = (TeamInvited i mail, t') ->
  sforallb is_vchar (InviteeEmail i) = true /\ ToLower (InviteeEmail i) = InviteeEmail i
  /\ (forall m, mail = Some m -> m_To m = InviteeEmail i).
Proof.
  cbn [serveTeam]. unfold inviteMember, owned. destruct id as [x|]; [|done]. destruct (requireOwner env t x user); [|done].
  destruct (named body) as [raw|]; [|done]. destruct (normalizeManagerEmail _ raw) as [email|] eqn:En; [|done].
  destruct (te_fails env TCInvite); [done|]. cbn [CreateTeamInvite InviteeEmail Token]. cbv zeta. intros [= <- <- _].
  apply normalizeManagerEmail_plain in En as [Hp Hl]. cbn [InviteeEmail]. split; [by apply plain_address_vchar in Hp|].
  split; [done|]. unfold sendTeamInviteEmail. destruct (_ || _); [done|]. by intros m [= <-].
Qed.

(** ** A small example: Ada owns a team, Bob is invited *)

Module TeamsDemo.
Definition user (email name : string) : User := {| U_Email := email; U_Name := name; U_AvatarURL := "" |}.
Definition users (u : uuid) : option User :=
  if N.eqb u 10 then Some (user "Ada@x.org" "Ada") else if N.eqb u 11 then Some (user "Bob@x.org" "Bob")
  else if N.eqb u 12 then Some (user "cy@x.org" "Cy") else None.
(** A TIME column as the database writes it. *)
Definition time_text (s : string) : string :=
  match ParseHHMM s with Some ns => FormatClock ns +:+ ":00" | None => s end.
Definition at_ (fails : TeamCall -> bool) (now : time) (id : uuid) (token : string) : TeamEnv := {|
  te_fails := fails; te_users := users; te_now := now; te_id := id; te_token := token; te_time := time_text;
  te_minutes := fun s => match ParseHHMMSS s with Some ns => ns / Minute | None => 0 end; te_ip := fun _ => false;
  te_mail := {| SMTP_HOST := "mail.x.org"; SMTP_PORT := ""; SMTP_FROM := "team@x.org"; BASE_URL := "" |} |}.
Definition never (c : TeamCall) : bool := false.
Definition monday : time := Date 2025 1 6 8 0 0 0 UTC.
Definition env : TeamEnv := at_ never monday 1%N "tok-1".
Definition later_env : TeamEnv := at_ never monday 2%N "tok-2".
#[export] Instance engine : TeamEngine :=
  engine_availability UTC {| loadToken := fun _ => TokenFound; clientOk := fun _ => true; providerEvents := fun _ _ _ => Ok [];
    providerCreate := fun _ _ => Ok "" |} (fun _ _ => []) (fun _ => true) (fun _ _ => None) (te_minutes env).
Definition none : TeamTables := {| tt_teams := []; tt_members := []; tt_invites := []; tt_zones := [] |}.
Definition invite : TeamRequest := TRInvite (Some 1%N) (Some " BOB@x.org ").
Definition zone : ZoneBody := {| zb_DayOfWeek := 1; zb_StartTime := "12:00"; zb_EndTime := "14:00"; zb_Label := "Lunch" |}.
Definition one : TeamTables := Eval vm_compute in snd (serveTeam env 10%N (TRCreate (Some " Core ")) none).
Definition invited : TeamTables := Eval vm_compute in snd (serveTeam env 10%N invite one).
Definition joined : TeamTables := Eval vm_compute in snd (serveTeam env 11%N (TRAccept "tok-1") invited).
Definition zoned : TeamTables := Eval vm_compute in snd (serveTeam env 10%N (TRAddZone (Some 1%N) (Some zone)) joined).
End TeamsDemo.
Import TeamsDemo.

Example team_joined : map (fun m => (TM_User m, Role m)) (tt_members joined) = [(10%N, "owner"); (11%N, "member")]
  /\ map TI_Status (tt_invites joined) = ["accepted"] /\ map InviteeEmail (tt_invites joined) = ["bob@x.org"].
Proof. by vm_compute. Qed.

Lemma only_owners_change_a_team_witness :
  fst (serveTeam later_env 11%N (TRPatch (Some 1%N) (Some "Mine")) joined) = TeamError 403 "forbidden"
  /\ same_team 11%N 1%N joined (snd (serveTeam later_env 11%N (TRPatch (Some 1%N) (Some "Mine")) joined)).
Proof. split; [reflexivity|]. apply only_owners_change_a_team; [reflexivity|discriminate]. Defined.

Lemma teams_keep_an_owner_witness :
  exists t, rtc tstep none t /\ map T_ID (tt_teams t) = [1%N] /\ member_keys t /\ all_owned t.
Proof.
  set (t := snd (serveTeam later_env 10%N (TRRemove (Some 1%N) (Some 10%N)) one)). exists t.
  assert (H : rtc tstep none t).
  { eapply rtc_l; [|apply rtc_once].
    - apply (tstep_serve _ _ env _ 10%N (TRCreate (Some " Core "))); [reflexivity| |reflexivity]. by intros m ?%not_elem_of_nil.
    - apply (tstep_serve _ _ later_env _ 10%N (TRRemove (Some 1%N) (Some 10%N))); [reflexivity| |reflexivity].
      intros m ->%list_elem_of_singleton. discriminate. }
  split; [exact H|]. split; [reflexivity|]. apply (teams_keep_an_owner _ _ H).
  split; [constructor|by intros r ?%not_elem_of_nil].
Defined.

Lemma invite_admits_its_address_once_witness :
  fst (serveTeam env 11%N (TRAccept "tok-1") invited) = TeamNoContent
  /\ fst (serveTeam later_env 11%N (TRAccept "tok-1") (snd (serveTeam later_env 11%N (TRRemove (Some 1%N) (Some 11%N)) joined)))
     <> TeamNoContent.
Proof.
  assert (H : serveTeam env 11%N (TRAccept "tok-1") invited = (TeamNoContent, joined)) by by vm_compute.
  split; [by rewrite H|].
  destruct (invite_admits_its_address_once env engine 11%N "tok-1" invited joined (NoDup_singleton _) H) as [_ Hl].
  apply Hl. apply rtc_once, (later_serve _ _ _ later_env engine 11%N (TRRemove (Some 1%N) (Some 11%N))); [discriminate|reflexivity].
Defined.

Lemma time_table :
  forallb (fun h => forallb (fun m =>
    bool_decide (scan_hhmm (FormatClock ((h * 60 + m) * Minute) +:+ ":00") = (h, m))) (seqZ 0 60)) (seqZ 0 24) = true.
Proof. by vm_compute. Qed.

Lemma time_text_reads : reads_clock time_text.
Proof.
  intros s ns Hs. unfold time_text. rewrite Hs. destruct (ParseHHMM_range s ns Hs) as (h & m & -> & Hh & Hm).
  pose proof time_table as T. rewrite forallb_elem in T. specialize (T h). rewrite elem_of_seqZ in T. specialize (T ltac:(lia)).
  rewrite forallb_elem in T. specialize (T m). rewrite elem_of_seqZ in T. specialize (T ltac:(lia)).
  apply bool_decide_eq_true in T. rewrite T. f_equal.
  - unfold Hour. rewrite (Z.mul_comm 60 Minute), <- Z.div_div, Z.div_mul by (unfold Minute, Second; lia). dlia.
  - rewrite Z.div_mul by (unfold Minute, Second; lia). dlia.
Qed.

Definition zone_shown : NoMeetingZone :=
  {| Z_ID := 1%N; Z_Team := 1%N; DayOfWeek := 1; StartTime := "12:00:00"; EndTime := "14:00:00"; Label := "Lunch" |}.

Lemma zone_added : serveTeam env 10%N (TRAddZone (Some 1%N) (Some zone)) joined = (ZoneShown true zone_shown, zoned).
Proof. by vm_compute. Qed.

Definition slot_count (a : TeamAnswer) : nat := match a with SlotsListed l => length l | _ => 0 end.

Lemma created_zone_is_kept_free_witness :
  slot_count (availability env 11%N (Some 1%N) "2025-01-06" "60" zoned) = 22%nat
  /\ DayOfWeek zone_shown = zb_DayOfWeek zone.
Proof.
  split; [vm_compute; reflexivity|].
  exact (proj1 (created_zone_is_kept_free env engine (engine_availability_laws _ _ _ _ _ _) 10%N 1%N zone joined zone_shown zoned
           time_text_reads zone_added)).
Defined.

Lemma strangers_are_refused_witness :
  serveTeam env 12%N (TRAvailability (Some 1%N) "2025-01-06" "60") zoned = (TeamError 403 "forbidden", zoned)
  /\ (serveTeam env 12%N (TRZones (Some 1%N)) zoned = (forbidden, zoned)
      \/ serveTeam env 12%N (TRZones (Some 1%N)) zoned = (TeamError 400 "invalid user id", zoned)).
Proof. split; [reflexivity|]. apply (strangers_are_refused env engine 12%N (TRZones (Some 1%N)) zoned 1%N); reflexivity. Defined.

Lemma invitation_goes_to_one_word_witness :
  exists i mail, serveTeam env 10%N invite one = (TeamInvited i mail, invited) /\ InviteeEmail i = "bob@x.org"
    /\ sforallb is_vchar (InviteeEmail i) = true.
Proof.
  assert (H : exists i mail, serveTeam env 10%N invite one = (TeamInvited i mail, invited)) by (vm_compute; eauto).
  destruct H as (i & mail & H). exists i, mail. split; [exact H|]. split.
  - assert (E : match fst (serveTeam env 10%N invite one) with TeamInvited i _ => InviteeEmail i | _ => "" end = "bob@x.org") by by vm_compute.
    by rewrite H in E.
  - exact (proj1 (invitation_goes_to_one_word env engine 10%N (Some 1%N) (Some " BOB@x.org ") one i mail invited H)).
Defined.

(** When the row of the owner cannot be written the new team is answered as
    created and has no owner: nobody can change or delete it. *)
Example team_without_owner :
  let env := at_ (fun c => match c with TCOwner => true | _ => false end) monday 1%N "tok-1" in
  let '(a, t) := serveTeam env 10%N (TRCreate (Some "Core")) none in
  match a with TeamShown true _ => True | _ => False end /\ length (tt_teams t) = 1%nat /\ tt_members t = []
  /\ fst (serveTeam later_env 10%N (TRDelete (Some 1%N)) t) = TeamError 403 "forbidden".
Proof. by vm_compute. Qed.

(** Only the sweep looks at the age of an invitation: when it fails, an
    invitation of last year is accepted. *)
Example old_invitation_accepted :
  let env := at_ (fun c => match c with TCExpire => true | _ => false end) (Date 2026 1 6 8 0 0 0 UTC) 2%N "tok-2" in
  fst (serveTeam env 11%N (TRAccept "tok-1") invited) = TeamNoContent
  /\ fst (serveTeam (at_ never (Date 2026 1 6 8 0 0 0 UTC) 2%N "tok-2") 11%N (TRAccept "tok-1") invited)
     = TeamError 410 "invite is expired".
Proof. by vm_compute. Qed.

(** The name of a team stands in the subject as it is: a line end in it ends
    the header, and what follows is a header of its own. *)
Example team_name_adds_header :
  let named := snd (serveTeam env 10%N (TRPatch (Some 1%N) (Some ("Core" +:+ CRLF +:+ "Bcc: all@y.org"))) one) in
  exists i m rest, fst (serveTeam env 10%N invite named) = TeamInvited i (Some m)
    /\ m_Msg m = "From: team@x.org" +:+ CRLF +:+ "To: bob@x.org" +:+ CRLF +:+ "Subject: Ada invited you to join the "
                 +:+ String "034" "Core" +:+ CRLF +:+ "Bcc: all@y.org" +:+ rest.
Proof. vm_compute. do 3 eexists. split; [reflexivity|reflexivity]. Qed.
