(* ===== verification/PersonalCalendars.v ===== *)
(** * Personal calendars and their blockers

    [storage/personal_calendars.go], [storage/personal_calendars_secrets.go],
    [engine/personal_blocker.go], [calendar/personal_reader.go] and
    [api/handlers_personal.go]: the calendars a user adds, with their sealed
    secrets, and the sync that mirrors their events into the work calendar.  The
    work calendar is a map of events; the providers' answers are parameters; the
    two pools of a sync are runs of [PerItem]. *)

From S2P Require Import Prelude GoInt GoTime GoText Interval PerItem SecretBox SecretStore AdminStore AISettings FocusTime BookingHandlers LinkStore Calendar Settings.

#[local] Open Scope string_scope.
#[local] Open Scope list_scope.
#[local] Open Scope Z_scope.

(** ** Tables *)

(** A row of [personal_calendars], its secrets as stored. *)
Record CalendarRow := {
  cl_ID : Z; cl_User : uuid; cl_Provider : string; cl_Name : string; cl_URL : string; cl_Credentials : string;
  cl_Enabled : bool; cl_LastSynced : option time }.

(** A row as it is read. *)
Record PersonalCalendar := {
  pc_ID : Z; pc_UserID : uuid; pc_Provider : string; pc_Name : string; pc_URL : string; pc_CredentialsJSON : string;
  pc_Enabled : bool; pc_LastSyncedAt : option time; pc_SecretErr : option DecryptError }.

(** The calendars in identifier order, the sequence of identifiers, and the
    blockers: the work event of a calendar's event. *)
Record PersonalTables := { pt_next : Z; pt_cals : list CalendarRow; pt_blockers : gmap (Z * string) string }.

Definition set_cals (f : list CalendarRow -> list CalendarRow) (t : PersonalTables) : PersonalTables :=
  {| pt_next := pt_next t; pt_cals := f (pt_cals t); pt_blockers := pt_blockers t |}.
Definition set_blockers (f : gmap (Z * string) string -> gmap (Z * string) string) (t : PersonalTables) : PersonalTables :=
  {| pt_next := pt_next t; pt_cals := pt_cals t; pt_blockers := f (pt_blockers t) |}.

Section Storage.
Context {V : Vault}.

(** [scanPersonalCalendar]. *)
Definition scanPersonalCalendar (r : CalendarRow) : PersonalCalendar :=
  let '(url, e1) := open_or_empty (bindPersonal "url" (cl_ID r)) (cl_URL r) in
  let '(creds, e2) := open_or_empty (bindPersonal "credentials_json" (cl_ID r)) (cl_Credentials r) in
  {| pc_ID := cl_ID r; pc_UserID := cl_User r; pc_Provider := cl_Provider r; pc_Name := cl_Name r; pc_URL := url;
     pc_CredentialsJSON := creds; pc_Enabled := cl_Enabled r; pc_LastSyncedAt := cl_LastSynced r;
     pc_SecretErr := match e1 with Some e => Some e | None => e2 end |}.

Definition sealPersonal (id : Z) (url creds : string) : res KeyError (string * string) :=
  u <-? v_seal (bindPersonal "url" id) url ;;
  c <-? v_seal (bindPersonal "credentials_json" id) creds ;;
  Ok (u, c).

Definition find_calendar (t : PersonalTables) (id : Z) : option CalendarRow :=
  List.find (fun r => cl_ID r =? id) (pt_cals t).

Definition GetPersonalCalendar (t : PersonalTables) (id : Z) : option PersonalCalendar :=
  scanPersonalCalendar <$> find_calendar t id.

(** [InsertPersonalCalendar]; the identifier is used up even when sealing
    fails. *)
Definition InsertPersonalCalendar (c : PersonalCalendar) (t : PersonalTables) : res KeyError Z * PersonalTables :=
  let id := pt_next t in
  let t := {| pt_next := id + 1; pt_cals := pt_cals t; pt_blockers := pt_blockers t |} in
  match sealPersonal id (pc_URL c) (pc_CredentialsJSON c) with
  | Err e => (Err e, t)
  | Ok (url, creds) =>
      (Ok id, set_cals (fun l => l ++ [{| cl_ID := id; cl_User := pc_UserID c; cl_Provider := pc_Provider c;
                                          cl_Name := pc_Name c; cl_URL := url; cl_Credentials := creds;
                                          cl_Enabled := pc_Enabled c; cl_LastSynced := None |}]) t)
  end.

Definition owned_row (id : Z) (user : uuid) (r : CalendarRow) : bool := (cl_ID r =? id) && N.eqb (cl_User r) user.

Definition patch_row (name url : option string) (enabled : option bool) (r : CalendarRow) : CalendarRow :=
  {| cl_ID := cl_ID r; cl_User := cl_User r; cl_Provider := cl_Provider r; cl_Name := default (cl_Name r) name;
     cl_URL := default (cl_URL r) url; cl_Credentials := cl_Credentials r; cl_Enabled := default (cl_Enabled r) enabled;
     cl_LastSynced := cl_LastSynced r |}.

(** [UpdatePersonalCalendar]; [Ok None] when there is no such row of the
    user. *)
Definition UpdatePersonalCalendar (id : Z) (user : uuid) (name url : option string) (enabled : option bool)
    (t : PersonalTables) : res KeyError (option PersonalCalendar) * PersonalTables :=
  match match url with
        | None => Ok None
        | Some u => match v_seal (bindPersonal "url" id) u with Ok s => Ok (Some s) | Err e => Err e end
        end with
  | Err e => (Err e, t)
  | Ok sealed =>
      let t' := set_cals (map (fun r => if owned_row id user r then patch_row name sealed enabled r else r)) t in
      (Ok (scanPersonalCalendar <$> List.find (owned_row id user) (pt_cals t')), t')
  end.

(** [DeletePersonalCalendarForUser]; its blockers go with it (ON DELETE
    CASCADE). *)
Definition DeletePersonalCalendarForUser (id : Z) (user : uuid) (t : PersonalTables) : bool * PersonalTables :=
  if existsb (owned_row id user) (pt_cals t) then
    (true, set_blockers (base.filter (fun kv : Z * string * string => kv.1.1 <> id))
             (set_cals (keep (fun r => negb (owned_row id user r))) t))
  else (false, t).

Definition MarkPersonalCalendarSynced (now : time) (id : Z) (user : uuid) : PersonalTables -> PersonalTables :=
  set_cals (map (fun r => if owned_row id user r
    then {| cl_ID := cl_ID r; cl_User := cl_User r; cl_Provider := cl_Provider r; cl_Name := cl_Name r; cl_URL := cl_URL r;
            cl_Credentials := cl_Credentials r; cl_Enabled := cl_Enabled r; cl_LastSynced := Some now |} else r)).

Definition ListPersonalCalendarsByUser (t : PersonalTables) (user : uuid) : list PersonalCalendar :=
  map scanPersonalCalendar (keep (fun r => N.eqb (cl_User r) user) (pt_cals t)).
End Storage.

Definition GetPersonalBlocker (t : PersonalTables) (cal : Z) (event : string) : option string := pt_blockers t !! (cal, event).
Definition UpsertPersonalBlocker (cal : Z) (event work : string) : PersonalTables -> PersonalTables :=
  set_blockers (<[(cal, event) := work]>).
Definition DeletePersonalBlocker (cal : Z) (event : string) : PersonalTables -> PersonalTables :=
  set_blockers (delete (cal, event)).

(** [ListPersonalBlockers], in no order: event and work event. *)
Definition ListPersonalBlockers (t : PersonalTables) (cal : Z) : list (string * string) :=
  omap (fun kv => if kv.1.1 =? cal then Some (kv.1.2, kv.2) else None) (map_to_list (pt_blockers t)).

(** ** The sync *)

Record GenericEvent := { ge_ID : string; ge_Title : string; ge_Start : time; ge_End : time }.

Definition personalBlockerTitle : string := "[Personal] Busy".
Definition personalLookAheadDays : Z := 14.

(** [t.Truncate(24h)]: the start of the UTC day. *)
Definition truncate_day (t : time) : time := Time (t_ns t - t_ns t mod (24 * Hour)) (t_loc t).

(** [personalEventDuringWorkHours]. *)
Definition personalEventDuringWorkHours (load : string -> option Location) (e : GenericEvent) (s : option Settings) : bool :=
  match s with
  | None => true
  | Some s =>
      let loc := if String.eqb (Timezone s) "" then UTC else default UTC (load (Timezone s)) in
      let '(workStartRaw, workEndRaw, enabled) := WorkWindow (Some s) (In (ge_Start e) loc) in
      if negb enabled then false
      else
        let workStart := parseHHMM workStartRaw (ge_Start e) loc in
        let workEnd := parseHHMM workEndRaw (ge_Start e) loc in
        Before (ge_Start e) workEnd && After (ge_End e) workStart
  end.

Definition blocker_event (e : GenericEvent) : Event :=
  {| ev_Id := ""; Summary := personalBlockerTitle; Description := "Auto-created personal time blocker"; Location_ := "";
     Status := ""; Transparency := ""; Visibility := ""; ColorId := ""; OrganizerSelf := None;
     ev_Start := at_time (In (ge_Start e) UTC); ev_End := at_time (In (ge_End e) UTC); Attendees := [] |}.

(** The run of a pool: the items taken, in the order they ended, those whose
    call was made, and whether the run was cut. *)
Record PoolRun := { pr_order : list nat; pr_ran : nat -> bool; pr_cut : bool }.

(** A run the pool of [n] items can have. *)
Definition pool_run (n : nat) (r : PoolRun) : Prop :=
  exists s ok may_end p, reachable n s ok may_end p /\ returned p /\ rev (finished p) = pr_order r /\ cut p = pr_cut r
    /\ forall i, ok i = true -> pr_ran r i = true.

(** The effects of the calls that were made. *)
Definition pool_effects {T} (f : nat -> T -> T) (r : PoolRun) (t : T) : T :=
  fold_left (fun t i => if pr_ran r i then f i t else t) (pr_order r) t.

(** What a sync meets: the feed, the work calendar's client and its answers, the
    settings, the reads and writes of the tables, and its two pools. *)
Record SyncEnv := {
  se_now : time;
  se_load : string -> option Location;
  se_feed : PersonalCalendar -> time -> time -> result (list GenericEvent);
  se_calops : result unit;
  se_settings : option Settings;
  se_list_fails : bool;
  se_deletes : PoolRun;
  se_delete : string -> bool;        (** the provider deletes the work event *)
  se_drop : nat -> bool;             (** the row of the [i]-th stale blocker is deleted *)
  se_find_fails : string -> bool;
  se_creates : PoolRun;
  se_create : nat -> result string;  (** the provider's answer to the [i]-th create *)
  se_record : nat -> bool }.         (** its row is written *)

(** The tables, the work calendar, and the creates it took: event and work
    event. *)
Record World := { w_tables : PersonalTables; w_work : gmap string Event; w_created : list (string * string) }.

Section Sync.
Context (env : SyncEnv).

(** [ReadPersonalEvents]: a calendar whose secret cannot be opened is not
    read. *)
Definition ReadPersonalEvents (pc : PersonalCalendar) (start end_ : time) : result (list GenericEvent) :=
  match pc_SecretErr pc with Some _ => Err ErrCredentialStore | None => se_feed env pc start end_ end.

Definition incoming (events : list GenericEvent) (id : string) : bool := existsb (fun e => String.eqb (ge_ID e) id) events.

Definition stale_blockers (pc : PersonalCalendar) (events : list GenericEvent) (t : PersonalTables) : list (string * string) :=
  keep (fun b => negb (incoming events b.1)) (ListPersonalBlockers t (pc_ID pc)).

(** The call of one stale blocker; the provider's error is dropped. *)
Definition drop_one (pc : PersonalCalendar) (stale : list (string * string)) (i : nat) (w : World) : World :=
  match stale !! i with
  | None => w
  | Some b =>
      {| w_tables := if se_drop env i then DeletePersonalBlocker (pc_ID pc) b.1 (w_tables w) else w_tables w;
         w_work := if se_delete env b.2 then delete b.2 (w_work w) else w_work w; w_created := w_created w |}
  end.

(** The events in work hours without a row; a row that cannot be read counts as
    none. *)
Definition missing_events (pc : PersonalCalendar) (events : list GenericEvent) (t : PersonalTables) : list GenericEvent :=
  keep (fun e => personalEventDuringWorkHours (se_load env) e (se_settings env)
                 && match (if se_find_fails env (ge_ID e) then None else GetPersonalBlocker t (pc_ID pc) (ge_ID e)) with
                    | Some _ => false | None => true end) events.

(** The call of one missing event. *)
Definition create_one (pc : PersonalCalendar) (missing : list GenericEvent) (i : nat) (w : World) : World :=
  match missing !! i, se_create env i with
  | Some e, Ok id =>
      {| w_tables := if se_record env i then UpsertPersonalBlocker (pc_ID pc) (ge_ID e) id (w_tables w) else w_tables w;
         w_work := <[id := blocker_event e]> (w_work w); w_created := w_created w ++ [(ge_ID e, id)] |}
  | _, _ => w
  end.

(** [syncOne]. *)
Definition syncOne (pc : PersonalCalendar) (w : World) : result unit * World :=
  let start := truncate_day (se_now env) in
  let end_ := AddDate start 0 0 personalLookAheadDays in
  match ReadPersonalEvents pc start end_ with
  | Err e => (Err e, w)
  | Ok events =>
      match se_calops env with
      | Err e => (Err e, w)
      | Ok _ =>
          if se_list_fails env then (Err ErrStorage, w)
          else
            let stale := stale_blockers pc events (w_tables w) in
            let w1 := pool_effects (drop_one pc stale) (se_deletes env) w in
            if pr_cut (se_deletes env) then (Err ErrExpired, w1)
            else
              let missing := missing_events pc events (w_tables w1) in
              let w2 := pool_effects (create_one pc missing) (se_creates env) w1 in
              (if pr_cut (se_creates env) then Err ErrExpired else Ok tt, w2)
      end
  end.
End Sync.

(** [SyncAllForUser]: every enabled calendar of the user, whatever happened to
    those before; [env] is what the sync of a calendar meets. *)
Definition SyncAllForUser {V : Vault} (env : Z -> SyncEnv) (user : uuid) (fails : bool) (w : World) : result unit * World :=
  if N.eqb user uuid_nil || fails then (Err ErrStorage, w)
  else (Ok tt, fold_left (fun w pc => if pc_Enabled pc then snd (syncOne (env (pc_ID pc)) pc w) else w)
                 (ListPersonalCalendarsByUser (w_tables w) user) w).

(** ** Handlers *)

Record personalCalendarDTO := {
  pd_ID : Z; pd_Label : string; pd_Type : string; pd_URL : string; pd_Enabled : bool; pd_LastSyncedAt : option string }.

Definition toPersonalCalendarDTO (c : PersonalCalendar) : personalCalendarDTO :=
  {| pd_ID := pc_ID c; pd_Label := pc_Name c; pd_Type := pc_Provider c; pd_URL := pc_URL c; pd_Enabled := pc_Enabled c;
     pd_LastSyncedAt := (fun t => FormatRFC3339 (In t UTC)) <$> pc_LastSyncedAt c |}.

Inductive PersonalAnswer :=
| PersonalError (code : Z) (msg : string)
| PersonalExpired                                        (** the 503 of the budget *)
| PersonalShown (created : bool) (d : personalCalendarDTO)
| PersonalListed (l : list personalCalendarDTO)
| PersonalEvents (l : list GenericEvent)
| PersonalNoContent.

Inductive PersonalCall := PCList | PCInsert | PCUpdate | PCDelete | PCGet | PCMark | PCReread | PCAnswer.

(** A request: the calls that fail, the clock, and what a sync or a preview
    meets. *)
Record PersonalEnv := { pe_fails : PersonalCall -> bool; pe_now : time; pe_sync : SyncEnv }.

Inductive PersonalRequest :=
| PRList
| PRCreate (body : option (string * string * string * bool))
| PRPatch (id : option Z) (body : option (option string * option string * option bool))
| PRDelete (id : option Z)
| PRPreview (id : option Z)
| PRSync (id : option Z).

Section Handlers.
Context {V : Vault} (env : PersonalEnv) (user : uuid).

Definition invalid_id : PersonalAnswer := PersonalError 400 "invalid id".
Definition no_calendar : PersonalAnswer := PersonalError 404 "personal calendar not found".
Definition on_tables (p : PersonalAnswer * PersonalTables) (w : World) : PersonalAnswer * World :=
  (p.1, {| w_tables := p.2; w_work := w_work w; w_created := w_created w |}).

Definition list_ (t : PersonalTables) : PersonalAnswer :=
  if N.eqb user uuid_nil || pe_fails env PCList then PersonalError 500 "list"
  else PersonalListed (map toPersonalCalendarDTO (ListPersonalCalendarsByUser t user)).

(** [create]: provider, name, url and enabled. *)
Definition create (body : option (string * string * string * bool)) (t : PersonalTables) : PersonalAnswer * PersonalTables :=
  match body with
  | None => (PersonalError 400 "invalid body", t)
  | Some (provider, name, url, enabled) =>
      if String.eqb provider "" then (PersonalError 400 "provider required", t)
      else
        let c id := {| pc_ID := id; pc_UserID := user; pc_Provider := provider;
                       pc_Name := if String.eqb name "" then "Personal" else name; pc_URL := url; pc_CredentialsJSON := "";
                       pc_Enabled := enabled; pc_LastSyncedAt := None; pc_SecretErr := None |} in
        if pe_fails env PCInsert then (PersonalError 500 "create", t)
        else match InsertPersonalCalendar (c 0) t with
        | (Err _, t') => (PersonalError 500 "create", t')
        | (Ok id, t') => (PersonalShown true (toPersonalCalendarDTO (c id)), t')
        end
  end.

Definition patch (id : option Z) (body : option (option string * option string * option bool)) (t : PersonalTables)
  : PersonalAnswer * PersonalTables :=
  match id, body with
  | None, _ => (invalid_id, t)
  | _, None => (PersonalError 400 "invalid body", t)
  | Some id, Some (name, url, enabled) =>
      if pe_fails env PCUpdate then (PersonalError 500 "patch", t)
      else match UpdatePersonalCalendar id user name url enabled t with
      | (Err _, t') => (PersonalError 500 "patch", t')
      | (Ok None, t') => (no_calendar, t')
      | (Ok (Some c), t') => (PersonalShown false (toPersonalCalendarDTO c), t')
      end
  end.

Definition delete_ (id : option Z) (t : PersonalTables) : PersonalAnswer * PersonalTables :=
  match id with
  | None => (invalid_id, t)
  | Some id =>
      if pe_fails env PCDelete then (PersonalError 500 "delete", t)
      else match DeletePersonalCalendarForUser id user t with
      | (true, t') => (PersonalNoContent, t')
      | (false, t') => (no_calendar, t')
      end
  end.

Definition readOwned (call : PersonalCall) (id : Z) (t : PersonalTables) : option PersonalCalendar :=
  if pe_fails env call then None
  else c ← GetPersonalCalendar t id; if N.eqb (pc_UserID c) user then Some c else None.

Definition ownedCalendar : Z -> PersonalTables -> option PersonalCalendar := readOwned PCGet.

(** [preview]: the engine reads the calendar again. *)
Definition preview (id : option Z) (t : PersonalTables) : PersonalAnswer :=
  match id with
  | None => invalid_id
  | Some id =>
      match ownedCalendar id t with
      | None => no_calendar
      | Some _ =>
          let start := truncate_day (pe_now env) in
          match (if pe_fails env PCReread then None else GetPersonalCalendar t id) with
          | None => PersonalError 500 "preview"
          | Some pc =>
              match ReadPersonalEvents (pe_sync env) pc start (AddDate start 0 0 14) with
              | Ok events => PersonalEvents events
              | Err _ => PersonalError 500 "preview"
              end
          end
      end
  end.

(** [sync]. *)
Definition sync (id : option Z) (w : World) : PersonalAnswer * World :=
  match id with
  | None => (invalid_id, w)
  | Some id =>
      match ownedCalendar id (w_tables w) with
      | None => (no_calendar, w)
      | Some _ =>
          match (if pe_fails env PCReread then None else GetPersonalCalendar (w_tables w) id) with
          | None => (PersonalError 500 "sync", w)
          | Some pc =>
              match syncOne (pe_sync env) pc w with
              | (Err e, w') =>
                  (if budgetCut e then PersonalExpired
                   else if bool_decide (e = ErrCalendarNotConnected) then PersonalError 401 "calendar not connected"
                   else PersonalError 500 "sync", w')
              | (Ok _, w') =>
                  if pe_fails env PCMark then (PersonalError 500 "mark synced", w')
                  else
                    let t := MarkPersonalCalendarSynced (pe_now env) id user (w_tables w') in
                    (match readOwned PCAnswer id t with
                     | Some c => PersonalShown false (toPersonalCalendarDTO c)
                     | None => no_calendar
                     end, {| w_tables := t; w_work := w_work w'; w_created := w_created w' |})
              end
          end
      end
  end.

Definition servePersonal (r : PersonalRequest) (w : World) : PersonalAnswer * World :=
  match r with
  | PRList => (list_ (w_tables w), w)
  | PRCreate body => on_tables (create body (w_tables w)) w
  | PRPatch id body => on_tables (patch id body (w_tables w)) w
  | PRDelete id => on_tables (delete_ id (w_tables w)) w
  | PRPreview id => (preview id (w_tables w), w)
  | PRSync id => sync id w
  end.
End Handlers.

(** ** Facts: pools *)

Lemma pool_run_items n r : pool_run n r -> NoDup (pr_order r) /\ (forall i, i ∈ pr_order r -> (i < n)%nat)
  /\ (pr_cut r = false -> forall i, (i < n)%nat -> i ∈ pr_order r /\ pr_ran r i = true).
Proof.
  intros (s & ok & may_end & p & Hr & Hret & Ho & Hc & Hok). pose proof (reachable_inv _ _ _ _ p Hr) as Hi.
  destruct Hret as [Hd Hf]. pose proof (inv_items _ _ _ _ _ Hi) as Hp. rewrite Hf in Hp. cbn [app] in Hp.
  pose proof (inv_next _ _ _ _ _ Hi) as Hn. rewrite <- Ho, <- Hc.
  assert (Hin : forall i, i ∈ rev (finished p) <-> (i < next p)%nat).
  { intros i. rewrite list_elem_of_In, <- in_rev, <- list_elem_of_In, Hp. apply seq_elem. }
  split; [|split].
  - apply NoDup_ListNoDup, NoDup_rev, NoDup_ListNoDup. rewrite Hp. apply NoDup_ListNoDup, seq_NoDup.
  - intros i Hx%Hin. lia.
  - intros Hcut i Hx. destruct (returned_uncut _ _ _ _ p Hr (conj Hd Hf) Hcut) as [Hall Hoks].
    split; [|by apply Hok, Hoks]. rewrite list_elem_of_In, <- in_rev, <- list_elem_of_In, Hall. by apply seq_elem.
Qed.

(** ** Facts: the two pools of a sync *)

(** The [i]-th call of the first pool takes the row [k] away. *)
Definition drops (env : SyncEnv) (pc : PersonalCalendar) (stale : list (string * string)) (r : PoolRun) (k : Z * string) (i : nat) : bool :=
  pr_ran r i && se_drop env i && match stale !! i with Some b => bool_decide (k = (pc_ID pc, b.1)) | None => false end.

Lemma drop_one_lookup env pc stale i w k :
  pt_blockers (w_tables (drop_one env pc stale i w)) !! k =
  if se_drop env i && match stale !! i with Some b => bool_decide (k = (pc_ID pc, b.1)) | None => false end
  then None else pt_blockers (w_tables w) !! k.
Proof.
  unfold drop_one. destruct (stale !! i) as [b|]; [|by rewrite andb_false_r]. cbn [w_tables]. destruct (se_drop env i); [|done].
  cbn [andb DeletePersonalBlocker set_blockers pt_blockers]. case_bool_decide as H; [subst; apply lookup_delete_eq|].
  by apply lookup_delete_ne.
Qed.

Lemma drop_effects_lookup env pc stale r w k :
  pt_blockers (w_tables (pool_effects (drop_one env pc stale) r w)) !! k =
  if existsb (drops env pc stale r k) (pr_order r) then None else pt_blockers (w_tables w) !! k.
Proof.
  unfold pool_effects. generalize (pr_order r) as l. intros l. revert w. induction l as [|i l IH]; intros w; [done|].
  cbn [fold_left existsb]. rewrite IH. unfold drops at 2. destruct (pr_ran r i); cbn [andb orb]; [|done].
  rewrite drop_one_lookup. destruct (se_drop env i && _); cbn [orb]; [|done]. by destruct (existsb _ l).
Qed.

Lemma drop_effects_rest env pc stale r w :
  w_created (pool_effects (drop_one env pc stale) r w) = w_created w
  /\ pt_cals (w_tables (pool_effects (drop_one env pc stale) r w)) = pt_cals (w_tables w).
Proof.
  unfold pool_effects. generalize (pr_order r) as l. intros l. revert w. induction l as [|i l IH]; intros w; [done|].
  cbn [fold_left]. destruct (IH (if pr_ran r i then drop_one env pc stale i w else w)) as [-> ->].
  destruct (pr_ran r i); [|done]. unfold drop_one. destruct (stale !! i); [|done]. cbn. by destruct (se_drop env i).
Qed.

(** What the [i]-th call of the second pool makes. *)
Definition makes (env : SyncEnv) (missing : list GenericEvent) (r : PoolRun) (i : nat) : option (string * string) :=
  if pr_ran r i then
    match missing !! i, se_create env i with Some e, Ok id => Some (ge_ID e, id) | _, _ => None end
  else None.

Lemma create_effects_created env pc missing r w :
  w_created (pool_effects (create_one env pc missing) r w) = w_created w ++ omap (makes env missing r) (pr_order r).
Proof.
  unfold pool_effects. generalize (pr_order r) as l. intros l. revert w. induction l as [|i l IH]; intros w.
  - by rewrite app_nil_r.
  - cbn [fold_left omap list_omap]. rewrite IH. unfold makes at 2, create_one. destruct (pr_ran r i); [|done].
    destruct (missing !! i) as [e|]; [|done]. destruct (se_create env i) as [id|]; [|done]. cbn [w_created]. by rewrite <- app_assoc.
Qed.

Lemma create_effects_cals env pc missing r w :
  pt_cals (w_tables (pool_effects (create_one env pc missing) r w)) = pt_cals (w_tables w).
Proof.
  unfold pool_effects. generalize (pr_order r) as l. intros l. revert w. induction l as [|i l IH]; intros w; [done|].
  cbn [fold_left]. rewrite IH. destruct (pr_ran r i); [|done]. unfold create_one. destruct (missing !! i); [|done].
  destruct (se_create env i); [|done]. cbn. by destruct (se_record env i).
Qed.

(** The [i]-th call writes the row [k]. *)
Definition writes (env : SyncEnv) (pc : PersonalCalendar) (missing : list GenericEvent) (r : PoolRun) (k : Z * string) (i : nat) : option string :=
  match makes env missing r i with
  | Some (ev, id) => if se_record env i && bool_decide (k = (pc_ID pc, ev)) then Some id else None
  | None => None
  end.

Lemma create_step_lookup env pc missing r i w k :
  pt_blockers (w_tables (if pr_ran r i then create_one env pc missing i w else w)) !! k =
  match writes env pc missing r k i with Some id => Some id | None => pt_blockers (w_tables w) !! k end.
Proof.
  unfold writes, makes, create_one. destruct (pr_ran r i); [|done]. destruct (missing !! i) as [e|]; [|done].
  destruct (se_create env i) as [id|]; [|done]. cbn [w_tables]. destruct (se_record env i); [|done].
  cbn [andb UpsertPersonalBlocker set_blockers pt_blockers]. case_bool_decide as H; [subst; apply lookup_insert_eq|].
  by apply lookup_insert_ne.
Qed.

Lemma create_effects_untouched env pc missing r w k : (forall i, i ∈ pr_order r -> writes env pc missing r k i = None) ->
  pt_blockers (w_tables (pool_effects (create_one env pc missing) r w)) !! k = pt_blockers (w_tables w) !! k.
Proof.
  unfold pool_effects. generalize (pr_order r) as l. intros l. revert w. induction l as [|i l IH]; intros w H; [done|].
  cbn [fold_left]. rewrite IH by (intros j Hj; apply H; by right). rewrite create_step_lookup. by rewrite H by left.
Qed.

Lemma create_effects_written env pc missing r w k i id : NoDup (pr_order r) -> i ∈ pr_order r ->
  writes env pc missing r k i = Some id -> (forall j, j <> i -> writes env pc missing r k j = None) ->
  pt_blockers (w_tables (pool_effects (create_one env pc missing) r w)) !! k = Some id.
Proof.
  unfold pool_effects. generalize (pr_order r) as l. intros l. revert w. induction l as [|j l IH]; intros w Hn Hi Hw Ho.
  { by apply not_elem_of_nil in Hi. }
  apply NoDup_cons in Hn as [Hnj Hn]. cbn [fold_left]. apply elem_of_cons in Hi as [-> |Hi].
  - pose proof (create_effects_untouched env pc missing {| pr_order := l; pr_ran := pr_ran r; pr_cut := pr_cut r |}
                  (if pr_ran r j then create_one env pc missing j w else w) k) as Hu.
    unfold pool_effects in Hu. cbn [pr_order pr_ran] in Hu. rewrite Hu.
    + rewrite create_step_lookup. by rewrite Hw.
    + intros x Hx. apply Ho. by intros ->.
  - by apply IH.
Qed.

Lemma ListPersonalBlockers_elem t cal b : b ∈ ListPersonalBlockers t cal <-> pt_blockers t !! (cal, b.1) = Some b.2.
Proof.
  unfold ListPersonalBlockers. rewrite list_elem_of_omap. split.
  - intros ([[c ev] work] & Hin%elem_of_map_to_list & Hb). cbn [fst snd] in Hb. destruct (Z.eqb_spec c cal) as [->|]; [|done].
    by injection Hb as <-.
  - intros H. exists ((cal, b.1), b.2). split; [by apply elem_of_map_to_list|]. cbn [fst snd]. rewrite Z.eqb_refl. by destruct b.
Qed.

Lemma incoming_spec events id : incoming events id = true <-> exists e, e ∈ events /\ ge_ID e = id.
Proof. unfold incoming. rewrite existsb_elem. setoid_rewrite String.eqb_eq. done. Qed.

(** The rows after the first pool: those of events that still come, and, when it
    was not cut and the rows could be deleted, no others of the calendar. *)
Lemma after_deletes_kept env pc events w id :
  incoming events id = true ->
  pt_blockers (w_tables (pool_effects (drop_one env pc (stale_blockers pc events (w_tables w))) (se_deletes env) w)) !! (pc_ID pc, id)
  = pt_blockers (w_tables w) !! (pc_ID pc, id).
Proof.
  intros H. rewrite drop_effects_lookup. destruct (existsb _ _) eqn:E; [|done]. exfalso.
  apply existsb_elem in E as (i & _ & [_ Hs]%andb_true_iff). destruct (_ !! i) as [b|] eqn:Eb; [|done].
  apply bool_decide_eq_true in Hs. injection Hs as ->. apply list_elem_of_lookup_2, elem_of_keep in Eb as [_ Hn].
  by rewrite H in Hn.
Qed.

Lemma after_deletes_other env pc stale r w c id : c <> pc_ID pc ->
  pt_blockers (w_tables (pool_effects (drop_one env pc stale) r w)) !! (c, id) = pt_blockers (w_tables w) !! (c, id).
Proof.
  intros H. rewrite drop_effects_lookup. destruct (existsb _ _) eqn:E; [|done]. exfalso.
  apply existsb_elem in E as (i & _ & [_ Hs]%andb_true_iff). destruct (_ !! i) as [b|]; [|done].
  apply bool_decide_eq_true in Hs. congruence.
Qed.

Lemma after_deletes_gone env pc events w id :
  pool_run (length (stale_blockers pc events (w_tables w))) (se_deletes env) -> pr_cut (se_deletes env) = false ->
  (forall i, se_drop env i = true) -> incoming events id = false ->
  pt_blockers (w_tables (pool_effects (drop_one env pc (stale_blockers pc events (w_tables w))) (se_deletes env) w)) !! (pc_ID pc, id) = None.
Proof.
  intros Hp Hc Hd Hi. rewrite drop_effects_lookup. destruct (pt_blockers (w_tables w) !! (pc_ID pc, id)) as [work|] eqn:E.
  2:{ by destruct (existsb _ _). }
  assert (Hin : (id, work) ∈ stale_blockers pc events (w_tables w)).
  { apply elem_of_keep. split; [by apply ListPersonalBlockers_elem|]. cbn. by rewrite Hi. }
  apply list_elem_of_lookup in Hin as [i Hl]. destruct (pool_run_items _ _ Hp) as (_ & _ & Hall).
  destruct (Hall Hc i (lookup_lt_Some _ _ _ Hl)) as [Ho Hr].
  replace (existsb _ _) with true; [done|]. symmetry. apply existsb_elem. exists i. split; [done|].
  unfold drops. rewrite Hr, Hd, Hl. by apply bool_decide_eq_true.
Qed.

Lemma writes_inv env pc missing r k i id : writes env pc missing r k i = Some id ->
  exists e, missing !! i = Some e /\ k = (pc_ID pc, ge_ID e) /\ se_create env i = Ok id.
Proof.
  unfold writes, makes. destruct (pr_ran r i); [|done]. destruct (missing !! i) as [e|]; [|done].
  destruct (se_create env i) as [x|] eqn:Ec; [|done]. destruct (se_record env i); [|done]. cbn [andb]. case_bool_decide; [|done].
  intros [= <-]. by exists e.
Qed.

(** C28: A sync never makes a second blocker: while an event keeps coming and its row
    can be read, the sync leaves the row as it is and creates nothing for it,
    whatever was cut or failed.  So a re-run of an interrupted sync creates only
    what has no row. *)
Theorem sync_never_doubles env pc w id work :
  GetPersonalBlocker (w_tables w) (pc_ID pc) id = Some work ->
  (forall start end_ events, se_feed env pc start end_ = Ok events -> incoming events id = true) ->
  se_find_fails env id = false ->
  GetPersonalBlocker (w_tables (snd (syncOne env pc w))) (pc_ID pc) id = Some work
  /\ exists made, w_created (snd (syncOne env pc w)) = w_created w ++ made /\ forall work', (id, work') ∉ made.
Proof.
  intros Hw Hin Hf. assert (Hnone : forall v : World, v = w -> GetPersonalBlocker (w_tables v) (pc_ID pc) id = Some work
    /\ exists made, w_created v = w_created w ++ made /\ forall work', (id, work') ∉ made).
  { intros v ->. split; [done|]. exists []. rewrite app_nil_r. split; [done|]. intros ? []%not_elem_of_nil. }
  unfold syncOne. destruct (ReadPersonalEvents env pc _ _) as [events|] eqn:Er; [|by apply Hnone].
  assert (Hi : incoming events id = true).
  { unfold ReadPersonalEvents in Er. destruct (pc_SecretErr pc); [done|]. by eapply Hin. }
  destruct (se_calops env); [|by apply Hnone]. destruct (se_list_fails env); [by apply Hnone|]. cbv zeta.
  set (w1 := pool_effects (drop_one env pc _) _ w).
  assert (H1 : GetPersonalBlocker (w_tables w1) (pc_ID pc) id = Some work).
  { unfold GetPersonalBlocker, w1. by rewrite after_deletes_kept. }
  assert (Hc1 : w_created w1 = w_created w) by apply drop_effects_rest.
  destruct (pr_cut (se_deletes env)); cbn [snd].
  { split; [done|]. exists []. rewrite app_nil_r. split; [done|]. intros ? []%not_elem_of_nil. }
  assert (Hmiss : forall i e, missing_events env pc events (w_tables w1) !! i = Some e -> ge_ID e <> id).
  { intros i e He%list_elem_of_lookup_2 E. apply elem_of_keep in He as [_ [_ He]%andb_true_iff].
    by rewrite E, Hf, H1 in He. }
  split.
  - unfold GetPersonalBlocker. rewrite create_effects_untouched; [done|]. intros i _.
    destruct (writes _ _ _ _ _ i) as [x|] eqn:Ew; [|done]. apply writes_inv in Ew as (e & He & [= Hk] & _).
    by destruct (Hmiss i e He).
  - rewrite create_effects_created, Hc1. eexists. split; [done|]. intros work' (i & _ & Hm)%list_elem_of_omap.
    unfold makes in Hm. destruct (pr_ran _ i); [|done]. destruct (_ !! i) as [e|] eqn:He; [|done].
    destruct (se_create env i); [|done]. injection Hm as Hid _. by destruct (Hmiss i e He).
Qed.

Lemma missing_key_inj (l : list GenericEvent) i j e f : NoDup (map ge_ID l) ->
  l !! i = Some e -> l !! j = Some f -> ge_ID e = ge_ID f -> i = j.
Proof.
  intros Hn He Hf E. assert (Hmap : forall k x, l !! k = Some x -> map ge_ID l !! k = Some (ge_ID x)).
  { intros k x Hx. rewrite list_lookup_fmap. by rewrite Hx. }
  apply (NoDup_lookup (map ge_ID l) i j (ge_ID e) Hn (Hmap i e He)). rewrite E. by apply Hmap.
Qed.

(** C27: A sync that nothing disturbs mirrors a feed whose events have different
    identifiers.  The feed can be read, the work calendar is connected and can be
    listed, no look at a stored blocker fails, every removal, creation and record
    succeeds, and neither pool is cut.  Then afterwards the calendar has a
    blocker for exactly the events that had one or lie in work hours, the other
    calendars' blockers are as they were, and every event it created in the work
    calendar is the one its row names.  (Two occurrences under one identifier
    leave an event no row names, see [same_identifier_leaves_a_blocker].) *)
Theorem sync_mirrors_the_feed env pc w events :
  let start := truncate_day (se_now env) in
  let stale := stale_blockers pc events (w_tables w) in
  let w1 := pool_effects (drop_one env pc stale) (se_deletes env) w in
  ReadPersonalEvents env pc start (AddDate start 0 0 personalLookAheadDays) = Ok events -> NoDup (map ge_ID events) ->
  se_calops env = Ok tt -> se_list_fails env = false -> (forall id, se_find_fails env id = false) ->
  (forall i, se_drop env i = true /\ se_record env i = true /\ exists id, se_create env i = Ok id) ->
  pool_run (length stale) (se_deletes env) -> pr_cut (se_deletes env) = false ->
  pool_run (length (missing_events env pc events (w_tables w1))) (se_creates env) -> pr_cut (se_creates env) = false ->
  exists w' made, syncOne env pc w = (Ok tt, w')
  /\ (forall id, is_Some (GetPersonalBlocker (w_tables w') (pc_ID pc) id) <->
        exists e, e ∈ events /\ ge_ID e = id /\
          (is_Some (GetPersonalBlocker (w_tables w) (pc_ID pc) id)
           \/ personalEventDuringWorkHours (se_load env) e (se_settings env) = true))
  /\ (forall c id, c <> pc_ID pc -> GetPersonalBlocker (w_tables w') c id = GetPersonalBlocker (w_tables w) c id)
  /\ w_created w' = w_created w ++ made
  /\ (forall ev work, (ev, work) ∈ made -> GetPersonalBlocker (w_tables w') (pc_ID pc) ev = Some work).
Proof.
  intros start stale w1 Hr Hn Hc Hl Hf Hok Hp1 Hc1 Hp2 Hc2. set (missing := missing_events env pc events (w_tables w1)) in *.
  set (w' := pool_effects (create_one env pc missing) (se_creates env) w1). exists w', (omap (makes env missing (se_creates env)) (pr_order (se_creates env))).
  destruct (pool_run_items _ _ Hp2) as (Hnd & Hlt & Hall). specialize (Hall Hc2).
  assert (Hnm : NoDup (map ge_ID missing)).
  { eapply sublist_NoDup; [exact Hn|]. apply (fmap_sublist ge_ID), keep_sublist. }
  assert (Hwrite : forall i e id, missing !! i = Some e -> se_create env i = Ok id ->
            pt_blockers (w_tables w') !! (pc_ID pc, ge_ID e) = Some id).
  { intros i e id He Hid. destruct (Hall i (lookup_lt_Some _ _ _ He)) as [Ho Hran].
    apply (create_effects_written env pc missing (se_creates env) w1 _ i); [done|done|..].
    - unfold writes, makes. rewrite Hran, He, Hid. destruct (Hok i) as (_ & -> & _). cbn [andb]. by rewrite bool_decide_true.
    - intros j Hj. destruct (writes env pc missing _ _ j) as [x|] eqn:Ew; [|done].
      apply writes_inv in Ew as (f & Hfj & [= Hk] & _). destruct Hj. by apply (missing_key_inj missing j i f e). }
  assert (Hold : forall k, (forall i e, missing !! i = Some e -> k <> (pc_ID pc, ge_ID e)) ->
            pt_blockers (w_tables w') !! k = pt_blockers (w_tables w1) !! k).
  { intros k Hk. apply create_effects_untouched. intros i _. destruct (writes env pc missing _ k i) as [x|] eqn:Ew; [|done].
    apply writes_inv in Ew as (e & He & -> & _). by destruct (Hk i e He). }
  split; [|split; [|split; [|split]]].
  - unfold syncOne. cbv zeta. fold start. rewrite Hr, Hc, Hl. fold stale. fold w1. rewrite Hc1. fold missing. by rewrite Hc2.
  - intros id. destruct (incoming events id) eqn:Hin.
    + apply incoming_spec in Hin as Hin'. destruct Hin' as (e & He & Hid). subst id.
      assert (H1 : GetPersonalBlocker (w_tables w1) (pc_ID pc) (ge_ID e) = GetPersonalBlocker (w_tables w) (pc_ID pc) (ge_ID e))
        by (by apply after_deletes_kept).
      assert (Hmem : e ∈ missing <-> personalEventDuringWorkHours (se_load env) e (se_settings env) = true
                                     /\ GetPersonalBlocker (w_tables w) (pc_ID pc) (ge_ID e) = None).
      { unfold missing, missing_events. rewrite elem_of_keep, andb_true_iff, Hf, H1. destruct (GetPersonalBlocker (w_tables w) (pc_ID pc) (ge_ID e)); split.
        - by intros (_ & _ & ?).
        - by intros [_ ?].
        - by intros (_ & ? & _).
        - by intros [? _]. }
      assert (Hu : forall f, f ∈ events -> ge_ID f = ge_ID e -> f = e) by (intros f Hfe E; by apply (NoDup_map_elem ge_ID events)).
      destruct (GetPersonalBlocker (w_tables w) (pc_ID pc) (ge_ID e)) as [work|] eqn:Eb.
      * split; [intros _; exists e; eauto|]. intros _. unfold GetPersonalBlocker. rewrite Hold.
        { unfold GetPersonalBlocker in H1. rewrite H1. eauto. }
        intros i f Hfi [= Hk]. apply list_elem_of_lookup_2 in Hfi. assert (f = e) as ->.
        { apply Hu; [|done]. unfold missing, missing_events in Hfi. by apply elem_of_keep in Hfi as [? _]. }
        by apply Hmem in Hfi as [_ ?].
      * destruct (personalEventDuringWorkHours (se_load env) e (se_settings env)) eqn:Ewh.
        -- split; [intros _; exists e; eauto|]. intros _. pose proof (proj2 Hmem (conj eq_refl eq_refl)) as Hm.
           apply list_elem_of_lookup in Hm as [i Hi]. destruct (Hok i) as (_ & _ & id & Hid).
           unfold GetPersonalBlocker. rewrite (Hwrite i e id); [eauto|done|done].
        -- split; [|intros (f & Hfe & E & [[? Hx]|Hx]); [done|by rewrite (Hu f Hfe E), Ewh in Hx]].
           unfold GetPersonalBlocker. rewrite Hold; [unfold GetPersonalBlocker in H1; rewrite H1; by intros []|].
           intros i f Hfi [= Hk]. apply list_elem_of_lookup_2 in Hfi. assert (f = e) as ->.
           { apply Hu; [|done]. unfold missing, missing_events in Hfi. by apply elem_of_keep in Hfi as [? _]. }
           by apply Hmem in Hfi as [? _].
    + assert (Hno : forall e, e ∈ events -> ge_ID e <> id).
      { intros e He E. apply not_true_iff_false in Hin. apply Hin, incoming_spec. eauto. }
      split; [|intros (e & He & E & _); by destruct (Hno e He)].
      unfold GetPersonalBlocker. rewrite Hold.
      * unfold w1, stale. rewrite after_deletes_gone; [by intros []|done|done|apply Hok|done].
      * intros i f Hfi [= Hk]. apply list_elem_of_lookup_2, elem_of_keep in Hfi as [Hfe _]. by apply (Hno f Hfe).
  - intros c id Hne. unfold GetPersonalBlocker. rewrite Hold by congruence. by apply after_deletes_other.
  - unfold w'. rewrite create_effects_created. f_equal. apply drop_effects_rest.
  - intros ev work (i & Ho & Hm)%list_elem_of_omap. unfold makes in Hm. destruct (pr_ran _ i); [|done].
    destruct (missing !! i) as [e|] eqn:He; [|done]. destruct (se_create env i) as [id|] eqn:Hid; [|done].
    injection Hm as <- <-. by apply (Hwrite i).
Qed.

(** ** Facts: what a request touches *)

Lemma syncOne_scope env pc w : let w' := snd (syncOne env pc w) in
  pt_cals (w_tables w') = pt_cals (w_tables w)
  /\ forall c id, c <> pc_ID pc -> pt_blockers (w_tables w') !! (c, id) = pt_blockers (w_tables w) !! (c, id).
Proof.
  unfold syncOne. destruct (ReadPersonalEvents env pc _ _) as [events|]; [|done]. destruct (se_calops env); [|done].
  destruct (se_list_fails env); [done|]. cbv zeta.
  pose proof (drop_effects_rest env pc (stale_blockers pc events (w_tables w)) (se_deletes env) w) as [_ Hc].
  pose proof (after_deletes_other env pc (stale_blockers pc events (w_tables w)) (se_deletes env) w) as Ho.
  destruct (pr_cut (se_deletes env)); cbn [snd]; [done|]. split; [by rewrite create_effects_cals|].
  intros c id Hn. rewrite create_effects_untouched; [by apply Ho|]. intros i _.
  destruct (writes _ _ _ _ _ i) as [x|] eqn:Ew; [|done]. apply writes_inv in Ew as (e & _ & [= Hk _] & _). done.
Qed.

Lemma readOwned_Some {V : Vault} env user call id t c : readOwned env user call id t = Some c ->
  exists r, find_calendar t id = Some r /\ cl_User r = user /\ c = scanPersonalCalendar r /\ cl_ID r = id.
Proof.
  unfold readOwned, GetPersonalCalendar. destruct (pe_fails env call); [done|]. destruct (find_calendar t id) as [r|] eqn:E; [|done].
  cbn [fmap option_fmap option_map mbind option_bind]. destruct (N.eqb_spec (pc_UserID (scanPersonalCalendar r)) user) as [Hu|]; [|done].
  intros [= <-]. exists r. unfold scanPersonalCalendar in Hu. do 2 destruct (open_or_empty _ _). cbn in Hu.
  apply List.find_some in E as [_ Hid%Z.eqb_eq]. done.
Qed.

Lemma scan_ID {V : Vault} r : pc_ID (scanPersonalCalendar r) = cl_ID r.
Proof. unfold scanPersonalCalendar. by do 2 destruct (open_or_empty _ _). Qed.

(** Rows of other users, and blockers of their calendars. *)
Definition others_kept (user : uuid) (t t' : PersonalTables) : Prop :=
  (forall r, cl_User r <> user -> r ∈ pt_cals t' <-> r ∈ pt_cals t)
  /\ forall c id, (forall r, r ∈ pt_cals t -> cl_ID r = c -> cl_User r <> user) ->
       pt_blockers t' !! (c, id) = pt_blockers t !! (c, id).

Lemma others_kept_refl user t : others_kept user t t.
Proof. by split. Qed.

Lemma others_kept_map user t f : (forall r, cl_User r <> user -> f r = r) -> (forall r, cl_User (f r) = cl_User r) ->
  others_kept user t (set_cals (map f) t).
Proof.
  intros Hf Hu. split; [|done]. intros r Hr. cbn [set_cals pt_cals]. rewrite list_elem_of_fmap. split.
  - intros (x & -> & Hx). rewrite Hu in Hr. by rewrite Hf.
  - intros Hx. exists r. by rewrite Hf.
Qed.

Lemma mark_others {V : Vault} now id user t : others_kept user t (MarkPersonalCalendarSynced now id user t).
Proof.
  apply others_kept_map; intros r; destruct (owned_row id user r) eqn:E; try done.
  apply andb_true_iff in E as [_ E%N.eqb_eq]. done.
Qed.

Lemma update_others {V : Vault} id user name url enabled t :
  others_kept user t (snd (UpdatePersonalCalendar id user name url enabled t)).
Proof.
  unfold UpdatePersonalCalendar. destruct (match url with Some _ => _ | None => _ end) as [sealed|]; [|apply others_kept_refl].
  apply others_kept_map; intros r; destruct (owned_row id user r) eqn:E; try done.
  apply andb_true_iff in E as [_ E%N.eqb_eq]. done.
Qed.

Lemma delete_others id user t : others_kept user t (snd (DeletePersonalCalendarForUser id user t)).
Proof.
  unfold DeletePersonalCalendarForUser. destruct (existsb (owned_row id user) (pt_cals t)) eqn:E; [|apply others_kept_refl].
  apply existsb_elem in E as (x & Hx & [Hid%Z.eqb_eq Hu%N.eqb_eq]%andb_true_iff). split.
  - intros r Hr. cbn [snd set_blockers set_cals pt_cals]. rewrite elem_of_keep. split; [by intros [? _]|]. intros Hin. split; [done|].
    unfold owned_row. apply N.eqb_neq in Hr. by rewrite Hr, andb_false_r.
  - intros c ev Hc. cbn [snd set_blockers pt_blockers set_cals]. destruct (decide (c = id)) as [->|Hn].
    + by destruct (Hc x Hx Hid).
    + destruct (pt_blockers t !! (c, ev)) as [work|] eqn:Eb.
      * apply map_lookup_filter_Some. by split.
      * apply map_lookup_filter_None. by left.
Qed.

(** A request touches its caller's calendars and their blockers only. *)
Theorem others_calendars_untouched {V : Vault} env user r w :
  others_kept user (w_tables w) (w_tables (snd (servePersonal env user r w))).
Proof.
  destruct r; cbn [servePersonal on_tables fst snd w_tables]; try apply others_kept_refl.
  - unfold create. destruct body as [[[[provider name] url] enabled]|]; [|apply others_kept_refl].
    destruct (String.eqb provider ""); [apply others_kept_refl|]. destruct (pe_fails env PCInsert); [apply others_kept_refl|].
    unfold InsertPersonalCalendar. destruct (sealPersonal _ _ _) as [[u c]|]; [|by split]. split; [|done].
    intros x Hx. cbn [snd set_cals pt_cals]. rewrite elem_of_app, list_elem_of_singleton. split; [|by left].
    intros [|Ex]; [done|]. subst x. by destruct Hx.
  - unfold patch. destruct id as [id|]; [|apply others_kept_refl]. destruct body as [[[name url] enabled]|]; [|apply others_kept_refl].
    destruct (pe_fails env PCUpdate); [apply others_kept_refl|]. pose proof (update_others id user name url enabled (w_tables w)) as H.
    by destruct (UpdatePersonalCalendar _ _ _ _ _ _) as [[[]|] t'].
  - unfold delete_. destruct id as [id|]; [|apply others_kept_refl]. destruct (pe_fails env PCDelete); [apply others_kept_refl|].
    pose proof (delete_others id user (w_tables w)) as H. by destruct (DeletePersonalCalendarForUser _ _ _) as [[] t'].
  - unfold sync. destruct id as [id|]; [|apply others_kept_refl].
    destruct (ownedCalendar env user id (w_tables w)) as [c|] eqn:Eo; [|apply others_kept_refl].
    apply readOwned_Some in Eo as (row & Hf & Hu & _ & Hid). destruct (pe_fails env PCReread); [apply others_kept_refl|].
    unfold GetPersonalCalendar. rewrite Hf. cbn [fmap option_fmap option_map].
    pose proof (syncOne_scope (pe_sync env) (scanPersonalCalendar row) w) as [Hc Hb]. cbv zeta in Hc, Hb. rewrite scan_ID, Hid in Hb.
    assert (Hk : others_kept user (w_tables w) (w_tables (snd (syncOne (pe_sync env) (scanPersonalCalendar row) w)))).
    { split; [by rewrite Hc|]. intros c' ev Hne. apply Hb. intros ->. apply List.find_some in Hf as [Hin _].
      apply (Hne row); [by apply list_elem_of_In|done|done]. }
    destruct (syncOne _ _ w) as [[[]|e] w'] eqn:Es; cbn [snd] in *; [|done].
    destruct (pe_fails env PCMark); [done|]. cbn [snd w_tables]. destruct Hk as [H1 H2].
    destruct (mark_others (pe_now env) id user (w_tables w')) as [H3 H4]. split.
    + intros x Hx. by rewrite H3, H1.
    + intros c' ev Hne. rewrite H4; [by apply H2|]. rewrite Hc. exact Hne.
Qed.

(** A sync is stamped exactly when it finished: the answer that shows the
    calendar comes with the stamp of the request's time on it, and every other
    answer (the budget's 503 for a sync that was cut among them) with the
    calendars as they were, unless the stamp was written and the calendar could
    not be read back. *)
Theorem only_a_finished_sync_is_stamped {V : Vault} env user id w a w' :
  servePersonal env user (PRSync id) w = (a, w') ->
  (exists cal id', id = Some id' /\ fst (syncOne (pe_sync env) cal w) = Ok tt
     /\ w_tables w' = MarkPersonalCalendarSynced (pe_now env) id' user (w_tables (snd (syncOne (pe_sync env) cal w)))
     /\ ((exists d, a = PersonalShown false d /\ pd_LastSyncedAt d = Some (FormatRFC3339 (In (pe_now env) UTC))) \/ a = no_calendar))
  \/ (pt_cals (w_tables w') = pt_cals (w_tables w) /\ forall created d, a <> PersonalShown created d).
Proof.
  cbn [servePersonal]. unfold sync. destruct id as [id|]; [|intros [= <- <-]; by right].
  destruct (ownedCalendar env user id (w_tables w)) as [c|] eqn:Eo; [|intros [= <- <-]; by right].
  destruct (if pe_fails env PCReread then _ else _) as [pc|]; [|intros [= <- <-]; by right].
  pose proof (proj1 (syncOne_scope (pe_sync env) pc w)) as Hc. destruct (syncOne (pe_sync env) pc w) as [[[]|e] w1] eqn:Es.
  2:{ intros [= <- <-]. right. split; [exact Hc|]. intros cr d. destruct (budgetCut e); [done|]. by case_bool_decide. }
  destruct (pe_fails env PCMark); [intros [= <- <-]; by right|]. intros [= <- <-]. left. exists pc, id. rewrite Es. split_and!; try done.
  destruct (readOwned env user PCAnswer id _) as [d|] eqn:Er; [|by right]. left. eexists. split; [done|].
  apply readOwned_Some in Er as (row & Hf & Hu & -> & Hid). apply List.find_some in Hf as [Hin _].
  cbn [MarkPersonalCalendarSynced set_cals pt_cals] in Hin. apply list_elem_of_In, list_elem_of_fmap in Hin as (x & -> & Hx).
  assert (Hown : owned_row id user x = true).
  { unfold owned_row. destruct ((cl_ID x =? id) && N.eqb (cl_User x) user) eqn:E; [done|].
    unfold owned_row in Hid, Hu. rewrite E in Hid, Hu. by rewrite Hid, Hu, Z.eqb_refl, N.eqb_refl in E. }
  rewrite Hown. unfold toPersonalCalendarDTO, scanPersonalCalendar. by do 2 destruct (open_or_empty _ _).
Qed.

(** ** Facts: secrets *)

Lemma find_app_none {A} (p : A -> bool) l k : (forall x, List.In x l -> p x = false) -> List.find p (l ++ k) = List.find p k.
Proof. intros H. induction l as [|x l IH]; [done|]. cbn. rewrite (H x) by (by left). apply IH. intros y Hy. apply H. by right. Qed.

Lemma open_sealed {V : Vault} {L : VaultLaws V} b p s : v_seal b p = Ok s -> open_or_empty b s = (p, None).
Proof. intros H. unfold open_or_empty. by rewrite (v_seal_open b p s H). Qed.

(** The address of a feed reads back as it was given, at creation and after a
    change; a change that leaves it out keeps the stored text as it is. *)
Theorem feed_address_reads_back {V : Vault} {L : VaultLaws V} :
  (forall c t id t', InsertPersonalCalendar c t = (Ok id, t') -> (forall r, r ∈ pt_cals t -> cl_ID r <> id) ->
     exists pc, GetPersonalCalendar t' id = Some pc /\ pc_URL pc = pc_URL c /\ pc_CredentialsJSON pc = pc_CredentialsJSON c
       /\ pc_SecretErr pc = None /\ pc_UserID pc = pc_UserID c)
  /\ (forall id user name url enabled t pc t', UpdatePersonalCalendar id user name (Some url) enabled t = (Ok (Some pc), t') ->
        pc_URL pc = url)
  /\ (forall id user name enabled t t' pc, UpdatePersonalCalendar id user name None enabled t = (pc, t') ->
        map cl_URL (pt_cals t') = map cl_URL (pt_cals t) /\ map cl_Credentials (pt_cals t') = map cl_Credentials (pt_cals t)).
Proof.
  split; [|split].
  - intros c t id t'. unfold InsertPersonalCalendar, sealPersonal.
    destruct (v_seal (bindPersonal "url" _) _) as [u|] eqn:Eu; [|done]. cbn [rbind].
    destruct (v_seal (bindPersonal "credentials_json" _) _) as [k|] eqn:Ek; [|done]. cbn [rbind]. intros [= <- <-] Hnew.
    unfold GetPersonalCalendar, find_calendar. cbn [set_cals pt_cals]. rewrite find_app_none.
    2:{ intros r Hr. apply Z.eqb_neq, Hnew. by apply list_elem_of_In. }
    cbn [List.find cl_ID]. rewrite Z.eqb_refl. cbn [fmap option_fmap option_map]. eexists. split; [done|].
    unfold scanPersonalCalendar. cbn [cl_ID cl_URL cl_Credentials]. by rewrite (open_sealed _ _ _ Eu), (open_sealed _ _ _ Ek).
  - intros id user name url enabled t pc t'. unfold UpdatePersonalCalendar.
    destruct (v_seal (bindPersonal "url" id) url) as [s|] eqn:Es; [|done]. intros [= H _].
    destruct (List.find _ _) as [r|] eqn:Ef; [|done]. cbn [fmap option_fmap option_map] in H. injection H as <-.
    apply List.find_some in Ef as [Hin Ho]. apply list_elem_of_In, list_elem_of_fmap in Hin as (x & -> & Hx).
    destruct (owned_row id user x) eqn:E; [|by rewrite E in Ho]. apply andb_true_iff in E as [Hid%Z.eqb_eq _].
    unfold scanPersonalCalendar. cbn [patch_row cl_ID cl_URL]. change (default (cl_URL x) (Some s)) with s.
    rewrite Hid, (open_sealed _ _ _ Es).
    by destruct (open_or_empty _ _).
  - intros id user name enabled t t' pc. unfold UpdatePersonalCalendar. intros [= _ <-]. cbn [set_cals pt_cals]. rewrite !map_map.
    split; apply map_ext; intros r; by destruct (owned_row id user r).
Qed.

(** ** A small example: one calendar, two events *)

Module PersonalDemo.
Definition vault : Vault := AdminStore.Demo.vault.
Lemma personal_vault_laws : VaultLaws vault.
Proof. exact AdminStore.Demo.vault_laws. Qed.
Definition row : CalendarRow := {|
  cl_ID := 1; cl_User := 1%N; cl_Provider := "webcal"; cl_Name := "Home"; cl_URL := ""; cl_Credentials := ""; cl_Enabled := true;
  cl_LastSynced := None |}.
Definition tables : PersonalTables := {| pt_next := 2; pt_cals := [row]; pt_blockers := ∅ |}.
Definition pc : PersonalCalendar := {|
  pc_ID := 1; pc_UserID := 1%N; pc_Provider := "webcal"; pc_Name := "Home"; pc_URL := ""; pc_CredentialsJSON := "";
  pc_Enabled := true; pc_LastSyncedAt := None; pc_SecretErr := None |}.
Definition event (id : string) (h : Z) : GenericEvent :=
  {| ge_ID := id; ge_Title := ""; ge_Start := Date 2025 1 6 h 0 0 0 UTC; ge_End := Date 2025 1 6 (h + 1) 0 0 0 UTC |}.
Definition uncut (order : list nat) : PoolRun := {| pr_order := order; pr_ran := fun _ => true; pr_cut := false |}.
Definition at_ (s : option Settings) (events : list GenericEvent) (deletes creates : list nat) (ok find_fails : bool) : SyncEnv := {|
  se_now := Date 2025 1 6 8 0 0 0 UTC; se_load := fun _ => None; se_feed := fun _ _ _ => Ok events; se_calops := Ok tt;
  se_settings := s; se_list_fails := false; se_deletes := uncut deletes; se_delete := fun _ => ok; se_drop := fun _ => true;
  se_find_fails := fun _ => find_fails; se_creates := uncut creates;
  se_create := fun i => Ok (match i with O => "w0" | _ => "w1" end); se_record := fun _ => true |}.
Definition nine_to_five : Settings := FocusTime.Demo.settings "all_days" ∅ "".
Definition start : World := {| w_tables := tables; w_work := ∅; w_created := [] |}.
Definition env : SyncEnv := at_ (Some nine_to_five) [event "a" 10; event "b" 22] [] [0%nat] true false.
Definition synced : World := snd (syncOne env pc start).
Definition request : PersonalEnv := {| pe_fails := fun _ => false; pe_now := Date 2025 1 6 8 0 1 0 UTC; pe_sync := env |}.
End PersonalDemo.
Import PersonalDemo.

(** The runs of a pool without items and with one. *)
Lemma run_none : pool_run 0 (uncut []).
Proof.
  exists DefaultPool, (fun _ => true), false. eexists. split.
  { apply rtc_once. by apply step_close. }
  by repeat split.
Qed.

Lemma run_one : pool_run 1 (uncut [0%nat]).
Proof.
  exists DefaultPool, (fun _ => true), false. eexists. split.
  { eapply rtc_l; [apply step_check; [done|cbn; lia|done]|]. eapply rtc_l; [apply step_send; [done|vm_compute; lia]|].
    eapply rtc_l; [apply (step_finish _ _ _ _ _ 0%nat [] []); done|]. apply rtc_once. by apply step_close. }
  by repeat split.
Qed.

Example synced_rows : pt_blockers (w_tables synced) !! (1, "a") = Some "w0" /\ pt_blockers (w_tables synced) !! (1, "b") = None
  /\ w_created synced = [("a", "w0")].
Proof. by vm_compute. Qed.

Lemma sync_mirrors_the_feed_witness : exists w' made, syncOne env pc start = (Ok tt, w')
  /\ is_Some (GetPersonalBlocker (w_tables w') 1 "a") /\ w_created w' = [] ++ made.
Proof.
  assert (Hf : ReadPersonalEvents env pc (truncate_day (se_now env)) (AddDate (truncate_day (se_now env)) 0 0 personalLookAheadDays)
               = Ok [event "a" 10; event "b" 22]) by reflexivity.
  assert (Hn : NoDup (map ge_ID [event "a" 10; event "b" 22])).
  { apply NoDup_cons. split; [|apply NoDup_singleton]. intros H%list_elem_of_singleton. discriminate. }
  assert (Hs : length (stale_blockers pc [event "a" 10; event "b" 22] (w_tables start)) = 0%nat) by (vm_compute; reflexivity).
  assert (Hm : length (missing_events env pc [event "a" 10; event "b" 22]
                 (w_tables (pool_effects (drop_one env pc (stale_blockers pc [event "a" 10; event "b" 22] (w_tables start))) (se_deletes env) start))) = 1%nat)
    by (vm_compute; reflexivity).
  destruct (sync_mirrors_the_feed env pc start [event "a" 10; event "b" 22] Hf Hn eq_refl eq_refl (fun _ => eq_refl)) as (w' & made & H1 & H2 & _ & H4 & _).
  - intros i. split; [reflexivity|]. split; [reflexivity|]. by eexists.
  - rewrite Hs. exact run_none.
  - reflexivity.
  - rewrite Hm. exact run_one.
  - reflexivity.
  - exists w', made. split; [exact H1|]. split; [|exact H4]. apply H2. exists (event "a" 10). split; [left|]. split; [reflexivity|].
    right. vm_compute. reflexivity.
Defined.

Lemma sync_never_doubles_witness :
  GetPersonalBlocker (w_tables synced) 1 "a" = Some "w0"
  /\ GetPersonalBlocker (w_tables (snd (syncOne env pc synced))) 1 "a" = Some "w0".
Proof.
  assert (H : GetPersonalBlocker (w_tables synced) 1 "a" = Some "w0") by (vm_compute; reflexivity). split; [exact H|].
  apply (sync_never_doubles env pc synced "a" "w0" H); [|reflexivity]. intros s e events [= <-]. reflexivity.
Defined.

Lemma only_a_finished_sync_is_stamped_witness :
  exists d, fst (servePersonal (V := vault) request 1%N (PRSync (Some 1)) start) = PersonalShown false d
  /\ pd_LastSyncedAt d = Some "2025-01-06T08:00:01Z"
  /\ map cl_LastSynced (pt_cals (w_tables (snd (servePersonal (V := vault) request 1%N (PRSync (Some 1)) start)))) = [Some (pe_now request)].
Proof.
  assert (Hs : exists d, fst (servePersonal (V := vault) request 1%N (PRSync (Some 1)) start) = PersonalShown false d
                         /\ pd_LastSyncedAt d = Some "2025-01-06T08:00:01Z") by (vm_compute; eexists; split; reflexivity).
  destruct Hs as (d & Hd & Ht). exists d. split; [exact Hd|]. split; [exact Ht|].
  destruct (servePersonal (V := vault) request 1%N (PRSync (Some 1)) start) as [a w'] eqn:E. cbn [fst snd] in *.
  destruct (only_a_finished_sync_is_stamped (V := vault) request 1%N (Some 1) start a w' E) as [(c & i & [= <-] & Hok & Hw & _)|[_ Hn]].
  - rewrite Hw. cbn [MarkPersonalCalendarSynced set_cals pt_cals]. rewrite (proj1 (syncOne_scope _ c start)). vm_compute. reflexivity.
  - by destruct (Hn false d).
Defined.

Lemma feed_address_reads_back_witness :
  exists id t' pc, InsertPersonalCalendar (V := vault) {| pc_ID := 0; pc_UserID := 1%N; pc_Provider := "webcal"; pc_Name := "Home";
      pc_URL := "https://x.org/me.ics"; pc_CredentialsJSON := ""; pc_Enabled := true; pc_LastSyncedAt := None; pc_SecretErr := None |} tables
    = (Ok id, t') /\ GetPersonalCalendar (V := vault) t' id = Some pc /\ pc_URL pc = "https://x.org/me.ics".
Proof.
  set (c := {| pc_ID := 0; pc_UserID := 1%N; pc_Provider := "webcal"; pc_Name := "Home"; pc_URL := "https://x.org/me.ics";
               pc_CredentialsJSON := ""; pc_Enabled := true; pc_LastSyncedAt := None; pc_SecretErr := None |}).
  assert (H : exists t', InsertPersonalCalendar (V := vault) c tables = (Ok 2, t')) by (vm_compute; by eexists).
  destruct H as [t' H]. destruct (proj1 (feed_address_reads_back (V := vault) (L := personal_vault_laws)) c tables 2 t' H) as (pc & H1 & H2 & _).
  - intros r ->%list_elem_of_singleton. discriminate.
  - exists 2, t', pc. split; [exact H|]. split; [exact H1|exact H2].
Defined.

(** Two events of a feed with one identifier (an occurrence moved by itself, or
    events without one) get two blockers and one row: the first blocker stays in
    the work calendar for good. *)
Example same_identifier_leaves_a_blocker :
  let env := at_ None [event "a" 10; event "a" 15] [] [0%nat; 1%nat] true false in
  let w := snd (syncOne env pc start) in
  let gone := snd (syncOne (at_ None [] [0%nat] [] true false) pc w) in
  GetPersonalBlocker (w_tables w) 1 "a" = Some "w1" /\ GetPersonalBlocker (w_tables gone) 1 "a" = None
  /\ w_work gone !! "w0" = Some (blocker_event (event "a" 10)) /\ w_work gone !! "w1" = None.
Proof. by vm_compute. Qed.

(** An event that moved keeps its blocker where it was. *)
Example moved_event_keeps_its_blocker :
  let w := snd (syncOne (at_ None [event "a" 10] [] [0%nat] true false) pc start) in
  let moved := snd (syncOne (at_ None [event "a" 15] [] [] true false) pc w) in
  w_work moved !! "w0" = Some (blocker_event (event "a" 10)) /\ w_created moved = [("a", "w0")].
Proof. by vm_compute. Qed.

(** The working hours are laid on the date the event has in the zone it was read
    with, not in the user's: in Tokyo an event of Tuesday morning read in UTC is
    compared with Monday's hours, and not mirrored. *)
Example tokyo_morning_not_mirrored :
  let tokyo := {| loc_name := "Asia/Tokyo"; loc_first := 32400; loc_tx := [] |} in
  let load := fun name => if String.eqb name "Asia/Tokyo" then Some tokyo else None in
  let s := FocusTime.Demo.settings "all_days" ∅ "Asia/Tokyo" in
  let start := Date 2025 1 6 23 30 0 0 UTC in
  let e loc := {| ge_ID := "t"; ge_Title := ""; ge_Start := In start loc; ge_End := In (Add start (2 * Hour)) loc |} in
  personalEventDuringWorkHours load (e UTC) (Some s) = false /\ personalEventDuringWorkHours load (e tokyo) (Some s) = true.
Proof. by vm_compute. Qed.

(** A row that cannot be read at that moment counts as none: the event gets a
    second blocker and the first one stays. *)
Example failed_read_doubles :
  let w := snd (syncOne (at_ None [event "a" 10] [] [0%nat] true false) pc start) in
  let again := {| w_tables := w_tables w; w_work := w_work w; w_created := [] |} in
  let env := at_ None [event "b" 9; event "a" 10] [] [0%nat; 1%nat] true true in
  let w' := snd (syncOne env pc again) in
  w_created w' = [("b", "w0"); ("a", "w1")] /\ GetPersonalBlocker (w_tables w) 1 "a" = Some "w0"
  /\ GetPersonalBlocker (w_tables w') 1 "a" = Some "w1".
Proof. by vm_compute. Qed.

(** A stale blocker the provider does not delete is forgotten all the same. *)
Example failed_delete_is_forgotten :
  let w := snd (syncOne (at_ None [event "a" 10] [] [0%nat] true false) pc start) in
  let w' := snd (syncOne (at_ None [] [0%nat] [] false false) pc w) in
  GetPersonalBlocker (w_tables w') 1 "a" = None /\ w_work w' !! "w0" = Some (blocker_event (event "a" 10)).
Proof. by vm_compute. Qed.
