(* ===== verification/ManagerEngine.v ===== *)
(** * Managers: the roster, the detection of one-on-ones and their gaps

    [storage/manager.go] (profiles, the roster and its assignments to teams,
    the recorded one-on-ones, the cached figures) as one value, and
    [engine/manager.go].  Keys and times of creation that no code reads back
    are left out. *)

From S2P Require Import Prelude GoInt GoTime GoFloat GoText GoURL Interval LinkStore Teams Calendar FreeBusy.

#[local] Open Scope string_scope.
#[local] Open Scope list_scope.
#[local] Open Scope Z_scope.

(** ** Text *)

Definition canonical (email : string) : string := ToLower (TrimSpace email).

Definition upper (c : ascii) : ascii := if is_lower c then ascii_of_nat (nat_of_ascii c - 32) else c.
Definition ToUpper (s : string) : string := smap upper s.

Definition HasPrefix (s p : string) : bool := match strip_prefix p s with Some _ => true | None => false end.
Definition Contains (s sub : string) : bool := match cut_str sub s with Some _ => true | None => false end.

(** ** Rows *)

Record UserRow := { ur_ID : uuid; ur_Email : string; ur_Name : string }.

Record UserProfile := { up_User : uuid; up_IsManager : bool; up_DetectedAt : option time; up_Shared : bool }.

Record ManagerTeamMember := {
  mm_Manager : uuid; mm_Email : string; mm_User : option uuid; mm_Name : string; mm_Source : string;
  mm_Cadence : string; mm_Days : option Z; mm_Last : option time }.

(** A row of [manager_team_member_assignments]. *)
Record Assignment := {
  as_Manager : uuid; as_Team : uuid; as_Email : string; as_Name : option string; as_Cadence : string; as_Days : option Z }.

Record OneOnOne := { oo_Manager : uuid; oo_Email : string; oo_Event : string; oo_At : time }.

Record TeamAnalyticsRow := {
  ta_Manager : uuid; ta_Email : string; ta_Week : string; ta_Focus : Z; ta_Meeting : Z; ta_Free : Z;
  ta_Paceday : bool; ta_Available : bool; ta_ComputedAt : time }.

Record ManagerTables := {
  mt_profiles : list UserProfile;
  mt_roster : list ManagerTeamMember;
  mt_assigned : list Assignment;
  mt_occs : list OneOnOne;
  mt_cache : list TeamAnalyticsRow;
  mt_teams : TeamTables;
  mt_users : list UserRow }.

Definition on_profiles (f : list UserProfile -> list UserProfile) (t : ManagerTables) : ManagerTables :=
  {| mt_profiles := f (mt_profiles t); mt_roster := mt_roster t; mt_assigned := mt_assigned t; mt_occs := mt_occs t;
     mt_cache := mt_cache t; mt_teams := mt_teams t; mt_users := mt_users t |}.
Definition on_roster (f : list ManagerTeamMember -> list ManagerTeamMember) (t : ManagerTables) : ManagerTables :=
  {| mt_profiles := mt_profiles t; mt_roster := f (mt_roster t); mt_assigned := mt_assigned t; mt_occs := mt_occs t;
     mt_cache := mt_cache t; mt_teams := mt_teams t; mt_users := mt_users t |}.
Definition on_assigned (f : list Assignment -> list Assignment) (t : ManagerTables) : ManagerTables :=
  {| mt_profiles := mt_profiles t; mt_roster := mt_roster t; mt_assigned := f (mt_assigned t); mt_occs := mt_occs t;
     mt_cache := mt_cache t; mt_teams := mt_teams t; mt_users := mt_users t |}.
Definition on_occs (f : list OneOnOne -> list OneOnOne) (t : ManagerTables) : ManagerTables :=
  {| mt_profiles := mt_profiles t; mt_roster := mt_roster t; mt_assigned := mt_assigned t; mt_occs := f (mt_occs t);
     mt_cache := mt_cache t; mt_teams := mt_teams t; mt_users := mt_users t |}.
Definition on_cache (f : list TeamAnalyticsRow -> list TeamAnalyticsRow) (t : ManagerTables) : ManagerTables :=
  {| mt_profiles := mt_profiles t; mt_roster := mt_roster t; mt_assigned := mt_assigned t; mt_occs := mt_occs t;
     mt_cache := f (mt_cache t); mt_teams := mt_teams t; mt_users := mt_users t |}.
Definition on_teams (f : TeamTables -> TeamTables) (t : ManagerTables) : ManagerTables :=
  {| mt_profiles := mt_profiles t; mt_roster := mt_roster t; mt_assigned := mt_assigned t; mt_occs := mt_occs t;
     mt_cache := mt_cache t; mt_teams := f (mt_teams t); mt_users := mt_users t |}.

(** [INSERT ... ON CONFLICT ... DO UPDATE]: the rows of the key [p] are merged,
    or [new] is added. *)
Definition upsert {A} (p : A -> bool) (merge : A -> A) (new : A) (l : list A) : list A :=
  if existsb p l then map (fun r => if p r then merge r else r) l else l ++ [new].

(** ** Storage *)

Definition profile_of (u : uuid) (p : UserProfile) : bool := N.eqb (up_User p) u.

Definition GetUserProfile (t : ManagerTables) (u : uuid) : option UserProfile := List.find (profile_of u) (mt_profiles t).

Definition GetOrCreateUserProfile (u : uuid) (t : ManagerTables) : UserProfile * ManagerTables :=
  let new := {| up_User := u; up_IsManager := false; up_DetectedAt := None; up_Shared := true |} in
  let t' := on_profiles (upsert (profile_of u) id new) t in
  (default new (GetUserProfile t' u), t').

Definition UpsertUserProfile (p : UserProfile) : ManagerTables -> ManagerTables :=
  on_profiles (upsert (profile_of (up_User p)) (fun _ => p) p).

Definition member_at (manager : uuid) (email : string) (m : ManagerTeamMember) : bool :=
  N.eqb (mm_Manager m) manager && String.eqb (mm_Email m) email.

(** What [upsertManagerTeamMember] makes of its argument. *)
Definition cleaned (m : ManagerTeamMember) : ManagerTeamMember :=
  {| mm_Manager := mm_Manager m; mm_Email := canonical (mm_Email m); mm_User := mm_User m; mm_Name := TrimSpace (mm_Name m);
     mm_Source := mm_Source m; mm_Cadence := mm_Cadence m; mm_Days := mm_Days m; mm_Last := mm_Last m |}.

(** [GREATEST] of two columns; NULL counts as nothing. *)
Definition greatest (a b : option time) : option time :=
  match a, b with
  | Some x, Some y => Some (if Before x y then y else x)
  | Some x, None => Some x
  | None, _ => b
  end.

Definition merge_member (m old : ManagerTeamMember) : ManagerTeamMember :=
  {| mm_Manager := mm_Manager old; mm_Email := mm_Email old;
     mm_User := match mm_User m with Some u => Some u | None => mm_User old end;
     mm_Name := if String.eqb (mm_Source m) "auto" && String.eqb (mm_Source old) "manual" then mm_Name old else mm_Name m;
     mm_Source := if String.eqb (mm_Source old) "manual" then "manual" else mm_Source m;
     mm_Cadence := mm_Cadence m; mm_Days := mm_Days m; mm_Last := greatest (mm_Last m) (mm_Last old) |}.

Definition UpsertManagerTeamMember (m : ManagerTeamMember) : ManagerTables -> ManagerTables :=
  let m := cleaned m in on_roster (upsert (member_at (mm_Manager m) (mm_Email m)) (merge_member m) m).

Definition GetManagerTeamMemberByEmail (t : ManagerTables) (manager : uuid) (email : string) : option ManagerTeamMember :=
  List.find (member_at manager (canonical email)) (mt_roster t).

(** [ListManagerTeamMembers]; [rank] is the order of the database on text. *)
Definition ListManagerTeamMembers (rank : string -> Z) (t : ManagerTables) (manager : uuid) : list ManagerTeamMember :=
  order_by (fun m => rank (mm_Name m)) (keep (fun m => N.eqb (mm_Manager m) manager) (mt_roster t)).

Definition assigned_at (manager team : uuid) (email : string) (a : Assignment) : bool :=
  N.eqb (as_Manager a) manager && N.eqb (as_Team a) team && String.eqb (as_Email a) email.

Definition UpsertManagerTeamMemberForTeam (team : uuid) (m : ManagerTeamMember) (t : ManagerTables) : ManagerTables :=
  let t := UpsertManagerTeamMember m t in
  let m := cleaned m in
  on_assigned (upsert (assigned_at (mm_Manager m) team (mm_Email m))
    (fun a => {| as_Manager := as_Manager a; as_Team := as_Team a; as_Email := as_Email a; as_Name := as_Name a;
                 as_Cadence := mm_Cadence m; as_Days := mm_Days m |})
    {| as_Manager := mm_Manager m; as_Team := team; as_Email := mm_Email m; as_Name := None;
       as_Cadence := mm_Cadence m; as_Days := mm_Days m |}) t.

(** [INSERT ... ON CONFLICT DO NOTHING] of an assignment, and whether it was
    added. *)
Definition assign (a : Assignment) (t : ManagerTables) : bool * ManagerTables :=
  let p := assigned_at (as_Manager a) (as_Team a) (as_Email a) in
  (negb (existsb p (mt_assigned t)), on_assigned (upsert p id a) t).

(** Whether the address is a user's, other than the manager, on the team. *)
Definition formal_address (t : ManagerTables) (manager team : uuid) (email : string) : bool :=
  existsb (fun u => EqualFold (ur_Email u) email && existsb (member_of team (ur_ID u)) (tt_members (mt_teams t))
                    && negb (N.eqb (ur_ID u) manager)) (mt_users t).

Definition AssignManagerTeamMembersMatchingFormalTeam (manager team : uuid) (t : ManagerTables) : Z * ManagerTables :=
  fold_left (fun s m =>
    let '(added, t') := assign {| as_Manager := manager; as_Team := team; as_Email := mm_Email m; as_Name := None;
                                  as_Cadence := "none"; as_Days := None |} s.2 in
    (s.1 + (if added : bool then 1 else 0), t'))
  (keep (fun m => N.eqb (mm_Manager m) manager && formal_address t manager team (mm_Email m)) (mt_roster t)) (0, t).

(** A row as a team sees it. *)
Definition team_view (a : Assignment) (m : ManagerTeamMember) : ManagerTeamMember :=
  {| mm_Manager := mm_Manager m; mm_Email := mm_Email m; mm_User := mm_User m;
     mm_Name := match as_Name a with
                | Some n => if String.eqb (Trim " " n) "" then mm_Name m else Trim " " n
                | None => mm_Name m
                end;
     mm_Source := mm_Source m; mm_Cadence := as_Cadence a; mm_Days := as_Days a; mm_Last := mm_Last m |}.

Definition in_team (t : ManagerTables) (team : uuid) (m : ManagerTeamMember) : option ManagerTeamMember :=
  (fun a => team_view a m) <$> List.find (assigned_at (mm_Manager m) team (mm_Email m)) (mt_assigned t).

Definition ListManagerTeamMembersForTeam (rank : string -> Z) (t : ManagerTables) (manager team : uuid) : list ManagerTeamMember :=
  omap (in_team t team) (ListManagerTeamMembers rank t manager).

Definition GetManagerTeamMemberByEmailForTeam (t : ManagerTables) (manager team : uuid) (email : string) : option ManagerTeamMember :=
  m ← GetManagerTeamMemberByEmail t manager email; in_team t team m.

Definition UnassignManagerTeamMember (manager team : uuid) (email : string) : ManagerTables -> ManagerTables :=
  on_assigned (keep (fun a => negb (assigned_at manager team (canonical email) a))).

(** The assignments go with the row (ON DELETE CASCADE). *)
Definition DeleteManagerTeamMemberByEmail (manager : uuid) (email : string) (t : ManagerTables) : ManagerTables :=
  on_assigned (keep (fun a => negb (N.eqb (as_Manager a) manager && String.eqb (as_Email a) (canonical email))))
    (on_roster (keep (fun m => negb (member_at manager (canonical email) m))) t).

Definition PatchManagerTeamMember (manager : uuid) (email name cadence : string) (days : option Z) : ManagerTables -> ManagerTables :=
  on_roster (map (fun m => if member_at manager (canonical email) m
    then {| mm_Manager := mm_Manager m; mm_Email := mm_Email m; mm_User := mm_User m; mm_Name := name; mm_Source := mm_Source m;
            mm_Cadence := cadence; mm_Days := days; mm_Last := mm_Last m |}
    else m)).

(** [PatchManagerTeamMemberForTeam]; [false] is [sql.ErrNoRows]. *)
Definition PatchManagerTeamMemberForTeam (manager team : uuid) (email name cadence : string) (days : option Z) (t : ManagerTables)
  : bool * ManagerTables :=
  match GetManagerTeamMemberByEmail t manager email with
  | None => (false, t)
  | Some m =>
      let name := TrimSpace name in
      let override := if String.eqb name "" || String.eqb name (mm_Name m) then None else Some name in
      let p := assigned_at manager team (canonical email) in
      (existsb p (mt_assigned t),
       on_assigned (map (fun a => if p a
         then {| as_Manager := as_Manager a; as_Team := as_Team a; as_Email := as_Email a; as_Name := override;
                 as_Cadence := cadence; as_Days := days |}
         else a)) t)
  end.

(** [ConfirmManagerTeamMembers]: the emails seen so far, and what was assigned
    and skipped. *)
Record Confirming := { cf_seen : list string; cf_assigned : Z; cf_skipped : Z; cf_tables : ManagerTables }.

Definition confirm_skip (seen : list string) (c : Confirming) : Confirming :=
  {| cf_seen := seen; cf_assigned := cf_assigned c; cf_skipped := cf_skipped c + 1; cf_tables := cf_tables c |}.

Definition confirm_one (manager team : uuid) (c : Confirming) (raw : string) : Confirming :=
  let email := canonical raw in
  if String.eqb email "" || existsb (String.eqb email) (cf_seen c) then confirm_skip (cf_seen c) c
  else
    let seen := email :: cf_seen c in
    match List.find (member_at manager email) (mt_roster (cf_tables c)) with
    | None => confirm_skip seen c
    | Some m =>
        match assign {| as_Manager := manager; as_Team := team; as_Email := email; as_Name := None;
                        as_Cadence := mm_Cadence m; as_Days := mm_Days m |} (cf_tables c) with
        | (true, t) => {| cf_seen := seen; cf_assigned := cf_assigned c + 1; cf_skipped := cf_skipped c; cf_tables := t |}
        | (false, t) => confirm_skip seen c
        end
    end.

Definition ConfirmManagerTeamMembers (manager team : uuid) (emails : list string) (t : ManagerTables) : (Z * Z * Z) * ManagerTables :=
  let c := fold_left (confirm_one manager team) emails {| cf_seen := []; cf_assigned := 0; cf_skipped := 0; cf_tables := t |} in
  let total := Z.of_nat (length (keep (fun a => N.eqb (as_Manager a) manager && N.eqb (as_Team a) team) (mt_assigned (cf_tables c)))) in
  ((cf_assigned c, cf_skipped c, total), cf_tables c).

Definition UpsertOneOnOneOccurrence (o : OneOnOne) : ManagerTables -> ManagerTables :=
  on_occs (upsert (fun r => N.eqb (oo_Manager r) (oo_Manager o) && String.eqb (oo_Event r) (oo_Event o)) id o).

Definition cached_at (manager : uuid) (email week : string) (r : TeamAnalyticsRow) : bool :=
  N.eqb (ta_Manager r) manager && String.eqb (ta_Email r) email && String.eqb (ta_Week r) week.

Definition UpsertTeamAnalytics (r : TeamAnalyticsRow) : ManagerTables -> ManagerTables :=
  on_cache (upsert (cached_at (ta_Manager r) (ta_Email r) (ta_Week r)) (fun _ => r) r).

Definition GetTeamAnalytics (t : ManagerTables) (manager : uuid) (email : string) (week : time) : option TeamAnalyticsRow :=
  List.find (cached_at manager email (FormatDateOnly week)) (mt_cache t).

Definition ListManagerUserIDs (t : ManagerTables) : list uuid := map up_User (keep up_IsManager (mt_profiles t)).

(** [storage.OwnsTeamWithMember]. *)
Definition OwnsTeamWithMember (t : ManagerTables) (owner member : uuid) : bool :=
  existsb (fun o => N.eqb (TM_User o) owner && String.eqb (Role o) "owner" && negb (N.eqb member owner)
                    && existsb (member_of (TM_Team o) member) (tt_members (mt_teams t))) (tt_members (mt_teams t)).

(** ** Detection *)

(** An event as the detection reads it: the instants as the calendar writes
    them, and the guests. *)
Record Guest := { gu_Email : string; gu_Name : string; gu_Self : bool }.

Record Meeting := {
  me_Id : string; me_Start : option string; me_End : option string; me_Guests : list Guest;
  me_Recurrence : list string; me_RecurringEventId : string }.

Record Occurrence := { oc_Event : string; oc_At : time }.

Record Candidate := {
  ca_Email : string; ca_Name : string; ca_Rrule : string; ca_Recurring : bool; ca_Occs : list Occurrence }.

Section Detection.
Context (local : Location) (managerEmail : string).

Definition calcEventDurationMinutes (startDT endDT : string) : Z :=
  match ParseRFC3339 local startDT, ParseRFC3339 local endDT with
  | Some st, Some et => int_of (Minutes (Sub et st))
  | _, _ => 0
  end.

(** The guest the loop stops with: the only one besides the manager. *)
Fixpoint other_guest (found : option Guest) (l : list Guest) : option Guest :=
  match l with
  | [] => found
  | g :: r =>
      let email := canonical (gu_Email g) in
      if String.eqb email "" || gu_Self g || EqualFold email managerEmail then other_guest found r
      else match found with Some _ => None | None => other_guest (Some g) r end
  end.

(** The one guest of an event of a quarter to one and a half hours. *)
Definition one_on_one (ev : Meeting) : option Guest :=
  let dur := calcEventDurationMinutes (default "" (me_Start ev)) (default "" (me_End ev)) in
  if (dur <? 15) || (90 <? dur) then None else other_guest None (me_Guests ev).

Definition rrule_of (ev : Meeting) : string :=
  default "" (List.find (fun r => HasPrefix (ToUpper r) "RRULE:") (me_Recurrence ev)).

Definition recurring (ev : Meeting) : bool := negb (String.eqb (rrule_of ev) "") || negb (String.eqb (me_RecurringEventId ev) "").

Definition occurrence_of (ev : Meeting) : Occurrence :=
  {| oc_Event := me_Id ev;
     oc_At := match me_Start ev with
              | Some s => if String.eqb s "" then zero_time else default zero_time (ParseRFC3339 local s)
              | None => zero_time
              end |}.

Definition first_non_empty (a b : string) : string := if String.eqb a "" then b else a.

Definition add_event (cands : gmap string Candidate) (ev : Meeting) : gmap string Candidate :=
  match one_on_one ev with
  | None => cands
  | Some g =>
      let email := canonical (gu_Email g) in
      let c := default {| ca_Email := email; ca_Name := ""; ca_Rrule := ""; ca_Recurring := false; ca_Occs := [] |} (cands !! email) in
      <[email := {| ca_Email := ca_Email c; ca_Name := first_non_empty (ca_Name c) (gu_Name g);
                    ca_Rrule := first_non_empty (ca_Rrule c) (rrule_of ev); ca_Recurring := ca_Recurring c || recurring ev;
                    ca_Occs := ca_Occs c ++ [occurrence_of ev] |}]> cands
  end.

Definition lasting (c : Candidate) : bool := ca_Recurring c || (2 <=? length (ca_Occs c))%nat.

Definition collectOneOnOneCandidates (events : list Meeting) : gmap string Candidate :=
  filter (fun kv => lasting kv.2 = true) (fold_left add_event events ∅).
End Detection.

Definition inferCadence (rrule : string) : string :=
  let u := ToUpper rrule in
  if Contains u "FREQ=WEEKLY;INTERVAL=2" then "biweekly"
  else if Contains u "FREQ=WEEKLY" then "weekly"
  else if Contains u "FREQ=MONTHLY" then "monthly"
  else "none".

(** The days between the times, added up in order. *)
Fixpoint total_days (acc : spec_float) (times : list time) : spec_float :=
  match times with
  | a :: ((b :: _) as r) => total_days (fadd acc (fdiv (Hours (Sub b a)) (f64 24))) r
  | _ => acc
  end.

Definition cadence_of_days (d : spec_float) : string :=
  if fle (f64 5) d && fle d (f64 9) then "weekly"
  else if flt (f64 9) d && fle d (f64 18) then "biweekly"
  else if fle (f64 25) d && fle d (f64 35) then "monthly"
  else "none".

Definition inferCandidateCadence (c : Candidate) : string :=
  let cadence := inferCadence (ca_Rrule c) in
  if negb (String.eqb cadence "none") then cadence
  else if (length (ca_Occs c) <? 2)%nat then "none"
  else
    let times := order_by t_ns (keep (fun t => negb (IsZero t)) (map oc_At (ca_Occs c))) in
    if (length times <? 2)%nat then "none"
    else cadence_of_days (fdiv (total_days (f64 0) times) (f64 (Z.of_nat (length times) - 1))).

(** The latest occurrence that is not in the future. *)
Definition last_met (now : time) (occs : list Occurrence) : option time :=
  let last := fold_left (fun last o => if negb (IsZero (oc_At o)) && negb (After (oc_At o) now) && After (oc_At o) last
                                       then oc_At o else last) occs zero_time in
  if IsZero last then None else Some last.

Inductive ManagerCall :=
| MCManager | MCProfile | MCUser (email : string) | MCLookup (email : string) | MCUpsert (email : string)
| MCOccurrence (email event : string) | MCWriteProfile | MCCount
| MCScope | MCView (email : string) | MCConfirm | MCList | MCFormal | MCWrite | MCReadBack | MCRemove | MCUnassign
| MCUninvite | MCFuture (email : string) | MCGate (u : uuid) | MCCached | MCShared | MCWeek | MCCacheWrite | MCPutProfile.

(** What detection and the handlers meet. [me_order] is the order Go visits the
    candidates in and [me_shuffle] the members of a team, [me_rank] the order of
    the database on text, [me_unit_first] whether a detection that runs by
    itself ends before the request that started it goes on. *)
Record ManagerEnv := {
  me_now : time;
  me_local : Location;
  me_fails : ManagerCall -> bool;
  me_token : TokenRead;
  me_client : result unit;
  me_events : time -> time -> result (list Meeting);
  me_order : list Candidate -> list Candidate;
  me_shuffle : list ManagerTeamMember -> list ManagerTeamMember;
  me_unit_first : bool;
  me_rank : string -> Z;
  me_text : uuid -> string;
  me_busy : FreeBusyEnv;
  me_week : uuid -> string -> option (Z * Z * Z);
  me_ip : string -> bool }.

Record DetectResult := { dt_Added : Z; dt_Updated : Z; dt_IsManager : bool; dt_Candidates : list (string * string); dt_ScannedAt : time }.

(** [sort.Slice] by a text; what is equal stays in order, the order before the
    sort being arbitrary. *)
Section SortBy.
Context {A : Type} (key : A -> string).

Fixpoint insert_by (x : A) (l : list A) : list A :=
  match l with
  | [] => [x]
  | y :: r => if String.ltb (key x) (key y) then x :: l else y :: insert_by x r
  end.

Definition sort_by (l : list A) : list A := fold_left (fun acc x => insert_by x acc) l [].

Lemma insert_by_perm x l : insert_by x l ≡ₚ x :: l.
Proof. induction l as [|y l IH]; cbn; [done|]. destruct (String.ltb _ _); [done|]. rewrite IH. apply Permutation_swap. Qed.

Lemma sort_by_perm l : sort_by l ≡ₚ l.
Proof.
  unfold sort_by. enough (G : forall acc, fold_left (fun acc x => insert_by x acc) l acc ≡ₚ l ++ acc) by by rewrite G, app_nil_r.
  induction l as [|x l IH]; intros acc; [done|]. cbn. rewrite IH, insert_by_perm. symmetry. apply Permutation_middle.
Qed.
End SortBy.

Section Engine.
Context (env : ManagerEnv).

(** [SELECT id FROM users WHERE email=$1]; a failure is an unknown user. *)
Definition user_of_email (t : ManagerTables) (email : string) : option uuid :=
  if me_fails env (MCUser email) then None else ur_ID <$> List.find (fun u => String.eqb (ur_Email u) email) (mt_users t).

Fixpoint record_occurrences (manager : uuid) (email : string) (occs : list Occurrence) (t : ManagerTables) : bool * ManagerTables :=
  match occs with
  | [] => (true, t)
  | o :: r =>
      if me_fails env (MCOccurrence email (oc_Event o)) then (false, t)
      else record_occurrences manager email r
             (UpsertOneOnOneOccurrence {| oo_Manager := manager; oo_Email := email; oo_Event := oc_Event o; oo_At := oc_At o |} t)
  end.

(** One candidate of the loop: whether it goes on. *)
Definition detect_one (manager : uuid) (c : Candidate) (s : DetectResult * ManagerTables) : bool * (DetectResult * ManagerTables) :=
  let '(r, t) := s in
  if Nat.eqb (length (ca_Occs c)) 0 then (true, s)
  else
    let m := {| mm_Manager := manager; mm_Email := ca_Email c; mm_User := user_of_email t (ca_Email c); mm_Name := ca_Name c;
                mm_Source := "auto"; mm_Cadence := inferCandidateCadence c; mm_Days := None;
                mm_Last := last_met (me_now env) (ca_Occs c) |} in
    if me_fails env (MCLookup (ca_Email c)) then (false, s)
    else
      let known := match GetManagerTeamMemberByEmail t manager (ca_Email c) with Some _ => true | None => false end in
      let r' := {| dt_Added := dt_Added r + (if known then 0 else 1); dt_Updated := dt_Updated r + (if known then 1 else 0);
                   dt_IsManager := dt_IsManager r; dt_Candidates := dt_Candidates r ++ [(ca_Email c, ca_Name c)];
                   dt_ScannedAt := dt_ScannedAt r |} in
      if me_fails env (MCUpsert (ca_Email c)) then (false, (r', t))
      else
        let '(ok, t) := record_occurrences manager (ca_Email c) (ca_Occs c) (UpsertManagerTeamMember m t) in
        (ok, (r', t)).

Fixpoint detect_loop (manager : uuid) (cands : list Candidate) (s : DetectResult * ManagerTables) : bool * (DetectResult * ManagerTables) :=
  match cands with
  | [] => (true, s)
  | c :: r => let '(ok, s) := detect_one manager c s in if ok : bool then detect_loop manager r s else (false, s)
  end.

(** [DetectTeam]. *)
Definition DetectTeam (manager : uuid) (t : ManagerTables) : result DetectResult * ManagerTables :=
  match LoadCalendarToken (me_token env) with
  | Err e => (Err e, t)
  | Ok _ =>
  match me_client env with
  | Err e => (Err e, t)
  | Ok _ =>
  match me_events env (Add (me_now env) (- (42 * 24 * Hour))) (Add (me_now env) (42 * 24 * Hour)) with
  | Err e => (Err e, t)
  | Ok events =>
      if me_fails env MCManager then (Err ErrStorage, t)
      else
        let email := default "" (ur_Email <$> List.find (fun u => N.eqb (ur_ID u) manager) (mt_users t)) in
        let byEmail := collectOneOnOneCandidates (me_local env) email events in
        if me_fails env MCProfile then (Err ErrStorage, t)
        else
          let '(profile, t) := GetOrCreateUserProfile manager t in
          let r0 := {| dt_Added := 0; dt_Updated := 0; dt_IsManager := false; dt_Candidates := []; dt_ScannedAt := In (me_now env) UTC |} in
          let '(ok, (r, t)) := detect_loop manager (me_order env (map snd (map_to_list byEmail))) (r0, t) in
          if negb ok then (Err ErrStorage, t)
          else
            let found := 0 <? dt_Added r + dt_Updated r in
            if found && me_fails env MCWriteProfile then (Err ErrStorage, t)
            else
              (Ok {| dt_Added := dt_Added r; dt_Updated := dt_Updated r; dt_IsManager := found;
                     dt_Candidates := sort_by fst (dt_Candidates r); dt_ScannedAt := dt_ScannedAt r |},
               if found then UpsertUserProfile {| up_User := up_User profile; up_IsManager := true;
                               up_DetectedAt := Some (In (me_now env) UTC); up_Shared := up_Shared profile |} t
               else t)
  end end end.

(** ** Gaps *)

Record CadenceGap := {
  cg_Email : string; cg_Name : string; cg_Cadence : string; cg_Last : option time; cg_Next : time; cg_Overdue : Z }.

Definition custom_days (m : ManagerTeamMember) : option Z := d ← mm_Days m; if 0 <? d then Some d else None.

Definition hasCadence (m : ManagerTeamMember) : bool :=
  String.eqb (mm_Cadence m) "weekly" || String.eqb (mm_Cadence m) "biweekly" || String.eqb (mm_Cadence m) "monthly"
  || String.eqb (mm_Cadence m) "custom" && match custom_days m with Some _ => true | None => false end.

Definition nextExpectedDate (m : ManagerTeamMember) : time :=
  match mm_Last m with
  | None => if hasCadence m then In (me_now env) UTC else zero_time
  | Some base =>
      if String.eqb (mm_Cadence m) "weekly" then AddDate base 0 0 7
      else if String.eqb (mm_Cadence m) "biweekly" then AddDate base 0 0 14
      else if String.eqb (mm_Cadence m) "monthly" then AddDate base 0 1 0
      else if String.eqb (mm_Cadence m) "custom" then
        match custom_days m with Some d => AddDate base 0 0 d | None => zero_time end
      else zero_time
  end.

Definition hasFutureEvent (t : ManagerTables) (manager : uuid) (email : string) (from to : time) : bool :=
  negb (me_fails env (MCFuture email))
  && existsb (fun o => N.eqb (oo_Manager o) manager && String.eqb (oo_Email o) email
                       && negb (Before (oo_At o) from) && Before (oo_At o) to) (mt_occs t).

(** The days until a time, rounded up as the code rounds them. *)
Definition days_until (now next : time) : Z := ceil_of (fdiv (Hours (Sub next now)) (f64 24)).

Definition gap_of (t : ManagerTables) (manager : uuid) (m : ManagerTeamMember) : option CadenceGap :=
  let now := In (me_now env) UTC in
  if String.eqb (mm_Cadence m) "none" then None
  else
    let next := nextExpectedDate m in
    if IsZero next then None
    else if hasFutureEvent t manager (mm_Email m) now (Add now (14 * 24 * Hour)) then None
    else
      let days := days_until now next in
      if 7 <? days then None
      else Some {| cg_Email := mm_Email m; cg_Name := mm_Name m; cg_Cadence := mm_Cadence m; cg_Last := mm_Last m;
                   cg_Next := next; cg_Overdue := if days <? 0 then - days else 0 |}.

(** A pass of the exchange sort: what ends in front, and what is behind it. *)
Fixpoint exchange (x : CadenceGap) (l : list CadenceGap) : CadenceGap * list CadenceGap :=
  match l with
  | [] => (x, [])
  | y :: r =>
      if cg_Overdue x <? cg_Overdue y then let '(m, r') := exchange y r in (m, x :: r')
      else let '(m, r') := exchange x r in (m, y :: r')
  end.

Fixpoint exchange_sort (fuel : nat) (l : list CadenceGap) : list CadenceGap :=
  match fuel, l with
  | S n, x :: r => let '(m, r') := exchange x r in m :: exchange_sort n r'
  | _, _ => l
  end.

Definition GetGaps (t : ManagerTables) (manager : uuid) (members : list ManagerTeamMember) : list CadenceGap :=
  let gaps := omap (gap_of t manager) members in exchange_sort (length gaps) gaps.

(** ** The week of a member *)

Record MemberWeekStats := { mw_Focus : Z; mw_Meeting : Z; mw_Free : Z; mw_Available : bool }.

Definition no_stats : MemberWeekStats := {| mw_Focus := 0; mw_Meeting := 0; mw_Free := 0; mw_Available := false |}.

Definition analyticsCache4h : Z := 4 * Hour.
Definition totalWorkMinutesPerWeek : Z := 5 * 8 * 60.

(** The figures of a user who shares them. *)
Definition paceday_week (t : ManagerTables) (u : uuid) (weekStart : time) : MemberWeekStats :=
  let shared := negb (me_fails env MCShared) && match GetUserProfile t u with Some p => up_Shared p | None => false end in
  if shared then
    match (if me_fails env MCWeek then None else me_week env u (FormatDateOnly weekStart)) with
    | Some (f, m, r) => {| mw_Focus := f; mw_Meeting := m; mw_Free := r; mw_Available := true |}
    | None => no_stats
    end
  else no_stats.

(** The figures of an address, from the manager's own free/busy. *)
Definition external_week (manager : uuid) (email : string) (weekStart : time) : MemberWeekStats :=
  match fst (Query (me_busy env) (me_text env manager) weekStart (Add weekStart (7 * 24 * Hour)) [email] ∅) with
  | Ok (r :: _) =>
      if String.eqb (pb_Coverage r) "known" then
        let busy := fold_left (fun b s => b + int_of (Minutes (Sub (iv_end s) (iv_start s)))) (pb_Busy r) 0 in
        {| mw_Focus := 0; mw_Meeting := busy; mw_Free := Z.max 0 (totalWorkMinutesPerWeek - busy); mw_Available := true |}
      else no_stats
  | _ => no_stats
  end.

Definition fresh (t : ManagerTables) (manager : uuid) (email : string) (weekStart : time) : option MemberWeekStats :=
  r ← (if me_fails env MCCached then None else GetTeamAnalytics t manager email weekStart);
  if Sub (me_now env) (ta_ComputedAt r) <? analyticsCache4h
  then Some {| mw_Focus := ta_Focus r; mw_Meeting := ta_Meeting r; mw_Free := ta_Free r; mw_Available := ta_Available r |}
  else None.

(** [GetMemberWeek]. *)
Definition GetMemberWeek (manager : uuid) (m : ManagerTeamMember) (weekStart : time) (t : ManagerTables) : MemberWeekStats * ManagerTables :=
  if match mm_User m with Some u => me_fails env (MCGate u) || negb (OwnsTeamWithMember t manager u) | None => false end
  then (no_stats, t)
  else match fresh t manager (mm_Email m) weekStart with
  | Some s => (s, t)
  | None =>
      let s := match mm_User m with
               | Some u => paceday_week t u weekStart
               | None => external_week manager (mm_Email m) weekStart
               end in
      (s, if me_fails env MCCacheWrite then t
          else UpsertTeamAnalytics {| ta_Manager := manager; ta_Email := mm_Email m; ta_Week := FormatDateOnly weekStart;
                 ta_Focus := mw_Focus s; ta_Meeting := mw_Meeting s; ta_Free := mw_Free s;
                 ta_Paceday := match mm_User m with Some _ => true | None => false end; ta_Available := mw_Available s;
                 ta_ComputedAt := me_now env |} t)
  end.
End Engine.

Definition TrendPct (current prior : Z) : spec_float :=
  if prior =? 0 then if current =? 0 then f64 0 else f64 200
  else
    let t := fmul (fdiv (f64 (current - prior)) (f64 prior)) (f64 100) in
    if flt (f64 200) t then f64 200 else if flt t (f64 (-200)) then f64 (-200) else fdiv (Round (fmul t (f64 10))) (f64 10).

Create HintDb roster.

(** ** Facts: text *)

Lemma trim_left_head p s : match trim_left p s with String c _ => p c = false | EmptyString => True end.
Proof. induction s as [|c s IH]; [done|]. cbn. destruct (p c) eqn:E; [exact IH|exact E]. Qed.

Lemma trim_left_fix p s : match s with String c _ => p c = false | EmptyString => True end -> trim_left p s = s.
Proof. destruct s as [|c s]; [done|]. cbn. by intros ->. Qed.

Lemma trim_right_head p s : match s with String c _ => p c = false | EmptyString => True end ->
  match trim_right p s with String c _ => p c = false | EmptyString => True end.
Proof. destruct s as [|c s]; [done|]. cbn. by intros E; rewrite E. Qed.

Lemma sforallb_trim_right_same p s : sforallb p (trim_right p s) = sforallb p s.
Proof.
  induction s as [|c s IH]; [done|]. cbn. destruct (p c) eqn:E; cbn; [|by rewrite E]. destruct (sforallb p s) eqn:Es; [done|].
  cbn. by rewrite E, IH.
Qed.

Lemma trim_right_idem p s : trim_right p (trim_right p s) = trim_right p s.
Proof.
  induction s as [|c s IH]; [done|]. cbn. destruct (p c && sforallb p s) eqn:E; [done|]. cbn.
  by rewrite sforallb_trim_right_same, E, IH.
Qed.

Lemma TrimSpace_idem s : TrimSpace (TrimSpace s) = TrimSpace s.
Proof.
  unfold TrimSpace. rewrite trim_left_fix by apply trim_right_head, trim_left_head. apply trim_right_idem.
Qed.

Lemma trim_left_smap p f s : (forall c, p (f c) = p c) -> trim_left p (smap f s) = smap f (trim_left p s).
Proof. intros H. induction s as [|c s IH]; [done|]. cbn. rewrite H. by destruct (p c). Qed.

Lemma sforallb_smap p f s : (forall c, p (f c) = p c) -> sforallb p (smap f s) = sforallb p s.
Proof. intros H. induction s as [|c s IH]; [done|]. cbn. by rewrite H, IH. Qed.

Lemma trim_right_smap p f s : (forall c, p (f c) = p c) -> trim_right p (smap f s) = smap f (trim_right p s).
Proof.
  intros H. induction s as [|c s IH]; [done|]. cbn. rewrite IH, H, sforallb_smap by done. by destruct (p c && sforallb p s).
Qed.

Lemma is_space_lower c : is_space (lower c) = is_space c.
Proof. by destruct c as [[] [] [] [] [] [] [] []]. Qed.

Lemma TrimSpace_ToLower s : TrimSpace (ToLower s) = ToLower (TrimSpace s).
Proof.
  unfold TrimSpace, ToLower. rewrite trim_left_smap, trim_right_smap by apply is_space_lower. done.
Qed.

Lemma canonical_idem s : canonical (canonical s) = canonical s.
Proof. unfold canonical. rewrite TrimSpace_ToLower, TrimSpace_idem. apply ToLower_idem. Qed.

(** ** Facts: upserts *)

Section Upsert.
Context {A : Type} (p : A -> bool) (f : A -> A) (new : A).

Lemma upsert_Forall (P : A -> Prop) l :
  (forall x, x ∈ l -> p x = true -> P x -> P (f x)) -> P new -> Forall P l -> Forall P (upsert p f new l).
Proof.
  rewrite !Forall_forall. intros Hf Hn Hl x. unfold upsert. destruct (existsb p l).
  - intros (y & -> & Hy)%list_elem_of_fmap. destruct (p y) eqn:E; auto.
  - rewrite elem_of_app, list_elem_of_singleton. intros [?| ->]; auto.
Qed.

Lemma upsert_NoDup {K} (k : A -> K) l : (forall x, p x = true -> k (f x) = k x) -> (forall x, x ∈ l -> k x = k new -> p x = true) ->
  NoDup (map k l) -> NoDup (map k (upsert p f new l)).
Proof.
  intros Hf Hk Hn. unfold upsert. destruct (existsb p l) eqn:E.
  - rewrite map_map. rewrite (map_ext _ k); [done|]. intros x. destruct (p x) eqn:Ex; auto.
  - rewrite List.map_app. apply NoDup_app. split; [done|]. split; [|apply NoDup_singleton].
    intros y (x & -> & Hx)%list_elem_of_fmap Hy%list_elem_of_singleton. rewrite existsb_elem_false in E.
    specialize (E x Hx). by rewrite (Hk x Hx Hy) in E.
Qed.

Lemma upsert_keep (q : A -> bool) l : (forall x, p x = true -> q x = false /\ q (f x) = false) -> q new = false ->
  keep q (upsert p f new l) = keep q l.
Proof.
  intros Hf Hn. unfold upsert. destruct (existsb p l); [|by apply keep_snoc_other].
  unfold keep. induction l as [|x l IH]; [done|]. cbn. destruct (p x) eqn:E.
  - destruct (Hf x E) as [-> ->]. exact IH.
  - destruct (q x); [by rewrite IH|exact IH].
Qed.

Lemma upsert_find l : (forall x, p x = true -> p (f x) = true) -> p new = true ->
  List.find p (upsert p f new l) = Some (match List.find p l with Some x => f x | None => new end).
Proof.
  intros Hf Hn. unfold upsert. destruct (existsb p l) eqn:E.
  - induction l as [|x l IH]; [done|]. cbn in E |- *. destruct (p x) eqn:Ex; [by rewrite Hf|]. by rewrite Ex, IH.
  - induction l as [|x l IH]; cbn in E |- *; [by rewrite Hn|]. apply orb_false_iff in E as [-> E]. by apply IH.
Qed.

Lemma upsert_find_other (q : A -> bool) l : (forall x, p x = true -> q x = false /\ q (f x) = false) -> q new = false ->
  List.find q (upsert p f new l) = List.find q l.
Proof.
  intros Hf Hn. unfold upsert. destruct (existsb p l).
  - induction l as [|x l IH]; [done|]. cbn. destruct (p x) eqn:E.
    + destruct (Hf x E) as [-> ->]. exact IH.
    + by destruct (q x).
  - by apply find_snoc_other.
Qed.

Lemma upsert_same l : (forall x, p x = true -> f x = x) -> existsb p l = true -> upsert p f new l = l.
Proof.
  intros Hf E. unfold upsert. rewrite E. rewrite <- (map_id l) at 2. apply map_ext. intros x. destruct (p x) eqn:Ex; auto.
Qed.

Lemma elem_of_upsert x l : x ∈ upsert p f new l ->
  (x ∈ l /\ p x = false) \/ (exists y, y ∈ l /\ p y = true /\ x = f y) \/ (x = new /\ existsb p l = false).
Proof.
  unfold upsert. destruct (existsb p l) eqn:E.
  - intros (y & -> & Hy)%list_elem_of_fmap. destruct (p y) eqn:Ey; [right; left; by exists y|by left].
  - rewrite elem_of_app, list_elem_of_singleton. intros [Hx| ->]; [|by right; right]. left. split; [done|]. rewrite existsb_elem_false in E. auto.
Qed.
End Upsert.

(** ** The roster stays well formed *)

(** The CHECK constraints of a cadence. *)
Definition cadence_ok (cadence : string) (days : option Z) : bool :=
  match days with
  | Some d => String.eqb cadence "custom" && (1 <=? d) && (d <=? 365)
  | None => existsb (String.eqb cadence) ["weekly"; "biweekly"; "monthly"; "none"]
  end.

Definition member_ok (m : ManagerTeamMember) : Prop :=
  canonical (mm_Email m) = mm_Email m /\ (mm_Source m = "auto" \/ mm_Source m = "manual") /\ cadence_ok (mm_Cadence m) (mm_Days m) = true.

Definition member_key (m : ManagerTeamMember) : uuid * string := (mm_Manager m, mm_Email m).
Definition assignment_key (a : Assignment) : uuid * uuid * string := (as_Manager a, as_Team a, as_Email a).

Definition assignment_ok (roster : list ManagerTeamMember) (a : Assignment) : Prop :=
  cadence_ok (as_Cadence a) (as_Days a) = true /\ exists m, m ∈ roster /\ member_key m = (as_Manager a, as_Email a).

(** What the tables' constraints ask for: the keys, the foreign key of an
    assignment, and the checks of addresses, sources and cadences. *)
Record roster_ok (t : ManagerTables) : Prop := {
  rk_members : Forall member_ok (mt_roster t);
  rk_member_keys : NoDup (map member_key (mt_roster t));
  rk_assigned : Forall (assignment_ok (mt_roster t)) (mt_assigned t);
  rk_assigned_keys : NoDup (map assignment_key (mt_assigned t));
  rk_profiles : NoDup (map up_User (mt_profiles t));
  rk_occs : NoDup (map (fun o => (oo_Manager o, oo_Event o)) (mt_occs t));
  rk_cache : NoDup (map (fun r => (ta_Manager r, ta_Email r, ta_Week r)) (mt_cache t)) }.

Lemma member_at_key manager email m : member_at manager email m = true <-> member_key m = (manager, email).
Proof. unfold member_at, member_key. rewrite andb_true_iff, N.eqb_eq, String.eqb_eq. split; [by intros [-> ->]|by intros [= -> ->]]. Qed.

Lemma assigned_at_key manager team email a : assigned_at manager team email a = true <-> assignment_key a = (manager, team, email).
Proof.
  unfold assigned_at, assignment_key. rewrite !andb_true_iff, !N.eqb_eq, String.eqb_eq. split; [by intros [[-> ->] ->]|by intros [= -> -> ->]].
Qed.

Lemma merge_member_key m old : member_key (merge_member m old) = member_key old.
Proof. done. Qed.

Lemma assignment_ok_roster roster roster' a : (forall m, m ∈ roster -> exists m', m' ∈ roster' /\ member_key m' = member_key m) ->
  assignment_ok roster a -> assignment_ok roster' a.
Proof. intros H [Hc (m & Hm & Hk)]. split; [done|]. destruct (H m Hm) as (m' & Hm' & Hk'). exists m'. split; [done|]. congruence. Qed.

Lemma upsert_member_ok m t : (mm_Source m = "auto" \/ mm_Source m = "manual") -> cadence_ok (mm_Cadence m) (mm_Days m) = true ->
  roster_ok t -> roster_ok (UpsertManagerTeamMember m t).
Proof.
  intros Hs Hc [H1 H2 H3 H4 H5 H6 H7]. unfold UpsertManagerTeamMember.
  set (p := member_at (mm_Manager (cleaned m)) (mm_Email (cleaned m))).
  assert (Hroster : forall x, x ∈ mt_roster t -> exists x', x' ∈ upsert p (merge_member (cleaned m)) (cleaned m) (mt_roster t) /\ member_key x' = member_key x).
  { intros x Hx. unfold upsert. destruct (existsb p (mt_roster t)).
    - eexists. split; [by apply list_elem_of_fmap_2|]. by destruct (p x).
    - exists x. split; [|done]. apply elem_of_app. by left. }
  split; cbn [on_roster mt_roster mt_assigned mt_profiles mt_occs mt_cache]; try done.
  - apply upsert_Forall; [|split; [apply canonical_idem|done]|done]. intros x _ _ (E1 & E2 & _). split; [exact E1|]. split; [|done].
    cbn. destruct (String.eqb (mm_Source x) "manual"); [by right|done].
  - apply upsert_NoDup; [done| |done]. intros x _ E. by apply member_at_key.
  - apply Forall_forall. intros a Ha. rewrite Forall_forall in H3. eapply assignment_ok_roster; [exact Hroster|by apply H3].
Qed.

Lemma upsert_member_in m t : exists x, x ∈ mt_roster (UpsertManagerTeamMember m t) /\ member_key x = (mm_Manager m, canonical (mm_Email m)).
Proof.
  unfold UpsertManagerTeamMember. cbn [on_roster mt_roster cleaned mm_Manager mm_Email].
  destruct (List.find (member_at (mm_Manager m) (canonical (mm_Email m)))
    (upsert (member_at (mm_Manager m) (canonical (mm_Email m))) (merge_member (cleaned m)) (cleaned m) (mt_roster t))) as [x|] eqn:E.
  - exists x. apply find_some in E as [Hx E]. split; [by apply list_elem_of_In|by apply member_at_key].
  - rewrite upsert_find in E; [done|done|]. by apply member_at_key.
Qed.

Lemma on_assigned_ok f t : Forall (assignment_ok (mt_roster t)) (f (mt_assigned t)) -> NoDup (map assignment_key (f (mt_assigned t))) ->
  roster_ok t -> roster_ok (on_assigned f t).
Proof. intros Hf Hn [H1 H2 H3 H4 H5 H6 H7]. by split. Qed.

Lemma upsert_assignment_ok (g : Assignment -> Assignment) a t :
  (forall x, assignment_key (g x) = assignment_key x) ->
  (forall x, cadence_ok (as_Cadence x) (as_Days x) = true -> cadence_ok (as_Cadence (g x)) (as_Days (g x)) = true) ->
  assignment_ok (mt_roster t) a -> roster_ok t ->
  roster_ok (on_assigned (upsert (assigned_at (as_Manager a) (as_Team a) (as_Email a)) g a) t).
Proof.
  intros Hk Hc Ha Ht. apply on_assigned_ok; [| |done].
  - apply upsert_Forall; [|done|apply Ht]. intros x _ _ [E1 (m & Hm & E2)]. split; [by apply Hc|]. exists m. split; [done|].
    specialize (Hk x). unfold assignment_key in Hk. congruence.
  - apply upsert_NoDup; [done| |apply Ht]. intros x _ E. by apply assigned_at_key.
Qed.

Lemma upsert_for_team_ok team m t : (mm_Source m = "auto" \/ mm_Source m = "manual") -> cadence_ok (mm_Cadence m) (mm_Days m) = true ->
  roster_ok t -> roster_ok (UpsertManagerTeamMemberForTeam team m t).
Proof.
  intros Hs Hc Ht. unfold UpsertManagerTeamMemberForTeam.
  apply (upsert_assignment_ok _ {| as_Manager := mm_Manager m; as_Team := team; as_Email := canonical (mm_Email m); as_Name := None;
    as_Cadence := mm_Cadence m; as_Days := mm_Days m |}); [done|done| |by apply upsert_member_ok].
  split; [done|]. apply upsert_member_in.
Qed.

Lemma assign_ok a t : assignment_ok (mt_roster t) a -> roster_ok t -> roster_ok (snd (assign a t)).
Proof. intros Ha Ht. by apply upsert_assignment_ok. Qed.

Lemma keep_assigned_ok p t : roster_ok t -> roster_ok (on_assigned (keep p) t).
Proof.
  intros Ht. apply on_assigned_ok; [| |done].
  - apply Forall_forall. intros x [Hx _]%elem_of_keep. pose proof (rk_assigned _ Ht) as H. rewrite Forall_forall in H. by apply H.
  - eapply sublist_NoDup; [apply (rk_assigned_keys _ Ht)|]. apply (fmap_sublist assignment_key), keep_sublist.
Qed.

Lemma delete_member_ok manager email t : roster_ok t -> roster_ok (DeleteManagerTeamMemberByEmail manager email t).
Proof.
  intros [H1 H2 H3 H4 H5 H6 H7]. split; cbn [DeleteManagerTeamMemberByEmail on_assigned on_roster mt_roster mt_assigned mt_profiles mt_occs mt_cache]; try done.
  - apply Forall_forall. intros x [Hx _]%elem_of_keep. rewrite Forall_forall in H1. by apply H1.
  - eapply sublist_NoDup; [exact H2|]. apply (fmap_sublist member_key), keep_sublist.
  - apply Forall_forall. intros a [Ha Hk]%elem_of_keep. rewrite Forall_forall in H3. destruct (H3 a Ha) as [Hc (m & Hm & E)].
    split; [done|]. exists m. split; [|done]. apply elem_of_keep. split; [done|]. destruct (member_at manager (canonical email) m) eqn:Em; [|done].
    apply member_at_key in Em. rewrite E in Em. injection Em as Em1 Em2. by rewrite Em1, Em2, N.eqb_refl, String.eqb_refl in Hk.
  - eapply sublist_NoDup; [exact H4|]. apply (fmap_sublist assignment_key), keep_sublist.
Qed.

Lemma patch_member_ok manager email name cadence days t : cadence_ok cadence days = true -> roster_ok t ->
  roster_ok (PatchManagerTeamMember manager email name cadence days t).
Proof.
  intros Hc [H1 H2 H3 H4 H5 H6 H7]. split; cbn [PatchManagerTeamMember on_roster mt_roster mt_assigned mt_profiles mt_occs mt_cache]; try done.
  - apply Forall_forall. intros x (y & -> & Hy)%list_elem_of_fmap. rewrite Forall_forall in H1. specialize (H1 y Hy). destruct (member_at _ _ y); [|done].
    destruct H1 as (E1 & E2 & _). by split.
  - rewrite map_map. rewrite (map_ext _ member_key); [done|]. intros x. by destruct (member_at _ _ x).
  - apply Forall_forall. intros a Ha. rewrite Forall_forall in H3. eapply assignment_ok_roster; [|by apply H3]. intros m Hm.
    eexists. split; [by apply list_elem_of_fmap_2|]. by destruct (member_at _ _ m).
Qed.

Lemma patch_for_team_ok manager team email name cadence days t : cadence_ok cadence days = true -> roster_ok t ->
  roster_ok (snd (PatchManagerTeamMemberForTeam manager team email name cadence days t)).
Proof.
  intros Hc Ht. unfold PatchManagerTeamMemberForTeam. destruct (GetManagerTeamMemberByEmail t manager email); [|done]. cbn [snd].
  apply on_assigned_ok; [| |done].
  - apply Forall_forall. intros x (y & -> & Hy)%list_elem_of_fmap. pose proof (rk_assigned _ Ht) as H. rewrite Forall_forall in H.
    destruct (H y Hy) as [E1 E2]. by destruct (assigned_at _ _ _ y).
  - rewrite map_map. rewrite (map_ext _ assignment_key); [apply Ht|]. intros x. by destruct (assigned_at _ _ _ x).
Qed.

Lemma assign_roster a t : mt_roster (snd (assign a t)) = mt_roster t.
Proof. done. Qed.

Lemma confirm_one_ok manager team c raw : roster_ok (cf_tables c) -> roster_ok (cf_tables (confirm_one manager team c raw))
  /\ mt_roster (cf_tables (confirm_one manager team c raw)) = mt_roster (cf_tables c).
Proof.
  intros Hc. unfold confirm_one. destruct (String.eqb _ _ || _); [done|]. destruct (List.find _ _) as [m|] eqn:Ef; [|done].
  apply find_some in Ef as [Hm%list_elem_of_In Ek%member_at_key]. set (a := {| as_Manager := manager |}).
  assert (Ha : assignment_ok (mt_roster (cf_tables c)) a).
  { split; [|by exists m]. pose proof (rk_members _ Hc) as H. rewrite Forall_forall in H. by destruct (H m Hm) as (_ & _ & ?). }
  pose proof (assign_ok a (cf_tables c) Ha Hc) as H. pose proof (assign_roster a (cf_tables c)) as Hr.
  by destruct (assign a (cf_tables c)) as [[] t'].
Qed.

Lemma confirm_fold_ok manager team emails c : roster_ok (cf_tables c) -> roster_ok (cf_tables (fold_left (confirm_one manager team) emails c)).
Proof. revert c. induction emails as [|e r IH]; intros c Hc; [done|]. cbn. apply IH. by apply confirm_one_ok. Qed.

Lemma confirm_ok manager team emails t : roster_ok t -> roster_ok (snd (ConfirmManagerTeamMembers manager team emails t)).
Proof. intros Ht. unfold ConfirmManagerTeamMembers. cbn [snd]. by apply confirm_fold_ok. Qed.

Lemma match_formal_ok manager team t : roster_ok t -> roster_ok (snd (AssignManagerTeamMembersMatchingFormalTeam manager team t)).
Proof.
  intros Ht. unfold AssignManagerTeamMembersMatchingFormalTeam.
  enough (G : forall l s, (forall m, m ∈ l -> m ∈ mt_roster s.2 /\ mm_Manager m = manager) -> roster_ok s.2 ->
    roster_ok (fold_left (fun s m => let '(added, t') := assign {| as_Manager := manager; as_Team := team; as_Email := mm_Email m;
      as_Name := None; as_Cadence := "none"; as_Days := None |} s.2 in (s.1 + (if added : bool then 1 else 0), t')) l s).2).
  { apply G; [|done]. intros m [Hm [E%N.eqb_eq _]%andb_true_iff]%elem_of_keep. by split. }
  induction l as [|m l IH]; intros [n s] Hl Hs; [done|]. cbn [fold_left fst snd] in *. destruct (Hl m) as [Hm Em]; [by left|].
  apply IH; cbn [snd]; [intros x Hx; apply Hl; by right|]. apply assign_ok; [|done]. split; [done|]. exists m. split; [done|].
  unfold member_key. cbn. by rewrite Em.
Qed.

Lemma upsert_occurrence_ok o t : roster_ok t -> roster_ok (UpsertOneOnOneOccurrence o t).
Proof.
  intros [H1 H2 H3 H4 H5 H6 H7]. split; try done. apply upsert_NoDup; [done| |done]. intros x _ [= -> ->].
  by rewrite N.eqb_refl, String.eqb_refl.
Qed.

Lemma upsert_analytics_ok r t : roster_ok t -> roster_ok (UpsertTeamAnalytics r t).
Proof.
  intros [H1 H2 H3 H4 H5 H6 H7]. split; try done. apply upsert_NoDup; [| |done].
  - intros x. unfold cached_at. rewrite !andb_true_iff, N.eqb_eq, !String.eqb_eq. by intros [[-> ->] ->].
  - intros x _ [= E1 E2 E3]. unfold cached_at. by rewrite E1, E2, E3, N.eqb_refl, !String.eqb_refl.
Qed.

Lemma upsert_profile_ok p t : roster_ok t -> roster_ok (UpsertUserProfile p t).
Proof.
  intros [H1 H2 H3 H4 H5 H6 H7]. split; try done. apply upsert_NoDup; [| |done].
  - intros x E%N.eqb_eq. done.
  - intros x _ E. by apply N.eqb_eq.
Qed.

Lemma create_profile_ok u t : roster_ok t -> roster_ok (snd (GetOrCreateUserProfile u t)).
Proof.
  intros [H1 H2 H3 H4 H5 H6 H7]. split; try done. apply upsert_NoDup; [done| |done]. intros x _ E. by apply N.eqb_eq.
Qed.

Lemma on_teams_ok f t : roster_ok t -> roster_ok (on_teams f t).
Proof. intros [H1 H2 H3 H4 H5 H6 H7]. by split. Qed.

#[export] Hint Resolve keep_assigned_ok delete_member_ok patch_member_ok patch_for_team_ok confirm_ok upsert_occurrence_ok
  upsert_analytics_ok upsert_profile_ok create_profile_ok on_teams_ok : roster.

(** ** Facts: other managers *)

(** What an operation of one manager leaves: the rows of the others, and the
    users. *)
Record kept_for_others (u : uuid) (t t' : ManagerTables) : Prop := {
  ko_roster : keep (fun m => negb (N.eqb (mm_Manager m) u)) (mt_roster t') = keep (fun m => negb (N.eqb (mm_Manager m) u)) (mt_roster t);
  ko_assigned : keep (fun a => negb (N.eqb (as_Manager a) u)) (mt_assigned t') = keep (fun a => negb (N.eqb (as_Manager a) u)) (mt_assigned t);
  ko_occs : keep (fun o => negb (N.eqb (oo_Manager o) u)) (mt_occs t') = keep (fun o => negb (N.eqb (oo_Manager o) u)) (mt_occs t);
  ko_cache : keep (fun r => negb (N.eqb (ta_Manager r) u)) (mt_cache t') = keep (fun r => negb (N.eqb (ta_Manager r) u)) (mt_cache t);
  ko_profiles : keep (fun p => negb (N.eqb (up_User p) u)) (mt_profiles t') = keep (fun p => negb (N.eqb (up_User p) u)) (mt_profiles t);
  ko_users : mt_users t' = mt_users t }.

#[export] Instance kept_for_others_refl u : Reflexive (kept_for_others u).
Proof. by split. Qed.

#[export] Instance kept_for_others_trans u : Transitive (kept_for_others u).
Proof. intros t1 t2 t3 [] []. split; congruence. Qed.

Lemma upsert_member_others m t : kept_for_others (mm_Manager m) t (UpsertManagerTeamMember m t).
Proof.
  split; try done. apply upsert_keep; [|cbn; by rewrite N.eqb_refl]. intros x [= E _]%member_at_key. cbn in *. by rewrite E, N.eqb_refl.
Qed.

Lemma upsert_assigned_others g a t : (forall x, as_Manager (g x) = as_Manager x) ->
  kept_for_others (as_Manager a) t (on_assigned (upsert (assigned_at (as_Manager a) (as_Team a) (as_Email a)) g a) t).
Proof.
  intros Hg. split; try done. apply upsert_keep; [|by rewrite N.eqb_refl]. intros x [= E _ _]%assigned_at_key. by rewrite Hg, E, N.eqb_refl.
Qed.

Lemma assign_others a t : kept_for_others (as_Manager a) t (snd (assign a t)).
Proof. by apply upsert_assigned_others. Qed.

Lemma upsert_for_team_others team m t : kept_for_others (mm_Manager m) t (UpsertManagerTeamMemberForTeam team m t).
Proof.
  unfold UpsertManagerTeamMemberForTeam. etransitivity; [apply upsert_member_others|].
  by apply (upsert_assigned_others _ {| as_Manager := mm_Manager m; as_Team := team; as_Email := canonical (mm_Email m); as_Name := None;
    as_Cadence := mm_Cadence m; as_Days := mm_Days m |}).
Qed.

Lemma unassign_others manager team email t : kept_for_others manager t (UnassignManagerTeamMember manager team email t).
Proof.
  split; try done. apply keep_keep_same. intros a Ha. apply negb_true_iff. destruct (assigned_at _ _ _ a) eqn:E; [|done].
  apply assigned_at_key in E as [= E1 _ _]. by rewrite E1, N.eqb_refl in Ha.
Qed.

Lemma delete_member_others manager email t : kept_for_others manager t (DeleteManagerTeamMemberByEmail manager email t).
Proof.
  split; try done; cbn [DeleteManagerTeamMemberByEmail on_assigned on_roster mt_roster mt_assigned]; apply keep_keep_same; intros x Hx.
  - unfold member_at. apply negb_true_iff in Hx. by rewrite Hx.
  - apply negb_true_iff in Hx. by rewrite Hx.
Qed.

Lemma patch_member_others manager email name cadence days t : kept_for_others manager t (PatchManagerTeamMember manager email name cadence days t).
Proof.
  split; try done. apply keep_map_same; intros x; destruct (member_at manager (canonical email) x) eqn:E; try done.
  apply member_at_key in E as [= E1 _]. by rewrite E1, N.eqb_refl.
Qed.

Lemma patch_for_team_others manager team email name cadence days t :
  kept_for_others manager t (snd (PatchManagerTeamMemberForTeam manager team email name cadence days t)).
Proof.
  unfold PatchManagerTeamMemberForTeam. destruct (GetManagerTeamMemberByEmail t manager email); [|done]. cbn [snd].
  split; try done. apply keep_map_same; intros x; destruct (assigned_at manager team (canonical email) x) eqn:E; try done.
  apply assigned_at_key in E as [= E1 _ _]. by rewrite E1, N.eqb_refl.
Qed.

Lemma confirm_one_others manager team c raw : kept_for_others manager (cf_tables c) (cf_tables (confirm_one manager team c raw)).
Proof.
  unfold confirm_one. destruct (String.eqb _ _ || _); [done|]. destruct (List.find _ _) as [m|]; [|done].
  set (a := {| as_Manager := manager |}). pose proof (assign_others a (cf_tables c)) as H. by destruct (assign a (cf_tables c)) as [[] t'].
Qed.

Lemma confirm_others manager team emails t : kept_for_others manager t (snd (ConfirmManagerTeamMembers manager team emails t)).
Proof.
  unfold ConfirmManagerTeamMembers. cbn [snd]. enough (G : forall c, kept_for_others manager (cf_tables c)
    (cf_tables (fold_left (confirm_one manager team) emails c))) by apply (G {| cf_seen := []; cf_assigned := 0; cf_skipped := 0; cf_tables := t |}).
  induction emails as [|e r IH]; intros c; [done|]. cbn [fold_left]. etransitivity; [apply (confirm_one_others manager team c e)|apply IH].
Qed.

Lemma upsert_occurrence_others o t : kept_for_others (oo_Manager o) t (UpsertOneOnOneOccurrence o t).
Proof.
  split; try done. apply upsert_keep; [|by rewrite N.eqb_refl]. intros x [E%N.eqb_eq _]%andb_true_iff. cbn. by rewrite E, N.eqb_refl.
Qed.

Lemma upsert_analytics_others r t : kept_for_others (ta_Manager r) t (UpsertTeamAnalytics r t).
Proof.
  split; try done. apply upsert_keep; [|by rewrite N.eqb_refl]. intros x [[E%N.eqb_eq _]%andb_true_iff _]%andb_true_iff.
  by rewrite E, N.eqb_refl.
Qed.

Lemma upsert_profile_others p t : kept_for_others (up_User p) t (UpsertUserProfile p t).
Proof. split; try done. apply upsert_keep; [|by rewrite N.eqb_refl]. intros x E%N.eqb_eq. by rewrite E, N.eqb_refl. Qed.

Lemma create_profile_others u t : kept_for_others u t (snd (GetOrCreateUserProfile u t)).
Proof. split; try done. apply upsert_keep; [|cbn; by rewrite N.eqb_refl]. intros x E%N.eqb_eq. cbn. by rewrite E, N.eqb_refl. Qed.

Lemma create_profile_user u t : up_User (fst (GetOrCreateUserProfile u t)) = u.
Proof.
  unfold GetOrCreateUserProfile. cbn [fst]. destruct (GetUserProfile _ u) as [p|] eqn:E; [|done]. apply find_some in E as [_ E]. by apply N.eqb_eq.
Qed.

Lemma on_teams_others u f t : kept_for_others u t (on_teams f t).
Proof. by split. Qed.

#[export] Hint Resolve unassign_others delete_member_others patch_member_others patch_for_team_others confirm_others create_profile_others
  on_teams_others : roster.

(** ** Facts: detection *)

(** A guest the loop counts, and an event that is a one-on-one with an
    address. *)
Definition counted (managerEmail : string) (g : Guest) : bool :=
  negb (String.eqb (canonical (gu_Email g)) "") && negb (gu_Self g) && negb (EqualFold (canonical (gu_Email g)) managerEmail).

Definition meets (local : Location) (managerEmail email : string) (ev : Meeting) : bool :=
  let dur := calcEventDurationMinutes local (default "" (me_Start ev)) (default "" (me_End ev)) in
  (15 <=? dur) && (dur <=? 90) &&
  match keep (counted managerEmail) (me_Guests ev) with [g] => String.eqb (canonical (gu_Email g)) email | _ => false end.

Lemma other_guest_spec managerEmail found l : other_guest managerEmail found l =
  match found, keep (counted managerEmail) l with
  | None, [g] => Some g
  | Some g, [] => Some g
  | _, _ => None
  end.
Proof.
  revert found. induction l as [|g r IH]; intros found; [by destruct found|]. unfold keep in *. cbn [other_guest List.filter].
  assert (counted managerEmail g = negb (String.eqb (canonical (gu_Email g)) "" || gu_Self g || EqualFold (canonical (gu_Email g)) managerEmail)) as ->
    by (unfold counted; by rewrite !negb_orb).
  destruct (_ || _); cbn [negb]; [apply IH|]. destruct found as [g'|]; [done|]. rewrite IH. by destruct (List.filter _ r).
Qed.

Lemma meets_one_on_one local managerEmail email ev : meets local managerEmail email ev =
  match one_on_one local managerEmail ev with Some g => String.eqb (canonical (gu_Email g)) email | None => false end.
Proof.
  unfold meets, one_on_one. rewrite other_guest_spec. rewrite !Z.leb_antisym.
  destruct (_ <? 15), (90 <? _); cbn [negb andb orb]; try done. by destruct (keep _ _) as [|g [|]].
Qed.

Definition merged_rows (c : Candidate) (evs : list Meeting) (local : Location) (c' : Candidate) : Prop :=
  ca_Email c' = ca_Email c /\ ca_Recurring c' = ca_Recurring c || existsb recurring evs
  /\ ca_Occs c' = ca_Occs c ++ map (occurrence_of local) evs.

Definition new_candidate (email : string) : Candidate :=
  {| ca_Email := email; ca_Name := ""; ca_Rrule := ""; ca_Recurring := false; ca_Occs := [] |}.

Lemma add_event_lookup local managerEmail cands ev email :
  if meets local managerEmail email ev
  then exists c, add_event local managerEmail cands ev !! email = Some c
         /\ merged_rows (default (new_candidate email) (cands !! email)) [ev] local c
  else add_event local managerEmail cands ev !! email = cands !! email.
Proof.
  rewrite meets_one_on_one. unfold add_event. destruct (one_on_one local managerEmail ev) as [g|]; [|done]. cbv zeta.
  destruct (String.eqb (canonical (gu_Email g)) email) eqn:E.
  - apply String.eqb_eq in E as ->. rewrite lookup_insert_eq. eexists. split; [done|]. unfold merged_rows. cbn. by rewrite orb_false_r.
  - apply lookup_insert_ne. by apply String.eqb_neq.
Qed.

Lemma add_events_lookup local managerEmail events cands email :
  let evs := keep (meets local managerEmail email) events in
  match evs with
  | [] => fold_left (add_event local managerEmail) events cands !! email = cands !! email
  | _ => exists c, fold_left (add_event local managerEmail) events cands !! email = Some c
           /\ merged_rows (default (new_candidate email) (cands !! email)) evs local c
  end.
Proof.
  cbv zeta. revert cands. induction events as [|ev r IH]; intros cands; [done|]. unfold keep in *. cbn [List.filter fold_left].
  specialize (IH (add_event local managerEmail cands ev)). pose proof (add_event_lookup local managerEmail cands ev email) as H.
  destruct (meets local managerEmail email ev); [|by rewrite H in IH].
  destruct H as (c & Hc & E1 & E2 & E3). rewrite Hc in IH. cbn [default] in IH. destruct (List.filter _ r) as [|e l].
  - exists c. by rewrite IH.
  - destruct IH as (c' & Hc' & F1 & F2 & F3). exists c'. split; [done|]. unfold merged_rows in *.
    simpl in F1, F2, F3. split_and!.
    + by rewrite F1, E1.
    + rewrite F2, E2. cbn [existsb]. by rewrite orb_false_r, <- orb_assoc.
    + rewrite F3, E3. cbn [map]. by rewrite <- app_assoc.
Qed.


(** What a detection does to a row: the name and source a manager gave, a known
    user, and a later meeting stay. *)
Definition row_kept (r r' : ManagerTeamMember) : Prop :=
  member_key r' = member_key r
  /\ (mm_Source r = "manual" -> mm_Source r' = "manual" /\ mm_Name r' = mm_Name r)
  /\ (is_Some (mm_User r) -> is_Some (mm_User r'))
  /\ (forall x, mm_Last r = Some x -> exists y, mm_Last r' = Some y /\ t_ns x <= t_ns y).

Lemma row_kept_refl r : row_kept r r.
Proof. split_and!; try done. intros x Hx. exists x. split; [done|lia]. Qed.

Lemma row_kept_trans r1 r2 r3 : row_kept r1 r2 -> row_kept r2 r3 -> row_kept r1 r3.
Proof.
  intros (A1 & A2 & A3 & A4) (B1 & B2 & B3 & B4). split_and!; [congruence| |auto|].
  - intros H. destruct (A2 H) as [H1 H2]. destruct (B2 H1). split; congruence.
  - intros x Hx. destruct (A4 x Hx) as (y & Hy & Hl). destruct (B4 y Hy) as (z & Hz & Hl'). exists z. split; [done|lia].
Qed.

Lemma merge_row_kept m r : mm_Source m = "auto" -> row_kept r (merge_member m r).
Proof.
  intros Hs. split_and!; [done| | |].
  - intros H. cbn. rewrite H, Hs. done.
  - cbn. by destruct (mm_User m).
  - cbn. intros x ->. destruct (mm_Last m) as [y|]; cbn; [|exists x; split; [done|lia]].
    destruct (Before y x) eqn:E; [exists x; split; [done|lia]|]. apply Before_ge in E. by exists y.
Qed.

(** What a detection of a manager leaves of the tables. *)
Record detected (manager : uuid) (t t' : ManagerTables) : Prop := {
  dd_roster : forall r, r ∈ mt_roster t -> exists r', r' ∈ mt_roster t' /\ row_kept r r';
  dd_assigned : mt_assigned t' = mt_assigned t;
  dd_teams : mt_teams t' = mt_teams t;
  dd_cache : mt_cache t' = mt_cache t;
  dd_occs : forall o, o ∈ mt_occs t -> o ∈ mt_occs t';
  dd_others : kept_for_others manager t t';
  dd_ok : roster_ok t -> roster_ok t' }.

#[export] Instance detected_refl u : Reflexive (detected u).
Proof. split; try done. intros r Hr. exists r. split; [done|apply row_kept_refl]. Qed.

#[export] Instance detected_trans u : Transitive (detected u).
Proof.
  intros t1 t2 t3 [A1 A2 A3 A4 A5 A6 A7] [B1 B2 B3 B4 B5 B6 B7]. split; try congruence; auto; [|by etransitivity].
  intros r Hr. destruct (A1 r Hr) as (r' & Hr' & K1). destruct (B1 r' Hr') as (r'' & Hr'' & K2). exists r''.
  split; [done|by eapply row_kept_trans].
Qed.

Lemma upsert_id_elem {A} (p : A -> bool) new l x : x ∈ l -> x ∈ upsert p id new l.
Proof.
  intros Hx. unfold upsert. destruct (existsb p l); [|apply elem_of_app; by left].
  apply list_elem_of_fmap. exists x. split; [by destruct (p x)|done].
Qed.

Lemma upsert_member_detected m t : mm_Source m = "auto" -> cadence_ok (mm_Cadence m) (mm_Days m) = true ->
  detected (mm_Manager m) t (UpsertManagerTeamMember m t).
Proof.
  intros Hs Hc. split; try done; [|apply upsert_member_others|by apply upsert_member_ok; [left|]].
  intros r Hr. unfold UpsertManagerTeamMember. cbn [on_roster mt_roster]. unfold upsert. destruct (existsb _ _).
  - eexists. split; [by apply list_elem_of_fmap_2|]. destruct (member_at _ _ r); [by apply merge_row_kept|apply row_kept_refl].
  - exists r. split; [apply elem_of_app; by left|apply row_kept_refl].
Qed.

Lemma occurrence_detected o t : detected (oo_Manager o) t (UpsertOneOnOneOccurrence o t).
Proof.
  split; try done; [| |apply upsert_occurrence_others|apply upsert_occurrence_ok].
  - intros r Hr. exists r. split; [done|apply row_kept_refl].
  - intros x Hx. by apply upsert_id_elem.
Qed.

Lemma record_detected env manager email occs t : detected manager t (snd (record_occurrences env manager email occs t)).
Proof.
  revert t. induction occs as [|o r IH]; intros t; [done|]. cbn. destruct (me_fails env _); [done|]. etransitivity; [|apply IH].
  apply (occurrence_detected {| oo_Manager := manager; oo_Email := email; oo_Event := oc_Event o; oo_At := oc_At o |}).
Qed.

Lemma infer_cadence_ok c : cadence_ok (inferCandidateCadence c) None = true.
Proof.
  unfold inferCandidateCadence, inferCadence, cadence_of_days. repeat case_match; done.
Qed.

Lemma detect_one_detected env manager c s : detected manager s.2 (snd (detect_one env manager c s)).2.
Proof.
  destruct s as [r t]. unfold detect_one. cbn [snd]. destruct (Nat.eqb _ 0); [done|]. destruct (me_fails env (MCLookup _)); [done|].
  destruct (me_fails env (MCUpsert _)); [done|].
  set (m := {| mm_Manager := manager |}). pose proof (upsert_member_detected m t eq_refl (infer_cadence_ok c)) as H1.
  pose proof (record_detected env manager (ca_Email c) (ca_Occs c) (UpsertManagerTeamMember m t)) as H2.
  destruct (record_occurrences _ _ _ _ _) as [ok t']. cbn [snd] in *. by etransitivity; [exact H1|].
Qed.

Lemma detect_loop_detected env manager cands s : detected manager s.2 (snd (detect_loop env manager cands s)).2.
Proof.
  revert s. induction cands as [|c r IH]; intros s; [done|]. cbn [detect_loop]. pose proof (detect_one_detected env manager c s) as H.
  destruct (detect_one env manager c s) as [[] s']; [|exact H]. cbn [snd] in H. etransitivity; [exact H|apply IH].
Qed.

Lemma profile_detected u t t' : mt_roster t' = mt_roster t -> mt_assigned t' = mt_assigned t -> mt_teams t' = mt_teams t ->
  mt_cache t' = mt_cache t -> mt_occs t' = mt_occs t -> kept_for_others u t t' -> (roster_ok t -> roster_ok t') -> detected u t t'.
Proof. intros E1 E2 E3 E4 E5 H1 H2. split; try done; rewrite ?E1, ?E5; [|done]. intros r Hr. exists r. split; [done|apply row_kept_refl]. Qed.

Lemma DetectTeam_detected env manager t : detected manager t (snd (DetectTeam env manager t)).
Proof.
  unfold DetectTeam. destruct (LoadCalendarToken _); [|done]. destruct (me_client env); [|done]. destruct (me_events env _ _) as [events|]; [|done].
  destruct (me_fails env MCManager); [done|]. cbv zeta. destruct (me_fails env MCProfile); [done|].
  assert (Hp : detected manager t (snd (GetOrCreateUserProfile manager t))) by (apply profile_detected; auto with roster).
  pose proof (create_profile_user manager t) as Hu. destruct (GetOrCreateUserProfile manager t) as [profile t1]. cbn [fst snd] in *.
  set (l := me_order env _). set (r0 := {| dt_Added := 0 |}). pose proof (detect_loop_detected env manager l (r0, t1)) as Hl.
  destruct (detect_loop env manager l (r0, t1)) as [ok [r t2]]. cbn [snd] in *. assert (H : detected manager t t2) by by etransitivity.
  destruct ok; cbn [negb]; [|exact H]. destruct (_ && _); [exact H|]. cbn [snd]. destruct (_ <? _); [|exact H]. etransitivity; [exact H|].
  apply profile_detected; auto with roster. rewrite <- Hu. apply (upsert_profile_others {| up_User := up_User profile; up_IsManager := true;
    up_DetectedAt := Some (In (me_now env) UTC); up_Shared := up_Shared profile |}).
Qed.

(** A detection, complete or not, takes nothing from a roster: every row stays,
    with its name when the manager gave it and with a meeting no earlier; no
    team gains or loses a member or an assignment, no recorded meeting changes,
    nobody else's rows are touched and the constraints of the tables hold. *)
Theorem detection_keeps_the_roster env manager t : let t' := snd (DetectTeam env manager t) in
  (forall r, r ∈ mt_roster t -> exists r', r' ∈ mt_roster t' /\ row_kept r r')
  /\ mt_assigned t' = mt_assigned t /\ mt_teams t' = mt_teams t /\ (forall o, o ∈ mt_occs t -> o ∈ mt_occs t')
  /\ kept_for_others manager t t' /\ (roster_ok t -> roster_ok t').
Proof. by destruct (DetectTeam_detected env manager t). Qed.

(** ** Facts: gaps *)

Lemma exchange_spec x l : let '(m, l') := exchange x l in
  m :: l' ≡ₚ x :: l /\ cg_Overdue x <= cg_Overdue m /\ Forall (fun y => cg_Overdue y <= cg_Overdue m) l'.
Proof.
  revert x. induction l as [|y r IH]; intros x; cbn; [split_and!; [done|lia|done]|]. destruct (Z.ltb_spec (cg_Overdue x) (cg_Overdue y)) as [E|E].
  - specialize (IH y). destruct (exchange y r) as [m r']. destruct IH as (H1 & H2 & H3). split_and!; [|lia|constructor; [lia|done]].
    by rewrite Permutation_swap, H1.
  - specialize (IH x). destruct (exchange x r) as [m r']. destruct IH as (H1 & H2 & H3). split_and!; [|lia|constructor; [lia|done]].
    rewrite Permutation_swap, H1. apply Permutation_swap.
Qed.

Definition more_overdue (a b : CadenceGap) : Prop := cg_Overdue b <= cg_Overdue a.

Lemma exchange_sort_spec n l : (length l <= n)%nat -> exchange_sort n l ≡ₚ l /\ StronglySorted more_overdue (exchange_sort n l).
Proof.
  revert l. induction n as [|n IH]; intros [|x r] Hn.
  1,3: by split; [|apply SSorted_nil].
  { cbn in Hn. lia. }
  cbn in Hn |- *.
  pose proof (exchange_spec x r) as H. destruct (exchange x r) as [m r']. destruct H as (H1 & _ & H3).
  assert (Hl : length (m :: r') = length (x :: r)) by by rewrite H1. cbn in Hl. destruct (IH r') as [P S]; [lia|].
  split; [by rewrite P|]. constructor; [done|]. by rewrite P.
Qed.

(** Whether a one-on-one with the address is recorded for the two weeks to
    come. *)
Definition planned (env : ManagerEnv) (t : ManagerTables) (manager : uuid) (email : string) : Prop :=
  me_fails env (MCFuture email) = false /\
  exists o, o ∈ mt_occs t /\ oo_Manager o = manager /\ oo_Email o = email
    /\ t_ns (me_now env) <= t_ns (oo_At o) < t_ns (me_now env) + 14 * 24 * Hour.

Lemma hasFutureEvent_planned env t manager email : let now := In (me_now env) UTC in
  hasFutureEvent env t manager email now (Add now (14 * 24 * Hour)) = true <-> planned env t manager email.
Proof.
  cbv zeta. unfold hasFutureEvent, planned. rewrite andb_true_iff, negb_true_iff, existsb_elem. do 2 f_equiv. intros o.
  rewrite !andb_true_iff, negb_true_iff, N.eqb_eq, String.eqb_eq, Before_ge, Before_lt. cbn [t_ns In Add]. intuition lia.
Qed.

(** The gaps of a roster are those of exactly the members with a cadence whose
    next meeting is due within seven days or overdue while none is recorded for
    the next two weeks, the most overdue first. *)
Theorem gaps_exact env t manager members :
  StronglySorted more_overdue (GetGaps env t manager members)
  /\ forall g, g ∈ GetGaps env t manager members <-> exists m, m ∈ members /\ mm_Cadence m <> "none"
       /\ IsZero (nextExpectedDate env m) = false /\ ~ planned env t manager (mm_Email m)
       /\ days_until (In (me_now env) UTC) (nextExpectedDate env m) <= 7
       /\ g = {| cg_Email := mm_Email m; cg_Name := mm_Name m; cg_Cadence := mm_Cadence m; cg_Last := mm_Last m;
                 cg_Next := nextExpectedDate env m;
                 cg_Overdue := Z.max 0 (- days_until (In (me_now env) UTC) (nextExpectedDate env m)) |}.
Proof.
  unfold GetGaps. destruct (exchange_sort_spec (length (omap (gap_of env t manager) members)) (omap (gap_of env t manager) members)) as [P S]; [done|].
  split; [exact S|]. intros g. rewrite P, list_elem_of_omap. f_equiv. intros m. rewrite (and_comm (m ∈ members)).
  rewrite (and_comm (m ∈ members)). apply and_iff_compat_r. unfold gap_of. cbv zeta.
  pose proof (hasFutureEvent_planned env t manager (mm_Email m)) as Hf. cbv zeta in Hf.
  set (d := days_until _ _). destruct (String.eqb_spec (mm_Cadence m) "none"); [split; [done|by intros (? & _)]|].
  destruct (IsZero _); [split; [done|by intros (_ & ? & _)]|].
  destruct (hasFutureEvent _ _ _ _ _ _); [split; [done|intros (_ & _ & Hn & _); by destruct Hn; apply Hf]|].
  destruct (Z.ltb_spec 7 d); [split; [done|lia]|].
  assert ((if d <? 0 then - d else 0) = Z.max 0 (- d)) as -> by (destruct (Z.ltb_spec d 0); lia). split.
  - intros [= <-]. split_and!; try done. intros Hp. by apply Hf in Hp.
  - by intros (_ & _ & _ & _ & ->).
Qed.

(** ** The figures of a member *)

(** Figures are shown for a Paceday user only to the owner of a team the user is
    on, and they are those cached in the last four hours, or those of the week
    of a user who shares them. *)
Theorem figures_have_a_right_and_a_source env manager m weekStart t s t' u :
  GetMemberWeek env manager m weekStart t = (s, t') -> mm_User m = Some u -> s <> no_stats ->
  (u <> manager /\ exists o x, o ∈ tt_members (mt_teams t) /\ x ∈ tt_members (mt_teams t) /\ TM_User o = manager /\ Role o = "owner"
     /\ TM_User x = u /\ TM_Team x = TM_Team o)
  /\ (fresh env t manager (mm_Email m) weekStart = Some s
      \/ exists p f g h, GetUserProfile t u = Some p /\ up_Shared p = true /\ me_week env u (FormatDateOnly weekStart) = Some (f, g, h)
           /\ s = {| mw_Focus := f; mw_Meeting := g; mw_Free := h; mw_Available := true |}).
Proof.
  intros H Hu Hs. unfold GetMemberWeek in H. rewrite Hu in H. destruct (me_fails env (MCGate u)); cbn [orb] in H; [congruence|].
  destruct (OwnsTeamWithMember t manager u) eqn:Eo; cbn [negb] in H; [|congruence]. split.
  - apply existsb_elem in Eo as (o & Ho & [[[E1%N.eqb_eq E2%String.eqb_eq]%andb_true_iff E3]%andb_true_iff E4]%andb_true_iff).
    apply existsb_elem in E4 as (x & Hx & [E5%N.eqb_eq E6%N.eqb_eq]%andb_true_iff). apply negb_true_iff, N.eqb_neq in E3. eauto 10.
  - destruct (fresh env t manager (mm_Email m) weekStart) as [s0|]; [left; congruence|]. right. injection H as <- _. unfold paceday_week in *.
    destruct (negb _ && _) eqn:E1; [|done]. destruct (if me_fails env MCWeek then None else _) as [[[f g] h]|] eqn:E2; [|done].
    apply andb_true_iff in E1 as [_ E1]. destruct (GetUserProfile t u) as [p|]; [|done]. destruct (me_fails env MCWeek); [done|]. eauto 10.
Qed.

(** ** Confirmation *)

(** Nothing more can be done for an address: it is no row of the roster, or on
    the team. *)
Definition settled (manager team : uuid) (t : ManagerTables) (email : string) : Prop :=
  email = "" \/ List.find (member_at manager email) (mt_roster t) = None
  \/ existsb (assigned_at manager team email) (mt_assigned t) = true.

Lemma assign_assigned a t email : existsb (assigned_at (as_Manager a) (as_Team a) email) (mt_assigned t) = true ->
  existsb (assigned_at (as_Manager a) (as_Team a) email) (mt_assigned (snd (assign a t))) = true.
Proof. rewrite !existsb_elem. intros (x & Hx & E). exists x. split; [by apply upsert_id_elem|done]. Qed.

Lemma assign_there a t : existsb (assigned_at (as_Manager a) (as_Team a) (as_Email a)) (mt_assigned (snd (assign a t))) = true.
Proof.
  apply existsb_elem. cbn [assign snd on_assigned mt_assigned]. unfold upsert. destruct (existsb _ (mt_assigned t)) eqn:E.
  - apply existsb_elem in E as (x & Hx & E). exists x. split; [|done]. apply list_elem_of_fmap. exists x. by rewrite E.
  - exists a. split; [apply elem_of_app; right; by apply list_elem_of_singleton|by apply assigned_at_key].
Qed.

Lemma assign_again a t : existsb (assigned_at (as_Manager a) (as_Team a) (as_Email a)) (mt_assigned t) = true -> assign a t = (false, t).
Proof. intros E. unfold assign. rewrite E. unfold on_assigned. rewrite (upsert_same _ id a _ (fun _ _ => eq_refl) E). by destruct t. Qed.

Lemma confirm_one_spec manager team c raw : (forall e, e ∈ cf_seen c -> settled manager team (cf_tables c) e) ->
  let c' := confirm_one manager team c raw in
  cf_assigned c' + cf_skipped c' = cf_assigned c + cf_skipped c + 1 /\ cf_assigned c <= cf_assigned c'
  /\ (forall e, e ∈ cf_seen c' -> settled manager team (cf_tables c') e) /\ settled manager team (cf_tables c') (canonical raw)
  /\ (forall e, settled manager team (cf_tables c) e -> settled manager team (cf_tables c') e).
Proof.
  intros Hs. cbv zeta. unfold confirm_one. destruct (String.eqb (canonical raw) "") eqn:E0; cbn [orb].
  { apply String.eqb_eq in E0. cbn. split_and!; [lia|lia|done|by left|done]. }
  destruct (existsb (String.eqb (canonical raw)) (cf_seen c)) eqn:E1.
  { apply existsb_elem in E1 as (x & Hx & <-%String.eqb_eq). cbn. split_and!; [lia|lia|done|by apply Hs|done]. }
  destruct (List.find (member_at manager (canonical raw)) (mt_roster (cf_tables c))) as [m|] eqn:Em.
  2:{ assert (settled manager team (cf_tables c) (canonical raw)) by (right; by left). cbn. split_and!; [lia|lia| |done|done].
      intros e [-> | He]%elem_of_cons; [done|by apply Hs]. }
  set (a := {| as_Manager := manager |}). destruct (existsb (assigned_at manager team (canonical raw)) (mt_assigned (cf_tables c))) eqn:Ex.
  { rewrite (assign_again a _ Ex). assert (settled manager team (cf_tables c) (canonical raw)) by (right; by right). cbn.
    split_and!; [lia|lia| |done|done]. intros e [-> | He]%elem_of_cons; [done|by apply Hs]. }
  assert (Ht : fst (assign a (cf_tables c)) = true) by (cbn; by rewrite Ex).
  pose proof (assign_there a (cf_tables c)) as H1. pose proof (assign_assigned a (cf_tables c)) as H2.
  assert (Hmono : forall e, settled manager team (cf_tables c) e -> settled manager team (snd (assign a (cf_tables c))) e).
  { intros e [He|[He|He]]; [by left|right; by left|right; right; by apply H2]. }
  assert (Hnew : settled manager team (snd (assign a (cf_tables c))) (canonical raw)) by (right; by right).
  destruct (assign a (cf_tables c)) as [b t']. cbn [fst snd] in *. subst b. cbn. split_and!; [lia|lia| |done|done].
  intros e [-> | He]%elem_of_cons; auto.
Qed.

Lemma confirm_fold_spec manager team emails c : (forall e, e ∈ cf_seen c -> settled manager team (cf_tables c) e) ->
  let c' := fold_left (confirm_one manager team) emails c in
  cf_assigned c' + cf_skipped c' = cf_assigned c + cf_skipped c + Z.of_nat (length emails) /\ cf_assigned c <= cf_assigned c'
  /\ (forall raw, raw ∈ emails -> settled manager team (cf_tables c') (canonical raw))
  /\ (forall e, settled manager team (cf_tables c) e -> settled manager team (cf_tables c') e).
Proof.
  cbv zeta. revert c. induction emails as [|raw r IH]; intros c Hs; cbn [fold_left length].
  { split_and!; [lia|lia|by intros ? ?%not_elem_of_nil|done]. }
  destruct (confirm_one_spec manager team c raw Hs) as (A1 & A2 & A3 & A4 & A5). destruct (IH _ A3) as (B1 & B2 & B3 & B4).
  split_and!; [lia|lia| |auto]. intros x [-> | Hx]%elem_of_cons; auto.
Qed.

Lemma confirm_settled manager team emails c : (forall raw, raw ∈ emails -> settled manager team (cf_tables c) (canonical raw)) ->
  let c' := fold_left (confirm_one manager team) emails c in
  cf_assigned c' = cf_assigned c /\ cf_skipped c' = cf_skipped c + Z.of_nat (length emails) /\ cf_tables c' = cf_tables c.
Proof.
  cbv zeta. revert c. induction emails as [|raw r IH]; intros c Hs; cbn [fold_left length]; [split_and!; [done|lia|done]|].
  assert (H : cf_assigned (confirm_one manager team c raw) = cf_assigned c /\ cf_skipped (confirm_one manager team c raw) = cf_skipped c + 1
    /\ cf_tables (confirm_one manager team c raw) = cf_tables c).
  { unfold confirm_one. destruct (String.eqb_spec (canonical raw) ""); cbn [orb]; [done|]. destruct (existsb _ _); [done|].
    destruct (List.find _ _) as [m|] eqn:Em; [|done]. destruct (Hs raw) as [?|[?|He]]; [by left|done|congruence|].
    by rewrite assign_again. }
  destruct H as (H1 & H2 & H3). destruct (IH (confirm_one manager team c raw)) as (I1 & I2 & I3).
  { intros x Hx. rewrite H3. apply Hs. by right. }
  rewrite I1, I2, I3, H1, H2, H3. split_and!; [done|lia|done].
Qed.

(** A confirmation counts every address once, as assigned or as skipped; after
    it every address that is on the roster is on the team; and confirming the
    same addresses again assigns nobody and changes nothing. *)
Theorem confirm_is_idempotent manager team emails t a s n t' : ConfirmManagerTeamMembers manager team emails t = ((a, s, n), t') ->
  a + s = Z.of_nat (length emails) /\ 0 <= a
  /\ (forall raw m, raw ∈ emails -> canonical raw <> "" -> GetManagerTeamMemberByEmail t' manager raw = Some m ->
        is_Some (GetManagerTeamMemberByEmailForTeam t' manager team raw))
  /\ ConfirmManagerTeamMembers manager team emails t' = ((0, Z.of_nat (length emails), n), t').
Proof.
  unfold ConfirmManagerTeamMembers. set (c0 := {| cf_seen := []; cf_assigned := 0; cf_skipped := 0; cf_tables := t |}).
  destruct (confirm_fold_spec manager team emails c0) as (A1 & A2 & A3 & _); [by intros ? ?%not_elem_of_nil|].
  intros [= <- <- <- <-]. cbn [cf_assigned cf_skipped c0] in A1, A2. split_and!; [lia|lia| |].
  - intros raw m Hr Hne Hm. unfold GetManagerTeamMemberByEmailForTeam. rewrite Hm. cbn [mbind option_bind]. unfold in_team.
    unfold GetManagerTeamMemberByEmail in Hm. apply fmap_is_Some. destruct (A3 raw Hr) as [?|[?|He]]; [done|congruence|].
    apply find_some in Hm as [_ [= -> ->]%member_at_key].
    destruct (List.find _ _) as [x|] eqn:E; [done|]. apply existsb_elem in He as (x & Hx & Ex). apply list_elem_of_In in Hx.
    by rewrite (find_none _ _ E x Hx) in Ex.
  - set (c1 := {| cf_seen := []; cf_assigned := 0; cf_skipped := 0; cf_tables := cf_tables (fold_left _ emails c0) |}).
    destruct (confirm_settled manager team emails c1 A3) as (B1 & B2 & B3). by rewrite B1, B2, B3.
Qed.

(** ** Concrete runs *)

Module ManagersDemo.

Definition at_day (d h : Z) : time := Date 2026 3 d h 0 0 0 UTC.
Definition user_row (id : uuid) (email name : string) : UserRow := {| ur_ID := id; ur_Email := email; ur_Name := name |}.
Definition member (team user : uuid) (role : string) : TeamMember := {| TM_Team := team; TM_User := user; Role := role |}.

(** Mia (1) owns team 7 with Ann (2); Bob (3) owns team 8 with Mia and Cleo
    (4). *)
Definition teams : TeamTables :=
  {| tt_teams := [{| T_ID := 7%N; T_OrgID := None; T_Name := "Core"; CreatedBy := 1%N |}; {| T_ID := 8%N; T_OrgID := None; T_Name := "Data"; CreatedBy := 3%N |}];
     tt_members := [member 7%N 1%N "owner"; member 7%N 2%N "member"; member 8%N 3%N "owner"; member 8%N 1%N "member"; member 8%N 4%N "member"];
     tt_invites := []; tt_zones := [] |}.

Definition row (email name : string) (user : option uuid) (cadence : string) (last : option time) : ManagerTeamMember :=
  {| mm_Manager := 1%N; mm_Email := email; mm_User := user; mm_Name := name; mm_Source := "manual"; mm_Cadence := cadence;
     mm_Days := None; mm_Last := last |}.

Definition ann : ManagerTeamMember := row "ann@x.org" "Ann" (Some 2%N) "weekly" (Some (at_day (-10) 9)).
Definition cleo : ManagerTeamMember := row "cleo@x.org" "Cleo" (Some 4%N) "monthly" (Some (at_day (-20) 9)).

Definition tables : ManagerTables :=
  {| mt_profiles := []; mt_roster := [ann; cleo]; mt_assigned := []; mt_occs := []; mt_cache := []; mt_teams := teams;
     mt_users := [user_row 1%N "mia@x.org" "Mia"; user_row 2%N "ann@x.org" "Ann"; user_row 3%N "bob@x.org" "Bob"; user_row 4%N "cleo@x.org" "Cleo"] |}.

Definition no_busy : FreeBusyEnv :=
  {| fb_now := at_day 2 10; fb_local := UTC; fb_provider := Ok "google"; fb_token := fun _ => TokenNone; fb_client := Ok tt;
     fb_google := fun _ _ _ => Err ErrProvider; fb_outlook := fun _ _ _ => Err ErrProvider; fb_lost := fun _ => Ok false |}.

Definition env_at (now : time) (events : list Meeting) (unit_first : bool) : ManagerEnv :=
  {| me_now := now; me_local := UTC; me_fails := fun _ => false; me_token := TokenFound; me_client := Ok tt;
     me_events := fun _ _ => Ok events; me_order := id; me_shuffle := id; me_unit_first := unit_first; me_rank := fun _ => 0;
     me_text := fun _ => "1"; me_busy := no_busy; me_week := fun u _ => if N.eqb u 2%N then Some (600, 900, 900) else None; me_ip := fun _ => false |}.

Definition monday : ManagerEnv := env_at (at_day 2 10) [] true.

Definition guest (email : string) : Guest := {| gu_Email := email; gu_Name := ""; gu_Self := false |}.
Definition meeting (id from to email : string) (series : string) : Meeting :=
  {| me_Id := id; me_Start := Some from; me_End := Some to; me_Guests := [guest "mia@x.org"; guest email]; me_Recurrence := [];
     me_RecurringEventId := series |}.

Definition shared : ManagerTables := on_profiles (fun _ => [{| up_User := 2%N; up_IsManager := false; up_DetectedAt := None; up_Shared := true |}]) tables.

End ManagersDemo.
Import ManagersDemo.

Lemma figures_have_a_right_and_a_source_witness :
  exists s t', GetMemberWeek monday 1%N ann (at_day 2 0) shared = (s, t') /\ mw_Focus s = 600 /\ s <> no_stats
  /\ exists o x, o ∈ tt_members teams /\ x ∈ tt_members teams /\ TM_User o = 1%N /\ Role o = "owner" /\ TM_User x = 2%N /\ TM_Team x = TM_Team o.
Proof.
  assert (H : exists s t', GetMemberWeek monday 1%N ann (at_day 2 0) shared = (s, t') /\ mw_Focus s = 600) by (vm_compute; do 2 eexists; split; reflexivity).
  destruct H as (s & t' & H & E). exists s, t'. assert (Hn : s <> no_stats) by (intros ->; discriminate E). split; [exact H|]. split; [exact E|]. split; [exact Hn|].
  exact (proj2 (proj1 (figures_have_a_right_and_a_source monday 1%N ann (at_day 2 0) shared s t' 2%N H eq_refl Hn))).
Defined.

Lemma confirm_is_idempotent_witness :
  exists t', ConfirmManagerTeamMembers 1%N 7%N ["ann@x.org"; " ANN@x.org"; "zoe@x.org"] tables = ((1, 2, 1), t')
  /\ ConfirmManagerTeamMembers 1%N 7%N ["ann@x.org"; " ANN@x.org"; "zoe@x.org"] t' = ((0, 3, 1), t').
Proof.
  assert (H : exists t', ConfirmManagerTeamMembers 1%N 7%N ["ann@x.org"; " ANN@x.org"; "zoe@x.org"] tables = ((1, 2, 1), t'))
    by (vm_compute; eexists; reflexivity).
  destruct H as (t' & H). exists t'. split; [exact H|].
  exact (proj2 (proj2 (proj2 (confirm_is_idempotent 1%N 7%N ["ann@x.org"; " ANN@x.org"; "zoe@x.org"] tables 1 2 1 t' H)))).
Defined.

(** One event of a recurring series in the weeks read is enough. *)
Lemma single_recurring_event_is_a_candidate :
  let ev := meeting "e1" "2026-03-02T10:00:00Z" "2026-03-02T10:30:00Z" "zoe@x.org" "series" in
  is_Some (collectOneOnOneCandidates UTC "mia@x.org" [ev] !! "zoe@x.org").
Proof. vm_compute. by eexists. Qed.

Example cadence_of_three_weeks :
  inferCandidateCadence {| ca_Email := "a"; ca_Name := ""; ca_Rrule := ""; ca_Recurring := true;
    ca_Occs := map (fun d => {| oc_Event := ""; oc_At := at_day d 9 |}) [16; 2; 9] |} = "weekly".
Proof. vm_compute. reflexivity. Qed.

Example trend_of_a_third : TrendPct 100 150 = fdiv (f64 (-333)) (f64 10).
Proof. vm_compute. reflexivity. Qed.
