(* ===== verification/ManagerHandlers.v ===== *)
(** * Managing a roster

    [api/handlers_manager.go]: a manager's profile, the detection and its
    confirmation, the roster of the manager and of a team, its gaps and its
    figures, over the tables and the engine of [ManagerEngine]. *)

From S2P Require Import Prelude GoInt GoTime GoFloat GoText GoURL Interval LinkStore Teams Calendar TeamHandlers FreeBusy ManagerEngine.

#[local] Open Scope string_scope.
#[local] Open Scope list_scope.
#[local] Open Scope Z_scope.

(** ** Text *)

Definition validateManagerCadence (cadence : string) (customDays : option Z) : option string :=
  if existsb (String.eqb cadence) ["weekly"; "biweekly"; "monthly"; "none"] then
    match customDays with Some _ => Some "custom_cadence_days is only valid with custom cadence" | None => None end
  else if String.eqb cadence "custom" then
    match customDays with
    | Some d => if (d <? 1) || (365 <? d) then Some "custom_cadence_days must be between 1 and 365" else None
    | None => Some "custom_cadence_days must be between 1 and 365"
    end
  else Some "cadence must be weekly, biweekly, monthly, custom, or none".

(** [strings.Split(email, "@")[0]]. *)
Definition before_at (email : string) : string := match cut "@" email with Some (a, _) => a | None => email end.

Definition or_local_part (name email : string) : string :=
  let n := TrimSpace name in if String.eqb n "" then before_at email else n.

(** [url.QueryEscape]. *)
Fixpoint QueryEscape (s : string) : string :=
  match s with
  | EmptyString => ""
  | String c r =>
      if is_alnum c || char_in "-_.~" c then String c (QueryEscape r)
      else if Ascii.eqb c " " then String "+" (QueryEscape r)
      else String "%" (String (hex_upper (byte_of c / 16)) (String (hex_upper (byte_of c mod 16)) (QueryEscape r)))
  end.

(** [managerEmailParam]. *)
Definition managerEmailParam (raw : string) : string := default raw (unescape encodePathSegment raw).

Definition currentWeekStart (now : time) : time :=
  let now := In now UTC in
  let weekday := if WeekdayOf now =? 0 then 7 else WeekdayOf now in
  let c := DateOf (Add now (- (weekday - 1) * 24 * Hour)) in
  Date (c_year c) (c_month c) (c_day c) 0 0 0 0 UTC.

(** ** Answers *)

Record memberResp := { mr_Member : ManagerTeamMember; mr_ThisWeek : MemberWeekStats; mr_LastWeek : MemberWeekStats; mr_Trend : spec_float }.

Record memberAnalytics := {
  ma_Member : ManagerTeamMember; ma_Available : bool; ma_Weeks : list (string * MemberWeekStats) }.

Inductive ManagerAnswer :=
| MgrError (code : Z) (msg : string)
| ProfileShown (is_manager : bool) (detected_at : option time) (count : nat)
| ProfileWritten (p : UserProfile)
| DetectionShown (team : uuid) (scanned : time) (candidates : list (string * string * bool))
| Confirmed (team : uuid) (assigned skipped total : Z)
| RosterShown (team : uuid) (members : list memberResp)
| MemberShown (created : bool) (m : ManagerTeamMember)
| GapsShown (l : list CadenceGap)
| PrefillShown (url : string)
| FiguresShown (l : list memberAnalytics)
| MgrNoContent.

Definition db_error : ManagerAnswer := MgrError 500 "db error".

(** The [team_id] of a query. *)
Inductive TeamScope := ScopeMissing | ScopeBad | ScopeTeam (team : uuid).

Record MemberBody := { mb_Email : string; mb_Name : string; mb_Cadence : string; mb_Days : option Z }.
Record MemberPatch := { mp_Name : option string; mp_Cadence : option string; mp_Days : option Z }.

Section Handlers.
Context (env : ManagerEnv) (user : uuid).

(** [managerTeamScope] and [requiredManagerTeamScope]. *)
Definition managerTeamScope (s : TeamScope) (requireOwner : bool) (t : ManagerTables) : res ManagerAnswer (option uuid) :=
  match s with
  | ScopeMissing => Ok None
  | ScopeBad => Err (MgrError 400 "team_id must be a valid UUID")
  | ScopeTeam team =>
      match (if me_fails env MCScope then None else GetTeamMember (mt_teams t) team user) with
      | Some m => if requireOwner && negb (String.eqb (Role m) "owner") then Err (MgrError 403 "forbidden") else Ok (Some team)
      | None => Err (MgrError 403 "forbidden")
      end
  end.

Definition requiredManagerTeamScope (s : TeamScope) (requireOwner : bool) (t : ManagerTables) : res ManagerAnswer uuid :=
  match managerTeamScope s requireOwner t with
  | Err e => Err e
  | Ok (Some team) => Ok team
  | Ok None => Err (MgrError 400 "team_id is required")
  end.

(** The users of a team's members. *)
Definition formal_users (t : ManagerTables) (team : uuid) : list UserRow :=
  omap (fun m => List.find (fun u => N.eqb (ur_ID u) (TM_User m)) (mt_users t)) (ListTeamMembers (mt_teams t) team).

Definition formal_member (u : UserRow) (email source : string) : ManagerTeamMember :=
  {| mm_Manager := user; mm_Email := email; mm_User := Some (ur_ID u); mm_Name := or_local_part (ur_Name u) email;
     mm_Source := source; mm_Cadence := "none"; mm_Days := None; mm_Last := None |}.

Definition add_assigned (m : gmap string ManagerTeamMember) (x : ManagerTeamMember) : gmap string ManagerTeamMember :=
  <[ToLower (mm_Email x) := x]> m.

Definition add_formal (m : gmap string ManagerTeamMember) (u : UserRow) : gmap string ManagerTeamMember :=
  let email := canonical (ur_Email u) in
  if String.eqb email "" || N.eqb (ur_ID u) user then m
  else match m !! email with Some _ => m | None => <[email := formal_member u email "formal"]> m end.

(** [listManagerMembers]; [None] is a failure. *)
Definition listManagerMembers (team : option uuid) (t : ManagerTables) : option (list ManagerTeamMember) :=
  match team with
  | None => if me_fails env MCList then None else Some (ListManagerTeamMembers (me_rank env) t user)
  | Some team =>
      if me_fails env MCList || me_fails env MCFormal then None
      else
        let assigned := fold_left add_assigned (ListManagerTeamMembersForTeam (me_rank env) t user team) ∅ in
        let byEmail := fold_left add_formal (formal_users t team) assigned in
        Some (sort_by (fun m => ToLower (mm_Name m)) (me_shuffle env (map snd (map_to_list byEmail))))
  end.

Definition read_member (c : ManagerCall) (team : option uuid) (email : string) (t : ManagerTables) : option ManagerTeamMember :=
  if me_fails env c then None
  else match team with
       | Some team => GetManagerTeamMemberByEmailForTeam t user team email
       | None => GetManagerTeamMemberByEmail t user email
       end.

(** [getOrCreateScopedMember]: a member of the team who is not on its roster is
    put there; [Err true] is [sql.ErrNoRows]. *)
Definition getOrCreateScopedMember (team : option uuid) (email : string) (t : ManagerTables) : res bool ManagerTeamMember * ManagerTables :=
  match team with
  | None => (if me_fails env (MCView email) then Err false
             else match GetManagerTeamMemberByEmail t user email with Some m => Ok m | None => Err true end, t)
  | Some team =>
      if me_fails env (MCView email) then (Err false, t)
      else match GetManagerTeamMemberByEmailForTeam t user team email with
      | Some m => (Ok m, t)
      | None =>
          if me_fails env MCFormal then (Err false, t)
          else match List.find (fun u => EqualFold (ur_Email u) email && negb (N.eqb (ur_ID u) user)) (formal_users t team) with
          | None => (Err true, t)
          | Some u =>
              let m := {| mm_Manager := user; mm_Email := ToLower email; mm_User := Some (ur_ID u); mm_Name := or_local_part (ur_Name u) email;
                          mm_Source := "manual"; mm_Cadence := "none"; mm_Days := None; mm_Last := None |} in
              if me_fails env MCWrite then (Err false, t) else (Ok (cleaned m), UpsertManagerTeamMemberForTeam team m t)
          end
      end
  end.

(** *** Profile *)

Definition getProfile (t : ManagerTables) : ManagerAnswer * ManagerTables :=
  if me_fails env MCProfile then (db_error, t)
  else
    let '(p, t) := GetOrCreateUserProfile user t in
    (ProfileShown (up_IsManager p) (up_DetectedAt p)
       (if me_fails env MCCount then 0%nat else length (keep (fun m => N.eqb (mm_Manager m) user) (mt_roster t))), t).

(** [postProfile]: a detection that starts here runs by itself, before or after
    the profile is written. *)
Definition postProfile (body : option bool) (t : ManagerTables) : ManagerAnswer * ManagerTables :=
  match body with
  | None => (MgrError 400 "invalid JSON", t)
  | Some is_manager =>
      if me_fails env MCProfile then (db_error, t)
      else
        let '(p, t) := GetOrCreateUserProfile user t in
        let p := {| up_User := up_User p; up_IsManager := is_manager; up_DetectedAt := up_DetectedAt p; up_Shared := up_Shared p |} in
        let unit_ := is_manager && match up_DetectedAt p with None => true | Some _ => false end in
        let run t := if unit_ : bool then snd (DetectTeam env user t) else t in
        let write t := if me_fails env MCPutProfile then t else UpsertUserProfile p t in
        (ProfileWritten p, if me_unit_first env then write (run t) else run (write t))
  end.

(** *** Detection *)

Definition calendar_failure (e : Error) (what : string) : ManagerAnswer :=
  if bool_decide (e = ErrCalendarNotConnected) then MgrError 401 "calendar not connected" else MgrError 500 what.

Fixpoint shown_candidates (team : uuid) (t : ManagerTables) (l : list (string * string)) : option (list (string * string * bool)) :=
  match l with
  | [] => Some []
  | (email, name) :: r =>
      if me_fails env (MCView email) then None
      else
        shown ← shown_candidates team t r;
        Some ((email, name, match GetManagerTeamMemberByEmailForTeam t user team email with Some _ => true | None => false end) :: shown)
  end.

Definition detect (s : TeamScope) (t : ManagerTables) : ManagerAnswer * ManagerTables :=
  match requiredManagerTeamScope s true t with
  | Err e => (e, t)
  | Ok team =>
      match DetectTeam env user t with
      | (Err e, t') => (calendar_failure e "detection error", t')
      | (Ok r, t') =>
          (match shown_candidates team t' (dt_Candidates r) with
           | Some l => DetectionShown team (dt_ScannedAt r) l
           | None => db_error
           end, t')
      end
  end.

Fixpoint normalize_all (l : list string) : res string (list string) :=
  match l with
  | [] => Ok []
  | raw :: r => email <-? normalizeManagerEmail (me_ip env) raw;; rest <-? normalize_all r;; Ok (email :: rest)
  end.

(** [confirmDetection]; [Some None] is a body without emails. *)
Definition confirmDetection (s : TeamScope) (body : option (option (list string))) (t : ManagerTables) : ManagerAnswer * ManagerTables :=
  match requiredManagerTeamScope s true t with
  | Err e => (e, t)
  | Ok team =>
      match body with
      | None => (MgrError 400 "invalid JSON", t)
      | Some None => (MgrError 422 "emails is required", t)
      | Some (Some emails) =>
          match normalize_all emails with
          | Err msg => (MgrError 422 msg, t)
          | Ok emails =>
              if me_fails env MCConfirm then (db_error, t)
              else let '((a, k, n), t') := ConfirmManagerTeamMembers user team emails t in (Confirmed team a k n, t')
          end
      end
  end.

(** *** The roster *)

(** The [week] of a query. *)
Definition week_of (week : string) : option time := if String.eqb week "" then Some (currentWeekStart (me_now env)) else ParseDateOnly week.

Fixpoint roster_rows (weekStart : time) (l : list ManagerTeamMember) (t : ManagerTables) : list memberResp * ManagerTables :=
  match l with
  | [] => ([], t)
  | m :: r =>
      let '(this, t) := GetMemberWeek env user m weekStart t in
      let '(last, t) := GetMemberWeek env user m (Add weekStart (- (7 * 24 * Hour))) t in
      let '(rows, t) := roster_rows weekStart r t in
      ({| mr_Member := m; mr_ThisWeek := this; mr_LastWeek := last; mr_Trend := TrendPct (mw_Focus this) (mw_Focus last) |} :: rows, t)
  end.

Definition getRoster (s : TeamScope) (week : string) (t : ManagerTables) : ManagerAnswer * ManagerTables :=
  match requiredManagerTeamScope s false t with
  | Err e => (e, t)
  | Ok team =>
      match week_of week with
      | None => (MgrError 400 "week must be YYYY-MM-DD", t)
      | Some weekStart =>
          match listManagerMembers (Some team) t with
          | None => (db_error, t)
          | Some members => let '(rows, t') := roster_rows weekStart members t in (RosterShown team rows, t')
          end
      end
  end.

(** [addMember]. *)
Definition addMember (s : TeamScope) (body : option MemberBody) (t : ManagerTables) : ManagerAnswer * ManagerTables :=
  match managerTeamScope s true t with
  | Err e => (e, t)
  | Ok team =>
  match body with
  | None => (MgrError 400 "invalid JSON", t)
  | Some b =>
  match normalizeManagerEmail (me_ip env) (mb_Email b) with
  | Err msg => (MgrError 422 msg, t)
  | Ok email =>
      let cadence := ToLower (TrimSpace (if String.eqb (mb_Cadence b) "" then "none" else mb_Cadence b)) in
      match validateManagerCadence cadence (mb_Days b) with
      | Some msg => (MgrError 422 msg, t)
      | None =>
          let m := {| mm_Manager := user; mm_Email := email; mm_User := user_of_email env t email; mm_Name := or_local_part (mb_Name b) email;
                      mm_Source := "manual"; mm_Cadence := cadence; mm_Days := mb_Days b; mm_Last := None |} in
          if me_fails env MCWrite then (db_error, t)
          else
            let t' := match team with
                      | Some team => UpsertManagerTeamMemberForTeam team m t
                      | None => UpsertManagerTeamMember m t
                      end in
            (match read_member MCReadBack team email t' with Some stored => MemberShown true stored | None => db_error end, t')
      end
  end end end.

Definition uninvite (team : uuid) (email : string) : TeamTables -> TeamTables :=
  set_invites (keep (fun i => negb (N.eqb (TI_Team i) team && EqualFold (InviteeEmail i) email && String.eqb (TI_Status i) "pending"))).

(** The user of an address, when the team has them as a member. *)
Definition formal_target (team : uuid) (email : string) (t : ManagerTables) : option TeamMember :=
  u ← (if me_fails env (MCUser email) then None else List.find (fun u => EqualFold (ur_Email u) email) (mt_users t));
  if me_fails env (MCView email) then None else GetTeamMember (mt_teams t) team (ur_ID u).

(** [deleteMember]. *)
Definition deleteMember (s : TeamScope) (param : string) (t : ManagerTables) : ManagerAnswer * ManagerTables :=
  match managerTeamScope s true t with
  | Err e => (e, t)
  | Ok scope =>
      let email := managerEmailParam param in
      match scope with
      | None => (MgrNoContent, if me_fails env MCRemove then t else DeleteManagerTeamMemberByEmail user email t)
      | Some team =>
          let target := formal_target team email t in
          if match target with Some m => String.eqb (Role m) "owner" | None => false end
          then (MgrError 422 "the team owner cannot be removed", t)
          else
            let t := match target with
                     | Some m => if me_fails env MCRemove then t else on_teams (RemoveTeamMember team (TM_User m)) t
                     | None => t
                     end in
            let t := if me_fails env MCUnassign then t else UnassignManagerTeamMember user team email t in
            (MgrNoContent, if me_fails env MCUninvite then t else on_teams (uninvite team email) t)
      end
  end.

Definition scoped_error (no_rows : bool) : ManagerAnswer := if no_rows then MgrError 404 "not found" else db_error.

(** [patchMember]. *)
Definition patchMember (s : TeamScope) (param : string) (body : option MemberPatch) (t : ManagerTables) : ManagerAnswer * ManagerTables :=
  match managerTeamScope s true t with
  | Err e => (e, t)
  | Ok team =>
  let email := managerEmailParam param in
  match body with
  | None => (MgrError 400 "invalid JSON", t)
  | Some b =>
  match getOrCreateScopedMember team email t with
  | (Err e, t') => (scoped_error e, t')
  | (Ok m, t') =>
      let cadence := match mp_Cadence b with Some c => ToLower (TrimSpace c) | None => mm_Cadence m end in
      let days := match mp_Days b with Some d => Some d | None => mm_Days m end in
      let days := if match mp_Cadence b with Some _ => true | None => false end && negb (String.eqb cadence "custom") then None else days in
      match validateManagerCadence cadence days with
      | Some msg => (MgrError 422 msg, t')
      | None =>
          let name := or_local_part (default (mm_Name m) (mp_Name b)) (mm_Email m) in
          if me_fails env MCWrite then (db_error, t')
          else
            let '(ok, t'') := match team with
                              | None => (true, PatchManagerTeamMember user email name cadence days t')
                              | Some team => PatchManagerTeamMemberForTeam user team email name cadence days t'
                              end in
            if negb ok then (db_error, t'')
            else (match read_member MCReadBack team email t'' with Some m => MemberShown false m | None => db_error end, t'')
      end
  end end end.

(** *** Gaps, planning and figures *)

Definition getGaps (s : TeamScope) (t : ManagerTables) : ManagerAnswer :=
  match managerTeamScope s false t with
  | Err e => e
  | Ok team =>
      match listManagerMembers team t with
      | None => db_error
      | Some members => GapsShown (GetGaps env t user members)
      end
  end.

(** [scheduleMember]; [Some ""] is also an empty body. *)
Definition scheduleMember (s : TeamScope) (param : string) (body : option string) (t : ManagerTables) : ManagerAnswer * ManagerTables :=
  match managerTeamScope s false t with
  | Err e => (e, t)
  | Ok team =>
  let email := managerEmailParam param in
  match body with
  | None => (MgrError 400 "invalid JSON", t)
  | Some date =>
      if negb (String.eqb date "") && match ParseDateOnly date with Some _ => false | None => true end
      then (MgrError 422 "suggested_date must be YYYY-MM-DD", t)
      else match getOrCreateScopedMember team email t with
      | (Err e, t') => (scoped_error e, t')
      | (Ok m, t') =>
          (PrefillShown ("/app?attendees=" +:+ QueryEscape email +:+ (if String.eqb date "" then "" else "&date=" +:+ QueryEscape date)
                         +:+ "&duration=30&title=" +:+ QueryEscape ("1:1 with " +:+ mm_Name m)), t')
      end
  end end.

Fixpoint week_rows (m : ManagerTeamMember) (weekStart : time) (n : nat) (i : Z) (t : ManagerTables)
  : list (string * MemberWeekStats) * ManagerTables :=
  match n with
  | O => ([], t)
  | S n =>
      let ws := Add weekStart (- (i * 7) * 24 * Hour) in
      let '(s, t) := GetMemberWeek env user m ws t in
      let '(rows, t) := week_rows m weekStart n (i + 1) t in
      ((FormatDateOnly ws, s) :: rows, t)
  end.

Fixpoint analytics_rows (weekStart : time) (l : list ManagerTeamMember) (t : ManagerTables) : list memberAnalytics * ManagerTables :=
  match l with
  | [] => ([], t)
  | m :: r =>
      let '(weeks, t) := week_rows m weekStart 12 0 t in
      let '(rows, t) := analytics_rows weekStart r t in
      ({| ma_Member := m; ma_Available := existsb (fun w => mw_Available w.2) weeks; ma_Weeks := weeks |} :: rows, t)
  end.

Definition getAnalytics (s : TeamScope) (week : string) (t : ManagerTables) : ManagerAnswer * ManagerTables :=
  match managerTeamScope s false t with
  | Err e => (e, t)
  | Ok team =>
      match week_of week with
      | None => (MgrError 400 "week must be YYYY-MM-DD", t)
      | Some weekStart =>
          match listManagerMembers team t with
          | None => (db_error, t)
          | Some members => let '(rows, t') := analytics_rows weekStart members t in (FiguresShown rows, t')
          end
      end
  end.
End Handlers.

(** ** Requests *)

Inductive ManagerRequest :=
| MRGetProfile | MRPostProfile (body : option bool)
| MRDetect (s : TeamScope) | MRConfirm (s : TeamScope) (body : option (option (list string)))
| MRRoster (s : TeamScope) (week : string) | MRAdd (s : TeamScope) (body : option MemberBody)
| MRDelete (s : TeamScope) (email : string) | MRPatch (s : TeamScope) (email : string) (body : option MemberPatch)
| MRGaps (s : TeamScope) | MRSchedule (s : TeamScope) (email : string) (body : option string)
| MRAnalytics (s : TeamScope) (week : string).

Definition serveManager (env : ManagerEnv) (user : uuid) (r : ManagerRequest) (t : ManagerTables) : ManagerAnswer * ManagerTables :=
  match r with
  | MRGetProfile => getProfile env user t
  | MRPostProfile body => postProfile env user body t
  | MRDetect s => detect env user s t
  | MRConfirm s body => confirmDetection env user s body t
  | MRRoster s week => getRoster env user s week t
  | MRAdd s body => addMember env user s body t
  | MRDelete s email => deleteMember env user s email t
  | MRPatch s email body => patchMember env user s email body t
  | MRGaps s => (getGaps env user s t, t)
  | MRSchedule s email body => scheduleMember env user s email body t
  | MRAnalytics s week => getAnalytics env user s week t
  end.

(** ** Facts *)

Lemma validate_cadence_ok c d : validateManagerCadence c d = None -> cadence_ok c d = true.
Proof.
  unfold validateManagerCadence, cadence_ok. destruct (existsb _ _) eqn:E; [by destruct d|]. destruct (String.eqb c "custom"); [|done].
  destruct d as [d|]; [|done]. destruct (Z.ltb_spec d 1), (Z.ltb_spec 365 d); try done. intros _. cbn. apply andb_true_iff. lia.
Qed.

(** What reading figures leaves of the tables: all but the manager's cache. *)
Record only_figures (manager : uuid) (t t' : ManagerTables) : Prop := {
  of_roster : mt_roster t' = mt_roster t;
  of_assigned : mt_assigned t' = mt_assigned t;
  of_teams : mt_teams t' = mt_teams t;
  of_others : kept_for_others manager t t';
  of_ok : roster_ok t -> roster_ok t' }.

#[export] Instance only_figures_refl u : Reflexive (only_figures u).
Proof. by split. Qed.

#[export] Instance only_figures_trans u : Transitive (only_figures u).
Proof. intros t1 t2 t3 [] []. split; try congruence; [by etransitivity|auto]. Qed.

Lemma week_figures env manager m weekStart t : only_figures manager t (snd (GetMemberWeek env manager m weekStart t)).
Proof.
  unfold GetMemberWeek. destruct (match mm_User m with Some _ => _ | None => _ end); [done|]. destruct (fresh _ _ _ _ _); [done|]. cbv zeta.
  destruct (me_fails env MCCacheWrite); [done|]. cbn [snd]. split; [done|done|done| |apply upsert_analytics_ok].
  exact (upsert_analytics_others {| ta_Manager := manager |} t).
Qed.

(** A figure other than none is of an external address, or of a user on a team
    the manager owns. *)
Definition may_see (t : ManagerTables) (manager : uuid) (m : ManagerTeamMember) (s : MemberWeekStats) : Prop :=
  s = no_stats \/ forall u, mm_User m = Some u -> OwnsTeamWithMember t manager u = true.

Lemma may_see_teams t t' manager m s : mt_teams t' = mt_teams t -> may_see t' manager m s -> may_see t manager m s.
Proof. unfold may_see, OwnsTeamWithMember. by intros ->. Qed.

Lemma week_seen env manager m weekStart t : may_see t manager m (fst (GetMemberWeek env manager m weekStart t)).
Proof.
  unfold GetMemberWeek. destruct (mm_User m) as [u|] eqn:E; [|right; congruence].
  destruct (me_fails env (MCGate u)); [by left|]. cbn [orb]. destruct (OwnsTeamWithMember t manager u) eqn:Eo; [|by left].
  right. congruence.
Qed.

Lemma roster_rows_spec env user weekStart l t : only_figures user t (snd (roster_rows env user weekStart l t))
  /\ forall x, x ∈ fst (roster_rows env user weekStart l t) -> may_see t user (mr_Member x) (mr_ThisWeek x) /\ may_see t user (mr_Member x) (mr_LastWeek x).
Proof.
  revert t. induction l as [|m r IH]; intros t; [split; [done|by intros ? ?%not_elem_of_nil]|]. cbn [roster_rows].
  pose proof (week_figures env user m weekStart t) as F1. pose proof (week_seen env user m weekStart t) as S1.
  destruct (GetMemberWeek env user m weekStart t) as [s1 t1]. set (w2 := Add weekStart _).
  pose proof (week_figures env user m w2 t1) as F2. pose proof (week_seen env user m w2 t1) as S2.
  destruct (GetMemberWeek env user m w2 t1) as [s2 t2]. cbn [fst snd] in *. destruct (IH t2) as [F3 S3].
  destruct (roster_rows env user weekStart r t2) as [rows t3]. cbn [fst snd] in *.
  assert (F : only_figures user t t2) by by etransitivity. split; [by etransitivity|]. intros x [-> | Hx]%elem_of_cons.
  - split; [exact S1|]. eapply may_see_teams; [apply F1|exact S2].
  - destruct (S3 x Hx). split; (eapply may_see_teams; [apply F|done]).
Qed.

Lemma week_rows_spec env user m weekStart n i t : only_figures user t (snd (week_rows env user m weekStart n i t))
  /\ forall w, w ∈ fst (week_rows env user m weekStart n i t) -> may_see t user m w.2.
Proof.
  revert i t. induction n as [|n IH]; intros i t; [split; [done|by intros ? ?%not_elem_of_nil]|]. cbn [week_rows]. cbv zeta. set (ws := Add weekStart _).
  pose proof (week_figures env user m ws t) as F1. pose proof (week_seen env user m ws t) as S1.
  destruct (GetMemberWeek env user m ws t) as [s1 t1]. cbn [fst snd] in *. destruct (IH (i + 1) t1) as [F2 S2].
  destruct (week_rows env user m weekStart n (i + 1) t1) as [rows t2]. cbn [fst snd] in *. split; [by etransitivity|].
  intros w [-> | Hw]%elem_of_cons; [exact S1|]. eapply may_see_teams; [apply F1|by apply S2].
Qed.

Lemma analytics_rows_spec env user weekStart l t : only_figures user t (snd (analytics_rows env user weekStart l t))
  /\ forall x w, x ∈ fst (analytics_rows env user weekStart l t) -> w ∈ ma_Weeks x -> may_see t user (ma_Member x) w.2.
Proof.
  revert t. induction l as [|m r IH]; intros t; [split; [done|by intros ? ? ?%not_elem_of_nil]|]. cbn [analytics_rows].
  destruct (week_rows_spec env user m weekStart 12 0 t) as [F1 S1]. destruct (week_rows env user m weekStart 12 0 t) as [weeks t1].
  cbn [fst snd] in *. destruct (IH t1) as [F2 S2]. destruct (analytics_rows env user weekStart r t1) as [rows t2]. cbn [fst snd] in *.
  split; [by etransitivity|]. intros x w [-> | Hx]%elem_of_cons Hw; [by apply S1|]. eapply may_see_teams; [apply F1|by eapply S2].
Qed.

(** The answers that show figures. *)
Definition shows_figures (a : ManagerAnswer) : bool := match a with RosterShown _ _ | FiguresShown _ => true | _ => false end.

Lemma scope_refusal env user s b t e : managerTeamScope env user s b t = Err e -> exists code msg, e = MgrError code msg.
Proof. unfold managerTeamScope. intros H. repeat case_match; simplify_eq; eauto. Qed.

Lemma scope_error env user s b t e : managerTeamScope env user s b t = Err e -> shows_figures e = false.
Proof. by intros (code & msg & ->)%scope_refusal. Qed.

Lemma required_error env user s b t e : requiredManagerTeamScope env user s b t = Err e -> shows_figures e = false.
Proof.
  unfold requiredManagerTeamScope. destruct (managerTeamScope env user s b t) as [[team|]|e'] eqn:E; [done|by intros [= <-]|].
  intros [= <-]. by eapply scope_error.
Qed.

Lemma other_answers env user r t : match r with MRRoster _ _ | MRAnalytics _ _ => True | _ => shows_figures (fst (serveManager env user r t)) = false end.
Proof.
  destruct r; try done; cbn [serveManager fst].
  - unfold getProfile. by destruct (me_fails env MCProfile).
  - unfold postProfile. destruct body; [|done]. by destruct (me_fails env MCProfile).
  - unfold detect. destruct (requiredManagerTeamScope _ _ _ _ _) eqn:E; [|by eapply required_error].
    destruct (DetectTeam _ _ _) as [[r|e] t']; cbn [fst]; [by destruct (shown_candidates _ _ _ _)|]. unfold calendar_failure. by case_bool_decide.
  - unfold confirmDetection. destruct (requiredManagerTeamScope _ _ _ _ _) eqn:E; [|by eapply required_error].
    destruct body as [[emails|]|]; try done. destruct (normalize_all _ _); [|done]. destruct (me_fails env MCConfirm); [done|].
    by destruct (ConfirmManagerTeamMembers _ _ _ _) as [[[]]].
  - unfold addMember. destruct (managerTeamScope _ _ _ _ _) eqn:E; [|by eapply scope_error]. destruct body; [|done].
    destruct (normalizeManagerEmail _ _); [|done]. cbv zeta. destruct (validateManagerCadence _ _); [done|]. destruct (me_fails env MCWrite); [done|].
    cbn [fst]. by destruct (read_member _ _ _ _ _ _).
  - unfold deleteMember. destruct (managerTeamScope _ _ _ _ _) as [[team|]|] eqn:E; [|done|by eapply scope_error].
    cbv zeta. by destruct (match formal_target _ _ _ _ with Some _ => _ | None => _ end).
  - unfold patchMember. destruct (managerTeamScope _ _ _ _ _) as [team|] eqn:E; [|by eapply scope_error]. destruct body; [|done].
    destruct (getOrCreateScopedMember _ _ _ _ _) as [[x|[]] t1]; [|done..]. cbv zeta. destruct (validateManagerCadence _ _); [done|].
    destruct (me_fails env MCWrite); [done|]. destruct (match team with Some _ => _ | None => _ end) as [[] t2]; [|done].
    cbn [fst negb]. by destruct (read_member _ _ _ _ _ _).
  - unfold getGaps. destruct (managerTeamScope _ _ _ _ _) eqn:E; [|by eapply scope_error]. by destruct (listManagerMembers _ _ _ _).
  - unfold scheduleMember. destruct (managerTeamScope _ _ _ _ _) eqn:E; [|by eapply scope_error]. cbv zeta. destruct body; [|done].
    destruct (_ && _); [done|]. by destruct (getOrCreateScopedMember _ _ _ _ _) as [[x|[]] t1].
Qed.

(** C21: Whatever a manager requests, with whatever calls failing, the figures of a
    Paceday user are shown only while the manager owns a team the user is on. *)
Theorem figures_only_for_owners env user r t a t' : serveManager env user r t = (a, t') ->
  match a with
  | RosterShown _ rows => forall x, x ∈ rows -> may_see t user (mr_Member x) (mr_ThisWeek x) /\ may_see t user (mr_Member x) (mr_LastWeek x)
  | FiguresShown rows => forall x w, x ∈ rows -> w ∈ ma_Weeks x -> may_see t user (ma_Member x) w.2
  | _ => True
  end.
Proof.
  intros H. pose proof (other_answers env user r t) as Ho. rewrite H in Ho. destruct r; try (by destruct a); cbn [serveManager] in H.
  - unfold getRoster in H. destruct (requiredManagerTeamScope _ _ _ _ _) as [team|e] eqn:Es.
    2:{ injection H as <- _. apply required_error in Es. by destruct e. }
    destruct (week_of env week) as [w|]; [|by injection H as <- _]. destruct (listManagerMembers _ _ _ _) as [l|]; [|by injection H as <- _].
    destruct (roster_rows_spec env user w l t) as [_ Hs]. destruct (roster_rows _ _ _ _ _) as [rows t1]. injection H as <- _. exact Hs.
  - unfold getAnalytics in H. destruct (managerTeamScope _ _ _ _ _) as [team|e] eqn:Es.
    2:{ injection H as <- _. apply scope_error in Es. by destruct e. }
    destruct (week_of env week) as [w|]; [|by injection H as <- _]. destruct (listManagerMembers _ _ _ _) as [l|]; [|by injection H as <- _].
    destruct (analytics_rows_spec env user w l t) as [_ Hs]. destruct (analytics_rows _ _ _ _ _) as [rows t1]. injection H as <- _. exact Hs.
Qed.

(** ** The roster under requests *)

(** What a request does to the tables: they stay well formed, other managers'
    rows are left, and the teams are unless they are changed as [T] says. *)
Record served (T : TeamTables -> TeamTables -> Prop) (user : uuid) (t t' : ManagerTables) : Prop := {
  sv_ok : roster_ok t -> roster_ok t';
  sv_others : kept_for_others user t t';
  sv_teams : T (mt_teams t) (mt_teams t') }.

Abbreviation quiet := (served eq).

#[export] Instance quiet_refl u : Reflexive (quiet u).
Proof. by split. Qed.

#[export] Instance quiet_trans u : Transitive (quiet u).
Proof. intros t1 t2 t3 [] []. split; [auto|by etransitivity|congruence]. Qed.

Lemma quiet_figures user t t' : only_figures user t t' -> quiet user t t'.
Proof. by intros [A1 A2 A3 A4 A5]. Qed.

Lemma quiet_detect env user t : quiet user t (snd (DetectTeam env user t)).
Proof. by destruct (DetectTeam_detected env user t). Qed.

Lemma row_cadence t manager email m : roster_ok t -> GetManagerTeamMemberByEmail t manager email = Some m -> cadence_ok (mm_Cadence m) (mm_Days m) = true.
Proof.
  intros Ht [Hm%list_elem_of_In _]%find_some. pose proof (rk_members _ Ht) as H. rewrite Forall_forall in H. by destruct (H m Hm) as (_ & _ & ?).
Qed.

Lemma view_cadence t manager team email m : roster_ok t -> GetManagerTeamMemberByEmailForTeam t manager team email = Some m ->
  cadence_ok (mm_Cadence m) (mm_Days m) = true.
Proof.
  intros Ht. unfold GetManagerTeamMemberByEmailForTeam. destruct (GetManagerTeamMemberByEmail t manager email) as [r|]; [|done].
  cbn [mbind option_bind]. unfold in_team. destruct (List.find _ _) as [x|] eqn:E; [|done]. intros [= <-]. cbn.
  apply find_some in E as [Hx%list_elem_of_In _]. pose proof (rk_assigned _ Ht) as H. rewrite Forall_forall in H. by destruct (H x Hx).
Qed.

Lemma scoped_quiet env user team email t : quiet user t (snd (getOrCreateScopedMember env user team email t))
  /\ forall m, fst (getOrCreateScopedMember env user team email t) = Ok m -> roster_ok t -> cadence_ok (mm_Cadence m) (mm_Days m) = true.
Proof.
  unfold getOrCreateScopedMember. destruct team as [team|].
  - destruct (me_fails env (MCView email)); [done|]. destruct (GetManagerTeamMemberByEmailForTeam t user team email) as [x|] eqn:E.
    { split; [done|]. intros m [= <-] Ht. by eapply view_cadence. }
    destruct (me_fails env MCFormal); [done|]. destruct (List.find _ _) as [u|]; [|done]. cbv zeta. set (m := {| mm_Manager := user |}).
    destruct (me_fails env MCWrite); [done|]. split; [|by intros ? [= <-]]. cbn [snd]. split; [|apply (upsert_for_team_others team m)|done].
    apply upsert_for_team_ok; [by right|done].
  - destruct (me_fails env (MCView email)); [done|]. destruct (GetManagerTeamMemberByEmail t user email) as [x|] eqn:E; [|done].
    split; [done|]. intros m [= <-] Ht. by eapply row_cadence.
Qed.

(** What the removal of an address from a team by its owner does to the
    teams. *)
Record removed (t : ManagerTables) (user team : uuid) (email : string) (x y : TeamTables) : Prop := {
  rm_owner : exists o, GetTeamMember x team user = Some o /\ Role o = "owner";
  rm_teams : tt_teams y = tt_teams x;
  rm_zones : tt_zones y = tt_zones x;
  rm_members : sublist (tt_members y) (tt_members x);
  rm_gone : forall m, m ∈ tt_members x -> m ∉ tt_members y -> TM_Team m = team
    /\ (exists u, u ∈ mt_users t /\ ur_ID u = TM_User m /\ EqualFold (ur_Email u) email = true)
    /\ exists o, GetTeamMember x team (TM_User m) = Some o /\ Role o <> "owner";
  rm_invites : sublist (tt_invites y) (tt_invites x);
  rm_uninvited : forall i, i ∈ tt_invites x -> i ∉ tt_invites y ->
    TI_Team i = team /\ EqualFold (InviteeEmail i) email = true /\ TI_Status i = "pending" }.

Lemma scope_owner env user s t team : managerTeamScope env user s true t = Ok (Some team) ->
  s = ScopeTeam team /\ exists o, GetTeamMember (mt_teams t) team user = Some o /\ Role o = "owner".
Proof.
  unfold managerTeamScope. destruct s as [| |u]; try done. destruct (me_fails env MCScope); [done|].
  destruct (GetTeamMember (mt_teams t) u user) as [m|] eqn:E; [|done]. destruct (String.eqb (Role m) "owner") eqn:Er; [|done].
  intros [= <-]. split; [done|]. exists m. split; [done|by apply String.eqb_eq].
Qed.

Lemma formal_target_spec env team email t m : formal_target env team email t = Some m ->
  GetTeamMember (mt_teams t) team (TM_User m) = Some m
  /\ exists u, u ∈ mt_users t /\ ur_ID u = TM_User m /\ EqualFold (ur_Email u) email = true.
Proof.
  unfold formal_target. destruct (if me_fails env (MCUser email) then None else _) as [u|] eqn:E; [|done]. cbn [mbind option_bind].
  destruct (me_fails env (MCView email)); [done|]. destruct (me_fails env (MCUser email)); [done|].
  apply find_some in E as [Hu%list_elem_of_In Ee]. intros H. pose proof H as [_ [_ E2%N.eqb_eq]%andb_true_iff]%find_some.
  rewrite E2. split; [exact H|]. by exists u.
Qed.

Lemma delete_removed env user team email t x : (exists o, GetTeamMember (mt_teams t) team user = Some o /\ Role o = "owner") ->
  match formal_target env team email t with Some m => String.eqb (Role m) "owner" | None => false end = false ->
  tt_teams x = tt_teams (mt_teams t) -> tt_zones x = tt_zones (mt_teams t) ->
  (tt_members x = tt_members (mt_teams t) \/ exists m, formal_target env team email t = Some m
     /\ tt_members x = tt_members (RemoveTeamMember team (TM_User m) (mt_teams t))) ->
  (tt_invites x = tt_invites (mt_teams t) \/ tt_invites x = tt_invites (uninvite team email (mt_teams t))) ->
  removed t user team email (mt_teams t) x.
Proof.
  intros Ho Hr E1 E2 Hm Hi. split; try done.
  - destruct Hm as [-> | (m & _ & ->)]; [done|apply keep_sublist].
  - intros m Hm1 Hm2. destruct Hm as [E|(y & Hy & E)]; [by rewrite E in Hm2|]. rewrite E in Hm2. rewrite Hy in Hr.
    destruct (formal_target_spec _ _ _ _ _ Hy) as (H1 & u & H2 & H3 & H4).
    destruct (member_of team (TM_User y) m) eqn:Em.
    2:{ destruct Hm2. apply elem_of_keep. by rewrite Em. }
    apply andb_true_iff in Em as [F1%N.eqb_eq F2%N.eqb_eq]. split; [done|]. rewrite F2. split; [by exists u|]. exists y.
    split; [done|]. by apply String.eqb_neq.
  - destruct Hi as [-> | ->]; [done|apply keep_sublist].
  - intros i Hi1 Hi2. destruct Hi as [E|E]; rewrite E in Hi2; [done|].
    destruct (N.eqb (TI_Team i) team && EqualFold (InviteeEmail i) email && String.eqb (TI_Status i) "pending") eqn:Ei.
    + apply andb_true_iff in Ei as [[F1%N.eqb_eq F2]%andb_true_iff F3%String.eqb_eq]. done.
    + destruct Hi2. apply elem_of_keep. by rewrite Ei.
Qed.

(** Which changes of the teams a request makes. *)
Definition teams_under (t : ManagerTables) (user : uuid) (r : ManagerRequest) (x y : TeamTables) : Prop :=
  y = x \/ exists team param, r = MRDelete (ScopeTeam team) param /\ removed t user team (managerEmailParam param) x y.

Lemma quiet_served t user r t' : quiet user t t' -> served (teams_under t user r) user t t'.
Proof. intros [H1 H2 H3]. split; [done|done|by left]. Qed.

Lemma delete_served env user s param t : served (teams_under t user (MRDelete s param)) user t (snd (deleteMember env user s param t)).
Proof.
  unfold deleteMember. destruct (managerTeamScope env user s true t) as [[team|]|] eqn:E; [| |by apply quiet_served].
  - destruct (scope_owner _ _ _ _ _ E) as [-> Ho]. cbv zeta. set (email := managerEmailParam param).
    destruct (match formal_target env team email t with Some m => _ | None => false end) eqn:Er; [by apply quiet_served|]. cbn [snd].
    set (t1 := match formal_target env team email t with Some m => _ | None => _ end).
    assert (H1 : served (fun x y => tt_teams y = tt_teams x /\ tt_zones y = tt_zones x /\ tt_invites y = tt_invites x
      /\ (tt_members y = tt_members x \/ exists m, formal_target env team email t = Some m
             /\ tt_members y = tt_members (RemoveTeamMember team (TM_User m) x))) user t t1).
    { unfold t1. destruct (formal_target env team email t) as [m|]; [|split; [done|done|by split_and!; [..|left]]].
      destruct (me_fails env MCRemove); [split; [done|done|by split_and!; [..|left]]|].
      split; [auto with roster|auto with roster|split_and!; try done]. right. by exists m. }
    clearbody t1. destruct H1 as [K1 K2 (K3 & K4 & K5 & K6)].
    set (t2 := if me_fails env MCUnassign then t1 else _).
    assert (H2 : quiet user t1 t2) by (unfold t2; destruct (me_fails env MCUnassign); [done|split; auto with roster; apply keep_assigned_ok]).
    clearbody t2. destruct H2 as [L1 L2 L3].
    assert (H3 : forall f, served (fun x y => y = f x) user t2 (on_teams f t2)) by (intros f; split; auto with roster).
    split.
    + intros Ht. destruct (me_fails env MCUninvite); [auto|]. apply H3. auto.
    + etransitivity; [exact K2|]. etransitivity; [exact L2|]. destruct (me_fails env MCUninvite); [done|apply (H3 (uninvite team email))].
    + right. exists team, param. split; [done|]. rewrite L3 in K3, K4, K5, K6. apply (delete_removed env); try done.
      all: destruct (me_fails env MCUninvite); cbn [on_teams mt_teams uninvite set_invites tt_teams tt_zones tt_members tt_invites]; try done.
      1: by left. right. cbn. by rewrite K5.
  - apply quiet_served. cbn [snd]. destruct (me_fails env MCRemove); [done|]. split; auto with roster.
Qed.

Lemma profile_quiet env user body t : quiet user t (snd (postProfile env user body t)).
Proof.
  unfold postProfile. destruct body as [b|]; [|done]. destruct (me_fails env MCProfile); [done|].
  assert (H1 : quiet user t (snd (GetOrCreateUserProfile user t))) by (split; auto with roster).
  pose proof (create_profile_user user t) as Hu. destruct (GetOrCreateUserProfile user t) as [p t1]. cbn [fst snd] in *.
  etransitivity; [exact H1|]. set (p' := {| up_User := _ |}).
  assert (Hw : forall t, quiet user t (if me_fails env MCPutProfile then t else UpsertUserProfile p' t)).
  { intros t0. destruct (me_fails env MCPutProfile); [done|]. split; auto with roster. rewrite <- Hu. apply (upsert_profile_others p'). }
  assert (Hr : forall (u : bool) t, quiet user t (if u then snd (DetectTeam env user t) else t)) by (intros []; [intros; apply quiet_detect|done]).
  destruct (me_unit_first env); (etransitivity; [|first [apply Hw|apply Hr]]); [apply Hr|apply Hw].
Qed.

Lemma add_quiet env user s body t : quiet user t (snd (addMember env user s body t)).
Proof.
  unfold addMember. destruct (managerTeamScope _ _ _ _ _) as [team|]; [|done]. destruct body as [b|]; [|done].
  destruct (normalizeManagerEmail _ _) as [email|]; [|done]. cbv zeta. set (c := ToLower _).
  destruct (validateManagerCadence c (mb_Days b)) eqn:Ev; [done|]. destruct (me_fails env MCWrite); [done|]. apply validate_cadence_ok in Ev.
  set (m := {| mm_Manager := user |}). cbn [snd]. destruct team as [team|].
  - split; [|apply (upsert_for_team_others team m)|done]. apply upsert_for_team_ok; [by right|done].
  - split; [|apply (upsert_member_others m)|done]. apply upsert_member_ok; [by right|done].
Qed.

Lemma patch_quiet env user s param body t : quiet user t (snd (patchMember env user s param body t)).
Proof.
  unfold patchMember. destruct (managerTeamScope _ _ _ _ _) as [team|]; [|done]. cbv zeta. set (email := managerEmailParam param).
  destruct body as [b|]; [|done]. destruct (scoped_quiet env user team email t) as [H1 _].
  destruct (getOrCreateScopedMember env user team email t) as [[m|e] t1]; [|exact H1]. cbn [snd] in H1.
  set (c := match mp_Cadence b with Some _ => _ | None => _ end). set (d := if _ && _ then None else _).
  destruct (validateManagerCadence c d) eqn:Ev; [exact H1|]. destruct (me_fails env MCWrite); [exact H1|]. apply validate_cadence_ok in Ev.
  set (name := or_local_part _ _). etransitivity; [exact H1|]. destruct team as [team|].
  - assert (H2 : quiet user t1 (snd (PatchManagerTeamMemberForTeam user team email name c d t1))).
    { split; [auto with roster|auto with roster|]. unfold PatchManagerTeamMemberForTeam. by destruct (GetManagerTeamMemberByEmail _ _ _). }
    destruct (PatchManagerTeamMemberForTeam _ _ _ _ _ _ _) as [[] t2]; exact H2.
  - cbn [negb snd]. split; auto with roster.
Qed.

Lemma serve_served env user r t : served (teams_under t user r) user t (snd (serveManager env user r t)).
Proof.
  destruct r as [|body|s|s body|s week|s body|s email|s email body|s|s email body|s week]; cbn [serveManager].
  7: by apply delete_served.
  all: apply quiet_served.
  - unfold getProfile. destruct (me_fails env MCProfile); [done|]. assert (H : quiet user t (snd (GetOrCreateUserProfile user t))) by (split; auto with roster).
    by destruct (GetOrCreateUserProfile user t).
  - apply profile_quiet.
  - unfold detect. destruct (requiredManagerTeamScope _ _ _ _ _) as [team|]; [|done]. pose proof (quiet_detect env user t) as H.
    by destruct (DetectTeam env user t) as [[r|e] t'].
  - unfold confirmDetection. destruct (requiredManagerTeamScope _ _ _ _ _) as [team|]; [|done]. destruct body as [[emails|]|]; try done.
    destruct (normalize_all _ _) as [l|]; [|done]. destruct (me_fails env MCConfirm); [done|].
    assert (H : quiet user t (snd (ConfirmManagerTeamMembers user team l t))).
    { split; [auto with roster|auto with roster|]. unfold ConfirmManagerTeamMembers. cbn [snd].
      enough (G : forall c, mt_teams (cf_tables (fold_left (confirm_one user team) l c)) = mt_teams (cf_tables c)) by (symmetry; apply G).
      induction l as [|x l IH]; intros c; [done|]. cbn [fold_left]. rewrite IH. unfold confirm_one. destruct (_ || _); [done|].
      destruct (List.find _ _); [|done]. set (a := {| as_Manager := user |}). change (mt_teams (cf_tables c)) with (mt_teams (snd (assign a (cf_tables c)))).
      by destruct (assign a (cf_tables c)) as [[] t'] eqn:Ea; [|unfold assign in Ea; injection Ea as _ <-]. }
    by destruct (ConfirmManagerTeamMembers user team l t) as [[[] ?] t'].
  - unfold getRoster. destruct (requiredManagerTeamScope _ _ _ _ _) as [team|]; [|done]. destruct (week_of env week) as [w|]; [|done].
    destruct (listManagerMembers _ _ _ _) as [l|]; [|done]. destruct (roster_rows_spec env user w l t) as [H _].
    destruct (roster_rows env user w l t). by apply quiet_figures.
  - apply add_quiet.
  - apply patch_quiet.
  - done.
  - unfold scheduleMember. destruct (managerTeamScope _ _ _ _ _) as [team|]; [|done]. cbv zeta. destruct body as [date|]; [|done].
    destruct (_ && _); [done|]. destruct (scoped_quiet env user team (managerEmailParam email) t) as [H _].
    by destruct (getOrCreateScopedMember _ _ _ _ _) as [[m|e] t'].
  - unfold getAnalytics. destruct (managerTeamScope _ _ _ _ _) as [team|]; [|done]. destruct (week_of env week) as [w|]; [|done].
    destruct (listManagerMembers _ _ _ _) as [l|]; [|done]. destruct (analytics_rows_spec env user w l t) as [H _].
    destruct (analytics_rows env user w l t). by apply quiet_figures.
Qed.

(** C22: Requests, detections among them, never break the tables: addresses stay
    canonical and unique in a roster, a cadence has days exactly when it is a
    custom one, with 1 to 365 of them, and who is assigned to a team is on the
    manager's roster. The database's own constraints refuse nothing. *)
Theorem rosters_stay_valid env user r t : roster_ok t -> roster_ok (snd (serveManager env user r t)).
Proof. apply serve_served. Qed.

(** A request changes nothing of another manager's roster, assignments, recorded
    meetings, figures and profile; and of the teams only what a removal of an
    address by an owner takes: the rows of that address, unless it is an owner's,
    and its pending invitations. *)
Theorem managers_kept_apart env user r t : let t' := snd (serveManager env user r t) in
  kept_for_others user t t'
  /\ (mt_teams t' = mt_teams t
      \/ exists team param, r = MRDelete (ScopeTeam team) param /\ removed t user team (managerEmailParam param) (mt_teams t) (mt_teams t')).
Proof. destruct (serve_served env user r t) as [_ H1 H2]. by split. Qed.

Lemma normalized_canonical ip raw email : normalizeManagerEmail ip raw = Ok email -> email = canonical raw.
Proof. unfold normalizeManagerEmail. cbv zeta. destruct (String.eqb _ ""); [done|]. destruct (plain_address _ _); [|done]. by intros [= <-]. Qed.

Lemma upserted_row m t : canonical (mm_Email m) = mm_Email m -> mm_Source m = "manual" ->
  exists x, GetManagerTeamMemberByEmail (UpsertManagerTeamMember m t) (mm_Manager m) (mm_Email m) = Some x
  /\ member_key x = member_key m /\ mm_Source x = "manual" /\ mm_Cadence x = mm_Cadence m /\ mm_Days x = mm_Days m
  /\ mm_Name x = TrimSpace (mm_Name m).
Proof.
  intros Hc Hs. unfold GetManagerTeamMemberByEmail, UpsertManagerTeamMember. cbn [on_roster mt_roster cleaned mm_Manager mm_Email]. rewrite !Hc.
  rewrite upsert_find; [|done|apply member_at_key; unfold member_key; cbn; by rewrite Hc]. destruct (List.find _ _) as [x|] eqn:E.
  - apply find_some in E as [_ E%member_at_key]. eexists. split; [done|]. cbn. rewrite Hs. cbn. split_and!; try done.
    by destruct (String.eqb (mm_Source x) "manual").
  - eexists. split; [done|]. unfold member_key. cbn. by rewrite Hc.
Qed.

Lemma upserted_view team m t : canonical (mm_Email m) = mm_Email m -> mm_Source m = "manual" ->
  exists x, GetManagerTeamMemberByEmailForTeam (UpsertManagerTeamMemberForTeam team m t) (mm_Manager m) team (mm_Email m) = Some x
  /\ member_key x = member_key m /\ mm_Source x = "manual" /\ mm_Cadence x = mm_Cadence m /\ mm_Days x = mm_Days m.
Proof.
  intros Hc Hs. destruct (upserted_row m t Hc Hs) as (x & Hx & [= K1 K2] & K3 & _). unfold GetManagerTeamMemberByEmailForTeam.
  change (GetManagerTeamMemberByEmail (UpsertManagerTeamMemberForTeam team m t) (mm_Manager m) (mm_Email m))
    with (GetManagerTeamMemberByEmail (UpsertManagerTeamMember m t) (mm_Manager m) (mm_Email m)).
  rewrite Hx. cbn [mbind option_bind]. unfold in_team, UpsertManagerTeamMemberForTeam. cbn [on_assigned mt_assigned cleaned mm_Manager mm_Email].
  rewrite K1, K2, Hc, upsert_find; [|done|by apply assigned_at_key].
  eexists. split; [done|]. unfold member_key. destruct (List.find _ _); cbn; by rewrite K1, K2.
Qed.

(** Who is added is answered as stored: under the canonical form of the address
    given, as a manual row, with the cadence and the days given, read back
    through the team when a team was named and from the manager's own roster
    otherwise, there with the name given. *)
Theorem added_member_is_stored env user s b t m t' : serveManager env user (MRAdd s (Some b)) t = (MemberShown true m, t') ->
  mm_Manager m = user /\ mm_Email m = canonical (mb_Email b) /\ mm_Source m = "manual"
  /\ mm_Cadence m = canonical (if String.eqb (mb_Cadence b) "" then "none" else mb_Cadence b) /\ mm_Days m = mb_Days b
  /\ match s with
     | ScopeTeam team => GetManagerTeamMemberByEmailForTeam t' user team (mb_Email b) = Some m
     | _ => GetManagerTeamMemberByEmail t' user (mb_Email b) = Some m /\ mm_Name m = TrimSpace (or_local_part (mb_Name b) (mm_Email m))
     end.
Proof.
  cbn [serveManager]. unfold addMember. destruct (managerTeamScope env user s true t) as [team|] eqn:Es; [|apply scope_refusal in Es as (? & ? & ->); done].
  destruct (normalizeManagerEmail (me_ip env) (mb_Email b)) as [email|] eqn:Ee; [|done]. apply normalized_canonical in Ee as ->.
  cbv zeta. set (c := ToLower _). destruct (validateManagerCadence c (mb_Days b)); [done|]. destruct (me_fails env MCWrite); [done|].
  set (r := {| mm_Manager := user |}). assert (Hc : canonical (mm_Email r) = mm_Email r) by apply canonical_idem.
  unfold read_member. destruct (me_fails env MCReadBack); [done|]. destruct team as [team|].
  - destruct (upserted_view team r t Hc eq_refl) as (x & Hx & [= K1 K2] & K3 & K4 & K5). cbn [mm_Manager mm_Email r] in Hx. rewrite Hx. intros [= -> <-].
    split_and!; try done. unfold managerTeamScope in Es. destruct s as [| |u]; try done.
    assert (u = team) as -> by (repeat case_match; congruence).
    unfold GetManagerTeamMemberByEmailForTeam, GetManagerTeamMemberByEmail in *. by rewrite canonical_idem in Hx.
  - destruct (upserted_row r t Hc eq_refl) as (x & Hx & [= K1 K2] & K3 & K4 & K5 & K6). cbn [mm_Manager mm_Email r] in Hx. rewrite Hx. intros [= -> <-].
    split_and!; try done. unfold managerTeamScope in Es. destruct s as [| |u]; [|done|repeat case_match; congruence].
    unfold GetManagerTeamMemberByEmail in *. rewrite canonical_idem in Hx. split; [done|]. rewrite K6, K2. done.
Qed.

(** ** Concrete runs *)

Import ManagersDemo.

Module RequestsDemo.

Definition core : TeamScope := ScopeTeam 7%N.
Definition data : TeamScope := ScopeTeam 8%N.
Definition nobody (email : string) : MemberBody := {| mb_Email := email; mb_Name := ""; mb_Cadence := ""; mb_Days := None |}.

End RequestsDemo.
Import RequestsDemo.

Lemma tables_ok : roster_ok tables.
Proof.
  split; cbn; try (by constructor).
  - repeat constructor; try (by left); by right.
  - apply NoDup_cons. split; [|by apply NoDup_singleton]. by intros ?%list_elem_of_singleton.
Qed.

Lemma rosters_stay_valid_witness : roster_ok (snd (serveManager monday 1%N (MRAdd core (Some (nobody " Bob@x.org "))) tables))
  /\ length (mt_assigned (snd (serveManager monday 1%N (MRAdd core (Some (nobody " Bob@x.org "))) tables))) = 1%nat.
Proof. split; [apply (rosters_stay_valid monday 1%N); exact tables_ok|vm_compute; reflexivity]. Defined.

Lemma figures_only_for_owners_witness : exists rows t', serveManager monday 1%N (MRRoster core "") shared = (RosterShown 7%N rows, t')
  /\ map (fun x => mw_Focus (mr_ThisWeek x)) rows = [600]
  /\ forall x, x ∈ rows -> may_see shared 1%N (mr_Member x) (mr_ThisWeek x) /\ may_see shared 1%N (mr_Member x) (mr_LastWeek x).
Proof.
  assert (H : exists rows t', serveManager monday 1%N (MRRoster core "") shared = (RosterShown 7%N rows, t')
    /\ map (fun x => mw_Focus (mr_ThisWeek x)) rows = [600]) by (vm_compute; do 2 eexists; split; reflexivity).
  destruct H as (rows & t' & H & E). exists rows, t'. split; [exact H|]. split; [exact E|].
  exact (figures_only_for_owners monday 1%N (MRRoster core "") shared (RosterShown 7%N rows) t' H).
Defined.

Lemma added_member_is_stored_witness : exists m t', serveManager monday 1%N (MRAdd core (Some (nobody " Bob@x.org "))) tables = (MemberShown true m, t')
  /\ mm_Email m = "bob@x.org" /\ GetManagerTeamMemberByEmailForTeam t' 1%N 7%N " Bob@x.org " = Some m.
Proof.
  assert (H : exists m t', serveManager monday 1%N (MRAdd core (Some (nobody " Bob@x.org "))) tables = (MemberShown true m, t'))
    by (vm_compute; do 2 eexists; reflexivity).
  destruct H as (m & t' & H). exists m, t'. destruct (added_member_is_stored monday 1%N core (nobody " Bob@x.org ") tables m t' H) as (_ & H1 & _ & _ & _ & H2).
  split; [exact H|]. split; [exact H1|exact H2].
Defined.

(** Adding someone to a team writes the team's cadence over the manager's own:
    Ann's weekly one-on-one is gone from the roster. *)
Example team_resets_own_cadence :
  let t := snd (serveManager monday 1%N (MRAdd core (Some (nobody "ann@x.org"))) tables) in
  map mm_Cadence (ListManagerTeamMembers (fun _ => 0) tables 1%N) = ["weekly"; "monthly"]
  /\ map mm_Cadence (ListManagerTeamMembers (fun _ => 0) t 1%N) = ["none"; "monthly"].
Proof. vm_compute. split; reflexivity. Qed.

(** So does asking for the link that plans a one-on-one, in any team both are
    on. *)
Example planning_resets_own_cadence :
  let '(a, t) := serveManager monday 1%N (MRSchedule data "cleo@x.org" (Some "")) tables in
  a = PrefillShown "/app?attendees=cleo%40x.org&duration=30&title=1%3A1+with+Cleo"
  /\ map mm_Cadence (ListManagerTeamMembers (fun _ => 0) t 1%N) = ["weekly"; "none"].
Proof. vm_compute. split; reflexivity. Qed.

(** The Sunday detection writes what it infers over the cadence a manager
    set: one recurring meeting gives none. *)
Example detection_resets_own_cadence :
  let env := env_at (at_day 8 3) [meeting "e1" "2026-03-03T09:00:00Z" "2026-03-03T09:30:00Z" "ann@x.org" "series"] true in
  let t := snd (DetectTeam env 1%N tables) in
  GetManagerTeamMemberByEmail t 1%N "ann@x.org" = Some (row "ann@x.org" "Ann" (Some 2%N) "none" (Some (Date 2026 3 3 9 0 0 0 UTC))).
Proof. vm_compute. reflexivity. Qed.

(** A recorded meeting that was moved out of the next two weeks still counts as
    planned, so the overdue member shows no gap. *)
Example moved_meeting_hides_the_gap :
  let detect day t := snd (DetectTeam (env_at (at_day 2 10)
    [{| me_Id := "e1"; me_Start := Some (day +:+ "T09:00:00Z"); me_End := Some (day +:+ "T09:30:00Z"); me_Guests := [guest "ann@x.org"];
        me_Recurrence := ["RRULE:FREQ=WEEKLY"]; me_RecurringEventId := "" |}] true) 1%N t) in
  map cg_Email (GetGaps monday tables 1%N [ann]) = ["ann@x.org"]
  /\ GetGaps monday (detect "2026-04-10" (detect "2026-03-05" tables)) 1%N [ann] = []
  /\ map cg_Email (GetGaps monday (detect "2026-04-10" tables) 1%N [ann]) = ["ann@x.org"].
Proof. vm_compute. split_and!; reflexivity. Qed.

(** A one-on-one planned in twenty days does not keep the gap of a monthly
    cadence away. *)
Example planned_month_still_a_gap :
  let t := UpsertOneOnOneOccurrence {| oo_Manager := 1%N; oo_Email := "cleo@x.org"; oo_Event := "e"; oo_At := at_day 22 9 |} tables in
  map cg_Email (GetGaps monday t 1%N [cleo]) = ["cleo@x.org"].
Proof. vm_compute. reflexivity. Qed.

(** When the detection a new manager starts ends before the profile is written,
    the time it stored is overwritten. *)
Example detection_time_overwritten :
  let env first := env_at (at_day 2 10) [meeting "e1" "2026-03-03T09:00:00Z" "2026-03-03T09:30:00Z" "ann@x.org" "series"] first in
  let detected_at first := up_DetectedAt <$> GetUserProfile (snd (serveManager (env first) 1%N (MRPostProfile (Some true)) tables)) 1%N in
  detected_at true = Some None /\ detected_at false = Some (Some (at_day 2 10)).
Proof. vm_compute. split; reflexivity. Qed.

(** A user without a profile row counts as not sharing, though sharing is the
    default of the column and of the query. *)
Example no_profile_is_not_shared :
  fst (GetMemberWeek monday 1%N ann (at_day 2 0) tables) = no_stats /\ mw_Focus (fst (GetMemberWeek monday 1%N ann (at_day 2 0) shared)) = 600.
Proof. vm_compute. split; reflexivity. Qed.
