(* ===== verification/Analytics.v ===== *)
(** * Weekly analytics

    [engine/analytics.go], [storage/analytics.go] and
    [api/handlers_analytics.go]: where the minutes of a user's week went, the
    row that keeps the answer for a day, and what the three reads show of it.
    The order in which Go walks a map and [sort.Slice] leaves equal elements is
    a parameter ([an_sort]); so is the time the driver gives for a DATE column
    ([an_date]) and the calendar ([an_events]). *)

From S2P Require Import Prelude GoInt GoTime GoFloat GoText Interval LinkStore Calendar Settings Habits AutoDecline ManagerEngine.

#[local] Open Scope string_scope.
#[local] Open Scope list_scope.
#[local] Open Scope Z_scope.

(** ** Storage *)

Record MeetingTitle := { tt_Title : string; tt_Minutes : Z }.

(** The columns a computation fills. *)
Record Figures := {
  fg_Total : Z;
  fg_Meeting : Z;
  fg_Focus : Z;
  fg_Habit : Z;
  fg_Buffer : Z;
  fg_Personal : Z;
  fg_Free : Z;
  fg_Count : Z;
  fg_Blocks : Z;
  fg_Rate : spec_float;
  fg_Largest : Z;
  fg_Titles : list MeetingTitle;
  fg_Score : Z;
  fg_Cost : Z;
}.

Record AnalyticsWeek := {
  aw_ID : uuid;
  aw_User : uuid;
  aw_WeekStart : time;
  aw_Figures : Figures;
  aw_ComputedAt : time;
}.

(** A row of [analytics_weeks]; its DATE column is a day number. *)
Record WeekRow := {
  wr_ID : uuid;
  wr_User : uuid;
  wr_Day : Z;
  wr_Figures : Figures;
  wr_ComputedAt : time;
}.

(** The columns of type INTEGER: a number that does not fit is an error of the
    statement. *)
Definition int4 (z : Z) : bool := (- 2 ^ 31 <=? z) && (z <? 2 ^ 31).
Definition int4_columns (f : Figures) : bool :=
  forallb int4 [fg_Total f; fg_Meeting f; fg_Focus f; fg_Habit f; fg_Buffer f; fg_Personal f; fg_Free f;
                fg_Count f; fg_Blocks f; fg_Largest f; fg_Score f; fg_Cost f].

Definition week_of (user : uuid) (day : Z) (r : WeekRow) : bool := N.eqb (wr_User r) user && (wr_Day r =? day).

(** [DO UPDATE SET ...]. *)
Definition refreshed (f : Figures) (now : time) (r : WeekRow) : WeekRow :=
  {| wr_ID := wr_ID r; wr_User := wr_User r; wr_Day := wr_Day r; wr_Figures := f; wr_ComputedAt := now |}.

(** [calendarDate]. *)
Definition calendarDate (t : time) : time :=
  let c := DateOf t in Date (c_year c) (c_month c) (c_day c) 0 0 0 0 UTC.

(** [hhmmToMinutes]. *)
Definition hhmmToMinutes (hhmm : string) : Z :=
  match SplitN2 hhmm ":" with
  | [a; b] => wrap64 (scan_or_zero a * 60 + scan_or_zero b)
  | _ => 0
  end.

(** The Monday [weekStartFor] goes back to, in at most [fuel] steps. *)
Fixpoint monday_from (fuel : nat) (d : time) : time :=
  match fuel with
  | O => d
  | S k => if WeekdayOf d =? 1 then d else monday_from k (AddDate d 0 0 (-1))
  end.

Definition weekStartFor (date : time) : time :=
  let d := monday_from 7 date in
  let c := DateOf d in Date (c_year c) (c_month c) (c_day c) 0 0 0 0 (t_loc d).

(** The number of minutes of every block, and of the longest. *)
Definition count_block (acc : Z * Z) (fb : FocusBlockRow) : Z * Z :=
  let dur := int_minutes (Sub (FB_End fb) (FB_Start fb)) in
  (fst acc + dur, if snd acc <? dur then dur else snd acc).

Definition focusBlockMinutes (blocks : list FocusBlockRow) : Z * Z := fold_left count_block blocks (0, 0).

(** What a week is computed from. *)
Record AnalyticsEnv := {
  an_now : time;                                            (** the clock of the process and of the database *)
  an_id : uuid;                                             (** the key of a new row *)
  an_settings : result Settings;                            (** [GetOrCreateSettingsByUser] *)
  an_focus : result Tables;                                 (** the focus blocks, when they can be read *)
  an_habits : result (list Habit);
  an_occs : uuid -> result (list HabitOccurrence);          (** the occurrences, when those of the habit can be read *)
  an_token : TokenRead;
  an_client : bool;                                         (** a client can be made of the token *)
  an_events : time -> time -> result (list Event);
  an_sort : forall A : Type, (A -> Z) -> list A -> list A;  (** by decreasing key *)
  an_date : Z -> time;                                      (** the driver's time for a DATE *)
  an_readable : bool;                                       (** [analytics_weeks] can be read *)
  an_writable : bool;
}.

Section Engine.
Context (local : Location) `{DateDriver} (env : AnalyticsEnv) (user : uuid).

(** [scanAnalyticsWeek], [scanAnalyticsWeekRow]. *)
Definition scan_week (r : WeekRow) : AnalyticsWeek :=
  {| aw_ID := wr_ID r; aw_User := wr_User r; aw_WeekStart := calendarDate (an_date env (wr_Day r));
     aw_Figures := wr_Figures r; aw_ComputedAt := wr_ComputedAt r |}.

Definition GetAnalyticsWeek (u : uuid) (weekStart : time) (rows : list WeekRow) : result (option AnalyticsWeek) :=
  if an_readable env then Ok (option_map scan_week (List.find (week_of u (day_number weekStart)) rows)) else Err ErrStorage.

Definition UpsertAnalyticsWeek (u : uuid) (weekStart : time) (f : Figures) (rows : list WeekRow)
    : result (option AnalyticsWeek) * list WeekRow :=
  if an_writable env && int4_columns f then
    let day := day_number weekStart in
    let new := {| wr_ID := an_id env; wr_User := u; wr_Day := day; wr_Figures := f; wr_ComputedAt := an_now env |} in
    let rows' := upsert (week_of u day) (refreshed f (an_now env)) new rows in
    (Ok (option_map scan_week (List.find (week_of u day) rows')), rows')
  else (Err ErrStorage, rows).

(** [ListAnalyticsTrends]: [ORDER BY week_start DESC LIMIT]. *)
Definition ListAnalyticsTrends (u : uuid) (limit : Z) (rows : list WeekRow) : result (list AnalyticsWeek) :=
  if an_readable env then
    Ok (map scan_week (take (Z.to_nat limit) (order_by (fun r => - wr_Day r) (keep (fun r => N.eqb (wr_User r) u) rows))))
  else Err ErrStorage.

(** ** The engine *)

(** [habitOccurrencesForWeek]. *)
Definition habitOccurrencesForWeek (from to : time) : list HabitOccurrence :=
  match an_habits env with
  | Ok habits =>
      flat_map (fun h => match an_occs env (H_ID h) with
                         | Ok occs => ListHabitOccurrences occs (H_ID h) from to
                         | Err _ => []
                         end) (ListHabitsByUser habits user)
  | Err _ => []
  end.

Definition focus_of_week (weekStart : time) : list FocusBlockRow :=
  match an_focus env with Ok t => ListFocusBlocksForUserWeek t user weekStart | Err _ => [] end.

(** The identifiers of the events counted through the tables. *)
Definition counted_elsewhere (weekStart weekEnd : time) (id : string) : bool :=
  existsb (fun fb => String.eqb (FB_Event fb) id) (focus_of_week weekStart) ||
  existsb (fun o => negb (String.eqb (O_Event o) "") && String.eqb (O_Event o) id) (habitOccurrencesForWeek weekStart weekEnd).

Definition timed (ev : Event) : bool :=
  match ev_Start ev with Some d => negb (String.eqb (DateTime d) "") | None => false end.

(** The minutes the loop counts for an event, when it reaches the last test. *)
Definition counted_minutes (weekStart weekEnd : time) (ev : Event) : option Z :=
  if negb (timed ev) then None
  else
    let '(s, end_) := parseEventTime local ev in
    if IsZero s || IsZero end_ then None
    else if Before end_ weekStart || After s weekEnd then None
    else
      let dur := int_minutes (Sub end_ s) in
      if dur <=? 0 then None
      else if counted_elsewhere weekStart weekEnd (ev_Id ev) then None
      else Some dur.

Record Tally := { ty_Meeting : Z; ty_Count : Z; ty_Cost : Z; ty_Personal : Z; ty_Titles : gmap string Z }.

Definition no_tally : Tally := {| ty_Meeting := 0; ty_Count := 0; ty_Cost := 0; ty_Personal := 0; ty_Titles := ∅ |}.

Definition headcount (ev : Event) : Z := Z.of_nat (length (Attendees ev)).

(** The sums are Go ints; [dur] is at most the [max_dur_minutes] a duration holds,
    so they wrap only past 6 * 10^10 attendances in a week, and the wrap is not
    written. *)
Definition count_event (weekStart weekEnd : time) (t : Tally) (ev : Event) : Tally :=
  match counted_minutes weekStart weekEnd ev with
  | None => t
  | Some dur =>
      if 0 <? headcount ev then
        {| ty_Meeting := ty_Meeting t + dur; ty_Count := ty_Count t + 1; ty_Cost := ty_Cost t + dur * headcount ev;
           ty_Personal := ty_Personal t;
           ty_Titles := if String.eqb (Summary ev) "" then ty_Titles t
                        else <[Summary ev := default 0 (ty_Titles t !! Summary ev) + dur]> (ty_Titles t) |}
      else {| ty_Meeting := ty_Meeting t; ty_Count := ty_Count t; ty_Cost := ty_Cost t;
              ty_Personal := ty_Personal t + dur; ty_Titles := ty_Titles t |}
  end.

Definition calOpsForUser : result unit :=
  _ <-? LoadCalendarToken (an_token env) ;;
  if an_client env then Ok tt else Err ErrProvider.

(** The calendar's share of a week; a calendar that cannot be read counts for
    nothing. *)
Definition tally (weekStart weekEnd : time) : Tally :=
  match calOpsForUser with
  | Ok _ => match an_events env weekStart weekEnd with
            | Ok events => fold_left (count_event weekStart weekEnd) events no_tally
            | Err _ => no_tally
            end
  | Err _ => no_tally
  end.

Definition top_titles (titles : gmap string Z) : list MeetingTitle :=
  map (fun p => {| tt_Title := fst p; tt_Minutes := snd p |}) (take 5 (an_sort env _ snd (map_to_list titles))).

(** The working minutes of Monday to Friday. *)
Definition day_minutes (s : Settings) (day : time) : Z :=
  let '(from, to, enabled) := WorkWindow (Some s) day in
  if enabled then let m := wrap64 (hhmmToMinutes to - hhmmToMinutes from) in if 0 <? m then m else 0 else 0.

Definition working_minutes (s : Settings) (weekStart : time) : Z :=
  let total := fold_left (fun acc i => wrap64 (acc + day_minutes s (AddDate weekStart 0 0 i))) [0; 1; 2; 3; 4] 0 in
  if (total <=? 0) && negb (String.eqb (WH_Mode (WorkingHours s)) "by_day") then 480 * 5 else total.

Definition has_status (l : list string) (o : HabitOccurrence) : bool := existsb (String.eqb (O_Status o)) l.
Definition occ_minutes (o : HabitOccurrence) : Z := int_minutes (Sub (O_End o) (O_Start o)).
Definition total (l : list Z) : Z := foldr Z.add 0 l.

Definition focus_score (focus meeting : Z) : Z :=
  if 0 <? focus + meeting then let s := Z.quot (focus * 100) (focus + meeting) in if 100 <? s then 100 else s else 50.

(** The figures of the week that starts at [weekStart]. *)
Definition week_figures (s : Settings) (weekStart : time) : Figures :=
  let weekEnd := AddDate weekStart 0 0 7 in
  let working := working_minutes s weekStart in
  let blocks := focus_of_week weekStart in
  let '(focus, largest) := focusBlockMinutes blocks in
  let occs := habitOccurrencesForWeek weekStart weekEnd in
  let planned := keep (has_status ["scheduled"; "completed"]) occs in
  let scheduled := Z.of_nat (length planned) in
  let completed := Z.of_nat (length (keep (has_status ["completed"]) occs)) in
  let habit := total (map occ_minutes planned) in
  let t := tally weekStart weekEnd in
  let free := wrap64 (working - ty_Meeting t - focus - habit - ty_Personal t) in
  {| fg_Total := working; fg_Meeting := ty_Meeting t; fg_Focus := focus; fg_Habit := habit; fg_Buffer := 0;
     fg_Personal := ty_Personal t; fg_Free := if free <? 0 then 0 else free; fg_Count := ty_Count t;
     fg_Blocks := Z.of_nat (length blocks);
     fg_Rate := if 0 <? scheduled then fdiv (f64 completed) (f64 scheduled) else f64 0;
     fg_Largest := largest; fg_Titles := top_titles (ty_Titles t); fg_Score := focus_score focus (ty_Meeting t);
     fg_Cost := ty_Cost t |}.

Definition compute (weekStart : time) (rows : list WeekRow) : result (option AnalyticsWeek) * list WeekRow :=
  match an_settings env with
  | Err e => (Err e, rows)
  | Ok s => UpsertAnalyticsWeek user weekStart (week_figures s weekStart) rows
  end.

Definition ComputeWeek (date : time) (rows : list WeekRow) : result (option AnalyticsWeek) * list WeekRow :=
  let weekStart := weekStartFor date in
  match GetAnalyticsWeek user weekStart rows with
  | Err e => (Err e, rows)
  | Ok (Some cached) =>
      if After (aw_ComputedAt cached) (Add (an_now env) (- (24 * Hour))) then (Ok (Some cached), rows) else compute weekStart rows
  | Ok None => compute weekStart rows
  end.

Definition ForceCompute (date : time) (rows : list WeekRow) : result (option AnalyticsWeek) * list WeekRow :=
  compute (weekStartFor date) rows.

(** [WeekMeetings]. *)
Record WeekMeeting := { wm_Title : string; wm_Minutes : Z; wm_Attendees : Z; wm_Start : string }.

Definition listed_meeting (weekStart weekEnd : time) (ev : Event) : option WeekMeeting :=
  if negb (timed ev) then None
  else if headcount ev =? 0 then None
  else if counted_elsewhere weekStart weekEnd (ev_Id ev) then None
  else
    let '(s, end_) := parseEventTime local ev in
    if IsZero s then None
    else Some {| wm_Title := Summary ev; wm_Minutes := int_minutes (Sub end_ s); wm_Attendees := headcount ev;
                 wm_Start := FormatRFC3339 s |}.

Definition WeekMeetings (date : time) : result (list WeekMeeting) :=
  let weekStart := weekStartFor date in
  let weekEnd := AddDate weekStart 0 0 7 in
  _ <-? calOpsForUser ;;
  events <-? an_events env weekStart weekEnd ;;
  Ok (an_sort env _ wm_Minutes (omap (listed_meeting weekStart weekEnd) events)).

(** ** The handlers *)

Record WeekResponse := { ws_Week : AnalyticsWeek; ws_WeekStart : string; ws_RatePct : spec_float }.

Record BreakdownEntry := { be_Category : string; be_Minutes : Z; be_Percentage : spec_float; be_Color : string }.

Inductive AnalyticsAnswer :=
| AnError (code : Z)
| NotConnected                                                    (** the 401 of a caller without a calendar *)
| WeekShown (w : WeekResponse) (breakdown : list BreakdownEntry)
| TrendsShown (l : list WeekResponse)
| MeetingsShown (l : list WeekMeeting)
| RecomputeAccepted.

(** [parseDateParam]. *)
Definition parseDateParam (s : string) (fallback : time) : time :=
  if String.eqb s "" then fallback else default fallback (ParseDateOnly s).

Definition newAnalyticsWeekResponse (a : AnalyticsWeek) : WeekResponse :=
  {| ws_Week := a; ws_WeekStart := FormatDateOnly (aw_WeekStart a); ws_RatePct := fmul (fg_Rate (aw_Figures a)) (f64 100) |}.

Definition pct (total m : Z) : spec_float := if total =? 0 then f64 0 else fmul (fdiv (f64 m) (f64 total)) (f64 100).

Definition weekWithBreakdown (a : AnalyticsWeek) : AnalyticsAnswer :=
  let f := aw_Figures a in
  let entry name m color := {| be_Category := name; be_Minutes := m; be_Percentage := pct (fg_Total f) m; be_Color := color |} in
  WeekShown (newAnalyticsWeekResponse a)
    [entry "meeting" (fg_Meeting f) "#FF6B6B"; entry "focus" (fg_Focus f) "#5B7FFF"; entry "habit" (fg_Habit f) "#9B7AE0";
     entry "personal" (fg_Personal f) "#E9B949"; entry "free" (fg_Free f) "#B0BEC5"].

Definition week (date : string) (rows : list WeekRow) : AnalyticsAnswer * list WeekRow :=
  let '(r, rows') := ComputeWeek (parseDateParam date (an_now env)) rows in
  (match r with Ok (Some a) => weekWithBreakdown a | _ => AnError 500 end, rows').

Definition weeks_param (s : string) : Z :=
  match Atoi s with Some n => if (0 <? n) && (n <=? 52) then n else 8 | None => 8 end.

Definition trends (weeks : string) (rows : list WeekRow) : AnalyticsAnswer :=
  match ListAnalyticsTrends user (weeks_param weeks) rows with
  | Ok l => TrendsShown (map newAnalyticsWeekResponse l)
  | Err _ => AnError 500
  end.

Definition meetings (date : string) : AnalyticsAnswer :=
  match WeekMeetings (parseDateParam date (an_now env)) with
  | Ok l => MeetingsShown l
  | Err ErrCalendarNotConnected => NotConnected
  | Err _ => AnError 500
  end.

(** [recompute]: the answer, and the rows once the unit it starts has run. *)
Definition recompute (rows : list WeekRow) : AnalyticsAnswer * list WeekRow :=
  (RecomputeAccepted, snd (ForceCompute (an_now env) rows)).
End Engine.

(** ** What the sort and the driver promise *)

(** [sort.Slice] leaves the same elements, by decreasing key. *)
Definition sort_law (env : AnalyticsEnv) : Prop :=
  forall A (key : A -> Z) l, an_sort env A key l ≡ₚ l /\ StronglySorted (fun a b => key b <= key a) (an_sort env A key l).

(** The time the driver gives for a DATE is on that day. *)
Definition date_law (env : AnalyticsEnv) : Prop := forall d, DateOf (an_date env d) = civil_of_days d.

(** A step back of a day lands on the day before: the zone skips no day. *)
Definition steps_back (loc : Location) : Prop :=
  forall t, t_loc t = loc -> day_number (AddDate t 0 0 (-1)) = day_number t - 1.

(** ** Facts: weeks *)

Lemma UTC_steps_back : steps_back UTC.
Proof.
  intros [ns loc] E. cbn in E. subst loc. unfold day_number, AddDate. cbn [t_loc].
  rewrite local_sec_fraction by apply NanosecondOf_range. set (t := Time ns UTC).
  replace (local_sec (Date _ _ _ _ _ _ 0 UTC))
    with (naive_sec (c_year (DateOf t)) (c_month (DateOf t)) (c_day (DateOf t) + -1) (HourOf t) (MinuteOf t) (SecondOf t)).
  - pose proof (DateOf_month t). rewrite naive_sec_valid by lia. rewrite days_of_civil_next.
    unfold DateOf at 1 2 3. rewrite days_of_civil_of_days. unfold HourOf, MinuteOf, SecondOf, day_secs. dlia.
  - unfold local_sec, offset_of, unix_sec, Date. cbn [t_ns t_loc]. rewrite resolve_UTC, !Z.add_0_r.
    change (0 / Second) with 0. change (0 mod Second) with 0. rewrite ?Z.add_0_r. by rewrite Z.div_mul.
Qed.

Lemma AddDate_loc t y m d : t_loc (AddDate t y m d) = t_loc t.
Proof. done. Qed.

Lemma monday_from_spec loc fuel d : steps_back loc -> t_loc d = loc ->
  (day_number d + 3) mod 7 < Z.of_nat fuel ->
  t_loc (monday_from fuel d) = loc /\ day_number (monday_from fuel d) = day_number d - (day_number d + 3) mod 7.
Proof.
  intros Hs. revert d. induction fuel as [|k IH]; intros d Hd Hf; [pose proof (Z.mod_pos_bound (day_number d + 3) 7); lia|].
  cbn [monday_from]. unfold WeekdayOf. fold (day_number d). destruct (Z.eqb_spec ((day_number d + 4) mod 7) 1) as [E|E].
  - split; [done|]. assert ((day_number d + 3) mod 7 = 0) by dlia. lia.
  - specialize (Hs d Hd). destruct (IH (AddDate d 0 0 (-1))) as [Hl Hn]; [done| |split; [done|]].
    + rewrite Hs. assert ((day_number d - 1 + 3) mod 7 = (day_number d + 3) mod 7 - 1) as -> by dlia. lia.
    + rewrite Hn, Hs. assert ((day_number d - 1 + 3) mod 7 = (day_number d + 3) mod 7 - 1) as -> by dlia. lia.
Qed.

Lemma weekStartFor_at date : steps_back (t_loc date) -> midnights (t_loc date) ->
  at_day (t_loc date) (weekStartFor date) (day_number date - (day_number date + 3) mod 7).
Proof.
  intros Hs Hm. destruct (monday_from_spec (t_loc date) 7 date) as [Hl Hn]; [done..|pose proof (Z.mod_pos_bound (day_number date + 3) 7); lia|].
  unfold weekStartFor. rewrite Hl. split; [done|]. rewrite Hm by apply DateOf_month. f_equal.
  unfold DateOf. rewrite days_of_civil_of_days. exact Hn.
Qed.

Lemma at_day_number loc t n : at_day loc t n -> day_number t = n.
Proof. intros [_ H]. unfold day_number. rewrite H. apply Z.div_mul. done. Qed.

(** ** Facts: the loop over the calendar *)

Lemma total_app l k : total (l ++ k) = total l + total k.
Proof. induction l as [|x l IH]; cbn [total foldr app]; [done|]. unfold total in *. lia. Qed.

Lemma total_perm l k : l ≡ₚ k -> total l = total k.
Proof. induction 1; unfold total in *; cbn [foldr]; lia. Qed.

Lemma total_nonneg {A} (f : A -> Z) l : (forall x, x ∈ l -> 0 <= f x) -> 0 <= total (map f l).
Proof.
  induction l as [|x l IH]; intros H; cbn [map total foldr]; [done|].
  assert (0 <= f x) by (apply H; left). assert (0 <= total (map f l)) by (apply IH; intros y Hy; apply H; by right). unfold total in *. lia.
Qed.

Lemma total_keep_snoc {A} (f : A -> Z) p l x :
  total (map f (keep p (l ++ [x]))) = total (map f (keep p l)) + (if p x then f x else 0).
Proof.
  rewrite keep_app, List.map_app, total_app. unfold keep at 2. cbn [List.filter]. destruct (p x); cbn [map total foldr]; unfold total; cbn; lia.
Qed.

Lemma count_keep_snoc {A} p (l : list A) x :
  Z.of_nat (length (keep p (l ++ [x]))) = Z.of_nat (length (keep p l)) + (if p x then 1 else 0).
Proof.
  rewrite keep_app, length_app. unfold keep at 2. cbn [List.filter]. destruct (p x); cbn [length]; lia.
Qed.

Section Counting.
Context (local : Location) `{DateDriver} (env : AnalyticsEnv) (user : uuid) (ws we : time).

(** The events the loop counts, each with its minutes. *)
Definition counted (events : list Event) : list (Event * Z) :=
  omap (fun ev => option_map (pair ev) (counted_minutes local env user ws we ev)) events.

Definition is_meeting (p : Event * Z) : bool := 0 <? headcount (fst p).
Definition named (title : string) (p : Event * Z) : bool := is_meeting p && String.eqb (Summary (fst p)) title.

(** The minutes of all the counted meetings of a title. *)
Definition title_minutes (title : string) (c : list (Event * Z)) : Z := total (map snd (keep (named title) c)).

Lemma counted_snoc events ev :
  counted (events ++ [ev]) = counted events ++ match counted_minutes local env user ws we ev with Some d => [(ev, d)] | None => [] end.
Proof. unfold counted. rewrite omap_app. f_equal. cbn. by destruct (counted_minutes local env user ws we ev). Qed.

Lemma title_minutes_none x c : existsb (named x) c = false -> title_minutes x c = 0.
Proof.
  rewrite existsb_elem_false. intros Hx. unfold title_minutes. replace (keep (named x) c) with (@nil (Event * Z)); [done|].
  symmetry. apply elem_of_nil_inv. intros p [Hp Hn]%elem_of_keep. by rewrite Hx in Hn.
Qed.

(** What the tally holds of the events it has seen. *)
Record tallied (c : list (Event * Z)) (t : Tally) : Prop := {
  td_meeting : ty_Meeting t = total (map snd (keep is_meeting c));
  td_count : ty_Count t = Z.of_nat (length (keep is_meeting c));
  td_cost : ty_Cost t = total (map (fun p => snd p * headcount (fst p)) (keep is_meeting c));
  td_personal : ty_Personal t = total (map snd (keep (fun p => negb (is_meeting p)) c));
  td_titles : forall x, ty_Titles t !! x =
    if negb (String.eqb x "") && existsb (named x) c then Some (title_minutes x c) else None;
}.

Lemma tallied_step c t ev d : tallied c t -> counted_minutes local env user ws we ev = Some d ->
  tallied (c ++ [(ev, d)]) (count_event local env user ws we t ev).
Proof.
  intros [Hm Hc Hco Hp Ht] E.
  assert (Hi : is_meeting (ev, d) = (0 <? headcount ev)) by done.
  assert (Hn : forall x, named x (ev, d) = (0 <? headcount ev) && String.eqb (Summary ev) x) by done.
  unfold count_event. rewrite E.
  destruct (0 <? headcount ev); constructor; cbn [ty_Meeting ty_Count ty_Cost ty_Personal ty_Titles];
    rewrite ?total_keep_snoc, ?count_keep_snoc, ?Hi; cbn [negb fst snd]; try lia; intros x;
    unfold title_minutes; rewrite total_keep_snoc, existsb_app; cbn [existsb snd]; rewrite Hn, orb_false_r; cbn [andb].
  2: by rewrite Z.add_0_r.
  fold (title_minutes x c). destruct (String.eqb_spec (Summary ev) "") as [E0|E0].
  - rewrite Ht. destruct (String.eqb_spec x "") as [->|Hx]; [done|]. destruct (String.eqb_spec (Summary ev) x) as [<-|_]; [done|].
    by rewrite orb_false_r, Z.add_0_r.
  - destruct (String.eqb_spec (Summary ev) x) as [<-|Hx].
    + rewrite lookup_insert_eq, Ht, orb_true_r. destruct (String.eqb_spec (Summary ev) ""); [done|]. cbn [negb andb].
      destruct (existsb (named (Summary ev)) c) eqn:Ex; [done|]. by rewrite title_minutes_none.
    + by rewrite lookup_insert_ne, Ht, orb_false_r, Z.add_0_r.
Qed.

Lemma tallied_all events : tallied (counted events) (fold_left (count_event local env user ws we) events no_tally).
Proof.
  induction events as [|ev events IH] using rev_ind.
  - constructor; try done. intros x. cbn. by rewrite andb_false_r.
  - rewrite fold_left_app, counted_snoc. cbn [fold_left]. destruct (counted_minutes local env user ws we ev) as [d|] eqn:E.
    + by apply tallied_step.
    + rewrite app_nil_r. unfold count_event at 1. by rewrite E.
Qed.
End Counting.

(** ** Facts: the table *)

Definition week_key (r : WeekRow) : uuid * Z := (wr_User r, wr_Day r).
Definition other_week (u : uuid) (day : Z) (r : WeekRow) : bool := negb (week_of u day r).

Lemma week_of_key u day r : week_of u day r = true <-> week_key r = (u, day).
Proof. unfold week_of, week_key. rewrite andb_true_iff, N.eqb_eq, Z.eqb_eq. split; [by intros [-> ->]|by intros [= -> ->]]. Qed.

Lemma Upsert_ok env u ws f rows r rows' : UpsertAnalyticsWeek env u ws f rows = (Ok r, rows') ->
  int4_columns f = true /\
  (exists row, List.find (week_of u (day_number ws)) rows' = Some row /\ r = Some (scan_week env row) /\
     week_key row = (u, day_number ws) /\ wr_Figures row = f /\ wr_ComputedAt row = an_now env) /\
  keep (other_week u (day_number ws)) rows' = keep (other_week u (day_number ws)) rows /\
  (NoDup (map week_key rows) -> NoDup (map week_key rows')).
Proof.
  unfold UpsertAnalyticsWeek. destruct (an_writable env); [|done]. destruct (int4_columns f); [|done]. cbn [andb]. intros [= <- <-].
  set (day := day_number ws). set (merge := refreshed f (an_now env)). set (new := {| wr_ID := an_id env |}).
  assert (Hk : forall x, week_key (merge x) = week_key x) by done.
  assert (Hn : week_of u day new = true) by (by apply week_of_key).
  assert (Hm : forall x, week_of u day x = true -> week_of u day (merge x) = true).
  { intros x. by rewrite !week_of_key, Hk. }
  split; [done|]. rewrite upsert_find by done. split; [|split].
  - exists (match List.find (week_of u day) rows with Some x => merge x | None => new end). split; [done|]. split; [done|].
    destruct (List.find (week_of u day) rows) as [x|] eqn:Ex; [|done]. apply find_some in Ex as [_ Ex%week_of_key]. by rewrite Hk.
  - apply upsert_keep; [|unfold other_week; by rewrite Hn]. intros x Hx. unfold other_week. by rewrite Hx, Hm.
  - apply upsert_NoDup; [done|]. intros x _ Ex. apply week_of_key. by rewrite Ex.
Qed.

Section Stored.
Context (local : Location) `{DateDriver} (env : AnalyticsEnv) (user : uuid).

Lemma compute_ok ws rows r rows' : compute local env user ws rows = (Ok r, rows') ->
  exists s, an_settings env = Ok s /\ UpsertAnalyticsWeek env user ws (week_figures local env user s ws) rows = (Ok r, rows').
Proof. unfold compute. destruct (an_settings env) as [s|]; [|done]. intros E. by exists s. Qed.

Lemma tally_of_calendar ws we events : calOpsForUser env = Ok tt -> an_events env ws we = Ok events ->
  tally local env user ws we = fold_left (count_event local env user ws we) events no_tally.
Proof. intros Ec Ee. unfold tally. by rewrite Ec, Ee. Qed.

(** Each tally is that of some list of events: none when the calendar cannot be
    read. *)
Lemma tally_events ws we : exists events, tallied (counted local env user ws we events) (tally local env user ws we) /\
  (calOpsForUser env = Ok tt -> forall l, an_events env ws we = Ok l -> events = l).
Proof.
  destruct (calOpsForUser env) as [[]|] eqn:Ec; [destruct (an_events env ws we) as [l|] eqn:Ee|].
  - exists l. split; [|intros _ k [= ->]; done]. rewrite (tally_of_calendar _ _ l) by done. apply tallied_all.
  - exists []. split; [|by intros _ k]. unfold tally. rewrite Ec, Ee. apply (tallied_all local env user ws we []).
  - exists []. split; [|done]. unfold tally. rewrite Ec. apply (tallied_all local env user ws we []).
Qed.
End Stored.

(** ** Facts: the focus blocks *)

Definition block_minutes (fb : FocusBlockRow) : Z := int_minutes (Sub (FB_End fb) (FB_Start fb)).

Lemma focusBlockMinutes_spec blocks :
  fst (focusBlockMinutes blocks) = total (map block_minutes blocks) /\
  snd (focusBlockMinutes blocks) = foldr Z.max 0 (map block_minutes blocks).
Proof.
  assert (G : forall acc, fst (fold_left count_block blocks acc) = fst acc + total (map block_minutes blocks) /\
    (0 <= snd acc -> snd (fold_left count_block blocks acc) = Z.max (snd acc) (foldr Z.max 0 (map block_minutes blocks)))).
  { induction blocks as [|fb blocks IH]; intros acc; cbn [fold_left map foldr]; [unfold total; cbn; lia|].
    destruct (IH (count_block acc fb)) as [-> H2]. unfold count_block in H2 |- *. fold (block_minutes fb) in H2 |- *. cbn [fst snd] in H2 |- *.
    split; [unfold total; cbn; lia|]. intros Hl. destruct (Z.ltb_spec (snd acc) (block_minutes fb)); rewrite H2; lia. }
  unfold focusBlockMinutes. destruct (G (0, 0)) as [-> ->]; [|done]. cbn [fst snd]. split; [lia|].
  apply Z.max_r. clear G. induction blocks as [|fb l IH]; cbn [map foldr]; lia.
Qed.

Lemma fold_max_le l : (forall x, x ∈ l -> 0 <= x) -> 0 <= foldr Z.max 0 l <= total l.
Proof.
  induction l as [|x l IH]; intros Hl; [done|]. cbn [foldr]. assert (0 <= x) by (apply Hl; left).
  assert (0 <= foldr Z.max 0 l <= total l) by (apply IH; intros y Hy; apply Hl; by right). change (total (x :: l)) with (x + total l). lia.
Qed.

(** ** Facts: the working minutes *)

(** The windows of a day are shorter than the largest column. *)
Definition short_days (s : Settings) : Prop := forall day, day_minutes s day < 2 ^ 31.

Lemma day_minutes_nonneg s day : 0 <= day_minutes s day.
Proof.
  unfold day_minutes. destruct (WorkWindow (Some s) day) as [[from to] [|]]; [|done]. cbv zeta.
  destruct (Z.ltb_spec 0 (wrap64 (hhmmToMinutes to - hhmmToMinutes from))); lia.
Qed.

Lemma wrapped_sum (f : Z -> Z) l acc : (forall i, 0 <= f i < 2147483648) -> 0 <= acc ->
  acc + 2147483648 * Z.of_nat (length l) < max_int64 ->
  fold_left (fun a i => wrap64 (a + f i)) l acc = acc + total (map f l).
Proof.
  intros Hf. revert acc. induction l as [|i l IH]; intros acc Ha Hl; cbn [fold_left map]; [unfold total; cbn; lia|].
  change (total (f i :: map f l)) with (f i + total (map f l)). cbn [length] in Hl. specialize (Hf i) as Hi.
  rewrite wrap64_small by (unfold min_int64, max_int64 in *; lia). rewrite IH; lia.
Qed.

Lemma working_minutes_spec s ws : short_days s ->
  let sum := total (map (fun i => day_minutes s (AddDate ws 0 0 i)) [0; 1; 2; 3; 4]) in
  working_minutes s ws = (if (sum =? 0) && negb (String.eqb (WH_Mode (WorkingHours s)) "by_day") then 2400 else sum) /\ 0 <= sum.
Proof.
  intros Hs. cbv zeta. unfold working_minutes.
  assert (Hd : forall i, 0 <= day_minutes s (AddDate ws 0 0 i) < 2147483648) by (intros i; split; [apply day_minutes_nonneg|apply Hs]).
  rewrite (wrapped_sum (fun i => day_minutes s (AddDate ws 0 0 i))) by (try done; unfold max_int64; cbn; lia).
  rewrite Z.add_0_l. set (sum := total _).
  assert (0 <= sum) by (apply total_nonneg; intros i _; apply Hd). split; [|done].
  replace (sum <=? 0) with (sum =? 0); [done|]. destruct (Z.eqb_spec sum 0), (Z.leb_spec sum 0); lia.
Qed.

Lemma focus_score_range focus meeting : 0 <= focus -> 0 <= meeting -> 0 <= focus_score focus meeting <= 100.
Proof.
  intros Hf Hm. unfold focus_score. destruct (Z.ltb_spec 0 (focus + meeting)) as [H|H]; [|lia]. cbv zeta.
  assert (0 <= Z.quot (focus * 100) (focus + meeting)) by (apply Z.quot_pos; lia).
  destruct (Z.ltb_spec 100 (Z.quot (focus * 100) (focus + meeting))); lia.
Qed.

Lemma int4_range f : int4_columns f = true ->
  Forall (fun x => - 2147483648 <= x < 2147483648)
    [fg_Total f; fg_Meeting f; fg_Focus f; fg_Habit f; fg_Buffer f; fg_Personal f; fg_Free f;
     fg_Count f; fg_Blocks f; fg_Largest f; fg_Score f; fg_Cost f].
Proof.
  intros Hf. unfold int4_columns in Hf. apply Forall_forall. intros x Hx. rewrite forallb_elem in Hf. specialize (Hf x Hx).
  unfold int4 in Hf. change (2 ^ 31) with 2147483648 in Hf. zbool. lia.
Qed.

Lemma week_figures_spec local `{DateDriver} env user s ws we : we = AddDate ws 0 0 7 ->
  int4_columns (week_figures local env user s ws) = true ->
  let f := week_figures local env user s ws in
  let t := tally local env user ws we in
  let planned := keep (has_status ["scheduled"; "completed"]) (habitOccurrencesForWeek env user ws we) in
  fg_Total f = working_minutes s ws /\ fg_Meeting f = ty_Meeting t /\ fg_Personal f = ty_Personal t /\ fg_Count f = ty_Count t /\
  fg_Cost f = ty_Cost t /\ fg_Focus f = total (map block_minutes (focus_of_week env user ws)) /\
  fg_Habit f = total (map occ_minutes planned) /\
  fg_Free f = Z.max 0 (fg_Total f - fg_Meeting f - fg_Focus f - fg_Habit f - fg_Personal f) /\
  fg_Titles f = top_titles env (ty_Titles t).
Proof.
  intros Hwe H4. apply int4_range in H4. revert H4. unfold week_figures. rewrite <- Hwe.
  destruct (focusBlockMinutes_spec (focus_of_week env user ws)) as [<- _].
  destruct (focusBlockMinutes (focus_of_week env user ws)) as [focus largest]. cbv zeta.
  generalize (working_minutes s ws), (tally local env user ws we), (total (map occ_minutes (keep (has_status ["scheduled"; "completed"]) (habitOccurrencesForWeek env user ws we)))).
  intros wk t habit. cbn [fg_Total fg_Meeting fg_Focus fg_Habit fg_Buffer fg_Personal fg_Free fg_Count fg_Blocks fg_Largest fg_Score fg_Cost fg_Titles fst].
  rewrite !Forall_cons. intros (H1 & H2 & H3 & H4 & _ & H6 & _). do 7 (split; [done|]). split; [|done].
  rewrite wrap64_small by (unfold min_int64, max_int64; lia). destruct (Z.ltb_spec (wk - ty_Meeting t - focus - habit - ty_Personal t) 0); lia.
Qed.

(** An event counts with [d] minutes: it has two readable times, lasts [d]
    minutes, touches the week, and is no focus block and no habit. *)
Definition counts (local : Location) `{DateDriver} (env : AnalyticsEnv) (user : uuid) (ws we : time) (ev : Event) (d : Z) : Prop :=
  timed ev = true /\ (exists s e, parseEventTime local ev = (s, e) /\ IsZero s = false /\ IsZero e = false /\
    t_ns ws <= t_ns e /\ t_ns s <= t_ns we /\ d = int_minutes (Sub e s) /\ 0 < d) /\
  (forall fb, fb ∈ focus_of_week env user ws -> FB_Event fb <> ev_Id ev) /\
  (forall o, o ∈ habitOccurrencesForWeek env user ws we -> O_Event o = "" \/ O_Event o <> ev_Id ev).

Lemma counted_elsewhere_false `{DateDriver} env user ws we id : counted_elsewhere env user ws we id = false <->
  (forall fb, fb ∈ focus_of_week env user ws -> FB_Event fb <> id) /\
  (forall o, o ∈ habitOccurrencesForWeek env user ws we -> O_Event o = "" \/ O_Event o <> id).
Proof.
  unfold counted_elsewhere. rewrite orb_false_iff. rewrite existsb_elem_false. rewrite existsb_elem_false.
  setoid_rewrite andb_false_iff. setoid_rewrite negb_false_iff. setoid_rewrite String.eqb_eq. by setoid_rewrite String.eqb_neq.
Qed.

Lemma counted_minutes_Some local `{DateDriver} env user ws we ev d :
  counted_minutes local env user ws we ev = Some d <-> counts local env user ws we ev d.
Proof.
  unfold counts, counted_minutes. rewrite <- (counted_elsewhere_false env user ws we (ev_Id ev)).
  destruct (timed ev); [|by split; [|intros [? _]]]. cbn [negb]. destruct (parseEventTime local ev) as [s e]. cbv zeta. split.
  - destruct (IsZero s || IsZero e) eqn:Ez; [done|]. destruct (Before e ws || After s we) eqn:Ew; [done|].
    destruct (_ <=? 0) eqn:E0; [done|]. destruct (counted_elsewhere _ _ _ _ _); [done|]. intros [= <-].
    apply orb_false_iff in Ez as [Ez1 Ez2]. apply orb_false_iff in Ew as [Ew1%Before_ge Ew2%After_ge]. apply Z.leb_gt in E0.
    split; [done|]. split; [|done]. by exists s, e.
  - intros (_ & (s' & e' & [= <- <-] & -> & -> & Hw & Hs & -> & Hd) & ->). cbn [orb].
    apply Before_ge in Hw as ->. apply After_ge in Hs as ->. cbn [orb]. by apply Z.leb_gt in Hd as ->.
Qed.

Lemma elem_of_counted local `{DateDriver} env user ws we events ev d :
  (ev, d) ∈ counted local env user ws we events <-> ev ∈ events /\ counts local env user ws we ev d.
Proof.
  unfold counted. rewrite list_elem_of_omap, <- counted_minutes_Some. split.
  - intros (ev' & Hin & E). destruct (counted_minutes local env user ws we ev') eqn:Ec; [|done]. by injection E as -> ->.
  - intros [Hin E]. exists ev. split; [done|]. by rewrite E.
Qed.

(** ** Facts: the titles *)

Lemma top_titles_spec env titles : sort_law env ->
  let l := top_titles env titles in
  (length l <= 5)%nat /\ NoDup (map tt_Title l) /\ StronglySorted (fun a b => tt_Minutes b <= tt_Minutes a) l /\
  (forall t, t ∈ l -> titles !! tt_Title t = Some (tt_Minutes t)) /\
  (forall x m, titles !! x = Some m -> (exists t, t ∈ l /\ tt_Title t = x) \/
     (length l = 5%nat /\ forall t, t ∈ l -> m <= tt_Minutes t)).
Proof.
  intros Hl. cbv zeta. unfold top_titles. destruct (Hl _ snd (map_to_list titles)) as [Hp Hs].
  set (sorted := an_sort env _ snd (map_to_list titles)) in *.
  assert (Hn : NoDup (map fst sorted)).
  { rewrite (Permutation_map fst Hp). apply NoDup_fst_map_to_list. }
  rewrite <- (take_drop 5 sorted) in Hs, Hn. rewrite List.map_app in Hn. apply NoDup_app in Hn as (Hn & _ & _).
  set (top := take 5 sorted) in *. set (mk := fun p : string * Z => _).
  assert (Et : map tt_Title (map mk top) = map fst top) by (by rewrite map_map).
  assert (Elen : length (map mk top) = length top) by apply length_map. rewrite Et, Elen. split; [|split; [done|split; [|split]]].
  - unfold top. rewrite length_take. lia.
  - apply StronglySorted_app_1_l in Hs. clear Hn Et Elen. induction Hs as [|p l Hs IH Hf]; cbn; [constructor|]. constructor; [done|].
    apply Forall_forall. intros t (q & -> & Hq)%list_elem_of_fmap. rewrite Forall_forall in Hf. by apply (Hf q).
  - intros t ([x m] & -> & Hin)%list_elem_of_fmap. cbn. apply elem_of_map_to_list. rewrite <- Hp, <- (take_drop 5 sorted). apply elem_of_app. by left.
  - intros x m Hx%elem_of_map_to_list. rewrite <- Hp, <- (take_drop 5 sorted), elem_of_app in Hx. destruct Hx as [Hx|Hx].
    + left. exists (mk (x, m)). split; [|done]. by apply (list_elem_of_fmap_2 mk _ (x, m)).
    + right. assert (length top = 5%nat) as Hfive.
      { unfold top. rewrite length_take. apply list_elem_of_lookup in Hx as (i & Hi%lookup_lt_Some). rewrite length_drop in Hi. lia. }
      split; [done|]. intros t ([y k] & -> & Hy)%list_elem_of_fmap. cbn. by apply (StronglySorted_app_cross _ _ _ (y, k) (x, m) Hs).
Qed.

Lemma span_nonneg s e : t_ns s <= t_ns e -> 0 <= int_minutes (Sub e s).
Proof. intros Hse. assert (0 <= Sub e s) by (unfold Sub; apply clamp64_nonneg; lia). rewrite int_minutes_nonneg by done. by apply Z.div_pos. Qed.

Lemma figures_rest local `{DateDriver} env user s ws :
  let f := week_figures local env user s ws in
  fg_Largest f = foldr Z.max 0 (map block_minutes (focus_of_week env user ws)) /\ fg_Score f = focus_score (fg_Focus f) (fg_Meeting f) /\
  fg_Buffer f = 0 /\ fg_Blocks f = Z.of_nat (length (focus_of_week env user ws)) /\
  exists completed scheduled, 0 <= completed <= scheduled /\
    fg_Rate f = if 0 <? scheduled then fdiv (f64 completed) (f64 scheduled) else f64 0.
Proof.
  cbv zeta. unfold week_figures. destruct (focusBlockMinutes_spec (focus_of_week env user ws)) as [_ <-].
  destruct (focusBlockMinutes (focus_of_week env user ws)). cbv zeta. cbn [fg_Largest fg_Score fg_Buffer fg_Blocks fg_Focus fg_Meeting fg_Rate snd].
  split_and!; [done..|]. eexists _, _. split; [|reflexivity]. split; [lia|].
  rewrite <- (keep_keep_same (has_status ["completed"]) (has_status ["scheduled"; "completed"])).
  - apply inj_le, sublist_length, keep_sublist.
  - intros o. unfold has_status. cbn [existsb]. rewrite orb_false_r. intros ->. by rewrite orb_true_r.
Qed.

(** An event the calendar gives in good form: two times, a minute or more
    apart, within the week. *)
Definition well_formed (local : Location) (ws we : time) (ev : Event) : Prop :=
  timed ev = true -> exists s e, parseEventTime local ev = (s, e) /\ IsZero s = false /\ IsZero e = false /\
    t_ns ws <= t_ns e /\ t_ns s <= t_ns we /\ 0 < int_minutes (Sub e s).

Definition start_text (local : Location) (ev : Event) : string := FormatRFC3339 (fst (parseEventTime local ev)).

Definition meeting_of (local : Location) (p : Event * Z) : WeekMeeting :=
  {| wm_Title := Summary (fst p); wm_Minutes := snd p; wm_Attendees := headcount (fst p); wm_Start := start_text local (fst p) |}.

Lemma listed_event local `{DateDriver} env user ws we ev : well_formed local ws we ev ->
  listed_meeting local env user ws we ev =
  match counted_minutes local env user ws we ev with
  | Some d => if is_meeting (ev, d) then Some (meeting_of local (ev, d)) else None
  | None => None
  end.
Proof.
  unfold well_formed, listed_meeting, counted_minutes, is_meeting, meeting_of, start_text. cbn [fst snd].
  destruct (timed ev); [|done]. intros Hw. destruct (Hw eq_refl) as (s & e & -> & -> & -> & H1%Before_ge & H2%After_ge & H3). cbn [negb orb fst].
  rewrite H1, H2. cbn [orb]. cbv zeta. apply Z.leb_gt in H3 as ->. assert (0 <= headcount ev) by (unfold headcount; lia).
  destruct (Z.eqb_spec (headcount ev) 0), (Z.ltb_spec 0 (headcount ev)), (counted_elsewhere env user ws we (ev_Id ev)); (done || lia).
Qed.

Lemma listed_counted local `{DateDriver} env user ws we events :
  (forall ev, ev ∈ events -> well_formed local ws we ev) ->
  omap (listed_meeting local env user ws we) events =
  map (meeting_of local) (keep is_meeting (counted local env user ws we events)).
Proof.
  induction events as [|ev events IH] using rev_ind; intros Hw; [done|].
  rewrite omap_app, counted_snoc, keep_app, List.map_app, IH by (intros x Hx; apply Hw, elem_of_app; by left). f_equal.
  cbn [omap list_omap]. rewrite listed_event by (apply Hw, elem_of_app; right; left).
  destruct (counted_minutes local env user ws we ev) as [d|]; [|done]. unfold keep. cbn [List.filter]. by destruct (is_meeting (ev, d)).
Qed.

Lemma DateOf_calendarDate t : DateOf (calendarDate t) = DateOf t.
Proof.
  unfold calendarDate. unfold DateOf at 1. rewrite UTC_midnights by apply DateOf_month. rewrite Z.div_mul by done.
  rewrite civil_of_days_of_civil; [by destruct (DateOf t)|]. pose proof (DateOf_range t). by destruct (DateOf t).
Qed.

(** Why a week has no answer. *)
Definition unanswered (local : Location) `{DateDriver} (env : AnalyticsEnv) (user : uuid) (ws : time) : Prop :=
  an_readable env = false \/ an_writable env = false \/ (exists e, an_settings env = Err e) \/
  exists s, an_settings env = Ok s /\ int4_columns (week_figures local env user s ws) = false.

Lemma compute_cases local `{DateDriver} env user ws rows r rows' : compute local env user ws rows = (r, rows') ->
  (exists row, r = Ok (Some (scan_week env row)) /\ row ∈ rows' /\ week_key row = (user, day_number ws)) \/
  ((exists e, r = Err e) /\ rows' = rows /\ unanswered local env user ws).
Proof.
  unfold compute, unanswered. destruct (an_settings env) as [s|e] eqn:Es; intros E.
  - remember (week_figures local env user s ws) as f eqn:Hf. destruct r as [r|e].
    + apply Upsert_ok in E as (_ & (row & Hrow & -> & Hk & _) & _). apply find_some in Hrow as [Hin _]. left. exists row.
      split; [done|]. split; [by apply list_elem_of_In|done].
    + right. split; [by exists e|]. unfold UpsertAnalyticsWeek in E. destruct (an_writable env); [|injection E as _ <-; auto].
      destruct (int4_columns f) eqn:Ei; cbn [andb] in E; [done|]. injection E as _ <-. split; [done|]. right; right; right. exists s. by rewrite <- Hf.
  - injection E as <- <-. right. split; [by exists e|]. split; [done|]. right; right; left. by exists e.
Qed.

Lemma ComputeWeek_cases local `{DateDriver} env user date rows r rows' : ComputeWeek local env user date rows = (r, rows') ->
  (exists row, r = Ok (Some (scan_week env row)) /\ row ∈ rows' /\ week_key row = (user, day_number (weekStartFor date))) \/
  ((exists e, r = Err e) /\ rows' = rows /\ unanswered local env user (weekStartFor date)).
Proof.
  unfold ComputeWeek. generalize (weekStartFor date). intros ws. cbv zeta. unfold GetAnalyticsWeek.
  destruct (an_readable env) eqn:Er; [|intros [= <- <-]; right; split; [by eexists|]; split; [done|by left]].
  destruct (List.find (week_of user (day_number ws)) rows) as [row|] eqn:E; cbn [option_map]; [destruct (After _ _)|];
    [intros [= <- <-]|apply compute_cases..].
  apply find_some in E as [Hin Hk%week_of_key]. left. exists row. split; [done|]. split; [by apply list_elem_of_In|done].
Qed.

(** ** Properties *)

(** An event that lasts [d] minutes, one or more, and touches the week; an event
    without readable times, a whole day for instance, does not. *)
Definition lasts (local : Location) (ws : time) (ev : Event) (d : Z) : Prop :=
  timed ev = true /\ exists s e, parseEventTime local ev = (s, e) /\ IsZero s = false /\ IsZero e = false /\
    t_ns ws <= t_ns e /\ t_ns s <= t_ns (AddDate ws 0 0 7) /\ d = int_minutes (Sub e s) /\ 0 < d.

(** An occurrence of one of the user's habits, dated from the Monday of the week to
    the next Monday, that one included. *)
Definition occurrence_read `{DateDriver} (env : AnalyticsEnv) (user : uuid) (ws : time) (o : HabitOccurrence) : Prop :=
  exists habits h occs, an_habits env = Ok habits /\ h ∈ ListHabitsByUser habits user /\ an_occs env (H_ID h) = Ok occs /\
    o ∈ ListHabitOccurrences occs (H_ID h) ws (AddDate ws 0 0 7).

(** The event of a focus block, or of a habit that was held or is still to be. *)
Definition planned_event `{DateDriver} (env : AnalyticsEnv) (user : uuid) (ws : time) (id : string) : Prop :=
  (exists fb, fb ∈ focus_of_week env user ws /\ FB_Event fb = id) \/
  (id <> "" /\ exists o, occurrence_read env user ws o /\ O_Event o = id /\ (O_Status o = "scheduled" \/ O_Status o = "completed")).

Lemma occurrences_read `{DateDriver} env user ws o :
  o ∈ habitOccurrencesForWeek env user ws (AddDate ws 0 0 7) <-> occurrence_read env user ws o.
Proof.
  unfold habitOccurrencesForWeek, occurrence_read. destruct (an_habits env) as [habits|] eqn:Eh.
  - rewrite elem_of_flat_map. split.
    + intros (h & Hh & Ho). destruct (an_occs env (H_ID h)) as [occs|] eqn:Eo; [by exists habits, h, occs|by apply not_elem_of_nil in Ho].
    + intros (habits' & h & occs & [= <-] & Hh & Eo & Ho). exists h. by rewrite Eo.
  - split; [by intros ?%not_elem_of_nil|by intros (? & ? & ? & ? & _)].
Qed.

Lemma counted_sublist local `{DateDriver} env user ws we events :
  map fst (counted local env user ws we events) `sublist_of` events.
Proof.
  induction events as [|ev events IH]; [constructor|]. unfold counted in *. cbn [omap list_omap].
  destruct (counted_minutes local env user ws we ev); cbn [option_map map fst]; by constructor.
Qed.

(** C25: The meeting figures of a stored week account for its calendar.  The
    calendar was read, and no event of it belongs to a habit occurrence that was
    skipped or displaced (such an event is in no figure, see
    [skipped_habit_counts_nowhere]).  Then the events counted are exactly those
    of the calendar that last a minute or more and touch the week and are not the
    event of a focus block or of a habit of the week, each once: with guests it is
    a meeting, whose minutes, number and minutes per guest add up to the figures,
    otherwise its minutes are personal time. *)
Theorem meetings_account_for_the_calendar local `{DateDriver} env user ws rows w rows' events :
  calOpsForUser env = Ok tt -> an_events env ws (AddDate ws 0 0 7) = Ok events ->
  (forall o ev, occurrence_read env user ws o -> ev ∈ events -> O_Event o = ev_Id ev ->
     O_Event o = "" \/ O_Status o = "scheduled" \/ O_Status o = "completed") ->
  compute local env user ws rows = (Ok (Some w), rows') ->
  let f := aw_Figures w in
  exists c : list (Event * Z),
    map fst c `sublist_of` events /\
    (forall ev d, (ev, d) ∈ c <-> ev ∈ events /\ lasts local ws ev d /\ ~ planned_event env user ws (ev_Id ev)) /\
    let meetings := keep (fun p => 0 <? headcount (fst p)) c in
    fg_Meeting f = total (map snd meetings) /\
    fg_Count f = Z.of_nat (length meetings) /\
    fg_Cost f = total (map (fun p => snd p * headcount (fst p)) meetings) /\
    fg_Personal f = total (map snd (keep (fun p => headcount (fst p) =? 0) c)).
Proof.
  intros Ec Ee Hocc Ew. cbv zeta. apply compute_ok in Ew as (s & Es & Hu). apply Upsert_ok in Hu as (H4 & (row & _ & [= ->] & _ & Hf & _) & _).
  unfold scan_week. cbn [aw_Figures]. rewrite Hf. clear Hf Es row rows rows'.
  destruct (week_figures_spec local env user s ws _ eq_refl H4) as (_ & -> & -> & -> & -> & _).
  rewrite (tally_of_calendar local env user ws _ events) by done.
  destruct (tallied_all local env user ws (AddDate ws 0 0 7) events) as [-> -> -> -> _].
  exists (counted local env user ws (AddDate ws 0 0 7) events). split; [apply counted_sublist|]. split; [|split_and!; try done].
  - intros ev d. rewrite elem_of_counted. unfold counts, lasts, planned_event. split.
    + intros (Hin & Ht & Hd & Hfo & Hha). split; [done|]. split; [by split|]. intros [(fb & Hfb & E)|(Hne & o & Ho & E & _)]; [by apply (Hfo fb)|].
      rewrite <- occurrences_read in Ho. destruct (Hha o Ho) as [E'|E']; congruence.
    + intros (Hin & [Ht Hd] & Hp). split_and!; [done|done|done| |].
      * intros fb Hfb E. apply Hp. left. by exists fb.
      * intros o Ho. destruct (decide (O_Event o = "")) as [|Hne]; [by left|right]. intros E. apply Hp. right.
        rewrite occurrences_read in Ho. split; [congruence|]. exists o. split_and!; [done|done|].
        destruct (Hocc o ev Ho Hin E) as [?|?]; [done|done].
  - unfold keep. do 2 f_equal. apply List.filter_ext. intros p. unfold is_meeting.
    assert (0 <= headcount (fst p)) by (unfold headcount; lia). destruct (Z.ltb_spec 0 (headcount (fst p))), (Z.eqb_spec (headcount (fst p)) 0); done || lia.
Qed.

(** C26: With blocks and habit occurrences that end after they start, and working
    days shorter than 2^31 minutes, every figure of a stored week is at least
    zero: the working, meeting, focus, habit, buffer, personal and free minutes,
    the numbers of meetings and blocks, and the cost.  The longest block is part of
    the focus time, the score is a percentage, and the completion rate is the
    quotient of a number of completed habits by a number of scheduled ones that
    is no less, or zero when there is none.  The parts of the week make up its
    working time, and exactly that when any of it is free. *)
Theorem figures_stay_in_bounds local `{DateDriver} env user ws rows w rows' :
  (forall s, an_settings env = Ok s -> short_days s) ->
  (forall fb, fb ∈ focus_of_week env user ws -> t_ns (FB_Start fb) <= t_ns (FB_End fb)) ->
  (forall o, o ∈ habitOccurrencesForWeek env user ws (AddDate ws 0 0 7) -> t_ns (O_Start o) <= t_ns (O_End o)) ->
  compute local env user ws rows = (Ok (Some w), rows') ->
  let f := aw_Figures w in
  let parts := fg_Meeting f + fg_Focus f + fg_Habit f + fg_Personal f in
  0 <= fg_Total f /\ 0 <= fg_Meeting f /\ 0 <= fg_Habit f /\ 0 <= fg_Buffer f /\ 0 <= fg_Personal f /\ 0 <= fg_Free f /\
  0 <= fg_Count f /\ 0 <= fg_Blocks f /\ 0 <= fg_Cost f /\
  0 <= fg_Largest f <= fg_Focus f /\ 0 <= fg_Score f <= 100 /\
  (exists completed scheduled, 0 <= completed <= scheduled /\
     fg_Rate f = if 0 <? scheduled then fdiv (f64 completed) (f64 scheduled) else f64 0) /\
  fg_Total f <= parts + fg_Free f /\ (0 < fg_Free f -> fg_Total f = parts + fg_Free f).
Proof.
  intros Hd Hb Ho Ew. apply compute_ok in Ew as (s & Es & Hu). apply Upsert_ok in Hu as (H4 & (row & _ & [= ->] & _ & Hf & _) & _).
  unfold scan_week. cbn [aw_Figures]. rewrite Hf. clear Hf row rows rows'. specialize (Hd s Es). remember (AddDate ws 0 0 7) as we eqn:Hwe.
  destruct (week_figures_spec local env user s ws we Hwe H4) as (Ht & Hm & Hp & Hct & Hco & Hfo & Hh & Hfr & _).
  destruct (figures_rest local env user s ws) as (Hlg & Hsc & Hbu & Hbl & Hrt). destruct (tally_events local env user ws we) as (events & [Tm Tc Tco Tp _] & _).
  destruct (working_minutes_spec s ws Hd) as [Hw Hsum]. cbv zeta in *.
  assert (Hc : forall p, p ∈ counted local env user ws we events -> 0 <= snd p).
  { intros [ev d] (_ & _ & (s' & e' & _ & _ & _ & _ & _ & _ & Hpos) & _)%elem_of_counted. cbn. lia. }
  assert (Hm0 : 0 <= fg_Meeting (week_figures local env user s ws)).
  { rewrite Hm, Tm. apply total_nonneg. intros p [Hin _]%elem_of_keep. by apply Hc. }
  assert (Hp0 : 0 <= fg_Personal (week_figures local env user s ws)).
  { rewrite Hp, Tp. apply total_nonneg. intros p [Hin _]%elem_of_keep. by apply Hc. }
  assert (Hh0 : 0 <= fg_Habit (week_figures local env user s ws)).
  { rewrite Hh. apply total_nonneg. intros o [Hin _]%elem_of_keep. apply span_nonneg. by apply Ho. }
  destruct (fold_max_le (map block_minutes (focus_of_week env user ws))) as [Hl1 Hl2].
  { intros x (fb & -> & Hin)%list_elem_of_fmap. apply span_nonneg. by apply Hb. }
  rewrite <- Hlg in Hl1, Hl2. rewrite <- Hfo in Hl2.
  assert (Ht0 : 0 <= fg_Total (week_figures local env user s ws)).
  { rewrite Ht, Hw. destruct (_ && _); [done|exact Hsum]. }
  assert (Hco0 : 0 <= fg_Cost (week_figures local env user s ws)).
  { rewrite Hco, Tco. apply total_nonneg. intros p [Hin _]%elem_of_keep. specialize (Hc p Hin). unfold headcount. lia. }
  assert (Hsc0 : 0 <= fg_Score (week_figures local env user s ws) <= 100) by (rewrite Hsc; apply focus_score_range; lia).
  rewrite Hct, Tc, Hbu, Hbl. split_and!; try done; try lia.
Qed.

(** The titles that are kept are at most five, different, the longest first;
    each carries the minutes of all the meetings it names, and a title that is
    left out names no more minutes than any of the five. *)
Theorem top_titles_exact local `{DateDriver} env user ws rows w rows' events :
  sort_law env -> calOpsForUser env = Ok tt -> an_events env ws (AddDate ws 0 0 7) = Ok events ->
  compute local env user ws rows = (Ok (Some w), rows') ->
  let l := fg_Titles (aw_Figures w) in
  let c := counted local env user ws (AddDate ws 0 0 7) events in
  (length l <= 5)%nat /\ NoDup (map tt_Title l) /\ StronglySorted (fun a b => tt_Minutes b <= tt_Minutes a) l /\
  (forall t, t ∈ l -> tt_Title t <> "" /\ existsb (named (tt_Title t)) c = true /\ tt_Minutes t = title_minutes (tt_Title t) c) /\
  (forall p, p ∈ c -> is_meeting p = true -> Summary (fst p) <> "" ->
     (exists t, t ∈ l /\ tt_Title t = Summary (fst p)) \/
     (length l = 5%nat /\ forall t, t ∈ l -> title_minutes (Summary (fst p)) c <= tt_Minutes t)).
Proof.
  intros Hl Ec Ee Ew. apply compute_ok in Ew as (s & Es & Hu). apply Upsert_ok in Hu as (H4 & (row & _ & [= ->] & _ & Hf & _) & _).
  unfold scan_week. cbn [aw_Figures]. rewrite Hf. clear Hf row rows rows'. remember (AddDate ws 0 0 7) as we eqn:Hwe.
  destruct (week_figures_spec local env user s ws we Hwe H4) as (_ & _ & _ & _ & _ & _ & _ & _ & ->).
  rewrite (tally_of_calendar local env user ws we events) by done.
  destruct (tallied_all local env user ws we events) as [_ _ _ _ Ht]. set (c := counted local env user ws we events) in *.
  destruct (top_titles_spec env (ty_Titles (fold_left (count_event local env user ws we) events no_tally)) Hl) as (H1 & H2 & H3 & H5 & H6).
  cbv zeta in *. split; [done|]. split; [done|]. split; [done|]. split.
  - intros t Hin. specialize (H5 t Hin). rewrite Ht in H5. destruct (String.eqb_spec (tt_Title t) ""); [done|]. cbn [negb andb] in H5.
    destruct (existsb (named (tt_Title t)) c); [|done]. by injection H5 as ->.
  - intros p Hin Hm Hs. destruct (H6 (Summary (fst p)) (title_minutes (Summary (fst p)) c)) as [? | [Hn Hx]]; [|by left|by right].
    rewrite Ht. destruct (String.eqb_spec (Summary (fst p)) ""); [done|]. cbn [negb andb].
    replace (existsb (named (Summary (fst p))) c) with true; [done|]. symmetry. apply existsb_elem. exists p. split; [done|].
    unfold named. by rewrite Hm, String.eqb_refl.
Qed.

(** A week that was computed is served from its row for a day: whoever asks for
    a date of the same week within 24 hours gets the same figures and changes
    nothing; once the day is over, the figures are those of the tables and the
    calendar of the moment. *)
Theorem week_is_computed_once_a_day local `{DateDriver} env user date rows w rows' :
  ComputeWeek local env user date rows = (Ok (Some w), rows') ->
  forall env' date', an_readable env' = true -> an_date env' = an_date env ->
  day_number (weekStartFor date') = day_number (weekStartFor date) ->
  (t_ns (an_now env') < t_ns (aw_ComputedAt w) + 24 * Hour ->
     ComputeWeek local env' user date' rows' = (Ok (Some w), rows')) /\
  (t_ns (aw_ComputedAt w) + 24 * Hour <= t_ns (an_now env') ->
     ComputeWeek local env' user date' rows' = ForceCompute local env' user date' rows').
Proof.
  intros Ew env' date' Hr Hd Hday.
  assert (exists row, List.find (week_of user (day_number (weekStartFor date))) rows' = Some row /\ w = scan_week env row) as (row & Hrow & ->).
  { unfold ComputeWeek, GetAnalyticsWeek in Ew. destruct (an_readable env); [|done].
    destruct (List.find (week_of user (day_number (weekStartFor date))) rows) as [row|] eqn:Erow; cbn [option_map] in Ew; [destruct (After _ _)|].
    - injection Ew as <- <-. by exists row.
    - apply compute_ok in Ew as (s & _ & Hu). apply Upsert_ok in Hu as (_ & (row' & Hrow & [= ->] & _) & _). by exists row'.
    - apply compute_ok in Ew as (s & _ & Hu). apply Upsert_ok in Hu as (_ & (row' & Hrow & [= ->] & _) & _). by exists row'. }
  unfold ForceCompute, ComputeWeek, GetAnalyticsWeek. rewrite Hr, Hday, Hrow. cbn [option_map].
  assert (Es : scan_week env' row = scan_week env row) by (unfold scan_week; by rewrite Hd). rewrite Es. split; intros Ht.
  - replace (After (aw_ComputedAt (scan_week env row)) (Add (an_now env') (- (24 * Hour)))) with true; [done|].
    symmetry. apply After_lt. unfold Add. cbn [t_ns]. lia.
  - replace (After (aw_ComputedAt (scan_week env row)) (Add (an_now env') (- (24 * Hour)))) with false; [done|].
    symmetry. apply After_ge. unfold Add. cbn [t_ns]. lia.
Qed.

(** Every date belongs to the week of the Monday on or before it, at most six
    days back, and two dates of one week start it at the same instant. *)
Theorem weeks_start_on_monday date :
  steps_back (t_loc date) -> midnights (t_loc date) ->
  let ws := weekStartFor date in
  WeekdayOf ws = 1 /\ local_sec ws mod day_secs = 0 /\ t_loc ws = t_loc date /\
  day_number ws <= day_number date < day_number ws + 7 /\
  (forall date', t_loc date' = t_loc date -> day_number ws <= day_number date' < day_number ws + 7 -> weekStartFor date' = ws).
Proof.
  intros Hs Hm. cbv zeta. pose proof (weekStartFor_at date Hs Hm) as Ha. pose proof Ha as [Hl Hn].
  pose proof (at_day_number _ _ _ Ha) as Hd. assert (0 <= (day_number date + 3) mod 7 < 7) by dlia.
  split; [|split; [|split; [done|split; [rewrite Hd; lia|]]]].
  - rewrite (at_day_weekday _ _ _ Ha). dlia.
  - rewrite Hn. apply Z.mod_mul. done.
  - intros date' Hloc Hin. rewrite Hd in Hin.
    assert (E : day_number date' - (day_number date' + 3) mod 7 = day_number date - (day_number date + 3) mod 7) by dlia.
    destruct (monday_from_spec (t_loc date) 7 date) as [Hl1 Hn1]; [done..|lia|].
    destruct (monday_from_spec (t_loc date) 7 date') as [Hl2 Hn2]; [done..|pose proof (Z.mod_pos_bound (day_number date' + 3) 7); lia|].
    unfold weekStartFor. rewrite Hl1, Hl2. unfold DateOf. fold (day_number (monday_from 7 date)) (day_number (monday_from 7 date')).
    by rewrite Hn1, Hn2, E.
Qed.

(** The meetings that are listed are those of the figures: as many, and of as
    many minutes, the longest first. *)
Theorem meetings_add_up_to_the_figures local `{DateDriver} env user date rows w rows' events l :
  sort_law env ->
  let ws := weekStartFor date in
  an_events env ws (AddDate ws 0 0 7) = Ok events ->
  (forall ev, ev ∈ events -> well_formed local ws (AddDate ws 0 0 7) ev) ->
  ForceCompute local env user date rows = (Ok (Some w), rows') -> WeekMeetings local env user date = Ok l ->
  total (map wm_Minutes l) = fg_Meeting (aw_Figures w) /\ Z.of_nat (length l) = fg_Count (aw_Figures w) /\
  total (map (fun m => wm_Minutes m * wm_Attendees m) l) = fg_Cost (aw_Figures w) /\
  StronglySorted (fun a b => wm_Minutes b <= wm_Minutes a) l.
Proof.
  intros Hl ws Ee Hw Ew Em. unfold ForceCompute in Ew. unfold WeekMeetings in Em. fold ws in Ew, Em. cbv zeta in Em.
  destruct (calOpsForUser env) as [[]|] eqn:Ec; [|done]. cbn [rbind] in Em. rewrite Ee in Em. cbn [rbind] in Em. injection Em as <-.
  clearbody ws. apply compute_ok in Ew as (s & Es & Hu). apply Upsert_ok in Hu as (H4 & (row & _ & [= ->] & _ & Hf & _) & _).
  unfold scan_week. cbn [aw_Figures]. rewrite Hf. clear Hf row rows rows'. remember (AddDate ws 0 0 7) as we eqn:Hwe.
  destruct (week_figures_spec local env user s ws we Hwe H4) as (_ & -> & _ & -> & -> & _).
  rewrite (tally_of_calendar local env user ws we events) by done. destruct (tallied_all local env user ws we events) as [-> -> -> _ _].
  destruct (Hl _ wm_Minutes (omap (listed_meeting local env user ws we) events)) as [Hp Hs].
  rewrite (total_perm _ _ (Permutation_map wm_Minutes Hp)), (Permutation_length Hp),
    (total_perm _ _ (Permutation_map (fun m => wm_Minutes m * wm_Attendees m) Hp)).
  rewrite (listed_counted local env user ws we events Hw) in Hs |- *. rewrite !map_map, length_map. by split_and!.
Qed.

(** The answer of [/api/analytics/week] names the Monday of the week that was
    asked for, whatever row it was read from, and breaks down the figures of the
    caller's own row; its only error is a table or settings that cannot be read
    or written, or a figure that no column holds. *)
Theorem week_answers_its_monday local `{DateDriver} env user q rows a rows' :
  date_law env -> week local env user q rows = (a, rows') ->
  let ws := weekStartFor (parseDateParam q (an_now env)) in
  match a with
  | WeekShown r l =>
      ws_WeekStart r = FormatDateOnly ws /\ aw_User (ws_Week r) = user /\
      map be_Minutes l = [fg_Meeting (aw_Figures (ws_Week r)); fg_Focus (aw_Figures (ws_Week r)); fg_Habit (aw_Figures (ws_Week r));
                          fg_Personal (aw_Figures (ws_Week r)); fg_Free (aw_Figures (ws_Week r))] /\
      exists row, row ∈ rows' /\ week_key row = (user, day_number ws) /\ scan_week env row = ws_Week r
  | AnError code => code = 500 /\ rows' = rows /\ unanswered local env user ws
  | _ => False
  end.
Proof.
  intros Hd. unfold week. cbv zeta. generalize (parseDateParam q (an_now env)). intros date Ew.
  destruct (ComputeWeek local env user date rows) as [r rws] eqn:Ec. apply ComputeWeek_cases in Ec. revert Ec.
  generalize (weekStartFor date). intros ws [(row & -> & Hin & Hk) | ([e ->] & -> & Hwhy)]; injection Ew as <- <-; [|done].
  pose proof Hk as [= Hu Hday]. unfold weekWithBreakdown, newAnalyticsWeekResponse. cbn [ws_WeekStart ws_Week scan_week aw_WeekStart aw_User aw_Figures].
  split; [|split; [exact Hu|split; [reflexivity|by exists row]]].
  unfold FormatDateOnly. by rewrite DateOf_calendarDate, Hd, Hday.
Qed.

(** The trends are the caller's latest weeks, the latest first, as many as were
    asked for and at most 52: a week of the caller that is left out is older
    than all that are shown. *)
Theorem trends_show_the_latest env user q rows l :
  NoDup (map week_key rows) -> trends env user q rows = TrendsShown l ->
  0 < weeks_param q <= 52 /\
  exists shown, map newAnalyticsWeekResponse (map (scan_week env) shown) = l /\
    (length shown <= Z.to_nat (weeks_param q))%nat /\ StronglySorted (fun a b => wr_Day b < wr_Day a) shown /\
    (forall r, r ∈ shown -> r ∈ rows /\ wr_User r = user) /\
    (forall r, r ∈ rows -> wr_User r = user -> r ∈ shown \/
       (length shown = Z.to_nat (weeks_param q) /\ forall r', r' ∈ shown -> wr_Day r < wr_Day r')).
Proof.
  intros Hn Et. split.
  { unfold weeks_param. destruct (Atoi q) as [n|]; [|done]. destruct (_ && _) eqn:E; [|done]. zbool. lia. }
  unfold trends, ListAnalyticsTrends in Et. destruct (an_readable env); [|done]. injection Et as <-.
  set (mine := keep (fun r => N.eqb (wr_User r) user) rows). set (n := Z.to_nat (weeks_param q)).
  assert (Hmine : NoDup (map (fun r => - wr_Day r) mine)).
  { apply NoDup_ListNoDup, (NoDup_map_inv (fun d => (user, - d))), NoDup_ListNoDup. rewrite map_map.
    rewrite (map_ext_in _ week_key); [eapply sublist_NoDup; [exact Hn|apply (fmap_sublist week_key), keep_sublist]|].
    intros r [_ Hr%N.eqb_eq]%list_elem_of_In%elem_of_keep. unfold week_key. by rewrite Hr, Z.opp_involutive. }
  pose proof (order_by_strict _ _ Hmine) as Hs. pose proof (order_by_perm (fun r => - wr_Day r) mine) as Hp.
  set (sorted := order_by _ mine) in *. exists (take n sorted). split; [done|]. split; [rewrite length_take; lia|]. split; [|split].
  - apply (StronglySorted_sub _ _ sorted); [apply sublist_take|]. eapply StronglySorted_weaken; [|exact Hs]. cbn. lia.
  - intros r Hr. assert (r ∈ sorted) as Hin by (rewrite <- (take_drop n sorted); apply elem_of_app; by left).
    rewrite Hp in Hin. apply elem_of_keep in Hin as [Hin Hu%N.eqb_eq]. done.
  - intros r Hin Hu. assert (r ∈ sorted) as Hr by (rewrite Hp; apply elem_of_keep; split; [done|by apply N.eqb_eq]).
    rewrite <- (take_drop n sorted) in Hr, Hs. apply elem_of_app in Hr as [Hr|Hr]; [by left|right]. split.
    + rewrite length_take. apply list_elem_of_lookup in Hr as (i & Hi%lookup_lt_Some). rewrite length_drop in Hi. lia.
    + intros r' Hr'. pose proof (StronglySorted_app_cross _ _ _ r' r Hs Hr' Hr) as Hlt. cbn in Hlt. lia.
Qed.

(** ** A week *)

Module WeekDemo.
#[local] Existing Instance HabitDemo.driver.

Definition monday : time := FocusTime.Demo.monday.
Definition settings : Settings := FocusTime.Demo.settings "all_days" ∅ "UTC".
Definition at_ (d h m : Z) : time := Date 2025 1 d h m 0 0 UTC.

Definition guest (email : string) : Attendee := {| Email := email; ResponseStatus := "accepted"; Self := false; Organizer_ := false |}.
Definition event (id title : string) (from to : time) (guests : list string) : Event := {|
  ev_Id := id; Summary := title; Description := ""; Location_ := ""; Status := ""; Transparency := ""; Visibility := "";
  ColorId := ""; OrganizerSelf := None; ev_Start := at_time from; ev_End := at_time to; Attendees := map guest guests |}.

(** A stand-up twice, a review, a dentist, a focus block and a skipped walk. *)
Definition events : list Event :=
  [event "s1" "Stand-up" (at_ 6 9 0) (at_ 6 9 15) ["ann"; "bob"]; event "s2" "Stand-up" (at_ 7 9 0) (at_ 7 9 15) ["ann"; "bob"];
   event "r" "Review" (at_ 8 10 0) (at_ 8 11 0) ["ann"]; event "d" "Dentist" (at_ 9 13 0) (at_ 9 14 0) [];
   event "f" "Focus" (at_ 6 14 0) (at_ 6 16 0) []; event "w" "Walk" (at_ 8 9 0) (at_ 8 9 30) []].

Definition tables : Tables :=
  SaveFocusBlock 1%N "f" (day_number monday) (at_ 6 14 0) (at_ 6 16 0) FocusTime.Demo.tables.

Definition walk_on (d : Z) (status ev : string) : HabitOccurrence := {|
  O_ID := Z.to_N (90 + d); O_Habit := 5%N; O_Date := day_number (at_ d 0 0); O_Start := at_ d 9 0; O_End := at_ d 9 30;
  O_Status := status; O_Event := ev |}.

(** The driver's text for a DATE as [scanOccurrence] can read it. *)
Definition env (now : time) (occs : list HabitOccurrence) (evs : list Event) : AnalyticsEnv := {|
  an_now := now; an_id := 7%N; an_settings := Ok settings; an_focus := Ok tables; an_habits := Ok [HabitDemo.walk];
  an_occs := fun _ => Ok occs; an_token := TokenFound; an_client := true; an_events := fun _ _ => Ok evs;
  an_sort := fun A key l => order_by (fun x => - key x) l; an_date := midnight; an_readable := true; an_writable := true |}.

Definition friday : AnalyticsEnv := env (at_ 10 12 0) [walk_on 8 "skipped" "w"; walk_on 7 "completed" ""] events.
Definition stored : result (option AnalyticsWeek) * list WeekRow := ComputeWeek UTC friday 1%N (at_ 10 0 0) [].
Definition rows : list WeekRow := snd stored.
Definition the_row : WeekRow := List.hd {| wr_ID := 0%N; wr_User := 0%N; wr_Day := 0; wr_Figures := week_figures UTC friday 1%N settings monday;
  wr_ComputedAt := monday |} rows.
Definition the_week : AnalyticsWeek := scan_week friday the_row.

(** The same week with the walk still to come. *)
Definition held : AnalyticsEnv := env (at_ 10 12 0) [walk_on 8 "scheduled" "w"; walk_on 7 "completed" ""] events.
Definition held_rows : list WeekRow := snd (compute UTC held 1%N monday []).
Definition held_week : AnalyticsWeek := scan_week held (List.hd the_row held_rows).

Lemma sorts now occs evs : sort_law (env now occs evs).
Proof.
  intros A key l. cbn. split; [apply order_by_perm|]. eapply StronglySorted_weaken; [|apply order_by_sorted]. cbn. lia.
Qed.

Lemma dates now occs evs : date_law (env now occs evs).
Proof.
  intros d. cbn. unfold DateOf. f_equal. unfold midnight, local_sec, unix_sec, offset_of, off_at. cbn [t_ns t_loc].
  rewrite Z.div_mul by done. cbn. rewrite Z.add_0_r. by apply Z.div_mul.
Qed.

Lemma full_days : short_days settings.
Proof. intros day. vm_compute. reflexivity. Qed.
End WeekDemo.

#[local] Existing Instance HabitDemo.driver.

Lemma meetings_account_for_the_calendar_witness :
  fg_Meeting (aw_Figures WeekDemo.held_week) = 90 /\ fg_Count (aw_Figures WeekDemo.held_week) = 3 /\
  exists c : list (Event * Z), map fst c `sublist_of` WeekDemo.events /\ fg_Personal (aw_Figures WeekDemo.held_week) = total (map snd (keep (fun p => headcount (fst p) =? 0) c)).
Proof.
  split; [vm_compute; reflexivity|]. split; [vm_compute; reflexivity|].
  destruct (meetings_account_for_the_calendar UTC WeekDemo.held 1%N WeekDemo.monday [] WeekDemo.held_week WeekDemo.held_rows WeekDemo.events)
    as (c & Hs & _ & _ & _ & _ & Hp); [reflexivity|reflexivity| |vm_compute; reflexivity|exists c; exact (conj Hs Hp)].
  intros o ev Ho _ _. right. apply occurrences_read in Ho.
  assert (E : habitOccurrencesForWeek WeekDemo.held 1%N WeekDemo.monday (AddDate WeekDemo.monday 0 0 7) =
    map scanOccurrence [WeekDemo.walk_on 7 "completed" ""; WeekDemo.walk_on 8 "scheduled" "w"]) by (vm_compute; reflexivity).
  rewrite E in Ho. apply elem_of_cons in Ho as [-> |Ho]; [right; reflexivity|].
  apply list_elem_of_singleton in Ho as ->. left. reflexivity.
Defined.

Lemma figures_stay_in_bounds_witness :
  fg_Score (aw_Figures WeekDemo.the_week) = 57 /\ 0 <= fg_Score (aw_Figures WeekDemo.the_week) <= 100.
Proof.
  split; [vm_compute; reflexivity|].
  apply (figures_stay_in_bounds UTC WeekDemo.friday 1%N WeekDemo.monday [] WeekDemo.the_week WeekDemo.rows).
  - intros s [= <-]. apply WeekDemo.full_days.
  - intros fb Hin. assert (E : focus_of_week WeekDemo.friday 1%N WeekDemo.monday = t_focus WeekDemo.tables) by (vm_compute; reflexivity).
    rewrite E in Hin. apply list_elem_of_singleton in Hin as ->. vm_compute. discriminate.
  - intros o Hin. assert (E : habitOccurrencesForWeek WeekDemo.friday 1%N WeekDemo.monday (AddDate WeekDemo.monday 0 0 7) =
      map scanOccurrence [WeekDemo.walk_on 7 "completed" ""; WeekDemo.walk_on 8 "skipped" "w"]) by (vm_compute; reflexivity).
    rewrite E in Hin. apply elem_of_cons in Hin as [-> |Hin]; [vm_compute; discriminate|].
    apply list_elem_of_singleton in Hin as ->. vm_compute. discriminate.
  - vm_compute. reflexivity.
Defined.

Lemma top_titles_exact_witness :
  map tt_Title (fg_Titles (aw_Figures WeekDemo.the_week)) = ["Review"; "Stand-up"] /\
  NoDup (map tt_Title (fg_Titles (aw_Figures WeekDemo.the_week))).
Proof.
  split; [vm_compute; reflexivity|].
  apply (top_titles_exact UTC WeekDemo.friday 1%N WeekDemo.monday [] WeekDemo.the_week WeekDemo.rows WeekDemo.events);
    [apply WeekDemo.sorts|reflexivity|reflexivity|vm_compute; reflexivity].
Defined.

(** The calendar is emptied: the row is served on Saturday at noon, and no
    longer a minute later. *)
Lemma week_is_computed_once_a_day_witness :
  let later h m := WeekDemo.env (WeekDemo.at_ 11 h m) [] [] in
  ComputeWeek UTC (later 11 59) 1%N (WeekDemo.at_ 11 0 0) WeekDemo.rows = (Ok (Some WeekDemo.the_week), WeekDemo.rows) /\
  ComputeWeek UTC (later 12 0) 1%N (WeekDemo.at_ 11 0 0) WeekDemo.rows = ForceCompute UTC (later 12 0) 1%N (WeekDemo.at_ 11 0 0) WeekDemo.rows.
Proof.
  assert (E : ComputeWeek UTC WeekDemo.friday 1%N (WeekDemo.at_ 10 0 0) [] = (Ok (Some WeekDemo.the_week), WeekDemo.rows)) by (vm_compute; reflexivity).
  split.
  - eapply (week_is_computed_once_a_day UTC WeekDemo.friday 1%N _ _ _ _ E); [reflexivity|reflexivity|vm_compute; reflexivity|vm_compute; reflexivity].
  - eapply (week_is_computed_once_a_day UTC WeekDemo.friday 1%N _ _ _ _ E); [reflexivity|reflexivity|vm_compute; reflexivity|vm_compute; discriminate].
Defined.

Lemma weeks_start_on_monday_witness :
  weekStartFor (WeekDemo.at_ 12 23 0) = WeekDemo.at_ 6 0 0 /\ WeekdayOf (weekStartFor (WeekDemo.at_ 12 23 0)) = 1.
Proof.
  split; [vm_compute; reflexivity|].
  apply (weeks_start_on_monday (WeekDemo.at_ 12 23 0)); [apply UTC_steps_back|apply UTC_midnights].
Defined.

Lemma meetings_add_up_to_the_figures_witness :
  exists l, WeekMeetings UTC WeekDemo.friday 1%N (WeekDemo.at_ 10 0 0) = Ok l /\ map wm_Minutes l = [60; 15; 15] /\
    total (map wm_Minutes l) = fg_Meeting (aw_Figures WeekDemo.the_week).
Proof.
  set (r := WeekMeetings UTC WeekDemo.friday 1%N (WeekDemo.at_ 10 0 0)).
  assert (E : exists l, r = Ok l /\ map wm_Minutes l = [60; 15; 15]) by (vm_compute; eexists; split; reflexivity).
  destruct E as (l & E & Hm). exists l. split; [exact E|]. split; [exact Hm|].
  eapply (meetings_add_up_to_the_figures UTC WeekDemo.friday 1%N (WeekDemo.at_ 10 0 0) [] WeekDemo.the_week WeekDemo.rows WeekDemo.events l);
    [apply WeekDemo.sorts|reflexivity| |vm_compute; reflexivity|exact E].
  apply Forall_forall. unfold WeekDemo.events. repeat apply Forall_cons_2; [..|apply Forall_nil_2];
    intros _; eexists; eexists; (split; [vm_compute; reflexivity|]); split_and!; vm_compute; (reflexivity || discriminate).
Defined.

Lemma week_answers_its_monday_witness :
  exists r l, week UTC WeekDemo.friday 1%N "2025-01-10" [] = (WeekShown r l, WeekDemo.rows) /\
    ws_WeekStart r = FormatDateOnly (weekStartFor (WeekDemo.at_ 10 0 0)) /\ FormatDateOnly (weekStartFor (WeekDemo.at_ 10 0 0)) = "2025-01-06".
Proof.
  assert (E : exists r l, week UTC WeekDemo.friday 1%N "2025-01-10" [] = (WeekShown r l, WeekDemo.rows)) by (vm_compute; eexists; eexists; reflexivity).
  destruct E as (r & l & E). exists r, l. split; [exact E|]. split; [|vm_compute; reflexivity].
  exact (proj1 (week_answers_its_monday UTC WeekDemo.friday 1%N "2025-01-10" [] _ _ (WeekDemo.dates _ _ _) E)).
Defined.

Lemma trends_show_the_latest_witness :
  exists l, trends WeekDemo.friday 1%N "" WeekDemo.rows = TrendsShown l /\ weeks_param "" = 8 /\ 0 < weeks_param "" <= 52.
Proof.
  eexists. split; [reflexivity|]. split; [reflexivity|].
  eapply (trends_show_the_latest WeekDemo.friday 1%N "" WeekDemo.rows); [|reflexivity].
  assert (E : map week_key WeekDemo.rows = [(1%N, 20094)]) by (vm_compute; reflexivity). rewrite E. apply NoDup_singleton.
Defined.

(** ** Defects *)

(** The occurrences of the Monday after the week are read with it: one walk of
    30 minutes, on Monday 13 January, is in the habit minutes of the week before
    and in those of its own. *)
Theorem next_monday_counts_twice :
  let env := WeekDemo.env (WeekDemo.at_ 14 12 0) [WeekDemo.walk_on 13 "completed" ""] [] in
  fg_Habit (week_figures UTC env 1%N WeekDemo.settings (weekStartFor (WeekDemo.at_ 8 12 0))) = 30 /\
  fg_Habit (week_figures UTC env 1%N WeekDemo.settings (weekStartFor (WeekDemo.at_ 14 12 0))) = 30.
Proof. vm_compute. split; reflexivity. Qed.

(** The event of a habit that was skipped is left out of the calendar's share
    as counted through the tables, where it is not counted. *)
Theorem skipped_habit_counts_nowhere :
  let walk := WeekDemo.event "w" "Walk" (WeekDemo.at_ 8 9 0) (WeekDemo.at_ 8 9 30) [] in
  let env occs := WeekDemo.env (WeekDemo.at_ 10 12 0) occs [walk] in
  let figures occs := week_figures UTC (env occs) 1%N WeekDemo.settings WeekDemo.monday in
  (fg_Habit (figures [WeekDemo.walk_on 8 "skipped" "w"]), fg_Personal (figures [WeekDemo.walk_on 8 "skipped" "w"])) = (0, 0) /\
  (fg_Habit (figures []), fg_Personal (figures [])) = (0, 30).
Proof. vm_compute. split; reflexivity. Qed.

(** A displaced occurrence leaves the completion rate at one, and a skipped one
    is not counted as kept. *)
Theorem displaced_habit_keeps_the_rate :
  let rate occs := fg_Rate (week_figures UTC (WeekDemo.env (WeekDemo.at_ 10 12 0) occs []) 1%N WeekDemo.settings WeekDemo.monday) in
  rate [WeekDemo.walk_on 7 "completed" ""; WeekDemo.walk_on 8 "displaced" ""] = f64 1 /\
  rate [WeekDemo.walk_on 7 "scheduled" ""; WeekDemo.walk_on 8 "skipped" "w"] = f64 0.
Proof. vm_compute. split; reflexivity. Qed.

(** Going back a day from the day after one that a zone skips comes to the same
    instant: the loop of [weekStartFor] does not end there. *)
Definition skipping : Location := {| loc_name := "Pacific/Apia"; loc_first := -36000; loc_tx := [(1325239200, 50400)] |}.

Example skipped_day_repeats :
  let saturday := Date 2011 12 31 12 0 0 0 skipping in AddDate saturday 0 0 (-1) = saturday /\ WeekdayOf saturday = 6.
Proof. vm_compute. split; reflexivity. Qed.
