(* ===== verification/MeetingBriefs.v ===== *)
(** * Slack, Notion and meeting briefs

    [storage/integrations.go], [api/handlers_integrations.go]: the connections
    to Slack and Notion with their sealed tokens; [storage/meeting_briefs.go],
    [engine/meeting_brief_service.go], [api/handlers_meeting_briefs.go]: the
    brief of a meeting, from what Slack and Notion find and what the language
    model of [AIDecision] writes.  The answers of Slack and of Notion are
    parameters; the model is asked through [Destinations]. *)

From S2P Require Import Prelude GoInt GoTime GoText GoEncoding GoURL SecretBox SecretStore AdminStore Destinations OrgAI AISettings AIDecision Calendar ManagerEngine ManagerHandlers LinkStore.

#[local] Open Scope string_scope.
#[local] Open Scope list_scope.
#[local] Open Scope Z_scope.

(** ** Cutting a text *)

(** [if len([]rune(s)) > n { s = string([]rune(s)[:n]) + more }]. *)
Definition truncate (n : nat) (more s : string) : string :=
  if (n <? length (runes s))%nat then sconcat (take n (runes s)) +:+ more else s.

(** ** Tables *)

(** A row of [workspace_connections], its tokens as stored. *)
Record ConnectionRow := {
  cn_ID : uuid; cn_User : uuid; cn_Provider : string; cn_Access : string; cn_Bot : string; cn_WorkspaceID : string;
  cn_WorkspaceName : string; cn_Scopes : list string; cn_ConnectedAt : time; cn_ExpiresAt : option time }.

(** A connection as it is read. *)
Record WorkspaceConnection := {
  wc_UserID : uuid; wc_Provider : string; wc_AccessToken : string; wc_BotToken : string; wc_WorkspaceID : string;
  wc_WorkspaceName : string; wc_Scopes : list string; wc_ConnectedAt : time; wc_ExpiresAt : option time;
  wc_TokenErr : option DecryptError }.

Record SlackMessage := { sm_ChannelName : string; sm_AuthorName : string; sm_Text : string; sm_Timestamp : string; sm_Permalink : string }.
Record NotionPage := { np_Title : string; np_URL : string; np_LastEditedAt : string; np_ParentName : string }.

Record MeetingBrief := {
  mb_ID : uuid; mb_Event : string; mb_User : uuid; mb_GeneratedAt : time; mb_Slack : list SlackMessage;
  mb_Notion : list NotionPage; mb_Text : string; mb_Status : string }.

Record WorkspaceTables := { wt_conns : list ConnectionRow; wt_briefs : list MeetingBrief }.

Definition set_conns (f : list ConnectionRow -> list ConnectionRow) (t : WorkspaceTables) : WorkspaceTables :=
  {| wt_conns := f (wt_conns t); wt_briefs := wt_briefs t |}.
Definition set_briefs (f : list MeetingBrief -> list MeetingBrief) (t : WorkspaceTables) : WorkspaceTables :=
  {| wt_conns := wt_conns t; wt_briefs := f (wt_briefs t) |}.

Definition conn_of (user : uuid) (provider : string) (r : ConnectionRow) : bool :=
  N.eqb (cn_User r) user && String.eqb (cn_Provider r) provider.
Definition brief_of (user : uuid) (event : string) (b : MeetingBrief) : bool :=
  N.eqb (mb_User b) user && String.eqb (mb_Event b) event.

(** [DO UPDATE SET ...]. *)
Definition reconnected (c : WorkspaceConnection) (access bot : string) (now : time) (r : ConnectionRow) : ConnectionRow :=
  {| cn_ID := cn_ID r; cn_User := cn_User r; cn_Provider := cn_Provider r; cn_Access := access; cn_Bot := bot;
     cn_WorkspaceID := wc_WorkspaceID c; cn_WorkspaceName := wc_WorkspaceName c; cn_Scopes := wc_Scopes c;
     cn_ConnectedAt := now; cn_ExpiresAt := wc_ExpiresAt c |}.

Definition rewritten (b r : MeetingBrief) : MeetingBrief :=
  {| mb_ID := mb_ID r; mb_Event := mb_Event r; mb_User := mb_User r; mb_GeneratedAt := mb_GeneratedAt b; mb_Slack := mb_Slack b;
     mb_Notion := mb_Notion b; mb_Text := mb_Text b; mb_Status := mb_Status b |}.

Section Storage.
Context {V : Vault} (userText : uuid -> string).

(** [UpsertWorkspaceConnection]; the database's clock gives [connected_at]. *)
Definition UpsertWorkspaceConnection (id : uuid) (now : time) (c : WorkspaceConnection) (t : WorkspaceTables)
    : res KeyError unit * WorkspaceTables :=
  let u := wc_UserID c in
  let p := wc_Provider c in
  match v_seal (bindWorkspace "access_token" (userText u) p) (wc_AccessToken c) with
  | Err e => (Err e, t)
  | Ok access =>
      match v_seal (bindWorkspace "bot_token" (userText u) p) (wc_BotToken c) with
      | Err e => (Err e, t)
      | Ok bot =>
          let new := {| cn_ID := id; cn_User := u; cn_Provider := p; cn_Access := access; cn_Bot := bot;
                        cn_WorkspaceID := wc_WorkspaceID c; cn_WorkspaceName := wc_WorkspaceName c; cn_Scopes := wc_Scopes c;
                        cn_ConnectedAt := now; cn_ExpiresAt := wc_ExpiresAt c |} in
          (Ok tt, set_conns (upsert (conn_of u p) (reconnected c access bot now) new) t)
      end
  end.

(** The tokens of a row as they are read. *)
Definition open_connection (r : ConnectionRow) : WorkspaceConnection :=
  let '(access, e1) := open_or_empty (bindWorkspace "access_token" (userText (cn_User r)) (cn_Provider r)) (cn_Access r) in
  let '(bot, e2) := open_or_empty (bindWorkspace "bot_token" (userText (cn_User r)) (cn_Provider r)) (cn_Bot r) in
  {| wc_UserID := cn_User r; wc_Provider := cn_Provider r; wc_AccessToken := access; wc_BotToken := bot;
     wc_WorkspaceID := cn_WorkspaceID r; wc_WorkspaceName := cn_WorkspaceName r; wc_Scopes := cn_Scopes r;
     wc_ConnectedAt := cn_ConnectedAt r; wc_ExpiresAt := cn_ExpiresAt r;
     wc_TokenErr := match e1 with Some e => Some e | None => e2 end |}.

(** [GetWorkspaceConnection]; [None] when there is no row. *)
Definition GetWorkspaceConnection (t : WorkspaceTables) (user : uuid) (provider : string) : option WorkspaceConnection :=
  open_connection <$> List.find (conn_of user provider) (wt_conns t).
End Storage.

Definition DeleteWorkspaceConnection (user : uuid) (provider : string) : WorkspaceTables -> WorkspaceTables :=
  set_conns (keep (fun r => negb (conn_of user provider r))).

(** [UpsertMeetingBrief]; [mb_ID] is the key of a new row. *)
Definition UpsertMeetingBrief (b : MeetingBrief) : WorkspaceTables -> WorkspaceTables :=
  set_briefs (upsert (brief_of (mb_User b) (mb_Event b)) (rewritten b) b).

Definition GetMeetingBrief (t : WorkspaceTables) (user : uuid) (event : string) : option MeetingBrief :=
  List.find (brief_of user event) (wt_briefs t).

Definition ListMeetingBriefsForUser (t : WorkspaceTables) (user : uuid) : list MeetingBrief :=
  order_by (fun b => - t_ns (mb_GeneratedAt b)) (keep (fun b => N.eqb (mb_User b) user) (wt_briefs t)).

(** ** What Slack and Notion find *)

Definition briefCacheTTL : Z := 24 * Hour.
Definition maxSlackMessages : nat := 10.
Definition maxNotionPages : nat := 8.
Definition maxTerms : nat := 5.
Definition maxTermLen : nat := 50.
Definition msgExcerptLen : nat := 200.
Definition slackLookback : Z := 30 * 24 * Hour.
Definition notionLookback : Z := 90 * 24 * Hour.

(** What a brief reads of an event: the guests' names and addresses, and the
    text of its start. *)
Record BriefEvent := { be_Id : string; be_Summary : string; be_Guests : list (string * string); be_Start : string }.

(** [add] of [buildSearchTerms]: the texts seen, and the terms. *)
Definition add_term (acc : list string * list string) (raw : string) : list string * list string :=
  let s := TrimSpace raw in
  let '(seen, terms) := acc in
  if (String.length s <=? 3)%nat || existsb (String.eqb s) seen then acc
  else (s :: seen, terms ++ [truncate maxTermLen "" s]).

Definition buildSearchTerms (ev : BriefEvent) : list string :=
  let names := keep (fun n => negb (String.eqb n "")) (map fst (be_Guests ev)) in
  take maxTerms (snd (fold_left add_term (be_Summary ev :: names) ([], []))).

(** The loops of [fetchSlackMessages] and [fetchNotionPages] over the answers to
    the terms: the keys seen, and what was taken. *)
Section Collect.
Context {M R : Type} (cap : nat) (key : M -> string) (skip : M -> bool) (make : M -> R).

Fixpoint collect (ms : list M) (acc : list string * list R) : list string * list R :=
  match ms with
  | [] => acc
  | m :: r =>
      if existsb (String.eqb (key m)) (fst acc) || skip m then collect r acc
      else
        let acc' := (key m :: fst acc, snd acc ++ [make m]) in
        if (cap <=? length (snd acc'))%nat then acc' else collect r acc'
  end.

Fixpoint collect_terms (search : string -> option (list M)) (terms : list string) (acc : list string * list R) : list string * list R :=
  match terms with
  | [] => acc
  | term :: r =>
      if (cap <=? length (snd acc))%nat then acc
      else collect_terms search r (match search term with Some ms => collect ms acc | None => acc end)
  end.
End Collect.

Record SlackMatch := { sx_Channel : string; sx_Username : string; sx_Text : string; sx_Ts : string; sx_Permalink : string }.

(** The whole seconds of a message's timestamp; zero when there are none. *)
Definition slack_seconds (ts : string) : Z :=
  scan_or_zero (match cut "." ts with Some (a, _) => a | None => ts end).

Definition slack_old (cutoff : time) (m : SlackMatch) : bool :=
  let sec := slack_seconds (sx_Ts m) in (0 <? sec) && Before (Time (sec * Second) UTC) cutoff.

Definition slack_key (m : SlackMatch) : string := sx_Ts m +:+ sx_Channel m.

Definition slack_message (m : SlackMatch) : SlackMessage :=
  {| sm_ChannelName := sx_Channel m; sm_AuthorName := sx_Username m; sm_Text := truncate msgExcerptLen "" (sx_Text m);
     sm_Timestamp := sx_Ts m; sm_Permalink := sx_Permalink m |}.

(** [fetchSlackMessages]; [search] is Slack's answer to a term, [None] when the
    call failed. *)
Definition fetchSlackMessages (now : time) (search : string -> option (list SlackMatch)) (terms : list string) : list SlackMessage :=
  snd (collect_terms maxSlackMessages slack_key (slack_old (Add now (- slackLookback))) slack_message search terms ([], [])).

(** A page: its properties in the order the map is walked, each the texts of its
    title. *)
Record NotionHit := { nx_ID : string; nx_URL : string; nx_LastEdited : string; nx_Properties : list (list string) }.

(** [extractNotionTitle]. *)
Definition extractNotionTitle (props : list (list string)) : string :=
  default "" (List.find (fun s => negb (String.eqb s "")) (List.concat props)).

Definition notion_old (local : Location) (cutoff : time) (p : NotionHit) : bool :=
  negb (String.eqb (nx_LastEdited p) "") &&
  match ParseRFC3339 local (nx_LastEdited p) with Some t => Before t cutoff | None => false end.

Definition notion_page (p : NotionHit) : NotionPage :=
  {| np_Title := extractNotionTitle (nx_Properties p); np_URL := nx_URL p; np_LastEditedAt := nx_LastEdited p; np_ParentName := "" |}.

Definition notion_skipped (local : Location) (cutoff : time) (p : NotionHit) : bool :=
  notion_old local cutoff p || String.eqb (extractNotionTitle (nx_Properties p)) "".

(** [fetchNotionPages]. *)
Definition fetchNotionPages (local : Location) (now : time) (search : string -> option (list NotionHit)) (terms : list string)
    : list NotionPage :=
  snd (collect_terms maxNotionPages nx_ID (notion_skipped local (Add now (- notionLookback))) notion_page search terms ([], [])).

(** ** The brief *)

Definition nl : string := String (ascii_of_nat 10) "".

Definition briefSystemPrompt : string :=
  "You are a professional meeting prep assistant. Given a meeting and relevant context found in the user workspace, write a concise pre-meeting brief (max 200 words) that:" +:+ nl +:+
  "1. Lists 2-5 Notion documents most likely relevant to read before this meeting (title + URL)" +:+ nl +:+
  "2. Summarizes 1-3 key Slack threads related to the meeting topic" +:+ nl +:+
  "3. States in 2-3 sentences the probable goals or agenda of the meeting based on the context" +:+ nl +:+
  "Format: use markdown with three sections: " +:+ quote1 +:+ "## Documents to review" +:+ quote1 +:+ ", " +:+ quote1 +:+
  "## Recent conversations" +:+ quote1 +:+ ", " +:+ quote1 +:+ "## Probable goals" +:+ quote1 +:+ ".".

Fixpoint Join (sep : string) (l : list string) : string :=
  match l with [] => "" | [x] => x | x :: r => x +:+ sep +:+ Join sep r end.

Definition guest_name (g : string * string) : option string :=
  if negb (String.eqb (fst g) "") then Some (fst g) else if negb (String.eqb (snd g) "") then Some (snd g) else None.

Definition or_none (l : list string) : string := match l with [] => "(none)" +:+ nl | _ => sconcat l end.

(** [buildBriefPrompt]. *)
Definition buildBriefPrompt (ev : BriefEvent) (slack : list SlackMessage) (notion : list NotionPage) : string :=
  let names := omap guest_name (be_Guests ev) in
  "Meeting: " +:+ be_Summary ev +:+ nl +:+
  (match names with [] => "" | _ => "Attendees: " +:+ Join ", " names +:+ nl end) +:+
  (if String.eqb (be_Start ev) "" then "" else "Time: " +:+ be_Start ev +:+ nl) +:+
  nl +:+ "Notion pages found:" +:+ nl +:+
  or_none (map (fun p => "- " +:+ np_Title p +:+ " (last edited: " +:+ np_LastEditedAt p +:+ ") " +:+ np_URL p +:+ nl) notion) +:+
  nl +:+ "Slack messages found:" +:+ nl +:+
  or_none (map (fun m => "- #" +:+ sm_ChannelName m +:+ " | " +:+ sm_AuthorName m +:+ ": " +:+ sm_Text m +:+ nl) slack) +:+
  nl +:+ "Write the meeting brief.".

(** What a generation reads of the world; the clock is read at the start, by
    the two searches and at the end. *)
Record BriefEnv := {
  ge_now : nat -> time;
  ge_id : uuid;
  ge_local : Location;
  ge_readable : bool;                                    (** the brief can be read *)
  ge_conn : string -> bool;                              (** the connection to a provider can be read *)
  ge_written : nat -> bool;                              (** the first and the last write of the brief *)
  ge_slack : string -> string -> option (list SlackMatch);    (** by the token, for a term *)
  ge_notion : string -> string -> option (list NotionHit);
}.

(** [MeetingBriefService]. *)
Record BriefService := {
  sv_LLM : option (string -> string -> res string string);
  sv_Unavailable : string;
  sv_FailureText : string;
  sv_Redact : string -> string;
}.

Section Generation.
Context {V : Vault} (userText : uuid -> string) (env : BriefEnv) (svc : BriefService) (user : uuid).

(** A connection whose tokens can be used. *)
Definition usable_connection (t : WorkspaceTables) (provider : string) : option WorkspaceConnection :=
  if ge_conn env provider then
    c ← GetWorkspaceConnection userText t user provider;
    match wc_TokenErr c with None => Some c | Some _ => None end
  else None.

Definition write_brief (i : nat) (b : MeetingBrief) (t : WorkspaceTables) : WorkspaceTables :=
  if ge_written env i then UpsertMeetingBrief b t else t.

Definition brief_at (ev : BriefEvent) (at_ : time) (slack : list SlackMessage) (notion : list NotionPage) (text status : string) : MeetingBrief :=
  {| mb_ID := ge_id env; mb_Event := be_Id ev; mb_User := user; mb_GeneratedAt := toUTC at_; mb_Slack := slack; mb_Notion := notion;
     mb_Text := text; mb_Status := status |}.

(** [Generate]: the brief, what the model was asked, and the tables. *)
Definition Generate (ev : BriefEvent) (force : bool) (t : WorkspaceTables)
    : MeetingBrief * list (string * string) * WorkspaceTables :=
  let cached :=
    if force || negb (ge_readable env) then None
    else
      b ← GetMeetingBrief t user (be_Id ev);
      if String.eqb (mb_Status b) "ready" && (Sub (ge_now env 0) (mb_GeneratedAt b) <? briefCacheTTL) then Some b else None in
  match cached with
  | Some b => (b, [], t)
  | None =>
      let t1 := write_brief 0 (brief_at ev (ge_now env 0) [] [] "" "pending") t in
      let terms := buildSearchTerms ev in
      let slack := match usable_connection t1 "slack" with
                   | Some c => fetchSlackMessages (ge_now env 1) (ge_slack env (wc_BotToken c)) terms | None => [] end in
      let notion := match usable_connection t1 "notion" with
                    | Some c => fetchNotionPages (ge_local env) (ge_now env 2) (ge_notion env (wc_AccessToken c)) terms | None => [] end in
      match sv_LLM svc with
      | None =>
          let text := if String.eqb (sv_Unavailable svc) "" then "LLM not configured" else sv_Unavailable svc in
          let b := brief_at ev (ge_now env 0) slack notion text "failed" in
          (b, [], write_brief 1 b t1)
      | Some complete =>
          let prompt := buildBriefPrompt ev slack notion in
          let '(text, status) :=
            match complete briefSystemPrompt prompt with
            | Err e => (if String.eqb (sv_FailureText svc) "" then "LLM error: " +:+ sv_Redact svc e else sv_FailureText svc, "failed")
            | Ok text => (sv_Redact svc text, "ready")
            end in
          let b := brief_at ev (ge_now env 3) slack notion text status in
          (b, [(briefSystemPrompt, prompt)], write_brief 1 b t1)
      end
  end.
End Generation.

(** ** The handlers *)

Definition orgProviderFailureText : string := "The organisation's AI provider returned an error.".

Record SlackToken := { sk_User : string; sk_Bot : string; sk_TeamID : string; sk_TeamName : string; sk_Scope : string }.
Record NotionToken := { nk_Access : string; nk_WorkspaceID : string; nk_WorkspaceName : string }.

Record WorkspaceEnv := {
  we_getenv : string -> string;
  we_state : string;                               (** [randomState] *)
  we_now : time;
  we_id : uuid;
  we_slack : string -> option SlackToken;          (** [slackExchangeCode], of a code *)
  we_notion : string -> option NotionToken;
  we_store : bool;                                 (** the connection can be written *)
  we_delete : bool;
  we_read : bool;
  we_brief : BriefEnv;
  we_ai : option AIState;                          (** [LoadAIState] *)
  we_policy : Policy;
  we_network : Destinations.Request -> option Destinations.Response;
  we_extract : string -> option string;            (** a client's reading of an answer's body *)
  we_errText : SendError -> string;
}.

Inductive WorkspaceAnswer :=
| WsError (code : Z) (msg : string)
| WsRedirect (location : string) (cookie : option (string * string))
| WsNoContent
| WsStatus (workspace : option string)             (** connected, and to what *)
| BriefShown (b : MeetingBrief)
| BriefPending
| AINotReady (nc : AINotConfigured).               (** the 409 of a caller without an AI configuration *)

Inductive WorkspaceRequest :=
| SlackConnect
| SlackCallback (cookie : option string) (state code : string)
| SlackDisconnect
| SlackStatus
| NotionConnect
| NotionCallback (cookie : option string) (state code : string)
| NotionDisconnect
| NotionStatus
| BriefGet (event : string)
| BriefRefresh (event : string).

(** [url.Values.Encode], of values in the order of their keys. *)
Definition Encode (values : list (string * string)) : string :=
  Join "&" (map (fun kv => QueryEscape (fst kv) +:+ "=" +:+ QueryEscape (snd kv)) values).

(** [stateCookie.Value != query state], or no cookie. *)
Definition state_matches (cookie : option string) (state : string) : bool :=
  match cookie with Some v => String.eqb v state | None => false end.

Section Handlers.
Context {V : Vault} (userText : uuid -> string) (env : WorkspaceEnv) (user : uuid).

Definition slackConnect : WorkspaceAnswer :=
  let clientID := we_getenv env "SLACK_CLIENT_ID" in
  if String.eqb clientID "" then WsError 503 "Slack not configured"
  else WsRedirect ("https://slack.com/oauth/v2/authorize?" +:+
         Encode [("client_id", clientID); ("redirect_uri", we_getenv env "SLACK_REDIRECT_URI");
                 ("scope", "search:read,users:read,channels:read,chat:write"); ("state", we_state env); ("user_scope", "search:read")])
         (Some ("slack_oauth_state", we_state env)).

Definition notionConnect : WorkspaceAnswer :=
  let clientID := we_getenv env "NOTION_CLIENT_ID" in
  if String.eqb clientID "" then WsError 503 "Notion not configured"
  else WsRedirect ("https://api.notion.com/v1/oauth/authorize?" +:+
         Encode [("client_id", clientID); ("owner", "user"); ("redirect_uri", we_getenv env "NOTION_REDIRECT_URI");
                 ("response_type", "code"); ("state", we_state env)])
         (Some ("notion_oauth_state", we_state env)).

Definition connect (c : WorkspaceConnection) (location : string) (t : WorkspaceTables) : WorkspaceAnswer * WorkspaceTables :=
  match UpsertWorkspaceConnection userText (we_id env) (we_now env) c t with
  | (Ok _, t') => if we_store env then (WsRedirect location None, t') else (WsError 500 "db error", t)
  | (Err _, _) => (WsError 500 "db error", t)
  end.

Definition slack_connection (tok : SlackToken) : WorkspaceConnection :=
  {| wc_UserID := user; wc_Provider := "slack"; wc_AccessToken := sk_User tok; wc_BotToken := sk_Bot tok;
     wc_WorkspaceID := sk_TeamID tok; wc_WorkspaceName := sk_TeamName tok; wc_Scopes := Split "," (sk_Scope tok);
     wc_ConnectedAt := toUTC (we_now env); wc_ExpiresAt := None; wc_TokenErr := None |}.

Definition notion_connection (tok : NotionToken) : WorkspaceConnection :=
  {| wc_UserID := user; wc_Provider := "notion"; wc_AccessToken := nk_Access tok; wc_BotToken := "";
     wc_WorkspaceID := nk_WorkspaceID tok; wc_WorkspaceName := nk_WorkspaceName tok; wc_Scopes := [];
     wc_ConnectedAt := toUTC (we_now env); wc_ExpiresAt := None; wc_TokenErr := None |}.

Definition slackCallback (cookie : option string) (state code : string) (t : WorkspaceTables) : WorkspaceAnswer * WorkspaceTables :=
  if negb (state_matches cookie state) then (WsError 400 "invalid state", t)
  else match we_slack env code with
       | None => (WsError 502 "upstream provider error", t)
       | Some tok => connect (slack_connection tok) "/app/settings?tab=integrations&slack=connected" t
       end.

Definition notionCallback (cookie : option string) (state code : string) (t : WorkspaceTables) : WorkspaceAnswer * WorkspaceTables :=
  if negb (state_matches cookie state) then (WsError 400 "invalid state", t)
  else match we_notion env code with
       | None => (WsError 502 "upstream provider error", t)
       | Some tok => connect (notion_connection tok) "/app/settings?tab=integrations&notion=connected" t
       end.

(** [slackDisconnect], [notionDisconnect]; an error of the database is
    dropped. *)
Definition disconnect (provider : string) (t : WorkspaceTables) : WorkspaceAnswer * WorkspaceTables :=
  (WsNoContent, if we_delete env then DeleteWorkspaceConnection user provider t else t).

(** [slackStatus], [notionStatus]. *)
Definition status (provider : string) (t : WorkspaceTables) : WorkspaceAnswer :=
  match (if we_read env then GetWorkspaceConnection userText t user provider else None) with
  | Some c => match wc_TokenErr c with None => WsStatus (Some (wc_WorkspaceName c)) | Some _ => WsStatus None end
  | None => WsStatus None
  end.

Definition getBrief (event : string) (t : WorkspaceTables) : WorkspaceAnswer :=
  if String.eqb event "" then WsError 400 "event_id required"
  else if negb (we_read env) then WsError 500 "db error"
  else match GetMeetingBrief t user event with Some b => BriefShown b | None => BriefPending end.

(** The service of a decision: no client when its destination is refused. *)
Definition brief_service (d : Decision) : BriefService :=
  let failure := if Organization d then orgProviderFailureText else "" in
  let service llm unavailable := {| sv_LLM := llm; sv_Unavailable := unavailable; sv_FailureText := failure; sv_Redact := Redact d |} in
  match d_Client d with
  | None => service None ""
  | Some c =>
      match CheckDestination (we_policy env) c with
      | Some r => service None (r_Message (if Organization d then OrganizationDestinationRefusal r else r))
      | None => service (Some (fun system prompt =>
                  match snd (Destinations.Complete (we_policy env) (we_network env) (we_extract env) c system prompt) with
                  | Ok text => Ok text
                  | Err e => Err (we_errText env e)
                  end)) ""
      end
  end.

(** What the model's client sends for what it is asked. *)
Definition sent_for (d : Decision) (prompts : list (string * string)) : list Destinations.Request :=
  match d_Client d with
  | Some c => flat_map (fun p => fst (Destinations.Complete (we_policy env) (we_network env) (we_extract env) c (fst p) (snd p))) prompts
  | None => []
  end.

(** [refreshBrief]: the answer, what is sent to the model's provider, and the
    tables. *)
Definition refreshBrief (event : string) (t : WorkspaceTables) : WorkspaceAnswer * list Destinations.Request * WorkspaceTables :=
  if String.eqb event "" then (WsError 400 "event_id required", [], t)
  else match we_ai env with
  | None => (WsError 500 "internal error", [], t)
  | Some st =>
      let d := DecideState st in
      match d_Err d with
      | Some _ => (WsError 500 "internal error", [], t)
      | None =>
          match d_NotConfigured d with
          | Some nc => (AINotReady nc, [], t)
          | None =>
              let ev := {| be_Id := event; be_Summary := ""; be_Guests := []; be_Start := "" |} in
              let '(b, prompts, t') := Generate userText (we_brief env) (brief_service d) user ev true t in
              (BriefShown b, sent_for d prompts, t')
          end
      end
  end.

Definition serveWorkspace (r : WorkspaceRequest) (t : WorkspaceTables) : WorkspaceAnswer * list Destinations.Request * WorkspaceTables :=
  let quiet (x : WorkspaceAnswer * WorkspaceTables) := (fst x, [], snd x) in
  match r with
  | SlackConnect => (slackConnect, [], t)
  | SlackCallback cookie state code => quiet (slackCallback cookie state code t)
  | SlackDisconnect => quiet (disconnect "slack" t)
  | SlackStatus => (status "slack" t, [], t)
  | NotionConnect => (notionConnect, [], t)
  | NotionCallback cookie state code => quiet (notionCallback cookie state code t)
  | NotionDisconnect => quiet (disconnect "notion" t)
  | NotionStatus => (status "notion" t, [], t)
  | BriefGet event => (getBrief event t, [], t)
  | BriefRefresh event => refreshBrief event t
  end.
End Handlers.

(** ** Facts: runes *)

Lemma take_bytes_app ps s a b : take_bytes ps s = Some (a, b) -> s = a +:+ b /\ forall y, take_bytes ps (a +:+ y) = Some (a, y).
Proof.
  revert s a b. induction ps as [|p ps IH]; intros s a b; cbn.
  - intros [= <- <-]. done.
  - destruct s as [|c r]; [done|]. destruct (p c) eqn:Ep; [|done]. destruct (take_bytes ps r) as [[x y]|] eqn:E; [|done].
    intros [= <- <-]. apply IH in E as [-> Hy]. split; [done|]. intros z. change (String c x +:+ z) with (String c (x +:+ z)). cbn. by rewrite Ep, Hy.
Qed.

(** A rune that was read is read again, and is at least a byte. *)
Lemma decode_rune_spec c r a b : decode_rune c r = (a, b) ->
  (String.length b <= String.length r)%nat /\
  exists c' r', a = String c' r' /\ forall y, decode_rune c' (r' +:+ y) = (a, y).
Proof.
  unfold decode_rune. destruct (followers c ≫= (fun ps => take_bytes ps r)) as [[x y]|] eqn:E; intros [= <- <-].
  - destruct (followers c) as [ps|] eqn:Ef; [|done]. cbn in E. apply take_bytes_app in E as [-> Hy]. split.
    + rewrite slen_app. lia.
    + exists c, x. split; [done|]. intros z. rewrite Ef. cbn. by rewrite Hy.
  - split; [done|]. eexists _, _. split; [reflexivity|]. intros z. reflexivity.
Qed.

Lemma runes_fuel_enough n s : (String.length s <= n)%nat -> runes_fuel n s = runes s.
Proof.
  assert (G : forall n m s, (String.length s <= n)%nat -> (String.length s <= m)%nat -> runes_fuel n s = runes_fuel m s).
  { intros n'. induction n' as [|n' IH]; intros m x Hn Hm; [destruct x; [by destruct m|cbn in Hn; lia]|].
    destruct x as [|c r]; [by destruct m|]. destruct m as [|m]; [cbn in Hm; lia|]. cbn [runes_fuel].
    destruct (decode_rune c r) as [a b] eqn:E. apply decode_rune_spec in E as [Hb _]. cbn in Hn, Hm. f_equal. apply IH; lia. }
  intros H. by apply G.
Qed.

Lemma runes_cons c r a b : decode_rune c r = (a, b) -> runes (String c r) = a :: runes b.
Proof.
  intros E. unfold runes at 1. cbn [String.length runes_fuel]. rewrite E. f_equal. apply runes_fuel_enough.
  apply decode_rune_spec in E as [H _]. exact H.
Qed.

(** The runes of a prefix made of runes. *)
Lemma runes_take n s : runes (sconcat (take n (runes s))) = take n (runes s).
Proof.
  remember (String.length s) as k eqn:Hk. assert (Hl : (String.length s <= k)%nat) by lia. clear Hk. revert n s Hl.
  induction k as [|k IH]; intros n s Hl.
  - destruct s; [|cbn in Hl; lia]. by destruct n.
  - destruct s as [|c r]; [by destruct n|]. destruct (decode_rune c r) as [a b] eqn:E. rewrite (runes_cons _ _ _ _ E).
    destruct n as [|n]; [done|]. cbn [take sconcat fold_right]. fold (sconcat (take n (runes b))).
    apply decode_rune_spec in E as (Hb & c' & r' & -> & Hy). change (String c' r' +:+ sconcat (take n (runes b))) with (String c' (r' +:+ sconcat (take n (runes b)))).
    rewrite (runes_cons c' _ (String c' r') (sconcat (take n (runes b)))) by apply Hy.
    f_equal. apply IH. cbn in Hl. lia.
Qed.

Lemma truncate_runes n s : (length (runes (truncate n "" s)) <= n)%nat.
Proof.
  unfold truncate. destruct (Nat.ltb_spec n (length (runes s))) as [H|H]; [|done]. rewrite app_nil_str, runes_take, length_take. lia.
Qed.

Lemma truncate_short n more s : (length (runes s) <= n)%nat -> truncate n more s = s.
Proof. intros H. unfold truncate. by destruct (Nat.ltb_spec n (length (runes s))); [lia|]. Qed.

(** ** Facts: the searches *)

Section CollectFacts.
Context {M R : Type} (cap : nat) (key : M -> string) (skip : M -> bool) (make : M -> R) (rkey : R -> string).
Hypothesis rkey_make : forall m, rkey (make m) = key m.

(** What has been taken: nothing twice, no more than the cap, each from a match
    that was found, and below the cap everything that was found. *)
Record collected (found : list M) (acc : list string * list R) : Prop := {
  co_seen : forall k, k ∈ fst acc <-> k ∈ map rkey (snd acc);
  co_once : NoDup (map rkey (snd acc));
  co_cap : (length (snd acc) <= cap)%nat;
  co_from : forall r, r ∈ snd acc -> exists m, m ∈ found /\ skip m = false /\ r = make m;
  co_all : (length (snd acc) < cap)%nat -> forall m, m ∈ found -> skip m = false -> key m ∈ map rkey (snd acc);
}.

Lemma collected_more found found' acc : found ⊆ found' -> (length (snd acc) = cap \/ found' ⊆ found) -> collected found acc -> collected found' acc.
Proof.
  intros Hsub Hor [H1 H2 H3 H4 H5]. constructor; try done.
  - intros r Hr. destruct (H4 r Hr) as (m & Hm & Hs & ->). exists m. split; [by apply Hsub|done].
  - intros Hlt m Hm Hs. destruct Hor as [Heq|Hsub']; [lia|]. apply H5; [done|by apply Hsub'|done].
Qed.

Lemma collect_spec ms : forall found acc, collected found acc -> (length (snd acc) < cap)%nat ->
  collected (found ++ ms) (collect cap key skip make ms acc).
Proof.
  induction ms as [|m ms IH]; intros found [seen results] Hacc Hlt; cbn [collect fst snd] in *; [by rewrite app_nil_r|].
  replace (found ++ m :: ms) with ((found ++ [m]) ++ ms) by (by rewrite <- app_assoc).
  destruct Hacc as [H1 H2 H3 H4 H5]. cbn [fst snd] in *. destruct (existsb (String.eqb (key m)) seen) eqn:Eseen; cbn [orb].
  { apply IH; [|done]. constructor; cbn [fst snd]; try done.
    - intros r Hr. destruct (H4 r Hr) as (x & Hx & ?). exists x. split; [apply elem_of_app; by left|done].
    - intros _ x [Hx| ->%list_elem_of_singleton]%elem_of_app Hs; [by apply H5|]. apply existsb_elem in Eseen as (k & Hk & ->%String.eqb_eq). by apply H1. }
  destruct (skip m) eqn:Es.
  { apply IH; [|done]. constructor; cbn [fst snd]; try done.
    - intros r Hr. destruct (H4 r Hr) as (x & Hx & ?). exists x. split; [apply elem_of_app; by left|done].
    - intros _ x [Hx| ->%list_elem_of_singleton]%elem_of_app Hs; [by apply H5|congruence]. }
  assert (Hnew : collected (found ++ [m]) (key m :: seen, results ++ [make m])).
  { constructor; cbn [fst snd].
    - intros k. rewrite elem_of_cons, List.map_app, elem_of_app, H1. cbn [map]. rewrite list_elem_of_singleton, rkey_make. tauto.
    - rewrite List.map_app. apply NoDup_app. split; [done|]. split; [|apply NoDup_singleton]. cbn [map]. intros k Hk Hk2%list_elem_of_singleton.
      rewrite rkey_make in Hk2. subst k. apply H1 in Hk. rewrite existsb_elem_false in Eseen. specialize (Eseen _ Hk). by rewrite String.eqb_refl in Eseen.
    - rewrite length_app. cbn. lia.
    - intros r [Hr| ->%list_elem_of_singleton]%elem_of_app.
      + destruct (H4 r Hr) as (x & Hx & ?). exists x. split; [apply elem_of_app; by left|done].
      + exists m. split; [apply elem_of_app; right; by left|done].
    - intros _ x [Hx| ->%list_elem_of_singleton]%elem_of_app Hs; rewrite List.map_app, elem_of_app; [left; by apply H5|right].
      cbn [map]. rewrite rkey_make. by left. }
  destruct (Nat.leb_spec cap (length (results ++ [make m]))) as [Hge|Hlt']; [|by apply IH].
  apply (collected_more (found ++ [m])); [intros x Hx; apply elem_of_app; by left| |done]. left. destruct Hnew as [_ _ Hc _ _]. cbn [snd] in *. lia.
Qed.

Lemma collect_terms_spec search terms : forall found acc, collected found acc ->
  collected (found ++ flat_map (fun term => default [] (search term)) terms) (collect_terms cap key skip make search terms acc).
Proof.
  induction terms as [|term terms IH]; intros found acc Hacc; cbn [collect_terms flat_map]; [by rewrite app_nil_r|].
  destruct (Nat.leb_spec cap (length (snd acc))) as [Hge|Hlt].
  - apply (collected_more found); [intros x Hx; apply elem_of_app; by left| |done]. left. destruct Hacc as [_ _ Hc _ _]. lia.
  - destruct (search term) as [ms|]; cbn [default]; [|by apply IH]. rewrite app_assoc. apply IH. by apply collect_spec.
Qed.

Lemma collected_nothing : collected [] ([], []).
Proof. constructor; cbn; try done; [constructor|lia|by intros r ?%not_elem_of_nil|by intros _ m ?%not_elem_of_nil]. Qed.

End CollectFacts.

(** What is made of a match plays no part in which are taken. *)
Lemma collect_map {M R} cap (key : M -> string) skip (make : M -> R) ms : forall seen l,
  collect cap key skip make ms (seen, map make l)
  = (fst (collect cap key skip id ms (seen, l)), map make (snd (collect cap key skip id ms (seen, l)))).
Proof.
  induction ms as [|m ms IH]; intros seen l; cbn [collect fst snd]; [done|]. destruct (existsb _ seen || skip m); [apply IH|].
  replace (map make l ++ [make m]) with (map make (l ++ [id m])) by apply List.map_app. rewrite List.length_map.
  by destruct (cap <=? length (l ++ [id m]))%nat.
Qed.

Lemma collect_terms_map {M R} cap (key : M -> string) skip (make : M -> R) search terms : forall seen l,
  collect_terms cap key skip make search terms (seen, map make l)
  = (fst (collect_terms cap key skip id search terms (seen, l)), map make (snd (collect_terms cap key skip id search terms (seen, l)))).
Proof.
  induction terms as [|term terms IH]; intros seen l; cbn [collect_terms fst snd]; [done|]. rewrite List.length_map.
  destruct (cap <=? length l)%nat; [done|]. destruct (search term) as [ms|]; [|apply IH]. rewrite collect_map.
  destruct (collect cap key skip id ms (seen, l)) as [seen' l']. apply IH.
Qed.

(** What a search takes: nothing twice, no more than the cap, each an answer to
    a term that is not passed over, and below the cap every such answer. *)
Record exact_search {M} (cap : nat) (key : M -> string) (skip : M -> bool) (search : string -> option (list M)) (terms : list string)
    (hits : list M) : Prop := {
  es_once : NoDup (map key hits);
  es_cap : (length hits <= cap)%nat;
  es_from : forall m, m ∈ hits -> skip m = false /\ exists term ms, term ∈ terms /\ search term = Some ms /\ m ∈ ms;
  es_all : (length hits < cap)%nat -> forall term ms m, term ∈ terms -> search term = Some ms -> m ∈ ms -> skip m = false ->
             key m ∈ map key hits }.

Lemma search_exact {M R} cap (key : M -> string) skip (make : M -> R) search terms :
  exists hits, snd (collect_terms cap key skip make search terms ([], [])) = map make hits /\ exact_search cap key skip search terms hits.
Proof.
  exists (snd (collect_terms cap key skip id search terms ([], []))). split; [exact (f_equal snd (collect_terms_map cap key skip make search terms [] []))|].
  destruct (collect_terms_spec cap key skip id key (fun _ => eq_refl) search terms [] ([], []) (collected_nothing _ _ _ _ _)) as [_ H2 H3 H4 H5].
  cbn [app] in *. constructor; try done.
  - intros r Hr. destruct (H4 r Hr) as (m & (term & Ht & Hm)%elem_of_flat_map & Hs & ->). split; [done|].
    destruct (search term) as [ms|] eqn:E; [|by apply not_elem_of_nil in Hm]. by exists term, ms.
  - intros Hlt term ms m Ht E Hm Hs. apply H5; [done| |done]. apply elem_of_flat_map. exists term. split; [done|]. by rewrite E.
Qed.


(** ** Facts: the tables of one user *)

Section Own.
Context {A : Type} (p q : A -> bool) (f : A -> A) (new : A).
Hypothesis p_q : forall x, p x = true -> q x = true.

Lemma existsb_own l : existsb p (keep q l) = existsb p l.
Proof.
  unfold keep. induction l as [|x l IH]; [done|]. cbn. destruct (q x) eqn:E; cbn; [by rewrite IH|].
  destruct (p x) eqn:Ep; [|exact IH]. rewrite (p_q _ Ep) in E. discriminate E.
Qed.

Lemma upsert_own l : (forall x, p x = true -> q (f x) = true) -> q new = true ->
  keep q (upsert p f new l) = upsert p f new (keep q l).
Proof.
  intros Hf Hn. unfold upsert. rewrite existsb_own. destruct (existsb p l).
  - unfold keep. induction l as [|x l IH]; [done|]. cbn. destruct (p x) eqn:E.
    + rewrite (Hf _ E), (p_q _ E). cbn. by rewrite E, IH.
    + destruct (q x); cbn; [by rewrite E, IH|exact IH].
  - unfold keep. rewrite List.filter_app. cbn. by rewrite Hn.
Qed.
End Own.

(** What the tables hold of a user, and of everyone else. *)
Definition own_rows (user : uuid) (t : WorkspaceTables) : WorkspaceTables :=
  {| wt_conns := keep (fun r => N.eqb (cn_User r) user) (wt_conns t); wt_briefs := keep (fun b => N.eqb (mb_User b) user) (wt_briefs t) |}.
Definition other_rows (user : uuid) (t : WorkspaceTables) : WorkspaceTables :=
  {| wt_conns := keep (fun r => negb (N.eqb (cn_User r) user)) (wt_conns t);
     wt_briefs := keep (fun b => negb (N.eqb (mb_User b) user)) (wt_briefs t) |}.

(** An operation of a user: it does to the user's rows alone what it does to the
    tables, and nothing to the rest. *)
Definition confined (user : uuid) (op : WorkspaceTables -> WorkspaceTables) : Prop :=
  forall t, op (own_rows user t) = own_rows user (op t) /\ other_rows user (op t) = other_rows user t.

Lemma conn_of_own user provider r : conn_of user provider r = true -> N.eqb (cn_User r) user = true.
Proof. unfold conn_of. by intros [H _]%andb_true_iff. Qed.
Lemma brief_of_own user event b : brief_of user event b = true -> N.eqb (mb_User b) user = true.
Proof. unfold brief_of. by intros [H _]%andb_true_iff. Qed.

Lemma confined_upsert_brief b : confined (mb_User b) (UpsertMeetingBrief b).
Proof.
  assert (H := brief_of_own (mb_User b) (mb_Event b)). intros t. unfold UpsertMeetingBrief, own_rows, other_rows, set_briefs. cbn. split; f_equal.
  - symmetry. apply upsert_own; [exact H|exact H|apply N.eqb_refl].
  - apply upsert_keep; [|by rewrite N.eqb_refl]. intros x Hx%H. cbn. by rewrite Hx.
Qed.

Lemma confined_delete user provider : confined user (DeleteWorkspaceConnection user provider).
Proof.
  intros t. unfold DeleteWorkspaceConnection, own_rows, other_rows, set_conns. cbn. split; f_equal; unfold keep;
    induction (wt_conns t) as [|r l IH]; cbn; try done.
  - destruct (N.eqb (cn_User r) user) eqn:E; cbn; destruct (conn_of user provider r) eqn:Ec; cbn; rewrite ?E, ?Ec; cbn; first [exact IH | f_equal; exact IH].
  - destruct (conn_of user provider r) eqn:Ec; cbn.
    + rewrite (conn_of_own _ _ _ Ec). exact IH.
    + destruct (N.eqb (cn_User r) user); cbn; [exact IH|by f_equal].
Qed.

Section OwnFacts.
Context {V : Vault} (userText : uuid -> string).

Lemma upsert_conn_cases id now c t :
  (exists e, UpsertWorkspaceConnection userText id now c t = (Err e, t) /\ forall t', UpsertWorkspaceConnection userText id now c t' = (Err e, t'))
  \/ exists op, confined (wc_UserID c) op /\ forall t', UpsertWorkspaceConnection userText id now c t' = (Ok tt, op t').
Proof.
  unfold UpsertWorkspaceConnection. destruct (v_seal _ (wc_AccessToken c)) as [access|e]; [|left; by exists e].
  destruct (v_seal _ (wc_BotToken c)) as [bot|e]; [|left; by exists e]. right. cbn zeta. eexists. split; [|done].
  assert (H := conn_of_own (wc_UserID c) (wc_Provider c)). intros t'. unfold own_rows, other_rows, set_conns. cbn. split; f_equal.
  - symmetry. apply upsert_own; [exact H|exact H|apply N.eqb_refl].
  - apply upsert_keep; [|by rewrite N.eqb_refl]. intros x Hx%H. cbn. by rewrite Hx.
Qed.

Lemma GetWorkspaceConnection_own user provider t :
  GetWorkspaceConnection userText (own_rows user t) user provider = GetWorkspaceConnection userText t user provider.
Proof. unfold GetWorkspaceConnection. cbn. rewrite find_keep_same; [done|apply conn_of_own]. Qed.

Lemma GetMeetingBrief_own user event t : GetMeetingBrief (own_rows user t) user event = GetMeetingBrief t user event.
Proof. unfold GetMeetingBrief. cbn. apply find_keep_same. apply brief_of_own. Qed.

Lemma confined_write env user i b : mb_User b = user -> confined user (write_brief env i b).
Proof. intros <- t. unfold write_brief. destruct (ge_written env i); [apply confined_upsert_brief|done]. Qed.

Lemma usable_own env user provider t :
  usable_connection userText env user (own_rows user t) provider = usable_connection userText env user t provider.
Proof. unfold usable_connection. destruct (ge_conn env provider); [|done]. by rewrite GetWorkspaceConnection_own. Qed.
End OwnFacts.

(** ** Facts: a generation *)

Section GenerateFacts.
Context {V : Vault} (userText : uuid -> string) (env : BriefEnv) (svc : BriefService) (user : uuid).

Definition keeps_apart {A} (step : WorkspaceTables -> A * WorkspaceTables) : Prop :=
  forall t, step (own_rows user t) = (fst (step t), own_rows user (snd (step t))) /\ other_rows user (snd (step t)) = other_rows user t.

Lemma Generate_own ev force : keeps_apart (Generate userText env svc user ev force).
Proof.
  intros t. unfold Generate. rewrite GetMeetingBrief_own.
  destruct (if force || _ then None else _) as [b|]; [done|]. cbv zeta.
  set (b1 := brief_at _ _ _ (ge_now env 0) [] [] _ _). destruct (confined_write env user 0 b1 eq_refl t) as [E1 O1].
  rewrite E1, !usable_own. set (t1 := write_brief env 0 b1 t) in *. destruct (sv_LLM svc) as [complete|].
  - destruct (complete _ _) as [text|e]; cbn [fst snd];
      match goal with |- context [write_brief env 1 ?b t1] => destruct (confined_write env user 1 b eq_refl t1) as [-> O2] end;
      (split; [done|by rewrite O2]).
  - cbn [fst snd]. match goal with |- context [write_brief env 1 ?b t1] => destruct (confined_write env user 1 b eq_refl t1) as [-> O2] end.
    split; [done|by rewrite O2].
Qed.

(** What a generation that is not answered from the table writes. *)
Inductive generated_text (ev : BriefEvent) (b : MeetingBrief) : list (string * string) -> Prop :=
| text_without_model : sv_LLM svc = None -> mb_Status b = "failed" ->
    mb_Text b = (if String.eqb (sv_Unavailable svc) "" then "LLM not configured" else sv_Unavailable svc) -> generated_text ev b []
| text_written complete prompt text : sv_LLM svc = Some complete -> prompt = buildBriefPrompt ev (mb_Slack b) (mb_Notion b) ->
    complete briefSystemPrompt prompt = Ok text -> mb_Status b = "ready" -> mb_Text b = sv_Redact svc text ->
    generated_text ev b [(briefSystemPrompt, prompt)]
| text_failed complete prompt e : sv_LLM svc = Some complete -> prompt = buildBriefPrompt ev (mb_Slack b) (mb_Notion b) ->
    complete briefSystemPrompt prompt = Err e -> mb_Status b = "failed" ->
    mb_Text b = (if String.eqb (sv_FailureText svc) "" then "LLM error: " +:+ sv_Redact svc e else sv_FailureText svc) ->
    generated_text ev b [(briefSystemPrompt, prompt)].

(** The first row of the brief: nothing found yet. *)
Definition pending_brief (ev : BriefEvent) : MeetingBrief := brief_at env user ev (ge_now env 0) [] [] "" "pending".

Definition slack_context (ev : BriefEvent) (t : WorkspaceTables) : list SlackMessage :=
  match usable_connection userText env user t "slack" with
  | Some c => fetchSlackMessages (ge_now env 1) (ge_slack env (wc_BotToken c)) (buildSearchTerms ev) | None => [] end.
Definition notion_context (ev : BriefEvent) (t : WorkspaceTables) : list NotionPage :=
  match usable_connection userText env user t "notion" with
  | Some c => fetchNotionPages (ge_local env) (ge_now env 2) (ge_notion env (wc_AccessToken c)) (buildSearchTerms ev) | None => [] end.

Lemma write_conns i b t : wt_conns (write_brief env i b t) = wt_conns t.
Proof. unfold write_brief. by destruct (ge_written env i). Qed.

Lemma usable_conns t t' provider : wt_conns t = wt_conns t' ->
  usable_connection userText env user t provider = usable_connection userText env user t' provider.
Proof. intros E. unfold usable_connection, GetWorkspaceConnection. by rewrite E. Qed.

Lemma forced_spec ev t b prompts t' : Generate userText env svc user ev true t = (b, prompts, t') ->
  mb_User b = user /\ mb_Event b = be_Id ev /\ mb_Slack b = slack_context ev t /\ mb_Notion b = notion_context ev t
  /\ generated_text ev b prompts /\ t' = write_brief env 1 b (write_brief env 0 (pending_brief ev) t).
Proof.
  unfold Generate, slack_context, notion_context. cbn [orb]. cbv zeta.
  rewrite !(usable_conns (write_brief _ _ _ t) t) by apply write_conns.
  set (sl := match usable_connection _ _ _ _ "slack" with Some _ => _ | None => _ end).
  set (no := match usable_connection _ _ _ _ "notion" with Some _ => _ | None => _ end).
  destruct (sv_LLM svc) as [complete|] eqn:El.
  - destruct (complete briefSystemPrompt (buildBriefPrompt ev sl no)) as [text|e] eqn:Ec; intros [= <- <- <-]; split_and!; try done.
    + by eapply text_written.
    + by eapply text_failed.
  - intros [= <- <- <-]. split_and!; try done. by apply text_without_model.
Qed.

(** What is not forced is answered from the table or is as if it were forced. *)
Lemma Generate_cases ev force t :
  (exists b, GetMeetingBrief t user (be_Id ev) = Some b /\ mb_Status b = "ready" /\ Generate userText env svc user ev force t = (b, [], t))
  \/ Generate userText env svc user ev force t = Generate userText env svc user ev true t.
Proof.
  unfold Generate. destruct force; [by right|]. cbn [orb]. destruct (negb (ge_readable env)); [by right|].
  destruct (GetMeetingBrief t user (be_Id ev)) as [b|]; [|by right]. cbn [mbind option_bind].
  destruct (String.eqb (mb_Status b) "ready" && _) eqn:E; [|by right]. left. exists b. apply andb_true_iff in E as [E%String.eqb_eq _]. done.
Qed.
End GenerateFacts.

(** A brief that was written is read. *)
Lemma GetMeetingBrief_written b t : exists x, GetMeetingBrief (UpsertMeetingBrief b t) (mb_User b) (mb_Event b) = Some x
  /\ mb_GeneratedAt x = mb_GeneratedAt b /\ mb_Slack x = mb_Slack b /\ mb_Notion x = mb_Notion b /\ mb_Text x = mb_Text b /\ mb_Status x = mb_Status b.
Proof.
  unfold GetMeetingBrief, UpsertMeetingBrief. cbn. rewrite upsert_find; [|done|unfold brief_of; by rewrite N.eqb_refl, String.eqb_refl].
  eexists. split; [done|]. by destruct (List.find _ (wt_briefs t)).
Qed.

Lemma GetMeetingBrief_other b t user event : (user, event) <> (mb_User b, mb_Event b) ->
  GetMeetingBrief (UpsertMeetingBrief b t) user event = GetMeetingBrief t user event.
Proof.
  intros Hne. assert (D : forall x, brief_of (mb_User b) (mb_Event b) x = true -> brief_of user event x = false).
  { unfold brief_of. intros x [->%N.eqb_eq ->%String.eqb_eq]%andb_true_iff. destruct (N.eqb_spec (mb_User b) user) as [<-|]; [|done].
    by destruct (String.eqb_spec (mb_Event b) event) as [<-|]. }
  unfold GetMeetingBrief, UpsertMeetingBrief. cbn. apply upsert_find_other.
  - intros x Hx. split; [by apply D|]. change (brief_of user event (rewritten b x)) with (brief_of user event x). by apply D.
  - apply D. unfold brief_of. by rewrite N.eqb_refl, String.eqb_refl.
Qed.

(** ** Properties *)

(** No request mixes two users: what is answered, what is sent and what is
    written depends only on the caller's own connections and briefs, and leaves
    those of everyone else as they are. *)
Theorem workspace_keeps_to_its_caller (V : Vault) userText env user r t :
  let '(a, sent, t') := serveWorkspace userText env user r t in
  serveWorkspace userText env user r (own_rows user t) = (a, sent, own_rows user t') /\ other_rows user t' = other_rows user t.
Proof.
  assert (D : forall p, confined user (fun t => if we_delete env then DeleteWorkspaceConnection user p t else t)).
  { intros p x. destruct (we_delete env); [apply confined_delete|done]. }
  assert (C : forall c l, wc_UserID c = user -> keeps_apart user (connect userText env c l)).
  { intros c l <- x. unfold connect. destruct (upsert_conn_cases userText (we_id env) (we_now env) c x) as [(e & -> & E)|(op & O & E)].
    - by rewrite E.
    - rewrite !E. by destruct (we_store env); [destruct (O x) as [-> ?]|]. }
  destruct r as [|cookie state code| | | |cookie state code| | |event|event]; cbn [serveWorkspace fst snd]; try done.
  - unfold slackCallback. destruct (negb _); [done|]. destruct (we_slack env code) as [tok|]; [|done].
    destruct (C (slack_connection env user tok) "/app/settings?tab=integrations&slack=connected" eq_refl t) as [-> ?]. done.
  - unfold disconnect. destruct (D "slack" t) as [-> ?]. done.
  - unfold status. by rewrite GetWorkspaceConnection_own.
  - unfold notionCallback. destruct (negb _); [done|]. destruct (we_notion env code) as [tok|]; [|done].
    destruct (C (notion_connection env user tok) "/app/settings?tab=integrations&notion=connected" eq_refl t) as [-> ?]. done.
  - unfold disconnect. destruct (D "notion" t) as [-> ?]. done.
  - unfold status. by rewrite GetWorkspaceConnection_own.
  - unfold getBrief. by rewrite GetMeetingBrief_own.
  - unfold refreshBrief. destruct (String.eqb event ""); [done|]. destruct (we_ai env) as [st|]; [|done]. cbv zeta.
    destruct (d_Err _); [done|]. destruct (d_NotConfigured _); [done|].
    match goal with |- context [Generate ?u ?e ?s ?us ?ev true t] => destruct (Generate_own u e s us ev true t) as [G1 G2]; rewrite G1;
      destruct (Generate u e s us ev true t) as [[b prompts] t'] end. done.
Qed.

(** A refresh that cannot use a model does nothing: it answers with a brief
    exactly when the caller has a client, and otherwise nothing is written and
    nothing is sent. *)
Theorem refresh_needs_a_client (V : Vault) userText env user event t a sent t' :
  (forall st, we_ai env = Some st -> supported st) -> refreshBrief userText env user event t = (a, sent, t') ->
  ((exists b, a = BriefShown b) <-> event <> "" /\ exists st c, we_ai env = Some st /\ d_Client (DecideState st) = Some c)
  /\ ((forall b, a <> BriefShown b) -> sent = [] /\ t' = t).
Proof.
  intros S. unfold refreshBrief. destruct (String.eqb_spec event "") as [->|He].
  { intros [= <- <- <-]. split; [|done]. split; [by intros [? ?]|by intros [? _]]. }
  destruct (we_ai env) as [st|]; [|intros [= <- <- <-]; split; [|done]; split; [by intros [? ?]|by intros (_ & ? & ? & ? & _)]].
  pose proof (decision_one_outcome st _ (S st eq_refl) (or_introl eq_refl)) as O. unfold one_outcome in O. cbv zeta.
  destruct (d_Client (DecideState st)) as [c|] eqn:Ec.
  - destruct (d_NotConfigured _); [by destruct (d_Err (DecideState st))|]. destruct (d_Err (DecideState st)); [done|].
    destruct (Generate _ _ _ _ _ _ _) as [[b prompts] t1]. intros [= <- <- <-]. split; [|by intros []%(fun H => H b)].
    split; [intros _; split; [done|by exists st, c]|intros _; by exists b].
  - assert (N : ~ exists st0 c, Some st = Some st0 /\ d_Client (DecideState st0) = Some c) by (intros (? & c & [= <-] & H); congruence).
    destruct (d_Err (DecideState st)); [|destruct (d_NotConfigured _); [|done]]; intros [= <- <- <-];
      (split; [|done]; split; [by intros [? ?]|by intros [_ []%N]]).
Qed.

(** What a refresh sends goes to the client's provider only: at most one
    request, to a destination the deployment approves, with the caller's own
    key or the key of an organisation whose terms the caller confirmed. *)
Theorem refresh_sends_to_approved (V : Vault) userText env user event t a sent t' req :
  refreshBrief userText env user event t = (a, sent, t') -> req ∈ sent ->
  sent = [req] /\ exists st c u pl, we_ai env = Some st /\ d_Client (DecideState st) = Some c /\ req = the_request c u pl
    /\ approved_destination (we_policy env) c u
    /\ (Organization (DecideState st) = true -> OrgAI.Confirmed (st_Org st) = true /\ newOrgClient (os_Config (st_Org st)) = Some c).
Proof.
  unfold refreshBrief. destruct (String.eqb event ""); [by intros [= <- <- <-] ?%not_elem_of_nil|].
  destruct (we_ai env) as [st|]; [|by intros [= <- <- <-] ?%not_elem_of_nil]. cbv zeta.
  destruct (d_Err _); [by intros [= <- <- <-] ?%not_elem_of_nil|]. destruct (d_NotConfigured _); [by intros [= <- <- <-] ?%not_elem_of_nil|].
  destruct (Generate _ _ _ _ _ _ _) as [[b prompts] t1] eqn:G. intros [= <- <- <-]. unfold sent_for.
  apply forced_spec in G as (_ & _ & _ & _ & T & _). destruct (d_Client (DecideState st)) as [c|] eqn:Ec; [|by intros ?%not_elem_of_nil].
  assert (K : forall s p, req ∈ flat_map (fun p => fst (Destinations.Complete (we_policy env) (we_network env) (we_extract env) c (fst p) (snd p))) [(s, p)] ->
    flat_map (fun p => fst (Destinations.Complete (we_policy env) (we_network env) (we_extract env) c (fst p) (snd p))) [(s, p)] = [req]
    /\ exists u pl, req = the_request c u pl /\ approved_destination (we_policy env) c u).
  { intros s p. cbn [flat_map fst snd]. rewrite app_nil_r. apply Complete_sent. }
  intros H. destruct T as [|complete prompt text|complete prompt e]; [by apply not_elem_of_nil in H|..];
    apply K in H as (-> & u & pl & -> & Ha); (split; [done|]); exists st, c, u, pl; (split_and!; try done);
    intros Ho; destruct (decide_client _ _ _ _ _ _ _ Ec) as ([k _ _ _ _ _ E _|_ _ _ Cf _ Hn _ _] & _);
      first [done | unfold Organization, DecideState in Ho; rewrite E in Ho; done].
Qed.

(** The texts a redaction replaces hold every key of the caller's. *)
Definition secret_of (st : AIState) (c : LLMClient) (k : string) : Prop :=
  k = client_key c \/ k = s_LLMUnboundAPIKey (st_Settings st) \/ exists p, k = For (s_LLMAPIKeys (st_Settings st)) p.

Lemma secret_redacted st c k msg : d_Client (DecideState st) = Some c -> secret_of st c k -> plain k ->
  ~ occurs k (Redact (DecideState st) msg).
Proof.
  intros Hc Hk P. apply RedactSecrets_removes; [done|]. destruct (decide_client _ _ _ _ _ _ _ Hc) as (_ & E & _).
  unfold DecideState. rewrite E, !elem_of_app, !list_elem_of_singleton. destruct Hk as [->|[->|[p ->]]]; [by right; right|by right; left|].
  left. apply AllKeys_For. by destruct P.
Qed.

(** C6: Whatever the provider answers, its brief shows no key: neither the brief that
    is answered nor the one that is kept holds the key that was sent or any other
    key of the caller's, in its text or in the message of a failure.  A key is
    a word without spaces that is not in the texts the program itself writes. *)
Theorem brief_shows_no_key (V : Vault) userText env user event t b sent t' st c k :
  refreshBrief userText env user event t = (BriefShown b, sent, t') -> we_ai env = Some st ->
  d_Client (DecideState st) = Some c -> CheckDestination (we_policy env) c = None ->
  secret_of st c k -> plain k -> free_of " " k = true -> ~ occurs k "LLM error:" -> ~ occurs k orgProviderFailureText ->
  ~ occurs k (mb_Text b)
  /\ forall x, GetMeetingBrief t' user event = Some x -> GetMeetingBrief t user event <> Some x -> ~ occurs k (mb_Text x).
Proof.
  intros H Hs Hc Hp Hk P F N1 N2. unfold refreshBrief in H. destruct (String.eqb event ""); [done|]. rewrite Hs in H. cbv zeta in H.
  destruct (d_Err _); [done|]. destruct (d_NotConfigured _); [done|]. destruct (Generate _ _ _ _ _ _ _) as [[b' prompts] t1] eqn:G.
  injection H as -> _ ->. apply forced_spec in G as (Eu & Ee & _ & _ & T & ->).
  assert (R := fun msg => secret_redacted st c k msg Hc Hk P). assert (Hb : ~ occurs k (mb_Text b)).
  { destruct T as [El _ _|complete prompt text _ _ _ _ ->|complete prompt e _ _ _ _ ->].
    - unfold brief_service in El. by rewrite Hc, Hp in El.
    - unfold brief_service. rewrite Hc, Hp. apply R.
    - unfold brief_service. rewrite Hc, Hp. cbn. destruct (Organization _); [exact N2|]. cbn.
      change ("LLM error: " +:+ ?x) with ("LLM error:" +:+ String " " x). by intros [?|?%R]%occurs_split. }
  split; [exact Hb|]. intros x. cbn [be_Id] in Ee. unfold write_brief. destruct (ge_written (we_brief env) 1).
  - match goal with |- context [UpsertMeetingBrief b ?z] => destruct (GetMeetingBrief_written b z) as (y & Ey & _ & _ & _ & E & _) end.
    rewrite Eu, Ee in Ey. rewrite Ey. intros [= <-] _. by rewrite E.
  - destruct (ge_written (we_brief env) 0); [|done].
    destruct (GetMeetingBrief_written (pending_brief (we_brief env) user {| be_Id := event; be_Summary := ""; be_Guests := []; be_Start := "" |}) t)
      as (y & Ey & _ & _ & _ & E & _). cbn [pending_brief brief_at mb_User mb_Event be_Id] in Ey. rewrite Ey. intros [= <-] _. rewrite E. cbn.
    intros ->%occurs_nil. by destruct P.
Qed.

(** What a brief shows of Slack and Notion.  Under the connection of the caller
    with the tokens that can be opened, it is what the terms of the meeting find:
    at most ten messages and eight pages, none twice, each message cut to two
    hundred runes and none that is known to be older than thirty days, each page
    with a title and none that is known to be older than ninety days; below the
    limits nothing that was found and is recent is missing.  Without a
    connection it is nothing. *)
Theorem brief_context_exact (V : Vault) userText env svc user ev t b prompts t' :
  Generate userText env svc user ev true t = (b, prompts, t') ->
  match usable_connection userText env user t "slack" with
  | Some c => exists hits, mb_Slack b = map slack_message hits
      /\ exact_search maxSlackMessages slack_key (slack_old (Add (ge_now env 1) (- slackLookback))) (ge_slack env (wc_BotToken c)) (buildSearchTerms ev) hits
  | None => mb_Slack b = []
  end
  /\ (forall m, m ∈ mb_Slack b -> (length (runes (sm_Text m)) <= msgExcerptLen)%nat)
  /\ match usable_connection userText env user t "notion" with
  | Some c => exists hits, mb_Notion b = map notion_page hits
      /\ exact_search maxNotionPages nx_ID (notion_skipped (ge_local env) (Add (ge_now env 2) (- notionLookback)))
           (ge_notion env (wc_AccessToken c)) (buildSearchTerms ev) hits
  | None => mb_Notion b = []
  end
  /\ (forall p, p ∈ mb_Notion b -> np_Title p <> "").
Proof.
  intros H. apply forced_spec in H as (_ & _ & -> & -> & _). unfold slack_context, notion_context.
  split; [|split; [|split]].
  - destruct (usable_connection _ _ _ _ "slack") as [c|]; [|done]. apply search_exact.
  - destruct (usable_connection _ _ _ _ "slack") as [c|]; [|by intros m ?%not_elem_of_nil]. unfold fetchSlackMessages.
    edestruct @search_exact as (hits & -> & _). intros m (x & -> & _)%list_elem_of_fmap. apply truncate_runes.
  - destruct (usable_connection _ _ _ _ "notion") as [c|]; [|done]. apply search_exact.
  - destruct (usable_connection _ _ _ _ "notion") as [c|]; [|by intros m ?%not_elem_of_nil]. unfold fetchNotionPages.
    edestruct @search_exact as (hits & -> & X). intros p (x & -> & Hx)%list_elem_of_fmap. destruct (es_from _ _ _ _ _ _ X x Hx) as [Hs _].
    unfold notion_skipped in Hs. apply orb_false_iff in Hs as [_ Hs]. by apply String.eqb_neq in Hs.
Qed.

(** The terms of a meeting: at most five, each longer than three bytes before it
    is cut to fifty runes, from its title and the names of its guests. *)
Lemma add_terms_spec l : forall seen terms (from : list string),
  Forall (fun x => exists s, s ∈ from /\ x = truncate maxTermLen "" (TrimSpace s)) terms ->
  Forall (fun x => exists s, s ∈ from ++ l /\ x = truncate maxTermLen "" (TrimSpace s)) (snd (fold_left add_term l (seen, terms))).
Proof.
  induction l as [|s l IH]; intros seen terms from H; cbn [fold_left]; [by rewrite app_nil_r|].
  replace (from ++ s :: l) with ((from ++ [s]) ++ l) by (by rewrite <- app_assoc). unfold add_term at 2.
  assert (H' : Forall (fun x => exists s0, s0 ∈ from ++ [s] /\ x = truncate maxTermLen "" (TrimSpace s0)) terms).
  { eapply Forall_impl; [exact H|]. intros x (y & Hy & ->). exists y. split; [apply elem_of_app; by left|done]. }
  destruct (_ || _); apply IH; [done|]. apply Forall_app. split; [done|]. apply Forall_singleton. exists s. split; [|done].
  apply elem_of_app. right. by left.
Qed.

Theorem search_terms_bounded ev :
  (length (buildSearchTerms ev) <= maxTerms)%nat
  /\ forall term, term ∈ buildSearchTerms ev -> (length (runes term) <= maxTermLen)%nat
       /\ exists s, (s = be_Summary ev \/ exists mail, (s, mail) ∈ be_Guests ev) /\ term = truncate maxTermLen "" (TrimSpace s).
Proof.
  unfold buildSearchTerms. split; [rewrite length_take; lia|]. intros term Ht%elem_of_take.
  destruct Ht as (i & Hi & _). apply list_elem_of_lookup_2 in Hi.
  set (names := keep _ (map fst (be_Guests ev))) in *.
  pose proof (add_terms_spec (be_Summary ev :: names) [] [] [] (Forall_nil_2 _)) as F. rewrite Forall_forall in F.
  destruct (F term Hi) as (s & Hs & ->). split; [apply truncate_runes|]. exists s. split; [|done]. cbn [app] in Hs.
  apply elem_of_cons in Hs as [->|Hs]; [by left|right]. apply elem_of_keep in Hs as [((n & mail) & -> & Hn)%list_elem_of_fmap _]. by exists mail.
Qed.

(** A callback that connects does so for a state that is the cookie's, with the
    tokens of the exchange: they are read back as they were given, and the
    caller's other connection is as before. *)
Lemma connect_reads_back {V : Vault} {L : VaultLaws V} userText env c location t l k t' :
  connect userText env c location t = (WsRedirect l k, t') ->
  l = location /\ k = None
  /\ (exists x, GetWorkspaceConnection userText t' (wc_UserID c) (wc_Provider c) = Some x
       /\ wc_AccessToken x = wc_AccessToken c /\ wc_BotToken x = wc_BotToken c /\ wc_TokenErr x = None
       /\ wc_WorkspaceID x = wc_WorkspaceID c /\ wc_WorkspaceName x = wc_WorkspaceName c /\ wc_Scopes x = wc_Scopes c)
  /\ forall p, p <> wc_Provider c -> GetWorkspaceConnection userText t' (wc_UserID c) p = GetWorkspaceConnection userText t (wc_UserID c) p.
Proof.
  unfold connect, UpsertWorkspaceConnection. destruct (v_seal _ (wc_AccessToken c)) as [access|e] eqn:Ea; [|done].
  destruct (v_seal _ (wc_BotToken c)) as [bot|e] eqn:Eb; [|done]. cbv zeta. destruct (we_store env); [|done]. intros [= <- <- <-].
  assert (D : forall p x, p <> wc_Provider c -> conn_of (wc_UserID c) (wc_Provider c) x = true -> conn_of (wc_UserID c) p x = false).
  { unfold conn_of. intros p x Hp [_ ->%String.eqb_eq]%andb_true_iff. destruct (String.eqb_spec (wc_Provider c) p); [congruence|]. by rewrite andb_false_r. }
  split; [done|]. split; [done|]. split.
  - unfold GetWorkspaceConnection. cbn [wt_conns set_conns]. rewrite upsert_find; [|done|unfold conn_of; by rewrite N.eqb_refl, String.eqb_refl].
    match goal with |- context [Some ?r] => set (row := r) end. cbn [fmap option_fmap option_map]. eexists. split; [done|].
    assert (R : (cn_User row = wc_UserID c /\ cn_Provider row = wc_Provider c) /\ cn_Access row = access /\ cn_Bot row = bot
       /\ cn_WorkspaceID row = wc_WorkspaceID c /\ cn_WorkspaceName row = wc_WorkspaceName c /\ cn_Scopes row = wc_Scopes c).
    { unfold row. destruct (List.find _ (wt_conns t)) as [r|] eqn:Ef; [|done]. apply find_some in Ef as [_ Ef]. unfold conn_of in Ef.
      apply andb_true_iff in Ef as [Eu%N.eqb_eq Ep%String.eqb_eq]. by split_and!. }
    clearbody row. destruct R as ([Ru Rp] & Ra & Rb & Ri & Rn & Rs). unfold open_connection. rewrite Ru, Rp, Ra, Rb.
    unfold open_or_empty. rewrite (v_seal_open _ _ _ Ea), (v_seal_open _ _ _ Eb). done.
  - intros p Hp. unfold GetWorkspaceConnection. cbn [wt_conns set_conns]. rewrite upsert_find_other; [done| |].
    + intros x Hx. split; [by apply (D p x)|]. change (conn_of (wc_UserID c) p (reconnected c access bot (we_now env) x)) with (conn_of (wc_UserID c) p x). by apply (D p x).
    + apply (D p); [done|]. unfold conn_of. by rewrite N.eqb_refl, String.eqb_refl.
Qed.

Theorem slack_callback_connects (V : Vault) (L : VaultLaws V) userText env user cookie state code t l k t' :
  slackCallback userText env user cookie state code t = (WsRedirect l k, t') ->
  cookie = Some state /\ exists tok c, we_slack env code = Some tok
    /\ GetWorkspaceConnection userText t' user "slack" = Some c /\ wc_TokenErr c = None
    /\ wc_BotToken c = sk_Bot tok /\ wc_AccessToken c = sk_User tok
    /\ (we_read env = true -> status userText env user "slack" t' = WsStatus (Some (sk_TeamName tok)))
    /\ status userText env user "notion" t' = status userText env user "notion" t.
Proof.
  unfold slackCallback. destruct (state_matches cookie state) eqn:Es; [|done]. cbn [negb]. destruct (we_slack env code) as [tok|]; [|done].
  intros H. apply connect_reads_back in H as (_ & _ & (c & E & E1 & E2 & E3 & _ & E5 & _) & O). cbn [slack_connection wc_UserID wc_Provider] in E, O.
  split; [unfold state_matches in Es; destruct cookie; [by apply String.eqb_eq in Es as ->|done]|]. exists tok, c. split_and!; try done.
  - intros Hr. unfold status. by rewrite Hr, E, E3, E5.
  - unfold status. by rewrite O.
Qed.

Theorem notion_callback_connects (V : Vault) (L : VaultLaws V) userText env user cookie state code t l k t' :
  notionCallback userText env user cookie state code t = (WsRedirect l k, t') ->
  cookie = Some state /\ exists tok c, we_notion env code = Some tok
    /\ GetWorkspaceConnection userText t' user "notion" = Some c /\ wc_TokenErr c = None /\ wc_AccessToken c = nk_Access tok
    /\ (we_read env = true -> status userText env user "notion" t' = WsStatus (Some (nk_WorkspaceName tok)))
    /\ status userText env user "slack" t' = status userText env user "slack" t.
Proof.
  unfold notionCallback. destruct (state_matches cookie state) eqn:Es; [|done]. cbn [negb]. destruct (we_notion env code) as [tok|]; [|done].
  intros H. apply connect_reads_back in H as (_ & _ & (c & E & E1 & _ & E3 & _ & E5 & _) & O). cbn [notion_connection wc_UserID wc_Provider] in E, O.
  split; [unfold state_matches in Es; destruct cookie; [by apply String.eqb_eq in Es as ->|done]|]. exists tok, c. split_and!; try done.
  - intros Hr. unfold status. by rewrite Hr, E, E3, E5.
  - unfold status. by rewrite O.
Qed.

(** A disconnected provider gives a brief nothing. *)
Theorem disconnected_gives_nothing (V : Vault) userText env user provider t :
  we_delete env = true ->
  let t' := snd (disconnect env user provider t) in
  status userText env user provider t' = WsStatus None /\ forall benv, usable_connection userText benv user t' provider = None.
Proof.
  intros Hd. cbn zeta. unfold disconnect. rewrite Hd. cbn [snd].
  assert (E : GetWorkspaceConnection userText (DeleteWorkspaceConnection user provider t) user provider = None).
  { unfold GetWorkspaceConnection, DeleteWorkspaceConnection. cbn. destruct (List.find _ _) as [r|] eqn:F; [|done].
    apply find_some in F as [Hi Hr]. apply filter_In in Hi as [_ Hi]. by rewrite Hr in Hi. }
  split; [unfold status; rewrite E; by destruct (we_read env)|]. intros benv. unfold usable_connection. rewrite E. by destruct (ge_conn benv provider).
Qed.

(** A brief is asked for once a day: when the generation ends ready and is kept,
    a generation that is not forced within a day gives the kept brief, asks
    nobody and writes nothing. *)
Theorem ready_brief_is_cached (V : Vault) userText env svc user ev force t b prompts t' (V2 : Vault) userText2 env2 svc2 ev2 :
  Generate userText env svc user ev force t = (b, prompts, t') -> ge_written env 1 = true -> mb_Status b = "ready" ->
  be_Id ev2 = be_Id ev -> ge_readable env2 = true -> Sub (ge_now env2 0) (mb_GeneratedAt b) < briefCacheTTL ->
  exists x, Generate (V := V2) userText2 env2 svc2 user ev2 false t' = (x, [], t')
    /\ mb_Text x = mb_Text b /\ mb_Slack x = mb_Slack b /\ mb_Notion x = mb_Notion b /\ mb_Status x = "ready".
Proof.
  intros H Hw Hr He Hrd Hlt.
  assert (G : exists x, GetMeetingBrief t' user (be_Id ev) = Some x /\ mb_GeneratedAt x = mb_GeneratedAt b
    /\ mb_Text x = mb_Text b /\ mb_Slack x = mb_Slack b /\ mb_Notion x = mb_Notion b /\ mb_Status x = "ready").
  { assert (F : forall t1, Generate userText env svc user ev true t1 = (b, prompts, t') -> exists x, GetMeetingBrief t' user (be_Id ev) = Some x
       /\ mb_GeneratedAt x = mb_GeneratedAt b /\ mb_Text x = mb_Text b /\ mb_Slack x = mb_Slack b /\ mb_Notion x = mb_Notion b /\ mb_Status x = "ready").
    { intros t1 (Eu & Ee & _ & _ & _ & ->)%forced_spec. unfold write_brief at 1. rewrite Hw.
      match goal with |- context [UpsertMeetingBrief b ?z] => destruct (GetMeetingBrief_written b z) as (x & Ex & X1 & X2 & X3 & X4 & X5) end.
      rewrite Eu, Ee in Ex. exists x. split_and!; try done. by rewrite X5. }
    destruct (Generate_cases userText env svc user ev force t) as [(b0 & E1 & E2 & E)|E]; rewrite E in H; [|by eapply F].
    injection H as <- <- <-. by exists b0. }
  destruct G as (x & Ex & X1 & X2 & X3 & X4 & X5). exists x. split; [|done]. unfold Generate. rewrite Hrd, He, Ex. cbn.
  rewrite X5, X1. cbn. by destruct (Z.ltb_spec (Sub (ge_now env2 0) (mb_GeneratedAt b)) briefCacheTTL); [|lia].
Qed.

(** A refresh knows nothing of the meeting but its key: whatever is connected
    and whatever Slack and Notion would find, the brief it writes has no source,
    and the model is asked about a meeting without a name. *)
Theorem refreshed_brief_has_no_sources (V : Vault) userText env user event t b sent t' :
  refreshBrief userText env user event t = (BriefShown b, sent, t') ->
  mb_Slack b = [] /\ mb_Notion b = []
  /\ forall req, req ∈ sent -> exists st c, we_ai env = Some st /\ d_Client (DecideState st) = Some c
       /\ req ∈ fst (Destinations.Complete (we_policy env) (we_network env) (we_extract env) c briefSystemPrompt
            ("Meeting: " +:+ nl +:+ nl +:+ "Notion pages found:" +:+ nl +:+ "(none)" +:+ nl +:+ nl +:+ "Slack messages found:" +:+ nl +:+
             "(none)" +:+ nl +:+ nl +:+ "Write the meeting brief.")).
Proof.
  unfold refreshBrief. destruct (String.eqb event ""); [done|]. destruct (we_ai env) as [st|]; [|done]. cbv zeta.
  destruct (d_Err _); [done|]. destruct (d_NotConfigured _); [done|]. destruct (Generate _ _ _ _ _ _ _) as [[b' prompts] t1] eqn:G.
  intros [= -> <- <-]. apply forced_spec in G as (_ & _ & Es & En & T & _).
  assert (N : mb_Slack b = [] /\ mb_Notion b = []).
  { rewrite Es, En. unfold slack_context, notion_context. split; by destruct (usable_connection _ _ _ _ _). }
  destruct N as [N1 N2]. split; [done|]. split; [done|]. unfold sent_for.
  destruct (d_Client (DecideState st)) as [c|] eqn:Ec; [|by intros req ?%not_elem_of_nil].
  destruct T as [|complete prompt text _ -> _ _ _|complete prompt e _ -> _ _ _]; [by intros req ?%not_elem_of_nil|..];
    rewrite N1, N2; intros req Hr; exists st, c; (split; [done|]); (split; [done|]); cbn [flat_map fst snd] in Hr; rewrite app_nil_r in Hr; exact Hr.
Qed.

(** ** Concrete runs *)

#[local] Existing Instances AdminStore.Demo.vault AdminStore.Demo.vault_laws.

Module BriefDemo.

Definition user_text (u : uuid) : string := if N.eqb u 1%N then "u1" else "u2".
Definition now : time := Date 2026 3 2 9 0 0 0 UTC.

(** Slack answers a term with a recent message, one that is too old and one that
    was found before; Notion with a page and one without a title. *)
Definition message (channel ts text : string) : SlackMatch :=
  {| sx_Channel := channel; sx_Username := "ann"; sx_Text := text; sx_Ts := ts; sx_Permalink := "" |}.
Definition slack (token term : string) : option (list SlackMatch) :=
  if String.eqb token "xoxb-1"
  then Some [message "general" "1772400000.1" ("about " +:+ term); message "general" "1700000000.2" "old"; message "general" "1772400000.1" "again"]
  else None.
Definition notion (token term : string) : option (list NotionHit) :=
  Some [{| nx_ID := "p1"; nx_URL := "https://notion.so/p1"; nx_LastEdited := "2026-03-01T09:00:00Z"; nx_Properties := [[]; ["Roadmap"]] |};
        {| nx_ID := "p2"; nx_URL := "https://notion.so/p2"; nx_LastEdited := "2026-03-01T09:00:00Z"; nx_Properties := [[""]] |}].

Definition brief_env (hour : Z) : BriefEnv :=
  {| ge_now _ := Date 2026 3 2 hour 0 0 0 UTC; ge_id := 9%N; ge_local := UTC; ge_readable := true; ge_conn _ := true; ge_written _ := true;
     ge_slack := slack; ge_notion := notion |}.

(** A provider that quotes the key it was sent. *)
Definition network (_ : Destinations.Request) : option Destinations.Response :=
  Some {| rs_Status := 401; rs_Location := false; rs_Body := "bad key sk-own" |}.
Definition err_text (e : SendError) : string := match e with ErrorStatus _ body => body | _ => "failed" end.

Definition env : WorkspaceEnv :=
  {| we_getenv _ := "client"; we_state := "s1"; we_now := now; we_id := 5%N;
     we_slack _ := Some {| sk_User := "xoxp-1"; sk_Bot := "xoxb-1"; sk_TeamID := "T1"; sk_TeamName := "Acme"; sk_Scope := "search:read" |};
     we_notion _ := Some {| nk_Access := "ntn-1"; nk_WorkspaceID := "W1"; nk_WorkspaceName := "Docs" |};
     we_store := true; we_delete := true; we_read := true; we_brief := brief_env 9; we_ai := Some (AIDecision.demo_state "openai");
     we_policy := OrgDemo.pol; we_network := network; we_extract := Some; we_errText := err_text |}.

Definition start : WorkspaceTables := {| wt_conns := []; wt_briefs := [] |}.
Definition connected : WorkspaceAnswer * WorkspaceTables := slackCallback user_text env 1%N (Some "s1") "s1" "code" start.
Definition both : WorkspaceTables := snd (notionCallback user_text env 1%N (Some "s1") "s1" "code" (snd connected)).

Definition meeting : BriefEvent :=
  {| be_Id := "e1"; be_Summary := "Launch"; be_Guests := [("Bob Stone", "bob@x.org"); ("", "cleo@x.org")]; be_Start := "2026-03-02T14:00:00Z" |}.
Definition writer : BriefService :=
  {| sv_LLM := Some (fun _ prompt => Ok "read the roadmap"); sv_Unavailable := ""; sv_FailureText := ""; sv_Redact s := s |}.
Definition generated : MeetingBrief * list (string * string) * WorkspaceTables :=
  Generate user_text (brief_env 9) writer 1%N meeting true both.
Definition refreshed : WorkspaceAnswer * list Destinations.Request * WorkspaceTables := refreshBrief user_text env 1%N "e1" both.

End BriefDemo.
Import BriefDemo.

Example demo_terms : buildSearchTerms meeting = ["Launch"; "Bob Stone"].
Proof. vm_compute. reflexivity. Qed.

Example demo_brief : let '(b, prompts, _) := generated in
  map sm_Text (mb_Slack b) = ["about Launch"] /\ map np_Title (mb_Notion b) = ["Roadmap"] /\ mb_Status b = "ready" /\ length prompts = 1%nat.
Proof. vm_compute. split_and!; reflexivity. Qed.

(** The same meeting refreshed by its button: connected as before, the brief has
    no source. *)
Example demo_refreshed : let '(a, sent, _) := refreshed in
  length sent = 1%nat /\ a = BriefShown {| mb_ID := 9%N; mb_Event := "e1"; mb_User := 1%N; mb_GeneratedAt := now; mb_Slack := []; mb_Notion := [];
    mb_Text := "LLM error: bad key [redacted]"; mb_Status := "failed" |}.
Proof. vm_compute. split; reflexivity. Qed.

Example demo_runes : runes (truncate 2 "" (String (ascii_of_nat 195) (String (ascii_of_nat 169) "ab")))
  = [String (ascii_of_nat 195) (String (ascii_of_nat 169) ""); "a"].
Proof. vm_compute. reflexivity. Qed.

(** ** Witnesses *)

Lemma demo_supported st : we_ai env = Some st -> supported st.
Proof. intros [= <-]. right. vm_compute. reflexivity. Qed.

Lemma triple_eta {A B C} (x : A * B * C) : x = (fst (fst x), snd (fst x), snd x).
Proof. by destruct x as [[a b] c]. Qed.

Lemma refreshed_shown : exists b, refreshBrief user_text env 1%N "e1" both = (BriefShown b, snd (fst refreshed), snd refreshed)
  /\ mb_Text b = "LLM error: bad key [redacted]".
Proof.
  assert (H : exists b, fst (fst refreshed) = BriefShown b /\ mb_Text b = "LLM error: bad key [redacted]")
    by (vm_compute; eexists; split; reflexivity).
  destruct H as (b & H & Ht). exists b. split; [|exact Ht]. rewrite <- H. exact (triple_eta refreshed).
Qed.

Lemma refresh_needs_a_client_witness : exists b, refreshBrief user_text env 1%N "e1" both = (BriefShown b, snd (fst refreshed), snd refreshed)
  /\ exists st c, we_ai env = Some st /\ d_Client (DecideState st) = Some c.
Proof.
  destruct refreshed_shown as (b & H & _). exists b. split; [exact H|].
  exact (proj2 (proj1 (proj1 (refresh_needs_a_client _ user_text env 1%N "e1" both _ _ _ demo_supported H)) (ex_intro _ b eq_refl))).
Defined.

Lemma refresh_sends_to_approved_witness : exists req, snd (fst refreshed) = [req]
  /\ exists st c u, d_Client (DecideState st) = Some c /\ approved_destination (we_policy env) c u.
Proof.
  assert (H : exists req, snd (fst refreshed) = [req]) by (vm_compute; eexists; reflexivity). destruct H as [req H]. exists req. split; [exact H|].
  destruct refreshed_shown as (b & E & _).
  destruct (refresh_sends_to_approved _ user_text env 1%N "e1" both _ _ _ req E) as (_ & st & c & u & pl & _ & Ec & _ & Ha & _).
  - rewrite H. left.
  - exists st, c, u. split; [exact Ec|exact Ha].
Defined.

Lemma brief_shows_no_key_witness : exists b, refreshBrief user_text env 1%N "e1" both = (BriefShown b, snd (fst refreshed), snd refreshed)
  /\ mb_Text b = "LLM error: bad key [redacted]" /\ ~ occurs "sk-own" (mb_Text b).
Proof.
  destruct refreshed_shown as (b & H & Ht). exists b. split; [exact H|]. split; [exact Ht|].
  destruct (d_Client (DecideState (AIDecision.demo_state "openai"))) as [c|] eqn:C; [|vm_compute in C; discriminate C].
  refine (proj1 (brief_shows_no_key _ user_text env 1%N "e1" both b _ _ (AIDecision.demo_state "openai") c "sk-own" H eq_refl C _ _ _ _ _ _)).
  - vm_compute in C. injection C as <-. vm_compute. reflexivity.
  - right. right. exists "openai". vm_compute. reflexivity.
  - split; [discriminate|]. split; [vm_compute; reflexivity|]. split; [vm_compute; reflexivity|]. apply cut_str_None. vm_compute. reflexivity.
  - reflexivity.
  - apply cut_str_None. vm_compute. reflexivity.
  - apply cut_str_None. vm_compute. reflexivity.
Defined.

Lemma brief_context_exact_witness : map np_Title (mb_Notion (fst (fst generated))) = ["Roadmap"]
  /\ forall p, p ∈ mb_Notion (fst (fst generated)) -> np_Title p <> "".
Proof.
  split; [vm_compute; reflexivity|].
  pose proof (triple_eta generated) as H. unfold generated at 1 in H.
  destruct (brief_context_exact _ _ _ _ _ _ _ _ _ _ H) as (_ & _ & _ & T). exact T.
Defined.

Lemma slack_callback_connects_witness : status user_text env 1%N "slack" (snd connected) = WsStatus (Some "Acme").
Proof.
  assert (E : exists l k, fst connected = WsRedirect l k) by (vm_compute; do 2 eexists; reflexivity). destruct E as (l & k & E).
  pose proof (surjective_pairing connected) as H. rewrite E in H. unfold connected at 1 in H.
  destruct (slack_callback_connects _ _ user_text env 1%N (Some "s1") "s1" "code" start l k _ H)
    as (_ & tok & c & Et & _ & _ & _ & _ & Hs & _).
  injection Et as <-. exact (Hs eq_refl).
Defined.

Lemma notion_callback_connects_witness : status user_text env 1%N "slack" both = status user_text env 1%N "slack" (snd connected).
Proof.
  set (r := notionCallback user_text env 1%N (Some "s1") "s1" "code" (snd connected)).
  assert (E : exists l k, fst r = WsRedirect l k) by (vm_compute; do 2 eexists; reflexivity). destruct E as (l & k & E).
  pose proof (surjective_pairing r) as H. rewrite E in H.
  destruct (notion_callback_connects _ _ user_text env 1%N (Some "s1") "s1" "code" (snd connected) l k (snd r) H)
    as (_ & tok & c & _ & _ & _ & _ & _ & Hs). exact Hs.
Defined.

Lemma disconnected_gives_nothing_witness : status user_text env 1%N "slack" (snd (disconnect env 1%N "slack" both)) = WsStatus None.
Proof. exact (proj1 (disconnected_gives_nothing _ user_text env 1%N "slack" both eq_refl)). Defined.

Lemma ready_brief_is_cached_witness : exists x, Generate user_text (brief_env 20) writer 1%N meeting false (snd generated) = (x, [], snd generated)
  /\ mb_Text x = "read the roadmap".
Proof.
  pose proof (triple_eta generated) as H. unfold generated at 1 in H.
  destruct (ready_brief_is_cached _ user_text (brief_env 9) writer 1%N meeting true both _ _ _ _ user_text (brief_env 20) writer meeting H)
    as (x & Ex & Et & _).
  - reflexivity.
  - vm_compute. reflexivity.
  - reflexivity.
  - reflexivity.
  - vm_compute. reflexivity.
  - exists x. split; [exact Ex|]. rewrite Et. vm_compute. reflexivity.
Defined.

Lemma refreshed_brief_has_no_sources_witness :
  exists b, refreshBrief user_text env 1%N "e1" both = (BriefShown b, snd (fst refreshed), snd refreshed) /\ mb_Slack b = [].
Proof.
  destruct refreshed_shown as (b & H & _). exists b. split; [exact H|].
  exact (proj1 (refreshed_brief_has_no_sources _ user_text env 1%N "e1" both b _ _ H)).
Defined.
