(* ===== verification/DailyRecap.v ===== *)
(** * The daily recap

    [engine/daily_recap.go], [api/handlers_daily_recap.go] and
    [SaveRecapSettingsForUser]: the morning message through Slack, when it is
    due, what it says, the walk over the users and the four handlers.  What
    Slack answers, the zone of the database session and the order of rows that
    no query orders are parameters. *)

From S2P Require Import Prelude GoInt GoTime GoText GoEncoding GoURL SecretStore AdminStore OrgAI Calendar Habits ManagerEngine MeetingBriefs LinkStore.

#[local] Open Scope string_scope.
#[local] Open Scope list_scope.
#[local] Open Scope Z_scope.

(** ** Tables *)

(** The recap's columns of a settings row, with its zone. *)
Record RecapSettings := {
  rp_Timezone : string; rp_Enabled : bool; rp_SendTime : string; rp_SendTo : string; rp_ChannelID : string;
  rp_IncludeBriefs : bool; rp_IncludeFocus : bool; rp_IncludeHabits : bool }.

(** [INSERT INTO settings (user_id)]: the defaults of the columns. *)
Definition default_recap : RecapSettings :=
  {| rp_Timezone := "UTC"; rp_Enabled := false; rp_SendTime := "08:00"; rp_SendTo := "dm"; rp_ChannelID := "";
     rp_IncludeBriefs := true; rp_IncludeFocus := true; rp_IncludeHabits := true |}.

(** A row of [recap_sends]; [sd_Date] is its DATE as a day number. *)
Record RecapSend := { sd_User : uuid; sd_Date : Z; sd_At : time; sd_SlackTs : string; sd_Status : string }.

Record RecapTables := {
  rt_users : list (uuid * string);                 (** the users with their names *)
  rt_settings : list (uuid * RecapSettings);
  rt_sends : list RecapSend;
  rt_work : WorkspaceTables;
  rt_focus : list FocusBlockRow;
  rt_habits : list Habit;
  rt_occs : list HabitOccurrence }.

Definition on_settings (f : list (uuid * RecapSettings) -> list (uuid * RecapSettings)) (t : RecapTables) : RecapTables :=
  {| rt_users := rt_users t; rt_settings := f (rt_settings t); rt_sends := rt_sends t; rt_work := rt_work t; rt_focus := rt_focus t;
     rt_habits := rt_habits t; rt_occs := rt_occs t |}.
Definition on_sends (f : list RecapSend -> list RecapSend) (t : RecapTables) : RecapTables :=
  {| rt_users := rt_users t; rt_settings := rt_settings t; rt_sends := f (rt_sends t); rt_work := rt_work t; rt_focus := rt_focus t;
     rt_habits := rt_habits t; rt_occs := rt_occs t |}.

Definition settings_of (user : uuid) (r : uuid * RecapSettings) : bool := N.eqb (fst r) user.

(** [GetOrCreateSettingsByUser]. *)
Definition GetOrCreateSettings (user : uuid) (t : RecapTables) : RecapSettings * RecapTables :=
  match List.find (settings_of user) (rt_settings t) with
  | Some (_, s) => (s, t)
  | None => (default_recap, on_settings (fun l => l ++ [(user, default_recap)]) t)
  end.

(** [SaveRecapSettingsForUser]: the seven columns, the zone stays. *)
Definition saved_recap (s r : RecapSettings) : RecapSettings :=
  {| rp_Timezone := rp_Timezone r; rp_Enabled := rp_Enabled s;
     rp_SendTime := if String.eqb (rp_SendTime s) "" then "08:00" else rp_SendTime s;
     rp_SendTo := if String.eqb (rp_SendTo s) "" then "dm" else rp_SendTo s; rp_ChannelID := rp_ChannelID s;
     rp_IncludeBriefs := rp_IncludeBriefs s; rp_IncludeFocus := rp_IncludeFocus s; rp_IncludeHabits := rp_IncludeHabits s |}.

Definition SaveRecapSettingsForUser (user : uuid) (s : RecapSettings) : RecapTables -> RecapTables :=
  on_settings (map (fun r => if settings_of user r then (fst r, saved_recap s (snd r)) else r)).

(** ** What a recap reads *)

Inductive RecapCall := RCSettings | RCConnection | RCSends | RCMeetings | RCFocus | RCHabits | RCBrief (event : string) | RCRecord | RCSave | RCUsers.

Inductive SlackBlock := HeaderBlock (text : string) | ContextBlock (text : string) | SectionBlock (text : string) | DividerBlock.

Record RecapEnv := {
  rv_now : nat -> time;                                  (** the clock, at its readings *)
  rv_load : string -> option Location;                   (** [time.LoadLocation] *)
  rv_db : Location;                                      (** the zone of the database session *)
  rv_fails : RecapCall -> bool;
  rv_order : list MeetingBrief -> list MeetingBrief;     (** the order rows come in without ORDER BY *)
  rv_userText : uuid -> string;
  rv_authTest : string -> res string string;             (** the Slack user of a token *)
  rv_postMessage : string -> string -> list SlackBlock -> res string string }.

Record recapMeeting := { rm_ID : string; rm_Title : string; rm_Start : string; rm_End : string; rm_Attendees : list string }.
Record recapFocusBlock := { rf_Start : string; rf_End : string; rf_Duration : string }.
Record recapHabit := { rh_Emoji : string; rh_Title : string; rh_WindowStart : string; rh_WindowEnd : string }.

(** [fmt.Sprintf("%.0fh", d.Hours())]: the nearest hour, halves to even. *)
Definition round_half_even (a b : Z) : Z :=
  let q := a / b in
  let r := 2 * (a mod b) in
  if r <? b then q else if b <? r then q + 1 else if Z.even q then q else q + 1.
Definition hours_text (d : Z) : string := (if d <? 0 then "-" else "") +:+ itoa (round_half_even (Z.abs d) Hour) +:+ "h".

Section Fetch.
Context (env : RecapEnv) (user : uuid).

(** [fetchMeetings]: the briefs generated in the day. *)
Definition fetchMeetings (t : RecapTables) (start end_ : time) : list recapMeeting :=
  if rv_fails env RCMeetings then []
  else map (fun b => {| rm_ID := mb_Event b; rm_Title := "Meeting"; rm_Start := FormatHHMM start; rm_End := FormatHHMM end_; rm_Attendees := [] |})
         (take 20 (rv_order env (keep (fun b => N.eqb (mb_User b) user && (t_ns start <=? t_ns (mb_GeneratedAt b)) &&
                                                (t_ns (mb_GeneratedAt b) <? t_ns end_)) (wt_briefs (rt_work t))))).

(** [date_trunc('day', a) = date_trunc('day', b)], in the session's zone. *)
Definition same_day (a b : time) : bool := day_number (In a (rv_db env)) =? day_number (In b (rv_db env)).

Definition focus_block (loc : Location) (r : FocusBlockRow) : recapFocusBlock :=
  {| rf_Start := FormatHHMM (In (FB_Start r) loc); rf_End := FormatHHMM (In (FB_End r) loc);
     rf_Duration := hours_text (Sub (In (FB_End r) loc) (In (FB_Start r) loc)) |}.

(** [fetchFocusBlocks]. *)
Definition fetchFocusBlocks (t : RecapTables) (day : time) (loc : Location) : list recapFocusBlock :=
  if rv_fails env RCFocus then []
  else map (focus_block loc)
         (order_by (fun r => t_ns (FB_Start r)) (keep (fun r => owned_by user r && same_day (FB_Start r) day) (rt_focus t))).

Definition habit_row (loc : Location) (x : Habit * HabitOccurrence) : recapHabit :=
  {| rh_Emoji := "🎯"; rh_Title := H_Title (fst x); rh_WindowStart := FormatHHMM (In (O_Start (snd x)) loc);
     rh_WindowEnd := FormatHHMM (In (O_End (snd x)) loc) |}.

(** [fetchHabits]: the day's scheduled occurrences of the user's habits. *)
Definition fetchHabits (t : RecapTables) (day : time) (loc : Location) : list recapHabit :=
  if rv_fails env RCHabits then []
  else map (habit_row loc)
         (order_by (fun x => t_ns (O_Start (snd x)))
           (flat_map (fun h => map (pair h) (keep (fun o => N.eqb (O_Habit o) (H_ID h) && (O_Date o =? day_number day) &&
                                                             String.eqb (O_Status o) "scheduled") (rt_occs t)))
              (keep (fun h => N.eqb (H_UserID h) user) (rt_habits t)))).

(** [fetchBriefs], as the map is read. *)
Definition fetchBrief (t : RecapTables) (event : string) : option MeetingBrief :=
  if rv_fails env (RCBrief event) then None else GetMeetingBrief (rt_work t) user event.
End Fetch.

(** ** The message *)

Definition firstName (fullName : string) : string := match Fields fullName with [] => "there" | p :: _ => p end.
Definition plural (n : Z) : string := if n =? 1 then "" else "s".

Definition totalHours (minutes : Z) : string :=
  if minutes <? 60 then itoa minutes +:+ "m"
  else if Z.rem minutes 60 =? 0 then itoa (Z.quot minutes 60) +:+ "h"
  else itoa (Z.quot minutes 60) +:+ "h" +:+ itoa (Z.rem minutes 60) +:+ "m".

Definition count_of {A} (l : list A) : Z := Z.of_nat (length l).
Definition totalMeetingMinutes (ms : list recapMeeting) : Z := count_of ms * 60.

Definition buildSummaryBlock (ms : list recapMeeting) (fs : list recapFocusBlock) (hs : list recapHabit) : SlackBlock :=
  let focusH := totalHours (count_of fs * 60) in
  match ms with
  | [] => SectionBlock ("You have a clear calendar today — *" +:+ focusH +:+ "* of focus time.")
  | _ =>
      SectionBlock ("Today you have *" +:+ itoa (count_of ms) +:+ " meeting" +:+ plural (count_of ms) +:+ "* (" +:+ totalHours (totalMeetingMinutes ms) +:+
        "), *" +:+ itoa (count_of fs) +:+ " focus block" +:+ plural (count_of fs) +:+ "* (" +:+ focusH +:+ " protected)" +:+
        (match hs with [] => "" | _ => ", and *" +:+ itoa (count_of hs) +:+ " habit" +:+ plural (count_of hs) +:+ "* scheduled" end) +:+ ".")
  end.

(** The lines from the goals on: the first that says something, up to the next
    heading. *)
Fixpoint goals_in (inSection : bool) (lines : list string) : string :=
  match lines with
  | [] => ""
  | line :: r =>
      if Contains line "Probable goals" then goals_in true r
      else if inSection then
        if HasPrefix line "##" then ""
        else let s := TrimSpace line in if String.eqb s "" then goals_in inSection r else truncate 120 "…" s
      else goals_in inSection r
  end.
Definition newline : ascii := ascii_of_nat 10.
Definition extractGoals (briefText : string) : string := goals_in false (Split newline briefText).

Definition document_lines (pages : list NotionPage) : string :=
  sconcat (map (fun p => nl +:+ "📄 <" +:+ np_URL p +:+ "|" +:+ np_Title p +:+ ">") (take 2 pages)) +:+
  (if (2 <? length pages)%nat then nl +:+ "📄 +" +:+ itoa (count_of pages - 2) +:+ " more documents" else "").

Definition thread_line (messages : list SlackMessage) : string :=
  match messages with [] => "" | m :: _ => nl +:+ "💬 #" +:+ sm_ChannelName m +:+ ": " +:+ truncate 80 "…" (sm_Text m) end.

(** [buildMeetingBlocks]. *)
Definition buildMeetingBlocks (m : recapMeeting) (brief : option MeetingBrief) (s : RecapSettings) : list SlackBlock :=
  let text := "*" +:+ rm_Start m +:+ " – " +:+ rm_End m +:+ "* " +:+ rm_Title m +:+
    (match rm_Attendees m with [] => "" | l => nl +:+ "*With: " +:+ Join ", " l +:+ "*" end) in
  let more :=
    match brief with
    | Some b =>
        if rp_IncludeBriefs s && String.eqb (mb_Status b) "ready" then
          (let goals := extractGoals (mb_Text b) in if String.eqb goals "" then "" else nl +:+ "_" +:+ goals +:+ "_") +:+
          document_lines (mb_Notion b) +:+ thread_line (mb_Slack b)
        else ""
    | None => ""
    end in
  [SectionBlock (text +:+ more)].

Definition weekdays : list string := ["Sunday"; "Monday"; "Tuesday"; "Wednesday"; "Thursday"; "Friday"; "Saturday"].
Definition months : list string :=
  ["January"; "February"; "March"; "April"; "May"; "June"; "July"; "August"; "September"; "October"; "November"; "December"].

(** [now.Format("Monday")], [now.Format("January 2")] and the zone. *)
Definition dateline (now : time) : string :=
  nth (Z.to_nat (WeekdayOf now)) weekdays "" +:+ ", " +:+ nth (Z.to_nat (c_month (DateOf now) - 1)) months "" +:+ " " +:+
  itoa (c_day (DateOf now)) +:+ " — " +:+ loc_name (t_loc now).

Definition focus_section (s : RecapSettings) (fs : list recapFocusBlock) : list SlackBlock :=
  if rp_IncludeFocus s && (0 <? count_of fs) then
    [DividerBlock; SectionBlock "*Focus time today*";
     SectionBlock (TrimRight newline
       (sconcat (map (fun f => "• " +:+ rf_Start f +:+ "–" +:+ rf_End f +:+ " Focus block (" +:+ rf_Duration f +:+ ")" +:+ nl) (take 3 fs)) +:+
        (if 3 <? count_of fs then "…and " +:+ itoa (count_of fs - 3) +:+ " more" else "")))]
  else [].

Definition habit_section (s : RecapSettings) (hs : list recapHabit) : list SlackBlock :=
  if rp_IncludeHabits s && (0 <? count_of hs) then
    [DividerBlock; SectionBlock "*Habits scheduled*";
     SectionBlock (TrimRight newline
       (sconcat (map (fun h => "• " +:+ rh_Emoji h +:+ " " +:+ rh_Title h +:+ " · " +:+ rh_WindowStart h +:+ "–" +:+ rh_WindowEnd h +:+ nl) hs)))]
  else [].

(** Midnight of [now], in its location. *)
Definition day_start (now : time) : time := let c := DateOf now in Date (c_year c) (c_month c) (c_day c) 0 0 0 0 (t_loc now).

(** [BuildMessage]. *)
Definition BuildMessage (env : RecapEnv) (user : uuid) (userName : string) (now : time) (s : RecapSettings) (t : RecapTables) : list SlackBlock :=
  let todayStart := day_start now in
  let meetings := fetchMeetings env user t todayStart (Add todayStart (24 * Hour)) in
  let focusBlocks := fetchFocusBlocks env user t todayStart (t_loc now) in
  let habits := fetchHabits env user t todayStart (t_loc now) in
  [HeaderBlock ("Good morning " +:+ firstName userName +:+ " ☀️"); ContextBlock (dateline now)] ++
  [buildSummaryBlock meetings focusBlocks habits; DividerBlock] ++
  flat_map (fun m => buildMeetingBlocks m (fetchBrief env user t (rm_ID m)) s) meetings ++
  focus_section s focusBlocks ++ habit_section s habits ++
  [DividerBlock; ContextBlock "Sent by Paceday · <http://localhost/app|Open app> · Manage recap settings"].

(** ** Sending *)

(** [chat.postMessage]: the token, the target and the blocks. *)
Record Post := { po_Token : string; po_Target : string; po_Blocks : list SlackBlock }.

(** [sendSlackMessage]: what is posted, and the message's timestamp. *)
Definition sendSlackMessage (env : RecapEnv) (token sendTo channel : string) (blocks : list SlackBlock) : list Post * res string string :=
  let post target := ([{| po_Token := token; po_Target := target; po_Blocks := blocks |}], rv_postMessage env token target blocks) in
  if String.eqb sendTo "dm" || String.eqb channel "" then
    match rv_authTest env token with
    | Err e => ([], Err ("resolve slack user: " +:+ e))
    | Ok uid => post uid
    end
  else post channel.

(** [fmt.Sscanf(s, "%d:%d", &h, &m)], its error told. *)
Definition scan_clock (s : string) : option (Z * Z) :=
  match scan_int s with
  | Some (h, rest) => rest ← skip_char ":" rest; '(m, _) ← scan_int rest; Some (h, m)
  | None => None
  end.

Definition send_of (user : uuid) (date : Z) (r : RecapSend) : bool := N.eqb (sd_User r) user && (sd_Date r =? date).

(** [recapAlreadySent]; a failed query counts nothing. *)
Definition recapAlreadySent (env : RecapEnv) (t : RecapTables) (user : uuid) (date : Z) : bool :=
  negb (rv_fails env RCSends) && existsb (fun r => send_of user date r && String.eqb (sd_Status r) "sent") (rt_sends t).

(** [insertRecapSend]. *)
Definition insertRecapSend (env : RecapEnv) (r : RecapSend) (t : RecapTables) : RecapTables :=
  if rv_fails env RCRecord then t else on_sends (upsert (send_of (sd_User r) (sd_Date r)) (fun _ => r) r) t.

Definition slack_connection_of (env : RecapEnv) (user : uuid) {V : Vault} (t : RecapTables) : option WorkspaceConnection :=
  if rv_fails env RCConnection then None else GetWorkspaceConnection (rv_userText env) (rt_work t) user "slack".

(** The zone of a user, UTC when it cannot be loaded. *)
Definition recapLocation (env : RecapEnv) (s : RecapSettings) : Location := default UTC (rv_load env (rp_Timezone s)).

(** [RunForUser]: what is posted, whether Slack took it, and the tables. *)
Definition RunForUser {V : Vault} (env : RecapEnv) (user : uuid) (userName : string) (t0 : RecapTables)
    : option (list Post * res string string) * RecapTables :=
  if rv_fails env RCSettings then (None, t0)
  else
    let '(s, t) := GetOrCreateSettings user t0 in
    if negb (rp_Enabled s) then (None, t)
    else match slack_connection_of env user t with
    | None => (None, t)
    | Some conn =>
        match wc_TokenErr conn with
        | Some _ => (None, t)
        | None =>
            let now := In (rv_now env 0) (recapLocation env s) in
            match scan_clock (rp_SendTime s) with
            | None => (None, t)
            | Some (sendH, sendM) =>
                if negb (HourOf now =? sendH) || negb (MinuteOf now =? sendM) then (None, t)
                else
                  let today := day_number (day_start now) in
                  if recapAlreadySent env t user today then (None, t)
                  else
                    let sent := sendSlackMessage env (wc_BotToken conn) (rp_SendTo s) (rp_ChannelID s) (BuildMessage env user userName now s t) in
                    let record status ts := {| sd_User := user; sd_Date := today; sd_At := toUTC (rv_now env 1); sd_SlackTs := ts; sd_Status := status |} in
                    (Some sent, insertRecapSend env (match snd sent with Ok ts => record "sent" ts | Err _ => record "failed" "" end) t)
            end
        end
    end.

(** ** The walk over the users *)

(** [recapUsers]. *)
Definition recapUsers (t : RecapTables) : list (uuid * string) :=
  keep (fun u => existsb (fun r => N.eqb (fst r) (fst u) && rp_Enabled (snd r)) (rt_settings t)) (rt_users t).

(** The limit of a run, in main.go. *)
Definition runLimit : Z := 55 * Second.
Definition stagger : Z := Second.

(** The users a run reaches, each with the time since its start: a wait of a
    second before each but the first, until the limit or a shutdown.  [tie] is
    what [select] picks when both are ready at once, [down] whether the process
    is shutting down at a time. *)
Fixpoint reached {A} (tie : bool) (down : Z -> bool) (elapsed : Z) (first : bool) (users : list A) : list (A * Z) :=
  match users with
  | [] => []
  | u :: r =>
      let at_ := if first then elapsed else elapsed + stagger in
      if negb first && negb ((at_ <? runLimit) || ((at_ =? runLimit) && tie)) then []
      else if down at_ then []
      else (u, at_) :: reached tie down at_ false r
  end.

(** [RunAll], from the time its query took: what each user's unit does, in the
    order they start; [env_at] is what the unit that starts at a time reads. *)
Definition RunAll {V : Vault} (env_at : Z -> RecapEnv) (tie : bool) (down : Z -> bool) (query : Z) (t : RecapTables)
    : list (uuid * option (list Post * res string string)) * RecapTables :=
  if rv_fails (env_at 0) RCUsers then ([], t)
  else
    fold_left (fun acc x => let '(u, at_) := x in
        let '(out, t') := RunForUser (env_at at_) (fst u) (snd u) (snd acc) in (fst acc ++ [(fst u, out)], t'))
      (reached tie down query true (recapUsers t)) ([], t).

(** ** The handlers *)

Inductive RecapAnswer :=
| RecapError (code : Z) (msg : string)
| RecapSettingsShown (s : RecapSettings)
| RecapSaved
| RecapPreview (blocks : list SlackBlock)
| RecapTested (ts : string).

Definition recapPatchProperties : list string :=
  ["enabled"; "send_time"; "send_to"; "channel_id"; "include_briefs"; "include_focus_blocks"; "include_habits"].

(** The first refused member, in the order the map is walked. *)
Fixpoint refused_member (fields : list (string * Json)) : option string :=
  match fields with
  | [] => None
  | (name, v) :: r =>
      if negb (existsb (String.eqb name) recapPatchProperties) then Some ("unknown property: " +:+ name)
      else match v with JNull => Some (name +:+ " must not be null") | _ => refused_member r end
  end.

Definition member (fields : list (string * Json)) (name : string) : option Json :=
  snd <$> List.find (fun f => String.eqb (fst f) name) fields.

(** [json.Unmarshal] into a [*bool] and a [*string]; [None] for another type. *)
Definition bool_field (fields : list (string * Json)) (name : string) : option (option bool) :=
  match member fields name with None => Some None | Some (JBool b) => Some (Some b) | Some _ => None end.
Definition text_field (fields : list (string * Json)) (name : string) : option (option string) :=
  match member fields name with None => Some None | Some (JStr s) => Some (Some s) | Some _ => None end.

Record recapSettingsBody := {
  rb_Enabled : option bool; rb_SendTime : option string; rb_SendTo : option string; rb_ChannelID : option string;
  rb_IncludeBriefs : option bool; rb_IncludeFocusBlocks : option bool; rb_IncludeHabits : option bool }.

Definition decode_body (fields : list (string * Json)) : option recapSettingsBody :=
  e ← bool_field fields "enabled"; st ← text_field fields "send_time"; sto ← text_field fields "send_to";
  ch ← text_field fields "channel_id"; ib ← bool_field fields "include_briefs"; ifb ← bool_field fields "include_focus_blocks";
  ih ← bool_field fields "include_habits";
  Some {| rb_Enabled := e; rb_SendTime := st; rb_SendTo := sto; rb_ChannelID := ch; rb_IncludeBriefs := ib;
          rb_IncludeFocusBlocks := ifb; rb_IncludeHabits := ih |}.

(** [timePattern], two digits on each side, and a clock. *)
Definition validClockTime (v : string) : bool :=
  match v with
  | String a (String b (String c (String d (String e EmptyString)))) =>
      is_digit a && is_digit b && Ascii.eqb c ":" && is_digit d && is_digit e && is_some (ParseHHMM v)
  | _ => false
  end.

(** The settings a body makes of those that were read, or the refusal. *)
Definition patched (b : recapSettingsBody) (s : RecapSettings) : res string RecapSettings :=
  if negb (match rb_SendTime b with Some v => validClockTime v | None => true end) then Err "send_time must be in HH:MM format"
  else if negb (match rb_SendTo b with Some v => String.eqb v "dm" || String.eqb v "channel" | None => true end) then Err "send_to must be 'dm' or 'channel'"
  else Ok {| rp_Timezone := rp_Timezone s; rp_Enabled := default (rp_Enabled s) (rb_Enabled b); rp_SendTime := default (rp_SendTime s) (rb_SendTime b);
             rp_SendTo := default (rp_SendTo s) (rb_SendTo b); rp_ChannelID := default (rp_ChannelID s) (rb_ChannelID b);
             rp_IncludeBriefs := default (rp_IncludeBriefs s) (rb_IncludeBriefs b); rp_IncludeFocus := default (rp_IncludeFocus s) (rb_IncludeFocusBlocks b);
             rp_IncludeHabits := default (rp_IncludeHabits s) (rb_IncludeHabits b) |}.

Inductive RecapRequest :=
| RecapGet
| RecapPatch (fields : option (list (string * Json)))   (** [None]: not an object *)
| RecapPreviewed
| RecapTest.

Section Handlers.
Context {V : Vault} (env : RecapEnv) (user : uuid).

Definition read_settings (t : RecapTables) : option (RecapSettings * RecapTables) :=
  if rv_fails env RCSettings then None else Some (GetOrCreateSettings user t).

Definition getSettings (t : RecapTables) : RecapAnswer * RecapTables :=
  match read_settings t with None => (RecapError 500 "db error", t) | Some (s, t) => (RecapSettingsShown s, t) end.

Definition patchSettings (fields : option (list (string * Json))) (t : RecapTables) : RecapAnswer * RecapTables :=
  match fields with
  | None => (RecapError 400 "invalid JSON", t)
  | Some fields =>
      match refused_member fields with
      | Some msg => (RecapError 400 msg, t)
      | None =>
          match decode_body fields with
          | None => (RecapError 400 "invalid JSON", t)
          | Some b =>
              match read_settings t with
              | None => (RecapError 500 "db error", t)
              | Some (s, t) =>
                  match patched b s with
                  | Err msg => (RecapError 400 msg, t)
                  | Ok s' => if rv_fails env RCSave then (RecapError 500 "db error", t) else (RecapSaved, SaveRecapSettingsForUser user s' t)
                  end
              end
          end
      end
  end.

Definition name_of (t : RecapTables) : string :=
  match List.find (fun u => N.eqb (fst u) user) (rt_users t) with Some (_, name) => name | None => "" end.

Definition preview (t : RecapTables) : RecapAnswer * RecapTables :=
  match read_settings t with
  | None => (RecapError 500 "db error", t)
  | Some (s, t) => (RecapPreview (BuildMessage env user (name_of t) (In (rv_now env 0) (recapLocation env s)) s t), t)
  end.

(** [test]: the answer and what is posted. *)
Definition test (t : RecapTables) : RecapAnswer * list Post * RecapTables :=
  match read_settings t with
  | None => (RecapError 500 "db error", [], t)
  | Some (s, t) =>
      match slack_connection_of env user t with
      | None => (RecapError 400 "Slack not connected", [], t)
      | Some conn =>
          match wc_TokenErr conn with
          | Some _ => (RecapError 500 "db error", [], t)
          | None =>
              let sent := sendSlackMessage env (wc_BotToken conn) (rp_SendTo s) (rp_ChannelID s)
                            (BuildMessage env user (name_of t) (In (rv_now env 0) (recapLocation env s)) s t) in
              (match snd sent with Ok ts => RecapTested ts | Err _ => RecapError 502 "upstream provider error" end, fst sent, t)
          end
      end
  end.

Definition serveRecap (r : RecapRequest) (t : RecapTables) : RecapAnswer * list Post * RecapTables :=
  let quiet (x : RecapAnswer * RecapTables) := (fst x, [], snd x) in
  match r with
  | RecapGet => quiet (getSettings t)
  | RecapPatch fields => quiet (patchSettings fields t)
  | RecapPreviewed => quiet (preview t)
  | RecapTest => test t
  end.
End Handlers.

(** ** Facts: settings and clocks *)

Lemma find_snoc_new {A} (p : A -> bool) l x : List.find p l = None -> p x = true -> List.find p (l ++ [x]) = Some x.
Proof. intros H Hx. induction l as [|y l IH]; cbn in *; [by rewrite Hx|]. destruct (p y); [done|by apply IH]. Qed.

Lemma GetOrCreate_spec user t : let '(s, t') := GetOrCreateSettings user t in
  List.find (settings_of user) (rt_settings t') = Some (user, s)
  /\ (forall u, u <> user -> List.find (settings_of u) (rt_settings t') = List.find (settings_of u) (rt_settings t))
  /\ rt_users t' = rt_users t /\ rt_sends t' = rt_sends t /\ rt_work t' = rt_work t /\ rt_focus t' = rt_focus t
  /\ rt_habits t' = rt_habits t /\ rt_occs t' = rt_occs t.
Proof.
  unfold GetOrCreateSettings. destruct (List.find (settings_of user) (rt_settings t)) as [[u s]|] eqn:E.
  - pose proof E as E'. apply find_some in E' as [_ E']. unfold settings_of in E'. cbn in E'. apply N.eqb_eq in E' as ->. by split_and!.
  - split_and!; try done; cbn [on_settings rt_settings].
    + apply find_snoc_new; [done|]. apply N.eqb_refl.
    + intros u Hu. apply find_snoc_other. unfold settings_of. cbn. by destruct (N.eqb_spec user u); [congruence|].
Qed.

(** The clocks of two digits on each side are few enough to try. *)
Definition digits : list ascii := map digit [0; 1; 2; 3; 4; 5; 6; 7; 8; 9].

Lemma is_digit_in c : is_digit c = true -> c ∈ digits.
Proof. destruct c as [[] [] [] [] [] [] [] []]; intros H; vm_compute in H; try discriminate H; unfold digits; vm_compute; set_solver. Qed.

Definition clock_text (a b d e : ascii) : string := String a (String b (String ":" (String d (String e EmptyString)))).

Definition clock_agrees (a b d e : ascii) : bool :=
  match ParseHHMM (clock_text a b d e), scan_clock (clock_text a b d e) with
  | Some n, Some (h, m) => (0 <=? h) && (h <? 24) && (0 <=? m) && (m <? 60) && (n =? (h * 60 + m) * Minute)
  | Some _, None => false
  | None, _ => true
  end.

Lemma clocks_agree : forallb (fun a => forallb (fun b => forallb (fun d => forallb (clock_agrees a b d) digits) digits) digits) digits = true.
Proof. vm_compute. reflexivity. Qed.

(** A time that is accepted is the minute of a day that the recap waits for. *)
Theorem accepted_time_is_a_minute v : validClockTime v = true ->
  exists h m, scan_clock v = Some (h, m) /\ 0 <= h < 24 /\ 0 <= m < 60 /\ ParseHHMM v = Some ((h * 60 + m) * Minute).
Proof.
  unfold validClockTime. destruct v as [|a [|b [|c [|d [|e [|]]]]]]; try done. rewrite !andb_true_iff.
  intros (((((Ha & Hb) & ->%Ascii.eqb_eq) & Hd) & He) & Hp). fold (clock_text a b d e) in *.
  apply is_digit_in in Ha, Hb, Hd, He. pose proof clocks_agree as C.
  rewrite forallb_elem in C. specialize (C a Ha). rewrite forallb_elem in C. specialize (C b Hb).
  rewrite forallb_elem in C. specialize (C d Hd). rewrite forallb_elem in C. specialize (C e He).
  unfold clock_agrees in C. destruct (ParseHHMM _) as [n|]; [|done]. destruct (scan_clock _) as [[h m]|]; [|done].
  rewrite !andb_true_iff, !Z.leb_le, !Z.ltb_lt, Z.eqb_eq in C. destruct C as ((((H1 & H2) & H3) & H4) & ->). exists h, m. split_and!; done || lia.
Qed.

(** ** Facts: one run for one user *)

Section Runs.
Context {V : Vault}.

(** When a recap is due: the settings, the connection with its token, and the
    clock of the user's zone at the minute that was asked for. *)
Record due (env : RecapEnv) (user : uuid) (t : RecapTables) (s : RecapSettings) (conn : WorkspaceConnection) (now : time) : Prop := {
  du_read : rv_fails env RCSettings = false;
  du_settings : fst (GetOrCreateSettings user t) = s;
  du_enabled : rp_Enabled s = true;
  du_conn : slack_connection_of env user t = Some conn;
  du_token : wc_TokenErr conn = None;
  du_now : now = In (rv_now env 0) (recapLocation env s);
  du_minute : scan_clock (rp_SendTime s) = Some (HourOf now, MinuteOf now);
  du_first : recapAlreadySent env t user (day_number (day_start now)) = false }.

Lemma slack_connection_same env user t t' : rt_work t = rt_work t' -> slack_connection_of env user t = slack_connection_of env user t'.
Proof. intros E. unfold slack_connection_of. by rewrite E. Qed.

Lemma already_same env user t t' d : rt_sends t = rt_sends t' -> recapAlreadySent env t user d = recapAlreadySent env t' user d.
Proof. intros E. unfold recapAlreadySent. by rewrite E. Qed.

(** The record a run leaves. *)
Definition record_of (env : RecapEnv) (user : uuid) (now : time) (r : res string string) : RecapSend :=
  {| sd_User := user; sd_Date := day_number (day_start now); sd_At := toUTC (rv_now env 1);
     sd_SlackTs := match r with Ok ts => ts | Err _ => "" end; sd_Status := match r with Ok _ => "sent" | Err _ => "failed" end |}.

Lemma RunForUser_cases env user name t :
  (exists s conn now sent, due env user t s conn now
     /\ sent = sendSlackMessage env (wc_BotToken conn) (rp_SendTo s) (rp_ChannelID s)
                 (BuildMessage env user name now s (snd (GetOrCreateSettings user t)))
     /\ RunForUser env user name t = (Some sent, insertRecapSend env (record_of env user now (snd sent)) (snd (GetOrCreateSettings user t))))
  \/ (RunForUser env user name t).1 = None /\ (forall s conn now, ~ due env user t s conn now)
     /\ ((RunForUser env user name t).2 = t \/ (RunForUser env user name t).2 = snd (GetOrCreateSettings user t)).
Proof.
  pose proof (GetOrCreate_spec user t) as G. unfold RunForUser.
  destruct (rv_fails env RCSettings) eqn:Ef; [right; split; [done|]; split; [intros s conn now []; congruence|by left]|].
  destruct (GetOrCreateSettings user t) as [s t1] eqn:Eg. destruct G as (_ & _ & _ & Gs & Gw & _ & _ & _).
  rewrite (slack_connection_same env user t1 t) by exact Gw. cbn [snd].
  assert (K : forall s' conn now, due env user t s' conn now -> s' = s) by (intros s' conn now D; pose proof (du_settings _ _ _ _ _ _ D) as E; by rewrite Eg in E).
  destruct (rp_Enabled s) eqn:Ee; cbn [negb]; [|right; split; [done|]; split; [|by right]; intros s' c n D; pose proof (K _ _ _ D) as ->; destruct D; congruence].
  destruct (slack_connection_of env user t) as [conn|] eqn:Ec; [|right; split; [done|]; split; [|by right]; intros s' c n []; congruence].
  destruct (wc_TokenErr conn) eqn:Et; [right; split; [done|]; split; [|by right]; intros s' c n []; congruence|].
  destruct (scan_clock (rp_SendTime s)) as [[h m]|] eqn:Es; [|right; split; [done|]; split; [|by right]; intros s' c n D; pose proof (K _ _ _ D) as ->; destruct D; congruence].
  cbv zeta. set (now := In (rv_now env 0) (recapLocation env s)).
  destruct (negb (HourOf now =? h) || negb (MinuteOf now =? m)) eqn:Em.
  { right. split; [done|]. split; [|by right]. intros s' c n D. pose proof (K _ _ _ D) as ->. destruct D as [_ _ _ _ _ -> D7 _].
    fold now in D7. rewrite Es in D7. injection D7 as -> ->. by rewrite !Z.eqb_refl in Em. }
  apply orb_false_iff in Em as [->%negb_false_iff%Z.eqb_eq%eq_sym ->%negb_false_iff%Z.eqb_eq%eq_sym].
  rewrite (already_same env user t1 t) by exact Gs. destruct (recapAlreadySent env t user _) eqn:Ea.
  { right. split; [done|]. split; [|by right]. intros s' c n D. pose proof (K _ _ _ D) as ->. destruct D as [_ _ _ _ _ -> _ D8]. fold now in D8. congruence. }
  left. exists s, conn, now. eexists. split; [|split; [reflexivity|]].
  - constructor; try done. by rewrite Eg.
  - f_equal. f_equal. unfold record_of. by destruct (snd (sendSlackMessage _ _ _ _ _)).
Qed.
End Runs.

(** ** Facts: sequences of runs *)

Definition sent_row (t : RecapTables) (k : uuid * Z) : bool :=
  existsb (fun r => send_of k.1 k.2 r && String.eqb (sd_Status r) "sent") (rt_sends t).

Lemma send_of_key user date r : send_of user date r = true <-> (sd_User r, sd_Date r) = (user, date).
Proof. unfold send_of. rewrite andb_true_iff, N.eqb_eq, Z.eqb_eq. split; [by intros [-> ->]|by intros [= -> ->]]. Qed.

Lemma sent_row_insert env r t k : rv_fails env RCRecord = false ->
  sent_row (insertRecapSend env r t) k
  = if decide (k = (sd_User r, sd_Date r)) then String.eqb (sd_Status r) "sent" else sent_row t k.
Proof.
  intros Hf. unfold insertRecapSend, sent_row. rewrite Hf. cbn [on_sends rt_sends]. destruct k as [u d].
  assert (U : forall l, existsb (fun x => send_of u d x && String.eqb (sd_Status x) "sent") (upsert (send_of (sd_User r) (sd_Date r)) (fun _ => r) r l) = true
    <-> exists x, (x = r \/ x ∈ l /\ send_of (sd_User r) (sd_Date r) x = false) /\ send_of u d x = true /\ String.eqb (sd_Status x) "sent" = true).
  { intros l. rewrite existsb_elem. unfold upsert. destruct (existsb _ l) eqn:E.
    - split.
      + intros (y & (x & -> & Hx)%list_elem_of_fmap & Hy). apply andb_true_iff in Hy. destruct (send_of (sd_User r) _ x) eqn:Ex.
        * exists r. split; [by left|done].
        * exists x. split; [by right|done].
      + intros (x & [->|[Hx Hp]] & H1 & H2).
        * apply existsb_elem in E as (y & Hy & Hp). exists r. split; [|by rewrite H1, H2]. apply list_elem_of_fmap. exists y. by rewrite Hp.
        * exists x. split; [|by rewrite H1, H2]. apply list_elem_of_fmap. exists x. by rewrite Hp.
    - rewrite existsb_elem_false in E. split.
      + intros (x & [Hx| ->%list_elem_of_singleton]%elem_of_app & Hy%andb_true_iff); exists x || exists r; (split; [|done]); [right|by left]. split; [done|by apply E].
      + intros (x & [->|[Hx _]] & H1 & H2); [exists r|exists x]; (split; [|by rewrite H1, H2]); apply elem_of_app; [right; by left|by left]. }
  apply eq_true_iff_eq. rewrite U. destruct (decide _) as [[= -> ->]|Hne].
  - split.
    + intros (x & [->|[_ Hp]] & H1 & H2); [done|congruence].
    + intros H. exists r. split; [by left|]. split; [by apply send_of_key|done].
  - rewrite existsb_elem. split.
    + intros (x & [->|[Hx _]] & H1 & H2); [apply send_of_key in H1; congruence|]. exists x. split; [done|]. cbn. by rewrite H1, H2.
    + intros (x & Hx & [H1 H2]%andb_true_iff). exists x. split; [|done]. right. split; [done|]. apply not_true_iff_false.
      cbn in H1. rewrite send_of_key in H1 |- *. congruence.
Qed.

Section Sequences.
Context {V : Vault}.

(** The day a run counts to. *)
Definition today_of (env : RecapEnv) (user : uuid) (t : RecapTables) : Z :=
  day_number (day_start (In (rv_now env 0) (recapLocation env (fst (GetOrCreateSettings user t))))).

(** The recaps Slack took in a sequence of runs, each with its user and its day. *)
Fixpoint deliveries (runs : list (RecapEnv * uuid * string)) (t : RecapTables) : list (uuid * Z) :=
  match runs with
  | [] => []
  | (env, user, name) :: r =>
      let '(out, t') := RunForUser env user name t in
      (match out with Some (_, Ok _) => [(user, today_of env user t)] | _ => [] end) ++ deliveries r t'
  end.

Lemma run_sends env user name t : rv_fails env RCSends = false -> rv_fails env RCRecord = false ->
  let '(out, t') := RunForUser env user name t in
  (forall k, sent_row t k = true -> sent_row t' k = true)
  /\ match out with Some (_, Ok _) => sent_row t (user, today_of env user t) = false /\ sent_row t' (user, today_of env user t) = true | _ => True end.
Proof.
  intros H1 H2. pose proof (GetOrCreate_spec user t) as G.
  assert (S : forall k, sent_row (snd (GetOrCreateSettings user t)) k = sent_row t k).
  { intros k. unfold sent_row. destruct (GetOrCreateSettings user t) as [s t1]. destruct G as (_ & _ & _ & E & _). cbn [snd]. by rewrite E. }
  destruct (RunForUser_cases env user name t) as [(s & conn & now & sent & D & _ & ->)|(E & _ & Et)].
  - assert (Ed : day_number (day_start now) = today_of env user t) by (unfold today_of; by rewrite (du_settings _ _ _ _ _ _ D), (du_now _ _ _ _ _ _ D)).
    assert (Hn : sent_row t (user, today_of env user t) = false).
    { pose proof (du_first _ _ _ _ _ _ D) as A. unfold recapAlreadySent in A. rewrite H1, Ed in A. exact A. }
    split.
    + intros k Hk. rewrite sent_row_insert by done. cbn [record_of sd_User sd_Date]. rewrite Ed. destruct (decide _) as [->|]; [congruence|by rewrite S].
    + destruct sent as [posts [ts|e]]; [|done]. split; [done|]. rewrite sent_row_insert by done. cbn [record_of sd_User sd_Date sd_Status snd]. rewrite Ed.
      by destruct (decide _).
  - destruct (RunForUser env user name t) as [out t']. cbn in E. subst out. cbn in Et. split; [|done]. intros k Hk. by destruct Et as [->| ->]; rewrite ?S.
Qed.

(** C30: While the table of sends can be read and written: in every run the look for
    a send and the insert of one succeed.  Then however many runs come, one after
    the other and of whatever users, Slack takes at most one recap of a user for a
    day of the user's calendar, and none for a day that already has one.  (The
    code drops the errors of both calls; without the condition a recap is sent
    again, see [lost_record_sends_again] and [unread_record_sends_again].) *)
Theorem one_recap_a_day runs t :
  Forall (fun x => rv_fails x.1.1 RCSends = false /\ rv_fails x.1.1 RCRecord = false) runs ->
  NoDup (deliveries runs t) /\ forall k, k ∈ deliveries runs t -> sent_row t k = false.
Proof.
  intros H. revert t. induction H as [|[[env user] name] runs [H1 H2] _ IH]; intros t; cbn [deliveries].
  { split; [constructor|by intros k ?%not_elem_of_nil]. }
  pose proof (run_sends env user name t H1 H2) as R. cbn in H1, H2. destruct (RunForUser env user name t) as [out t']. destruct R as [R1 R2].
  destruct (IH t') as [N F].
  assert (F' : forall k, k ∈ deliveries runs t' -> sent_row t k = false).
  { intros k Hk. specialize (F k Hk). destruct (sent_row t k) eqn:E; [|done]. apply R1 in E. congruence. }
  destruct out as [[posts [ts|e]]|]; cbn [app]; [|done|done]. destruct R2 as [R2 R3]. split.
  - apply NoDup_cons. split; [|done]. intros Hk%F. congruence.
  - intros k [->|Hk]%elem_of_cons; [done|by apply F'].
Qed.
End Sequences.

(** ** Facts: the walk *)

Definition second_of (elapsed : Z) (first : bool) (i : nat) : Z := elapsed + (Z.of_nat i + if first then 0 else 1) * Second.

Lemma second_of_S elapsed (first : bool) i : second_of (if first then elapsed else elapsed + stagger) false i = second_of elapsed first (S i).
Proof. unfold second_of, stagger. destruct first; lia. Qed.

Lemma reached_spec {A} tie down (users : list A) : forall elapsed first i x at_,
  reached tie down elapsed first users !! i = Some (x, at_) ->
  users !! i = Some x /\ at_ = second_of elapsed first i /\ (i = 0%nat /\ first = true \/ at_ <= runLimit).
Proof.
  induction users as [|u users IH]; intros elapsed first i x at_; cbn [reached]; [done|]. cbv zeta.
  destruct (negb first && _) eqn:E; [done|]. destruct (down _); [done|]. destruct i as [|i]; cbn [lookup list_lookup].
  - intros [= <- <-]. split; [done|]. split; [unfold second_of, stagger; destruct first; lia|].
    destruct first; [by left|right]. cbn [negb andb] in E. apply negb_false_iff, orb_true_iff in E as [E%Z.ltb_lt|[E%Z.eqb_eq _]%andb_true_iff]; lia.
  - intros H. apply IH in H as (Hx & -> & [[_ ?]|Hle]); [done|].
    split; [done|]. rewrite second_of_S in *. split; [done|by right].
Qed.

Lemma reached_all {A} tie down (users : list A) : forall elapsed first i x, users !! i = Some x ->
  (forall j, (j <= i)%nat -> down (second_of elapsed first j) = false) ->
  (i = 0%nat /\ first = true \/ second_of elapsed first i < runLimit) ->
  reached tie down elapsed first users !! i = Some (x, second_of elapsed first i).
Proof.
  induction users as [|u users IH]; intros elapsed first i x Hx Hd Hi; [done|]. cbn [reached]. cbv zeta.
  assert (E0 : (if first then elapsed else elapsed + stagger) = second_of elapsed first 0) by (unfold second_of, stagger; destruct first; lia).
  assert (Hlt : negb first && negb ((second_of elapsed first 0 <? runLimit) || ((second_of elapsed first 0 =? runLimit) && tie)) = false).
  { destruct first; [done|]. cbn [negb andb]. apply negb_false_iff, orb_true_iff. left. apply Z.ltb_lt.
    destruct Hi as [[_ ?]|Hi]; [done|]. eapply Z.le_lt_trans; [|exact Hi]. unfold second_of, Second. lia. }
  rewrite E0, Hlt, (Hd 0%nat) by lia. destruct i as [|i]; [cbn in Hx; injection Hx as ->; done|]. cbn [lookup list_lookup] in *.
  rewrite <- E0, <- second_of_S. apply IH; [done| |].
  - intros j Hj. rewrite second_of_S. apply Hd. lia.
  - right. rewrite second_of_S. destruct Hi as [[? _]|Hi]; [done|]. exact Hi.
Qed.

(** A run reaches fifty-six users at most: the second it waits before each but
    the first, due or not, adds up to its limit of fifty-five seconds. *)
Lemma reached_length {A} tie down query (users : list A) : 0 <= query -> (length (reached tie down query true users) <= 56)%nat.
Proof.
  intros Hq. destruct (Nat.le_gt_cases (length (reached tie down query true users)) 56) as [|Hgt]; [done|exfalso].
  destruct (lookup_lt_is_Some_2 (reached tie down query true users) 56) as [[x at_] Hx]; [lia|].
  apply reached_spec in Hx as (_ & -> & [[? _]|H]); [done|]. unfold second_of, runLimit, Second in H. lia.
Qed.

Lemma reached_take {A} tie down query (users : list A) : 0 <= query ->
  exists k, (k <= 56)%nat /\ map fst (reached tie down query true users) = take k users.
Proof.
  intros Hq. exists (length (reached tie down query true users)). split; [by apply reached_length|]. apply list_eq. intros i.
  rewrite list_lookup_fmap. destruct (reached tie down query true users !! i) as [[x at_]|] eqn:E; cbn.
  - pose proof (lookup_lt_Some _ _ _ E) as Hl. apply reached_spec in E as (Hx & _ & _). by rewrite lookup_take_lt by exact Hl.
  - apply lookup_ge_None in E. by rewrite lookup_take_ge by exact E.
Qed.

Section Walk.
Context {V : Vault}.

Lemma fold_users (env_at : Z -> RecapEnv) xs : forall acc,
  map fst (fst (fold_left (fun acc x => let '(u, at_) := x in
      let '(out, t') := RunForUser (env_at at_) (fst u) (snd u) (snd acc) in (fst acc ++ [(fst u, out)], t')) xs acc))
  = map fst (fst acc) ++ map (fun x => fst (fst x)) xs.
Proof.
  induction xs as [|[u at_] xs IH]; intros acc; cbn [fold_left map]; [by rewrite app_nil_r|]. rewrite IH.
  destruct (RunForUser _ _ _ _) as [out t']. cbn [fst snd]. rewrite List.map_app, <- app_assoc. done.
Qed.

(** The users after the fifty-sixth of the list are never run, at no minute of
    the day: whatever their settings, they get no recap. *)
Theorem later_users_get_no_recap env_at tie down query t u :
  0 <= query -> u ∈ map fst (fst (RunAll env_at tie down query t)) -> u ∈ map fst (take 56 (recapUsers t)).
Proof.
  intros Hq. unfold RunAll. destruct (rv_fails (env_at 0) RCUsers); [by intros ?%not_elem_of_nil|]. rewrite fold_users. cbn [fst map app].
  destruct (reached_take tie down query (recapUsers t) Hq) as (k & Hk & E).
  replace (map (fun x => fst (fst x)) (reached tie down query true (recapUsers t))) with (map fst (map fst (reached tie down query true (recapUsers t))))
    by apply map_map.
  rewrite E. intros (y & -> & Hy)%list_elem_of_fmap. apply list_elem_of_fmap. exists y. split; [done|].
  apply elem_of_take in Hy as (i & Hi & Hlt). apply elem_of_take. exists i. split; [done|lia].
Qed.

(** While the process runs and the query of the users is quick, everyone before
    is run, and in the minute the run started in. *)
Theorem earlier_users_are_run env_at tie down query t i u :
  rv_fails (env_at 0) RCUsers = false -> 0 <= query -> recapUsers t !! i = Some u -> (forall at_, down at_ = false) ->
  query + Z.of_nat i * Second < runLimit ->
  map fst (fst (RunAll env_at tie down query t)) !! i = Some (fst u)
  /\ reached tie down query true (recapUsers t) !! i = Some (u, query + Z.of_nat i * Second) /\ query + Z.of_nat i * Second < Minute.
Proof.
  intros Hf Hq Hu Hd Hlt. unfold RunAll. rewrite Hf, fold_users. cbn [fst map app].
  assert (E : reached tie down query true (recapUsers t) !! i = Some (u, query + Z.of_nat i * Second)).
  { replace (query + Z.of_nat i * Second) with (second_of query true i) by (unfold second_of; lia).
    apply reached_all; [done|by intros|right; unfold second_of; lia]. }
  split; [|split; [done|unfold runLimit, Minute, Second in *; lia]].
  rewrite list_lookup_fmap, E. done.
Qed.
End Walk.

(** ** Properties: sending *)

Lemma sendSlackMessage_spec env token sendTo channel blocks :
  let '(posts, r) := sendSlackMessage env token sendTo channel blocks in
  (posts = [] /\ exists e, r = Err e)
  \/ exists target, posts = [{| po_Token := token; po_Target := target; po_Blocks := blocks |}] /\ r = rv_postMessage env token target blocks
       /\ (if String.eqb sendTo "dm" || String.eqb channel "" then rv_authTest env token = Ok target else target = channel).
Proof.
  unfold sendSlackMessage. destruct (_ || _); [|right; by exists channel].
  destruct (rv_authTest env token) as [uid|e]; [right; by exists uid|left; split; [done|by eexists]].
Qed.

(** A run sends exactly when the recap is due, one message at most: the one built
    from the user's own settings and zone, under the token of the user's own
    connection, to the channel that was chosen or to the token's own user; what
    Slack answers is recorded for the day. *)
Theorem recap_sent_exactly_when_due {V : Vault} env user name t :
  (is_Some (fst (RunForUser env user name t)) <-> exists s conn now, due env user t s conn now)
  /\ forall posts r, fst (RunForUser env user name t) = Some (posts, r) -> exists s conn now t1, due env user t s conn now
       /\ t1 = snd (GetOrCreateSettings user t)
       /\ snd (RunForUser env user name t) = insertRecapSend env (record_of env user now r) t1
       /\ (length posts <= 1)%nat
       /\ (forall ts, r = Ok ts -> length posts = 1%nat)
       /\ forall p, p ∈ posts -> po_Token p = wc_BotToken conn /\ po_Blocks p = BuildMessage env user name now s t1
            /\ (rp_SendTo s <> "dm" -> rp_ChannelID s <> "" -> po_Target p = rp_ChannelID s)
            /\ (rp_SendTo s = "dm" \/ rp_ChannelID s = "" -> rv_authTest env (wc_BotToken conn) = Ok (po_Target p)).
Proof.
  destruct (RunForUser_cases env user name t) as [(s & conn & now & sent & D & Es & E)|(E & N & _)].
  - rewrite E. cbn [fst snd]. split; [split; [intros _; by exists s, conn, now|done]|]. intros posts r [= ->].
    exists s, conn, now, (snd (GetOrCreateSettings user t)). split; [done|]. split; [done|]. split; [done|].
    pose proof (sendSlackMessage_spec env (wc_BotToken conn) (rp_SendTo s) (rp_ChannelID s)
      (BuildMessage env user name now s (snd (GetOrCreateSettings user t)))) as S. rewrite <- Es in S.
    destruct S as [[-> [e ->]]|(target & -> & -> & Ht)].
    + split; [cbn; lia|]. split; [done|]. by intros p ?%not_elem_of_nil.
    + split; [done|]. split; [done|]. intros p ->%list_elem_of_singleton. cbn [po_Token po_Blocks po_Target]. split; [done|]. split; [done|]. split.
      * intros H1%String.eqb_neq H2%String.eqb_neq. by rewrite H1, H2 in Ht.
      * intros [H|H]; rewrite H in Ht; [|rewrite orb_true_r in Ht]; exact Ht.
  - rewrite E. split; [|done]. split; [by intros [? ?]|by intros (s & conn & now & ?%N)].
Qed.

(** ** Properties: the message *)

(** What the tables hold for a user's recap. *)
Definition own_recap (user : uuid) (t : RecapTables) : RecapTables :=
  {| rt_users := rt_users t; rt_settings := rt_settings t; rt_sends := rt_sends t; rt_work := own_rows user (rt_work t);
     rt_focus := keep (owned_by user) (rt_focus t); rt_habits := keep (fun h => N.eqb (H_UserID h) user) (rt_habits t);
     rt_occs := keep (fun o => existsb (fun h => N.eqb (H_UserID h) user && N.eqb (O_Habit o) (H_ID h)) (rt_habits t)) (rt_occs t) |}.

(** A recap shows nobody else's data: with the rows of everyone else taken away
    the message is the same. *)
Theorem message_shows_own_rows env user name now s t :
  BuildMessage env user name now s (own_recap user t) = BuildMessage env user name now s t.
Proof.
  assert (M : forall a b, fetchMeetings env user (own_recap user t) a b = fetchMeetings env user t a b).
  { intros a b. unfold fetchMeetings. cbn [own_recap rt_work own_rows wt_briefs]. rewrite keep_keep_same; [done|].
    intros x [[Hx _]%andb_true_iff _]%andb_true_iff. exact Hx. }
  assert (F : forall d loc, fetchFocusBlocks env user (own_recap user t) d loc = fetchFocusBlocks env user t d loc).
  { intros d loc. unfold fetchFocusBlocks. cbn [own_recap rt_focus]. rewrite keep_keep_same; [done|]. by intros x [Hx _]%andb_true_iff. }
  assert (H : forall d loc, fetchHabits env user (own_recap user t) d loc = fetchHabits env user t d loc).
  { intros d loc. unfold fetchHabits. cbn [own_recap rt_habits rt_occs]. rewrite keep_keep_same by done. destruct (rv_fails env RCHabits); [done|].
    f_equal. f_equal. rewrite !flat_map_concat_map. f_equal. apply map_ext_in. intros h Hh. f_equal. apply keep_keep_same. intros o [[Ho _]%andb_true_iff _]%andb_true_iff.
    apply existsb_elem. exists h. apply filter_In in Hh as [Hin Hu]. apply list_elem_of_In in Hin. split; [done|]. by rewrite Hu. }
  assert (B : forall e, fetchBrief env user (own_recap user t) e = fetchBrief env user t e).
  { intros e. unfold fetchBrief. destruct (rv_fails env _); [done|]. apply GetMeetingBrief_own. }
  unfold BuildMessage. cbv zeta. rewrite M, F, H. do 2 f_equal. f_equal. apply flat_map_ext. intros m. by rewrite B.
Qed.

(** A message has at most thirty-two blocks, within the fifty of a Slack
    message. *)
Theorem message_stays_small env user name now s t : (length (BuildMessage env user name now s t) <= 32)%nat.
Proof.
  assert (M : forall a b, (length (fetchMeetings env user t a b) <= 20)%nat).
  { intros a b. unfold fetchMeetings. destruct (rv_fails env RCMeetings); [cbn; lia|]. rewrite List.length_map, length_take. lia. }
  assert (L : forall f ms, (length (flat_map (fun m => buildMeetingBlocks m (f m) s) ms) = length ms)%nat) by (intros f; induction ms as [|m ms IH]; cbn; congruence).
  unfold BuildMessage. cbv zeta. set (ms := fetchMeetings _ _ _ _ _). specialize (M (day_start now) (Add (day_start now) (24 * Hour))). fold ms in M.
  rewrite !length_app, L. unfold focus_section, habit_section. destruct (rp_IncludeFocus s && _), (rp_IncludeHabits s && _); cbn [length]; lia.
Qed.

(** Where the session's zone is the user's, the listed focus blocks are exactly
    those that start on the user's day, in the order they start. *)
Theorem focus_blocks_of_the_day env user t now :
  rv_fails env RCFocus = false -> rv_db env = t_loc now -> day_number (day_start now) = day_number now ->
  exists rows, fetchFocusBlocks env user t (day_start now) (t_loc now) = map (focus_block (t_loc now)) rows
    /\ rows ≡ₚ keep (fun r => owned_by user r && (day_number (In (FB_Start r) (t_loc now)) =? day_number now)) (rt_focus t)
    /\ StronglySorted (fun a b => t_ns (FB_Start a) <= t_ns (FB_Start b)) rows.
Proof.
  intros Hf Hz Hd. unfold fetchFocusBlocks. rewrite Hf. eexists. split; [done|]. split; [|apply order_by_sorted].
  rewrite order_by_perm. unfold same_day. rewrite Hz. unfold keep. erewrite filter_ext; [done|]. intros r. cbn.
  by replace (day_number (In (day_start now) (t_loc now))) with (day_number now).
Qed.

(** ** Properties: the settings *)

(** Settings a recap can run by: a time that comes and a destination that is
    known. *)
Definition recap_ok (s : RecapSettings) : Prop := validClockTime (rp_SendTime s) = true /\ (rp_SendTo s = "dm" \/ rp_SendTo s = "channel").
Definition recaps_ok (t : RecapTables) : Prop := Forall (fun r => recap_ok (snd r)) (rt_settings t).

Lemma GetOrCreate_ok user t : recaps_ok t -> recap_ok (fst (GetOrCreateSettings user t)) /\ recaps_ok (snd (GetOrCreateSettings user t)).
Proof.
  unfold recaps_ok. rewrite Forall_forall. intros H. unfold GetOrCreateSettings.
  destruct (List.find (settings_of user) (rt_settings t)) as [[u s]|] eqn:E; cbn [fst snd].
  - split; [|by rewrite Forall_forall]. apply find_some in E as [E _]. exact (H (u, s) (proj2 (list_elem_of_In _ _) E)).
  - assert (D : recap_ok default_recap) by (split; [vm_compute; reflexivity|by left]). split; [done|].
    cbn [on_settings rt_settings]. rewrite Forall_forall. intros x [Hx| ->%list_elem_of_singleton]%elem_of_app; [by apply H|exact D].
Qed.

Lemma patched_ok b s s' : recap_ok s -> patched b s = Ok s' -> recap_ok s' /\ rp_Timezone s' = rp_Timezone s.
Proof.
  intros [H1 H2]. unfold patched. destruct (match rb_SendTime b with Some v => validClockTime v | None => true end) eqn:Et; [|done]. cbn [negb].
  destruct (match rb_SendTo b with Some v => String.eqb v "dm" || String.eqb v "channel" | None => true end) eqn:Ec; [|done]. cbn [negb].
  intros [= <-]. split; [|done]. split; cbn.
  - by destruct (rb_SendTime b).
  - destruct (rb_SendTo b); [|done]. cbn. by apply orb_true_iff in Ec as [->%String.eqb_eq| ->%String.eqb_eq]; [left|right].
Qed.

Lemma valid_not_empty v : validClockTime v = true -> String.eqb v "" = false.
Proof. by destruct v. Qed.

Lemma saved_recap_ok s r : recap_ok s -> recap_ok (saved_recap s r).
Proof.
  intros [H1 H2]. unfold saved_recap. split; cbn.
  - by rewrite (valid_not_empty _ H1).
  - by destruct H2 as [->| ->]; [left|right].
Qed.

(** Whatever is asked and whatever runs, the stored settings stay ones a recap
    can run by. *)
Theorem recap_settings_stay_valid {V : Vault} env user name r t :
  recaps_ok t -> recaps_ok (snd (serveRecap env user r t)) /\ recaps_ok (snd (RunForUser env user name t)).
Proof.
  intros H. pose proof (GetOrCreate_ok user t H) as [G1 G2]. split.
  - assert (P : forall fields, recaps_ok (snd (patchSettings env user fields t))).
    { intros fields. unfold patchSettings, read_settings. destruct fields as [fields|]; [|done]. destruct (refused_member fields); [done|].
      destruct (decode_body fields) as [b|]; [|done]. destruct (rv_fails env RCSettings); [done|].
      destruct (GetOrCreateSettings user t) as [s t1]. cbn [fst snd] in *. destruct (patched b s) as [s'|] eqn:E; [|done].
      apply patched_ok in E as [Hs _]; [|done]. destruct (rv_fails env RCSave); [done|]. cbn [snd]. unfold recaps_ok, SaveRecapSettingsForUser in *. cbn.
      rewrite Forall_forall in *. intros x ([u y] & -> & Hy)%list_elem_of_fmap. destruct (settings_of user (u, y)); [by apply saved_recap_ok|by apply G2]. }
    destruct r as [|fields| |]; cbn [serveRecap snd]; [|apply P| |].
    + unfold getSettings, read_settings. destruct (rv_fails env RCSettings); [done|]. by destruct (GetOrCreateSettings user t).
    + unfold preview, read_settings. destruct (rv_fails env RCSettings); [done|]. by destruct (GetOrCreateSettings user t).
    + unfold test, read_settings. destruct (rv_fails env RCSettings); [done|]. destruct (GetOrCreateSettings user t) as [s t1].
      destruct (slack_connection_of _ _ _); [|done]. by destruct (wc_TokenErr _).
  - destruct (RunForUser_cases env user name t) as [(s & conn & now & sent & _ & _ & ->)|(_ & _ & [->| ->])]; [|done|done].
    cbn [snd]. unfold insertRecapSend. by destruct (rv_fails env RCRecord).
Qed.

Lemma save_other user s t u : u <> user ->
  List.find (settings_of u) (rt_settings (SaveRecapSettingsForUser user s t)) = List.find (settings_of u) (rt_settings t).
Proof.
  intros Hu. unfold SaveRecapSettingsForUser. cbn. induction (rt_settings t) as [|[v y] l IH]; [done|]. cbn. unfold settings_of in *. cbn.
  destruct (N.eqb_spec v user) as [->|Hv]; cbn; [destruct (N.eqb_spec user u); [congruence|exact IH]|]. by destruct (N.eqb v u).
Qed.

Lemma save_own user s s' t : List.find (settings_of user) (rt_settings t) = Some (user, s) ->
  List.find (settings_of user) (rt_settings (SaveRecapSettingsForUser user s' t)) = Some (user, saved_recap s' s).
Proof.
  unfold SaveRecapSettingsForUser. cbn. induction (rt_settings t) as [|[v y] l IH]; [done|]. cbn. unfold settings_of in *. cbn in *.
  destruct (N.eqb_spec v user) as [->|Hv]; cbn; [intros [= ->]; by rewrite N.eqb_refl|]. destruct (N.eqb_spec v user); [done|]. exact IH.
Qed.

(** A patch does what its members say and nothing else: each of the seven columns
    is its member's value or what it was, the zone and everyone else's settings
    stay, and a refused patch leaves what is read as it was. *)
Theorem patch_exact {V : Vault} env user fields t : recaps_ok t ->
  let '(a, posts, t') := serveRecap env user (RecapPatch (Some fields)) t in
  let s := fst (GetOrCreateSettings user t) in
  let s' := fst (GetOrCreateSettings user t') in
  posts = [] /\ rt_sends t' = rt_sends t
  /\ (forall u, u <> user -> List.find (settings_of u) (rt_settings t') = List.find (settings_of u) (rt_settings t))
  /\ (a <> RecapSaved -> s' = s)
  /\ (a = RecapSaved -> exists b, decode_body fields = Some b /\ rp_Timezone s' = rp_Timezone s
       /\ rp_Enabled s' = default (rp_Enabled s) (rb_Enabled b) /\ rp_SendTime s' = default (rp_SendTime s) (rb_SendTime b)
       /\ rp_SendTo s' = default (rp_SendTo s) (rb_SendTo b) /\ rp_ChannelID s' = default (rp_ChannelID s) (rb_ChannelID b)
       /\ rp_IncludeBriefs s' = default (rp_IncludeBriefs s) (rb_IncludeBriefs b) /\ rp_IncludeFocus s' = default (rp_IncludeFocus s) (rb_IncludeFocusBlocks b)
       /\ rp_IncludeHabits s' = default (rp_IncludeHabits s) (rb_IncludeHabits b)).
Proof.
  intros H. pose proof (GetOrCreate_ok user t H) as [G1 _]. pose proof (GetOrCreate_spec user t) as G. cbn [serveRecap]. cbv zeta.
  unfold patchSettings, read_settings. destruct (refused_member fields); [by split_and!|].
  destruct (decode_body fields) as [b|] eqn:Eb; [|by split_and!]. destruct (rv_fails env RCSettings); [by split_and!|].
  destruct (GetOrCreateSettings user t) as [s t1] eqn:Eg. cbn [fst] in *. destruct G as (Gf & Go & _ & Gs & _).
  assert (Same : fst (GetOrCreateSettings user t1) = s) by (unfold GetOrCreateSettings; by rewrite Gf).
  destruct (patched b s) as [s'|msg] eqn:Ep; [|by split_and!]. destruct (rv_fails env RCSave); [by split_and!|]. cbn [fst snd].
  split; [done|]. split; [done|].
  pose proof (save_other user s' t1) as Fo.
  split; [intros u Hu; rewrite Fo by done; by apply Go|]. split; [done|]. intros _. exists b. split; [done|].
  pose proof (save_own user s s' t1 Gf) as Fs.
  unfold GetOrCreateSettings. rewrite Fs. cbn [fst]. pose proof (patched_ok b s s' G1 Ep) as [[Ht Hc] _]. unfold patched in Ep.
  destruct (negb _); [done|]. destruct (negb _); [done|]. injection Ep as <-. cbn in *. rewrite (valid_not_empty _ Ht).
  assert (Hn : String.eqb (default (rp_SendTo s) (rb_SendTo b)) "" = false) by (by destruct Hc as [->| ->]). rewrite Hn. by split_and!.
Qed.

(** A preview and a test say what the recap of now says, and leave the day's
    recap to come. *)
Theorem test_keeps_the_recap {V : Vault} env user t : let '(a, posts, t') := serveRecap env user RecapTest t in
  rt_sends t' = rt_sends t /\ (length posts <= 1)%nat
  /\ (forall p, p ∈ posts -> serveRecap env user RecapPreviewed t = (RecapPreview (po_Blocks p), [], t'))
  /\ (forall ts, a = RecapTested ts -> length posts = 1%nat).
Proof.
  pose proof (GetOrCreate_spec user t) as G. cbn [serveRecap]. unfold test, preview, read_settings.
  destruct (rv_fails env RCSettings); [split_and!; try done; [cbn; lia|by intros p ?%not_elem_of_nil]|].
  destruct (GetOrCreateSettings user t) as [s t1]. destruct G as (_ & _ & _ & Gs & _).
  destruct (slack_connection_of _ _ _) as [conn|]; [|split_and!; try done; [cbn; lia|by intros p ?%not_elem_of_nil]].
  destruct (wc_TokenErr conn); [split_and!; try done; [cbn; lia|by intros p ?%not_elem_of_nil]|]. cbv zeta. cbn [fst snd].
  match goal with |- context [sendSlackMessage ?e ?a ?b ?c ?d] => pose proof (sendSlackMessage_spec e a b c d) as S;
    destruct (sendSlackMessage e a b c d) as [posts r] end. cbn [fst snd].
  split; [done|]. destruct S as [[-> [e ->]]|(target & -> & _ & _)].
  - split_and!; try done; [cbn; lia|by intros p ?%not_elem_of_nil].
  - split_and!; try done. by intros p ->%list_elem_of_singleton.
Qed.

(** ** Concrete runs *)

#[local] Existing Instances AdminStore.Demo.vault AdminStore.Demo.vault_laws.

Module RecapDemo.

Definition tokyo : Location := FixedZone (9 * 3600).
Definition at_ (day hour minute : Z) : time := Date 2026 3 day hour minute 0 0 tokyo.

(** Ann's clock is Tokyo's, the database's session is UTC's. *)
Definition env_at (now : time) (session : Location) : RecapEnv :=
  {| rv_now _ := now; rv_load name := if String.eqb name "Asia/Tokyo" then Some tokyo else None; rv_db := session; rv_fails _ := false;
     rv_order l := l; rv_userText := BriefDemo.user_text; rv_authTest _ := Ok "U1"; rv_postMessage _ _ _ := Ok "1.5" |}.

Definition ann : RecapSettings :=
  {| rp_Timezone := "Asia/Tokyo"; rp_Enabled := true; rp_SendTime := "08:00"; rp_SendTo := "dm"; rp_ChannelID := "";
     rp_IncludeBriefs := true; rp_IncludeFocus := true; rp_IncludeHabits := true |}.

Definition block (s e : time) : FocusBlockRow := {| FB_User := Some 1%N; FB_Event := "f"; FB_Start := s; FB_End := e; FB_Date := day_number s |}.

(** Blocks of yesterday afternoon and of this afternoon, and one brief written
    this morning for a meeting of next week. *)
Definition tables : RecapTables :=
  {| rt_users := [(1%N, "Ann Lee"); (2%N, "Bob")]; rt_settings := [(1%N, ann)]; rt_sends := [];
     rt_work := UpsertMeetingBrief {| mb_ID := 7%N; mb_Event := "next-week"; mb_User := 1%N; mb_GeneratedAt := at_ 2 7 0; mb_Slack := []; mb_Notion := [];
                  mb_Text := "## Probable goals" +:+ nl +:+ "Agree on the date."; mb_Status := "ready" |} BriefDemo.both;
     rt_focus := [block (at_ 1 14 0) (at_ 1 14 30); block (at_ 2 14 0) (at_ 2 15 0)]; rt_habits := []; rt_occs := [] |}.

Definition morning : RecapEnv := env_at (at_ 2 8 0) UTC.
Definition first_run := RunForUser morning 1%N "Ann Lee" tables.
Definition crowd (n : nat) : RecapTables :=
  let ids := map N.of_nat (seq 1 n) in
  {| rt_users := map (fun i => (i, "user")) ids; rt_settings := map (fun i => (i, ann)) ids; rt_sends := []; rt_work := rt_work tables;
     rt_focus := []; rt_habits := []; rt_occs := [] |}.

End RecapDemo.
Import RecapDemo.

Example demo_goals : extractGoals ("## Documents" +:+ nl +:+ "a" +:+ nl +:+ "## Probable goals" +:+ nl +:+ nl +:+ " Ship it. " +:+ nl +:+ "more") = "Ship it.".
Proof. vm_compute. reflexivity. Qed.

(** East of the session's zone the recap of a morning lists yesterday's focus
    blocks and none of today's, whose half hour it calls none. *)
Example yesterdays_focus_is_shown :
  fetchFocusBlocks morning 1%N tables (day_start (at_ 2 8 0)) tokyo = [{| rf_Start := "14:00"; rf_End := "14:30"; rf_Duration := "0h" |}]
  /\ fetchFocusBlocks (env_at (at_ 2 8 0) tokyo) 1%N tables (day_start (at_ 2 8 0)) tokyo
     = [{| rf_Start := "14:00"; rf_End := "15:00"; rf_Duration := "1h" |}].
Proof. vm_compute. split; reflexivity. Qed.

(** The meetings of a recap are the briefs written that day, from midnight to
    midnight, whenever their meetings are. *)
Example briefs_stand_for_meetings :
  map (fun m => (rm_ID m, rm_Start m, rm_End m)) (fetchMeetings morning 1%N tables (day_start (at_ 2 8 0)) (Add (day_start (at_ 2 8 0)) (24 * Hour)))
  = [("next-week", "00:00", "00:00")].
Proof. vm_compute. reflexivity. Qed.

(** A recap that Slack refuses is not tried again, its minute being over: the
    runs of the next hour send nothing. *)
Example refused_recap_is_lost :
  let refuse e := {| rv_now := rv_now e; rv_load := rv_load e; rv_db := rv_db e; rv_fails := rv_fails e; rv_order := rv_order e;
                     rv_userText := rv_userText e; rv_authTest := rv_authTest e; rv_postMessage _ _ _ := Err "ratelimited" |} in
  let t := snd (RunForUser (refuse morning) 1%N "Ann Lee" tables) in
  map sd_Status (rt_sends t) = ["failed"]
  /\ forallb (fun m => match fst (RunForUser (env_at (at_ 2 (m / 60) (m mod 60)) UTC) 1%N "Ann Lee" t) with None => true | Some _ => false end)
       (seqZ 481 60) = true.
Proof. vm_compute. split; reflexivity. Qed.

(** A send whose record could not be written is sent again by the next run of the
    same minute. *)
Lemma lost_record_sends_again :
  let failing := {| rv_now := rv_now morning; rv_load := rv_load morning; rv_db := rv_db morning;
    rv_fails c := match c with RCRecord => true | _ => false end; rv_order := rv_order morning;
    rv_userText := rv_userText morning; rv_authTest := rv_authTest morning; rv_postMessage := rv_postMessage morning |} in
  deliveries [(failing, 1%N, "Ann Lee"); (morning, 1%N, "Ann Lee")] tables =
  [(1%N, day_number (at_ 2 0 0)); (1%N, day_number (at_ 2 0 0))].
Proof. vm_compute. reflexivity. Qed.

(** So is one whose record could not be read. *)
Lemma unread_record_sends_again :
  let failing := {| rv_now := rv_now morning; rv_load := rv_load morning; rv_db := rv_db morning;
    rv_fails c := match c with RCSends => true | _ => false end; rv_order := rv_order morning;
    rv_userText := rv_userText morning; rv_authTest := rv_authTest morning; rv_postMessage := rv_postMessage morning |} in
  deliveries [(morning, 1%N, "Ann Lee"); (failing, 1%N, "Ann Lee")] tables =
  [(1%N, day_number (at_ 2 0 0)); (1%N, day_number (at_ 2 0 0))].
Proof. vm_compute. reflexivity. Qed.

(** ** Witnesses *)

Lemma first_run_due : exists s conn now, due morning 1%N tables s conn now.
Proof.
  destruct (slack_connection_of morning 1%N tables) as [conn|] eqn:E; [|vm_compute in E; discriminate E].
  exists ann, conn, (at_ 2 8 0). constructor; try reflexivity; try exact E.
  vm_compute in E. injection E as <-. reflexivity.
Qed.

Lemma accepted_time_is_a_minute_witness : exists h m, scan_clock "08:30" = Some (h, m) /\ h = 8 /\ m = 30.
Proof.
  destruct (accepted_time_is_a_minute "08:30" eq_refl) as (h & m & H & _). exists h, m. split; [exact H|].
  vm_compute in H. injection H as <- <-. split; reflexivity.
Defined.

Lemma one_recap_a_day_witness :
  deliveries [(morning, 1%N, "Ann Lee"); (morning, 1%N, "Ann Lee")] tables = [(1%N, day_number (at_ 2 0 0))]
  /\ NoDup (deliveries [(morning, 1%N, "Ann Lee"); (morning, 1%N, "Ann Lee")] tables).
Proof.
  split; [vm_compute; reflexivity|].
  apply (one_recap_a_day [(morning, 1%N, "Ann Lee"); (morning, 1%N, "Ann Lee")] tables). repeat constructor.
Defined.

Lemma later_users_get_no_recap_witness :
  length (recapUsers (crowd 60)) = 60%nat
  /\ length (fst (RunAll (fun _ => morning) true (fun _ => false) 0 (crowd 60))) = 56%nat
  /\ 1%N ∈ map fst (take 56 (recapUsers (crowd 60))).
Proof.
  split; [vm_compute; reflexivity|]. split; [vm_compute; reflexivity|].
  apply (later_users_get_no_recap (fun _ => morning) true (fun _ => false) 0 (crowd 60) 1%N); [lia|].
  assert (E : map fst (fst (RunAll (fun _ => morning) true (fun _ => false) 0 (crowd 60))) = 1%N :: map N.of_nat (seq 2 55)) by (vm_compute; reflexivity).
  rewrite E. left.
Defined.

Lemma earlier_users_are_run_witness :
  map fst (fst (RunAll (fun _ => morning) true (fun _ => false) 0 (crowd 60))) !! 50%nat = Some 51%N.
Proof.
  exact (proj1 (earlier_users_are_run (fun _ => morning) true (fun _ => false) 0 (crowd 60) 50 (51%N, "user") eq_refl
    (Z.le_refl 0) eq_refl (fun _ => eq_refl) eq_refl)).
Defined.

Lemma recap_sent_exactly_when_due_witness : is_Some (fst first_run) /\ exists p, fst first_run = Some ([p], Ok "1.5") /\ po_Target p = "U1".
Proof.
  split; [exact (proj2 (proj1 (recap_sent_exactly_when_due morning 1%N "Ann Lee" tables)) first_run_due)|].
  vm_compute. eexists. split; reflexivity.
Defined.

Lemma focus_blocks_of_the_day_witness : exists rows,
  fetchFocusBlocks (env_at (at_ 2 8 0) tokyo) 1%N tables (day_start (at_ 2 8 0)) tokyo = map (focus_block tokyo) rows /\ length rows = 1%nat.
Proof.
  destruct (focus_blocks_of_the_day (env_at (at_ 2 8 0) tokyo) 1%N tables (at_ 2 8 0)) as (rows & E & P & _); [reflexivity..|].
  exists rows. split; [exact E|]. rewrite (Permutation_length P). vm_compute. reflexivity.
Defined.

Lemma demo_recaps_ok : recaps_ok tables.
Proof. apply Forall_singleton. split; [vm_compute; reflexivity|by left]. Qed.

Definition to_channel : list (string * Json) := [("send_to", JStr "channel"); ("channel_id", JStr "C1")].

Lemma recap_settings_stay_valid_witness : recaps_ok (snd (serveRecap morning 1%N (RecapPatch (Some to_channel)) tables)).
Proof. exact (proj1 (recap_settings_stay_valid morning 1%N "Ann Lee" (RecapPatch (Some to_channel)) tables demo_recaps_ok)). Defined.

Lemma patch_exact_witness : exists t', serveRecap morning 1%N (RecapPatch (Some to_channel)) tables = (RecapSaved, [], t')
  /\ rp_SendTo (fst (GetOrCreateSettings 1%N t')) = "channel" /\ rp_SendTime (fst (GetOrCreateSettings 1%N t')) = "08:00".
Proof.
  pose proof (patch_exact morning 1%N to_channel tables demo_recaps_ok) as P.
  assert (E : fst (fst (serveRecap morning 1%N (RecapPatch (Some to_channel)) tables)) = RecapSaved) by (vm_compute; reflexivity).
  destruct (serveRecap morning 1%N (RecapPatch (Some to_channel)) tables) as [[a posts] t']. cbn [fst] in E. subst a. exists t'.
  destruct P as (-> & _ & _ & _ & P). destruct (P eq_refl) as (b & Eb & _ & _ & Et & Ec & _). split; [reflexivity|].
  vm_compute in Eb. injection Eb as <-. split; [exact Ec|exact Et].
Defined.
